(* ===== verification/_CoqProject ===== *)
-Q . S2P
Prelude.v
Machine.v
StringLib.v
Console.v
Screen.v
Node.v
Queue.v
Bump.v
Buddy.v
BuddyModel.v
BuddyRefine.v
BuddyInit.v
Pmm.v
BuddyOdd.v
PmmSample.v
Devices.v
Random.v
Descriptors.v
Heap.v
HeapModel.v
HeapSteps.v
HeapPages.v
HeapCompact.v
HeapAlloc.v
HeapFree.v
HeapTheorems.v
HeapClient.v
HeapSample.v
HeapLedger.v
Sched.v
SchedModel.v
Switch.v
SchedTheorems.v
Threads.v
Reaper.v
SchedSample.v
Fairness.v
FairnessSample.v
BootSteps.v
Isr.v
Paging.v
PagingTheorems.v
PagingInit.v
UserSpace.v
Elf.v
ElfTheorems.v
ElfSample.v
Process.v
Stubs.v
ProcessTheorems.v
ProcessSample.v
ReaperSample.v
Kernel.v
BootServices.v
BootTheorems.v
KernelSample.v
Entry.v
HeapTest.v
BuddyTest.v
BuddyCheck.v
BuddyRun.v
