(* ===== verification/Prelude.v ===== *)
(** * A verification library for x86OS

    The program is a 32-bit x86 kernel in C and a little assembly (src/): it is
    loaded by a multiboot loader, runs in the upper quarter of the address space,
    manages physical pages with a buddy allocator and its own memory with a heap,
    schedules threads round robin, loads an ELF image as the first process, and
    serves two system calls.

    ** How it is modelled

    Machine.v has the state and the monad.  A [kernel] is the memory (a finite map
    from addresses to bytes, 0 where nothing was written), the history of port
    accesses with an oracle for the values read, the CPU's registers, and one
    record per C file for those of its globals that nothing takes the address of;
    arrays, list heads and tables that do have an address are in memory, at linker
    addresses that are fields of classes (BuddySymbols, HeapSymbols, TableSymbols,
    SchedSymbols, LayoutSymbols, ProcessSymbols, EntrySymbols).  An operation is a function
    [M A := kernel -> result A]: it ends with a value and a kernel, or it stops with
    a panic and its message, a page fault, an undefined operation of C ([Overrun])
    or the end of its fuel.  [wp], and [wpe] for operations that may also stop in a
    way named, are total: the operation ends, in a state that satisfies the
    postcondition.

    Integers are [Z] with the wrap-around of the C type written out ([u8] .. [u64]
    below, [⊞], [⊟], [⊠] on 32 bits).  A C pointer is its address; every access of
    kernel code is to the window from 0xC0000000 on that the page tables map, an
    access below it is a page fault, so that NULL dereferences show.  Structs are
    their offsets, with the sizes the code takes.  Interrupt handlers are an
    inductive type of the handlers the kernel registers.

    The C stack frames of a running function are not in the model's memory: the
    stack pointer is kept from the call of [context_switch] or of the interrupt
    stubs on, whose pushes and pops are in memory.  The interrupt flag of a thread
    that has been switched out is in a map of the model ([saved_if]) instead of in
    the word [pushfl] leaves in its frame.  The endless loops are modelled by one
    turn ([reaper_main], the idle thread) or as a final state (the halt of
    [kernel_panic]).

    ** Files, and what they show

    - Prelude, Machine, StringLib (src/lib/string.c): machine integers and their
      lemmas, memory, the monad and its logic; the string instructions byte by byte.
    - Console, Screen (src/drivers/vga.c, serial.c, src/lib/kprintf.c, panic.c):
      [kprintf] sends exactly the rendered text to the serial line, writes only the
      text buffer, and what the 2000 cells then show is what a terminal would,
      scrolling included (Screen); the digits of numbers are right and fit their buffer.
    - Node, Queue (src/mm/node.c, src/sched/queue.c): intrusive lists in memory,
      each operation refined to one on Rocq lists; sorted insertion is stable.
    - Bump (src/mm/bump.c); Buddy, BuddyModel, BuddyRefine, BuddyInit, Pmm
      (src/mm/buddy/buddy.c, src/mm/pmm.c): the page allocator.  Buddy is the code;
      BuddyModel the same over lists, with its invariant; BuddyRefine the simulation;
      Pmm the refinement to sets of free and used blocks, the interface
      [PageAllocator] the rest of the kernel is proved against and its instance, and
      the histories of requests; for a memory with an even number of pages, where the
      page map's own pages hold the descriptors up to the next multiple of 1024, which
      the code reads unchecked ([boot_state]).  BuddyOdd: with an odd number of pages the allocator hands out a
      page that does not exist.  PmmSample has concrete machines.
    - Devices, Descriptors (src/drivers/pic.c, pit.c, src/lib/random.c, src/gdt,
      src/interrupts/idt.c): port histories, and the tables decoded as the processor
      reads them.
    - Random (src/lib/random.c): the generator has full period, so a loop that draws
      until a number suits it ends.
    - Heap, HeapModel, HeapSteps, HeapPages, HeapCompact, HeapAlloc, HeapFree,
      HeapTheorems, HeapClient, HeapSample, HeapLedger (src/mm/heap/heap.c): Heap is
      the code; HeapModel the pages cut into chunks behind it; HeapSteps to HeapFree prove each operation on every branch.  Along
      any history the heap is a store of disjoint blocks that keep their bytes
      (HeapTheorems), its counters match the pages it took, and when everything is
      freed it is its first page again, in one free chunk (HeapLedger).  HeapClient
      says what the clients of both allocators may assume of the rest of memory.
    - HeapTest (src/mm/heap/heap_test.c); BuddyTest, BuddyCheck, BuddyRun
      (src/mm/buddy/test_buddy.c): the self-tests of both allocators, code and proof
      that they pass: their output is that of a successful run, or they stop in the
      out-of-memory panic.
    - Sched, SchedModel, Switch, SchedTheorems, Threads, Reaper, SchedSample,
      ReaperSample (src/sched, src/kernel/reaper.c, src/process/syscall.c): Sched is
      the code; Switch the context switch on the stacks in memory; SchedTheorems
      scheduling, preemption and sleep; Threads creation and destruction; Reaper the
      end of a thread.  Every theorem keeps the scheduler's invariant.
    - Fairness, FairnessSample: runs of the system as turns of the running thread,
      which computes anything in its own memory and is then preempted or sleeps; a
      ready thread runs after as many turns as there are threads before it, and no
      thread starves.
    - Isr, Stubs (src/interrupts/isr.c, isr_stub.asm): dispatch, the two system
      calls from interrupt to switch, the report of unhandled interrupts; the 256 stubs
      instruction by instruction, checked against the list of vectors for which the
      processor pushes an error code, and that an interrupt whose handler returns
      leaves the interrupted code as it was but for [es], [fs] and [gs], which
      get the value of [ds].
    - Paging, PagingTheorems, PagingInit, UserSpace (src/mm/paging.c): the mappers,
      with the processor's walk [translate] as their specification; what a new table
      of [map_range], which is not cleared, does to the other pages of its region.
    - Elf, ElfTheorems, ElfSample, Process, ProcessTheorems, ProcessSample
      (src/process): the loader and process creation: what the new address space
      translates and contains, and the entry into ring 3.
    - Kernel, BootSteps, BootServices, BootTheorems, KernelSample
      (src/kernel/kernel.c): [kmain] composed of all of the above, on any well-formed
      boot image, to the running system with every invariant established.
    - Entry (src/kernel/kernel_entry.asm): the code from the boot loader's jump to
      the call of [kmain], instruction by instruction, on the boot page directory;
      the boot theorem from there.

    The theorems on the client side of an interface are for any [PageAllocator]; the
    boot theorem instantiates it with the buddy allocator as [pmm_init] leaves it.
    Files named Sample have concrete machines on which the hypotheses hold.

    ** Fuel

    Loops that are not structural have fuel, and the theorems that they end show it
    is enough: [find_order], [split_loop] and [merge_loop] 12 (there are 11 orders);
    [add_loop] one turn per page and two more; counted loops ([for_up]) their exact
    number of turns; [find_chunk] 10 (9 buckets); [wake_loop] and [sorted_search] the
    size of the queue and one;
    [to_digits] 64 (binary digits of a 64-bit number); [map_loop] the pages asked for
    and one; [load_pages] and [load_segments] exactly the pages and the headers;
    [scan_tags] an eighth of the size of the information and one (a tag has 8 bytes);
    [check_map_loop], [check_area] and [area_len] the pages and one; [draw] is given
    the logarithm of the number of draws, 32 for the 2^32 states of the generator.

    ** Not modelled

    ring3jump.asm, which nothing calls.  Kernel accesses are checked against the
    whole window from 0xC0000000 on: not against read-only pages, not against the
    end of memory, and not, for the bytes [kmain] touches before [paging_init] loads the
    kernel's address space, against the 4 MiB the boot directory maps.
    Of the segment registers [cs], [ds], [es], [fs] and [gs] are kept; [ss] is only a
    word of the frames.  The accessed and busy bits that loads of segment and task
    registers set in the descriptor table are written by [gdt_flush] and [init_tss]; the loads of
    the user segments by [launch_process] and [iret], and of the kernel's by the stubs, do not
    mark their descriptors.  Of the flags the interrupt flag is a register of the
    model; the direction flag, which every string routine clears before use, is not, and the
    other flags are the word in the frame.  A thread resumed by [scheduler] gets back
    the interrupt flag it was switched out with, or interrupts on when it is
    new, as its stub enables them.  The user program in
    src/user, whose code runs through user page tables.  The busy parts of devices:
    what a port returns is an oracle.  Interrupts arrive at the points the theorems
    name (between turns, at a stub), not between two instructions of kernel code;
    the kernel runs most of its code with interrupts off. *)

From Stdlib Require Import ZArith Lia Bool.
From stdpp Require Import base list gmap strings.

#[global] Open Scope Z_scope.

(** ** Machine integers

    A [w]-bit unsigned integer is a [Z] in [0, 2^w); the casts below are
    C's conversions to [uint8_t] .. [uint64_t]; [s8], [s32], [s64] reinterpret
    the low bits as two's complement. *)

Definition u8 (z : Z) : Z := z mod 2 ^ 8.
Definition u16 (z : Z) : Z := z mod 2 ^ 16.
Definition u32 (z : Z) : Z := z mod 2 ^ 32.
Definition u64 (z : Z) : Z := z mod 2 ^ 64.

Definition sext (w : Z) (z : Z) : Z :=
  let r := z mod 2 ^ w in if r <? 2 ^ (w - 1) then r else r - 2 ^ w.

Declare Scope word_scope.
Delimit Scope word_scope with word.
Notation "x ⊞ y" := (u32 (x + y)) (at level 50, left associativity) : word_scope.
Notation "x ⊟ y" := (u32 (x - y)) (at level 50, left associativity) : word_scope.
Notation "x ⊠ y" := (u32 (x * y)) (at level 40, left associativity) : word_scope.
#[global] Open Scope word_scope.

(** ** Automation *)

Create HintDb word.
Create Rewrite HintDb word.
Create HintDb mem.

(** [div_lia] is [lia] extended with the defining equations of [/] and [mod]. *)
Ltac div_lia := Z.div_mod_to_equations; lia.

(** Closes goals that are pure linear arithmetic once the casts are unfolded. *)
Ltac word_lia :=
  unfold u8, u16, u32, u64 in *; change (2 ^ 8) with 256 in *;
  change (2 ^ 16) with 65536 in *; change (2 ^ 32) with 4294967296 in *;
  change (2 ^ 64) with 18446744073709551616 in *; div_lia.

Lemma u8_range z : 0 <= u8 z < 256.
Proof. unfold u8. apply Z.mod_pos_bound. lia. Qed.

Lemma u16_range z : 0 <= u16 z < 65536.
Proof. unfold u16. apply Z.mod_pos_bound. lia. Qed.

Lemma u32_range z : 0 <= u32 z < 2 ^ 32.
Proof. apply Z.mod_pos_bound. lia. Qed.

Lemma u64_range z : 0 <= u64 z < 2 ^ 64.
Proof. apply Z.mod_pos_bound. lia. Qed.

Lemma u8_small z : 0 <= z < 256 -> u8 z = z.
Proof. apply Z.mod_small. Qed.

Lemma u16_small z : 0 <= z < 65536 -> u16 z = z.
Proof. apply Z.mod_small. Qed.

Lemma u32_small z : 0 <= z < 2 ^ 32 -> u32 z = z.
Proof. apply Z.mod_small. Qed.

Lemma u32_idem z : u32 (u32 z) = u32 z.
Proof. apply u32_small, u32_range. Qed.

Lemma u64_small z : 0 <= z < 2 ^ 64 -> u64 z = z.
Proof. apply Z.mod_small. Qed.

#[export] Hint Resolve u8_range u16_range u32_range u64_range : word.
#[export] Hint Rewrite u8_small u16_small u32_small u64_small using lia : word.

(** ** Powers of two, masks and alignment *)

Lemma pow2_pos k : 0 <= k -> 0 < 2 ^ k.
Proof. intros. apply Z.pow_pos_nonneg; lia. Qed.

Lemma pow2_S k : 0 <= k -> 2 ^ (k + 1) = 2 * 2 ^ k.
Proof. intros. rewrite Z.pow_add_r by lia. lia. Qed.

Lemma pow2_le a b : 0 <= a <= b -> 2 ^ a <= 2 ^ b.
Proof. intros. apply Z.pow_le_mono_r; lia. Qed.

Lemma pow2_lt a b : 0 <= a < b -> 2 ^ a < 2 ^ b.
Proof. intros. apply Z.pow_lt_mono_r; lia. Qed.

Lemma pow2_divide a b : 0 <= a <= b -> (2 ^ a | 2 ^ b).
Proof.
  intros. exists (2 ^ (b - a)). rewrite <- Z.pow_add_r by lia. f_equal; lia.
Qed.

#[export] Hint Resolve pow2_pos : word.

(** [x & (2^k - 1)] keeps the remainder modulo [2^k]. *)
Lemma land_mask x k : 0 <= k -> Z.land x (2 ^ k - 1) = x mod 2 ^ k.
Proof.
  intros. rewrite <- Z.land_ones by lia. f_equal. rewrite Z.ones_equiv. lia.
Qed.

(** [x & ~(2^k - 1)] rounds down to a multiple of [2^k]. *)
Lemma land_lnot_mask x k : 0 <= k -> Z.land x (Z.lnot (2 ^ k - 1)) = x - x mod 2 ^ k.
Proof.
  intros. rewrite <- Z.ldiff_land.
  replace (2 ^ k - 1) with (Z.ones k) by (rewrite Z.ones_equiv; lia).
  rewrite Z.ldiff_ones_r, Z.shiftl_mul_pow2, Z.shiftr_div_pow2 by lia.
  pose proof (pow2_pos k). rewrite (Z.div_mod x (2 ^ k)) at 2 by lia. lia.
Qed.

(** src/lib/utils.h: the two alignment macros, on [uint32_t] operands. *)
Definition IS_ALIGNED (x align : Z) : bool := Z.land x (align - 1) =? 0.
Definition ALIGN_UP (x align : Z) : Z :=
  Z.land (x + align - 1) (Z.lnot (align - 1)) mod 2 ^ 32.

Lemma IS_ALIGNED_spec x k : 0 <= k -> IS_ALIGNED x (2 ^ k) = true <-> (2 ^ k | x).
Proof.
  intros. unfold IS_ALIGNED. rewrite land_mask by lia. rewrite Z.eqb_eq.
  pose proof (pow2_pos k). split; [apply Z.mod_divide | apply Z.mod_divide]; lia.
Qed.

Lemma ALIGN_UP_spec x k :
  0 <= k < 32 -> 0 <= x -> x + 2 ^ k - 1 < 2 ^ 32 ->
  (2 ^ k | ALIGN_UP x (2 ^ k)) /\ x <= ALIGN_UP x (2 ^ k) < x + 2 ^ k.
Proof.
  intros Hk Hx Hb. unfold ALIGN_UP. rewrite land_lnot_mask by lia.
  pose proof (pow2_pos k ltac:(lia)).
  pose proof (Z.mod_pos_bound (x + 2 ^ k - 1) (2 ^ k) ltac:(lia)).
  rewrite Z.mod_small by lia. split; [|lia].
  rewrite Z.mod_eq by lia.
  replace (_ - _) with (2 ^ k * ((x + 2 ^ k - 1) / 2 ^ k)) by lia.
  apply Z.divide_factor_l.
Qed.

(** ** Disjoint bit fields *)

Lemma testbit_high a n i : 0 <= a < 2 ^ n -> 0 <= n <= i -> Z.testbit a i = false.
Proof.
  intros Ha Hi. rewrite <- (Z.mod_small a (2 ^ n)) by lia.
  apply Z.mod_pow2_bits_high. lia.
Qed.

Lemma testbit_divide a n i : (2 ^ n | a) -> 0 <= i < n -> Z.testbit a i = false.
Proof.
  intros [b ->] Hi. rewrite Z.mul_pow2_bits by lia. apply Z.testbit_neg_r. lia.
Qed.

(** [|] of a field below bit [n] and a multiple of [2^n] is their sum. *)
Lemma lor_add a b n : 0 <= n -> 0 <= a < 2 ^ n -> (2 ^ n | b) -> Z.lor b a = b + a.
Proof.
  intros Hn Ha Hb. rewrite <- Z.add_lor_land.
  replace (Z.land b a) with 0; [lia|]. apply Z.bits_inj'. intros i Hi.
  rewrite Z.land_spec, Z.bits_0. destruct (Z.lt_ge_cases i n).
  - by rewrite (testbit_divide b n).
  - by rewrite (testbit_high a n), andb_false_r by lia.
Qed.

Lemma lor_shiftl_add a b n :
  0 <= n -> 0 <= a < 2 ^ n -> Z.lor a (Z.shiftl b n) = a + b * 2 ^ n.
Proof.
  intros. rewrite Z.lor_comm, (lor_add _ _ n), Z.shiftl_mul_pow2; try lia.
  rewrite Z.shiftl_mul_pow2 by lia. apply Z.divide_factor_r.
Qed.

(** ** Words made of a page number and flags below bit 12 *)

Lemma entry_testbit p f i : 0 <= i < 12 -> Z.testbit (Z.lor (4096 * p) f) i = Z.testbit f i.
Proof.
  intros Hi. rewrite Z.lor_spec, (testbit_divide (4096 * p) 12); [done | exists p; lia | lia].
Qed.

Lemma entry_add p f : 0 <= f < 4096 -> Z.lor (4096 * p) f = 4096 * p + f.
Proof. intros Hf. apply (lor_add f (4096 * p) 12); [lia | done | exists p; lia]. Qed.

Lemma entry_page p f : 0 <= f < 4096 -> Z.shiftr (Z.lor (4096 * p) f) 12 = p.
Proof.
  intros Hf. rewrite entry_add by done. rewrite Z.shiftr_div_pow2 by lia. change (2 ^ 12) with 4096. div_lia.
Qed.

(** [e & 0xFFFFF000] is the page of the entry. *)
Lemma entry_mask e : 0 <= e < 2 ^ 32 -> Z.land e 0xFFFFF000 = 4096 * (e / 4096).
Proof.
  intros He. apply Z.bits_inj'. intros i Hi. rewrite Z.land_spec.
  replace (4096 * (e / 4096)) with (Z.shiftl (Z.shiftr e 12) 12)
    by (rewrite Z.shiftl_mul_pow2, Z.shiftr_div_pow2 by lia; change (2 ^ 12) with 4096; lia).
  change 0xFFFFF000 with (Z.shiftl (Z.ones 20) 12). rewrite !Z.shiftl_spec by done.
  destruct (Z.lt_ge_cases i 12); [rewrite !(Z.testbit_neg_r _ (i - 12)) by lia; by rewrite andb_false_r|].
  rewrite Z.shiftr_spec by lia. replace (i - 12 + 12) with i by lia.
  destruct (Z.lt_ge_cases i 32).
  - rewrite Z.ones_spec_low by lia. by rewrite andb_true_r.
  - by rewrite (testbit_high e 32) by lia.
Qed.

Lemma land_bit e i : 0 <= i -> (Z.land e (2 ^ i) =? 0) = negb (Z.testbit e i).
Proof.
  intros Hi. destruct (Z.testbit e i) eqn:E; cbn [negb].
  - apply Z.eqb_neq. intros H. assert (Z.testbit (Z.land e (2 ^ i)) i = true) as Hb.
    { by rewrite Z.land_spec, E, Z.pow2_bits_true. }
    rewrite H, Z.bits_0 in Hb. done.
  - apply Z.eqb_eq, Z.bits_inj'. intros j Hj. rewrite Z.land_spec, Z.bits_0, Z.pow2_bits_eqb by done.
    destruct (Z.eqb_spec i j) as [<-|]; [by rewrite E | apply andb_false_r].
Qed.

(** ** Filters *)

Lemma filter_all {A} (P : A -> Prop) `{forall x, Decision (P x)} l : Forall P l -> filter P l = l.
Proof. induction 1 as [|a l Ha _ IH]; [done|]. by rewrite filter_cons_True, IH. Qed.

Lemma filter_none {A} (P : A -> Prop) `{forall x, Decision (P x)} l : Forall (fun x => ~ P x) l -> filter P l = [].
Proof. induction 1 as [|a l Ha _ IH]; [done|]. by rewrite filter_cons_False. Qed.
