(* ===== verification/Machine.v ===== *)
(** * The machine the kernel runs on

    Byte-addressed kernel memory, the hardware ports, the record of the
    kernel's C globals, and the state-and-error monad in which every
    operation of the kernel is written.  Kernel pointers are kernel-virtual
    addresses: the page tables map physical address [p] at [P2V p], and
    nothing below [KERNEL_VIRTUAL_BASE] is mapped for the kernel, so an
    access there (a NULL dereference in particular) is a page fault. *)

From Stdlib Require Import ZArith Lia Bool.
From Stdlib Require Import Strings.Byte.
From stdpp Require Import base list gmap strings.
From S2P Require Import Prelude.

(** ** Address-space layout: src/kernel/layout.h *)

Definition KERNEL_VIRTUAL_BASE : Z := 0xC0000000.
Definition P2V (addr : Z) : Z := addr ⊞ KERNEL_VIRTUAL_BASE.
Definition V2P (addr : Z) : Z := addr ⊟ KERNEL_VIRTUAL_BASE.
Definition PAGE_SIZE : Z := 4096.

(** ** Byte memory *)

Definition Z_of_byte (b : byte) : Z := Z.of_N (Byte.to_N b).
Definition byte_of_Z (z : Z) : byte :=
  default x00 (Byte.of_N (Z.to_N (z mod 256))).

Lemma Z_of_byte_range b : 0 <= Z_of_byte b < 256.
Proof. unfold Z_of_byte. pose proof (to_N_bounded b). lia. Qed.

Lemma Z_of_byte_of_Z z : Z_of_byte (byte_of_Z z) = z mod 256.
Proof.
  unfold Z_of_byte, byte_of_Z. pose proof (Z.mod_pos_bound z 256 ltac:(lia)).
  destruct (Byte.of_N _) as [b|] eqn:E; simpl.
  - apply to_of_N in E. rewrite E. lia.
  - apply of_N_None_iff in E. lia.
Qed.

Abbreviation memory := (gmap Z byte).

Definition ld8 (m : memory) (a : Z) : Z := Z_of_byte (default x00 (m !! a)).
Definition st8 (m : memory) (a v : Z) : memory := <[a := byte_of_Z v]> m.

Definition ld16 (m : memory) (a : Z) : Z := ld8 m a + 256 * ld8 m (a + 1).
Definition st16 (m : memory) (a v : Z) : memory :=
  st8 (st8 m a v) (a + 1) (v / 256).

Definition ld32 (m : memory) (a : Z) : Z := ld16 m a + 65536 * ld16 m (a + 2).
Definition st32 (m : memory) (a v : Z) : memory :=
  st16 (st16 m a v) (a + 2) (v / 65536).

Definition ld64 (m : memory) (a : Z) : Z := ld32 m a + 2 ^ 32 * ld32 m (a + 4).
Definition st64 (m : memory) (a v : Z) : memory :=
  st32 (st32 m a v) (a + 4) (v / 2 ^ 32).

Lemma ld8_range m a : 0 <= ld8 m a < 256.
Proof. apply Z_of_byte_range. Qed.

Lemma ld16_range m a : 0 <= ld16 m a < 65536.
Proof. unfold ld16. pose proof (ld8_range m a). pose proof (ld8_range m (a + 1)). lia. Qed.

Lemma ld32_range m a : 0 <= ld32 m a < 2 ^ 32.
Proof. unfold ld32. pose proof (ld16_range m a). pose proof (ld16_range m (a + 2)). lia. Qed.

Lemma ld64_range m a : 0 <= ld64 m a < 2 ^ 64.
Proof. unfold ld64. pose proof (ld32_range m a). pose proof (ld32_range m (a + 4)). lia. Qed.

Lemma ld8_st8 m a b v : ld8 (st8 m a v) b = if decide (a = b) then u8 v else ld8 m b.
Proof.
  unfold ld8, st8. rewrite lookup_insert. case_decide; simpl; [|done].
  apply Z_of_byte_of_Z.
Qed.

Lemma ld8_st8_eq m a v : ld8 (st8 m a v) a = u8 v.
Proof. rewrite ld8_st8. by case_decide. Qed.

Lemma ld8_st8_ne m a b v : a <> b -> ld8 (st8 m a v) b = ld8 m b.
Proof. intros. rewrite ld8_st8. by case_decide. Qed.

Lemma ld8_empty a : ld8 ∅ a = 0.
Proof. reflexivity. Qed.

(** ** Footprints

    [untouched F m m']: every byte outside [F] reads the same in [m] and [m']. *)

Definition untouched (F : Z -> Prop) (m m' : memory) : Prop :=
  forall b, ~ F b -> ld8 m' b = ld8 m b.

Definition range (a n : Z) (b : Z) : Prop := a <= b < a + n.

(** Two memories agree on the [n] bytes at [a]. *)
Definition agree (m m' : memory) (a n : Z) : Prop :=
  forall b, range a n b -> ld8 m' b = ld8 m b.

Lemma untouched_refl F m : untouched F m m.
Proof. by intros b. Qed.

Lemma untouched_trans F m1 m2 m3 :
  untouched F m1 m2 -> untouched F m2 m3 -> untouched F m1 m3.
Proof. intros H1 H2 b Hb. rewrite H2 by done. by apply H1. Qed.

Lemma untouched_mono (F G : Z -> Prop) m m' :
  (forall b, F b -> G b) -> untouched F m m' -> untouched G m m'.
Proof. intros H Hu b Hb. apply Hu. auto. Qed.

Lemma untouched_agree F m m' a n :
  untouched F m m' -> (forall b, range a n b -> ~ F b) -> agree m m' a n.
Proof. intros Hu H b Hb. by apply Hu, H. Qed.

Lemma agree_sub m m' a n b k :
  agree m m' a n -> a <= b -> b + k <= a + n -> agree m m' b k.
Proof. intros H ? ? c Hc. apply H. unfold range in *. lia. Qed.

Lemma ld8_agree m m' a : agree m m' a 1 -> ld8 m' a = ld8 m a.
Proof. intros H. apply H. unfold range. lia. Qed.

Lemma ld16_agree m m' a : agree m m' a 2 -> ld16 m' a = ld16 m a.
Proof. intros H. unfold ld16. by rewrite !H by (unfold range; lia). Qed.

Lemma ld32_agree m m' a : agree m m' a 4 -> ld32 m' a = ld32 m a.
Proof. intros H. unfold ld32.
  by rewrite (ld16_agree m m' a), (ld16_agree m m' (a + 2)) by (eapply agree_sub; [exact H|lia..]). Qed.

Lemma ld64_agree m m' a : agree m m' a 8 -> ld64 m' a = ld64 m a.
Proof. intros H. unfold ld64.
  by rewrite (ld32_agree m m' a), (ld32_agree m m' (a + 4)) by (eapply agree_sub; [exact H|lia..]). Qed.

Lemma st8_untouched m a v : untouched (range a 1) m (st8 m a v).
Proof. intros b Hb. apply ld8_st8_ne. unfold range in Hb. lia. Qed.

Lemma st16_untouched m a v : untouched (range a 2) m (st16 m a v).
Proof.
  eapply untouched_trans; eapply untouched_mono; try apply st8_untouched;
    unfold range; intros; lia.
Qed.

Lemma st32_untouched m a v : untouched (range a 4) m (st32 m a v).
Proof.
  eapply untouched_trans; eapply untouched_mono; try apply st16_untouched;
    unfold range; intros; lia.
Qed.

Lemma st64_untouched m a v : untouched (range a 8) m (st64 m a v).
Proof.
  eapply untouched_trans; eapply untouched_mono; try apply st32_untouched;
    unfold range; intros; lia.
Qed.

(** ** Reading back a store *)

Lemma ld16_st16_eq m a v : ld16 (st16 m a v) a = u16 v.
Proof.
  unfold ld16, st16. rewrite (ld8_st8_ne _ (a + 1) a), !ld8_st8_eq by lia. word_lia.
Qed.

Lemma ld16_st16_ne m a b v :
  a + 2 <= b \/ b + 2 <= a -> ld16 (st16 m a v) b = ld16 m b.
Proof.
  intros. apply ld16_agree. eapply untouched_agree; [apply st16_untouched|].
  unfold range. lia.
Qed.

Lemma ld32_st32_eq m a v : ld32 (st32 m a v) a = u32 v.
Proof.
  unfold ld32, st32. rewrite (ld16_st16_ne _ (a + 2) a), !ld16_st16_eq by lia. word_lia.
Qed.

Lemma ld32_st32_ne m a b v :
  a + 4 <= b \/ b + 4 <= a -> ld32 (st32 m a v) b = ld32 m b.
Proof.
  intros. apply ld32_agree. eapply untouched_agree; [apply st32_untouched|].
  unfold range. lia.
Qed.

Lemma ld8_st32_ne m a b v :
  a + 4 <= b \/ b < a -> ld8 (st32 m a v) b = ld8 m b.
Proof. intros. apply st32_untouched. unfold range. lia. Qed.

Lemma ld32_st8_ne m a b v :
  a < b \/ b + 4 <= a -> ld32 (st8 m a v) b = ld32 m b.
Proof.
  intros. apply ld32_agree. eapply untouched_agree; [apply st8_untouched|].
  unfold range. lia.
Qed.

Lemma ld16_st8_ne m a b v : a < b \/ b + 2 <= a -> ld16 (st8 m a v) b = ld16 m b.
Proof.
  intros. apply ld16_agree. eapply untouched_agree; [apply st8_untouched|].
  unfold range. lia.
Qed.

Lemma ld8_st16_ne m a b v : a + 2 <= b \/ b < a -> ld8 (st16 m a v) b = ld8 m b.
Proof. intros. apply st16_untouched. unfold range. lia. Qed.

Lemma ld32_st16_ne m a b v : a + 2 <= b \/ b + 4 <= a -> ld32 (st16 m a v) b = ld32 m b.
Proof.
  intros. apply ld32_agree. eapply untouched_agree; [apply st16_untouched|].
  unfold range. lia.
Qed.

Lemma ld16_st32_ne m a b v : a + 4 <= b \/ b + 2 <= a -> ld16 (st32 m a v) b = ld16 m b.
Proof.
  intros. apply ld16_agree. eapply untouched_agree; [apply st32_untouched|].
  unfold range. lia.
Qed.

Lemma ld64_st64_eq m a v : ld64 (st64 m a v) a = u64 v.
Proof.
  unfold ld64, st64. rewrite (ld32_st32_ne _ (a + 4) a), !ld32_st32_eq by lia. word_lia.
Qed.

Create Rewrite HintDb mem.
#[export] Hint Rewrite ld8_st8_eq ld16_st16_eq ld32_st32_eq ld64_st64_eq : mem.
#[export] Hint Rewrite ld8_st8_ne ld16_st16_ne ld32_st32_ne ld8_st32_ne ld32_st8_ne
  ld16_st8_ne ld8_st16_ne ld32_st16_ne ld16_st32_ne
  using lia : mem.
#[export] Hint Resolve ld8_range ld16_range ld32_range ld64_range : mem.

(** Evaluates loads through stores whose disjointness is arithmetic. *)
Ltac mem_simp := autorewrite with mem word.

(** ** Hardware ports and the record of the kernel's globals *)

(** One access to an I/O port: [outb] of a value, or [inb] with the value read. *)
Inductive io_event :=
| Out (port val : Z)
| In (port val : Z).

(** The handlers the kernel registers with [register_interrupt_handler]. *)
Inductive handler := H_pit_irq_handler | H_syscall_handler.

(** The callbacks the kernel passes to [init_pit]. *)
Inductive callback := CB_timer.

#[export] Instance io_event_eq_dec : EqDecision io_event.
Proof. solve_decision. Defined.
#[export] Instance handler_eq_dec : EqDecision handler.
Proof. solve_decision. Defined.

(** Globals of src/drivers/vga.c. *)
Record vga_globals := MkVga {
  vga_color : Z; cursor_row : Z; cursor_col : Z }.

(** Globals of src/mm/buddy/buddy.c (the array [free_area] is in memory). *)
Record buddy_globals := MkBuddy {
  page_map : Z; page_n : Z; free_pages_count : Z; used_pages_count : Z }.

(** Globals of src/mm/heap/heap.c ([free_bucket] and [first] are in memory). *)
Record heap_globals := MkHeap {
  last_chunk : Z; mem_free : Z; mem_used : Z; mem_meta : Z }.

(** Globals of src/sched/sched.c, src/sched/thread.c, src/kernel/reaper.c (the
    queues and the TSS are in memory).  [saved_if] holds, for a thread that is
    switched out inside [scheduler], the interrupt flag its [pushfl] saved on
    its stack. *)
Record sched_globals := MkSched {
  ticks : Z; tick_rate : Z; cur_thread : Z; idle_thread : Z;
  thread_id : Z; reaper : Z; saved_if : gmap Z bool }.

(** The four data segment registers. *)
Record data_segs := MkSegs { seg_ds : Z; seg_es : Z; seg_fs : Z; seg_gs : Z }.

(** All four loaded with one selector. *)
Definition all_segs (sel : Z) : data_segs := MkSegs sel sel sel sel.

(** The CPU: interrupt flag, CR3, the descriptor-table registers (base and
    limit), the task register, the code selector, the data selectors, the stack
    pointer and the general registers in [pusha] order without [esp]
    (eax, ecx, edx, ebx, ebp, esi, edi). *)
Record cpu_regs := MkCpu {
  eflags_if : bool; cr3 : Z; gdtr : Z * Z; idtr : Z * Z; task_reg : Z;
  seg_cs : Z; segs : data_segs; esp : Z; gprs : list Z }.

Definition set_if (b : bool) (c : cpu_regs) : cpu_regs :=
  MkCpu b (cr3 c) (gdtr c) (idtr c) (task_reg c) (seg_cs c) (segs c) (esp c) (gprs c).
Definition set_cr3 (v : Z) (c : cpu_regs) : cpu_regs :=
  MkCpu (eflags_if c) v (gdtr c) (idtr c) (task_reg c) (seg_cs c) (segs c) (esp c) (gprs c).
Definition set_gdtr (v : Z * Z) (c : cpu_regs) : cpu_regs :=
  MkCpu (eflags_if c) (cr3 c) v (idtr c) (task_reg c) (seg_cs c) (segs c) (esp c) (gprs c).
Definition set_idtr (v : Z * Z) (c : cpu_regs) : cpu_regs :=
  MkCpu (eflags_if c) (cr3 c) (gdtr c) v (task_reg c) (seg_cs c) (segs c) (esp c) (gprs c).
Definition set_tr (v : Z) (c : cpu_regs) : cpu_regs :=
  MkCpu (eflags_if c) (cr3 c) (gdtr c) (idtr c) v (seg_cs c) (segs c) (esp c) (gprs c).
Definition set_segs (cs : Z) (d : data_segs) (c : cpu_regs) : cpu_regs :=
  MkCpu (eflags_if c) (cr3 c) (gdtr c) (idtr c) (task_reg c) cs d (esp c) (gprs c).
Definition set_regs (sp : Z) (rs : list Z) (c : cpu_regs) : cpu_regs :=
  MkCpu (eflags_if c) (cr3 c) (gdtr c) (idtr c) (task_reg c) (seg_cs c) (segs c) sp rs.

(** Globals of src/drivers/pic.c, src/drivers/pit.c, src/interrupts/isr.c
    and src/lib/random.c. *)
Record dev_globals := MkDev {
  pic_mask : Z; timer_callback : option callback;
  interrupt_handlers : gmap Z handler; rand_next : Z }.

(** Globals of src/kernel/kernel.c. *)
Record boot_globals := MkBoot { memory_map : Z; user_module : Z }.

Record kernel := MkKernel {
  k_mem : gmap Z byte;
  k_io : list io_event;                      (* newest first *)
  k_dev : list io_event -> Z -> Z;           (* what a device answers to [inb] *)
  k_cpu : cpu_regs;
  k_vga : vga_globals;
  placement_addr : Z;                        (* src/mm/bump.c *)
  k_buddy : buddy_globals;
  k_heap : heap_globals;
  k_sched : sched_globals;
  k_devs : dev_globals;
  k_boot : boot_globals }.

Definition set_mem (m : gmap Z byte) (k : kernel) : kernel :=
  MkKernel m (k_io k) (k_dev k) (k_cpu k) (k_vga k) (placement_addr k)
    (k_buddy k) (k_heap k) (k_sched k) (k_devs k) (k_boot k).
Definition set_io (t : list io_event) (k : kernel) : kernel :=
  MkKernel (k_mem k) t (k_dev k) (k_cpu k) (k_vga k) (placement_addr k)
    (k_buddy k) (k_heap k) (k_sched k) (k_devs k) (k_boot k).
Definition set_cpu (c : cpu_regs) (k : kernel) : kernel :=
  MkKernel (k_mem k) (k_io k) (k_dev k) c (k_vga k) (placement_addr k)
    (k_buddy k) (k_heap k) (k_sched k) (k_devs k) (k_boot k).
Definition set_vga (v : vga_globals) (k : kernel) : kernel :=
  MkKernel (k_mem k) (k_io k) (k_dev k) (k_cpu k) v (placement_addr k)
    (k_buddy k) (k_heap k) (k_sched k) (k_devs k) (k_boot k).
Definition set_placement (p : Z) (k : kernel) : kernel :=
  MkKernel (k_mem k) (k_io k) (k_dev k) (k_cpu k) (k_vga k) p
    (k_buddy k) (k_heap k) (k_sched k) (k_devs k) (k_boot k).
Definition set_buddy (b : buddy_globals) (k : kernel) : kernel :=
  MkKernel (k_mem k) (k_io k) (k_dev k) (k_cpu k) (k_vga k) (placement_addr k)
    b (k_heap k) (k_sched k) (k_devs k) (k_boot k).
Definition set_heap (h : heap_globals) (k : kernel) : kernel :=
  MkKernel (k_mem k) (k_io k) (k_dev k) (k_cpu k) (k_vga k) (placement_addr k)
    (k_buddy k) h (k_sched k) (k_devs k) (k_boot k).
Definition set_sched (c : sched_globals) (k : kernel) : kernel :=
  MkKernel (k_mem k) (k_io k) (k_dev k) (k_cpu k) (k_vga k) (placement_addr k)
    (k_buddy k) (k_heap k) c (k_devs k) (k_boot k).
Definition set_devs (d : dev_globals) (k : kernel) : kernel :=
  MkKernel (k_mem k) (k_io k) (k_dev k) (k_cpu k) (k_vga k) (placement_addr k)
    (k_buddy k) (k_heap k) (k_sched k) d (k_boot k).
Definition set_boot (b : boot_globals) (k : kernel) : kernel :=
  MkKernel (k_mem k) (k_io k) (k_dev k) (k_cpu k) (k_vga k) (placement_addr k)
    (k_buddy k) (k_heap k) (k_sched k) (k_devs k) b.

(** A machine with nothing in memory and the C initial values of the globals. *)
Definition cpu_initial : cpu_regs := MkCpu false 0 (0, 0) (0, 0) 0 0 (all_segs 0) 0 [].

Definition empty_kernel : kernel :=
  MkKernel ∅ [] (fun _ _ => 0) cpu_initial (MkVga 0x0F 2 0) 0 (MkBuddy 0 0 0 0)
    (MkHeap 0 0 0 0) (MkSched 0 0 0 0 1 0 ∅) (MkDev 0xFFFF None ∅ 1) (MkBoot 0 0).

(** ** The state-and-error monad *)

(** Why the kernel stopped: [kernel_panic], a CPU page fault, an access the C
    standard leaves undefined and the model does not follow, or a loop that
    used up the fuel it was given. *)
Inductive stop :=
| Panic (msg : string)
| PageFault (addr : Z)
| Overrun
| OutOfFuel.

Inductive result (A : Type) :=
| Ok (a : A) (k : kernel)
| Stop (e : stop) (k : kernel).
Arguments Ok {A} a k.
Arguments Stop {A} e k.

Definition M (A : Type) : Type := kernel -> result A.

#[export] Instance M_ret : MRet M := fun A a k => Ok a k.
#[export] Instance M_bind : MBind M := fun A B f m k =>
  match m k with Ok a k' => f a k' | Stop e k' => Stop e k' end.

Definition get : M kernel := fun k => Ok k k.
Definition gets {A} (f : kernel -> A) : M A := fun k => Ok (f k) k.
Definition modify (f : kernel -> kernel) : M unit := fun k => Ok tt (f k).
Definition stop_with {A} (e : stop) : M A := fun k => Stop e k.
Definition skip : M unit := mret tt.
Definition when (b : bool) (m : M unit) : M unit := if b then m else skip.

(** [for (i = start; n times; i++) body(i)] *)
Fixpoint for_up (n : nat) (i : Z) (body : Z -> M unit) : M unit :=
  match n with
  | O => skip
  | S n => body i;; for_up n (i + 1) body
  end.

(** ** Memory and port accesses *)

Definition mapped (a n : Z) : bool :=
  (KERNEL_VIRTUAL_BASE <=? a) && (a + n <=? 2 ^ 32).

Definition access {A} (a n : Z) (f : kernel -> result A) : M A := fun k =>
  if mapped a n then f k else Stop (PageFault a) k.

Definition load8 (a : Z) : M Z := access a 1 (fun k => Ok (ld8 (k_mem k) a) k).
Definition load16 (a : Z) : M Z := access a 2 (fun k => Ok (ld16 (k_mem k) a) k).
Definition load32 (a : Z) : M Z := access a 4 (fun k => Ok (ld32 (k_mem k) a) k).
Definition load64 (a : Z) : M Z := access a 8 (fun k => Ok (ld64 (k_mem k) a) k).
Definition store8 (a v : Z) : M unit :=
  access a 1 (fun k => Ok tt (set_mem (st8 (k_mem k) a v) k)).
Definition store16 (a v : Z) : M unit :=
  access a 2 (fun k => Ok tt (set_mem (st16 (k_mem k) a v) k)).
Definition store32 (a v : Z) : M unit :=
  access a 4 (fun k => Ok tt (set_mem (st32 (k_mem k) a v) k)).
Definition store64 (a v : Z) : M unit :=
  access a 8 (fun k => Ok tt (set_mem (st64 (k_mem k) a v) k)).

(** src/kernel/ports.h *)
Definition outb (port val : Z) : M unit := fun k =>
  Ok tt (set_io (Out (u16 port) (u8 val) :: k_io k) k).
Definition inb (port : Z) : M Z := fun k =>
  let v := u8 (k_dev k (k_io k) (u16 port)) in
  Ok v (set_io (In (u16 port) v :: k_io k) k).
Definition io_wait : M unit := outb 0x80 0.

(** ** Total-correctness triples

    [wp m k Q]: run from [k], [m] returns (no panic, no fault, no missing
    fuel), and the value and the final kernel satisfy [Q]. *)

Definition wp {A} (m : M A) (k : kernel) (Q : A -> kernel -> Prop) : Prop :=
  match m k with Ok a k' => Q a k' | Stop _ _ => False end.

Section wp.
Context {A B : Type}.
Implicit Types (Q : A -> kernel -> Prop) (R : B -> kernel -> Prop).

Lemma wp_ret (a : A) k Q : Q a k -> wp (mret a) k Q.
Proof. done. Qed.

Lemma wp_bind (m : M A) (f : A -> M B) k R :
  wp m k (fun a k' => wp (f a) k' R) -> wp (m ≫= f) k R.
Proof. unfold wp, mbind, M_bind. by destruct (m k). Qed.

Lemma wp_mono (m : M A) k Q Q' :
  wp m k Q -> (forall a k', Q a k' -> Q' a k') -> wp m k Q'.
Proof. unfold wp. destruct (m k); eauto. Qed.

Lemma wp_and (m : M A) k Q Q' :
  wp m k Q -> wp m k Q' -> wp m k (fun a k' => Q a k' /\ Q' a k').
Proof. unfold wp. destruct (m k); eauto. Qed.

Lemma wp_ok (m : M A) k Q : wp m k Q -> exists a k', m k = Ok a k' /\ Q a k'.
Proof. unfold wp. destruct (m k); [eauto | done]. Qed.

Lemma wp_of_eq (m : M A) k a k' Q : m k = Ok a k' -> Q a k' -> wp m k Q.
Proof. unfold wp. by intros ->. Qed.

Lemma wp_ext (m m' : M A) k Q : m k = m' k -> wp m' k Q -> wp m k Q.
Proof. unfold wp. by intros ->. Qed.

Lemma wp_gets (f : kernel -> A) k Q : Q (f k) k -> wp (gets f) k Q.
Proof. done. Qed.

Lemma wp_modify (f : kernel -> kernel) k (Q : unit -> kernel -> Prop) :
  Q tt (f k) -> wp (modify f) k Q.
Proof. done. Qed.
End wp.

Lemma mapped_spec a n : mapped a n = true <-> KERNEL_VIRTUAL_BASE <= a /\ a + n <= 2 ^ 32.
Proof. unfold mapped. rewrite andb_true_iff, !Z.leb_le. done. Qed.

Lemma wp_access {A} a n (f : kernel -> result A) k v k' Q :
  KERNEL_VIRTUAL_BASE <= a -> a + n <= 2 ^ 32 -> f k = Ok v k' -> Q v k' ->
  wp (access a n f) k Q.
Proof.
  intros ? ? H ?. unfold wp, access. by rewrite (proj2 (mapped_spec a n)), H.
Qed.

Lemma wp_outb port val k (Q : unit -> kernel -> Prop) :
  Q tt (set_io (Out (u16 port) (u8 val) :: k_io k) k) -> wp (outb port val) k Q.
Proof. done. Qed.

Lemma wp_inb port k (Q : Z -> kernel -> Prop) :
  (forall v, 0 <= v < 256 -> Q v (set_io (In (u16 port) v :: k_io k) k)) -> wp (inb port) k Q.
Proof. intros HQ. apply HQ, u8_range. Qed.

(** Rule for counted loops, with an invariant on the iteration. *)
Lemma wp_for_up n i body k (I : Z -> kernel -> Prop) (Q : unit -> kernel -> Prop) :
  I i k ->
  (forall j k', i <= j < i + Z.of_nat n -> I j k' -> wp (body j) k' (fun _ => I (j + 1))) ->
  (forall k', I (i + Z.of_nat n) k' -> Q tt k') ->
  wp (for_up n i body) k Q.
Proof.
  revert i k. induction n as [|n IH]; intros i k Hi Hbody Hq; simpl.
  - apply wp_ret, Hq. by rewrite Z.add_0_r.
  - apply wp_bind. eapply wp_mono; [apply Hbody; [lia | done]|]. cbv beta. intros _ k' Hk'.
    apply IH; [done | |].
    + intros j k'' Hj. apply Hbody. lia.
    + intros k'' Hk''. apply Hq. by replace (i + Z.of_nat (S n)) with (i + 1 + Z.of_nat n) by lia.
Qed.

Lemma wp_when b m k (Q : unit -> kernel -> Prop) :
  (b = true -> wp m k Q) -> (b = false -> Q tt k) -> wp (when b m) k Q.
Proof. destruct b; intros H1 H2; [by apply H1 | by apply H2]. Qed.

(** ** Runs that stop

    [stops m k e]: run from [k], [m] does not return but stops with [e]. *)
Definition stops {A} (m : M A) (k : kernel) (e : stop) : Prop :=
  exists k', m k = Stop e k'.

Lemma stops_stop_with {A} e k : stops (stop_with (A:=A) e) k e.
Proof. by exists k. Qed.

Lemma wp_assoc {A B C} (m : M A) (f : A -> M B) (g : B -> M C) k Q :
  wp ((m ≫= f) ≫= g) k Q -> wp (m ≫= fun a => f a ≫= g) k Q.
Proof. unfold wp, mbind, M_bind. by destruct (m k). Qed.

Lemma stops_bind_l {A B} (m : M A) (f : A -> M B) k e : stops m k e -> stops (m ≫= f) k e.
Proof. intros [k' H]. exists k'. unfold mbind, M_bind. by rewrite H. Qed.

Lemma stops_bind_r {A B} (m : M A) (f : A -> M B) k e :
  wp m k (fun a k' => stops (f a) k' e) -> stops (m ≫= f) k e.
Proof.
  unfold wp, stops, mbind, M_bind. destruct (m k) as [a k1|]; [|done].
  intros [k' H]. eauto.
Qed.

Lemma stops_unmapped {A} a n (f : kernel -> result A) k :
  mapped a n = false -> stops (access a n f) k (PageFault a).
Proof. intros H. exists k. unfold access. by rewrite H. Qed.

Lemma wp_not_stops {A} (m : M A) k Q e : wp m k Q -> ~ stops m k e.
Proof. unfold wp. intros H [k' E]. by rewrite E in H. Qed.

(** ** Runs that may stop

    [wpe E m k Q]: as [wp], but [m] may also stop, for a reason in [E]. *)
Definition wpe {A} (E : stop -> Prop) (m : M A) (k : kernel) (Q : A -> kernel -> Prop) : Prop :=
  match m k with Ok a k' => Q a k' | Stop e _ => E e end.

Lemma wpe_ret {A} E (a : A) k (Q : A -> kernel -> Prop) : Q a k -> wpe E (mret a) k Q.
Proof. done. Qed.

Lemma wpe_bind {A B} E (m : M A) (f : A -> M B) k (R : B -> kernel -> Prop) :
  wpe E m k (fun a k' => wpe E (f a) k' R) -> wpe E (m ≫= f) k R.
Proof. unfold wpe, mbind, M_bind. by destruct (m k). Qed.

Lemma wpe_mono {A} E (m : M A) k (Q Q' : A -> kernel -> Prop) :
  wpe E m k Q -> (forall a k', Q a k' -> Q' a k') -> wpe E m k Q'.
Proof. unfold wpe. destruct (m k); eauto. Qed.

Lemma wpe_weaken {A} (E E' : stop -> Prop) (m : M A) k (Q : A -> kernel -> Prop) :
  wpe E m k Q -> (forall e, E e -> E' e) -> wpe E' m k Q.
Proof. unfold wpe. destruct (m k); eauto. Qed.

Lemma wpe_wp {A} E (m : M A) k (Q : A -> kernel -> Prop) : wp m k Q -> wpe E m k Q.
Proof. unfold wp, wpe. by destruct (m k). Qed.

Lemma wp_wpe {A} (m : M A) k (Q : A -> kernel -> Prop) : wpe (fun _ => False) m k Q -> wp m k Q.
Proof. done. Qed.

Lemma wpe_stops {A} (E : stop -> Prop) (m : M A) k e (Q : A -> kernel -> Prop) : stops m k e -> E e -> wpe E m k Q.
Proof. intros [k' H] HE. unfold wpe. by rewrite H. Qed.

Lemma wpe_access {A} E a n (f : kernel -> result A) k v k' (Q : A -> kernel -> Prop) :
  KERNEL_VIRTUAL_BASE <= a -> a + n <= 2 ^ 32 -> f k = Ok v k' -> Q v k' ->
  wpe E (access a n f) k Q.
Proof.
  intros ? ? H ?. unfold wpe, access. by rewrite (proj2 (mapped_spec a n)), H.
Qed.

(** From here on triples are taken apart with the rules above only. *)
Lemma wpe_cases {A} E (m : M A) k (Q : A -> kernel -> Prop) :
  wpe E m k Q -> (exists a k', m k = Ok a k' /\ Q a k') \/ (exists e, stops m k e /\ E e).
Proof. unfold wpe, stops. destruct (m k); eauto 10. Qed.

Lemma wpe_run {A} E (m : M A) k (Q : A -> kernel -> Prop) a k' : wpe E m k Q -> m k = Ok a k' -> Q a k'.
Proof. unfold wpe. intros Hw Hm. by rewrite Hm in Hw. Qed.

#[global] Opaque wp wpe.

(** Steps through a straight-line prefix; address obligations go to [lia]. *)
Ltac wp_mem := eapply wp_access; [try lia | try lia | reflexivity | ]; cbv beta.
Ltac wp_step :=
  lazymatch goal with
  | |- wp (mbind _ _) _ _ => apply wp_bind
  | |- wp (mret _) _ _ => apply wp_ret
  | |- wp skip _ _ => apply wp_ret
  | |- wp (outb _ _) _ _ => apply wp_outb
  | |- wp (gets _) _ _ => apply wp_gets
  | |- wp (modify _) _ _ => apply wp_modify
  | |- wp (load8 _) _ _ => wp_mem
  | |- wp (load16 _) _ _ => wp_mem
  | |- wp (load32 _) _ _ => wp_mem
  | |- wp (load64 _) _ _ => wp_mem
  | |- wp (store8 _ _) _ _ => wp_mem
  | |- wp (store16 _ _) _ _ => wp_mem
  | |- wp (store32 _ _) _ _ => wp_mem
  | |- wp (store64 _ _) _ _ => wp_mem
  end; cbv beta.
(** Simplifies the loads of a goal with the stores and the facts at hand. *)
Ltac wp_simp :=
  cbv beta; cbn [k_mem set_mem hd]; autorewrite with mem word;
  rewrite ?Z.eqb_refl; cbn [negb when];
  repeat match goal with
  | H : ld32 ?m ?a = _ |- context [ld32 ?m ?a] => rewrite H
  | H : ld8 ?m ?a = _ |- context [ld8 ?m ?a] => rewrite H
  end.
Ltac wp_steps := wp_simp; repeat (wp_step; wp_simp); try lia.
