(* ===== verification/StringLib.v ===== *)
(** * Block memory operations: src/lib/string.c

    [kmemcpy], [kmemset] and [kwmemset] as the inline assembly executes
    them ([rep movsl]/[rep stosl] for the words, then [rep movsb],
    [rep stosb] or [rep stosw] for the rest), and what they do byte by byte. *)

From Stdlib Require Import ZArith Lia Bool.
From stdpp Require Import base list gmap.
From S2P Require Import Prelude Machine.

(** ** The string instructions, direction flag clear

    Each repeats [n] times and returns the final [edi] (and [esi]). *)

Fixpoint rep_stosl (n : nat) (edi eax : Z) : M Z :=
  match n with
  | O => mret edi
  | S n => store32 edi eax;; rep_stosl n (edi + 4) eax
  end.

Fixpoint rep_stosw (n : nat) (edi eax : Z) : M Z :=
  match n with
  | O => mret edi
  | S n => store16 edi (u16 eax);; rep_stosw n (edi + 2) eax
  end.

Fixpoint rep_stosb (n : nat) (edi eax : Z) : M Z :=
  match n with
  | O => mret edi
  | S n => store8 edi (u8 eax);; rep_stosb n (edi + 1) eax
  end.

Fixpoint rep_movsl (n : nat) (edi esi : Z) : M (Z * Z) :=
  match n with
  | O => mret (edi, esi)
  | S n => v ← load32 esi; store32 edi v;; rep_movsl n (edi + 4) (esi + 4)
  end.

Fixpoint rep_movsb (n : nat) (edi esi : Z) : M (Z * Z) :=
  match n with
  | O => mret (edi, esi)
  | S n => v ← load8 esi; store8 edi v;; rep_movsb n (edi + 1) (esi + 1)
  end.

Definition kmemcpy (dest src count : Z) : M Z :=
  let dwords := count / 4 in
  let bytes := count mod 4 in
  '(ptr, src_ptr) ← rep_movsl (Z.to_nat dwords) dest src;
  rep_movsb (Z.to_nat bytes) ptr src_ptr;;
  mret dest.

Definition kmemset (dest value count : Z) : M Z :=
  let dwords := count / 4 in
  let bytes := count mod 4 in
  let val32 := u8 value in
  let val32 := Z.lor val32 (u32 (Z.shiftl val32 8)) in
  let val32 := Z.lor val32 (u32 (Z.shiftl val32 16)) in
  ptr ← rep_stosl (Z.to_nat dwords) dest val32;
  rep_stosb (Z.to_nat bytes) ptr val32;;
  mret dest.

Definition kwmemset (dest value count : Z) : M Z :=
  let dwords := count / 2 in
  let bytes := count mod 2 in
  let val32 := u16 value in
  let val32 := Z.lor val32 (u32 (Z.shiftl val32 16)) in
  ptr ← rep_stosl (Z.to_nat dwords) dest val32;
  rep_stosw (Z.to_nat bytes) ptr val32;;
  mret dest.

(** ** Single bytes of a word store *)

Lemma ld8_st16_byte m a v i :
  0 <= i < 2 -> ld8 (st16 m a v) (a + i) = u8 (v / 256 ^ i).
Proof.
  intros. unfold st16. assert (i = 0 \/ i = 1) as [->| ->] by lia.
  - rewrite Z.add_0_r, ld8_st8_ne, ld8_st8_eq by lia. by rewrite Z.pow_0_r, Z.div_1_r.
  - by rewrite ld8_st8_eq, Z.pow_1_r.
Qed.

Lemma ld8_st32_byte m a v i :
  0 <= i < 4 -> ld8 (st32 m a v) (a + i) = u8 (v / 256 ^ i).
Proof.
  intros. unfold st32. destruct (Z.lt_ge_cases i 2).
  - rewrite st16_untouched by (unfold range; lia). apply ld8_st16_byte. lia.
  - replace (a + i) with (a + 2 + (i - 2)) by lia. rewrite ld8_st16_byte by lia.
    change 65536 with (256 ^ 2). rewrite Z.div_div by lia.
    rewrite <- Z.pow_add_r by lia. do 3 f_equal; lia.
Qed.

(** The bytes of a little-endian word. *)
Lemma ld32_byte m a i : 0 <= i < 4 -> u8 (ld32 m a / 256 ^ i) = ld8 m (a + i).
Proof.
  intros. unfold ld32, ld16. pose proof (ld8_range m a). pose proof (ld8_range m (a + 1)).
  pose proof (ld8_range m (a + 2)). pose proof (ld8_range m (a + 2 + 1)).
  assert (i = 0 \/ i = 1 \/ i = 2 \/ i = 3) as [->|[->|[->| ->]]] by lia; simpl;
    rewrite ?Z.add_0_r; replace (a + 3) with (a + 2 + 1) by lia; word_lia.
Qed.

Lemma byte_fill v i :
  0 <= v < 256 -> 0 <= i < 4 ->
  u8 (Z.lor (Z.lor v (u32 (Z.shiftl v 8))) (u32 (Z.shiftl (Z.lor v (u32 (Z.shiftl v 8))) 16))
      / 256 ^ i) = v.
Proof.
  intros Hv Hi. rewrite (u32_small (Z.shiftl v 8)) by (rewrite Z.shiftl_mul_pow2; lia).
  rewrite lor_shiftl_add by lia.
  rewrite u32_small by (rewrite Z.shiftl_mul_pow2; lia). rewrite lor_shiftl_add by lia.
  assert (i = 0 \/ i = 1 \/ i = 2 \/ i = 3) as [->|[->|[->| ->]]] by lia; word_lia.
Qed.

(** ** The instructions *)

(** The result of filling [n] bytes at [a] with the bytes [f 0], [f 1], ... *)
Definition filled (f : Z -> Z) (a n : Z) (k k' : kernel) : Prop :=
  exists m', k' = set_mem m' k /\ untouched (range a n) (k_mem k) m' /\
    forall i, 0 <= i < n -> ld8 m' (a + i) = f i.

Lemma filled_nil f a k : filled f a 0 k k.
Proof. exists (k_mem k). split_and!; [by destruct k | apply untouched_refl | lia]. Qed.

Lemma filled_app f a n j k k1 k2 :
  0 <= n -> 0 <= j -> filled f a n k k1 -> filled (fun i => f (n + i)) (a + n) j k1 k2 ->
  filled f a (n + j) k k2.
Proof.
  intros Hn Hj (m1 & -> & U1 & F1) (m2 & -> & U2 & F2). exists m2. simpl in *. split_and!.
  - done.
  - eapply untouched_trans; eapply untouched_mono; [|exact U1| |exact U2];
      unfold range; intros; lia.
  - intros i Hi. destruct (Z.lt_ge_cases i n).
    + rewrite U2 by (unfold range; lia). apply F1. lia.
    + replace (a + i) with (a + n + (i - n)) by lia. rewrite F2 by lia. f_equal. lia.
Qed.

(** A value whose four bytes are all equal to [v]. *)
Definition repeats (v w : Z) : Prop := forall i, 0 <= i < 4 -> u8 (w / 256 ^ i) = v.

Section stos.
Context (v w : Z) (Hw : repeats v w).

Lemma rep_stosl_spec n a k :
  KERNEL_VIRTUAL_BASE <= a -> a + 4 * Z.of_nat n <= 2 ^ 32 ->
  wp (rep_stosl n a w) k (fun r k' =>
    r = a + 4 * Z.of_nat n /\ filled (fun _ => v) a (4 * Z.of_nat n) k k').
Proof.
  revert a k. induction n as [|n IH]; intros a k H1 H2; simpl rep_stosl.
  - apply wp_ret. split; [lia | apply filled_nil].
  - apply wp_bind. wp_mem. eapply wp_mono; [apply IH; lia|]. intros r k' [-> Hf].
    split; [lia|]. replace (4 * Z.of_nat (S n)) with (4 + 4 * Z.of_nat n) by lia.
    eapply filled_app; [lia | lia | | exact Hf]. eexists. split_and!; [reflexivity | |].
    + apply st32_untouched.
    + intros i Hi. rewrite ld8_st32_byte by lia. by apply Hw.
Qed.

Lemma rep_stosb_spec n a k :
  KERNEL_VIRTUAL_BASE <= a -> a + Z.of_nat n <= 2 ^ 32 ->
  wp (rep_stosb n a w) k (fun r k' =>
    r = a + Z.of_nat n /\ filled (fun _ => v) a (Z.of_nat n) k k').
Proof.
  revert a k. induction n as [|n IH]; intros a k H1 H2; simpl rep_stosb.
  - apply wp_ret. split; [lia | apply filled_nil].
  - apply wp_bind. wp_mem. eapply wp_mono; [apply IH; lia|]. intros r k' [-> Hf].
    split; [lia|]. replace (Z.of_nat (S n)) with (1 + Z.of_nat n) by lia.
    eapply filled_app; [lia | lia | | exact Hf]. eexists. split_and!; [reflexivity | |].
    + apply st8_untouched.
    + intros i Hi. assert (i = 0) as -> by lia. rewrite Z.add_0_r, ld8_st8_eq.
      specialize (Hw 0 ltac:(lia)). rewrite Z.pow_0_r, Z.div_1_r in Hw.
      rewrite Hw. rewrite <- Hw. apply u8_small, u8_range.
Qed.
End stos.

(** A 32-bit pattern made of two equal halves [v]. *)
Lemma half_fill v i :
  0 <= v < 65536 -> 0 <= i < 4 ->
  u8 (Z.lor v (u32 (Z.shiftl v 16)) / 256 ^ i) = u8 (v / 256 ^ (i mod 2)).
Proof.
  intros Hv Hi. rewrite u32_small by (rewrite Z.shiftl_mul_pow2; lia).
  rewrite lor_shiftl_add by lia.
  assert (i = 0 \/ i = 1 \/ i = 2 \/ i = 3) as [->|[->|[->| ->]]] by lia;
    change (0 mod 2) with 0; change (1 mod 2) with 1; change (2 mod 2) with 0;
    change (3 mod 2) with 1; word_lia.
Qed.

Section stosw.
Context (v w : Z).
Context (Hw : forall i, 0 <= i < 4 -> u8 (w / 256 ^ i) = u8 (v / 256 ^ (i mod 2))).
Local Abbreviation pat := (fun i => u8 (v / 256 ^ (i mod 2))).

Lemma rep_stosl_pat n a k :
  KERNEL_VIRTUAL_BASE <= a -> a + 4 * Z.of_nat n <= 2 ^ 32 ->
  wp (rep_stosl n a w) k (fun r k' =>
    r = a + 4 * Z.of_nat n /\ filled pat a (4 * Z.of_nat n) k k').
Proof.
  revert a k. induction n as [|n IH]; intros a k H1 H2; simpl rep_stosl.
  - apply wp_ret. split; [lia | apply filled_nil].
  - apply wp_bind. wp_mem. eapply wp_mono; [apply IH; lia|].
    intros r k' [-> (m' & -> & Hu & Hf)].
    split; [lia|]. replace (4 * Z.of_nat (S n)) with (4 + 4 * Z.of_nat n) by lia.
    eapply (filled_app _ _ _ _ _ (set_mem (st32 (k_mem k) a w) k)); [lia | lia | |].
    + eexists. split_and!; [reflexivity | apply st32_untouched |].
      intros i Hi. rewrite ld8_st32_byte by lia. by apply Hw.
    + exists m'. split_and!; [done | done |]. intros i Hi. rewrite Hf by done.
      do 3 f_equal. div_lia.
Qed.
End stosw.

(** [kmemset] sets exactly the [count] bytes at [dest]. *)
Lemma kmemset_spec dest value count k :
  KERNEL_VIRTUAL_BASE <= dest -> 0 <= count -> dest + count <= 2 ^ 32 ->
  wp (kmemset dest value count) k (fun r k' =>
    r = dest /\ filled (fun _ => u8 value) dest count k k').
Proof.
  intros H1 H2 H3. unfold kmemset. pose proof (Z.div_mod count 4 ltac:(lia)) as E.
  pose proof (Z.mod_pos_bound count 4 ltac:(lia)).
  assert (0 <= count / 4) by (apply Z.div_pos; lia).
  match goal with |- context [rep_stosl _ _ ?w] => assert (Hw : repeats (u8 value) w) end.
  { intros i Hi. apply byte_fill; [apply u8_range | done]. }
  apply wp_bind. eapply wp_mono; [eapply (rep_stosl_spec _ _ Hw); lia|].
  intros r1 k1 [-> Hf1]. apply wp_bind.
  eapply wp_mono; [eapply (rep_stosb_spec _ _ Hw); lia|].
  intros r2 k2 [_ Hf2]. apply wp_ret. split; [done|].
  rewrite !Z2Nat.id in * by lia. rewrite E.
  eapply filled_app; [lia | lia | exact Hf1 | exact Hf2].
Qed.

(** [kwmemset] writes [count] copies of the 16-bit [value], low byte first. *)
Lemma kwmemset_spec dest value count k :
  KERNEL_VIRTUAL_BASE <= dest -> 0 <= count -> dest + 2 * count <= 2 ^ 32 ->
  wp (kwmemset dest value count) k (fun r k' =>
    r = dest /\ filled (fun i => u8 (u16 value / 256 ^ (i mod 2))) dest (2 * count) k k').
Proof.
  intros H1 H2 H3. unfold kwmemset. pose proof (Z.div_mod count 2 ltac:(lia)) as E.
  pose proof (Z.mod_pos_bound count 2 ltac:(lia)).
  assert (0 <= count / 2) by (apply Z.div_pos; lia).
  pose proof (u16_range value) as Hv.
  match goal with |- context [rep_stosl _ _ ?w] =>
    assert (Hw : forall i, 0 <= i < 4 -> u8 (w / 256 ^ i) = u8 (u16 value / 256 ^ (i mod 2)))
      by (intros; by apply half_fill);
    assert (Hlow : u16 w = u16 value)
  end.
  { rewrite u32_small by (rewrite Z.shiftl_mul_pow2; lia). rewrite lor_shiftl_add by lia. word_lia. }
  apply wp_bind. eapply wp_mono; [eapply (rep_stosl_pat _ _ Hw); lia|].
  intros r1 k1 [-> Hf1]. apply wp_bind. rewrite Z2Nat.id in * by lia.
  replace (2 * count) with (4 * (count / 2) + 2 * (count mod 2)) by lia.
  assert (count mod 2 = 0 \/ count mod 2 = 1) as [Hm|Hm] by lia; rewrite !Hm in *.
  - change (Z.to_nat 0) with 0%nat. simpl rep_stosw.
    do 2 wp_step.
    split; [done|]. by rewrite Z.mul_0_r, Z.add_0_r.
  - change (Z.to_nat 1) with 1%nat. simpl rep_stosw. repeat wp_step.
    split; [done|].
    eapply filled_app; [lia | lia | exact Hf1 |]. eexists.
    split_and!; [reflexivity | apply st16_untouched |]. intros i Hi.
    rewrite ld8_st16_byte, Hlow by lia. do 3 f_equal. div_lia.
Qed.

(** ** Copies *)

Section copy.
Context (src : Z).

(** [n] bytes at [a] hold what [m0] has at [s]. *)
Definition copied (m0 : memory) (a s n : Z) (k k' : kernel) : Prop :=
  filled (fun i => ld8 m0 (s + i)) a n k k'.

Lemma rep_movsl_spec m0 n a s k :
  KERNEL_VIRTUAL_BASE <= a -> a + 4 * Z.of_nat n <= 2 ^ 32 ->
  KERNEL_VIRTUAL_BASE <= s -> s + 4 * Z.of_nat n <= 2 ^ 32 ->
  a + 4 * Z.of_nat n <= s \/ s + 4 * Z.of_nat n <= a ->
  agree m0 (k_mem k) s (4 * Z.of_nat n) ->
  wp (rep_movsl n a s) k (fun r k' =>
    r = (a + 4 * Z.of_nat n, s + 4 * Z.of_nat n) /\ copied m0 a s (4 * Z.of_nat n) k k').
Proof.
  revert a s k. induction n as [|n IH]; intros a s k H1 H2 H3 H4 Hd Hag; simpl rep_movsl.
  - apply wp_ret. split; [f_equal; lia | apply filled_nil].
  - apply wp_bind. wp_mem. apply wp_bind. wp_mem.
    eapply wp_mono; [apply IH; try lia|].
    + cbn [k_mem set_mem]. intros b Hb. rewrite st32_untouched by (unfold range in *; lia).
      apply Hag. unfold range in *. lia.
    + intros r k' [-> Hf]. split; [f_equal; lia|].
      replace (4 * Z.of_nat (S n)) with (4 + 4 * Z.of_nat n) by lia.
      eapply filled_app; [lia | lia | |].
      * eexists. split_and!; [reflexivity | apply st32_untouched |].
        intros i Hi. rewrite ld8_st32_byte, ld32_byte by lia. apply Hag. unfold range. lia.
      * destruct Hf as (m' & -> & Hu & Hf). exists m'. split_and!; [done | done |].
        intros i Hi. rewrite Hf by done. f_equal. lia.
Qed.

Lemma rep_movsb_spec m0 n a s k :
  KERNEL_VIRTUAL_BASE <= a -> a + Z.of_nat n <= 2 ^ 32 ->
  KERNEL_VIRTUAL_BASE <= s -> s + Z.of_nat n <= 2 ^ 32 ->
  a + Z.of_nat n <= s \/ s + Z.of_nat n <= a ->
  agree m0 (k_mem k) s (Z.of_nat n) ->
  wp (rep_movsb n a s) k (fun _ k' => copied m0 a s (Z.of_nat n) k k').
Proof.
  revert a s k. induction n as [|n IH]; intros a s k H1 H2 H3 H4 Hd Hag; simpl rep_movsb.
  - apply wp_ret. apply filled_nil.
  - apply wp_bind. wp_mem. apply wp_bind. wp_mem.
    eapply wp_mono; [apply IH; try lia|].
    + cbn [k_mem set_mem]. intros b Hb. rewrite st8_untouched by (unfold range in *; lia).
      apply Hag. unfold range in *. lia.
    + intros r k' (m' & -> & Hu & Hf). replace (Z.of_nat (S n)) with (1 + Z.of_nat n) by lia.
      eapply (filled_app _ _ _ _ _ (set_mem (st8 (k_mem k) a (ld8 (k_mem k) s)) k)); [lia | lia | |].
      * eexists. split_and!; [reflexivity | apply st8_untouched |].
        intros i Hi. assert (i = 0) as -> by lia. rewrite !Z.add_0_r, ld8_st8_eq.
        rewrite u8_small by apply ld8_range. apply Hag. unfold range. lia.
      * exists m'. split_and!; [done | done |]. intros i Hi. rewrite Hf by done. f_equal. lia.
Qed.
End copy.

(** [kmemcpy] copies [count] bytes between ranges that do not overlap. *)
Lemma kmemcpy_spec dest src count k :
  KERNEL_VIRTUAL_BASE <= dest -> dest + count <= 2 ^ 32 ->
  KERNEL_VIRTUAL_BASE <= src -> src + count <= 2 ^ 32 -> 0 <= count ->
  dest + count <= src \/ src + count <= dest ->
  wp (kmemcpy dest src count) k (fun r k' =>
    r = dest /\ copied (k_mem k) dest src count k k').
Proof.
  intros H1 H2 H3 H4 H5 Hd. unfold kmemcpy. pose proof (Z.div_mod count 4 ltac:(lia)) as E.
  pose proof (Z.mod_pos_bound count 4 ltac:(lia)).
  assert (0 <= count / 4) by (apply Z.div_pos; lia).
  apply wp_bind. eapply wp_mono; [eapply (rep_movsl_spec (k_mem k)); try lia; by intros b|].
  intros r1 k1 [-> Hf1]. apply wp_bind. rewrite Z2Nat.id in * by lia.
  eapply wp_mono; [eapply (rep_movsb_spec (k_mem k)); try lia|].
  - destruct Hf1 as (m1 & -> & Hu & _). intros b Hb. apply Hu. unfold range in *. lia.
  - rewrite Z2Nat.id by lia. intros r2 k2 (m2 & -> & Hu & Hf2). apply wp_ret. split; [done|].
    rewrite E. eapply filled_app; [lia | lia | exact Hf1 |].
    exists m2. split_and!; [done | done |]. intros i Hi. rewrite Hf2 by done. f_equal. lia.
Qed.

(** ** The properties *)

(** [kmemcpy(dest, src, count)], on mapped ranges that do not overlap,
    returns [dest] with the [count] bytes of [src] at [dest] and every other byte
    of memory unchanged, whatever the count is modulo 4. *)
Theorem kmemcpy_correct dest src count k :
  KERNEL_VIRTUAL_BASE <= dest -> dest + count <= 2 ^ 32 ->
  KERNEL_VIRTUAL_BASE <= src -> src + count <= 2 ^ 32 -> 0 <= count ->
  dest + count <= src \/ src + count <= dest ->
  wp (kmemcpy dest src count) k (fun r k' => r = dest /\ exists m', k' = set_mem m' k /\
    forall b, ld8 m' b = if decide (range dest count b) then ld8 (k_mem k) (src + (b - dest))
                         else ld8 (k_mem k) b).
Proof.
  intros H1 H2 H3 H4 H5 H6. eapply wp_mono; [by apply kmemcpy_spec|].
  intros r k' [-> (m' & -> & Hu & Hf)]. split; [done|]. exists m'. split; [done|].
  intros b. case_decide as Hb; [|by apply Hu]. unfold range in Hb.
  replace b with (dest + (b - dest)) at 1 by lia. apply Hf. lia.
Qed.

Lemma kmemcpy_correct_witness :
  wp (kmemcpy 0xC0000010 0xC0000100 7) (set_mem (st32 ∅ 0xC0000100 0x11223344) empty_kernel)
    (fun r k' => r = 0xC0000010 /\ ld8 (k_mem k') 0xC0000010 = 0x44).
Proof.
  eapply wp_mono; [apply (kmemcpy_correct 0xC0000010 0xC0000100 7); unfold KERNEL_VIRTUAL_BASE; lia|].
  intros r k' (-> & m' & -> & Hm). split; [done|]. cbn [k_mem set_mem]. rewrite Hm. reflexivity.
Defined.

(** [kmemset] sets each of the [count] bytes at [dest] to the low byte of
    [value], whatever the count is modulo 4, and changes nothing else. *)
Theorem kmemset_correct dest value count k :
  KERNEL_VIRTUAL_BASE <= dest -> 0 <= count -> dest + count <= 2 ^ 32 ->
  wp (kmemset dest value count) k (fun r k' => r = dest /\ exists m', k' = set_mem m' k /\
    forall b, ld8 m' b = if decide (range dest count b) then u8 value else ld8 (k_mem k) b).
Proof.
  intros H1 H2 H3. eapply wp_mono; [by apply kmemset_spec|].
  intros r k' [-> (m' & -> & Hu & Hf)]. split; [done|]. exists m'. split; [done|].
  intros b. case_decide as Hb; [|by apply Hu]. unfold range in Hb.
  replace b with (dest + (b - dest)) by lia. apply Hf. lia.
Qed.

Lemma kmemset_correct_witness :
  wp (kmemset 0xC0000001 0x1FF 6) empty_kernel
    (fun r k' => r = 0xC0000001 /\ ld8 (k_mem k') 0xC0000006 = 0xFF /\ ld8 (k_mem k') 0xC0000007 = 0).
Proof.
  eapply wp_mono; [apply (kmemset_correct 0xC0000001 0x1FF 6); unfold KERNEL_VIRTUAL_BASE; lia|].
  intros r k' (-> & m' & -> & Hm). cbn [k_mem set_mem]. rewrite !Hm. done.
Defined.
