(* ===== verification/Console.v ===== *)
(** * Screen, serial line, kprintf and panic:
    src/drivers/vga.c, src/drivers/vga.h, src/drivers/serial.c,
    src/lib/kprintf.c, src/lib/panic.c

    Every character the kernel prints goes to the VGA text buffer (memory at
    0xC00B8000) and to the serial port 0x3F8.  The lemmas here say
    that the cursor stays within columns 0 .. 79 and rows 0 .. 25 (25 is the
    line below the last, where the next character scrolls first), that the
    driver writes nothing but its buffer, and that the serial line receives
    exactly the rendered text; Screen.v says what the buffer then shows.

    A C string is modelled by its characters before the terminator, so a
    [string] of the model stands for a C string when it has no NUL character.
    The count [kprintf] returns is an unbounded number; the C [int] agrees with
    it for texts below 2^31 characters. *)

From Stdlib Require Import ZArith Lia Bool Ascii Wf_nat.
From stdpp Require Import base list gmap strings.
From S2P Require Import Prelude Machine StringLib.

Definition char_code (c : ascii) : Z := Z.of_N (N_of_ascii c).
Definition chars (s : string) : list Z := char_code <$> String.list_ascii_of_string s.

(** ** src/drivers/vga.c *)

Definition VGA_MEMORY : Z := 0xB8000 + 0xC0000000.
Definition columns : Z := 80.
Definition rows : Z := 25.

(** [enum vga_color] is the number 0 .. 15. *)
Definition VGA_COLOR_BLACK : Z := 0.
Definition VGA_COLOR_WHITE : Z := 15.

(** The initial values of the driver's globals. *)
Definition vga_initial : vga_globals := MkVga 0x0F 2 0.

Definition set_cursor (row col : Z) : M unit :=
  modify (fun k => set_vga (MkVga (vga_color (k_vga k)) (u8 row) (u8 col)) k).

Definition vga_move_cursor : M unit :=
  row ← gets (fun k => cursor_row (k_vga k));
  col ← gets (fun k => cursor_col (k_vga k));
  let pos := u16 (row * columns + col) in
  outb 0x3D4 0x0F;;
  outb 0x3D5 (u8 (Z.land pos 0xFF));;
  outb 0x3D4 0x0E;;
  outb 0x3D5 (u8 (Z.land (Z.shiftr pos 8) 0xFF)).

Definition blank (color : Z) : Z := Z.lor 32 (Z.shiftl color 8).

Definition vga_scroll : M unit :=
  for_up (Z.to_nat (rows - 1)) 1 (fun r =>
    kmemcpy (VGA_MEMORY + 2 * (80 * (r - 1))) (VGA_MEMORY + 2 * (80 * r)) (columns * 2);;
    skip);;
  color ← gets (fun k => vga_color (k_vga k));
  kwmemset (VGA_MEMORY + 2 * (80 * (rows - 1))) (blank color) columns;;
  skip.

Definition vga_clear : M unit :=
  set_cursor 0 0;;
  vga_move_cursor;;
  color ← gets (fun k => vga_color (k_vga k));
  kwmemset VGA_MEMORY (blank color) (columns * rows);;
  skip.

Definition vga_set_color (fg bg : Z) : M unit :=
  modify (fun k =>
    set_vga (MkVga (u8 (Z.lor (Z.shiftl bg 4) fg)) (cursor_row (k_vga k)) (cursor_col (k_vga k))) k).

(** The cell for [char c]: [c | (vga_color << 8)], where [c] is promoted from a
    signed 8-bit [char] to [int], and the result is truncated to 16 bits. *)
Definition vga_cell (c color : Z) : Z := u16 (Z.lor (sext 8 c) (Z.shiftl color 8)).

Definition vga_putc (c : Z) : M unit :=
  row ← gets (fun k => cursor_row (k_vga k));
  col ← gets (fun k => cursor_col (k_vga k));
  when (row =? rows) (vga_scroll;; set_cursor (rows - 1) col);;
  row ← gets (fun k => cursor_row (k_vga k));
  col ← gets (fun k => cursor_col (k_vga k));
  color ← gets (fun k => vga_color (k_vga k));
  (if c =? 10 then set_cursor (row + 1) 0
   else
     store16 (VGA_MEMORY + 2 * (row * columns + col)) (vga_cell c color);;
     set_cursor row (col + 1);;
     col ← gets (fun k => cursor_col (k_vga k));
     when (col =? columns) (set_cursor (row + 1) 0));;
  vga_move_cursor.

Definition vga_putc_at (c row col : Z) : M unit :=
  color ← gets (fun k => vga_color (k_vga k));
  store16 (VGA_MEMORY + 2 * (row * columns + col)) (vga_cell c color).

Fixpoint vga_puts (str : list Z) : M unit :=
  match str with
  | [] => skip
  | c :: str => vga_putc c;; vga_puts str
  end.

(** ** src/drivers/serial.c, the transmit side *)

Definition PORT : Z := 0x3F8.
Definition is_transmit_empty : M Z :=
  v ← inb (PORT + 5); mret (Z.land v 0x20).
Definition seriel_putc (c : Z) : M unit := outb PORT c.

(** ** src/lib/kprintf.c *)

(** A variadic argument: a 32-bit word, a 64-bit word, or a string pointer. *)
Inductive arg := A32 (v : Z) | A64 (v : Z) | AStr (s : string).

Definition digits : list Z := chars "0123456789ABCDEF".
Definition digit (d : Z) : Z := nth (Z.to_nat d) digits 0.

Definition put_c (c : Z) : M unit := vga_putc c;; seriel_putc c.

(** The loop [while (n > 0)]: the buffer it fills, least significant digit
    first.  [fuel] is the size of the C buffer. *)
Fixpoint to_digits (fuel : nat) (n base : Z) : list Z :=
  match fuel with
  | O => []
  | S fuel => if n >? 0 then digit (n mod base) :: to_digits fuel (n / base) base else []
  end.

Fixpoint put_all (l : list Z) : M unit :=
  match l with
  | [] => skip
  | c :: l => put_c c;; put_all l
  end.

Definition print_unsigned (n base : Z) : M Z :=
  if n =? 0 then put_c 48;; mret 1
  else
    let buf := to_digits 64 n base in
    put_all (rev buf);;
    mret (Z.of_nat (length buf)).

Definition print_signed (n : Z) : M Z :=
  if n <? 0 then
    put_c 45;;
    c ← print_unsigned (u64 (- n)) 10;
    mret (1 + c)
  else print_unsigned (u64 n) 10.

Definition print_str (str : list Z) : M Z :=
  put_all str;; mret (Z.of_nat (length str)).

(** One conversion [%..d]: the characters counted and the arguments left. *)
Definition conversion (d : Z) (long_check long_flag : bool) (args : list arg)
    : M (Z * list arg) :=
  if d =? 100 (* d *) then
    match args, long_flag with
    | A64 v :: args, true => c ← print_signed (sext 64 v); mret (c, args)
    | A32 v :: args, false => c ← print_signed (sext 32 v); mret (c, args)
    | _, _ => stop_with Overrun
    end
  else if d =? 117 (* u *) then
    match args, long_flag with
    | A64 v :: args, true => c ← print_unsigned (u64 v) 10; mret (c, args)
    | A32 v :: args, false => c ← print_unsigned (u32 v) 10; mret (c, args)
    | _, _ => stop_with Overrun
    end
  else if d =? 120 (* x *) then
    put_c 48;; put_c 120;;
    match args, long_flag with
    | A64 v :: args, true => c ← print_unsigned (u64 v) 16; mret (2 + c, args)
    | A32 v :: args, false => c ← print_unsigned (u32 v) 16; mret (2 + c, args)
    | _, _ => stop_with Overrun
    end
  else if d =? 99 (* c *) then
    match args with
    | A32 v :: args => put_c (u8 v);; mret (1, args)
    | _ => stop_with Overrun
    end
  else if d =? 115 (* s *) then
    match args with
    | AStr s :: args => c ← print_str (chars s); mret (c, args)
    | _ => stop_with Overrun
    end
  else if d =? 37 (* % *) then put_c 37;; mret (1, args)
  else
    put_c 37;;
    when long_check (put_c 108);;
    put_c d;;
    mret ((if long_check then 1 else 0) + 2, args).

(** The loop over [fmt].  At the end of the string after a [%] the C code runs
    the default case on the terminator and then steps past it. *)
Fixpoint kprintf_loop (fmt : list Z) (args : list arg) (count : Z) : M Z :=
  let past_end lc :=
    conversion 0 lc false args;; stop_with Overrun in
  match fmt with
  | [] => mret count
  | ch :: fmt1 =>
    if ch =? 37 then
      match fmt1 with
      | [] => past_end false
      | c1 :: fmt2 =>
        if c1 =? 108 then
          match fmt2 with
          | [] => past_end true
          | c2 :: fmt3 =>
            if c2 =? 108 then
              match fmt3 with
              | [] => past_end true
              | c3 :: fmt4 =>
                '(c, args') ← conversion c3 true true args;
                kprintf_loop fmt4 args' (count + c)
              end
            else
              '(c, args') ← conversion c2 true false args;
              kprintf_loop fmt3 args' (count + c)
          end
        else
          '(c, args') ← conversion c1 false false args;
          kprintf_loop fmt2 args' (count + c)
      end
    else put_c ch;; kprintf_loop fmt1 args (count + 1)
  end.

Definition kprintf (fmt : string) (args : list arg) : M Z :=
  kprintf_loop (chars fmt) args 0.

(** ** src/lib/panic.c and the initialisation in src/drivers/serial.c *)

Definition cli : M unit := modify (fun k => set_cpu (set_if false (k_cpu k)) k).
Definition sti : M unit := modify (fun k => set_cpu (set_if true (k_cpu k)) k).

Definition newline : string := String (ascii_of_nat 10) "".

(** Prints the message and halts: the final [hlt] loop never returns. *)
Definition kernel_panic {A} (err : string) : M A :=
  cli;;
  kprintf (newline ++ "*** KERNEL PANIC ***" ++ newline) [];;
  kprintf ("%s" ++ newline) [AStr err];;
  kprintf ("System halted." ++ newline) [];;
  stop_with (Panic err).

Definition seriel_init : M unit :=
  outb (PORT + 1) 0x00;;
  outb (PORT + 3) 0x80;;
  outb (PORT + 0) 0x03;;
  outb (PORT + 1) 0x00;;
  outb (PORT + 3) 0x03;;
  outb (PORT + 2) 0xC7;;
  outb (PORT + 4) 0x0B;;
  outb (PORT + 4) 0x1E;;
  outb (PORT + 0) 0xAE;;
  v ← inb (PORT + 0);
  when (negb (v =? 0xAE)) (kernel_panic "Seriel Not available");;
  outb (PORT + 4) 0x0F.

(** ** The console as seen from outside *)

(** The text sent to the serial line, oldest character first. *)
Fixpoint serial_text (io : list io_event) : list Z :=
  match io with
  | [] => []
  | Out p v :: io => serial_text io ++ (if p =? PORT then [v] else [])
  | In _ _ :: io => serial_text io
  end.

(** The cursor is on the screen, or on the line below it waiting to scroll. *)
Definition cursor_ok (v : vga_globals) : Prop :=
  0 <= cursor_row v <= rows /\ 0 <= cursor_col v < columns /\ 0 <= vga_color v < 256.

Definition vga_fp : Z -> Prop := range VGA_MEMORY (2 * columns * rows).

(** [k'] is [k] after console output [txt]: only the text buffer, the port
    history and the cursor changed. *)
Definition printed (txt : list Z) (k k' : kernel) : Prop :=
  exists m io v,
    k' = set_vga v (set_io io (set_mem m k)) /\ untouched vga_fp (k_mem k) m /\
    serial_text io = serial_text (k_io k) ++ txt /\ cursor_ok v.

Lemma printed_nil k : cursor_ok (k_vga k) -> printed [] k k.
Proof.
  intros. exists (k_mem k), (k_io k), (k_vga k).
  split_and!; [by destruct k | apply untouched_refl | by rewrite app_nil_r | done].
Qed.

Lemma printed_app t1 t2 k k1 k2 :
  printed t1 k k1 -> printed t2 k1 k2 -> printed (t1 ++ t2) k k2.
Proof.
  intros (m1 & io1 & v1 & -> & U1 & S1 & C1) (m2 & io2 & v2 & -> & U2 & S2 & C2).
  exists m2, io2, v2. simpl in *. split_and!.
  - done.
  - by eapply untouched_trans.
  - by rewrite S2, S1, app_assoc.
  - done.
Qed.

Lemma printed_cursor t k k' : printed t k k' -> cursor_ok (k_vga k').
Proof. by intros (? & ? & ? & -> & _ & _ & ?). Qed.

(** The pieces of a console operation: a port write that is not to the serial
    line, a cursor move on the screen, a store into the text buffer. *)
Lemma printed_outb port val k :
  u16 port <> PORT -> cursor_ok (k_vga k) ->
  printed [] k (set_io (Out (u16 port) (u8 val) :: k_io k) k).
Proof.
  intros Hp Hc. exists (k_mem k), (Out (u16 port) (u8 val) :: k_io k), (k_vga k). simpl.
  split_and!; [by destruct k | apply untouched_refl | | done].
  by rewrite (proj2 (Z.eqb_neq _ _)).
Qed.

Lemma set_vga_set_vga v w k : set_vga v (set_vga w k) = set_vga v k.
Proof. reflexivity. Qed.

Lemma printed_vga v k : cursor_ok v -> printed [] k (set_vga v k).
Proof.
  intros. exists (k_mem k), (k_io k), v.
  split_and!; [done | apply untouched_refl | by rewrite app_nil_r | done].
Qed.

Lemma printed_mem m k :
  untouched vga_fp (k_mem k) m -> cursor_ok (k_vga k) -> printed [] k (set_mem m k).
Proof.
  intros. exists m, (k_io k), (k_vga k).
  split_and!; [by destruct k | done | by rewrite app_nil_r | done].
Qed.

Lemma printed_filled f a n k k' :
  (forall b, range a n b -> vga_fp b) -> cursor_ok (k_vga k) ->
  filled f a n k k' -> printed [] k k'.
Proof.
  intros Hr Hc (m' & -> & Hu & _). apply printed_mem; [|done].
  by eapply untouched_mono.
Qed.

Lemma printed_seq k k1 k2 t : printed [] k k1 -> printed t k1 k2 -> printed t k k2.
Proof. intros H1 H2. by eapply (printed_app []). Qed.

(** [prints m txt r]: from any cursor within these bounds, [m] returns [r] having
    printed [txt]. *)
Definition prints {A} (m : M A) (txt : list Z) (r : A) : Prop :=
  forall k, cursor_ok (k_vga k) -> wp m k (fun a k' => a = r /\ printed txt k k').

Lemma prints_wp {A} (m : M A) t r k (Q : A -> kernel -> Prop) :
  prints m t r -> cursor_ok (k_vga k) -> (forall k', printed t k k' -> Q r k') -> wp m k Q.
Proof. intros Hm Hk HQ. eapply wp_mono; [by apply Hm|]. intros a k' [-> H]. auto. Qed.

Lemma prints_ret {A} (a : A) : prints (mret a) [] a.
Proof. intros k Hk. apply wp_ret. split; [done | by apply printed_nil]. Qed.

Lemma prints_bind {A B} (m : M A) (f : A -> M B) t1 t2 a b :
  prints m t1 a -> prints (f a) t2 b -> prints (m ≫= f) (t1 ++ t2) b.
Proof.
  intros Hm Hf k Hk. apply wp_bind. eapply wp_mono; [by apply Hm|].
  intros a' k1 [-> H1]. eapply wp_mono; [apply Hf; by eapply printed_cursor|].
  intros b' k2 [-> H2]. split; [done | by eapply printed_app].
Qed.

Lemma prints_bind_nil {A B} (m : M A) (f : A -> M B) t a b :
  prints m [] a -> prints (f a) t b -> prints (m ≫= f) t b.
Proof. apply prints_bind. Qed.

Lemma prints_eq {A} (m : M A) t t' a a' : t = t' -> a = a' -> prints m t a -> prints m t' a'.
Proof. by intros -> ->. Qed.

Lemma prints_outb port val : u16 port <> PORT -> prints (outb port val) [] tt.
Proof. intros Hp k Hk. apply wp_outb. split; [done | by apply printed_outb]. Qed.

Create HintDb console.
#[export] Hint Resolve prints_ret prints_bind_nil prints_outb : console.

(** ** The VGA driver *)

Lemma vga_move_cursor_prints : prints vga_move_cursor [] tt.
Proof.
  intros k Hk. unfold vga_move_cursor. do 2 (apply wp_bind, wp_gets; cbv beta).
  match goal with |- wp ?m _ _ => enough (prints m [] tt) as H by (by apply H) end.
  repeat (eapply prints_bind_nil; [by apply prints_outb|]). by apply prints_outb.
Qed.

Lemma vga_scroll_prints : prints vga_scroll [] tt.
Proof.
  intros k Hk. unfold vga_scroll. apply wp_bind.
  eapply (wp_for_up _ _ _ _ (fun _ => printed [] k)); [by apply printed_nil | |].
  - intros r k1 Hr Hk1. unfold rows, columns in *. apply wp_bind.
    eapply wp_mono; [apply kmemcpy_spec; unfold VGA_MEMORY, KERNEL_VIRTUAL_BASE; lia|].
    intros _ k2 [_ Hf]. apply wp_ret. eapply (printed_app []); [exact Hk1|].
    eapply printed_filled; [|by eapply printed_cursor|exact Hf].
    unfold range, vga_fp, range, columns, rows. intros b Hb. lia.
  - intros k1 Hk1. apply wp_bind, wp_gets. apply wp_bind. unfold rows, columns in *.
    eapply wp_mono; [apply kwmemset_spec; unfold VGA_MEMORY, KERNEL_VIRTUAL_BASE; lia|].
    intros _ k2 [_ Hf]. apply wp_ret. split; [done|]. eapply (printed_app []); [exact Hk1|].
    eapply printed_filled; [|by eapply printed_cursor|exact Hf].
    unfold range, vga_fp, range, columns, rows. intros b Hb. lia.
Qed.

(** The part of [vga_putc] after the scroll. *)
Lemma vga_putc_tail_prints c k :
  cursor_ok (k_vga k) -> cursor_row (k_vga k) < rows ->
  wp (row ← gets (fun k => cursor_row (k_vga k));
      col ← gets (fun k => cursor_col (k_vga k));
      color ← gets (fun k => vga_color (k_vga k));
      (if c =? 10 then set_cursor (row + 1) 0
       else
         store16 (VGA_MEMORY + 2 * (row * columns + col)) (vga_cell c color);;
         set_cursor row (col + 1);;
         col ← gets (fun k => cursor_col (k_vga k));
         when (col =? columns) (set_cursor (row + 1) 0));;
      vga_move_cursor) k (fun a k' => a = tt /\ printed [] k k').
Proof.
  intros (Hr & Hc & Hcol) Hlt. unfold rows, columns, cursor_ok in *.
  do 3 (apply wp_bind, wp_gets; cbv beta). apply wp_bind.
  assert (Hfin : forall k1, printed [] k k1 ->
            wp vga_move_cursor k1 (fun a k' => a = tt /\ printed [] k k')).
  { intros k1 H1. eapply wp_mono; [apply vga_move_cursor_prints; by eapply printed_cursor|].
    intros a k2 [-> H2]. split; [done | by eapply printed_seq]. }
  destruct (c =? 10).
  - apply wp_modify, Hfin, printed_vga. unfold cursor_ok, rows, columns. simpl.
    rewrite !u8_small by lia. lia.
  - apply wp_bind. eapply wp_access; [unfold VGA_MEMORY, KERNEL_VIRTUAL_BASE; lia
      | unfold VGA_MEMORY; lia | reflexivity |]. cbv beta.
    assert (Hst : printed [] k (set_mem (st16 (k_mem k)
      (VGA_MEMORY + 2 * (cursor_row (k_vga k) * 80 + cursor_col (k_vga k)))
      (vga_cell c (vga_color (k_vga k)))) k)).
    { apply printed_mem; [|done]. eapply untouched_mono; [|apply st16_untouched].
      unfold vga_fp, range, columns, rows. intros b Hb. lia. }
    apply wp_bind, wp_modify. apply wp_bind, wp_gets. simpl.
    rewrite (u8_small (cursor_col (k_vga k) + 1)), (u8_small (cursor_row (k_vga k))) by lia.
    apply wp_when; intros Hb.
    + apply wp_modify. apply Hfin. eapply printed_seq; [exact Hst|].
      rewrite set_vga_set_vga. apply printed_vga.
      unfold cursor_ok, rows, columns. simpl. rewrite !u8_small by lia. lia.
    + apply Z.eqb_neq in Hb. apply Hfin. eapply printed_seq; [exact Hst|]. apply printed_vga.
      unfold cursor_ok, rows, columns. simpl. lia.
Qed.

Lemma vga_putc_prints c : prints (vga_putc c) [] tt.
Proof.
  intros k Hk. unfold vga_putc. do 2 (apply wp_bind, wp_gets; cbv beta). apply wp_bind.
  apply wp_when; intros Hb.
  - apply wp_bind. eapply prints_wp; [apply vga_scroll_prints | done |].
    intros k1 H1. apply wp_modify.
    match goal with |- wp _ ?k2 _ => assert (H2 : printed [] k k2) end.
    { eapply printed_seq; [exact H1|]. apply printed_vga.
      destruct (printed_cursor _ _ _ H1) as (_ & _ & Hcol). destruct Hk as (_ & Hc & _).
      unfold cursor_ok, rows, columns in *. simpl. rewrite !u8_small by lia. lia. }
    eapply wp_mono; [apply vga_putc_tail_prints; [by eapply printed_cursor | done]|].
    intros a k3 [-> H3]. split; [done | by eapply printed_seq].
  - apply vga_putc_tail_prints; [done|]. apply Z.eqb_neq in Hb. destruct Hk. lia.
Qed.

(** ** kprintf: a reference rendering *)

Definition render_unsigned (n base : Z) : list Z :=
  if n =? 0 then [48] else rev (to_digits 64 n base).

Definition render_signed (n : Z) : list Z :=
  if n <? 0 then 45 :: render_unsigned (u64 (- n)) 10 else render_unsigned (u64 n) 10.

(** The text of one conversion and the arguments left; [None] when the next
    argument does not have the type the conversion reads. *)
Definition render_conv (d : Z) (lc lf : bool) (args : list arg) : option (list Z * list arg) :=
  if d =? 100 then
    match args, lf with
    | A64 v :: args, true => Some (render_signed (sext 64 v), args)
    | A32 v :: args, false => Some (render_signed (sext 32 v), args)
    | _, _ => None
    end
  else if d =? 117 then
    match args, lf with
    | A64 v :: args, true => Some (render_unsigned (u64 v) 10, args)
    | A32 v :: args, false => Some (render_unsigned (u32 v) 10, args)
    | _, _ => None
    end
  else if d =? 120 then
    match args, lf with
    | A64 v :: args, true => Some (48 :: 120 :: render_unsigned (u64 v) 16, args)
    | A32 v :: args, false => Some (48 :: 120 :: render_unsigned (u32 v) 16, args)
    | _, _ => None
    end
  else if d =? 99 then
    match args with A32 v :: args => Some ([u8 v], args) | _ => None end
  else if d =? 115 then
    match args with AStr s :: args => Some (chars s, args) | _ => None end
  else if d =? 37 then Some ([37], args)
  else Some (37 :: (if lc then [108] else []) ++ [d], args).

(** The text of a format; [None] when it ends inside a conversion. *)
Fixpoint render (fmt : list Z) (args : list arg) : option (list Z) :=
  match fmt with
  | [] => Some []
  | ch :: fmt1 =>
    if negb (ch =? 37) then t ← render fmt1 args; Some (ch :: t) else
    match fmt1 with
    | [] => None
    | c1 :: fmt2 =>
      if negb (c1 =? 108) then
        '(t, args') ← render_conv c1 false false args; t' ← render fmt2 args'; Some (t ++ t')
      else
      match fmt2 with
      | [] => None
      | c2 :: fmt3 =>
        if negb (c2 =? 108) then
          '(t, args') ← render_conv c2 true false args; t' ← render fmt3 args'; Some (t ++ t')
        else
        match fmt3 with
        | [] => None
        | c3 :: fmt4 =>
          '(t, args') ← render_conv c3 true true args; t' ← render fmt4 args'; Some (t ++ t')
        end
      end
    end
  end.

Lemma put_c_prints c : prints (put_c c) [u8 c] tt.
Proof.
  unfold put_c. eapply prints_bind_nil; [apply vga_putc_prints|].
  intros k Hk. apply wp_outb. split; [done|].
  exists (k_mem k), (Out (u16 PORT) (u8 c) :: k_io k), (k_vga k).
  split_and!; [by destruct k | apply untouched_refl | | done]. done.
Qed.

Lemma put_all_prints l : prints (put_all l) (u8 <$> l) tt.
Proof.
  induction l as [|c l IH]; simpl; [apply prints_ret|].
  apply (prints_bind _ _ [u8 c] _ tt); [apply put_c_prints | exact IH].
Qed.

(** [runs m t r]: [m] is the output of the characters [t] and returns [r]. *)
Definition runs {A} (m : M A) (t : list Z) (r : A) : Prop := forall k, m k = (put_all t;; mret r) k.

Lemma put_all_app t1 t2 k : put_all (t1 ++ t2) k = (put_all t1;; put_all t2) k.
Proof.
  revert k. induction t1 as [|c t1 IH]; intros k; [done|]. cbn [app put_all]. unfold mbind, M_bind in *.
  destruct (put_c c k) as [[] k1|e k1]; [apply IH | done].
Qed.

Lemma runs_ret {A} (a : A) : runs (mret a) [] a.
Proof. done. Qed.

Lemma runs_bind {A B} (m : M A) (f : A -> M B) t1 t2 a b :
  runs m t1 a -> runs (f a) t2 b -> runs (m ≫= f) (t1 ++ t2) b.
Proof.
  intros Hm Hf k. unfold runs, mbind, M_bind in *. rewrite Hm. rewrite put_all_app. unfold mbind, M_bind.
  destruct (put_all t1 k) as [[] k1|e k1]; [apply Hf | done].
Qed.

Lemma runs_eq {A} (m : M A) t t' a a' : t = t' -> a = a' -> runs m t a -> runs m t' a'.
Proof. by intros -> ->. Qed.

Lemma put_c_runs c : runs (put_c c) [c] tt.
Proof. intros k. cbn [put_all]. unfold mbind, M_bind. by destruct (put_c c k) as [[] k1|e k1]. Qed.

Lemma put_all_runs t : runs (put_all t) t tt.
Proof. intros k. unfold mbind, M_bind. by destruct (put_all t k) as [[] k1|e k1]. Qed.

Lemma runs_prints {A} (m : M A) t r : runs m t r -> prints m (u8 <$> t) r.
Proof.
  intros Hm k Hk. eapply wp_ext; [apply Hm|]. revert k Hk. eapply prints_eq; [apply app_nil_r | reflexivity |].
  eapply (prints_bind _ _ _ [] tt); [apply put_all_prints | apply prints_ret].
Qed.

Lemma print_unsigned_runs n base :
  runs (print_unsigned n base) (render_unsigned n base) (Z.of_nat (length (render_unsigned n base))).
Proof.
  unfold print_unsigned, render_unsigned. destruct (n =? 0).
  - apply (runs_bind _ _ [48] [] tt); [apply put_c_runs | apply runs_ret].
  - rewrite length_rev. eapply runs_eq; [apply app_nil_r | reflexivity |].
    eapply (runs_bind _ _ _ [] tt); [apply put_all_runs | apply runs_ret].
Qed.

Lemma print_signed_runs n : runs (print_signed n) (render_signed n) (Z.of_nat (length (render_signed n))).
Proof.
  unfold print_signed, render_signed. destruct (n <? 0); [|apply print_unsigned_runs].
  apply (runs_bind _ _ [45] _ tt); [apply put_c_runs|]. eapply runs_eq; [apply app_nil_r | |].
  2: { eapply (runs_bind _ _ _ []); [apply print_unsigned_runs | apply runs_ret]. }
  simpl length. lia.
Qed.

Lemma print_str_runs l : runs (print_str l) l (Z.of_nat (length l)).
Proof.
  unfold print_str. eapply runs_eq; [apply app_nil_r | reflexivity |].
  eapply (runs_bind _ _ _ [] tt); [apply put_all_runs | apply runs_ret].
Qed.

(** Runs the printing lemmas along a sequence of binds. *)
Ltac runs_leaf :=
  first [ apply put_c_runs | apply print_signed_runs | apply print_unsigned_runs
        | apply print_str_runs | apply runs_ret ].
Ltac runs_steps :=
  eapply runs_eq; cycle 2;
  [ repeat (eapply runs_bind; [runs_leaf|]; cbv beta iota); runs_leaf | | ].

Lemma conversion_runs d lc lf args t args' :
  render_conv d lc lf args = Some (t, args') ->
  runs (conversion d lc lf args) t (Z.of_nat (length t), args').
Proof.
  unfold render_conv, conversion. intros H.
  repeat (case_match; simplify_eq/=); runs_steps; rewrite ?app_nil_r; simpl;
    try done; f_equal; lia.
Qed.

(** A conversion followed by the rest of the format. *)
Lemma conversion_then d lc lf args count t fmt (loop : list arg -> Z -> M Z) :
  (forall args' t' count', render fmt args' = Some t' ->
     runs (loop args' count') t' (count' + Z.of_nat (length t'))) ->
  ('(t, args') ← render_conv d lc lf args; t' ← render fmt args'; Some (t ++ t')) = Some t ->
  runs ('(c, args') ← conversion d lc lf args; loop args' (count + c))
    t (count + Z.of_nat (length t)).
Proof.
  intros IH H. destruct (render_conv d lc lf args) as [[t1 args']|] eqn:E1; [|done]. simpl in H.
  destruct (render fmt args') as [t2|] eqn:E2; [|done]. simpl in H. simplify_eq.
  eapply runs_bind; [by apply conversion_runs|]. cbv beta iota.
  eapply runs_eq; [reflexivity | | by apply IH]. rewrite length_app. lia.
Qed.

Lemma kprintf_loop_runs fmt args t count :
  render fmt args = Some t -> runs (kprintf_loop fmt args count) t (count + Z.of_nat (length t)).
Proof.
  revert args t count. induction fmt as [fmt IH] using (induction_ltof1 _ (@length Z)).
  unfold ltof in IH. intros args t count H. destruct fmt as [|ch fmt1]; simpl in *.
  { simplify_eq. eapply runs_eq; [reflexivity | | apply runs_ret]. simpl. lia. }
  destruct (ch =? 37); simpl in H.
  2: { destruct (render fmt1 args) as [t'|] eqn:E; [|done]. simpl in H. simplify_eq. simpl.
       apply (runs_bind _ _ [ch] _ tt); [apply put_c_runs|].
       eapply runs_eq; [reflexivity | | apply IH; [simpl; lia | exact E]]. simpl. lia. }
  destruct fmt1 as [|c1 fmt2]; [done|].
  destruct (c1 =? 108); simpl in H;
    [|apply (conversion_then _ _ _ _ _ _ fmt2); [|done]; intros; apply IH; [simpl; lia | done]].
  destruct fmt2 as [|c2 fmt3]; [done|].
  destruct (c2 =? 108); simpl in H;
    [|apply (conversion_then _ _ _ _ _ _ fmt3); [|done]; intros; apply IH; [simpl; lia | done]].
  destruct fmt3 as [|c3 fmt4]; [done|].
  apply (conversion_then _ _ _ _ _ _ fmt4); [|done]; intros; apply IH; [simpl; lia | done].
Qed.

(** ** The digits *)

(** The number a digit list stands for, least significant digit first. *)
Fixpoint digits_value (base : Z) (ds : list Z) : Z :=
  match ds with
  | [] => 0
  | d :: ds => d + base * digits_value base ds
  end.

Lemma to_digits_spec base fuel n :
  2 <= base -> 0 <= n < base ^ Z.of_nat fuel ->
  exists ds, to_digits fuel n base = digit <$> ds /\
    Forall (fun d => 0 <= d < base) ds /\ digits_value base ds = n /\
    (n > 0 -> last ds <> Some 0) /\ (n = 0 -> ds = []).
Proof.
  intros Hb. revert n. induction fuel as [|fuel IH]; intros n Hn.
  - exists []. simpl in *. split_and!; [done | done | lia | lia | done].
  - rewrite Nat2Z.inj_succ, Z.pow_succ_r in Hn by lia. simpl.
    destruct (Z.gtb_spec n 0) as [Hp|Hp].
    2: { exists []. simpl. split_and!; [done | done | lia | lia | done]. }
    destruct (IH (n / base)) as (ds & -> & Hall & Hv & Hlast & Hnil).
    { split; [apply Z.div_pos; lia|]. apply Z.div_lt_upper_bound; lia. }
    exists (n mod base :: ds). pose proof (Z.mod_pos_bound n base ltac:(lia)).
    pose proof (Z.div_mod n base ltac:(lia)). split_and!; [done | by constructor | simpl; lia | | lia].
    intros _. destruct ds as [|d ds].
    + simpl in *. intros [=]. nia.
    + change (last (d :: ds) <> Some 0). apply Hlast. simpl in Hv.
      destruct (Z.eq_dec (n / base) 0) as [E|]; [by specialize (Hnil E)|].
      assert (0 <= n / base) by (apply Z.div_pos; lia). lia.
Qed.

(** ** Panics *)

Lemma kprintf_runs fmt args t :
  render (chars fmt) args = Some t -> runs (kprintf fmt args) t (Z.of_nat (length t)).
Proof. apply kprintf_loop_runs. Qed.

Lemma kprintf_prints fmt args t :
  render (chars fmt) args = Some t ->
  prints (kprintf fmt args) (u8 <$> t) (Z.of_nat (length t)).
Proof. intros Hr. by apply runs_prints, kprintf_runs. Qed.

(** The three lines [kernel_panic] prints. *)
Definition panic_text (err : string) : list Z :=
  chars (newline ++ "*** KERNEL PANIC ***" ++ newline) ++
  (chars err ++ chars newline) ++ chars ("System halted." ++ newline).

(** A panic prints its message with interrupts off and never returns. *)
Lemma kernel_panic_prints {A} err k :
  cursor_ok (k_vga k) ->
  exists k', kernel_panic (A:=A) err k = Stop (Panic err) k' /\
    eflags_if (k_cpu k') = false /\ printed (u8 <$> panic_text err)
      (set_cpu (set_if false (k_cpu k)) k) k'.
Proof.
  intros Hk. set (k0 := set_cpu _ k). unfold panic_text. rewrite !fmap_app.
  assert (H1 : prints (kprintf (newline ++ "*** KERNEL PANIC ***" ++ newline) [])
    (u8 <$> chars (newline ++ "*** KERNEL PANIC ***" ++ newline)) 22)
    by (by apply (kprintf_prints _ [])).
  assert (H2 : prints (kprintf ("%s" ++ newline) [AStr err])
    (u8 <$> (chars err ++ chars newline)) (Z.of_nat (length (chars err ++ chars newline))))
    by (by apply (kprintf_prints _ [AStr err])).
  assert (H3 : prints (kprintf ("System halted." ++ newline) [])
    (u8 <$> chars ("System halted." ++ newline)) 15)
    by (by apply (kprintf_prints _ [])).
  rewrite fmap_app in H2.
  destruct (wp_ok _ _ _ (H1 k0 Hk)) as (r1 & k1 & E1 & _ & P1).
  destruct (wp_ok _ _ _ (H2 k1 (printed_cursor _ _ _ P1))) as (r2 & k2 & E2 & _ & P2).
  destruct (wp_ok _ _ _ (H3 k2 (printed_cursor _ _ _ P2))) as (r3 & k3 & E3 & _ & P3).
  exists k3. split_and!.
  - unfold kernel_panic, cli, modify, mbind, M_bind. cbv beta iota. fold k0.
    by rewrite E1, E2, E3.
  - pose proof (printed_app _ _ _ _ _ (printed_app _ _ _ _ _ P1 P2) P3) as (? & ? & ? & -> & _).
    done.
  - eapply printed_app; [exact P1|]. by eapply printed_app.
Qed.

Lemma kernel_panic_stops {A} err k :
  cursor_ok (k_vga k) -> stops (kernel_panic (A:=A) err) k (Panic err).
Proof. intros Hk. destruct (kernel_panic_prints (A:=A) err k Hk) as (k' & E & _). by exists k'. Qed.

(** ** The properties *)

(** C36: the digits [print_unsigned] prints for a 64-bit [n] in a base from 2 to
    16 denote [n] in that base, most significant first, each below the base, with
    no leading zero; the 64-character buffer is always large enough. *)
Theorem print_unsigned_digits n base k :
  2 <= base <= 16 -> 0 <= n < 2 ^ 64 -> cursor_ok (k_vga k) ->
  wp (print_unsigned n base) k (fun r k' => exists ds,
    serial_text (k_io k') = serial_text (k_io k) ++ (digit <$> rev ds) /\
    r = Z.of_nat (length ds) /\ Forall (fun d => 0 <= d < base) ds /\
    digits_value base ds = n /\ (n > 0 -> last ds <> Some 0) /\ ds <> []).
Proof.
  intros Hb Hn Hk. eapply prints_wp; [apply runs_prints, print_unsigned_runs | done |].
  intros k' (m & io & v & -> & _ & Hs & _). cbn [k_io set_vga set_io set_mem]. rewrite Hs.
  unfold render_unsigned. destruct (Z.eqb_spec n 0) as [->|Hz].
  - exists [0]. split_and!; [done | done | apply Forall_singleton; lia | cbn; lia | lia | done].
  - destruct (to_digits_spec base 64 n ltac:(lia)) as (ds & E & Hall & Hv & Hl & _).
    { split; [lia|]. eapply Z.lt_le_trans; [apply Hn|]. apply Z.pow_le_mono_l. lia. }
    exists ds. rewrite E, <- map_rev. fold (digit <$> rev ds). split_and!; try done.
    + f_equal. rewrite <- list_fmap_compose. apply list_fmap_ext. intros i d Hd%list_elem_of_lookup_2.
      apply list_elem_of_In, in_rev, list_elem_of_In in Hd.
      rewrite Forall_forall in Hall. specialize (Hall d Hd). apply u8_small.
      assert (d = 0 \/ d = 1 \/ d = 2 \/ d = 3 \/ d = 4 \/ d = 5 \/ d = 6 \/ d = 7 \/ d = 8 \/ d = 9 \/
        d = 10 \/ d = 11 \/ d = 12 \/ d = 13 \/ d = 14 \/ d = 15) as Hds by lia.
      clear -Hds. destruct_or! Hds; subst d; vm_compute; intuition congruence.
    + by rewrite length_map, length_rev.
    + intros ->. cbn in Hv. lia.
Qed.

Lemma print_unsigned_digits_witness :
  wp (print_unsigned 4096 16) empty_kernel (fun r k' => exists ds,
    serial_text (k_io k') = digit <$> rev ds /\ digits_value 16 ds = 4096 /\
    r = Z.of_nat (length ds)).
Proof.
  eapply wp_mono; [apply (print_unsigned_digits 4096 16 empty_kernel); try lia;
    unfold cursor_ok, rows, columns; cbn; lia|].
  intros r k' (ds & -> & -> & _ & Hv & _). by exists ds.
Defined.

(** [kernel_panic] disables interrupts, prints its banner, the message and
    the halt line, and never returns. *)
Theorem kernel_panic_correct (A : Type) err k :
  cursor_ok (k_vga k) ->
  exists k', kernel_panic (A:=A) err k = Stop (Panic err) k' /\
    eflags_if (k_cpu k') = false /\
    serial_text (k_io k') = serial_text (k_io k) ++ (u8 <$> panic_text err) /\
    untouched vga_fp (k_mem k) (k_mem k').
Proof.
  intros Hk. destruct (kernel_panic_prints (A:=A) err k Hk) as (k' & E & Hif & m & io & v & -> & Hu & Hs & _).
  by eexists.
Qed.

Lemma kernel_panic_correct_witness : exists k',
  kernel_panic (A:=unit) "boom" empty_kernel = Stop (Panic "boom") k' /\ eflags_if (k_cpu k') = false.
Proof.
  destruct (kernel_panic_correct unit "boom" empty_kernel) as (k' & E & Hif & _).
  - unfold cursor_ok, rows, columns. cbn. lia.
  - exists k'. split; [exact E | exact Hif].
Defined.
