(* ===== verification/Screen.v ===== *)
(** * What is on the screen: src/drivers/vga.c, src/lib/kprintf.c

    The VGA driver as a terminal.  The abstract state is the 25 x 80 grid of
    16-bit cells and the cursor; typing a character writes its cell and
    advances, a line feed or the end of a row opens the next line, and the
    character that comes after the last row scrolls the grid up first.  The
    code moves the rows with [kmemcpy] and clears the last one with [kwmemset],
    byte by byte in memory; the theorem says that [kprintf] types the rendered
    text on this terminal and sends it to the serial line. *)

From Stdlib Require Import ZArith Lia Bool Ascii.
From stdpp Require Import base list gmap strings.
From S2P Require Import Prelude Machine StringLib Console.

(** ** The terminal *)

Definition cell (m : memory) (i : Z) : Z := ld16 m (VGA_MEMORY + 2 * i).
Definition cells (m : memory) : list Z :=
  (fun i => cell m (Z.of_nat i)) <$> seq 0 (Z.to_nat (rows * columns)).

(** [t_row] may be [rows]: the cursor then waits below the last row, and the
    next character scrolls. *)
Record terminal := MkTerminal { t_row : Z; t_col : Z; t_cells : list Z }.

Definition terminal_of (k : kernel) : terminal :=
  MkTerminal (cursor_row (k_vga k)) (cursor_col (k_vga k)) (cells (k_mem k)).

(** One row up, the last row blank. *)
Definition scrolled (color : Z) (l : list Z) : list Z :=
  drop (Z.to_nat columns) l ++ replicate (Z.to_nat columns) (u16 (blank color)).

Definition scroll_if_below (color : Z) (t : terminal) : terminal :=
  if t_row t =? rows then MkTerminal (rows - 1) (t_col t) (scrolled color (t_cells t)) else t.

Definition type_char (color : Z) (t : terminal) (c : Z) : terminal :=
  let t := scroll_if_below color t in
  if c =? 10 then MkTerminal (t_row t + 1) 0 (t_cells t)
  else
    let l := <[Z.to_nat (t_row t * columns + t_col t) := vga_cell c color]> (t_cells t) in
    if t_col t + 1 =? columns then MkTerminal (t_row t + 1) 0 l
    else MkTerminal (t_row t) (t_col t + 1) l.

Definition typed (color : Z) (t : terminal) (text : list Z) : terminal :=
  foldl (type_char color) t text.

(** ** The buffer *)

Lemma length_cells m : length (cells m) = Z.to_nat (rows * columns).
Proof. unfold cells. by rewrite length_fmap, length_seq. Qed.

Lemma lookup_cells m i :
  (i < Z.to_nat (rows * columns))%nat -> cells m !! i = Some (cell m (Z.of_nat i)).
Proof.
  intros Hi. unfold cells. by rewrite list_lookup_fmap, lookup_seq_lt.
Qed.

Lemma cells_eq m l :
  length l = Z.to_nat (rows * columns) ->
  (forall i, (i < Z.to_nat (rows * columns))%nat -> l !! i = Some (cell m (Z.of_nat i))) ->
  cells m = l.
Proof.
  intros Hl Hi. apply list_eq_same_length with (n := Z.to_nat (rows * columns));
    [done | apply length_cells |].
  intros i x y Hlt. rewrite lookup_cells, Hi by done. congruence.
Qed.

Lemma cell_bytes m i : cell m i = ld8 m (VGA_MEMORY + 2 * i) + 256 * ld8 m (VGA_MEMORY + 2 * i + 1).
Proof. done. Qed.

Lemma two_bytes v : 0 <= v < 65536 -> u8 v + 256 * u8 (v / 256) = v.
Proof. intros. word_lia. Qed.

(** After [r] rows: the rows above are copies of the next ones, the others as
    before. *)
Definition moved_up (m0 m : memory) (r : Z) : Prop :=
  untouched vga_fp m0 m /\
  (forall b, 0 <= b < 160 * (r - 1) -> ld8 m (VGA_MEMORY + b) = ld8 m0 (VGA_MEMORY + b + 160)) /\
  (forall b, 160 * (r - 1) <= b < 4000 -> ld8 m (VGA_MEMORY + b) = ld8 m0 (VGA_MEMORY + b)).

Lemma moved_up_row m0 m m' r :
  1 <= r < rows -> moved_up m0 m r ->
  untouched (range (VGA_MEMORY + 2 * (80 * (r - 1))) 160) m m' ->
  (forall i, 0 <= i < 160 ->
     ld8 m' (VGA_MEMORY + 2 * (80 * (r - 1)) + i) = ld8 m (VGA_MEMORY + 2 * (80 * r) + i)) ->
  moved_up m0 m' (r + 1).
Proof.
  unfold rows. intros Hr (Hu & Hup & Hrest) Hu' Hcp. split_and!.
  - eapply untouched_trans; [exact Hu|]. eapply untouched_mono; [|exact Hu'].
    unfold vga_fp, range, rows, columns. intros b Hb. lia.
  - intros b Hb. destruct (Z.lt_ge_cases b (160 * (r - 1))).
    + rewrite Hu' by (unfold range; lia). apply Hup; lia.
    + replace (VGA_MEMORY + b) with (VGA_MEMORY + 2 * (80 * (r - 1)) + (b - 160 * (r - 1))) by lia.
      rewrite Hcp by lia.
      replace (VGA_MEMORY + 2 * (80 * r) + _) with (VGA_MEMORY + (b + 160)) by lia.
      rewrite Hrest by lia. f_equal. lia.
  - intros b Hb. rewrite Hu' by (unfold range; lia). apply Hrest. lia.
Qed.

Lemma vga_scroll_cells k :
  wp vga_scroll k (fun _ k' => exists m, k' = set_mem m k /\
    cells m = scrolled (vga_color (k_vga k)) (cells (k_mem k))).
Proof.
  unfold vga_scroll. apply wp_bind.
  eapply (wp_for_up _ _ _ _ (fun r k' => exists m, k' = set_mem m k /\ moved_up (k_mem k) m r)).
  - exists (k_mem k). split; [by destruct k|]. split_and!; [apply untouched_refl | lia | done].
  - intros r k1 Hr (m & -> & Hm). unfold rows, columns in *. apply wp_bind.
    eapply wp_mono; [apply kmemcpy_spec; unfold VGA_MEMORY, KERNEL_VIRTUAL_BASE; lia|].
    intros _ k2 [_ (m' & -> & Hu & Hf)]. apply wp_ret. exists m'. split; [done|].
    eapply moved_up_row; [unfold rows; lia | exact Hm | exact Hu | exact Hf].
  - intros k1 (m & -> & Hm). apply wp_bind, wp_gets. apply wp_bind. unfold rows, columns in Hm.
    eapply wp_mono; [apply kwmemset_spec; unfold VGA_MEMORY, KERNEL_VIRTUAL_BASE, rows, columns; lia|].
    intros _ k2 [_ (m' & -> & Hu & Hf)]. apply wp_ret. exists m'. split; [done|].
    change (1 + Z.of_nat (Z.to_nat (25 - 1))) with 25 in Hm.
    destruct Hm as (_ & Hup & _). cbn [k_mem set_mem k_vga] in *. set (color := vga_color (k_vga k)) in *.
    unfold rows, columns in Hu, Hf. apply cells_eq.
    + unfold scrolled. rewrite length_app, length_drop, length_cells, length_replicate.
      unfold rows, columns. lia.
    + intros i Hi. unfold scrolled, rows, columns in *.
      destruct (decide (i < 1920)%nat) as [Hlt|Hge].
      * rewrite lookup_app_l by (rewrite length_drop, length_cells; unfold rows, columns; lia).
        rewrite lookup_drop, lookup_cells by (unfold rows, columns; lia). f_equal.
        rewrite !cell_bytes, !Hu by (unfold range; lia).
        rewrite <- !(Z.add_assoc VGA_MEMORY), !Hup by lia. f_equal; [|f_equal]; f_equal; lia.
      * rewrite lookup_app_r by (rewrite length_drop, length_cells; unfold rows, columns; lia).
        rewrite length_drop, length_cells. rewrite lookup_replicate_2 by (unfold rows, columns; lia).
        f_equal. pose proof (u16_range (blank color)) as Hb. rewrite cell_bytes.
        replace (VGA_MEMORY + 2 * Z.of_nat i) with
          (VGA_MEMORY + 2 * (80 * (25 - 1)) + (2 * Z.of_nat i - 3840)) by lia.
        rewrite <- (Z.add_assoc _ _ 1), !Hf by lia.
        replace ((2 * Z.of_nat i - 3840) mod 2) with 0 by (symmetry; div_lia).
        replace ((2 * Z.of_nat i - 3840 + 1) mod 2) with 1 by (symmetry; div_lia).
        rewrite Z.pow_0_r, Z.pow_1_r, Z.div_1_r. symmetry. by apply two_bytes.
Qed.

Lemma st16_cells m p v :
  0 <= p < rows * columns -> cells (st16 m (VGA_MEMORY + 2 * p) v) = <[Z.to_nat p := u16 v]> (cells m).
Proof.
  intros Hp. apply cells_eq; [by rewrite length_insert, length_cells|]. intros i Hi.
  destruct (decide (i = Z.to_nat p)) as [->|Hne].
  - rewrite list_lookup_insert_eq by (rewrite length_cells; lia). f_equal.
    unfold cell. rewrite Z2Nat.id by lia. by rewrite ld16_st16_eq.
  - rewrite list_lookup_insert_ne by done. rewrite lookup_cells by done. f_equal.
    unfold cell. rewrite ld16_st16_ne by lia. done.
Qed.

#[local] Opaque cells.

(** ** The driver types *)

Lemma vga_move_cursor_io k : wp vga_move_cursor k (fun _ k' => exists io, k' = set_io io k).
Proof.
  unfold vga_move_cursor. do 2 (apply wp_bind, wp_gets; cbv beta).
  do 3 (apply wp_bind, wp_outb; cbv beta). apply wp_outb. by eexists.
Qed.

Lemma vga_move_cursor_terminal k k0 t :
  terminal_of k = t -> vga_color (k_vga k) = vga_color (k_vga k0) ->
  wp vga_move_cursor k (fun _ k' => terminal_of k' = t /\ vga_color (k_vga k') = vga_color (k_vga k0)).
Proof.
  intros Ht Hc. eapply wp_mono; [apply vga_move_cursor_io|]. intros _ k' (io & ->). done.
Qed.

(** [vga_putc] types its character. *)
Lemma vga_putc_types c k :
  cursor_ok (k_vga k) ->
  wp (vga_putc c) k (fun _ k' =>
    terminal_of k' = type_char (vga_color (k_vga k)) (terminal_of k) c /\
    vga_color (k_vga k') = vga_color (k_vga k)).
Proof.
  intros (Hr & Hc & Hcol). unfold vga_putc. do 2 (apply wp_bind, wp_gets; cbv beta).
  apply wp_bind.
  eapply (wp_mono _ _ (fun _ k1 =>
    terminal_of k1 = scroll_if_below (vga_color (k_vga k)) (terminal_of k) /\
    vga_color (k_vga k1) = vga_color (k_vga k))).
  { unfold scroll_if_below. cbn [terminal_of t_row t_col t_cells]. apply wp_when; intros Hb.
    - apply wp_bind. eapply wp_mono; [apply vga_scroll_cells|].
      intros _ k1 (m & -> & Hm). apply wp_modify. rewrite Hb. unfold terminal_of. simpl.
      rewrite Hm, !u8_small by (unfold rows, columns in *; lia). done.
    - by rewrite Hb. }
  intros _ k1 (Ht & Ec). do 3 (apply wp_bind, wp_gets; cbv beta).
  assert (Hp : 0 <= cursor_row (k_vga k1) < rows /\ 0 <= cursor_col (k_vga k1) < columns).
  { apply (f_equal (fun t => (t_row t, t_col t))) in Ht. unfold scroll_if_below in Ht. simpl in Ht.
    unfold rows, columns in *. destruct (Z.eqb_spec (cursor_row (k_vga k)) 25); simplify_eq/=; lia. }
  rewrite Ec. unfold type_char. rewrite <- Ht. cbn [terminal_of t_row t_col t_cells]. cbv zeta.
  unfold rows, columns in Hp. apply wp_bind. destruct (c =? 10).
  - apply wp_modify, vga_move_cursor_terminal; [|done]. unfold terminal_of. simpl.
    by rewrite !u8_small by lia.
  - apply wp_bind. eapply wp_access; [unfold VGA_MEMORY, KERNEL_VIRTUAL_BASE, columns; lia
      | unfold VGA_MEMORY, columns; lia | reflexivity |]. cbv beta.
    apply wp_bind, wp_modify. apply wp_bind, wp_gets. cbn [k_vga set_mem set_vga vga_color cursor_row cursor_col].
    rewrite !u8_small by lia.
    assert (Hst : cells (st16 (k_mem k1) (VGA_MEMORY + 2 * (cursor_row (k_vga k1) * columns + cursor_col (k_vga k1)))
        (vga_cell c (vga_color (k_vga k)))) =
      <[Z.to_nat (cursor_row (k_vga k1) * columns + cursor_col (k_vga k1)) := vga_cell c (vga_color (k_vga k))]>
        (cells (k_mem k1))).
    { rewrite st16_cells by (unfold rows, columns; lia). unfold vga_cell.
      by rewrite (u16_small (u16 _)) by apply u16_range. }
    apply wp_when; intros Hb; rewrite Hb.
    + apply wp_modify, vga_move_cursor_terminal; [|done]. unfold terminal_of. simpl.
      rewrite !u8_small by lia. f_equal. exact Hst.
    + apply vga_move_cursor_terminal; [|done]. unfold terminal_of. simpl. f_equal. exact Hst.
Qed.

Lemma put_c_types c k :
  cursor_ok (k_vga k) ->
  wp (put_c c) k (fun _ k' => cursor_ok (k_vga k') /\
    terminal_of k' = type_char (vga_color (k_vga k)) (terminal_of k) c /\
    vga_color (k_vga k') = vga_color (k_vga k)).
Proof.
  intros Hk. unfold put_c. apply wp_bind.
  eapply wp_mono; [apply (wp_and _ _ _ _ (vga_putc_types c k Hk) (vga_putc_prints c k Hk))|].
  intros _ k1 ((Ht & Ec) & _ & Hp). apply wp_outb. split_and!; [by apply printed_cursor in Hp | done | done].
Qed.

Lemma put_all_types t k :
  cursor_ok (k_vga k) ->
  wp (put_all t) k (fun _ k' => terminal_of k' = typed (vga_color (k_vga k)) (terminal_of k) t).
Proof.
  revert k. induction t as [|c t IH]; intros k Hk; cbn [put_all]; [by apply wp_ret|].
  apply wp_bind. eapply wp_mono; [by apply put_c_types|]. intros _ k1 (Hk1 & Ht & Ec).
  eapply wp_mono; [by apply IH|]. cbv beta. intros [] k2 E2. rewrite E2, Ht, Ec. done.
Qed.

(** What runs as the output of [t] types [t]. *)
Lemma runs_types {A} (m : M A) t r k :
  runs m t r -> cursor_ok (k_vga k) ->
  wp m k (fun _ k' => terminal_of k' = typed (vga_color (k_vga k)) (terminal_of k) t).
Proof.
  intros Hm Hk. eapply wp_ext; [apply Hm|]. apply wp_bind.
  eapply wp_mono; [by apply put_all_types|]. cbv beta. intros [] k' H. by apply wp_ret.
Qed.

(** ** The property *)


