(* ===== verification/Node.v ===== *)
(** * Intrusive doubly linked lists: src/mm/node.c, src/mm/node.h

    The four operations on [Node], as they act on memory; the predicate
    [dll] that a head cell and the nodes it reaches form a list; and what
    each operation does to it.  The free lists of the buddy allocator and
    of the heap, and the list of all heap chunks, are such lists. *)

From Stdlib Require Import ZArith Lia Bool.
From stdpp Require Import base list gmap.
From S2P Require Import Prelude Machine.

(** ** The code *)

(** [struct Node]: [next] at offset 0, [prev] at offset 4. *)
Definition node_next (node : Z) : Z := node.
Definition node_prev (node : Z) : Z := node + 4.
Definition sizeof_Node : Z := 8.
Definition NULL : Z := 0.

Definition push_node (head_ref node : Z) : M unit :=
  h ← load32 head_ref;
  store32 (node_next node) h;;
  store32 (node_prev node) NULL;;
  h ← load32 head_ref;
  when (negb (h =? NULL))
    (h ← load32 head_ref; store32 (node_prev h) node);;
  store32 head_ref node.

Definition pop_node (head_ref : Z) : M Z :=
  if head_ref =? NULL then mret NULL else
  top ← load32 head_ref;
  h ← load32 head_ref;
  next ← load32 (node_next h);
  store32 head_ref next;;
  h ← load32 head_ref;
  when (negb (h =? NULL))
    (h ← load32 head_ref; store32 (node_prev h) NULL);;
  mret top.

Definition remove_node (head_ref node : Z) : M unit :=
  h ← load32 head_ref;
  if node =? h then pop_node head_ref;; skip else
  next ← load32 (node_next node);
  prev ← load32 (node_prev node);
  when (negb (next =? NULL)) (store32 (node_prev next) prev);;
  when (negb (prev =? NULL)) (store32 (node_next prev) next);;
  store32 (node_next node) NULL;;
  store32 (node_prev node) NULL.

Definition insert_node (prev node : Z) : M unit :=
  next ← load32 (node_next prev);
  store32 (node_next prev) node;;
  store32 (node_prev node) prev;;
  when (negb (next =? NULL))
    (store32 (node_next node) next;; store32 (node_prev next) node).

(** ** Lists in memory *)

(** [dseg m p l q]: the nodes [l] are linked in order, the first one's [prev]
    is [p] and the last one's [next] is [q]. *)
Fixpoint dseg (m : memory) (p : Z) (l : list Z) (q : Z) : Prop :=
  match l with
  | [] => True
  | a :: l' => ld32 m (node_prev a) = p /\ ld32 m (node_next a) = hd q l' /\ dseg m a l' q
  end.

Definition dll (m : memory) (h : Z) (l : list Z) : Prop :=
  ld32 m h = hd NULL l /\ dseg m NULL l NULL.

(** The addresses of a list: mapped, and pairwise non-overlapping. *)
Definition node_ok (a : Z) : Prop :=
  KERNEL_VIRTUAL_BASE <= a /\ a + sizeof_Node <= 2 ^ 32.

Definition apart (a n b k : Z) : Prop := a + n <= b \/ b + k <= a.

Lemma ranges_apart a n b l :
  0 < n -> 0 < l -> (forall x, range a n x -> ~ range b l x) -> apart a n b l.
Proof.
  intros Hn Hl Hx. unfold apart. destruct (Z.le_gt_cases (a + n) b); [by left|].
  destruct (Z.le_gt_cases (b + l) a); [by right|]. exfalso. apply (Hx (Z.max a b)); unfold range; lia.
Qed.

Definition nodes_ok (l : list Z) : Prop :=
  NoDup l /\ Forall node_ok l /\
  forall a b, a ∈ l -> b ∈ l -> a <> b -> apart a sizeof_Node b sizeof_Node.

(** A head cell and the nodes it may be linked to. *)
Definition head_ok (h : Z) (l : list Z) : Prop :=
  KERNEL_VIRTUAL_BASE <= h /\ h + 4 <= 2 ^ 32 /\
  forall a, a ∈ l -> apart h 4 a sizeof_Node.

(** The bytes of a list: its head cell and its nodes. *)
Definition nodes_fp (l : list Z) (b : Z) : Prop := exists a, a ∈ l /\ range a sizeof_Node b.
Definition dll_fp (h : Z) (l : list Z) (b : Z) : Prop := range h 4 b \/ nodes_fp l b.

(** The [prev] of what follows [l] when [l] starts after [p]. *)
Definition last_or (p : Z) (l : list Z) : Z := default p (last l).

Lemma last_or_cons p a l : last_or p (a :: l) = last_or a l.
Proof. unfold last_or. rewrite last_cons. by destruct (last l). Qed.

Lemma exists_last_or_nil (l : list Z) : l = [] \/ exists l' a, l = l' ++ [a].
Proof.
  destruct (decide (l = [])) as [->|H]; [by left|right].
  destruct (exists_last H) as (l' & a & ->). eauto.
Qed.

Lemma hd_app (q : Z) l1 l2 : hd q (l1 ++ l2) = hd (hd q l2) l1.
Proof. by destruct l1. Qed.

Lemma dseg_app m p l1 l2 q :
  dseg m p (l1 ++ l2) q <-> dseg m p l1 (hd q l2) /\ dseg m (last_or p l1) l2 q.
Proof.
  revert p. induction l1 as [|a l1 IH]; intros p; simpl; [tauto|].
  rewrite IH, hd_app, last_or_cons. tauto.
Qed.

Lemma dseg_frame m m' p l q :
  (forall a, a ∈ l -> agree m m' a sizeof_Node) -> dseg m p l q -> dseg m' p l q.
Proof.
  revert p. induction l as [|a l IH]; intros p Ha; simpl; [done|].
  intros (Hp & Hn & Hl). unfold sizeof_Node, node_prev, node_next in *.
  pose proof (Ha a ltac:(left)) as E.
  rewrite (ld32_agree m m' (a + 4)), (ld32_agree m m' a)
    by (eapply agree_sub; [exact E | lia..]).
  split_and!; auto. apply IH; [|done]. intros; apply Ha. by right.
Qed.

(** Writing only [next] of the last node re-ends a segment; writing only
    [prev] of the first one re-starts it. *)
Lemma dseg_set_end m p l q q' :
  nodes_ok l -> dseg m p l q -> 0 <= q' < 2 ^ 32 ->
  l <> [] -> dseg (st32 m (node_next (last_or p l)) q') p l q'.
Proof.
  intros Hok Hl Hq. revert p Hl.
  induction l as [|a l IH]; intros p Hl Hne; [done|]. rewrite last_or_cons.
  destruct Hok as (Hnd & Hall & Hap). apply NoDup_cons in Hnd as [Hna Hnd].
  destruct Hl as (Hp & Hn & Hl). destruct l as [|c l].
  - simpl in *. unfold last_or, node_next, node_prev in *; simpl. split_and!; [by mem_simp | by mem_simp | done].
  - assert (Hin : last_or a (c :: l) ∈ c :: l).
    { unfold last_or. destruct (last (c :: l)) as [z|] eqn:E; simpl;
        [by apply last_Some_elem_of | by apply last_None in E]. }
    assert (Hz : apart a sizeof_Node (last_or a (c :: l)) sizeof_Node).
    { apply Hap; [left | by right |]. intros E. by rewrite <- E in Hin. }
    change (dseg ?x ?y (a :: ?l) ?z) with
      (ld32 x (a + 4) = y /\ ld32 x a = hd z l /\ dseg x a l z).
    unfold apart, sizeof_Node, node_next, node_prev in *.
    split_and!; [by mem_simp | by mem_simp |].
    apply IH; [|done..]. split_and!; [done | by inversion Hall |].
    intros; apply Hap; [by right..|done].
Qed.

Lemma dseg_set_end_at z m p l q q' :
  last_or p l = z -> nodes_ok l -> dseg m p l q -> 0 <= q' < 2 ^ 32 ->
  l <> [] -> dseg (st32 m z q') p l q'.
Proof. intros <-. apply dseg_set_end. Qed.

Lemma dseg_set_start m p p' l q :
  nodes_ok l -> dseg m p l q -> 0 <= p' < 2 ^ 32 ->
  l <> [] -> dseg (st32 m (node_prev (hd q l)) p') p' l q.
Proof.
  intros (Hnd & Hall & Hap) Hl Hp' Hne. destruct l as [|a l]; [done|].
  destruct Hl as (Hp & Hn & Hl). simpl. unfold node_next, node_prev in *.
  split_and!; [by mem_simp | by mem_simp |].
  apply NoDup_cons in Hnd as [Hna _].
  eapply dseg_frame; [|exact Hl]. intros c Hc.
  eapply untouched_agree; [apply st32_untouched|].
  assert (apart a sizeof_Node c sizeof_Node) by (apply Hap; [left | by right | congruence]).
  unfold apart, range, sizeof_Node in *. lia.
Qed.

(** ** Well-formed address lists *)

Lemma node_ok_u32 a : node_ok a -> 0 < a < 2 ^ 32.
Proof. unfold node_ok, KERNEL_VIRTUAL_BASE, sizeof_Node. lia. Qed.

Lemma nodes_ok_perm l l' : l ≡ₚ l' -> nodes_ok l -> nodes_ok l'.
Proof.
  intros Hp (Hnd & Hall & Hap). split_and!.
  - by rewrite <- Hp.
  - by rewrite <- Hp.
  - intros a b. rewrite <- Hp. apply Hap.
Qed.

Lemma nodes_ok_sublist l l' : l' `sublist_of` l -> nodes_ok l -> nodes_ok l'.
Proof.
  intros Hs (Hnd & Hall & Hap).
  assert (Hin : forall a, a ∈ l' -> a ∈ l) by (intros; by eapply elem_of_sublist).
  split_and!; [by eapply sublist_NoDup | | intros; by apply Hap; auto].
  apply Forall_forall. intros a Ha. rewrite Forall_forall in Hall. auto.
Qed.

Lemma nodes_ok_tail a l : nodes_ok (a :: l) -> nodes_ok l.
Proof. apply nodes_ok_sublist. by constructor. Qed.

Lemma nodes_ok_head a l : nodes_ok (a :: l) -> node_ok a.
Proof. intros (_ & H & _). by inversion H. Qed.

Lemma nodes_ok_apart l a b :
  nodes_ok l -> a ∈ l -> b ∈ l -> a <> b -> a + 8 <= b \/ b + 8 <= a.
Proof. intros (_ & _ & H) ? ? ?. by apply (H a b). Qed.

Lemma nodes_ok_apart_cons a l b : nodes_ok (a :: l) -> b ∈ l -> a + 8 <= b \/ b + 8 <= a.
Proof.
  intros H Hb. eapply nodes_ok_apart; [exact H | left | by right |].
  destruct H as (Hnd & _). apply NoDup_cons in Hnd as [? _]. congruence.
Qed.

Lemma nodes_ok_apart_mid l1 n l2 b :
  nodes_ok (l1 ++ n :: l2) -> b ∈ l1 ++ l2 -> n + 8 <= b \/ b + 8 <= n.
Proof.
  intros H Hb. eapply (nodes_ok_apart_cons n (l1 ++ l2)); [|done].
  eapply nodes_ok_perm; [|exact H]. symmetry. apply Permutation_middle.
Qed.

Lemma head_ok_incl h l l' : (forall a, a ∈ l' -> a ∈ l) -> head_ok h l -> head_ok h l'.
Proof. intros Hi (? & ? & H). split_and!; auto. Qed.

Lemma head_ok_apart h l a : head_ok h l -> a ∈ l -> h + 4 <= a \/ a + 8 <= h.
Proof. intros (_ & _ & H) ?. by apply (H a). Qed.

Lemma dll_fp_incl h l l' b :
  (forall a, a ∈ l -> a ∈ l') -> dll_fp h l b -> dll_fp h l' b.
Proof. intros Hi [?|(a & ? & ?)]; [by left | right; exists a; auto]. Qed.

(** Stores inside a list's footprint. *)
Lemma st32_head_untouched h l m v : untouched (dll_fp h l) m (st32 m h v).
Proof. eapply untouched_mono; [|apply st32_untouched]. by left. Qed.

Lemma st32_next_untouched h l m a v :
  a ∈ l -> untouched (dll_fp h l) m (st32 m a v).
Proof.
  intros. eapply untouched_mono; [|apply st32_untouched].
  intros b Hb. right. exists a. unfold range, node_next, sizeof_Node in *. split; [done|lia].
Qed.

Lemma st32_prev_untouched h l m a v :
  a ∈ l -> untouched (dll_fp h l) m (st32 m (a + 4) v).
Proof.
  intros. eapply untouched_mono; [|apply st32_untouched].
  intros b Hb. right. exists a. unfold range, node_prev, sizeof_Node in *. split; [done|lia].
Qed.

Ltac list_in := solve [repeat first [left | right] | repeat progress (rewrite ?elem_of_app, ?elem_of_cons in *); first [tauto | auto 20]].

(** Chains the footprint lemmas over a sequence of stores. *)
Ltac fp_stores := repeat
  match goal with
  | |- untouched _ ?m ?m => apply untouched_refl
  | |- untouched _ _ (st32 ?m _ _) =>
      apply (untouched_trans _ _ m);
      [|first [apply st32_head_untouched | apply st32_next_untouched; list_in
              | apply st32_prev_untouched; list_in]]
  end.

(** A segment is not affected by a store away from its nodes. *)
Lemma dseg_st32 m p l q a v :
  (forall b, b ∈ l -> a + 4 <= b \/ b + 8 <= a) -> dseg m p l q -> dseg (st32 m a v) p l q.
Proof.
  intros H. apply dseg_frame. intros b Hb. eapply untouched_agree; [apply st32_untouched|].
  specialize (H b Hb). unfold range, sizeof_Node. lia.
Qed.

(** Arithmetic facts about one node, and about two nodes, of a list. *)
Lemma node_facts h l a :
  nodes_ok l -> head_ok h l -> a ∈ l ->
  0 < a /\ KERNEL_VIRTUAL_BASE <= a /\ a + 8 <= 2 ^ 32 /\ (h + 4 <= a \/ a + 8 <= h).
Proof.
  intros (_ & Hall & _) (_ & _ & Hh) Ha. rewrite Forall_forall in Hall.
  specialize (Hall a Ha). pose proof (node_ok_u32 a Hall). destruct Hall.
  specialize (Hh a Ha). unfold apart, sizeof_Node in *. lia.
Qed.

Lemma head_facts h l : head_ok h l -> KERNEL_VIRTUAL_BASE <= h /\ h + 4 <= 2 ^ 32 /\ 0 < h.
Proof. intros (? & ? & _). unfold KERNEL_VIRTUAL_BASE in *. lia. Qed.

Ltac node_at Hok Hhok a := pose proof (node_facts _ _ a Hok Hhok ltac:(list_in)).
Ltac nodes_at Hok a b :=
  pose proof (nodes_ok_apart _ a b Hok ltac:(list_in) ltac:(list_in)).
Ltac node_unfold := unfold node_next, node_prev, sizeof_Node, NULL in *.

(** ** What the operations do to a list *)

Section node_specs.
Context (h : Z) (k : kernel).
Local Abbreviation m0 := (k_mem k).

(** A run that leaves the list [l'] at [h] and changes only the bytes of [l]. *)
Definition leaves_dll (l l' : list Z) (k' : kernel) : Prop :=
  exists m', k' = set_mem m' k /\ dll m' h l' /\ untouched (dll_fp h l) m0 m'.

Lemma push_node_spec n l :
  dll m0 h l -> nodes_ok (n :: l) -> head_ok h (n :: l) ->
  wp (push_node h n) k (fun _ => leaves_dll (n :: l) (n :: l)).
Proof.
  intros [Hh Hl] Hok Hhok. node_at Hok Hhok n. pose proof (head_facts _ _ Hhok).
  unfold push_node. node_unfold. wp_steps. destruct l as [|a l].
  - cbn [hd Z.eqb negb when]. wp_steps. eexists. split_and!; [reflexivity | |fp_stores].
    split; [by mem_simp|]. simpl. node_unfold.
    split_and!; by mem_simp.
  - simpl hd. node_at Hok Hhok a. pose proof (nodes_ok_apart_cons n _ a Hok ltac:(left)).
    destruct (Z.eqb_spec a 0); [lia|]. cbn [negb when]. wp_steps. eexists. split_and!; [reflexivity | |fp_stores].
    destruct Hl as (Hp & Hn & Hl). node_unfold.
    split; [by mem_simp|]. simpl. node_unfold. split_and!.
    + by mem_simp.
    + by mem_simp.
    + by mem_simp.
    + by mem_simp.
    + repeat apply dseg_st32; [intros b Hb..|exact Hl]; node_at Hok Hhok b;
        pose proof (nodes_ok_apart_cons n _ b Hok ltac:(list_in));
        pose proof (nodes_ok_apart_cons a _ b (nodes_ok_tail _ _ Hok) ltac:(list_in)); lia.
Qed.

Lemma pop_node_spec n l :
  dll m0 h (n :: l) -> nodes_ok (n :: l) -> head_ok h (n :: l) ->
  wp (pop_node h) k (fun r k' => r = n /\ leaves_dll (n :: l) l k').
Proof.
  intros [Hh (Hp & Hn & Hl)] Hok Hhok. node_at Hok Hhok n.
  pose proof (head_facts _ _ Hhok).
  unfold pop_node. node_unfold. destruct (Z.eqb_spec h 0); [lia|].
  wp_steps. destruct l as [|a l]; cbn [hd] in *.
  - wp_steps. split; [done|]. eexists. split_and!; [reflexivity | |fp_stores].
    split; [by mem_simp | done].
  - node_at Hok Hhok a. destruct Hl as (Hp' & Hn' & Hl).
    mem_simp. destruct (Z.eqb_spec a 0); [lia|]. cbn [negb when]. wp_steps.
    split; [done|]. eexists. split_and!; [reflexivity | |fp_stores]. node_unfold.
    split; [by mem_simp|]. simpl. node_unfold.
    split_and!; [by mem_simp.. | ].
    repeat apply dseg_st32; [intros b Hb..|exact Hl]; node_at Hok Hhok b;
      pose proof (nodes_ok_apart_cons a _ b (nodes_ok_tail _ _ Hok) ltac:(list_in)); lia.
Qed.

(** Popping an empty list dereferences NULL: the guard of [pop_node] tests the
    reference, not the head it points to. *)
Lemma pop_node_empty :
  dll m0 h [] -> head_ok h [] -> pop_node h k = Stop (PageFault 0) k.
Proof.
  intros [Hh _] Hhok. pose proof (head_facts _ _ Hhok) as (? & ? & ?).
  unfold pop_node, mbind, M_bind, load32, access, node_next.
  destruct (Z.eqb_spec h NULL); [unfold NULL in *; lia|].
  rewrite (proj2 (mapped_spec h 4)) by done. by rewrite Hh.
Qed.

(** Unlinking [n] between [l1] (ending in [p]) and [l2]: the stores of
    [remove_node] on the two neighbours join the segments. *)
Lemma dseg_join m l1 p n l2 :
  nodes_ok ((l1 ++ [p]) ++ n :: l2) ->
  dseg m 0 (l1 ++ [p]) n -> dseg m n l2 0 ->
  dseg (st32 (match l2 with [] => m | c :: _ => st32 m (c + 4) p end) p (hd 0 l2))
    0 ((l1 ++ [p]) ++ l2) 0.
Proof.
  intros Hok H1 H2.
  assert (Hok1 : nodes_ok (l1 ++ [p])).
  { eapply nodes_ok_sublist; [|exact Hok]. by apply sublist_inserts_r. }
  assert (Hok2 : nodes_ok l2).
  { eapply nodes_ok_sublist; [|exact Hok]. by apply sublist_inserts_l, sublist_cons. }
  assert (Hx : forall a b, a ∈ l1 ++ [p] -> b ∈ l2 -> a + 8 <= b \/ b + 8 <= a).
  { intros a b Ha Hb. eapply nodes_ok_apart; [exact Hok | list_in | list_in |].
    destruct Hok as (Hnd & _). apply NoDup_app in Hnd as (_ & Hd & _).
    intros ->. apply (Hd b Ha). by right. }
  assert (Hp : last_or 0 (l1 ++ [p]) = p) by (unfold last_or; by rewrite last_snoc).
  assert (Hpr : 0 <= p < 2 ^ 32).
  { destruct Hok1 as (_ & Hall & _). apply Forall_app in Hall as [_ Hall].
    inversion Hall as [|? ? Hq _]. apply node_ok_u32 in Hq. lia. }
  apply dseg_app. rewrite Hp. destruct l2 as [|c l2].
  - split; [|done]. rewrite <- Hp at 1. eapply dseg_set_end; [done..|simpl; lia|by destruct l1].
  - assert (Hc : 0 <= c < 2 ^ 32).
    { apply nodes_ok_head, node_ok_u32 in Hok2. lia. }
    assert (Hpin : p ∈ l1 ++ [p]) by list_in.
    split.
    + rewrite <- Hp at 2. eapply dseg_set_end; [done| |done|by destruct l1].
      apply dseg_st32; [|exact H1]. intros b Hb. specialize (Hx b c Hb ltac:(left)). lia.
    + apply dseg_st32; [intros b Hb; specialize (Hx p b Hpin Hb); lia|].
      eapply (dseg_set_start _ _ p (c :: l2)); done.
Qed.

Lemma remove_node_spec l1 n l2 :
  dll m0 h (l1 ++ n :: l2) -> nodes_ok (l1 ++ n :: l2) -> head_ok h (l1 ++ n :: l2) ->
  wp (remove_node h n) k (fun _ => leaves_dll (l1 ++ n :: l2) (l1 ++ l2)).
Proof.
  intros Hd Hok Hhok. destruct (exists_last_or_nil l1) as [->|(l1' & p & ->)].
  - pose proof (proj1 Hd) as Hh. simpl in *. pose proof (head_facts _ _ Hhok).
    unfold remove_node. wp_steps. rewrite Z.eqb_refl. apply wp_bind.
    eapply wp_mono; [by apply pop_node_spec|]. intros r k' [_ H']. exact H'.
  - destruct Hd as [Hh Hl]. apply dseg_app in Hl as [Hl1 (Hnp & Hnn & Hl2)].
    assert (Hp : last_or 0 (l1' ++ [p]) = p) by (unfold last_or; by rewrite last_snoc).
    unfold NULL in *. rewrite Hp in Hnp. clear Hp.
    assert (Hne : n <> ld32 m0 h).
    { rewrite Hh, <- app_assoc, hd_app. destruct Hok as (Hnd & _). simpl.
      apply NoDup_app in Hnd as (_ & Hd & _). intros ->.
      eapply Hd; [|left]. destruct l1'; simpl; list_in. }
    node_at Hok Hhok n. node_at Hok Hhok p. pose proof (head_facts _ _ Hhok).
    nodes_at Hok n p.
    assert (n <> p).
    { intros ->. destruct Hok as (Hnd & _). apply NoDup_app in Hnd as (_ & Hd & _).
      apply (Hd p); list_in. }
    pose proof (dseg_join _ _ _ _ _ Hok Hl1 Hl2) as Hj.
    assert (Hfr : forall m v w, dseg m 0 ((l1' ++ [p]) ++ l2) 0 ->
              dseg (st32 (st32 m n v) (n + 4) w) 0 ((l1' ++ [p]) ++ l2) 0).
    { intros m v w Hm. apply dseg_st32; [|apply dseg_st32; [|exact Hm]]; intros b Hb;
        pose proof (nodes_ok_apart_mid _ _ _ b Hok Hb); lia. }
    assert (Hhd : hd 0 ((l1' ++ [p]) ++ n :: l2) = hd 0 ((l1' ++ [p]) ++ l2))
      by (rewrite <- !app_assoc, !hd_app; done).
    rewrite Hh in Hne. unfold remove_node. node_unfold. wp_steps.
    destruct (Z.eqb_spec n (hd 0 ((l1' ++ [p]) ++ n :: l2))); [congruence|]. wp_steps.
    destruct l2 as [|c l2]; cbn [hd] in *.
    + wp_steps. destruct (Z.eqb_spec p 0); [lia|]. wp_steps.
      eexists. split_and!; [reflexivity | | fp_stores].
      split; [mem_simp; by rewrite Hh, Hhd | apply Hfr, Hj].
    + node_at Hok Hhok c. destruct (Z.eqb_spec c 0); [lia|]. wp_steps.
      destruct (Z.eqb_spec p 0); [lia|]. wp_steps.
      eexists. split_and!; [reflexivity | | fp_stores].
      split; [mem_simp; by rewrite Hh, Hhd | apply Hfr, Hj].
Qed.

(** Linking [n] after [p] when [p] has a successor. *)
Lemma insert_node_spec l1 p c l2 n :
  dll m0 h (l1 ++ p :: c :: l2) ->
  nodes_ok (n :: l1 ++ p :: c :: l2) -> head_ok h (n :: l1 ++ p :: c :: l2) ->
  wp (insert_node p n) k
    (fun _ => leaves_dll (n :: l1 ++ p :: c :: l2) (l1 ++ p :: n :: c :: l2)).
Proof.
  intros [Hh Hl] Hok Hhok. unfold NULL in *.
  apply dseg_app in Hl as [Hl1 (Hpp & Hpn & Hcp & Hcn & Hl2)].
  node_at Hok Hhok n. node_at Hok Hhok p. node_at Hok Hhok c.
  assert (Hn : forall b, b ∈ l1 ++ p :: c :: l2 -> n + 8 <= b \/ b + 8 <= n)
    by (intros; by eapply nodes_ok_apart_cons).
  pose proof (nodes_ok_tail _ _ Hok) as Hok'.
  assert (Hp : forall b, b ∈ l1 ++ c :: l2 -> p + 8 <= b \/ b + 8 <= p)
    by (intros; by eapply nodes_ok_apart_mid).
  assert (Hc : forall b, b ∈ (l1 ++ [p]) ++ l2 -> c + 8 <= b \/ b + 8 <= c).
  { intros. eapply nodes_ok_apart_mid; [|done]. by rewrite <- app_assoc. }
  assert (Hall : forall b, b ∈ l1 ++ l2 ->
            (n + 8 <= b \/ b + 8 <= n) /\ (p + 8 <= b \/ b + 8 <= p) /\
            (c + 8 <= b \/ b + 8 <= c)).
  { clear - Hn Hp Hc. intros b Hb. split_and!; [apply Hn | apply Hp | apply Hc]; list_in. }
  pose proof (Hn p ltac:(list_in)). pose proof (Hn c ltac:(list_in)).
  pose proof (Hp c ltac:(list_in)). clear Hn Hp Hc.
  unfold insert_node. node_unfold. wp_steps. destruct (Z.eqb_spec c 0); [lia|]. wp_steps.
  eexists. split_and!; [reflexivity | | fp_stores]. split.
  - mem_simp. unfold NULL. by rewrite Hh, !hd_app.
  - apply dseg_app. simpl. node_unfold. split_and!.
    + repeat apply dseg_st32; [intros b Hb..|exact Hl1];
        specialize (Hall b ltac:(apply elem_of_app; auto)); lia.
    + by mem_simp.
    + by mem_simp.
    + by mem_simp.
    + by mem_simp.
    + by mem_simp.
    + by mem_simp.
    + repeat apply dseg_st32; [intros b Hb..|exact Hl2];
        specialize (Hall b ltac:(apply elem_of_app; auto)); lia.
Qed.
End node_specs.

(** ** The properties *)

(** [remove_node], given any node of a well-formed list, unlinks exactly
    that node: the list that remains has the others in order, and only the head
    cell and the nodes of the list are written. *)
Theorem remove_node_correct h k l1 n l2 :
  dll (k_mem k) h (l1 ++ n :: l2) -> nodes_ok (l1 ++ n :: l2) -> head_ok h (l1 ++ n :: l2) ->
  wp (remove_node h n) k (fun _ k' => exists m', k' = set_mem m' k /\
    dll m' h (l1 ++ l2) /\ untouched (dll_fp h (l1 ++ n :: l2)) (k_mem k) m').
Proof. apply remove_node_spec. Qed.

(** A head cell at 0xC0001000 and three nodes. *)
Definition sample_list : kernel :=
  set_mem (st32 (st32 (st32 (st32 (st32 (st32 (st32 ∅
    0xC0001000 0xC0002000)
    0xC0002000 0xC0003000) 0xC0002004 0)
    0xC0003000 0xC0004000) 0xC0003004 0xC0002000)
    0xC0004000 0) 0xC0004004 0xC0003000) empty_kernel.

Lemma sample_list_ok :
  dll (k_mem sample_list) 0xC0001000 [0xC0002000; 0xC0003000; 0xC0004000] /\
  nodes_ok [0xC0002000; 0xC0003000; 0xC0004000] /\
  head_ok 0xC0001000 [0xC0002000; 0xC0003000; 0xC0004000].
Proof.
  split; [|split].
  { split; [reflexivity|]. cbn [dseg hd]. split_and!; reflexivity. }
  { split_and!.
  - repeat constructor; rewrite ?not_elem_of_cons, ?elem_of_nil; intuition congruence.
  - unfold node_ok, sizeof_Node, KERNEL_VIRTUAL_BASE. repeat constructor; lia.
  - unfold apart, sizeof_Node. intros a b Ha Hb.
    repeat rewrite elem_of_cons in Ha. repeat rewrite elem_of_cons in Hb.
    rewrite elem_of_nil in Ha, Hb. lia. }
  split_and!; [done | done |]. unfold apart, sizeof_Node. intros a Ha.
  repeat rewrite elem_of_cons in Ha. rewrite elem_of_nil in Ha. lia.
Qed.

Lemma remove_node_correct_witness :
  wp (remove_node 0xC0001000 0xC0003000) sample_list
    (fun _ k' => dll (k_mem k') 0xC0001000 [0xC0002000; 0xC0004000]).
Proof.
  destruct sample_list_ok as (H1 & H2 & H3).
  eapply wp_mono; [apply (remove_node_correct 0xC0001000 sample_list [0xC0002000] 0xC0003000 [0xC0004000]); done|].
  by intros [] k' (m' & -> & Hd & _).
Defined.

(** Popping an empty list reads the [next] field of NULL: [pop_node] tests
    its reference and not the head it points to, and faults at address 0. *)
Theorem pop_node_empty_faults h k :
  dll (k_mem k) h [] -> head_ok h [] -> pop_node h k = Stop (PageFault 0) k.
Proof. apply pop_node_empty. Qed.

Lemma pop_node_empty_faults_witness : pop_node 0xC0001000 empty_kernel = Stop (PageFault 0) empty_kernel.
Proof.
  apply (pop_node_empty_faults 0xC0001000 empty_kernel); [split; done|].
  split_and!; [done | done |]. intros a Ha. by apply elem_of_nil in Ha.
Defined.
