(* ===== verification/Queue.v ===== *)
(** * The scheduler's queues: src/sched/queue.c, src/sched/queue.h,
    and the layout of [Thread] (src/sched/thread.h)

    A [DLList] is a triple head, tail, size in memory over intrusive nodes.
    The theorems refine the four operations to operations on Rocq lists; in
    particular [list_sorted_push] is a stable insertion by [wake_at]. *)

From Stdlib Require Import ZArith Lia Bool Sorted.
From stdpp Require Import base list gmap strings.
From S2P Require Import Prelude Machine Console Node.

(** ** Layout *)

(** [DLList]: head, tail, size. *)
Definition list_head (list : Z) : Z := list.
Definition list_tail (list : Z) : Z := list + 4.
Definition list_size (list : Z) : Z := list + 8.
Definition sizeof_DLList : Z := 12.

(** [Thread] (i386 ABI: [uint64_t] is 4-byte aligned in a struct). *)
Definition thread_node (t : Z) : Z := t.
Definition thread_esp (t : Z) : Z := t + 8.
Definition thread_stack (t : Z) : Z := t + 12.
Definition thread_status (t : Z) : Z := t + 16.
Definition thread_id_of (t : Z) : Z := t + 20.
Definition thread_wake_at (t : Z) : Z := t + 24.
Definition thread_pd (t : Z) : Z := t + 32.
Definition sizeof_Thread : Z := 36.

(** ** The code *)

Definition list_push_back (list node : Z) : M unit :=
  store32 (node_next node) NULL;;
  tail ← load32 (list_tail list);
  store32 (node_prev node) tail;;
  tail ← load32 (list_tail list);
  (if negb (tail =? NULL)
   then tail ← load32 (list_tail list); store32 (node_next tail) node
   else store32 (list_head list) node);;
  store32 (list_tail list) node;;
  size ← load32 (list_size list);
  store32 (list_size list) (size ⊞ 1).

Definition list_pop_front (list : Z) : M Z :=
  head ← load32 (list_head list);
  when (head =? NULL) (kernel_panic ("Underflow" ++ newline));;
  node ← load32 (list_head list);
  head ← load32 (list_head list);
  tail ← load32 (list_tail list);
  (if negb (head =? tail)
   then next ← load32 (node_next node); store32 (node_prev next) NULL
   else store32 (list_tail list) NULL);;
  next ← load32 (node_next node);
  store32 (list_head list) next;;
  store32 (node_next node) NULL;;
  size ← load32 (list_size list);
  store32 (list_size list) (size ⊟ 1);;
  mret node.

Definition list_push_front (list node : Z) : M unit :=
  store32 (node_prev node) NULL;;
  head ← load32 (list_head list);
  store32 (node_next node) head;;
  head ← load32 (list_head list);
  (if negb (head =? NULL)
   then head ← load32 (list_head list); store32 (node_prev head) node
   else store32 (list_tail list) node);;
  store32 (list_head list) node;;
  size ← load32 (list_size list);
  store32 (list_size list) (size ⊞ 1).

(** The search loop of [list_sorted_push]. *)
Fixpoint sorted_search (fuel : nat) (cur node : Z) : M Z :=
  match fuel with
  | O => stop_with OutOfFuel
  | S fuel =>
      if cur =? NULL then mret cur else
      wc ← load64 (thread_wake_at cur);
      wn ← load64 (thread_wake_at node);
      if wc <=? wn then next ← load32 (node_next cur); sorted_search fuel next node
      else mret cur
  end.

Definition list_sorted_push (list node : Z) : M unit :=
  size ← load32 (list_size list);
  cur ← load32 (list_head list);
  cur ← sorted_search (S (Z.to_nat size)) cur node;
  head ← load32 (list_head list);
  if cur =? NULL then list_push_back list node
  else if cur =? head then list_push_front list node
  else
    prev ← load32 (node_prev cur);
    store32 (node_prev node) prev;;
    store32 (node_next node) cur;;
    prev ← load32 (node_prev cur);
    store32 (node_next prev) node;;
    store32 (node_prev cur) node;;
    size ← load32 (list_size list);
    store32 (list_size list) (size ⊞ 1).

(** ** Queues in memory *)

Definition queue (m : memory) (L : Z) (l : list Z) : Prop :=
  ld32 m (list_head L) = hd NULL l /\ ld32 m (list_tail L) = last_or NULL l /\
  ld32 m (list_size L) = u32 (Z.of_nat (length l)) /\ dseg m NULL l NULL.

Definition queue_ok (L : Z) (l : list Z) : Prop :=
  nodes_ok l /\ KERNEL_VIRTUAL_BASE <= L /\ L + sizeof_DLList <= 2 ^ 32 /\
  forall a, a ∈ l -> apart L sizeof_DLList a sizeof_Node.

Definition queue_fp (L : Z) (l : list Z) (b : Z) : Prop :=
  range L sizeof_DLList b \/ nodes_fp l b.

(** A run that leaves the queue [l'] at [L], touching only [L] and the nodes [l]. *)
Definition leaves_queue (L : Z) (k : kernel) (l l' : list Z) (k' : kernel) : Prop :=
  exists m', k' = set_mem m' k /\ queue m' L l' /\ untouched (queue_fp L l) (k_mem k) m'.

(** Ordered insertion as a list function: after every element not later. *)
Fixpoint insert_by (w : Z -> Z) (n : Z) (l : list Z) : list Z :=
  match l with
  | [] => [n]
  | c :: l' => if w c <=? w n then c :: insert_by w n l' else n :: l
  end.

(** ** Facts for the proofs *)

Lemma queue_ok_facts L l :
  queue_ok L l -> KERNEL_VIRTUAL_BASE <= L /\ L + 12 <= 2 ^ 32 /\ 0 < L.
Proof.
  intros (_ & ? & ? & _). unfold KERNEL_VIRTUAL_BASE, sizeof_DLList in *. lia.
Qed.

Lemma queue_node_facts L l a :
  queue_ok L l -> a ∈ l ->
  0 < a /\ KERNEL_VIRTUAL_BASE <= a /\ a + 8 <= 2 ^ 32 /\ (L + 12 <= a \/ a + 8 <= L).
Proof.
  intros ((_ & Hall & _) & _ & _ & Hl) Ha. rewrite Forall_forall in Hall.
  specialize (Hall a Ha). pose proof (node_ok_u32 a Hall). destruct Hall.
  specialize (Hl a Ha). unfold apart, sizeof_Node, sizeof_DLList in *. lia.
Qed.

Lemma queue_ok_nodes L l : queue_ok L l -> nodes_ok l.
Proof. by intros [H _]. Qed.

Lemma queue_ok_incl L l l' :
  l' `sublist_of` l -> queue_ok L l -> queue_ok L l'.
Proof.
  intros Hs (Hn & ? & ? & Ha). split_and!; [by eapply nodes_ok_sublist | done | done |].
  intros a Ha'. apply Ha. by eapply elem_of_sublist.
Qed.

Lemma queue_ok_perm L l l' : l ≡ₚ l' -> queue_ok L l -> queue_ok L l'.
Proof.
  intros Hp (Hn & ? & ? & Ha). split_and!; [by eapply nodes_ok_perm | done | done |].
  intros a. rewrite <- Hp. apply Ha.
Qed.

(** Two nodes at the front and the list cell are apart from every later node. *)
Lemma queue_apart2 L n a l :
  queue_ok L (n :: a :: l) ->
  forall b, b ∈ l -> (n + 8 <= b \/ b + 8 <= n) /\ (a + 8 <= b \/ b + 8 <= a) /\
    (L + 12 <= b \/ b + 8 <= L).
Proof.
  intros Hok b Hb. pose proof (queue_ok_nodes _ _ Hok) as Hnok. split_and!.
  - eapply nodes_ok_apart_cons; [exact Hnok | by right].
  - eapply nodes_ok_apart_cons; [by eapply nodes_ok_tail | done].
  - apply (queue_node_facts _ _ b Hok). by right; right.
Qed.

Lemma st32_list_untouched L l m v i :
  0 <= i <= 8 -> untouched (queue_fp L l) m (st32 m (L + i) v).
Proof.
  intros. eapply untouched_mono; [|apply st32_untouched]. intros b Hb. left.
  unfold range, sizeof_DLList in *. lia.
Qed.

Lemma st32_qnode_untouched L l m a v i :
  a ∈ l -> 0 <= i <= 4 -> untouched (queue_fp L l) m (st32 m (a + i) v).
Proof.
  intros. eapply untouched_mono; [|apply st32_untouched]. intros b Hb. right.
  exists a. unfold range, sizeof_Node in *. split; [done|lia].
Qed.

Lemma st32_list_head_untouched L l m v : untouched (queue_fp L l) m (st32 m L v).
Proof. rewrite <- (Z.add_0_r L) at 2. by apply st32_list_untouched. Qed.

Lemma st32_qnode_next_untouched L l m a v : a ∈ l -> untouched (queue_fp L l) m (st32 m a v).
Proof. intros. rewrite <- (Z.add_0_r a). by apply st32_qnode_untouched. Qed.

Ltac q_unfold :=
  unfold list_head, list_tail, list_size, node_next, node_prev, NULL in *.

(** Footprints of the stores of a queue operation. *)
Ltac q_stores := repeat
  match goal with
  | |- untouched _ ?m ?m => apply untouched_refl
  | |- untouched (queue_fp ?L _) _ (st32 ?m ?a _) =>
      apply (untouched_trans _ _ m);
      [|first [ apply st32_list_untouched; lia
              | apply st32_list_head_untouched
              | apply st32_qnode_untouched; [list_in | lia]
              | apply st32_qnode_next_untouched; list_in ]]
  end.

Section queue_specs.
Context (L : Z) (k : kernel).
Local Abbreviation m0 := (k_mem k).

Lemma last_or_elem l : l <> [] -> last_or 0 l ∈ l.
Proof.
  intros H. unfold last_or. destruct (last l) eqn:E; simpl;
    [by apply last_Some_elem_of | by apply last_None in E].
Qed.

Lemma size_succ (n : Z) (l : list Z) :
  u32 (u32 (Z.of_nat (length l)) + 1) = u32 (Z.of_nat (length (l ++ [n]))).
Proof. rewrite length_app. simpl length. word_lia. Qed.

Lemma list_push_back_spec n l :
  queue m0 L l -> queue_ok L (n :: l) ->
  wp (list_push_back L n) k (fun _ => leaves_queue L k (n :: l) (l ++ [n])).
Proof.
  intros (Hh & Ht & Hs & Hl) Hok. pose proof (queue_ok_facts _ _ Hok).
  pose proof (queue_node_facts _ _ n Hok ltac:(list_in)).
  pose proof (queue_ok_nodes _ _ Hok) as Hnok.
  unfold list_push_back. q_unfold. wp_steps.
  destruct (decide (l = [])) as [->|Hne].
  - unfold last_or in *. simpl in *. wp_steps.
    eexists. split_and!; [reflexivity | |q_stores].
    split_and!; q_unfold; try by mem_simp. simpl. node_unfold.
    split_and!; by mem_simp.
  - pose proof (last_or_elem l Hne) as Hin. set (t := last_or 0 l) in *.
    pose proof (queue_node_facts _ _ t Hok ltac:(list_in)).
    pose proof (nodes_ok_apart_cons n l t Hnok Hin).
    assert (t <> 0) by lia. destruct (Z.eqb_spec t 0); [lia|]. wp_steps.
    eexists. split_and!; [reflexivity | |q_stores].
    split_and!; q_unfold.
    + mem_simp. rewrite Hh. by destruct l.
    + mem_simp. unfold last_or. by rewrite last_snoc.
    + mem_simp. rewrite <- (size_succ n). apply u32_small, u32_range.
    + apply dseg_app. fold t. simpl. node_unfold. split_and!; [|by mem_simp|by mem_simp|done].
      assert (Hb : forall b, b ∈ l -> (n + 8 <= b \/ b + 8 <= n) /\ (L + 12 <= b \/ b + 8 <= L)).
      { intros b Hb. split; [by eapply nodes_ok_apart_cons|].
        apply (queue_node_facts _ _ b Hok). by right. }
      do 2 (apply dseg_st32; [intros b ?; specialize (Hb b ltac:(done)); lia|]).
      eapply dseg_set_end; [by eapply nodes_ok_tail | | lia | done].
      do 2 (apply dseg_st32; [intros b ?; specialize (Hb b ltac:(done)); lia|]). exact Hl.
Qed.

Lemma list_push_front_spec n l :
  queue m0 L l -> queue_ok L (n :: l) ->
  wp (list_push_front L n) k (fun _ => leaves_queue L k (n :: l) (n :: l)).
Proof.
  intros (Hh & Ht & Hs & Hl) Hok. pose proof (queue_ok_facts _ _ Hok).
  pose proof (queue_node_facts _ _ n Hok ltac:(list_in)).
  pose proof (queue_ok_nodes _ _ Hok) as Hnok.
  assert (Hsz : u32 (u32 (Z.of_nat (length l)) + 1) = u32 (Z.of_nat (length (n :: l)))).
  { simpl length. word_lia. }
  unfold list_push_front. q_unfold. wp_steps. destruct l as [|a l].
  - simpl hd in *. unfold last_or in *. simpl in *. wp_steps.
    eexists. split_and!; [reflexivity | |q_stores].
    split_and!; q_unfold; try by mem_simp. simpl. node_unfold. split_and!; by mem_simp.
  - simpl hd in *. pose proof (queue_node_facts _ _ a Hok ltac:(list_in)).
    pose proof (nodes_ok_apart_cons n _ a Hnok ltac:(left)).
    destruct (Z.eqb_spec a 0); [lia|]. wp_steps.
    eexists. split_and!; [reflexivity | |q_stores].
    split_and!; q_unfold; [by mem_simp | | |].
    + mem_simp. by rewrite Ht, !last_or_cons.
    + mem_simp. rewrite <- Hsz. apply u32_small, u32_range.
    + destruct Hl as (Hp & Hn & Hl). simpl. node_unfold.
      split_and!; [by mem_simp | by mem_simp | by mem_simp | by mem_simp |].
      pose proof (queue_apart2 _ _ _ _ Hok) as Hb.
      repeat apply dseg_st32; [intros b ?; specialize (Hb b ltac:(done)); lia..|]. exact Hl.
Qed.

Lemma list_pop_front_spec n l :
  queue m0 L (n :: l) -> queue_ok L (n :: l) ->
  wp (list_pop_front L) k (fun r k' => r = n /\ leaves_queue L k (n :: l) l k').
Proof.
  intros (Hh & Ht & Hs & (Hp & Hn & Hl)) Hok. pose proof (queue_ok_facts _ _ Hok).
  pose proof (queue_node_facts _ _ n Hok ltac:(list_in)).
  pose proof (queue_ok_nodes _ _ Hok) as Hnok. simpl hd in *.
  assert (Hsz : u32 (u32 (Z.of_nat (length (n :: l))) - 1) = u32 (Z.of_nat (length l))).
  { simpl length. word_lia. }
  unfold list_pop_front. q_unfold. wp_steps.
  destruct (Z.eqb_spec n 0); [lia|]. wp_steps.
  destruct l as [|a l].
  - unfold last_or in *. simpl in *. wp_steps.
    split; [done|]. eexists. split_and!; [reflexivity | |q_stores].
    split_and!; q_unfold; by mem_simp.
  - pose proof (queue_node_facts _ _ a Hok ltac:(list_in)).
    pose proof (nodes_ok_apart_cons n _ a Hnok ltac:(left)). rewrite last_or_cons in *.
    assert (Hla : last_or n (a :: l) = last_or 0 (a :: l)) by (by rewrite !last_or_cons).
    assert (Hne : n <> last_or n (a :: l)).
    { rewrite Hla. intros E. destruct Hnok as (Hnd & _). apply NoDup_cons in Hnd as [Hni _].
      apply Hni. rewrite E. by apply last_or_elem. }
    destruct (Z.eqb_spec n (last_or n (a :: l))); [done|]. simpl hd in *. wp_steps.
    split; [done|]. eexists. split_and!; [reflexivity | |q_stores].
    destruct Hl as (Hp' & Hn' & Hl).
    split_and!; q_unfold; [by mem_simp | | |].
    + mem_simp. by rewrite Ht, Hla.
    + mem_simp. rewrite <- Hsz. apply u32_small, u32_range.
    + simpl. node_unfold. split_and!; [by mem_simp | by mem_simp |].
      pose proof (queue_apart2 _ _ _ _ Hok) as Hb.
      repeat apply dseg_st32; [intros b ?; specialize (Hb b ltac:(done)); lia..|]. exact Hl.
Qed.

(** The search stops at the first node that wakes later than [n]. *)
Definition wake (m : memory) (t : Z) : Z := ld64 m (thread_wake_at t).

Lemma sorted_search_spec n l q fuel cur :
  (forall t, t ∈ n :: l -> KERNEL_VIRTUAL_BASE <= t /\ t + sizeof_Thread <= 2 ^ 32) ->
  dseg m0 q l 0 -> cur = hd 0 l -> (length l < fuel)%nat ->
  wp (sorted_search fuel cur n) k (fun r k' => k' = k /\
    exists l1 l2, l = l1 ++ l2 /\ r = hd 0 l2 /\
      insert_by (wake m0) n l = l1 ++ n :: l2).
Proof.
  intros Ht. revert q fuel cur. induction l as [|c l IH]; intros q fuel cur Hl -> Hf;
    (destruct fuel as [|fuel]; [simpl in Hf; lia|]); simpl sorted_search; cbn [hd].
  - wp_step. split; [done|]. by exists [], [].
  - destruct (Ht c ltac:(list_in)) as [Hc1 Hc2]. destruct (Ht n ltac:(list_in)) as [Hn1 Hn2].
    assert (Hc0 : 0 < c) by (unfold KERNEL_VIRTUAL_BASE in *; lia).
    destruct Hl as (Hp & Hnx & Hl). unfold NULL. destruct (Z.eqb_spec c 0); [lia|].
    unfold sizeof_Thread in *.
    apply wp_bind. eapply wp_access; [unfold thread_wake_at; lia.. | reflexivity |]. cbv beta.
    apply wp_bind. eapply wp_access; [unfold thread_wake_at; lia.. | reflexivity |]. cbv beta.
    fold (wake m0 c) (wake m0 n). simpl insert_by. destruct (wake m0 c <=? wake m0 n).
    + unfold node_next in *. wp_steps.
      eapply wp_mono; [eapply (IH ltac:(intros; apply Ht; list_in)); [exact Hl | done |]|].
      { simpl in Hf. lia. }
      intros r k' [-> (l1 & l2 & -> & -> & E)]. split; [done|].
      exists (c :: l1), l2. split_and!; [done | done | by rewrite E].
    + wp_step. split; [done|]. by exists [], (c :: l).
Qed.

(** The middle insertion of [list_sorted_push]. *)
Lemma sorted_link_spec n l1 p c l2 :
  queue m0 L ((l1 ++ [p]) ++ c :: l2) -> queue_ok L (n :: (l1 ++ [p]) ++ c :: l2) ->
  wp (prev ← load32 (node_prev c);
      store32 (node_prev n) prev;;
      store32 (node_next n) c;;
      prev ← load32 (node_prev c);
      store32 (node_next prev) n;;
      store32 (node_prev c) n;;
      size ← load32 (list_size L);
      store32 (list_size L) (size ⊞ 1)) k
    (fun _ => leaves_queue L k (n :: (l1 ++ [p]) ++ c :: l2) ((l1 ++ [p]) ++ n :: c :: l2)).
Proof.
  intros (Hh & Ht & Hs & Hl) Hok. pose proof (queue_ok_facts _ _ Hok).
  apply dseg_app in Hl as [Hl1 (Hcp & Hcn & Hl2)].
  assert (Hlast : last_or 0 (l1 ++ [p]) = p) by (unfold last_or; by rewrite last_snoc).
  pose proof (queue_ok_nodes _ _ Hok) as Hnok. q_unfold. rewrite Hlast in Hcp.
  pose proof (queue_node_facts _ _ n Hok ltac:(list_in)).
  pose proof (queue_node_facts _ _ p Hok ltac:(list_in)).
  pose proof (queue_node_facts _ _ c Hok ltac:(list_in)).
  pose proof (nodes_ok_apart_cons n _ p Hnok ltac:(list_in)).
  pose proof (nodes_ok_apart_cons n _ c Hnok ltac:(list_in)).
  pose proof (nodes_ok_tail _ _ Hnok) as Hnok'.
  pose proof (nodes_ok_apart_mid _ c _ p Hnok' ltac:(list_in)).
  assert (Hb : forall b, b ∈ (l1 ++ [p]) ++ l2 -> (n + 8 <= b \/ b + 8 <= n) /\
            (c + 8 <= b \/ b + 8 <= c) /\ (L + 12 <= b \/ b + 8 <= L)).
  { intros b Hb. split_and!.
    - eapply nodes_ok_apart_cons; [exact Hnok | list_in].
    - by eapply nodes_ok_apart_mid.
    - apply (queue_node_facts _ _ b Hok). list_in. }
  assert (Hpb : forall b, b ∈ l2 -> p + 8 <= b \/ b + 8 <= p).
  { intros b Hb'. eapply (nodes_ok_apart_mid l1 p (c :: l2)); [|list_in].
    by rewrite <- app_assoc in Hnok'. }
  wp_steps. eexists. split_and!; [reflexivity | |q_stores].
  split_and!; q_unfold.
  - mem_simp. rewrite Hh. by rewrite <- !app_assoc, !hd_app.
  - mem_simp. rewrite Ht. unfold last_or. by rewrite !last_app_cons, last_cons_cons.
  - mem_simp. rewrite u32_small by apply u32_range. rewrite !length_app. simpl length. word_lia.
  - apply dseg_app. rewrite Hlast. simpl. node_unfold.
    split_and!; [|by mem_simp|by mem_simp|by mem_simp|by mem_simp|].
    + do 2 (apply dseg_st32; [intros b ?; specialize (Hb b ltac:(list_in)); lia|]).
      eapply dseg_set_end_at; [exact Hlast | | | lia | by destruct l1].
      { eapply nodes_ok_sublist; [|exact Hnok']. by apply sublist_inserts_r. }
      do 2 (apply dseg_st32; [intros b ?; specialize (Hb b ltac:(list_in)); lia|]). exact Hl1.
    + repeat apply dseg_st32; [intros b ?; specialize (Hb b ltac:(list_in));
        specialize (Hpb b ltac:(done)); lia..|]. exact Hl2.
Qed.

Lemma list_sorted_push_spec n l :
  queue m0 L l -> queue_ok L (n :: l) -> Z.of_nat (length l) < 2 ^ 32 ->
  (forall t, t ∈ n :: l -> KERNEL_VIRTUAL_BASE <= t /\ t + sizeof_Thread <= 2 ^ 32) ->
  wp (list_sorted_push L n) k
    (fun _ => leaves_queue L k (n :: l) (insert_by (wake m0) n l)).
Proof.
  intros Hq Hok Hlen Ht. pose proof (queue_ok_facts _ _ Hok).
  pose proof Hq as (Hh & _ & Hs & Hl). unfold list_sorted_push. q_unfold.
  wp_step. wp_step. wp_step. wp_step. apply wp_bind.
  eapply wp_mono; [eapply (sorted_search_spec n l 0); [done | done | done |]|].
  { rewrite Hs, u32_small by lia. lia. }
  intros r k' [-> (l1 & l2 & -> & -> & ->)]. wp_step. wp_step. rewrite Hh.
  destruct l2 as [|c l2].
  { rewrite !app_nil_r in *. simpl. by apply list_push_back_spec. }
  pose proof (queue_node_facts _ _ c Hok ltac:(list_in)). simpl hd at 1.
  destruct (Z.eqb_spec c 0); [lia|].
  destruct (exists_last_or_nil l1) as [->|(l1' & p & ->)].
  { simpl. rewrite Z.eqb_refl. by apply list_push_front_spec. }
  assert (Hne : c <> hd 0 ((l1' ++ [p]) ++ c :: l2)).
  { pose proof (queue_ok_nodes _ _ Hok) as (Hnd & _). apply NoDup_cons in Hnd as [_ Hnd].
    apply NoDup_app in Hnd as (_ & Hd & _). intros E.
    apply (Hd c); [rewrite E; destruct l1'; simpl; list_in | left]. }
  simpl hd at 1. destruct (Z.eqb_spec c (hd 0 ((l1' ++ [p]) ++ c :: l2))); [done|].
  by apply sorted_link_spec.
Qed.
End queue_specs.

(** ** Ordered insertion *)

Section insert_by.
Context (w : Z -> Z).

Lemma insert_by_perm n l : insert_by w n l ≡ₚ n :: l.
Proof.
  induction l as [|c l IH]; simpl; [done|]. destruct (w c <=? w n); [|done].
  rewrite IH. apply Permutation_swap.
Qed.

Definition wakes_before (a b : Z) : Prop := w a <= w b.

Lemma insert_by_sorted n l :
  StronglySorted wakes_before l -> StronglySorted wakes_before (insert_by w n l).
Proof.
  induction 1 as [|c l Hl IH Hc]; simpl; [repeat constructor|].
  destruct (Z.leb_spec (w c) (w n)).
  - constructor; [done|]. rewrite insert_by_perm. by constructor.
  - constructor; [by constructor|]. constructor; [unfold wakes_before; lia|].
    eapply Forall_impl; [exact Hc|]. unfold wakes_before. lia.
Qed.

(** Threads with the same deadline keep their arrival order. *)
Lemma insert_by_stable n l :
  StronglySorted wakes_before l ->
  filter (fun t => w t = w n) (insert_by w n l) = filter (fun t => w t = w n) l ++ [n].
Proof.
  induction 1 as [|c l Hl IH Hc]; simpl insert_by.
  - by rewrite filter_cons_True.
  - destruct (Z.leb_spec (w c) (w n)) as [Hle|Hgt].
    + rewrite !filter_cons. case_decide; [|done]. by rewrite IH.
    + rewrite filter_cons_True by done.
      enough (filter (fun t => w t = w n) (c :: l) = []) as -> by done.
      rewrite filter_cons_False by lia. clear IH Hl.
      induction Hc as [|d l Hd Hc IH]; [done|]. unfold wakes_before in Hd.
      by rewrite filter_cons_False by lia.
Qed.
End insert_by.

(** ** Queues used as queues *)

Fixpoint push_all (L : Z) (ns : list Z) : M unit :=
  match ns with [] => skip | n :: ns => list_push_back L n;; push_all L ns end.

Fixpoint pop_all (L : Z) (n : nat) : M (list Z) :=
  match n with
  | O => mret []
  | S n => x ← list_pop_front L; xs ← pop_all L n; mret (x :: xs)
  end.

Lemma push_all_spec L ns : forall l k,
  queue (k_mem k) L l -> queue_ok L (l ++ ns) ->
  wp (push_all L ns) k (fun _ k' => exists m', k' = set_mem m' k /\ queue m' L (l ++ ns) /\
    untouched (queue_fp L (l ++ ns)) (k_mem k) m').
Proof.
  induction ns as [|n ns IH]; intros l k Hq Hok; cbn [push_all].
  - apply wp_ret. exists (k_mem k). rewrite app_nil_r.
    split_and!; [by destruct k | done | apply untouched_refl].
  - apply wp_bind. eapply wp_mono; [apply (list_push_back_spec _ _ n l); [done|]|].
    { eapply queue_ok_perm; [symmetry; apply Permutation_cons_append|].
      eapply queue_ok_incl; [|exact Hok]. apply sublist_app; [done|]. by constructor; apply sublist_nil_l. }
    intros [] k1 (m1 & -> & Hq1 & Hu1).
    eapply wp_mono; [apply (IH (l ++ [n])); [done | by rewrite <- app_assoc]|].
    intros [] k2 (m2 & -> & Hq2 & Hu2). rewrite <- app_assoc in Hq2, Hu2.
    exists m2. split_and!; [done | done |]. eapply untouched_trans; [|exact Hu2].
    eapply untouched_mono; [|exact Hu1]. intros b [Hb|(a & Ha & Hb)]; [by left|].
    right. exists a. split; [|done]. clear - Ha. rewrite elem_of_app. rewrite !elem_of_cons in *. tauto.
Qed.

Lemma pop_all_spec L l : forall k,
  queue (k_mem k) L l -> queue_ok L l ->
  wp (pop_all L (length l)) k (fun r k' => r = l /\ exists m', k' = set_mem m' k /\
    queue m' L [] /\ untouched (queue_fp L l) (k_mem k) m').
Proof.
  induction l as [|n l IH]; intros k Hq Hok; cbn [pop_all length].
  - apply wp_ret. split; [done|]. exists (k_mem k).
    split_and!; [by destruct k | done | apply untouched_refl].
  - apply wp_bind. eapply wp_mono; [by apply (list_pop_front_spec _ _ n l)|].
    intros r k1 (-> & m1 & -> & Hq1 & Hu1). apply wp_bind.
    eapply wp_mono; [apply IH; [exact Hq1|]|].
    { eapply queue_ok_incl; [|exact Hok]. by constructor. }
    intros r k2 (-> & m2 & -> & Hq2 & Hu2). apply wp_ret. split; [done|]. exists m2.
    split_and!; [done | done |]. eapply untouched_trans; [exact Hu1|].
    eapply untouched_mono; [|exact Hu2]. intros b [Hb|(a & Ha & Hb)]; [by left|].
    right. exists a. split; [by right | done].
Qed.

(** ** The properties *)

(** Nodes appended with [list_push_back] come out of [list_pop_front] in
    the order they went in, after the nodes already queued; the queue is then
    empty and only the list record and the nodes were written. *)
Theorem queue_fifo L l ns k :
  queue (k_mem k) L l -> queue_ok L (l ++ ns) ->
  wp (push_all L ns;; pop_all L (length (l ++ ns))) k (fun r k' =>
    r = l ++ ns /\ queue (k_mem k') L [] /\ untouched (queue_fp L (l ++ ns)) (k_mem k) (k_mem k')).
Proof.
  intros Hq Hok. apply wp_bind. eapply wp_mono; [by apply push_all_spec|].
  intros [] k1 (m1 & -> & Hq1 & Hu1). eapply wp_mono; [by apply pop_all_spec|].
  intros r k2 (-> & m2 & -> & Hq2 & Hu2). split_and!; [done | done |].
  by eapply untouched_trans.
Qed.

(** An empty queue at 0xC0001000; threads that wake at 5, 9 and 7. *)
Definition sample_threads : kernel :=
  set_mem (st64 (st64 (st64 ∅ 0xC0002018 5) 0xC0003018 9) 0xC0004018 7) empty_kernel.

Lemma sample_queue_ok : queue_ok 0xC0001000 [0xC0002000; 0xC0003000; 0xC0004000].
Proof.
  split; [|split; [done|split; [done|]]].
  - split_and!.
    + repeat constructor; rewrite ?not_elem_of_cons, ?elem_of_nil; intuition congruence.
    + unfold node_ok, sizeof_Node, KERNEL_VIRTUAL_BASE. repeat constructor; lia.
    + unfold apart, sizeof_Node. intros a b Ha Hb.
      repeat rewrite elem_of_cons in Ha. repeat rewrite elem_of_cons in Hb.
      rewrite elem_of_nil in Ha, Hb. lia.
  - unfold apart, sizeof_Node, sizeof_DLList. intros a Ha.
    repeat rewrite elem_of_cons in Ha. rewrite elem_of_nil in Ha. lia.
Qed.

Lemma queue_fifo_witness :
  wp (push_all 0xC0001000 [0xC0002000; 0xC0003000; 0xC0004000];; pop_all 0xC0001000 3) sample_threads
    (fun r _ => r = [0xC0002000; 0xC0003000; 0xC0004000]).
Proof.
  eapply wp_mono; [apply (queue_fifo 0xC0001000 [] [0xC0002000; 0xC0003000; 0xC0004000] sample_threads);
    [split_and!; done | exact sample_queue_ok]|].
  by intros r k' [-> _].
Defined.

(** [list_sorted_push] on a queue sorted by wake time inserts the thread so
    that the queue stays sorted, keeps the same threads, and places it behind the
    threads with the same wake time. *)
Theorem list_sorted_push_correct L n l k :
  queue (k_mem k) L l -> queue_ok L (n :: l) -> Z.of_nat (length l) < 2 ^ 32 ->
  (forall t, t ∈ n :: l -> KERNEL_VIRTUAL_BASE <= t /\ t + sizeof_Thread <= 2 ^ 32) ->
  StronglySorted (wakes_before (wake (k_mem k))) l ->
  wp (list_sorted_push L n) k (fun _ k' => exists m' l',
    k' = set_mem m' k /\ queue m' L l' /\ untouched (queue_fp L (n :: l)) (k_mem k) m' /\
    l' ≡ₚ n :: l /\ StronglySorted (wakes_before (wake (k_mem k))) l' /\
    filter (fun t => wake (k_mem k) t = wake (k_mem k) n) l' =
      filter (fun t => wake (k_mem k) t = wake (k_mem k) n) l ++ [n]).
Proof.
  intros Hq Hok Hlen Ht Hs. eapply wp_mono; [by apply list_sorted_push_spec|].
  intros [] k' (m' & -> & Hq' & Hu). exists m', (insert_by (wake (k_mem k)) n l).
  split_and!; [done | done | done | apply insert_by_perm | by apply insert_by_sorted
    | by apply insert_by_stable].
Qed.

Lemma list_sorted_push_correct_witness : exists k,
  wp (list_sorted_push 0xC0001000 0xC0004000) k (fun _ k' => exists l',
    queue (k_mem k') 0xC0001000 l' /\ l' ≡ₚ [0xC0004000; 0xC0002000; 0xC0003000]).
Proof.
  destruct (wp_ok _ _ _ (push_all_spec 0xC0001000 [0xC0002000; 0xC0003000] [] sample_threads
    ltac:(split_and!; done) ltac:(eapply queue_ok_incl; [|exact sample_queue_ok];
      apply (sublist_take [0xC0002000; 0xC0003000; 0xC0004000] 2)))) as ([] & k1 & _ & m1 & -> & Hq & Hu).
  assert (Hw : forall t, t ∈ [0xC0002000; 0xC0003000; 0xC0004000] -> wake m1 t = wake (k_mem sample_threads) t).
  { intros t Ht. apply ld64_agree. eapply untouched_agree; [exact Hu|].
    unfold thread_wake_at, range, queue_fp, nodes_fp, range, sizeof_DLList, sizeof_Node.
    intros b Hb [Hb'|(a & Ha & Hb')]; repeat rewrite elem_of_cons in Ht; rewrite elem_of_nil in Ht;
      [lia|]. cbn [app] in Ha. repeat rewrite elem_of_cons in Ha. rewrite elem_of_nil in Ha. lia. }
  exists (set_mem m1 sample_threads).
  eapply wp_mono; [apply (list_sorted_push_correct 0xC0001000 0xC0004000 [0xC0002000; 0xC0003000])|].
  - exact Hq.
  - eapply queue_ok_perm; [|exact sample_queue_ok].
    symmetry. apply (Permutation_cons_append [0xC0002000; 0xC0003000] 0xC0004000).
  - cbn. lia.
  - unfold sizeof_Thread, KERNEL_VIRTUAL_BASE. intros t Ht. repeat rewrite elem_of_cons in Ht.
    rewrite elem_of_nil in Ht. lia.
  - cbn [k_mem set_mem]. unfold wakes_before. repeat constructor.
    rewrite !Hw by (repeat first [left | right]). vm_compute. congruence.
  - intros [] k' (m' & l' & -> & Hq' & _ & Hp & _). by exists l'.
Defined.
