(* ===== verification/Bump.v ===== *)
(** * The boot-time page allocator: src/mm/bump.c

    [bump_alloc] hands out consecutive zeroed pages from [placement_addr]
    upwards; it is used before the buddy allocator exists. *)

From Stdlib Require Import ZArith Lia Bool.
From stdpp Require Import base list gmap.
From S2P Require Import Prelude Machine StringLib.

Definition init_bump (end_addr : Z) : M unit :=
  modify (set_placement (ALIGN_UP end_addr 0x1000)).

Definition bump_alloc (num_pages : Z) : M Z :=
  page ← gets placement_addr;
  modify (set_placement (page ⊞ 0x1000 * num_pages));;
  kmemset (P2V page) 0 (u32 (0x1000 * num_pages));;
  mret page.

Definition get_placement_addr : M Z := gets placement_addr.

(** Physical memory that the kernel can address: below 1 GiB. *)
Definition PHYS_LIMIT : Z := 2 ^ 32 - KERNEL_VIRTUAL_BASE.

Lemma P2V_eq p : 0 <= p < PHYS_LIMIT -> P2V p = p + KERNEL_VIRTUAL_BASE.
Proof.
  unfold P2V, PHYS_LIMIT, KERNEL_VIRTUAL_BASE. intros. apply u32_small. lia.
Qed.

Lemma V2P_P2V p : 0 <= p < 2 ^ 32 -> V2P (P2V p) = p.
Proof. unfold V2P, P2V, KERNEL_VIRTUAL_BASE. word_lia. Qed.

Lemma P2V_V2P v : 0 <= v < 2 ^ 32 -> P2V (V2P v) = v.
Proof. unfold V2P, P2V, KERNEL_VIRTUAL_BASE. word_lia. Qed.

Lemma init_bump_spec end_addr k :
  0 <= end_addr -> end_addr + 4095 < 2 ^ 32 ->
  wp (init_bump end_addr) k (fun _ k' =>
    exists p, k' = set_placement p k /\ (4096 | p) /\ end_addr <= p < end_addr + 4096).
Proof.
  intros H1 H2. unfold init_bump. wp_step. change 0x1000 with (2 ^ 12).
  destruct (ALIGN_UP_spec end_addr 12) as [Hd Hr]; [lia..|].
  exists (ALIGN_UP end_addr (2 ^ 12)). by change 4096 with (2 ^ 12).
Qed.

(** [bump_alloc n] returns the old placement address, moves it up by [n] pages,
    and zeroes exactly those pages. *)
Lemma bump_alloc_spec n k :
  0 <= n -> 0 <= placement_addr k -> placement_addr k + 4096 * n <= PHYS_LIMIT ->
  placement_addr k < PHYS_LIMIT ->
  wp (bump_alloc n) k (fun r k' =>
    r = placement_addr k /\
    exists m', k' = set_mem m' (set_placement (placement_addr k + 4096 * n) k) /\
      untouched (range (P2V r) (4096 * n)) (k_mem k) m' /\
      forall i, 0 <= i < 4096 * n -> ld8 m' (P2V r + i) = 0).
Proof.
  intros Hn H0 H1 H2. unfold bump_alloc, PHYS_LIMIT, KERNEL_VIRTUAL_BASE in *.
  wp_step. wp_step. wp_step. wp_step. wp_step. rewrite !u32_small by lia.
  eapply wp_mono; [apply kmemset_spec; rewrite ?P2V_eq;
    unfold PHYS_LIMIT, KERNEL_VIRTUAL_BASE; lia|].
  intros _ k' [_ (m' & -> & Hu & Hf)]. wp_step. split; [done|].
  exists m'. split_and!; [done | done | exact Hf].
Qed.

(** ** The properties *)

(** consecutive boot-time allocations are consecutive: two calls return
    adjacent page ranges, [P2V] of both is zeroed memory, and no other byte and
    no other global than [placement_addr] changes. *)
Theorem bump_alloc_twice_correct n1 n2 k :
  0 <= n1 -> 0 <= n2 -> 0 <= placement_addr k ->
  placement_addr k + 4096 * (n1 + n2) < PHYS_LIMIT ->
  wp (p1 ← bump_alloc n1; p2 ← bump_alloc n2; mret (p1, p2)) k (fun r k' =>
    r = (placement_addr k, placement_addr k + 4096 * n1) /\
    exists m', k' = set_mem m' (set_placement (placement_addr k + 4096 * (n1 + n2)) k) /\
      forall b, ld8 m' b = if decide (range (P2V (placement_addr k)) (4096 * (n1 + n2)) b)
                           then 0 else ld8 (k_mem k) b).
Proof.
  intros H1 H2 H3 H4. unfold PHYS_LIMIT, KERNEL_VIRTUAL_BASE in H4.
  apply wp_bind. eapply wp_mono; [apply bump_alloc_spec; unfold PHYS_LIMIT, KERNEL_VIRTUAL_BASE; lia|].
  intros r1 k1 (-> & m1 & -> & U1 & Z1).
  apply wp_bind. eapply wp_mono; [apply bump_alloc_spec;
    cbn [placement_addr set_mem set_placement]; unfold PHYS_LIMIT, KERNEL_VIRTUAL_BASE; lia|].
  cbn [placement_addr set_mem set_placement k_mem].
  intros r2 k2 (-> & m2 & -> & U2 & Z2). apply wp_ret. split; [done|]. exists m2.
  split; [by replace (4096 * (n1 + n2)) with (4096 * n1 + 4096 * n2) by lia; rewrite Z.add_assoc|].
  rewrite (P2V_eq (placement_addr k + _)) in * by (unfold PHYS_LIMIT, KERNEL_VIRTUAL_BASE; lia).
  rewrite (P2V_eq (placement_addr k)) in * by (unfold PHYS_LIMIT, KERNEL_VIRTUAL_BASE; lia).
  unfold KERNEL_VIRTUAL_BASE, range in *. intros b. case_decide as Hb.
  - destruct (Z.lt_ge_cases b (placement_addr k + 4096 * n1 + 3221225472)) as [Hlt|Hge].
    + rewrite U2 by lia. replace b with (placement_addr k + 3221225472 + (b - placement_addr k - 3221225472)) by lia.
      apply Z1. lia.
    + replace b with (placement_addr k + 4096 * n1 + 3221225472
        + (b - placement_addr k - 4096 * n1 - 3221225472)) by lia. apply Z2. lia.
  - rewrite U2, U1 by lia. done.
Qed.

Lemma bump_alloc_twice_correct_witness :
  wp (p1 ← bump_alloc 1; p2 ← bump_alloc 2; mret (p1, p2)) (set_placement 0x200000 empty_kernel)
    (fun r k' => r = (0x200000, 0x201000) /\ placement_addr k' = 0x203000).
Proof.
  eapply wp_mono; [apply (bump_alloc_twice_correct 1 2 (set_placement 0x200000 empty_kernel));
    cbn [placement_addr set_placement]; unfold PHYS_LIMIT, KERNEL_VIRTUAL_BASE; lia|].
  intros r k' (-> & m' & -> & _). done.
Defined.
