(* ===== verification/Buddy.v ===== *)
(** * The physical page allocator: src/mm/buddy/buddy.c, src/mm/buddy/buddy.h,
    src/mm/pmm.c, src/mm/pmm.h — the code

    One [Page] record per 4 KiB frame in the array [page_map]; the frames that
    head a free block of order [o] are linked in [free_area[o]]. *)

From Stdlib Require Import ZArith Lia Bool.
From stdpp Require Import base list gmap strings.
From S2P Require Import Prelude Machine StringLib Console Node Bump.

(** ** Layout *)

(** [struct Page]: node at 0, order at 8, flags at 9; 12 bytes. *)
Definition page_order (p : Z) : Z := p + 8.
Definition page_flags (p : Z) : Z := p + 9.
Definition sizeof_Page : Z := 12.

Definition P_FREE : Z := 0.
Definition P_TAIL : Z := 1.
Definition P_USED : Z := 2.
Definition P_KERNEL : Z := 4.
Definition MAX_BUDDY_ORDER : Z := 10.
Definition BASE_SHIFT : Z := 12.
Definition BASE_SIZE : Z := 4096.

(** [memory_map_t]: addr at 0, size at 8; 24 bytes, packed. *)
Definition mmap_addr (entry : Z) : Z := entry.
Definition mmap_size (entry : Z) : Z := entry + 8.
Definition sizeof_memory_map_t : Z := 24.

(** The address the linker gives to the array [free_area]. *)
Class BuddySymbols := { free_area : Z }.

Section code.
Context `{BuddySymbols}.

Definition free_area_at (order : Z) : Z := free_area ⊞ 4 * order.

Definition page_at (pm idx : Z) : Z := pm + sizeof_Page * idx.
Definition real_page_index (addr : Z) : Z := Z.shiftr addr BASE_SHIFT.
Definition page_map_index (pm ptr : Z) : Z := (ptr - pm) / sizeof_Page.

(** [buddy_index(idx)]: flips the bit of the order stored for [idx]. *)
Definition buddy_index (pm idx : Z) : M Z :=
  order ← load8 (page_order (page_at pm idx));
  mret (Z.lxor idx (Z.shiftl 1 order)).

Definition get_page_map : M Z := gets (fun k => page_map (k_buddy k)).

Definition set_counts (used free : Z) : M unit :=
  modify (fun k => set_buddy
    (MkBuddy (page_map (k_buddy k)) (page_n (k_buddy k)) (u32 free) (u32 used)) k).

Definition make_pages : M unit :=
  mm ← gets (fun k => memory_map (k_boot k));
  addr ← load64 (mmap_addr (mm + 3 * sizeof_memory_map_t));
  size ← load64 (mmap_size (mm + 3 * sizeof_memory_map_t));
  let total_size := u32 (u32 addr + size) in
  let n := Z.shiftr (total_size ⊞ (0x1000 - 1)) 12 in
  modify (fun k => set_buddy (MkBuddy (page_map (k_buddy k)) n
    (free_pages_count (k_buddy k)) (used_pages_count (k_buddy k))) k);;
  let map_size := n ⊠ sizeof_Page in
  let pages_needed := Z.shiftr (map_size ⊞ (0x1000 - 1)) 12 in
  page ← bump_alloc 1;
  let pm := P2V page in
  modify (fun k => set_buddy (MkBuddy pm (page_n (k_buddy k))
    (free_pages_count (k_buddy k)) (used_pages_count (k_buddy k))) k);;
  for_up (Z.to_nat (pages_needed ⊟ 1)) 0 (fun _ => bump_alloc 1;; skip);;
  for_up (Z.to_nat n) 0 (fun i =>
    store8 (page_flags (page_at pm i)) P_KERNEL;;
    store8 (page_order (page_at pm i)) 0;;
    store32 (node_next (page_at pm i)) NULL;;
    store32 (node_prev (page_at pm i)) NULL).

(** The inner loop of [add_pages], from order [i] down to 0: the new [start]
    when a block was added. *)
Fixpoint add_block (i : nat) (start end_ : Z) : M (option Z) :=
  let order := Z.of_nat i in
  let size := u32 (Z.shiftl BASE_SIZE order) in
  if IS_ALIGNED start size && (start ⊞ size <=? end_) then
    pm ← get_page_map;
    let idx := real_page_index start in
    used ← gets (fun k => used_pages_count (k_buddy k));
    free ← gets (fun k => free_pages_count (k_buddy k));
    set_counts used (free + Z.shiftl 1 order);;
    store8 (page_order (page_at pm idx)) order;;
    store8 (page_flags (page_at pm idx)) P_FREE;;
    for_up (Z.to_nat (Z.shiftl 1 order - 1)) 1 (fun tail =>
      store8 (page_flags (page_at pm (idx + tail))) P_TAIL);;
    push_node (free_area_at order) (page_at pm idx);;
    mret (Some (start ⊞ size))
  else
    match i with
    | O => mret None
    | S i => add_block i start end_
    end.

Fixpoint add_loop (fuel : nat) (start end_ : Z) : M unit :=
  match fuel with
  | O => stop_with OutOfFuel
  | S fuel =>
      if start <? end_ then
        found ← add_block (Z.to_nat MAX_BUDDY_ORDER) start end_;
        match found with
        | Some start => add_loop fuel start end_
        | None => kprintf ("0x%x, Last block wasn't aligned" ++ newline) [A32 start];; skip
        end
      else skip
  end.

(** Every iteration but the last adds at least one 4 KiB page, so
    [end / 4096 + 2] iterations are enough. *)
Definition add_pages : M unit :=
  start ← get_placement_addr;
  mm ← gets (fun k => memory_map (k_boot k));
  addr ← load64 (mmap_addr (mm + 3 * sizeof_memory_map_t));
  size ← load64 (mmap_size (mm + 3 * sizeof_memory_map_t));
  let end_ := u32 (addr + size) in
  add_loop (Z.to_nat (end_ / 0x1000 + 2)) start end_.

Definition get_order_addr (addr : Z) : M Z :=
  pm ← get_page_map;
  load8 (page_order (page_at pm (real_page_index addr))).

(** [for (; !free_area[cur_order] && cur_order <= MAX_BUDDY_ORDER; cur_order++)];
    the array is read before the bound is tested. *)
Fixpoint find_order (fuel : nat) (cur_order : Z) : M Z :=
  match fuel with
  | O => stop_with OutOfFuel
  | S fuel =>
      h ← load32 (free_area_at cur_order);
      if (h =? NULL) && (cur_order <=? MAX_BUDDY_ORDER) then find_order fuel (cur_order + 1)
      else mret cur_order
  end.

(** [while (cur_order > order)]: halve the block [top], freeing the upper half. *)
Fixpoint split_loop (fuel : nat) (cur_order order top : Z) : M Z :=
  match fuel with
  | O => stop_with OutOfFuel
  | S fuel =>
      if cur_order >? order then
        let cur_order := cur_order - 1 in
        store8 (page_order top) cur_order;;
        store8 (page_flags top) P_USED;;
        pm ← get_page_map;
        let index := page_map_index pm top in
        b ← buddy_index pm index;
        let sibling := page_at pm b in
        store8 (page_order sibling) cur_order;;
        store8 (page_flags sibling) P_FREE;;
        push_node (free_area_at cur_order) sibling;;
        split_loop fuel cur_order order top
      else mret cur_order
  end.

Definition buddy_alloc_pages (order : Z) : M Z :=
  cur_order ← find_order 12 order;
  when (cur_order >? MAX_BUDDY_ORDER) (kernel_panic "PMM Out of memory");;
  top ← pop_node (free_area_at cur_order);
  cur_order ← split_loop 12 cur_order order top;
  store8 (page_order top) cur_order;;
  store8 (page_flags top) P_USED;;
  used ← gets (fun k => used_pages_count (k_buddy k));
  free ← gets (fun k => free_pages_count (k_buddy k));
  set_counts (used + Z.shiftl 1 order) (free - Z.shiftl 1 order);;
  pm ← get_page_map;
  mret (u32 (0x1000 * page_map_index pm top)).

(** [while (cur_order < MAX_BUDDY_ORDER)]: merge with the buddy while it is free.
    Returns [top], [index] is implied, and the final order. *)
Fixpoint merge_loop (fuel : nat) (pm index cur_order top : Z) : M (Z * Z) :=
  match fuel with
  | O => stop_with OutOfFuel
  | S fuel =>
      if cur_order <? MAX_BUDDY_ORDER then
        b_index ← buddy_index pm index;
        let buddy := page_at pm b_index in
        flags ← load8 (page_flags buddy);
        order ← load8 (page_order buddy);
        if (flags =? P_FREE) && (order =? cur_order) then
          remove_node (free_area_at cur_order) buddy;;
          let '(top, buddy, index) :=
            if b_index <? index then (buddy, top, b_index) else (top, buddy, index) in
          store8 (page_order top) (cur_order + 1);;
          store8 (page_flags top) P_FREE;;
          store8 (page_flags buddy) P_TAIL;;
          merge_loop fuel pm index (cur_order + 1) top
        else mret (top, cur_order)
      else mret (top, cur_order)
  end.

Definition buddy_free_pages (addr : Z) : M unit :=
  let index := real_page_index addr in
  pm ← get_page_map;
  let top := page_at pm index in
  cur_order ← load8 (page_order top);
  used ← gets (fun k => used_pages_count (k_buddy k));
  free ← gets (fun k => free_pages_count (k_buddy k));
  set_counts (used - Z.shiftl 1 cur_order) (free + Z.shiftl 1 cur_order);;
  '(top, cur_order) ← merge_loop 12 pm index cur_order top;
  store8 (page_order top) cur_order;;
  store8 (page_flags top) P_FREE;;
  push_node (free_area_at cur_order) top.

Definition init_buddy : M unit :=
  set_counts 0 0;;
  make_pages;;
  add_pages.

Definition pmm_alloc (order : Z) : M Z := buddy_alloc_pages order.
Definition pmm_free (ptr : Z) : M unit := buddy_free_pages ptr.
Definition pmm_init : M unit := init_buddy.
End code.
