(* ===== verification/BuddyModel.v ===== *)
(** * The buddy allocator over lists

    The state of the allocator without memory layout: for every order the
    list of free block heads, and for every page its recorded order and
    flags.  The operations are those of src/mm/buddy/buddy.c with the list
    and field accesses as steps; [Buddy] refines them in [BuddyRefine]. *)

From Stdlib Require Import ZArith Lia Bool.
From stdpp Require Import base functions list gmap.
From S2P Require Import Prelude Buddy.

(** ** State *)

Record bst := MkBst {
  fl : Z -> list Z;      (* heads of the free blocks of an order *)
  ord : Z -> Z;          (* Page.order *)
  flg : Z -> Z }.        (* Page.flags *)

Definition set_fl (o : Z) (l : list Z) (s : bst) : bst :=
  MkBst (<[o := l]> (fl s)) (ord s) (flg s).
Definition set_ord (i v : Z) (s : bst) : bst :=
  MkBst (fl s) (<[i := v]> (ord s)) (flg s).
Definition set_flg (i v : Z) (s : bst) : bst :=
  MkBst (fl s) (ord s) (<[i := v]> (flg s)).
Definition mark (i o f : Z) (s : bst) : bst := set_flg i f (set_ord i o s).
Definition push (o i : Z) (s : bst) : bst := set_fl o (i :: fl s o) s.
Definition drop_from (o i : Z) (s : bst) : bst :=
  set_fl o (filter (fun j => j <> i) (fl s o)) s.

Definition orders : Z := MAX_BUDDY_ORDER.
Definition buddy_of (i o : Z) : Z := Z.lxor i (2 ^ o).

(** ** Operations *)

(** The first order at or above [o] with a free block. *)
Fixpoint first_order (fuel : nat) (s : bst) (o : Z) : option Z :=
  match fuel with
  | O => None
  | S fuel =>
      if o >? orders then None
      else match fl s o with [] => first_order fuel s (o + 1) | _ => Some o end
  end.

Fixpoint split (n : nat) (c top : Z) (s : bst) : bst :=
  match n with
  | O => s
  | S n =>
      let c := c - 1 in
      let sib := buddy_of top c in
      split n c top (push c sib (mark sib c P_FREE (mark top c P_USED s)))
  end.

Definition alloc (o : Z) (s : bst) : option (Z * bst) :=
  c ← first_order 12 s o;
  match fl s c with
  | [] => None
  | x :: l =>
      Some (x, mark x o P_USED (split (Z.to_nat (c - o)) c x (set_fl c l s)))
  end.

(** Merging [i], a block of order [c] that is on no list, with free buddies. *)
Fixpoint merge (fuel : nat) (i c : Z) (s : bst) : Z * Z * bst :=
  match fuel with
  | O => (i, c, s)
  | S fuel =>
      let b := buddy_of i c in
      if (c <? orders) && (flg s b =? P_FREE) && (ord s b =? c) then
        let lo := Z.min i b in
        let hi := Z.max i b in
        merge fuel lo (c + 1) (set_flg hi P_TAIL (mark lo (c + 1) P_FREE (drop_from c b s)))
      else (i, c, s)
  end.

Definition free (i : Z) (s : bst) : bst :=
  let '(j, c, s) := merge 12 i (ord s i) s in
  push c j (mark j c P_FREE s).

(** ** Blocks *)

Definition in_block (i o p : Z) : Prop := i <= p < i + 2 ^ o.

Definition head (s : bst) (i : Z) : Prop := flg s i = P_FREE \/ flg s i = P_USED.

(** [i] heads a well-placed block of its recorded order among [N] pages. *)
Definition block_ok (N : Z) (s : bst) (i : Z) : Prop :=
  0 <= ord s i <= orders /\ 0 <= i /\ i + 2 ^ ord s i <= N /\ (2 ^ ord s i | i) /\
  forall j, i < j < i + 2 ^ ord s i -> flg s j = P_TAIL.

(** The allocator's invariant.  [h] is the block in hand: a head that is on no
    list although it may be flagged free; [-1] between operations.  The pages
    past the end of memory, which the code may look at, do not look like free
    blocks of a positive order, and there is an even number of pages. *)
Record Inv (N h : Z) (s : bst) : Prop := {
  inv_block : forall i, 0 <= i < N -> head s i -> block_ok N s i;
  inv_listed : forall o i, 0 <= o <= orders ->
    i ∈ fl s o <-> 0 <= i < N /\ flg s i = P_FREE /\ ord s i = o /\ i <> h;
  inv_nodup : forall o, 0 <= o <= orders -> NoDup (fl s o);
  inv_guard : forall i, N <= i -> flg s i = P_FREE -> ord s i = 0;
  inv_even : (2 | N) }.

(** No two buddies are both free (except the largest blocks). *)
Definition coalesced (s : bst) : Prop :=
  forall o i, 0 <= o < orders -> i ∈ fl s o -> buddy_of i o ∉ fl s o.

(** Page [p] is in a free block. *)
Definition free_page (s : bst) (p : Z) : Prop :=
  exists o i, 0 <= o <= orders /\ i ∈ fl s o /\ in_block i o p.

(** The number of free pages. *)
Definition free_total (s : bst) : Z :=
  foldr Z.add 0 ((fun o => 2 ^ o * Z.of_nat (length (fl s o))) <$> seqZ 0 11).

(** ** Buddies *)

Lemma buddy_of_invol i o : buddy_of (buddy_of i o) o = i.
Proof. unfold buddy_of. by rewrite Z.lxor_assoc, Z.lxor_nilpotent, Z.lxor_0_r. Qed.

Lemma buddy_of_low i o :
  0 <= o -> (2 ^ (o + 1) | i) -> buddy_of i o = i + 2 ^ o.
Proof.
  intros Ho Hd. unfold buddy_of. symmetry. apply Z.add_nocarry_lxor.
  apply Z.bits_inj'. intros n Hn. rewrite Z.land_spec, Z.bits_0, Z.pow2_bits_eqb by lia.
  destruct (Z.eqb_spec o n) as [->|]; [|by rewrite andb_false_r].
  by rewrite (testbit_divide i (n + 1)) by (done || lia).
Qed.

(** The buddy of an aligned block is the block right after it or right before it. *)
Lemma buddy_of_cases i o :
  0 <= o -> 0 <= i -> (2 ^ o | i) ->
  ((2 ^ (o + 1) | i) /\ buddy_of i o = i + 2 ^ o) \/
  ((2 ^ (o + 1) | i - 2 ^ o) /\ buddy_of i o = i - 2 ^ o /\ 0 <= i - 2 ^ o).
Proof.
  intros Ho Hi [q ->]. pose proof (pow2_pos o Ho). rewrite pow2_S by done.
  destruct (Z.Even_or_Odd q) as [[r ->]|[r ->]].
  - left. assert (Hd : (2 * 2 ^ o | 2 * r * 2 ^ o)) by (exists r; lia).
    split; [done|]. apply buddy_of_low; [done|]. by rewrite pow2_S.
  - right. assert (Hr : 0 <= r) by nia.
    replace ((2 * r + 1) * 2 ^ o - 2 ^ o) with (2 * r * 2 ^ o) by lia.
    assert (Hd : (2 * 2 ^ o | 2 * r * 2 ^ o)) by (exists r; lia).
    split_and!; [done | | nia].
    rewrite <- (buddy_of_invol (2 * r * 2 ^ o) o). f_equal.
    rewrite buddy_of_low by (done || by rewrite pow2_S). lia.
Qed.

Lemma buddy_of_nonneg i o : 0 <= o -> 0 <= i -> (2 ^ o | i) -> 0 <= buddy_of i o.
Proof.
  intros H1 H2 H3. pose proof (pow2_pos o H1).
  destruct (buddy_of_cases i o H1 H2 H3) as [[_ ->]|(_ & -> & ?)]; lia.
Qed.

Lemma buddy_of_ne i o : 0 <= o -> 0 <= i -> (2 ^ o | i) -> buddy_of i o <> i.
Proof.
  intros H1 H2 H3. pose proof (pow2_pos o H1).
  destruct (buddy_of_cases i o H1 H2 H3) as [[_ ->]|(_ & -> & ?)]; lia.
Qed.

(** ** Reading updated states *)

Lemma fn_upd (f : Z -> Z) i v j : (<[i := v]> f) j = if decide (i = j) then v else f j.
Proof.
  destruct (decide (i = j)) as [->|]; [apply fn_lookup_insert | by apply fn_lookup_insert_ne].
Qed.

Lemma fn_upd_l (f : Z -> list Z) i v j : (<[i := v]> f) j = if decide (i = j) then v else f j.
Proof.
  destruct (decide (i = j)) as [->|]; [apply fn_lookup_insert | by apply fn_lookup_insert_ne].
Qed.

Ltac upd := cbn [fl ord flg set_fl set_ord set_flg mark push drop_from];
  rewrite ?fn_upd, ?fn_upd_l.
Ltac upd_in H := cbn [fl ord flg set_fl set_ord set_flg mark push drop_from] in H;
  rewrite ?fn_upd, ?fn_upd_l in H.

Lemma filter_absent (i : Z) (l : list Z) : i ∉ l -> filter (fun j => j <> i) l = l.
Proof.
  induction l as [|a l IH]; intros Hi; [done|]. rewrite not_elem_of_cons in Hi.
  rewrite filter_cons_True by (intros ->; tauto). f_equal. tauto.
Qed.

(** ** Blocks do not overlap *)

Section blocks.
Context (N h : Z) (s : bst).
Context (HI : Inv N h s).

Lemma head_not_tail i : head s i -> flg s i <> P_TAIL.
Proof. unfold head, P_FREE, P_USED, P_TAIL. lia. Qed.

(** A head is inside no other block. *)
Lemma head_outside i j :
  0 <= i < N -> head s i -> 0 <= j < N -> head s j -> i <> j ->
  ~ in_block i (ord s i) j.
Proof.
  intros Hi Hhi Hj Hhj Hne [H1 H2]. eapply head_not_tail; [exact Hhj|].
  destruct (inv_block _ _ _ HI i Hi Hhi) as (_ & _ & _ & _ & Ht). apply Ht. lia.
Qed.

Lemma blocks_disjoint i j p :
  0 <= i < N -> head s i -> 0 <= j < N -> head s j -> i <> j ->
  in_block i (ord s i) p -> ~ in_block j (ord s j) p.
Proof.
  intros Hi Hhi Hj Hhj Hne [H1 H2] [H3 H4].
  destruct (Z.lt_total i j) as [Hlt|[?|Hlt]]; [|done|].
  - apply (head_outside i j Hi Hhi Hj Hhj Hne). unfold in_block. lia.
  - apply (head_outside j i Hj Hhj Hi Hhi (not_eq_sym Hne)). unfold in_block. lia.
Qed.

Lemma listed_head o i : 0 <= o <= orders -> i ∈ fl s o -> 0 <= i < N /\ head s i /\ ord s i = o.
Proof. intros Ho Hi. apply (inv_listed _ _ _ HI) in Hi as (? & ? & ? & _); [|done].
  split_and!; try done; try lia. by left. Qed.

(** A free page is outside every used block and outside the block in hand. *)
Lemma free_page_not_in i p :
  0 <= i < N -> head s i -> (flg s i = P_USED \/ i = h) ->
  in_block i (ord s i) p -> ~ free_page s p.
Proof.
  intros Hi Hh Hu Hp (o & j & Ho & Hj & Hjp).
  destruct (listed_head o j Ho Hj) as (Hj1 & Hj2 & Hj3).
  apply (inv_listed _ _ _ HI) in Hj as (_ & Hf & _ & Hnh); [|done].
  eapply (blocks_disjoint i j p); eauto; [|by rewrite Hj3].
  intros ->. unfold P_FREE, P_USED in *. destruct Hu; [lia | done].
Qed.
End blocks.

(** ** Steps preserve the invariant *)

Ltac conjs := split_and!; try done; try lia; try congruence.
Ltac inv_split := split; [ | | | | ].

Lemma Inv_take N s c x l :
  Inv N (-1) s -> 0 <= c <= orders -> fl s c = x :: l -> Inv N x (set_fl c l s).
Proof.
  intros HI Hc Hl. destruct HI as [Hb Hli Hnd Hg He]. inv_split; try done.
  - intros o i Ho. upd. case_decide as E.
    + subst o. pose proof (Hnd c Hc) as Hndc. rewrite Hl in Hndc. apply NoDup_cons in Hndc as [Hx _].
      specialize (Hli c i Hc). rewrite Hl, elem_of_cons in Hli. split.
      * intros Hi. apply proj1 in Hli. specialize (Hli (or_intror Hi)).
        conjs; tauto.
      * intros (? & ? & ? & ?). destruct (proj2 Hli) as [?|?]; try done. conjs.
    + rewrite (Hli o i Ho). split; intros (? & ? & ? & ?); conjs.
      intros ->. assert (Hxc : x ∈ fl s c) by (rewrite Hl; left).
      apply (Hli c x Hc) in Hxc. lia.
  - intros o Ho. upd. case_decide as E; [|by apply Hnd].
    subst o. specialize (Hnd c Hc). rewrite Hl in Hnd. by apply NoDup_cons in Hnd as [_ ?].
Qed.

Lemma Inv_hold N s x : Inv N (-1) s -> flg s x = P_USED -> Inv N x s.
Proof.
  intros [Hb Hli Hnd Hg He] Hx. inv_split; try done. intros o i Ho. rewrite (Hli o i Ho).
  split; intros (? & Hf & ? & ?); conjs.
  intros ->. unfold P_FREE, P_USED in *. lia.
Qed.

(** Marking a head with its own order and a head flag changes no block. *)
Lemma mark_head N s x f :
  (forall i, 0 <= i < N -> head s i -> block_ok N s i) ->
  head s x -> (f = P_FREE \/ f = P_USED) ->
  forall i, 0 <= i < N -> head (mark x (ord s x) f s) i -> block_ok N (mark x (ord s x) f s) i.
Proof.
  intros Hb Hx Hf i Hi Hhi. assert (Hhs : head s i).
  { unfold head in Hhi. upd_in Hhi. destruct (decide (x = i)); [by subst | done]. }
  destruct (Hb i Hi Hhs) as (B1 & B2 & B3 & B4 & B5). unfold block_ok. upd.
  replace (if decide (x = i) then ord s x else ord s i) with (ord s i)
    by (destruct (decide (x = i)); congruence).
  conjs. intros j Hj. rewrite fn_upd.
  destruct (decide (x = j)) as [->|]; [|by apply B5].
  specialize (B5 j Hj). by apply head_not_tail in Hx.
Qed.

Lemma mark_guard N s x o f :
  (forall i, N <= i -> flg s i = P_FREE -> ord s i = 0) -> x < N ->
  forall i, N <= i -> flg (mark x o f s) i = P_FREE -> ord (mark x o f s) i = 0.
Proof.
  intros Hg Hx i Hi. upd. destruct (decide (x = i)); [lia | by apply Hg].
Qed.

Lemma Inv_release_used N s x o :
  Inv N x s -> 0 <= x < N -> head s x -> ord s x = o -> Inv N (-1) (mark x o P_USED s).
Proof.
  intros [Hb Hli Hnd Hg He] Hx Hh <-. inv_split; try done.
  - apply mark_head; auto.
  - intros q i Hq. upd. rewrite (Hli q i Hq). destruct (decide (x = i)) as [<-|].
    + split; intros (? & ? & ? & ?); [done | unfold P_FREE, P_USED in *; lia].
    + split; intros (? & ? & ? & ?); conjs.
  - apply mark_guard; [done | lia].
Qed.

Lemma Inv_release_free N s x c :
  Inv N x s -> 0 <= x < N -> head s x -> ord s x = c ->
  Inv N (-1) (push c x (mark x c P_FREE s)).
Proof.
  intros [Hb Hli Hnd Hg He] Hx Hh <-.
  assert (Hc : 0 <= ord s x <= orders) by (by apply Hb).
  inv_split; try done.
  - apply (mark_head N s x P_FREE); auto.
  - intros q i Hq. upd. destruct (decide (ord s x = q)) as [<-|Hne].
    + rewrite elem_of_cons, (Hli _ i Hq). destruct (decide (x = i)) as [<-|].
      * split; [|by left]. intros _. conjs.
      * split; [intros [?|(? & ? & ? & ?)]; [congruence|conjs] |].
        intros (? & ? & ? & ?). right. conjs.
    + rewrite (Hli q i Hq). destruct (decide (x = i)) as [<-|].
      * split; intros (? & ? & ? & ?); done.
      * split; intros (? & ? & ? & ?); conjs.
  - intros q Hq. upd. destruct (decide (ord s x = q)) as [<-|]; [|by apply Hnd].
    constructor; [|by apply Hnd]. rewrite (Hli _ x Hq). tauto.
  - apply (mark_guard N s x); [done | lia].
Qed.

(** Splitting the block in hand: its upper half becomes a free block. *)
Lemma Inv_split N s x c :
  Inv N x s -> 0 <= x < N -> head s x -> ord s x = c + 1 -> 0 <= c ->
  Inv N x (push c (x + 2 ^ c) (mark (x + 2 ^ c) c P_FREE (mark x c P_USED s))).
Proof.
  intros HI Hx Hh Ho Hc. pose proof HI as [Hb Hli Hnd Hg He].
  destruct (Hb x Hx Hh) as (X1 & X2 & X3 & X4 & X5). rewrite Ho, pow2_S in * by done.
  pose proof (pow2_pos c Hc) as Hp. set (y := x + 2 ^ c) in *.
  assert (Hy : flg s y = P_TAIL) by (apply X5; lia).
  assert (Hny : forall o, 0 <= o <= orders -> y ∉ fl s o).
  { intros o Hoo Hin. apply (Hli o y Hoo) in Hin as (_ & Hf & _). rewrite Hy in Hf. done. }
  inv_split; try done.
  - intros i Hi Hhi. unfold head in Hhi. upd_in Hhi. unfold block_ok. upd.
    destruct (decide (y = i)) as [<-|Hyi]; [|destruct (decide (x = i)) as [<-|Hxi]].
    + conjs; [apply Z.divide_add_r; [|done]; eapply Z.divide_trans; [|exact X4];
        by exists 2|].
      intros j Hj. rewrite !fn_upd. destruct (decide (y = j)); [lia|].
      destruct (decide (x = j)); [lia|]. apply X5. lia.
    + conjs; [eapply Z.divide_trans; [|exact X4]; by exists 2|].
      intros j Hj. rewrite !fn_upd. destruct (decide (y = j)); [lia|].
      destruct (decide (x = j)); [lia|]. apply X5. lia.
    + destruct (Hb i Hi Hhi) as (B1 & B2 & B3 & B4 & B5). conjs.
      intros j Hj. rewrite !fn_upd. destruct (decide (y = j)) as [<-|].
      { exfalso. eapply (blocks_disjoint N x s HI i x y); try done;
          unfold in_block; rewrite ?Ho, ?pow2_S by done; lia. }
      destruct (decide (x = j)) as [<-|]; [|by apply B5].
      specialize (B5 x Hj). by apply head_not_tail in Hh.
  - intros o i Hoo. upd. destruct (decide (c = o)) as [<-|Hne].
    + rewrite elem_of_cons. specialize (Hli c i Hoo). destruct (decide (y = i)) as [<-|].
      * split; [|by left]. intros _. conjs.
      * rewrite Hli. destruct (decide (x = i)) as [<-|].
        { split; [intros [E|(? & ? & ? & ?)]; [unfold y in E; lia | done]
                 | intros (? & ? & ? & ?); done]. }
        split; [intros [?|?]; [congruence | done] | by right].
    + specialize (Hny o Hoo). specialize (Hli o i Hoo). destruct (decide (y = i)) as [<-|].
      * split; [done | intros (? & ? & ? & ?); congruence].
      * rewrite Hli. destruct (decide (x = i)) as [<-|]; [|done].
        split; intros (? & ? & ? & ?); done.
  - intros o Hoo. upd. destruct (decide (c = o)) as [<-|]; [|by apply Hnd].
    constructor; [by apply Hny | by apply Hnd].
  - apply (mark_guard N _ y); [apply mark_guard; [done | lia] | lia].
Qed.

(** Merging the block in hand with its free buddy. *)
Lemma Inv_merge N s lo hi i b c :
  Inv N i s -> (i = lo /\ b = hi \/ i = hi /\ b = lo) ->
  0 <= lo -> hi < N -> head s lo -> head s hi -> ord s lo = c -> ord s hi = c ->
  flg s b = P_FREE -> hi = lo + 2 ^ c -> (2 ^ (c + 1) | lo) -> 0 <= c < orders ->
  Inv N lo (set_flg hi P_TAIL (mark lo (c + 1) P_FREE (drop_from c b s))).
Proof.
  intros HI Hib Hlo Hhi Hhl Hhh Hol Hoh Hbf Heq Hd Hc.
  pose proof HI as [Hb Hli Hnd Hg He]. pose proof (pow2_pos c ltac:(lia)) as Hp.
  destruct (Hb lo ltac:(lia) Hhl) as (L1 & L2 & L3 & L4 & L5).
  destruct (Hb hi ltac:(lia) Hhh) as (U1 & U2 & U3 & U4 & U5). rewrite Hol, Hoh in *.
  inv_split; try done.
  - intros j Hj Hhj. unfold head in Hhj. upd_in Hhj. unfold block_ok. upd.
    destruct (decide (hi = j)) as [<-|Hhj'].
    { unfold P_TAIL, P_FREE, P_USED in Hhj. lia. }
    destruct (decide (lo = j)) as [<-|Hlj].
    + rewrite pow2_S by lia. unfold orders in *. conjs; [by rewrite <- pow2_S by lia|].
      intros p Hp'. rewrite !fn_upd. destruct (decide (hi = p)); [done|].
      destruct (decide (lo = p)); [lia|].
      destruct (Z.lt_total p hi) as [?|[?|?]]; [apply L5; lia | done | apply U5; lia].
    + destruct (Hb j Hj Hhj) as (B1 & B2 & B3 & B4 & B5). conjs.
      intros p Hp'. rewrite !fn_upd. destruct (decide (hi = p)); [done|].
      destruct (decide (lo = p)) as [<-|]; [|by apply B5].
      specialize (B5 lo Hp'). by apply head_not_tail in Hhl.
  - intros o j Ho. upd. pose proof (Hli o j Ho) as Hlj.
    assert (Hin : j ∈ (if decide (c = o) then filter (fun z => z <> b) (fl s c) else fl s o)
                    <-> j ∈ fl s o /\ j <> b).
    { destruct (decide (c = o)) as [<-|Hne]; [rewrite list_elem_of_filter; tauto|].
      split; [|by intros [? _]]. intros Hj. split; [done|]. intros ->.
      apply (Hli o b Ho) in Hj as (_ & _ & Hj & _). destruct Hib as [[-> ->]|[-> ->]]; congruence. }
    rewrite Hin, Hlj. destruct (decide (hi = j)) as [<-|].
    { split; [intros [(? & ? & ? & ?) ?]; destruct Hib as [[-> ->]|[-> ->]]; congruence|].
      intros (_ & Hf & _). done. }
    destruct (decide (lo = j)) as [<-|].
    { split; [intros [(? & ? & ? & ?) ?]; destruct Hib as [[-> ->]|[-> ->]]; congruence|].
      intros (_ & _ & _ & ?). done. }
    split; [intros [(? & ? & ? & ?) ?]; conjs|].
    intros (? & ? & ? & ?). destruct Hib as [[-> ->]|[-> ->]]; conjs.
  - intros o Ho. upd. destruct (decide (c = o)) as [<-|]; [|by apply Hnd].
    by apply NoDup_filter, Hnd.
  - intros j Hj. upd. destruct (decide (hi = j)); [lia|].
    destruct (decide (lo = j)); [lia | by apply Hg].
Qed.

(** ** Pages and counts along a list operation *)

(** [s] has the block [x] of order [c] on its lists and [s'] does not. *)
Definition gives (c x : Z) (s s' : bst) : Prop :=
  0 <= c <= orders /\ (forall o, o <> c -> fl s' o = fl s o) /\ fl s c ≡ₚ x :: fl s' c.

Lemma gives_push c x s s0 : 0 <= c <= orders -> fl s0 = fl s -> gives c x (push c x s0) s.
Proof.
  intros Hc E. split; [done|]. split; [intros o Ho|]; upd; rewrite E;
    [by rewrite decide_False by congruence | by rewrite decide_True].
Qed.

Lemma gives_take c x l s : 0 <= c <= orders -> fl s c = x :: l -> gives c x s (set_fl c l s).
Proof.
  intros Hc E. split; [done|]. split; [intros o Ho|]; upd;
    [by rewrite decide_False by congruence | by rewrite decide_True, E].
Qed.

Lemma gives_drop c x s :
  0 <= c <= orders -> NoDup (fl s c) -> x ∈ fl s c -> gives c x s (drop_from c x s).
Proof.
  intros Hc Hnd Hx. split; [done|]. split; [intros o Ho|]; upd;
    [by rewrite decide_False by congruence | rewrite decide_True by done].
  apply NoDup_Permutation; [done | constructor; [|by apply NoDup_filter] |].
  - rewrite list_elem_of_filter. tauto.
  - intros y. rewrite elem_of_cons, list_elem_of_filter. split; [|by intros [->|[_ ?]]].
    intros Hy. destruct (decide (y = x)); [by left | by right].
Qed.

Lemma gives_mono c x s s1 s' : gives c x s s1 -> fl s' = fl s1 -> gives c x s s'.
Proof. unfold gives. intros (? & ? & ?) ->. done. Qed.

Lemma gives_elem c x s s' o i :
  gives c x s s' -> i ∈ fl s o <-> i ∈ fl s' o \/ (o = c /\ i = x).
Proof.
  intros (Hc & Hne & Hp). destruct (decide (o = c)) as [->|Ho].
  - rewrite Hp, elem_of_cons. tauto.
  - rewrite (Hne o Ho). tauto.
Qed.

Lemma gives_free_page c x s s' p :
  gives c x s s' -> free_page s p <-> free_page s' p \/ in_block x c p.
Proof.
  intros Hg. pose proof Hg as (Hc & _). unfold free_page. split.
  - intros (o & i & Ho & Hi & Hp). apply (gives_elem _ _ _ _ _ _ Hg) in Hi as [?|[-> ->]]; eauto 6.
  - intros [(o & i & Ho & Hi & Hp)|Hp]; [exists o, i | exists c, x]; split_and!; try lia; try done;
      apply (gives_elem _ _ _ _ _ _ Hg); auto.
Qed.

Lemma gives_total c x s s' : gives c x s s' -> free_total s = free_total s' + 2 ^ c.
Proof.
  intros (Hc & Hne & Hp). apply Permutation_length in Hp. cbn [length] in Hp.
  unfold free_total. change (seqZ 0 11) with [0; 1; 2; 3; 4; 5; 6; 7; 8; 9; 10].
  cbn [fmap list_fmap foldr]. unfold orders, MAX_BUDDY_ORDER in Hc.
  assert (E : forall o, 2 ^ o * Z.of_nat (length (fl s o)) =
                2 ^ o * Z.of_nat (length (fl s' o)) + if decide (o = c) then 2 ^ c else 0).
  { intros o. destruct (decide (o = c)) as [->|Ho]; [rewrite Hp; nia | rewrite (Hne o Ho); lia]. }
  rewrite !E.
  assert (c = 0 \/ c = 1 \/ c = 2 \/ c = 3 \/ c = 4 \/ c = 5 \/ c = 6 \/ c = 7 \/ c = 8 \/ c = 9
          \/ c = 10) as Hcs by lia.
  clear -Hcs. destruct_or! Hcs; subst c;
    repeat (rewrite decide_False by lia); rewrite decide_True by lia;
    repeat (rewrite decide_False by lia); lia.
Qed.

(** Removing a block keeps the lists coalesced; adding one does when its buddy
    is not listed. *)
Lemma gives_coalesced_out c x s s' : gives c x s s' -> coalesced s -> coalesced s'.
Proof.
  intros Hg Hc o i Ho Hi Hb. apply (Hc o i Ho); apply (gives_elem _ _ _ _ _ _ Hg); by left.
Qed.

Lemma gives_coalesced_in c x s s' :
  gives c x s s' -> coalesced s' -> 0 <= x -> (2 ^ c | x) ->
  (c < orders -> buddy_of x c ∉ fl s' c) -> coalesced s.
Proof.
  intros Hg Hc Hx Hd Hn o i Ho Hi Hb. pose proof Hg as (Hcc & _).
  apply (gives_elem _ _ _ _ _ _ Hg) in Hi. apply (gives_elem _ _ _ _ _ _ Hg) in Hb.
  destruct Hi as [Hi|[-> ->]], Hb as [Hb|[E Hb]]; try subst c.
  - by apply (Hc o i Ho).
  - apply Hn; [lia|]. by rewrite <- Hb, buddy_of_invol.
  - by apply Hn; [lia|].
  - revert Hb. by apply buddy_of_ne; [lia | |].
Qed.

(** ** Allocation *)

Definition used (s : bst) (i o : Z) : Prop := flg s i = P_USED /\ ord s i = o.

Definition split_step (c x : Z) (s : bst) : bst :=
  push c (buddy_of x c) (mark (buddy_of x c) c P_FREE (mark x c P_USED s)).

(** What holds while [x], of order [c], is split down to order [o]. *)
Record split_to (N x c o : Z) (s s' : bst) : Prop := {
  st_inv : Inv N x s';
  st_head : head s' x;
  st_ord : ord s' x = o;
  st_coalesced : coalesced s -> coalesced s';
  st_pages : forall p, free_page s p \/ in_block x c p <-> free_page s' p \/ in_block x o p;
  st_total : free_total s + 2 ^ c = free_total s' + 2 ^ o;
  st_used : forall i q, i <> x -> used s' i q <-> used s i q }.

Lemma split_step_to N x c s :
  Inv N x s -> 0 <= x < N -> head s x -> ord s x = c + 1 -> 0 <= c ->
  split_to N x (c + 1) c s (split_step c x s).
Proof.
  intros HI Hx Hh Ho Hc. destruct (inv_block _ _ _ HI x Hx Hh) as (B1 & B2 & B3 & B4 & B5).
  rewrite Ho in *. pose proof (pow2_pos c Hc) as Hp. pose proof (buddy_of_low x c Hc B4) as Hb.
  assert (Hg : gives c (x + 2 ^ c) (split_step c x s) s).
  { unfold split_step. rewrite Hb. by apply gives_push; [lia|]. }
  assert (HI' : Inv N x (split_step c x s)).
  { unfold split_step. rewrite Hb. by apply Inv_split. }
  rewrite pow2_S in * by done.
  assert (Hne : x + 2 ^ c <> x) by lia.
  split; try done.
  - unfold split_step, head. rewrite Hb. upd. rewrite decide_False, decide_True by done. by right.
  - unfold split_step. rewrite Hb. upd. by rewrite decide_False, decide_True by done.
  - intros Hco. eapply gives_coalesced_in; [exact Hg | done | lia | |].
    + apply Z.divide_add_r; [|done]. eapply Z.divide_trans; [|exact B4]. by exists 2.
    + intros _. rewrite <- Hb, buddy_of_invol. rewrite (inv_listed _ _ _ HI) by lia. tauto.
  - intros p. rewrite (gives_free_page _ _ _ _ p Hg). unfold in_block. rewrite pow2_S by done.
    assert (x <= p < x + 2 * 2 ^ c <-> x <= p < x + 2 ^ c \/ x + 2 ^ c <= p < x + 2 ^ c + 2 ^ c)
      by lia. tauto.
  - rewrite (gives_total _ _ _ _ Hg), pow2_S by done. lia.
  - intros i q Hi. unfold split_step, used. rewrite Hb. upd.
    destruct (decide (x + 2 ^ c = i)) as [<-|]; [|by destruct (decide (x = i))].
    rewrite (B5 (x + 2 ^ c)) by lia. unfold P_FREE, P_USED, P_TAIL. lia.
Qed.

Lemma split_to_trans N x c d o s1 s2 s3 :
  split_to N x c d s1 s2 -> split_to N x d o s2 s3 -> split_to N x c o s1 s3.
Proof.
  intros [] []. split; auto.
  - intros p. by rewrite st_pages0.
  - lia.
  - intros i q Hi. by rewrite st_used1, st_used0.
Qed.

Lemma split_spec N x n : forall c s,
  Inv N x s -> 0 <= x < N -> head s x -> ord s x = c -> 0 <= c - Z.of_nat n ->
  split_to N x c (c - Z.of_nat n) s (split n c x s).
Proof.
  induction n as [|n IH]; intros c s HI Hx Hh Ho Hc; cbn [split].
  - rewrite Z.sub_0_r. by split.
  - pose proof (split_step_to N x (c - 1) s HI Hx Hh ltac:(lia) ltac:(lia)) as Hst.
    replace (c - 1 + 1) with c in Hst by lia. eapply split_to_trans; [exact Hst|].
    replace (c - Z.of_nat (S n)) with (c - 1 - Z.of_nat n) by lia.
    destruct Hst. apply IH; (done || lia).
Qed.

Lemma first_order_some fuel : forall s o c,
  first_order fuel s o = Some c ->
  o <= c <= orders /\ fl s c <> [] /\ forall d, o <= d < c -> fl s d = [].
Proof.
  induction fuel as [|fuel IH]; intros s o c; cbn [first_order]; [done|].
  destruct (Z.gtb_spec o orders); [done|]. destruct (fl s o) as [|y l] eqn:El.
  - intros (H1 & H2 & H3)%IH. split_and!; [lia | lia | done |].
    intros d Hd. destruct (decide (d = o)) as [->|]; [done | apply H3; lia].
  - intros [= <-]. split_and!; [lia | lia | by rewrite El | lia].
Qed.

Lemma first_order_none fuel : forall s o,
  orders - o < Z.of_nat fuel -> first_order fuel s o = None ->
  forall d, o <= d <= orders -> fl s d = [].
Proof.
  induction fuel as [|fuel IH]; intros s o Hf; cbn [first_order]; [lia|].
  destruct (Z.gtb_spec o orders); [intros _ d Hd; lia|]. destruct (fl s o) as [|y l] eqn:El; [|done].
  intros Hn d Hd. destruct (decide (d = o)) as [->|]; [done|].
  by apply (IH s (o + 1)); [lia | | lia].
Qed.

(** What an allocation of order [o] that returns page [x] does. *)
Record allocated (N o x : Z) (s s' : bst) : Prop := {
  al_inv : Inv N (-1) s';
  al_range : 0 <= x /\ x + 2 ^ o <= N;
  al_aligned : (2 ^ o | x);
  al_block : used s' x o;
  al_pages : forall p, free_page s p <-> free_page s' p \/ in_block x o p;
  al_fresh : forall p, in_block x o p -> ~ free_page s' p;
  al_total : free_total s = free_total s' + 2 ^ o;
  al_used : forall i q, i <> x -> used s' i q <-> used s i q;
  al_coalesced : coalesced s -> coalesced s' }.

Lemma free_page_mark i o f s p : free_page (mark i o f s) p <-> free_page s p.
Proof. done. Qed.

Lemma alloc_allocated N o x s s' :
  Inv N (-1) s -> 0 <= o <= orders -> alloc o s = Some (x, s') -> allocated N o x s s'.
Proof.
  intros HI Ho Ha. unfold alloc in Ha.
  destruct (first_order 12 s o) as [c|] eqn:Hf; [|done]. cbn in Ha.
  apply first_order_some in Hf as (Hc & _ & _). destruct (fl s c) as [|y l] eqn:El; [done|].
  injection Ha as -> Hs'.
  assert (Hxl : x ∈ fl s c) by (rewrite El; left).
  destruct (listed_head _ _ _ HI c x ltac:(lia) Hxl) as (Hx & Hh & Hox).
  assert (Hg : gives c x s (set_fl c l s)) by (apply gives_take; [lia | done]).
  pose proof (split_spec N x (Z.to_nat (c - o)) c (set_fl c l s)
    (Inv_take N s c x l HI ltac:(lia) El) Hx Hh Hox ltac:(lia)) as Hst.
  replace (c - Z.of_nat (Z.to_nat (c - o))) with o in Hst by lia.
  set (t := split _ _ _ _) in *. destruct Hst as [T1 T2 T3 T4 T5 T6 T7].
  destruct (inv_block _ _ _ T1 x Hx T2) as (B1 & B2 & B3 & B4 & B5). rewrite T3 in *.
  assert (HI' : Inv N (-1) s') by (subst s'; by apply Inv_release_used).
  assert (Hu : used s' x o).
  { subst s'. unfold used. upd. by rewrite !decide_True by done. }
  assert (Hfp : forall p, free_page s' p <-> free_page t p) by (subst s'; done).
  split; try done.
  - intros p. rewrite (gives_free_page _ _ _ _ p Hg), T5, Hfp. done.
  - intros p Hp. eapply (free_page_not_in N (-1) s' HI' x p Hx); [by right; apply Hu | left; apply Hu|].
    by rewrite (proj2 Hu).
  - rewrite (gives_total _ _ _ _ Hg). subst s'. exact T6.
  - intros i q Hi. rewrite <- (T7 i q Hi). subst s'. unfold used. upd.
    by rewrite !decide_False by congruence.
  - intros Hco. subst s'. exact (T4 (gives_coalesced_out _ _ _ _ Hg Hco)).
Qed.

Lemma alloc_none o s :
  0 <= o -> alloc o s = None <-> forall d, o <= d <= orders -> fl s d = [].
Proof.
  intros Ho. unfold alloc. destruct (first_order 12 s o) as [c|] eqn:Hf; cbn.
  - apply first_order_some in Hf as (Hc & Hne & _). destruct (fl s c) as [|y l] eqn:El; [done|].
    split; [done|]. intros Hall. rewrite Hall in El by lia. done.
  - split; [intros _|done]. apply (first_order_none 12); [|done].
    unfold orders, MAX_BUDDY_ORDER. lia.
Qed.

(** ** Freeing *)

Definition merge_step (i c : Z) (s : bst) : bst :=
  let b := buddy_of i c in
  set_flg (Z.max i b) P_TAIL (mark (Z.min i b) (c + 1) P_FREE (drop_from c b s)).

Definition mergeable (i c : Z) (s : bst) : bool :=
  (c <? orders) && (flg s (buddy_of i c) =? P_FREE) && (ord s (buddy_of i c) =? c).

(** What holds when [i], of order [c], has been merged into [j] of order [d]. *)
Record merge_to (N i c j d : Z) (s s' : bst) : Prop := {
  mt_inv : Inv N j s';
  mt_range : 0 <= j < N;
  mt_head : head s' j;
  mt_ord : ord s' j = d;
  mt_coalesced : coalesced s -> coalesced s';
  mt_pages : forall p, free_page s p \/ in_block i c p <-> free_page s' p \/ in_block j d p;
  mt_total : free_total s + 2 ^ c = free_total s' + 2 ^ d;
  mt_used : forall k q, (used s' k q /\ k <> j) <-> (used s k q /\ k <> i) }.

(** A buddy that looks free is a listed block: the pages past the end of
    memory never qualify. *)
Lemma mergeable_listed N i c s :
  Inv N i s -> 0 <= i < N -> head s i -> ord s i = c -> mergeable i c s = true ->
  c < orders /\ 0 <= buddy_of i c < N /\ buddy_of i c ∈ fl s c.
Proof.
  intros HI Hi Hh Ho Hm. unfold mergeable in Hm.
  apply andb_true_iff in Hm as [[Hc%Z.ltb_lt Hf%Z.eqb_eq]%andb_true_iff Hob%Z.eqb_eq].
  destruct (inv_block _ _ _ HI i Hi Hh) as (B1 & B2 & B3 & B4 & B5). rewrite Ho in *.
  assert (Hb : 0 <= buddy_of i c < N).
  { pose proof (buddy_of_nonneg i c ltac:(lia) B2 B4). split; [done|].
    destruct (Z.lt_ge_cases (buddy_of i c) N) as [|Hge]; [done | exfalso].
    pose proof (inv_guard _ _ _ HI _ Hge Hf) as H0. assert (Hc0 : c = 0) by congruence. rewrite Hc0 in *.
    pose proof (inv_even _ _ _ HI) as [n Hn].
    destruct (buddy_of_cases i 0 ltac:(lia) B2 B4) as [[[m Hm] E]|(_ & E & _)];
      rewrite E in Hge; lia. }
  split_and!; try lia. apply (inv_listed _ _ _ HI); [lia|]. split_and!; try done; try lia.
  apply buddy_of_ne; [lia | done | done].
Qed.

Lemma merge_step_to N i c s :
  Inv N i s -> 0 <= i < N -> head s i -> ord s i = c -> mergeable i c s = true ->
  merge_to N i c (Z.min i (buddy_of i c)) (c + 1) s (merge_step i c s).
Proof.
  intros HI Hi Hh Ho Hm. destruct (mergeable_listed N i c s HI Hi Hh Ho Hm) as (Hc & Hb & Hbl).
  destruct (inv_block _ _ _ HI i Hi Hh) as (B1 & B2 & B3 & B4 & _). rewrite Ho in *.
  pose proof Hbl as (_ & Hbf & Hbo & Hbi)%(inv_listed _ _ _ HI); [|lia].
  pose proof (pow2_pos c ltac:(lia)) as Hp.
  assert (Hg : gives c (buddy_of i c) s (merge_step i c s)).
  { eapply gives_mono; [apply gives_drop; [lia | apply (inv_nodup _ _ _ HI); lia | exact Hbl] | done]. }
  assert (Hcase : (2 ^ (c + 1) | Z.min i (buddy_of i c)) /\
                  Z.max i (buddy_of i c) = Z.min i (buddy_of i c) + 2 ^ c).
  { destruct (buddy_of_cases i c ltac:(lia) B2 B4) as [[Hd E]|(Hd & E & _)]; rewrite E.
    - rewrite Z.min_l, Z.max_r by lia. done.
    - rewrite Z.min_r, Z.max_l by lia. split; [done | lia]. }
  destruct Hcase as [Hd Hmax]. set (b := buddy_of i c) in *.
  assert (Hhb : head s b) by (by left).
  assert (Hmm : (i = Z.min i b /\ b = Z.max i b) \/ (i = Z.max i b /\ b = Z.min i b)) by lia.
  set (lo := Z.min i b) in *. set (hi := Z.max i b) in *.
  assert (HI' : Inv N lo (merge_step i c s)).
  { unfold merge_step. fold b lo hi. apply (Inv_merge N s lo hi i b c); try done; try lia;
      destruct Hmm as [[E1 E2]|[E1 E2]]; congruence. }
  assert (Hupd : forall k, flg (merge_step i c s) k =
      (if decide (hi = k) then P_TAIL else if decide (lo = k) then P_FREE else flg s k) /\
      ord (merge_step i c s) k = if decide (lo = k) then c + 1 else ord s k).
  { intros k. unfold merge_step. fold b lo hi. upd. done. }
  assert (Hne : hi <> lo) by lia.
  split; try done; try lia.
  - unfold head. rewrite (proj1 (Hupd lo)), decide_False, decide_True by done. by left.
  - rewrite (proj2 (Hupd lo)). by rewrite decide_True.
  - by apply gives_coalesced_out with (1 := Hg).
  - intros p. rewrite (gives_free_page _ _ _ _ p Hg). unfold in_block. rewrite pow2_S by lia.
    assert ((i <= p < i + 2 ^ c \/ b <= p < b + 2 ^ c) <-> lo <= p < lo + 2 * 2 ^ c)
      by (destruct Hmm as [[E1 E2]|[E1 E2]]; rewrite E1, E2; lia). tauto.
  - rewrite (gives_total _ _ _ _ Hg), pow2_S by lia. lia.
  - intros k q. unfold used. rewrite (proj1 (Hupd k)), (proj2 (Hupd k)).
    destruct (decide (hi = k)) as [<-|]; [|destruct (decide (lo = k)) as [<-|]].
    + split; [unfold P_TAIL, P_USED; lia|]. intros [[Hu _] Hk].
      destruct Hmm as [[E1 E2]|[E1 E2]]; [|done]. rewrite E2 in Hbf. unfold P_FREE, P_USED in *. lia.
    + split; [tauto|]. intros [[Hu _] Hk].
      destruct Hmm as [[E1 E2]|[E1 E2]]; [done|]. rewrite E2 in Hbf. unfold P_FREE, P_USED in *. lia.
    + assert (k <> i) by (destruct Hmm as [[E1 _]|[E1 _]]; congruence).
      assert (k <> lo) by congruence. tauto.
Qed.

Lemma merge_to_trans N i1 c1 i2 c2 i3 c3 s1 s2 s3 :
  merge_to N i1 c1 i2 c2 s1 s2 -> merge_to N i2 c2 i3 c3 s2 s3 -> merge_to N i1 c1 i3 c3 s1 s3.
Proof.
  intros [] []. split; auto.
  - intros p. by rewrite mt_pages0.
  - lia.
  - intros k q. by rewrite mt_used1.
Qed.

Lemma merge_unfold fuel i c s :
  merge (S fuel) i c s =
  if mergeable i c s then merge fuel (Z.min i (buddy_of i c)) (c + 1) (merge_step i c s)
  else (i, c, s).
Proof. done. Qed.

Lemma merge_spec N fuel : forall i c s,
  Inv N i s -> 0 <= i < N -> head s i -> ord s i = c -> orders - c < Z.of_nat fuel ->
  let '(j, d, s') := merge fuel i c s in
  merge_to N i c j d s s' /\ c <= d <= orders /\ mergeable j d s' = false.
Proof.
  induction fuel as [|fuel IH]; intros i c s HI Hi Hh Ho Hf.
  { destruct (inv_block _ _ _ HI i Hi Hh) as (B1 & _). lia. }
  rewrite merge_unfold. destruct (mergeable i c s) eqn:Hm.
  - pose proof (merge_step_to N i c s HI Hi Hh Ho Hm) as Hst.
    specialize (IH (Z.min i (buddy_of i c)) (c + 1) (merge_step i c s)
      (mt_inv _ _ _ _ _ _ _ Hst) (mt_range _ _ _ _ _ _ _ Hst) (mt_head _ _ _ _ _ _ _ Hst)
      (mt_ord _ _ _ _ _ _ _ Hst) ltac:(lia)).
    destruct (merge fuel _ _ _) as [[j d] s']. destruct IH as (IH1 & IH2 & IH3).
    split_and!; [by eapply merge_to_trans | lia | lia | done].
  - destruct (inv_block _ _ _ HI i Hi Hh) as (B1 & _). split_and!; [by split | lia | lia | done].
Qed.

(** What freeing the block [i] of order [o] does. *)
Record freed (N i o : Z) (s s' : bst) : Prop := {
  fr_inv : Inv N (-1) s';
  fr_pages : forall p, free_page s' p <-> free_page s p \/ in_block i o p;
  fr_fresh : forall p, in_block i o p -> ~ free_page s p;
  fr_total : free_total s' = free_total s + 2 ^ o;
  fr_used : forall k q, used s' k q <-> used s k q /\ k <> i;
  fr_coalesced : coalesced s -> coalesced s' }.

Lemma free_freed N i o s :
  Inv N (-1) s -> 0 <= i < N -> used s i o -> freed N i o s (free i s).
Proof.
  intros HI Hi [Hf Ho]. assert (Hh : head s i) by (by right).
  unfold free. pose proof (merge_spec N 12 i (ord s i) s (Inv_hold _ _ _ HI Hf) Hi Hh eq_refl) as Hm.
  destruct (inv_block _ _ _ HI i Hi Hh) as (B1 & _).
  specialize (Hm ltac:(unfold orders, MAX_BUDDY_ORDER in *; lia)).
  destruct (merge 12 i (ord s i) s) as [[j d] t]. destruct Hm as (Hmt & Hd & Hmf).
  rewrite Ho in *. destruct Hmt as [M1 M2 M3 M4 M5 M6 M7 M8].
  set (s' := push d j (mark j d P_FREE t)).
  assert (Hg : gives d j s' t) by (apply gives_push; [lia | done]).
  split.
  - by apply Inv_release_free.
  - intros p. rewrite (gives_free_page _ _ _ _ p Hg). symmetry. apply M6.
  - intros p Hp. eapply (free_page_not_in N (-1) s HI i p); eauto. by rewrite Ho.
  - pose proof (gives_total _ _ _ _ Hg). lia.
  - intros k q. rewrite <- M8. unfold used, s'. upd. destruct (decide (j = k)) as [<-|Hk].
    + unfold P_FREE, P_USED. split; [lia | tauto].
    + assert (k <> j) by congruence. tauto.
  - intros Hco. destruct (inv_block _ _ _ M1 j M2 M3) as (_ & J2 & _ & J4 & _). rewrite M4 in J4.
    eapply gives_coalesced_in; [exact Hg | by apply M5 | done | done |].
    intros Hlt Hbl. apply (inv_listed _ _ _ M1) in Hbl as (_ & H1 & H2 & _); [|lia].
    unfold mergeable in Hmf. rewrite H1, H2, !Z.eqb_refl in Hmf.
    destruct (Z.ltb_spec d orders); [done | lia].
Qed.

(** ** The lists are determined by the set of free pages *)

Definition free_run (s : bst) (x o : Z) : Prop := forall p, in_block x o p -> free_page s p.

(** The larger of two aligned blocks that meet contains the smaller. *)
Lemma aligned_nested j q x o p :
  0 <= q <= o -> (2 ^ q | j) -> (2 ^ o | x) -> in_block j q p -> in_block x o p ->
  x <= j /\ j + 2 ^ q <= x + 2 ^ o.
Proof.
  unfold in_block. intros Hq [a ->] [b ->] Hj Hx. pose proof (pow2_pos q ltac:(lia)) as Hp.
  replace (2 ^ o) with (2 ^ (o - q) * 2 ^ q) in * by (rewrite <- Z.pow_add_r by lia; f_equal; lia).
  pose proof (pow2_pos (o - q) ltac:(lia)) as Hp'. set (t := 2 ^ q) in *. set (u := 2 ^ (o - q)) in *.
  assert (a < b * u + u) by nia. assert (b * u < a + 1) by nia. nia.
Qed.

(** In a coalesced state no listed block lies inside a larger aligned free run. *)
Lemma no_small_block N s x o :
  Inv N (-1) s -> coalesced s -> 0 <= o <= orders -> (2 ^ o | x) -> free_run s x o ->
  forall n q j, (Z.to_nat q < n)%nat -> 0 <= q < o -> j ∈ fl s q -> in_block x o j -> False.
Proof.
  intros HI Hco Ho Hx Hrun n. induction n as [|n IH]; intros q j Hn Hq Hj Hjx; [lia|].
  destruct (listed_head _ _ _ HI q j ltac:(lia) Hj) as (Hj1 & Hj2 & Hj3).
  destruct (inv_block _ _ _ HI j Hj1 Hj2) as (_ & J2 & J3 & J4 & _). rewrite Hj3 in *.
  pose proof (pow2_pos q ltac:(lia)) as Hp.
  assert (Hpar : exists a, (2 ^ (q + 1) | a) /\ in_block a (q + 1) j /\ in_block a (q + 1) (buddy_of j q)).
  { unfold in_block. rewrite pow2_S by lia.
    destruct (buddy_of_cases j q ltac:(lia) J2 J4) as [[Hd ->]|(Hd & -> & _)];
      rewrite pow2_S in Hd by lia; eexists; (split; [exact Hd | lia]). }
  destruct Hpar as (a & Ha & Haj & Hab).
  destruct (aligned_nested a (q + 1) x o j ltac:(lia) Ha Hx Haj Hjx) as [N1 N2].
  assert (Hbx : in_block x o (buddy_of j q)) by (unfold in_block in *; lia).
  destruct (Hrun _ Hbx) as (r & i & Hr & Hi & Hib).
  destruct (listed_head _ _ _ HI r i Hr Hi) as (Hi1 & Hi2 & Hi3).
  destruct (inv_block _ _ _ HI i Hi1 Hi2) as (_ & I2 & I3 & I4 & _). rewrite Hi3 in *.
  assert (Hbd : (2 ^ q | buddy_of j q)).
  { destruct (buddy_of_cases j q ltac:(lia) J2 J4) as [[_ ->]|(_ & -> & _)];
      [apply Z.divide_add_r | apply Z.divide_sub_r]; done. }
  pose proof (pow2_pos r ltac:(lia)) as Hpr.
  destruct (Z.lt_total r q) as [Hlt|[->|Hgt]].
  - (* a smaller block at the buddy: smaller order, by induction *)
    apply (IH r i); [lia | lia | done |].
    destruct (aligned_nested i r (buddy_of j q) q (buddy_of j q) ltac:(lia) I4 Hbd Hib
      ltac:(unfold in_block; lia)) as [N3 N4]. unfold in_block in *. lia.
  - apply (Hco q j ltac:(lia) Hj). replace (buddy_of j q) with i; [done|].
    destruct (aligned_nested i q (buddy_of j q) q (buddy_of j q) ltac:(lia) I4 Hbd Hib
      ltac:(unfold in_block; lia)). lia.
  - (* a larger block at the buddy overlaps [j] *)
    destruct (aligned_nested a (q + 1) i r (buddy_of j q) ltac:(lia) Ha I4 Hab Hib) as [N3 N4].
    eapply (blocks_disjoint N (-1) s HI i j j); try done; [intros ->; lia | | ];
      rewrite ?Hi3, ?Hj3; unfold in_block in *; lia.
Qed.

(** An aligned free run is inside one listed block. *)
Lemma free_run_block N s x o :
  Inv N (-1) s -> coalesced s -> 0 <= o <= orders -> (2 ^ o | x) -> free_run s x o ->
  exists q j, o <= q <= orders /\ j ∈ fl s q /\ j <= x /\ x + 2 ^ o <= j + 2 ^ q.
Proof.
  intros HI Hco Ho Hx Hrun. pose proof (pow2_pos o ltac:(lia)) as Hp.
  destruct (Hrun x) as (q & j & Hq & Hj & Hjx); [unfold in_block; lia|].
  destruct (listed_head _ _ _ HI q j Hq Hj) as (Hj1 & Hj2 & Hj3).
  destruct (inv_block _ _ _ HI j Hj1 Hj2) as (_ & J2 & J3 & J4 & _). rewrite Hj3 in *.
  destruct (Z.lt_ge_cases q o) as [Hlt|Hge].
  - exfalso. eapply (no_small_block N s x o HI Hco Ho Hx Hrun (S (Z.to_nat q)) q j); try done; try lia.
    destruct (aligned_nested j q x o x ltac:(lia) J4 Hx Hjx ltac:(unfold in_block; lia)).
    unfold in_block in *. pose proof (pow2_pos q ltac:(lia)). lia.
  - exists q, j. split; [lia|]. split; [done|].
    apply (aligned_nested x o j q x); try done; unfold in_block; lia.
Qed.

(** The parent of a block: the aligned block of the next order around it. *)
Definition parent (i o : Z) : Z := Z.min i (buddy_of i o).

Lemma parent_spec i o :
  0 <= o -> 0 <= i -> (2 ^ o | i) ->
  (2 ^ (o + 1) | parent i o) /\ parent i o <= i /\ i + 2 ^ o <= parent i o + 2 ^ (o + 1).
Proof.
  intros Ho Hi Hd. unfold parent. pose proof (pow2_pos o Ho). rewrite (pow2_S o) by done.
  destruct (buddy_of_cases i o Ho Hi Hd) as [[Hd' ->]|(Hd' & -> & _)]; rewrite pow2_S in Hd' by done.
  - rewrite Z.min_l by lia. split_and!; (done || lia).
  - rewrite Z.min_r by lia. split_and!; (done || lia).
Qed.

Lemma listed_canonical N s i o :
  Inv N (-1) s -> coalesced s -> 0 <= o <= orders ->
  i ∈ fl s o <->
  0 <= i /\ (2 ^ o | i) /\ free_run s i o /\ (o < orders -> ~ free_run s (parent i o) (o + 1)).
Proof.
  intros HI Hco Ho. pose proof (pow2_pos o ltac:(lia)) as Hp. split.
  - intros Hi. destruct (listed_head _ _ _ HI o i Ho Hi) as (Hi1 & Hi2 & Hi3).
    destruct (inv_block _ _ _ HI i Hi1 Hi2) as (_ & I2 & I3 & I4 & _). rewrite Hi3 in *.
    split_and!; [done | done | intros p Hq; exists o, i; done |].
    intros Hlt Hrun. destruct (parent_spec i o ltac:(lia) I2 I4) as (P1 & P2 & P3).
    destruct (free_run_block N s _ (o + 1) HI Hco ltac:(lia) P1 Hrun) as (q & j & Hq & Hj & H1 & H2).
    destruct (listed_head _ _ _ HI q j ltac:(lia) Hj) as (Hj1 & Hj2 & Hj3).
    eapply (blocks_disjoint N (-1) s HI i j i); try done; [intros ->; lia | |];
      rewrite ?Hi3, ?Hj3; unfold in_block; lia.
  - intros (H0 & Hd & Hrun & Hmax).
    destruct (free_run_block N s i o HI Hco Ho Hd Hrun) as (q & j & Hq & Hj & H1 & H2).
    destruct (listed_head _ _ _ HI q j ltac:(lia) Hj) as (Hj1 & Hj2 & Hj3).
    destruct (inv_block _ _ _ HI j Hj1 Hj2) as (_ & J2 & J3 & J4 & _). rewrite Hj3 in *.
    destruct (Z.lt_total o q) as [Hlt|[<-|?]]; [|replace i with j by lia; done | lia].
    exfalso. apply Hmax; [lia|]. intros p Hpp.
    destruct (parent_spec i o ltac:(lia) H0 Hd) as (P1 & P2 & P3).
    destruct (aligned_nested (parent i o) (o + 1) j q i ltac:(lia) P1 J4) as [N1 N2];
      [unfold in_block; lia .. |].
    exists q, j. split_and!; [lia | lia | done |]. unfold in_block in *. lia.
Qed.

(** Two coalesced states with the same free pages have the same lists. *)
Lemma lists_determined N s s' o :
  Inv N (-1) s -> coalesced s -> Inv N (-1) s' -> coalesced s' ->
  (forall p, free_page s p <-> free_page s' p) -> 0 <= o <= orders ->
  fl s o ≡ₚ fl s' o.
Proof.
  intros HI Hc HI' Hc' Hp Ho.
  apply NoDup_Permutation; [by apply (inv_nodup _ _ _ HI) | by apply (inv_nodup _ _ _ HI') |].
  intros i. rewrite (listed_canonical N s i o HI Hc Ho), (listed_canonical N s' i o HI' Hc' Ho).
  unfold free_run. setoid_rewrite Hp. done.
Qed.
