(* ===== verification/BuddyRefine.v ===== *)
(** * The buddy allocator in memory refines the one over lists

    [brep] relates a kernel to a state of [BuddyModel]: every list
    [free_area[o]] holds the model's blocks of order [o] and every page
    descriptor the model's order and flags.  Each operation of [Buddy] run
    from a represented state returns (or panics, when memory is exhausted) and
    ends in the state the model's operation computes. *)

From Stdlib Require Import ZArith Lia Bool.
From stdpp Require Import base list gmap strings.
From S2P Require Import Prelude Machine StringLib Console Node Bump Buddy BuddyModel.

Section refine.
Context `{BuddySymbols}.

(** The page map [pm], the number [N] of pages of memory, and the number [NG] of
    descriptors the code may look at (the buddy of an existing page can be past
    [N]). *)
Context (pm N NG : Z).

Record geometry : Prop := {
  g_pm : KERNEL_VIRTUAL_BASE <= pm /\ pm + sizeof_Page * NG <= 2 ^ 32;
  g_n : 0 < N <= NG;
  g_count : N <= 2 ^ 20;     (* a physical address is a 32-bit word *)
  g_slack : (2 ^ orders | NG);
  g_area : KERNEL_VIRTUAL_BASE <= free_area /\ free_area + 48 <= 2 ^ 32;
  g_apart : apart free_area 48 pm (sizeof_Page * NG) }.

Context (HG : geometry).

(** The bytes of the allocator. *)
Definition bfp (b : Z) : Prop := range free_area 44 b \/ range pm (sizeof_Page * NG) b.

Record brep (k : kernel) (s : bst) : Prop := {
  br_pm : page_map (k_buddy k) = pm;
  br_list : forall o, 0 <= o <= orders ->
    dll (k_mem k) (free_area_at o) (page_at pm <$> fl s o);
  br_ord : forall i, 0 <= i < NG -> ld8 (k_mem k) (page_order (page_at pm i)) = ord s i;
  br_flg : forall i, 0 <= i < NG -> ld8 (k_mem k) (page_flags (page_at pm i)) = flg s i }.

(** A run that changes nothing but the allocator's memory. *)
Definition mrun (k k' : kernel) : Prop :=
  exists m', k' = set_mem m' k /\ untouched bfp (k_mem k) m'.

Lemma mrun_refl k : mrun k k.
Proof. exists (k_mem k). split; [by destruct k | apply untouched_refl]. Qed.

Lemma mrun_trans k1 k2 k3 : mrun k1 k2 -> mrun k2 k3 -> mrun k1 k3.
Proof.
  intros (m1 & -> & U1) (m2 & -> & U2). exists m2. split; [done | by eapply untouched_trans].
Qed.

(** The lists of a state: blocks of the page map, each on at most one list. *)
Record lists_ok (s : bst) : Prop := {
  lo_range : forall o i, 0 <= o <= orders -> i ∈ fl s o -> 0 <= i < NG;
  lo_nodup : forall o, 0 <= o <= orders -> NoDup (fl s o);
  lo_once : forall o o' i, 0 <= o <= orders -> 0 <= o' <= orders ->
    i ∈ fl s o -> i ∈ fl s o' -> o = o' }.

Lemma Inv_lists_ok h s : Inv N h s -> lists_ok s.
Proof.
  intros HI. pose proof (g_n HG). split.
  - intros o i Ho Hi. destruct (listed_head _ _ _ HI o i Ho Hi). lia.
  - apply (inv_nodup _ _ _ HI).
  - intros o o' i Ho Ho' Hi Hi'. destruct (listed_head _ _ _ HI o i Ho Hi) as (_ & _ & <-).
    by destruct (listed_head _ _ _ HI o' i Ho' Hi') as (_ & _ & <-).
Qed.

(** The representation depends on the allocator's bytes and globals only. *)
Lemma brep_stable k k' s :
  brep k s -> lists_ok s -> k_buddy k' = k_buddy k ->
  (forall b, bfp b -> ld8 (k_mem k') b = ld8 (k_mem k) b) -> brep k' s.
Proof.
  intros [R1 R2 R3 R4] HL Hb Hm. pose proof (g_pm HG) as [P1 P2]. pose proof (g_area HG) as [A1 A2].
  unfold sizeof_Page, KERNEL_VIRTUAL_BASE in *.
  assert (Hag : forall i d n, 0 <= i < NG -> 0 <= d -> d + n <= 12 ->
    agree (k_mem k) (k_mem k') (page_at pm i + d) n).
  { intros i d n Hi Hd Hn b Hr. apply Hm. right. unfold range, page_at, sizeof_Page in *. lia. }
  split.
  - by rewrite Hb.
  - intros o Ho. destruct (R2 o Ho) as [D1 D2]. split.
    + rewrite <- D1. apply ld32_agree. intros b Hr. apply Hm. left.
      unfold free_area_at, orders, MAX_BUDDY_ORDER in *. rewrite u32_small in Hr by lia.
      unfold range in *. lia.
    + eapply dseg_frame; [|exact D2]. intros a (i & -> & Hi)%list_elem_of_fmap.
      pose proof (lo_range _ HL o i Ho Hi) as Hir. pose proof (Hag i 0 8 Hir) as Ha.
      rewrite Z.add_0_r in Ha. apply Ha; lia.
  - intros i Hi. rewrite <- (R3 i Hi). apply ld8_agree. apply Hag; lia.
  - intros i Hi. rewrite <- (R4 i Hi). apply ld8_agree. apply Hag; lia.
Qed.

(** ** Geometry *)

Lemma free_area_at_eq o : 0 <= o <= 11 -> free_area_at o = free_area + 4 * o.
Proof.
  intros. destruct (g_area HG). unfold free_area_at, KERNEL_VIRTUAL_BASE in *. apply u32_small. lia.
Qed.

Ltac geo := pose proof (g_pm HG) as [? ?]; pose proof (g_n HG); pose proof (g_area HG) as [? ?];
  pose proof (g_apart HG); unfold apart, page_order, page_flags, page_at, sizeof_Page, sizeof_Node,
  orders, MAX_BUDDY_ORDER, KERNEL_VIRTUAL_BASE in *.

Lemma page_nodes_ok l :
  NoDup l -> (forall i, i ∈ l -> 0 <= i < NG) -> nodes_ok (page_at pm <$> l).
Proof.
  intros Hnd Hr. geo. split_and!.
  - apply NoDup_fmap_2_strong; [|done]. intros x y _ _ E. lia.
  - apply Forall_forall. intros a (i & -> & Hi)%list_elem_of_fmap. specialize (Hr i Hi).
    unfold node_ok, sizeof_Node, KERNEL_VIRTUAL_BASE. lia.
  - intros a b (i & -> & Hi)%list_elem_of_fmap (j & -> & Hj)%list_elem_of_fmap Hne.
    unfold apart, sizeof_Node. destruct (Z.lt_total i j) as [?|[->|?]]; [lia | done | lia].
Qed.

Lemma page_head_ok o l :
  0 <= o <= orders -> (forall i, i ∈ l -> 0 <= i < NG) ->
  head_ok (free_area_at o) (page_at pm <$> l).
Proof.
  intros Ho Hr. rewrite free_area_at_eq by (unfold orders, MAX_BUDDY_ORDER in *; lia). geo.
  split_and!; [unfold KERNEL_VIRTUAL_BASE; lia | lia |].
  intros a (i & -> & Hi)%list_elem_of_fmap. specialize (Hr i Hi). unfold apart, sizeof_Node. lia.
Qed.

Lemma page_index_at i : page_map_index pm (page_at pm i) = i.
Proof. unfold page_map_index, page_at, sizeof_Page. rewrite Z.add_simpl_l, Z.mul_comm. by apply Z.div_mul. Qed.

(** The buddy of a page of memory has a descriptor. *)
Lemma buddy_in_map i c :
  0 <= i < NG -> 0 <= c < orders -> (2 ^ c | i) -> 0 <= buddy_of i c < NG.
Proof.
  intros Hi Hc Hd. split; [apply buddy_of_nonneg; (done || lia)|].
  pose proof (pow2_pos c ltac:(lia)).
  destruct (buddy_of_cases i c ltac:(lia) ltac:(lia) Hd) as [[[a Ha] ->]|(_ & -> & _)]; [|lia].
  assert (HGd : (2 ^ (c + 1) | NG)) by (eapply Z.divide_trans; [apply pow2_divide | apply (g_slack HG)]; lia).
  destruct HGd as [b Hb]. rewrite pow2_S in * by lia.
  assert (a < b) by nia. nia.
Qed.

(** ** Primitive steps *)

(** The node operations: the list of order [o] becomes [l'], and the nodes
    touched are among the pages [l0], which are on no other list. *)
Lemma brep_list k k' s o l0 l' :
  brep k s -> lists_ok s -> 0 <= o <= orders ->
  (forall i, i ∈ l0 -> 0 <= i < NG) ->
  (forall i o', i ∈ l0 -> 0 <= o' <= orders -> i ∈ fl s o' -> o' = o) ->
  leaves_dll (free_area_at o) k (page_at pm <$> l0) (page_at pm <$> l') k' ->
  brep k' (set_fl o l' s) /\ mrun k k'.
Proof.
  intros [R1 R2 R3 R4] HL Ho Hr Hd (m' & -> & Hdll & Hu).
  assert (Ho11 : 0 <= o <= 11) by (unfold orders, MAX_BUDDY_ORDER in *; lia).
  assert (Hfp : forall b, dll_fp (free_area_at o) (page_at pm <$> l0) b ->
    range (free_area + 4 * o) 4 b \/ exists i, 0 <= i < NG /\ i ∈ l0 /\ range (page_at pm i) 8 b).
  { intros b [Hb|(a & (i & -> & Hi)%list_elem_of_fmap & Hb)]; [left; by rewrite <- free_area_at_eq|].
    right. exists i. auto. }
  assert (Hbyte : forall i d, 0 <= i < NG -> 8 <= d < 12 -> ld8 m' (page_at pm i + d) = ld8 (k_mem k) (page_at pm i + d)).
  { intros i d Hi Hdd. apply Hu. intros [Hb|(j & Hj & _ & Hb)]%Hfp; geo; unfold range in Hb; lia. }
  split; [split|].
  - done.
  - intros q Hq. upd. destruct (decide (o = q)) as [<-|Hne]; [exact Hdll|].
    destruct (R2 q Hq) as [D1 D2].
    assert (Hq11 : 0 <= q <= 11) by (unfold orders, MAX_BUDDY_ORDER in *; lia).
    split.
    + cbn [k_mem set_mem]. rewrite <- D1. apply ld32_agree. eapply untouched_agree; [exact Hu|].
      intros b Hb [Hb'|(j & Hj & _ & Hb')]%Hfp; rewrite free_area_at_eq in Hb by done;
        geo; unfold range in *; lia.
    + eapply dseg_frame; [|exact D2]. intros a (i & -> & Hi)%list_elem_of_fmap.
      eapply untouched_agree; [exact Hu|]. pose proof (lo_range _ HL q i Hq Hi).
      intros b Hb [Hb'|(j & Hj & Hjl & Hb')]%Hfp; [geo; unfold range in *; lia|].
      assert (i <> j) by (intros <-; by apply Hne, eq_sym, (Hd i q)).
      geo. unfold range in *. lia.
  - intros i Hi. cbn [k_mem set_mem]. upd. rewrite <- (R3 i Hi). by apply Hbyte.
  - intros i Hi. cbn [k_mem set_mem]. upd. rewrite <- (R4 i Hi). by apply Hbyte.
  - exists m'. split; [done|]. eapply untouched_mono; [|exact Hu].
    intros b [Hb|(j & Hj & _ & Hb)]%Hfp; [left | right]; geo; unfold range in *; lia.
Qed.

Lemma wp_push k s o i (Q : unit -> kernel -> Prop) :
  brep k s -> lists_ok s -> 0 <= o <= orders -> 0 <= i < NG ->
  (forall o', 0 <= o' <= orders -> i ∉ fl s o') ->
  (forall k', brep k' (push o i s) -> mrun k k' -> Q tt k') ->
  wp (push_node (free_area_at o) (page_at pm i)) k Q.
Proof.
  intros HR HL Ho Hi Hni HQ.
  assert (Hr : forall j, j ∈ i :: fl s o -> 0 <= j < NG).
  { intros j [->|Hj]%elem_of_cons; [done | by apply (lo_range _ HL o)]. }
  eapply wp_mono.
  - apply (push_node_spec _ _ _ (page_at pm <$> fl s o)); [by apply br_list | |].
    + apply (page_nodes_ok (i :: fl s o)); [|done]. constructor; [auto | by apply (lo_nodup _ HL)].
    + by apply (page_head_ok o (i :: fl s o)).
  - intros [] k' Hk'.
    destruct (brep_list k k' s o (i :: fl s o) (i :: fl s o) HR HL Ho Hr) as [H1 H2]; [|done|].
    + intros j o' [->|Hj]%elem_of_cons Ho' Hj'; [by apply Hni in Hj' | by apply (lo_once _ HL _ _ j)].
    + by apply HQ.
Qed.

Lemma wp_pop k s o x l (Q : Z -> kernel -> Prop) :
  brep k s -> lists_ok s -> 0 <= o <= orders -> fl s o = x :: l ->
  (forall k', brep k' (set_fl o l s) -> mrun k k' -> Q (page_at pm x) k') ->
  wp (pop_node (free_area_at o)) k Q.
Proof.
  intros HR HL Ho Hl HQ. pose proof (br_list _ _ HR o Ho) as Hd.
  pose proof (lo_nodup _ HL o Ho) as Hnd.
  assert (Hr : forall j, j ∈ fl s o -> 0 <= j < NG) by (intros; by apply (lo_range _ HL o)).
  rewrite Hl in *. cbn [fmap list_fmap] in Hd. eapply wp_mono.
  - apply (pop_node_spec _ _ (page_at pm x) (page_at pm <$> l)); [exact Hd | |].
    + by apply (page_nodes_ok (x :: l)).
    + by apply (page_head_ok o (x :: l)).
  - intros r k' [-> Hk'].
    destruct (brep_list k k' s o (x :: l) l HR HL Ho Hr) as [H1 H2]; [|done|by apply HQ].
    intros j o' Hj Ho' Hj'. apply (lo_once _ HL _ _ j); try done. by rewrite Hl.
Qed.

Lemma wp_remove k s o i (Q : unit -> kernel -> Prop) :
  brep k s -> lists_ok s -> 0 <= o <= orders -> i ∈ fl s o ->
  (forall k', brep k' (drop_from o i s) -> mrun k k' -> Q tt k') ->
  wp (remove_node (free_area_at o) (page_at pm i)) k Q.
Proof.
  intros HR HL Ho Hi HQ. pose proof (br_list _ _ HR o Ho) as Hd.
  pose proof (lo_nodup _ HL o Ho) as Hnd.
  assert (Hr : forall j, j ∈ fl s o -> 0 <= j < NG) by (intros; by apply (lo_range _ HL o)).
  apply list_elem_of_split in Hi as (l1 & l2 & Hl).
  assert (Hf : filter (fun j => j <> i) (fl s o) = l1 ++ l2).
  { rewrite Hl in *. apply NoDup_app in Hnd as (_ & Hd1 & Hnd2). apply NoDup_cons in Hnd2 as [Hi2 _].
    rewrite filter_app, filter_cons_False by tauto.
    f_equal; apply filter_absent; [|done]. intros Hj. apply (Hd1 i Hj). left. }
  assert (Hm : page_at pm <$> fl s o = (page_at pm <$> l1) ++ page_at pm i :: (page_at pm <$> l2))
    by (rewrite Hl, fmap_app; done).
  eapply wp_mono.
  - apply (remove_node_spec _ _ (page_at pm <$> l1) (page_at pm i) (page_at pm <$> l2)); rewrite <- Hm.
    + exact Hd.
    + by apply page_nodes_ok.
    + by apply page_head_ok.
  - intros [] k' Hk'. rewrite <- Hm, <- fmap_app in Hk'.
    destruct (brep_list k k' s o (fl s o) (l1 ++ l2) HR HL Ho Hr) as [H1 H2]; [|done|].
    + intros j o' Hj Ho' Hj'. by apply (lo_once _ HL _ _ j).
    + apply HQ; [|done]. unfold drop_from. by rewrite Hf.
Qed.

(** Descriptor fields. *)
Lemma brep_field k s i d v :
  brep k s -> 0 <= i < NG -> 0 <= v < 256 -> d = 8 \/ d = 9 ->
  brep (set_mem (st8 (k_mem k) (page_at pm i + d) v) k)
    (if d =? 8 then set_ord i v s else set_flg i v s) /\
  mrun k (set_mem (st8 (k_mem k) (page_at pm i + d) v) k).
Proof.
  intros [R1 R2 R3 R4] Hi Hv Hd. set (m' := st8 _ _ _).
  assert (Hu : untouched (range (page_at pm i + d) 1) (k_mem k) m') by apply st8_untouched.
  assert (Hb : forall j e, 0 <= j < NG -> e = 8 \/ e = 9 -> ld8 m' (page_at pm j + e) =
    if decide (i = j /\ d = e) then v else ld8 (k_mem k) (page_at pm j + e)).
  { intros j e Hj He. unfold m'. rewrite ld8_st8. destruct (decide (i = j /\ d = e)) as [[<- <-]|Hne].
    - rewrite decide_True by done. by apply u8_small.
    - rewrite decide_False; [done|]. geo. lia. }
  assert (Hl : forall o, 0 <= o <= orders -> dll m' (free_area_at o) (page_at pm <$> fl s o)).
  { intros o Ho. destruct (R2 o Ho) as [D1 D2]. split.
    - rewrite <- D1. apply ld32_agree. eapply untouched_agree; [exact Hu|].
      rewrite free_area_at_eq by (unfold orders, MAX_BUDDY_ORDER in *; lia).
      geo. unfold range. lia.
    - eapply dseg_frame; [|exact D2]. intros a (j & -> & Hj)%list_elem_of_fmap.
      eapply untouched_agree; [exact Hu|]. intros b Hb1 Hb2. geo. unfold range in *. lia. }
  split.
  - destruct Hd as [-> | ->]; (split; [done | exact Hl | |]); intros j Hj;
      cbn [k_mem set_mem Z.eqb Pos.eqb]; unfold page_order, page_flags; upd; rewrite Hb by auto;
      fold (page_order (page_at pm j)) (page_flags (page_at pm j)); rewrite ?R3, ?R4 by done;
      repeat case_decide; try done; exfalso; lia.
  - exists m'. split; [done|]. eapply untouched_mono; [|exact Hu]. intros b Hr. right.
    geo. unfold range in *. lia.
Qed.

Lemma wp_store_order k s i v (Q : unit -> kernel -> Prop) :
  brep k s -> 0 <= i < NG -> 0 <= v < 256 ->
  (forall k', brep k' (set_ord i v s) -> mrun k k' -> Q tt k') ->
  wp (store8 (page_order (page_at pm i)) v) k Q.
Proof.
  intros HR Hi Hv HQ. destruct (brep_field k s i 8 v HR Hi Hv ltac:(auto)) as [H1 H2].
  eapply wp_access; [geo; lia | geo; lia | reflexivity | by apply HQ].
Qed.

Lemma wp_store_flags k s i v (Q : unit -> kernel -> Prop) :
  brep k s -> 0 <= i < NG -> 0 <= v < 256 ->
  (forall k', brep k' (set_flg i v s) -> mrun k k' -> Q tt k') ->
  wp (store8 (page_flags (page_at pm i)) v) k Q.
Proof.
  intros HR Hi Hv HQ. destruct (brep_field k s i 9 v HR Hi Hv ltac:(auto)) as [H1 H2].
  eapply wp_access; [geo; lia | geo; lia | reflexivity | by apply HQ].
Qed.

Lemma wp_load_order k s i (Q : Z -> kernel -> Prop) :
  brep k s -> 0 <= i < NG -> Q (ord s i) k -> wp (load8 (page_order (page_at pm i))) k Q.
Proof.
  intros HR Hi HQ. eapply wp_access; [geo; lia | geo; lia | reflexivity |].
  by rewrite (br_ord _ _ HR).
Qed.

Lemma wp_load_flags k s i (Q : Z -> kernel -> Prop) :
  brep k s -> 0 <= i < NG -> Q (flg s i) k -> wp (load8 (page_flags (page_at pm i))) k Q.
Proof.
  intros HR Hi HQ. eapply wp_access; [geo; lia | geo; lia | reflexivity |].
  by rewrite (br_flg _ _ HR).
Qed.

Lemma wp_buddy_index k s i c (Q : Z -> kernel -> Prop) :
  brep k s -> 0 <= i < NG -> ord s i = c -> 0 <= c -> Q (buddy_of i c) k ->
  wp (buddy_index pm i) k Q.
Proof.
  intros HR Hi Hc H0 HQ. unfold buddy_index. apply wp_bind. eapply wp_load_order; [done..|].
  apply wp_ret. by rewrite Hc, Z.shiftl_1_l.
Qed.

(** ** Allocation *)

Lemma free_area_null k s o :
  brep k s -> lists_ok s -> 0 <= o <= orders ->
  ld32 (k_mem k) (free_area_at o) = NULL <-> fl s o = [].
Proof.
  intros HR HL Ho. rewrite (proj1 (br_list _ _ HR o Ho)).
  destruct (fl s o) as [|x l] eqn:E; [done|]. cbn [fmap list_fmap hd].
  split; [|done]. intros Hz. pose proof (lo_range _ HL o x Ho ltac:(rewrite E; left)).
  geo. unfold NULL in Hz. lia.
Qed.

Lemma find_order_spec s k :
  brep k s -> lists_ok s -> forall fuel c,
  0 <= c <= 11 -> 11 - c < Z.of_nat fuel ->
  wp (find_order fuel c) k (fun r k' => k' = k /\ c <= r <= 11 /\
    (forall d, c <= d < r -> fl s d = []) /\ (r <= orders -> fl s r <> [])).
Proof.
  intros HR HL fuel. induction fuel as [|fuel IH]; intros c Hc Hf; [lia|].
  cbn [find_order]. apply wp_bind.
  eapply wp_access; [rewrite free_area_at_eq by lia; geo; lia .. | reflexivity |].
  unfold MAX_BUDDY_ORDER. destruct (Z.leb_spec c 10) as [Hle|Hgt].
  - assert (Hco : 0 <= c <= orders) by (unfold orders, MAX_BUDDY_ORDER; lia). destruct (Z.eqb_spec (ld32 (k_mem k) (free_area_at c)) NULL) as [E|E];
      rewrite (free_area_null k s c HR HL Hco) in E; cbn [andb].
    + eapply wp_mono; [apply IH; lia|]. intros r k' (-> & Hr & H1 & H2). split_and!; try done; try lia.
      intros d Hd. destruct (decide (d = c)) as [->|]; [done | apply H1; lia].
    + apply wp_ret. split_and!; try done; lia.
  - rewrite andb_false_r. apply wp_ret. unfold orders, MAX_BUDDY_ORDER. split_and!; try done; lia.
Qed.

Lemma lists_ok_fl s s' : fl s' = fl s -> lists_ok s -> lists_ok s'.
Proof. intros E []. split; rewrite E; done. Qed.

(** Sequences of steps: run the next one and keep the run so far. *)
Tactic Notation "step_with" constr(lem) "as" ident(k') ident(HR) ident(HM) :=
  apply wp_bind; eapply lem; [eassumption | try (unfold P_FREE, P_USED, P_TAIL; lia) .. | ];
  intros k' HR HM.

Lemma wp_get_page_map k s (Q : Z -> kernel -> Prop) :
  brep k s -> Q pm k -> wp get_page_map k Q.
Proof. intros HR HQ. apply wp_gets. by rewrite (br_pm _ _ HR). Qed.

(** The halves of the block in hand are on no list. *)
Lemma sibling_not_listed x c s :
  Inv N x s -> 0 <= x < N -> head s x -> ord s x = c + 1 -> 0 <= c ->
  0 <= buddy_of x c < NG /\ forall o, 0 <= o <= orders -> buddy_of x c ∉ fl s o.
Proof.
  intros HI Hx Hh Ho Hc. destruct (inv_block _ _ _ HI x Hx Hh) as (B1 & B2 & B3 & B4 & B5).
  rewrite Ho in *. pose proof (pow2_pos c Hc). pose proof (buddy_of_low x c Hc B4) as E.
  rewrite E. rewrite pow2_S in * by done. pose proof (g_n HG). split; [lia|].
  intros q Hq Hin. apply (inv_listed _ _ _ HI) in Hin as (_ & Hf & _); [|done].
  rewrite B5 in Hf by lia. done.
Qed.

Lemma split_loop_refines x o fuel : forall c s k,
  brep k s -> Inv N x s -> 0 <= x < N -> head s x -> ord s x = c -> 0 <= o <= c ->
  c - o < Z.of_nat fuel ->
  wp (split_loop fuel c o (page_at pm x)) k (fun r k' =>
    r = o /\ brep k' (split (Z.to_nat (c - o)) c x s) /\ mrun k k').
Proof.
  induction fuel as [|fuel IH]; intros c s k HR HI Hx Hh Ho Hc Hf; [lia|].
  cbn [split_loop]. destruct (Z.gtb_spec c o) as [Hgt|Hle].
  2: { apply wp_ret. replace (c - o) with 0 by lia. split_and!; [lia | done | apply mrun_refl]. }
  pose proof (g_n HG). pose proof (Inv_lists_ok _ _ HI) as HL.
  destruct (inv_block _ _ _ HI x Hx Hh) as (B1 & _). rewrite Ho in B1.
  destruct (sibling_not_listed x (c - 1) s HI Hx Hh ltac:(lia) ltac:(lia)) as [Hb Hbl].
  assert (Hc8 : 0 <= c - 1 < 256) by (unfold orders, MAX_BUDDY_ORDER in *; lia).
  step_with wp_store_order as k1 HR1 HM1. step_with wp_store_flags as k2 HR2 HM2.
  apply wp_bind. eapply wp_get_page_map; [eassumption|]. rewrite page_index_at.
  apply wp_bind. eapply wp_buddy_index; [eassumption | lia | | | ]; [upd; by rewrite decide_True | lia|].
  step_with wp_store_order as k3 HR3 HM3. step_with wp_store_flags as k4 HR4 HM4.
  apply wp_bind. eapply wp_push; [eassumption | | lia | done | exact Hbl|].
  { by apply (lists_ok_fl s). }
  intros k5 HR5 HM5.
  replace (Z.to_nat (c - o)) with (S (Z.to_nat (c - 1 - o))) by lia. cbn [split].
  destruct (split_step_to N x (c - 1) s HI Hx Hh ltac:(lia) ltac:(lia)) as [S1 S2 S3 _ _ _ _].
  eapply wp_mono; [apply (IH (c - 1)); [exact HR5 | exact S1 | done | exact S2 | exact S3 | lia | lia]|].
  intros r k6 (-> & HR6 & HM6). split_and!; [done | exact HR6 |].
  repeat (eapply mrun_trans; [eassumption|]). apply mrun_refl.
Qed.

(** A run that also updates the two counters. *)
Definition brun (k k' : kernel) : Prop :=
  exists m' fc uc, untouched bfp (k_mem k) m' /\
    k' = set_buddy (MkBuddy (page_map (k_buddy k)) (page_n (k_buddy k)) fc uc) (set_mem m' k).

(** The counters of a kernel whose allocator manages [T] pages. *)
Definition counted (T : Z) (k : kernel) (s : bst) : Prop :=
  free_pages_count (k_buddy k) = u32 (free_total s) /\
  used_pages_count (k_buddy k) = u32 (T - free_total s).

Lemma brep_counts k s b : brep k s -> page_map b = pm -> brep (set_buddy b k) s.
Proof. intros [R1 R2 R3 R4] Hb. by split. Qed.

Lemma u32_add_mod a b : u32 (u32 a + b) = u32 (a + b).
Proof. unfold u32. apply Z.add_mod_idemp_l. lia. Qed.

Lemma buddy_alloc_refines T o x s s' k :
  brep k s -> Inv N (-1) s -> counted T k s -> 0 <= o <= orders -> alloc o s = Some (x, s') ->
  wp (buddy_alloc_pages o) k (fun r k' =>
    r = 4096 * x /\ brep k' s' /\ counted T k' s' /\ brun k k').
Proof.
  intros HR HI HC Ho Ha. pose proof (alloc_allocated N o x s s' HI Ho Ha) as HA.
  unfold alloc in Ha. destruct (first_order 12 s o) as [c|] eqn:Hf; [|done]. cbn in Ha.
  apply first_order_some in Hf as (Hc & Hne & Hlow).
  destruct (fl s c) as [|y l] eqn:El; [done|]. injection Ha as -> Hs'.
  pose proof (Inv_lists_ok _ _ HI) as HL. pose proof (g_n HG).
  assert (Hxl : x ∈ fl s c) by (rewrite El; left).
  destruct (listed_head _ _ _ HI c x ltac:(lia) Hxl) as (Hx & Hh & Hox).
  unfold buddy_alloc_pages. apply wp_bind.
  eapply wp_mono; [apply (find_order_spec s k HR HL 12 o); unfold orders, MAX_BUDDY_ORDER in *; lia|].
  intros r k0 (-> & Hr & Hr1 & Hr2).
  assert (r = c) as ->.
  { destruct (Z.lt_total r c) as [?|[?|?]]; [|done|].
    - exfalso. apply Hr2; [lia | apply Hlow; lia].
    - rewrite Hr1 in El by lia. done. }
  apply wp_bind. apply wp_when; [unfold orders in *; intros ?%Z.gtb_lt; lia | intros _].
  apply wp_bind. eapply wp_pop; [exact HR | exact HL | lia | exact El |]. intros k1 HR1 HM1.
  apply wp_bind. eapply wp_mono.
  { apply (split_loop_refines x o 12 c); [exact HR1 | apply Inv_take; [done | lia | done] | done | exact Hh | exact Hox
      | lia | unfold orders, MAX_BUDDY_ORDER in *; lia]. }
  intros r k2 (-> & HR2 & HM2).
  assert (Ho8 : 0 <= o < 256) by (unfold orders, MAX_BUDDY_ORDER in *; lia).
  step_with wp_store_order as k3 HR3 HM3. step_with wp_store_flags as k' HR' HM4. unfold mark in Hs'. rewrite Hs' in HR'.
  assert (HM : mrun k k') by (repeat (eapply mrun_trans; [eassumption|]); apply mrun_refl).
  do 3 (apply wp_bind; first [apply wp_gets | apply wp_modify]; cbv beta).
  assert (HR'' : forall fc uc, brep (set_buddy (MkBuddy (page_map (k_buddy k')) (page_n (k_buddy k')) fc uc) k') s').
  { intros fc uc. apply brep_counts; [exact HR' | exact (br_pm _ _ HR')]. }
  apply wp_bind. eapply wp_get_page_map; [apply HR''|]. apply wp_ret. rewrite page_index_at.
  destruct HM as (m' & -> & Hu). destruct HC as [HC1 HC2].
  pose proof (al_total _ _ _ _ _ HA) as Ht. destruct (al_range _ _ _ _ _ HA) as [Hx0 HxN].
  pose proof (pow2_pos o ltac:(lia)).
  split_and!.
  - apply u32_small. pose proof (g_count HG). lia.
  - apply HR''.
  - unfold counted. cbn [k_buddy set_buddy set_mem free_pages_count used_pages_count].
    rewrite HC1, HC2, Z.shiftl_1_l, u32_add_mod. split; [|f_equal; lia].
    replace (u32 (free_total s) - 2 ^ o) with (u32 (free_total s) + (- 2 ^ o)) by lia.
    rewrite u32_add_mod. f_equal. lia.
  - eexists m', _, _. split; [exact Hu | reflexivity].
Qed.

Lemma buddy_alloc_oom o s k :
  brep k s -> Inv N (-1) s -> cursor_ok (k_vga k) -> 0 <= o <= orders -> alloc o s = None ->
  stops (buddy_alloc_pages o) k (Panic "PMM Out of memory").
Proof.
  intros HR HI Hcur Ho Hn. rewrite alloc_none in Hn by lia.
  unfold buddy_alloc_pages. apply stops_bind_r.
  eapply wp_mono; [apply (find_order_spec s k HR (Inv_lists_ok _ _ HI) 12 o);
    unfold orders, MAX_BUDDY_ORDER in *; lia|].
  intros r k0 (-> & Hr & _ & Hr2). apply stops_bind_l.
  destruct (Z.gtb_spec r MAX_BUDDY_ORDER) as [_|Hle]; [by apply kernel_panic_stops|].
  exfalso. apply Hr2; [exact Hle | apply Hn; unfold orders in *; lia].
Qed.

(** ** Freeing *)

Lemma merge_loop_refines fuel : forall i c s k,
  brep k s -> Inv N i s -> 0 <= i < N -> head s i -> ord s i = c -> orders - c < Z.of_nat fuel ->
  wp (merge_loop fuel pm i c (page_at pm i)) k (fun r k' =>
    let '(j, d, s') := merge fuel i c s in r = (page_at pm j, d) /\ brep k' s' /\ mrun k k').
Proof.
  induction fuel as [|fuel IH]; intros i c s k HR HI Hi Hh Ho Hf.
  { destruct (inv_block _ _ _ HI i Hi Hh) as (B1 & _). lia. }
  cbn [merge_loop]. rewrite merge_unfold. pose proof (g_n HG).
  destruct (inv_block _ _ _ HI i Hi Hh) as (B1 & B2 & B3 & B4 & _). rewrite Ho in *.
  destruct (mergeable i c s) eqn:Hm.
  - destruct (mergeable_listed N i c s HI Hi Hh Ho Hm) as (Hc & Hb & Hbl).
    pose proof (merge_step_to N i c s HI Hi Hh Ho Hm) as Hst.
    unfold mergeable in Hm. apply andb_true_iff in Hm as [[H1 H2]%andb_true_iff H3].
    unfold orders in H1. rewrite H1.
    apply wp_bind. eapply wp_buddy_index; [exact HR | lia | done | lia |].
    apply wp_bind. eapply wp_load_flags; [exact HR | lia |].
    apply wp_bind. eapply wp_load_order; [exact HR | lia |]. rewrite H2, H3. cbn [andb].
    apply wp_bind. eapply wp_remove; [exact HR | by eapply Inv_lists_ok | lia | exact Hbl|].
    intros k1 HR1 HM1.
    assert (Hsel : (if buddy_of i c <? i
        then (page_at pm (buddy_of i c), page_at pm i, buddy_of i c)
        else (page_at pm i, page_at pm (buddy_of i c), i)) =
      (page_at pm (Z.min i (buddy_of i c)), page_at pm (Z.max i (buddy_of i c)), Z.min i (buddy_of i c))).
    { destruct (Z.ltb_spec (buddy_of i c) i);
        [rewrite Z.min_r, Z.max_l by lia | rewrite Z.min_l, Z.max_r by lia]; done. }
    rewrite Hsel. assert (Hc8 : 0 <= c + 1 < 256) by (unfold orders, MAX_BUDDY_ORDER in *; lia).
    step_with wp_store_order as k2 HR2 HM2. step_with wp_store_flags as k3 HR3 HM3.
    step_with wp_store_flags as k4 HR4 HM4. destruct Hst as [M1 M2 M3 M4 _ _ _ _].
    eapply wp_mono; [apply (IH _ (c + 1) _ k4 HR4 M1 M2 M3 M4); lia|].
    intros r k5 Hr. change (set_flg _ _ _) with (merge_step i c s) in Hr.
    destruct (merge fuel _ _ _) as [[j d] s']. destruct Hr as (-> & HR5 & HM5).
    split_and!; [done | done |]. repeat (eapply mrun_trans; [eassumption|]). apply mrun_refl.
  - assert (Hend : wp (mret (page_at pm i, c)) k (fun r k' => r = (page_at pm i, c) /\ brep k' s /\ mrun k k'))
      by (apply wp_ret; split_and!; [done | done | apply mrun_refl]).
    unfold mergeable, orders in Hm. destruct (c <? MAX_BUDDY_ORDER) eqn:H1; [|exact Hend].
    assert (Hb : 0 <= buddy_of i c < NG) by (apply buddy_in_map; [lia | unfold orders; lia | done]).
    apply wp_bind. eapply wp_buddy_index; [exact HR | lia | done | lia |].
    apply wp_bind. eapply wp_load_flags; [exact HR | lia |].
    apply wp_bind. eapply wp_load_order; [exact HR | lia |]. cbn [andb] in Hm. rewrite Hm. exact Hend.
Qed.

Lemma buddy_free_refines T i o s k :
  brep k s -> Inv N (-1) s -> counted T k s -> 0 <= i < N -> used s i o ->
  wp (buddy_free_pages (4096 * i)) k (fun _ k' =>
    brep k' (free i s) /\ counted T k' (free i s) /\ brun k k').
Proof.
  intros HR HI HC Hi Hu. pose proof (free_freed N i o s HI Hi Hu) as HF.
  pose proof Hu as [Huf Huo]. assert (Hh : head s i) by (by right). pose proof (g_n HG).
  destruct (inv_block _ _ _ HI i Hi Hh) as (B1 & _). unfold orders, MAX_BUDDY_ORDER in B1.
  unfold buddy_free_pages. unfold real_page_index, BASE_SHIFT.
  rewrite Z.shiftr_div_pow2 by lia. replace (4096 * i / 2 ^ 12) with i by (change (2 ^ 12) with 4096; div_lia).
  apply wp_bind. eapply wp_get_page_map; [exact HR|].
  apply wp_bind. eapply wp_load_order; [exact HR | lia |].
  do 3 (apply wp_bind; first [apply wp_gets | apply wp_modify]; cbv beta).
  set (k1 := set_buddy _ _).
  assert (HR1 : brep k1 s) by (apply brep_counts; [done | exact (br_pm _ _ HR)]).
  apply wp_bind. eapply wp_mono.
  { apply (merge_loop_refines 12 i (ord s i) s k1); try done; [by apply Inv_hold|].
    unfold orders, MAX_BUDDY_ORDER. lia. }
  intros r k2 Hr. pose proof (merge_spec N 12 i (ord s i) s (Inv_hold _ _ _ HI Huf) Hi Hh eq_refl) as Hms.
  specialize (Hms ltac:(unfold orders, MAX_BUDDY_ORDER; lia)). unfold free in *.
  destruct (merge 12 i (ord s i) s) as [[j d] t]. destruct Hr as (-> & HR2 & HM2).
  destruct Hms as ([M1 M2 M3 M4 _ _ _ _] & Hd & _).
  assert (Hd8 : 0 <= d < 256) by (unfold orders, MAX_BUDDY_ORDER in *; lia).
  step_with wp_store_order as k3 HR3 HM3. step_with wp_store_flags as k4 HR4 HM4.
  eapply wp_push; [exact HR4 | | lia | lia | | ].
  - apply (lists_ok_fl t); [done | by eapply Inv_lists_ok].
  - intros o' Ho' Hin. apply (inv_listed _ _ _ M1) in Hin as (_ & _ & _ & ?); done.
  - intros k5 HR5 HM5.
    assert (HM : mrun k1 k5) by (repeat (eapply mrun_trans; [eassumption|]); apply mrun_refl).
    destruct HM as (m' & -> & Hm'). split_and!; [done | |].
    + destruct HC as [HC1 HC2]. pose proof (fr_total _ _ _ _ _ HF) as Ht.
      unfold counted. cbn [k_buddy set_buddy set_mem k1 free_pages_count used_pages_count].
      rewrite HC1, HC2, Z.shiftl_1_l, Huo, u32_add_mod, Ht. split; [done|].
      replace (u32 (T - free_total s) - 2 ^ o) with (u32 (T - free_total s) + (- 2 ^ o)) by lia.
      rewrite u32_add_mod. f_equal. lia.
    + eexists m', _, _. split; [exact Hm' | reflexivity].
Qed.
End refine.
