(* ===== verification/BuddyInit.v ===== *)
(** * Initialising the buddy allocator

    [init_buddy] builds the page map and covers the memory above it greedily
    with the largest aligned blocks; the result satisfies the allocator's
    invariant, is coalesced, and owns exactly the pages of that memory. *)

From Stdlib Require Import ZArith Lia Bool.
From stdpp Require Import base functions list gmap strings.
From S2P Require Import Prelude Machine StringLib Console Node Bump Buddy BuddyModel BuddyRefine.

(** ** Covering memory with blocks, over lists *)

(** The state after [make_pages]: every page reserved; past the end of memory
    the zeroed rest of the page map looks like free pages of order 0. *)
Definition reserved (n : Z) : bst :=
  MkBst (fun _ => []) (fun _ => 0) (fun i => if i <? n then P_KERNEL else P_FREE).

(** [flags = P_TAIL] for the pages [i .. i+k-1]. *)
Fixpoint tails (k : nat) (i : Z) (s : bst) : bst :=
  match k with
  | O => s
  | S k => tails k (i + 1) (set_flg i P_TAIL s)
  end.

Definition add_at (t o : Z) (s : bst) : bst :=
  push o t (tails (Z.to_nat (2 ^ o - 1)) (t + 1) (mark t o P_FREE s)).

(** The order [add_pages] picks at page [t] of [n]. *)
Fixpoint fit (i : nat) (t n : Z) : Z :=
  match i with
  | O => 0
  | S j => if (Z.land t (2 ^ Z.of_nat i - 1) =? 0) && (t + 2 ^ Z.of_nat i <=? n)
           then Z.of_nat i else fit j t n
  end.

Lemma fit_spec t n i :
  t < n -> 0 <= fit i t n <= Z.of_nat i /\ (2 ^ fit i t n | t) /\ t + 2 ^ fit i t n <= n /\
  (forall q, fit i t n < q <= Z.of_nat i -> (2 ^ q | t) -> n < t + 2 ^ q).
Proof.
  intros Ht. induction i as [|i IH]; cbn [fit].
  { change (Z.of_nat 0) with 0. change (2 ^ 0) with 1.
    split_and!; try lia. by exists t; lia. }
  destruct (Z.eqb_spec (Z.land t (2 ^ Z.of_nat (S i) - 1)) 0) as [E|E]; cbn [andb].
  - rewrite land_mask in E by lia. apply Z.mod_divide in E; [|apply Z.pow_nonzero; lia].
    destruct (Z.leb_spec (t + 2 ^ Z.of_nat (S i)) n) as [Hle|Hgt].
    + split_and!; try done; lia.
    + destruct IH as (H1 & H2 & H3 & H4). split_and!; try done; try lia. intros q Hq Hd.
      destruct (decide (q = Z.of_nat (S i))) as [->|]; [lia | apply H4; [lia | done]].
  - destruct IH as (H1 & H2 & H3 & H4). split_and!; try done; try lia. intros q Hq Hd.
    destruct (decide (q = Z.of_nat (S i))) as [->|]; [|apply H4; [lia | done]].
    exfalso. apply E. rewrite land_mask by lia. by apply Z.mod_divide; [apply Z.pow_nonzero; lia|].
Qed.

Lemma tails_spec k : forall i s,
  fl (tails k i s) = fl s /\ ord (tails k i s) = ord s /\
  forall j, flg (tails k i s) j = if decide (i <= j < i + Z.of_nat k) then P_TAIL else flg s j.
Proof.
  induction k as [|k IH]; intros i s; cbn [tails].
  - split_and!; [done | done |]. intros j. by rewrite decide_False by lia.
  - destruct (IH (i + 1) (set_flg i P_TAIL s)) as (H1 & H2 & H3).
    split_and!; [by rewrite H1 | by rewrite H2 |]. intros j. rewrite H3. upd.
    repeat case_decide; try done; exfalso; lia.
Qed.

(** While memory [t0, n) is being covered, up to page [t]. *)
Record covering (n t0 t : Z) (s : bst) : Prop := {
  cv_inv : Inv n (-1) s;
  cv_rest : forall i, t <= i < n -> flg s i = P_KERNEL;
  cv_greedy : forall q i, 0 <= q < orders -> i ∈ fl s q -> (2 ^ (q + 1) | i) -> n < i + 2 ^ (q + 1);
  cv_unused : forall i, flg s i <> P_USED;
  cv_pages : forall p, free_page s p <-> t0 <= p < t;
  cv_total : free_total s = t - t0 }.

Lemma covering_reserved n t0 : 0 <= t0 <= n -> (2 | n) -> covering n t0 t0 (reserved n).
Proof.
  intros Ht He. assert (Hk : forall i, i < n -> flg (reserved n) i = P_KERNEL).
  { intros i Hi. cbn. by destruct (Z.ltb_spec i n); [|lia]. }
  split.
  - split; try done.
    + intros i Hi [Hf|Hf]; rewrite Hk in Hf by lia; done.
    + intros o i Ho. split; [cbn; by rewrite elem_of_nil|].
      intros (Hi & Hf & _). rewrite Hk in Hf by lia. done.
    + intros o Ho. constructor.
  - intros i Hi. apply Hk. lia.
  - intros q i _ Hi. cbn in Hi. by rewrite elem_of_nil in Hi.
  - intros i. cbn. by destruct (i <? n).
  - intros p. split; [|lia]. intros (o & i & _ & Hi & _). cbn in Hi. by rewrite elem_of_nil in Hi.
  - change (free_total (reserved n)) with 0. lia.
Qed.

Section add.
Context (n t0 t o : Z) (s : bst) (HC : covering n t0 t s).
Context (Ht : 0 <= t0 <= t) (Ho : 0 <= o <= orders) (Hd : (2 ^ o | t)) (Hfit : t + 2 ^ o <= n).

Lemma add_at_fields j :
  flg (add_at t o s) j = (if decide (t = j) then P_FREE
    else if decide (in_block t o j) then P_TAIL else flg s j) /\
  ord (add_at t o s) j = (if decide (t = j) then o else ord s j).
Proof.
  destruct (tails_spec (Z.to_nat (2 ^ o - 1)) (t + 1) (mark t o P_FREE s)) as (_ & H2 & H3).
  pose proof (pow2_pos o ltac:(lia)). unfold add_at. cbn [push set_fl flg ord].
  rewrite H2, H3. upd. unfold in_block.
  repeat case_decide; try done; exfalso; lia.
Qed.

Lemma add_at_gives : gives o t (add_at t o s) s.
Proof. apply gives_push; [done|]. by rewrite (proj1 (tails_spec _ _ _)). Qed.

Lemma add_not_listed q j : 0 <= q <= orders -> in_block t o j -> j ∉ fl s q.
Proof.
  intros Hq Hj Hin. apply (inv_listed _ _ _ (cv_inv _ _ _ _ HC)) in Hin as (_ & Hf & _); [|done].
  rewrite (cv_rest _ _ _ _ HC) in Hf by (unfold in_block in *; lia). done.
Qed.

(** A head among the pages below [t] keeps its block. *)
Lemma add_at_blocks i : 0 <= i < n -> head (add_at t o s) i -> block_ok n (add_at t o s) i.
Proof.
  intros Hi Hh. pose proof (pow2_pos o ltac:(lia)) as Hp. unfold head in Hh.
  destruct (add_at_fields i) as [Ef Eo]. rewrite Ef in Hh. unfold block_ok. rewrite Eo.
  destruct (decide (t = i)) as [<-|Hti].
  - split_and!; try done; try lia. intros j Hj. rewrite (proj1 (add_at_fields j)).
    rewrite decide_False by lia. rewrite decide_True by (unfold in_block; lia). done.
  - destruct (decide (in_block t o i)) as [|Hnb]; [unfold P_TAIL, P_FREE, P_USED in Hh; lia|].
    destruct (inv_block _ _ _ (cv_inv _ _ _ _ HC) i Hi Hh) as (B1 & B2 & B3 & B4 & B5).
    split_and!; try done; try lia. intros j Hj. rewrite (proj1 (add_at_fields j)).
    destruct (decide (t = j)) as [<-|].
    { specialize (B5 t Hj). rewrite (cv_rest _ _ _ _ HC) in B5 by lia. done. }
    destruct (decide (in_block t o j)); [done | by apply B5].
Qed.

Lemma add_at_covering :
  (o < orders -> (2 ^ (o + 1) | t) -> n < t + 2 ^ (o + 1)) ->
  covering n t0 (t + 2 ^ o) (add_at t o s).
Proof.
  intros Hgr. pose proof (pow2_pos o ltac:(lia)) as Hp. pose proof add_at_gives as Hg.
  destruct HC as [HI Hrest Hgreedy Hunused Hpages Htotal]. split.
  - inv_split.
    + apply add_at_blocks.
    + intros q i Hq. rewrite (gives_elem _ _ _ _ q i Hg), (inv_listed _ _ _ HI q i Hq).
      rewrite (proj1 (add_at_fields i)), (proj2 (add_at_fields i)).
      destruct (decide (t = i)) as [<-|Hti].
      * rewrite (Hrest t) by lia. split; [|intros (_ & _ & -> & _); by right].
        intros [(_ & ? & _)|[-> _]]; [done|]. split_and!; try done; lia.
      * destruct (decide (in_block t o i)) as [Hin|].
        { rewrite (Hrest i) by (unfold in_block in Hin; lia).
          split; [|by intros (_ & ? & _)]. intros [(_ & ? & _)|[_ ->]]; done. }
        split; [|tauto]. intros [?|[_ ->]]; [done | congruence].
    + intros q Hq. destruct (decide (q = o)) as [->|Hne].
      * destruct Hg as (_ & _ & ->). constructor; [|by apply (inv_nodup _ _ _ HI)].
        apply add_not_listed; [done | unfold in_block; lia].
      * destruct Hg as (_ & Hsame & _). rewrite <- Hsame by done. by apply (inv_nodup _ _ _ HI).
    + intros i Hi. rewrite (proj1 (add_at_fields i)), (proj2 (add_at_fields i)).
      rewrite !decide_False by (unfold in_block; lia). by apply (inv_guard _ _ _ HI).
    + apply (inv_even _ _ _ HI).
  - intros i Hi. rewrite (proj1 (add_at_fields i)), !decide_False by (unfold in_block; lia).
    apply Hrest. lia.
  - intros q i Hq [Hi|[-> ->]]%(gives_elem _ _ _ _ q i Hg); [by apply Hgreedy | intros; apply Hgr; [lia | done]].
  - intros i. rewrite (proj1 (add_at_fields i)). repeat case_decide; done.
  - intros p. rewrite (gives_free_page _ _ _ _ p Hg), Hpages. unfold in_block. lia.
  - rewrite (gives_total _ _ _ _ Hg). lia.
Qed.
End add.

(** The greedy cover leaves no pair of free buddies. *)
Lemma covering_coalesced n t0 t s : covering n t0 t s -> coalesced s.
Proof.
  intros HC q i Hq Hi Hb. pose proof (cv_inv _ _ _ _ HC) as HI.
  pose proof (pow2_pos q ltac:(lia)) as Hp.
  destruct (listed_head _ _ _ HI q i ltac:(lia) Hi) as (I1 & I2 & I3).
  destruct (inv_block _ _ _ HI i I1 I2) as (_ & I4 & I5 & I6 & _).
  destruct (listed_head _ _ _ HI q _ ltac:(lia) Hb) as (J1 & J2 & J3).
  destruct (inv_block _ _ _ HI _ J1 J2) as (_ & J4 & J5 & J6 & _). rewrite I3, J3 in *.
  destruct (buddy_of_cases i q ltac:(lia) I4 I6) as [[Hd E]|(Hd & E & _)]; rewrite E in *.
  - pose proof (cv_greedy _ _ _ _ HC q i Hq Hi Hd). rewrite pow2_S in * by lia. lia.
  - pose proof (cv_greedy _ _ _ _ HC q _ Hq Hb Hd). rewrite pow2_S in * by lia. lia.
Qed.

(** The loop of [add_pages] over lists, and its end state. *)
Fixpoint cover (fuel : nat) (t n : Z) (s : bst) : bst :=
  match fuel with
  | O => s
  | S fuel => if t <? n then cover fuel (t + 2 ^ fit 10 t n) n (add_at t (fit 10 t n) s) else s
  end.

Lemma cover_step n t0 t s :
  covering n t0 t s -> 0 <= t0 <= t -> t < n ->
  covering n t0 (t + 2 ^ fit 10 t n) (add_at t (fit 10 t n) s).
Proof.
  intros HC Ht Hlt. destruct (fit_spec t n 10 Hlt) as (F1 & F2 & F3 & F4).
  apply add_at_covering; try done. intros Ho Hd. apply F4; [|done].
  unfold orders, MAX_BUDDY_ORDER in Ho. lia.
Qed.

Lemma cover_covering n t0 fuel : forall t s,
  covering n t0 t s -> 0 <= t0 <= t -> t <= n -> n - t <= Z.of_nat fuel ->
  covering n t0 n (cover fuel t n s).
Proof.
  induction fuel as [|fuel IH]; intros t s HC Ht Hn Hf; cbn [cover].
  { by replace t with n in HC by lia. }
  destruct (Z.ltb_spec t n) as [Hlt|]; [|by replace t with n in HC by lia].
  destruct (fit_spec t n 10 Hlt) as (F1 & F2 & F3 & _). pose proof (pow2_pos _ (proj1 F1)).
  apply IH; [by apply cover_step | lia | lia | lia].
Qed.

(** ** Covering memory with blocks, in memory *)

Section add_refine.
Context `{BuddySymbols}.
Context (pm N NG : Z) (HG : geometry pm N NG).
Context (HN : 4096 * N <= PHYS_LIMIT).
Local Abbreviation brep := (brep pm NG).
Local Abbreviation brun := (brun pm NG).
Local Abbreviation mrun := (mrun pm NG).

Lemma tails_refines n : forall j t s k,
  brep k s -> 0 <= t + j -> t + j + Z.of_nat n <= NG ->
  wp (for_up n j (fun tail => store8 (page_flags (page_at pm (t + tail))) P_TAIL)) k
    (fun _ k' => brep k' (tails n (t + j) s) /\ mrun k k').
Proof.
  induction n as [|n IH]; intros j t s k HR Hj Hn; cbn [for_up tails].
  { apply wp_ret. split; [done | apply mrun_refl]. }
  apply wp_bind. eapply wp_store_flags; [exact HG | exact HR | lia | unfold P_TAIL; lia |].
  intros k1 HR1 HM1. eapply wp_mono; [apply IH; [exact HR1 | lia | lia]|].
  intros [] k2 [HR2 HM2]. rewrite Z.add_assoc in HR2. split; [done | by eapply mrun_trans].
Qed.

Lemma block_aligned t o :
  0 <= o -> IS_ALIGNED (4096 * t) (4096 * 2 ^ o) = (Z.land t (2 ^ o - 1) =? 0).
Proof.
  intros Ho. change 4096 with (2 ^ 12). rewrite <- Z.pow_add_r by lia.
  pose proof (IS_ALIGNED_spec (2 ^ 12 * t) (12 + o) ltac:(lia)) as H1.
  rewrite land_mask by done. pose proof (pow2_pos o Ho).
  apply eq_true_iff_eq. rewrite H1, Z.eqb_eq, Z.mod_divide by lia.
  rewrite Z.pow_add_r by lia. apply Z.mul_divide_cancel_l. lia.
Qed.

(** The counters while memory is being added. *)
Definition adding (k : kernel) (s : bst) : Prop :=
  free_pages_count (k_buddy k) = u32 (free_total s) /\ used_pages_count (k_buddy k) = 0.

Lemma brun_of_mrun k k1 k2 : brun k k1 -> mrun k1 k2 -> brun k k2.
Proof.
  intros (m1 & fc & uc & U1 & ->) (m2 & -> & U2). exists m2, fc, uc.
  split; [by eapply untouched_trans | done].
Qed.

Lemma brun_trans k k1 k2 : brun k k1 -> brun k1 k2 -> brun k k2.
Proof.
  intros (m1 & fc & uc & U1 & ->) (m2 & fc2 & uc2 & U2 & ->). exists m2, fc2, uc2.
  split; [by eapply untouched_trans | done].
Qed.

Lemma brun_refl k : brun k k.
Proof.
  exists (k_mem k), (free_pages_count (k_buddy k)), (used_pages_count (k_buddy k)).
  split; [apply untouched_refl | destruct k as [?????? []]; done].
Qed.

(** The block of order [o] at page [t] is entered. *)
Lemma add_hit o t0 t s k : 0 <= o <= orders -> brep k s -> covering N t0 t s -> adding k s -> 0 <= t0 <= t -> t < N -> t + 2 ^ o <= N ->
  wp (pm ← get_page_map;
      let idx := real_page_index (4096 * t) in
      used ← gets (fun k => used_pages_count (k_buddy k));
      free ← gets (fun k => free_pages_count (k_buddy k));
      set_counts used (free + Z.shiftl 1 o);;
      store8 (page_order (page_at pm idx)) o;;
      store8 (page_flags (page_at pm idx)) P_FREE;;
      for_up (Z.to_nat (Z.shiftl 1 o - 1)) 1 (fun tail =>
        store8 (page_flags (page_at pm (idx + tail))) P_TAIL);;
      push_node (free_area_at o) (page_at pm idx);;
      mret (Some (4096 * (t + 2 ^ o)))) k (fun r k' =>
    r = Some (4096 * (t + 2 ^ o)) /\ brep k' (add_at t o s) /\ adding k' (add_at t o s) /\ brun k k').
Proof.
  intros Ho HR HC HA Ht Hlt Hfit. pose proof (pow2_pos o ltac:(lia)) as Hp. pose proof (g_n _ _ _ HG).
  assert (Ho8 : 0 <= o < 256) by (unfold orders, MAX_BUDDY_ORDER in *; lia).
  apply wp_bind. eapply wp_get_page_map; [exact HR|]. cbv zeta.
  assert (real_page_index (4096 * t) = t) as ->.
  { unfold real_page_index, BASE_SHIFT. rewrite Z.shiftr_div_pow2 by lia. change (2 ^ 12) with 4096. div_lia. }
  do 2 (apply wp_bind, wp_gets; cbv beta). apply wp_bind. apply wp_modify.
  set (k1 := set_buddy _ _).
  assert (HR1 : brep k1 s) by (apply brep_counts; [exact HR | exact (br_pm _ _ _ _ HR)]).
  apply wp_bind. eapply wp_store_order; [exact HG | exact HR1 | lia | lia |]. intros k2 HR2 HM2.
  apply wp_bind. eapply wp_store_flags; [exact HG | exact HR2 | lia | unfold P_FREE; lia |]. intros k3 HR3 HM3.
  rewrite Z.shiftl_1_l. apply wp_bind.
  eapply wp_mono; [apply (tails_refines _ 1 t); [exact HR3 | lia | lia]|]. intros [] k4 [HR4 HM4].
  apply wp_bind.
  eapply (wp_push pm N NG HG); [exact HR4 | | done | lia | |].
  - apply (lists_ok_fl NG s); [by rewrite (proj1 (tails_spec _ _ _))|].
    eapply Inv_lists_ok; [exact HG | exact (cv_inv _ _ _ _ HC)].
  - intros q Hq. rewrite (proj1 (tails_spec _ _ _)).
    eapply (add_not_listed N t0 t o s); try done; unfold in_block; lia.
  - intros k5 HR5 HM5. apply wp_ret. split_and!; [done | exact HR5 | |].
    + destruct HM5 as (? & -> & _), HM4 as (? & -> & _), HM3 as (? & -> & _), HM2 as (? & -> & _).
      destruct HA as [A1 A2]. unfold adding. cbn [k_buddy set_mem set_buddy k1 free_pages_count used_pages_count].
      rewrite A1, A2, u32_add_mod, Z.shiftl_1_l. split; [|done].
      f_equal. rewrite (gives_total o t (add_at t o s) s); [done|]. by apply add_at_gives.
    + repeat (eapply brun_of_mrun; [|eassumption]).
      exists (k_mem k), (u32 (free_pages_count (k_buddy k) + 2 ^ o)), (u32 (used_pages_count (k_buddy k))).
      split; [apply untouched_refl|]. unfold k1. rewrite Z.shiftl_1_l. by destruct k.
Qed.

(** The arithmetic of the inner loop does not wrap around. *)
Lemma block_size t o : 0 <= t < N -> 0 <= o <= 10 -> u32 (Z.shiftl BASE_SIZE o) = 4096 * 2 ^ o /\
  4096 * t ⊞ 4096 * 2 ^ o = 4096 * (t + 2 ^ o).
Proof.
  intros Ht Ho. pose proof (g_n _ _ _ HG). unfold PHYS_LIMIT, KERNEL_VIRTUAL_BASE in HN.
  pose proof (pow2_pos o ltac:(lia)). pose proof (pow2_le o 10 ltac:(lia)).
  change (2 ^ 10) with 1024 in *. rewrite Z.shiftl_mul_pow2 by lia. unfold BASE_SIZE.
  split_and!; try lia; rewrite u32_small by lia; lia.
Qed.

Lemma add_block_refines i t0 t s k :
  (i <= 10)%nat -> brep k s -> covering N t0 t s -> adding k s -> 0 <= t0 <= t -> t < N ->
  wp (add_block i (4096 * t) (4096 * N)) k (fun r k' =>
    r = Some (4096 * (t + 2 ^ fit i t N)) /\ brep k' (add_at t (fit i t N) s) /\
    adding k' (add_at t (fit i t N) s) /\ brun k k').
Proof.
  intros Hi HR HC HA Ht Hlt. revert Hi. induction i as [|i IH]; intros Hi; cbn [add_block fit].
  - destruct (block_size t 0 ltac:(lia) ltac:(lia)) as (E1 & E2). change (Z.of_nat 0) with 0. rewrite E1, E2.
    rewrite block_aligned by lia. change (2 ^ 0 - 1) with 0. rewrite Z.land_0_r. cbn [Z.eqb andb].
    rewrite (proj2 (Z.leb_le _ _)) by lia. apply (add_hit 0 t0); try done; unfold orders, MAX_BUDDY_ORDER; lia.
  - destruct (block_size t (Z.of_nat (S i)) ltac:(lia) ltac:(lia)) as (E1 & E2). rewrite E1, E2, block_aligned by lia.
    replace (4096 * (t + 2 ^ Z.of_nat (S i)) <=? 4096 * N) with (t + 2 ^ Z.of_nat (S i) <=? N)
      by (apply eq_true_iff_eq; rewrite !Z.leb_le; lia).
    destruct (_ && _) eqn:Hb; [|apply IH; lia].
    apply andb_true_iff in Hb as [_ Hb%Z.leb_le]. apply (add_hit _ t0); try done. unfold orders, MAX_BUDDY_ORDER; lia.
Qed.

Lemma add_loop_refines fuel : forall t0 t s k,
  brep k s -> covering N t0 t s -> adding k s -> 0 <= t0 <= t -> t <= N -> N - t < Z.of_nat fuel ->
  wp (add_loop fuel (4096 * t) (4096 * N)) k (fun _ k' =>
    brep k' (cover fuel t N s) /\ adding k' (cover fuel t N s) /\ brun k k').
Proof.
  induction fuel as [|fuel IH]; intros t0 t s k HR HC HA Ht HtN Hf; [lia|].
  cbn [add_loop cover].
  replace (4096 * t <? 4096 * N) with (t <? N) by (apply eq_true_iff_eq; rewrite !Z.ltb_lt; lia).
  destruct (Z.ltb_spec t N) as [Hlt|Hge].
  - apply wp_bind. eapply wp_mono; [by apply (add_block_refines 10 t0)|].
    intros r k1 (-> & HR1 & HA1 & HB1). destruct (fit_spec t N 10 Hlt) as (F1 & _ & F3 & _).
    pose proof (pow2_pos _ (proj1 F1)).
    eapply wp_mono; [apply (IH t0); [exact HR1 | by apply cover_step | exact HA1 | lia | lia | lia]|].
    intros [] k2 (HR2 & HA2 & HB2). split_and!; [done | done | by eapply brun_trans].
  - apply wp_ret. split_and!; [done | done | apply brun_refl].
Qed.
End add_refine.

(** ** [init_buddy] *)

(** The boot state [init_buddy] expects: entry 3 of the memory map describes
    memory that ends at page [N], the placement address is page [t], and the
    page map, of [P] pages, fits between the two.  The descriptors up to [NG]
    that the code may look at are within those pages. *)
Record boot_state `{BuddySymbols} (N NG t P : Z) (k : kernel) : Prop := {
  bs_end : ld64 (k_mem k) (memory_map (k_boot k) + 72) +
           ld64 (k_mem k) (memory_map (k_boot k) + 80) = 4096 * N;
  bs_limit : 4096 * N <= PHYS_LIMIT;
  bs_even : (2 | N);
  bs_placement : placement_addr k = 4096 * t;
  bs_pages : P = (sizeof_Page * N + 4095) / 4096;
  bs_room : 0 < t /\ t + P <= N;
  bs_slack : N <= NG /\ (2 ^ orders | NG) /\ sizeof_Page * NG <= 4096 * P;
  bs_map : KERNEL_VIRTUAL_BASE <= memory_map (k_boot k) + 72 /\ memory_map (k_boot k) + 88 <= 2 ^ 32 /\
    apart (memory_map (k_boot k) + 72) 16 (P2V (4096 * t)) (4096 * P);
  bs_area : KERNEL_VIRTUAL_BASE <= free_area /\ free_area + 48 <= 2 ^ 32 /\
    apart free_area 48 (P2V (4096 * t)) (4096 * P);
  bs_empty : forall o, 0 <= o <= orders -> ld32 (k_mem k) (free_area_at o) = NULL }.

Section init.
Context `{BuddySymbols} (N NG t P : Z) (k : kernel) (HB : boot_state N NG t P k).
Local Abbreviation pm := (P2V (4096 * t)).

Ltac boot := pose proof (bs_limit _ _ _ _ _ HB); pose proof (bs_pages _ _ _ _ _ HB);
  pose proof (bs_room _ _ _ _ _ HB); pose proof (bs_slack _ _ _ _ _ HB);
  unfold PHYS_LIMIT, KERNEL_VIRTUAL_BASE, sizeof_Page in *.

Lemma pm_eq : pm = 4096 * t + KERNEL_VIRTUAL_BASE.
Proof. apply P2V_eq. boot. Z.div_mod_to_equations. lia. Qed.

Lemma boot_geometry : geometry pm N NG.
Proof.
  pose proof pm_eq as E. pose proof (bs_area _ _ _ _ _ HB) as (A1 & A2 & A3).
  boot. unfold apart in *. split; unfold sizeof_Page, KERNEL_VIRTUAL_BASE, apart; try tauto; try lia;
    Z.div_mod_to_equations; lia.
Qed.

(** The state while the page map is being built: only its pages, the placement
    address and the allocator's globals differ from the boot state. *)
Definition building (n : Z) (b : buddy_globals) (k' : kernel) : Prop :=
  exists m', k' = set_mem m' (set_placement (4096 * (t + n)) (set_buddy b k)) /\
    untouched (range pm (4096 * P)) (k_mem k) m' /\
    forall i, 0 <= i < 4096 * n -> ld8 m' (pm + i) = 0.

Lemma bump_building n b k1 :
  building n b k1 -> 0 <= n < P ->
  wp (bump_alloc 1) k1 (fun r k2 => r = 4096 * (t + n) /\ building (n + 1) b k2).
Proof.
  intros (m1 & -> & Hu & Hz) Hn. pose proof pm_eq as E. boot.
  eapply wp_mono; [apply bump_alloc_spec; cbn [placement_addr set_mem set_placement];
    unfold PHYS_LIMIT, KERNEL_VIRTUAL_BASE; lia|].
  cbn [placement_addr set_mem set_placement k_mem].
  intros r k2 (-> & m2 & -> & Hu2 & Hz2). split; [done|].
  rewrite P2V_eq in Hu2, Hz2 by (unfold PHYS_LIMIT, KERNEL_VIRTUAL_BASE; lia).
  unfold KERNEL_VIRTUAL_BASE in *. exists m2. split_and!.
  - replace (4096 * (t + (n + 1))) with (4096 * (t + n) + 4096 * 1) by lia. done.
  - eapply untouched_trans; [exact Hu|]. eapply untouched_mono; [|exact Hu2].
    unfold range. intros c Hc. lia.
  - intros i Hi. destruct (Z.lt_ge_cases i (4096 * n)) as [Hlt|Hge].
    + rewrite Hu2 by (unfold range; lia). apply Hz. lia.
    + replace (pm + i) with (4096 * (t + n) + 3221225472 + (i - 4096 * n)) by lia. apply Hz2. lia.
Qed.

(** The descriptors before [i] are initialised, the others are zero. *)
Definition initialised (i : Z) (k1 k' : kernel) : Prop :=
  exists m', k' = set_mem m' k1 /\ untouched (range pm (4096 * P)) (k_mem k) m' /\
    forall j, 0 <= j < NG ->
      ld8 m' (page_order (page_at pm j)) = 0 /\
      ld8 m' (page_flags (page_at pm j)) = if j <? i then P_KERNEL else P_FREE.

Lemma initialised_step i k1 k' :
  initialised i k1 k' -> 0 <= i < N ->
  wp (store8 (page_flags (page_at pm i)) P_KERNEL;;
      store8 (page_order (page_at pm i)) 0;;
      store32 (node_next (page_at pm i)) NULL;;
      store32 (node_prev (page_at pm i)) NULL) k' (fun _ => initialised (i + 1) k1).
Proof.
  unfold initialised. intros (m' & -> & Hu & Hf) Hi. pose proof pm_eq as E. boot.
  unfold page_flags, page_order, page_at, node_next, node_prev, NULL, P_KERNEL, P_FREE, sizeof_Page in *.
  unfold KERNEL_VIRTUAL_BASE in E. wp_steps; try (unfold KERNEL_VIRTUAL_BASE; lia).
  set (m2 := st32 _ _ _).
  assert (Hu2 : untouched (range (pm + 12 * i) 12) m' m2).
  { unfold m2. intros c Hc. unfold range in Hc.
    rewrite !ld8_st32_ne, !ld8_st8_ne by lia. done. }
  exists m2. split_and!; [done | |].
  - eapply untouched_trans; [exact Hu|]. eapply untouched_mono; [|exact Hu2]. unfold range. intros c Hc. lia.
  - intros j Hj. destruct (decide (j = i)) as [->|Hne].
    + unfold m2. mem_simp. destruct (Z.ltb_spec i (i + 1)); [done | lia].
    + rewrite !Hu2 by (unfold range; lia). replace (j <? i + 1) with (j <? i)
        by (apply eq_true_iff_eq; rewrite !Z.ltb_lt; lia). by apply Hf.
Qed.

Lemma make_pages_spec :
  wp make_pages k (fun _ k' => brep pm NG k' (reserved N) /\
    exists m', untouched (range pm (4096 * P)) (k_mem k) m' /\
      k' = set_mem m' (set_placement (4096 * (t + P)) (set_buddy
        (MkBuddy pm N (free_pages_count (k_buddy k)) (used_pages_count (k_buddy k))) k))).
Proof.
  pose proof pm_eq as E. pose proof (bs_end _ _ _ _ _ HB) as Hend.
  pose proof (bs_map _ _ _ _ _ HB) as (M1 & M2 & M3). boot.
  pose proof (ld64_range (k_mem k) (memory_map (k_boot k) + 72)) as R1.
  pose proof (ld64_range (k_mem k) (memory_map (k_boot k) + 80)) as R2.
  assert (HP : 0 < P) by (Z.div_mod_to_equations; lia).
  unfold make_pages. apply wp_bind, wp_gets; cbv beta.
  unfold mmap_addr, mmap_size, sizeof_memory_map_t. change (3 * 24) with 72.
  apply wp_bind. eapply wp_access; [unfold KERNEL_VIRTUAL_BASE; lia | lia | reflexivity | cbv beta].
  apply wp_bind. eapply wp_access; [unfold KERNEL_VIRTUAL_BASE; lia | lia | reflexivity | cbv beta].
  replace (memory_map (k_boot k) + 72 + 8) with (memory_map (k_boot k) + 80) by lia.
  rewrite (u32_small (ld64 _ (memory_map _ + 72))), Hend by lia. rewrite (u32_small (4096 * N)) by lia.
  rewrite (u32_small (4096 * N + _)) by lia. rewrite !Z.shiftr_div_pow2 by lia. change (2 ^ 12) with 4096.
  replace ((4096 * N + (0x1000 - 1)) / 4096) with N by div_lia. cbv zeta.
  unfold sizeof_Page. rewrite (u32_small (N * 12)), (u32_small (N * 12 + _)) by lia.
  replace ((N * 12 + (0x1000 - 1)) / 4096) with P by (rewrite H1; f_equal; lia).
  rewrite (u32_small (P - 1)) by (Z.div_mod_to_equations; lia).
  apply wp_bind, wp_modify. set (k0 := set_buddy _ _).
  assert (B0 : building 0 (k_buddy k0) k0).
  { exists (k_mem k). split_and!; [|apply untouched_refl | lia]. unfold k0.
    rewrite Z.add_0_r, <- (bs_placement _ _ _ _ _ HB). by destruct k. }
  apply wp_bind. eapply wp_mono; [apply (bump_building 0 _ _ B0); lia|]. intros page k1 [-> B1].
  rewrite Z.add_0_r. apply wp_bind, wp_modify. set (b2 := MkBuddy _ _ _ _).
  assert (B2 : building 1 b2 (set_buddy b2 k1)).
  { destruct B1 as (m1 & -> & U1 & Z1). by exists m1. }
  apply wp_bind. eapply (wp_for_up _ _ _ _ (fun j => building (1 + j) b2)); [exact B2 | |].
  { intros j k2 Hj B3. apply wp_bind. eapply wp_mono; [apply (bump_building _ _ _ B3); lia|].
    intros r k3 [_ B4]. apply wp_ret. by replace (1 + (j + 1)) with (1 + j + 1) by lia. }
  intros k3 (m3 & -> & U3 & Z3). replace (1 + (0 + Z.of_nat (Z.to_nat (P - 1)))) with P in * by lia.
  set (k3 := set_mem _ _).
  assert (I0 : initialised 0 k3 k3).
  { exists m3. split_and!; [done | done |]. intros j Hj.
    unfold page_order, page_flags, page_at, sizeof_Page. destruct (Z.ltb_spec j 0); [lia|].
    rewrite <- !Z.add_assoc, !Z3 by lia. done. }
  eapply (wp_for_up _ _ _ _ (fun i => initialised i k3)); [exact I0 | |].
  { intros j k4 Hj I4. apply initialised_step; [done | lia]. }
  intros k4 (m4 & -> & U4 & F4). replace (0 + Z.of_nat (Z.to_nat N)) with N in F4 by lia.
  assert (Hb2 : b2 = MkBuddy pm N (free_pages_count (k_buddy k)) (used_pages_count (k_buddy k))).
  { unfold b2. destruct B1 as (m1 & -> & _). done. }
  split; [split|].
  - cbn [k_buddy set_mem k3 set_placement set_buddy]. by rewrite Hb2.
  - intros o Ho. split; [|done]. cbn. rewrite <- (bs_empty _ _ _ _ _ HB o Ho).
    apply ld32_agree. eapply untouched_agree; [exact U4|].
    pose proof (bs_area _ _ _ _ _ HB) as (A1 & A2 & A3).
    rewrite (free_area_at_eq _ _ _ boot_geometry) by (unfold orders, MAX_BUDDY_ORDER in Ho; lia).
    unfold range, apart, orders, MAX_BUDDY_ORDER in *. lia.
  - intros i Hi. by apply F4.
  - intros i Hi. by apply F4.
  - exists m4. split; [done|]. unfold k3. by rewrite Hb2.
Qed.

(** The pages after the page map are free, in coalesced blocks; all others are
    reserved. *)
Record buddy_ready (s : bst) (k' : kernel) : Prop := {
  rd_rep : brep pm NG k' s;
  rd_inv : Inv N (-1) s;
  rd_coalesced : coalesced s;
  rd_unused : forall i, flg s i <> P_USED;
  rd_pages : forall p, free_page s p <-> t + P <= p < N;
  rd_total : free_total s = N - (t + P);
  rd_counted : counted (N - (t + P)) k' s;
  rd_page_n : page_n (k_buddy k') = N }.

Lemma set_counts_boot : boot_state N NG t P
  (set_buddy (MkBuddy (page_map (k_buddy k)) (page_n (k_buddy k)) 0 0) k).
Proof. destruct HB. split; done. Qed.
End init.

Lemma init_buddy_run `{BuddySymbols} N NG t P k :
  boot_state N NG t P k ->
  wp init_buddy k (fun _ k' => (exists s, buddy_ready N NG t P s k') /\
    exists m' b, k' = set_mem m' (set_placement (4096 * (t + P)) (set_buddy b k)) /\
      untouched (fun b => range free_area 48 b \/ range (P2V (4096 * t)) (4096 * P) b) (k_mem k) m').
Proof.
  intros HB. unfold init_buddy. apply wp_bind, wp_modify.
  pose proof (set_counts_boot _ _ _ _ _ HB) as HB'. rewrite !(u32_small 0) by lia.
  set (k0 := set_buddy _ k) in *. apply wp_bind.
  pose proof (bs_map _ _ _ _ _ HB') as (M1 & M2 & M3).
  pose proof (boot_geometry _ _ _ _ _ HB') as HG.
  eapply wp_mono; [exact (make_pages_spec _ _ _ _ _ HB')|]. intros [] k1 (HR & m' & Hu & ->).
  cbn [k_buddy set_buddy free_pages_count used_pages_count k0] in *.
  set (k1 := set_mem _ _) in *.
  assert (Hmap : ld64 m' (memory_map (k_boot k) + 72) + ld64 m' (memory_map (k_boot k) + 80) = 4096 * N).
  { rewrite <- (bs_end _ _ _ _ _ HB').
    rewrite (ld64_agree (k_mem k0) m' (memory_map (k_boot k) + 72)),
            (ld64_agree (k_mem k0) m' (memory_map (k_boot k) + 80)); [done | |];
      (eapply untouched_agree; [exact Hu|]); unfold range, apart in *; cbn [k_boot set_buddy k0] in *; lia. }
  pose proof (bs_limit _ _ _ _ _ HB') as HN. pose proof (bs_room _ _ _ _ _ HB') as HT.
  pose proof (bs_pages _ _ _ _ _ HB') as HP. unfold sizeof_Page in HP.
  unfold add_pages, get_placement_addr. do 2 (apply wp_bind, wp_gets; cbv beta).
  unfold mmap_addr, mmap_size, sizeof_memory_map_t. change (3 * 24) with 72.
  cbn [k_boot k1 set_mem set_placement set_buddy k0 placement_addr] in *.
  apply wp_bind. eapply wp_access; [lia | lia | reflexivity | cbv beta].
  apply wp_bind. eapply wp_access; [lia | lia | reflexivity | cbv beta].
  replace (memory_map (k_boot k) + 72 + 8) with (memory_map (k_boot k) + 80) by lia.
  cbn [k_mem set_mem k1]. rewrite Hmap. unfold PHYS_LIMIT, KERNEL_VIRTUAL_BASE in HN.
  rewrite (u32_small (4096 * N)) by (Z.div_mod_to_equations; lia).
  replace (4096 * N / 0x1000) with N by div_lia.
  assert (HC : covering N (t + P) (t + P) (reserved N)).
  { apply covering_reserved; [Z.div_mod_to_equations; lia | exact (bs_even _ _ _ _ _ HB')]. }
  assert (H0 : 0 <= t + P <= t + P) by (Z.div_mod_to_equations; lia).
  eapply wp_mono.
  { apply (add_loop_refines _ N NG HG HN _ (t + P)); [exact HR | exact HC | done | lia | lia | lia]. }
  intros [] k2 (HR2 & [A1 A2] & m2 & fc & uc & U2 & Hk2).
  pose proof (cover_covering N (t + P) (Z.to_nat (N + 2)) (t + P) _ HC H0 ltac:(lia) ltac:(lia)) as HC2.
  split.
  2: { exists m2, (k_buddy k2). split; [rewrite Hk2; reflexivity|]. cbn [k_mem set_mem k1] in U2.
       eapply untouched_trans; eapply untouched_mono; [|exact Hu| |exact U2]; cbv beta; [by right|].
       intros c [Hc|Hc]; [left | right]; unfold range in *; [lia|].
       pose proof (bs_slack _ _ _ _ _ HB') as (_ & _ & Hsl). unfold sizeof_Page in *. lia. }
  eexists. split; [exact HR2 | exact (cv_inv _ _ _ _ HC2) | by eapply covering_coalesced
    | exact (cv_unused _ _ _ _ HC2) | exact (cv_pages _ _ _ _ HC2) | exact (cv_total _ _ _ _ HC2) | |].
  - split; [done|]. rewrite A2, (cv_total _ _ _ _ HC2), Z.sub_diag. done.
  - rewrite Hk2. done.
Qed.

Lemma init_buddy_spec `{BuddySymbols} N NG t P k :
  boot_state N NG t P k ->
  wp init_buddy k (fun _ k' => exists s, buddy_ready N NG t P s k').
Proof. intros HB. eapply wp_mono; [by apply init_buddy_run|]. by intros [] k' [Hs _]. Qed.
