(* ===== verification/Pmm.v ===== *)
(** * The physical memory manager: src/mm/pmm.c, src/mm/pmm.h

    What [pmm_alloc] and [pmm_free] promise to the rest of the kernel: an
    interface ([PageAllocator]) in terms of the blocks handed out, discharged
    by the buddy allocator, and the properties of the allocator itself. *)

From Stdlib Require Import ZArith Lia Bool.
From stdpp Require Import base list gmap strings.
From S2P Require Import Prelude Machine StringLib Console Node Bump Buddy BuddyModel BuddyRefine BuddyInit.

(** ** The interface *)

(** A block handed out: first page and order. *)
Abbreviation block := (Z * Z)%type.

Definition block_meets (x y : block) (p : Z) : Prop := in_block x.1 x.2 p /\ in_block y.1 y.2 p.

(** The pages of a list of blocks. *)
Fixpoint pages_of (H : list block) : Z :=
  match H with [] => 0 | x :: H => 2 ^ x.2 + pages_of H end.

(** A run of the allocator changes its own memory and globals only. *)
Definition allocator_frame (F : Z -> Prop) (k k' : kernel) : Prop :=
  exists m' b, k' = set_buddy b (set_mem m' k) /\ untouched F (k_mem k) m'.

(** [pa_state k H]: the allocator's state in [k], with the blocks [H] handed
    out.  Allocation returns a fresh aligned block or panics; any block handed
    out can be given back; its order can be asked for; blocks handed out are in
    the memory below 1 GiB from page [pa_low] on, not at address 0, never overlap
    each other or the allocator's bytes; the state is
    nothing but the allocator's bytes and globals. *)
Class PageAllocator (alloc : Z -> M Z) (free : Z -> M unit) (order_of : Z -> M Z) := {
  pa_state : kernel -> list block -> Prop;
  pa_bytes : Z -> Prop;
  pa_low : Z;
  pa_alloc : forall k H o, pa_state k H -> 0 <= o <= orders -> cursor_ok (k_vga k) ->
    wp (alloc o) k (fun r k' => exists i, r = 4096 * i /\ (2 ^ o | i) /\
      pa_state k' ((i, o) :: H) /\ allocator_frame pa_bytes k k') \/
    stops (alloc o) k (Panic "PMM Out of memory");
  pa_free : forall k H i o, pa_state k H -> (i, o) ∈ H ->
    wp (free (4096 * i)) k (fun _ k' =>
      pa_state k' (filter (fun x => x <> (i, o)) H) /\ allocator_frame pa_bytes k k');
  pa_order : forall k H i o, pa_state k H -> (i, o) ∈ H ->
    wp (order_of (4096 * i)) k (fun r k' => r = o /\ k' = k);
  pa_block : forall k H i o, pa_state k H -> (i, o) ∈ H ->
    0 <= o <= orders /\ 0 < i /\ pa_low <= i /\ i + 2 ^ o <= 2 ^ 18;
  pa_apart : forall k H i o b, pa_state k H -> (i, o) ∈ H ->
    range (P2V (4096 * i)) (4096 * 2 ^ o) b -> ~ pa_bytes b;
  pa_disjoint : forall k H x y p, pa_state k H -> x ∈ H -> y ∈ H -> block_meets x y p -> x = y;
  pa_nodup : forall k H, pa_state k H -> NoDup H;
  pa_stable : forall k k' H, pa_state k H -> k_buddy k' = k_buddy k ->
    (forall b, pa_bytes b -> ld8 (k_mem k') b = ld8 (k_mem k) b) -> pa_state k' H;
  pa_used : forall k H, pa_state k H -> used_pages_count (k_buddy k) = u32 (pages_of H) }.

(** The one way in which the page allocator stops. *)
Abbreviation out_of_memory := (fun e : stop => e = Panic "PMM Out of memory").

(** ** Held and free memory *)

Section held.
Context `{BS : BuddySymbols} `{PA : !PageAllocator pmm_alloc pmm_free get_order_addr}.

Definition held (H : list block) (b : Z) : Prop :=
  exists i o, (i, o) ∈ H /\ range (P2V (4096 * i)) (4096 * 2 ^ o) b.

(** What the page allocator may still write or hand out. *)
Definition unheld (H : list block) (b : Z) : Prop :=
  pa_bytes b \/ 4096 * pa_low + KERNEL_VIRTUAL_BASE <= b /\ ~ held H b.

Lemma block_bytes k H i o :
  pa_state k H -> (i, o) ∈ H -> P2V (4096 * i) = 4096 * i + KERNEL_VIRTUAL_BASE /\ 0 <= o.
Proof.
  intros HS Hin. destruct (pa_block _ _ _ _ HS Hin) as (Ho & Hi & _ & Hn). pose proof (pow2_pos o ltac:(lia)).
  split; [|lia]. apply P2V_eq. unfold PHYS_LIMIT, KERNEL_VIRTUAL_BASE. lia.
Qed.

(** A fresh page is no held byte, and held from then on. *)
Lemma fresh_page k H i b :
  pa_state k ((i, 0) :: H) -> range (P2V (4096 * i)) 4096 b -> unheld H b /\ ~ unheld ((i, 0) :: H) b.
Proof.
  intros HS Hb. assert (Hin : (i, 0) ∈ (i, 0) :: H) by left.
  destruct (pa_block _ _ _ _ HS Hin) as (_ & Hi & Hlow & _). destruct (block_bytes _ _ _ _ HS Hin) as [Ev _].
  split.
  - right. split; [rewrite Ev in Hb; unfold range in *; lia|]. intros (j & o & Hj & Hr).
    destruct (block_bytes _ _ j o HS ltac:(by right)) as [Ej Ho]. rewrite Ev in Hb. rewrite Ej in Hr.
    pose proof (pa_nodup _ _ HS) as Hnd. apply NoDup_cons in Hnd as [Hni _]. apply Hni.
    rewrite (pa_disjoint _ _ (i, 0) (j, o) ((b - KERNEL_VIRTUAL_BASE) / 4096) HS Hin ltac:(by right)); [done|].
    unfold block_meets, in_block, range in *. cbn [fst snd]. change (2 ^ 0) with 1. div_lia.
  - intros [Hp|[_ Hn]].
    + apply (pa_apart _ _ _ _ b HS Hin); [|done]. by change (4096 * 2 ^ 0) with 4096.
    + apply Hn. exists i, 0. split; [done|]. by change (4096 * 2 ^ 0) with 4096.
Qed.

Lemma unheld_less H x b : unheld (x :: H) b -> unheld H b.
Proof.
  intros [Hp|[Hl Hn]]; [by left|]. right. split; [done|]. intros (i & o & Hin & Hr). apply Hn.
  exists i, o. split; [by right | done].
Qed.
End held.

(** ** The buddy allocator's state *)

Record pmm_state `{BuddySymbols} (pm N NG T : Z) (k : kernel) (s : bst) : Prop := {
  ps_rep : brep pm NG k s;
  ps_inv : Inv N (-1) s;
  ps_coalesced : coalesced s;
  ps_counted : counted T k s }.

(** Some aligned run of [2 ^ o] pages is free. *)
Definition has_run (s : bst) (o : Z) : Prop :=
  exists a, 0 <= a /\ (2 ^ o | a) /\ free_run s a o.

Lemma alloc_has_run N o s :
  Inv N (-1) s -> coalesced s -> 0 <= o <= orders ->
  has_run s o -> exists x s', alloc o s = Some (x, s').
Proof.
  intros HI Hco Ho (a & Ha & Hd & Hrun).
  destruct (free_run_block N s a o HI Hco Ho Hd Hrun) as (q & j & Hq & Hj & _).
  destruct (alloc o s) as [[x s']|] eqn:E; [eauto|].
  rewrite alloc_none in E by lia. rewrite E in Hj by lia. by apply elem_of_nil in Hj.
Qed.

Lemma alloc_no_run N o s :
  Inv N (-1) s -> 0 <= o <= orders -> ~ has_run s o -> alloc o s = None.
Proof.
  intros HI Ho Hn. destruct (alloc o s) as [[x s']|] eqn:E; [|done]. exfalso. apply Hn.
  destruct (alloc_allocated N o x s s' HI Ho E) as [_ [R1 R2] R3 _ R5 _ _ _ _].
  exists x. split_and!; [done | done |]. intros p Hp. apply R5. by right.
Qed.

Section pmm.
Context `{BuddySymbols} (pm N NG T lo : Z) (HG : geometry pm N NG).
Local Abbreviation pmm_state := (pmm_state pm N NG T).

Lemma pmm_alloc_wp o x s s' k :
  pmm_state k s -> 0 <= o <= orders -> alloc o s = Some (x, s') ->
  wp (pmm_alloc o) k (fun r k' =>
    r = 4096 * x /\ pmm_state k' s' /\ allocated N o x s s' /\ brun pm NG k k').
Proof.
  intros [HR HI Hco HC] Ho Ha. pose proof (alloc_allocated N o x s s' HI Ho Ha) as HA.
  eapply wp_mono; [by apply (buddy_alloc_refines pm N NG HG T o x s s')|].
  intros r k' (-> & HR' & HC' & HB). split_and!; try done.
  split; [done | apply (al_inv _ _ _ _ _ HA) | by apply (al_coalesced _ _ _ _ _ HA) | done].
Qed.

Lemma pmm_free_wp i o s k :
  pmm_state k s -> 0 <= i < N -> used s i o ->
  wp (pmm_free (4096 * i)) k (fun _ k' =>
    pmm_state k' (free i s) /\ freed N i o s (free i s) /\ brun pm NG k k').
Proof.
  intros [HR HI Hco HC] Hi Hu. pose proof (free_freed N i o s HI Hi Hu) as HF.
  eapply wp_mono; [by apply (buddy_free_refines pm N NG HG T i o s)|].
  intros [] k' (HR' & HC' & HB). split_and!; try done.
  split; [done | apply (fr_inv _ _ _ _ _ HF) | by apply (fr_coalesced _ _ _ _ _ HF) | done].
Qed.

Lemma brun_frame k k' : brun pm NG k k' -> allocator_frame (bfp pm NG) k k'.
Proof. intros (m' & fc & uc & Hu & ->). by eexists m', _. Qed.

(** ** The interface discharged *)

(** The blocks handed out are the used blocks of the model, and all the
    memory the allocator manages is from page [lo] on. *)
Definition buddy_owned (k : kernel) (Hd : list block) : Prop :=
  exists s, pmm_state k s /\ NoDup Hd /\ pages_of Hd = T - free_total s /\
    (forall i o, (i, o) ∈ Hd <-> 0 <= i < N /\ used s i o) /\
    (forall p, free_page s p -> lo <= p) /\ (forall x, x ∈ Hd -> lo <= x.1).

Lemma pages_of_perm H1 H2 : H1 ≡ₚ H2 -> pages_of H1 = pages_of H2.
Proof. induction 1; cbn; lia. Qed.

Lemma remove_block_perm (x : block) Hd : NoDup Hd -> x ∈ Hd -> Hd ≡ₚ x :: filter (fun y => y <> x) Hd.
Proof.
  intros Hnd Hx. apply NoDup_Permutation; [done | constructor; [|by apply NoDup_filter] |].
  - rewrite list_elem_of_filter. tauto.
  - intros y. rewrite elem_of_cons, list_elem_of_filter. split; [|by intros [->|[_ ?]]].
    intros Hy. destruct (decide (y = x)); [by left | by right].
Qed.

Lemma owned_alloc k Hd o :
  buddy_owned k Hd -> 0 <= o <= orders -> cursor_ok (k_vga k) ->
  wp (pmm_alloc o) k (fun r k' => exists i, r = 4096 * i /\ (2 ^ o | i) /\
    buddy_owned k' ((i, o) :: Hd) /\ allocator_frame (bfp pm NG) k k') \/
  stops (pmm_alloc o) k (Panic "PMM Out of memory").
Proof.
  intros (s & HS & Hnd & Hsum & Hown & Hlo1 & Hlo2) Ho Hcur. destruct (alloc o s) as [[x s']|] eqn:E.
  - left. eapply wp_mono; [by apply (pmm_alloc_wp o x s s')|].
    intros r k' (-> & HS' & HA & HB). exists x. split_and!; [done | apply (al_aligned _ _ _ _ _ HA) | |
      by apply brun_frame].
    pose proof (pow2_pos o ltac:(lia)).
    destruct (al_range _ _ _ _ _ HA) as [R1 R2]. destruct (al_block _ _ _ _ _ HA) as [U1 U2].
    assert (Hfx : free_page s x) by (apply (al_pages _ _ _ _ _ HA); right; unfold in_block; lia).
    assert (Hnu : forall q, ~ used s x q).
    { intros q [Hf Hq]. assert (Hh : head s x) by (by right).
      eapply (free_page_not_in N (-1) s (ps_inv _ _ _ _ _ _ HS) x x); try done; [lia | by left |].
      destruct (inv_block _ _ _ (ps_inv _ _ _ _ _ _ HS) x ltac:(lia) Hh) as (B1 & _).
      pose proof (pow2_pos _ (proj1 B1)). unfold in_block. lia. }
    exists s'. split_and!; [done | | | | |].
    + constructor; [|done]. rewrite Hown. intros [_ Hu]. by eapply Hnu.
    + cbn [pages_of snd]. rewrite Hsum. pose proof (al_total _ _ _ _ _ HA). lia.
    + intros i q. rewrite elem_of_cons, Hown. destruct (decide (i = x)) as [->|Hne].
      * split; [|].
        -- intros [[= ->]|[_ Hu]]; [|by apply Hnu in Hu]. split; [lia | done].
        -- intros [_ [_ Hq]]. left. congruence.
      * rewrite (al_used _ _ _ _ _ HA i q Hne). split; [intros [[=]|?]; done | by right].
    + intros p Hp. apply Hlo1, (al_pages _ _ _ _ _ HA). by left.
    + intros y [->|Hy]%elem_of_cons; [by apply Hlo1 | by apply Hlo2].
  - right. destruct HS as [HR HI _ _]. by apply (buddy_alloc_oom pm N NG HG o s k).
Qed.

Lemma owned_free k Hd i o :
  buddy_owned k Hd -> (i, o) ∈ Hd ->
  wp (pmm_free (4096 * i)) k (fun _ k' =>
    buddy_owned k' (filter (fun x => x <> (i, o)) Hd) /\ allocator_frame (bfp pm NG) k k').
Proof.
  intros (s & HS & Hnd & Hsum & Hown & Hlo1 & Hlo2) Hin. pose proof (proj1 (Hown i o) Hin) as [Hi Hu].
  eapply wp_mono; [by apply (pmm_free_wp i o s)|]. intros [] k' (HS' & HF & HB).
  split; [|by apply brun_frame]. exists (free i s). split_and!; [done | by apply NoDup_filter | | | |].
  - pose proof (pages_of_perm _ _ (remove_block_perm (i, o) Hd Hnd Hin)) as Hp. cbn in Hp.
    pose proof (fr_total _ _ _ _ _ HF). lia.
  - intros j q. rewrite list_elem_of_filter, Hown, (fr_used _ _ _ _ _ HF).
    destruct Hu as [_ <-]. split.
    + intros [Hne [Hj Hju]]. split_and!; try done; try lia. intros ->.
      apply Hne. f_equal. by destruct Hju.
    + intros [Hj [Hju Hne]]. split; [|done]. congruence.
  - intros p [Hp|Hp]%(fr_pages _ _ _ _ _ HF); [by apply Hlo1|].
    apply Hlo2 in Hin. unfold in_block in Hp. cbn in Hin. lia.
  - intros y [_ Hy]%list_elem_of_filter. by apply Hlo2.
Qed.

Lemma owned_disjoint k Hd x y p :
  buddy_owned k Hd -> x ∈ Hd -> y ∈ Hd -> block_meets x y p -> x = y.
Proof.
  destruct x as [i o], y as [j q]. intros (s & HS & _ & _ & Hown & _).
  intros (Hi & Hf & <-)%Hown (Hj & Hf' & <-)%Hown [Hx Hy].
  destruct (decide (i = j)) as [->|Hne]; [done | exfalso].
  eapply (blocks_disjoint N (-1) s (ps_inv _ _ _ _ _ _ HS) i j p); try done; by right.
Qed.

Lemma owned_order k Hd i o :
  buddy_owned k Hd -> (i, o) ∈ Hd -> wp (get_order_addr (4096 * i)) k (fun r k' => r = o /\ k' = k).
Proof.
  intros (s & HS & _ & _ & Hown & _) (Hi & _ & Hu)%Hown. pose proof (g_n _ _ _ HG).
  pose proof (ps_rep _ _ _ _ _ _ HS) as HR.
  unfold get_order_addr. apply wp_bind. eapply wp_get_page_map; [exact HR|].
  assert (real_page_index (4096 * i) = i) as ->.
  { unfold real_page_index, BASE_SHIFT. rewrite Z.shiftr_div_pow2 by lia. change (2 ^ 12) with 4096. div_lia. }
  eapply wp_load_order; [exact HG | exact HR | lia | done].
Qed.

(** Sizes and bounds of what is handed out. *)
Lemma owned_block k Hd i o :
  buddy_owned k Hd -> (i, o) ∈ Hd ->
  0 <= o <= orders /\ lo <= i /\ i + 2 ^ o <= N /\ (2 ^ o | i).
Proof.
  intros (s & HS & _ & _ & Hown & _ & Hlo) Hin. specialize (Hlo _ Hin).
  apply Hown in Hin as (Hi & Hf & <-).
  destruct (inv_block _ _ _ (ps_inv _ _ _ _ _ _ HS) i Hi ltac:(by right)) as (B1 & B2 & B3 & B4 & _).
  done.
Qed.

#[export] Instance buddy_page_allocator (Hlo : 0 < lo) (HN : N <= 2 ^ 18)
    (Hfp : forall b, bfp pm NG b ->
       b < KERNEL_VIRTUAL_BASE + 4096 * lo \/ KERNEL_VIRTUAL_BASE + 4096 * N <= b) :
  PageAllocator pmm_alloc pmm_free get_order_addr.
Proof.
  refine {| pa_state := buddy_owned; pa_bytes := bfp pm NG; pa_low := lo |}.
  - apply owned_alloc.
  - apply owned_free.
  - apply owned_order.
  - intros k Hd i o HO Hin. destruct (owned_block k Hd i o HO Hin) as (? & ? & ? & _). lia.
  - intros k Hd i o b HO Hin Hb Hf. destruct (owned_block k Hd i o HO Hin) as (Ho & Hi & Hn & _).
    pose proof (pow2_pos o ltac:(lia)).
    rewrite P2V_eq in Hb by (unfold PHYS_LIMIT, KERNEL_VIRTUAL_BASE; lia).
    specialize (Hfp b Hf). unfold range, KERNEL_VIRTUAL_BASE in *. lia.
  - apply owned_disjoint.
  - by intros k Hd (? & _ & ? & _).
  - intros k k' Hd (s & [R1 R2 R3 R4] & Hrest) Hb Hm. exists s. split; [|done]. split; try done.
    + eapply brep_stable; [exact HG | exact R1 | by eapply Inv_lists_ok | done | done].
    + unfold counted in *. by rewrite Hb.
  - intros k Hd (s & HS & _ & Hsum & _). rewrite Hsum. apply (ps_counted _ _ _ _ _ _ HS).
Defined.

Lemma free_total_nonneg s : 0 <= free_total s.
Proof.
  unfold free_total. change (seqZ 0 11) with [0; 1; 2; 3; 4; 5; 6; 7; 8; 9; 10].
  cbn [fmap list_fmap foldr]. lia.
Qed.

Lemma pages_of_nonneg Hd : (forall i o, (i, o) ∈ Hd -> 0 <= o) -> 0 <= pages_of Hd.
Proof.
  induction Hd as [|[i o] Hd IH]; intros Ho; cbn [pages_of]; [lia|].
  pose proof (pow2_pos o (Ho i o ltac:(left))).
  assert (0 <= pages_of Hd) by (apply IH; intros j q Hj; apply (Ho j q); by right). cbn. lia.
Qed.

Lemma owned_counts k Hd :
  buddy_owned k Hd -> T < 2 ^ 32 ->
  used_pages_count (k_buddy k) = pages_of Hd /\
  free_pages_count (k_buddy k) = T - pages_of Hd.
Proof.
  intros HO HT. assert (Hp : 0 <= pages_of Hd)
    by (apply pages_of_nonneg; intros i o Hin; by apply (owned_block k Hd i o HO Hin)).
  destruct HO as (s & HS & _ & Hsum & _). pose proof (free_total_nonneg s).
  destruct (ps_counted _ _ _ _ _ _ HS) as [-> ->]. rewrite !u32_small by lia. lia.
Qed.
End pmm.

(** ** Histories of requests *)

(** A kernel and the blocks its clients hold.  A client may ask for any order
    and give back any block it holds. *)
Inductive pmm_step `{BuddySymbols} : kernel * list block -> kernel * list block -> Prop :=
| step_alloc o r k k' Hd : 0 <= o <= orders -> pmm_alloc o k = Ok r k' ->
    pmm_step (k, Hd) (k', (r / 4096, o) :: Hd)
| step_free i o k k' Hd : (i, o) ∈ Hd -> pmm_free (4096 * i) k = Ok tt k' ->
    pmm_step (k, Hd) (k', filter (fun x => x <> (i, o)) Hd).

Section histories.
Context `{BuddySymbols} (pm N NG T lo : Z) (HG : geometry pm N NG).
Local Abbreviation owned := (buddy_owned pm N NG T lo).

Lemma pmm_step_owned c c' :
  pmm_step c c' -> owned c.1 c.2 -> cursor_ok (k_vga c.1) -> owned c'.1 c'.2 /\ cursor_ok (k_vga c'.1).
Proof.
  intros Hst. destruct Hst as [o r k k' Hd Ho E|i o k k' Hd Hin E]; cbn [fst snd]; intros HO Hcur.
  - destruct (owned_alloc pm N NG T lo HG k Hd o HO Ho Hcur) as [Hwp|[k1 E1]]; [|congruence].
    apply wp_ok in Hwp as (r1 & k1 & E1 & i & -> & _ & HO' & m' & b & -> & _).
    rewrite E1 in E. injection E as <- <-. rewrite Z.mul_comm, Z.div_mul by lia. done.
  - destruct (wp_ok _ _ _ (owned_free pm N NG T lo HG k Hd i o HO Hin))
      as ([] & k1 & E1 & HO' & m' & b & -> & _).
    rewrite E1 in E. injection E as <-. done.
Qed.

Lemma pmm_reachable_owned c c' :
  rtc pmm_step c c' -> owned c.1 c.2 -> cursor_ok (k_vga c.1) -> owned c'.1 c'.2 /\ cursor_ok (k_vga c'.1).
Proof.
  induction 1 as [|c1 c2 c3 Hst _ IH]; [done|]. intros HO Hcur.
  destruct (pmm_step_owned _ _ Hst HO Hcur). by apply IH.
Qed.
End histories.

Lemma step_alloc_once `{BuddySymbols} o i k k' :
  0 <= o <= orders -> pmm_alloc o k = Ok (4096 * i) k' -> rtc pmm_step (k, []) (k', [(i, o)]).
Proof.
  intros Ho E. apply rtc_once. replace i with (4096 * i / 4096) by (rewrite Z.mul_comm; by apply Z.div_mul).
  by apply (step_alloc o (4096 * i)).
Qed.

Lemma ready_owned `{BuddySymbols} N NG t P s k' :
  buddy_ready N NG t P s k' ->
  buddy_owned (P2V (4096 * t)) N NG (N - (t + P)) (t + P) k' [].
Proof.
  intros [R1 R2 R3 R4 R5 R6 R7 R8]. exists s. split_and!; [by split | constructor | cbn; lia | | |].
  - intros i o. rewrite elem_of_nil. split; [done|]. intros (_ & Hf & _). by apply (R4 i).
  - intros p Hp. apply R5 in Hp. lia.
  - intros x Hx. by apply elem_of_nil in Hx.
Qed.

(** ** The properties *)

(** C3: from a valid allocator state in which some aligned run of [2 ^ order]
    pages is free, [pmm_alloc(order)] returns the address of a block of that
    order that was free, is aligned to its size and lies in memory; it is now
    used and every other used block is untouched; exactly its pages have left
    the free set; the counters follow; and the state is valid again (blocks
    disjoint, lists exact, no two free buddies). *)
Theorem pmm_alloc_correct `{BuddySymbols} pm N NG T order s k :
  geometry pm N NG -> pmm_state pm N NG T k s -> 0 <= order <= orders -> has_run s order ->
  wp (pmm_alloc order) k (fun r k' => exists x s',
    r = 4096 * x /\ pmm_state pm N NG T k' s' /\ allocated N order x s s' /\ brun pm NG k k').
Proof.
  intros HG HS Ho Hrun.
  destruct (alloc_has_run N order s (ps_inv _ _ _ _ _ _ HS) (ps_coalesced _ _ _ _ _ _ HS) Ho Hrun)
    as (x & s' & E).
  eapply wp_mono; [by apply (pmm_alloc_wp pm N NG T HG order x s s')|].
  intros r k' Hr. by exists x, s'.
Qed.

(** C5: [pmm_alloc(order)] panics with its out-of-memory message exactly when no
    aligned run of [2 ^ order] pages is free: it fails when the request cannot
    be met, and never because of fragmentation into buddies. *)
Theorem pmm_alloc_exhausted `{BuddySymbols} pm N NG T order s k :
  geometry pm N NG -> pmm_state pm N NG T k s -> cursor_ok (k_vga k) -> 0 <= order <= orders ->
  (stops (pmm_alloc order) k (Panic "PMM Out of memory") <-> ~ has_run s order).
Proof.
  intros HG HS Hcur Ho. split.
  - intros Hst Hrun.
    destruct (alloc_has_run N order s (ps_inv _ _ _ _ _ _ HS) (ps_coalesced _ _ _ _ _ _ HS) Ho Hrun)
      as (x & s' & E).
    exact (wp_not_stops _ _ _ _ (pmm_alloc_wp pm N NG T HG order x s s' k HS Ho E) Hst).
  - destruct HS as [HR HI Hco HC]. intros Hn. eapply buddy_alloc_oom; [done..|].
    by apply (alloc_no_run N).
Qed.

(** C4: freeing a used block returns; exactly its pages join the free set, it
    alone stops being used, the counters follow, it has been merged with free
    buddies as far as possible, and the state is valid again. *)
Theorem pmm_free_correct `{BuddySymbols} pm N NG T i order s k :
  geometry pm N NG -> pmm_state pm N NG T k s -> 0 <= i < N -> used s i order ->
  wp (pmm_free (4096 * i)) k (fun _ k' => exists s',
    pmm_state pm N NG T k' s' /\ freed N i order s s' /\ brun pm NG k k').
Proof.
  intros HG HS Hi Hu. eapply wp_mono; [by apply (pmm_free_wp pm N NG T HG i order s)|].
  intros [] k' Hr. by exists (free i s).
Qed.

(** C6: on a boot state with an even number of pages, whose page map's own
    pages also hold the descriptors up to the next multiple of 1024 pages (as they do for
    N = 32736, the 128 MiB of a default QEMU machine), [pmm_init] returns with
    the page map built, exactly the pages between the page map and the end of
    memory free, in a valid coalesced state, and the counters equal to that
    number of pages. *)
Theorem pmm_init_correct `{BuddySymbols} N NG t P k :
  boot_state N NG t P k ->
  wp pmm_init k (fun _ k' => exists s,
    pmm_state (P2V (4096 * t)) N NG (N - (t + P)) k' s /\
    (forall p, free_page s p <-> t + P <= p < N) /\ (forall i, flg s i <> P_USED) /\
    free_total s = N - (t + P) /\ page_n (k_buddy k') = N).
Proof.
  intros HB. eapply wp_mono; [exact (init_buddy_spec _ _ _ _ _ HB)|].
  intros [] k' (s & []). exists s. by split_and!; [split | ..].
Qed.

(** Allocating a block and freeing it again restores, for every order, the
    same set of free blocks, and the counters. *)
Theorem pmm_alloc_free_roundtrip `{BuddySymbols} pm N NG T order s k :
  geometry pm N NG -> pmm_state pm N NG T k s -> 0 <= order <= orders -> has_run s order ->
  wp (r ← pmm_alloc order; pmm_free r) k (fun _ k' => exists s',
    pmm_state pm N NG T k' s' /\ free_total s' = free_total s /\
    forall q, 0 <= q <= orders -> fl s' q ≡ₚ fl s q).
Proof.
  intros HG HS Ho Hrun.
  destruct (alloc_has_run N order s (ps_inv _ _ _ _ _ _ HS) (ps_coalesced _ _ _ _ _ _ HS) Ho Hrun)
    as (x & s1 & E).
  apply wp_bind. eapply wp_mono; [by apply (pmm_alloc_wp pm N NG T HG order x s s1)|].
  intros r k1 (-> & HS1 & HA & _). destruct (al_range _ _ _ _ _ HA) as [R1 R2].
  pose proof (pow2_pos order ltac:(lia)).
  eapply wp_mono; [apply (pmm_free_wp pm N NG T HG x order s1); [done | lia | apply (al_block _ _ _ _ _ HA)]|].
  intros [] k2 (HS2 & HF & _). exists (free x s1). split_and!; [done | |].
  - rewrite (fr_total _ _ _ _ _ HF), (al_total _ _ _ _ _ HA). done.
  - intros q Hq. apply (lists_determined N); try done; try apply HS2; try apply HS.
    intros p. by rewrite (fr_pages _ _ _ _ _ HF), (al_pages _ _ _ _ _ HA).
Qed.

(** C7: after [pmm_init] on such a boot state, along any history of
    allocations and frees, the blocks held are aligned, inside the managed memory and pairwise disjoint;
    [used_pages_count] is their total size and [free_pages_count] the rest; and
    every block held can be given back. *)
Theorem pmm_histories `{BuddySymbols} N NG t P k k0 k' Hd :
  boot_state N NG t P k -> pmm_init k = Ok tt k0 -> cursor_ok (k_vga k0) ->
  rtc pmm_step (k0, []) (k', Hd) ->
  (forall i o, (i, o) ∈ Hd -> 0 <= o <= orders /\ t + P <= i /\ i + 2 ^ o <= N /\ (2 ^ o | i)) /\
  (forall x y p, x ∈ Hd -> y ∈ Hd -> block_meets x y p -> x = y) /\
  used_pages_count (k_buddy k') = pages_of Hd /\
  free_pages_count (k_buddy k') = N - (t + P) - pages_of Hd /\
  (forall i o, (i, o) ∈ Hd -> exists k2, pmm_free (4096 * i) k' = Ok tt k2).
Proof.
  intros HB E Hcur Hst. pose proof (boot_geometry _ _ _ _ _ HB) as HG.
  destruct (wp_ok _ _ _ (init_buddy_spec _ _ _ _ _ HB)) as ([] & k1 & E1 & s & HR).
  unfold pmm_init in E. rewrite E1 in E. injection E as ->.
  destruct (pmm_reachable_owned _ _ _ _ _ HG _ _ Hst (ready_owned _ _ _ _ _ _ HR) Hcur) as [HO _].
  cbn [fst snd] in HO. split_and!.
  - intros i o Hin. by eapply owned_block.
  - intros x y p. by eapply owned_disjoint.
  - eapply owned_counts; [exact HO|]. pose proof (bs_limit _ _ _ _ _ HB).
    pose proof (bs_room _ _ _ _ _ HB). pose proof (bs_pages _ _ _ _ _ HB).
    unfold PHYS_LIMIT, KERNEL_VIRTUAL_BASE, sizeof_Page in *. Z.div_mod_to_equations. lia.
  - eapply owned_counts; [exact HO|]. pose proof (bs_limit _ _ _ _ _ HB).
    pose proof (bs_room _ _ _ _ _ HB). pose proof (bs_pages _ _ _ _ _ HB).
    unfold PHYS_LIMIT, KERNEL_VIRTUAL_BASE, sizeof_Page in *. Z.div_mod_to_equations. lia.
  - intros i o Hin. destruct (wp_ok _ _ _ (owned_free _ _ _ _ _ HG _ _ _ _ HO Hin)) as ([] & k2 & E2 & _).
    eauto.
Qed.
