(* ===== verification/BuddyOdd.v ===== *)
(** * The page after the last: src/mm/buddy/buddy.c:110 on a memory with an odd
    number of pages

    [buddy_free_pages] reads the descriptor of the buddy without asking whether
    that page exists.  The buddy of the last page of a memory with an odd number
    of pages is the page after the last; where the page map does not end on a
    page boundary its descriptor is a zeroed word, which reads as a free page
    of order 0. *)

From Stdlib Require Import ZArith Lia Bool.
From stdpp Require Import base list gmap strings.
From S2P Require Import Prelude Machine StringLib Console Node Bump Buddy BuddyModel BuddyRefine.

(** [N] pages, the last of them in use as a block of its own, the descriptor
    after it zeroed, and the pair next to it not one free block. *)
Record last_page_odd `{BuddySymbols} (pm N : Z) (k : kernel) : Prop := {
  lo_map : page_map (k_buddy k) = pm;
  lo_n : page_n (k_buddy k) = N;
  lo_odd : exists h, 1 <= h /\ N = 2 * h + 1;
  lo_window : KERNEL_VIRTUAL_BASE <= pm /\ pm + sizeof_Page * (N + 2) <= 2 ^ 32 /\ 4096 * N < 2 ^ 32;
  lo_area : KERNEL_VIRTUAL_BASE <= free_area /\ free_area + 48 <= 2 ^ 32 /\
    apart free_area 48 pm (sizeof_Page * (N + 2));
  lo_last : ld8 (k_mem k) (page_order (page_at pm (N - 1))) = 0;
  lo_after : ld32 (k_mem k) (node_next (page_at pm N)) = NULL /\ ld32 (k_mem k) (node_prev (page_at pm N)) = NULL /\
    ld8 (k_mem k) (page_order (page_at pm N)) = 0 /\ ld8 (k_mem k) (page_flags (page_at pm N)) = P_FREE;
  lo_singles : ld32 (k_mem k) (free_area_at 0) <> page_at pm N;
  lo_pairs : ld32 (k_mem k) (free_area_at 1) = NULL \/
    exists j, 0 <= j < N - 1 /\ ld32 (k_mem k) (free_area_at 1) = page_at pm j;
  lo_pair : ld8 (k_mem k) (page_flags (page_at pm (buddy_of (N - 1) 1))) <> P_FREE \/
    ld8 (k_mem k) (page_order (page_at pm (buddy_of (N - 1) 1))) <> 1 }.

Section odd.
Context `{BS : BuddySymbols} (pm N : Z) (k : kernel) (HL : last_page_odd pm N k).

Lemma odd_buddies : buddy_of (N - 1) 0 = N /\
  (buddy_of (N - 1) 1 = N + 1 \/ buddy_of (N - 1) 1 = N - 3).
Proof.
  destruct (lo_odd _ _ _ HL) as (h & Hh & ->). split.
  - rewrite buddy_of_low; [lia | lia |]. exists h. lia.
  - destruct (buddy_of_cases (2 * h + 1 - 1) 1) as [[_ ->]|(_ & -> & _)]; [lia | lia | exists h; lia | lia | lia].
Qed.

Lemma odd_heads : free_area_at 0 = free_area /\ free_area_at 1 = free_area + 4.
Proof.
  destruct (lo_area _ _ _ HL) as (A1 & A2 & _). unfold free_area_at, KERNEL_VIRTUAL_BASE in *.
  rewrite !u32_small by lia. lia.
Qed.

Lemma buddy_index_wp i o k1 (Q : Z -> kernel -> Prop) :
  KERNEL_VIRTUAL_BASE <= page_order (page_at pm i) < 2 ^ 32 ->
  ld8 (k_mem k1) (page_order (page_at pm i)) = o -> 0 <= o -> Q (buddy_of i o) k1 ->
  wp (buddy_index pm i) k1 Q.
Proof.
  intros Ha Eo Ho HQ. unfold buddy_index. wp_steps. unfold buddy_of in HQ. by rewrite Z.shiftl_1_l.
Qed.

(** The last page merges with the page after it, and no further. *)
Lemma merge_last_page k1 :
  k_mem k1 = k_mem k ->
  wp (merge_loop 12 pm (N - 1) 0 (page_at pm (N - 1))) k1 (fun r k2 =>
    r = (page_at pm (N - 1), 1) /\ k_buddy k2 = k_buddy k1 /\
    agree (k_mem k) (k_mem k2) free_area 48).
Proof.
  intros E1. destruct odd_buddies as [B0 B1]. destruct odd_heads as [F0 F1].
  destruct HL as [Em En (h & Hh & EN) (W1 & W2 & W3) (A1 & A2 & A3) L0 (L5 & L6 & L7 & L8) L2 L3 L4].
  unfold apart, node_next, node_prev, page_at, page_order, page_flags, sizeof_Page in *.
  pose proof (eq_refl : KERNEL_VIRTUAL_BASE = 0xC0000000) as HK. rewrite <- E1 in *. clear E1.
  remember 11%nat as f eqn:Ef. cbn [merge_loop]. change (0 <? MAX_BUDDY_ORDER) with true. cbv iota.
  apply wp_bind. eapply buddy_index_wp; unfold page_at, page_order, sizeof_Page; [lia | exact L0 | lia |]. rewrite B0.
  unfold page_order, page_flags, page_at, sizeof_Page. unfold remove_node, node_next, node_prev. rewrite F0, F1 in *.
  rewrite (proj2 (Z.ltb_ge N (N - 1))) by lia. wp_steps. cbn [andb].
  wp_steps. rewrite (proj2 (Z.eqb_neq _ _)) by done. wp_steps. cbn [when]. wp_steps.
  match goal with |- wp _ ?k2 _ => set (k2' := k2) end.
  assert (Hag : untouched (range (pm + 12 * (N - 1) + 8) 14) (k_mem k1) (k_mem k2')).
  { intros b Hb. unfold range in Hb. subst k2'. cbn [k_mem set_mem]. by mem_simp. }
  rewrite Ef. cbn [merge_loop]. change (0 + 1 <? MAX_BUDDY_ORDER) with true. cbv iota.
  apply wp_bind. eapply (buddy_index_wp _ 1); unfold page_at, page_order, sizeof_Page; [lia | | lia |].
  { subst k2'. cbn [k_mem set_mem]. mem_simp. done. }
  unfold page_flags. apply wp_bind. wp_mem. apply wp_bind. wp_mem.
  rewrite !Hag by (unfold range; lia).
  replace ((ld8 (k_mem k1) (pm + 12 * buddy_of (N - 1) 1 + 9) =? P_FREE) && _) with false.
  2: { symmetry. apply andb_false_iff. rewrite !Z.eqb_neq. exact L4. }
  apply wp_ret. split_and!; [done | done |]. intros b Hb. apply Hag. unfold range in *. lia.
Qed.

(** Freeing the last page puts it on the list of free pairs. *)
Lemma free_last_page :
  wp (pmm_free (4096 * (N - 1))) k (fun _ k' =>
    page_map (k_buddy k') = pm /\ page_n (k_buddy k') = N /\
    ld32 (k_mem k') (free_area_at 1) = page_at pm (N - 1) /\
    ld32 (k_mem k') (node_next (page_at pm (N - 1))) = ld32 (k_mem k) (free_area_at 1)).
Proof.
  pose proof (Z.shiftr_div_pow2 (4096 * (N - 1)) 12 ltac:(lia)) as Ei. change (2 ^ 12) with 4096 in Ei.
  rewrite (Z.mul_comm 4096), Z.div_mul in Ei by lia.
  unfold pmm_free, buddy_free_pages, real_page_index, BASE_SHIFT, get_page_map. rewrite (Z.mul_comm 4096), Ei.
  pose proof (lo_odd _ _ _ HL) as (h & Hh & EN). pose proof (lo_window _ _ _ HL) as (W1 & W2 & W3).
  pose proof (lo_area _ _ _ HL) as (A1 & A2 & A3). pose proof (lo_last _ _ _ HL) as L0.
  pose proof (lo_pairs _ _ _ HL) as L3. destruct odd_heads as [_ F1].
  pose proof (eq_refl : KERNEL_VIRTUAL_BASE = 0xC0000000) as HK.
  apply wp_bind, wp_gets. rewrite (lo_map _ _ _ HL).
  apply wp_bind. wp_mem; [unfold page_order, page_at, sizeof_Page in *; lia.. |]. rewrite L0.
  unfold set_counts. do 3 (apply wp_bind, wp_gets || apply wp_bind, wp_modify; cbv beta).
  apply wp_bind. eapply wp_mono; [by apply merge_last_page|]. intros r k2 (-> & E2 & Hag).
  assert (Eh : ld32 (k_mem k2) (free_area + 4) = ld32 (k_mem k) (free_area + 4)).
  { apply ld32_agree. eapply agree_sub; [exact Hag | lia..]. }
  rewrite F1 in *. unfold push_node, node_next, node_prev, apart, page_at, page_order, page_flags, sizeof_Page in *.
  wp_steps.
  assert (Hp : page_map (k_buddy k2) = pm /\ page_n (k_buddy k2) = N).
  { rewrite E2. cbn [k_buddy set_buddy page_map page_n]. by rewrite (lo_map _ _ _ HL), (lo_n _ _ _ HL). }
  pose proof (ld32_range (k_mem k) (free_area + 4)) as Hr.
  destruct L3 as [L3|(j & Hj & L3)]; rewrite L3 in *.
  - rewrite Z.eqb_refl. cbn [negb when]. apply wp_ret. wp_mem. cbn [k_mem k_buddy set_mem].
    split_and!; [apply Hp | apply Hp | by mem_simp | by mem_simp].
  - rewrite (proj2 (Z.eqb_neq _ _)) by (unfold NULL; lia). cbn [negb when].
    apply wp_bind. wp_mem. cbn [k_mem set_mem]. mem_simp. rewrite Eh.
    wp_mem. wp_mem. cbn [k_mem k_buddy set_mem].
    split_and!; [apply Hp | apply Hp | by mem_simp | by mem_simp].
Qed.
End odd.

(** A pair on the list is handed out. *)
Lemma alloc_pair `{BS : BuddySymbols} pm i k :
  page_map (k_buddy k) = pm -> KERNEL_VIRTUAL_BASE <= pm -> 0 <= i -> 4096 * i < 2 ^ 32 ->
  page_at pm i + sizeof_Page <= 2 ^ 32 -> KERNEL_VIRTUAL_BASE <= free_area_at 1 <= 2 ^ 32 - 4 ->
  ld32 (k_mem k) (free_area_at 1) = page_at pm i ->
  (ld32 (k_mem k) (node_next (page_at pm i)) = NULL \/
   exists j, 0 <= j < i /\ ld32 (k_mem k) (node_next (page_at pm i)) = page_at pm j) ->
  wp (pmm_alloc 1) k (fun r k' => r = 4096 * i /\ page_n (k_buddy k') = page_n (k_buddy k)).
Proof.
  intros Em Hpm Hi Hn Hw Hf Eh Hnx. pose proof (eq_refl : KERNEL_VIRTUAL_BASE = 0xC0000000) as HK.
  unfold pmm_alloc, buddy_alloc_pages, set_counts, get_page_map. apply wp_bind.
  remember 11%nat as f eqn:Ef. cbn [find_order split_loop]. clear Ef.
  apply wp_bind. wp_mem. rewrite Eh.
  unfold node_next, page_at, page_order, page_flags, sizeof_Page in *.
  rewrite (proj2 (Z.eqb_neq _ NULL)) by (unfold NULL; lia). cbn [andb]. apply wp_ret.
  apply wp_bind. change (1 >? MAX_BUDDY_ORDER) with false. cbn [when]. apply wp_ret.
  apply wp_bind. unfold pop_node, node_next, node_prev.
  rewrite (proj2 (Z.eqb_neq (free_area_at 1) NULL)) by (unfold NULL; lia).
  wp_steps.
  eapply (wp_mono _ _ (fun _ k' => exists m, k' = set_mem m k)).
  { apply wp_when; intros Hb; [|by eexists]. apply wp_bind. wp_mem. cbn [k_mem set_mem]. mem_simp.
    rewrite negb_true_iff, Z.eqb_neq in Hb. pose proof (ld32_range (k_mem k) (pm + 12 * i)).
    rewrite u32_small in Hb by done. destruct Hnx as [Hnx|(j & Hj & Hnx)]; [done|]. rewrite Hnx in *.
    rewrite u32_small by lia. wp_mem. by eexists. }
  intros _ k1 (m & ->). apply wp_ret. change (1 >? 1) with false. cbv iota. wp_steps.
  cbn [k_buddy set_buddy set_mem page_map page_n]. rewrite Em. split; [|done].
  replace (page_map_index pm (pm + 12 * i)) with i.
  - apply u32_small. lia.
  - unfold page_map_index, sizeof_Page. rewrite Z.add_simpl_l, Z.mul_comm. by rewrite Z.div_mul.
Qed.

(** C39: on any memory with an odd number of pages whose last page is in use as a block of
    its own, whose page map has a zeroed descriptor after the last, and where the pair
    next to the last page is not one free block: freeing the last page
    and asking for two pages returns the last page, a block that reaches one
    page past the end of memory. *)
Theorem odd_memory_phantom_buddy `{BuddySymbols} pm N k :
  last_page_odd pm N k ->
  wp (pmm_free (4096 * (N - 1));; pmm_alloc 1) k (fun r k' =>
    r = 4096 * (N - 1) /\ page_n (k_buddy k') = N /\ 4096 * page_n (k_buddy k') < r + 2 * 4096).
Proof.
  intros HL. apply wp_bind. eapply wp_mono; [by apply free_last_page|].
  intros [] k1 (E1 & E2 & E3 & E4). destruct (odd_heads _ _ _ HL) as [_ F1].
  destruct (lo_odd _ _ _ HL) as (h & Hh & EN). destruct (lo_window _ _ _ HL) as (W1 & W2 & W3).
  destruct (lo_area _ _ _ HL) as (A1 & A2 & _). pose proof (lo_pairs _ _ _ HL) as L3. rewrite <- E4 in L3.
  eapply wp_mono; [apply (alloc_pair pm (N - 1)); try done; rewrite ?F1; unfold page_at, sizeof_Page in *; lia|].
  intros r k2 [-> E]. rewrite E, E2. lia.
Qed.
