(* ===== verification/PmmSample.v ===== *)
(** * A concrete machine for the page allocator

    4 MiB of memory, the kernel's first free page at 0x1000: the hypotheses of
    the properties of [Pmm] hold there.  The last section runs the allocator on
    a memory of an odd number of pages. *)

From Stdlib Require Import ZArith Lia Bool.
From stdpp Require Import base list gmap strings.
From S2P Require Import Prelude Machine StringLib Console Node Bump Buddy BuddyModel BuddyRefine BuddyInit Pmm BuddyOdd.

#[local] Instance sample_symbols : BuddySymbols := {| free_area := 0xC0500000 |}.

(** A machine whose memory map has [size] bytes from 0x100000 as entry 3. *)
Definition machine (addr size : Z) : kernel :=
  MkKernel (st64 (st64 ∅ 0xC0600048 addr) 0xC0600050 size) [] (fun _ _ => 0)
    cpu_initial vga_initial 0x1000 (MkBuddy 0 0 0 0) (MkHeap 0 0 0 0)
    (MkSched 0 0 0 0 1 0 ∅) (MkDev 0xFFFF None ∅ 1) (MkBoot 0xC0600000 0).

Definition boot_machine : kernel := machine 0x100000 0x300000.

Lemma boot_machine_state : boot_state 1024 1024 1 3 boot_machine.
Proof.
  assert (Hpm : P2V (4096 * 1) = 0xC0001000) by reflexivity.
  split; rewrite ?Hpm; unfold apart, sizeof_Page, PHYS_LIMIT, KERNEL_VIRTUAL_BASE;
    cbn [memory_map k_boot boot_machine machine free_area sample_symbols]; try lia.
  - vm_compute. reflexivity.
  - by exists 512.
  - reflexivity.
  - reflexivity.
  - split_and!; [lia | by exists 1 | lia].
  - intros o Ho. unfold orders, MAX_BUDDY_ORDER in Ho.
    assert (o = 0 \/ o = 1 \/ o = 2 \/ o = 3 \/ o = 4 \/ o = 5 \/ o = 6 \/ o = 7 \/ o = 8 \/ o = 9
            \/ o = 10) as Hos by lia.
    destruct_or! Hos; subst o; vm_compute; reflexivity.
Qed.

(** The machine after [pmm_init]: pages 4 to 1023 are free. *)
Definition ready_machine : kernel :=
  match pmm_init boot_machine with Ok _ k => k | Stop _ k => k end.

Lemma sample_geometry : geometry 0xC0001000 1024 1024.
Proof. exact (boot_geometry _ _ _ _ _ boot_machine_state). Qed.

Lemma ready_machine_run : exists s, pmm_init boot_machine = Ok tt ready_machine /\
  buddy_ready 1024 1024 1 3 s ready_machine.
Proof.
  destruct (wp_ok _ _ _ (init_buddy_spec _ _ _ _ _ boot_machine_state)) as ([] & k & E & s & HR).
  exists s. unfold ready_machine. change pmm_init with init_buddy. rewrite E.
  split; [reflexivity | exact HR].
Qed.

Lemma ready_machine_state : exists s, pmm_state 0xC0001000 1024 1024 1020 ready_machine s /\
  (forall p, free_page s p <-> 4 <= p < 1024).
Proof.
  destruct ready_machine_run as (s & _ & []). exists s. split; [by split | done].
Qed.

Lemma ready_machine_vga : cursor_ok (k_vga ready_machine).
Proof. vm_compute. intuition congruence. Qed.

Lemma pmm_alloc_correct_witness : exists s,
  wp (pmm_alloc 3) ready_machine (fun r k' => exists x s',
    r = 4096 * x /\ pmm_state 0xC0001000 1024 1024 1020 k' s' /\ allocated 1024 3 x s s' /\
    brun 0xC0001000 1024 ready_machine k').
Proof.
  destruct ready_machine_state as (s & HS & Hp). exists s.
  apply (pmm_alloc_correct 0xC0001000 1024 1024 1020 3 s ready_machine); [exact sample_geometry | done | done |].
  exists 8. split_and!; [lia | by exists 1 |]. intros p Hq. apply Hp. unfold in_block in Hq. lia.
Defined.

Lemma pmm_alloc_exhausted_witness : stops (pmm_alloc 10) ready_machine (Panic "PMM Out of memory").
Proof.
  destruct ready_machine_state as (s & HS & Hp).
  apply (pmm_alloc_exhausted 0xC0001000 1024 1024 1020 10 s ready_machine);
    [exact sample_geometry | done | exact ready_machine_vga | done |].
  intros (a & Ha & [q Hq] & Hrun). specialize (Hrun a). rewrite Hp in Hrun.
  unfold in_block in Hrun. change (2 ^ 10) with 1024 in *. lia.
Defined.

Lemma sample_order : 0 <= 3 <= orders.
Proof. unfold orders, MAX_BUDDY_ORDER. lia. Qed.

Lemma ready_machine_alloc : exists k i s,
  pmm_alloc 3 ready_machine = Ok (4096 * i) k /\
  pmm_state 0xC0001000 1024 1024 1020 k s /\ 0 <= i < 1024 /\ used s i 3.
Proof.
  destruct ready_machine_state as (s & HS & Hp).
  destruct (alloc_has_run 1024 3 s (ps_inv _ _ _ _ _ _ HS) (ps_coalesced _ _ _ _ _ _ HS)) as (x & s1 & E); [done| |].
  { exists 8. split_and!; [lia | by exists 1 |]. intros p Hq. apply Hp. unfold in_block in Hq. lia. }
  destruct (wp_ok _ _ _ (pmm_alloc_wp _ _ _ _ sample_geometry 3 x s s1 ready_machine HS ltac:(done) E))
    as (r & k1 & E1 & -> & HS1 & HA & _).
  exists k1, x, s1. destruct (al_range _ _ _ _ _ HA) as [R1 R2].
  split_and!; [exact E1 | exact HS1 | lia | lia | apply (al_block _ _ _ _ _ HA)].
Qed.

Lemma pmm_free_correct_witness : exists k i s,
  pmm_alloc 3 ready_machine = Ok (4096 * i) k /\
  wp (pmm_free (4096 * i)) k (fun _ k' => exists s',
    pmm_state 0xC0001000 1024 1024 1020 k' s' /\ freed 1024 i 3 s s' /\ brun 0xC0001000 1024 k k').
Proof.
  destruct ready_machine_alloc as (k & i & s & E & HS & Hi & Hu). exists k, i, s.
  split; [exact E|]. apply (pmm_free_correct 0xC0001000 1024 1024 1020 i 3 s k); [exact sample_geometry | done..].
Defined.

Lemma pmm_init_correct_witness : wp pmm_init boot_machine (fun _ k' => exists s,
  pmm_state 0xC0001000 1024 1024 1020 k' s /\
  (forall p, free_page s p <-> 4 <= p < 1024) /\ (forall i, flg s i <> P_USED) /\
  free_total s = 1020 /\ page_n (k_buddy k') = 1024).
Proof. exact (pmm_init_correct 1024 1024 1 3 boot_machine boot_machine_state). Defined.

Lemma pmm_alloc_free_roundtrip_witness : exists s,
  wp (r ← pmm_alloc 2; pmm_free r) ready_machine (fun _ k' => exists s',
    pmm_state 0xC0001000 1024 1024 1020 k' s' /\ free_total s' = free_total s /\
    forall q, 0 <= q <= orders -> fl s' q ≡ₚ fl s q).
Proof.
  destruct ready_machine_state as (s & HS & Hp). exists s.
  apply (pmm_alloc_free_roundtrip 0xC0001000 1024 1024 1020 2 s ready_machine);
    [exact sample_geometry | done | done |].
  exists 8. split_and!; [lia | by exists 2 |]. intros p Hq. apply Hp. unfold in_block in Hq. lia.
Defined.

Lemma pmm_histories_witness : exists k' i,
  rtc pmm_step (ready_machine, []) (k', [(i, 3)]) /\
  used_pages_count (k_buddy k') = 8 /\ free_pages_count (k_buddy k') = 1012 /\ 4 <= i /\ i + 8 <= 1024.
Proof.
  destruct ready_machine_run as (s & E0 & HR).
  destruct ready_machine_alloc as (k1 & i & _ & E1 & _).
  pose proof (step_alloc_once 3 i ready_machine k1 sample_order E1) as Hst.
  destruct (pmm_histories 1024 1024 1 3 boot_machine ready_machine k1 [(i, 3)] boot_machine_state E0
    ready_machine_vga Hst) as (B & _ & U & F & _).
  destruct (B i 3 ltac:(left)) as (_ & B1 & B2 & _). exists k1, i.
  cbn [pages_of snd] in U, F. change (2 ^ 3) with 8 in *. split_and!; [exact Hst | lia..].
Defined.

(** ** A memory with an odd number of pages

    The buddy of the last page is past the end of memory.  Its descriptor, in
    the zeroed rest of the page map, reads as a free page of order 0. *)

Definition odd_machine : kernel := machine 0 0x5000.

(** Five pages: the first two are the kernel's and the page map's, the next
    two are a free pair, and the last one has just been allocated. *)
Definition odd_ready : kernel :=
  match (pmm_init;; pmm_alloc 0) odd_machine with Ok _ k => k | Stop _ k => k end.

Lemma odd_ready_run :
  match (pmm_init;; pmm_alloc 0) odd_machine with Ok a _ => a = 4096 * (5 - 1) | Stop _ _ => False end.
Proof. vm_compute. reflexivity. Qed.

Lemma odd_ready_state : last_page_odd 0xC0001000 5 odd_ready.
Proof.
  split.
  - vm_compute. reflexivity.
  - vm_compute. reflexivity.
  - exists 2. lia.
  - unfold sizeof_Page, KERNEL_VIRTUAL_BASE. lia.
  - unfold apart, sizeof_Page, KERNEL_VIRTUAL_BASE. cbn [free_area sample_symbols]. lia.
  - vm_compute. reflexivity.
  - split_and!; vm_compute; reflexivity.
  - vm_compute. congruence.
  - right. exists 2. split; [lia | vm_compute; reflexivity].
  - right. vm_compute. congruence.
Qed.

Lemma odd_memory_phantom_buddy_witness :
  wp (pmm_free (4096 * (5 - 1));; pmm_alloc 1) odd_ready (fun r k' =>
    r = 0x4000 /\ page_n (k_buddy k') = 5 /\ 4096 * page_n (k_buddy k') < r + 2 * 4096).
Proof. exact (odd_memory_phantom_buddy 0xC0001000 5 odd_ready odd_ready_state). Defined.

(** ** A machine with room below the page allocator's memory

    The page map starts at page 8; the pages below it are the kernel's. *)

Definition user_boot : kernel := set_placement 0x8000 boot_machine.

Lemma user_boot_state : boot_state 1024 1024 8 3 user_boot.
Proof.
  pose proof boot_machine_state as [B1 B2 B3 _ B5 _ B7 _ _ B10].
  assert (Hpm : P2V (4096 * 8) = 0xC0008000) by reflexivity.
  split; rewrite ?Hpm; try done; unfold apart, KERNEL_VIRTUAL_BASE;
    cbn [memory_map k_boot user_boot boot_machine machine set_placement free_area sample_symbols]; try lia.
Qed.

Definition user_machine : kernel := match pmm_init user_boot with Ok _ k => k | Stop _ k => k end.

Lemma user_geometry : geometry 0xC0008000 1024 1024.
Proof. exact (boot_geometry _ _ _ _ _ user_boot_state). Qed.

#[local] Instance user_pages : PageAllocator pmm_alloc pmm_free get_order_addr :=
  buddy_page_allocator 0xC0008000 1024 1024 1013 11 user_geometry ltac:(lia) ltac:(lia)
    ltac:(unfold bfp, range, sizeof_Page, KERNEL_VIRTUAL_BASE; cbn [free_area sample_symbols]; lia).

Lemma user_machine_owned : pa_state user_machine [].
Proof.
  destruct (wp_ok _ _ _ (init_buddy_spec _ _ _ _ _ user_boot_state)) as ([] & k & E & s & HR).
  assert (user_machine = k) as -> by (unfold user_machine; change pmm_init with init_buddy; by rewrite E).
  exact (ready_owned _ _ _ _ _ _ HR).
Qed.

(** ** A machine whose pages are all above the text buffer

    4 MiB of memory, the page map at 0x130000. *)

Definition test_boot : kernel := set_placement 0x130000 boot_machine.
Definition test_machine : kernel := match pmm_init test_boot with Ok _ k => k | Stop _ k => k end.

Lemma test_boot_state : boot_state 1024 1024 304 3 test_boot.
Proof.
  pose proof boot_machine_state as [B1 B2 B3 _ B5 _ B7 _ _ B10]. assert (Hpm : P2V (4096 * 304) = 0xC0130000) by reflexivity.
  split; rewrite ?Hpm; try done; unfold apart, KERNEL_VIRTUAL_BASE;
    cbn [memory_map k_boot test_boot boot_machine machine set_placement free_area sample_symbols]; try lia.
Qed.

Lemma test_machine_ready : exists s, buddy_ready 1024 1024 304 3 s test_machine.
Proof.
  destruct (wp_ok _ _ _ (init_buddy_spec _ _ _ _ _ test_boot_state)) as ([] & k & E & s & HR).
  exists s. unfold test_machine. change pmm_init with init_buddy. by rewrite E.
Qed.

Lemma test_machine_vga : cursor_ok (k_vga test_machine).
Proof. vm_compute. intuition congruence. Qed.
