(* ===== verification/Devices.v ===== *)
(** * The interrupt controller, the timer and the random numbers:
    src/drivers/pic.c, src/drivers/pit.c, src/lib/random.c, and the handler table
    of src/interrupts/isr.c

    The devices are seen through the port accesses recorded in [k_io]. *)

From Stdlib Require Import ZArith Lia Bool.
From stdpp Require Import base list gmap.
From S2P Require Import Prelude Machine.

Definition set_pic_mask (v : Z) : M unit := modify (fun k => set_devs
  (MkDev (u16 v) (timer_callback (k_devs k)) (interrupt_handlers (k_devs k)) (rand_next (k_devs k))) k).

(** ** src/drivers/pic.c *)

Definition PIC1_COMMAND : Z := 0x20.
Definition PIC1_DATA : Z := 0x21.
Definition PIC2_COMMAND : Z := 0xA0.
Definition PIC2_DATA : Z := 0xA1.
Definition IRQ_BASE : Z := 0x20.
Definition ICW1 : Z := 0x11.
Definition ICW3_MASTER : Z := 0x04.
Definition ICW3_SLAVE : Z := 0x02.
Definition ICW4 : Z := 0x01.
Definition OCW3_IRR : Z := 0x0A.
Definition OCW3_ISR : Z := 0x0B.

(** [(inb(hi) << 8) | inb(lo)]; C leaves the order of the two reads open, the
    model reads the left operand first. *)
Definition read_pair (hi lo : Z) : M Z :=
  a ← inb hi; b ← inb lo; mret (u16 (Z.lor (Z.shiftl a 8) b)).

Definition init_pic : M unit :=
  outb PIC1_COMMAND ICW1;; outb PIC2_COMMAND ICW1;; io_wait;;
  outb PIC1_DATA IRQ_BASE;; outb PIC2_DATA (IRQ_BASE + 8);; io_wait;;
  outb PIC1_DATA ICW3_MASTER;; outb PIC2_DATA ICW3_SLAVE;; io_wait;;
  outb PIC1_DATA ICW4;; outb PIC2_DATA ICW4;; io_wait;;
  mask ← read_pair PIC2_DATA PIC1_DATA;
  set_pic_mask mask.

Definition pic_read_isr : M Z :=
  outb PIC1_COMMAND OCW3_ISR;; outb PIC2_COMMAND OCW3_ISR;; io_wait;;
  read_pair PIC2_COMMAND PIC1_COMMAND.

Definition pic_read_irr : M Z :=
  outb PIC1_COMMAND OCW3_IRR;; outb PIC2_COMMAND OCW3_IRR;; io_wait;;
  read_pair PIC2_COMMAND PIC1_COMMAND.

(** The two writes at the end of [pic_send_eoi]. *)
Definition eoi_out (n : Z) : M unit :=
  when (8 <=? n) (outb PIC2_COMMAND 0x20);;
  outb PIC1_COMMAND 0x20.

Definition pic_send_eoi (n : Z) : M unit :=
  if (n =? 7) || (n =? 15) then
    isr ← pic_read_isr;
    if Z.land isr (Z.shiftl 1 n) =? 0 then when (8 <=? n) (outb PIC1_COMMAND 0x20)
    else eoi_out n
  else eoi_out n.

(** [(uint8_t)pic_mask >> 8]: the cast binds tighter than the shift. *)
Definition pic_write_mask : M unit :=
  mask ← gets (fun k => pic_mask (k_devs k));
  outb PIC1_DATA (Z.land (u8 mask) 0xFF);;
  outb PIC2_DATA (Z.shiftr (u8 mask) 8).

Definition pic_get_mask : M Z := gets (fun k => pic_mask (k_devs k)).

Definition pic_mask_irq (irq : Z) : M unit :=
  mask ← gets (fun k => pic_mask (k_devs k));
  set_pic_mask (Z.lor mask (Z.shiftl 1 irq));;
  pic_write_mask.

Definition pic_unmmask_rqp (irq : Z) : M unit :=
  mask ← gets (fun k => pic_mask (k_devs k));
  set_pic_mask (Z.land mask (Z.lnot (Z.shiftl 1 irq)));;
  mask ← gets (fun k => pic_mask (k_devs k));
  when (negb (Z.land mask 0xFF00 =? 0xFF00)) (set_pic_mask (Z.land mask (Z.lnot (Z.shiftl 1 2))));;
  pic_write_mask.

(** ** [register_interrupt_handler] of src/interrupts/isr.c *)

Definition register_interrupt_handler (n : Z) (h : handler) : M unit :=
  modify (fun k => set_devs (MkDev (pic_mask (k_devs k)) (timer_callback (k_devs k))
    (<[u8 n := h]> (interrupt_handlers (k_devs k))) (rand_next (k_devs k))) k).

(** ** src/drivers/pit.c *)

Definition PIT_CRYSTAL : Z := 1193182.

Definition set_timer_callback (c : callback) : M unit := modify (fun k => set_devs
  (MkDev (pic_mask (k_devs k)) (Some c) (interrupt_handlers (k_devs k)) (rand_next (k_devs k))) k).

Definition init_pit (hz : Z) (c : callback) : M Z :=
  if hz =? 0 then stop_with Overrun else
  let divisor := u16 (PIT_CRYSTAL / hz) in
  outb 0x43 0x34;;
  outb 0x40 (Z.land divisor 0xFF);;
  outb 0x40 (Z.shiftr divisor 8);;
  set_timer_callback c;;
  register_interrupt_handler (IRQ_BASE + 0) H_pit_irq_handler;;
  mret divisor.

(** ** src/lib/random.c *)

Definition set_next (v : Z) : M unit := modify (fun k => set_devs
  (MkDev (pic_mask (k_devs k)) (timer_callback (k_devs k)) (interrupt_handlers (k_devs k)) (u32 v)) k).

Definition krand : M Z :=
  n ← gets (fun k => rand_next (k_devs k));
  let n := u32 (n * 1103515245 + 12345) in
  set_next n;;
  mret (u32 (n / 65536) mod 32768).

Definition ksrand (seed : Z) : M unit := set_next seed.

(** ** The port history *)

(** [evs], oldest first, are the accesses between [k] and [k']. *)
Definition did (evs : list io_event) (k k' : kernel) : Prop := k_io k' = rev evs ++ k_io k.

(** The ports that got an end-of-interrupt command, oldest first. *)
Fixpoint eois (io : list io_event) : list Z :=
  match io with
  | [] => []
  | Out p v :: io => eois io ++
      (if ((p =? PIC1_COMMAND) || (p =? PIC2_COMMAND)) && (v =? 0x20) then [p] else [])
  | In _ _ :: io => eois io
  end.

(** The last byte written to a port. *)
Fixpoint last_out (port : Z) (io : list io_event) : option Z :=
  match io with
  | [] => None
  | Out p v :: io => if p =? port then Some v else last_out port io
  | In _ _ :: io => last_out port io
  end.

(** Two bytes read are the high and low half of the result. *)
Lemma read_pair_spec hi lo k (Q : Z -> kernel -> Prop) :
  (forall a b, 0 <= a < 256 -> 0 <= b < 256 ->
    Q (256 * a + b) (set_io (In (u16 lo) b :: In (u16 hi) a :: k_io k) k)) ->
  wp (read_pair hi lo) k Q.
Proof.
  intros HQ. unfold read_pair. apply wp_bind, wp_inb. intros a Ha. apply wp_bind, wp_inb. intros b Hb.
  apply wp_ret. rewrite Z.lor_comm, lor_shiftl_add by (change (2 ^ 8) with 256; lia).
  rewrite u16_small by (change (2 ^ 8) with 256; lia).
  replace (b + a * 2 ^ 8) with (256 * a + b) by lia. by apply HQ.
Qed.

Ltac outs := repeat (first [apply wp_bind, wp_outb | apply wp_outb]; cbv beta).

(** ** The properties *)

(** [init_pic] sends both controllers the complete initialisation sequence
    (ICW1 to ICW4, in order, with a delay after each pair): the master's vectors
    start at 32 and the slave's at 40, the slave sits on line 2; then it caches
    the mask the controllers report, slave byte high. *)
Theorem init_pic_correct k :
  wp init_pic k (fun _ k' => exists hi lo,
    did [Out 0x20 0x11; Out 0xA0 0x11; Out 0x80 0;
         Out 0x21 32; Out 0xA1 40; Out 0x80 0;
         Out 0x21 4; Out 0xA1 2; Out 0x80 0;
         Out 0x21 1; Out 0xA1 1; Out 0x80 0;
         In 0xA1 hi; In 0x21 lo] k k' /\
    pic_mask (k_devs k') = 256 * hi + lo /\ 0 <= hi < 256 /\ 0 <= lo < 256 /\
    k_mem k' = k_mem k).
Proof.
  unfold init_pic, io_wait. outs. apply wp_bind, read_pair_spec. intros hi lo Hhi Hlo.
  apply wp_modify. exists hi, lo. split_and!; try done; try lia.
  cbn. apply u16_small. lia.
Qed.

(** The end-of-interrupt protocol of [pic_send_eoi(n)].  For a genuine IRQ
    the command goes to the slave first when the line is the slave's (8 to 15)
    and then always to the master.  For a spurious IRQ 7 or 15, recognised by the
    in-service bit that [pic_read_isr] reports, the slave gets none and the
    master gets one only for IRQ 15. *)
Theorem pic_send_eoi_correct n isr k k1 :
  0 <= n < 16 -> pic_read_isr k = Ok isr k1 ->
  wp (pic_send_eoi n) k (fun _ k' =>
    eois (k_io k') = eois (k_io k) ++
      (if bool_decide ((n = 7 \/ n = 15) /\ Z.testbit isr n = false)
       then (if 8 <=? n then [PIC1_COMMAND] else [])
       else (if 8 <=? n then [PIC2_COMMAND; PIC1_COMMAND] else [PIC1_COMMAND]))).
Proof.
  intros Hn E.
  assert (Hio : eois (k_io k1) = eois (k_io k)).
  { assert (Hwp : wp pic_read_isr k (fun _ k' => eois (k_io k') = eois (k_io k))).
    { unfold pic_read_isr, io_wait. outs. apply read_pair_spec. intros a b _ _. cbn.
      by rewrite !app_nil_r. }
    apply wp_ok in Hwp as (a & k2 & E2 & Hk2). congruence. }
  assert (Hout : forall k2, eois (k_io k2) = eois (k_io k) ->
    wp (eoi_out n) k2 (fun _ k' => eois (k_io k') = eois (k_io k) ++
      (if 8 <=? n then [PIC2_COMMAND; PIC1_COMMAND] else [PIC1_COMMAND]))).
  { intros k2 H2. unfold eoi_out. apply wp_bind, wp_when; intros ->; outs; cbn; rewrite H2;
      by rewrite <- ?app_assoc. }
  unfold pic_send_eoi. destruct ((n =? 7) || (n =? 15)) eqn:Hs.
  2: { rewrite bool_decide_false by lia. by apply Hout. }
  apply wp_bind. eapply wp_of_eq; [exact E|]. rewrite Z.shiftl_1_l.
  replace (Z.land isr (2 ^ n) =? 0) with (negb (Z.testbit isr n)).
  2: { apply eq_true_iff_eq. rewrite Z.eqb_eq, negb_true_iff. split.
       - intros Hb. apply Z.bits_inj'. intros i Hi. rewrite Z.land_spec, Z.pow2_bits_eqb, Z.bits_0 by lia.
         destruct (Z.eqb_spec n i) as [->|]; [by rewrite Hb | by rewrite andb_false_r].
       - intros Hz. assert (Hb : Z.testbit (Z.land isr (2 ^ n)) n = false) by (by rewrite Hz, Z.bits_0).
         rewrite Z.land_spec, Z.pow2_bits_true, andb_true_r in Hb by lia. done. }
  destruct (Z.testbit isr n) eqn:Hb; cbn [negb].
  - rewrite bool_decide_false by (intros [_ ?]; congruence). by apply Hout.
  - rewrite bool_decide_true by (split; [lia | done]). apply wp_when; intros ->.
    + outs. cbn. by rewrite Hio.
    + by rewrite app_nil_r, Hio.
Qed.

Lemma pic_send_eoi_correct_witness : exists isr k1,
  pic_read_isr empty_kernel = Ok isr k1 /\
  wp (pic_send_eoi 15) empty_kernel (fun _ k' => eois (k_io k') = [PIC1_COMMAND]) /\
  wp (pic_send_eoi 3) empty_kernel (fun _ k' => eois (k_io k') = [PIC1_COMMAND]).
Proof.
  eexists 0, _. split; [reflexivity|].
  split; [eapply wp_mono; [apply (pic_send_eoi_correct 15 0 empty_kernel _ ltac:(lia) eq_refl)|]
         |eapply wp_mono; [apply (pic_send_eoi_correct 3 0 empty_kernel _ ltac:(lia) eq_refl)|]];
    by intros [] k' ->.
Defined.

Lemma u16_testbit x i : 0 <= i < 16 -> Z.testbit (u16 x) i = Z.testbit x i.
Proof. intros Hi. unfold u16. apply Z.mod_pow2_bits_low. lia. Qed.

(** The byte of the slave lines is all ones iff each of its bits is. *)
Lemma slave_closed m :
  (Z.land m 0xFF00 =? 0xFF00) = forallb (Z.testbit m) (seqZ 8 8).
Proof.
  change 0xFF00 with (Z.shiftl (Z.ones 8) 8).
  apply eq_true_iff_eq. rewrite Z.eqb_eq, forallb_forall. split.
  - intros E i Hi%list_elem_of_In%elem_of_seqZ.
    assert (Hb : Z.testbit (Z.land m (Z.shiftl (Z.ones 8) 8)) i = true).
    { rewrite E, Z.shiftl_spec, Z.ones_spec_low by lia. done. }
    rewrite Z.land_spec in Hb. by apply andb_true_iff in Hb as [-> _].
  - intros Hall. apply Z.bits_inj'. intros i Hi. rewrite Z.land_spec.
    destruct (decide (8 <= i < 16)) as [Hin|Hout].
    + rewrite (Hall i); [done|]. apply list_elem_of_In, elem_of_seqZ. lia.
    + rewrite Z.shiftl_spec by lia. destruct (Z.lt_ge_cases i 8).
      * rewrite (Z.testbit_neg_r _ (i - 8)) by lia. apply andb_false_r.
      * rewrite (Z.ones_spec_high 8 (i - 8)) by lia. apply andb_false_r.
Qed.

Lemma pic_write_mask_spec k (Q : unit -> kernel -> Prop) :
  (forall io, last_out PIC1_DATA io = Some (u8 (pic_mask (k_devs k))) ->
     last_out PIC2_DATA io = Some 0 -> Q tt (set_io io k)) ->
  wp pic_write_mask k Q.
Proof.
  intros HQ. unfold pic_write_mask. apply wp_bind, wp_gets. outs. cbn [k_io set_io].
  pose proof (u8_range (pic_mask (k_devs k))) as Hr. apply HQ.
  - cbn [last_out]. change (u16 PIC2_DATA =? PIC1_DATA) with false.
    change (u16 PIC1_DATA =? PIC1_DATA) with true. cbv iota. f_equal.
    change 255 with (2 ^ 8 - 1). rewrite land_mask by lia. fold (u8 (u8 (pic_mask (k_devs k)))).
    rewrite !(u8_small (u8 _)) by (apply u8_range). done.
  - cbn [last_out]. change (u16 PIC2_DATA =? PIC2_DATA) with true. cbv iota. f_equal.
    rewrite Z.shiftr_div_pow2 by lia. change (2 ^ 8) with 256. by rewrite (Z.div_small (u8 _)).
Qed.

(** the cached mask: [pic_mask_irq] sets exactly the bit of its line;
    [pic_unmmask_rqp] clears it and, when some slave line (8 to 15) is then open,
    also opens the cascade line 2; both leave the low byte of the cache in the
    master's mask register. *)
Theorem pic_mask_correct irq k :
  0 <= irq < 16 ->
  wp (pic_mask_irq irq) k (fun _ k' =>
    last_out PIC1_DATA (k_io k') = Some (u8 (pic_mask (k_devs k'))) /\
    forall i, 0 <= i < 16 -> Z.testbit (pic_mask (k_devs k')) i =
      (i =? irq) || Z.testbit (pic_mask (k_devs k)) i) /\
  wp (pic_unmmask_rqp irq) k (fun _ k' =>
    last_out PIC1_DATA (k_io k') = Some (u8 (pic_mask (k_devs k'))) /\
    forall i, 0 <= i < 16 -> Z.testbit (pic_mask (k_devs k')) i =
      Z.testbit (pic_mask (k_devs k)) i && negb (i =? irq) &&
      ((negb (i =? 2)) ||
       forallb (fun j => Z.testbit (pic_mask (k_devs k)) j && negb (j =? irq)) (seqZ 8 8))).
Proof.
  intros Hirq. split.
  - unfold pic_mask_irq. apply wp_bind, wp_gets. apply wp_bind, wp_modify. apply pic_write_mask_spec.
    intros io H1 _. split; [exact H1|]. intros i Hi. cbn. rewrite u16_testbit, Z.lor_spec by done.
    rewrite Z.shiftl_1_l, Z.pow2_bits_eqb, orb_comm by lia. by rewrite Z.eqb_sym.
  - set (m := pic_mask (k_devs k)). set (m' := Z.land m (Z.lnot (Z.shiftl 1 irq))).
    assert (Hm' : forall i, 0 <= i < 16 -> Z.testbit (u16 m') i = Z.testbit m i && negb (i =? irq)).
    { intros i Hi. rewrite u16_testbit by done. unfold m'.
      rewrite Z.land_spec, Z.lnot_spec, Z.shiftl_1_l, Z.pow2_bits_eqb by lia. by rewrite Z.eqb_sym. }
    assert (Hsl : (Z.land (u16 m') 0xFF00 =? 0xFF00) =
      forallb (fun j => Z.testbit m j && negb (j =? irq)) (seqZ 8 8)).
    { rewrite slave_closed. change (seqZ 8 8) with [8; 9; 10; 11; 12; 13; 14; 15].
      cbn [forallb]. by rewrite !Hm' by lia. }
    unfold pic_unmmask_rqp. apply wp_bind, wp_gets. apply wp_bind, wp_modify. apply wp_bind, wp_gets.
    cbn [pic_mask k_devs set_devs]. fold m m'. rewrite Hsl.
    apply wp_bind. apply wp_when; intros Hb.
    + apply wp_modify. apply pic_write_mask_spec. intros io H1 _. split; [exact H1|].
      intros i Hi. cbn [pic_mask k_devs set_devs set_io].
      rewrite u16_testbit, Z.land_spec, Z.lnot_spec, Hm', Z.shiftl_1_l, Z.pow2_bits_eqb by lia.
      apply negb_true_iff in Hb. rewrite Hb, orb_false_r. by rewrite (Z.eqb_sym i 2).
    + apply pic_write_mask_spec. intros io H1 _. split; [exact H1|].
      intros i Hi. cbn [pic_mask k_devs set_devs set_io]. rewrite Hm' by done.
      apply negb_false_iff in Hb. by rewrite Hb, orb_true_r, andb_true_r.
Qed.

Lemma pic_mask_correct_witness :
  wp (pic_unmmask_rqp 12) empty_kernel (fun _ k' =>
    Z.testbit (pic_mask (k_devs k')) 12 = false /\ Z.testbit (pic_mask (k_devs k')) 2 = false /\
    Z.testbit (pic_mask (k_devs k')) 1 = true).
Proof.
  destruct (pic_mask_correct 12 empty_kernel ltac:(lia)) as [_ H].
  eapply wp_mono; [exact H|]. intros [] k' [_ Hb]. rewrite !Hb by lia. done.
Defined.

(** Whatever the cached mask is, the slave's mask register is written with
    zero: the cast to a byte is applied before the shift, so a slave line can
    never be masked at the controller. *)
Theorem pic_slave_mask_lost irq k :
  wp (pic_mask_irq irq) k (fun _ k' => last_out PIC2_DATA (k_io k') = Some 0) /\
  wp (pic_unmmask_rqp irq) k (fun _ k' => last_out PIC2_DATA (k_io k') = Some 0).
Proof.
  split.
  - unfold pic_mask_irq. apply wp_bind, wp_gets. apply wp_bind, wp_modify.
    apply pic_write_mask_spec. by intros io _ H2.
  - unfold pic_unmmask_rqp. apply wp_bind, wp_gets. apply wp_bind, wp_modify. apply wp_bind, wp_gets.
    apply wp_bind. apply wp_when; intros _; [apply wp_modify|]; apply pic_write_mask_spec; by intros io _ H2.
Qed.

(** [init_pit(hz)] for every rate the 16-bit counter can divide down to
    (19 Hz and up) programs channel 0 with the quotient of the crystal frequency,
    low byte then high byte, returns it, and installs the timer interrupt on
    vector 32 with the callback. *)
Theorem init_pit_correct hz c k :
  19 <= hz <= PIT_CRYSTAL ->
  wp (init_pit hz c) k (fun r k' => exists lo hi,
    r = PIT_CRYSTAL / hz /\ r = 256 * hi + lo /\ 0 <= lo < 256 /\ 0 <= hi < 256 /\
    did [Out 0x43 0x34; Out 0x40 lo; Out 0x40 hi] k k' /\
    timer_callback (k_devs k') = Some c /\
    interrupt_handlers (k_devs k') = <[32 := H_pit_irq_handler]> (interrupt_handlers (k_devs k)) /\
    pic_mask (k_devs k') = pic_mask (k_devs k)).
Proof.
  intros Hhz. unfold PIT_CRYSTAL in *. set (d := 1193182 / hz).
  assert (Hd : 0 < d < 65536).
  { unfold d. split; [apply Z.div_str_pos; lia | apply Z.div_lt_upper_bound; lia]. }
  unfold init_pit, PIT_CRYSTAL. destruct (Z.eqb_spec hz 0); [lia|]. fold d. rewrite (u16_small d) by lia.
  change 255 with (2 ^ 8 - 1). rewrite land_mask, Z.shiftr_div_pow2 by lia. change (2 ^ 8) with 256.
  assert (0 <= d / 256 < 256) by (split; [apply Z.div_pos | apply Z.div_lt_upper_bound]; lia).
  pose proof (Z.mod_pos_bound d 256 ltac:(lia)). pose proof (Z.div_mod d 256 ltac:(lia)).
  outs. apply wp_bind, wp_modify. apply wp_bind, wp_modify. apply wp_ret.
  exists (d mod 256), (d / 256). split_and!; try done; try lia.
  unfold did. cbn. by rewrite !u8_small by lia.
Qed.

Lemma init_pit_correct_witness :
  wp (init_pit 100 CB_timer) empty_kernel (fun r k' => r = 11931 /\
    interrupt_handlers (k_devs k') !! 32 = Some H_pit_irq_handler).
Proof.
  eapply wp_mono; [apply (init_pit_correct 100 CB_timer empty_kernel); unfold PIT_CRYSTAL; lia|].
  intros r k' (lo & hi & -> & _ & _ & _ & _ & _ & -> & _). split; reflexivity.
Defined.
