(* ===== verification/Random.v ===== *)
(** * The pseudo-random numbers: src/lib/random.c

    The generator runs through all 2^32 states, so a loop that draws until a number
    suits it ends when some number between 0 and 32767 does.  The self-tests have
    such loops. *)

From Stdlib Require Import ZArith Lia Bool.
From stdpp Require Import base list gmap strings.
From S2P Require Import Prelude Machine StringLib Console Node Bump Buddy Devices.

(** ** The generator as a function of its state *)

Definition multiplier : Z := 1103515245.
Definition increment : Z := 12345.
Definition lcg (x : Z) : Z := u32 (x * multiplier + increment).
Definition rand_of (x : Z) : Z := u32 (x / 65536) mod 32768.
Definition with_next (x : Z) (k : kernel) : kernel :=
  set_devs (MkDev (pic_mask (k_devs k)) (timer_callback (k_devs k)) (interrupt_handlers (k_devs k)) x) k.

Lemma krand_spec k (Q : Z -> kernel -> Prop) :
  let x := lcg (rand_next (k_devs k)) in Q (rand_of x) (with_next x k) -> wp krand k Q.
Proof.
  intros x HQ. unfold krand. apply wp_bind, wp_gets, wp_bind. unfold set_next. apply wp_modify, wp_ret. fold increment multiplier.
  fold (lcg (rand_next (k_devs k))). fold x. unfold with_next in HQ. rewrite (u32_small x) by (unfold x, lcg; apply u32_range). exact HQ.
Qed.

Lemma with_next_next x y k : with_next x (with_next y k) = with_next x k.
Proof. done. Qed.

(** ** The full period *)

(** The generator without the wrap-around. *)
Definition affine (x : Z) : Z := x * multiplier + increment.

Lemma iter_lcg j : forall x, 0 <= x < 2 ^ 32 -> Nat.iter j lcg x = u32 (Nat.iter j affine x).
Proof.
  induction j as [|j IH]; intros x Hx; cbn [Nat.iter nat_rect]; [by rewrite u32_small|]. unfold Nat.iter in *. rewrite IH by done. unfold lcg, affine, u32.
  rewrite Z.add_mod, Z.mul_mod, Z.mod_mod, <- Z.mul_mod, <- Z.add_mod by lia. done.
Qed.

(** [2 ^ n] steps are an affine map with a factor of 1 modulo [2 ^ (n + 2)] and an odd multiple
    of [2 ^ n] as its increment. *)
Lemma affine_pow n : exists a c, (forall x, Nat.iter (2 ^ n) affine x = x * (1 + 2 ^ (Z.of_nat n + 2) * a) + 2 ^ Z.of_nat n * (1 + 2 * c)).
Proof.
  induction n as [|n (a & c & IH)].
  - exists 275878811, 6172. intros x. cbn. unfold affine, multiplier, increment. lia.
  - exists (a * (1 + 2 ^ (Z.of_nat n + 1) * a)), (c + 2 ^ Z.of_nat n * a + 2 ^ (Z.of_nat n + 1) * a * c). intros x.
    replace (2 ^ S n)%nat with (2 ^ n + 2 ^ n)%nat by (cbn; lia). rewrite Nat.iter_add, !IH.
    rewrite Nat2Z.inj_succ. unfold Z.succ. rewrite !Z.pow_add_r by lia. change (2 ^ 1) with 2. change (2 ^ 2) with 4. nia.
Qed.

Lemma affine_reaches n : forall x y, exists j, (j < 2 ^ n)%nat /\ (2 ^ Z.of_nat n | Nat.iter j affine x - y).
Proof.
  induction n as [|n IH]; intros x y.
  - exists 0%nat. split; [cbn; lia | apply Z.divide_1_l].
  - destruct (IH x y) as (j & Hj & q & Hq). destruct (Z.Even_or_Odd q) as [[r ->]|[r ->]].
    + exists j. split; [cbn; lia|]. exists r. rewrite Nat2Z.inj_succ, Z.pow_succ_r by lia. lia.
    + destruct (affine_pow n) as (a & c & E). exists (2 ^ n + j)%nat. split; [cbn; lia|]. rewrite Nat.iter_add, E.
      rewrite Nat2Z.inj_succ. unfold Z.succ. set (z := Nat.iter j affine x) in *. rewrite !Z.pow_add_r by lia. change (2 ^ 1) with 2. change (2 ^ 2) with 4.
      exists (r + 1 + c + 2 * a * z). lia.
Qed.

(** Every state is reached from every state. *)
Lemma lcg_reaches x y : 0 <= x < 2 ^ 32 -> 0 <= y < 2 ^ 32 -> exists j, (j < 2 ^ 32)%nat /\ Nat.iter j lcg x = y.
Proof.
  intros Hx Hy. destruct (affine_reaches 32 x y) as (j & Hj & q & Hq). exists j. split; [exact Hj|]. rewrite iter_lcg by done.
  replace (Nat.iter j affine x) with (y + q * 2 ^ 32) by (change (Z.of_nat 32) with 32 in Hq; lia).
  unfold u32. change (2 ^ 32) with 4294967296 in *. rewrite Z.mod_add by lia. by apply Z.mod_small.
Qed.

(** ** Drawing until a number suits *)

(** At most [2 ^ n] draws. *)
Fixpoint draw (n : nat) (suits : Z -> bool) : M (option Z) :=
  match n with
  | O => r ← krand; mret (if suits r then Some r else None)
  | S n => o ← draw n suits; match o with Some r => mret (Some r) | None => draw n suits end
  end.

(** [do r = krand(); while (!suits(r))]; the generator has [2 ^ 32] states. *)
Definition draw_until (suits : Z -> bool) : M Z :=
  o ← draw 32 suits; match o with Some r => mret r | None => stop_with OutOfFuel end.

Lemma draw_spec n suits : forall k,
  let x := rand_next (k_devs k) in
  wp (draw n suits) k (fun o k' =>
    match o with
    | Some r => suits r = true /\ 0 <= r < 32768 /\ exists y, 0 <= y < 2 ^ 32 /\ k' = with_next y k
    | None => k' = with_next (Nat.iter (2 ^ n) lcg x) k /\ forall j, (j < 2 ^ n)%nat -> suits (rand_of (Nat.iter (S j) lcg x)) = false
    end).
Proof.
  induction n as [|n IH]; intros k x; cbn [draw].
  - apply wp_bind, krand_spec. fold x. apply wp_ret. destruct (suits (rand_of (lcg x))) eqn:E.
    + split_and!; [done | apply Z.mod_pos_bound; lia..|]. exists (lcg x). split; [apply u32_range | done].
    + split; [done|]. intros j Hj. by replace j with 0%nat by (cbn in Hj; lia).
  - apply wp_bind. eapply wp_mono; [apply IH|]. fold x. intros [r|] k'; [by intros Hr; apply wp_ret|]. intros (-> & Hno).
    eapply wp_mono; [apply IH|]. cbn [rand_next k_devs set_devs with_next]. intros [r|] k'.
    + intros (H1 & H2 & y & Hy & ->). split_and!; [done | lia..|]. by exists y.
    + intros (-> & Hno'). replace (2 ^ S n)%nat with (2 ^ n + 2 ^ n)%nat by (cbn; lia). split; [by rewrite Nat.iter_add|].
      intros j Hj. destruct (Nat.lt_ge_cases j (2 ^ n)) as [Hlt|Hge]; [by apply Hno|].
      specialize (Hno' (j - 2 ^ n)%nat ltac:(lia)). rewrite <- Nat.iter_add in Hno'. by replace (S (j - 2 ^ n) + 2 ^ n)%nat with (S j) in Hno' by lia.
Qed.

(** The loop ends if a number suits, with one that does. *)
Lemma draw_until_spec suits v k : 0 <= v < 32768 -> suits v = true ->
  wp (draw_until suits) k (fun r k' => suits r = true /\ 0 <= r < 32768 /\ exists y, 0 <= y < 2 ^ 32 /\ k' = with_next y k).
Proof.
  intros Hv Hs. unfold draw_until. apply wp_bind. eapply wp_mono; [apply draw_spec|]. intros [r|] k'; [by intros Hr; apply wp_ret|].
  intros (_ & Hno). exfalso. destruct (lcg_reaches (lcg (rand_next (k_devs k))) (v * 65536)) as (j & Hj & E); [apply u32_range | lia |].
  specialize (Hno j Hj). rewrite Nat.iter_succ_r, E in Hno. unfold rand_of in Hno. rewrite Z.div_mul, u32_small, Z.mod_small in Hno by lia. congruence.
Qed.

(** ** Tables whose slots are drawn *)

Section slots.
Context {A : Type} (d : A) (P : A -> Prop) `{!forall a, Decision (P a)}.

Lemma insert_split (l : list A) n : (n < length l)%nat ->
  exists l1 l2, l = l1 ++ default d (l !! n) :: l2 /\ forall b, <[n := b]> l = l1 ++ b :: l2.
Proof.
  intros Hn. destruct (lookup_lt_is_Some_2 l n Hn) as [c Hc]. rewrite Hc. cbn [default].
  exists (take n l), (drop (S n) l). split; [by rewrite take_drop_middle|]. intros b. by apply insert_take_drop.
Qed.

(** A slot without the property, and one with it. *)
Lemma slot_without (l : list A) : (length (filter P l) < length l)%nat -> exists n, (n < length l)%nat /\ ~ P (default d (l !! n)).
Proof.
  induction l as [|a l IH]; [cbn; lia|]. rewrite filter_cons. case_decide as Hp.
  - cbn [length]. intros Hl. destruct (IH ltac:(lia)) as (n & Hn & E). exists (S n). split; [lia | done].
  - intros _. exists 0%nat. cbn. split; [lia | done].
Qed.

Lemma slot_with (l : list A) : filter P l <> [] -> exists n, (n < length l)%nat /\ P (default d (l !! n)).
Proof.
  intros Hne. destruct (filter P l) as [|x h] eqn:E; [done|]. assert (Hx : x ∈ filter P l) by (rewrite E; left).
  apply list_elem_of_filter in Hx as [Hp (n & Hn)%list_elem_of_lookup_1]. exists n. split; [by eapply lookup_lt_Some | by rewrite Hn].
Qed.
End slots.

(** ** The property *)

(** C38: the generator leaves no number out: whatever its state, calling [krand] again
    and again gives every number from 0 to 32767, each within 2^32 calls, so that a loop
    that draws until a number suits it ends if one of them does. *)
Theorem krand_gives_every_number v k : 0 <= v < 32768 ->
  wp (draw_until (fun r => r =? v)) k (fun r k' => r = v /\ exists y, 0 <= y < 2 ^ 32 /\ k' = with_next y k).
Proof.
  intros Hv. eapply wp_mono; [by apply (draw_until_spec _ v); [|apply Z.eqb_refl]|]. intros r k' (->%Z.eqb_eq & _ & Hk). done.
Qed.

Lemma krand_gives_every_number_witness :
  wp (draw_until (fun r => r =? 12345)) (MkKernel ∅ [] (fun _ _ => 0) cpu_initial (MkVga 0x0F 0 0) 0 (MkBuddy 0 0 0 0) (MkHeap 0 0 0 0)
    (MkSched 0 0 0 0 1 0 ∅) (MkDev 0xFFFF None ∅ 1) (MkBoot 0 0)) (fun r _ => r = 12345).
Proof. eapply wp_mono; [apply (krand_gives_every_number 12345); lia|]. intros r k' [E _]. exact E. Defined.
