(* ===== verification/Descriptors.v ===== *)
(** * Segment and interrupt descriptor tables: src/gdt/gdt.c,
    src/gdt/gdt_flush.asm, src/interrupts/idt.c

    The tables are in memory at linker addresses; loading them sets the
    descriptor-table registers of the CPU.  The theorems decode the tables the
    way the processor does. *)

From Stdlib Require Import ZArith Lia Bool.
From stdpp Require Import base list gmap.
From S2P Require Import Prelude Machine StringLib.

(** Linker addresses of the tables and of the stubs of src/interrupts/isr_stub.asm. *)
Class TableSymbols := {
  gdt : Z; gdtr_var : Z; tss : Z; idt : Z; idt_descriptor : Z; isr_stub_table : Z }.

Definition sizeof_GDT_SEGMENT : Z := 8.
Definition sizeof_TSS_ENTRY : Z := 108.
Definition sizeof_idt_entry : Z := 8.

(** Fields of the TSS used by the kernel. *)
Definition tss_esp0 (t : Z) : Z := t + 4.
Definition tss_ss0 (t : Z) : Z := t + 8.

Section code.
Context `{TableSymbols}.

(** ** src/gdt/gdt.c *)

Definition fill_gdt (idx base limit access flags : Z) : M unit :=
  let seg := gdt + sizeof_GDT_SEGMENT * idx in
  store16 (seg + 2) (u16 base);;
  store8 (seg + 4) (u8 (Z.shiftr base 16));;
  store8 (seg + 7) (u8 (Z.shiftr base 24));;
  store16 seg (u16 limit);;
  store8 (seg + 6) (Z.lor (Z.shiftl (Z.land 0xF flags) 4) (Z.land 0xF (Z.shiftr limit 16)));;
  store8 (seg + 5) access.

(** The processor writes to the descriptors it loads, in the table at [base]: it
    sets bit 0 of the access byte (accessed) when a segment register is loaded with
    the selector [sel], and bit 1 (busy) of a TSS descriptor on [ltr]. *)
Definition mark_descriptor (base sel bit : Z) : M unit :=
  let byte := base + Z.land sel 0xFFF8 + 5 in
  access ← load8 byte;
  store8 byte (Z.lor access bit).

(** [lgdt], the far jump and the selector loads ([ss], which the model does not
    have, is loaded with the same selector). *)
Definition gdt_flush (gdt_ptr : Z) : M unit :=
  size ← load16 gdt_ptr;
  offset ← load32 (gdt_ptr + 2);
  modify (fun k => set_cpu (set_gdtr (offset, size) (k_cpu k)) k);;
  mark_descriptor offset 0x08 1;;
  mark_descriptor offset 0x10 1;;
  modify (fun k => set_cpu (set_segs 0x08 (all_segs 0x10) (k_cpu k)) k).

Definition init_gdt : M unit :=
  fill_gdt 0 0 0 0 0;;
  fill_gdt 1 0 0xFFFFF 0x9A 0xC;;
  fill_gdt 2 0 0xFFFFF 0x92 0xC;;
  fill_gdt 3 0 0xFFFFF 0xFA 0xC;;
  fill_gdt 4 0 0xFFFFF 0xF2 0xC;;
  fill_gdt 5 tss (sizeof_TSS_ENTRY - 1) 0x89 0x0;;
  store32 (gdtr_var + 2) gdt;;
  store16 gdtr_var (sizeof_GDT_SEGMENT * 6 - 1);;
  gdt_flush gdtr_var.

(** The selector goes to [ltr]; the processor's table is the one [init_gdt] loaded. *)
Definition init_tss : M unit :=
  store32 (tss_ss0 tss) (Z.lor (Z.lor (Z.shiftl 2 3) 0) 0);;
  let sel := u16 ((gdt + sizeof_GDT_SEGMENT * 5) - gdt) in
  mark_descriptor gdt sel 2;;
  modify (fun k => set_cpu (set_tr sel (k_cpu k)) k).

(** ** src/interrupts/idt.c *)

Definition set_idt_entry (vector isr attributes : Z) : M unit :=
  let entry := idt + sizeof_idt_entry * u8 vector in
  store16 entry (u16 (Z.land isr 0xFFFF));;
  store16 (entry + 2) 0x08;;
  store8 (entry + 4) 0;;
  store8 (entry + 5) attributes;;
  store16 (entry + 6) (u16 (Z.shiftr isr 16)).

Definition init_idt : M unit :=
  kmemset idt 0 (sizeof_idt_entry * 256);;
  for_up 256 0 (fun i =>
    isr ← load32 (isr_stub_table + 4 * i);
    set_idt_entry i isr 0x8E);;
  store8 (idt + sizeof_idt_entry * 0x80 + 5) 0xEE;;
  store16 idt_descriptor (sizeof_idt_entry * 256 - 1);;
  store32 (idt_descriptor + 2) idt;;
  limit ← load16 idt_descriptor;
  base ← load32 (idt_descriptor + 2);
  modify (fun k => set_cpu (set_idtr (base, limit) (k_cpu k)) k).

(** ** Descriptors as the processor reads them *)

Record segment := MkSegment { s_base : Z; s_limit : Z; s_access : Z; s_flags : Z }.

Definition decode_segment (m : memory) (idx : Z) : segment :=
  let a := gdt + 8 * idx in
  MkSegment (ld16 m (a + 2) + 2 ^ 16 * ld8 m (a + 4) + 2 ^ 24 * ld8 m (a + 7))
    (ld16 m a + 2 ^ 16 * (ld8 m (a + 6) mod 16)) (ld8 m (a + 5)) (ld8 m (a + 6) / 16).

Record gate := MkGate { g_offset : Z; g_selector : Z; g_zero : Z; g_attributes : Z }.

Definition decode_gate (m : memory) (v : Z) : gate :=
  let a := idt + 8 * v in
  MkGate (ld16 m a + 2 ^ 16 * ld16 m (a + 6)) (ld16 m (a + 2)) (ld8 m (a + 4)) (ld8 m (a + 5)).

(** A present 32-bit interrupt gate, and the privilege level that may raise it. *)
Definition interrupt_gate (g : gate) (dpl : Z) : Prop :=
  g_selector g = 8 /\ g_zero g = 0 /\ g_attributes g / 128 = 1 /\
  g_attributes g / 32 mod 4 = dpl /\ g_attributes g mod 16 = 0xE.

Lemma decode_segment_frame m m' idx F :
  untouched F m m' -> (forall b, range (gdt + 8 * idx) 8 b -> ~ F b) ->
  decode_segment m' idx = decode_segment m idx.
Proof.
  intros Hu HF. pose proof (untouched_agree _ _ _ _ _ Hu HF) as Ha. unfold decode_segment.
  rewrite !(ld16_agree m m'), !(ld8_agree m m') by (eapply agree_sub; [exact Ha | lia..]). done.
Qed.

Lemma decode_gate_frame m m' v F :
  untouched F m m' -> (forall b, range (idt + 8 * v) 8 b -> ~ F b) ->
  decode_gate m' v = decode_gate m v.
Proof.
  intros Hu HF. pose proof (untouched_agree _ _ _ _ _ Hu HF) as Ha. unfold decode_gate.
  rewrite !(ld16_agree m m'), !(ld8_agree m m') by (eapply agree_sub; [exact Ha | lia..]). done.
Qed.

Lemma nibbles a b : 0 <= b < 16 -> Z.lor (Z.shiftl (Z.land 0xF a) 4) b = 16 * (a mod 16) + b.
Proof.
  intros Hb. rewrite Z.lor_comm, lor_shiftl_add by (change (2 ^ 4) with 16; lia).
  rewrite (Z.land_comm 15 a). change 15 with (2 ^ 4 - 1). rewrite land_mask by lia. change (2 ^ 4) with 16. lia.
Qed.

Lemma low_nibble a : Z.land 0xF a = a mod 16.
Proof. rewrite Z.land_comm. change 15 with (2 ^ 4 - 1). by rewrite land_mask. Qed.

Lemma fill_gdt_spec idx base limit access flags k (Q : unit -> kernel -> Prop) :
  0 <= idx < 6 -> KERNEL_VIRTUAL_BASE <= gdt -> gdt + 48 <= 2 ^ 32 ->
  0 <= base < 2 ^ 32 -> 0 <= limit < 2 ^ 20 -> 0 <= access < 256 -> 0 <= flags < 16 ->
  (forall m', untouched (range (gdt + 8 * idx) 8) (k_mem k) m' ->
     decode_segment m' idx = MkSegment base limit access flags -> Q tt (set_mem m' k)) ->
  wp (fill_gdt idx base limit access flags) k Q.
Proof.
  intros Hi H1 H2 Hb Hl Ha Hf HQ. unfold fill_gdt, sizeof_GDT_SEGMENT, KERNEL_VIRTUAL_BASE in *.
  rewrite !Z.shiftr_div_pow2, (low_nibble (limit / 2 ^ 16)) by lia.
  assert (Hl16 : 0 <= limit / 2 ^ 16 < 16) by (split; [apply Z.div_pos | apply Z.div_lt_upper_bound]; lia).
  rewrite (Z.mod_small (limit / 2 ^ 16) 16), nibbles, (Z.mod_small flags 16) by lia.
  set (a := gdt + 8 * idx). cbv zeta. wp_steps; try (unfold KERNEL_VIRTUAL_BASE; lia).
  apply HQ.
  - intros b Hr. unfold range in Hr. mem_simp. done.
  - unfold decode_segment. fold a. mem_simp. rewrite !(u8_small access), !(u8_small (16 * flags + _)) by lia.
    f_equal.
    + unfold u8, u16. Z.div_mod_to_equations. lia.
    + unfold u16. Z.div_mod_to_equations. lia.
    + Z.div_mod_to_equations. lia.
Qed.

Lemma mark_descriptor_spec base sel idx bit k (Q : unit -> kernel -> Prop) :
  base = gdt -> Z.land sel 0xFFF8 = 8 * idx -> 0 <= idx < 6 -> KERNEL_VIRTUAL_BASE <= gdt -> gdt + 48 <= 2 ^ 32 -> 0 <= bit < 256 ->
  (forall m' s, m' = st8 (k_mem k) (gdt + 8 * idx + 5) (Z.lor (ld8 (k_mem k) (gdt + 8 * idx + 5)) bit) ->
     untouched (range (gdt + 8 * idx) 8) (k_mem k) m' -> s = decode_segment (k_mem k) idx ->
     decode_segment m' idx = MkSegment (s_base s) (s_limit s) (Z.lor (s_access s) bit) (s_flags s) -> Q tt (set_mem m' k)) ->
  wp (mark_descriptor base sel bit) k Q.
Proof.
  intros -> Hs Hi H1 H2 Hb HQ. unfold mark_descriptor, KERNEL_VIRTUAL_BASE in *. rewrite Hs. cbv zeta.
  wp_steps; try (unfold KERNEL_VIRTUAL_BASE; lia). eapply HQ; [reflexivity | | reflexivity |].
  - eapply untouched_mono; [|apply st8_untouched]. unfold range. intros. lia.
  - unfold decode_segment. set (a := gdt + 8 * idx) in *. mem_simp. cbn [s_base s_limit s_access s_flags]. f_equal.
    apply u8_small. pose proof (ld8_range (k_mem k) (a + 5)) as Hr.
    split; [apply Z.lor_nonneg; lia|]. change 256 with (2 ^ 8) in *.
    apply Z.log2_lt_cancel. rewrite Z.log2_lor by lia. rewrite Z.log2_pow2 by lia.
    apply Z.max_lub_lt; (destruct (Z.eq_dec bit 0) as [->|]; [cbn; try lia|]).
    all: try (apply Z.log2_lt_pow2; lia).
    all: destruct (Z.eq_dec (ld8 (k_mem k) (a + 5)) 0) as [->|]; [cbn; lia | apply Z.log2_lt_pow2; lia].
Qed.

#[local] Opaque mark_descriptor.

Lemma set_idt_entry_spec v isr attr k (Q : unit -> kernel -> Prop) :
  0 <= v < 256 -> KERNEL_VIRTUAL_BASE <= idt -> idt + 2048 <= 2 ^ 32 ->
  0 <= isr < 2 ^ 32 -> 0 <= attr < 256 ->
  (forall m', untouched (range (idt + 8 * v) 8) (k_mem k) m' ->
     decode_gate m' v = MkGate isr 8 0 attr -> Q tt (set_mem m' k)) ->
  wp (set_idt_entry v isr attr) k Q.
Proof.
  intros Hv H1 H2 Hi Ha HQ. unfold set_idt_entry, sizeof_idt_entry, KERNEL_VIRTUAL_BASE in *.
  rewrite (u8_small v) by lia. set (a := idt + 8 * v). cbv zeta.
  change 0xFFFF with (2 ^ 16 - 1). rewrite land_mask, Z.shiftr_div_pow2 by lia.
  wp_steps; try (unfold KERNEL_VIRTUAL_BASE; lia). apply HQ.
  - intros b Hr. unfold range in Hr. mem_simp. done.
  - unfold decode_gate. fold a. mem_simp. rewrite ?(u8_small attr) by lia. f_equal.
    unfold u16. change (2 ^ 16) with 65536. Z.div_mod_to_equations. lia.
Qed.

(** The memory after [ltr]: the TSS descriptor is marked busy. *)
Definition mark_tss (m : memory) : memory := st8 m (gdt + 45) (Z.lor (ld8 m (gdt + 45)) 2).

Lemma mark_tss_other m b : b <> gdt + 45 -> ld8 (mark_tss m) b = ld8 m b.
Proof. intros Hb. unfold mark_tss. by rewrite ld8_st8_ne by congruence. Qed.

Lemma mark_tss_agree m m' b : ld8 m' b = ld8 m b -> ld8 m' (gdt + 45) = ld8 m (gdt + 45) -> ld8 (mark_tss m') b = ld8 (mark_tss m) b.
Proof. intros Hb Hg. unfold mark_tss. rewrite !ld8_st8, Hg. by case_decide. Qed.

Lemma init_tss_spec k : KERNEL_VIRTUAL_BASE <= tss -> tss + sizeof_TSS_ENTRY <= 2 ^ 32 -> KERNEL_VIRTUAL_BASE <= gdt -> gdt + 48 <= 2 ^ 32 ->
  wp init_tss k (fun _ k' => k' = set_cpu (set_tr 0x28 (k_cpu k)) (set_mem (mark_tss (st32 (k_mem k) (tss_ss0 tss) 0x10)) k)).
Proof.
  intros H1 H2 H3 H4. unfold init_tss, tss_ss0, sizeof_TSS_ENTRY in *. apply wp_bind.
  eapply wp_access; [lia | lia | reflexivity | cbv beta]. replace (gdt + sizeof_GDT_SEGMENT * 5 - gdt) with 0x28 by (unfold sizeof_GDT_SEGMENT; lia).
  cbv zeta. apply wp_bind. apply (mark_descriptor_spec _ _ 5); try done; try lia. intros m' s -> _ _ _. apply wp_modify.
  unfold mark_tss. cbn [k_mem set_mem]. by replace (gdt + 8 * 5 + 5) with (gdt + 45) by lia.
Qed.

(** ** Initialisation *)

(** Where the linker put the tables: mapped, and not on top of each other. *)
Record tables_placed : Prop := {
  tp_gdt : KERNEL_VIRTUAL_BASE <= gdt /\ gdt + 48 <= 2 ^ 32;
  tp_gdtr : KERNEL_VIRTUAL_BASE <= gdtr_var /\ gdtr_var + 6 <= 2 ^ 32 /\
    (gdt + 48 <= gdtr_var \/ gdtr_var + 6 <= gdt);
  tp_tss : 0 <= tss < 2 ^ 32;
  tp_idt : KERNEL_VIRTUAL_BASE <= idt /\ idt + 2048 <= 2 ^ 32;
  tp_idtr : KERNEL_VIRTUAL_BASE <= idt_descriptor /\ idt_descriptor + 6 <= 2 ^ 32 /\
    (idt + 2048 <= idt_descriptor \/ idt_descriptor + 6 <= idt);
  tp_stubs : KERNEL_VIRTUAL_BASE <= isr_stub_table /\ isr_stub_table + 1024 <= 2 ^ 32 /\
    (idt + 2048 <= isr_stub_table \/ isr_stub_table + 1024 <= idt) }.

Context (HT : tables_placed).

(** One [fill_gdt] after others: the segments already filled stay. *)
Ltac fill Hu m :=
  apply wp_bind; eapply fill_gdt_spec; [lia | apply HT | apply HT | first [apply HT | lia] |
    unfold sizeof_TSS_ENTRY; lia | lia | lia |]; intros m Hu.
Ltac frame_seg := (erewrite decode_segment_frame; [|eassumption | unfold range; intros; lia]).

(** The descriptors [init_gdt] leaves: the two that were loaded are marked accessed. *)
Definition flat_segments : list segment :=
  [MkSegment 0 0 0 0; MkSegment 0 0xFFFFF 0x9B 0xC; MkSegment 0 0xFFFFF 0x93 0xC;
   MkSegment 0 0xFFFFF 0xFA 0xC; MkSegment 0 0xFFFFF 0xF2 0xC; MkSegment tss 107 0x89 0].

Lemma init_gdt_spec k :
  wp init_gdt k (fun _ k' =>
    decode_segment (k_mem k') <$> [0; 1; 2; 3; 4; 5] = flat_segments /\
    k' = set_cpu (set_segs 0x08 (all_segs 0x10) (set_gdtr (gdt, 47) (k_cpu k))) (set_mem (k_mem k') k) /\
    untouched (fun b => range gdt 48 b \/ range gdtr_var 6 b) (k_mem k) (k_mem k')).
Proof.
  pose proof (tp_gdt HT) as [G1 G2]. pose proof (tp_gdtr HT) as (D1 & D2 & D3).
  unfold init_gdt. fill U0 m0; intros S0. fill U1 m1; intros S1. fill U2 m2; intros S2.
  fill U3 m3; intros S3. fill U4 m4; intros S4. fill U5 m5; intros S5.
  cbn [k_mem set_mem] in *. unfold KERNEL_VIRTUAL_BASE in *.
  unfold gdt_flush, sizeof_GDT_SEGMENT. wp_steps; try (unfold KERNEL_VIRTUAL_BASE; lia).
  set (m6 := st16 _ _ _).
  assert (U6 : untouched (range gdtr_var 6) m5 m6).
  { unfold m6. intros b Hb. unfold range in Hb. mem_simp. done. }
  assert (E1 : decode_segment m6 1 = MkSegment 0 0xFFFFF 0x9A 0xC) by (repeat first [eassumption | frame_seg]).
  assert (E2 : decode_segment m6 2 = MkSegment 0 0xFFFFF 0x92 0xC) by (repeat first [eassumption | frame_seg]).
  apply (mark_descriptor_spec _ 8 1); try done; try lia.
  intros m7 s7 _ U7 -> S7. cbn [k_mem set_mem set_cpu] in U7, S7. rewrite E1 in S7. cbn [s_base s_limit s_access s_flags] in S7. change (Z.lor 154 1) with 0x9B in S7.
  assert (E2' : decode_segment m7 2 = MkSegment 0 0xFFFFF 0x92 0xC) by (repeat first [eassumption | frame_seg]).
  apply wp_bind. apply (mark_descriptor_spec _ 16 2); try done; try lia.
  intros m8 s8 _ U8 -> S8. cbn [k_mem set_mem set_cpu] in U8, S8. rewrite E2' in S8. cbn [s_base s_limit s_access s_flags] in S8. change (Z.lor 146 1) with 0x93 in S8.
  apply wp_modify. clear E1 E2 E2'. split_and!.
  - cbn [fmap list_fmap k_mem set_cpu set_mem]. unfold flat_segments. clear S1 S2.
    repeat f_equal; repeat first [eassumption | frame_seg].
  - done.
  - cbn [k_mem set_cpu set_mem]. repeat (eapply untouched_trans; [|eapply untouched_mono; [|eassumption]];
      [|unfold range; intros; lia]). apply untouched_refl.
Qed.

(** The gates before [v] are set. *)
Definition gates_set (v : Z) (k k' : kernel) : Prop :=
  exists m', k' = set_mem m' k /\ untouched (range idt 2048) (k_mem k) m' /\
    forall i, 0 <= i < v -> decode_gate m' i = MkGate (ld32 (k_mem k) (isr_stub_table + 4 * i)) 8 0 0x8E.

Lemma gates_set_step v k k' :
  gates_set v k k' -> 0 <= v < 256 ->
  wp (isr ← load32 (isr_stub_table + 4 * v); set_idt_entry v isr 0x8E) k' (fun _ => gates_set (v + 1) k).
Proof.
  intros (m1 & -> & U1 & G1) Hv. pose proof (tp_stubs HT) as (B1 & B2 & B3).
  apply wp_bind. eapply wp_access; [lia | lia | reflexivity | cbv beta]. cbn [k_mem set_mem].
  assert (Hs : ld32 m1 (isr_stub_table + 4 * v) = ld32 (k_mem k) (isr_stub_table + 4 * v)).
  { apply ld32_agree. eapply untouched_agree; [exact U1|]. unfold range. lia. }
  rewrite Hs. apply set_idt_entry_spec; [lia | apply HT | apply HT | apply ld32_range | lia |].
  intros m2 U2 G2. exists m2. split; [done|]. split.
  - eapply untouched_trans; [exact U1|]. eapply untouched_mono; [|exact U2]. unfold range. intros b Hb. lia.
  - intros i Hi. destruct (decide (i = v)) as [->|]; [done|].
    rewrite (decode_gate_frame m1 m2 i _ U2) by (unfold range; lia). apply G1. lia.
Qed.

Lemma init_idt_spec k :
  wp init_idt k (fun _ k' => exists m', k' = set_cpu (set_idtr (idt, 2047) (k_cpu k)) (set_mem m' k) /\
    (forall v, 0 <= v < 256 -> decode_gate m' v =
      MkGate (ld32 (k_mem k) (isr_stub_table + 4 * v)) 8 0 (if v =? 0x80 then 0xEE else 0x8E)) /\
    untouched (fun b => range idt 2048 b \/ range idt_descriptor 6 b) (k_mem k) m').
Proof.
  pose proof (tp_idt HT) as [I1 I2]. pose proof (tp_idtr HT) as (D1 & D2 & D3).
  pose proof (tp_stubs HT) as (B1 & B2 & B3). unfold init_idt, sizeof_idt_entry. apply wp_bind.
  eapply wp_mono; [apply kmemset_spec; lia|]. intros r k1 (-> & m1 & -> & U1 & _).
  apply wp_bind. eapply (wp_for_up _ _ _ _ (fun v => gates_set v (set_mem m1 k))).
  - exists m1. split_and!; [done | apply untouched_refl | lia].
  - intros v k2 Hv HG. apply gates_set_step; [done | lia].
  - intros k2 (m2 & -> & U2 & G2). cbn [k_mem set_mem] in *. unfold KERNEL_VIRTUAL_BASE in *.
    wp_steps; try (unfold KERNEL_VIRTUAL_BASE; lia). set (m3 := st8 m2 _ _). set (m4 := st32 _ _ _).
    assert (U3 : untouched (range (idt + 8 * 128 + 5) 1) m2 m3) by apply st8_untouched.
    assert (U4 : untouched (range idt_descriptor 6) m3 m4).
    { unfold m4. intros b Hb. unfold range in Hb. mem_simp. done. }
    exists m4. split_and!; [reflexivity | |].
    + intros v Hv.
      rewrite (decode_gate_frame m3 m4 v _ U4) by (unfold range; lia).
      assert (Hst : ld32 m1 (isr_stub_table + 4 * v) = ld32 (k_mem k) (isr_stub_table + 4 * v)).
      { apply ld32_agree. eapply untouched_agree; [exact U1|]. unfold range. lia. }
      rewrite <- Hst. destruct (Z.eqb_spec v 128) as [->|Hne].
      * pose proof (G2 128 ltac:(lia)) as E. unfold decode_gate in E |- *. unfold m3. mem_simp.
        injection E as E1 E2 E3 E4. by rewrite E1, E2, E3.
      * rewrite (decode_gate_frame m2 m3 v _ U3) by (unfold range; lia). apply G2. lia.
    + repeat (eapply untouched_trans; [|eapply untouched_mono; [|eassumption]];
        [|unfold range; intros; lia]). apply untouched_refl.
Qed.
End code.

(** ** The properties *)

(** [init_gdt] builds the flat memory model: a null descriptor, kernel and
    user code and data segments (privilege 0 and 3) that span the whole address
    space in 4 KiB units, the kernel's two marked accessed by the loads, and a
    descriptor of the TSS with its exact size; it loads the table with its exact
    limit and the kernel selectors, and writes nothing but the table and its
    pointer. *)
Theorem init_gdt_correct `{TableSymbols} k :
  tables_placed ->
  wp init_gdt k (fun _ k' =>
    decode_segment (k_mem k') <$> [0; 1; 2; 3; 4; 5] = flat_segments /\
    gdtr (k_cpu k') = (gdt, 47) /\ seg_cs (k_cpu k') = 8 /\ segs (k_cpu k') = all_segs 16 /\
    untouched (fun b => range gdt 48 b \/ range gdtr_var 6 b) (k_mem k) (k_mem k')).
Proof.
  intros HT. eapply wp_mono; [by apply init_gdt_spec|]. intros [] k' (Hs & E & Hu). rewrite E at 2 3 4. done.
Qed.

(** After [init_idt] each of the 256 gates is a present 32-bit interrupt gate
    on the kernel code segment whose offset is the stub of its vector; exactly
    gate 0x80 may be raised from ring 3; the table is loaded with its exact limit
    and nothing but the table and its pointer is written. *)
Theorem init_idt_correct `{TableSymbols} k :
  tables_placed ->
  wp init_idt k (fun _ k' =>
    (forall v, 0 <= v < 256 ->
       g_offset (decode_gate (k_mem k') v) = ld32 (k_mem k) (isr_stub_table + 4 * v) /\
       interrupt_gate (decode_gate (k_mem k') v) (if v =? 0x80 then 3 else 0)) /\
    idtr (k_cpu k') = (idt, 2047) /\
    untouched (fun b => range idt 2048 b \/ range idt_descriptor 6 b) (k_mem k) (k_mem k')).
Proof.
  intros HT. eapply wp_mono; [by apply init_idt_spec|]. intros [] k' (m' & -> & Hg & Hu). cbn [k_mem set_cpu set_mem].
  split_and!; [|done | done]. intros v Hv. rewrite (Hg v Hv). split; [done|].
  by destruct (v =? 128).
Qed.

#[local] Instance sample_tables : TableSymbols :=
  {| gdt := 0xC0001000; gdtr_var := 0xC0001030; tss := 0xC0001040; idt := 0xC0002000;
     idt_descriptor := 0xC0003000; isr_stub_table := 0xC0004000 |}.

Lemma sample_tables_placed : tables_placed.
Proof. split; unfold KERNEL_VIRTUAL_BASE; cbn; lia. Qed.

Lemma init_gdt_correct_witness :
  wp init_gdt empty_kernel (fun _ k' => s_limit (decode_segment (k_mem k') 5) = 107).
Proof.
  eapply wp_mono; [apply (init_gdt_correct empty_kernel sample_tables_placed)|].
  intros [] k' (Hs & _). exact (f_equal (fun l => s_limit (List.nth 5 l (MkSegment 0 0 0 0))) Hs).
Defined.

Lemma init_idt_correct_witness :
  wp init_idt empty_kernel (fun _ k' => interrupt_gate (decode_gate (k_mem k') 0x80) 3).
Proof.
  eapply wp_mono; [apply (init_idt_correct empty_kernel sample_tables_placed)|].
  intros [] k' (Hg & _). by destruct (Hg 0x80 ltac:(lia)).
Defined.
