(* ===== verification/Heap.v ===== *)
(** * The kernel heap: src/mm/heap/heap.c

    Requests of a page or more go to the page allocator; smaller ones are cut
    out of chunk pages, whose chunks are linked in address order and whose free
    chunks are in buckets by size. *)

From Stdlib Require Import ZArith Lia Bool.
From stdpp Require Import base list gmap strings.
From S2P Require Import Prelude Machine StringLib Console Node Bump Buddy BuddyModel BuddyRefine BuddyInit Pmm PmmSample.

(** ** Layout *)

(** [struct Chunk]: all at 0, used at 8, data and free at 12; 20 bytes. *)
Definition chunk_all (c : Z) : Z := c.
Definition chunk_used (c : Z) : Z := c + 8.
Definition chunk_data (c : Z) : Z := c + 12.
Definition chunk_free (c : Z) : Z := c + 12.
Definition sizeof_Chunk : Z := 20.
Definition HEADER_SIZE : Z := 12.
Definition MIN_SIZE : Z := 8.
Definition NUM_SIZES : Z := 9.
Definition ORDER_OFFSET : Z := 3.
Definition HEAP_ALIGN : Z := 4.

(** Linker addresses of the array [free_bucket] and the variable [first]. *)
Class HeapSymbols := { free_bucket : Z; first_var : Z }.

Section code.
Context `{BuddySymbols} `{HeapSymbols}.

Definition bucket_at (order : Z) : Z := free_bucket + 4 * order.

Definition set_heap_globals (last free used meta : Z) : M unit :=
  modify (set_heap (MkHeap last (u32 free) (u32 used) (u32 meta))).

(** [mem_free += f; mem_used += u; mem_meta += m], modulo 2^32. *)
Definition add_mem (f u m : Z) : M unit :=
  h ← gets k_heap;
  set_heap_globals (last_chunk h) (mem_free h + f) (mem_used h + u) (mem_meta h + m).

Definition set_last (l : Z) : M unit :=
  h ← gets k_heap;
  set_heap_globals l (mem_free h) (mem_used h) (mem_meta h).

(** [31 - __builtin_clz(size)]; undefined for 0. *)
Definition log_two (size : Z) : M Z :=
  if u32 size =? 0 then stop_with Overrun else mret (Z.log2 (u32 size)).

Definition get_total_size (chunk : Z) : M Z :=
  next ← load32 (node_next (chunk_all chunk)); mret (next ⊟ chunk).

Definition get_chunk_size (chunk : Z) : M Z :=
  t ← get_total_size chunk; mret (t ⊟ HEADER_SIZE).

Definition get_bucket_index (chunk : Z) : M Z :=
  size ← get_chunk_size chunk; l ← log_two size; mret (l - ORDER_OFFSET).

Definition get_alloc_order (size : Z) : M Z :=
  l ← log_two (size - 1); mret (l + 1 - ORDER_OFFSET).

Definition get_chunk_offset (ptr : Z) : Z := ptr ⊟ HEADER_SIZE.

Definition create_chunk : M Z :=
  page ← pmm_alloc 0;
  let f_block := P2V page in
  kmemset f_block 0 PAGE_SIZE;;
  let m_block := f_block ⊞ sizeof_Chunk in
  let l_block := f_block ⊞ (PAGE_SIZE - sizeof_Chunk) in
  store8 (chunk_used f_block) 1;;
  store8 (chunk_used m_block) 0;;
  store8 (chunk_used l_block) 1;;
  insert_node (chunk_all f_block) (chunk_all m_block);;
  insert_node (chunk_all m_block) (chunk_all l_block);;
  t ← get_total_size f_block; add_mem 0 0 t;;
  t ← get_total_size f_block; add_mem 0 0 t;;
  add_mem 0 0 HEADER_SIZE;;
  s ← get_chunk_size m_block; add_mem s 0 0;;
  order ← get_bucket_index m_block;
  push_node (bucket_at order) (chunk_free m_block);;
  first ← load32 first_var;
  (if first =? NULL then
     store32 first_var f_block;; set_last l_block
   else
     h ← gets k_heap;
     insert_node (chunk_all (last_chunk h)) (chunk_all f_block);;
     set_last l_block);;
  mret f_block.

Definition pop_free_chunk (order : Z) : M Z :=
  if (order <? 0) || (order >=? NUM_SIZES) then mret NULL
  else node ← pop_node (bucket_at order); mret (node ⊟ HEADER_SIZE).

(** [for (i = order; i < NUM_SIZES; i++) if (free_bucket[i]) ...] *)
Fixpoint find_chunk (fuel : nat) (i : Z) : M Z :=
  match fuel with
  | O => stop_with OutOfFuel
  | S fuel =>
      if i <? NUM_SIZES then
        b ← load32 (bucket_at i);
        if negb (b =? NULL) then pop_free_chunk i else find_chunk fuel (i + 1)
      else mret NULL
  end.

(** The end of [kmalloc]: [alloc_size] bytes of the free chunk are marked used,
    what is left over becomes a chunk of its own if it is large enough. *)
Definition carve (chunk alloc_size : Z) : M Z :=
  let total_size := alloc_size + HEADER_SIZE in
  store8 (chunk_used chunk) 1;;
  chunk_size ← get_chunk_size chunk;
  add_mem (- chunk_size) 0 0;;
  when (chunk_size ⊟ alloc_size >=? MIN_SIZE + HEADER_SIZE) (
    let nChunk := chunk ⊞ total_size in
    store8 (chunk_used nChunk) 0;;
    insert_node (chunk_all chunk) (chunk_all nChunk);;
    add_mem 0 0 HEADER_SIZE;;
    nOrder ← get_bucket_index nChunk;
    push_node (bucket_at nOrder) (chunk_free nChunk);;
    s ← get_chunk_size nChunk;
    add_mem s 0 0);;
  s ← get_chunk_size chunk;
  add_mem 0 s 0;;
  mret (chunk_data chunk).

Definition kmalloc (size : Z) : M Z :=
  if size =? 0 then mret NULL else
  let size := if size <? MIN_SIZE then MIN_SIZE else size in
  if size >=? 0x1000 then
    l ← log_two (size - 1);
    let order := l + 1 - BASE_SHIFT in
    page ← pmm_alloc order;
    let ptr := P2V page in
    when (negb (ptr =? NULL)) (add_mem 0 (Z.shiftl 1 (BASE_SHIFT + order)) 0);;
    mret ptr
  else
  let alloc_size := ALIGN_UP size HEAP_ALIGN in
  order ← get_alloc_order alloc_size;
  if order >=? NUM_SIZES then mret NULL else
  chunk ← find_chunk 10 order;
  chunk ← (if chunk =? NULL then create_chunk;; find_chunk 10 order else mret chunk);
  when (chunk =? NULL) (kernel_panic "OUT OF MEMORY");;
  carve chunk alloc_size.

Definition return_page (f_block : Z) : M unit :=
  m_block ← load32 (node_next f_block);
  l_block ← load32 (node_next m_block);
  remove_node first_var m_block;;
  add_mem 0 0 (- HEADER_SIZE);;
  first ← load32 first_var;
  remove_node first f_block;;
  add_mem 0 0 (- (HEADER_SIZE + MIN_SIZE));;
  h ← gets k_heap;
  when (last_chunk h =? l_block) (p ← load32 (node_prev l_block); set_last p);;
  first ← load32 first_var;
  remove_node first l_block;;
  add_mem 0 0 (- (HEADER_SIZE + MIN_SIZE));;
  pmm_free (V2P f_block).

(** The chunk size of a page with nothing allocated in it. *)
Definition whole_page : Z := PAGE_SIZE - 2 * (HEADER_SIZE + MIN_SIZE) - HEADER_SIZE.

(** A free neighbour leaves its bucket, and the second of the two chunks the list. *)
Definition merge_chunk (neighbour gone : Z) : M unit :=
  b ← get_bucket_index neighbour;
  remove_node (bucket_at b) (chunk_free neighbour);;
  s ← get_chunk_size neighbour;
  add_mem (- s) 0 0;;
  first ← load32 first_var;
  remove_node (node_next (chunk_all first)) (chunk_all gone);;
  add_mem 0 0 (- HEADER_SIZE).

Definition kfree (ptr : Z) : M unit :=
  if IS_ALIGNED ptr BASE_SIZE then
    let addr := V2P ptr in
    order ← get_order_addr addr;
    add_mem 0 (- Z.shiftl 1 (order + BASE_SHIFT)) 0;;
    pmm_free (V2P ptr)
  else
  let chunk := get_chunk_offset ptr in
  next ← load32 (node_next (chunk_all chunk));
  prev ← load32 (node_prev (chunk_all chunk));
  s ← get_chunk_size chunk;
  add_mem 0 (- s) 0;;
  nused ← load8 (chunk_used next);
  when (nused =? 0) (merge_chunk next next);;
  pused ← load8 (chunk_used prev);
  chunk ← (if pused =? 0 then merge_chunk prev chunk;; mret prev else mret chunk);
  chunk_size ← get_chunk_size chunk;
  first ← load32 first_var;
  cprev ← load32 (node_prev (chunk_all chunk));
  if (chunk_size =? whole_page) && negb (cprev =? first) then return_page cprev
  else
    store8 (chunk_used chunk) 0;;
    b ← get_bucket_index chunk;
    push_node (bucket_at b) (chunk_free chunk);;
    add_mem chunk_size 0 0.

Definition init_kmalloc : M unit :=
  f ← create_chunk;
  store32 first_var f;;
  n1 ← load32 (node_next (chunk_all f));
  n2 ← load32 (node_next n1);
  set_last n2.
End code.

(** ** Requests of a page or more, against the page allocator's interface *)

Section pages.
Context `{BuddySymbols} `{HeapSymbols} `{PA : PageAllocator pmm_alloc pmm_free get_order_addr}.

(** The smallest order of a block that holds [size] bytes. *)
Definition page_order_of (size : Z) : Z := Z.log2 (size - 1) + 1 - 12.

Lemma page_order_of_spec size :
  4096 <= size <= 2 ^ 22 ->
  0 <= page_order_of size <= orders /\ size <= 4096 * 2 ^ page_order_of size /\
  (4096 < size -> 4096 * 2 ^ page_order_of size < 2 * size).
Proof.
  intros Hs. unfold page_order_of, orders, MAX_BUDDY_ORDER.
  destruct (Z.log2_spec (size - 1) ltac:(lia)) as [L1 L2]. rewrite Z.pow_succ_r in L2 by apply Z.log2_nonneg.
  assert (H11 : 11 <= Z.log2 (size - 1)) by (apply Z.log2_le_pow2; lia).
  assert (H22 : Z.log2 (size - 1) < 22) by (apply Z.log2_lt_pow2; lia).
  set (l := Z.log2 (size - 1)) in *.
  assert (E : 4096 * 2 ^ (l + 1 - 12) = 2 * 2 ^ l).
  { change 4096 with (2 ^ 12). rewrite <- Z.pow_add_r by lia.
    replace (12 + (l + 1 - 12)) with (l + 1) by lia. by apply pow2_S; lia. }
  rewrite E. split; [lia|]. split; [lia|]. intros _. lia.
Qed.

Lemma pa_state_heap k Hd h : pa_state k Hd -> pa_state (set_heap h k) Hd.
Proof. intros HS. by apply (pa_stable k). Qed.

Lemma log_two_spec size k (Q : Z -> kernel -> Prop) :
  0 < size < 2 ^ 32 -> Q (Z.log2 size) k -> wp (log_two size) k Q.
Proof.
  intros Hs HQ. unfold log_two. rewrite u32_small by lia.
  destruct (Z.eqb_spec size 0); [lia|]. by apply wp_ret.
Qed.

(** [add_mem] on the heap's counters. *)
Definition heap_add (f u m : Z) (h : heap_globals) : heap_globals :=
  MkHeap (last_chunk h) (u32 (mem_free h + f)) (u32 (mem_used h + u)) (u32 (mem_meta h + m)).

Lemma add_mem_spec f u m k (Q : unit -> kernel -> Prop) :
  Q tt (set_heap (heap_add f u m (k_heap k)) k) -> wp (add_mem f u m) k Q.
Proof. intros HQ. apply wp_bind, wp_gets. by apply wp_modify. Qed.

(** The kernel after a call that used the page allocator and changed the heap's
    counters, [u] bytes more being used. *)
Definition page_call (u : Z) (k k' : kernel) : Prop :=
  exists m' b, k' = set_heap (heap_add 0 u 0 (k_heap k)) (set_buddy b (set_mem m' k)) /\
    untouched pa_bytes (k_mem k) m'.

Lemma kmalloc_pages_spec size k Hd :
  pa_state k Hd -> cursor_ok (k_vga k) -> 4096 <= size <= 2 ^ 22 ->
  wp (kmalloc size) k (fun r k' => exists i,
    r = P2V (4096 * i) /\ pa_state k' ((i, page_order_of size) :: Hd) /\
    page_call (4096 * 2 ^ page_order_of size) k k') \/
  stops (kmalloc size) k (Panic "PMM Out of memory").
Proof.
  intros HS Hcur Hs. destruct (page_order_of_spec size Hs) as (Ho & _).
  unfold kmalloc, MIN_SIZE. destruct (Z.eqb_spec size 0); [lia|]. destruct (Z.ltb_spec size 8); [lia|].
  rewrite (proj2 (Z.geb_le size 4096)) by lia. unfold BASE_SHIFT.
  destruct (pa_alloc k Hd (page_order_of size) HS Ho Hcur) as [Hwp|Hst].
  - left. apply wp_bind. apply log_two_spec; [lia|]. fold (page_order_of size).
    apply wp_bind. eapply wp_mono; [exact Hwp|].
    intros r k1 (i & -> & _ & HS1 & m' & b & -> & Hu).
    destruct (pa_block _ _ i (page_order_of size) HS1 ltac:(left)) as (_ & Hi1 & Hi2).
    pose proof (pow2_pos _ (proj1 Ho)).
    rewrite P2V_eq by (unfold PHYS_LIMIT, KERNEL_VIRTUAL_BASE; lia).
    destruct (Z.eqb_spec (4096 * i + KERNEL_VIRTUAL_BASE) NULL);
      [unfold NULL, KERNEL_VIRTUAL_BASE in *; lia|]. cbn [negb when].
    apply wp_bind, add_mem_spec, wp_ret. exists i.
    split_and!; [by rewrite P2V_eq by (unfold PHYS_LIMIT, KERNEL_VIRTUAL_BASE; lia) | by apply pa_state_heap |].
    exists m', b. split; [|done].
    replace (Z.shiftl 1 (12 + page_order_of size)) with (4096 * 2 ^ page_order_of size); [done|].
    rewrite Z.shiftl_1_l, Z.pow_add_r by lia. done.
  - right. apply stops_bind_r. apply log_two_spec; [lia|]. fold (page_order_of size).
    by apply stops_bind_l.
Qed.

(** A request of pages stops only where the page allocator does. *)
Lemma kmalloc_pages_stops size k e :
  4096 <= size <= 2 ^ 22 -> stops (kmalloc size) k e -> stops (pmm_alloc (page_order_of size)) k e.
Proof.
  intros Hs [k' E]. unfold kmalloc, MIN_SIZE, log_two, BASE_SHIFT in E.
  destruct (Z.eqb_spec size 0); [lia|]. destruct (Z.ltb_spec size 8); [lia|].
  rewrite (proj2 (Z.geb_le size 4096)) in E by lia. rewrite (u32_small (size - 1)) in E by lia. destruct (Z.eqb_spec (size - 1) 0); [lia|].
  unfold mbind, M_bind, mret, M_ret in E. fold (page_order_of size) in E. unfold stops.
  destruct (pmm_alloc (page_order_of size) k) as [page k1|e1 k1]; [|injection E as -> ->; by exists k'].
  exfalso. destruct (negb _); discriminate E.
Qed.

Lemma kfree_pages_spec i o k Hd :
  pa_state k Hd -> (i, o) ∈ Hd ->
  wp (kfree (P2V (4096 * i))) k (fun _ k' =>
    pa_state k' (filter (fun x => x <> (i, o)) Hd) /\ page_call (- (4096 * 2 ^ o)) k k').
Proof.
  intros HS Hin. destruct (pa_block _ _ i o HS Hin) as (Ho & Hi1 & Hi2). pose proof (pow2_pos o (proj1 Ho)).
  assert (HV : V2P (P2V (4096 * i)) = 4096 * i) by (apply V2P_P2V; lia).
  unfold kfree. rewrite HV.
  assert (IS_ALIGNED (P2V (4096 * i)) BASE_SIZE = true) as ->.
  { change BASE_SIZE with (2 ^ 12). apply IS_ALIGNED_spec; [lia|].
    rewrite P2V_eq by (unfold PHYS_LIMIT, KERNEL_VIRTUAL_BASE; lia).
    exists (i + 0xC0000). unfold KERNEL_VIRTUAL_BASE. change (2 ^ 12) with 4096. lia. }
  apply wp_bind. eapply wp_mono; [by apply (pa_order k Hd i o)|]. intros r k1 [-> ->].
  apply wp_bind, add_mem_spec.
  eapply wp_mono; [apply (pa_free _ Hd i o); [by apply pa_state_heap | done]|].
  intros [] k' (HS' & m' & b & -> & Hu). split; [done|]. exists m', b. split; [|done].
  unfold BASE_SHIFT. rewrite Z.shiftl_1_l, Z.add_comm, Z.pow_add_r by lia. by destruct k.
Qed.
End pages.

(** ** The properties *)

(** [kmalloc] of a page up to 4 MiB, on any page allocator that keeps its
    interface, returns page-aligned kernel memory of the smallest power-of-two
    number of pages that holds the request, taken fresh from the page allocator,
    or panics when memory is exhausted; [kfree] of the result gives exactly that
    block back and restores the count of used bytes. *)
Theorem kmalloc_kfree_pages `{BuddySymbols} `{HeapSymbols}
    `{PA : PageAllocator pmm_alloc pmm_free get_order_addr} size k Hd :
  pa_state k Hd -> cursor_ok (k_vga k) -> 4096 <= size <= 2 ^ 22 ->
  0 <= mem_used (k_heap k) < 2 ^ 32 ->
  wp (kmalloc size) k (fun p k1 => exists i o,
    p = P2V (4096 * i) /\ size <= 4096 * 2 ^ o /\ (4096 < size -> 4096 * 2 ^ o < 2 * size) /\
    pa_state k1 ((i, o) :: Hd) /\ (forall x q, x ∈ Hd -> ~ block_meets x (i, o) q) /\
    mem_used (k_heap k1) = u32 (mem_used (k_heap k) + 4096 * 2 ^ o) /\
    wp (kfree p) k1 (fun _ k2 =>
      pa_state k2 Hd /\ mem_used (k_heap k2) = mem_used (k_heap k))) \/
  stops (kmalloc size) k (Panic "PMM Out of memory").
Proof.
  intros HS Hcur Hs Hu. destruct (page_order_of_spec size Hs) as (Ho & H1 & H2).
  destruct (kmalloc_pages_spec size k Hd HS Hcur Hs) as [Hwp|Hst]; [left|by right].
  eapply wp_mono; [exact Hwp|]. intros p k1 (i & -> & HS1 & m' & b & Hk1 & _).
  exists i, (page_order_of size). pose proof (pa_nodup _ _ HS1) as Hnd.
  apply NoDup_cons in Hnd as [Hni _].
  split_and!; [done | done | done | done | | by rewrite Hk1 |].
  - intros x q Hx Hm. apply Hni. rewrite <- (pa_disjoint _ _ x (i, page_order_of size) q HS1); try done; list_in.
  - eapply wp_mono; [apply (kfree_pages_spec i (page_order_of size) k1 _ HS1); left|].
    intros [] k2 (HS2 & m2 & b2 & -> & _). split.
    + rewrite filter_cons_False in HS2 by tauto.
      assert (Hf : forall l : list block, (i, page_order_of size) ∉ l ->
                filter (fun x => x <> (i, page_order_of size)) l = l).
      { induction l as [|a l IH]; intros Hl; [done|]. rewrite not_elem_of_cons in Hl.
        rewrite filter_cons_True by (intros ->; tauto). f_equal. tauto. }
      by rewrite (Hf Hd Hni) in HS2.
    + rewrite Hk1. cbn [k_heap set_heap set_buddy set_mem heap_add mem_used].
      rewrite u32_add_mod, Z.add_opp_r, Z.add_simpl_r. by apply u32_small.
Qed.

Lemma kmalloc_gap_spec `{BuddySymbols} `{HeapSymbols} size k :
  2048 < size < 4096 -> kmalloc size k = Ok NULL k.
Proof.
  intros Hs. unfold kmalloc, MIN_SIZE. destruct (Z.eqb_spec size 0); [lia|].
  destruct (Z.ltb_spec size 8); [lia|].
  assert ((size >=? 4096) = false) as -> by (rewrite Z.geb_leb; apply Z.leb_gt; lia).
  destruct (ALIGN_UP_spec size 2) as [[q Hq] Hr]; [lia..|].
  change HEAP_ALIGN with (2 ^ 2). set (a := ALIGN_UP size (2 ^ 2)) in *. change (2 ^ 2) with 4 in *.
  assert (Hl : Z.log2 (a - 1) = 11) by (apply Z.log2_unique; lia).
  unfold get_alloc_order, log_two. rewrite u32_small by lia.
  destruct (Z.eqb_spec (a - 1) 0); [lia|]. unfold mbind, M_bind, mret, M_ret. rewrite Hl. done.
Qed.

(** The requests that are answered with NULL. *)
Lemma kmalloc_null `{BuddySymbols} `{HeapSymbols} size k :
  size = 0 \/ 2048 < size < 4096 -> kmalloc size k = Ok NULL k.
Proof. intros [->|Hs]; [done | by apply kmalloc_gap_spec]. Qed.

(** A request of more than 2048 bytes and less than a page is neither
    served from the buckets nor sent to the page allocator: [kmalloc] returns
    NULL and changes nothing. *)
Theorem kmalloc_gap `{BuddySymbols} `{HeapSymbols} size k :
  2048 < size < 4096 -> kmalloc size k = Ok NULL k.
Proof. apply kmalloc_gap_spec. Qed.

Lemma kmalloc_gap_witness :
  @kmalloc {| free_area := 0 |} {| free_bucket := 0; first_var := 0 |} 3000 empty_kernel = Ok NULL empty_kernel.
Proof. apply (@kmalloc_gap {| free_area := 0 |} {| free_bucket := 0; first_var := 0 |} 3000 empty_kernel). lia. Defined.

#[local] Existing Instance sample_symbols.
#[local] Instance sample_heap : HeapSymbols := {| free_bucket := 0xC0700000; first_var := 0xC0700100 |}.
#[local] Instance sample_pages : PageAllocator pmm_alloc pmm_free get_order_addr :=
  buddy_page_allocator 0xC0001000 1024 1024 1020 4 sample_geometry ltac:(lia) ltac:(lia)
    ltac:(unfold bfp, range, sizeof_Page, KERNEL_VIRTUAL_BASE; cbn [free_area sample_symbols]; lia).

Lemma kmalloc_kfree_pages_witness :
  wp (kmalloc 5000) ready_machine (fun p k1 => exists i, p = P2V (4096 * i) /\
    wp (kfree p) k1 (fun _ k2 => pa_state k2 [] /\ mem_used (k_heap k2) = mem_used (k_heap ready_machine))) \/
  stops (kmalloc 5000) ready_machine (Panic "PMM Out of memory").
Proof.
  destruct (kmalloc_kfree_pages 5000 ready_machine []) as [Hwp|Hst].
  - destruct ready_machine_run as (s & _ & HR). exact (ready_owned _ _ _ _ _ _ HR).
  - exact ready_machine_vga.
  - lia.
  - vm_compute. split; congruence.
  - left. eapply wp_mono; [exact Hwp|]. intros p k1 (i & o & -> & _ & _ & _ & _ & _ & Hf). exists i.
    split; [reflexivity | exact Hf].
  - right. exact Hst.
Defined.
