(* ===== verification/HeapModel.v ===== *)
(** * The heap's chunk lists

    The abstract state behind the small requests of src/mm/heap/heap.c: pages cut
    into chunks, each page fenced by two used chunks of its own, all chunks linked
    in order, the free ones also in the bucket of their size. *)

From Stdlib Require Import ZArith Lia Bool.
From stdpp Require Import base functions list gmap strings.
From S2P Require Import Prelude Machine StringLib Console Node Bump Buddy BuddyModel BuddyRefine BuddyInit Pmm Heap.

(** ** Chunks and pages *)

(** Address, number of bytes behind the header, in use. *)
Abbreviation chunk := (Z * Z * bool)%type.
Definition c_addr (x : chunk) : Z := x.1.1.
Definition c_size (x : chunk) : Z := x.1.2.
Definition c_used (x : chunk) : bool := x.2.
Definition c_total (x : chunk) : Z := 12 + c_size x.
Definition c_end (x : chunk) : Z := c_addr x + c_total x.

(** Chunks one behind the other from [a] to [b]. *)
Fixpoint tiles (a : Z) (l : list chunk) (b : Z) : Prop :=
  match l with
  | [] => a = b
  | x :: l => c_addr x = a /\ 8 <= c_size x /\ (4 | c_size x) /\ tiles (c_end x) l b
  end.

(** A page: its address and the chunks between its fences. *)
Abbreviation hpage := (Z * list chunk)%type.
Definition page_ok (p : hpage) : Prop := tiles (p.1 + 20) p.2 (p.1 + 4076).
Definition page_chunks (p : hpage) : list chunk := (p.1, 8, true) :: p.2 ++ [(p.1 + 4076, 8, true)].
Fixpoint flat (PS : list hpage) : list chunk :=
  match PS with [] => [] | p :: PS => page_chunks p ++ flat PS end.

Lemma tiles_app a l1 l2 b : tiles a (l1 ++ l2) b <-> exists c, tiles a l1 c /\ tiles c l2 b.
Proof.
  revert a. induction l1 as [|x l1 IH]; intros a; cbn [app tiles].
  - split; [by exists a | by intros (c & -> & H)].
  - rewrite IH. split; [intros (? & ? & ? & c & ? & ?); by exists c | intros (c & (? & ? & ? & ?) & ?); eauto 10].
Qed.

Lemma tiles_in a l b x : tiles a l b -> x ∈ l -> a <= c_addr x /\ c_end x <= b /\ 8 <= c_size x /\ (4 | c_size x).
Proof.
  intros Ht Hx. apply list_elem_of_split in Hx as (l1 & l2 & ->). apply tiles_app in Ht as (c & H1 & H2).
  assert (Hle : forall a l b, tiles a l b -> a <= b).
  { clear. intros a l. revert a. induction l as [|y l IH]; intros a b; cbn; [lia|]. intros (H1 & H2 & _ & H3).
    apply IH in H3. unfold c_end, c_total in *. lia. }
  destruct H2 as (E & H3 & H4 & H5). apply Hle in H1, H5. split_and!; [lia | lia | done | done].
Qed.

Lemma page_tiles p : page_ok p -> tiles p.1 (page_chunks p) (p.1 + 4096).
Proof.
  intros Hp. unfold page_chunks. cbn [tiles c_addr c_size c_end c_total fst snd]. split_and!; [done | lia | by exists 2 |].
  apply tiles_app. exists (p.1 + 4076). split; [exact Hp|]. cbn [tiles c_addr c_size c_end c_total fst snd].
  split_and!; [done | lia | by exists 2 |]. unfold c_end, c_total, c_addr, c_size. cbn. lia.
Qed.

(** Pairwise, for a symmetric relation. *)
Fixpoint pairwise {A} (R : A -> A -> Prop) (l : list A) : Prop :=
  match l with [] => True | x :: l => (forall y, y ∈ l -> R x y) /\ pairwise R l end.

Lemma pairwise_app {A} (R : A -> A -> Prop) l1 l2 :
  pairwise R (l1 ++ l2) <-> pairwise R l1 /\ pairwise R l2 /\ (forall x y, x ∈ l1 -> y ∈ l2 -> R x y).
Proof.
  induction l1 as [|a l1 IH]; cbn [app pairwise].
  - split; [intros H; split_and!; [done | done |]; by intros x y ?%elem_of_nil | tauto].
  - rewrite IH. split.
    + intros (H1 & H2 & H3 & H4). split_and!; [| done | done |].
      * intros y Hy. apply H1. list_in.
      * intros x y [->|Hx]%elem_of_cons Hy; [apply H1; list_in | by apply H4].
    + intros ((H1 & H2) & H3 & H4). split_and!; [| done | done |].
      * intros y [Hy|Hy]%elem_of_app; [by apply H1 | apply H4; [left | done]].
      * intros x y Hx. apply H4. by right.
Qed.

Definition c_apart (x y : chunk) : Prop := c_end x <= c_addr y \/ c_end y <= c_addr x.
Definition p_apart (p q : hpage) : Prop := apart p.1 4096 q.1 4096.

Lemma tiles_pairwise a l b : tiles a l b -> pairwise c_apart l.
Proof.
  revert a. induction l as [|x l IH]; intros a; cbn [tiles pairwise]; [done|]. intros (_ & _ & _ & H). split; [|by eapply IH].
  intros y Hy. left. by apply (tiles_in _ _ _ y H Hy).
Qed.

Lemma flat_in PS x : x ∈ flat PS <-> exists p, p ∈ PS /\ x ∈ page_chunks p.
Proof.
  induction PS as [|q PS IH]; cbn [flat]; [split; [intros Hx | intros (p & Hx & _)]; by apply elem_of_nil in Hx|].
  rewrite elem_of_app, IH. split.
  - intros [Hx|(p & Hp & Hx)]; [exists q | exists p]; (split; [list_in | done]).
  - intros (p & [->|Hp]%elem_of_cons & Hx); [by left | right; eauto].
Qed.

(** The chunks of one page, in the list of all of them. *)
Lemma flat_focus P1 b B P2 :
  flat (P1 ++ (b, B) :: P2) = (flat P1 ++ [(b, 8, true)]) ++ B ++ (b + 4076, 8, true) :: flat P2.
Proof.
  induction P1 as [|p P1 IH]; cbn [flat app].
  - unfold page_chunks. cbn [fst snd app]. by rewrite <- app_assoc.
  - rewrite IH, !app_assoc. done.
Qed.

(** ** Well-formed heaps *)

(** The size class of a chunk: its bucket. *)
Definition bidx (s : Z) : Z := Z.log2 s - 3.

Lemma bidx_range s : 8 <= s < 4096 -> 0 <= bidx s < 9.
Proof.
  intros Hs. unfold bidx. assert (3 <= Z.log2 s) by (by apply Z.log2_le_pow2; cbn; lia).
  assert (Z.log2 s < 12) by (apply Z.log2_lt_pow2; cbn; lia). lia.
Qed.

Section heap.
Context `{HS : HeapSymbols}.

(** The bytes of [free_bucket] and [first]. *)
Definition statics (b : Z) : Prop := range free_bucket 36 b \/ range first_var 4 b.
Definition statics_ok : Prop :=
  KERNEL_VIRTUAL_BASE <= free_bucket /\ free_bucket + 36 <= 2 ^ 32 /\
  KERNEL_VIRTUAL_BASE <= first_var /\ first_var + 4 <= 2 ^ 32 /\ apart free_bucket 36 first_var 4.

(** Where the pages are; [bl o] lists the chunks of bucket [o]. *)
Record pages_ok (PS : list hpage) : Prop := {
  po_tiles : forall p, p ∈ PS -> page_ok p;
  po_apart : pairwise p_apart PS;
  po_place : forall p, p ∈ PS -> KERNEL_VIRTUAL_BASE <= p.1 /\ p.1 + 4096 <= 2 ^ 32;
  po_statics : forall p b, p ∈ PS -> range p.1 4096 b -> ~ statics b }.

Record buckets_ok (PS : list hpage) (bl : Z -> list Z) : Prop := {
  bo_in : forall o c, 0 <= o < 9 -> c ∈ bl o <-> exists s, (c, s, false) ∈ flat PS /\ bidx s = o;
  bo_nodup : forall o, 0 <= o < 9 -> NoDup (bl o) }.

(** The heap in memory; the flag of the chunk [lim] is not settled. *)
Definition free_node (c : Z) : Z := c + 12.
Record heap_rep (lim : Z) (PS : list hpage) (bl : Z -> list Z) (m : memory) : Prop := {
  hr_all : dll m first_var (c_addr <$> flat PS);
  hr_used : forall x, x ∈ flat PS -> c_addr x <> lim -> ld8 m (c_addr x + 8) = if c_used x then 1 else 0;
  hr_bucket : forall o, 0 <= o < 9 -> dll m (bucket_at o) (free_node <$> bl o) }.

Record hstate (lim : Z) (PS : list hpage) (bl : Z -> list Z) (m : memory) : Prop := {
  ht_statics : statics_ok;
  ht_pages : pages_ok PS;
  ht_buckets : buckets_ok PS bl;
  ht_rep : heap_rep lim PS bl m }.

(** ** What well-formedness gives *)

Lemma pairwise_ne {A} (R : A -> A -> Prop) l x y :
  (forall a b, R a b -> R b a) -> pairwise R l -> x ∈ l -> y ∈ l -> x <> y -> R x y.
Proof.
  intros Hs. induction l as [|a l IH]; intros Hp Hx Hy Hne; [by apply elem_of_nil in Hx|].
  destruct Hp as [H1 H2]. apply elem_of_cons in Hx as [->|Hx], Hy as [->|Hy]; auto; try done.
Qed.

Lemma c_apart_sym x y : c_apart x y -> c_apart y x.
Proof. unfold c_apart. tauto. Qed.

Lemma chunk_page PS x : pages_ok PS -> x ∈ flat PS ->
  exists p, p ∈ PS /\ p.1 <= c_addr x /\ c_end x <= p.1 + 4096 /\ 8 <= c_size x.
Proof.
  intros HP (p & Hp & Hx)%flat_in. exists p.
  destruct (tiles_in _ _ _ x (page_tiles p (po_tiles _ HP p Hp)) Hx) as (? & ? & ? & _). done.
Qed.

Lemma chunk_place PS x : pages_ok PS -> x ∈ flat PS ->
  KERNEL_VIRTUAL_BASE <= c_addr x /\ c_end x <= 2 ^ 32 /\ 8 <= c_size x < 4096 /\
  (forall b, range (c_addr x) (c_total x) b -> ~ statics b).
Proof.
  intros HP Hx. destruct (chunk_page PS x HP Hx) as (p & Hp & H1 & H2 & H3).
  destruct (po_place _ HP p Hp). unfold c_end, c_total in *. split_and!; [lia | lia | lia | lia |].
  intros b Hb. apply (po_statics _ HP p b Hp). unfold range in *. lia.
Qed.

Lemma flat_pairwise PS : pages_ok PS -> pairwise c_apart (flat PS).
Proof.
  intros HP. induction PS as [|p PS IH]; [done|]. cbn [flat]. apply pairwise_app. split_and!.
  - eapply tiles_pairwise. apply page_tiles, (po_tiles _ HP). left.
  - apply IH. destruct HP as [T [_ A] P Q]. split; try done; intros; [apply T | apply P | eapply Q]; try done; by right.
  - intros x y Hx (q & Hq & Hy)%flat_in. pose proof (po_apart _ HP) as [Ha _]. specialize (Ha q Hq).
    destruct (tiles_in _ _ _ x (page_tiles p (po_tiles _ HP p ltac:(left))) Hx) as (? & ? & _).
    destruct (tiles_in _ _ _ y (page_tiles q (po_tiles _ HP q ltac:(by right))) Hy) as (? & ? & _).
    unfold c_apart, p_apart, apart in *. lia.
Qed.

Lemma chunks_apart PS x y :
  pages_ok PS -> x ∈ flat PS -> y ∈ flat PS -> x <> y -> c_apart x y.
Proof. intros HP. apply pairwise_ne; [exact c_apart_sym | by apply flat_pairwise]. Qed.

(** Chunks that share a byte are one. *)
Lemma chunk_unique PS x y b :
  pages_ok PS -> x ∈ flat PS -> y ∈ flat PS ->
  range (c_addr x) (c_total x) b -> range (c_addr y) (c_total y) b -> x = y.
Proof.
  intros HP Hx Hy H1 H2. destruct (decide (x = y)) as [|Hne]; [done|].
  destruct (chunks_apart PS x y HP Hx Hy Hne); unfold range, c_end in *; lia.
Qed.

Lemma addr_unique PS x y : pages_ok PS -> x ∈ flat PS -> y ∈ flat PS -> c_addr x = c_addr y -> x = y.
Proof.
  intros HP Hx Hy E. apply (chunk_unique PS x y (c_addr x) HP Hx Hy); [|rewrite E];
    [destruct (chunk_place PS x HP Hx) as (_ & _ & ? & _) | destruct (chunk_place PS y HP Hy) as (_ & _ & ? & _)];
    unfold range, c_total; lia.
Qed.

Lemma addr_nodup l : (forall x, x ∈ l -> 0 <= c_size x) -> pairwise c_apart l -> NoDup (c_addr <$> l).
Proof.
  induction l as [|x l IH]; intros Hs Hp; [constructor|]. destruct Hp as [H1 H2]. cbn. constructor.
  - intros (y & E & Hy)%list_elem_of_fmap. specialize (H1 y Hy). pose proof (Hs x ltac:(left)).
    pose proof (Hs y ltac:(by right)). unfold c_apart, c_end, c_total in *. lia.
  - apply IH; [|done]. intros y Hy. apply Hs. by right.
Qed.

Lemma all_nodes PS : statics_ok -> pages_ok PS ->
  nodes_ok (c_addr <$> flat PS) /\ head_ok first_var (c_addr <$> flat PS).
Proof.
  intros (S1 & S2 & S3 & S4 & S5) HP. unfold nodes_ok, head_ok. split_and!.
  - apply addr_nodup; [|by apply flat_pairwise]. intros x Hx. destruct (chunk_place PS x HP Hx); lia.
  - apply Forall_fmap, Forall_forall. intros x Hx. destruct (chunk_place PS x HP Hx) as (? & ? & ? & _).
    unfold node_ok, sizeof_Node, c_end, c_total in *. cbn. lia.
  - intros a b (x & -> & Hx)%list_elem_of_fmap (y & -> & Hy)%list_elem_of_fmap Hne.
    destruct (chunk_place PS x HP Hx) as (_ & _ & ? & _). destruct (chunk_place PS y HP Hy) as (_ & _ & ? & _).
    destruct (chunks_apart PS x y HP Hx Hy ltac:(congruence)); unfold apart, sizeof_Node, c_end, c_total in *; lia.
  - done.
  - done.
  - intros a (x & -> & Hx)%list_elem_of_fmap. destruct (chunk_place PS x HP Hx) as (_ & _ & ? & Hst).
    destruct (Z.le_gt_cases (first_var + 4) (c_addr x)); [by left|].
    destruct (Z.le_gt_cases (c_addr x + 8) first_var); [by right|]. exfalso.
    apply (Hst (Z.max first_var (c_addr x))); [|right]; unfold range, c_total; lia.
Qed.

Lemma bucket_chunk PS bl o c : buckets_ok PS bl -> 0 <= o < 9 -> c ∈ bl o ->
  exists x, x ∈ flat PS /\ c_addr x = c /\ c_used x = false /\ bidx (c_size x) = o.
Proof. intros HB Ho (s & Hs & E)%(bo_in _ _ HB o c Ho). by exists (c, s, false). Qed.

(** Free chunks as list nodes, whatever bucket they are in. *)
Lemma free_nodes PS l : statics_ok -> pages_ok PS -> NoDup l ->
  (forall c, c ∈ l -> exists x, x ∈ flat PS /\ c_addr x = c) ->
  nodes_ok (free_node <$> l) /\ (forall o, 0 <= o < 9 -> head_ok (bucket_at o) (free_node <$> l)).
Proof.
  intros (S1 & S2 & S3 & S4 & S5) HP Hnd Hl.
  assert (Hc : forall c, c ∈ l -> exists x, x ∈ flat PS /\ c_addr x = c /\ KERNEL_VIRTUAL_BASE <= c /\ c + 20 <= 2 ^ 32 /\
    c + 20 <= c_end x /\ forall b, range c 20 b -> ~ statics b).
  { intros c Hc. destruct (Hl c Hc) as (x & Hx & E). exists x. destruct (chunk_place PS x HP Hx) as (? & ? & ? & Hst).
    unfold c_end, c_total in *. split_and!; try done; try lia. intros b Hb. apply Hst. unfold range in *. lia. }
  unfold nodes_ok, head_ok. split; [split_and!|].
  - apply NoDup_fmap_2; [|done]. unfold free_node. intros a b. lia.
  - apply Forall_fmap, Forall_forall. intros c Hin. destruct (Hc c Hin) as (x & _ & _ & ? & ? & _).
    unfold node_ok, free_node, sizeof_Node. cbn. lia.
  - intros a b (c & -> & Hc1)%list_elem_of_fmap (d & -> & Hc2)%list_elem_of_fmap Hne. unfold free_node in *.
    destruct (Hc c Hc1) as (x & Hx & E1 & _ & _ & E2 & _). destruct (Hc d Hc2) as (y & Hy & E3 & _ & _ & E4 & _).
    destruct (chunks_apart PS x y HP Hx Hy ltac:(intros ->; lia)); unfold apart, sizeof_Node; lia.
  - intros o Ho. unfold bucket_at. split_and!; [lia | lia |]. intros a (c & -> & Hin)%list_elem_of_fmap.
    destruct (Hc c Hin) as (x & _ & _ & _ & _ & _ & Hst). unfold free_node, sizeof_Node.
    destruct (Z.le_gt_cases (free_bucket + 4 * o + 4) (c + 12)); [by left|].
    destruct (Z.le_gt_cases (c + 12 + 8) (free_bucket + 4 * o)); [by right|]. exfalso.
    apply (Hst (Z.max (free_bucket + 4 * o) (c + 12))); [|left]; unfold range; lia.
Qed.

(** ** Frames *)

Lemma dll_keep (F : Z -> Prop) m m' h l :
  untouched F m m' -> (forall b, range h 4 b -> ~ F b) -> (forall a b, a ∈ l -> range a 8 b -> ~ F b) ->
  dll m h l -> dll m' h l.
Proof.
  intros Hu Hh Hl [H1 H2]. split.
  - rewrite <- H1. apply ld32_agree. by eapply untouched_agree.
  - eapply dseg_frame; [|exact H2]. intros a Ha. eapply untouched_agree; [exact Hu|]. intros b. by apply Hl.
Qed.

(** The links of all chunks, and those of the buckets. *)
Definition links (PS : list hpage) (b : Z) : Prop :=
  range first_var 4 b \/ exists x, x ∈ flat PS /\ range (c_addr x) 8 b.
Definition fnodes (PS : list hpage) (b : Z) : Prop :=
  range free_bucket 36 b \/ exists x, x ∈ flat PS /\ range (c_addr x + 12) 8 b.

Lemma link_in_chunk PS x b : pages_ok PS -> x ∈ flat PS -> range (c_addr x) 20 b -> range (c_addr x) (c_total x) b.
Proof. intros HP Hx Hb. destruct (chunk_place PS x HP Hx) as (_ & _ & ? & _). unfold range, c_total in *. lia. Qed.

Lemma links_off_fnodes PS b : statics_ok -> pages_ok PS -> links PS b -> ~ fnodes PS b.
Proof.
  intros (_ & _ & _ & _ & Ha) HP [H1|(x & Hx & H1)] [H2|(y & Hy & H2)].
  - unfold apart, range in *. lia.
  - destruct (chunk_place PS y HP Hy) as (_ & _ & _ & Hst). apply (Hst b); [|by right].
    apply (link_in_chunk PS); [done | done |]. unfold range in *. lia.
  - destruct (chunk_place PS x HP Hx) as (_ & _ & _ & Hst). apply (Hst b); [|by left].
    apply (link_in_chunk PS); [done | done |]. unfold range in *. lia.
  - assert (x = y) as ->; [|unfold range in *; lia].
    apply (chunk_unique PS x y b HP Hx Hy); apply (link_in_chunk PS); try done; unfold range in *; lia.
Qed.

Lemma flag_off_links PS x : pages_ok PS -> x ∈ flat PS -> ~ links PS (c_addr x + 8) /\ ~ fnodes PS (c_addr x + 8).
Proof.
  intros HP Hx. destruct (chunk_place PS x HP Hx) as (_ & _ & _ & Hst).
  assert (Hb : range (c_addr x) (c_total x) (c_addr x + 8)) by (apply (link_in_chunk PS); [done | done |]; unfold range; lia).
  split; (intros [H2|(y & Hy & H2)]; [apply (Hst _ Hb); first [by left | by right]|]).
  all: assert (x = y) as <-; [apply (chunk_unique PS x y (c_addr x + 8) HP Hx Hy); [done|];
         apply (link_in_chunk PS); [done | done |] |]; unfold range in *; lia.
Qed.

Lemma all_fp PS b : dll_fp first_var (c_addr <$> flat PS) b -> links PS b.
Proof.
  intros [Hb|(a & Ha & Hb)]; [by left | right]. apply list_elem_of_fmap in Ha as (x & -> & Hx). by exists x.
Qed.

Lemma bucket_fp PS o l b : 0 <= o < 9 -> (forall c, c ∈ l -> exists x, x ∈ flat PS /\ c_addr x = c) ->
  dll_fp (bucket_at o) (free_node <$> l) b -> fnodes PS b.
Proof.
  intros Ho Hl [Hb|(a & Ha & Hb)]; [left; unfold bucket_at, range in *; lia | right].
  apply list_elem_of_fmap in Ha as (c & -> & Hc). destruct (Hl c Hc) as (x & Hx & <-). by exists x.
Qed.

Lemma all_keep PS m m' : statics_ok -> pages_ok PS -> untouched (fnodes PS) m m' ->
  dll m first_var (c_addr <$> flat PS) -> dll m' first_var (c_addr <$> flat PS).
Proof.
  intros HS' HP Hu. apply (dll_keep _ _ _ _ _ Hu).
  - intros b Hb. apply links_off_fnodes; [done | done | by left].
  - intros a b (x & -> & Hx)%list_elem_of_fmap Hb. apply links_off_fnodes; [done | done |]. right. by exists x.
Qed.

Lemma bucket_keep PS o l m m' : statics_ok -> pages_ok PS -> 0 <= o < 9 ->
  (forall c, c ∈ l -> exists x, x ∈ flat PS /\ c_addr x = c) -> untouched (links PS) m m' ->
  dll m (bucket_at o) (free_node <$> l) -> dll m' (bucket_at o) (free_node <$> l).
Proof.
  intros HS' HP Ho Hl Hu. apply (dll_keep _ _ _ _ _ Hu).
  - intros b Hb Hk. apply (links_off_fnodes PS b HS' HP Hk). left. unfold bucket_at, range in *. lia.
  - intros a b (c & -> & Hc)%list_elem_of_fmap Hb Hk. apply (links_off_fnodes PS b HS' HP Hk). right.
    destruct (Hl c Hc) as (x & Hx & <-). by exists x.
Qed.

Lemma bucket_other PS o o' l l' m m' : statics_ok -> pages_ok PS -> 0 <= o < 9 -> 0 <= o' < 9 -> o <> o' ->
  (forall c, c ∈ l ++ l' -> exists x, x ∈ flat PS /\ c_addr x = c) -> (forall c, c ∈ l -> c ∉ l') ->
  untouched (dll_fp (bucket_at o) (free_node <$> l)) m m' ->
  dll m (bucket_at o') (free_node <$> l') -> dll m' (bucket_at o') (free_node <$> l').
Proof.
  intros HS' HP Ho Ho' Hne Hl Hd Hu.
  assert (Hst : forall c b, c ∈ l ++ l' -> range (c + 12) 8 b -> ~ range free_bucket 36 b).
  { intros c b Hc Hb Hk. destruct (Hl c Hc) as (x & Hx & <-). destruct (chunk_place PS x HP Hx) as (_ & _ & _ & Hs).
    apply (Hs b); [|by left]. apply (link_in_chunk PS); [done | done |]. unfold range in *. lia. }
  apply (dll_keep _ _ _ _ _ Hu).
  - intros b Hb [Hk|(a & Ha & Hk)]; [unfold bucket_at, range in *; lia|]. apply list_elem_of_fmap in Ha as (c & -> & Hc).
    apply (Hst c b); [list_in | done |]. unfold bucket_at, range in *. lia.
  - intros a b (c & -> & Hc)%list_elem_of_fmap Hb [Hk|(a' & Ha & Hk)].
    + apply (Hst c b); [list_in | done |]. unfold bucket_at, range in *. lia.
    + apply list_elem_of_fmap in Ha as (d & -> & Hd'). destruct (Hl c ltac:(list_in)) as (x & Hx & E1).
      destruct (Hl d ltac:(list_in)) as (y & Hy & E2). unfold free_node, sizeof_Node in *.
      assert (x = y).
      { apply (chunk_unique PS x y b HP Hx Hy); apply (link_in_chunk PS); try done; unfold range in *; lia. }
      apply (Hd d); [done|]. congruence.
Qed.

(** ** Reading the links *)

Lemma dll_at m h l1 a l2 : dll m h (l1 ++ a :: l2) ->
  ld32 m (node_next a) = hd 0 l2 /\ ld32 m (node_prev a) = last_or 0 l1.
Proof. intros [_ Hd]. apply dseg_app in Hd as [_ (Hp & Hn & _)]. done. Qed.

Lemma body_next b B1 x B2 q r : page_ok (b, B1 ++ x :: B2) ->
  hd q (c_addr <$> B2 ++ (b + 4076, 8, true) :: r) = c_end x.
Proof.
  intros (c & _ & (_ & _ & _ & Ht))%tiles_app. cbn [fst snd] in Ht. destruct B2 as [|y B2]; cbn in *; [lia|].
  by destruct Ht as (-> & _).
Qed.

(** A chunk between fences: its place in the list of all chunks. *)
Record focus (PS : list hpage) (x : chunk) (L R : list chunk) : Prop := {
  fo_flat : flat PS = L ++ x :: R;
  fo_next : hd 0 (c_addr <$> R) = c_end x }.

Lemma focus_body P1 b B1 x B2 P2 : pages_ok (P1 ++ (b, B1 ++ x :: B2) :: P2) ->
  focus (P1 ++ (b, B1 ++ x :: B2) :: P2) x ((flat P1 ++ [(b, 8, true)]) ++ B1) (B2 ++ (b + 4076, 8, true) :: flat P2).
Proof.
  intros HP. split.
  - rewrite flat_focus, <- !app_assoc. done.
  - eapply body_next. apply (po_tiles _ HP). list_in.
Qed.

Lemma total_size_spec lim PS bl k x L R :
  heap_rep lim PS bl (k_mem k) -> pages_ok PS -> focus PS x L R ->
  wp (get_total_size (c_addr x)) k (fun r k' => r = c_total x /\ k' = k).
Proof.
  intros HR HP [E1 E2]. assert (Hx : x ∈ flat PS) by (rewrite E1; list_in).
  destruct (chunk_place PS x HP Hx) as (H1 & H2 & H3 & _). unfold c_end, c_total in *.
  pose proof (hr_all _ _ _ _ HR) as Hd. rewrite E1, fmap_app, fmap_cons in Hd.
  destruct (dll_at _ _ _ _ _ Hd) as [Hn _]. unfold get_total_size. apply wp_bind.
  eapply wp_access; [unfold node_next, chunk_all; lia | unfold node_next, chunk_all; lia | reflexivity | cbv beta].
  unfold chunk_all. rewrite Hn, E2. apply wp_ret. split; [|done].
  unfold KERNEL_VIRTUAL_BASE in *. rewrite u32_small; lia.
Qed.

Lemma chunk_size_spec lim PS bl k x L R :
  heap_rep lim PS bl (k_mem k) -> pages_ok PS -> focus PS x L R ->
  wp (get_chunk_size (c_addr x)) k (fun r k' => r = c_size x /\ k' = k).
Proof.
  intros HR HP HF. assert (Hx : x ∈ flat PS) by (rewrite (fo_flat _ _ _ _ HF); list_in).
  destruct (chunk_place PS x HP Hx) as (H1 & H2 & H3 & _).
  unfold get_chunk_size. apply wp_bind. eapply wp_mono; [by eapply total_size_spec|]. intros r k' [-> ->].
  apply wp_ret. split; [|done]. unfold c_total, HEADER_SIZE. rewrite u32_small; lia.
Qed.

Lemma bucket_index_spec lim PS bl k x L R :
  heap_rep lim PS bl (k_mem k) -> pages_ok PS -> focus PS x L R ->
  wp (get_bucket_index (c_addr x)) k (fun r k' => r = bidx (c_size x) /\ k' = k).
Proof.
  intros HR HP HF. assert (Hx : x ∈ flat PS) by (rewrite (fo_flat _ _ _ _ HF); list_in).
  destruct (chunk_place PS x HP Hx) as (H1 & H2 & H3 & _).
  unfold get_bucket_index. apply wp_bind. eapply wp_mono; [by eapply chunk_size_spec|]. intros r k' [-> ->].
  apply wp_bind. apply log_two_spec; [lia|]. by apply wp_ret.
Qed.
End heap.
