(* ===== verification/HeapSteps.v ===== *)
(** * Steps of the heap

    The moves [kmalloc] and [kfree] make on the chunk lists: a free chunk leaves its
    bucket or enters one, a chunk is cut in two, two neighbours are joined. *)

From Stdlib Require Import ZArith Lia Bool.
From stdpp Require Import base functions list gmap strings.
From S2P Require Import Prelude Machine StringLib Console Node Bump Buddy BuddyModel BuddyRefine BuddyInit Pmm Heap HeapModel.

Section steps.
Context `{HS : HeapSymbols}.

(** What the heap may write: its variables, the headers, and free chunks. *)
Definition heap_fp (PS : list hpage) (b : Z) : Prop :=
  statics b \/ exists x, x ∈ flat PS /\
    (range (c_addr x) 12 b \/ c_used x = false /\ range (c_addr x) (c_total x) b).

(** ** Entering a bucket *)

Lemma buckets_add PS PS' c s bl :
  (forall y s', (y, s', false) ∈ flat PS' <-> (y, s', false) ∈ flat PS \/ (y, s') = (c, s)) ->
  (forall s', (c, s', false) ∉ flat PS) -> 8 <= s < 4096 -> buckets_ok PS bl ->
  (forall o, 0 <= o < 9 -> c ∉ bl o) /\ buckets_ok PS' (<[bidx s := c :: bl (bidx s)]> bl).
Proof.
  intros Hfree Hnew Hs [Hin Hnd]. pose proof (bidx_range s Hs) as Ho.
  assert (Hno : forall o, 0 <= o < 9 -> c ∉ bl o) by (intros o Ho' (s' & Hs' & _)%Hin; [by apply (Hnew s') | done]).
  split; [done|]. split.
  - intros o y Ho'. destruct (decide (o = bidx s)) as [->|Hne].
    + rewrite fn_lookup_insert, elem_of_cons, (Hin _ _ Ho). split.
      * intros [->|(s' & Hs' & Eb)]; [exists s | exists s']; (split; [apply Hfree; auto | done]).
      * intros (s' & [Hs'|Hs']%Hfree & Eb); [right; by exists s' | left; congruence].
    + rewrite fn_lookup_insert_ne by done. rewrite Hin by done. split.
      * intros (s' & Hs' & Eb). exists s'. split; [|done]. apply Hfree. by left.
      * intros (s' & [Hs'|Hs']%Hfree & Eb); [by exists s' | congruence].
  - intros o Ho'. destruct (decide (o = bidx s)) as [->|Hne]; [|rewrite fn_lookup_insert_ne by done; auto].
    rewrite fn_lookup_insert. constructor; [by apply Hno | auto].
Qed.

(** The free chunks as nodes of one bucket. *)
Lemma bucket_nodes PS bl o : statics_ok -> pages_ok PS -> buckets_ok PS bl -> 0 <= o < 9 ->
  nodes_ok (free_node <$> bl o) /\ head_ok (bucket_at o) (free_node <$> bl o).
Proof.
  intros H1 H2 H3 Ho. destruct (free_nodes PS (bl o) H1 H2 (bo_nodup _ _ H3 o Ho)) as [N1 N2].
  - intros c Hc. destruct (bucket_chunk _ _ _ _ H3 Ho Hc) as (x & ? & ? & _). by exists x.
  - split; [done | by apply N2].
Qed.

(** [push_node] on the bucket of the chunk [c], free in [PS]. *)
Lemma bucket_push PS bl c o k :
  statics_ok -> pages_ok PS -> 0 <= o < 9 -> buckets_ok PS (<[o := c :: bl o]> bl) ->
  (forall o, 0 <= o < 9 -> dll (k_mem k) (bucket_at o) (free_node <$> bl o)) ->
  wp (push_node (bucket_at o) (c + 12)) k (fun _ k' => exists m', k' = set_mem m' k /\
    (forall o', 0 <= o' < 9 -> dll m' (bucket_at o') (free_node <$> (<[o := c :: bl o]> bl) o')) /\
    untouched (fnodes PS) (k_mem k) m' /\ untouched (heap_fp PS) (k_mem k) m').
Proof.
  intros H1 H2 Ho H3 R3. set (bl' := <[o := c :: bl o]> bl) in *.
  assert (Eo : bl' o = c :: bl o) by (unfold bl'; by rewrite fn_lookup_insert).
  destruct (bucket_nodes _ _ _ H1 H2 H3 Ho) as [N1 N2]. rewrite Eo, fmap_cons in N1, N2.
  assert (Hch : forall o y, 0 <= o < 9 -> y ∈ bl' o -> exists x, x ∈ flat PS /\ c_addr x = y).
  { intros o' y Ho' Hy. destruct (bucket_chunk _ _ _ _ H3 Ho' Hy) as (x & ? & ? & _). by exists x. }
  eapply wp_mono; [by apply (push_node_spec _ k (free_node c) (free_node <$> bl o)); [apply R3 | |]|].
  intros [] k' (m' & -> & Hd & Hu). exists m'. split; [done|].
  change (free_node c :: (free_node <$> bl o)) with (free_node <$> c :: bl o) in *. rewrite <- Eo in Hd, Hu.
  split_and!.
  - intros o' Ho'. destruct (decide (o' = o)) as [->|Hne]; [done|].
    assert (Eo' : bl' o' = bl o') by (unfold bl'; by rewrite fn_lookup_insert_ne). rewrite Eo'.
    apply (bucket_other PS o o' (bl' o) (bl o') (k_mem k) m'); try done; [|intros y Hy1 Hy2 | by apply R3].
    + intros y [Hy|Hy]%elem_of_app; [by apply (Hch o) | apply (Hch o'); [done | by rewrite Eo']].
    + rewrite <- Eo' in Hy2. apply (bo_in _ _ H3) in Hy1 as (s1 & Y1 & E1), Hy2 as (s2 & Y2 & E2); try done.
      pose proof (addr_unique PS _ _ H2 Y1 Y2 eq_refl). congruence.
  - eapply untouched_mono; [|exact Hu]. intros b'. apply bucket_fp; [done|]. intros y. by apply Hch.
  - eapply untouched_mono; [|exact Hu]. intros b' [Hb|(a & Ha & Hb)].
    + left. left. unfold bucket_at, range in *. lia.
    + apply list_elem_of_fmap in Ha as (y & -> & Hy).
      destruct (bucket_chunk _ _ _ _ H3 Ho Hy) as (x & Hx' & <- & Hf & _). right. exists x. split; [done|]. right.
      split; [done|]. apply (link_in_chunk PS); [done | done |]. unfold free_node, sizeof_Node, range in *. lia.
Qed.

(** ** One place of a page *)

Context (P1 : list hpage) (b : Z) (B1 B2 : list chunk) (P2 : list hpage).
Definition at_place (M : list chunk) : list hpage := P1 ++ (b, B1 ++ M ++ B2) :: P2.
Definition left_of : list chunk := (flat P1 ++ [(b, 8, true)]) ++ B1.
Definition right_of : list chunk := B2 ++ (b + 4076, 8, true) :: flat P2.

Lemma flat_at M : flat (at_place M) = left_of ++ M ++ right_of.
Proof. unfold at_place, left_of, right_of. by rewrite flat_focus, <- !app_assoc. Qed.

Lemma in_at M x : x ∈ flat (at_place M) <-> x ∈ left_of ++ right_of \/ x ∈ M.
Proof. rewrite flat_at, !elem_of_app. tauto. Qed.

Lemma pages_at M M' :
  pages_ok (at_place M) -> (forall a c, tiles a M c -> tiles a M' c) -> pages_ok (at_place M').
Proof.
  intros [T A P Q] HM. unfold at_place in *.
  assert (Hin : forall p, p ∈ P1 ++ (b, B1 ++ M' ++ B2) :: P2 -> exists q, q ∈ P1 ++ (b, B1 ++ M ++ B2) :: P2 /\ q.1 = p.1).
  { intros p. rewrite elem_of_app, elem_of_cons. intros [Hp|[->|Hp]]; [exists p | exists (b, B1 ++ M ++ B2) | exists p];
      (split; [list_in | done]). }
  split.
  - intros p. rewrite elem_of_app, elem_of_cons. intros [Hp|[->|Hp]]; [apply T; list_in | | apply T; list_in].
    specialize (T (b, B1 ++ M ++ B2) ltac:(list_in)). unfold page_ok in *. cbn [fst snd] in *.
    apply tiles_app in T as (c1 & T1 & T2). apply tiles_app in T2 as (c2 & T2 & T3).
    apply tiles_app. exists c1. split; [done|]. apply tiles_app. exists c2. auto.
  - apply pairwise_app in A as (A1 & [A2 A3] & A4). apply pairwise_app. split_and!; [done | split; done |].
    intros x y Hx [->|Hy]%elem_of_cons; [apply (A4 x (b, B1 ++ M ++ B2)); list_in | apply A4; list_in].
  - intros p (q & Hq & <-)%Hin. auto.
  - intros p b' (q & Hq & <-)%Hin. eauto.
Qed.

Lemma focus_at M1 x M2 : pages_ok (at_place (M1 ++ x :: M2)) ->
  focus (at_place (M1 ++ x :: M2)) x (left_of ++ M1) (M2 ++ right_of).
Proof.
  intros HP. unfold at_place in *.
  replace (B1 ++ (M1 ++ x :: M2) ++ B2) with ((B1 ++ M1) ++ x :: (M2 ++ B2)) in * by (by rewrite <- !app_assoc).
  destruct (focus_body _ _ _ _ _ _ HP) as [E1 E2]. split.
  - rewrite E1. unfold left_of, right_of. by rewrite <- !app_assoc.
  - rewrite <- E2. unfold right_of. by rewrite <- !app_assoc.
Qed.

Lemma tiles_flag c s u u' a e : tiles a [(c, s, u)] e -> tiles a [(c, s, u')] e.
Proof. done. Qed.

(** Chunks other than those of [M] are apart from all of [M]. *)
Lemma others_apart M x y : pages_ok (at_place M) -> x ∈ left_of ++ right_of -> y ∈ M -> c_apart x y.
Proof.
  intros HP Hx Hy. pose proof (flat_pairwise _ HP) as Hp. rewrite flat_at in Hp.
  apply pairwise_app in Hp as (_ & H2 & H3). apply elem_of_app in Hx as [Hx|Hx].
  - apply H3; list_in.
  - apply pairwise_app in H2 as (_ & _ & H2). apply c_apart_sym, H2; done.
Qed.

Lemma others_addr M x y : pages_ok (at_place M) -> x ∈ left_of ++ right_of -> y ∈ M -> c_addr x <> c_addr y.
Proof.
  intros HP Hx Hy. destruct (chunk_place _ x HP) as (_ & _ & ? & _); [apply in_at; by left|].
  destruct (chunk_place _ y HP) as (_ & _ & ? & _); [apply in_at; by right|].
  destruct (others_apart M x y HP Hx Hy); unfold c_end, c_total in *; lia.
Qed.

(** ** Buckets *)

Lemma buckets_take c s bl l1 l2 :
  pages_ok (at_place [(c, s, false)]) -> buckets_ok (at_place [(c, s, false)]) bl -> bl (bidx s) = l1 ++ c :: l2 ->
  buckets_ok (at_place [(c, s, true)]) (<[bidx s := l1 ++ l2]> bl).
Proof.
  intros HP [Hin Hnd] E.
  assert (Hx : (c, s, false) ∈ flat (at_place [(c, s, false)])) by (apply in_at; right; left).
  destruct (chunk_place _ _ HP Hx) as (_ & _ & Hs & _). cbn in Hs. pose proof (bidx_range s Hs) as Ho.
  assert (Hnd' : NoDup (l1 ++ l2) /\ c ∉ l1 ++ l2).
  { specialize (Hnd _ Ho). rewrite E in Hnd. apply NoDup_app in Hnd as (N1 & N2 & N3). apply NoDup_cons in N3 as [N3 N4].
    split; [apply NoDup_app; split_and!; [done | | done]; intros y Hy Hy2; apply (N2 y Hy); by right|].
    rewrite elem_of_app. intros [Hc|Hc]; [apply (N2 c Hc); left | done]. }
  assert (Hfree : forall y s', (y, s', false) ∈ flat (at_place [(c, s, true)]) <->
    (y, s', false) ∈ flat (at_place [(c, s, false)]) /\ y <> c).
  { intros y s'. rewrite !in_at, !list_elem_of_singleton. split.
    - intros [Hy|Hy]; [|done]. split; [by left|]. intros ->. by apply (others_addr _ _ _ HP Hy ltac:(left)).
    - intros [[Hy|Hy] Hne]; [by left | congruence]. }
  split.
  - intros o y Ho'. destruct (decide (o = bidx s)) as [->|Hne].
    + rewrite fn_lookup_insert. split.
      * intros Hy. destruct (proj1 (Hin (bidx s) y Ho)) as (s' & Hs' & Eb); [rewrite E; rewrite elem_of_app in *; rewrite elem_of_cons; tauto|].
        exists s'. split; [|done]. apply Hfree. split; [done|]. intros ->. by apply (proj2 Hnd').
      * intros (s' & [Hs' Hne]%Hfree & Eb). assert (Hy : y ∈ bl (bidx s)) by (apply Hin; [done | by exists s']).
        rewrite E, elem_of_app, elem_of_cons in Hy. rewrite elem_of_app. tauto.
    + rewrite fn_lookup_insert_ne by done. rewrite Hin by done. split.
      * intros (s' & Hs' & Eb). exists s'. split; [|done]. apply Hfree. split; [done|]. intros ->.
        assert ((c, s', false) = (c, s, false)) by (apply (addr_unique _ _ _ HP); done). congruence.
      * intros (s' & [Hs' _]%Hfree & Eb). by exists s'.
  - intros o Ho'. destruct (decide (o = bidx s)) as [->|Hne]; [rewrite fn_lookup_insert; exact (proj1 Hnd') | rewrite fn_lookup_insert_ne by done; auto].
Qed.

Lemma buckets_give c s bl :
  pages_ok (at_place [(c, s, true)]) -> buckets_ok (at_place [(c, s, true)]) bl ->
  buckets_ok (at_place [(c, s, false)]) (<[bidx s := c :: bl (bidx s)]> bl).
Proof.
  intros HP HB. assert (Hx : (c, s, true) ∈ flat (at_place [(c, s, true)])) by (apply in_at; right; left).
  destruct (chunk_place _ _ HP Hx) as (_ & _ & Hs & _). cbn in Hs.
  apply (buckets_add (at_place [(c, s, true)])); [| |done | done].
  - intros y s'. rewrite !in_at, !list_elem_of_singleton. split.
    + intros [Hy|Hy]; [by left; left | right; congruence].
    + intros [[Hy|Hy]|Hy]; [by left | done | right; congruence].
  - intros s' Hs'. pose proof (addr_unique _ _ _ HP Hs' Hx eq_refl). congruence.
Qed.

(** The same buckets for a list with the same free chunks. *)
Lemma buckets_same M M' bl :
  (forall y, c_used y = false -> y ∈ M' <-> y ∈ M) -> buckets_ok (at_place M) bl -> buckets_ok (at_place M') bl.
Proof.
  intros HM [Hin Hnd]. split; [|done]. intros o y Ho. rewrite Hin by done.
  split; intros (s' & Hs' & Eb); exists s'; (split; [|done]); rewrite in_at in *;
    (destruct Hs' as [Hs'|Hs']; [by left | right; by apply HM]).
Qed.

(** ** Flags *)

Lemma addrs_at M : c_addr <$> flat (at_place M) = (c_addr <$> left_of) ++ (c_addr <$> M) ++ (c_addr <$> right_of).
Proof. by rewrite flat_at, !fmap_app. Qed.

Lemma settle PS bl m x :
  hstate (c_addr x) PS bl m -> x ∈ flat PS -> ld8 m (c_addr x + 8) = (if c_used x then 1 else 0) -> hstate (-1) PS bl m.
Proof.
  intros [H1 H2 H3 [R1 R2 R3]] Hx E. split; try done. split; try done. intros y Hy _.
  destruct (decide (c_addr y = c_addr x)) as [Ea|Hne]; [|by apply R2].
  by rewrite (addr_unique PS y x H2 Hy Hx Ea).
Qed.

(** Writing the flag of [x] leaves it unsettled. *)
Lemma flag_step lim PS bl m x v :
  hstate lim PS bl m -> x ∈ flat PS -> lim = c_addr x \/ lim = -1 ->
  hstate (c_addr x) PS bl (st8 m (c_addr x + 8) v) /\ untouched (heap_fp PS) m (st8 m (c_addr x + 8) v).
Proof.
  intros [H1 H2 H3 [R1 R2 R3]] Hx Hlim. pose proof (st8_untouched m (c_addr x + 8) v) as Hu.
  destruct (flag_off_links PS x H2 Hx) as [F1 F2].
  assert (E1 : forall b', range (c_addr x + 8) 1 b' -> b' = c_addr x + 8) by (unfold range; intros; lia).
  split; [split; try done; split |].
  - apply (dll_keep _ _ _ _ _ Hu); [| |done].
    + intros b' Hb ->%E1. apply F1. by left.
    + intros a b' (y & -> & Hy)%list_elem_of_fmap Hb ->%E1. apply F1. right. by exists y.
  - intros y Hy Hne. rewrite ld8_st8_ne by lia. apply R2; [done|]. destruct Hlim as [->| ->]; [done|].
    destruct (chunk_place PS y H2 Hy) as (? & _). unfold KERNEL_VIRTUAL_BASE in *. lia.
  - intros o Ho. apply (dll_keep _ _ _ _ _ Hu); [| |by apply R3].
    + intros b' Hb ->%E1. apply F2. left. unfold bucket_at, range in *. lia.
    + intros a b' (c & -> & Hc)%list_elem_of_fmap Hb ->%E1. apply F2. right.
      destruct (bucket_chunk _ _ _ _ H3 Ho Hc) as (y & Hy & <- & _). by exists y.
  - eapply untouched_mono; [|exact Hu]. intros b' Hb. right. exists x. split; [done|]. left. unfold range in *. lia.
Qed.

(** Writes to bucket links leave flags and chunk links alone. *)
Lemma rep_fnodes PS m m' : statics_ok -> pages_ok PS -> untouched (fnodes PS) m m' ->
  dll m first_var (c_addr <$> flat PS) ->
  dll m' first_var (c_addr <$> flat PS) /\ (forall x, x ∈ flat PS -> ld8 m' (c_addr x + 8) = ld8 m (c_addr x + 8)).
Proof.
  intros H1 H2 Hu Hd. split; [by apply (all_keep PS m m' H1 H2 Hu)|]. intros x Hx. apply Hu.
  by apply (flag_off_links PS x).
Qed.

(** ** Leaving and entering a bucket *)

Lemma take_rep c s bl l1 l2 m m' :
  hstate (-1) (at_place [(c, s, false)]) bl m -> bl (bidx s) = l1 ++ c :: l2 ->
  dll m' (bucket_at (bidx s)) (free_node <$> l1 ++ l2) ->
  untouched (dll_fp (bucket_at (bidx s)) (free_node <$> l1 ++ c :: l2)) m m' ->
  hstate c (at_place [(c, s, true)]) (<[bidx s := l1 ++ l2]> bl) m' /\
  untouched (heap_fp (at_place [(c, s, false)])) m m' /\ ld8 m' (c + 8) = 0.
Proof.
  intros [H1 H2 H3 [R1 R2 R3]] E Hd Hu. set (PS := at_place _) in *.
  assert (Hx : (c, s, false) ∈ flat PS) by (apply in_at; right; left).
  destruct (chunk_place _ _ H2 Hx) as (Hk & _ & Hs & _). cbn in Hs, Hk. pose proof (bidx_range s Hs) as Ho.
  assert (Hch : forall o y, 0 <= o < 9 -> y ∈ bl o -> exists x, x ∈ flat PS /\ c_addr x = y).
  { intros o y Ho' Hy. destruct (bucket_chunk _ _ _ _ H3 Ho' Hy) as (x & ? & ? & _). by exists x. }
  assert (Hu' : untouched (fnodes PS) m m').
  { eapply untouched_mono; [|exact Hu]. intros b'. apply bucket_fp; [done|]. intros y Hy. apply (Hch (bidx s)); [done|]. by rewrite E. }
  destruct (rep_fnodes PS m m' H1 H2 Hu' R1) as [R1' Rf].
  assert (Hm : forall x, x ∈ flat (at_place [(c, s, true)]) -> exists y, y ∈ flat PS /\ c_addr y = c_addr x /\
    (c_addr x <> c -> c_used y = c_used x)).
  { intros x [Hx'|Hx'%list_elem_of_singleton]%in_at; [exists x | exists (c, s, false)].
    - split; [apply in_at; by left | done].
    - subst x. split; [done|]. split; [done|]. cbn. done. }
  split_and!; [split; [done | | |split] | |].
  - by eapply pages_at.
  - by apply buckets_take.
  - rewrite addrs_at. unfold PS in R1'. by rewrite addrs_at in R1'.
  - intros x Hx' Hne. destruct (Hm x Hx') as (y & Hy & Ea & Eu). rewrite <- Ea, <- (Eu Hne), Rf by done. apply R2; [done|].
    destruct (chunk_place _ _ H2 Hy) as (? & _). unfold KERNEL_VIRTUAL_BASE in *. lia.
  - intros o Ho'. destruct (decide (o = bidx s)) as [->|Hne]; [by rewrite fn_lookup_insert|].
    rewrite fn_lookup_insert_ne by done. rewrite <- E in Hu.
    apply (bucket_other PS (bidx s) o (bl (bidx s)) (bl o) m m'); try done; [|intros y Hy1 Hy2 | by apply R3].
    + intros y [Hy|Hy]%elem_of_app; [by apply (Hch (bidx s)) | by apply (Hch o)].
    + apply (bo_in _ _ H3) in Hy1 as (s1 & Y1 & E1), Hy2 as (s2 & Y2 & E2); try done.
      pose proof (addr_unique PS _ _ H2 Y1 Y2 eq_refl). congruence.
  - eapply untouched_mono; [|exact Hu]. intros b' [Hb|(a & Ha & Hb)].
    + left. left. unfold bucket_at, range in *. lia.
    + apply list_elem_of_fmap in Ha as (y & -> & Hy). rewrite <- E in Hy.
      destruct (bucket_chunk _ _ _ _ H3 Ho Hy) as (x & Hx' & <- & Hf & _). right. exists x. split; [done|]. right.
      split; [done|]. apply (link_in_chunk PS); [done | done |]. unfold free_node, sizeof_Node, range in *. lia.
  - pose proof (Rf _ Hx) as Ef. cbn in Ef. rewrite Ef. apply (R2 _ Hx). cbn. unfold KERNEL_VIRTUAL_BASE in *. lia.
Qed.

Lemma pop_chunk_spec c s bl l k :
  hstate (-1) (at_place [(c, s, false)]) bl (k_mem k) -> bl (bidx s) = c :: l ->
  wp (pop_free_chunk (bidx s)) k (fun r k' => r = c /\ exists m', k' = set_mem m' k /\
    hstate c (at_place [(c, s, true)]) (<[bidx s := l]> bl) m' /\
    untouched (heap_fp (at_place [(c, s, false)])) (k_mem k) m').
Proof.
  intros HT E. pose proof HT as [H1 H2 H3 [R1 R2 R3]].
  assert (Hx : (c, s, false) ∈ flat (at_place [(c, s, false)])) by (apply in_at; right; left).
  destruct (chunk_place _ _ H2 Hx) as (Hk & He & Hs & _).
  unfold c_end, c_total, c_addr, c_size in Hs, Hk, He. cbn [fst snd] in Hs, Hk, He. pose proof (bidx_range s Hs) as Ho.
  destruct (bucket_nodes _ _ _ H1 H2 H3 Ho) as [N1 N2]. specialize (R3 _ Ho). rewrite E, fmap_cons in *.
  unfold pop_free_chunk, NUM_SIZES. destruct (Z.ltb_spec (bidx s) 0); [lia|]. rewrite Z.geb_leb.
  destruct (Z.leb_spec 9 (bidx s)); [lia|]. cbn [orb]. apply wp_bind.
  eapply wp_mono; [by apply (pop_node_spec _ k (free_node c) (free_node <$> l))|].
  intros r k' (-> & m' & -> & Hd & Hu). apply wp_ret.
  split; [unfold free_node, HEADER_SIZE, c_end, KERNEL_VIRTUAL_BASE in *; rewrite u32_small; lia|].
  exists m'. split; [done|]. destruct (take_rep c s bl [] l (k_mem k) m') as (A & B & _); [done | done | done | |done].
  by rewrite app_nil_l, fmap_cons.
Qed.

Lemma remove_chunk_spec c s bl k :
  hstate (-1) (at_place [(c, s, false)]) bl (k_mem k) ->
  wp (remove_node (bucket_at (bidx s)) (c + 12)) k (fun _ k' => exists m' bl', k' = set_mem m' k /\
    hstate c (at_place [(c, s, true)]) bl' m' /\ untouched (heap_fp (at_place [(c, s, false)])) (k_mem k) m').
Proof.
  intros HT. pose proof HT as [H1 H2 H3 [R1 R2 R3]].
  assert (Hx : (c, s, false) ∈ flat (at_place [(c, s, false)])) by (apply in_at; right; left).
  destruct (chunk_place _ _ H2 Hx) as (_ & _ & Hs & _). cbn in Hs. pose proof (bidx_range s Hs) as Ho.
  destruct (bucket_nodes _ _ _ H1 H2 H3 Ho) as [N1 N2]. specialize (R3 _ Ho).
  assert (Hc : c ∈ bl (bidx s)) by (apply (bo_in _ _ H3); [done | by exists s]).
  apply list_elem_of_split in Hc as (l1 & l2 & E). rewrite E, fmap_app, fmap_cons in *.
  eapply wp_mono; [by apply (remove_node_spec _ k (free_node <$> l1) (free_node c) (free_node <$> l2))|].
  intros [] k' (m' & -> & Hd & Hu). exists m', (<[bidx s := l1 ++ l2]> bl). split; [done|].
  destruct (take_rep c s bl l1 l2 (k_mem k) m') as (A & B & _); [done | done | | |done]; by rewrite fmap_app, ?fmap_cons.
Qed.

Lemma push_chunk_spec c s bl k :
  hstate c (at_place [(c, s, true)]) bl (k_mem k) -> ld8 (k_mem k) (c + 8) = 0 ->
  wp (push_node (bucket_at (bidx s)) (c + 12)) k (fun _ k' => exists m' bl', k' = set_mem m' k /\
    hstate (-1) (at_place [(c, s, false)]) bl' m' /\ untouched (heap_fp (at_place [(c, s, false)])) (k_mem k) m').
Proof.
  intros [H1 H2 H3 [R1 R2 R3]] Hflag. set (PS := at_place [(c, s, true)]) in *. set (PS' := at_place [(c, s, false)]).
  assert (H2' : pages_ok PS') by (by eapply pages_at).
  pose proof (buckets_give c s bl H2 H3) as H3'. fold PS' in H3'.
  assert (Hx : (c, s, false) ∈ flat PS') by (apply in_at; right; left).
  destruct (chunk_place _ _ H2' Hx) as (_ & _ & Hs & _). cbn in Hs. pose proof (bidx_range s Hs) as Ho.
  assert (Ea : c_addr <$> flat PS' = c_addr <$> flat PS) by (unfold PS, PS'; by rewrite !addrs_at).
  eapply wp_mono; [by apply (bucket_push PS' bl c (bidx s) k)|].
  intros [] k' (m' & -> & Hd & Hu' & Hu). exists m', (<[bidx s := c :: bl (bidx s)]> bl). split; [done|].
  rewrite <- Ea in R1. destruct (rep_fnodes PS' (k_mem k) m' H1 H2' Hu' R1) as [R1' Rf].
  split; [split; [done | done | done | split; [done | | done]] | done].
  intros x Hx' _. rewrite Rf by done. apply in_at in Hx' as [Hx'|Hx'%list_elem_of_singleton]; [|by subst x].
  apply R2; [apply in_at; by left|]. apply (others_addr [(c, s, true)] x (c, s, true) H2 Hx'). left.
Qed.

(** ** Cutting and joining *)

Lemma tiles_cut c s a u u' x e :
  8 <= a -> (4 | a) -> a + 20 <= s ->
  tiles x [(c, s, u)] e -> tiles x [(c, a, u); (c + 12 + a, s - a - 12, u')] e.
Proof.
  intros H1 H2 H3 (E1 & _ & H4 & E2). cbn [tiles] in *. unfold c_end, c_total, c_addr, c_size in *. cbn [fst snd] in *.
  split_and!; [done | done | done | lia | lia | | lia].
  apply Z.divide_sub_r; [apply Z.divide_sub_r; [done | done] | by exists 3].
Qed.

Lemma tiles_join c s n s2 u u' u'' x e :
  tiles x [(c, s, u); (n, s2, u')] e -> tiles x [(c, s + 12 + s2, u'')] e /\ n = c + 12 + s.
Proof.
  cbn [tiles]. unfold c_end, c_total, c_addr, c_size. cbn [fst snd]. intros (H1 & H2 & H3 & H4 & H5 & H6 & H7).
  split_and!; [done | lia | | lia | lia]. apply Z.divide_add_r; [|done]. apply Z.divide_add_r; [done | by exists 3].
Qed.

Lemma right_cons : exists y l, c_addr <$> right_of = y :: l.
Proof. unfold right_of. destruct B2 as [|x B]; cbn; eauto. Qed.

(** The chunk [x] between a page's fences is not the first of the list. *)
Lemma left_cons : exists y l, c_addr <$> left_of = y :: l.
Proof. unfold left_of. destruct (flat P1) as [|x L]; cbn; eauto. Qed.

(** A change of the list of all chunks: the flags and buckets stay. *)
Lemma relink M M' bl lim lim' m m' :
  hstate lim (at_place M) bl m -> pages_ok (at_place M') ->
  (forall x, x ∈ M' -> exists y, y ∈ M /\ c_addr y = c_addr x /\ c_used y = c_used x /\
     (c_addr x <> lim' -> c_addr x <> lim) \/ c_addr x = lim') ->
  (forall x, c_used x = false -> x ∈ M' <-> x ∈ M) ->
  (forall x, x ∈ left_of ++ right_of -> c_addr x <> lim) ->
  dll m' first_var (c_addr <$> flat (at_place M')) ->
  untouched (links (at_place M)) m m' \/ untouched (links (at_place M')) m m' ->
  hstate lim' (at_place M') bl m'.
Proof.
  intros [H1 H2 H3 [R1 R2 R3]] H2' HM HF Hl Hd Hu.
  assert (H3' : buckets_ok (at_place M') bl) by (by eapply buckets_same).
  assert (Hin : forall x, x ∈ flat (at_place M') -> c_addr x <> lim' -> exists y, y ∈ flat (at_place M) /\
    c_addr y = c_addr x /\ c_used y = c_used x /\ c_addr x <> lim).
  { intros x [Hx|Hx]%in_at Hne; [exists x; split_and!; [apply in_at; by left | done | done | by apply Hl]|].
    destruct (HM x Hx) as [y [(Hy & E1 & E2 & Hn)|E]]; [|done]. exists y. split_and!; [apply in_at; by right | done | done | auto]. }
  split; [done | done | done |]. split; [done | |].
  - intros x Hx Hne. destruct (Hin x Hx Hne) as (y & Hy & E1 & E2 & Hn). rewrite <- E1, <- E2.
    transitivity (ld8 m (c_addr y + 8)); [|apply R2; [done | by rewrite E1]].
    destruct Hu as [Hu|Hu]; apply Hu; [by apply flag_off_links | rewrite E1; by apply flag_off_links].
  - intros o Ho. destruct Hu as [Hu|Hu].
    + apply (bucket_keep (at_place M) o (bl o) m m'); try done; [|by apply R3].
      intros c Hc. destruct (bucket_chunk _ _ _ _ H3 Ho Hc) as (x & ? & ? & _). by exists x.
    + apply (bucket_keep (at_place M') o (bl o) m m'); try done; [|by apply R3].
      intros c Hc. destruct (bucket_chunk _ _ _ _ H3' Ho Hc) as (x & ? & ? & _). by exists x.
Qed.

(** Writes elsewhere, by the owners of used chunks in particular, do no harm. *)
Lemma hstate_frame lim PS bl m m' :
  hstate lim PS bl m -> (forall b', heap_fp PS b' -> ld8 m' b' = ld8 m b') -> hstate lim PS bl m'.
Proof.
  intros [H1 H2 H3 [R1 R2 R3]] Hm. split; [done | done | done |].
  assert (Hdll : forall h l, agree m m' h 4 -> (forall a, a ∈ l -> agree m m' a 8) -> dll m h l -> dll m' h l).
  { intros h l Ha Hl [D1 D2]. split; [rewrite <- D1; by apply ld32_agree | by eapply dseg_frame]. }
  split.
  - apply Hdll; [| |done].
    + intros b' Hb. apply Hm. left. by right.
    + intros a (x & -> & Hx)%list_elem_of_fmap b' Hb. apply Hm. right. exists x. split; [done|]. left. unfold range in *. lia.
  - intros x Hx Hne. rewrite <- (R2 x Hx Hne). apply Hm. right. exists x. split; [done|]. left. unfold range. lia.
  - intros o Ho. apply Hdll; [| |by apply R3].
    + intros b' Hb. apply Hm. left. left. unfold bucket_at, range in *. lia.
    + intros a (c & -> & Hc)%list_elem_of_fmap b' Hb. apply Hm. right.
      destruct (bucket_chunk _ _ _ _ H3 Ho Hc) as (x & Hx & <- & Hf & _). exists x. split; [done|]. right. split; [done|].
      apply (link_in_chunk PS); [done | done |]. unfold free_node, range in *. lia.
Qed.

(** The data of a used chunk is its owner's. *)
Lemma used_data PS x b' : pages_ok PS -> x ∈ flat PS -> c_used x = true ->
  range (c_addr x + 12) (c_size x) b' -> ~ heap_fp PS b'.
Proof.
  intros H2 Hx Hu Hb Hf. destruct (chunk_place _ _ H2 Hx) as (_ & _ & _ & Hst).
  assert (Hin : range (c_addr x) (c_total x) b') by (unfold range, c_total in *; lia).
  destruct Hf as [Hf|(y & Hy & Hf)]; [by apply (Hst b')|].
  assert (y = x) as ->; [|destruct Hf as [Hf|[Hf _]]; [unfold range in *; lia | congruence]].
  apply (chunk_unique PS y x b' H2 Hy Hx); [|done].
  destruct Hf as [Hf|[_ Hf]]; [|done]. apply (link_in_chunk PS); [done | done |]. unfold range in *. lia.
Qed.

Lemma links_fp PS b' : links PS b' -> heap_fp PS b'.
Proof.
  intros [Hb|(x & Hx & Hb)]; [left; by right | right]. exists x. split; [done|]. left. unfold range in *. lia.
Qed.

Lemma split_chunk_spec c s a bl k :
  hstate (-1) (at_place [(c, s, true)]) bl (k_mem k) -> 8 <= a -> (4 | a) -> a + 20 <= s ->
  let n := c + 12 + a in
  let PS' := at_place [(c, a, true); (n, s - a - 12, true)] in
  wp (insert_node c n) (set_mem (st8 (k_mem k) (n + 8) 0) k) (fun _ k' => exists m', k' = set_mem m' k /\
    hstate n PS' bl m' /\ ld8 m' (n + 8) = 0 /\ untouched (heap_fp PS') (k_mem k) m').
Proof.
  intros HT Ha Ha4 Has n PS'. set (PS := at_place [(c, s, true)]) in *. set (m1 := st8 (k_mem k) (n + 8) 0).
  pose proof HT as [H1 H2 H3 [R1 _ _]].
  assert (H2' : pages_ok PS') by (eapply pages_at; [exact H2|]; intros x e; by apply tiles_cut).
  assert (Hx : (c, s, true) ∈ flat PS) by (apply in_at; right; left).
  assert (Hn : (n, s - a - 12, true) ∈ flat PS') by (apply in_at; right; list_in).
  assert (HT1 : hstate (-1) PS bl m1).
  { eapply hstate_frame; [exact HT|]. intros b' Hb. apply ld8_st8_ne. intros <-.
    apply (used_data PS _ (n + 8) H2 Hx eq_refl); [|done]. unfold range, n, c_addr, c_size. cbn [fst snd]. lia. }
  destruct right_cons as (y & l & Er). destruct (all_nodes PS' H1 H2') as [N1 N2].
  pose proof (hr_all _ _ _ _ (ht_rep _ _ _ _ HT1)) as Hd. unfold PS, PS' in Hd, N1, N2.
  rewrite addrs_at, Er in Hd, N1, N2. cbn [fmap list_fmap c_addr fst] in Hd, N1, N2. cbn [app] in Hd, N1, N2.
  change (list_fmap Z Z) with (@fmap list _ Z Z) in *.
  set (A := c_addr <$> left_of) in *.
  assert (Hperm : A ++ c :: n :: y :: l ≡ₚ n :: A ++ c :: y :: l).
  { rewrite (Permutation_swap n c (y :: l)). by rewrite <- Permutation_middle. }
  eapply wp_mono; [apply (insert_node_spec first_var (set_mem m1 k) A c y l n); [exact Hd | |]|].
  - by eapply nodes_ok_perm.
  - eapply head_ok_incl; [|exact N2]. intros z Hz. by rewrite Hperm.
  - intros [] k' (m' & -> & Hd' & Hu). cbn [k_mem set_mem] in Hu.
    assert (Hu' : untouched (links PS') m1 m').
    { eapply untouched_mono; [|exact Hu]. intros b' Hb. apply all_fp. unfold PS'. rewrite addrs_at, Er.
      eapply dll_fp_incl; [|exact Hb]. intros z Hz. cbn. change (list_fmap Z Z) with (@fmap list _ Z Z). fold A. by rewrite Hperm. }
    exists m'. split_and!; [done | | |].
    + eapply (relink [(c, s, true)] _ bl (-1) n m1 m'); [exact HT1 | exact H2' | | | | | by right].
      * intros x [->|[->|[]%elem_of_nil]%elem_of_cons]%elem_of_cons; exists (c, s, true); [left | by right].
        split_and!; [left | done | done |]. intros _. unfold c_addr. cbn.
        destruct (chunk_place _ _ H2 Hx) as (Hk & _). unfold c_addr, KERNEL_VIRTUAL_BASE in Hk. cbn in Hk. lia.
      * intros x Hf. rewrite !elem_of_cons, !elem_of_nil. split; [intros [->|[->|[]]] | intros [->|[]]]; done.
      * intros x Hx'. destruct (chunk_place PS x H2) as (Hk & _); [apply in_at; by left|].
        unfold KERNEL_VIRTUAL_BASE in Hk. lia.
      * rewrite addrs_at, Er. exact Hd'.
    + rewrite Hu'; [unfold m1; by rewrite ld8_st8_eq|]. exact (proj1 (flag_off_links PS' _ H2' Hn)).
    + eapply untouched_trans; eapply untouched_mono; [|apply st8_untouched| |exact Hu']; [|apply links_fp].
      intros b' Hb. right. exists (n, s - a - 12, true). split; [done|]. left. unfold range, c_addr in *. cbn. lia.
Qed.

(** The chunk behind another one of a page is not the second of the list, so
    [remove_node] unlinks it without looking at the list's head. *)
Lemma second_other lim x y M bl m :
  hstate lim (at_place (x :: y :: M)) bl m ->
  let first := ld32 m first_var in
  first <> c_addr y /\ ld32 m first <> c_addr y /\ KERNEL_VIRTUAL_BASE <= first /\ first + 8 <= 2 ^ 32.
Proof.
  intros [H1 H2 H3 [R1 _ _]] first. destruct (all_nodes _ H1 H2) as [N1 N2]. rewrite addrs_at in R1, N1, N2.
  destruct left_cons as (f & L & E). rewrite E in R1, N1, N2. cbn [fmap list_fmap app] in R1, N1, N2.
  change (list_fmap chunk Z) with (@fmap list _ chunk Z) in *.
  assert (Ef : first = f) by exact (proj1 R1). rewrite Ef.
  destruct (dll_at _ _ [] f _ R1) as [Hn _]. unfold node_next in Hn. rewrite Hn.
  destruct (node_facts _ _ f N1 N2 ltac:(left)) as (_ & Hk & He & _).
  destruct N1 as (Hnd & _). apply NoDup_cons in Hnd as [Hf Hnd].
  split_and!; [| |done | done].
  - intros ->. apply Hf. list_in.
  - destruct L as [|z L]; cbn [hd app] in *.
    + intros Ex. rewrite Ex in Hnd. apply NoDup_cons in Hnd as [Hnd _]. apply Hnd. left.
    + intros ->. apply NoDup_cons in Hnd as [Hnd _]. apply Hnd. list_in.
Qed.

Lemma remove_node_head h h' n k :
  mapped h 4 = true -> mapped h' 4 = true -> ld32 (k_mem k) h <> n -> ld32 (k_mem k) h' <> n ->
  remove_node h n k = remove_node h' n k.
Proof.
  intros M1 M2 N1 N2. unfold remove_node, mbind, M_bind, load32, access. rewrite M1, M2.
  destruct (Z.eqb_spec n (ld32 (k_mem k) h)), (Z.eqb_spec n (ld32 (k_mem k) h')); congruence.
Qed.

Lemma join_spec lim lim' c s n s2 bl k h :
  hstate lim (at_place [(c, s, true); (n, s2, true)]) bl (k_mem k) ->
  lim = n /\ lim' = -1 \/ (lim = c \/ lim = -1) /\ lim' = lim ->
  h = ld32 (k_mem k) first_var \/ h = first_var ->
  wp (remove_node h n) k (fun _ k' => exists m', k' = set_mem m' k /\
    hstate lim' (at_place [(c, s + 12 + s2, true)]) bl m' /\
    untouched (heap_fp (at_place [(c, s, true); (n, s2, true)])) (k_mem k) m').
Proof.
  intros HT Hlim Hh. set (PS := at_place [(c, s, true); (n, s2, true)]) in *. pose proof HT as [H1 H2 H3 [R1 _ _]].
  destruct (second_other _ _ _ _ _ _ HT) as (F1 & F2 & F3 & F4). destruct H1 as (S1 & S2 & S3 & S4 & S5) eqn:ES. clear ES.
  assert (Hx : (c, s, true) ∈ flat PS) by (apply in_at; right; left).
  assert (Hn : (n, s2, true) ∈ flat PS) by (apply in_at; right; list_in).
  assert (Hcn : c <> n).
  { intros ->. pose proof (po_tiles _ H2 (b, B1 ++ [(n, s, true); (n, s2, true)] ++ B2) ltac:(unfold PS, at_place; list_in)) as Ht.
    apply tiles_app in Ht as (e1 & _ & Ht). apply tiles_app in Ht as (e2 & Ht & _). apply (tiles_join _ _ _ _ _ _ true) in Ht as [_ Ht].
    destruct (chunk_place _ _ H2 Hx) as (_ & _ & Hs & _). cbn in Hs. lia. }
  assert (H2' : pages_ok (at_place [(c, s + 12 + s2, true)])).
  { eapply pages_at; [exact H2|]. intros x e Ht. by apply (tiles_join _ _ _ _ _ _ true) in Ht as [? _]. }
  destruct (all_nodes PS H1 H2) as [N1 N2]. pose proof R1 as Hd. unfold PS in Hd, N1, N2. rewrite addrs_at in Hd, N1, N2.
  set (A := c_addr <$> left_of) in *. set (R := c_addr <$> right_of) in *.
  change (c_addr <$> [(c, s, true); (n, s2, true)]) with [c; n] in *.
  replace (A ++ [c; n] ++ R) with ((A ++ [c]) ++ n :: R) in Hd, N1, N2 by (by rewrite <- app_assoc).
  assert (Hr : remove_node h n k = remove_node first_var n k).
  { apply remove_node_head; [| by apply mapped_spec | |exact F1];
      destruct Hh as [->| ->]; [apply mapped_spec; lia | by apply mapped_spec | exact F2 | exact F1]. }
  apply (wp_ext _ _ _ _ Hr). eapply wp_mono; [by apply (remove_node_spec first_var k (A ++ [c]) n R)|].
  intros [] k' (m' & -> & Hd' & Hu). exists m'.
  assert (Hu' : untouched (links PS) (k_mem k) m').
  { eapply untouched_mono; [|exact Hu]. intros b' Hb. apply all_fp. unfold PS. rewrite addrs_at.
    replace (A ++ (c_addr <$> [(c, s, true); (n, s2, true)]) ++ R) with ((A ++ [c]) ++ n :: R); [done|]. by rewrite <- app_assoc. }
  split_and!; [done | | eapply untouched_mono; [apply links_fp | exact Hu']].
  eapply (relink [(c, s, true); (n, s2, true)] _ bl lim lim' (k_mem k) m'); [exact HT | exact H2' | | | | | by left].
  - intros x ->%list_elem_of_singleton. exists (c, s, true). left. split_and!; [left | done | done |]. unfold c_addr. cbn.
    destruct Hlim as [[-> ->]|[_ ->]]; [done | tauto].
  - intros x Hf. rewrite !elem_of_cons, !elem_of_nil. split; [intros [->|[]] | intros [->|[->|[]]]]; done.
  - intros x Hx'. destruct (chunk_place PS x H2) as (Hk & _); [apply in_at; by left|]. unfold KERNEL_VIRTUAL_BASE in Hk.
    pose proof (others_addr _ x (c, s, true) H2 Hx' ltac:(left)). pose proof (others_addr _ x (n, s2, true) H2 Hx' ltac:(list_in)).
    destruct Hlim as [[-> _]|[[->| ->] _]]; [done | done | lia].
  - rewrite addrs_at. change (c_addr <$> [(c, s + 12 + s2, true)]) with [c]. by rewrite app_assoc.
Qed.
End steps.
