(* ===== verification/HeapPages.v ===== *)
(** * Pages of the heap: [create_chunk] and [return_page] *)

From Stdlib Require Import ZArith Lia Bool.
From stdpp Require Import base functions list gmap strings.
From S2P Require Import Prelude Machine StringLib Console Node Bump Buddy BuddyModel BuddyRefine BuddyInit Pmm Heap HeapModel HeapSteps.

(** ** A chain put behind the end of a list *)

Lemma insert_end_spec h k l1 p n r :
  dll (k_mem k) h (l1 ++ [p]) -> dseg (k_mem k) 0 (n :: r) 0 ->
  nodes_ok ((l1 ++ [p]) ++ n :: r) -> head_ok h ((l1 ++ [p]) ++ n :: r) ->
  wp (insert_node p n) k (fun _ => leaves_dll h k ((l1 ++ [p]) ++ n :: r) ((l1 ++ [p]) ++ n :: r)).
Proof.
  intros [Hh Hl] Hr Hok Hhok.
  assert (Hnp : n + 8 <= p \/ p + 8 <= n) by (apply (nodes_ok_apart_mid _ _ _ p Hok); list_in).
  node_at Hok Hhok n. node_at Hok Hhok p. pose proof (head_facts _ _ Hhok).
  assert (Hok1 : nodes_ok (l1 ++ [p])) by (eapply nodes_ok_sublist; [|exact Hok]; by apply sublist_inserts_r).
  assert (Hok2 : nodes_ok (n :: r)) by (eapply nodes_ok_sublist; [|exact Hok]; by apply sublist_inserts_l).
  assert (Hx : forall x y, x ∈ l1 ++ [p] -> y ∈ n :: r -> x + 8 <= y \/ y + 8 <= x).
  { intros x y Hx Hy. eapply nodes_ok_apart; [exact Hok | list_in | list_in |].
    destruct Hok as (Hnd & _). apply NoDup_app in Hnd as (_ & Hd & _). intros ->. by apply (Hd y Hx). }
  assert (Ep : last_or 0 (l1 ++ [p]) = p) by (unfold last_or; by rewrite last_snoc).
  assert (Hpn : ld32 (k_mem k) p = 0).
  { apply dseg_app in Hl as [_ (_ & Hn & _)]. exact Hn. }
  unfold insert_node. node_unfold. wp_steps.
  eexists. split_and!; [reflexivity | | fp_stores]. split.
  - pose proof (head_ok_apart h _ p Hhok ltac:(list_in)). pose proof (head_ok_apart h _ n Hhok ltac:(list_in)).
    mem_simp. unfold NULL. rewrite Hh, hd_app. destruct l1; done.
  - apply dseg_app. unfold NULL. rewrite Ep. split.
    + apply dseg_st32; [intros y Hy; specialize (Hx y n Hy ltac:(left)); lia|].
      apply (dseg_set_end_at p (k_mem k) 0 (l1 ++ [p]) 0 n); try done; [lia | by destruct l1].
    + apply (dseg_set_start _ 0 p (n :: r)); [done | | lia | done].
      apply dseg_st32; [|exact Hr]. intros y Hy. specialize (Hx p y ltac:(list_in) Hy). lia.
Qed.

(** ** A fresh page as three chunks *)

Definition new_page (f : Z) : hpage := (f, [(f + 20, 4044, false)]).

Lemma new_page_ok f : page_ok (new_page f).
Proof.
  unfold page_ok, new_page. cbn [tiles fst snd]. unfold c_end, c_total, c_addr, c_size. cbn [fst snd].
  split_and!; [done | lia | by exists 1011 | lia].
Qed.

(** The page with its chunks linked and flagged. *)
Record page_built (f : Z) (m : memory) : Prop := {
  pb_links : dseg m 0 [f; f + 20; f + 4076] 0;
  pb_first : ld8 m (f + 8) = 1;
  pb_middle : ld8 m (f + 20 + 8) = 0;
  pb_last : ld8 m (f + 4076 + 8) = 1 }.

Definition built_mem (m : memory) (f : Z) : memory :=
  st32 (st32 (st32 (st32 (st8 (st8 (st8 m (f + 8) 1) (f + 20 + 8) 0) (f + 4076 + 8) 1)
    f (f + 20)) (f + 20 + 4) f) (f + 20) (f + 4076)) (f + 4076 + 4) (f + 20).

Lemma built_page f m :
  KERNEL_VIRTUAL_BASE <= f -> f + 4096 <= 2 ^ 32 -> (forall i, 0 <= i < 4096 -> ld8 m (f + i) = 0) ->
  page_built f (built_mem m f).
Proof.
  intros H1 H2 Hz. unfold KERNEL_VIRTUAL_BASE in *.
  assert (Hz32 : forall i, 0 <= i -> i + 4 <= 4096 -> ld32 m (f + i) = 0).
  { intros i Hi1 Hi2. unfold ld32, ld16. rewrite <- !Z.add_assoc, !Hz by lia. done. }
  assert (E1 : ld32 m (f + 4) = 0) by (apply Hz32; lia).
  assert (E2 : ld32 m (f + 4076) = 0) by (apply Hz32; lia).
  unfold built_mem. split; [cbn [dseg hd]; unfold node_next, node_prev; split_and!; try done | | |]; mem_simp; done.
Qed.

Lemma flat_snoc PS p : flat (PS ++ [p]) = flat PS ++ page_chunks p.
Proof. induction PS as [|q PS IH]; cbn [flat app]; [by rewrite app_nil_r | by rewrite IH, app_assoc]. Qed.

Lemma built_untouched m f : untouched (range f 4096) m (built_mem m f).
Proof.
  unfold built_mem. repeat first [eapply untouched_trans; [|eapply untouched_mono; [|first [apply st32_untouched | apply st8_untouched]];
    unfold range; intros; lia] | apply untouched_refl].
Qed.

Section link.
Context `{HS : HeapSymbols}.

(** The fresh page [f], built in [m], next to the heap [PS]. *)
Record page_added (PS : list hpage) (bl : Z -> list Z) (f : Z) (m : memory) : Prop := {
  pa_heap : hstate (-1) PS bl m;
  pa_built : page_built f m;
  pa_pages : pages_ok (PS ++ [new_page f]) }.

Lemma new_chunks PS f x : x ∈ flat (PS ++ [new_page f]) <->
  x ∈ flat PS \/ x = (f, 8, true) \/ x = (f + 20, 4044, false) \/ x = (f + 4076, 8, true).
Proof.
  rewrite flat_snoc, elem_of_app. unfold page_chunks, new_page. cbn [fst snd app].
  rewrite !elem_of_cons, elem_of_nil. tauto.
Qed.

(** Its middle chunk enters the bucket of the largest chunks. *)
Lemma add_push PS bl f k :
  page_added PS bl f (k_mem k) ->
  wp (push_node (bucket_at 8) (f + 20 + 12)) k (fun _ k' => exists m', k' = set_mem m' k /\
    dll m' first_var (c_addr <$> flat PS) /\ dseg m' 0 [f; f + 20; f + 4076] 0 /\
    (forall x, x ∈ flat (PS ++ [new_page f]) -> ld8 m' (c_addr x + 8) = if c_used x then 1 else 0) /\
    buckets_ok (PS ++ [new_page f]) (<[8 := (f + 20) :: bl 8]> bl) /\
    (forall o, 0 <= o < 9 -> dll m' (bucket_at o) (free_node <$> (<[8 := (f + 20) :: bl 8]> bl) o)) /\
    untouched (heap_fp (PS ++ [new_page f])) (k_mem k) m').
Proof.
  intros [[H1 H2 H3 [R1 R2 R3]] [L1 L2 L3 L4] HP]. set (PS' := PS ++ [new_page f]) in *.
  assert (HB : buckets_ok PS' (<[8 := (f + 20) :: bl 8]> bl)).
  { assert (Hm : (f + 20, 4044, false) ∈ flat PS') by (apply new_chunks; tauto).
    apply (buckets_add PS PS' (f + 20) 4044 bl); [| |lia | done].
    - intros y s'. unfold PS'. rewrite new_chunks. split.
      + intros [Hy|[Hy|[Hy|Hy]]]; [by left | done | right; congruence | done].
      + intros [Hy|Hy]; [by left | right; right; left; congruence].
    - intros s' Hs'. pose proof (flat_pairwise _ HP) as Hpw. unfold PS' in Hpw. rewrite flat_snoc in Hpw.
      apply pairwise_app in Hpw as (_ & _ & Hpw).
      destruct (Hpw (f + 20, s', false) (f + 20, 4044, false) Hs' ltac:(unfold page_chunks, new_page; cbn; list_in));
        destruct (chunk_place _ _ H2 Hs') as (_ & _ & Hs & _);
        unfold c_end, c_total, c_addr, c_size in *; cbn [fst snd] in *; lia. }
  eapply wp_mono; [apply (bucket_push PS' bl (f + 20) 8 k H1 HP ltac:(lia) HB R3)|].
  intros [] k' (m' & -> & Hd & Hu & Hu'). exists m'.
  assert (Hlinks : forall x b, x ∈ flat PS' -> range (c_addr x) 8 b -> ld8 m' b = ld8 (k_mem k) b).
  { intros x b Hx Hb. apply Hu. apply links_off_fnodes; [done | done |]. right. by exists x. }
  split_and!; try done.
  - apply (dll_keep _ _ _ _ _ Hu); [| |done].
    + intros b Hb. apply links_off_fnodes; [done | done | by left].
    + intros a b (x & -> & Hx)%list_elem_of_fmap Hb. apply links_off_fnodes; [done | done |]. right. exists x.
      split; [apply new_chunks; by left | done].
  - eapply dseg_frame; [|exact L1]. intros a Ha b Hb.
    assert (exists x, x ∈ flat PS' /\ c_addr x = a) as (x & Hx & <-); [|by apply (Hlinks x)].
    repeat rewrite elem_of_cons in Ha. rewrite elem_of_nil in Ha.
    destruct Ha as [->|[->|[->|[]]]]; [exists (f, 8, true) | exists (f + 20, 4044, false) | exists (f + 4076, 8, true)];
      (split; [apply new_chunks; tauto | done]).
  - intros x Hx. rewrite Hu by (by apply flag_off_links). apply new_chunks in Hx as [Hx|[->|[->| ->]]]; try done.
    apply R2; [done|]. destruct (chunk_place _ _ H2 Hx) as (Hk & _). unfold KERNEL_VIRTUAL_BASE in Hk. lia.
Qed.

(** The page is linked behind the last one. *)
Lemma add_link PS f k l1 p :
  statics_ok -> pages_ok (PS ++ [new_page f]) -> c_addr <$> flat PS = l1 ++ [p] ->
  dll (k_mem k) first_var (c_addr <$> flat PS) -> dseg (k_mem k) 0 [f; f + 20; f + 4076] 0 ->
  wp (insert_node p f) k (fun _ k' => exists m', k' = set_mem m' k /\
    dll m' first_var (c_addr <$> flat (PS ++ [new_page f])) /\ untouched (links (PS ++ [new_page f])) (k_mem k) m').
Proof.
  intros H1 HP El Hd Hs. destruct (all_nodes _ H1 HP) as [N1 N2].
  assert (E : c_addr <$> flat (PS ++ [new_page f]) = (l1 ++ [p]) ++ [f; f + 20; f + 4076])
    by (by rewrite flat_snoc, fmap_app, El).
  rewrite E in N1, N2. rewrite El in Hd.
  eapply wp_mono; [by apply (insert_end_spec first_var k l1 p f [f + 20; f + 4076])|].
  intros [] k' (m' & -> & Hd' & Hu). exists m'. rewrite E. split_and!; [done | done |].
  eapply untouched_mono; [|exact Hu]. intros b Hb. apply all_fp. by rewrite E.
Qed.

(** The heap with its new page. *)
Lemma add_done PS bl f m m' :
  statics_ok -> pages_ok (PS ++ [new_page f]) -> buckets_ok (PS ++ [new_page f]) bl ->
  (forall x, x ∈ flat (PS ++ [new_page f]) -> ld8 m (c_addr x + 8) = if c_used x then 1 else 0) ->
  (forall o, 0 <= o < 9 -> dll m (bucket_at o) (free_node <$> bl o)) ->
  dll m' first_var (c_addr <$> flat (PS ++ [new_page f])) -> untouched (links (PS ++ [new_page f])) m m' ->
  hstate (-1) (PS ++ [new_page f]) bl m'.
Proof.
  intros H1 HP HB Hf Hb Hd Hu. split; [done | done | done |]. split; [done | |].
  - intros x Hx _. rewrite <- (Hf x Hx). apply Hu. by apply flag_off_links.
  - intros o Ho. apply (bucket_keep _ o (bl o) m m' H1 HP Ho); [|done | by apply Hb].
    intros c Hc. destruct (bucket_chunk _ _ _ _ HB Ho Hc) as (x & ? & ? & _). by exists x.
Qed.
End link.

(** ** The heap on the page allocator *)

Section alloc.
Context `{BS : BuddySymbols} `{HS : HeapSymbols} `{PA : !PageAllocator pmm_alloc pmm_free get_order_addr}.

(** The heap [PS] in the kernel [k]; its pages are among the held blocks [H], its
    variables outside the memory the page allocator manages. *)
Record heap_ok (H : list block) (PS : list hpage) (k : kernel) : Prop := {
  hk_pages : pa_state k H;
  hk_statics : forall b, statics b -> b < 4096 * pa_low + KERNEL_VIRTUAL_BASE /\ ~ pa_bytes b;
  hk_state : exists bl, hstate (-1) PS bl (k_mem k);
  hk_held : forall p, p ∈ PS -> exists i, p.1 = P2V (4096 * i) /\ (i, 0) ∈ H;
  hk_last : last_chunk (k_heap k) = last_or 0 (c_addr <$> flat PS) }.

(** A byte of a page of the heap is held. *)
Lemma page_held H PS k p b :
  heap_ok H PS k -> p ∈ PS -> range p.1 4096 b -> held H b /\ ~ pa_bytes b.
Proof.
  intros HK Hp Hb. destruct (hk_held _ _ _ HK p Hp) as (i & E & Hi). rewrite E in Hb. split.
  - exists i, 0. split; [done|]. by change (4096 * 2 ^ 0) with 4096.
  - apply (pa_apart _ _ _ _ b (hk_pages _ _ _ HK) Hi). by change (4096 * 2 ^ 0) with 4096.
Qed.

Lemma heap_fp_held H PS k b : heap_ok H PS k -> heap_fp PS b -> ~ unheld H b.
Proof.
  intros HK Hf Hu. destruct (hk_state _ _ _ HK) as [bl [_ H2 _ _]]. destruct Hf as [Hf|(x & Hx & Hf)].
  - destruct (hk_statics _ _ _ HK b Hf). destruct Hu as [Hu|[Hu _]]; [done | lia].
  - destruct (chunk_page PS x H2 Hx) as (p & Hp & B1 & B2 & _).
    assert (Hb : range p.1 4096 b).
    { destruct (chunk_place PS x H2 Hx) as (_ & _ & ? & _). unfold range, c_end, c_total in *. destruct Hf as [Hf|[_ Hf]]; lia. }
    destruct (page_held H PS k p b HK Hp Hb). by destruct Hu as [Hu|[_ Hu]].
Qed.

(** A new page is apart from the heap. *)
Lemma new_pages H PS k k1 i :
  heap_ok H PS k -> pa_state k1 ((i, 0) :: H) -> pages_ok (PS ++ [new_page (P2V (4096 * i))]).
Proof.
  intros HK HS1. destruct (hk_state _ _ _ HK) as [bl [_ [T A P Q] _ _]]. set (f := P2V (4096 * i)).
  destruct (block_bytes _ _ i 0 HS1 ltac:(left)) as [Ev _]. fold f in Ev.
  destruct (pa_block _ _ i 0 HS1 ltac:(left)) as (_ & Hi1 & Hi2 & Hi3). change (2 ^ 0) with 1 in Hi3.
  split.
  - intros p [Hp|Hp%list_elem_of_singleton]%elem_of_app; [by apply T | subst p; apply new_page_ok].
  - apply pairwise_app. split_and!; [done | split; [by intros y ?%elem_of_nil | done] |].
    intros p q Hp Hq%list_elem_of_singleton. subst q. unfold p_apart. cbn [new_page fst]. apply ranges_apart; [lia | lia |].
    intros b Hb Hf. destruct (page_held H PS k p b HK Hp Hb).
    destruct (fresh_page _ _ _ _ HS1 Hf) as [[Hu|[_ Hu]] _]; done.
  - intros p [Hp|Hp%list_elem_of_singleton]%elem_of_app; [by apply P|]. subst p. cbn [new_page fst].
    unfold KERNEL_VIRTUAL_BASE in *. lia.
  - intros p b [Hp|Hp%list_elem_of_singleton]%elem_of_app; [by apply Q|]. subst p. cbn [new_page fst]. intros Hb Hs.
    destruct (hk_statics _ _ _ HK b Hs). unfold range, KERNEL_VIRTUAL_BASE in *. lia.
Qed.

(** The straight-line part of [create_chunk] that fills the page. *)
Lemma build_spec {A} f (rest : M A) k Q :
  KERNEL_VIRTUAL_BASE <= f -> f + 4096 <= 2 ^ 32 -> (forall i, 0 <= i < 4096 -> ld8 (k_mem k) (f + i) = 0) ->
  wp rest (set_mem (built_mem (k_mem k) f) k) Q ->
  wp (store8 (chunk_used f) 1;; store8 (chunk_used (f + 20)) 0;; store8 (chunk_used (f + 4076)) 1;;
      insert_node (chunk_all f) (chunk_all (f + 20));; insert_node (chunk_all (f + 20)) (chunk_all (f + 4076));; rest) k Q.
Proof.
  intros H1 H2 Hz Hq. assert (0 < f) by (unfold KERNEL_VIRTUAL_BASE in *; lia).
  assert (E1 : ld32 (k_mem k) f = 0) by (unfold ld32, ld16; rewrite <- !Z.add_assoc; rewrite <- (Z.add_0_r f) at 1; by rewrite !Hz by lia).
  assert (E2 : ld32 (k_mem k) (f + 20) = 0) by (unfold ld32, ld16; rewrite <- !Z.add_assoc; by rewrite !Hz by lia).
  unfold chunk_used, chunk_all, insert_node, node_next, node_prev. wp_steps.
  exact Hq.
Qed.

(** The counters after several moves of the heap. *)
Definition heap_move (l f u m : Z) (h : heap_globals) : heap_globals :=
  MkHeap l (u32 (mem_free h + f)) (u32 (mem_used h + u)) (u32 (mem_meta h + m)).

Lemma heap_move_move l f u m l' f' u' m' h :
  heap_move l' f' u' m' (heap_move l f u m h) = heap_move l' (f + f') (u + u') (m + m') h.
Proof. unfold heap_move. cbn [mem_free mem_used mem_meta]. rewrite !u32_add_mod. f_equal; f_equal; lia. Qed.

Lemma add_move f u m k (Q : unit -> kernel -> Prop) :
  Q tt (set_heap (heap_move (last_chunk (k_heap k)) f u m (k_heap k)) k) -> wp (add_mem f u m) k Q.
Proof. apply add_mem_spec. Qed.

Lemma set_last_spec l k (Q : unit -> kernel -> Prop) :
  Q tt (set_heap (heap_move l 0 0 0 (k_heap k)) k) -> wp (set_last l) k Q.
Proof.
  intros HQ. unfold set_last. apply wp_bind, wp_gets, wp_modify. unfold heap_move in HQ. by rewrite !Z.add_0_r in HQ.
Qed.

(** The bytes the three counters account for. *)
Definition heap_sum (h : heap_globals) : Z := u32 (mem_free h + mem_used h + mem_meta h).

Lemma heap_sum_move l f u m h : heap_sum (heap_move l f u m h) = u32 (heap_sum h + (f + u + m)).
Proof. unfold heap_sum, heap_move, u32. cbn [mem_free mem_used mem_meta]. div_lia. Qed.

Lemma heap_sum_pages u h : heap_sum (heap_add 0 u 0 h) = u32 (heap_sum h + u).
Proof. unfold heap_sum, heap_add, u32. cbn [mem_free mem_used mem_meta]. div_lia. Qed.

Lemma heap_sum_0 h d : d = 0 -> heap_sum h = u32 (heap_sum h + d).
Proof. intros ->. rewrite Z.add_0_r. symmetry. apply u32_idem. Qed.

(** Two changes in a row. *)
Lemma heap_sum_add x y z d e f : y = u32 (x + d) -> z = u32 (y + e) -> f = d + e -> z = u32 (x + f).
Proof. intros -> -> ->. rewrite u32_add_mod. f_equal. lia. Qed.

(** A counter moved by [d], modulo 2^32. *)
Definition shifted (x y d : Z) : Prop := u32 y = u32 (x + d).

Lemma shifted_0 x d : d = 0 -> shifted x x d.
Proof. intros ->. unfold shifted. by rewrite Z.add_0_r. Qed.

Lemma shifted_u32 x d e : d = e -> shifted x (u32 (x + d)) e.
Proof. intros ->. apply u32_idem. Qed.

Lemma shifted_add x y z d e f : shifted x y d -> shifted y z e -> f = d + e -> shifted x z f.
Proof. unfold shifted, u32. intros H1 H2 ->. div_lia. Qed.

(** The kernel after operations of the heap. *)
Definition heap_call (k k' : kernel) : Prop := exists m b h, k' = set_heap h (set_buddy b (set_mem m k)).

Lemma last_fence PS f : last_or 0 (c_addr <$> flat (PS ++ [new_page f])) = f + 4076.
Proof. rewrite flat_snoc, fmap_app. unfold last_or. by rewrite last_app. Qed.

Lemma total_direct c n k : KERNEL_VIRTUAL_BASE <= c -> c + 8 <= 2 ^ 32 -> ld32 (k_mem k) c = c + n -> 0 <= n < 2 ^ 32 ->
  wp (get_total_size c) k (fun r k' => r = n /\ k' = k).
Proof.
  intros H1 H2 E Hn. unfold get_total_size, chunk_all, node_next. wp_steps. split; [lia | done].
Qed.

(** The linking of a new page, as the first one or behind the last. *)
Lemma link_spec PS f k :
  statics_ok -> pages_ok (PS ++ [new_page f]) -> 0 < f < 2 ^ 32 ->
  (forall x, x ∈ flat PS -> 0 < c_addr x) ->
  dll (k_mem k) first_var (c_addr <$> flat PS) -> dseg (k_mem k) 0 [f; f + 20; f + 4076] 0 ->
  last_chunk (k_heap k) = last_or 0 (c_addr <$> flat PS) ->
  wp (first ← load32 first_var;
      (if first =? NULL then store32 first_var f;; set_last (f + 4076)
       else h ← gets k_heap; insert_node (chunk_all (last_chunk h)) (chunk_all f);; set_last (f + 4076));;
      mret f) k
    (fun r k' => r = f /\ exists m', k' = set_heap (heap_move (f + 4076) 0 0 0 (k_heap k)) (set_mem m' k) /\
       dll m' first_var (c_addr <$> flat (PS ++ [new_page f])) /\ untouched (links (PS ++ [new_page f])) (k_mem k) m').
Proof.
  intros H1 HP Hf Hpos Hd Hs Hl. pose proof H1 as (S1 & S2 & S3 & S4 & S5).
  apply wp_bind. eapply wp_access; [lia | lia | reflexivity | cbv beta]. rewrite (proj1 Hd). apply wp_bind.
  destruct (exists_last_or_nil (c_addr <$> flat PS)) as [E|(l1 & p & E)].
  - rewrite E. cbn [hd]. change (NULL =? NULL) with true. cbv iota. apply wp_bind.
    eapply wp_access; [lia | lia | reflexivity | cbv beta]. apply set_last_spec, wp_ret. split; [done|].
    exists (st32 (k_mem k) first_var f). split; [done|].
    assert (Hnil : flat PS = []) by (by apply fmap_nil_inv in E). split.
    + rewrite flat_snoc, Hnil. split; [cbn; rewrite ld32_st32_eq; by apply u32_small; lia|]. apply dseg_st32; [|exact Hs].
      intros x Hx. destruct (all_nodes _ H1 HP) as [_ N2]. apply (head_ok_apart _ _ x N2).
      rewrite flat_snoc, fmap_app, elem_of_app. by right.
    + eapply untouched_mono; [|apply st32_untouched]. by left.
  - rewrite E. assert (Hne : hd NULL (l1 ++ [p]) <> NULL).
    { assert (Hin : hd NULL (l1 ++ [p]) ∈ c_addr <$> flat PS) by (rewrite E; destruct l1; cbn; list_in).
      apply list_elem_of_fmap in Hin as (x & -> & Hx). specialize (Hpos x Hx). unfold NULL. lia. }
    apply Z.eqb_neq in Hne. rewrite Hne. apply wp_bind, wp_gets. unfold chunk_all.
    rewrite Hl, E. unfold last_or. rewrite last_snoc. cbn [default]. apply wp_bind.
    eapply wp_mono; [by apply (add_link PS f k l1 p)|]. intros [] k' (m' & -> & Hd' & Hu).
    apply set_last_spec, wp_ret. split; [done|]. exists m'. done.
Qed.

(** The new page's share of the counters, and its bucket. *)
Lemma count_page_spec {A} f k (rest : Z -> M A) (Q : A -> kernel -> Prop) :
  KERNEL_VIRTUAL_BASE <= f -> f + 4096 <= 2 ^ 32 -> ld32 (k_mem k) f = f + 20 -> ld32 (k_mem k) (f + 20) = f + 4076 ->
  wp (rest 8) (set_heap (heap_move (last_chunk (k_heap k)) 4044 0 52 (k_heap k)) k) Q ->
  wp (t ← get_total_size f; add_mem 0 0 t;; t ← get_total_size f; add_mem 0 0 t;; add_mem 0 0 HEADER_SIZE;;
      s ← get_chunk_size (f + 20); add_mem s 0 0;; order ← get_bucket_index (f + 20); rest order) k Q.
Proof.
  intros Hf1 Hf2 L1 L2 HQ.
  apply wp_bind. eapply wp_mono; [apply (total_direct f 20); try done; lia|]. intros r k2 [-> ->]. apply wp_bind, add_move.
  apply wp_bind. eapply wp_mono; [apply (total_direct f 20); try done; lia|]. intros r k2 [-> ->]. apply wp_bind, add_move.
  apply wp_bind, add_move. unfold get_bucket_index, get_chunk_size.
  apply wp_bind, wp_bind. eapply wp_mono; [apply (total_direct (f + 20) 4056); cbn [k_mem set_mem set_heap]; lia|]. intros r k2 [-> ->].
  apply wp_ret, wp_bind, add_move.
  apply wp_bind, wp_bind, wp_bind. eapply wp_mono; [apply (total_direct (f + 20) 4056); cbn [k_mem set_mem set_heap]; lia|]. intros r k2 [-> ->].
  change (4056 ⊟ HEADER_SIZE) with 4044. apply wp_ret, wp_bind, log_two_spec; [lia|]. apply wp_ret.
  change (Z.log2 4044 - ORDER_OFFSET) with 8. cbn [k_heap set_heap]. rewrite !heap_move_move. exact HQ.
Qed.

Lemma fp_new_page PS f b : heap_fp (PS ++ [new_page f]) b -> heap_fp PS b \/ range f 4096 b.
Proof.
  intros [Hb|(x & Hx & Hb)]; [left; by left|]. rewrite flat_snoc in Hx.
  apply elem_of_app in Hx as [Hx|Hx]; [left; right; by exists x | right].
  destruct (tiles_in _ _ _ x (page_tiles _ (new_page_ok f)) Hx) as (? & ? & ? & _).
  unfold range, c_end, c_total, new_page in *. cbn [fst] in *. destruct Hb as [Hb|[_ Hb]]; lia.
Qed.

(** The heap with one more page. *)
Lemma heap_grown H PS k i m1 b1 m3 m5 bl' :
  let f := P2V (4096 * i) in
  heap_ok H PS k -> pa_state (set_buddy b1 (set_mem m1 k)) ((i, 0) :: H) ->
  untouched (range f 4096) m1 m3 -> untouched (heap_fp (PS ++ [new_page f])) m3 m5 -> hstate (-1) (PS ++ [new_page f]) bl' m5 ->
  heap_ok ((i, 0) :: H) (PS ++ [new_page f]) (set_heap (heap_move (f + 4076) 4044 0 52 (k_heap k)) (set_buddy b1 (set_mem m5 k))).
Proof.
  intros f HK HS1 Hu3 Hu5 HT5. pose proof HK as [A1 A2 _ A4 A5]. split; cbn [k_mem k_heap set_mem set_heap set_buddy].
  - eapply (pa_stable (set_buddy b1 (set_mem m1 k))); [exact HS1 | done |]. cbn [k_mem set_mem set_heap set_buddy].
    intros b Hb. assert (Hnf : ~ range f 4096 b) by (intros Hr; apply (fresh_page _ _ _ b HS1 Hr); by left).
    rewrite Hu5, Hu3; try done. intros [Hx|Hx]%fp_new_page; [|done]. apply (heap_fp_held _ _ _ _ HK Hx). by left.
  - done.
  - by exists bl'.
  - intros p [Hp|Hp%list_elem_of_singleton]%elem_of_app.
    + destruct (A4 p Hp) as (j & E & Hj). exists j. split; [done | by right].
    + subst p. exists i. split; [done | left].
  - symmetry. apply last_fence.
Qed.

(** It stops only where the page allocator does. *)
Lemma create_chunk_stops (E : stop -> Prop) H PS k :
  heap_ok H PS k -> cursor_ok (k_vga k) -> (forall e, out_of_memory e -> stops (pmm_alloc 0) k e -> E e) ->
  wpe E create_chunk k (fun r k' => exists i, r = P2V (4096 * i) /\
    heap_ok ((i, 0) :: H) (PS ++ [new_page r]) k' /\ heap_call k k' /\
    k_heap k' = heap_move (r + 4076) 4044 0 52 (k_heap k) /\
    untouched (fun b => heap_fp PS b \/ unheld H b) (k_mem k) (k_mem k')).
Proof.
  intros HK Hc HE. pose proof HK as [A1 A2 (bl & HT) A4 A5]. pose proof HT as [H1 H2 H3 [R1 R2 R3]].
  unfold create_chunk. apply wpe_bind.
  destruct (pa_alloc k H 0 A1 ltac:(done) Hc) as [Hw|Hs]; [|by eapply wpe_stops; [exact Hs | apply HE]].
  apply wpe_wp. eapply wp_mono; [exact Hw|]. intros r k1 (i & -> & _ & HS1 & m1 & b1 & -> & Hu1).
  pose proof (new_pages H PS k _ i HK HS1) as HP. destruct (block_bytes _ _ i 0 HS1 ltac:(left)) as [Ev _].
  destruct (pa_block _ _ i 0 HS1 ltac:(left)) as (_ & Hi1 & _ & Hi3). change (2 ^ 0) with 1 in Hi3.
  pose proof (fun b => fresh_page _ _ _ b HS1) as Hfresh. pose proof (heap_grown H PS k i m1 b1) as Hgrown. cbv zeta in Hgrown.
  set (f := P2V (4096 * i)) in *.
  assert (Hf1 : KERNEL_VIRTUAL_BASE <= f) by (unfold KERNEL_VIRTUAL_BASE in *; lia).
  assert (Hf2 : f + 4096 <= 2 ^ 32) by (unfold KERNEL_VIRTUAL_BASE in *; lia).
  assert (Hf0 : 0 < f) by (unfold KERNEL_VIRTUAL_BASE in *; lia).
  cbv zeta. unfold sizeof_Chunk, PAGE_SIZE. change (4096 - 20) with 4076. rewrite !(u32_small (f + _)) by lia.
  apply wpe_wp, wp_bind. eapply wp_mono; [apply kmemset_spec; lia|]. intros _ k2 (_ & m2 & -> & Hu2 & Hz2).
  apply build_spec; [done | done | exact Hz2 |]. cbn [k_mem set_mem set_buddy] in Hu2 |- *.
  pose proof (built_page f m2 Hf1 Hf2 Hz2) as HB. pose proof (built_untouched m2 f) as Hu3. set (m3 := built_mem m2 f) in *.
  assert (HuF : untouched (unheld H) (k_mem k) m3).
  { eapply untouched_trans; [eapply untouched_mono; [|exact Hu1]; by left|].
    eapply untouched_trans; eapply untouched_mono; [|exact Hu2| |exact Hu3]; intros b Hb; by apply Hfresh. }
  assert (HT3 : hstate (-1) PS bl m3).
  { eapply hstate_frame; [exact HT|]. intros b Hb. apply HuF. by apply (heap_fp_held H PS k). }
  assert (HA : page_added PS bl f m3) by (by split).
  pose proof (pb_links _ _ HB) as (_ & L1 & _ & L2 & _). cbn [hd] in L1, L2. unfold node_next in L1, L2.
  apply count_page_spec; [done | done | exact L1 | exact L2 |].
  unfold chunk_free. apply wp_bind. eapply wp_mono; [by apply (add_push PS bl f)|].
  intros [] k2 (m4 & -> & D1 & D2 & D3 & D4 & D5 & D6). cbn [k_mem set_mem set_heap set_buddy] in D6.
  eapply wp_mono; [apply (link_spec PS f)|]; try done; [lia | |].
  { intros x Hx. destruct (chunk_place _ _ H2 Hx) as (Hk & _). unfold KERNEL_VIRTUAL_BASE in Hk. lia. }
  intros r k' (-> & m5 & -> & D7 & D8). exists i. cbn [k_mem k_heap set_mem set_heap set_buddy]. rewrite heap_move_move.
  assert (Hu5 : untouched (heap_fp (PS ++ [new_page f])) m3 m5).
  { eapply untouched_trans; [exact D6|]. eapply untouched_mono; [apply links_fp | exact D8]. }
  split_and!; [done | | by exists m5, b1, (heap_move (f + 4076) 4044 0 52 (k_heap k)) | done |].
  - eapply (Hgrown m3 m5 (<[8 := (f + 20) :: bl 8]> bl)); [done | done | by eapply untouched_trans | done | by apply (add_done PS _ f m4)].
  - eapply untouched_trans; [eapply untouched_mono; [|exact HuF]; by right|]. eapply untouched_mono; [|exact Hu5].
    intros b [Hx|Hx]%fp_new_page; [by left | right; by apply Hfresh].
Qed.

Lemma create_chunk_spec H PS k :
  heap_ok H PS k -> cursor_ok (k_vga k) ->
  wpe out_of_memory create_chunk k (fun r k' => exists i, r = P2V (4096 * i) /\
    heap_ok ((i, 0) :: H) (PS ++ [new_page r]) k' /\ heap_call k k' /\
    k_heap k' = heap_move (r + 4076) 4044 0 52 (k_heap k) /\
    untouched (fun b => heap_fp PS b \/ unheld H b) (k_mem k) (k_mem k')).
Proof. intros HK Hc. by apply create_chunk_stops. Qed.
End alloc.
