(* ===== verification/HeapCompact.v ===== *)
(** * Compact heaps

    [kfree] merges a chunk with its free neighbours and gives back a page of
    which nothing is in use, unless it is the heap's first: two free chunks are
    never neighbours, and every page but the first has a chunk in use.  So a heap
    of which nothing is in use is one page in one free chunk, or no page at all. *)

From Stdlib Require Import ZArith Lia Bool.
From stdpp Require Import base functions list gmap strings.
From S2P Require Import Prelude Machine StringLib Console Node Bump Buddy BuddyModel BuddyRefine BuddyInit Pmm Heap HeapModel HeapSteps HeapPages.

(** The chunks handed out: address and capacity. *)
Definition live (PS : list hpage) (c s : Z) : Prop := exists p, p ∈ PS /\ (c, s, true) ∈ p.2.

(** A neighbour in use; behind the ends of a body are the fences. *)
Definition edge (o : option chunk) : Prop := match o with Some x => c_used x = true | None => True end.

Fixpoint coalesced (l : list chunk) : Prop :=
  match l with [] => True | x :: l => (c_used x = true \/ edge (hd_error l)) /\ coalesced l end.

Lemma coalesced_app l1 l2 : coalesced (l1 ++ l2) <-> coalesced l1 /\ coalesced l2 /\ (edge (last l1) \/ edge (hd_error l2)).
Proof.
  induction l1 as [|x l1 IH]; cbn [app coalesced]; [cbn; tauto|]. rewrite IH.
  destruct l1 as [|y l1]; cbn [app hd_error last edge coalesced]; [tauto|]. cbn [app coalesced] in IH. tauto.
Qed.

(** The chunks around a free one are in use. *)
Lemma coalesced_free B1 x B2 : c_used x = false ->
  coalesced (B1 ++ x :: B2) <-> coalesced B1 /\ coalesced B2 /\ edge (last B1) /\ edge (hd_error B2).
Proof.
  intros Hx. rewrite coalesced_app. cbn [coalesced hd_error edge]. rewrite Hx. intuition congruence.
Qed.

Lemma coalesced_used B1 x B2 : c_used x = true -> coalesced (B1 ++ x :: B2) <-> coalesced B1 /\ coalesced B2.
Proof. intros Hx. rewrite coalesced_app. cbn [coalesced hd_error edge]. tauto. Qed.

(** ** The bytes in use, and the free ones *)

Fixpoint bytes_of (u : bool) (l : list chunk) : Z :=
  match l with [] => 0 | x :: l => (if Bool.eqb (c_used x) u then c_size x else 0) + bytes_of u l end.

Fixpoint total_of (u : bool) (PS : list hpage) : Z :=
  match PS with [] => 0 | p :: PS => bytes_of u p.2 + total_of u PS end.

Lemma bytes_of_app u l1 l2 : bytes_of u (l1 ++ l2) = bytes_of u l1 + bytes_of u l2.
Proof. induction l1 as [|x l1 IH]; cbn [app bytes_of]; [lia|]. rewrite IH. lia. Qed.

Lemma total_of_app u l1 l2 : total_of u (l1 ++ l2) = total_of u l1 + total_of u l2.
Proof. induction l1 as [|x l1 IH]; cbn [app total_of]; [lia|]. rewrite IH. lia. Qed.

Lemma total_of_at u P1 b B1 B2 P2 M :
  total_of u (at_place P1 b B1 B2 P2 M) = total_of u P1 + total_of u P2 + bytes_of u B1 + bytes_of u B2 + bytes_of u M.
Proof. unfold at_place. rewrite total_of_app. cbn [total_of snd]. rewrite !bytes_of_app. lia. Qed.

(** The first page of a heap that has one. *)
Definition same_first (PS PS' : list hpage) : Prop :=
  forall p Q, PS = p :: Q -> exists p' Q', PS' = p' :: Q' /\ p'.1 = p.1.

Lemma same_first_refl PS : same_first PS PS.
Proof. intros p Q ->. eauto. Qed.

Lemma same_first_trans PS1 PS2 PS3 : same_first PS1 PS2 -> same_first PS2 PS3 -> same_first PS1 PS3.
Proof. intros H1 H2 p Q E. destruct (H1 p Q E) as (q & Q' & E' & <-). eauto. Qed.

Lemma same_first_app PS l : same_first PS (PS ++ l).
Proof. intros p Q ->. cbn. eauto. Qed.

Lemma same_first_at P1 b B1 B2 P2 M B1' B2' M' : same_first (at_place P1 b B1 B2 P2 M) (at_place P1 b B1' B2' P2 M').
Proof. unfold at_place. intros p Q E. destruct P1 as [|q P1]; cbn [app] in *; injection E as <- <-; cbn; eauto. Qed.

Lemma same_first_drop P1 b B1 B2 P2 M : P1 <> [] -> same_first (at_place P1 b B1 B2 P2 M) (P1 ++ P2).
Proof. unfold at_place. intros Hn p Q E. destruct P1 as [|q P1]; [done|]. cbn [app] in *. injection E as <- <-. eauto. Qed.

(** ** Compact heaps *)

Definition occupied (p : hpage) : Prop := exists x, x ∈ p.2 /\ c_used x = true.

(** The free chunk [c] is about to be handed out. *)
Record compact_but (c : Z) (PS : list hpage) : Prop := {
  cb_coalesced : forall p, p ∈ PS -> coalesced p.2;
  cb_occupied : forall p, p ∈ tail PS -> occupied p \/ exists s, (c, s, false) ∈ p.2 }.

Record compact (PS : list hpage) : Prop := {
  co_coalesced : forall p, p ∈ PS -> coalesced p.2;
  co_occupied : forall p, p ∈ tail PS -> occupied p }.

Lemma compact_weaken c PS : compact PS -> compact_but c PS.
Proof. intros [H1 H2]. split; [done|]. intros p Hp. left. by apply H2. Qed.

Lemma compact_nil : compact [].
Proof. split; intros p Hp; by apply elem_of_nil in Hp. Qed.

(** A new page from which [c] is about to be taken. *)
Lemma compact_grow PS f : compact PS -> compact_but (f + 20) (PS ++ [new_page f]).
Proof.
  intros [H1 H2]. split.
  - intros p [Hp| ->%list_elem_of_singleton]%elem_of_app; [by apply H1|]. cbn. tauto.
  - destruct PS as [|q PS]; cbn [app tail] in *; [by intros p ?%elem_of_nil|].
    intros p [Hp| ->%list_elem_of_singleton]%elem_of_app; [left; by apply H2|]. right. exists 4044. cbn. left.
Qed.

Lemma in_tail_at P1 b B1 B2 P2 M p : p ∈ tail (at_place P1 b B1 B2 P2 M) <->
  p ∈ tail P1 \/ (P1 <> [] /\ p = (b, B1 ++ M ++ B2)) \/ p ∈ P2.
Proof.
  unfold at_place. destruct P1 as [|q P1]; cbn [app tail]; [rewrite elem_of_nil; intuition congruence|].
  rewrite elem_of_app, elem_of_cons. intuition congruence.
Qed.

Lemma in_place P1 b B1 B2 P2 M p : p ∈ at_place P1 b B1 B2 P2 M <-> p ∈ P1 \/ p = (b, B1 ++ M ++ B2) \/ p ∈ P2.
Proof. unfold at_place. by rewrite elem_of_app, elem_of_cons. Qed.

(** One page changes. *)
Lemma compact_change P1 b B1 B2 P2 M B1' B2' M' :
  (forall p, p ∈ at_place P1 b B1 B2 P2 M -> coalesced p.2) ->
  (forall p, p ∈ tail (at_place P1 b B1 B2 P2 M) -> p ∈ P1 ++ P2 -> occupied p) ->
  coalesced (B1' ++ M' ++ B2') -> (P1 <> [] -> occupied (b, B1' ++ M' ++ B2')) ->
  compact (at_place P1 b B1' B2' P2 M').
Proof.
  intros H1 H2 H3 H4. split.
  - intros p [Hp|[->|Hp]]%in_place; [apply H1, in_place; tauto | done | apply H1, in_place; tauto].
  - intros p Hp. apply in_tail_at in Hp as [Hp|[[Hn ->]|Hp]]; [| by apply H4 |].
    + apply H2; [apply in_tail_at; tauto|]. apply elem_of_app. left. destruct P1; [by apply elem_of_nil in Hp | by right].
    + apply H2; [apply in_tail_at; tauto|]. apply elem_of_app. by right.
Qed.

Section compact.
Context `{HS : HeapSymbols}.

(** No other page has the chunk. *)
Lemma not_elsewhere P1 b B1 B2 P2 x y p : pages_ok (at_place P1 b B1 B2 P2 [x]) -> p ∈ P1 ++ P2 -> y ∈ p.2 -> c_addr y <> c_addr x.
Proof.
  intros HP Hp Hy. apply (others_addr P1 b B1 B2 P2 [x] y x HP); [|left]. unfold left_of, right_of.
  assert (Hc : y ∈ page_chunks p) by (unfold page_chunks; list_in).
  apply elem_of_app in Hp as [Hp|Hp]; [do 3 (apply elem_of_app; left) | do 2 (apply elem_of_app; right); right]; apply flat_in; by exists p.
Qed.

Definition carved_by (M' : list chunk) : Prop := coalesced M' /\ (exists x M, M' = x :: M /\ c_used x = true).

(** A free chunk is replaced by one in use and what is left over. *)
Lemma compact_cut P1 b B1 B2 P2 c s M' : pages_ok (at_place P1 b B1 B2 P2 [(c, s, false)]) ->
  compact_but c (at_place P1 b B1 B2 P2 [(c, s, false)]) -> carved_by M' -> compact (at_place P1 b B1 B2 P2 M').
Proof.
  intros HP [H1 H2] (H3 & x & M & -> & Hx).
  assert (Hb : coalesced (B1 ++ (c, s, false) :: B2)) by (apply (H1 (b, B1 ++ [(c, s, false)] ++ B2)), in_place; tauto).
  apply coalesced_free in Hb as (C1 & C2 & C3 & C4); [|done].
  eapply compact_change; [exact H1 | | |].
  - intros p Hp Hin. destruct (H2 p Hp) as [Ho|(s' & Hc)]; [done|]. exfalso.
    by apply (not_elsewhere _ _ _ _ _ _ _ p HP Hin Hc).
  - cbn [app] in *. destruct H3 as [_ H3]. rewrite coalesced_used by done. split; [done|]. apply coalesced_app. tauto.
  - intros _. exists x. cbn [snd app]. split; [list_in | done].
Qed.

(** The freed chunk takes its free neighbours in. *)
Lemma compact_release P1 b B1 B2 P2 B1' B2' M c s : compact (at_place P1 b B1 B2 P2 M) ->
  coalesced B1' -> coalesced B2' -> edge (last B1') -> edge (hd_error B2') ->
  (P1 <> [] -> B1' <> [] \/ B2' <> []) -> compact (at_place P1 b B1' B2' P2 [(c, s, false)]).
Proof.
  intros [H1 H2] C1 C2 C3 C4 Hn. eapply compact_change; [exact H1 | intros p Hp _; by apply H2 | |].
  - cbn [app]. by apply coalesced_free.
  - intros HP1. destruct (Hn HP1) as [HB|HB].
    + destruct (last B1') as [x|] eqn:El; [|by apply last_None in El]. exists x. split; [|done].
      cbn [snd]. apply elem_of_app. left. by apply last_Some_elem_of.
    + destruct B2' as [|x B2']; [done|]. exists x. cbn [snd]. split; [list_in | done].
Qed.

Lemma compact_drop P1 b B1 B2 P2 M : compact (at_place P1 b B1 B2 P2 M) -> P1 <> [] -> compact (P1 ++ P2).
Proof.
  intros [H1 H2] Hn. split.
  - intros p [Hp|Hp]%elem_of_app; apply H1, in_place; tauto.
  - intros p Hp. apply H2, in_tail_at. destruct P1 as [|q P1]; [done|]. cbn [app tail] in *. apply elem_of_app in Hp. tauto.
Qed.

(** ** Nothing in use *)

Lemma unused_single l : coalesced l -> (forall x, x ∈ l -> c_used x = false) -> l = [] \/ exists x, l = [x].
Proof.
  intros Hc Hu. destruct l as [|x [|y l]]; [by left | by right; exists x | exfalso].
  destruct Hc as [[Hx|Hx] _]; [rewrite (Hu x) in Hx by left | cbn in Hx; rewrite (Hu y) in Hx by (right; left)]; done.
Qed.

Lemma compact_unused PS : pages_ok PS -> compact PS -> (forall c s, ~ live PS c s) -> PS = [] \/ exists f, PS = [new_page f].
Proof.
  intros HP [H1 H2] Hn. destruct PS as [|p [|q PS]]; [by left | right | exfalso].
  - exists p.1. destruct p as [f l]. specialize (H1 _ ltac:(left)). pose proof (po_tiles _ HP _ ltac:(left)) as Ht. unfold page_ok in Ht. cbn [fst snd] in *.
    destruct (unused_single l H1) as [->|([[c s] u] & ->)].
    + intros [[c s] u] Hx. destruct u; [|done]. exfalso. apply (Hn c s). exists (f, l). split; [left | done].
    + cbn in Ht. lia.
    + destruct u; [exfalso; apply (Hn c s); exists (f, [(c, s, true)]); split; left|].
      cbn in Ht. unfold c_end, c_total, c_addr, c_size in Ht. cbn in Ht. unfold new_page. repeat f_equal; lia.
  - destruct (H2 q ltac:(left)) as ([[c s] u] & Hx & Hu). cbn in Hu. subst u. apply (Hn c s). exists q. split; [right; left | done].
Qed.

Lemma unused_total PS : (forall c s, ~ live PS c s) -> total_of true PS = 0.
Proof.
  induction PS as [|p PS IH]; intros Hn; cbn [total_of]; [done|]. rewrite IH.
  - assert (Hl : forall x, x ∈ p.2 -> c_used x = false).
    { intros [[c s] u] Hx. destruct u; [|done]. exfalso. apply (Hn c s). exists p. split; [left | done]. }
    clear IH. revert Hl. generalize p.2. intros l. induction l as [|x l IH]; intros Hl; cbn [bytes_of]; [done|].
    rewrite (Hl x) by left. cbn [Bool.eqb]. rewrite Z.add_0_r in *. apply IH. intros y Hy. apply Hl. by right.
  - intros c s (q & Hq & Hx). apply (Hn c s). exists q. split; [by right | done].
Qed.
End compact.
