(* ===== verification/HeapAlloc.v ===== *)
(** * Small requests: [kmalloc] and [kfree] on the chunk lists *)

From Stdlib Require Import ZArith Lia Bool.
From stdpp Require Import base functions list gmap strings.
From S2P Require Import Prelude Machine StringLib Console Node Bump Buddy BuddyModel BuddyRefine BuddyInit Pmm Heap HeapModel HeapSteps HeapPages HeapCompact.

Section place.
Context `{HS : HeapSymbols} (P1 : list hpage) (b : Z) (B1 B2 : list chunk) (P2 : list hpage).
Local Abbreviation at_ := (at_place P1 b B1 B2 P2).

Lemma live_at M c s : live (at_ M) c s <-> live (at_ []) c s \/ (c, s, true) ∈ M.
Proof.
  unfold live, at_place. setoid_rewrite elem_of_app. setoid_rewrite elem_of_cons. split.
  - intros (p & [Hp|[->|Hp]] & Hx); [left; eauto | | left; eauto]. cbn [snd] in Hx. rewrite !elem_of_app in Hx.
    destruct Hx as [Hx|[Hx|Hx]]; [left | by right | left];
      (eexists; split; [right; left; reflexivity|]; cbn [snd]; rewrite !elem_of_app; auto).
  - intros [(p & [Hp|[->|Hp]] & Hx)|Hx]; [eauto | | eauto |]; (eexists; split; [right; left; reflexivity|]);
      cbn [snd] in *; rewrite !elem_of_app in *; [|by right; left]. destruct Hx as [Hx|[Hx|Hx]]; [auto | by apply elem_of_nil in Hx | auto].
Qed.

Lemma at_shift M1 M2 : at_ (M1 ++ M2) = at_place P1 b (B1 ++ M1) B2 P2 M2.
Proof. unfold at_place. by rewrite <- !app_assoc. Qed.

Lemma bases_at M M' p : p ∈ at_ M -> exists q, q ∈ at_ M' /\ q.1 = p.1.
Proof.
  unfold at_place. rewrite elem_of_app, elem_of_cons. intros [Hp|[->|Hp]]; [exists p | exists (b, B1 ++ M' ++ B2) | exists p];
    (split; [list_in | done]).
Qed.

Lemma last_at M M' : last_or 0 (c_addr <$> flat (at_ M)) = last_or 0 (c_addr <$> flat (at_ M')).
Proof.
  rewrite !addrs_at. destruct (right_cons b B2 P2) as (y & l & E). rewrite E. unfold last_or. rewrite !last_app.
  destruct (last (y :: l)) eqn:El; [done|]. by apply last_None in El.
Qed.

(** Fewer bytes belong to the heap when chunks are cut out of a free one. *)
Lemma fp_at M M' b' :
  (forall x, x ∈ M' -> range (c_addr x) 12 b' \/ c_used x = false /\ range (c_addr x) (c_total x) b' ->
     exists y, y ∈ M /\ (range (c_addr y) 12 b' \/ c_used y = false /\ range (c_addr y) (c_total y) b')) ->
  heap_fp (at_ M') b' -> heap_fp (at_ M) b'.
Proof.
  intros HM [Hb|(x & [Hx|Hx]%in_at & Hb)]; [by left | right; exists x; split; [apply in_at; by left | done] |].
  destruct (HM x Hx Hb) as (y & Hy & Hb'). right. exists y. split; [apply in_at; by right | done].
Qed.
End place.

(** ** Finding a free chunk *)

Section find.
Context `{HS : HeapSymbols}.

Lemma free_place PS c s : (c, s, false) ∈ flat PS -> exists P1 b B1 B2 P2, PS = at_place P1 b B1 B2 P2 [(c, s, false)].
Proof.
  intros (p & Hp & Hx)%flat_in. apply list_elem_of_split in Hp as (P1 & P2 & ->). destruct p as [b body].
  unfold page_chunks in Hx. cbn [fst snd] in Hx. rewrite elem_of_cons, elem_of_app, list_elem_of_singleton in Hx.
  destruct Hx as [Hx|[Hx|Hx]]; [congruence | | congruence].
  apply list_elem_of_split in Hx as (B1 & B2 & ->). by exists P1, b, B1, B2, P2.
Qed.

Lemma used_place PS c s : live PS c s -> exists P1 b B1 B2 P2, PS = at_place P1 b B1 B2 P2 [(c, s, true)].
Proof.
  intros (p & Hp & Hx). apply list_elem_of_split in Hp as (P1 & P2 & ->). destruct p as [b body]. cbn [snd] in Hx.
  apply list_elem_of_split in Hx as (B1 & B2 & ->). by exists P1, b, B1, B2, P2.
Qed.

Lemma find_chunk_spec PS bl k : hstate (-1) PS bl (k_mem k) -> forall fuel o, 9 - o < Z.of_nat fuel -> 0 <= o <= 9 ->
  wp (find_chunk fuel o) k (fun r k' =>
    (r = NULL /\ k' = k /\ forall o', o <= o' < 9 -> bl o' = []) \/
    (exists P1 b B1 B2 P2 c s m' bl', PS = at_place P1 b B1 B2 P2 [(c, s, false)] /\ r = c /\ o <= bidx s /\
       k' = set_mem m' k /\ hstate c (at_place P1 b B1 B2 P2 [(c, s, true)]) bl' m' /\
       untouched (heap_fp PS) (k_mem k) m')).
Proof.
  intros HT fuel. pose proof HT as [(S1 & S2 & S3 & S4 & S5) H2 H3 [R1 R2 R3]].
  induction fuel as [|fuel IH]; intros o Hf Ho; [lia|]. cbn [find_chunk]. unfold NUM_SIZES.
  destruct (Z.ltb_spec o 9) as [Hlt|Hge]; [|apply wp_ret; left; split_and!; [done | done | intros; lia]].
  apply wp_bind. eapply wp_access; [unfold bucket_at; lia | unfold bucket_at; lia | reflexivity | cbv beta].
  destruct (R3 o ltac:(lia)) as [Eb _]. rewrite Eb. destruct (bl o) as [|c l] eqn:El; cbn [fmap list_fmap hd].
  - change (NULL =? NULL) with true. cbn [negb]. eapply wp_mono; [apply IH; lia|].
    intros r k' [(-> & -> & Hn)|(P1 & b & B1 & B2 & P2 & c & s & m' & bl' & E1 & E2 & E3 & E4)].
    + left. split_and!; [done | done |]. intros o' Ho'. destruct (decide (o' = o)) as [->|]; [done | apply Hn; lia].
    + right. exists P1, b, B1, B2, P2, c, s, m', bl'. split_and!; try done; try lia; by destruct E4 as (? & ? & ?).
  - destruct (proj1 (bo_in _ _ H3 o c ltac:(lia))) as (s & Hs & Ebi); [rewrite El; left|].
    destruct (chunk_place _ _ H2 Hs) as (Hk & _). cbn in Hk. unfold KERNEL_VIRTUAL_BASE in Hk.
    destruct (Z.eqb_spec (free_node c) NULL); [unfold free_node, NULL in *; lia|]. cbn [negb].
    destruct (free_place PS c s Hs) as (P1 & b & B1 & B2 & P2 & EP). rewrite EP in HT. rewrite <- Ebi in El |- *.
    eapply wp_mono; [by apply (pop_chunk_spec P1 b B1 B2 P2 c s bl l k)|].
    intros r k' (-> & m' & -> & HT' & Hu). right. exists P1, b, B1, B2, P2, c, s, m', (<[bidx s:=l]> bl).
    rewrite EP. split_and!; done || lia.
Qed.
End find.

(** ** Cutting a chunk *)

Section carve.
Context `{HS : HeapSymbols} (P1 : list hpage) (b : Z) (B1 B2 : list chunk) (P2 : list hpage).
Local Abbreviation at_ := (at_place P1 b B1 B2 P2).

(** What [a] bytes of a chunk of [s] leave, and what the request gets. *)
Definition carved (c s a : Z) : list chunk :=
  if a + 20 <=? s then [(c, a, true); (c + 12 + a, s - a - 12, false)] else [(c, s, true)].
Definition capacity (s a : Z) : Z := if a + 20 <=? s then a else s.

Lemma chunk_bounds lim M bl m x : hstate lim (at_ M) bl m -> x ∈ M ->
  KERNEL_VIRTUAL_BASE <= c_addr x /\ c_addr x + 12 + c_size x <= 2 ^ 32 /\ 8 <= c_size x < 4096.
Proof.
  intros [_ H2 _ _] Hx. destruct (chunk_place _ x H2) as (A1 & A2 & A3 & _); [apply in_at; by right|].
  unfold c_end, c_total in *. lia.
Qed.

(** Sizes and buckets of the chunks of the place. *)
Lemma size_at lim M1 x M2 bl k : hstate lim (at_ (M1 ++ x :: M2)) bl (k_mem k) ->
  wp (get_chunk_size (c_addr x)) k (fun r k' => r = c_size x /\ k' = k) /\
  wp (get_bucket_index (c_addr x)) k (fun r k' => r = bidx (c_size x) /\ k' = k).
Proof.
  intros [_ H2 _ HR]. pose proof (focus_at _ _ _ _ _ _ _ _ H2) as HF.
  split; [by eapply chunk_size_spec | by eapply bucket_index_spec].
Qed.

Lemma carved_fp c s a b' : 8 <= a -> heap_fp (at_ (carved c s a)) b' -> heap_fp (at_ [(c, s, false)]) b'.
Proof.
  intros Ha. apply fp_at. unfold carved, c_total, c_addr, c_size, c_used. intros x Hx Hb. exists (c, s, false). split; [left|].
  destruct (Z.leb_spec (a + 20) s); rewrite ?elem_of_cons, ?elem_of_nil in Hx; unfold range in *; cbn [fst snd].
  - right. split; [done|]. destruct Hx as [->|[->|[]]]; cbn [fst snd] in Hb; lia.
  - destruct Hx as [->|[]]. cbn [fst snd] in Hb. left. lia.
Qed.

Lemma carve_spec c s a bl k :
  hstate c (at_ [(c, s, true)]) bl (k_mem k) -> 8 <= a -> (4 | a) -> a <= s ->
  wp (carve c a) k (fun r k' => r = c + 12 /\ exists m' bl' f m,
    k' = set_heap (heap_move (last_chunk (k_heap k)) f (capacity s a) m (k_heap k)) (set_mem m' k) /\ f + capacity s a + m = 0 /\ f = bytes_of false (carved c s a) - s /\
    hstate (-1) (at_ (carved c s a)) bl' m' /\ untouched (heap_fp (at_ [(c, s, false)])) (k_mem k) m').
Proof.
  intros HT Ha Ha4 Has. destruct (chunk_bounds _ _ _ _ (c, s, true) HT ltac:(left)) as (K1 & K2 & K3).
  unfold c_addr, c_size in K1, K2, K3. cbn [fst snd] in K1, K2, K3.
  assert (K0 : 0 < c) by (unfold KERNEL_VIRTUAL_BASE in *; lia).
  assert (Hx : (c, s, true) ∈ flat (at_ [(c, s, true)])) by (apply in_at; right; left).
  assert (Hfree : forall b', heap_fp (at_ [(c, s, true)]) b' -> heap_fp (at_ [(c, s, false)]) b').
  { intros b'. apply fp_at. intros x ->%list_elem_of_singleton [Hb|[? _]]; [|done]. exists (c, s, false).
    split; [left | by left]. }
  destruct (flag_step _ _ _ _ (c, s, true) 1 HT Hx ltac:(by left)) as [HT1 Hu1]. unfold c_addr in HT1, Hu1. cbn [fst] in HT1, Hu1.
  unfold carve. cbv zeta. apply wp_bind. eapply wp_access; [unfold chunk_used; lia | unfold chunk_used; lia | reflexivity | cbv beta].
  unfold chunk_used. set (m1 := st8 (k_mem k) (c + 8) 1) in *.
  assert (HT1' : hstate (-1) (at_ [(c, s, true)]) bl m1)
    by (apply (settle _ _ _ (c, s, true) HT1 Hx); unfold m1, c_addr; cbn [fst snd]; by rewrite ld8_st8_eq).
  apply wp_bind. eapply wp_mono; [apply (size_at (-1) [] (c, s, true) [] bl); exact HT1'|].
  intros r k1 [-> ->]. apply wp_bind, add_move. unfold c_size. cbn [fst snd].
  rewrite u32_small by lia. unfold MIN_SIZE, HEADER_SIZE. rewrite Z.geb_leb. change (8 + 12) with 20.
  unfold carved, capacity. replace (20 <=? s - a) with (a + 20 <=? s) by (destruct (Z.leb_spec (a + 20) s), (Z.leb_spec 20 (s - a)); lia).
  apply wp_bind. destruct (Z.leb_spec (a + 20) s) as [Hle|Hgt]; cbn [when].
  - unfold chunk_all. rewrite u32_small by lia. replace (c + (a + 12)) with (c + 12 + a) by lia. set (n := c + 12 + a) in *.
    assert (En : n = c + 12 + a) by done.
    unfold chunk_free. apply wp_bind. eapply wp_access; [lia | lia | reflexivity | cbv beta]. apply wp_bind.
    eapply wp_mono; [apply (split_chunk_spec P1 b B1 B2 P2 c s a bl (set_heap _ (set_mem m1 k))); [exact HT1' | done | done | done]|].
    intros [] k2 (m2 & -> & HT2 & Hz & Hu2). fold n in HT2, Hz, Hu2. cbn [k_mem k_heap set_mem set_heap] in Hu2.
    set (s' := s - a - 12) in *. assert (Es : s' = s - a - 12) by done.
    apply wp_bind, add_move. apply wp_bind.
    eapply wp_mono; [apply (size_at n [(c, a, true)] (n, s', true) [] bl); exact HT2|]. intros r k1 [-> ->].
    change ([(c, a, true); (n, s', true)]) with ([(c, a, true)] ++ [(n, s', true)]) in HT2.
    rewrite at_shift in HT2. unfold c_size. cbn [fst snd].
    apply wp_bind. eapply wp_mono; [apply (push_chunk_spec P1 b (B1 ++ [(c, a, true)]) B2 P2 n s' bl); [exact HT2 | exact Hz]|].
    intros [] k3 (m3 & bl3 & -> & HT3 & Hu3). rewrite <- at_shift in HT3, Hu3. cbn [app k_mem k_heap set_mem set_heap] in HT3, Hu3.
    apply wp_bind. eapply wp_mono; [apply (size_at (-1) [(c, a, true)] (n, s', false) [] bl3); exact HT3|]. intros r k1 [-> ->].
    apply add_move. unfold c_size. cbn [fst snd].
    apply wp_bind. eapply wp_mono; [apply (size_at (-1) [] (c, a, true) [(n, s', false)] bl3); exact HT3|]. intros r k1 [-> ->].
    apply wp_bind, add_move, wp_ret. split; [done|]. exists m3, bl3, (- s + s'), 12.
    unfold c_size. cbn [k_mem k_heap set_mem set_heap fst snd]. rewrite !heap_move_move. split_and!; [| lia | cbn; unfold c_size; cbn; lia | done |].
    + cbn [last_chunk heap_move]. rewrite !Z.add_0_l, !Z.add_0_r. done.
    + assert (Hin : forall u b', heap_fp (at_ [(c, a, true); (n, s', u)]) b' -> heap_fp (at_ [(c, s, false)]) b').
      { intros u b'. apply fp_at. unfold c_total, c_addr, c_size, c_used. intros x Hx' Hb. exists (c, s, false). split; [left|]. right.
        split; [done|]. rewrite !elem_of_cons, elem_of_nil in Hx'. unfold range in *. cbn [fst snd].
        destruct Hx' as [->|[->|[]]]; cbn [fst snd] in Hb; lia. }
      eapply untouched_trans; [by eapply untouched_mono|].
      eapply untouched_trans; eapply untouched_mono; [|exact Hu2| |exact Hu3]; apply Hin.
  - apply wp_ret. apply wp_bind. eapply wp_mono; [apply (size_at (-1) [] (c, s, true) [] bl); exact HT1'|].
    intros r k1 [-> ->]. apply wp_bind, add_move, wp_ret. split; [done|]. exists m1, bl, (- s), 0.
    cbn [k_mem k_heap set_mem set_heap]. rewrite heap_move_move. split_and!; [|lia | cbn; lia | done | by eapply untouched_mono].
    unfold c_size. cbn [fst snd]. by rewrite !Z.add_0_l, !Z.add_0_r.
Qed.
End carve.

(** ** [kmalloc] *)

(** The bytes a small request gets: a multiple of 4, at least 8. *)
Definition alloc_size (size : Z) : Z := ALIGN_UP (Z.max size 8) 4.

Lemma alloc_size_spec size : 0 < size <= 2048 ->
  8 <= alloc_size size <= 2048 /\ (4 | alloc_size size) /\ size <= alloc_size size < Z.max size 8 + 4.
Proof.
  intros Hs. unfold alloc_size. destruct (ALIGN_UP_spec (Z.max size 8) 2) as [[q Hq] [H1 H2]]; [lia | lia | lia |].
  change (2 ^ 2) with 4 in *. split_and!; [lia | lia | by exists q | lia | lia].
Qed.

Definition alloc_order (a : Z) : Z := Z.log2 (a - 1) + 1 - 3.

Lemma alloc_order_spec a : 8 <= a <= 2048 ->
  0 <= alloc_order a < 9 /\ (forall s, 8 <= s -> alloc_order a <= bidx s -> a <= s).
Proof.
  intros Ha. unfold alloc_order, bidx. destruct (Z.log2_spec (a - 1) ltac:(lia)) as [L1 L2].
  assert (2 <= Z.log2 (a - 1)) by (apply Z.log2_le_pow2; cbn; lia).
  assert (Z.log2 (a - 1) < 11) by (apply Z.log2_lt_pow2; cbn; lia).
  split; [lia|]. intros s Hs Hle. destruct (Z.log2_spec s ltac:(lia)) as [L3 _].
  assert (2 ^ Z.succ (Z.log2 (a - 1)) <= 2 ^ Z.log2 s) by (apply Z.pow_le_mono_r; lia). lia.
Qed.

Section kmalloc.
Context `{BS : BuddySymbols} `{HS : HeapSymbols} `{PA : !PageAllocator pmm_alloc pmm_free get_order_addr}.

(** A new chunk of at least [size] bytes, beside those handed out before. *)
Record handed_out (size : Z) (H : list block) (PS : list hpage) (k : kernel) (c s : Z)
    (H' : list block) (PS' : list hpage) (k' : kernel) : Prop := {
  ho_heap : heap_ok H' PS' k';
  ho_held : exists new, H' = new ++ H /\ forall p, p ∈ PS' ->
    (exists q, q ∈ PS /\ q.1 = p.1) \/ (exists i, (i, 0) ∈ new /\ p.1 = P2V (4096 * i));
  ho_new : forall s', ~ live PS c s';
  ho_fp : forall b, heap_fp PS' b -> heap_fp PS b \/ unheld H b;
  ho_data : forall b, range (c + 12) s b -> heap_fp PS b \/ unheld H b;
  ho_size : size <= s < Z.max size 8 + 24;
  ho_live : forall c' s', live PS' c' s' <-> live PS c' s' \/ c' = c /\ s' = s;
  ho_call : heap_call k k';
  ho_used : mem_used (k_heap k') = u32 (mem_used (k_heap k) + s);
  ho_frame : untouched (fun b => heap_fp PS b \/ unheld H b) (k_mem k) (k_mem k');
  ho_sum : heap_sum (k_heap k') = u32 (heap_sum (k_heap k) + 4096 * (pages_of H' - pages_of H));
  ho_compact : compact PS -> compact PS';
  ho_total : total_of true PS' = total_of true PS + s;
  ho_free : mem_free (k_heap k') = u32 (mem_free (k_heap k) + (total_of false PS' - total_of false PS));
  ho_first : same_first PS PS';
  ho_pages : pages_of H' - Z.of_nat (length PS') = pages_of H - Z.of_nat (length PS) }.

Lemma carved_parts c s a : carved_by (carved c s a) /\ bytes_of true (carved c s a) = capacity s a.
Proof.
  unfold carved, capacity. destruct (a + 20 <=? s); (split; [split; [cbn; tauto | eauto] | cbn; unfold c_size; cbn; lia]).
Qed.

(** A free chunk that is large enough is cut. *)
Lemma carve_heap P1 b B1 B2 P2 c s bl size H k k0 :
  let PS := at_place P1 b B1 B2 P2 [(c, s, false)] in
  heap_ok H PS k0 -> k_buddy k = k_buddy k0 -> k_heap k = k_heap k0 -> untouched (heap_fp PS) (k_mem k0) (k_mem k) ->
  hstate c (at_place P1 b B1 B2 P2 [(c, s, true)]) bl (k_mem k) -> 0 < size <= 2048 -> alloc_order (alloc_size size) <= bidx s ->
  heap_call k0 k ->
  wp (carve c (alloc_size size)) k (fun r k' => exists s' PS', r = c + 12 /\ handed_out size H PS k0 c s' H PS' k' /\
    (compact_but c PS -> compact PS')).
Proof.
  intros PS HK Eb Eh Hu HT Hs Ho Hcall. destruct (alloc_size_spec size Hs) as (A1 & A2 & A3). set (a := alloc_size size) in *.
  destruct (chunk_bounds _ _ _ _ _ _ _ _ _ (c, s, true) HT ltac:(left)) as (K1 & K2 & K3).
  unfold c_addr, c_size in K1, K2, K3. cbn [fst snd] in K1, K2, K3.
  destruct (alloc_order_spec a A1) as [_ Hfit]. specialize (Hfit s ltac:(lia) Ho).
  eapply wp_mono; [apply (carve_spec P1 b B1 B2 P2 c s a bl); [done | lia | done | done]|].
  intros r k' (-> & m' & bl' & f & m & -> & Hsum & Efree & HT' & Hu'). exists (capacity s a), (at_place P1 b B1 B2 P2 (carved c s a)).
  assert (Huu : untouched (heap_fp PS) (k_mem k0) m') by (by eapply untouched_trans).
  split; [done|]. destruct HK as [A4 A5 (bl0 & HT0) A6 A7]. destruct (carved_parts c s a) as [Hcut Hbytes].
  assert (Hco : compact_but c PS -> compact (at_place P1 b B1 B2 P2 (carved c s a)))
    by (intros Hco; apply (compact_cut P1 b B1 B2 P2 c s); [exact (ht_pages _ _ _ _ HT0) | done | done]).
  split; [|done]. split.
  - split; cbn [k_mem k_heap set_mem set_heap].
    + eapply pa_stable; [exact A4 | exact Eb |]. intros b' Hb. apply Huu. intros Hf.
      assert (HK : heap_ok H PS k0) by (split; eauto). apply (heap_fp_held _ _ _ _ HK Hf). by left.
    + done.
    + by exists bl'.
    + intros p Hp. destruct (bases_at P1 b B1 B2 P2 _ [(c, s, false)] p Hp) as (q & Hq & <-). by apply A6.
    + cbn [heap_move last_chunk]. rewrite Eh, A7. apply last_at.
  - exists []. split; [done|]. intros p Hp. left. by apply (bases_at P1 b B1 B2 P2 (carved c s a)).
  - intros s0 (p & Hp & Hx). assert (Hin : (c, s0, true) ∈ flat PS) by (apply flat_in; exists p; split; [done | unfold page_chunks; list_in]).
    pose proof (addr_unique PS _ (c, s, false) (ht_pages _ _ _ _ HT0) Hin ltac:(apply in_at; right; left) eq_refl). congruence.
  - intros b' Hb. left. by apply (carved_fp P1 b B1 B2 P2 c s a); [lia|].
  - intros b' Hb. left. right. exists (c, s, false). split; [apply in_at; right; left|]. right. split; [done|].
    unfold range, c_total, c_addr, c_size, capacity in *. cbn [fst snd]. destruct (Z.leb_spec (a + 20) s); lia.
  - unfold capacity. destruct (Z.leb_spec (a + 20) s); lia.
  - intros c' s'. unfold PS. rewrite (live_at _ _ _ _ _ (carved c s a)), (live_at _ _ _ _ _ [(c, s, false)]), list_elem_of_singleton.
    assert (Hc : (c', s', true) ∈ carved c s a <-> c' = c /\ s' = capacity s a).
    { unfold carved, capacity. destruct (a + 20 <=? s); rewrite !elem_of_cons, ?elem_of_nil; intuition congruence. }
    rewrite Hc. intuition congruence.
  - destruct Hcall as (m1 & b1 & h1 & ->). by eexists m', b1, _.
  - cbn [k_heap set_heap heap_move mem_used]. by rewrite Eh.
  - cbn [k_mem set_mem set_heap]. eapply untouched_mono; [|exact Huu]. by left.
  - cbn [k_heap set_heap]. rewrite heap_sum_move, Eh. f_equal. lia.
  - intros Hc. by apply Hco, compact_weaken.
  - unfold PS. rewrite !total_of_at, Hbytes. cbn. lia.
  - unfold PS. rewrite !total_of_at. cbn [k_heap set_heap heap_move mem_free]. rewrite Eh, Efree. f_equal. cbn [bytes_of c_used c_size fst snd Bool.eqb]. lia.
  - apply same_first_at.
  - unfold PS, at_place. by rewrite !length_app.
Qed.

(** The two searches and the cut. *)
Lemma found_spec size H PS k r k1 :
  heap_ok H PS k -> 0 < size <= 2048 ->
  (exists P1 b B1 B2 P2 c s m' bl', PS = at_place P1 b B1 B2 P2 [(c, s, false)] /\ r = c /\
     alloc_order (alloc_size size) <= bidx s /\ k1 = set_mem m' k /\
     hstate c (at_place P1 b B1 B2 P2 [(c, s, true)]) bl' m' /\ untouched (heap_fp PS) (k_mem k) m') ->
  r <> NULL /\ wp (carve r (alloc_size size)) k1 (fun p k' => exists s PS', p = r + 12 /\
    handed_out size H PS k r s H PS' k' /\ (compact_but r PS -> compact PS')).
Proof.
  intros HK Hs (P1 & b & B1 & B2 & P2 & c & s & m' & bl' & -> & -> & Ho & -> & HT & Hu).
  destruct (chunk_bounds _ _ _ _ _ _ _ _ _ (c, s, true) HT ltac:(left)) as (K1 & _).
  split; [unfold c_addr, NULL, KERNEL_VIRTUAL_BASE in *; cbn in K1; lia|].
  eapply wp_mono; [apply (carve_heap P1 b B1 B2 P2 c s bl' size H _ k); try done|].
  - exists m', (k_buddy k), (k_heap k). by destruct k.
  - done.
Qed.

Lemma live_new_page PS f c s : live (PS ++ [new_page f]) c s <-> live PS c s.
Proof.
  unfold live. setoid_rewrite elem_of_app. setoid_rewrite list_elem_of_singleton. split.
  - intros (q & [Hq|Hq] & Hx); [by exists q|]. subst q. cbn in Hx. rewrite list_elem_of_singleton in Hx. congruence.
  - intros (q & Hq & Hx). exists q. auto.
Qed.

(** Buckets found empty hold no chunk. *)
Lemma nothing_from PS o c s bl m : hstate (-1) PS bl m -> (forall o', o <= o' < 9 -> bl o' = []) -> (c, s, false) ∈ flat PS -> bidx s < o.
Proof.
  intros HT Hnone Hc. destruct (Z.lt_ge_cases (bidx s) o) as [|Hge]; [done | exfalso].
  destruct (chunk_place _ _ (ht_pages _ _ _ _ HT) Hc) as (_ & _ & K1 & _). unfold c_size in K1. cbn [fst snd] in K1.
  pose proof (bidx_range s ltac:(lia)) as Hb. assert (Hin : c ∈ bl (bidx s)) by (apply (bo_in _ _ (ht_buckets _ _ _ _ HT)); eauto).
  rewrite Hnone in Hin by lia. by apply elem_of_nil in Hin.
Qed.

(** The search that found nothing before finds the chunk of the new page. *)
Lemma found_new PS f o c s bl m : hstate (-1) PS bl m -> (forall o', o <= o' < 9 -> bl o' = []) -> 0 <= o <= bidx s ->
  (c, s, false) ∈ flat (PS ++ [new_page f]) -> c = f + 20.
Proof.
  intros HT Hnone Ho Hc. apply new_chunks in Hc as [Hc|[Hc|[Hc|Hc]]]; [exfalso | congruence..].
  pose proof (nothing_from _ _ _ _ _ _ HT Hnone Hc). lia.
Qed.

(** A chunk of a page taken for it. *)
Lemma handed_new_page size H PS k i k2 s PS' k' :
  let f := P2V (4096 * i) in
  pa_state k2 ((i, 0) :: H) -> heap_call k k2 -> k_heap k2 = heap_move (f + 4076) 4044 0 52 (k_heap k) ->
  untouched (fun b => heap_fp PS b \/ unheld H b) (k_mem k) (k_mem k2) ->
  handed_out size ((i, 0) :: H) (PS ++ [new_page f]) k2 (f + 20) s ((i, 0) :: H) PS' k' ->
  (compact_but (f + 20) (PS ++ [new_page f]) -> compact PS') -> handed_out size H PS k (f + 20) s ((i, 0) :: H) PS' k'.
Proof.
  intros f HA Hcall Eh Hu2 [G1 (new & G2 & Gb) Gn Gp Gd G3 G4 G5 G6 G7 G8 _ G9 Gfr Gfi G10] Gco.
  destruct new; [|exfalso; apply (f_equal length) in G2; rewrite length_app in G2; cbn in G2; lia].
  assert (Hgrow : forall b', heap_fp (PS ++ [new_page f]) b' \/ unheld ((i, 0) :: H) b' -> heap_fp PS b' \/ unheld H b').
  { intros b' [Hb|Hb]; [|right; by eapply unheld_less]. apply fp_new_page in Hb as [Hb|Hb]; [by left | right].
    by destruct (fresh_page k2 H i b' HA Hb). }
  split; [done | | | intros b' Hb; by apply Hgrow, Gp | intros b' Hb; by apply Hgrow, Gd | done | | | | | | | | | |].
  - exists [(i, 0)]. split; [done|]. intros q Hq. destruct (Gb q Hq) as [(q' & [Hq'| ->%list_elem_of_singleton]%elem_of_app & <-)|(j & Hj & _)];
      [left; by exists q' | right; exists i; split; [left | done] | by apply elem_of_nil in Hj].
  - intros s' Hl. by apply (Gn s'), live_new_page.
  - intros c' s'. by rewrite G4, live_new_page.
  - destruct Hcall as (? & ? & ? & ->), G5 as (m5 & b5 & h5 & ->). by exists m5, b5, h5.
  - rewrite G6, Eh. cbn [heap_move mem_used]. rewrite u32_add_mod. f_equal. lia.
  - eapply untouched_trans; [exact Hu2|]. eapply untouched_mono; [exact Hgrow | exact G7].
  - eapply heap_sum_add; [|exact G8|]; [rewrite Eh; apply heap_sum_move|]. cbn [pages_of snd]. change (2 ^ 0) with 1. lia.
  - intros Hc. by apply Gco, compact_grow.
  - rewrite G9, total_of_app. cbn. lia.
  - rewrite Gfr, Eh, total_of_app. cbn [heap_move mem_free]. rewrite u32_add_mod. f_equal. cbn. unfold c_size. cbn. lia.
  - eapply same_first_trans; [apply same_first_app | exact Gfi].
  - rewrite G10, length_app. cbn [pages_of snd length]. change (2 ^ 0) with 1. lia.
Qed.

(** No free chunk is in a bucket [kmalloc] searches for the request. *)
Definition no_chunk_for (size : Z) (PS : list hpage) : Prop :=
  forall c s, (c, s, false) ∈ flat PS -> bidx s < alloc_order (alloc_size size).

(** A small request stops only for want of a chunk and of a page. *)
Lemma kmalloc_small_stops (E : stop -> Prop) size H PS k :
  heap_ok H PS k -> cursor_ok (k_vga k) -> 0 < size <= 2048 ->
  (forall e, out_of_memory e -> stops (pmm_alloc 0) k e -> no_chunk_for size PS -> E e) ->
  wpe E (kmalloc size) k (fun r k' => exists c s H' PS', r = c + 12 /\ handed_out size H PS k c s H' PS' k').
Proof.
  intros HK Hcur Hs HE. destruct (alloc_size_spec size Hs) as (A1 & A2 & A3).
  destruct (alloc_order_spec _ A1) as [Ho _]. unfold kmalloc, MIN_SIZE. destruct (Z.eqb_spec size 0); [lia|]. cbv zeta.
  replace (if size <? 8 then 8 else size) with (Z.max size 8) by (destruct (Z.ltb_spec size 8); lia).
  rewrite Z.geb_leb. destruct (Z.leb_spec 0x1000 (Z.max size 8)); [lia|].
  change (ALIGN_UP (Z.max size 8) HEAP_ALIGN) with (alloc_size size). set (a := alloc_size size) in *.
  apply wpe_bind, wpe_wp. unfold get_alloc_order. apply wp_bind, log_two_spec; [lia|]. apply wp_ret.
  change (Z.log2 (a - 1) + 1 - ORDER_OFFSET) with (alloc_order a). unfold NUM_SIZES. rewrite Z.geb_leb.
  destruct (Z.leb_spec 9 (alloc_order a)); [lia|].
  destruct (hk_state _ _ _ HK) as [bl HT].
  apply wpe_bind, wpe_wp. eapply wp_mono; [apply (find_chunk_spec PS bl k HT); [|lia]; lia|].
  intros r k1 [(-> & -> & Hnone)|Hfound].
  - change (NULL =? NULL) with true. cbv iota. apply wpe_bind, wpe_bind.
    eapply wpe_mono; [apply (create_chunk_stops E H PS k HK Hcur)|].
    { intros e He Hst. apply HE; [done | done |]. intros c s Hc. by eapply nothing_from. } intros f k2 (i & Ef & HK2 & Hcall & Eh & Hu2).
    destruct (hk_state _ _ _ HK2) as [bl2 HT2]. apply wpe_wp.
    eapply wp_mono; [apply (find_chunk_spec _ bl2 k2 HT2); [|lia]; lia|]. intros r k3 [(_ & _ & Hn)|Hfound].
    { exfalso. assert (Hin : f + 20 ∈ bl2 8) by (apply (bo_in _ _ (ht_buckets _ _ _ _ HT2)); [lia|]; exists 4044; split; [apply new_chunks; tauto | done]).
      rewrite Hn in Hin by lia. by apply elem_of_nil in Hin. }
    assert (Er : r = f + 20).
    { destruct Hfound as (P1 & b & B1 & B2 & P2 & c & s & m' & bl' & EP & -> & Ho' & _).
      apply (found_new PS f (alloc_order a) c s bl (k_mem k)); [done | done | lia |]. rewrite EP. apply in_at. right. left. }
    destruct (found_spec size _ _ k2 r k3 HK2 Hs Hfound) as [Hr Hw]. apply Z.eqb_neq in Hr. rewrite Hr. cbn [when].
    apply wpe_bind, wpe_ret, wpe_wp. eapply wp_mono; [exact Hw|].
    intros p k' (s & PS' & -> & HO & Gco). exists r, s, ((i, 0) :: H), PS'. split; [done|]. subst r f.
    by apply (handed_new_page size H PS k i k2); [exact (hk_pages _ _ _ HK2) | ..].
  - destruct (found_spec size _ _ k r k1 HK Hs Hfound) as [Hr Hw]. apply Z.eqb_neq in Hr. rewrite Hr.
    apply wpe_bind, wpe_ret. rewrite Hr. cbn [when]. apply wpe_bind, wpe_ret, wpe_wp. eapply wp_mono; [exact Hw|].
    intros p k' (s & PS' & -> & Hh & _). by exists r, s, H, PS'.
Qed.

Lemma kmalloc_small_spec size H PS k :
  heap_ok H PS k -> cursor_ok (k_vga k) -> 0 < size <= 2048 ->
  wpe out_of_memory (kmalloc size) k (fun r k' => exists c s H' PS', r = c + 12 /\ handed_out size H PS k c s H' PS' k').
Proof. intros HK Hc Hs. by apply kmalloc_small_stops. Qed.
End kmalloc.
