(* ===== verification/HeapFree.v ===== *)
(** * Giving chunks back: [kfree] and [return_page] *)

From Stdlib Require Import ZArith Lia Bool.
From stdpp Require Import base functions list gmap strings.
From S2P Require Import Prelude Machine StringLib Console Node Bump Buddy BuddyModel BuddyRefine BuddyInit Pmm Heap HeapModel HeapSteps HeapPages HeapCompact HeapAlloc.

(** ** Neighbours *)

Section merge.
Context `{HS : HeapSymbols} (P1 : list hpage) (b : Z) (B1 B2 : list chunk) (P2 : list hpage).
Local Abbreviation at_ := (at_place P1 b B1 B2 P2).

(** The same page, seen from a chunk further left. *)
Lemma at_behind B y M : at_place P1 b B1 (y :: B) P2 M = at_place P1 b B1 B P2 (M ++ [y]).
Proof. unfold at_place. by rewrite <- !app_assoc. Qed.

(** Both chunks of a pair, one of them free: the free one leaves its bucket, the
    second one is unlinked. *)
Lemma merge_pair (x y : chunk) nb bl k :
  let M := [x; y] in let J := [(c_addr x, c_size x + 12 + c_size y, true)] in
  hstate (-1) (at_ M) bl (k_mem k) ->
  (c_used x = true /\ c_used y = false /\ nb = y) \/ (c_used x = false /\ c_used y = true /\ nb = x) ->
  wp (merge_chunk (c_addr nb) (c_addr y)) k (fun _ k' => exists m' bl',
    k' = set_heap (heap_move (last_chunk (k_heap k)) (- c_size nb) 0 (-12) (k_heap k)) (set_mem m' k) /\
    hstate (if c_used x then -1 else c_addr x) (at_ J) bl' m' /\ untouched (heap_fp (at_ M)) (k_mem k) m').
Proof.
  intros M J HT Hnb. destruct x as [[c s] ux], y as [[n s2] uy]. unfold c_addr, c_size, c_used in *. cbn [fst snd] in *.
  assert (Hstep : wp (get_bucket_index (c_addr nb)) k (fun r k' => r = bidx (c_size nb) /\ k' = k)).
  { destruct Hnb as [(_ & _ & ->)|(_ & _ & ->)]; [apply (size_at P1 b B1 B2 P2 (-1) [(c, s, ux)] (n, s2, uy) [] bl k HT)
      | apply (size_at P1 b B1 B2 P2 (-1) [] (c, s, ux) [(n, s2, uy)] bl k HT)]. }
  unfold merge_chunk. apply wp_bind. eapply wp_mono; [exact Hstep|]. intros r k1 [-> ->]. unfold chunk_free.
  (* the free one leaves its bucket *)
  assert (Hrem : wp (remove_node (bucket_at (bidx (c_size nb))) (c_addr nb + 12)) k (fun _ k' => exists m' bl',
    k' = set_mem m' k /\ hstate (c_addr nb) (at_ [(c, s, true); (n, s2, true)]) bl' m' /\
    untouched (heap_fp (at_ M)) (k_mem k) m')).
  { destruct Hnb as [(-> & -> & ->)|(-> & -> & ->)]; unfold M, c_addr, c_size; cbn [fst snd].
    - change [(c, s, true); (n, s2, false)] with ([(c, s, true)] ++ [(n, s2, false)]).
      change [(c, s, true); (n, s2, true)] with ([(c, s, true)] ++ [(n, s2, true)]). rewrite !at_shift.
      apply (remove_chunk_spec _ _ _ _ _ n s2 bl k). rewrite <- at_shift. exact HT.
    - change [(c, s, false); (n, s2, true)] with ([(c, s, false)] ++ [(n, s2, true)]).
      change [(c, s, true); (n, s2, true)] with ([(c, s, true)] ++ [(n, s2, true)]). rewrite <- !at_behind.
      apply (remove_chunk_spec _ _ _ _ _ c s bl k). rewrite at_behind. exact HT. }
  apply wp_bind. eapply wp_mono; [exact Hrem|]. intros [] k1 (m1 & bl1 & -> & HT1 & Hu1).
  assert (Hsz : wp (get_chunk_size (c_addr nb)) (set_mem m1 k) (fun r k' => r = c_size nb /\ k' = set_mem m1 k)).
  { destruct Hnb as [(_ & _ & ->)|(_ & _ & ->)]; [apply (size_at P1 b B1 B2 P2 _ [(c, s, true)] (n, s2, true) [] bl1 (set_mem m1 k) HT1)
      | apply (size_at P1 b B1 B2 P2 _ [] (c, s, true) [(n, s2, true)] bl1 (set_mem m1 k) HT1)]. }
  apply wp_bind. eapply wp_mono; [exact Hsz|]. intros r k1 [-> ->]. apply wp_bind, add_move.
  destruct (second_other _ _ _ _ _ _ _ _ _ _ _ HT1) as (_ & _ & F1 & F2). pose proof (ht_statics _ _ _ _ HT1) as (S1 & S2 & S3 & S4 & S5).
  apply wp_bind. eapply wp_access; [lia | lia | reflexivity | cbv beta]. unfold node_next, chunk_all. apply wp_bind.
  eapply wp_mono; [apply (join_spec P1 b B1 B2 P2 (c_addr nb) (if ux then -1 else c) c s n s2 bl1); [exact HT1 | | by left]|].
  - destruct Hnb as [(-> & _ & ->)|(-> & _ & ->)]; [by left | right; split; [by left | done]].
  - intros [] k1 (m2 & -> & HT2 & Hu2). apply add_move. exists m2, bl1. cbn [k_mem k_heap set_mem set_heap] in *.
    rewrite heap_move_move. cbn [heap_move last_chunk]. unfold HEADER_SIZE. split_and!; [by rewrite Z.add_0_r | done |].
    eapply untouched_trans; [exact Hu1|]. eapply untouched_mono; [|exact Hu2]. intros b'. apply fp_at.
    unfold M. intros z Hz Hb. rewrite !elem_of_cons, elem_of_nil in Hz. destruct Hz as [->|[->|[]]];
      (destruct Hb as [Hb|[Hb _]]; [|done]); [exists (c, s, ux) | exists (n, s2, uy)]; (split; [list_in | by left]).
Qed.
End merge.

Section neighbours.
Context `{HS : HeapSymbols} (P1 : list hpage) (b : Z) (P2 : list hpage).

(** The chunks around the place, the fences of the page at its ends. *)
Definition next_of (B2 : list chunk) : chunk := hd (b + 4076, 8, true) B2.
Definition prev_of (B1 : list chunk) : chunk := default (b, 8, true) (last B1).

Lemma links_at lim B1 B2 x bl m : hstate lim (at_place P1 b B1 B2 P2 [x]) bl m ->
  ld32 m (c_addr x) = c_addr (next_of B2) /\ ld32 m (c_addr x + 4) = c_addr (prev_of B1) /\
  next_of B2 ∈ flat (at_place P1 b B1 B2 P2 [x]) /\ prev_of B1 ∈ flat (at_place P1 b B1 B2 P2 [x]).
Proof.
  intros [_ _ _ [R1 _ _]]. rewrite addrs_at in R1. cbn [fmap list_fmap app] in R1.
  destruct (dll_at _ _ _ _ _ R1) as [Hn Hp]. unfold node_next, node_prev in *. rewrite Hn, Hp.
  split_and!.
  - unfold right_of, next_of. by destruct B2.
  - unfold left_of, prev_of, last_or. rewrite fmap_app, last_app, fmap_last. destruct (last B1); cbn; [done|].
    by rewrite fmap_app, last_app.
  - apply in_at. left. rewrite elem_of_app. right. unfold right_of, next_of. destruct B2; cbn; list_in.
  - apply in_at. left. rewrite elem_of_app. left. unfold left_of, prev_of.
    destruct (last B1) as [z|] eqn:E; cbn; [apply last_Some_elem_of in E; list_in | list_in].
Qed.

Lemma pair_adjacent B1 B2 x y : pages_ok (at_place P1 b B1 B2 P2 [x; y]) -> c_addr y = c_end x.
Proof.
  intros HP. pose proof (po_tiles _ HP (b, B1 ++ [x; y] ++ B2) ltac:(unfold at_place; list_in)) as Ht.
  apply tiles_app in Ht as (e1 & _ & Ht). cbn [snd tiles app] in Ht. by destruct Ht as (_ & _ & _ & -> & _).
Qed.

(** What a joined pair may write, it could write as two free chunks. *)
Lemma join_fp B1 B2 x y b' : pages_ok (at_place P1 b B1 B2 P2 [x; y]) -> 0 <= c_size x ->
  heap_fp (at_place P1 b B1 B2 P2 [(c_addr x, c_size x + 12 + c_size y, false)]) b' ->
  heap_fp (at_place P1 b B1 B2 P2 [(c_addr x, c_size x, false); (c_addr y, c_size y, false)]) b'.
Proof.
  intros HP Hs. pose proof (pair_adjacent B1 B2 x y HP) as E. apply fp_at. intros z ->%list_elem_of_singleton Hb.
  unfold c_end, c_total, c_addr, c_size, c_used, range in *. cbn [fst snd] in *.
  assert (x.1.1 <= b' < x.1.1 + (12 + x.1.2) \/ y.1.1 <= b' < y.1.1 + (12 + y.1.2)) as [Hr|Hr] by (destruct Hb as [Hb|[_ Hb]]; lia).
  - exists (x.1.1, x.1.2, false). cbn [fst snd]. split; [left | by right].
  - exists (y.1.1, y.1.2, false). cbn [fst snd]. split; [list_in | by right].
Qed.

(** From one place to another, around the chunk being freed. *)
Record grown (B1 B2 : list chunk) (c s : Z) (B1' B2' : list chunk) (c' s' : Z) : Prop := {
  gr_live : forall x, c_used x = true -> x ∈ B1 ++ B2 <-> x ∈ B1' ++ B2';
  gr_fp : forall b', heap_fp (at_place P1 b B1' B2' P2 [(c', s', false)]) b' ->
    heap_fp (at_place P1 b B1 B2 P2 [(c, s, false)]) b';
  gr_bytes : bytes_of true B1' + bytes_of true B2' = bytes_of true B1 + bytes_of true B2;
  gr_co : coalesced B1 -> coalesced B2 -> coalesced B1' /\ coalesced B2' }.

(** The heap's globals between two points of [kfree]. *)
Definition same_heap (k k' : kernel) (m' : memory) (d e : Z) : Prop := exists h', k' = set_heap h' (set_mem m' k) /\
  last_chunk h' = last_chunk (k_heap k) /\ mem_used h' = mem_used (k_heap k) /\
  heap_sum h' = u32 (heap_sum (k_heap k) + d) /\ shifted (mem_free (k_heap k)) (mem_free h') e.

Lemma same_heap_refl k d e : d = 0 -> e = 0 -> same_heap k k (k_mem k) d e.
Proof. intros Hd He. exists (k_heap k). split_and!; [by destruct k | done | done | by apply heap_sum_0 | by apply shifted_0]. Qed.

Lemma used_flag lim PS bl m x : hstate lim PS bl m -> x ∈ flat PS -> c_addr x <> lim ->
  (ld8 m (chunk_used (c_addr x)) =? 0) = negb (c_used x).
Proof. intros [_ _ _ [_ R2 _]] Hx Hne. unfold chunk_used. rewrite R2 by done. by destruct (c_used x). Qed.

Lemma chunk_access PS x : pages_ok PS -> x ∈ flat PS ->
  KERNEL_VIRTUAL_BASE <= c_addr x /\ c_addr x + 20 <= 2 ^ 32 /\ c_addr x <> -1.
Proof.
  intros HP Hx. destruct (chunk_place _ _ HP Hx) as (A1 & A2 & A3 & _).
  unfold c_end, c_total, KERNEL_VIRTUAL_BASE in *. lia.
Qed.

Lemma free_next B1 B2 c s bl k :
  hstate (-1) (at_place P1 b B1 B2 P2 [(c, s, true)]) bl (k_mem k) -> u32 (mem_used (k_heap k)) = mem_used (k_heap k) ->
  let n := c_addr (next_of B2) in
  wp (load8 (chunk_used n)) k (fun nused k0 => wp (when (nused =? 0) (merge_chunk n n)) k0 (fun _ k' => exists B2' s' m' bl',
    same_heap k k' m' (s - s') (bytes_of false B2' - bytes_of false B2) /\ hstate (-1) (at_place P1 b B1 B2' P2 [(c, s', true)]) bl' m' /\ grown B1 B2 c s B1 B2' c s' /\ (coalesced B2 -> edge (hd_error B2')) /\
    untouched (heap_fp (at_place P1 b B1 B2 P2 [(c, s, false)])) (k_mem k) m')).
Proof.
  intros HT Hused n. pose proof (ht_pages _ _ _ _ HT) as HP.
  destruct (links_at _ _ _ _ _ _ HT) as (_ & _ & Hn & _). destruct (chunk_access _ _ HP Hn) as (A1 & A2 & A3).
  fold n in A1, A2, A3. eapply wp_access; [unfold chunk_used; lia | unfold chunk_used; lia | reflexivity | cbv beta].
  unfold n at 1. rewrite (used_flag _ _ _ _ _ HT Hn A3).
  destruct (c_used (next_of B2)) eqn:Eu; cbn [negb when].
  { apply wp_ret. exists B2, s, (k_mem k), bl. split_and!; [apply same_heap_refl; lia | done | done | | apply untouched_refl].
    intros _. unfold next_of in Eu. by destruct B2. }
  destruct B2 as [|y B2]; [done|]. cbn [next_of hd] in *.
  rewrite at_behind in HT. cbn [app] in HT. eapply wp_mono; [apply (merge_pair P1 b B1 B2 P2 (c, s, true) y y bl); [exact HT | by left]|].
  intros [] k' (m' & bl' & -> & HT' & Hu). exists B2, (s + 12 + c_size y), m', bl'. unfold c_addr at 1 2, c_size at 1, c_used in HT'. cbn [fst snd] in HT'.
  rewrite at_behind in HP. pose proof (chunk_bounds _ _ _ _ _ _ _ _ _ (c, s, true) HT ltac:(left)) as (_ & _ & Hs).
  split_and!; [| exact HT' | split | intros [[Hy|Hy] _]; [congruence | done] |].
  - eexists. split; [reflexivity|]. rewrite heap_sum_move. cbn [heap_move last_chunk mem_used mem_free].
    split_and!; [done | by rewrite Z.add_0_r | f_equal; lia | apply shifted_u32; cbn [bytes_of]; rewrite Eu; cbn [Bool.eqb]; lia].
  - intros x Hx. rewrite !elem_of_app, elem_of_cons. split; [|tauto]. intros [Hi|[->|Hi]]; [tauto | congruence | tauto].
  - intros b' Hb. rewrite at_behind. cbn [app]. apply (join_fp B1 B2 (c, s, true) y b' HP) in Hb; [|lia].
    destruct y as [[n0 s2] uy]. unfold c_used in Eu. cbn [snd] in Eu. subst uy. exact Hb.
  - cbn [bytes_of]. rewrite Eu. cbn [Bool.eqb]. lia.
  - cbn [coalesced]. tauto.
  - eapply untouched_mono; [|exact Hu]. intros b'. rewrite at_behind. cbn [app]. apply fp_at.
    intros z Hz Hb. rewrite !elem_of_cons, elem_of_nil in Hz.
    destruct Hz as [->|[->|[]]]; [exists (c, s, false) | exists y]; (split; [list_in|]); [|done].
    destruct Hb as [Hb|[? _]]; [by left | done].
Qed.

Lemma free_prev B1 B2 c s bl k :
  hstate (-1) (at_place P1 b B1 B2 P2 [(c, s, true)]) bl (k_mem k) -> u32 (mem_used (k_heap k)) = mem_used (k_heap k) ->
  let p := c_addr (prev_of B1) in
  wp (load8 (chunk_used p)) k (fun pused k0 => wp (if pused =? 0 then merge_chunk p c;; mret p else mret c) k0 (fun r k' =>
    exists B1' s' lim m' bl', same_heap k k' m' (s - s') (bytes_of false B1' - bytes_of false B1) /\ (lim = r \/ lim = -1) /\
    hstate lim (at_place P1 b B1' B2 P2 [(r, s', true)]) bl' m' /\ grown B1 B2 c s B1' B2 r s' /\ (coalesced B1 -> edge (last B1')) /\
    untouched (heap_fp (at_place P1 b B1 B2 P2 [(c, s, false)])) (k_mem k) m')).
Proof.
  intros HT Hused p. pose proof (ht_pages _ _ _ _ HT) as HP.
  destruct (links_at _ _ _ _ _ _ HT) as (_ & _ & _ & Hp). destruct (chunk_access _ _ HP Hp) as (A1 & A2 & A3).
  fold p in A1, A2, A3. eapply wp_access; [unfold chunk_used; lia | unfold chunk_used; lia | reflexivity | cbv beta].
  unfold p at 1. rewrite (used_flag _ _ _ _ _ HT Hp A3).
  destruct (c_used (prev_of B1)) eqn:Eu; cbn [negb].
  { apply wp_ret. exists B1, s, (-1), (k_mem k), bl.
    split_and!; [apply same_heap_refl; lia | by right | done | done | | apply untouched_refl].
    intros _. unfold prev_of in Eu. by destruct (last B1). }
  unfold prev_of in *. destruct (last B1) as [z|] eqn:El; [|done]. apply last_Some in El as [B1' ->].
  cbn [default from_option id] in *. pose proof HT as HT0. rewrite <- at_shift in HT0, HP. cbn [app] in HT0, HP. subst p.
  apply wp_bind. eapply wp_mono; [apply (merge_pair P1 b B1' B2 P2 z (c, s, true) z bl); [exact HT0 | by right]|].
  intros [] k' (m' & bl' & -> & HT' & Hu). apply wp_ret.
  exists B1', (c_size z + 12 + s), (c_addr z), m', bl'. rewrite Eu in HT'.
  pose proof (chunk_bounds _ _ _ _ _ _ _ _ _ z HT0 ltac:(left)) as (_ & _ & Hs).
  split_and!; [| by left | exact HT' | split | intros (_ & _ & Hz & _)%coalesced_free; [exact Hz | done] |].
  - eexists. split; [reflexivity|]. rewrite heap_sum_move. cbn [heap_move last_chunk mem_used mem_free].
    split_and!; [done | by rewrite Z.add_0_r | f_equal; lia | apply shifted_u32; rewrite bytes_of_app; cbn [bytes_of]; rewrite Eu; cbn [Bool.eqb]; lia].
  - intros x Hx. rewrite !elem_of_app, list_elem_of_singleton. split; [|tauto]. intros [[Hi| ->]|Hi]; [tauto | congruence | tauto].
  - intros b' Hb. rewrite <- at_shift. cbn [app]. apply (join_fp B1' B2 z (c, s, true) b' HP) in Hb; [|lia].
    destruct z as [[n0 s2] uy]. unfold c_used in Eu. cbn [snd] in Eu. subst uy. exact Hb.
  - rewrite bytes_of_app. cbn [bytes_of]. rewrite Eu. cbn [Bool.eqb]. lia.
  - rewrite coalesced_app. tauto.
  - eapply untouched_mono; [|exact Hu]. intros b'. rewrite <- at_shift. cbn [app]. apply fp_at.
    intros x Hx Hb. rewrite !elem_of_cons, elem_of_nil in Hx.
    destruct Hx as [->|[->|[]]]; [exists z | exists (c, s, false)]; (split; [list_in|]); [done|].
    destruct Hb as [Hb|[? _]]; [by left | done].
Qed.

Lemma grown_trans B1 B2 c s B1' B2' c' s' B1'' B2'' c'' s'' :
  grown B1 B2 c s B1' B2' c' s' -> grown B1' B2' c' s' B1'' B2'' c'' s'' -> grown B1 B2 c s B1'' B2'' c'' s''.
Proof. intros [G1 G2 G3 G4] [G5 G6 G7 G8]. split; [intros x Hx; by rewrite G1, G5 | auto | lia | intros H1 H2; destruct (G4 H1 H2); auto]. Qed.

(** The end of [kfree] when the page stays: the chunk enters its bucket. *)
Lemma release_spec lim B1 B2 c s bl k :
  hstate lim (at_place P1 b B1 B2 P2 [(c, s, true)]) bl (k_mem k) -> lim = c \/ lim = -1 ->
  u32 (mem_used (k_heap k)) = mem_used (k_heap k) ->
  wp (store8 (chunk_used c) 0;; b ← get_bucket_index c; push_node (bucket_at b) (chunk_free c);; add_mem s 0 0) k
    (fun _ k' => exists m' bl', same_heap k k' m' s s /\ hstate (-1) (at_place P1 b B1 B2 P2 [(c, s, false)]) bl' m' /\
       untouched (heap_fp (at_place P1 b B1 B2 P2 [(c, s, false)])) (k_mem k) m').
Proof.
  intros HT Hlim Hused. assert (Hx : (c, s, true) ∈ flat (at_place P1 b B1 B2 P2 [(c, s, true)])) by (apply in_at; right; left).
  destruct (chunk_access _ _ (ht_pages _ _ _ _ HT) Hx) as (A1 & A2 & _). unfold c_addr in A1, A2. cbn [fst] in A1, A2.
  destruct (flag_step _ _ _ _ (c, s, true) 0 HT Hx Hlim) as [HT1 Hu1]. unfold c_addr in HT1, Hu1. cbn [fst] in HT1, Hu1.
  apply wp_bind. eapply wp_access; [unfold chunk_used; lia | unfold chunk_used; lia | reflexivity | cbv beta].
  unfold chunk_used, chunk_free. set (m1 := st8 (k_mem k) (c + 8) 0) in *.
  apply wp_bind. eapply wp_mono; [apply (size_at P1 b B1 B2 P2 c [] (c, s, true) [] bl); exact HT1|]. intros r k1 [-> ->].
  apply wp_bind. eapply wp_mono; [apply (push_chunk_spec P1 b B1 B2 P2 c s bl); [exact HT1|]|].
  { unfold m1. cbn [k_mem set_mem]. by rewrite ld8_st8_eq. }
  intros [] k2 (m2 & bl2 & -> & HT2 & Hu2). apply add_move. exists m2, bl2. cbn [k_mem k_heap set_mem set_heap] in *.
  split_and!; [|done |].
  - eexists. split; [reflexivity|]. rewrite heap_sum_move. cbn [heap_move last_chunk mem_used mem_free].
    split_and!; [done | by rewrite Z.add_0_r | f_equal; lia | by apply shifted_u32].
  - eapply untouched_trans; [|exact Hu2]. eapply untouched_mono; [|exact Hu1]. intros b'. apply fp_at.
    intros x ->%list_elem_of_singleton [Hb|[? _]]; [|done]. exists (c, s, false). split; [left | by left].
Qed.
End neighbours.

(** ** Giving a page back *)

(** [remove_node] of a node that is neither first nor second in the list, with the
    list's head or the first node's link as the reference. *)
Lemma unlink_spec h0 k x y L n R h :
  dll (k_mem k) h0 ((x :: y :: L) ++ n :: R) -> nodes_ok ((x :: y :: L) ++ n :: R) -> head_ok h0 ((x :: y :: L) ++ n :: R) ->
  h = h0 \/ h = x ->
  wp (remove_node h n) k (fun _ => leaves_dll h0 k ((x :: y :: L) ++ n :: R) ((x :: y :: L) ++ R)).
Proof.
  intros Hd Hok Hhok Hh. pose proof (proj1 Hd) as E1. destruct (dll_at _ _ [] x _ Hd) as [E2 _]. cbn [hd app] in E1, E2.
  unfold node_next in E2. pose proof Hok as (Hnd & _). cbn [app] in Hnd. apply NoDup_cons in Hnd as [N1 N2].
  apply NoDup_cons in N2 as [N2 _].
  assert (Hr : remove_node h n k = remove_node h0 n k).
  { destruct Hh as [->| ->]; [done|]. pose proof (head_facts _ _ Hhok). pose proof (node_facts _ _ x Hok Hhok ltac:(left)).
    apply remove_node_head; [by apply mapped_spec; lia | by apply mapped_spec; lia | rewrite E2 | rewrite E1]; intros ->;
      [apply N2 | apply N1]; list_in. }
  apply (wp_ext _ _ _ _ Hr). by apply remove_node_spec.
Qed.

(** [last] follows when the last chunk goes. *)
Lemma fix_last h0 A B l R k :
  dll (k_mem k) h0 (A ++ l :: R) -> nodes_ok (A ++ l :: R) -> head_ok h0 (A ++ l :: R) ->
  last_chunk (k_heap k) = last_or 0 (B ++ l :: R) -> u32 (mem_used (k_heap k)) = mem_used (k_heap k) ->
  wp (when (last_chunk (k_heap k) =? l) (p ← load32 (node_prev l); set_last p)) k (fun _ k' => exists h',
    k' = set_heap h' k /\ last_chunk h' = last_or 0 (A ++ R) /\ mem_used h' = mem_used (k_heap k) /\ heap_sum h' = heap_sum (k_heap k) /\
    shifted (mem_free (k_heap k)) (mem_free h') 0).
Proof.
  intros Hd Hok Hhok Hl Hu. node_at Hok Hhok l. destruct (dll_at _ _ _ _ _ Hd) as [_ Hp].
  rewrite Hl. unfold last_or at 1. rewrite last_app. destruct (exists_last_or_nil R) as [->|(R' & z & ->)].
  - cbn [last default from_option id]. rewrite Z.eqb_refl. cbn [when]. apply wp_bind.
    eapply wp_access; [unfold node_prev; lia | unfold node_prev; lia | reflexivity | cbv beta]. rewrite Hp. apply set_last_spec.
    eexists. split; [reflexivity|]. rewrite heap_sum_move. cbn [heap_move last_chunk mem_used mem_free]. rewrite app_nil_r.
    split_and!; [done | by rewrite Z.add_0_r | symmetry; by apply heap_sum_0 | by apply shifted_u32].
  - rewrite last_cons, last_snoc. cbn [default from_option id].
    assert (z <> l).
    { intros ->. destruct Hok as (Hnd & _). apply NoDup_app in Hnd as (_ & _ & Hnd). apply NoDup_cons in Hnd as [Hnd _].
      apply Hnd. list_in. }
    rewrite (proj2 (Z.eqb_neq z l)) by done. cbn [when]. apply wp_ret. exists (k_heap k). split_and!; [by destruct k | | done | done | by apply shifted_0].
    rewrite Hl. unfold last_or. rewrite !last_app, last_cons, last_snoc. done.
Qed.

Section return_page.
Context `{HS : HeapSymbols} (P1 : list hpage) (b : Z) (P2 : list hpage).

Lemma first_two : P1 <> [] -> exists x y L, c_addr <$> flat P1 = x :: y :: L.
Proof.
  destruct P1 as [|[f body] P]; [done|]. intros _. cbn [flat page_chunks fst snd app fmap list_fmap]. rewrite <- app_assoc.
  destruct body; cbn; eauto.
Qed.

(** Without the page the rest is a heap. *)
Lemma without_page lim c bl m m' :
  hstate lim (at_place P1 b [] [] P2 [(c, 4044, true)]) bl m -> lim = c \/ lim = -1 ->
  dll m' first_var (c_addr <$> flat (P1 ++ P2)) -> untouched (links (at_place P1 b [] [] P2 [(c, 4044, true)])) m m' ->
  hstate (-1) (P1 ++ P2) bl m'.
Proof.
  intros [H1 H2 H3 [R1 R2 R3]] Hlim Hd Hu. set (PS := at_place _ _ _ _ _ _) in *.
  assert (Hsub : forall p, p ∈ P1 ++ P2 -> p ∈ PS) by (intros p; unfold PS, at_place; rewrite !elem_of_app, elem_of_cons; tauto).
  assert (Hflat : forall x, x ∈ flat (P1 ++ P2) -> x ∈ flat PS) by (intros x; rewrite !flat_in; intros (p & ? & ?); eauto).
  assert (Hne : forall x, x ∈ flat (P1 ++ P2) -> c_addr x <> lim).
  { intros x Hx. destruct (chunk_access _ _ H2 (Hflat x Hx)) as (_ & _ & ?). destruct Hlim as [->| ->]; [|done].
    apply (others_addr P1 b [] [] P2 [(c, 4044, true)] x (c, 4044, true) H2); [|left].
    apply flat_in in Hx as (p & Hp & Hx). unfold left_of, right_of. rewrite app_nil_r. cbn [app].
    rewrite !elem_of_app, elem_of_cons. apply elem_of_app in Hp as [Hp|Hp]; [left; left | right; right]; apply flat_in; eauto. }
  assert (HB : buckets_ok (P1 ++ P2) bl).
  { destruct H3 as [Hin Hnd]. split; [|done]. intros o y Ho. rewrite Hin by done. split; intros (s & Hs & E); exists s; (split; [|done]).
    - apply flat_in in Hs as (p & Hp & Hs). unfold PS, at_place in Hp. rewrite elem_of_app, elem_of_cons in Hp. apply flat_in.
      destruct Hp as [Hp|[->|Hp]]; [exists p; split; [list_in | done] | | exists p; split; [list_in | done]].
      exfalso. unfold page_chunks in Hs. cbn in Hs. rewrite !elem_of_cons, elem_of_nil in Hs. intuition congruence.
    - by apply Hflat. }
  split; [done | | done | split; [done | |]].
  - destruct H2 as [T A P Q]. split; [auto | | auto | eauto]. unfold PS, at_place in A.
    apply pairwise_app in A as (A1 & [_ A2] & A3). apply pairwise_app. split_and!; [done | done |].
    intros x y Hx Hy. apply A3; [done | by right].
  - intros x Hx _. rewrite <- (R2 x (Hflat x Hx) (Hne x Hx)). apply Hu. by apply flag_off_links, Hflat.
  - intros o Ho. apply (bucket_keep PS o (bl o) m m' H1 H2 Ho); [|done | by apply R3].
    intros y Hy. destruct (bucket_chunk _ _ _ _ H3 Ho Hy) as (x & ? & ? & _). by exists x.
Qed.

Lemma flat_join Q1 Q2 : flat (Q1 ++ Q2) = flat Q1 ++ flat Q2.
Proof. induction Q1 as [|p Q1 IH]; cbn [flat app]; [done | by rewrite IH, app_assoc]. Qed.

Lemma return_page_run `{BS : BuddySymbols} lim c bl k (Q : unit -> kernel -> Prop) :
  let PS := at_place P1 b [] [] P2 [(c, 4044, true)] in
  hstate lim PS bl (k_mem k) -> lim = c \/ lim = -1 -> P1 <> [] ->
  last_chunk (k_heap k) = last_or 0 (c_addr <$> flat PS) -> u32 (mem_used (k_heap k)) = mem_used (k_heap k) ->
  (forall h' m', last_chunk h' = last_or 0 (c_addr <$> flat (P1 ++ P2)) -> mem_used h' = mem_used (k_heap k) ->
     heap_sum h' = u32 (heap_sum (k_heap k) - 52) -> shifted (mem_free (k_heap k)) (mem_free h') 0 ->
     hstate (-1) (P1 ++ P2) bl m' -> untouched (links PS) (k_mem k) m' ->
     wp (pmm_free (V2P b)) (set_heap h' (set_mem m' k)) Q) ->
  wp (return_page b) k Q.
Proof.
  intros PS HT Hlim HP1 Hlast Hused HQ. pose proof HT as [H1 H2 H3 [R1 R2 R3]].
  destruct (all_nodes PS H1 H2) as [N1 N2]. destruct (first_two HP1) as (x & y & L & EA).
  assert (EPS : c_addr <$> flat PS = (x :: y :: L) ++ b :: c :: (b + 4076) :: (c_addr <$> flat P2)).
  { unfold PS. rewrite addrs_at. unfold left_of, right_of. rewrite app_nil_r, fmap_app, EA, <- app_assoc. done. }
  assert (EPP : c_addr <$> flat (P1 ++ P2) = (x :: y :: L) ++ (c_addr <$> flat P2)) by (by rewrite flat_join, fmap_app, EA).
  set (A := x :: y :: L) in *. set (R := c_addr <$> flat P2) in *. set (l := b + 4076) in *.
  assert (Hfp : forall b', dll_fp first_var (A ++ b :: c :: l :: R) b' -> links PS b') by (intros b'; rewrite <- EPS; apply all_fp).
  rewrite EPS in R1, N1, N2, Hlast. pose proof H1 as (S1 & S2 & S3 & S4 & S5).
  node_at N1 N2 b. node_at N1 N2 c. node_at N1 N2 l. node_at N1 N2 x.
  destruct (dll_at _ _ A b (c :: l :: R) R1) as [Eb _]. unfold node_next in Eb. cbn [hd] in Eb.
  assert (Ec : ld32 (k_mem k) c = l).
  { change (A ++ b :: c :: l :: R) with (A ++ [b] ++ c :: l :: R) in R1. rewrite app_assoc in R1.
    exact (proj1 (dll_at _ _ _ c (l :: R) R1)). }
  unfold return_page, node_next. apply wp_bind. eapply wp_access; [lia | lia | reflexivity | cbv beta]. rewrite Eb.
  apply wp_bind. eapply wp_access; [lia | lia | reflexivity | cbv beta]. rewrite Ec.
  (* the middle chunk *)
  assert (N1' : nodes_ok (A ++ b :: l :: R)).
  { eapply nodes_ok_sublist; [|exact N1]. apply sublist_app; [done|]. do 1 apply sublist_skip. by apply sublist_cons. }
  assert (N1'' : nodes_ok (A ++ l :: R)).
  { eapply nodes_ok_sublist; [|exact N1']. apply sublist_app; [done|]. by apply sublist_cons. }
  assert (N2' : head_ok first_var (A ++ b :: l :: R)) by (eapply head_ok_incl; [|exact N2]; intros z; rewrite !elem_of_app, !elem_of_cons; tauto).
  assert (N2'' : head_ok first_var (A ++ l :: R)) by (eapply head_ok_incl; [|exact N2]; intros z; rewrite !elem_of_app, !elem_of_cons; tauto).
  apply wp_bind. change (A ++ b :: c :: l :: R) with ((x :: y :: L) ++ [b] ++ c :: l :: R) in R1, N1, N2. rewrite app_assoc in R1, N1, N2.
  eapply wp_mono; [apply (unlink_spec first_var k x y (L ++ [b]) c (l :: R) first_var R1 N1 N2); by left|].
  intros [] k1 (m1 & -> & D1 & U1). cbn [app] in D1, U1. rewrite <- !app_assoc in D1, U1. cbn [app] in D1, U1. fold A in D1, U1.
  apply wp_bind, add_move.
  (* the first fence *)
  apply wp_bind. eapply wp_access; [lia | lia | reflexivity | cbv beta]. cbn [k_mem set_mem set_heap]. rewrite (proj1 D1). cbn [hd A app].
  apply wp_bind. eapply wp_mono; [eapply (unlink_spec first_var _ x y L b (l :: R) x); [exact D1 | exact N1' | exact N2' | by right]|].
  intros [] k2 (m2 & -> & D2 & U2). cbn [k_mem set_mem set_heap] in U2. apply wp_bind, add_move. fold A in D2, U2.
  apply wp_bind, wp_gets. apply wp_bind.
  eapply wp_mono; [apply (fix_last first_var A (A ++ [b; c]) l R); [exact D2 | exact N1'' | exact N2'' | |]|].
  { cbn [k_heap set_mem set_heap heap_move last_chunk]. rewrite Hlast, <- app_assoc. done. }
  { cbn [k_heap set_mem set_heap heap_move mem_used]. by rewrite !Z.add_0_r, !u32_idem. }
  intros [] k3 (h3 & -> & El & Eu & Es & Ef). cbn [k_heap set_mem set_heap heap_move mem_used] in Eu. rewrite !Z.add_0_r, u32_idem, Hused in Eu.
  (* the last fence *)
  apply wp_bind. eapply wp_access; [lia | lia | reflexivity | cbv beta]. cbn [k_mem set_mem set_heap]. rewrite (proj1 D2). cbn [hd A app].
  apply wp_bind. eapply wp_mono; [eapply (unlink_spec first_var _ x y L l R x); [exact D2 | exact N1'' | exact N2'' | by right]|].
  intros [] k4 (m4 & -> & D4 & U4). cbn [k_mem set_mem set_heap] in U4. apply wp_bind, add_move. fold A in D4, U4.
  assert (U : untouched (links PS) (k_mem k) m4).
  { assert (HI : forall l' m m', (forall z, z ∈ l' -> z ∈ A ++ b :: c :: l :: R) ->
      untouched (dll_fp first_var l') m m' -> untouched (links PS) m m').
    { intros l' m m' Hz. apply untouched_mono. intros b' Hb. apply Hfp. by eapply dll_fp_incl. }
    eapply untouched_trans; [|eapply untouched_trans]; eapply HI; [|exact U1| |exact U2| |exact U4];
      intros z; unfold A; repeat progress (cbn [app]; rewrite ?elem_of_app, ?elem_of_cons, ?elem_of_nil); tauto. }
  apply (HQ (heap_move (last_chunk h3) 0 0 (- (HEADER_SIZE + MIN_SIZE)) h3) m4).
  - cbn [heap_move last_chunk]. by rewrite El, EPP.
  - cbn [heap_move mem_used]. by rewrite Z.add_0_r, Eu.
  - rewrite heap_sum_move, Es. cbn [k_heap set_mem set_heap]. rewrite !heap_sum_move. repeat rewrite u32_add_mod. rewrite <- !Z.add_assoc, u32_add_mod. f_equal. unfold HEADER_SIZE, MIN_SIZE. lia.
  - cbn [heap_move mem_free]. cbn [k_heap set_mem set_heap heap_move mem_free] in Ef.
    eapply (shifted_add _ _ _ 0 0); [|by apply shifted_u32 | done].
    eapply (shifted_add _ _ _ 0 0); [|exact Ef | done]. by eapply (shifted_add _ _ _ 0 0); [apply shifted_u32 | apply shifted_u32 |].
  - apply (without_page lim c bl (k_mem k) m4 HT Hlim); [by rewrite EPP | done].
  - done.
Qed.
End return_page.

(** ** [kfree] *)

Section kfree.
Context `{BS : BuddySymbols} `{HS : HeapSymbols} `{PA : !PageAllocator pmm_alloc pmm_free get_order_addr}.

(** [c] is all that is in use of [q], a page other than the first. *)
Definition sole_chunk (PS : list hpage) (c : Z) (q : hpage) : Prop :=
  q ∈ tail PS /\ (exists s, (c, s, true) ∈ q.2) /\ forall x, x ∈ q.2 -> c_used x = true -> c_addr x = c.

Record taken_back (c s : Z) (H : list block) (PS : list hpage) (k : kernel)
    (H' : list block) (PS' : list hpage) (k' : kernel) : Prop := {
  tk_heap : heap_ok H' PS' k';
  tk_held : H' = H \/ exists i q, q ∈ PS /\ q.1 = P2V (4096 * i) /\ (i, 0) ∈ H /\ H' = filter (fun x => x <> (i, 0)) H;
  tk_bases : forall p, p ∈ PS' -> exists q, q ∈ PS /\ q.1 = p.1;
  tk_live : forall c' s', live PS' c' s' <-> live PS c' s' /\ c' <> c;
  tk_call : heap_call k k';
  tk_used : mem_used (k_heap k') = u32 (mem_used (k_heap k) - s);
  tk_frame : untouched (fun b => heap_fp PS b \/ range (c + 12) s b \/ pa_bytes b) (k_mem k) (k_mem k');
  tk_sum : heap_sum (k_heap k') = u32 (heap_sum (k_heap k) + 4096 * (pages_of H' - pages_of H));
  tk_compact : compact PS -> compact PS';
  tk_total : total_of true PS' = total_of true PS - s;
  tk_free : shifted (mem_free (k_heap k)) (mem_free (k_heap k')) (total_of false PS' - total_of false PS);
  tk_first : same_first PS PS';
  tk_pages : pages_of H' - Z.of_nat (length PS') = pages_of H - Z.of_nat (length PS);
  tk_return : (H' = H /\ (compact PS -> forall q, ~ sole_chunk PS c q)) \/
    exists i q, sole_chunk PS c q /\ q.1 = P2V (4096 * i) /\ (i, 0) ∈ H /\ H' = filter (fun x => x <> (i, 0)) H }.

Lemma live_grown P1 b P2 B1 B2 c s B1' B2' c' s' x y : grown P1 b P2 B1 B2 c s B1' B2' c' s' ->
  live (at_place P1 b B1 B2 P2 []) x y <-> live (at_place P1 b B1' B2' P2 []) x y.
Proof.
  intros [G _ _ _]. assert (Hl : forall B1 B2, live (at_place P1 b B1 B2 P2 []) x y <->
    (exists p, p ∈ P1 ++ P2 /\ (x, y, true) ∈ p.2) \/ (x, y, true) ∈ B1 ++ B2).
  { intros C1 C2. unfold live, at_place. setoid_rewrite elem_of_app. setoid_rewrite elem_of_cons. cbn [app]. split.
    - intros (p & [Hp|[->|Hp]] & Hx); [left; eauto | right; by apply elem_of_app | left; eauto].
    - intros [(p & [Hp|Hp] & Hx)|Hx]; [eauto | eauto |]. eexists. split; [right; left; reflexivity|]. by apply elem_of_app. }
  rewrite !Hl. by rewrite (G (x, y, true) eq_refl).
Qed.

(** A chunk handed out is not what the rest of the page hands out. *)
Lemma live_others P1 b P2 B1 B2 c s x y : pages_ok (at_place P1 b B1 B2 P2 [(c, s, true)]) ->
  live (at_place P1 b B1 B2 P2 []) x y -> x <> c.
Proof.
  intros HP Hl. intros ->. apply (others_addr P1 b B1 B2 P2 [(c, s, true)] (c, y, true) (c, s, true) HP); [|left | done].
  destruct Hl as (p & Hp & Hx). unfold at_place in Hp. cbn [app] in Hp. rewrite elem_of_app, elem_of_cons in Hp.
  assert (Hpc : (c, y, true) ∈ page_chunks p) by (unfold page_chunks; list_in).
  unfold left_of, right_of. destruct Hp as [Hp|[->|Hp]].
  - do 3 (apply elem_of_app; left). apply flat_in. by exists p.
  - cbn [snd] in Hx. apply elem_of_app in Hx as [Hx|Hx]; list_in.
  - apply elem_of_app; right. apply elem_of_app; right. right. apply flat_in. by exists p.
Qed.

(** Chunks do not start on page boundaries. *)
Lemma chunk_unaligned H PS k c s : heap_ok H PS k -> live PS c s -> IS_ALIGNED (c + 12) BASE_SIZE = false.
Proof.
  intros HK (p & Hp & Hx). destruct (hk_state _ _ _ HK) as [bl HT]. destruct (hk_held _ _ _ HK p Hp) as (i & E & Hi).
  destruct (block_bytes _ _ i 0 (hk_pages _ _ _ HK) Hi) as [Ev _]. rewrite Ev in E.
  pose proof (po_tiles _ (ht_pages _ _ _ _ HT) p Hp) as Ht.
  destruct (tiles_in _ _ _ _ Ht Hx) as (B1 & B2 & B3 & _). unfold c_end, c_total, c_addr, c_size in *. cbn [fst snd] in *.
  destruct (IS_ALIGNED (c + 12) BASE_SIZE) eqn:Ea; [|done]. exfalso.
  change BASE_SIZE with (2 ^ 12) in Ea. apply IS_ALIGNED_spec in Ea as [q Hq]; [|lia].
  change (2 ^ 12) with 4096 in Hq. unfold KERNEL_VIRTUAL_BASE in E. lia.
Qed.

(** A chunk of 4044 bytes is all of its page. *)
Lemma whole_alone P1 b P2 B1 B2 c : pages_ok (at_place P1 b B1 B2 P2 [(c, 4044, true)]) -> B1 = [] /\ B2 = [] /\ c = b + 20.
Proof.
  intros HP. pose proof (po_tiles _ HP (b, B1 ++ [(c, 4044, true)] ++ B2) ltac:(unfold at_place; list_in)) as Ht.
  unfold page_ok in Ht. cbn [fst snd] in Ht. apply tiles_app in Ht as (e1 & T1 & T2). cbn [app tiles] in T2.
  destruct T2 as (E1 & _ & _ & T2). unfold c_end, c_total, c_addr, c_size in *. cbn [fst snd] in *.
  assert (Hne : forall x l e1 e2, tiles e1 (x :: l) e2 -> e1 + 20 <= e2).
  { intros x l f1 f2 Ht. pose proof (tiles_in _ _ _ x Ht ltac:(left)) as (? & ? & ? & _). unfold c_end, c_total in *.
    destruct Ht as (<- & _). lia. }
  assert (Hle : forall l e1 e2, tiles e1 l e2 -> e1 <= e2).
  { intros [|x l] f1 f2 Ht; [by rewrite Ht|]. apply Hne in Ht. lia. }
  destruct B1 as [|x B1]; [|apply Hne in T1; apply Hle in T2; lia].
  destruct B2 as [|x B2]; [|apply Hle in T1; apply Hne in T2; lia]. cbn [tiles] in T1. subst. done.
Qed.

Lemma last_page P1 b B1 B2 P2 M :
  last_or 0 (c_addr <$> flat (at_place P1 b B1 B2 P2 M)) = last_or 0 (c_addr <$> (b + 4076, 8, true) :: flat P2).
Proof.
  rewrite flat_at. unfold right_of. rewrite !fmap_app, !app_assoc. unfold last_or. rewrite last_app.
  destruct (last _) eqn:E; [done|]. by apply last_None in E.
Qed.

Lemma freed_fp P1 b B1 B2 P2 c s b' :
  heap_fp (at_place P1 b B1 B2 P2 [(c, s, false)]) b' ->
  heap_fp (at_place P1 b B1 B2 P2 [(c, s, true)]) b' \/ range (c + 12) s b'.
Proof.
  intros [Hb|(x & [Hx|Hx%list_elem_of_singleton]%in_at & Hb)]; [left; by left | left; right; exists x; split; [apply in_at; by left | done] |].
  subst x. unfold range, c_total, c_addr, c_size in *. cbn [fst snd] in Hb.
  destruct (Z.lt_ge_cases b' (c + 12)); [left; right; exists (c, s, true); split; [apply in_at; right; left|]; left; unfold range, c_addr; cbn; lia | right; lia].
Qed.

Lemma freed_off_pages P1 b B1 B2 P2 c s H k b' :
  heap_ok H (at_place P1 b B1 B2 P2 [(c, s, true)]) k -> heap_fp (at_place P1 b B1 B2 P2 [(c, s, false)]) b' -> ~ pa_bytes b'.
Proof.
  intros HK [Hf|Hf]%freed_fp Hb; [apply (heap_fp_held _ _ _ _ HK Hf); by left|].
  destruct (hk_state _ _ _ HK) as [bl HT].
  destruct (chunk_page _ (c, s, true) (ht_pages _ _ _ _ HT) ltac:(apply in_at; right; left)) as (p & Hp & C1 & C2 & _).
  unfold c_end, c_total, c_addr, c_size in *. cbn [fst snd] in *.
  by destruct (page_held _ _ _ p b' HK Hp ltac:(unfold range in *; lia)) as [_ Hn].
Qed.

(** When something is left beside the merged chunk, another chunk of the page is in use. *)
Lemma not_sole P1 b P2 B1 B2 c s B1' B2' c' s' q :
  pages_ok (at_place P1 b B1 B2 P2 [(c, s, true)]) -> grown P1 b P2 B1 B2 c s B1' B2' c' s' ->
  edge (last B1') -> edge (hd_error B2') -> (P1 <> [] -> B1' <> [] \/ B2' <> []) ->
  ~ sole_chunk (at_place P1 b B1 B2 P2 [(c, s, true)]) c q.
Proof.
  intros HP HG He1 He2 Hn (Ht & (s0 & Hc) & Hall).
  assert (Hq : P1 <> [] /\ q = (b, B1 ++ [(c, s, true)] ++ B2)).
  { apply in_tail_at in Ht as [Ht|[Ht|Ht]]; [exfalso | done | exfalso];
      apply (not_elsewhere P1 b B1 B2 P2 (c, s, true) (c, s0, true) q HP); try done; apply elem_of_app;
      [left; destruct P1; [by apply elem_of_nil in Ht | by right] | by right]. }
  destruct Hq as [HP1 ->].
  assert (Hx : exists x, x ∈ B1' ++ B2' /\ c_used x = true).
  { destruct (Hn HP1) as [HB|HB].
    - destruct (last B1') as [x|] eqn:El; [|by apply last_None in El]. exists x. split; [|done].
      apply elem_of_app. left. by apply last_Some_elem_of.
    - destruct B2' as [|x B2']; [done|]. exists x. split; [list_in | done]. }
  destruct Hx as ([[d e] u] & Hx & Hu). apply (gr_live _ _ _ _ _ _ _ _ _ _ _ HG) in Hx; [|done].
  unfold c_used in Hu. cbn in Hu. subst u.
  apply (live_others P1 b P2 B1 B2 c s d e HP).
  - exists (b, B1 ++ [] ++ B2). split; [apply in_place; tauto | exact Hx].
  - apply (Hall (d, e, true)); [|done]. cbn [snd]. rewrite !elem_of_app in *. tauto.
Qed.

(** The heap after [kfree], when the page stays. *)
Lemma freed_stays P1 b P2 B1 B2 c s B1' B2' c' s' bl' m' h' H k :
  heap_ok H (at_place P1 b B1 B2 P2 [(c, s, true)]) k -> grown P1 b P2 B1 B2 c s B1' B2' c' s' ->
  hstate (-1) (at_place P1 b B1' B2' P2 [(c', s', false)]) bl' m' ->
  last_chunk h' = last_chunk (k_heap k) -> mem_used h' = u32 (mem_used (k_heap k) - s) -> heap_sum h' = heap_sum (k_heap k) ->
  shifted (mem_free (k_heap k)) (mem_free h') (s' + bytes_of false B1' + bytes_of false B2' - bytes_of false B1 - bytes_of false B2) ->
  untouched (heap_fp (at_place P1 b B1 B2 P2 [(c, s, false)])) (k_mem k) m' ->
  (coalesced (B1 ++ (c, s, true) :: B2) -> edge (last B1') /\ edge (hd_error B2')) -> (P1 <> [] -> B1' <> [] \/ B2' <> []) ->
  taken_back c s H (at_place P1 b B1 B2 P2 [(c, s, true)]) k H (at_place P1 b B1' B2' P2 [(c', s', false)])
    (set_heap h' (set_mem m' k)).
Proof.
  intros HK HG HT El Eu Es Ef Hu He Hn. pose proof HK as [A1 A2 (bl & HT0) A4 A5]. set (PS := at_place P1 b B1 B2 P2 [(c, s, true)]) in *.
  assert (HuP : forall b', pa_bytes b' -> ld8 m' b' = ld8 (k_mem k) b').
  { intros b' Hb. apply Hu. intros Hf. by apply (freed_off_pages _ _ _ _ _ _ _ _ _ b' HK Hf). }
  split; cbn [k_mem k_heap set_mem set_heap]; try done.
  - split; cbn [k_mem k_heap set_mem set_heap]; try done.
    + by apply (pa_stable k).
    + by exists bl'.
    + intros p Hp. unfold at_place in Hp. rewrite elem_of_app, elem_of_cons in Hp.
      destruct Hp as [Hp|[->|Hp]]; [apply A4; unfold PS, at_place; list_in | | apply A4; unfold PS, at_place; list_in].
      apply (A4 (b, B1 ++ [(c, s, true)] ++ B2)). unfold PS, at_place. list_in.
    + rewrite El, A5. unfold PS. by rewrite !last_page.
  - by left.
  - intros p Hp. unfold at_place in Hp. rewrite elem_of_app, elem_of_cons in Hp.
    destruct Hp as [Hp|[->|Hp]]; [exists p | exists (b, B1 ++ [(c, s, true)] ++ B2) | exists p]; (split; [unfold PS, at_place; list_in | done]).
  - intros x y. unfold PS. rewrite (live_at P1 b B1' B2' P2), (live_at P1 b B1 B2 P2), !list_elem_of_singleton.
    rewrite <- (live_grown _ _ _ _ _ _ _ _ _ _ _ x y HG). split.
    + intros [Hl|Hl]; [|done]. split; [by left|]. eapply live_others; [exact (ht_pages _ _ _ _ HT0) | exact Hl].
    + intros [[Hl|Hl] Hne]; [by left | congruence].
  - exists m', (k_buddy k), h'. by destruct k.
  - eapply untouched_mono; [|exact Hu]. intros b' [Hf|Hf]%freed_fp; auto.
  - rewrite Es. apply heap_sum_0. lia.
  - intros Hco. assert (Hb : coalesced (B1 ++ (c, s, true) :: B2))
      by (apply (co_coalesced _ Hco (b, B1 ++ [(c, s, true)] ++ B2)), in_place; tauto).
    destruct (He Hb) as [He1 He2]. apply coalesced_used in Hb as [Hb1 Hb2]; [|done]. destruct (gr_co _ _ _ _ _ _ _ _ _ _ _ HG Hb1 Hb2).
    by eapply compact_release.
  - unfold PS. rewrite !total_of_at. pose proof (gr_bytes _ _ _ _ _ _ _ _ _ _ _ HG). cbn. unfold c_size. cbn. lia.
  - unfold PS. rewrite !total_of_at. eapply shifted_add; [exact Ef | by apply (shifted_0 _ 0) |]. cbn. unfold c_size. cbn. lia.
  - apply same_first_at.
  - unfold PS, at_place. by rewrite !length_app.
  - left. split; [done|]. intros Hco q.
    assert (Hb : coalesced (B1 ++ (c, s, true) :: B2))
      by (apply (co_coalesced _ Hco (b, B1 ++ [(c, s, true)] ++ B2)), in_place; tauto).
    destruct (He Hb) as [He1 He2]. by eapply not_sole; [exact (ht_pages _ _ _ _ HT0) | ..].
Qed.

(** The heap after [kfree], when the page goes back. *)
Lemma freed_page P1 b P2 B1 B2 c s c' i m' h' H k k' bl :
  heap_ok H (at_place P1 b B1 B2 P2 [(c, s, true)]) k -> grown P1 b P2 B1 B2 c s [] [] c' 4044 ->
  b = P2V (4096 * i) -> (i, 0) ∈ H ->
  hstate (-1) (P1 ++ P2) bl m' -> last_chunk h' = last_or 0 (c_addr <$> flat (P1 ++ P2)) ->
  mem_used h' = u32 (mem_used (k_heap k) - s) -> heap_sum h' = u32 (heap_sum (k_heap k) - 4096) ->
  shifted (mem_free (k_heap k)) (mem_free h') (- bytes_of false B1 - bytes_of false B2) ->
  untouched (heap_fp (at_place P1 b B1 B2 P2 [(c, s, false)])) (k_mem k) m' ->
  pa_state k' (filter (fun x => x <> (i, 0)) H) -> allocator_frame pa_bytes (set_heap h' (set_mem m' k)) k' -> P1 <> [] ->
  taken_back c s H (at_place P1 b B1 B2 P2 [(c, s, true)]) k (filter (fun x => x <> (i, 0)) H) (P1 ++ P2) k'.
Proof.
  intros HK HG Eb Hi HT El Eu Es Ef Hu HS' (m2 & b2 & -> & Hu2) Hn1. cbn [k_mem set_mem set_heap] in Hu2.
  pose proof HK as [A1 A2 (bl0 & HT0) A4 A5]. set (PS := at_place P1 b B1 B2 P2 [(c, s, true)]) in *.
  pose proof (po_apart _ (ht_pages _ _ _ _ HT0)) as Hap. unfold PS, at_place in Hap. apply pairwise_app in Hap as (_ & [Hap1 _] & Hap2).
  assert (Hheld : forall p, p ∈ P1 ++ P2 -> exists j, p.1 = P2V (4096 * j) /\ (j, 0) ∈ H /\ j <> i).
  { intros p Hp. destruct (A4 p) as (j & Ej & Hj); [unfold PS, at_place; rewrite !elem_of_app in *; rewrite elem_of_cons; tauto|].
    exists j. split_and!; [done | done |]. intros ->.
    assert (Hpa : p_apart p (b, B1 ++ [(c, s, true)] ++ B2) \/ p_apart (b, B1 ++ [(c, s, true)] ++ B2) p)
      by (apply elem_of_app in Hp as [Hp|Hp]; [left; apply Hap2; [done | left] | right; by apply Hap1]).
    unfold p_apart, apart in Hpa. cbn [fst] in Hpa. lia. }
  pose proof (pages_of_perm _ _ (remove_block_perm (i, 0) H (pa_nodup _ _ A1) Hi)) as Hpages. cbn [pages_of snd] in Hpages.
  change (2 ^ 0) with 1 in Hpages.
  split; cbn [k_mem k_heap set_mem set_heap set_buddy]; try done.
  - split; cbn [k_mem k_heap set_mem set_heap set_buddy]; try done.
    + exists bl. eapply hstate_frame; [exact HT|]. intros b' Hf. apply Hu2. intros Hpb.
      destruct Hf as [Hf|(x & Hx & Hf)]; [by apply (A2 b' Hf)|].
      destruct (chunk_page _ x (ht_pages _ _ _ _ HT) Hx) as (p & Hp & C1 & C2 & C3).
      destruct (Hheld p Hp) as (j & Ej & Hj & _). apply (pa_apart _ _ _ _ b' A1 Hj); [|done]. rewrite <- Ej.
      change (4096 * 2 ^ 0) with 4096. unfold c_end, c_total, range in *. destruct Hf as [Hf|[_ Hf]]; lia.
    + intros p Hp. destruct (Hheld p Hp) as (j & Ej & Hj & Hne). exists j. split; [done|].
      apply list_elem_of_filter. split; [congruence | done].
  - right. exists i, (b, B1 ++ [(c, s, true)] ++ B2). split_and!; [unfold PS, at_place; list_in | done | done | done].
  - intros p Hp. exists p. split; [|done]. unfold PS, at_place. rewrite !elem_of_app in *. rewrite elem_of_cons. tauto.
  - intros x y. unfold PS. rewrite (live_at P1 b B1 B2 P2), list_elem_of_singleton, (live_grown _ _ _ _ _ _ _ _ _ _ _ x y HG).
    assert (Hl : live (P1 ++ P2) x y <-> live (at_place P1 b [] [] P2 []) x y).
    { unfold live, at_place. setoid_rewrite elem_of_app. setoid_rewrite elem_of_cons. cbn [app]. split.
      - intros (p & [Hp|Hp] & Hx); eauto.
      - intros (p & [Hp|[->|Hp]] & Hx); [eauto | by apply elem_of_nil in Hx | eauto]. }
    rewrite Hl. split; [|intros [[Hx|Hx] Hne]; [done | congruence]]. intros Hx. split; [by left|].
    apply (live_grown _ _ _ _ _ _ _ _ _ _ _ x y HG) in Hx. eapply live_others; [exact (ht_pages _ _ _ _ HT0) | exact Hx].
  - exists m2, b2, h'. by destruct k.
  - eapply untouched_trans; eapply untouched_mono; [|exact Hu| |exact Hu2]; [intros b' [Hf|Hf]%freed_fp; auto | auto].
  - rewrite Es. f_equal. lia.
  - intros Hco. by apply (compact_drop P1 b B1 B2 P2 [(c, s, true)]).
  - unfold PS. rewrite total_of_at, total_of_app. pose proof (gr_bytes _ _ _ _ _ _ _ _ _ _ _ HG) as Hby. cbn in *. unfold c_size. cbn. lia.
  - unfold PS. rewrite total_of_at, total_of_app. eapply shifted_add; [exact Ef | by apply (shifted_0 _ 0) |]. cbn. lia.
  - by apply same_first_drop.
  - unfold PS, at_place. rewrite !length_app. cbn [length]. lia.
  - right. exists i, (b, B1 ++ [(c, s, true)] ++ B2). split_and!; [| done | done | done]. split_and!.
    + apply in_tail_at. tauto.
    + exists s. cbn [snd]. list_in.
    + cbn [snd]. intros x Hx Hux. rewrite !elem_of_app, list_elem_of_singleton in Hx.
      destruct Hx as [Hx|[->|Hx]]; [exfalso | done | exfalso];
        (assert (Hx' : x ∈ B1 ++ B2) by (apply elem_of_app; tauto));
        apply (gr_live _ _ _ _ _ _ _ _ _ _ _ HG) in Hx'; by try apply elem_of_nil in Hx'.
Qed.

(** A page that stays and is not the first holds more than the merged chunk. *)
Lemma page_kept P1 b P2 B1 B2 c s lim bl m :
  hstate lim (at_place P1 b B1 B2 P2 [(c, s, true)]) bl m ->
  (s =? whole_page) && negb (c_addr (prev_of b B1) =? ld32 m first_var) = false -> P1 <> [] -> B1 <> [] \/ B2 <> [].
Proof.
  intros HT Hcase Hn. pose proof (ht_pages _ _ _ _ HT) as HP. destruct B1 as [|x B1]; [|by left]. destruct B2 as [|x B2]; [|by right]. exfalso.
  pose proof (po_tiles _ HP (b, [(c, s, true)]) ltac:(apply in_place; right; by left)) as Ht. unfold page_ok in Ht. cbn in Ht.
  unfold c_end, c_total, c_addr, c_size in Ht. cbn in Ht. change whole_page with 4044 in Hcase. rewrite (proj2 (Z.eqb_eq s 4044)) in Hcase by lia.
  cbn [andb] in Hcase. apply negb_false_iff, Z.eqb_eq in Hcase. rewrite (proj1 (hr_all _ _ _ _ (ht_rep _ _ _ _ HT))) in Hcase.
  destruct P1 as [|[b1 l1] P1]; [done|]. cbn in Hcase. subst b1.
  destruct (po_apart _ HP) as [Ha _]. specialize (Ha (b, [(c, s, true)]) ltac:(apply in_place; right; by left)). unfold p_apart, apart in Ha. cbn in Ha. lia.
Qed.

(** The end of [kfree]: the merged chunk goes to its bucket, or its page back. *)
Lemma kfree_end lim P1 b P2 B1 B2 c s B1' B2' c' s' bl k0 k m1 H :
  heap_ok H (at_place P1 b B1 B2 P2 [(c, s, true)]) k0 -> grown P1 b P2 B1 B2 c s B1' B2' c' s' ->
  hstate lim (at_place P1 b B1' B2' P2 [(c', s', true)]) bl m1 -> lim = c' \/ lim = -1 ->
  (exists h, k = set_heap h (set_mem m1 k0) /\ last_chunk h = last_chunk (k_heap k0) /\ mem_used h = u32 (mem_used (k_heap k0) - s) /\
    heap_sum h = u32 (heap_sum (k_heap k0) - s') /\
    shifted (mem_free (k_heap k0)) (mem_free h) (bytes_of false B1' + bytes_of false B2' - bytes_of false B1 - bytes_of false B2)) ->
  untouched (heap_fp (at_place P1 b B1 B2 P2 [(c, s, false)])) (k_mem k0) m1 ->
  (coalesced (B1 ++ (c, s, true) :: B2) -> edge (last B1') /\ edge (hd_error B2')) ->
  wp (chunk_size ← get_chunk_size c'; first ← load32 first_var; cprev ← load32 (node_prev (chunk_all c'));
      if (chunk_size =? whole_page) && negb (cprev =? first) then return_page cprev
      else store8 (chunk_used c') 0;; b ← get_bucket_index c'; push_node (bucket_at b) (chunk_free c');; add_mem chunk_size 0 0) k
    (fun _ k' => exists H' PS', taken_back c s H (at_place P1 b B1 B2 P2 [(c, s, true)]) k0 H' PS' k').
Proof.
  intros HK HG HT Hlim (h & -> & El & Eu & Es & Ef) Hu He. pose proof (ht_pages _ _ _ _ HT) as HP.
  assert (Hx : (c', s', true) ∈ flat (at_place P1 b B1' B2' P2 [(c', s', true)])) by (apply in_at; right; left).
  destruct (chunk_access _ _ HP Hx) as (A1 & A2 & _). unfold c_addr in A1, A2. cbn [fst] in A1, A2.
  pose proof (ht_statics _ _ _ _ HT) as (S1 & S2 & S3 & S4 & S5).
  destruct (links_at P1 b P2 _ _ _ _ _ _ HT) as (_ & Ep & _). unfold c_addr in Ep at 1. cbn [fst] in Ep.
  apply wp_bind. eapply wp_mono; [apply (size_at P1 b B1' B2' P2 lim [] (c', s', true) [] bl); exact HT|]. intros r k1 [-> ->].
  apply wp_bind. eapply wp_access; [lia | lia | reflexivity | cbv beta]. cbn [k_mem set_mem set_heap].
  apply wp_bind. eapply wp_access; [unfold node_prev, chunk_all; lia | unfold node_prev, chunk_all; lia | reflexivity | cbv beta].
  cbn [k_mem set_mem set_heap]. unfold node_prev, chunk_all at 1 2. rewrite Ep. unfold c_size. cbn [fst snd].
  destruct ((s' =? whole_page) && negb (c_addr (prev_of b B1') =? ld32 m1 first_var)) eqn:Ecase.
  - apply andb_true_iff in Ecase as [E1 E2]. apply Z.eqb_eq in E1. change whole_page with 4044 in E1. subst s'.
    apply negb_true_iff, Z.eqb_neq in E2. destruct (whole_alone P1 b P2 B1' B2' c' HP) as (-> & -> & Ec). cbn [prev_of last default from_option] in *.
    unfold prev_of in E2 |- *. cbn [last default from_option c_addr fst] in E2 |- *.
    assert (HP1 : P1 <> []).
    { intros ->. apply E2. rewrite (proj1 (hr_all _ _ _ _ (ht_rep _ _ _ _ HT))). done. }
    destruct (hk_held _ _ _ HK (b, B1 ++ [(c, s, true)] ++ B2)) as (i & Eb & Hi); [unfold at_place; list_in|]. cbn [fst] in Eb.
    apply (return_page_run P1 b P2 lim c' bl); try done.
    + cbn [k_heap set_heap]. by rewrite El, (hk_last _ _ _ HK), !last_page.
    + cbn [k_heap set_heap]. by rewrite Eu, u32_idem.
    + intros h' m' El' Eu' Es' Ef' HT' Hu'. cbn [k_mem k_heap set_mem set_heap] in *.
      assert (Hum : untouched (heap_fp (at_place P1 b B1 B2 P2 [(c, s, false)])) (k_mem k0) m').
      { eapply untouched_trans; [exact Hu|]. eapply untouched_mono; [|exact Hu']. intros b' Hb. apply (gr_fp _ _ _ _ _ _ _ _ _ _ _ HG).
        apply links_fp in Hb. revert Hb. apply fp_at. intros x ->%list_elem_of_singleton [Hb|[? _]]; [|done].
        exists (c', 4044, false). split; [left | by left]. }
      assert (HSm : pa_state (set_heap h' (set_mem m' (set_heap h (set_mem m1 k0)))) H).
      { apply (pa_stable k0); [exact (hk_pages _ _ _ HK) | done |]. cbn [k_mem set_mem set_heap]. intros b' Hb. apply Hum.
        intros Hf. by apply (freed_off_pages _ _ _ _ _ _ _ _ _ b' HK Hf). }
      destruct (pa_block _ _ i 0 HSm Hi) as (_ & Hi1 & _ & Hi2). change (2 ^ 0) with 1 in Hi2.
      rewrite Eb, V2P_P2V by lia.
      eapply wp_mono; [apply (pa_free _ H i 0 HSm Hi)|]. intros [] k' [HS' Hfr]. exists (filter (fun x => x <> (i, 0)) H), (P1 ++ P2).
      rewrite <- Eb in *. apply (freed_page P1 b P2 B1 B2 c s c' i m' h' H k0 k' bl); try done; [by rewrite Eu', Eu | |].
      * rewrite Es', Es. unfold Z.sub. rewrite u32_add_mod. f_equal. lia.
      * eapply shifted_add; [exact Ef | exact Ef' |]. cbn [bytes_of]. lia.
  - eapply wp_mono; [apply (release_spec P1 b P2 lim B1' B2' c' s' bl); [exact HT | exact Hlim |]|].
    { cbn [k_heap set_heap]. by rewrite Eu, u32_idem. }
    intros [] k' (m' & bl' & (h' & -> & E1 & E2 & E3 & E4) & HT' & Hu'). cbn [k_mem k_heap set_mem set_heap] in *.
    exists H, (at_place P1 b B1' B2' P2 [(c', s', false)]).
    change (set_heap h' (set_mem m' (set_heap h (set_mem m1 k0)))) with (set_heap h' (set_mem m' k0)).
    apply (freed_stays P1 b P2 B1 B2 c s B1' B2' c' s' bl' m' h' H k0); try done.
    + by rewrite E1.
    + by rewrite E2.
    + rewrite E3, Es. unfold Z.sub. rewrite u32_add_mod. symmetry. rewrite (heap_sum_0 _ 0) at 1 by done. f_equal. lia.
    + eapply shifted_add; [exact Ef | exact E4 | lia].
    + eapply untouched_trans; [exact Hu|]. eapply untouched_mono; [|exact Hu']. apply (gr_fp _ _ _ _ _ _ _ _ _ _ _ HG).
    + by apply (page_kept P1 b P2 B1' B2' c' s' lim bl m1).
Qed.

Lemma kfree_small_spec c s H PS k :
  heap_ok H PS k -> live PS c s ->
  wp (kfree (c + 12)) k (fun _ k' => exists H' PS', taken_back c s H PS k H' PS' k').
Proof.
  intros HK Hl. pose proof (chunk_unaligned _ _ _ _ _ HK Hl) as Ha. destruct (used_place PS c s Hl) as (P1 & b & B1 & B2 & P2 & ->).
  destruct (hk_state _ _ _ HK) as [bl HT]. pose proof (ht_pages _ _ _ _ HT) as HP.
  assert (Hx : (c, s, true) ∈ flat (at_place P1 b B1 B2 P2 [(c, s, true)])) by (apply in_at; right; left).
  destruct (chunk_access _ _ HP Hx) as (A1 & A2 & _). unfold c_addr in A1, A2. cbn [fst] in A1, A2.
  destruct (links_at P1 b P2 _ _ _ _ _ _ HT) as (En & Ep & _). unfold c_addr in En at 1, Ep at 1. cbn [fst] in En, Ep.
  unfold kfree. rewrite Ha. unfold get_chunk_offset, HEADER_SIZE. cbv zeta.
  replace (c + 12 ⊟ 12) with c by (unfold KERNEL_VIRTUAL_BASE in *; rewrite u32_small; lia).
  change (node_next (chunk_all c)) with c. change (node_prev (chunk_all c)) with (c + 4).
  apply wp_bind. eapply wp_access; [lia | lia | reflexivity | cbv beta]. rewrite En.
  apply wp_bind. eapply wp_access; [lia | lia | reflexivity | cbv beta]. rewrite Ep.
  apply wp_bind. eapply wp_mono; [apply (size_at P1 b B1 B2 P2 (-1) [] (c, s, true) [] bl); exact HT|]. intros r k1 [-> ->].
  unfold c_size. cbn [fst snd]. apply wp_bind, add_move. set (h1 := heap_move _ _ _ _ _).
  assert (Eu1 : mem_used h1 = u32 (mem_used (k_heap k) - s)) by (unfold h1; cbn [heap_move mem_used]; f_equal; lia).
  apply wp_bind. eapply wp_mono; [apply (free_next P1 b P2 B1 B2 c s bl (set_heap h1 k)); [exact HT|]|].
  { cbn [k_heap set_heap]. by rewrite Eu1, u32_idem. }
  intros nused k0 Hnext. cbv beta in Hnext. apply wp_bind. eapply wp_mono; [exact Hnext|].
  intros [] k2 (B2' & s2 & m2 & bl2 & (h2 & -> & E1 & E2 & F2 & S2) & HT2 & HG2 & He2 & Hu2). cbn [k_mem k_heap set_heap set_mem] in *.
  pose proof HG2 as [HGl HGf _ HGc].
  apply wp_bind. eapply wp_mono; [apply (free_prev P1 b P2 B1 B2' c s2 bl2 (set_heap h2 (set_mem m2 (set_heap h1 k)))); [exact HT2|]|].
  { cbn [k_heap set_heap]. by rewrite E2, Eu1, u32_idem. }
  intros pused k3 Hprev. cbv beta in Hprev. apply wp_bind. eapply wp_mono; [exact Hprev|].
  intros c' k4 (B1' & s3 & lim & m3 & bl3 & (h3 & -> & E3 & E4 & F3 & S3) & Hlim & HT3 & HG3 & He3 & Hu3). cbn [k_mem k_heap set_heap set_mem] in *.
  eapply (kfree_end lim P1 b P2 B1 B2 c s B1' B2' c' s3 bl3 k _ m3 H); try done.
  - by eapply grown_trans.
  - exists h3. split_and!; [done | by rewrite E3, E1 | by rewrite E4, E2 | |].
    2: { unfold h1 in S2. cbn [heap_move mem_free] in S2. eapply shifted_add; [eapply shifted_add; [apply (shifted_u32 _ 0 0 eq_refl) | exact S2 | reflexivity] | exact S3 | lia]. }
    eapply heap_sum_add; [eapply heap_sum_add; [apply heap_sum_move | exact F2 | reflexivity] | exact F3 | lia].
  - eapply untouched_trans; [exact Hu2|]. by eapply untouched_mono.
  - intros [Hb1 Hb2]%coalesced_used; [|done]. split; auto.
Qed.
End kfree.
