(* ===== verification/HeapTheorems.v ===== *)
(** * The heap's properties *)

From Stdlib Require Import ZArith Lia Bool.
From stdpp Require Import base functions list gmap strings.
From S2P Require Import Prelude Machine StringLib Console Node Bump Buddy BuddyModel BuddyRefine BuddyInit Pmm PmmSample Heap HeapModel HeapSteps HeapPages HeapCompact HeapAlloc HeapFree.

(** Storing a word that is already there changes no byte. *)
Lemma st32_same m a b : ld8 (st32 m a (ld32 m a)) b = ld8 m b.
Proof.
  destruct (decide (a <= b < a + 4)) as [Hb|Hb]; [|apply ld8_st32_ne; lia].
  replace b with (a + (b - a)) by lia. rewrite ld8_st32_byte by lia.
  pose proof (ld8_range m a). pose proof (ld8_range m (a + 1)). pose proof (ld8_range m (a + 2)). pose proof (ld8_range m (a + 3)).
  unfold ld32, ld16, u8. replace (a + 2 + 1) with (a + 3) by lia.
  assert (Hi : b - a = 0 \/ b - a = 1 \/ b - a = 2 \/ b - a = 3) by lia.
  destruct Hi as [-> |[-> |[-> | ->]]]; rewrite ?Z.add_0_r; cbn [Z.pow Z.pow_pos Pos.iter]; Z.div_mod_to_equations; lia.
Qed.

(** The blocks a client holds, with their sizes, and the bytes it wrote. *)
Abbreviation blocks := (gmap Z Z).
Abbreviation contents := (gmap Z Z).

Section heap.
Context `{BS : BuddySymbols} `{HS : HeapSymbols} `{PA : !PageAllocator pmm_alloc pmm_free get_order_addr}.

(** The data of the chunks handed out. *)
Definition live_byte (PS : list hpage) (b : Z) : Prop := exists c s, live PS c s /\ range (c + 12) s b.

Lemma live_flat PS c s : live PS c s -> (c, s, true) ∈ flat PS.
Proof. intros (p & Hp & Hx). apply flat_in. exists p. split; [done|]. unfold page_chunks. list_in. Qed.

(** No operation of the heap writes to them. *)
Lemma live_kept H PS k b : heap_ok H PS k -> live_byte PS b -> ~ (heap_fp PS b \/ unheld H b).
Proof.
  intros HK (c & s & Hl & Hb) Hf. destruct (hk_state _ _ _ HK) as [bl HT]. pose proof (ht_pages _ _ _ _ HT) as HP.
  pose proof (live_flat PS c s Hl) as Hx. destruct Hf as [Hf|Hf]; [by eapply (used_data PS (c, s, true))|].
  destruct (chunk_page PS _ HP Hx) as (p & Hp & B1 & B2 & _). unfold c_end, c_total, c_addr, c_size in *. cbn [fst snd] in *.
  destruct (page_held _ _ _ p b HK Hp) as [Hh Hn]; [unfold range in *; lia|]. by destruct Hf as [?|[_ ?]].
Qed.

Lemma live_apart H PS k c s c' s' : heap_ok H PS k -> live PS c s -> live PS c' s' -> c <> c' -> apart (c + 12) s (c' + 12) s'.
Proof.
  intros HK Hl Hl' Hne. destruct (hk_state _ _ _ HK) as [bl HT].
  destruct (chunks_apart PS _ _ (ht_pages _ _ _ _ HT) (live_flat _ _ _ Hl) (live_flat _ _ _ Hl') ltac:(congruence)) as [Ha|Ha];
    unfold c_end, c_total, c_addr, c_size, apart in *; cbn [fst snd] in *; lia.
Qed.

(** A chunk is handed out once. *)
Lemma live_once H PS k c s s' : heap_ok H PS k -> live PS c s -> live PS c s' -> s = s'.
Proof.
  intros HK Hl Hl'. destruct (hk_state _ _ _ HK) as [bl HT].
  pose proof (addr_unique PS _ _ (ht_pages _ _ _ _ HT) (live_flat _ _ _ Hl) (live_flat _ _ _ Hl') eq_refl). congruence.
Qed.

(** ** What a client holds

    A block of a chunk, or of whole pages. *)
Definition own_block (H : list block) (PS : list hpage) (i o : Z) : Prop :=
  (i, o) ∈ H /\ forall q, q ∈ PS -> q.1 <> P2V (4096 * i).

Definition obj (H : list block) (PS : list hpage) (p size : Z) : Prop :=
  (exists s, live PS (p - 12) s /\ size <= s) \/
  (exists i o, p = P2V (4096 * i) /\ own_block H PS i o /\ size <= 4096 * 2 ^ o).

(** Different blocks of pages have no byte in common. *)
Lemma same_block k H x y b : pa_state k H -> x ∈ H -> y ∈ H ->
  range (P2V (4096 * x.1)) (4096 * 2 ^ x.2) b -> range (P2V (4096 * y.1)) (4096 * 2 ^ y.2) b -> x = y.
Proof.
  intros HA Hx Hy Bx By. destruct x as [i o], y as [j q]. cbn [fst snd] in *.
  destruct (block_bytes _ _ _ _ HA Hx) as [Ei _], (block_bytes _ _ _ _ HA Hy) as [Ej _]. rewrite Ei in Bx. rewrite Ej in By.
  apply (pa_disjoint _ _ _ _ ((b - KERNEL_VIRTUAL_BASE) / 4096) HA Hx Hy). unfold block_meets, in_block, range in *. cbn [fst snd].
  pose proof (Z.div_mod (b - KERNEL_VIRTUAL_BASE) 4096 ltac:(lia)). pose proof (Z.mod_pos_bound (b - KERNEL_VIRTUAL_BASE) 4096 ltac:(lia)). lia.
Qed.

(** A byte of the heap lies in one of its pages or its variables. *)
Lemma fp_page H PS k b : heap_ok H PS k -> heap_fp PS b ->
  statics b \/ exists p, p ∈ PS /\ range p.1 4096 b.
Proof.
  intros HK [Hb|(x & Hx & Hb)]; [by left | right]. destruct (hk_state _ _ _ HK) as [bl HT].
  destruct (chunk_page PS x (ht_pages _ _ _ _ HT) Hx) as (p & Hp & B1 & B2 & B3). exists p. split; [done|].
  unfold c_end, c_total, range in *. destruct Hb as [Hb|[_ Hb]]; lia.
Qed.

Lemma page_block H PS k i o q b : heap_ok H PS k -> (i, o) ∈ H -> (forall p, p ∈ PS -> p.1 <> P2V (4096 * i)) ->
  q ∈ PS -> range (P2V (4096 * i)) (4096 * 2 ^ o) b -> ~ range q.1 4096 b.
Proof.
  intros HK Hi Hn Hq Hb Hr. destruct (hk_held _ _ _ HK q Hq) as (j & E & Hj). rewrite E in Hr.
  pose proof (same_block _ _ (i, o) (j, 0) b (hk_pages _ _ _ HK) Hi Hj Hb Hr) as Eij. apply (Hn q Hq). congruence.
Qed.

(** The heap's own writes spare it. *)
Lemma obj_kept H PS k p size b : heap_ok H PS k -> obj H PS p size -> range p size b -> ~ (heap_fp PS b \/ unheld H b).
Proof.
  intros HK [(s & Hl & Hs)|(i & o & -> & [Hi Hn] & Ho)] Hb.
  - apply (live_kept H PS k b HK). exists (p - 12), s. split; [done|]. unfold range in *. lia.
  - assert (Hr : range (P2V (4096 * i)) (4096 * 2 ^ o) b) by (unfold range in *; lia).
    assert (Hnp : ~ pa_bytes b) by (by apply (pa_apart _ _ _ _ b (hk_pages _ _ _ HK) Hi)).
    intros [Hf|[Hf|[_ Hf]]]; [| done | apply Hf; by exists i, o].
    destruct (fp_page _ _ _ _ HK Hf) as [Hst|(q & Hq & Hqr)]; [|by apply (page_block _ _ _ i o q b HK Hi Hn Hq)].
    destruct (hk_statics _ _ _ HK b Hst) as [Hlow _]. destruct (pa_block _ _ _ _ (hk_pages _ _ _ HK) Hi) as (_ & _ & Hi2 & _).
    destruct (block_bytes _ _ _ _ (hk_pages _ _ _ HK) Hi) as [E _]. rewrite E in Hr. unfold range in Hr. lia.
Qed.

Lemma live_in_page H PS k c s : heap_ok H PS k -> live PS c s -> exists q, q ∈ PS /\ q.1 + 20 <= c /\ c + 12 + s <= q.1 + 4076 /\ 8 <= s.
Proof.
  intros HK (q & Hq & Hx). exists q. split; [done|]. destruct (hk_state _ _ _ HK) as [bl HT].
  destruct (tiles_in _ _ _ _ (po_tiles _ (ht_pages _ _ _ _ HT) q Hq) Hx) as (? & ? & ? & _).
  unfold c_end, c_total, c_addr, c_size in *. cbn [fst snd] in *. lia.
Qed.

(** Different blocks are apart. *)
Lemma obj_apart H PS k p size p' size' : heap_ok H PS k -> obj H PS p size -> obj H PS p' size' -> p <> p' ->
  0 < size -> 0 < size' -> apart p size p' size'.
Proof.
  intros HK Ho Ho' Hne H0 H0'. apply ranges_apart; [done | done |]. intros b Hb Hb'.
  destruct Ho as [(s & Hl & Hs)|(i & o & -> & [Hi Hn] & Hs)], Ho' as [(s' & Hl' & Hs')|(i' & o' & -> & [Hi' Hn'] & Hs')].
  - pose proof (live_apart _ _ _ _ _ _ _ HK Hl Hl' ltac:(lia)). unfold apart, range in *. lia.
  - destruct (live_in_page _ _ _ _ _ HK Hl) as (q & Hq & B1 & B2 & _).
    apply (page_block _ _ _ i' o' q b HK Hi' Hn' Hq); unfold range in *; lia.
  - destruct (live_in_page _ _ _ _ _ HK Hl') as (q & Hq & B1 & B2 & _).
    apply (page_block _ _ _ i o q b HK Hi Hn Hq); unfold range in *; lia.
  - pose proof (same_block _ _ (i, o) (i', o') b (hk_pages _ _ _ HK) Hi Hi') as E. cbn [fst snd] in E.
    assert ((i, o) = (i', o')) by (apply E; unfold range in *; lia). congruence.
Qed.

Lemma tiles_aligned a l e x : tiles a l e -> (4 | a) -> x ∈ l -> (4 | c_addr x).
Proof.
  revert a. induction l as [|y l IH]; intros a Ht Ha Hx; [by apply elem_of_nil in Hx|]. destruct Ht as (E1 & E2 & E3 & Ht).
  apply elem_of_cons in Hx as [->|Hx]; [by rewrite E1|]. apply (IH _ Ht); [|done].
  unfold c_end, c_total. rewrite E1. apply Z.divide_add_r; [done|]. apply Z.divide_add_r; [by exists 3 | done].
Qed.

(** It is word-aligned kernel memory. *)
Lemma obj_place H PS k p size : heap_ok H PS k -> obj H PS p size -> KERNEL_VIRTUAL_BASE <= p /\ p + size <= 2 ^ 32 /\ (4 | p).
Proof.
  intros HK [(s & Hl & Hs)|(i & o & -> & [Hi Hn] & Hs)].
  - destruct (live_in_page _ _ _ _ _ HK Hl) as (q & Hq & B1 & B2 & _). destruct (hk_state _ _ _ HK) as [bl HT].
    destruct (po_place _ (ht_pages _ _ _ _ HT) q Hq) as [P1 P2]. split_and!; [lia | lia |].
    destruct Hl as (q' & Hq' & Hx). destruct (hk_held _ _ _ HK q' Hq') as (i & E & Hi).
    destruct (block_bytes _ _ _ _ (hk_pages _ _ _ HK) Hi) as [Ev _].
    assert (H4 : (4 | q'.1 + 20)) by (rewrite E, Ev; exists (1024 * i + 0x30000000 + 5); unfold KERNEL_VIRTUAL_BASE; lia).
    destruct (tiles_aligned _ _ _ _ (po_tiles _ (ht_pages _ _ _ _ HT) q' Hq') H4 Hx) as [z Hz].
    unfold c_addr in Hz. cbn [fst] in Hz. exists (z + 3). lia.
  - destruct (pa_block _ _ _ _ (hk_pages _ _ _ HK) Hi) as (_ & Hi1 & _ & Hi2).
    destruct (block_bytes _ _ _ _ (hk_pages _ _ _ HK) Hi) as [-> _]. unfold KERNEL_VIRTUAL_BASE.
    split_and!; [lia | lia | exists (1024 * i + 0x30000000); lia].
Qed.

(** ** Steps that leave the chunks alone *)

Lemma heap_ok_frame H PS k k' : heap_ok H PS k -> k_buddy k' = k_buddy k -> last_chunk (k_heap k') = last_chunk (k_heap k) ->
  (forall b, heap_fp PS b \/ unheld H b -> ld8 (k_mem k') b = ld8 (k_mem k) b) -> heap_ok H PS k'.
Proof.
  intros [A1 A2 (bl & A3) A4 A5] Eb El Hm. split; [| done | | done | congruence].
  - apply (pa_stable k); [done | done |]. intros b Hb. apply Hm. right. by left.
  - exists bl. eapply hstate_frame; [exact A3|]. auto.
Qed.

(** Pages taken from, or given back to, the page allocator. *)
Lemma heap_ok_pages H H' PS k k' u : heap_ok H PS k -> pa_state k' H' -> page_call u k k' ->
  (forall p, p ∈ PS -> exists i, p.1 = P2V (4096 * i) /\ (i, 0) ∈ H') -> heap_ok H' PS k'.
Proof.
  intros HK HA' (m' & b & -> & Hu) Hp. pose proof HK as [A1 A2 (bl & A3) A4 A5].
  split; [done | done | | done | by cbn [k_heap set_heap heap_add last_chunk]].
  exists bl. eapply hstate_frame; [exact A3|]. cbn [k_mem set_mem set_buddy set_heap]. intros b' Hf. apply Hu.
  intros Hb. apply (heap_fp_held _ _ _ _ HK Hf). by left.
Qed.

(** A block just taken has no byte in common with those held before. *)
Lemma held_fresh k H x b : pa_state k (x :: H) -> range (P2V (4096 * x.1)) (4096 * 2 ^ x.2) b -> ~ held H b.
Proof.
  intros HA Hb (j & q & Hj & Hq). pose proof (pa_nodup _ _ HA) as [Hn _]%NoDup_cons. apply Hn.
  by rewrite (same_block _ _ x (j, q) b HA ltac:(left) ltac:(by right) Hb Hq).
Qed.

Lemma obj_held H PS k p size : heap_ok H PS k -> obj H PS p size -> held H p.
Proof.
  intros HK [(s & Hl & Hs)|(i & o & -> & [Hi Hn] & Hs)].
  - destruct (live_in_page _ _ _ _ _ HK Hl) as (q & Hq & B1 & B2 & B3).
    apply (page_held _ _ _ q p HK Hq). unfold range. lia.
  - exists i, o. split; [done|]. destruct (block_bytes _ _ _ _ (hk_pages _ _ _ HK) Hi) as [_ Ho]. pose proof (pow2_pos o Ho). unfold range. lia.
Qed.

(** Blocks held survive the operations on others. *)
Lemma block_handed size H PS k c s H' PS' k' i o :
  handed_out size H PS k c s H' PS' k' -> own_block H PS i o -> own_block H' PS' i o.
Proof.
  intros [G1 (new & -> & Gb) _ _ _ _ _ _ _ _] [Hi Hn]. split; [apply elem_of_app; by right|]. intros q Hq E.
  destruct (Gb q Hq) as [(q' & Hq' & E')|(j & Hj & E')]; [apply (Hn q' Hq'); congruence|].
  pose proof (hk_pages _ _ _ G1) as HA. assert (Hj' : (j, 0) ∈ new ++ H) by (apply elem_of_app; by left).
  assert (Hi' : (i, o) ∈ new ++ H) by (apply elem_of_app; by right). destruct (block_bytes _ _ _ _ HA Hi') as [_ Ho]. pose proof (pow2_pos o Ho).
  assert (Eij : (i, o) = (j, 0)).
  { apply (same_block _ _ _ _ (P2V (4096 * i)) HA Hi' Hj'); cbn [fst snd]; [|rewrite <- E', E]; unfold range; [lia|]. change (2 ^ 0) with 1. lia. }
  pose proof (pa_nodup _ _ HA) as (_ & Hd & _)%NoDup_app. apply (Hd (j, 0) Hj). by rewrite <- Eij.
Qed.

Lemma obj_handed size H PS k c s H' PS' k' p sz : handed_out size H PS k c s H' PS' k' -> obj H PS p sz -> obj H' PS' p sz.
Proof.
  intros HO [(s' & Hl & Hs)|(i & o & -> & Hb & Hs)].
  - left. exists s'. split; [|done]. apply (ho_live _ _ _ _ _ _ _ _ _ HO). by left.
  - right. exists i, o. split; [done|]. split; [|done]. eapply block_handed; [exact HO | exact Hb].
Qed.

Lemma block_taken c s H PS k H' PS' k' i o : taken_back c s H PS k H' PS' k' -> own_block H PS i o -> own_block H' PS' i o.
Proof.
  intros [_ Gh Gb _ _ _ _] [Hi Hn]. split.
  - destruct Gh as [->|(j & q & Hq & Eq & Hj & ->)]; [done|]. apply list_elem_of_filter. split; [|done].
    intros Eij. apply (Hn q Hq). congruence.
  - intros q Hq. destruct (Gb q Hq) as (q' & Hq' & <-). by apply Hn.
Qed.

Lemma obj_taken c s H PS k H' PS' k' p sz : taken_back c s H PS k H' PS' k' -> obj H PS p sz -> p <> c + 12 -> obj H' PS' p sz.
Proof.
  intros HT [(s' & Hl & Hs)|(i & o & -> & Hb & Hs)] Hne.
  - left. exists s'. split; [|done]. apply (tk_live _ _ _ _ _ _ _ _ HT). split; [done | lia].
  - right. exists i, o. split; [done|]. split; [|done]. eapply block_taken; [exact HT | exact Hb].
Qed.

(** ** The heap as a store

    [L] maps each block a client holds to the size it asked for, [D] the bytes
    it wrote to their values. *)

(** The counters of the heap cover the pages of the allocator, but for [d] bytes. *)
Definition accounted (d : Z) (k : kernel) : Prop := heap_sum (k_heap k) = u32 (d + 4096 * used_pages_count (k_buddy k)).

Lemma accounted_call d H H' k k' : pa_state k H -> pa_state k' H' ->
  heap_sum (k_heap k') = u32 (heap_sum (k_heap k) + 4096 * (pages_of H' - pages_of H)) -> accounted d k -> accounted d k'.
Proof.
  unfold accounted. intros HA HA' Es Ed. rewrite Es, Ed, (pa_used _ _ HA), (pa_used _ _ HA'). unfold u32. div_lia.
Qed.

Lemma accounted_exists k : accounted (heap_sum (k_heap k) - 4096 * used_pages_count (k_buddy k)) k.
Proof. unfold accounted. rewrite Z.sub_add. symmetry. apply u32_idem. Qed.

Record heap_inv (d : Z) (k : kernel) (L : blocks) (D : contents) : Prop := {
  hi_cursor : cursor_ok (k_vga k);
  hi_heap : exists H PS, heap_ok H PS k /\ forall p size, L !! p = Some size -> obj H PS p size /\ 0 < size;
  hi_data : forall a v, D !! a = Some v -> ld8 (k_mem k) a = v /\ exists p size, L !! p = Some size /\ range p size a;
  hi_sum : accounted d k }.

(** The requests [kmalloc] serves. *)
Definition served (size : Z) : Prop := 0 < size <= 2048 \/ 4096 <= size <= 2 ^ 22.

Definition forget (p size : Z) (D : contents) : contents := filter (fun x => ~ p <= x.1 < p + size) D.

Lemma forget_lookup p size D a v : forget p size D !! a = Some v <-> D !! a = Some v /\ ~ range p size a.
Proof. unfold forget. by rewrite map_lookup_filter_Some. Qed.

Lemma alloc_keeps H PS k (L : blocks) (D : contents) : heap_ok H PS k -> (forall p size, L !! p = Some size -> obj H PS p size /\ 0 < size) ->
  (forall a v, D !! a = Some v -> ld8 (k_mem k) a = v /\ exists p size, L !! p = Some size /\ range p size a) ->
  forall k' p size, L !! p = None -> untouched (fun b => heap_fp PS b \/ unheld H b) (k_mem k) (k_mem k') ->
  forall a v, D !! a = Some v -> ld8 (k_mem k') a = v /\ exists p' size', <[p:=size]> L !! p' = Some size' /\ range p' size' a.
Proof.
  intros HK HL HD k' p size Hp Hu a v Ha. destruct (HD a v Ha) as [<- (p' & sz & Hl & Hr)]. split.
  - apply Hu. by apply (obj_kept _ _ _ p' sz a HK); [apply HL|].
  - exists p', sz. split; [|done]. rewrite lookup_insert_ne; [done | congruence].
Qed.

(** The order of the block a served request may need from the page allocator. *)
Definition order_for (size : Z) : Z := if size <=? 2048 then 0 else page_order_of size.

(** Why a request stops: no block of that order is left. *)
Definition no_pages_for (size : Z) (k : kernel) (e : stop) : Prop :=
  e = Panic "PMM Out of memory" /\ stops (pmm_alloc (order_for size)) k e.

Lemma inv_alloc_small d k L D size : heap_inv d k L D -> 0 < size <= 2048 ->
  wpe (no_pages_for size k) (kmalloc size) k (fun p k' => L !! p = None /\ heap_inv d k' (<[p:=size]> L) D).
Proof.
  intros [Hc (H & PS & HK & HL) HD Hsum] Hs. eapply wpe_mono; [apply (kmalloc_small_stops _ size H PS k HK Hc Hs)|].
  { intros e -> Hst _. split; [done|]. unfold order_for. by rewrite (proj2 (Z.leb_le _ _)) by lia. }
  intros r k' (c & s & H' & PS' & -> & HO). pose proof HO as [G1 G2 Gn _ _ Gs Gl Gc _ Gf Ge].
  assert (Hnew : L !! (c + 12) = None).
  { destruct (L !! (c + 12)) as [sz|] eqn:El; [|done]. exfalso. destruct (HL _ _ El) as [Ho Hsz].
    destruct Ho as [(s' & Hl & _)|Ho]; [apply (Gn s'); by replace c with (c + 12 - 12) by lia|].
    assert (Ho' : obj H' PS' (c + 12) sz) by (eapply obj_handed; [exact HO | by right]).
    assert (Hl : live PS' c s) by (apply Gl; by right). destruct (live_in_page _ _ _ _ _ G1 Hl) as (q & Hq & B1 & B2 & B3).
    destruct Ho as (i & o & E & [Hi Hq0] & Hle).
    assert (Hu : IS_ALIGNED (c + 12) BASE_SIZE = false) by (by apply (chunk_unaligned H' PS' k' c s)).
    destruct (block_bytes _ _ _ _ (hk_pages _ _ _ HK) Hi) as [Ev _].
    assert (Ht : IS_ALIGNED (c + 12) (2 ^ 12) = true); [|change (2 ^ 12) with BASE_SIZE in Ht; congruence].
    apply IS_ALIGNED_spec; [lia|]. rewrite E, Ev. exists (i + 0xC0000). unfold KERNEL_VIRTUAL_BASE. change (2 ^ 12) with 4096. lia. }
  split; [done|]. split.
  - by destruct Gc as (m & b & h & ->).
  - exists H', PS'. split; [done|]. intros p sz. rewrite lookup_insert_Some. intros [[<- <-]|[Hne Hl]].
    + split; [|lia]. left. exists s. replace (c + 12 - 12) with c by lia. split; [apply Gl; by right | lia].
    + destruct (HL _ _ Hl). split; [eapply obj_handed; [exact HO | done] | done].
  - eapply alloc_keeps; [exact HK | exact HL | exact HD | exact Hnew | exact Gf].
  - eapply accounted_call; [exact (hk_pages _ _ _ HK) | exact (hk_pages _ _ _ G1) | exact Ge | done].
Qed.

Lemma inv_alloc_pages d k L D size : heap_inv d k L D -> 4096 <= size <= 2 ^ 22 ->
  wpe (no_pages_for size k) (kmalloc size) k (fun p k' => L !! p = None /\ heap_inv d k' (<[p:=size]> L) D).
Proof.
  intros [Hc (H & PS & HK & HL) HD Hsum] Hs. destruct (kmalloc_pages_spec size k H (hk_pages _ _ _ HK) Hc Hs) as [Hw|Hst].
  2: { eapply wpe_stops; [exact Hst|]. split; [done|]. unfold order_for. rewrite (proj2 (Z.leb_gt _ _)) by lia. by apply kmalloc_pages_stops. }
  apply wpe_wp. eapply wp_mono; [exact Hw|]. intros r k' (i & -> & HA & Hpc). destruct (page_order_of_spec size Hs) as (Ho & Hfit & _).
  set (o := page_order_of size) in *. pose proof (pow2_pos o (proj1 Ho)).
  assert (Hfresh : ~ held H (P2V (4096 * i))) by (apply (held_fresh k' H (i, o)); [done | cbn [fst snd]; unfold range; lia]).
  assert (Hnew : L !! P2V (4096 * i) = None).
  { destruct (L !! _) as [sz|] eqn:El; [|done]. exfalso. apply Hfresh. eapply obj_held; [exact HK | by apply HL]. }
  split; [done|]. assert (HK' : heap_ok ((i, o) :: H) PS k').
  { eapply heap_ok_pages; [exact HK | exact HA | exact Hpc |]. intros q Hq. destruct (hk_held _ _ _ HK q Hq) as (j & E & Hj). exists j. split; [done | by right]. }
  destruct Hpc as (m' & b & -> & Hu). split; [done | | |].
  - exists ((i, o) :: H), PS. split; [done|]. intros p sz. rewrite lookup_insert_Some. intros [[<- <-]|[Hne Hl]].
    + split; [|lia]. right. exists i, o. split; [done|]. split; [|lia]. split; [left|]. intros q Hq E. apply Hfresh. rewrite <- E.
      apply (page_held _ _ _ q q.1 HK Hq). unfold range. lia.
    + destruct (HL _ _ Hl) as [[Hx|(j & q & -> & [Hj Hx] & Hle)] Hsz]; (split; [|done]); [by left|]. right. exists j, q. split; [done|]. split; [split; [by right | done] | done].
  - eapply alloc_keeps; [exact HK | exact HL | exact HD | exact Hnew |]. cbn [k_mem set_heap set_buddy set_mem]. eapply untouched_mono; [|exact Hu]. intros b' Hb. right. by left.
  - eapply accounted_call; [exact (hk_pages _ _ _ HK) | exact HA | | done]. cbn [k_heap set_heap]. rewrite heap_sum_pages. f_equal. cbn [pages_of snd]. lia.
Qed.

(** Freeing a block leaves the bytes of the others alone. *)
Lemma free_keeps H PS k (L : blocks) (D : contents) p size k' (F : Z -> Prop) :
  heap_ok H PS k -> L !! p = Some size ->
  (forall a v, D !! a = Some v -> ld8 (k_mem k) a = v /\ exists p size, L !! p = Some size /\ range p size a) ->
  untouched F (k_mem k) (k_mem k') ->
  (forall p' size' a, L !! p' = Some size' -> p' <> p -> range p' size' a -> ~ F a) ->
  forall a v, forget p size D !! a = Some v ->
    ld8 (k_mem k') a = v /\ exists p' size', delete p L !! p' = Some size' /\ range p' size' a.
Proof.
  intros HK HL HD Hu HF a v [Ha Hn]%forget_lookup. destruct (HD a v Ha) as [<- (p' & sz & Hl & Hr)].
  assert (Hne : p' <> p) by (intros ->; rewrite HL in Hl; injection Hl as <-; done).
  split; [apply Hu; by eapply HF|]. exists p', sz. split; [|done]. by rewrite lookup_delete_ne.
Qed.

Lemma inv_free d k L D p size : heap_inv d k L D -> L !! p = Some size ->
  wp (kfree p) k (fun _ k' => heap_inv d k' (delete p L) (forget p size D)).
Proof.
  intros [Hc (H & PS & HK & HL) HD Hsum] Hp. destruct (HL _ _ Hp) as [[(s & Hl & Hs)|(i & o & -> & [Hi Hn] & Hs)] Hsz].
  - replace p with (p - 12 + 12) at 1 by lia. eapply wp_mono; [by apply (kfree_small_spec (p - 12) s H PS k)|].
    intros _ k' (H' & PS' & HT). pose proof HT as [G1 _ _ _ Gc _ Gf Ge]. split.
    + by destruct Gc as (m & b & h & ->).
    + exists H', PS'. split; [done|]. intros p' sz [Hne Hl']%lookup_delete_Some. destruct (HL _ _ Hl') as [Ho Hsz'].
      split; [|done]. eapply obj_taken; [exact HT | exact Ho | lia].
    + eapply free_keeps; [exact HK | exact Hp | exact HD | exact Gf |]. intros p' sz a Hl' Hne Hr. destruct (HL _ _ Hl') as [Ho Hsz'].
      assert (Hlo : obj H PS p s) by (left; by exists s).
      pose proof (obj_apart _ _ _ _ _ _ _ HK Ho Hlo Hne Hsz' ltac:(lia)) as Hap.
      intros [Hf|[Hf|Hf]]; [apply (obj_kept _ _ _ p' sz a HK Ho Hr); by left | unfold apart, range in *; lia
        | apply (obj_kept _ _ _ p' sz a HK Ho Hr); right; by left].
    + eapply accounted_call; [exact (hk_pages _ _ _ HK) | exact (hk_pages _ _ _ G1) | exact Ge | done].
  - eapply wp_mono; [by apply (kfree_pages_spec i o k H (hk_pages _ _ _ HK))|]. intros _ k' [HA Hpc].
    assert (HK' : heap_ok (filter (fun x => x <> (i, o)) H) PS k').
    { eapply heap_ok_pages; [exact HK | exact HA | exact Hpc |]. intros q Hq. destruct (hk_held _ _ _ HK q Hq) as (j & E & Hj). exists j.
      split; [done|]. apply list_elem_of_filter. split; [|done]. intros Eij. apply (Hn q Hq). congruence. }
    destruct Hpc as (m' & b & -> & Hu). split; [done | | |].
    + eexists _, PS. split; [exact HK'|]. intros p' sz [Hne Hl']%lookup_delete_Some.
      destruct (HL _ _ Hl') as [[Hx|(j & q & -> & [Hj Hx] & Hle)] Hsz']; (split; [|done]); [by left|]. right. exists j, q. split; [done|].
      split; [|done]. split; [|done]. apply list_elem_of_filter. split; [congruence | done].
    + eapply free_keeps; [exact HK | exact Hp | exact HD | exact Hu |]. intros p' sz a Hl' Hne Hr Hb. destruct (HL _ _ Hl') as [Ho Hsz'].
      apply (obj_kept _ _ _ p' sz a HK Ho Hr). right. by left.
    + eapply accounted_call; [exact (hk_pages _ _ _ HK) | exact HA | | done]. cbn [k_heap set_heap]. rewrite heap_sum_pages. f_equal.
      pose proof (pages_of_perm _ _ (remove_block_perm (i, o) H (pa_nodup _ _ (hk_pages _ _ _ HK)) Hi)) as Hp'. cbn [pages_of snd] in Hp'. lia.
Qed.

Lemma inv_write d k L D p size a v : heap_inv d k L D -> L !! p = Some size -> range p size a ->
  heap_inv d (set_mem (st8 (k_mem k) a v) k) L (<[a := u8 v]> D).
Proof.
  intros [Hc (H & PS & HK & HL) HD Hsum] Hp Hr. split; [done | | | exact Hsum].
  - exists H, PS. split; [|done]. apply (heap_ok_frame H PS k); [done | done | done |]. cbn [k_mem set_mem]. intros b Hb.
    apply ld8_st8_ne. intros ->. by apply (obj_kept _ _ _ p size b HK (proj1 (HL _ _ Hp)) Hr).
  - cbn [k_mem set_mem]. intros b w [[<- <-]|[Hne Hb]]%lookup_insert_Some; [by rewrite ld8_st8_eq; eauto|].
    rewrite ld8_st8_ne by done. by apply HD.
Qed.

(** A client of the heap: it asks for blocks, writes to those it holds and frees
    them.  A request of 0 or of 2049 .. 4095 bytes may happen too and gets nothing. *)
Inductive client_step : kernel * blocks * contents -> kernel * blocks * contents -> Prop :=
  | client_alloc size p k k' L D : served size -> kmalloc size k = Ok p k' ->
      client_step (k, L, D) (k', <[p:=size]> L, D)
  | client_null size p k k' L D : size = 0 \/ 2048 < size < 4096 -> kmalloc size k = Ok p k' ->
      client_step (k, L, D) (k', L, D)
  | client_write p size a v k L D : L !! p = Some size -> range p size a ->
      client_step (k, L, D) (set_mem (st8 (k_mem k) a v) k, L, <[a := u8 v]> D)
  | client_free p size k k' L D : L !! p = Some size -> kfree p k = Ok tt k' ->
      client_step (k, L, D) (k', delete p L, forget p size D).

Lemma inv_alloc_stops d k L D size : heap_inv d k L D -> served size ->
  wpe (no_pages_for size k) (kmalloc size) k (fun p k' => L !! p = None /\ heap_inv d k' (<[p:=size]> L) D).
Proof. intros HI [Hs|Hs]; [by apply inv_alloc_small | by apply inv_alloc_pages]. Qed.

Lemma inv_alloc d k L D size : heap_inv d k L D -> served size ->
  wpe out_of_memory (kmalloc size) k (fun p k' => L !! p = None /\ heap_inv d k' (<[p:=size]> L) D).
Proof. intros HI Hs. eapply wpe_weaken; [by apply inv_alloc_stops|]. by intros e [-> _]. Qed.

Lemma client_inv d k L D k' L' D' : rtc client_step (k, L, D) (k', L', D') -> heap_inv d k L D -> heap_inv d k' L' D'.
Proof.
  intros Hr. remember (k, L, D) as x eqn:Ex. remember (k', L', D') as y eqn:Ey. revert k L D Ex. induction Hr as [x|x y' z Hs Hr IH].
  - intros k L D -> HI. injection Ey as -> -> ->. done.
  - intros k L D -> HI. subst z. inversion Hs as [size p k1 k2 L1 D1 Hsz E|size p k1 k2 L1 D1 Hsz E|p size a v k1 L1 D1 Hl Hra|p size k1 k2 L1 D1 Hl E]; subst.
    + eapply IH; [done | done |]. exact (proj2 (wpe_run _ _ _ _ _ _ (inv_alloc d k L D size HI Hsz) E)).
    + eapply IH; [done | done |]. rewrite (kmalloc_null size k Hsz) in E. by injection E as _ <-.
    + eapply IH; [done | done |]. by eapply inv_write.
    + eapply IH; [done | done |]. destruct (wp_ok _ _ _ (inv_free d k L D p size HI Hl)) as ([] & k3 & E' & HI'). rewrite E in E'. by injection E' as <-.
Qed.

Lemma inv_start d H PS k : heap_ok H PS k -> cursor_ok (k_vga k) -> accounted d k -> heap_inv d k ∅ ∅.
Proof.
  intros HK Hc Hd. split; [done | | | done].
  - exists H, PS. split; [done|]. intros p size Hl. by rewrite lookup_empty in Hl.
  - intros a v Ha. by rewrite lookup_empty in Ha.
Qed.
End heap.

(** The heap before its first page. *)
Lemma heap_blank `{BS : BuddySymbols} `{HS : HeapSymbols} `{PA : !PageAllocator pmm_alloc pmm_free get_order_addr} H k :
  pa_state k H -> statics_ok -> (forall b, statics b -> b < 4096 * pa_low + KERNEL_VIRTUAL_BASE /\ ~ pa_bytes b) ->
  last_chunk (k_heap k) = 0 -> ld32 (k_mem k) first_var = 0 -> (forall o, 0 <= o < 9 -> ld32 (k_mem k) (bucket_at o) = 0) ->
  heap_ok H [] k.
Proof.
  intros HA Hs Hb El E1 E2. split; [done | done | | intros p Hp; by apply elem_of_nil in Hp | done].
  exists (fun _ => []). split; [done | | |].
  - split; [intros p Hp; by apply elem_of_nil in Hp | done | intros p Hp; by apply elem_of_nil in Hp | intros p b Hp; by apply elem_of_nil in Hp].
  - split; [|intros o Ho; constructor]. intros o c Ho. split; [intros Hc; by apply elem_of_nil in Hc|].
    intros (s & Hs' & _). by apply elem_of_nil in Hs'.
  - split; [done | intros x Hx; by apply elem_of_nil in Hx |]. intros o Ho. split; [by apply E2 | done].
Qed.

(** [init_kmalloc] on the empty heap. *)
Lemma init_kmalloc_spec `{BS : BuddySymbols} `{HS : HeapSymbols} `{PA : !PageAllocator pmm_alloc pmm_free get_order_addr} H k :
  heap_ok H [] k -> cursor_ok (k_vga k) ->
  wpe out_of_memory init_kmalloc k (fun _ k' => exists i,
    heap_ok ((i, 0) :: H) [new_page (P2V (4096 * i))] k' /\ ld32 (k_mem k') first_var = P2V (4096 * i) /\
    k_heap k' = heap_move (P2V (4096 * i) + 4076) 4044 0 52 (k_heap k) /\
    heap_call k k' /\ untouched (fun b => heap_fp [] b \/ unheld H b) (k_mem k) (k_mem k')).
Proof.
  intros HK Hc. unfold init_kmalloc. apply wpe_bind. eapply wpe_mono; [by apply (create_chunk_spec H [] k)|].
  intros f k1 (i & Ef & HK1 & Hcall & Eh & Hu). apply wpe_wp. cbn [app] in HK1. destruct (hk_state _ _ _ HK1) as [bl HT].
  pose proof HT as [(S1 & S2 & S3 & S4 & S5) HP _ [[R1 R1'] _ _]]. cbn [flat page_chunks new_page app fmap list_fmap hd c_addr fst snd] in R1, R1'.
  destruct (po_place _ HP (new_page f) ltac:(left)) as [F1 F2]. cbn [new_page fst] in F1, F2.
  destruct R1' as (_ & N1 & _ & N2 & _). cbn [hd] in N1, N2. unfold node_next in N1, N2.
  apply wp_bind. eapply wp_access; [lia | lia | reflexivity | cbv beta].
  set (k2 := set_mem _ k1). assert (Hm : forall b, ld8 (k_mem k2) b = ld8 (k_mem k1) b) by (intros b; unfold k2; cbn [k_mem set_mem]; rewrite <- R1; apply st32_same).
  apply wp_bind. unfold node_next, chunk_all. eapply wp_access; [lia | lia | reflexivity | cbv beta].
  rewrite (ld32_agree (k_mem k1)) by (intros b _; apply Hm). rewrite N1.
  apply wp_bind. eapply wp_access; [lia | lia | reflexivity | cbv beta].
  rewrite (ld32_agree (k_mem k1)) by (intros b _; apply Hm). rewrite N2.
  apply set_last_spec. exists i. rewrite <- Ef. cbn [k_mem k_heap set_mem set_heap]. split_and!.
  - apply (heap_ok_frame _ _ k1 _ HK1); [done | | intros b _; apply Hm]. cbn [k_heap set_heap heap_move last_chunk k2 set_mem]. by rewrite Eh.
  - rewrite (ld32_agree (k_mem k1)) by (intros b _; apply Hm). exact R1.
  - unfold k2. cbn [k_heap set_mem]. rewrite Eh, heap_move_move. by rewrite !Z.add_0_r.
  - destruct Hcall as (m & bg & h & E). exists (k_mem k2), bg, (heap_move (f + 4076) 0 0 0 (k_heap k2)). unfold k2. by rewrite E.
  - intros b Hb. rewrite Hm. by apply Hu.
Qed.

(** ** The properties *)

(** C8: along any history of [kmalloc] (0 bytes up to 4 MiB), client writes and [kfree], on any page
    allocator that keeps its interface, the heap behaves as a store: the blocks
    held are word-aligned kernel memory and pairwise disjoint, every byte a
    client wrote is still there, and [kfree] of any of them succeeds.  A further
    request of 1 .. 2048 bytes or of 4096 bytes .. 4 MiB gets a block that was not held, or ends in
    the out-of-memory panic, and then the page allocator has no block of the order the request needs;
    a request of 0 or of 2049 .. 4095 bytes is answered with NULL and changes
    nothing. *)
Theorem heap_histories `{BS : BuddySymbols} `{HS : HeapSymbols} `{PA : !PageAllocator pmm_alloc pmm_free get_order_addr} H PS k0 k L D :
  heap_ok H PS k0 -> cursor_ok (k_vga k0) -> rtc client_step (k0, ∅, ∅) (k, L, D) ->
  (forall p size, L !! p = Some size -> KERNEL_VIRTUAL_BASE <= p /\ p + size <= 2 ^ 32 /\ (4 | p)) /\
  (forall p size p' size', L !! p = Some size -> L !! p' = Some size' -> p <> p' -> apart p size p' size') /\
  (forall a v, D !! a = Some v -> ld8 (k_mem k) a = v) /\
  (forall p, is_Some (L !! p) -> exists k', kfree p k = Ok tt k') /\
  (forall size, served size -> (exists p k', kmalloc size k = Ok p k' /\ L !! p = None) \/
     stops (kmalloc size) k (Panic "PMM Out of memory") /\
     stops (pmm_alloc (order_for size)) k (Panic "PMM Out of memory")) /\
  (forall size, size = 0 \/ 2048 < size < 4096 -> kmalloc size k = Ok NULL k).
Proof.
  intros HK Hc Hr. pose proof (client_inv _ _ _ _ _ _ _ Hr (inv_start _ _ _ _ HK Hc (accounted_exists k0))) as HI. pose proof HI as [_ (H' & PS' & HK' & HL) HD _].
  split_and!.
  - intros p size Hl. apply (obj_place H' PS' k p size HK'). by apply HL.
  - intros p size p' size' Hl Hl' Hne. destruct (HL _ _ Hl), (HL _ _ Hl'). by apply (obj_apart H' PS' k p size p' size' HK').
  - intros a v Ha. by apply HD.
  - intros p [size Hl]. destruct (wp_ok _ _ _ (inv_free _ _ _ _ _ _ HI Hl)) as ([] & k' & E & _). by exists k'.
  - intros size Hs. destruct (wpe_cases _ _ _ _ (inv_alloc_stops _ _ _ _ _ HI Hs)) as [(p & k' & E & Hp & _)|(e & Hst & -> & Hst')]; [left | by right].
    by exists p, k'.
  - intros size Hs. by apply kmalloc_null.
Qed.

(** C13: [kmalloc] of 1 to 2048 bytes returns a chunk that was
    not handed out, with room for the request and less than 24 bytes more than
    the larger of the request and 8; it
    lies apart from all others, the bytes of which do not change, and the heap
    stays well-formed.  It does not return only when no free chunk is in
    a bucket it searches and the page allocator has no page left: then it
    ends in that allocator's panic. *)
Theorem kmalloc_small_correct `{BS : BuddySymbols} `{HS : HeapSymbols} `{PA : !PageAllocator pmm_alloc pmm_free get_order_addr} size H PS k :
  heap_ok H PS k -> cursor_ok (k_vga k) -> 0 < size <= 2048 ->
  wpe (fun e => e = Panic "PMM Out of memory" /\ stops (pmm_alloc 0) k e /\ no_chunk_for size PS)
    (kmalloc size) k (fun p k' => exists s H' PS',
    heap_ok H' PS' k' /\ size <= s < Z.max size 8 + 24 /\
    (forall c s', live PS' c s' <-> live PS c s' \/ c = p - 12 /\ s' = s) /\
    (forall c s', live PS c s' -> apart (c + 12) s' p s) /\
    (forall b, live_byte PS b -> ld8 (k_mem k') b = ld8 (k_mem k) b) /\
    mem_used (k_heap k') = u32 (mem_used (k_heap k) + s)).
Proof.
  intros HK Hc Hs. eapply wpe_mono; [by apply (kmalloc_small_stops _ size H PS k HK Hc Hs)|].
  intros p k' (c & s & H' & PS' & -> & [G1 _ Gn _ _ Gs Gl _ Gu Gf]). exists s, H', PS'. split_and!; try done; try lia.
  - intros c' s'. by replace (c + 12 - 12) with c by lia.
  - intros c' s' Hl. apply (live_apart H' PS' k' c' s' c s); [done | apply Gl; by left | apply Gl; by right |]. intros ->. by apply (Gn s').
  - intros b Hb. apply Gf. by apply (live_kept H PS k).
Qed.

(** C14: [kfree] of a chunk, whatever its neighbours: the chunks handed out are
    then exactly the others, their bytes unchanged, and the heap is well-formed.  On a
    compact heap (no two free chunks are neighbours, every page but the first
    has a chunk in use) it is compact again, so the chunk was merged with its free neighbours;
    and its page went back to the page allocator exactly when
    it is not the first and nothing else of it was in use. *)
Theorem kfree_small_correct `{BS : BuddySymbols} `{HS : HeapSymbols} `{PA : !PageAllocator pmm_alloc pmm_free get_order_addr} c s H PS k :
  heap_ok H PS k -> live PS c s ->
  wp (kfree (c + 12)) k (fun _ k' => exists H' PS',
    heap_ok H' PS' k' /\ (forall c' s', live PS' c' s' <-> live PS c' s' /\ c' <> c) /\
    (compact PS -> compact PS') /\
    ((H' = H /\ (compact PS -> forall q, ~ sole_chunk PS c q)) \/
     exists i q, sole_chunk PS c q /\ q.1 = P2V (4096 * i) /\ (i, 0) ∈ H /\ H' = filter (fun x => x <> (i, 0)) H) /\
    (forall b, live_byte PS' b -> ld8 (k_mem k') b = ld8 (k_mem k) b) /\
    mem_used (k_heap k') = u32 (mem_used (k_heap k) - s)).
Proof.
  intros HK Hl. eapply wp_mono; [by apply (kfree_small_spec c s H PS k)|].
  intros _ k' (H' & PS' & [G1 Gh _ Gl _ Gu Gf _ Gc _ _ _ _ Gr]). exists H', PS'. split_and!; try done.
  intros b (c' & s' & [Hl' Hne]%Gl & Hr). apply Gf. pose proof (live_apart H PS k c' s' c s HK Hl' Hl Hne) as Hap.
  assert (Hb : live_byte PS b) by (by exists c', s'). pose proof (live_kept H PS k b HK Hb) as Hk.
  intros [Hf|[Hf|Hf]]; [apply Hk; by left | unfold apart, range in *; lia | apply Hk; right; by left].
Qed.

(** [init_kmalloc] gives the empty heap its first page: one free chunk of
    4044 bytes between two fences, counted as free, the 52 bytes of headers and
    fences as overhead; nothing is handed out. *)
Theorem init_kmalloc_correct `{BS : BuddySymbols} `{HS : HeapSymbols} `{PA : !PageAllocator pmm_alloc pmm_free get_order_addr} H k :
  heap_ok H [] k -> cursor_ok (k_vga k) ->
  wpe out_of_memory init_kmalloc k (fun _ k' => exists i,
    heap_ok ((i, 0) :: H) [new_page (P2V (4096 * i))] k' /\ ld32 (k_mem k') first_var = P2V (4096 * i) /\
    k_heap k' = heap_move (P2V (4096 * i) + 4076) 4044 0 52 (k_heap k)).
Proof.
  intros HK Hc. eapply wpe_mono; [by apply (init_kmalloc_spec H k)|]. intros [] k' (i & E1 & E2 & E3 & _). by exists i.
Qed.
