(* ===== verification/HeapClient.v ===== *)
(** * The heap and the page allocator as their clients see them

    The memory that is neither free nor part of the heap's lists is quiet: no
    allocation writes to it, and an allocation makes the memory it returns quiet.
    Thread and process creation are proved against this. *)

From Stdlib Require Import ZArith Lia Bool.
From stdpp Require Import base functions list gmap strings.
From S2P Require Import Prelude Machine StringLib Console Node Bump Buddy BuddyModel BuddyRefine BuddyInit Pmm Heap HeapModel HeapSteps HeapPages HeapCompact HeapAlloc HeapFree HeapTheorems.

Section client.
Context `{BS : BuddySymbols} `{HS : HeapSymbols} `{PA : !PageAllocator pmm_alloc pmm_free get_order_addr}.

Definition quiet (H : list block) (PS : list hpage) (b : Z) : Prop := ~ (heap_fp PS b \/ unheld H b).

(** From one state of the allocators to a later one, nothing having been freed. *)
Record grows (H : list block) (PS : list hpage) (k : kernel) (H' : list block) (PS' : list hpage) (k' : kernel) : Prop := {
  gw_heap : heap_ok H' PS' k';
  gw_held : exists new, H' = new ++ H;
  gw_quiet : forall b, quiet H PS b -> quiet H' PS' b;
  gw_mem : forall b, quiet H PS b -> ld8 (k_mem k') b = ld8 (k_mem k) b;
  gw_call : heap_call k k' }.

(** The [n] bytes at [a] were taken between the two states. *)
Definition taken (H : list block) (PS : list hpage) (H' : list block) (PS' : list hpage) (a n : Z) : Prop :=
  KERNEL_VIRTUAL_BASE <= a /\ a + n <= 2 ^ 32 /\ forall b, range a n b -> ~ quiet H PS b /\ quiet H' PS' b.

Lemma heap_call_refl k : heap_call k k.
Proof. exists (k_mem k), (k_buddy k), (k_heap k). by destruct k. Qed.

Lemma heap_call_trans k1 k2 k3 : heap_call k1 k2 -> heap_call k2 k3 -> heap_call k1 k3.
Proof. intros (m & b & h & ->) (m' & b' & h' & ->). by exists m', b', h'. Qed.

Lemma grows_refl H PS k : heap_ok H PS k -> grows H PS k H PS k.
Proof. intros HK. split; try done; [by exists [] | apply heap_call_refl]. Qed.

Lemma grows_trans H1 PS1 k1 H2 PS2 k2 H3 PS3 k3 :
  grows H1 PS1 k1 H2 PS2 k2 -> grows H2 PS2 k2 H3 PS3 k3 -> grows H1 PS1 k1 H3 PS3 k3.
Proof.
  intros [A1 (n1 & A2) A3 A4 A5] [B1 (n2 & B2) B3 B4 B5]. split.
  - done.
  - exists (n2 ++ n1). by rewrite B2, A2, app_assoc.
  - auto.
  - intros b Hb. rewrite B4 by auto. auto.
  - by eapply heap_call_trans.
Qed.

(** The client writes to memory of its own, [W]. *)
Lemma grows_write H PS k H' PS' k' m' (W : Z -> Prop) :
  grows H PS k H' PS' k' -> untouched W (k_mem k') m' -> (forall b, W b -> ~ quiet H PS b /\ quiet H' PS' b) ->
  grows H PS k H' PS' (set_mem m' k').
Proof.
  intros [A1 A2 A3 A4 A5] Hu HW. split; [| done | done | |].
  - apply (heap_ok_frame H' PS' k'); [done | done | done |]. cbn [k_mem set_mem]. intros b Hb. apply Hu.
    intros Hw. destruct (HW b Hw) as [_ Hq]. by apply Hq.
  - cbn [k_mem set_mem]. intros b Hb. rewrite Hu; [by apply A4|]. intros Hw. destruct (HW b Hw) as [Hq _]. by apply Hq.
  - destruct A5 as (m & b & h & ->). by exists m', b, h.
Qed.

Lemma taken_later H PS H1 PS1 H2 PS2 k1 k2 a n : taken H PS H1 PS1 a n -> grows H1 PS1 k1 H2 PS2 k2 -> taken H PS H2 PS2 a n.
Proof. intros (T1 & T2 & T3) HG. split_and!; [done | done |]. intros b Hb. destruct (T3 b Hb). split; [done|]. by apply (gw_quiet _ _ _ _ _ _ HG). Qed.

Lemma taken_before H PS k H1 PS1 k1 H2 PS2 a n : grows H PS k H1 PS1 k1 -> taken H1 PS1 H2 PS2 a n -> taken H PS H2 PS2 a n.
Proof.
  intros HG (T1 & T2 & T3). split_and!; [done | done |]. intros b Hb. destruct (T3 b Hb) as [Hn Hq]. split; [|done].
  intros Hx. by apply Hn, (gw_quiet _ _ _ _ _ _ HG).
Qed.

(** What is taken later is apart from what is quiet. *)
Lemma taken_apart H PS H' PS' a n a' n' : taken H PS H' PS' a n -> 0 < n -> 0 < n' ->
  (forall b, range a' n' b -> quiet H PS b) -> apart a n a' n'.
Proof. intros (_ & _ & T3) H1 H2 Hq. apply ranges_apart; [done | done |]. intros b Hb Hb'. destruct (T3 b Hb) as [Hn _]. by apply Hn, Hq. Qed.

(** ** The allocations *)

Lemma quiet_block H PS k i o b : heap_ok H PS k -> own_block H PS i o ->
  range (P2V (4096 * i)) (4096 * 2 ^ o) b -> quiet H PS b.
Proof.
  intros HK Ho Hb. apply (obj_kept H PS k (P2V (4096 * i)) (4096 * 2 ^ o) b HK); [|done]. right. by exists i, o.
Qed.

(** A block of pages that is new in [H]. *)
Lemma new_block H PS k k' i o : heap_ok H PS k -> pa_state k' ((i, o) :: H) -> heap_ok ((i, o) :: H) PS k' -> 0 <= o ->
  taken H PS ((i, o) :: H) PS (P2V (4096 * i)) (4096 * 2 ^ o) /\ own_block ((i, o) :: H) PS i o.
Proof.
  intros HK HA HK' Ho. destruct (block_bytes _ _ i o HA ltac:(left)) as [Ev _].
  destruct (pa_block _ _ i o HA ltac:(left)) as (_ & Hi1 & Hi2 & Hi3). pose proof (pow2_pos o Ho).
  assert (Hown : own_block ((i, o) :: H) PS i o).
  { split; [left|]. intros q Hq E.
    apply (held_fresh k' H (i, o) (P2V (4096 * i)) HA); [cbn [fst snd]; unfold range; lia|]. rewrite <- E.
    apply (page_held _ _ _ q q.1 HK Hq). unfold range. lia. }
  split; [|done]. split_and!; [unfold KERNEL_VIRTUAL_BASE in *; lia | unfold KERNEL_VIRTUAL_BASE in *; lia |]. intros b Hb.
  assert (Hnh : ~ held H b) by (by apply (held_fresh k' H (i, o))). split; [|by apply (quiet_block _ _ k' i o b HK')].
  intros Hq. apply Hq. right. right. rewrite Ev in Hb. unfold range in Hb. split; [lia | done].
Qed.

Lemma quiet_more H PS x b : quiet H PS b -> quiet (x :: H) PS b.
Proof. intros Hq [Hb|Hb]; apply Hq; [by left | right; by eapply unheld_less]. Qed.

(** Taking a block leaves the heap alone. *)
Lemma block_grows H PS k k' i o u : heap_ok H PS k -> pa_state k' ((i, o) :: H) -> 0 <= o -> page_call u k k' \/ allocator_frame pa_bytes k k' ->
  grows H PS k ((i, o) :: H) PS k' /\ taken H PS ((i, o) :: H) PS (P2V (4096 * i)) (4096 * 2 ^ o) /\ own_block ((i, o) :: H) PS i o.
Proof.
  intros HK HA Ho Hc.
  assert (HK' : heap_ok ((i, o) :: H) PS k').
  { destruct HK as [A1 A2 (bl & A3) A4 A5]. split; [done | done | | |].
    - exists bl. eapply hstate_frame; [exact A3|]. intros b Hb. assert (Hn : ~ pa_bytes b).
      { intros Hp. apply (heap_fp_held H PS k b); [split; eauto | done | by left]. }
      destruct Hc as [(m & bg & -> & Hu)|(m & bg & -> & Hu)]; by apply Hu.
    - intros p Hp. destruct (A4 p Hp) as (j & E & Hj). exists j. split; [done | by right].
    - by destruct Hc as [(m & bg & -> & Hu)|(m & bg & -> & Hu)]. }
  split; [|by eapply new_block]. split.
  - done.
  - by exists [(i, o)].
  - intros b. apply quiet_more.
  - intros b Hq. assert (Hn : ~ pa_bytes b) by (intros Hp; apply Hq; right; by left).
    destruct Hc as [(m & bg & -> & Hu)|(m & bg & -> & Hu)]; by apply Hu.
  - destruct Hc as [(m & bg & -> & Hu)|(m & bg & -> & Hu)]; [by exists m, bg, (heap_add 0 u 0 (k_heap k))|].
    exists m, bg, (k_heap k). by destruct k.
Qed.

Lemma pmm_alloc_grows H PS k : heap_ok H PS k -> cursor_ok (k_vga k) ->
  wpe out_of_memory (pmm_alloc 0) k (fun r k' => exists i, r = 4096 * i /\ 0 <= i < 2 ^ 18 /\
    grows H PS k ((i, 0) :: H) PS k' /\ taken H PS ((i, 0) :: H) PS (P2V (4096 * i)) 4096 /\ own_block ((i, 0) :: H) PS i 0 /\ k_heap k' = k_heap k).
Proof.
  intros HK Hc. destruct (pa_alloc k H 0 (hk_pages _ _ _ HK) ltac:(done) Hc) as [Hw|Hs]; [|by eapply wpe_stops].
  apply wpe_wp. eapply wp_mono; [exact Hw|]. intros r k' (i & -> & _ & HA & Hf). exists i.
  destruct (block_grows H PS k k' i 0 0 HK HA ltac:(done) ltac:(by right)) as (HG & HT & Hown). change (4096 * 2 ^ 0) with 4096 in HT.
  destruct (pa_block _ _ i 0 HA ltac:(left)) as (_ & Hi1 & _ & Hi2). change (2 ^ 0) with 1 in Hi2.
  split_and!; try done; try lia. by destruct Hf as (m & b & -> & _).
Qed.

Lemma kmalloc_page_grows H PS k : heap_ok H PS k -> cursor_ok (k_vga k) ->
  wpe out_of_memory (kmalloc 0x1000) k (fun r k' => exists i, r = P2V (4096 * i) /\
    grows H PS k ((i, 0) :: H) PS k' /\ taken H PS ((i, 0) :: H) PS r 4096 /\ own_block ((i, 0) :: H) PS i 0).
Proof.
  intros HK Hc. destruct (kmalloc_pages_spec 0x1000 k H (hk_pages _ _ _ HK) Hc ltac:(lia)) as [Hw|Hs]; [|by eapply wpe_stops].
  apply wpe_wp. eapply wp_mono; [exact Hw|]. change (page_order_of 0x1000) with 0. intros r k' (i & -> & HA & Hf). exists i.
  destruct (block_grows H PS k k' i 0 _ HK HA ltac:(done) ltac:(left; exact Hf)) as (HG & HT & Hown). by change (4096 * 2 ^ 0) with 4096 in HT.
Qed.

Lemma kmalloc_small_grows size H PS k : heap_ok H PS k -> cursor_ok (k_vga k) -> 0 < size <= 2048 ->
  wpe out_of_memory (kmalloc size) k (fun t k' => exists s H' PS', size <= s /\ live PS' (t - 12) s /\
    grows H PS k H' PS' k' /\ taken H PS H' PS' t size /\ (forall i o, own_block H PS i o -> own_block H' PS' i o) /\
    (forall c s', live PS c s' -> live PS' c s')).
Proof.
  intros HK Hc Hs. eapply wpe_mono; [by apply (kmalloc_small_spec size H PS k)|].
  intros r k' (c & s & H' & PS' & -> & HO). pose proof HO as [G1 (new & G2 & _) _ Gp Gd Gs Gl Gc _ Gf].
  assert (Hl : live PS' c s) by (apply Gl; by right). exists s, H', PS'. replace (c + 12 - 12) with c by lia.
  split_and!; [lia | done | | | |].
  - assert (Hun : forall new b, unheld (new ++ H) b -> unheld H b).
    { clear. induction new as [|x new IH]; [done|]. intros b Hb. by eapply IH, unheld_less. }
    split; [done | by exists new | | intros b Hb; by apply Gf | done]. intros b Hq [Hb|Hb]; apply Hq; [by apply Gp|].
    right. subst H'. by eapply Hun.
  - assert (Hlo : obj H' PS' (c + 12) s) by (left; exists s; split; [by replace (c + 12 - 12) with c by lia | lia]).
    destruct (obj_place _ _ _ _ _ G1 Hlo) as (P1 & P2 & _). split_and!; [lia | lia |]. intros b Hb.
    assert (Hb' : range (c + 12) s b) by (unfold range in *; lia).
    split; [intros Hq; by apply Hq, Gd | by apply (obj_kept _ _ _ (c + 12) s b G1)].
  - intros i o Hp. eapply block_handed; [exact HO | exact Hp].
  - intros d s' Hd. apply Gl. by left.
Qed.

(** Memory below the page allocator's that is no variable of an allocator. *)
Lemma low_is_quiet H PS k b : heap_ok H PS k -> b < 4096 * pa_low + KERNEL_VIRTUAL_BASE -> ~ pa_bytes b -> ~ statics b -> quiet H PS b.
Proof.
  intros HK Hb Hp Hs [Hf|[Hf|[Hf _]]]; [|done | lia].
  destruct (fp_page _ _ _ _ HK Hf) as [Hx|(p & Hin & Hr)]; [done|].
  destruct (hk_held _ _ _ HK p Hin) as (i & E & Hi). destruct (block_bytes _ _ _ _ (hk_pages _ _ _ HK) Hi) as [Ev _].
  destruct (pa_block _ _ _ _ (hk_pages _ _ _ HK) Hi) as (_ & _ & Hlo & _). rewrite E, Ev in Hr. unfold range in Hr. lia.
Qed.
End client.
