(* ===== verification/HeapSample.v ===== *)
(** * The heap on a concrete machine

    4 MiB of memory, the heap's variables in page 1, below the memory the page
    allocator manages. *)

From Stdlib Require Import ZArith Lia Bool.
From stdpp Require Import base functions list gmap strings.
From S2P Require Import Prelude Machine StringLib Console Node Bump Buddy BuddyModel BuddyRefine BuddyInit Pmm PmmSample Heap HeapModel HeapSteps HeapPages HeapCompact HeapAlloc HeapFree HeapTheorems.

#[local] Existing Instance sample_symbols.
#[local] Existing Instance user_pages.
#[local] Instance user_heap : HeapSymbols := {| free_bucket := 0xC0001000; first_var := 0xC0001100 |}.

Lemma user_machine_vga : cursor_ok (k_vga user_machine).
Proof. vm_compute. intuition congruence. Qed.

Lemma user_machine_blank : last_chunk (k_heap user_machine) = 0 /\ ld32 (k_mem user_machine) 0xC0001100 = 0 /\
  forallb (fun o => ld32 (k_mem user_machine) (0xC0001000 + 4 * o) =? 0) (seqZ 0 9) = true.
Proof. vm_compute. split_and!; reflexivity. Qed.

#[local] Opaque user_machine.

Lemma user_machine_heap : heap_ok [] [] user_machine.
Proof.
  destruct user_machine_blank as (E1 & E2 & E3). apply heap_blank.
  - exact user_machine_owned.
  - unfold statics_ok, apart, KERNEL_VIRTUAL_BASE. cbn. lia.
  - unfold statics, range, KERNEL_VIRTUAL_BASE. cbn. unfold bfp, range, sizeof_Page. cbn. lia.
  - exact E1.
  - exact E2.
  - intros o Ho. revert E3. generalize (k_mem user_machine). intros m E3. rewrite forallb_forall in E3.
    apply Z.eqb_eq, E3. apply list_elem_of_In, elem_of_seqZ. lia.
Qed.

Definition is_ok {A} (r : result A) : bool := match r with Ok _ _ => true | Stop _ _ => false end.

Lemma is_ok_run {A} (r : result A) : is_ok r = true -> exists a k, r = Ok a k.
Proof. destruct r as [a k|]; [by exists a, k | done]. Qed.

Definition put (p v : Z) : M unit := modify (fun k => set_mem (st8 (k_mem k) p v) k).

Lemma user_allocs : is_ok ((p ← kmalloc 100; put p 42;; kmalloc 5000) user_machine) = true /\ is_ok (init_kmalloc user_machine) = true.
Proof. split; vm_compute; reflexivity. Qed.

Lemma user_alloc : exists p k, kmalloc 100 user_machine = Ok p k /\
  exists q k', kmalloc 5000 (set_mem (st8 (k_mem k) p 42) k) = Ok q k'.
Proof.
  generalize (is_ok_run _ (proj1 user_allocs)). generalize user_machine. intros k0 (q & k' & E). unfold mbind, M_bind in E.
  destruct (kmalloc 100 k0) as [p k|] eqn:E1; [|discriminate E]. exists p, k. split; [reflexivity|]. by exists q, k'.
Qed.

Lemma kmalloc_small_correct_witness : exists p k' s H' PS', kmalloc 100 user_machine = Ok p k' /\
  heap_ok H' PS' k' /\ 100 <= s < 124 /\ live PS' (p - 12) s.
Proof.
  destruct user_alloc as (p & k' & E & _). exists p, k'.
  destruct (wpe_run _ _ _ _ _ _ (kmalloc_small_correct 100 [] [] user_machine user_machine_heap user_machine_vga ltac:(lia)) E)
    as (s & H' & PS' & HK & Hs & Hl & _).
  exists s, H', PS'. split_and!; [exact E | exact HK | lia | lia |]. apply Hl. right. split; reflexivity.
Defined.

Lemma kfree_small_correct_witness : exists c s H PS k, heap_ok H PS k /\ live PS c s /\
  wp (kfree (c + 12)) k (fun _ k' => exists H' PS', heap_ok H' PS' k' /\ ~ live PS' c s /\ compact PS').
Proof.
  destruct user_alloc as (p & k & E & _).
  destruct (wpe_run _ _ _ _ _ _ (kmalloc_small_spec 100 [] [] user_machine user_machine_heap user_machine_vga ltac:(lia)) E)
    as (c & s & H & PS & _ & HO). pose proof (ho_heap _ _ _ _ _ _ _ _ _ HO) as HK.
  assert (Hl : live PS c s) by (apply (ho_live _ _ _ _ _ _ _ _ _ HO); right; split; reflexivity).
  exists c, s, H, PS, k. split; [exact HK|]. split; [exact Hl|].
  eapply wp_mono; [exact (kfree_small_correct c s H PS k HK Hl)|].
  intros _ k' (H' & PS' & HK' & Hlive & Hco & _). exists H', PS'. split; [exact HK'|]. split;
    [|exact (Hco (ho_compact _ _ _ _ _ _ _ _ _ HO compact_nil))]. intros Hc. apply Hlive in Hc as [_ Hne]. by apply Hne.
Defined.

Lemma init_kmalloc_correct_witness : exists k' i, init_kmalloc user_machine = Ok tt k' /\
  heap_ok [(i, 0)] [new_page (P2V (4096 * i))] k'.
Proof.
  destruct (is_ok_run _ (proj2 user_allocs)) as ([] & k' & E).
  destruct (wpe_run _ _ _ _ _ _ (init_kmalloc_correct [] user_machine user_machine_heap user_machine_vga) E) as (i & HK & _).
  exists k', i. split; [exact E | exact HK].
Defined.

(** Two blocks, a byte written to the first of them. *)
Lemma heap_histories_witness : exists k p q, rtc client_step (user_machine, ∅, ∅) (k, <[q:=5000]> {[p:=100]}, {[p:=42]}) /\
  apart p 100 q 5000 /\ ld8 (k_mem k) p = 42 /\ exists k', kfree p k = Ok tt k'.
Proof.
  destruct user_alloc as (p & k1 & E1 & q & k2 & E2).
  assert (H1 : rtc client_step (user_machine, ∅, ∅) (set_mem (st8 (k_mem k1) p 42) k1, <[p:=100]> ∅, <[p:=u8 42]> ∅)).
  { eapply rtc_l; [apply (client_alloc 100); [left; lia | exact E1]|]. apply rtc_once, (client_write p 100); [apply lookup_insert_eq|].
    unfold range. lia. }
  destruct (heap_histories [] [] _ _ _ _ user_machine_heap user_machine_vga H1) as (_ & _ & _ & _ & Hnext & _).
  assert (Hq : (<[p:=100]> ∅ : gmap Z Z) !! q = None).
  { destruct (Hnext 5000 ltac:(right; lia)) as [(q' & k3 & E3 & Hq)|[[k3 E3] _]]; rewrite E2 in E3; [|discriminate E3].
    injection E3 as <- _. exact Hq. }
  assert (Hne : p <> q) by (intros ->; rewrite lookup_insert_eq in Hq; discriminate Hq).
  assert (Hr : rtc client_step (user_machine, ∅, ∅) (k2, <[q:=5000]> {[p:=100]}, {[p:=42]})).
  { eapply rtc_r; [exact H1|]. apply (client_alloc 5000); [right; lia | exact E2]. }
  destruct (heap_histories [] [] _ _ _ _ user_machine_heap user_machine_vga Hr) as (_ & Hap & Hd & Hf & _).
  assert (Lp : (<[q:=5000]> {[p:=100]} : gmap Z Z) !! p = Some 100).
  { rewrite lookup_insert_ne by (intros E; by apply Hne). apply lookup_insert_eq. }
  exists k2, p, q. split; [exact Hr|]. split; [|split].
  - apply (Hap p 100 q 5000 Lp); [apply lookup_insert_eq | exact Hne].
  - apply Hd, lookup_insert_eq.
  - apply Hf. rewrite Lp. by exists 100.
Defined.
