(* ===== verification/HeapLedger.v ===== *)
(** * The heap's books: src/mm/heap/heap.c, src/mm/heap/heap_test.c

    What a client holds, what the heap holds of the page allocator and what the
    counters say agree along every history; when everything has been freed the
    heap is back where it was, in one free chunk at most.  [check_state] and
    [check_ini] of the heap's self-test check exactly this. *)

From Stdlib Require Import ZArith Lia Bool.
From stdpp Require Import base functions list gmap strings.
From S2P Require Import Prelude Machine StringLib Console Node Bump Buddy BuddyModel BuddyRefine BuddyInit Pmm Heap HeapModel HeapSteps HeapPages HeapCompact HeapAlloc HeapFree HeapTheorems HeapClient PmmSample HeapSample.

Lemma heap_call_cursor k k' : heap_call k k' -> cursor_ok (k_vga k) -> cursor_ok (k_vga k').
Proof. by intros (m & b & h & ->). Qed.

(** ** The self-test's checks *)

(** [mem_used + mem_meta + mem_free != used_pages_count * 0x1000], on 32 bits. *)
Definition check_state : M bool :=
  h ← gets k_heap; b ← gets k_buddy;
  if negb (mem_used h + mem_meta h ⊞ mem_free h =? u32 (used_pages_count b * 0x1000)) then
    kprintf ("Memory accounting error: used=%d, free=%d, meta=%d" ++ newline) [A32 (mem_used h); A32 (mem_free h); A32 (mem_meta h)];;
    mret false
  else mret true.

(** The five variables against the values kept when the test began. *)
Definition check_ini `{HeapSymbols} (ini : heap_globals) (ini_first : Z) : M bool :=
  h ← gets k_heap; first ← load32 first_var;
  if negb (u32 (mem_used h) =? u32 (mem_used ini)) || negb (u32 (mem_free h) =? u32 (mem_free ini)) ||
     negb (u32 (mem_meta h) =? u32 (mem_meta ini)) || negb (first =? ini_first) || negb (last_chunk h =? last_chunk ini) then
    kprintf ("Memory state mismatch: used: %d vs %d, free: %d vs %d, meta: %d vs %d, first: %x vs %x, last: %x vs %x" ++ newline)
      [A32 (mem_used ini); A32 (mem_used h); A32 (mem_free ini); A32 (mem_free h); A32 (mem_meta ini); A32 (mem_meta h);
       A32 ini_first; A32 first; A32 (last_chunk ini); A32 (last_chunk h)];;
    mret false
  else mret true.

(** ** The pages of the large blocks *)

Definition block_pages (size : Z) : Z := if 4096 <=? size then 2 ^ page_order_of size else 0.
Definition big_pages (L : blocks) : Z := map_fold (fun _ size n => block_pages size + n) 0 L.

Lemma big_pages_insert (L : blocks) p size : L !! p = None -> big_pages (<[p:=size]> L) = block_pages size + big_pages L.
Proof. intros Hp. unfold big_pages. rewrite map_fold_insert_L; [done | intros; lia | done]. Qed.

Lemma big_pages_delete (L : blocks) p size : L !! p = Some size -> big_pages L = block_pages size + big_pages (delete p L).
Proof. intros Hp. unfold big_pages. rewrite (map_fold_delete_L _ _ p size); [done | intros; lia | done]. Qed.

Section ledger.
Context `{BS : BuddySymbols} `{HS : HeapSymbols} `{PA : !PageAllocator pmm_alloc pmm_free get_order_addr}.

(** A block of the client: a chunk in use, or pages of the order of its size. *)
Definition held_as (H : list block) (PS : list hpage) (p size : Z) : Prop :=
  (0 < size <= 2048 /\ exists s, live PS (p - 12) s /\ size <= s) \/
  (4096 <= size <= 2 ^ 22 /\ exists i, p = P2V (4096 * i) /\ own_block H PS i (page_order_of size)).

(** [P0] pages and [U0] bytes were in use before, and [F0] bytes free. *)
Record ledger (P0 U0 F0 : Z) (k : kernel) (L : blocks) (H : list block) (PS : list hpage) : Prop := {
  lg_heap : heap_ok H PS k;
  lg_held : forall p size, L !! p = Some size -> held_as H PS p size;
  lg_live : forall c s, live PS c s -> is_Some (L !! (c + 12));
  lg_compact : compact PS;
  lg_pages : pages_of H = P0 + Z.of_nat (length PS) + big_pages L;
  lg_used : shifted U0 (mem_used (k_heap k)) (total_of true PS + 4096 * big_pages L);
  lg_free : shifted F0 (mem_free (k_heap k)) (total_of false PS) }.

Definition booked (P0 U0 F0 : Z) (PS0 : list hpage) (k : kernel) (L : blocks) : Prop :=
  cursor_ok (k_vga k) /\ exists H PS, ledger P0 U0 F0 k L H PS /\ same_first PS0 PS.

Lemma booked_small P0 U0 F0 PS0 k L size : booked P0 U0 F0 PS0 k L -> 0 < size <= 2048 ->
  wpe out_of_memory (kmalloc size) k (fun p k' => L !! p = None -> booked P0 U0 F0 PS0 k' (<[p:=size]> L)).
Proof.
  intros (Hc & H & PS & [HK HL Hlv Hco Hp Hu Hf] & Hfi) Hs. eapply wpe_mono; [by apply (kmalloc_small_spec size H PS k)|].
  intros r k' (c & s & H' & PS' & -> & HO) Hnew.
  assert (Hb : block_pages size = 0) by (unfold block_pages; destruct (Z.leb_spec 4096 size); [lia | done]).
  split; [by destruct (ho_call _ _ _ _ _ _ _ _ _ HO) as (m & b & h & ->)|]. exists H', PS'.
  split; [|eapply same_first_trans; [exact Hfi | apply (ho_first _ _ _ _ _ _ _ _ _ HO)]]. split.
  - apply (ho_heap _ _ _ _ _ _ _ _ _ HO).
  - intros p sz. rewrite lookup_insert_Some. intros [[<- <-]|[Hne Hl]].
    + left. split; [done|]. exists s. replace (c + 12 - 12) with c by lia. split; [apply (ho_live _ _ _ _ _ _ _ _ _ HO); by right|].
      apply (ho_size _ _ _ _ _ _ _ _ _ HO).
    + destruct (HL _ _ Hl) as [(Hr & s' & Hl' & Hle)|(Hr & i & -> & Ho)]; [left | right]; (split; [done|]).
      * exists s'. split; [apply (ho_live _ _ _ _ _ _ _ _ _ HO); by left | done].
      * exists i. split; [done|]. by eapply block_handed.
  - intros c' s' [Hl|[-> ->]]%(ho_live _ _ _ _ _ _ _ _ _ HO); [|rewrite lookup_insert_eq; eauto].
    destruct (decide (c + 12 = c' + 12)) as [->|Hne]; [rewrite lookup_insert_eq; eauto|]. rewrite lookup_insert_ne by done. by eapply Hlv.
  - by apply (ho_compact _ _ _ _ _ _ _ _ _ HO).
  - rewrite big_pages_insert, Hb by done. pose proof (ho_pages _ _ _ _ _ _ _ _ _ HO). lia.
  - rewrite (ho_used _ _ _ _ _ _ _ _ _ HO), big_pages_insert, Hb, (ho_total _ _ _ _ _ _ _ _ _ HO) by done.
    eapply shifted_add; [exact Hu | apply (shifted_u32 _ s s eq_refl) | lia].
  - rewrite (ho_free _ _ _ _ _ _ _ _ _ HO). eapply shifted_add; [exact Hf | by apply (shifted_u32 _ _ _ eq_refl) | lia].
Qed.

Lemma booked_pages P0 U0 F0 PS0 k L size : booked P0 U0 F0 PS0 k L -> 4096 <= size <= 2 ^ 22 ->
  wpe out_of_memory (kmalloc size) k (fun p k' => L !! p = None -> booked P0 U0 F0 PS0 k' (<[p:=size]> L)).
Proof.
  intros (Hc & H & PS & [HK HL Hlv Hco Hp Hu Hf] & Hfi) Hs.
  destruct (kmalloc_pages_spec size k H (hk_pages _ _ _ HK) Hc Hs) as [Hw|Hst]; [|by eapply wpe_stops].
  apply wpe_wp. eapply wp_mono; [exact Hw|]. intros r k' (i & -> & HA & Hpc) Hnew. destruct (page_order_of_spec size Hs) as (Ho & _).
  assert (Hb : block_pages size = 2 ^ page_order_of size) by (unfold block_pages; by rewrite (proj2 (Z.leb_le 4096 size)) by lia).
  destruct (block_grows H PS k k' i _ _ HK HA (proj1 Ho) (or_introl Hpc)) as (HG & _ & Hown).
  split; [by destruct Hpc as (m & b & -> & _)|]. exists ((i, page_order_of size) :: H), PS. split; [|done]. split.
  - apply (gw_heap _ _ _ _ _ _ HG).
  - intros p sz. rewrite lookup_insert_Some. intros [[<- <-]|[Hne Hl]]; [right; by eauto|].
    destruct (HL _ _ Hl) as [Hx|(Hr & j & -> & [Hj Hx])]; [by left | right]. split; [done|]. exists j. split; [done|]. split; [by right | done].
  - intros c s Hl. destruct (Hlv c s Hl) as [sz Hsz]. destruct (decide (P2V (4096 * i) = c + 12)) as [->|Hne]; [rewrite lookup_insert_eq; eauto|].
    rewrite lookup_insert_ne by done. eauto.
  - done.
  - rewrite big_pages_insert, Hb by done. cbn [pages_of snd]. lia.
  - rewrite big_pages_insert, Hb by done. destruct Hpc as (m & b & -> & _). cbn [k_heap set_heap heap_add mem_used].
    eapply shifted_add; [exact Hu | apply (shifted_u32 _ _ _ eq_refl) | lia].
  - destruct Hpc as (m & b & -> & _). cbn [k_heap set_heap heap_add mem_free]. eapply shifted_add; [exact Hf | apply (shifted_u32 _ 0 0 eq_refl) | lia].
Qed.

Lemma booked_free P0 U0 F0 PS0 k L p size : booked P0 U0 F0 PS0 k L -> L !! p = Some size -> wp (kfree p) k (fun _ k' => booked P0 U0 F0 PS0 k' (delete p L)).
Proof.
  intros (Hc & H & PS & [HK HL Hlv Hco Hp Hu Hf] & Hfi) Hl. pose proof (big_pages_delete L p size Hl) as Hbig. unfold block_pages in Hbig.
  destruct (HL _ _ Hl) as [(Hr & s & Hs & Hle)|(Hr & i & -> & [Hi Hn])].
  - destruct (Z.leb_spec 4096 size); [lia|]. replace p with (p - 12 + 12) at 1 by lia.
    eapply wp_mono; [by apply (kfree_small_spec (p - 12) s H PS k)|]. intros _ k' (H' & PS' & HT).
    split; [by destruct (tk_call _ _ _ _ _ _ _ _ HT) as (m & b & h & ->)|]. exists H', PS'.
    split; [|eapply same_first_trans; [exact Hfi | apply (tk_first _ _ _ _ _ _ _ _ HT)]]. split.
    + apply (tk_heap _ _ _ _ _ _ _ _ HT).
    + intros p' sz [Hne Hl']%lookup_delete_Some. destruct (HL _ _ Hl') as [(Hr' & s' & Hs' & Hle')|(Hr' & i & -> & Ho)]; [left | right]; (split; [done|]).
      * exists s'. split; [apply (tk_live _ _ _ _ _ _ _ _ HT); split; [done | lia] | done].
      * exists i. split; [done|]. by eapply block_taken.
    + intros c' s' [Hl' Hne]%(tk_live _ _ _ _ _ _ _ _ HT). rewrite lookup_delete_ne by lia. by eapply Hlv.
    + by apply (tk_compact _ _ _ _ _ _ _ _ HT).
    + pose proof (tk_pages _ _ _ _ _ _ _ _ HT). lia.
    + rewrite (tk_used _ _ _ _ _ _ _ _ HT), (tk_total _ _ _ _ _ _ _ _ HT). unfold Z.sub.
      eapply shifted_add; [exact Hu | apply (shifted_u32 _ _ _ eq_refl) | lia].
    + eapply shifted_add; [exact Hf | apply (tk_free _ _ _ _ _ _ _ _ HT) | lia].
  - rewrite (proj2 (Z.leb_le 4096 size)) in Hbig by lia. eapply wp_mono; [by apply (kfree_pages_spec i (page_order_of size) k H (hk_pages _ _ _ HK))|]. intros _ k' [HA Hpc].
    pose proof (pages_of_perm _ _ (remove_block_perm _ H (pa_nodup _ _ (hk_pages _ _ _ HK)) Hi)) as Hpg. cbn [pages_of snd] in Hpg.
    split; [by destruct Hpc as (m & b & -> & _)|]. eexists _, PS. split; [|done]. split.
    + eapply heap_ok_pages; [exact HK | exact HA | exact Hpc |]. intros q Hq. destruct (hk_held _ _ _ HK q Hq) as (j & E & Hj). exists j.
      split; [done|]. apply list_elem_of_filter. split; [|done]. intros Eij. apply (Hn q Hq). congruence.
    + intros p' sz [Hne Hl']%lookup_delete_Some. destruct (HL _ _ Hl') as [Hx|(Hr' & j & -> & [Hj Hx])]; [by left | right]. split; [done|].
      exists j. split; [done|]. split; [|done]. apply list_elem_of_filter. split; [congruence | done].
    + intros c s Hs. destruct (Hlv c s Hs) as [sz Hsz]. rewrite lookup_delete_ne; [eauto|]. intros E.
      destruct (block_bytes _ _ _ _ (hk_pages _ _ _ HK) Hi) as [Ev _]. pose proof (chunk_unaligned _ _ _ _ _ HK Hs) as Ha.
      assert (Ht : IS_ALIGNED (c + 12) (2 ^ 12) = true); [|change (2 ^ 12) with BASE_SIZE in Ht; congruence].
      apply IS_ALIGNED_spec; [lia|]. rewrite <- E, Ev. exists (i + 0xC0000). unfold KERNEL_VIRTUAL_BASE. change (2 ^ 12) with 4096. lia.
    + done.
    + lia.
    + destruct Hpc as (m & b & -> & _). cbn [k_heap set_heap heap_add mem_used].
      eapply shifted_add; [exact Hu | apply (shifted_u32 _ _ _ eq_refl) | lia].
    + destruct Hpc as (m & b & -> & _). cbn [k_heap set_heap heap_add mem_free]. eapply shifted_add; [exact Hf | apply (shifted_u32 _ 0 0 eq_refl) | lia].
Qed.

Lemma booked_write P0 U0 F0 PS0 k L p size a v : booked P0 U0 F0 PS0 k L -> L !! p = Some size -> range p size a ->
  booked P0 U0 F0 PS0 (set_mem (st8 (k_mem k) a v) k) L.
Proof.
  intros (Hc & H & PS & [HK HL Hlv Hco Hp Hu Hf] & Hfi) Hl Hr. split; [done|]. exists H, PS. split; [|done]. split; try done.
  apply (heap_ok_frame H PS k); [done | done | done |]. cbn [k_mem set_mem]. intros b Hb.
  apply ld8_st8_ne. intros ->. refine (obj_kept _ _ _ p size b HK _ Hr Hb).
  destruct (HL _ _ Hl) as [(_ & s & Hs & Hle)|(Hs & i & -> & Ho)]; [left; eauto | right].
  exists i, (page_order_of size). split_and!; [done | done | apply (page_order_of_spec size Hs)].
Qed.

(** The books along a history, beside the store. *)
Lemma client_booked P0 U0 F0 PS0 d k L D k' L' D' : rtc client_step (k, L, D) (k', L', D') ->
  heap_inv d k L D -> booked P0 U0 F0 PS0 k L -> heap_inv d k' L' D' /\ booked P0 U0 F0 PS0 k' L'.
Proof.
  intros Hr. remember (k, L, D) as x eqn:Ex. remember (k', L', D') as y eqn:Ey. revert k L D Ex. induction Hr as [x|x y' z Hs Hr IH].
  - intros k L D -> HI HB. injection Ey as -> -> ->. done.
  - intros k L D -> HI HB. subst z. pose proof Hs as Hs'.
    inversion Hs as [size p k1 k2 L1 D1 Hsz E|size p k1 k2 L1 D1 Hsz E|p size a v k1 L1 D1 Hl Hra|p size k1 k2 L1 D1 Hl E]; subst.
    + destruct (wpe_run _ _ _ _ _ _ (inv_alloc d k L D size HI Hsz) E) as [Hn HI']. apply (IH eq_refl _ _ _ eq_refl HI').
      destruct Hsz as [Hsz|Hsz]; [eapply (wpe_run _ _ _ _ _ _ (booked_small P0 U0 F0 PS0 k L size HB Hsz) E)
        | eapply (wpe_run _ _ _ _ _ _ (booked_pages P0 U0 F0 PS0 k L size HB Hsz) E)]; exact Hn.
    + rewrite (kmalloc_null size k Hsz) in E. injection E as _ <-. by apply (IH eq_refl _ _ _ eq_refl).
    + apply (IH eq_refl _ _ _ eq_refl); [by eapply inv_write | by eapply booked_write].
    + destruct (wp_ok _ _ _ (inv_free d k L D p size HI Hl)) as ([] & k3 & E' & HI'). rewrite E in E'. injection E' as <-.
      destruct (wp_ok _ _ _ (booked_free P0 U0 F0 PS0 k L p size HB Hl)) as ([] & k4 & E' & HB'). rewrite E in E'. injection E' as <-.
      by apply (IH eq_refl _ _ _ eq_refl).
Qed.
End ledger.

(** ** The properties *)

Lemma check_state_accounted k : check_state k = Ok true k <-> accounted 0 k.
Proof.
  unfold check_state, accounted, heap_sum. destruct (Z.eqb_spec (mem_used (k_heap k) + mem_meta (k_heap k) ⊞ mem_free (k_heap k)) (u32 (used_pages_count (k_buddy k) * 0x1000))) as [E|E];
    unfold mbind, M_bind, gets; cbn [negb].
  - apply Z.eqb_eq in E. rewrite E. apply Z.eqb_eq in E. split; [intros _ | done]. replace (0 + 4096 * used_pages_count (k_buddy k)) with (used_pages_count (k_buddy k) * 0x1000) by lia.
    rewrite <- E. f_equal. lia.
  - apply Z.eqb_neq in E. rewrite E. apply Z.eqb_neq in E. cbn [negb]. split.
    + destruct (kprintf _ _ k); [discriminate | discriminate].
    + intros Ha. exfalso. apply E. replace (used_pages_count (k_buddy k) * 0x1000) with (0 + 4096 * used_pages_count (k_buddy k)) by lia.
      rewrite <- Ha. f_equal. lia.
Qed.

Section histories.
Context `{BS : BuddySymbols} `{HS : HeapSymbols} `{PA : !PageAllocator pmm_alloc pmm_free get_order_addr}.

(** The books of a heap of which nothing is in use. *)
Lemma booked_start f H k : heap_ok H [new_page f] k -> cursor_ok (k_vga k) ->
  booked (pages_of H - 1) (mem_used (k_heap k)) (mem_free (k_heap k) - 4044) [new_page f] k ∅.
Proof.
  intros HK Hc. split; [done|]. exists H, [new_page f]. split; [|apply same_first_refl].
  assert (Hn : forall c s, ~ live [new_page f] c s).
  { intros c s (p & ->%list_elem_of_singleton & Hx). cbn in Hx. apply list_elem_of_singleton in Hx. congruence. }
  split.
  - done.
  - intros p size Hl. by rewrite lookup_empty in Hl.
  - intros c s Hl. by apply Hn in Hl.
  - split; [intros p ->%list_elem_of_singleton; cbn; tauto | intros p Hp; by apply elem_of_nil in Hp].
  - change (big_pages ∅) with 0. cbn. lia.
  - change (big_pages ∅) with 0. by apply shifted_0.
  - apply (f_equal u32). cbn. unfold c_size. cbn. lia.
Qed.

(** What the books say when the client holds nothing. *)
Lemma booked_empty f H0 k0 k : booked (pages_of H0 - 1) (mem_used (k_heap k0)) (mem_free (k_heap k0) - 4044) [new_page f] k ∅ ->
  exists H, heap_ok H [new_page f] k /\ pages_of H = pages_of H0 /\
    u32 (mem_used (k_heap k)) = u32 (mem_used (k_heap k0)) /\ u32 (mem_free (k_heap k)) = u32 (mem_free (k_heap k0)).
Proof.
  intros (_ & H & PS & [HK HL Hlv Hco Hp Hu Hf] & Hfi). destruct (hk_state _ _ _ HK) as [bl HT].
  assert (Hn : forall c s, ~ live PS c s) by (intros c s Hl; destruct (Hlv c s Hl) as [sz Hsz]; by rewrite lookup_empty in Hsz).
  destruct (Hfi _ _ eq_refl) as (p & Q & -> & Ep). change (big_pages ∅) with 0 in *.
  destruct (compact_unused _ (ht_pages _ _ _ _ HT) Hco Hn) as [?|[g E]]; [done|]. injection E as -> ->. cbn [new_page fst] in Ep. subst g.
  exists H. split_and!; [done | cbn in Hp; lia | |].
  - rewrite Hu. by rewrite (unused_total _ Hn), Z.mul_0_r, !Z.add_0_r.
  - rewrite Hf. f_equal. cbn. unfold c_size. cbn. lia.
Qed.

Lemma books_checked f H0 H k0 k : heap_ok H0 [new_page f] k0 -> heap_ok H [new_page f] k -> pages_of H = pages_of H0 ->
  u32 (mem_used (k_heap k)) = u32 (mem_used (k_heap k0)) -> u32 (mem_free (k_heap k)) = u32 (mem_free (k_heap k0)) ->
  heap_sum (k_heap k) = heap_sum (k_heap k0) -> check_ini (k_heap k0) (ld32 (k_mem k0) first_var) k = Ok true k.
Proof.
  intros HK0 HK Hp Hu Hf Hsum. destruct (hk_state _ _ _ HK) as [bl HT], (hk_state _ _ _ HK0) as [bl0 HT0].
  pose proof (ht_statics _ _ _ _ HT) as (_ & _ & S3 & S4 & _).
  assert (Hm : u32 (mem_meta (k_heap k)) = u32 (mem_meta (k_heap k0))) by (unfold heap_sum, u32 in *; div_lia).
  assert (Ef : ld32 (k_mem k) first_var = ld32 (k_mem k0) first_var)
    by (by rewrite (proj1 (hr_all _ _ _ _ (ht_rep _ _ _ _ HT))), (proj1 (hr_all _ _ _ _ (ht_rep _ _ _ _ HT0)))).
  assert (El : last_chunk (k_heap k) = last_chunk (k_heap k0)) by (by rewrite (hk_last _ _ _ HK), (hk_last _ _ _ HK0)).
  assert (Hw : wp (check_ini (k_heap k0) (ld32 (k_mem k0) first_var)) k (fun r k' => r = true /\ k' = k)).
  { unfold check_ini. apply wp_bind, wp_gets. apply wp_bind. eapply wp_access; [lia | lia | reflexivity | cbv beta].
    rewrite Hu, Hf, Hm, Ef, El, !Z.eqb_refl. by apply wp_ret. }
  apply wp_ok in Hw as (r & k' & E & -> & ->). exact E.
Qed.
End histories.

(** C10: along any history of [kmalloc], client writes and [kfree] from a state
    that passes [check_state] of the self-test, as the heap's only user of
    pages, every state passes it: the bytes in use, free and overhead add up to
    the pages taken from the page allocator. *)
Theorem heap_accounting `{BS : BuddySymbols} `{HS : HeapSymbols} `{PA : !PageAllocator pmm_alloc pmm_free get_order_addr} H PS k0 k L D :
  heap_ok H PS k0 -> cursor_ok (k_vga k0) -> check_state k0 = Ok true k0 -> rtc client_step (k0, ∅, ∅) (k, L, D) ->
  check_state k = Ok true k.
Proof.
  intros HK Hc E%check_state_accounted Hr. apply check_state_accounted.
  exact (hi_sum _ _ _ _ (client_inv _ _ _ _ _ _ _ Hr (inv_start _ _ _ _ HK Hc E))).
Qed.

(** C9: when a client has freed every block it got from a heap of one unused
    page, in whatever order, the heap is that one page again, in one free chunk:
    the pages it took since are back with the page allocator and [check_ini] of
    the self-test finds its five variables as they were. *)
Theorem heap_no_leak `{BS : BuddySymbols} `{HS : HeapSymbols} `{PA : !PageAllocator pmm_alloc pmm_free get_order_addr} f H0 k0 k D :
  heap_ok H0 [new_page f] k0 -> cursor_ok (k_vga k0) -> rtc client_step (k0, ∅, ∅) (k, ∅, D) ->
  (exists H, heap_ok H [new_page f] k /\ pages_of H = pages_of H0) /\
  used_pages_count (k_buddy k) = used_pages_count (k_buddy k0) /\
  check_ini (k_heap k0) (ld32 (k_mem k0) first_var) k = Ok true k.
Proof.
  intros HK Hc Hr.
  destruct (client_booked _ _ _ _ _ _ _ _ _ _ _ Hr (inv_start _ _ _ _ HK Hc (accounted_exists k0)) (booked_start f H0 k0 HK Hc)) as [HI HB].
  destruct (booked_empty f H0 k0 k HB) as (H & HK' & Ep & Eu & Ef).
  assert (Ec : used_pages_count (k_buddy k) = used_pages_count (k_buddy k0))
    by (by rewrite (pa_used _ _ (hk_pages _ _ _ HK')), (pa_used _ _ (hk_pages _ _ _ HK)), Ep).
  split_and!; [by exists H | done |]. eapply books_checked; try done.
  pose proof (hi_sum _ _ _ _ HI) as Ha. unfold accounted in Ha. rewrite Ha, Ec, Z.sub_add. unfold heap_sum. apply u32_idem.
Qed.

(** ** On the sample machine *)

#[local] Existing Instance sample_symbols.
#[local] Existing Instance user_pages.
#[local] Existing Instance user_heap.

Lemma user_machine_accounted : heap_sum (k_heap user_machine) = 0 /\ used_pages_count (k_buddy user_machine) = 0.
Proof. vm_compute. split; reflexivity. Qed.

Lemma user_frees : is_ok ((init_kmalloc;; p ← kmalloc 100; kfree p;; q ← kmalloc 5000; kfree q) user_machine) = true.
Proof. vm_compute. reflexivity. Qed.

Lemma user_life : exists k0 p k1 k2 q k3 k, init_kmalloc user_machine = Ok tt k0 /\ kmalloc 100 k0 = Ok p k1 /\ kfree p k1 = Ok tt k2 /\
  kmalloc 5000 k2 = Ok q k3 /\ kfree q k3 = Ok tt k.
Proof.
  generalize (is_ok_run _ user_frees). generalize user_machine. intros m ([] & k & E). unfold mbind, M_bind in E.
  destruct (init_kmalloc m) as [[] k0|] eqn:E0; [|discriminate E]. destruct (kmalloc 100 k0) as [p k1|] eqn:E1; [|discriminate E].
  destruct (kfree p k1) as [[] k2|] eqn:E2; [|discriminate E]. destruct (kmalloc 5000 k2) as [q k3|] eqn:E3; [|discriminate E].
  by exists k0, p, k1, k2, q, k3, k.
Qed.

#[local] Opaque user_machine.

Lemma heap_accounting_witness : exists k p, rtc client_step (user_machine, ∅, ∅) (k, {[p:=100]}, ∅) /\ check_state k = Ok true k.
Proof.
  destruct user_alloc as (p & k & E & _). exists k, p.
  assert (Hr : rtc client_step (user_machine, ∅, ∅) (k, {[p:=100]}, ∅)) by (apply rtc_once, (client_alloc 100); [left; lia | exact E]).
  split; [exact Hr|]. apply (heap_accounting [] [] user_machine k {[p:=100]} ∅ user_machine_heap user_machine_vga); [|exact Hr].
  apply check_state_accounted. unfold accounted. destruct user_machine_accounted as [-> ->]. reflexivity.
Defined.

Lemma heap_no_leak_witness : exists k0 k f D, rtc client_step (k0, ∅, ∅) (k, ∅, D) /\
  used_pages_count (k_buddy k) = used_pages_count (k_buddy k0) /\ check_ini (k_heap k0) f k = Ok true k.
Proof.
  destruct user_life as (k0 & p & k1 & k2 & q & k3 & k & E0 & E1 & E2 & E3 & E4).
  destruct (wpe_run _ _ _ _ _ _ (init_kmalloc_spec [] user_machine user_machine_heap user_machine_vga) E0) as (i & HK & _ & _ & Hcall & _).
  assert (Hc : cursor_ok (k_vga k0)) by (eapply heap_call_cursor; [exact Hcall | exact user_machine_vga]).
  assert (Hr : rtc client_step (k0, ∅, ∅) (k, ∅, forget q 5000 (forget p 100 ∅))).
  { eapply rtc_l; [apply (client_alloc 100 p k0 k1 ∅ ∅); [left; lia | exact E1]|].
    eapply rtc_l; [apply (client_free p 100 k1 k2 _ ∅); [apply lookup_insert_eq | exact E2]|]. rewrite (delete_insert_id ∅ p 100) by apply lookup_empty.
    eapply rtc_l; [apply (client_alloc 5000 q k2 k3 ∅); [right; lia | exact E3]|].
    pose proof (client_free q 5000 k3 k (<[q:=5000]> ∅) (forget p 100 ∅) (lookup_insert_eq _ _ _) E4) as Hs.
    rewrite (delete_insert_id ∅ q 5000) in Hs by apply lookup_empty. apply rtc_once, Hs. }
  destruct (heap_no_leak _ _ k0 k _ HK Hc Hr) as (_ & Ep & Ec). exists k0, k, (ld32 (k_mem k0) first_var), (forget q 5000 (forget p 100 ∅)).
  split; [exact Hr|]. split; [exact Ep | exact Ec].
Defined.
