(* ===== verification/Sched.v ===== *)
(** * Threads: src/sched/sched.c, src/sched/thread.c, src/sched/context_switch.asm,
    src/sched/atomic.h, src/kernel/reaper.c, src/process/syscall.c, and the
    [refresh_cr3] of src/mm/paging.c — the code *)

From Stdlib Require Import ZArith Lia Bool.
From stdpp Require Import base list gmap strings.
From S2P Require Import Prelude Machine StringLib Console Node Queue Bump Buddy Devices Descriptors Heap.

(** ** Data *)

(** [THREAD_STATUS] *)
Definition RUNNING : Z := 0.
Definition RUNNABLE : Z := 1.
Definition IDLE : Z := 2.
Definition ZOMBIE : Z := 3.
Definition SLEEPING : Z := 4.

(** Linker addresses of the queues, the page directory and the code that fresh
    stacks return to. *)
Class SchedSymbols := {
  que : Z; sleep_que : Z; zombie_que : Z; kernel_page_directory : Z;
  kthread_stub_addr : Z; reaper_main_addr : Z }.

Definition with_sched (f : sched_globals -> sched_globals) : M unit :=
  modify (fun k => set_sched (f (k_sched k)) k).
Definition set_cur_thread (t : Z) : M unit := with_sched (fun s =>
  MkSched (ticks s) (tick_rate s) t (idle_thread s) (thread_id s) (reaper s) (saved_if s)).
Definition set_idle_thread (t : Z) : M unit := with_sched (fun s =>
  MkSched (ticks s) (tick_rate s) (cur_thread s) t (thread_id s) (reaper s) (saved_if s)).
Definition set_ticks (v : Z) : M unit := with_sched (fun s =>
  MkSched (u64 v) (tick_rate s) (cur_thread s) (idle_thread s) (thread_id s) (reaper s) (saved_if s)).
Definition set_tick_rate (v : Z) : M unit := with_sched (fun s =>
  MkSched (ticks s) v (cur_thread s) (idle_thread s) (thread_id s) (reaper s) (saved_if s)).
Definition set_thread_id (v : Z) : M unit := with_sched (fun s =>
  MkSched (ticks s) (tick_rate s) (cur_thread s) (idle_thread s) (u32 v) (reaper s) (saved_if s)).
Definition set_reaper (t : Z) : M unit := with_sched (fun s =>
  MkSched (ticks s) (tick_rate s) (cur_thread s) (idle_thread s) (thread_id s) t (saved_if s)).
Definition save_if (t : Z) (b : bool) : M unit := with_sched (fun s =>
  MkSched (ticks s) (tick_rate s) (cur_thread s) (idle_thread s) (thread_id s) (reaper s)
    (<[t := b]> (saved_if s))).

Definition get_cur_thread : M Z := gets (fun k => cur_thread (k_sched k)).

(** ** src/sched/atomic.h: [pushfl; cli] and [popfl] *)

Definition ATOMIC_START : M bool :=
  b ← gets (fun k => eflags_if (k_cpu k)); cli;; mret b.
Definition ATOMIC_END (saved : bool) : M unit :=
  modify (fun k => set_cpu (set_if saved (k_cpu k)) k).

(** ** src/sched/context_switch.asm *)

Definition push32 (v : Z) : M unit :=
  sp ← gets (fun k => esp (k_cpu k));
  let sp' := sp ⊟ 4 in
  store32 sp' v;;
  modify (fun k => set_cpu (set_regs sp' (gprs (k_cpu k)) (k_cpu k)) k).

Definition pop32 : M Z :=
  sp ← gets (fun k => esp (k_cpu k));
  v ← load32 sp;
  modify (fun k => set_cpu (set_regs (sp ⊞ 4) (gprs (k_cpu k)) (k_cpu k)) k);;
  mret v.

Definition reg (n : nat) (k : kernel) : Z := nth n (gprs (k_cpu k)) 0.

(** [pusha]: eax, ecx, edx, ebx, the old esp, ebp, esi, edi. *)
Definition pusha : M unit :=
  sp ← gets (fun k => esp (k_cpu k));
  k ← get;
  push32 (reg 0 k);; push32 (reg 1 k);; push32 (reg 2 k);; push32 (reg 3 k);;
  push32 sp;; push32 (reg 4 k);; push32 (reg 5 k);; push32 (reg 6 k).

Definition popa : M unit :=
  edi ← pop32; esi ← pop32; ebp ← pop32; _ ← pop32;
  ebx ← pop32; edx ← pop32; ecx ← pop32; eax ← pop32;
  modify (fun k => set_cpu (set_regs (esp (k_cpu k)) [eax; ecx; edx; ebx; ebp; esi; edi] (k_cpu k)) k).

(** Returns the address that the final [ret] jumps to. *)
Definition context_switch (old_esp new_esp : Z) : M Z :=
  modify (fun k => set_cpu (set_regs (esp (k_cpu k))
    (<[1%nat := old_esp]> (<[2%nat := new_esp]> (gprs (k_cpu k)))) (k_cpu k)) k);;
  pusha;;
  sp ← gets (fun k => esp (k_cpu k));
  store32 old_esp sp;;
  sp ← load32 new_esp;
  modify (fun k => set_cpu (set_regs sp (gprs (k_cpu k)) (k_cpu k)) k);;
  popa;;
  pop32.

(** ** src/sched/sched.c *)

Definition refresh_cr3 (pd : Z) : M unit :=
  modify (fun k => set_cpu (set_cr3 (V2P pd) (k_cpu k)) k).

Section code.
Context `{BuddySymbols} `{HeapSymbols} `{TableSymbols} `{SchedSymbols}.

Definition _thread_ready (thread : Z) : M unit :=
  store32 (thread_status thread) RUNNABLE;;
  list_push_back que (thread_node thread).

(** [while (sleep_que.head && sleep_que.head->wake_at <= ticks)]; each turn
    removes a thread from the queue, so its size plus one turns are enough. *)
Fixpoint wake_loop (fuel : nat) : M unit :=
  match fuel with
  | O => stop_with OutOfFuel
  | S fuel =>
      head ← load32 (list_head sleep_que);
      if head =? NULL then skip else
      wake_at ← load64 (thread_wake_at head);
      now ← gets (fun k => ticks (k_sched k));
      if wake_at <=? now then
        thread ← list_pop_front sleep_que;
        _thread_ready thread;;
        wake_loop fuel
      else skip
  end.

Definition wake_up_threads : M unit :=
  n ← load32 (list_size sleep_que);
  wake_loop (S (Z.to_nat n)).

Definition get_next_thread : M Z :=
  head ← load32 (list_head que);
  if negb (head =? NULL) then list_pop_front que else mret NULL.

(** [scheduler] up to the call of [context_switch]: the threads switched from
    and to. *)
Definition pick_thread : M (Z * Z) :=
  cur ← get_cur_thread;
  status ← load32 (thread_status cur);
  when (status =? RUNNING) (_thread_ready cur);;
  prev_thread ← get_cur_thread;
  next ← get_next_thread;
  set_cur_thread next;;
  when (next =? NULL) (idle ← gets (fun k => idle_thread (k_sched k)); set_cur_thread idle);;
  cur ← get_cur_thread;
  idle ← gets (fun k => idle_thread (k_sched k));
  when (negb (cur =? idle)) (store32 (thread_status cur) RUNNING);;
  pd ← load32 (thread_pd cur);
  prev_pd ← load32 (thread_pd prev_thread);
  when (negb (pd =? prev_pd)) (refresh_cr3 pd);;
  stack ← load32 (thread_stack cur);
  store32 (tss_esp0 tss) (stack ⊞ 0x1000);;
  mret (prev_thread, cur).

(** After the switch the new thread runs: one that was switched out here pops
    the flags it had pushed; a fresh one starts at the address on its stack
    ([kthread_stub] or [launch_process]), which enables interrupts. *)
Definition scheduler : M Z :=
  saved ← ATOMIC_START;
  '(prev_thread, cur) ← pick_thread;
  save_if prev_thread saved;;
  eip ← context_switch (thread_esp prev_thread) (thread_esp cur);
  flag ← gets (fun k => saved_if (k_sched k) !! cur);
  ATOMIC_END (default true flag);;
  mret eip.

Definition timer : M Z :=
  now ← gets (fun k => ticks (k_sched k));
  rate ← gets (fun k => tick_rate (k_sched k));
  set_ticks (now + rate);;
  wake_up_threads;;
  scheduler.

Definition init_list (L : Z) : M unit :=
  store32 (list_size L) 0;; store32 (list_head L) NULL;; store32 (list_tail L) NULL.

Definition init_sched : M Z :=
  rate ← init_pit 100 CB_timer;
  set_tick_rate rate;;
  init_list que;;
  init_list sleep_que;;
  t ← kmalloc sizeof_Thread;
  set_cur_thread t;;
  set_idle_thread t;;
  store32 (thread_id_of t) 0;;
  store32 (thread_pd t) kernel_page_directory;;
  mret t.

Definition thread_sleep (time : Z) : M Z :=
  now ← gets (fun k => ticks (k_sched k));
  cur ← get_cur_thread;
  store64 (thread_wake_at cur) (u64 (now + u64 (time * PIT_CRYSTAL)));;
  saved ← ATOMIC_START;
  store32 (thread_status cur) SLEEPING;;
  list_sorted_push sleep_que (thread_node cur);;
  ATOMIC_END saved;;
  scheduler.

Definition thread_ready (thread : Z) : M unit :=
  saved ← ATOMIC_START;
  store32 (thread_status thread) RUNNABLE;;
  list_push_back que (thread_node thread);;
  ATOMIC_END saved.

(** ** src/sched/thread.c *)

(** [*--esp = v] for each value of the list. *)
Fixpoint push_words (sp : Z) (vs : list Z) : M Z :=
  match vs with
  | [] => mret sp
  | v :: vs => store32 (sp ⊟ 4) v;; push_words (sp ⊟ 4) vs
  end.

(** What [thread_create] pushes: the arguments of [kthread_stub], its return
    address, its address, and the eight registers [popa] takes. *)
Definition fresh_stack (thread arg entry : Z) : list Z :=
  [thread; arg; entry; 0; kthread_stub_addr; 0; 0; 0; 0; 0; 0; 0; 0].

Definition thread_create (entry arg : Z) : M Z :=
  stack ← pmm_alloc 0;
  thread ← kmalloc sizeof_Thread;
  sp ← push_words (P2V stack ⊞ 0x1000) (fresh_stack thread arg entry);
  store32 (thread_esp thread) sp;;
  store32 (thread_stack thread) stack;;
  id ← gets (fun k => thread_id (k_sched k));
  store32 (thread_id_of thread) id;;
  set_thread_id (id + 1);;
  store32 (thread_pd thread) kernel_page_directory;;
  thread_ready thread;;
  mret thread.

Definition destroy_thread (thread : Z) : M unit :=
  stack ← load32 (thread_stack thread);
  pmm_free stack;;
  kfree thread.

(** ** src/kernel/reaper.c *)

Definition reaper_add (zombie : Z) : M unit :=
  saved ← ATOMIC_START;
  store32 (thread_status zombie) ZOMBIE;;
  list_push_back zombie_que (thread_node zombie);;
  r ← gets (fun k => reaper (k_sched k));
  status ← load32 (thread_status r);
  when (negb (status =? RUNNABLE)) (thread_ready r);;
  ATOMIC_END saved.

(** One turn of the loop of [reaper_main]. *)
Definition reaper_turn : M unit :=
  saved ← ATOMIC_START;
  head ← load32 (list_head zombie_que);
  if negb (head =? NULL) then
    ATOMIC_END saved;;
    z ← list_pop_front zombie_que;
    destroy_thread z
  else
    r ← gets (fun k => reaper (k_sched k));
    store32 (thread_status r) SLEEPING;;
    ATOMIC_END saved;;
    scheduler;; skip.

Definition init_reaper : M unit :=
  store32 (list_head zombie_que) NULL;;
  store32 (list_tail zombie_que) NULL;;
  store32 (list_size zombie_que) 0;;
  t ← thread_create reaper_main_addr NULL;
  set_reaper t.

(** [kthread_stub(entry, arg, thread)], [body] being the call [entry(arg)]. *)
Definition kthread_stub (body : M unit) (thread : Z) : M Z :=
  sti;;
  body;;
  reaper_add thread;;
  scheduler.

(** ** src/process/syscall.c *)

Definition SYS_EXIT : Z := 0.
Definition SYS_SLEEP : Z := 1.

Definition do_exit : M unit :=
  cur ← get_cur_thread; reaper_add cur;; scheduler;; skip.

Definition do_sleep (time : Z) : M unit := thread_sleep time;; skip.

(** The register frame pushed by the stubs: [eax] and [ebx] of [register_t]. *)
Definition regs_ebx (regs : Z) : Z := regs + 20.
Definition regs_eax (regs : Z) : Z := regs + 32.

Definition syscall_handler (regs : Z) : M unit :=
  eax ← load32 (regs_eax regs);
  if eax =? SYS_EXIT then do_exit
  else if eax =? SYS_SLEEP then ebx ← load32 (regs_ebx regs); do_sleep ebx
  else kprintf ("unknown syscall" ++ newline) [];; skip.

Definition init_syscall : M unit := register_interrupt_handler 0x80 H_syscall_handler.

(** ** The interrupt dispatch of src/drivers/pit.c and src/interrupts/isr.c *)

Definition pit_irq_handler : M unit :=
  pic_send_eoi 0;;
  cb ← gets (fun k => timer_callback (k_devs k));
  match cb with Some CB_timer => timer;; skip | None => skip end.

Definition run_handler (h : handler) (regs : Z) : M unit :=
  match h with
  | H_pit_irq_handler => pit_irq_handler
  | H_syscall_handler => syscall_handler regs
  end.
End code.
