(* ===== verification/SchedModel.v ===== *)
(** * The scheduler over its queues

    The ready queue and the sleep queue in memory are lists of threads; the
    theorems say which thread is woken, queued, chosen and switched to. *)

From Stdlib Require Import ZArith Lia Bool Sorted.
From stdpp Require Import base list gmap strings.
From S2P Require Import Prelude Machine StringLib Console Node Queue Bump Buddy Devices Descriptors Heap Sched.

Lemma queue_frame m m' L l :
  queue m L l -> agree m m' L 12 -> (forall a, a ∈ l -> agree m m' a 8) -> queue m' L l.
Proof.
  intros (H1 & H2 & H3 & H4) HL Ha. unfold queue, list_head, list_tail, list_size in *.
  rewrite !(ld32_agree m m') by (eapply agree_sub; [exact HL | lia..]).
  split_and!; try done. by eapply dseg_frame.
Qed.

Section sched.
Context `{BS : BuddySymbols} `{HS : HeapSymbols} `{TS : TableSymbols} `{SS : SchedSymbols}.

(** All threads of the system, the queues and the TSS: mapped and apart. *)
Context (T : list Z).
Definition queues : list Z := [que; sleep_que; zombie_que].

Record placed : Prop := {
  pl_nodup : NoDup T;
  pl_len : Z.of_nat (length T) < 2 ^ 32;
  pl_mapped : forall t, t ∈ T -> KERNEL_VIRTUAL_BASE <= t /\ t + sizeof_Thread <= 2 ^ 32;
  pl_apart : forall a b, a ∈ T -> b ∈ T -> a <> b -> apart a sizeof_Thread b sizeof_Thread;
  pl_que : forall q, q ∈ queues -> KERNEL_VIRTUAL_BASE <= q /\ q + sizeof_DLList <= 2 ^ 32;
  pl_que_thread : forall q t, q ∈ queues -> t ∈ T -> apart q sizeof_DLList t sizeof_Thread;
  pl_ques : forall q q', q ∈ queues -> q' ∈ queues -> q <> q' -> apart q sizeof_DLList q' sizeof_DLList;
  pl_distinct : NoDup queues;
  pl_tss : KERNEL_VIRTUAL_BASE <= tss /\ tss + sizeof_TSS_ENTRY <= 2 ^ 32;
  pl_tss_que : forall q, q ∈ queues -> apart tss sizeof_TSS_ENTRY q sizeof_DLList;
  pl_tss_thread : forall t, t ∈ T -> apart tss sizeof_TSS_ENTRY t sizeof_Thread }.

Context (HP : placed).

(** The ready queue holds [R] and the sleep queue [S]. *)
Record sched_rep (m : memory) (R S : list Z) : Prop := {
  sr_que : queue m que R;
  sr_sleep : queue m sleep_que S;
  sr_nodup : NoDup (R ++ S);
  sr_threads : forall t, t ∈ R ++ S -> t ∈ T }.

(** Every field of every thread but its links is kept, except the status of the
    threads in [W]. *)
Definition kept (W : list Z) (m m' : memory) : Prop :=
  forall u b, u ∈ T -> range (u + 8) 28 b -> (u ∈ W -> ~ range (u + 16) 4 b) -> ld8 m' b = ld8 m b.

(** The bytes of the scheduler: its two queues and the threads; the reaper's queue
    is not the scheduler's. *)
Definition sched_bytes (b : Z) : Prop :=
  (exists q, q ∈ [que; sleep_que] /\ range q 12 b) \/ (exists t, t ∈ T /\ range t 36 b).

Definition status (m : memory) (t : Z) : Z := ld32 m (thread_status t).

(** The links of every thread outside [X] are kept. *)
Definition links_kept (X : list Z) (m m' : memory) : Prop :=
  forall u, u ∈ T -> u ∉ X -> agree m m' u 8.

Lemma kept_refl W m : kept W m m.
Proof. by intros u b. Qed.

Lemma kept_mono W W' m m' : (forall u, u ∈ W -> u ∈ W') -> kept W m m' -> kept W' m m'.
Proof. intros Hi Hk u b Hu Hb Hw. apply (Hk u b Hu Hb). auto. Qed.

Lemma kept_trans W m1 m2 m3 : kept W m1 m2 -> kept W m2 m3 -> kept W m1 m3.
Proof. intros K1 K2 u b Hu Hb Hw. rewrite (K2 u b) by done. by apply (K1 u b). Qed.

Lemma kept_agree W m m' u off n :
  kept W m m' -> u ∈ T -> 8 <= off -> off + n <= 36 -> (u ∈ W -> off + n <= 16 \/ 20 <= off) ->
  agree m m' (u + off) n.
Proof.
  intros Hk Hu H1 H2 Hw b Hb. apply (Hk u b Hu); unfold range in *; [lia|].
  intros Hin. specialize (Hw Hin). lia.
Qed.

Lemma kept_wake W m m' u : kept W m m' -> u ∈ T -> wake m' u = wake m u.
Proof. intros Hk Hu. apply ld64_agree. eapply kept_agree; [exact Hk | done | lia..]. Qed.

Lemma kept_status W m m' u : kept W m m' -> u ∈ T -> u ∉ W -> status m' u = status m u.
Proof. intros Hk Hu Hw. apply ld32_agree. eapply kept_agree; [exact Hk | done | lia | lia | done]. Qed.

Ltac mem_q := first [by left | by right; left | by right; right; left].
Lemma que_in : que ∈ queues. Proof. mem_q. Qed.
Lemma sleep_in : sleep_que ∈ queues. Proof. right; left. Qed.
Lemma zombie_in : zombie_que ∈ queues. Proof. right; right; left. Qed.
Lemma run_queue q : q ∈ [que; sleep_que] -> q ∈ queues.
Proof. unfold queues. rewrite !elem_of_cons. tauto. Qed.
Lemma que_ne_sleep : que <> sleep_que.
Proof. pose proof (pl_distinct HP) as Hn. apply NoDup_cons in Hn as [Hn _]. intros E. apply Hn. rewrite E. left. Qed.

Lemma placed_queue_ok q l :
  q ∈ queues -> NoDup l -> (forall t, t ∈ l -> t ∈ T) -> queue_ok q l.
Proof.
  intros Hq Hnd Hl. destruct (pl_que HP q Hq) as [Q1 Q2].
  split; [|split; [done | split; [done|]]].
  - split_and!; [done | |].
    + apply Forall_forall. intros t Ht. destruct (pl_mapped HP t (Hl t Ht)).
      unfold node_ok, sizeof_Node, sizeof_Thread in *. lia.
    + intros a b Ha Hb Hne. pose proof (pl_apart HP a b (Hl a Ha) (Hl b Hb) Hne).
      unfold apart, sizeof_Thread, sizeof_Node in *. lia.
  - intros t Ht. pose proof (pl_que_thread HP q t Hq (Hl t Ht)).
    unfold apart, sizeof_Thread, sizeof_Node, sizeof_DLList in *. lia.
Qed.

(** A queue operation on [q] that touches the nodes [l] keeps every thread field
    and the other queues whose nodes are not in [l]. *)
Lemma queue_op_kept q l m m' :
  q ∈ queues -> (forall t, t ∈ l -> t ∈ T) -> untouched (queue_fp q l) m m' -> kept [] m m'.
Proof.
  intros Hq Hl Hu u b Hut Hb _. apply Hu. intros [Hr|(a & Ha & Hr)].
  - pose proof (pl_que_thread HP q u Hq Hut). unfold apart, range, sizeof_DLList, sizeof_Thread in *. lia.
  - destruct (decide (a = u)) as [->|Hne]; [unfold range, sizeof_Node in *; lia|].
    pose proof (pl_apart HP a u (Hl a Ha) Hut Hne). unfold apart, range, sizeof_Node, sizeof_Thread in *. lia.
Qed.

Lemma queue_op_other q l q' l' m m' :
  q ∈ queues -> q' ∈ queues -> q <> q' -> (forall t, t ∈ l -> t ∈ T) -> (forall t, t ∈ l' -> t ∈ T) ->
  (forall t, t ∈ l' -> t ∉ l) -> untouched (queue_fp q l) m m' -> queue m q' l' -> queue m' q' l'.
Proof.
  intros Hq Hq' Hne Hl Hl' Hd Hu HQ. eapply queue_frame; [exact HQ| |].
  - eapply untouched_agree; [exact Hu|]. intros b Hb [Hr|(a & Ha & Hr)].
    + pose proof (pl_ques HP q q' Hq Hq' Hne). unfold apart, range, sizeof_DLList in *. lia.
    + pose proof (pl_que_thread HP q' a Hq' (Hl a Ha)).
      unfold apart, range, sizeof_DLList, sizeof_Thread, sizeof_Node in *. lia.
  - intros t Ht. eapply untouched_agree; [exact Hu|]. intros b Hb [Hr|(a & Ha & Hr)].
    + pose proof (pl_que_thread HP q t Hq (Hl' t Ht)).
      unfold apart, range, sizeof_DLList, sizeof_Thread in *. lia.
    + assert (a <> t) by (intros ->; by apply (Hd t Ht)).
      pose proof (pl_apart HP a t (Hl a Ha) (Hl' t Ht) ltac:(done)).
      unfold apart, range, sizeof_Node, sizeof_Thread in *. lia.
Qed.

Lemma queue_op_links q l X m m' :
  q ∈ queues -> (forall t, t ∈ l -> t ∈ T) -> (forall t, t ∈ l -> t ∈ X) -> untouched (queue_fp q l) m m' ->
  links_kept X m m'.
Proof.
  intros Hq Hl HX Hu u Hut Hn b Hb. apply Hu. intros [Hr|(a & Ha & Hr)].
  - pose proof (pl_que_thread HP q u Hq Hut). unfold apart, range, sizeof_DLList, sizeof_Thread in *. lia.
  - assert (Hne : a <> u) by (intros ->; auto).
    pose proof (pl_apart HP a u (Hl a Ha) Hut Hne). unfold apart, range, sizeof_Node, sizeof_Thread in *. lia.
Qed.

Lemma field_store_links t F X m m' :
  t ∈ T -> (forall b, F b -> range (t + 8) 28 b) -> untouched F m m' -> links_kept X m m'.
Proof.
  intros Ht HF Hu u Hut _ b Hb. apply Hu. intros Hr%HF.
  destruct (decide (u = t)) as [->|Hne]; [unfold range in *; lia|].
  pose proof (pl_apart HP u t Hut Ht Hne). unfold apart, range, sizeof_Thread in *. lia.
Qed.

Lemma links_kept_trans X m1 m2 m3 : links_kept X m1 m2 -> links_kept X m2 m3 -> links_kept X m1 m3.
Proof. intros H1 H2 u Hu Hn b Hb. rewrite (H2 u Hu Hn b Hb). by apply (H1 u Hu Hn). Qed.

(** A store to a field of a thread past its links keeps the queues. *)
Lemma field_store_queue m m' t q l F :
  t ∈ T -> (forall b, F b -> range (t + 8) 28 b) -> untouched F m m' ->
  q ∈ queues -> (forall u, u ∈ l -> u ∈ T) -> queue m q l -> queue m' q l.
Proof.
  intros Ht HF Hu Hq Hl HQ. eapply queue_frame; [exact HQ| |].
  - eapply untouched_agree; [exact Hu|]. intros b Hb Hr%HF.
    pose proof (pl_que_thread HP q t Hq Ht). unfold apart, range, sizeof_DLList, sizeof_Thread in *. lia.
  - intros a Ha. apply (field_store_links t F [] m m' Ht HF Hu a (Hl a Ha)). apply not_elem_of_nil.
Qed.

Lemma field_store_rep m m' t R S F :
  t ∈ T -> (forall b, F b -> range (t + 8) 28 b) -> untouched F m m' ->
  sched_rep m R S -> sched_rep m' R S.
Proof.
  intros Ht HF Hu [Q1 Q2 Q3 Q4].
  split; try done; (eapply field_store_queue; [exact Ht | exact HF | exact Hu | mem_q | | done]);
    intros u Hu'; apply Q4; rewrite elem_of_app; auto.
Qed.

Lemma status_store_kept m t v : t ∈ T -> kept [t] m (st32 m (thread_status t) v).
Proof.
  intros Ht u b Hu Hb Hw. apply st32_untouched. unfold thread_status. intros Hr.
  destruct (decide (u = t)) as [->|Hne]; [by apply Hw; [left|]|].
  pose proof (pl_apart HP u t Hu Ht Hne). unfold apart, range, sizeof_Thread in *. lia.
Qed.

(** ** Readying a thread *)

Lemma thread_ready_spec t R S k (Q : unit -> kernel -> Prop) :
  sched_rep (k_mem k) R S -> t ∈ T -> t ∉ R ++ S ->
  (forall m', sched_rep m' (R ++ [t]) S -> status m' t = RUNNABLE -> kept [t] (k_mem k) m' ->
     untouched sched_bytes (k_mem k) m' -> links_kept (R ++ [t]) (k_mem k) m' -> Q tt (set_mem m' k)) ->
  wp (_thread_ready t) k Q.
Proof.
  intros HR Ht Hnt HQ. destruct (pl_mapped HP t Ht) as [M1 M2]. unfold sizeof_Thread in M2.
  unfold _thread_ready. apply wp_bind. unfold thread_status at 1.
  eapply wp_access; [lia | lia | reflexivity | cbv beta]. set (m1 := st32 _ _ _).
  assert (Hu1 : untouched (range (t + 16) 4) (k_mem k) m1) by apply st32_untouched.
  assert (Hs1 : status m1 t = RUNNABLE).
  { unfold m1, status. change (t + 16) with (thread_status t). rewrite ld32_st32_eq. done. }
  assert (K1 : kept [t] (k_mem k) m1) by (by apply status_store_kept).
  assert (R1 : sched_rep m1 R S).
  { eapply field_store_rep; [exact Ht | | exact Hu1 | exact HR]. unfold range. intros; lia. }
  destruct R1 as [Q1 Q2 Q3 Q4]. rewrite elem_of_app in Hnt.
  pose proof Q3 as (N1 & N2 & N3)%NoDup_app.
  assert (HtR : forall u, u ∈ t :: R -> u ∈ T).
  { intros u [->|Hu]%elem_of_cons; [done | apply Q4; rewrite elem_of_app; auto]. }
  eapply wp_mono.
  { apply (list_push_back_spec que (set_mem m1 k) t R); [exact Q1|].
    apply placed_queue_ok; [apply que_in | constructor; [tauto | done] | done]. }
  intros [] k2 (m2 & -> & Hq2 & Hu2). cbn [k_mem set_mem] in *.
  assert (K2 : kept [] m1 m2) by (eapply queue_op_kept; [apply que_in | exact HtR | exact Hu2]).
  apply (HQ m2).
  - split; [done | | |].
    + eapply (queue_op_other que (t :: R)); [apply que_in | apply sleep_in | apply que_ne_sleep | done | |
        | exact Hu2 | done].
      * intros u Hu. apply Q4. rewrite elem_of_app. auto.
      * intros u Hu [->|Hu']%elem_of_cons; [tauto | by apply (N2 u)].
    + rewrite <- app_assoc. apply NoDup_app. split_and!; [done | |].
      * intros u Hu [->|Hu']%elem_of_cons; [tauto | by apply (N2 u)].
      * constructor; [tauto | done].
    + intros u. rewrite !elem_of_app, list_elem_of_singleton. intros [[?| ->]|?]; [|done|];
        apply Q4; rewrite elem_of_app; auto.
  - rewrite <- Hs1. eapply kept_status; [exact K2 | done |]. apply not_elem_of_nil.
  - eapply kept_trans; [exact K1|]. eapply kept_mono; [|exact K2]. intros u Hu. by apply elem_of_nil in Hu.
  - eapply untouched_trans; eapply untouched_mono; [|exact Hu1| |exact Hu2].
    + intros b Hb. right. exists t. split; [done|]. unfold range in *. lia.
    + intros b [Hb|(a & Ha & Hb)]; [left; exists que; split; [left | done]|].
      right. exists a. split; [by apply HtR|]. unfold range, sizeof_Node in *. lia.
  - eapply links_kept_trans; [eapply (field_store_links t); [done | | exact Hu1]; unfold range; intros; lia|].
    eapply queue_op_links; [apply que_in | exact HtR | | exact Hu2].
    intros u. rewrite elem_of_app, elem_of_cons, list_elem_of_singleton. tauto.
Qed.

(** ** Waking threads *)

Lemma pop_sleep_spec t R S k (Q : Z -> kernel -> Prop) :
  sched_rep (k_mem k) R (t :: S) ->
  (forall m', sched_rep m' R S -> kept [] (k_mem k) m' -> untouched sched_bytes (k_mem k) m' ->
     Q t (set_mem m' k)) ->
  wp (list_pop_front sleep_que) k Q.
Proof.
  intros [Q1 Q2 Q3 Q4] HQ. pose proof Q3 as (N1 & N2 & N3)%NoDup_app.
  assert (HtS : forall u, u ∈ t :: S -> u ∈ T) by (intros u Hu; apply Q4; rewrite elem_of_app; auto).
  eapply wp_mono.
  { apply (list_pop_front_spec sleep_que k t S); [done|]. apply placed_queue_ok; [apply sleep_in | done | done]. }
  intros r k' (-> & m' & -> & Hq & Hu). apply HQ.
  - split; [|done| |].
    + eapply (queue_op_other sleep_que (t :: S)); [apply sleep_in | apply que_in | | done | | | exact Hu | done].
      * intros E. by apply que_ne_sleep.
      * intros u Hu'. apply Q4. rewrite elem_of_app. auto.
      * done.
    + eapply sublist_NoDup; [exact Q3|]. apply sublist_app; [done | by constructor].
    + intros u Hu'. apply Q4. rewrite elem_of_app in *. destruct Hu'; [by left | right; by right].
  - eapply queue_op_kept; [apply sleep_in | exact HtS | exact Hu].
  - eapply untouched_mono; [|exact Hu].
    intros b [Hb|(a & Ha & Hb)]; [left; exists sleep_que; split; [right; left | done]|].
    right. exists a. split; [by apply HtS|]. unfold range, sizeof_Node in *. lia.
Qed.

(** What waking does: the due prefix [S1] of the sleep queue moves, in order, to
    the end of the ready queue. *)
Record woken (now : Z) (R S R' S' : list Z) (m m' : memory) : Prop := {
  wk_prefix : exists S1, S = S1 ++ S' /\ R' = R ++ S1 /\
    (forall t, t ∈ S1 -> wake m t <= now) /\ (forall t, t ∈ S1 -> status m' t = RUNNABLE) /\
    kept S1 m m';
  wk_rest : forall t, hd_error S' = Some t -> now < wake m t;
  wk_rep : sched_rep m' R' S';
  wk_bytes : untouched sched_bytes m m' }.

Lemma wake_loop_spec now S : forall fuel R k,
  sched_rep (k_mem k) R S -> ticks (k_sched k) = now -> (length S < fuel)%nat ->
  wp (wake_loop fuel) k (fun _ k' => exists m' R' S', k' = set_mem m' k /\ woken now R S R' S' (k_mem k) m').
Proof.
  induction S as [|t S IH]; intros fuel R k HR Hnow Hf; (destruct fuel as [|fuel]; [lia|]);
    cbn [wake_loop]; pose proof HR as [Q1 Q2 Q3 Q4]; destruct (pl_que HP sleep_que sleep_in) as [M1 M2];
    unfold sizeof_DLList in M2.
  - apply wp_bind. unfold list_head at 1. eapply wp_access; [lia | lia | reflexivity | cbv beta].
    destruct Q2 as (Hh & _). unfold list_head in Hh. rewrite Hh. cbn [hd]. apply wp_ret.
    exists (k_mem k), R, []. split; [by destruct k|]. split; try done.
    + exists []. rewrite (app_nil_r R). split_and!; try done; try (intros ? Hx; by apply elem_of_nil in Hx).
  - apply wp_bind. unfold list_head at 1. eapply wp_access; [lia | lia | reflexivity | cbv beta].
    destruct Q2 as (Hh & _). unfold list_head in Hh. rewrite Hh. cbn [hd].
    assert (Ht : t ∈ T) by (apply Q4; rewrite elem_of_app; right; left).
    destruct (pl_mapped HP t Ht) as [T1 T2]. unfold sizeof_Thread in T2.
    destruct (Z.eqb_spec t NULL); [unfold NULL, KERNEL_VIRTUAL_BASE in *; lia|].
    apply wp_bind. unfold thread_wake_at at 1. eapply wp_access; [lia | lia | reflexivity | cbv beta].
    apply wp_bind, wp_gets. rewrite Hnow. change (ld64 (k_mem k) (t + 24)) with (wake (k_mem k) t).
    destruct (Z.leb_spec (wake (k_mem k) t) now) as [Hle|Hgt].
    2: { apply wp_ret. exists (k_mem k), R, (t :: S). split; [by destruct k|]. split; try done.
         - exists []. rewrite (app_nil_r R). split_and!; try done; try (intros ? Hx; by apply elem_of_nil in Hx).
         - by intros u [= <-]. }
    apply wp_bind. eapply pop_sleep_spec; [exact HR|]. intros m1 R1 K1 B1.
    assert (HtRS : t ∉ R ++ S).
    { pose proof Q3 as (_ & N2 & [N3 _]%NoDup_cons)%NoDup_app. rewrite elem_of_app.
      intros [Hx|Hx]; [|done]. apply (N2 t Hx). left. }
    apply wp_bind. eapply thread_ready_spec; [exact R1 | done | done |]. intros m2 R2 S2 K2 B2 _.
    cbn [k_mem set_mem] in *.
    eapply wp_mono; [apply (IH fuel (R ++ [t]) (set_mem m2 (set_mem m1 k))); [exact R2 | done | cbn in Hf; lia]|].
    intros [] k3 (m3 & R' & S' & -> & [(S1 & -> & -> & W1 & W2 & W3) Wr Wp Wb]). cbn [k_mem set_mem] in *.
    assert (Hw : forall u, u ∈ T -> wake m2 u = wake (k_mem k) u).
    { intros u Hu. rewrite (kept_wake _ _ _ u K2 Hu). by apply (kept_wake _ _ _ u K1). }
    assert (HS1T : forall u, u ∈ S1 -> u ∈ T).
    { intros u Hu. apply Q4. rewrite elem_of_app. right. right. rewrite elem_of_app. by left. }
    exists m3, (R ++ t :: S1), S'. split; [done|]. rewrite <- app_assoc in Wp. split; try done.
    + exists (t :: S1). split_and!; try done.
      * intros u [->|Hu]%elem_of_cons; [done|]. rewrite <- Hw by auto. by apply W1.
      * intros u [->|Hu]%elem_of_cons; [|by apply W2]. rewrite <- S2. eapply kept_status; [exact W3 | done|].
        intros Hu. apply HtRS. rewrite !elem_of_app. by right; left.
      * eapply kept_trans; [eapply kept_mono; [|exact K1]; intros u Hu; by apply elem_of_nil in Hu|].
        eapply kept_trans; eapply kept_mono; [|exact K2| |exact W3]; intros u Hu;
          [apply list_elem_of_singleton in Hu as ->; left | by right].
    + intros u Hu. rewrite <- Hw; [by apply Wr|]. apply Q4. destruct S' as [|v S']; [done|]. injection Hu as ->.
      rewrite elem_of_app. right. right. rewrite elem_of_app. right. left.
    + eapply untouched_trans; [exact B1|]. by eapply untouched_trans.
Qed.

Lemma wake_up_threads_spec R S k :
  sched_rep (k_mem k) R S ->
  wp wake_up_threads k (fun _ k' => exists m' R' S', k' = set_mem m' k /\
    woken (ticks (k_sched k)) R S R' S' (k_mem k) m').
Proof.
  intros HR. pose proof HR as [Q1 Q2 Q3 Q4]. destruct (pl_que HP sleep_que sleep_in) as [M1 M2].
  unfold sizeof_DLList in M2. unfold wake_up_threads. apply wp_bind. unfold list_size at 1.
  eapply wp_access; [lia | lia | reflexivity | cbv beta].
  apply wake_loop_spec; [done | done|]. destruct Q2 as (_ & _ & Hs & _). unfold list_size in Hs. rewrite Hs.
  assert (Hlen : (length S <= length T)%nat).
  { apply submseteq_length, NoDup_submseteq; [by apply NoDup_app in Q3 as (_ & _ & ?)|].
    intros u Hu. apply Q4. rewrite elem_of_app. auto. }
  pose proof (pl_len HP). rewrite u32_small by lia. lia.
Qed.

(** ** Choosing a thread *)

Lemma get_next_thread_spec R S k (Q : Z -> kernel -> Prop) :
  sched_rep (k_mem k) R S ->
  (forall m', sched_rep m' (tail R) S -> kept [] (k_mem k) m' -> untouched sched_bytes (k_mem k) m' ->
     links_kept R (k_mem k) m' -> Q (hd NULL R) (set_mem m' k)) ->
  wp get_next_thread k Q.
Proof.
  intros HR HQ. pose proof HR as [Q1 Q2 Q3 Q4]. pose proof Q3 as (N1 & N2 & N3)%NoDup_app.
  destruct (pl_que HP que que_in) as [M1 M2]. unfold sizeof_DLList in M2.
  unfold get_next_thread. apply wp_bind. unfold list_head at 1.
  eapply wp_access; [lia | lia | reflexivity | cbv beta].
  pose proof Q1 as (Hh & _). unfold list_head in Hh. rewrite Hh. destruct R as [|t R]; cbn [hd tail] in *.
  - apply wp_ret. specialize (HQ (k_mem k)). destruct k. apply HQ; [done | apply kept_refl | apply untouched_refl | by intros u Hu _ b].
  - assert (HtR : forall u, u ∈ t :: R -> u ∈ T) by (intros u Hu; apply Q4; rewrite elem_of_app; auto).
    destruct (pl_mapped HP t ltac:(apply HtR; left)) as [T1 T2].
    destruct (Z.eqb_spec t NULL); [unfold NULL, KERNEL_VIRTUAL_BASE in *; lia|]. cbn [negb].
    eapply wp_mono.
    { apply (list_pop_front_spec que k t R); [done|]. apply placed_queue_ok; [apply que_in | done | done]. }
    intros r k' (-> & m' & -> & Hq & Hu). apply HQ.
    + split; [done | | |].
      * eapply (queue_op_other que (t :: R)); [apply que_in | apply sleep_in | apply que_ne_sleep | done | |
          | exact Hu | done].
        -- intros u Hu'. apply Q4. rewrite elem_of_app. auto.
        -- intros u Hu1 Hu2. by apply (N2 u).
      * eapply sublist_NoDup; [exact Q3|]. apply sublist_app; [by constructor | done].
      * intros u Hu'. apply Q4. rewrite elem_of_app in *. destruct Hu'; [left; by right | by right].
    + eapply queue_op_kept; [apply que_in | exact HtR | exact Hu].
    + eapply untouched_mono; [|exact Hu].
      intros b [Hb|(a & Ha & Hb)]; [left; exists que; split; [left | done]|].
      right. exists a. split; [by apply HtR|]. unfold range, sizeof_Node in *. lia.
    + eapply queue_op_links; [apply que_in | exact HtR | done | exact Hu].
Qed.

(** The ready queue once the running thread, if still running, is back in it. *)
Definition requeued (m : memory) (cur : Z) (R : list Z) : list Z :=
  if status m cur =? RUNNING then R ++ [cur] else R.

Lemma requeue_spec cur R S k (Q : unit -> kernel -> Prop) :
  sched_rep (k_mem k) R S -> cur ∈ T -> (status (k_mem k) cur = RUNNING -> cur ∉ R ++ S) ->
  (forall m', sched_rep m' (requeued (k_mem k) cur R) S -> kept [cur] (k_mem k) m' ->
     status m' cur = (if status (k_mem k) cur =? RUNNING then RUNNABLE else status (k_mem k) cur) ->
     untouched sched_bytes (k_mem k) m' -> links_kept (requeued (k_mem k) cur R) (k_mem k) m' ->
     Q tt (set_mem m' k)) ->
  wp (when (status (k_mem k) cur =? RUNNING) (_thread_ready cur)) k Q.
Proof.
  intros HR Hc Hnc HQ. unfold requeued in HQ. destruct (Z.eqb_spec (status (k_mem k) cur) RUNNING).
  - eapply thread_ready_spec; [exact HR | done | by apply Hnc |]. intros m' R' S' K' B' L'. by apply HQ.
  - apply wp_ret. specialize (HQ (k_mem k)). destruct k. by apply HQ.
Qed.

(** The scheduler's globals with another current thread. *)
Definition with_cur (t : Z) (s : sched_globals) : sched_globals :=
  MkSched (ticks s) (tick_rate s) t (idle_thread s) (thread_id s) (reaper s) (saved_if s).

(** The decision of [scheduler] among [cur], the ready queue [R] and [idle]. *)
Record picked (cur idle next : Z) (R S : list Z) (m m' : memory) : Prop := {
  pk_next : next = hd idle (requeued m cur R);
  pk_rep : sched_rep m' (tail (requeued m cur R)) S;
  pk_running : next <> idle -> status m' next = RUNNING;
  pk_requeued : status m cur = RUNNING -> next <> cur -> status m' cur = RUNNABLE;
  pk_left : status m cur <> RUNNING -> next <> cur -> status m' cur = status m cur;
  pk_idle : status m' idle = status m idle;
  pk_kept : kept [cur; next] m m';
  pk_esp0 : ld32 m' (tss_esp0 tss) = u32 (ld32 m (thread_stack next) + 0x1000);
  pk_bytes : untouched (fun b => sched_bytes b \/ range (tss_esp0 tss) 4 b) m m';
  pk_links : links_kept (requeued m cur R) m m' }.

(** CR3 after a switch: reloaded when the address spaces differ. *)
Definition switched_cpu (m : memory) (cur next : Z) (c : cpu_regs) : cpu_regs :=
  if ld32 m (thread_pd next) =? ld32 m (thread_pd cur) then c
  else set_cr3 (V2P (ld32 m (thread_pd next))) c.

Lemma tss_store_rep m v R S : sched_rep m R S -> sched_rep (st32 m (tss_esp0 tss) v) R S.
Proof.
  intros [Q1 Q2 Q3 Q4].
  assert (Hq : forall q l, q ∈ queues -> (forall u, u ∈ l -> u ∈ T) -> queue m q l ->
            queue (st32 m (tss_esp0 tss) v) q l).
  { intros q l Hq Hl HQ. eapply queue_frame; [exact HQ| |].
    - eapply untouched_agree; [apply st32_untouched|]. pose proof (pl_tss_que HP q Hq).
      unfold apart, range, tss_esp0, sizeof_DLList, sizeof_TSS_ENTRY in *. intros b Hb. lia.
    - intros a Ha. eapply untouched_agree; [apply st32_untouched|]. pose proof (pl_tss_thread HP a (Hl a Ha)).
      unfold apart, range, tss_esp0, sizeof_Thread, sizeof_TSS_ENTRY in *. intros b Hb. lia. }
  split; try done; apply Hq; try done; try mem_q; intros u Hu; apply Q4; rewrite elem_of_app; auto.
Qed.

Lemma tss_store_kept m v : kept [] m (st32 m (tss_esp0 tss) v).
Proof.
  intros u b Hu Hb _. apply st32_untouched. pose proof (pl_tss_thread HP u Hu).
  unfold apart, range, tss_esp0, sizeof_Thread, sizeof_TSS_ENTRY in *. lia.
Qed.

Lemma tss_store_links X m v : links_kept X m (st32 m (tss_esp0 tss) v).
Proof.
  intros u Hu _ b Hb. apply st32_untouched. pose proof (pl_tss_thread HP u Hu).
  unfold apart, range, tss_esp0, sizeof_Thread, sizeof_TSS_ENTRY in *. lia.
Qed.

(** Marking the chosen thread as running. *)
Lemma mark_running_spec next idle R S k (Q : unit -> kernel -> Prop) :
  sched_rep (k_mem k) R S -> next ∈ T ->
  (forall m', sched_rep m' R S -> kept [next] (k_mem k) m' ->
     (next <> idle -> status m' next = RUNNING) -> (next = idle -> m' = k_mem k) ->
     untouched sched_bytes (k_mem k) m' -> (forall X, links_kept X (k_mem k) m') -> Q tt (set_mem m' k)) ->
  wp (when (negb (next =? idle)) (store32 (thread_status next) RUNNING)) k Q.
Proof.
  intros HR Hn HQ. destruct (pl_mapped HP next Hn) as [M1 M2]. unfold sizeof_Thread in M2.
  apply wp_when; intros Hb.
  - unfold thread_status at 1. eapply wp_access; [lia | lia | reflexivity | cbv beta].
    change (next + 16) with (thread_status next). apply HQ.
    + eapply field_store_rep; [exact Hn | | apply st32_untouched | exact HR].
      unfold range, thread_status. intros; lia.
    + by apply status_store_kept.
    + intros _. unfold status. by rewrite ld32_st32_eq.
    + intros ->. by rewrite Z.eqb_refl in Hb.
    + eapply untouched_mono; [|apply st32_untouched]. intros b Hr. right. exists next.
      split; [done|]. unfold range, thread_status in *. lia.
    + intros X. eapply (field_store_links next); [done | | apply st32_untouched]. unfold range, thread_status. intros; lia.
  - apply negb_false_iff, Z.eqb_eq in Hb. specialize (HQ (k_mem k)). destruct k.
    by apply HQ.
Qed.

Lemma load_field off t W m k (Q : Z -> kernel -> Prop) :
  t ∈ T -> kept W m (k_mem k) -> 8 <= off -> off + 4 <= 36 -> off <> 16 -> (off <= 12 \/ 20 <= off) ->
  Q (ld32 m (t + off)) k -> wp (load32 (t + off)) k Q.
Proof.
  intros Ht HK H1 H2 H3 H4 HQ. destruct (pl_mapped HP t Ht) as [M1 M2]. unfold sizeof_Thread in M2.
  eapply wp_access; [lia | lia | reflexivity | cbv beta].
  rewrite (ld32_agree m (k_mem k)); [done|]. eapply kept_agree; [exact HK | done | lia | lia | lia].
Qed.

(** Who may be chosen. *)
Lemma requeued_in cur idle R S m u : sched_rep m R S -> cur ∈ T -> idle ∉ R ++ S -> status m idle <> RUNNING ->
  u ∈ requeued m cur R -> u ∈ T /\ u <> idle.
Proof.
  intros HR HcT Hi Hsi Hu. unfold requeued in Hu. rewrite elem_of_app in Hi.
  assert (Hold : u ∈ R -> u ∈ T /\ u <> idle).
  { intros Hx. split; [apply (sr_threads _ _ _ HR); rewrite elem_of_app; auto | intros ->; tauto]. }
  destruct (Z.eqb_spec (status m cur) RUNNING) as [E|]; [|auto].
  apply elem_of_app in Hu as [Hu|Hu%list_elem_of_singleton]; [auto|]. subst u. split; [done | intros ->; done].
Qed.

(** The idle thread is chosen when no other is ready. *)
Lemma choose_idle_spec idle l k (Q : unit -> kernel -> Prop) :
  idle_thread (k_sched k) = idle -> (forall u, u ∈ l -> u ∈ T) ->
  Q tt (set_sched (with_cur (hd idle l) (k_sched k)) k) ->
  wp (when (hd NULL l =? NULL) (idle0 ← gets (fun k => idle_thread (k_sched k)); set_cur_thread idle0))
    (set_sched (with_cur (hd NULL l) (k_sched k)) k) Q.
Proof.
  intros Hidle Hl HQ. destruct l as [|t l]; cbn [hd] in *.
  - cbn [Z.eqb when NULL]. apply wp_bind, wp_gets. cbn [k_sched set_sched with_cur idle_thread]. rewrite Hidle. by apply wp_modify.
  - destruct (pl_mapped HP t ltac:(by apply Hl; left)) as [T1 _].
    destruct (Z.eqb_spec t NULL); [unfold NULL, KERNEL_VIRTUAL_BASE in *; lia | by apply wp_ret].
Qed.

Lemma install_space_spec m cur next k (Q : unit -> kernel -> Prop) :
  Q tt (set_cpu (switched_cpu m cur next (k_cpu k)) k) ->
  wp (when (negb (ld32 m (next + 32) =? ld32 m (cur + 32))) (refresh_cr3 (ld32 m (next + 32)))) k Q.
Proof.
  intros HQ. unfold switched_cpu, thread_pd in HQ. destruct (ld32 m (next + 32) =? ld32 m (cur + 32)); cbn [negb when];
    [apply wp_ret | apply wp_modify]; [|exact HQ]. destruct k; exact HQ.
Qed.

(** The memories on the way through [pick_thread]: the running thread is queued,
    the next one taken off the queue and marked, the TSS set. *)
Lemma picked_intro cur idle R S m m1 m2 m3 v :
  let next := hd idle (requeued m cur R) in
  cur ∈ T -> idle ∈ T -> status m idle <> RUNNING -> kept [cur] m m1 -> status m1 cur = (if status m cur =? RUNNING then RUNNABLE else status m cur) -> kept [] m1 m2 ->
  kept [next] m2 m3 -> (next <> idle -> status m3 next = RUNNING) -> (next = idle -> m3 = m2) -> next ∈ T ->
  sched_rep m3 (tail (requeued m cur R)) S -> kept [cur; next] m m3 ->
  v = u32 (ld32 m (thread_stack next) + 0x1000) ->
  untouched sched_bytes m m1 -> untouched sched_bytes m1 m2 -> untouched sched_bytes m2 m3 ->
  links_kept (requeued m cur R) m m3 -> picked cur idle next R S m (st32 m3 (tss_esp0 tss) v).
Proof.
  intros next HcT HiT Hsi K1 S1 K2 K3 S3 I3 HnT R3 K03 -> B1 B2 B3 L3.
  set (m4 := st32 _ _ _). assert (K34 : kept [] m3 m4) by apply tss_store_kept.
  assert (Hcur : next <> cur -> status m4 cur = status m1 cur).
  { intros Hne. rewrite (kept_status _ _ _ _ K34) by (done || apply not_elem_of_nil).
    rewrite (kept_status _ _ _ _ K3); [|done | rewrite list_elem_of_singleton; congruence].
    apply (kept_status _ _ _ _ K2); [done | apply not_elem_of_nil]. }
  split; try done.
  - by apply tss_store_rep.
  - intros Hne. rewrite (kept_status _ _ _ _ K34); [by apply S3 | done | apply not_elem_of_nil].
  - intros Hrun Hne. by rewrite Hcur, S1, Hrun.
  - intros Hrun Hne. rewrite Hcur, S1 by done. by destruct (Z.eqb_spec (status m cur) RUNNING).
  - rewrite (kept_status _ _ _ _ K34) by (done || apply not_elem_of_nil).
    assert (status m3 idle = status m2 idle) as ->.
    { destruct (decide (next = idle)) as [E|E]; [by rewrite (I3 E)|].
      apply (kept_status _ _ _ _ K3); [done|]. rewrite list_elem_of_singleton. congruence. }
    rewrite (kept_status _ _ _ _ K2) by (done || apply not_elem_of_nil).
    destruct (decide (cur = idle)) as [->|E]; [by rewrite S1; destruct (Z.eqb_spec (status m idle) RUNNING)|].
    apply (kept_status _ _ _ _ K1); [done|]. rewrite list_elem_of_singleton. congruence.
  - eapply kept_trans; [exact K03|]. eapply kept_mono; [|exact K34]. intros u Hu. by apply elem_of_nil in Hu.
  - unfold m4. rewrite ld32_st32_eq. apply u32_small, u32_range.
  - repeat (eapply untouched_trans; [eapply untouched_mono; [|eassumption]; by left|]).
    eapply untouched_mono; [|apply st32_untouched]. by right.
  - eapply links_kept_trans; [exact L3 | apply tss_store_links].
Qed.

Lemma pick_thread_spec cur idle R S k :
  sched_rep (k_mem k) R S -> cur_thread (k_sched k) = cur -> idle_thread (k_sched k) = idle ->
  cur ∈ T -> idle ∈ T -> (status (k_mem k) cur = RUNNING -> cur ∉ R ++ S) ->
  idle ∉ R ++ S -> status (k_mem k) idle <> RUNNING ->
  wp pick_thread k (fun r k' => exists next m', r = (cur, next) /\
    picked cur idle next R S (k_mem k) m' /\ next ∈ T /\
    k' = set_cpu (switched_cpu (k_mem k) cur next (k_cpu k))
           (set_sched (with_cur next (k_sched k)) (set_mem m' k))).
Proof.
  intros HR Hcur Hidle HcT HiT Hc Hi Hsi. set (m := k_mem k) in *. set (R' := requeued m cur R).
  assert (HR'T : forall u, u ∈ R' -> u ∈ T) by (intros u Hu; by apply (requeued_in cur idle R S m u)).
  set (next := hd idle R').
  assert (HnT : next ∈ T) by (unfold next; destruct R' as [|t l]; [done | apply HR'T; left]).
  unfold pick_thread, get_cur_thread. apply wp_bind, wp_gets. rewrite Hcur.
  destruct (pl_mapped HP cur HcT) as [M1 M2]. unfold sizeof_Thread in M2.
  apply wp_bind. unfold thread_status at 1. eapply wp_access; [lia | lia | reflexivity | cbv beta].
  change (ld32 (k_mem k) (cur + 16)) with (status m cur).
  apply wp_bind. eapply requeue_spec; [exact HR | done | done |]. intros m1 R1 K1 S1 B1 L1.
  fold m in R1, K1, S1, B1, L1. fold R' in R1, L1. apply wp_bind, wp_gets. cbn [k_sched set_mem]. rewrite Hcur.
  apply wp_bind. eapply get_next_thread_spec; [exact R1|]. intros m2 R2 K2 B2 L2. cbn [k_mem set_mem] in *.
  apply wp_bind, wp_modify. cbv beta. apply wp_bind.
  apply (choose_idle_spec idle R' (set_mem m2 (set_mem m1 k))); [exact Hidle | exact HR'T |].
  do 2 (apply wp_bind, wp_gets). cbn [k_sched set_sched set_mem with_cur cur_thread idle_thread].
  rewrite Hidle. apply wp_bind.
  eapply mark_running_spec; [exact R2 | done |]. intros m3 R3 K3 S3 I3 B3 L3. cbn [k_mem set_mem set_sched] in *.
  assert (K03 : kept [cur; next] m m3).
  { eapply kept_trans; [|eapply kept_mono; [|exact K3]]; [eapply kept_trans; eapply kept_mono; [|exact K1| |exact K2]|]; intros u Hu;
      [apply list_elem_of_singleton in Hu as ->; left | by apply elem_of_nil in Hu | apply list_elem_of_singleton in Hu as ->; right; left]. }
  apply wp_bind. eapply (load_field 32 next); [done | exact K03 | lia | lia | lia | lia |].
  apply wp_bind. eapply (load_field 32 cur); [done | exact K03 | lia | lia | lia | lia |].
  apply wp_bind, install_space_spec.
  apply wp_bind. eapply (load_field 12 next); [done | exact K03 | lia | lia | lia | lia |].
  destruct (pl_tss HP) as [T1 T2]. unfold sizeof_TSS_ENTRY in T2.
  apply wp_bind. unfold tss_esp0 at 1. eapply wp_access; [lia | lia | reflexivity | cbv beta].
  apply wp_ret. change (tss + 4) with (tss_esp0 tss). eexists next, _. split_and!; [done | | done | reflexivity].
  eapply (picked_intro cur idle R S m m1 m2 m3); try done.
  eapply links_kept_trans; [exact L1|]. eapply links_kept_trans; [exact L2 | apply L3].
Qed.
End sched.
