(* ===== verification/Switch.v ===== *)
(** * The context switch: src/sched/context_switch.asm

    A thread that is not running is a frame on its stack: the registers [pusha]
    saved and the address to return to.  [context_switch] turns the running
    thread into such a frame and another thread's frame into the running state. *)

From Stdlib Require Import ZArith Lia Bool.
From stdpp Require Import base list gmap.
From S2P Require Import Prelude Machine Console Queue Sched.

(** ** Frames *)

(** The nine words at [sp]: edi, esi, ebp, (esp), ebx, edx, ecx, eax, return
    address; [gs] in the order of [gprs]. *)
Definition frame (m : memory) (sp : Z) (gs : list Z) (eip : Z) : Prop :=
  gs = [ld32 m (sp + 28); ld32 m (sp + 24); ld32 m (sp + 20); ld32 m (sp + 16);
        ld32 m (sp + 8); ld32 m (sp + 4); ld32 m sp] /\
  ld32 m (sp + 32) = eip.

Lemma frame_agree m m' sp gs eip : frame m sp gs eip -> agree m m' sp 36 -> frame m' sp gs eip.
Proof.
  intros [-> <-] Ha. split; [|apply ld32_agree; eapply agree_sub; [exact Ha | lia..]].
  rewrite !(ld32_agree m m') by (eapply agree_sub; [exact Ha | lia..]). done.
Qed.

(** The CPU with the registers [gs] and stack pointer [sp]. *)
Definition running (k : kernel) (gs : list Z) (sp : Z) : Prop :=
  gprs (k_cpu k) = gs /\ esp (k_cpu k) = sp /\ length gs = 7%nat /\ Forall (fun v => 0 <= v < 2 ^ 32) gs.

Lemma push32_spec v k (Q : unit -> kernel -> Prop) :
  KERNEL_VIRTUAL_BASE + 4 <= esp (k_cpu k) <= 2 ^ 32 - 1 ->
  Q tt (set_cpu (set_regs (esp (k_cpu k) - 4) (gprs (k_cpu k)) (k_cpu k))
          (set_mem (st32 (k_mem k) (esp (k_cpu k) - 4) v) k)) ->
  wp (push32 v) k Q.
Proof.
  intros Hs HQ. unfold KERNEL_VIRTUAL_BASE in Hs. unfold push32. apply wp_bind, wp_gets.
  rewrite u32_small by lia. apply wp_bind.
  eapply wp_access; [unfold KERNEL_VIRTUAL_BASE; lia | lia | reflexivity | cbv beta]. by apply wp_modify.
Qed.

Lemma pop32_spec k (Q : Z -> kernel -> Prop) :
  KERNEL_VIRTUAL_BASE <= esp (k_cpu k) -> esp (k_cpu k) + 4 < 2 ^ 32 ->
  Q (ld32 (k_mem k) (esp (k_cpu k)))
    (set_cpu (set_regs (esp (k_cpu k) + 4) (gprs (k_cpu k)) (k_cpu k)) k) ->
  wp pop32 k Q.
Proof.
  intros H1 H2 HQ. unfold KERNEL_VIRTUAL_BASE in H1. unfold pop32. apply wp_bind, wp_gets.
  apply wp_bind. eapply wp_access; [unfold KERNEL_VIRTUAL_BASE; lia | lia | reflexivity | cbv beta].
  apply wp_bind, wp_modify, wp_ret. by rewrite u32_small by lia.
Qed.

Ltac regs := cbn [k_cpu set_cpu set_regs esp gprs set_mem k_mem].

(** [pusha] leaves the frame of the running thread, but for its return address,
    which the caller pushed. *)
Lemma pusha_spec k gs sp (Q : unit -> kernel -> Prop) :
  running k gs sp -> KERNEL_VIRTUAL_BASE + 32 <= sp -> sp + 4 <= 2 ^ 32 ->
  (forall m', untouched (range (sp - 32) 32) (k_mem k) m' ->
     frame m' (sp - 32) gs (ld32 (k_mem k) sp) ->
     Q tt (set_cpu (set_regs (sp - 32) gs (k_cpu k)) (set_mem m' k))) ->
  wp pusha k Q.
Proof.
  intros (Hg & Hs & Hl & Hr) H1 H2 HQ. unfold KERNEL_VIRTUAL_BASE in H1.
  destruct gs as [|g0 [|g1 [|g2 [|g3 [|g4 [|g5 [|g6 [|? ?]]]]]]]]; try done. clear Hl.
  repeat match goal with H : Forall _ (_ :: _) |- _ => apply Forall_cons in H as [? H] end.
  unfold pusha, reg. apply wp_bind, wp_gets. rewrite Hs. apply wp_bind. apply (wp_gets (fun k => k)).
  cbv beta. rewrite Hg. cbn [nth].
  do 7 (apply wp_bind; apply push32_spec; [regs; rewrite ?Hs; unfold KERNEL_VIRTUAL_BASE; lia|]; regs; rewrite ?Hs).
  apply push32_spec; [regs; rewrite ?Hs; unfold KERNEL_VIRTUAL_BASE; lia|]; regs. rewrite Hg.
  replace (sp - 4 - 4) with (sp - 8) by lia. replace (sp - 8 - 4) with (sp - 12) by lia.
  replace (sp - 12 - 4) with (sp - 16) by lia. replace (sp - 16 - 4) with (sp - 20) by lia.
  replace (sp - 20 - 4) with (sp - 24) by lia. replace (sp - 24 - 4) with (sp - 28) by lia.
  replace (sp - 28 - 4) with (sp - 32) by lia. set (m' := st32 _ _ _).
  apply (HQ m').
  - unfold m'. intros b Hb. unfold range in Hb. mem_simp. done.
  - unfold frame, m'. split; [|by replace (sp - 32 + 32) with sp by lia; mem_simp].
    replace (sp - 32 + 28) with (sp - 4) by lia. replace (sp - 32 + 24) with (sp - 8) by lia.
    replace (sp - 32 + 20) with (sp - 12) by lia. replace (sp - 32 + 16) with (sp - 16) by lia.
    replace (sp - 32 + 8) with (sp - 24) by lia. replace (sp - 32 + 4) with (sp - 28) by lia.
    by mem_simp.
Qed.

Lemma popa_spec k gs sp eip (Q : unit -> kernel -> Prop) :
  esp (k_cpu k) = sp -> frame (k_mem k) sp gs eip ->
  KERNEL_VIRTUAL_BASE <= sp -> sp + 32 < 2 ^ 32 ->
  Q tt (set_cpu (set_regs (sp + 32) gs (k_cpu k)) k) ->
  wp popa k Q.
Proof.
  intros Hs [-> _] H1 H2 HQ. unfold popa, KERNEL_VIRTUAL_BASE in *.
  do 8 (apply wp_bind; apply pop32_spec;
    [regs; rewrite ?Hs; unfold KERNEL_VIRTUAL_BASE; lia | regs; rewrite ?Hs; lia|]; regs; rewrite ?Hs).
  apply wp_modify. regs.
  repeat match goal with |- context [sp + ?a + ?b] =>
    replace (sp + a + b) with (sp + (a + b)) by lia; let v := eval vm_compute in (a + b) in change (a + b) with v end.
  exact HQ.
Qed.

(** ** The switch *)

(** The stacks and the cells of the two threads: the frame to be written below
    [sp], the frame at [nsp], the cells [old] and [new]. *)
Record switch_ok (m : memory) (old new sp nsp : Z) : Prop := {
  sw_sp : KERNEL_VIRTUAL_BASE + 32 <= sp /\ sp + 4 <= 2 ^ 32;
  sw_nsp : KERNEL_VIRTUAL_BASE <= nsp /\ nsp + 36 < 2 ^ 32;
  sw_old : KERNEL_VIRTUAL_BASE <= old /\ old + 4 <= 2 ^ 32;
  sw_new : KERNEL_VIRTUAL_BASE <= new /\ new + 4 <= 2 ^ 32 /\ ld32 m new = nsp;
  sw_frames : sp + 4 <= nsp \/ nsp + 36 <= sp - 32;
  sw_cells : old + 4 <= new \/ new + 4 <= old;
  sw_old_cell : (old + 4 <= sp - 32 \/ sp + 4 <= old) /\ (old + 4 <= nsp \/ nsp + 36 <= old);
  sw_new_cell : new + 4 <= sp - 32 \/ sp + 4 <= new }.

(** The registers as the switch saves them: the two caller-saved registers that
    carry its arguments are overwritten. *)
Definition saved_regs (old new : Z) (gs : list Z) : list Z := <[1%nat := old]> (<[2%nat := new]> gs).

Lemma context_switch_spec old new k gs sp gs' nsp eip' (Q : Z -> kernel -> Prop) :
  running k gs sp -> switch_ok (k_mem k) old new sp nsp -> frame (k_mem k) nsp gs' eip' ->
  (forall m', untouched (fun b => range (sp - 32) 32 b \/ range old 4 b) (k_mem k) m' ->
     ld32 m' old = sp - 32 -> frame m' (sp - 32) (saved_regs old new gs) (ld32 (k_mem k) sp) ->
     Q eip' (set_cpu (set_regs (nsp + 36) gs' (k_cpu k)) (set_mem m' k))) ->
  wp (context_switch old new) k Q.
Proof.
  intros (Hg & Hs & Hl & Hr) [[A1 A2] [B1 B2] [C1 C2] (D1 & D2 & D3) E1 E2 [E3 E4] E5] HF HQ.
  unfold KERNEL_VIRTUAL_BASE in *. unfold context_switch. apply wp_bind, wp_modify. rewrite Hg, Hs.
  fold (saved_regs old new gs). set (k1 := set_cpu _ k).
  assert (Hrun : running k1 (saved_regs old new gs) sp).
  { split_and!; [done | done | by unfold saved_regs; rewrite !length_insert |].
    unfold saved_regs. apply Forall_insert; [apply Forall_insert; [done | lia] | lia]. }
  apply wp_bind. eapply pusha_spec; [exact Hrun | unfold KERNEL_VIRTUAL_BASE; lia | lia |].
  intros m1 U1 F1. apply wp_bind, wp_gets. regs. cbn [k_mem set_cpu k1] in U1, F1.
  apply wp_bind. eapply wp_access; [unfold KERNEL_VIRTUAL_BASE; lia | lia | reflexivity | cbv beta].
  set (m2 := st32 _ _ _). assert (U2 : untouched (range old 4) m1 m2) by apply st32_untouched.
  assert (U02 : untouched (fun b => range (sp - 32) 32 b \/ range old 4 b) (k_mem k) m2).
  { eapply untouched_trans; eapply untouched_mono; [|exact U1| |exact U2]; auto. }
  apply wp_bind. eapply wp_access; [unfold KERNEL_VIRTUAL_BASE; lia | lia | reflexivity | cbv beta].
  regs. assert (ld32 m2 new = nsp) as ->.
  { rewrite <- D3. apply ld32_agree. eapply untouched_agree; [exact U02|]. unfold range. lia. }
  assert (F2 : frame m2 nsp gs' eip').
  { eapply frame_agree; [exact HF|]. eapply untouched_agree; [exact U02|]. unfold range. lia. }
  apply wp_bind, wp_modify. apply wp_bind.
  apply (popa_spec _ gs' nsp eip'); [reflexivity | exact F2 | unfold KERNEL_VIRTUAL_BASE; lia | lia |].
  apply pop32_spec; regs; [unfold KERNEL_VIRTUAL_BASE; lia | lia |].
  rewrite (proj2 F2). replace (nsp + 32 + 4) with (nsp + 36) by lia. apply (HQ m2).
  - exact U02.
  - unfold m2. rewrite ld32_st32_eq. apply u32_small. lia.
  - eapply frame_agree; [exact F1|]. eapply untouched_agree; [exact U2|]. unfold range. lia.
Qed.

(** A switch from a thread to itself: it goes on where it was, with the two
    argument registers overwritten. *)
Lemma context_switch_self_spec a k gs sp (Q : Z -> kernel -> Prop) :
  running k gs sp -> KERNEL_VIRTUAL_BASE + 32 <= sp -> sp + 4 < 2 ^ 32 ->
  KERNEL_VIRTUAL_BASE <= a -> a + 4 <= 2 ^ 32 -> a + 4 <= sp - 32 \/ sp + 4 <= a ->
  (forall m', untouched (fun b => range (sp - 32) 32 b \/ range a 4 b) (k_mem k) m' ->
     Q (ld32 (k_mem k) sp) (set_cpu (set_regs (sp + 4) (saved_regs a a gs) (k_cpu k)) (set_mem m' k))) ->
  wp (context_switch a a) k Q.
Proof.
  intros (Hg & Hs & Hl & Hr) A1 A2 C1 C2 E1 HQ.
  unfold KERNEL_VIRTUAL_BASE in *. unfold context_switch. apply wp_bind, wp_modify. rewrite Hg, Hs.
  fold (saved_regs a a gs). set (k1 := set_cpu _ k).
  assert (Hrun : running k1 (saved_regs a a gs) sp).
  { split_and!; [done | done | by unfold saved_regs; rewrite !length_insert |].
    unfold saved_regs. apply Forall_insert; [apply Forall_insert; [done | lia] | lia]. }
  apply wp_bind. eapply pusha_spec; [exact Hrun | unfold KERNEL_VIRTUAL_BASE; lia | lia |].
  intros m1 U1 F1. apply wp_bind, wp_gets. regs. cbn [k_mem set_cpu k1] in U1, F1.
  apply wp_bind. eapply wp_access; [unfold KERNEL_VIRTUAL_BASE; lia | lia | reflexivity | cbv beta].
  set (m2 := st32 _ _ _). assert (U2 : untouched (range a 4) m1 m2) by apply st32_untouched.
  apply wp_bind. eapply wp_access; [unfold KERNEL_VIRTUAL_BASE; lia | lia | reflexivity | cbv beta].
  regs. assert (ld32 m2 a = sp - 32) as -> by (unfold m2; rewrite ld32_st32_eq; apply u32_small; lia).
  assert (F2 : frame m2 (sp - 32) (saved_regs a a gs) (ld32 (k_mem k) sp)).
  { eapply frame_agree; [exact F1|]. eapply untouched_agree; [exact U2|]. unfold range. lia. }
  apply wp_bind, wp_modify. apply wp_bind.
  apply (popa_spec _ (saved_regs a a gs) (sp - 32) (ld32 (k_mem k) sp));
    [reflexivity | exact F2 | unfold KERNEL_VIRTUAL_BASE; lia | lia |].
  apply pop32_spec; regs; [unfold KERNEL_VIRTUAL_BASE; lia | lia |].
  rewrite (proj2 F2). replace (sp - 32 + 32 + 4) with (sp + 4) by lia. apply (HQ m2).
  eapply untouched_trans; eapply untouched_mono; [|exact U1| |exact U2]; auto.
Qed.

(** ** Fresh threads *)

Lemma push_words_spec vs : forall sp k (Q : Z -> kernel -> Prop),
  KERNEL_VIRTUAL_BASE + 4 * Z.of_nat (length vs) <= sp -> sp <= 2 ^ 32 ->
  Forall (fun v => 0 <= v < 2 ^ 32) vs ->
  (forall m', untouched (range (sp - 4 * Z.of_nat (length vs)) (4 * Z.of_nat (length vs))) (k_mem k) m' ->
     (forall i v, vs !! i = Some v -> ld32 m' (sp - 4 * (Z.of_nat i + 1)) = v) ->
     Q (sp - 4 * Z.of_nat (length vs)) (set_mem m' k)) ->
  wp (push_words sp vs) k Q.
Proof.
  unfold KERNEL_VIRTUAL_BASE.
  induction vs as [|v vs IH]; intros sp k Q H1 H2 Hv HQ; cbn [push_words length] in *.
  - apply wp_ret. specialize (HQ (k_mem k)). rewrite Z.sub_0_r in HQ. destruct k. apply HQ; done.
  - apply Forall_cons in Hv as [Hv Hvs]. rewrite Nat2Z.inj_succ in *. rewrite u32_small by lia.
    apply wp_bind. eapply wp_access; [unfold KERNEL_VIRTUAL_BASE; lia | lia | reflexivity | cbv beta].
    apply IH; [lia | lia | done |]. cbn [k_mem set_mem]. intros m' U' W'.
    replace (sp - 4 - 4 * Z.of_nat (length vs)) with (sp - 4 * Z.succ (Z.of_nat (length vs))) in * by lia.
    apply (HQ m').
    + eapply untouched_trans; eapply untouched_mono; [|apply st32_untouched| |exact U'];
        unfold range; intros b Hb; lia.
    + intros [|i] w Hw; cbn in Hw.
      * injection Hw as <-. rewrite (ld32_agree (st32 (k_mem k) (sp - 4) v) m').
        -- replace (sp - 4 * (Z.of_nat 0 + 1)) with (sp - 4) by lia. rewrite ld32_st32_eq. by apply u32_small.
        -- eapply untouched_agree; [exact U'|]. unfold range. lia.
      * rewrite <- (W' i w Hw). f_equal. lia.
Qed.

(** A stack may end where the address space does. *)
Lemma push_words_top sp v vs : push_words (u32 sp) (v :: vs) = push_words sp (v :: vs).
Proof. cbn [push_words]. replace (u32 (u32 sp - 4)) with (u32 (sp - 4)) by word_lia. done. Qed.

(** The frame of a new kernel thread. *)
Lemma fresh_stack_spec `{SchedSymbols} thread entry arg top k :
  KERNEL_VIRTUAL_BASE + 52 <= top -> top <= 2 ^ 32 ->
  0 <= thread < 2 ^ 32 -> 0 <= entry < 2 ^ 32 -> 0 <= arg < 2 ^ 32 -> 0 <= kthread_stub_addr < 2 ^ 32 ->
  wp (push_words top (fresh_stack thread arg entry)) k
    (fun sp k' => exists m', k' = set_mem m' k /\ sp = top - 52 /\
      frame m' sp [0; 0; 0; 0; 0; 0; 0] kthread_stub_addr /\
      [ld32 m' (sp + 36); ld32 m' (sp + 40); ld32 m' (sp + 44); ld32 m' (sp + 48)] = [0; entry; arg; thread] /\
      untouched (range sp 52) (k_mem k) m').
Proof.
  intros H1 H2 H3 H4 H5 H6. unfold fresh_stack. apply push_words_spec; cbn [length].
  - change (4 * Z.of_nat 13) with 52. lia.
  - done.
  - repeat constructor; lia.
  - change (4 * Z.of_nat 13) with 52. intros m' U' W'. exists m'. split; [done|]. split; [done|].
    assert (HW : forall i v, ([thread; arg; entry; 0; kthread_stub_addr; 0; 0; 0; 0; 0; 0; 0; 0] !! i) = Some v ->
      ld32 m' (top - 52 + (48 - 4 * Z.of_nat i)) = v).
    { intros i v Hi. rewrite <- (W' i v Hi). f_equal. lia. }
    pose proof (HW 0%nat thread eq_refl : ld32 m' (top - 52 + 48) = thread) as W0.
    pose proof (HW 1%nat arg eq_refl : ld32 m' (top - 52 + 44) = arg) as W1.
    pose proof (HW 2%nat entry eq_refl : ld32 m' (top - 52 + 40) = entry) as W2.
    pose proof (HW 3%nat 0 eq_refl : ld32 m' (top - 52 + 36) = 0) as W3.
    pose proof (HW 4%nat kthread_stub_addr eq_refl : ld32 m' (top - 52 + 32) = kthread_stub_addr) as W4.
    pose proof (HW 5%nat 0 eq_refl : ld32 m' (top - 52 + 28) = 0) as W5.
    pose proof (HW 6%nat 0 eq_refl : ld32 m' (top - 52 + 24) = 0) as W6.
    pose proof (HW 7%nat 0 eq_refl : ld32 m' (top - 52 + 20) = 0) as W7.
    pose proof (HW 8%nat 0 eq_refl : ld32 m' (top - 52 + 16) = 0) as W8.
    pose proof (HW 10%nat 0 eq_refl : ld32 m' (top - 52 + 8) = 0) as W10.
    pose proof (HW 11%nat 0 eq_refl : ld32 m' (top - 52 + 4) = 0) as W11.
    pose proof (HW 12%nat 0 eq_refl : ld32 m' (top - 52 + 0) = 0) as W12.
    rewrite Z.add_0_r in W12.
    unfold frame. by rewrite W0, W1, W2, W3, W4, W5, W6, W7, W8, W10, W11, W12.
Qed.

(** ** The properties *)

(** C23: [context_switch] resumes the other thread exactly where its frame says
    (registers, stack pointer, return address), and leaves the running thread as
    a frame; when that thread is later switched back to, its stack untouched, it
    resumes after its call with its stack pointer and every callee-saved register
    restored. *)
Theorem context_switch_roundtrip a b k ga spa gb nspb eipb :
  running k ga spa -> switch_ok (k_mem k) a b spa nspb -> frame (k_mem k) nspb gb eipb ->
  wp (context_switch a b) k (fun r k1 =>
    r = eipb /\ gprs (k_cpu k1) = gb /\ esp (k_cpu k1) = nspb + 36 /\
    forall k2 g2 sp2,
      running k2 g2 sp2 -> switch_ok (k_mem k2) b a sp2 (spa - 32) ->
      agree (k_mem k1) (k_mem k2) (spa - 32) 36 ->
      wp (context_switch b a) k2 (fun r' k3 =>
        r' = ld32 (k_mem k) spa /\ esp (k_cpu k3) = spa + 4 /\
        (forall i, i <> 1%nat -> i <> 2%nat -> gprs (k_cpu k3) !! i = ga !! i))).
Proof.
  intros HR HS HF. eapply context_switch_spec; [exact HR | exact HS | exact HF |].
  intros m1 U1 C1 F1. split_and!; [done | done | done |]. intros k2 g2 sp2 HR2 HS2 HA.
  eapply context_switch_spec; [exact HR2 | exact HS2 | eapply frame_agree; [exact F1 | exact HA] |].
  intros m3 _ _ _. split_and!; [done | regs; lia |]. intros i H1 H2. regs. unfold saved_regs.
  by rewrite !list_lookup_insert_ne by congruence.
Qed.

(** The stack [thread_create] prepares is a frame that resumes at
    [kthread_stub] with zeroed registers and, above the return address, the
    arguments entry, arg and thread in C calling order. *)
Theorem fresh_stack_correct `{SchedSymbols} thread entry arg top k :
  KERNEL_VIRTUAL_BASE + 52 <= top -> top <= 2 ^ 32 ->
  0 <= thread < 2 ^ 32 -> 0 <= entry < 2 ^ 32 -> 0 <= arg < 2 ^ 32 -> 0 <= kthread_stub_addr < 2 ^ 32 ->
  wp (push_words top (fresh_stack thread arg entry)) k
    (fun sp k' => exists m', k' = set_mem m' k /\ sp = top - 52 /\
      frame m' sp [0; 0; 0; 0; 0; 0; 0] kthread_stub_addr /\
      [ld32 m' (sp + 36); ld32 m' (sp + 40); ld32 m' (sp + 44); ld32 m' (sp + 48)] = [0; entry; arg; thread] /\
      untouched (range sp 52) (k_mem k) m').
Proof. apply fresh_stack_spec. Qed.
