(* ===== verification/SchedTheorems.v ===== *)
(** * Scheduling: the whole of [scheduler], [timer]'s wake-ups and [thread_sleep] *)

From Stdlib Require Import ZArith Lia Bool Sorted.
From stdpp Require Import base list gmap strings.
From S2P Require Import Prelude Machine StringLib Console Node Queue Bump Buddy Devices Descriptors Heap Sched SchedModel Switch.

Section theorems.
Context `{BS : BuddySymbols} `{HS : HeapSymbols} `{TS : TableSymbols} `{SS : SchedSymbols}.
Context (T : list Z) (HP : placed T).
Local Abbreviation sched_rep := (sched_rep T).
Local Abbreviation picked := (picked T).

(** Memory that is no part of the scheduler's data. *)
Definition off_sched (a n : Z) : Prop :=
  forall b, range a n b -> ~ sched_bytes T b /\ ~ range (tss_esp0 tss) 4 b.

(** A thread [t] that is switched out: its saved stack pointer, registers and
    return address. *)
Record suspended (m : memory) (t sp : Z) (gs : list Z) (eip : Z) : Prop := {
  su_esp : ld32 m (thread_esp t) = sp;
  su_frame : frame m sp gs eip;
  su_mapped : KERNEL_VIRTUAL_BASE <= sp /\ sp + 36 < 2 ^ 32;
  su_off : off_sched sp 36 }.

(** Globals after a switch from [cur], whose flag was [b], to [next]. *)
Definition switched_globals (cur next : Z) (b : bool) (s : sched_globals) : sched_globals :=
  MkSched (ticks s) (tick_rate s) next (idle_thread s) (thread_id s) (reaper s) (<[cur := b]> (saved_if s)).

(** What [scheduler] does when it leaves [cur], which runs with registers [gs] on
    stack pointer [sp], for [next], suspended with [gs'] and [eip']. *)
Record rescheduled (cur idle next sp : Z) (gs gs' : list Z) (nsp : Z) (R S : list Z) (k k' : kernel) : Prop := {
  rs_picked : exists m1, picked cur idle next R S (k_mem k) m1 /\
    untouched (fun b => range (sp - 32) 32 b \/ range (thread_esp cur) 4 b) m1 (k_mem k');
  rs_rep : sched_rep (k_mem k') (tail (requeued (k_mem k) cur R)) S;
  rs_globals : k_sched k' = switched_globals cur next (eflags_if (k_cpu k)) (k_sched k);
  rs_flag : eflags_if (k_cpu k') = default true (<[cur := eflags_if (k_cpu k)]> (saved_if (k_sched k)) !! next);
  rs_regs : gprs (k_cpu k') = gs' /\ esp (k_cpu k') = nsp + 36;
  rs_cr3 : cr3 (k_cpu k') = cr3 (switched_cpu (k_mem k) cur next (k_cpu k));
  rs_saved : suspended (k_mem k') cur (sp - 32) (saved_regs (thread_esp cur) (thread_esp next) gs) (ld32 (k_mem k) sp) }.

Lemma off_kept a n m m' :
  off_sched a n -> untouched (fun b => sched_bytes T b \/ range (tss_esp0 tss) 4 b) m m' -> agree m m' a n.
Proof. intros Ho Hu. eapply untouched_agree; [exact Hu|]. intros b Hb Hor. destruct (Ho b Hb). tauto. Qed.

Lemma thread_byte t b : t ∈ T -> range t 36 b -> sched_bytes T b.
Proof. intros Ht Hb. right. eauto. Qed.

(** The frame of the running thread and its [esp] field are outside the queues. *)
Lemma switch_keeps_rep m m' cur sp R S :
  cur ∈ T -> off_sched (sp - 32) 36 -> sched_rep m R S ->
  untouched (fun b => range (sp - 32) 32 b \/ range (thread_esp cur) 4 b) m m' -> sched_rep m' R S.
Proof.
  intros Hc Ho [Q1 Q2 Q3 Q4] Hu.
  assert (Hq : forall q l, q ∈ [que; sleep_que] -> (forall u, u ∈ l -> u ∈ T) -> queue m q l -> queue m' q l).
  { intros q l Hq Hl HQ. eapply queue_frame; [exact HQ| |].
    - eapply untouched_agree; [exact Hu|]. intros b Hb [Hr|Hr].
      + destruct (Ho b) as [Hn _]; [unfold range in *; lia|]. apply Hn. left. eauto.
      + pose proof (pl_que_thread T HP q cur (run_queue q Hq) Hc).
        unfold apart, range, thread_esp, sizeof_DLList, sizeof_Thread in *. lia.
    - intros a Ha. eapply untouched_agree; [exact Hu|]. intros b Hb [Hr|Hr].
      + destruct (Ho b) as [Hn _]; [unfold range in *; lia|]. apply Hn. apply (thread_byte a); [auto|]. unfold range in *. lia.
      + destruct (decide (a = cur)) as [->|Hne]; [unfold range, thread_esp in *; lia|].
        pose proof (pl_apart T HP a cur (Hl a Ha) Hc Hne).
        unfold apart, range, thread_esp, sizeof_Thread in *. lia. }
  split; try done; apply Hq; try done; try (left); try (right; left); intros u Hu'; apply Q4;
    rewrite elem_of_app; auto.
Qed.

(** The esp field of a thread is off any memory that is no part of the
    scheduler. *)
Lemma esp_cell_off t a n :
  t ∈ T -> off_sched a n -> 0 < n -> thread_esp t + 4 <= a \/ a + n <= thread_esp t.
Proof.
  intros Ht Ho Hn. destruct (Z.le_gt_cases (thread_esp t + 4) a); [by left|].
  destruct (Z.le_gt_cases (a + n) (thread_esp t)); [by right | exfalso].
  destruct (Ho (Z.max a (thread_esp t))) as [Hnb _]; [unfold range, thread_esp in *; lia|].
  apply Hnb. apply (thread_byte t); [done|]. unfold range, thread_esp in *. lia.
Qed.

Lemma scheduler_spec cur idle next R S k gs sp gs' nsp eip' :
  sched_rep (k_mem k) R S -> cur_thread (k_sched k) = cur -> idle_thread (k_sched k) = idle ->
  cur ∈ T -> idle ∈ T -> (status (k_mem k) cur = RUNNING -> cur ∉ R ++ S) ->
  idle ∉ R ++ S -> status (k_mem k) idle <> RUNNING ->
  next = hd idle (requeued (k_mem k) cur R) -> next <> cur ->
  running k gs sp -> off_sched (sp - 32) 36 -> KERNEL_VIRTUAL_BASE + 32 <= sp -> sp + 4 < 2 ^ 32 ->
  suspended (k_mem k) next nsp gs' eip' -> (sp + 4 <= nsp \/ nsp + 36 <= sp - 32) ->
  wp scheduler k (fun r k' => r = eip' /\ rescheduled cur idle next sp gs gs' nsp R S k k').
Proof.
  intros HR Hcur Hidle HcT HiT Hc Hi Hsi Hnext Hne Hrun Hoff Hsp1 Hsp2 [Su1 Su2 [Su3 Su4] Su5] Hap.
  unfold scheduler, ATOMIC_START, cli. apply wp_bind. apply wp_bind, wp_gets. apply wp_bind, wp_modify, wp_ret.
  set (k0 := set_cpu _ k). apply wp_bind.
  eapply wp_mono; [apply (pick_thread_spec T HP cur idle R S k0); done|].
  intros r k1 (next' & m1 & -> & HPk & HnT & ->). cbn [k_mem set_cpu k0] in HPk.
  assert (next' = next) as -> by (rewrite Hnext; apply (pk_next _ _ _ _ _ _ _ _ HPk)).
  apply wp_bind, wp_modify. apply wp_bind. cbn [k_sched set_cpu set_sched set_mem with_cur k_cpu k_mem k0].
  set (k2 := set_sched _ _).
  assert (Hcpu : gprs (k_cpu k2) = gs /\ esp (k_cpu k2) = sp).
  { destruct Hrun as (? & ? & _). unfold k2, k0, switched_cpu. cbn [k_cpu set_sched set_cpu set_mem].
    destruct (_ =? _); done. }
  assert (Hrun2 : running k2 gs sp) by (destruct Hrun as (? & ? & ? & ?); destruct Hcpu; done).
  assert (Hm2 : k_mem k2 = m1) by done.
  pose proof (pk_bytes _ _ _ _ _ _ _ _ HPk) as Hb. pose proof (pk_kept _ _ _ _ _ _ _ _ HPk) as HK.
  assert (Hret : ld32 m1 sp = ld32 (k_mem k) sp).
  { apply ld32_agree. eapply agree_sub; [exact (off_kept _ _ _ _ Hoff Hb) | lia | lia]. }
  destruct (pl_mapped T HP cur HcT) as [C1 C2]. destruct (pl_mapped T HP next HnT) as [N1 N2].
  pose proof (pl_apart T HP next cur HnT HcT Hne) as Hapt.
  pose proof (esp_cell_off cur _ _ HcT Hoff ltac:(lia)). pose proof (esp_cell_off cur _ _ HcT Su5 ltac:(lia)).
  pose proof (esp_cell_off next _ _ HnT Hoff ltac:(lia)).
  assert (Hsw : switch_ok (k_mem k2) (thread_esp cur) (thread_esp next) sp nsp).
  { rewrite Hm2. unfold apart, sizeof_Thread, thread_esp in *.
    split; unfold KERNEL_VIRTUAL_BASE in *; try lia. split; [lia|]. split; [lia|].
    rewrite <- Su1. apply ld32_agree. eapply kept_agree; [exact HK | done | lia | lia | lia]. }
  eapply context_switch_spec; [exact Hrun2 | exact Hsw | |].
  { rewrite Hm2. eapply frame_agree; [exact Su2|]. by apply off_kept. }
  rewrite Hm2. intros m3 U3 Ce3 F3. apply wp_bind, wp_gets. apply wp_bind, wp_modify, wp_ret.
  split; [done|]. rewrite Hret in F3. split.
  - exists m1. done.
  - eapply switch_keeps_rep; [exact HcT | exact Hoff | exact (pk_rep _ _ _ _ _ _ _ _ HPk) | exact U3].
  - done.
  - done.
  - done.
  - cbn. unfold switched_cpu. destruct (_ =? _); done.
  - split; [done | done | lia |]. intros b Hbb. apply Hoff. unfold range in *. lia.
Qed.

(** What [scheduler] does when the running thread is chosen again. *)
Record continued (cur idle sp : Z) (gs : list Z) (R S : list Z) (k k' : kernel) : Prop := {
  ct_picked : exists m1, picked cur idle cur R S (k_mem k) m1 /\
    untouched (fun b => range (sp - 32) 32 b \/ range (thread_esp cur) 4 b) m1 (k_mem k');
  ct_rep : sched_rep (k_mem k') (tail (requeued (k_mem k) cur R)) S;
  ct_globals : k_sched k' = switched_globals cur cur (eflags_if (k_cpu k)) (k_sched k);
  ct_cpu : k_cpu k' = set_regs (sp + 4) (saved_regs (thread_esp cur) (thread_esp cur) gs) (k_cpu k) }.

Lemma scheduler_self_spec cur idle R S k gs sp :
  sched_rep (k_mem k) R S -> cur_thread (k_sched k) = cur -> idle_thread (k_sched k) = idle ->
  cur ∈ T -> idle ∈ T -> (status (k_mem k) cur = RUNNING -> cur ∉ R ++ S) ->
  idle ∉ R ++ S -> status (k_mem k) idle <> RUNNING ->
  cur = hd idle (requeued (k_mem k) cur R) ->
  running k gs sp -> off_sched (sp - 32) 36 -> KERNEL_VIRTUAL_BASE + 32 <= sp -> sp + 4 < 2 ^ 32 ->
  wp scheduler k (fun r k' => r = ld32 (k_mem k) sp /\ continued cur idle sp gs R S k k').
Proof.
  intros HR Hcur Hidle HcT HiT Hc Hi Hsi Hnext Hrun Hoff Hsp1 Hsp2.
  unfold scheduler, ATOMIC_START, cli. apply wp_bind. apply wp_bind, wp_gets. apply wp_bind, wp_modify, wp_ret.
  set (k0 := set_cpu _ k). apply wp_bind.
  eapply wp_mono; [apply (pick_thread_spec T HP cur idle R S k0); done|].
  intros r k1 (next' & m1 & -> & HPk & HnT & ->). cbn [k_mem set_cpu k0] in HPk.
  assert (next' = cur) as -> by (rewrite Hnext; apply (pk_next _ _ _ _ _ _ _ _ HPk)).
  apply wp_bind, wp_modify. apply wp_bind. cbn [k_sched set_cpu set_sched set_mem with_cur k_cpu k_mem k0].
  assert (Hcpu : switched_cpu (k_mem k) cur cur (set_if false (k_cpu k)) = set_if false (k_cpu k)).
  { unfold switched_cpu. by rewrite Z.eqb_refl. }
  rewrite Hcpu. set (k2 := set_sched _ _).
  assert (Hrun2 : running k2 gs sp) by (destruct Hrun as (? & ? & ? & ?); done).
  assert (Hm2 : k_mem k2 = m1) by done. pose proof (pk_bytes _ _ _ _ _ _ _ _ HPk) as Hb.
  assert (Hret : ld32 m1 sp = ld32 (k_mem k) sp).
  { apply ld32_agree. eapply agree_sub; [exact (off_kept _ _ _ _ Hoff Hb) | lia | lia]. }
  destruct (pl_mapped T HP cur HcT) as [C1 C2]. pose proof (esp_cell_off cur _ _ HcT Hoff ltac:(lia)).
  unfold sizeof_Thread, KERNEL_VIRTUAL_BASE in *.
  eapply context_switch_self_spec; [exact Hrun2 | unfold KERNEL_VIRTUAL_BASE, thread_esp in *; lia ..|].
  rewrite Hm2. intros m3 U3. apply wp_bind, wp_gets. apply wp_bind, wp_modify, wp_ret.
  split; [done|]. split.
  - exists m1. done.
  - eapply switch_keeps_rep; [exact HcT | exact Hoff | exact (pk_rep _ _ _ _ _ _ _ _ HPk) | exact U3].
  - done.
  - cbn [k_sched set_cpu set_mem set_sched k2 saved_if k_cpu set_regs set_if]. rewrite lookup_insert_eq. by destruct (k_cpu k).
Qed.

(** ** The invariant of the scheduler while [cur] runs

    Every thread is on at most one queue, the running thread and the idle thread
    on none, the sleep queue is sorted. *)

Record sched_inv (cur idle : Z) (R S : list Z) (k : kernel) : Prop := {
  si_rep : sched_rep (k_mem k) R S;
  si_cur : cur_thread (k_sched k) = cur /\ cur ∈ T /\ cur ∉ R ++ S;
  si_idle : idle_thread (k_sched k) = idle /\ idle ∈ T /\ (idle ∉ R ++ S) /\ status (k_mem k) idle <> RUNNING;
  si_sorted : StronglySorted (wakes_before (wake (k_mem k))) S }.

Lemma sorted_ext (w w' : Z -> Z) l :
  (forall t, t ∈ l -> w' t = w t) -> StronglySorted (wakes_before w) l -> StronglySorted (wakes_before w') l.
Proof.
  intros He. induction 1 as [|a l Hl IH Ha]; constructor.
  - apply IH. intros t Ht. apply He. by right.
  - rewrite Forall_forall in Ha |- *. intros t Ht. unfold wakes_before in *.
    rewrite (He a), (He t) by (try left; by right). by apply Ha.
Qed.


(** A field of a thread past its links and [esp] survives the switch itself. *)
Lemma switch_keeps_field m m' cur sp u off n :
  cur ∈ T -> u ∈ T -> off_sched (sp - 32) 36 -> 12 <= off -> off + n <= 36 -> 0 <= n ->
  untouched (fun b => range (sp - 32) 32 b \/ range (thread_esp cur) 4 b) m m' -> agree m m' (u + off) n.
Proof.
  intros Hc Hu Ho H1 H2 H3 Hun. eapply untouched_agree; [exact Hun|]. intros b Hb [Hr|Hr].
  - destruct (Ho b) as [Hn _]; [unfold range in *; lia|]. apply Hn.
    apply (thread_byte u); [done|]. unfold range in *. lia.
  - destruct (decide (u = cur)) as [->|Hne]; [unfold range, thread_esp in *; lia|].
    pose proof (pl_apart T HP u cur Hu Hc Hne). unfold apart, range, thread_esp, sizeof_Thread in *. lia.
Qed.

(** The decision of [scheduler] re-establishes the invariant for the thread it
    switches to. *)
Lemma picked_inv cur idle next R S sp k m1 k' :
  sched_rep (k_mem k) R S -> StronglySorted (wakes_before (wake (k_mem k))) S -> cur ∈ T ->
  (status (k_mem k) cur = RUNNING -> cur ∉ R ++ S) ->
  idle ∈ T -> idle ∉ R ++ S -> status (k_mem k) idle <> RUNNING ->
  off_sched (sp - 32) 36 -> picked cur idle next R S (k_mem k) m1 ->
  untouched (fun b => range (sp - 32) 32 b \/ range (thread_esp cur) 4 b) m1 (k_mem k') ->
  cur_thread (k_sched k') = next -> idle_thread (k_sched k') = idle ->
  sched_inv next idle (tail (requeued (k_mem k) cur R)) S k'.
Proof.
  intros HR Hso Hc2 Hc3 Hi2 Hi3 Hi4 Ho HPk U Hn Hi.
  pose proof (switch_keeps_rep _ _ _ _ _ _ Hc2 Ho (pk_rep _ _ _ _ _ _ _ _ HPk) U) as HR'.
  assert (Hq : NoDup (requeued (k_mem k) cur R ++ S) /\ (idle ∉ requeued (k_mem k) cur R ++ S) /\
    forall t, t ∈ requeued (k_mem k) cur R -> t ∈ T).
  { unfold requeued. pose proof (sr_nodup _ _ _ _ HR) as Hnd. pose proof (sr_threads _ _ _ _ HR) as HT.
    destruct (Z.eqb_spec (status (k_mem k) cur) RUNNING) as [E|E].
    - split_and!.
      + rewrite (Permutation_app_comm R [cur]). cbn. constructor; auto.
      + assert (idle <> cur) by (intros ->; done). rewrite !elem_of_app, list_elem_of_singleton.
        rewrite elem_of_app in Hi3. tauto.
      + intros t [Ht|Ht%list_elem_of_singleton]%elem_of_app; [apply HT; rewrite elem_of_app; auto | by subst].
    - split_and!; [done | done |]. intros t Ht. apply HT. rewrite elem_of_app. auto. }
  destruct Hq as (Q1 & Q2 & Q3). pose proof (pk_next _ _ _ _ _ _ _ _ HPk) as Hnx. split.
  - exact HR'.
  - split; [done|]. rewrite Hnx. destruct (requeued _ _ _) as [|t l]; cbn [hd tail] in *; [done|].
    apply NoDup_cons in Q1 as [Q1 _]. split; [apply Q3; left | done].
  - split_and!; [done | done | |].
    + destruct (requeued _ _ _) as [|t l]; cbn [tail] in *; [done|]. cbn in Q2.
      by apply not_elem_of_cons in Q2 as [_ Q2].
    + assert (status (k_mem k') idle = status m1 idle) as ->.
      { apply ld32_agree. apply (switch_keeps_field m1 (k_mem k') cur sp idle 16 4); (done || lia). }
      by rewrite (pk_idle _ _ _ _ _ _ _ _ HPk).
  - eapply sorted_ext; [|exact Hso]. intros t Ht.
    assert (HtT : t ∈ T) by (apply (sr_threads _ _ _ _ HR); rewrite elem_of_app; auto).
    rewrite <- (kept_wake _ _ _ _ t (pk_kept _ _ _ _ _ _ _ _ HPk) HtT).
    apply ld64_agree. apply (switch_keeps_field m1 (k_mem k') cur sp t 24 8); (done || lia).
Qed.

(** ** Sleeping *)

(** The running thread has entered the sleep queue. *)
Record asleep (cur deadline : Z) (R S S' : list Z) (m m' : memory) : Prop := {
  as_rep : sched_rep m' R S';
  as_perm : S' ≡ₚ cur :: S;
  as_sorted : StronglySorted (wakes_before (wake m')) S';
  as_wake : wake m' cur = deadline;
  as_status : status m' cur = SLEEPING;
  as_others : forall u off n, u ∈ T -> u <> cur -> 8 <= off -> off + n <= 36 -> agree m m' (u + off) n;
  as_fields : agree m m' (cur + 8) 8;
  as_bytes : untouched (sched_bytes T) m m' }.

(** Its deadline and its status are set. *)
Record dozing (cur deadline : Z) (m m' : memory) : Prop := {
  dz_bytes : untouched (range (cur + 16) 16) m m';
  dz_wake : wake m' cur = deadline;
  dz_status : status m' cur = SLEEPING }.

Lemma dozing_stores cur deadline m : 0 <= deadline < 2 ^ 64 ->
  dozing cur deadline m (st32 (st64 m (cur + 24) deadline) (cur + 16) SLEEPING).
Proof.
  intros Hd. set (m1 := st64 _ _ _). set (m2 := st32 _ _ _).
  assert (U1 : untouched (range (cur + 24) 8) m m1) by apply st64_untouched.
  assert (U2 : untouched (range (cur + 16) 4) m1 m2) by apply st32_untouched. split.
  - eapply untouched_trans; eapply untouched_mono; [|exact U1| |exact U2]; unfold range; intros; lia.
  - unfold wake, thread_wake_at. rewrite (ld64_agree m1 m2).
    + unfold m1. rewrite ld64_st64_eq. by apply u64_small.
    + eapply untouched_agree; [exact U2|]. unfold range; lia.
  - unfold status, thread_status, m2. by rewrite ld32_st32_eq.
Qed.

Lemma dozing_others cur deadline m m' u off n : dozing cur deadline m m' -> cur ∈ T -> u ∈ T -> u <> cur ->
  0 <= off -> off + n <= 36 -> agree m m' (u + off) n.
Proof.
  intros [U _ _] Hc Hu Hne H1 H2. eapply untouched_agree; [exact U|].
  pose proof (pl_apart T HP u cur Hu Hc Hne). unfold apart, range, sizeof_Thread in *. intros b Hb. lia.
Qed.

(** It is then put into the sleep queue. *)
Lemma asleep_intro cur deadline R S m m2 m3 :
  dozing cur deadline m m2 -> sched_rep m2 R S -> cur ∈ T -> cur ∉ R ++ S -> StronglySorted (wakes_before (wake m)) S ->
  queue m3 sleep_que (insert_by (wake m2) cur S) -> untouched (queue_fp sleep_que (cur :: S)) m2 m3 ->
  asleep cur deadline R S (insert_by (wake m2) cur S) m m3.
Proof.
  intros HD [Q1 Q2 Q3 Q4] Hc Hnc Hsort Hq3 U3. pose proof Q3 as (N1 & N2 & N3)%NoDup_app. rewrite elem_of_app in Hnc.
  assert (HcS : forall u, u ∈ cur :: S -> u ∈ T) by (intros u [->|Hu]%elem_of_cons; [done | apply Q4; rewrite elem_of_app; auto]).
  assert (K3 : kept T [] m2 m3) by (eapply (queue_op_kept T HP); [apply sleep_in | exact HcS | exact U3]).
  assert (Hperm : insert_by (wake m2) cur S ≡ₚ cur :: S) by apply insert_by_perm.
  assert (Hsort2 : StronglySorted (wakes_before (wake m2)) S).
  { eapply sorted_ext; [|exact Hsort]. intros t Ht. apply ld64_agree. eapply dozing_others; [exact HD | done | | | lia | lia].
    - apply HcS. by right.
    - intros ->. tauto. }
  split.
  - split; [|done| |].
    + eapply (queue_op_other T HP sleep_que (cur :: S)); [apply sleep_in | apply que_in | | exact HcS | | | exact U3 | exact Q1].
      * intros E. by apply (que_ne_sleep T HP).
      * intros u Hu. apply Q4. rewrite elem_of_app. auto.
      * intros u Hu [->|Hu']%elem_of_cons; [tauto | by apply (N2 u)].
    + rewrite Hperm. rewrite <- Permutation_middle. constructor; [rewrite elem_of_app; tauto | done].
    + intros u. rewrite Hperm, elem_of_app, elem_of_cons. intros [?|[->|?]]; [|done|]; apply Q4; rewrite elem_of_app; auto.
  - done.
  - eapply sorted_ext; [|by apply insert_by_sorted]. intros t Ht. rewrite Hperm in Ht. apply (kept_wake T [] m2 m3 t K3). by apply HcS.
  - rewrite <- (dz_wake _ _ _ _ HD). by apply (kept_wake T [] m2 m3).
  - rewrite <- (dz_status _ _ _ _ HD). apply (kept_status T [] m2 m3); [done | done | apply not_elem_of_nil].
  - intros u off n Hu Hne H1 H2 b Hb. rewrite <- (dozing_others _ _ _ _ u off n HD Hc Hu Hne ltac:(lia) H2 b Hb).
    apply (kept_agree T [] m2 m3 u off n K3 Hu H1 H2); [|done]. intros Hin. by apply elem_of_nil in Hin.
  - intros b Hb. rewrite (kept_agree T [] m2 m3 cur 8 8 K3 Hc ltac:(lia) ltac:(lia) ltac:(lia) b Hb).
    apply (dz_bytes _ _ _ _ HD). unfold range in *. lia.
  - eapply untouched_trans; eapply untouched_mono; [|exact (dz_bytes _ _ _ _ HD)| |exact U3].
    + intros b Hb. right. exists cur. split; [done|]. unfold range in *. lia.
    + intros b [Hb|(a & Ha & Hb)]; [left; exists sleep_que; split; [right; left | done]|].
      right. exists a. split; [by apply HcS|]. unfold range, sizeof_Node in *. lia.
Qed.

Lemma go_to_sleep_spec {A} cur deadline R S k (next : M A) (Q : A -> kernel -> Prop) :
  sched_rep (k_mem k) R S -> cur ∈ T -> cur ∉ R ++ S -> 0 <= deadline < 2 ^ 64 ->
  StronglySorted (wakes_before (wake (k_mem k))) S ->
  (forall m' S', asleep cur deadline R S S' (k_mem k) m' -> wp next (set_mem m' k) Q) ->
  wp (store64 (thread_wake_at cur) deadline;;
      saved ← ATOMIC_START;
      store32 (thread_status cur) SLEEPING;;
      list_sorted_push sleep_que (thread_node cur);;
      ATOMIC_END saved;;
      next) k Q.
Proof.
  intros HR Hc Hnc Hd Hsort HQ. destruct (pl_mapped T HP cur Hc) as [M1 M2]. unfold sizeof_Thread in M2.
  apply wp_bind. unfold thread_wake_at at 1. eapply wp_access; [lia | lia | reflexivity | cbv beta].
  apply wp_bind. unfold ATOMIC_START, cli. apply wp_bind, wp_gets. apply wp_bind, wp_modify, wp_ret.
  apply wp_bind. unfold thread_status at 1. eapply wp_access; [lia | lia | reflexivity | cbv beta].
  cbn [k_mem set_mem set_cpu]. pose proof (dozing_stores cur deadline (k_mem k) Hd) as HD. set (m2 := st32 _ _ _) in *.
  assert (R2 : sched_rep m2 R S).
  { eapply (field_store_rep T HP); [exact Hc | | exact (dz_bytes _ _ _ _ HD) | exact HR]. unfold range; intros; lia. }
  pose proof R2 as [_ Q2 (N1 & N2 & N3)%NoDup_app Q4].
  assert (HcS : forall u, u ∈ cur :: S -> u ∈ T) by (intros u [->|Hu]%elem_of_cons; [done | apply Q4; rewrite elem_of_app; auto]).
  assert (Hlen : (length S <= length T)%nat).
  { apply submseteq_length, NoDup_submseteq; [done|]. intros u Hu. apply HcS. by right. }
  pose proof (pl_len T HP). apply wp_bind. eapply wp_mono.
  { apply (list_sorted_push_spec sleep_que _ cur S); cbn [k_mem set_mem set_cpu].
    - exact Q2.
    - apply (placed_queue_ok T HP); [apply sleep_in | constructor; [rewrite elem_of_app in Hnc; tauto | done] | done].
    - lia.
    - intros t Ht. apply (pl_mapped T HP). by apply HcS. }
  cbn [k_mem set_mem set_cpu]. intros [] k3 (m3 & -> & Hq3 & U3). cbn [k_mem set_mem set_cpu] in *.
  apply wp_bind, wp_modify.
  match goal with |- wp next ?k' Q => assert (k' = set_mem m3 k) as -> by (by destruct k as [? ? ? [] ? ? ? ? ? ? ?]) end.
  by apply (HQ m3 (insert_by (wake m2) cur S)), asleep_intro.
Qed.

Lemma suspended_kept m m' t sp gs eip :
  suspended m t sp gs eip -> agree m m' (thread_esp t) 4 -> untouched (sched_bytes T) m m' ->
  suspended m' t sp gs eip.
Proof.
  intros [S1 S2 S3 S4] He Hu. split; try done.
  - rewrite <- S1. by apply ld32_agree.
  - eapply frame_agree; [exact S2|]. eapply untouched_agree; [exact Hu|]. intros b Hb. by apply S4.
Qed.

(** The thread sleeps until [deadline] and the next ready thread, or the idle
    thread, runs. *)
Record slept (cur idle deadline : Z) (R S : list Z) (sp nsp : Z) (gs gs' : list Z) (k k' : kernel) : Prop := {
  sl_next : cur_thread (k_sched k') = hd idle R;
  sl_queue : exists S', sched_inv (hd idle R) idle (tail R) S' k' /\ S' ≡ₚ cur :: S;
  sl_wake : wake (k_mem k') cur = deadline;
  sl_status : status (k_mem k') cur = SLEEPING;
  sl_ticks : ticks (k_sched k') = ticks (k_sched k);
  sl_saved : suspended (k_mem k') cur (sp - 32) (saved_regs (thread_esp cur) (thread_esp (hd idle R)) gs)
    (ld32 (k_mem k) sp);
  sl_regs : gprs (k_cpu k') = gs' /\ esp (k_cpu k') = nsp + 36 }.

Lemma thread_sleep_spec cur idle R S time k gs sp gs' nsp eip' :
  sched_rep (k_mem k) R S -> cur_thread (k_sched k) = cur -> idle_thread (k_sched k) = idle ->
  cur ∈ T -> idle ∈ T -> cur ∉ R ++ S -> idle ∉ R ++ S -> cur <> idle -> status (k_mem k) idle <> RUNNING ->
  StronglySorted (wakes_before (wake (k_mem k))) S ->
  running k gs sp -> off_sched (sp - 32) 36 -> KERNEL_VIRTUAL_BASE + 32 <= sp -> sp + 4 < 2 ^ 32 ->
  suspended (k_mem k) (hd idle R) nsp gs' eip' -> (sp + 4 <= nsp \/ nsp + 36 <= sp - 32) ->
  wp (thread_sleep time) k (fun r k' => r = eip' /\
    slept cur idle (u64 (ticks (k_sched k) + u64 (time * PIT_CRYSTAL))) R S sp nsp gs gs' k k').
Proof.
  intros HR Hcur Hidle HcT HiT Hc Hi Hne Hsi Hsort Hrun Hoff Hsp1 Hsp2 Hsu Hap.
  unfold thread_sleep, get_cur_thread. apply wp_bind, wp_gets. apply wp_bind, wp_gets. rewrite Hcur.
  eapply go_to_sleep_spec; [exact HR | done | done | apply u64_range | done |].
  intros m2 S' [A1 A2 A3 A4 A5 A6 A7 A8].
  assert (HnT : hd idle R ∈ T /\ hd idle R <> cur).
  { rewrite elem_of_app in Hc. destruct R as [|t R]; cbn [hd].
    - split; [done | congruence].
    - split; [apply (sr_threads _ _ _ _ HR); left | intros ->; apply Hc; left; left]. }
  destruct HnT as [HnT Hnc].
  assert (Hrq : requeued m2 cur R = R) by (unfold requeued; by rewrite A5).
  assert (Hi' : idle ∉ R ++ S') by (rewrite A2, <- Permutation_middle, elem_of_cons; intros [?|?]; congruence).
  assert (Hsi' : status m2 idle <> RUNNING).
  { unfold status. rewrite (ld32_agree (k_mem k) m2); [done|]. apply (A6 idle 16 4); (done || lia). }
  assert (Hret : ld32 m2 sp = ld32 (k_mem k) sp).
  { apply ld32_agree. assert (Ha : agree (k_mem k) m2 (sp - 32) 36).
    { apply off_kept; [done|]. eapply untouched_mono; [|exact A8]. auto. }
    eapply agree_sub; [exact Ha | lia | lia]. }
  eapply wp_mono.
  { apply (scheduler_spec cur idle (hd idle R) R S' (set_mem m2 k) gs sp gs' nsp eip');
      cbn [k_mem set_mem k_sched]; try done.
    - rewrite A5. done.
    - by rewrite Hrq.
    - eapply suspended_kept; [exact Hsu | | exact A8]. apply (A6 (hd idle R) 8 4); (done || lia). }
  intros r k' (-> & [(m3 & HPk & U3) P2 P3 _ P5 _ P7]). cbn [k_mem set_mem k_sched] in *. split; [done|].
  rewrite Hrq in *. rewrite Hret in P7. split.
  - by rewrite P3.
  - exists S'. split; [|done]. pose proof (picked_inv cur idle (hd idle R) R S' sp (set_mem m2 k) m3 k') as Hinv.
    cbn [k_mem set_mem] in Hinv. rewrite Hrq in Hinv.
    apply Hinv; try done; [by rewrite A5 | by rewrite P3 | by rewrite P3].
  - rewrite <- A4. rewrite <- (kept_wake _ _ _ _ cur (pk_kept _ _ _ _ _ _ _ _ HPk) HcT).
    apply ld64_agree. apply (switch_keeps_field m3 (k_mem k') cur sp cur 24 8); (done || lia).
  - rewrite <- A5. rewrite <- (pk_left _ _ _ _ _ _ _ _ HPk); [|rewrite A5; done | done].
    apply ld32_agree. apply (switch_keeps_field m3 (k_mem k') cur sp cur 16 4); (done || lia).
  - by rewrite P3.
  - exact P7.
  - exact P5.
Qed.

(** ** Waking, by the deadlines *)

Definition due (m : memory) (now : Z) (S : list Z) : list Z := filter (fun t => wake m t <= now) S.
Definition not_due (m : memory) (now : Z) (S : list Z) : list Z := filter (fun t => now < wake m t) S.

(** On a sorted sleep queue the loop wakes exactly the threads that are due. *)
Lemma woken_due now R S R' S' m m' :
  StronglySorted (wakes_before (wake m)) S -> woken T now R S R' S' m m' ->
  R' = R ++ due m now S /\ S' = not_due m now S /\
  (forall t, t ∈ due m now S -> status m' t = RUNNABLE) /\ kept T (due m now S) m m'.
Proof.
  intros Hsort [(S1 & -> & -> & W1 & W2 & W3) Wr _ _].
  assert (F1 : Forall (fun t => wake m t <= now) S1) by by apply Forall_forall.
  assert (F2 : Forall (fun t => now < wake m t) S').
  { destruct S' as [|t S']; [constructor|]. specialize (Wr t eq_refl).
    assert (Hs2 : StronglySorted (wakes_before (wake m)) (t :: S')).
    { clear - Hsort. induction S1 as [|a l IH]; [done|]. apply IH. by inversion Hsort. }
    inversion Hs2 as [|? ? _ Hall]; subst. constructor; [done|]. eapply Forall_impl; [exact Hall|].
    unfold wakes_before. intros u Hu. lia. }
  assert (due m now (S1 ++ S') = S1) as ->.
  { unfold due. rewrite filter_app, (filter_all _ S1 F1), filter_none, app_nil_r; [done|].
    eapply Forall_impl; [exact F2|]. cbv beta. lia. }
  split_and!; try done. unfold not_due. rewrite filter_app, (filter_all _ S' F2), filter_none; [done|].
  eapply Forall_impl; [exact F1|]. cbv beta. lia.
Qed.

(** The invariant, with [cur] on the CPU at the call of [context_switch]. *)
Record sched_state (cur idle : Z) (R S : list Z) (gs : list Z) (sp : Z) (k : kernel) : Prop := {
  ss_inv : sched_inv cur idle R S k;
  ss_cpu : running k gs sp;
  ss_stack : off_sched (sp - 32) 36 /\ KERNEL_VIRTUAL_BASE + 32 <= sp /\ sp + 4 < 2 ^ 32 }.


Lemma sorted_filter (w : Z -> Z) (P : Z -> Prop) `{forall x, Decision (P x)} l :
  StronglySorted (wakes_before w) l -> StronglySorted (wakes_before w) (filter P l).
Proof.
  induction 1 as [|a l _ IH Ha]; [constructor|]. destruct (decide (P a)).
  - rewrite filter_cons_True by done. constructor; [done|]. rewrite Forall_forall in *. intros x Hx.
    apply Ha. by apply list_elem_of_filter in Hx as [_ Hx].
  - by rewrite filter_cons_False.
Qed.

Definition with_ticks (v : Z) (s : sched_globals) : sched_globals :=
  MkSched v (tick_rate s) (cur_thread s) (idle_thread s) (thread_id s) (reaper s) (saved_if s).

(** A timer interrupt up to its call of [scheduler]. *)
Lemma timer_wakes cur idle R S gs sp k now (Q : Z -> kernel -> Prop) :
  sched_state cur idle R S gs sp k -> now = u64 (ticks (k_sched k) + tick_rate (k_sched k)) ->
  (forall m1, sched_state cur idle (R ++ due (k_mem k) now S) (not_due (k_mem k) now S) gs sp
       (set_mem m1 (set_sched (with_ticks now (k_sched k)) k)) ->
     kept T (due (k_mem k) now S) (k_mem k) m1 -> untouched (sched_bytes T) (k_mem k) m1 ->
     wp scheduler (set_mem m1 (set_sched (with_ticks now (k_sched k)) k)) Q) ->
  wp timer k Q.
Proof.
  intros [[HR (Hc1 & Hc2 & Hc3) (Hi1 & Hi2 & Hi3 & Hi4) Hso] Hrun Hst] Hnow HQ.
  unfold timer, set_ticks, with_sched. apply wp_bind, wp_gets. apply wp_bind, wp_gets.
  apply wp_bind, wp_modify. rewrite <- Hnow. apply wp_bind. fold (with_ticks now (k_sched k)).
  eapply wp_mono; [by apply (wake_up_threads_spec T HP R S)|]. cbn [k_mem k_sched set_sched with_ticks ticks].
  intros [] k' (m1 & R' & S' & -> & HW).
  pose proof (wk_rep _ _ _ _ _ _ _ _ HW) as HR'. pose proof (wk_bytes _ _ _ _ _ _ _ _ HW) as HB.
  destruct (woken_due _ _ _ _ _ _ _ Hso HW) as (-> & -> & H1 & H2).
  assert (Hin : forall t, t ∉ R ++ S -> t ∉ (R ++ due (k_mem k) now S) ++ not_due (k_mem k) now S).
  { unfold due, not_due. intros t Ht. rewrite !elem_of_app, !list_elem_of_filter. rewrite elem_of_app in Ht. tauto. }
  assert (Hdue : forall t, t ∉ R ++ S -> t ∉ due (k_mem k) now S).
  { intros t Ht. apply Hin in Ht. rewrite !elem_of_app in Ht. tauto. }
  apply HQ; [|exact H2 | exact HB]. split; [|exact Hrun | exact Hst]. split; cbn [k_mem k_sched set_sched set_mem with_ticks cur_thread idle_thread].
  - exact HR'.
  - split_and!; [exact Hc1 | exact Hc2 | by apply Hin].
  - split_and!; [exact Hi1 | exact Hi2 | by apply Hin|]. rewrite (kept_status _ _ _ _ _ H2) by auto. exact Hi4.
  - eapply sorted_ext; [|by apply sorted_filter]. intros t Ht. apply (kept_wake _ _ _ _ _ H2).
    apply list_elem_of_filter in Ht as [_ Ht]. apply (sr_threads _ _ _ _ HR). rewrite elem_of_app. auto.
Qed.

End theorems.

(** ** The properties *)

(** C20: on a timer tick exactly the threads whose wake time has come leave the
    sleep queue; they join the end of the ready queue in the order of their wake
    times and become runnable; every other thread, and every other field of
    these, is unchanged, and so is every byte of memory outside the threads'
    records and the queues.  The loop ends. *)
Theorem wake_up_threads_correct `{BS : BuddySymbols} `{HS : HeapSymbols} `{TS : TableSymbols} `{SS : SchedSymbols} T R S k :
  placed T -> sched_rep T (k_mem k) R S -> StronglySorted (wakes_before (wake (k_mem k))) S ->
  wp wake_up_threads k (fun _ k' => exists m', k' = set_mem m' k /\
    let woken := due (k_mem k) (ticks (k_sched k)) S in
    sched_rep T m' (R ++ woken) (not_due (k_mem k) (ticks (k_sched k)) S) /\
    (forall t, t ∈ woken -> status m' t = RUNNABLE) /\ kept T woken (k_mem k) m' /\
    untouched (sched_bytes T) (k_mem k) m').
Proof.
  intros HP HR Hsort. eapply wp_mono; [by apply (wake_up_threads_spec T HP R S)|].
  intros [] k' (m' & R' & S2 & -> & HW). pose proof (wk_rep _ _ _ _ _ _ _ _ HW) as HR'.
  pose proof (wk_bytes _ _ _ _ _ _ _ _ HW) as HB. destruct (woken_due T _ _ _ _ _ _ _ Hsort HW) as (-> & -> & H1 & H2). by exists m'.
Qed.

(** C15: [scheduler] switches to the head of the ready queue, behind which the
    running thread has been queued if it is still running, or to the idle thread
    when nothing is ready.  The new thread is marked running, its address space
    and ring-0 stack are installed, it resumes exactly where it was suspended with
    the interrupt flag it had; the old thread is left suspended so that it can be
    resumed, and the invariant of the queues holds for the new thread. *)
Theorem scheduler_correct `{BS : BuddySymbols} `{HS : HeapSymbols} `{TS : TableSymbols} `{SS : SchedSymbols}
    T cur idle next R S gs sp gs' nsp eip' k :
  placed T -> sched_state T cur idle R S gs sp k ->
  next = hd idle (requeued (k_mem k) cur R) -> next <> cur ->
  suspended T (k_mem k) next nsp gs' eip' -> (sp + 4 <= nsp \/ nsp + 36 <= sp - 32) ->
  wp scheduler k (fun r k' =>
    r = eip' /\ cur_thread (k_sched k') = next /\
    gprs (k_cpu k') = gs' /\ esp (k_cpu k') = nsp + 36 /\
    eflags_if (k_cpu k') = default true (saved_if (k_sched k) !! next) /\
    sched_inv T next idle (tail (requeued (k_mem k) cur R)) S k' /\
    (next <> idle -> status (k_mem k') next = RUNNING) /\
    (status (k_mem k) cur = RUNNING -> status (k_mem k') cur = RUNNABLE) /\
    ld32 (k_mem k') (tss_esp0 tss) = u32 (ld32 (k_mem k) (thread_stack next) + 4096) /\
    cr3 (k_cpu k') = cr3 (switched_cpu (k_mem k) cur next (k_cpu k)) /\
    saved_if (k_sched k') !! cur = Some (eflags_if (k_cpu k)) /\
    suspended T (k_mem k') cur (sp - 32) (saved_regs (thread_esp cur) (thread_esp next) gs) (ld32 (k_mem k) sp)).
Proof.
  intros HP [[HR (Hc1 & Hc2 & Hc3) (Hi1 & Hi2 & Hi3 & Hi4) Hso] Hrun (Ho & H1 & H2)] Hn Hne Hsu Hap.
  eapply wp_mono; [by apply (scheduler_spec T HP cur idle next R S k gs sp gs' nsp eip')|].
  intros r k' (-> & [(m1 & HPk & U) P2 P3 P4 [P5 P6] P7 P8]).
  assert (HnT : next ∈ T).
  { subst next. unfold requeued in *. destruct (_ =? _).
    - destruct R as [|t R]; [done|]. apply (sr_threads _ _ _ _ HR). left.
    - destruct R as [|t R]; [done|]. apply (sr_threads _ _ _ _ HR). left. }
  assert (Hst : forall u, u ∈ T -> status (k_mem k') u = status m1 u).
  { intros u Hu. apply ld32_agree. apply (switch_keeps_field T HP m1 (k_mem k') cur sp u 16 4); (done || lia). }
  split_and!; try done.
  - by rewrite P3.
  - rewrite P4, lookup_insert_ne by congruence. done.
  - eapply (picked_inv T HP cur idle next R S sp k m1 k'); try done; by rewrite P3.
  - intros Hx. rewrite Hst by done. by apply (pk_running _ _ _ _ _ _ _ _ HPk).
  - intros Hx. rewrite Hst by done. by apply (pk_requeued _ _ _ _ _ _ _ _ HPk).
  - rewrite <- (pk_esp0 _ _ _ _ _ _ _ _ HPk). apply ld32_agree. eapply untouched_agree; [exact U|].
    intros b Hb [Hr|Hr].
    + destruct (Ho b) as [_ Hnb]; [unfold range in *; lia|]. apply Hnb, Hb.
    + pose proof (pl_tss_thread T HP cur Hc2).
      unfold apart, range, tss_esp0, thread_esp, sizeof_Thread, sizeof_TSS_ENTRY in *. lia.
  - rewrite P3. apply lookup_insert_eq.
Qed.

(** C17: [thread_sleep(time)] puts the running thread into the sleep queue, at its
    place by wake time, with the deadline [ticks + time * 1193182] modulo 2^64,
    and resumes the first ready thread or the idle thread. *)
Theorem thread_sleep_correct `{BS : BuddySymbols} `{HS : HeapSymbols} `{TS : TableSymbols} `{SS : SchedSymbols}
    T cur idle R S gs sp gs' nsp eip' time k :
  placed T -> sched_state T cur idle R S gs sp k -> cur <> idle ->
  suspended T (k_mem k) (hd idle R) nsp gs' eip' -> (sp + 4 <= nsp \/ nsp + 36 <= sp - 32) ->
  wp (thread_sleep time) k (fun r k' => r = eip' /\
    slept T cur idle (u64 (ticks (k_sched k) + u64 (time * PIT_CRYSTAL))) R S sp nsp gs gs' k k').
Proof.
  intros HP [[HR (Hc1 & Hc2 & Hc3) (Hi1 & Hi2 & Hi3 & Hi4) Hso] Hrun (Ho & H1 & H2)] Hne Hsu Hap.
  by apply (thread_sleep_spec T HP cur idle R S time k gs sp gs' nsp eip').
Qed.

(** When nothing else is ready, [scheduler] lets the running thread go on: it
    returns to its caller with its interrupt flag, stack pointer and every register
    but the two caller-saved ones [context_switch] uses, the thread is still
    running (or is the idle thread), and the invariant holds. *)
Theorem scheduler_continues `{BS : BuddySymbols} `{HS : HeapSymbols} `{TS : TableSymbols} `{SS : SchedSymbols}
    T cur idle S gs sp k :
  placed T -> sched_state T cur idle [] S gs sp k -> (cur = idle \/ status (k_mem k) cur = RUNNING) ->
  wp scheduler k (fun r k' =>
    r = ld32 (k_mem k) sp /\ sched_inv T cur idle [] S k' /\
    (cur <> idle -> status (k_mem k') cur = RUNNING) /\
    esp (k_cpu k') = sp + 4 /\ eflags_if (k_cpu k') = eflags_if (k_cpu k) /\ cr3 (k_cpu k') = cr3 (k_cpu k) /\
    (forall i, i <> 1%nat -> i <> 2%nat -> gprs (k_cpu k') !! i = gs !! i)).
Proof.
  intros HP [[HR (Hc1 & Hc2 & Hc3) (Hi1 & Hi2 & Hi3 & Hi4) Hso] Hrun (Ho & H1 & H2)] Hcase.
  assert (Hrq : cur = hd idle (requeued (k_mem k) cur []) /\ tail (requeued (k_mem k) cur []) = []).
  { unfold requeued. destruct Hcase as [->|E]; [|by rewrite E].
    destruct (Z.eqb_spec (status (k_mem k) idle) RUNNING); [done | by split]. }
  destruct Hrq as [Hn Ht].
  eapply wp_mono; [by apply (scheduler_self_spec T HP cur idle [] S k gs sp)|].
  intros r k' (-> & [(m1 & HPk & U) P2 P3 P4]). rewrite P4.
  split_and!; [done | | | done | by destruct (k_cpu k) | done |].
  - rewrite <- Ht. eapply (picked_inv T HP cur idle cur [] S sp k m1 k'); try done; by rewrite P3.
  - intros Hx. unfold status. rewrite (ld32_agree m1 (k_mem k')); [by apply (pk_running _ _ _ _ _ _ _ _ HPk)|].
    apply (switch_keeps_field T HP m1 (k_mem k') cur sp cur 16 4); (done || lia).
  - intros i I1 I2. cbn [gprs set_regs]. unfold saved_regs. by rewrite !list_lookup_insert_ne by congruence.
Qed.

(** C16: a timer interrupt advances [ticks] by the tick rate modulo 2^64, moves
    exactly the threads whose deadline has come to the end of the ready queue, and
    preempts the running thread for the first ready one: the round-robin order is
    the ready queue, then the woken threads by deadline, then the preempted
    thread. *)
Theorem timer_preempts `{BS : BuddySymbols} `{HS : HeapSymbols} `{TS : TableSymbols} `{SS : SchedSymbols}
    T cur idle next rest R S gs sp gs' nsp eip' now k :
  placed T -> sched_state T cur idle R S gs sp k ->
  now = u64 (ticks (k_sched k) + tick_rate (k_sched k)) ->
  R ++ due (k_mem k) now S ++ (if status (k_mem k) cur =? RUNNING then [cur] else []) = next :: rest ->
  next <> cur ->
  suspended T (k_mem k) next nsp gs' eip' -> (sp + 4 <= nsp \/ nsp + 36 <= sp - 32) ->
  wp timer k (fun r k' =>
    r = eip' /\ ticks (k_sched k') = now /\ sched_inv T next idle rest (not_due (k_mem k) now S) k' /\
    (next <> idle -> status (k_mem k') next = RUNNING) /\
    gprs (k_cpu k') = gs' /\ esp (k_cpu k') = nsp + 36 /\
    suspended T (k_mem k') cur (sp - 32) (saved_regs (thread_esp cur) (thread_esp next) gs) (ld32 (k_mem k) sp)).
Proof.
  intros HP HSt Hnow Hq Hne Hsu Hap. pose proof HSt as [[HR0 (_ & Hc2 & Hc3) _ _] _ (Ho0 & H10 & H20)].
  eapply (timer_wakes T HP); [exact HSt | exact Hnow |].
  intros m1 [[HR (Hc1' & Hc2' & Hc3') (Hi1 & Hi2 & Hi3 & Hi4) Hso] Hrun (Ho & H1 & H2)] HK HB.
  cbn [k_mem set_mem] in *. set (k1 := set_mem m1 _).
  assert (Hst : status m1 cur = status (k_mem k) cur).
  { apply (kept_status _ _ _ _ _ HK Hc2). rewrite !elem_of_app in Hc3'. tauto. }
  assert (Hrq : requeued m1 cur (R ++ due (k_mem k) now S) = next :: rest).
  { rewrite <- Hq. unfold requeued. rewrite Hst. destruct (_ =? _); by rewrite ?app_nil_r, <- ?app_assoc. }
  assert (HnT : next ∈ T).
  { assert (Hin : next ∈ requeued m1 cur (R ++ due (k_mem k) now S)) by (rewrite Hrq; left).
    unfold requeued in Hin. destruct (status m1 cur =? RUNNING); [apply elem_of_app in Hin as [Hin|Hin%list_elem_of_singleton]|];
      try (by subst); apply (sr_threads _ _ _ _ HR); rewrite elem_of_app; auto. }
  assert (Hsu1 : suspended T m1 next nsp gs' eip').
  { eapply suspended_kept; [exact Hsu | | exact HB].
    eapply (kept_agree _ _ _ _ _ 8 4); [exact HK | done | lia | lia | lia]. }
  assert (Hret : ld32 m1 sp = ld32 (k_mem k) sp).
  { apply ld32_agree. assert (Ha : agree (k_mem k) m1 (sp - 32) 36).
    { apply (off_kept T); [done|]. eapply untouched_mono; [|exact HB]. auto. }
    eapply agree_sub; [exact Ha | lia | lia]. }
  eapply wp_mono;
    [apply (scheduler_spec T HP cur idle next (R ++ due (k_mem k) now S) (not_due (k_mem k) now S) k1 gs sp gs' nsp eip'); try done; by cbn; rewrite Hrq|].
  intros r k' (-> & [(m2 & HPk & U) P2 P3 P4 [P5 P6] P7 P8]). cbn [k_mem set_mem k1] in *.
  rewrite Hret in P8. split_and!; try done.
  - by rewrite P3.
  - pose proof (picked_inv T HP cur idle next (R ++ due (k_mem k) now S) (not_due (k_mem k) now S) sp k1 m2 k') as Hinv. cbn [k_mem set_mem k1] in Hinv.
    rewrite Hrq in Hinv. apply Hinv; try done; by rewrite P3.
  - intros Hx. unfold status. rewrite (ld32_agree m2 (k_mem k')); [by apply (pk_running _ _ _ _ _ _ _ _ HPk)|].
    apply (switch_keeps_field T HP m2 (k_mem k') cur sp next 16 4); (done || lia).
Qed.
