(* ===== verification/Threads.v ===== *)
(** * Thread creation and destruction: src/sched/thread.c

    A new thread is a record from the heap, a stack of its own with a frame that
    resumes at its entry code, and the last place in the ready queue; the data of
    the scheduler and of all other threads is kept.  [spawn_spec] is the part that
    [thread_create] shares with [create_process]. *)

From Stdlib Require Import ZArith Lia Bool.
From stdpp Require Import base functions list gmap strings.
From S2P Require Import Prelude Machine StringLib Console Node Queue Bump Buddy BuddyModel BuddyRefine BuddyInit Pmm Devices Descriptors Heap HeapModel HeapSteps HeapPages HeapCompact HeapAlloc HeapFree HeapTheorems HeapClient Sched SchedModel Switch SchedTheorems.

Section threads.
Context `{BS : BuddySymbols} `{HS : HeapSymbols} `{TS : TableSymbols} `{SS : SchedSymbols}
  `{PA : !PageAllocator pmm_alloc pmm_free get_order_addr}.

(** The queues and the TSS. *)
Definition sched_statics (b : Z) : Prop := (exists q, q ∈ queues /\ range q sizeof_DLList b) \/ range tss sizeof_TSS_ENTRY b.

(** The scheduler's data is out of the allocators' way. *)
Definition sched_safe (T : list Z) (H : list block) (PS : list hpage) : Prop :=
  forall b, sched_bytes T b \/ sched_statics b -> quiet H PS b.

(** Memory that was taken for a thread makes it one more thread. *)
Lemma placed_taken T t H PS H' PS' : placed T -> sched_safe T H PS -> taken H PS H' PS' t sizeof_Thread ->
  Z.of_nat (S (length T)) < 2 ^ 32 -> placed (t :: T).
Proof.
  intros [P1 P2 P3 P4 P5 P6 P7 P8 P9 P10 P11] Hsafe Ht Hlen. pose proof Ht as (T1 & T2 & T3).
  assert (Hap : forall a n, 0 < n -> (forall b, range a n b -> sched_bytes T b \/ sched_statics b) -> apart t sizeof_Thread a n).
  { intros a n Hn Hb. eapply (taken_apart _ _ _ _ _ _ _ _ Ht); [done | done |]. intros b Hr. by apply Hsafe, Hb. }
  assert (Hthr : forall u, u ∈ T -> apart t sizeof_Thread u sizeof_Thread).
  { intros u Hu. apply Hap; [done|]. intros b Hb. left. right. by exists u. }
  assert (Hsym : forall a n b l, apart a n b l -> apart b l a n) by (unfold apart; intros; lia).
  split; try done.
  - constructor; [|done]. intros Hin. specialize (Hthr t Hin). unfold apart, sizeof_Thread in Hthr. lia.
  - intros u [->|Hu]%elem_of_cons; [done | by apply P3].
  - intros a b [->|Ha]%elem_of_cons [->|Hb]%elem_of_cons Hne; [done | by apply Hthr | by apply Hsym, Hthr | by apply P4].
  - intros q u Hq [->|Hu]%elem_of_cons; [|by apply P6]. apply Hsym, Hap; [done|]. intros b Hb. right. left. by exists q.
  - intros u [->|Hu]%elem_of_cons; [|by apply P11]. apply Hsym, Hap; [done|]. intros b Hb. right. by right.
Qed.

Lemma sched_rep_more T t m m' R S : sched_rep T m R S -> (forall b, sched_bytes T b -> ld8 m' b = ld8 m b) -> sched_rep (t :: T) m' R S.
Proof.
  intros [Q1 Q2 Q3 Q4] Hm.
  assert (Hq : forall q l, q ∈ [que; sleep_que] -> (forall u, u ∈ l -> u ∈ R ++ S) -> queue m q l -> queue m' q l).
  { intros q l Hq Hl HQ. eapply queue_frame; [exact HQ | |].
    - intros b Hb. apply Hm. left. by exists q.
    - intros a Ha b Hb. apply Hm. right. exists a. split; [by apply Q4, Hl | unfold range in *; lia]. }
  split; [apply Hq; [left | set_solver | done] | apply Hq; [right; left | set_solver | done] | done |].
  intros u Hu. right. by apply Q4.
Qed.

Lemma sched_rep_same T m m' R S : sched_rep T m R S -> (forall b, sched_bytes T b -> ld8 m' b = ld8 m b) -> sched_rep T m' R S.
Proof.
  intros [Q1 Q2 Q3 Q4] Hm. destruct (sched_rep_more T 0 m m' R S ltac:(by split) Hm) as [Q1' Q2' _ _]. by split.
Qed.

(** [thread_ready]: the interrupt flag is as before. *)
Lemma enqueue_spec T t R S k : placed T -> sched_rep T (k_mem k) R S -> t ∈ T -> t ∉ R ++ S ->
  wp (thread_ready t) k (fun _ k' => exists m', k' = set_mem m' k /\ sched_rep T m' (R ++ [t]) S /\
    status m' t = RUNNABLE /\ kept T [t] (k_mem k) m' /\ untouched (sched_bytes T) (k_mem k) m' /\ links_kept T (R ++ [t]) (k_mem k) m').
Proof.
  intros HP HR Ht Hn. unfold thread_ready, ATOMIC_START, ATOMIC_END, cli. apply wp_bind, wp_bind, wp_gets, wp_bind, wp_modify, wp_ret.
  set (k1 := set_cpu _ k).
  pose proof (thread_ready_spec T HP t R S k1 (fun _ k2 => exists m', k2 = set_mem m' k1 /\ sched_rep T m' (R ++ [t]) S /\
    status m' t = RUNNABLE /\ kept T [t] (k_mem k) m' /\ untouched (sched_bytes T) (k_mem k) m' /\ links_kept T (R ++ [t]) (k_mem k) m') HR Ht Hn) as Hw.
  assert (Hw' : wp (_thread_ready t;; modify (fun k0 => set_cpu (set_if (eflags_if (k_cpu k)) (k_cpu k0)) k0)) k1 (fun _ k' =>
    exists m', k' = set_mem m' k /\ sched_rep T m' (R ++ [t]) S /\
      status m' t = RUNNABLE /\ kept T [t] (k_mem k) m' /\ untouched (sched_bytes T) (k_mem k) m' /\ links_kept T (R ++ [t]) (k_mem k) m')).
  { apply wp_bind. eapply wp_mono; [apply Hw; intros m' A1 A2 A3 A4 A5; by exists m'|]. intros _ k2 (m' & -> & HQ). apply wp_modify.
    exists m'. split; [|done]. unfold k1. destruct k as [? ? ? c]. destruct c. reflexivity. }
  revert Hw'. unfold _thread_ready. apply wp_ext. intros. unfold mbind, M_bind. by destruct (store32 _ _ _).
Qed.

(** ** A thread is started *)

Definition no_regs : list Z := [0; 0; 0; 0; 0; 0; 0].

(** The scheduler's globals with the next thread number. *)
Definition next_id (s : sched_globals) : sched_globals :=
  MkSched (ticks s) (tick_rate s) (cur_thread s) (idle_thread s) (u32 (thread_id s + 1)) (reaper s) (saved_if s).

(** The thread [t] was added behind the ready queue [R]: it will resume at [eip]
    with the stack pointer [sp]; what other threads and the scheduler had is kept. *)
Record spawned (T R S : list Z) (H : list block) (PS : list hpage) (k : kernel) (t sp eip : Z)
    (H' : list block) (PS' : list hpage) (k' : kernel) : Prop := {
  sw_heap : heap_ok H' PS' k';
  sw_quiet : forall b, quiet H PS b -> quiet H' PS' b;
  sw_safe : sched_safe (t :: T) H' PS';
  sw_placed : placed (t :: T);
  sw_rep : sched_rep (t :: T) (k_mem k') (R ++ [t]) S;
  sw_status : status (k_mem k') t = RUNNABLE;
  sw_kept : kept T [] (k_mem k) (k_mem k');
  sw_mem : forall b, quiet H PS b -> ~ sched_bytes T b -> ld8 (k_mem k') b = ld8 (k_mem k) b;
  sw_suspended : suspended (t :: T) (k_mem k') t sp no_regs eip;
  sw_new : forall b, range t 36 b -> ~ quiet H PS b;
  sw_stack : forall b, range sp 52 b -> ~ quiet H PS b /\ quiet H' PS' b /\ ~ range t 36 b;
  sw_id : ld32 (k_mem k') (thread_id_of t) = thread_id (k_sched k);
  sw_sched : k_sched k' = next_id (k_sched k);
  sw_cpu : k_cpu k' = k_cpu k;
  sw_rest : k_vga k' = k_vga k /\ k_devs k' = k_devs k /\ k_boot k' = k_boot k }.

(** The end of [thread_create] and [create_process]. *)
Definition start_thread (thread sp stack pd : Z) : M Z :=
  store32 (thread_esp thread) sp;;
  store32 (thread_stack thread) stack;;
  id ← gets (fun k => thread_id (k_sched k));
  store32 (thread_id_of thread) id;;
  set_thread_id (id + 1);;
  store32 (thread_pd thread) pd;;
  thread_ready thread;;
  mret thread.

(** The record is filled in. *)
Lemma fill_thread thread sp stack pd k (Q : Z -> kernel -> Prop) :
  KERNEL_VIRTUAL_BASE <= thread -> thread + 36 <= 2 ^ 32 -> 0 <= sp < 2 ^ 32 -> 0 <= stack < 2 ^ 32 -> 0 <= pd < 2 ^ 32 ->
  0 <= thread_id (k_sched k) < 2 ^ 32 ->
  (forall m', untouched (range (thread + 8) 28) (k_mem k) m' -> ld32 m' (thread_esp thread) = sp -> ld32 m' (thread_stack thread) = stack ->
     ld32 m' (thread_id_of thread) = thread_id (k_sched k) -> ld32 m' (thread_pd thread) = pd ->
     wp (thread_ready thread) (set_sched (next_id (k_sched k)) (set_mem m' k)) (fun _ => Q thread)) ->
  wp (start_thread thread sp stack pd) k Q.
Proof.
  intros H1 H2 Hsp Hst Hpd Hid HQ. unfold start_thread, thread_esp, thread_stack, thread_id_of, thread_pd in *.
  apply wp_bind. eapply wp_access; [lia | lia | reflexivity | cbv beta].
  apply wp_bind. eapply wp_access; [lia | lia | reflexivity | cbv beta].
  apply wp_bind, wp_gets. cbn [k_sched set_mem].
  apply wp_bind. eapply wp_access; [lia | lia | reflexivity | cbv beta].
  apply wp_bind, wp_modify.
  apply wp_bind. eapply wp_access; [lia | lia | reflexivity | cbv beta]. cbn [k_mem k_sched set_mem set_sched].
  set (m' := st32 _ _ pd). specialize (HQ m'). apply wp_bind. eapply wp_mono; [apply HQ|].
  - unfold m'. intros b Hb. unfold range in Hb. by rewrite !ld8_st32_ne by lia.
  - unfold m'. rewrite !ld32_st32_ne by lia. rewrite ld32_st32_eq. by apply u32_small.
  - unfold m'. rewrite !ld32_st32_ne by lia. rewrite ld32_st32_eq. by apply u32_small.
  - unfold m'. rewrite ld32_st32_ne by lia. rewrite ld32_st32_eq. by apply u32_small.
  - unfold m'. rewrite ld32_st32_eq. by apply u32_small.
  - intros [] k' HQ'. by apply wp_ret.
Qed.

Lemma spawn_spec T R S H PS k0 H' PS' k t sp eip stack pd :
  placed T -> sched_rep T (k_mem k0) R S -> sched_safe T H PS -> Z.of_nat (Datatypes.S (length T)) < 2 ^ 32 ->
  grows H PS k0 H' PS' k -> taken H PS H' PS' t sizeof_Thread ->
  frame (k_mem k) sp no_regs eip -> KERNEL_VIRTUAL_BASE <= sp -> sp + 36 < 2 ^ 32 ->
  (forall b, range sp 52 b -> ~ quiet H PS b /\ quiet H' PS' b /\ ~ range t 36 b) ->
  0 <= stack < 2 ^ 32 -> 0 <= pd < 2 ^ 32 -> 0 <= thread_id (k_sched k) < 2 ^ 32 ->
  wp (start_thread t sp stack pd) k (fun r k' => r = t /\ spawned T R S H PS k0 t sp eip H' PS' k' /\
    ld32 (k_mem k') (thread_stack t) = stack /\ ld32 (k_mem k') (thread_pd t) = pd /\
    untouched (fun b => range t 36 b \/ sched_bytes T b) (k_mem k) (k_mem k')).
Proof.
  intros HP HR Hsafe Hlen HG Ht Hfr Hs1 Hs2 Hoff Hst Hpd Hid. pose proof Ht as (T1 & T2 & T3). unfold sizeof_Thread in T2, T3.
  pose proof HG as [G1 G2 G3 G4 (mk & bk & hk & Ek)].
  assert (Hk0 : k_sched k = k_sched k0 /\ k_cpu k = k_cpu k0) by (by rewrite Ek). destruct Hk0 as [Es Ec].
  pose proof (placed_taken T t H PS H' PS' HP Hsafe Ht Hlen) as HP'.
  assert (Hquiet : forall b, sched_bytes (t :: T) b \/ sched_statics b -> quiet H' PS' b).
  { intros b [[Hb|(u & [->|Hu]%elem_of_cons & Hb)]|Hb]; [| by apply T3 | |]; apply G3, Hsafe; [left; by left | left; right; by exists u | by right]. }
  assert (Htb : forall b, range t 36 b -> ~ sched_bytes T b) by (intros b Hb Hsb; destruct (T3 b Hb) as [Hq _]; apply Hq, Hsafe; by left).
  apply fill_thread; [done | done | unfold KERNEL_VIRTUAL_BASE in *; lia | done | done | done |].
  intros m1 U1 E1 E2 E3 E4. set (k1 := set_sched _ _).
  assert (HR1 : sched_rep (t :: T) m1 R S).
  { apply (sched_rep_more T t (k_mem k0)); [done|]. intros b Hb. rewrite U1; [apply G4, Hsafe; by left|].
    intros Hr. apply (Htb b); [unfold range in *; lia | done]. }
  assert (Hnew : t ∉ R ++ S).
  { intros Hin. pose proof (sr_threads _ _ _ _ HR t Hin) as HtT. apply (Htb t); [unfold range; lia|]. right. exists t. split; [done | unfold range; lia]. }
  eapply wp_mono; [apply (enqueue_spec (t :: T) t R S k1 HP'); [exact HR1 | left | exact Hnew]|].
  intros [] k' (m2 & -> & HR2 & Hst2 & Hk2 & U2 & _). cbn [k_mem set_mem k1 set_sched] in *.
  assert (Hf : forall off n, 8 <= off -> off + n <= 36 -> (off + n <= 16 \/ 20 <= off) -> agree m1 m2 (t + off) n).
  { intros off n O1 O2 O3. eapply (kept_agree (t :: T)); [exact Hk2 | left | done | done | auto]. }
  assert (Hspb : forall b, range sp 36 b -> ~ (sched_bytes (t :: T) b \/ range (tss_esp0 tss) 4 b)).
  { intros b Hb. destruct (Hoff b ltac:(unfold range in *; lia)) as (Hn & _ & Hnt). intros [[Hx|(u & [->|Hu]%elem_of_cons & Hx)]|Hx]; [| done | |].
    - apply Hn, Hsafe. left. by left.
    - apply Hn, Hsafe. left. right. by exists u.
    - apply Hn, Hsafe. right. right. unfold tss_esp0, sizeof_TSS_ENTRY, range in *. lia. }
  assert (Hall : untouched (fun b => range t 36 b \/ sched_bytes T b) (k_mem k) m2).
  { eapply untouched_trans; eapply untouched_mono; [|exact U1| |exact U2]; intros b Hb.
    - left. unfold range in *. lia.
    - destruct Hb as [Hb|(u & [->|Hu]%elem_of_cons & Hb)]; [right; by left | by left | right; right; by exists u]. }
  split; [done|]. split; [|split_and!; [rewrite <- E2; apply ld32_agree, (Hf 12 4); lia | rewrite <- E4; apply ld32_agree, (Hf 32 4); lia | done]].
  split; cbn [k_mem k_sched k_cpu set_mem set_sched]; try done.
  - apply (heap_ok_frame H' PS' k); [done | done | done |]. cbn [k_mem set_mem set_sched]. intros b Hb. apply Hall.
    intros [Hx|Hx]; [apply (Hquiet b); [left; right; exists t; split; [left | done] | done]|]. apply (Hquiet b); [left | done].
    destruct Hx as [Hx|(u & Hu & Hx)]; [by left | right; exists u; split; [by right | done]].
  - intros u b Hu Hb Hw. rewrite (Hk2 u b); [|by right | done |].
    + rewrite U1; [apply G4, Hsafe; left; right; exists u; split; [done | unfold range in *; lia]|].
      intros Hr. apply (Htb b); [unfold range in *; lia|]. right. exists u. split; [done | unfold range in *; lia].
    + intros ->%list_elem_of_singleton. exfalso. apply (Htb b); [unfold range in *; lia|]. right. exists t. split; [done | unfold range in *; lia].
  - intros b Hq Hn. rewrite Hall; [by apply G4|]. intros [Hx|Hx]; [|done]. by destruct (T3 b Hx).
  - split.
    + rewrite <- E1. apply ld32_agree, (Hf 8 4); lia.
    + eapply frame_agree; [exact Hfr|]. eapply untouched_agree; [exact Hall|]. intros b Hb Hx. apply (Hspb b Hb). left.
      destruct Hx as [Hx|[Hx|(u & Hu & Hx)]]; [right; exists t; split; [left | done] | by left | right; exists u; split; [by right | done]].
    + done.
    + intros b Hb. pose proof (Hspb b Hb). tauto.
  - intros b Hb. by apply T3.
  - rewrite <- Es, <- E3. apply ld32_agree, (Hf 20 4); lia.
  - unfold k1. cbn [k_sched set_sched]. by rewrite Es.
  - subst k. done.
Qed.

(** The new stack is off the scheduler's bytes. *)
Lemma stack_off T R S H PS k t sp eip H' PS' k' b :
  sched_safe T H PS -> spawned T R S H PS k t sp eip H' PS' k' -> range sp 52 b -> ~ sched_bytes (t :: T) b.
Proof.
  intros Hsafe HW Hb. destruct (sw_stack _ _ _ _ _ _ _ _ _ _ _ _ HW b Hb) as (Hn & _ & Hnt).
  intros [Hx|(u & [->|Hu]%elem_of_cons & Hx)]; [apply Hn, Hsafe; left; by left | done |]. apply Hn, Hsafe. left. right. by exists u.
Qed.

(** A suspended thread whose stack is in use stays suspended while another one is
    started. *)
Lemma suspended_later T R S H PS k t sp eip H' PS' k' u usp gs ueip :
  spawned T R S H PS k t sp eip H' PS' k' -> u ∈ T -> suspended T (k_mem k) u usp gs ueip ->
  (forall b, range usp 36 b -> quiet H PS b) -> suspended (t :: T) (k_mem k') u usp gs ueip.
Proof.
  intros HW Hu [S1 S2 S3 S4] Hq. split.
  - rewrite <- S1. apply ld32_agree. apply (kept_agree T []); [apply (sw_kept _ _ _ _ _ _ _ _ _ _ _ _ HW) | done | lia | lia |]. intros Hx. by apply elem_of_nil in Hx.
  - eapply frame_agree; [exact S2|]. intros b Hb. apply (sw_mem _ _ _ _ _ _ _ _ _ _ _ _ HW); [by apply Hq | by apply S4].
  - done.
  - intros b Hb. destruct (S4 b Hb) as [N1 N2]. split; [|done].
    intros [Hx|(w & [->|Hw]%elem_of_cons & Hx)]; [apply N1; by left | | apply N1; right; by exists w].
    by apply (sw_new _ _ _ _ _ _ _ _ _ _ _ _ HW b Hx), Hq.
Qed.
End threads.

Section create.
Context `{BS : BuddySymbols} `{HS : HeapSymbols} `{TS : TableSymbols} `{SS : SchedSymbols}
  `{PA : !PageAllocator pmm_alloc pmm_free get_order_addr}.

(** What a kernel thread owns: a page for its stack and its record. *)
Definition owned_thread (H : list block) (PS : list hpage) (m : memory) (t : Z) : Prop :=
  exists i s, own_block H PS i 0 /\ live PS (t - 12) s /\ sizeof_Thread <= s /\ ld32 m (thread_stack t) = 4096 * i.

Lemma thread_create_spec T R S H PS entry arg k :
  heap_ok H PS k -> cursor_ok (k_vga k) -> placed T -> sched_rep T (k_mem k) R S -> sched_safe T H PS ->
  Z.of_nat (Datatypes.S (length T)) < 2 ^ 32 -> 0 <= thread_id (k_sched k) < 2 ^ 32 ->
  0 <= entry < 2 ^ 32 -> 0 <= arg < 2 ^ 32 -> 0 <= kthread_stub_addr < 2 ^ 32 -> 0 <= kernel_page_directory < 2 ^ 32 ->
  wpe out_of_memory (thread_create entry arg) k (fun t k' => exists sp H' PS',
    spawned T R S H PS k t sp kthread_stub_addr H' PS' k' /\ owned_thread H' PS' (k_mem k') t /\
    ld32 (k_mem k') (thread_pd t) = kernel_page_directory /\
    sp + 52 = P2V (ld32 (k_mem k') (thread_stack t)) + 4096 /\
    [ld32 (k_mem k') (sp + 36); ld32 (k_mem k') (sp + 40); ld32 (k_mem k') (sp + 44); ld32 (k_mem k') (sp + 48)] = [0; entry; arg; t] /\
    (forall c s, live PS c s -> live PS' c s)).
Proof.
  intros HK Hc HP HR Hsafe Hlen Hid He Ha Hks Hpd. unfold thread_create.
  apply wpe_bind. eapply wpe_mono; [by apply (pmm_alloc_grows H PS k)|].
  intros r k1 (i & -> & Hi & G1 & K1 & O1 & _). pose proof (gw_heap _ _ _ _ _ _ G1) as HK1.
  assert (Hc1 : cursor_ok (k_vga k1)) by (destruct (gw_call _ _ _ _ _ _ G1) as (? & ? & ? & ->); done).
  apply wpe_bind. eapply wpe_mono; [apply (kmalloc_small_grows sizeof_Thread _ PS k1 HK1 Hc1); unfold sizeof_Thread; lia|].
  intros t k2 (s & H2 & PS2 & Hs & Hl & G2 & K2 & O2 & L2). pose proof (grows_trans _ _ _ _ _ _ _ _ _ G1 G2) as G12.
  pose proof K1 as (S1 & S2 & S3). pose proof K2 as (T1 & T2 & T3). unfold sizeof_Thread in T2, T3.
  pose proof (taken_later _ _ _ _ _ _ _ _ _ _ K1 G2) as K1'. pose proof (taken_before _ _ _ _ _ _ _ _ _ _ G1 K2) as K2'.
  unfold KERNEL_VIRTUAL_BASE in S1, T1. unfold fresh_stack. rewrite push_words_top. fold (fresh_stack t arg entry).
  apply wpe_wp, wp_bind. eapply wp_mono; [apply (fresh_stack_spec t entry arg); try done; unfold KERNEL_VIRTUAL_BASE; lia|].
  intros sp k3 (m3 & -> & -> & Hfr & Hargs & U3). set (sp := P2V (4096 * i) + 4096 - 52) in *.
  assert (Hstk : forall b, range sp 52 b -> range (P2V (4096 * i)) 4096 b) by (unfold sp, range; intros; lia).
  assert (G3 : grows H PS k H2 PS2 (set_mem m3 k2)).
  { eapply grows_write; [exact G12 | exact U3 |]. intros b Hb. by apply K1', Hstk. }
  assert (Hoff : forall b, range sp 52 b -> ~ quiet H PS b /\ quiet H2 PS2 b /\ ~ range t 36 b).
  { intros b Hb. destruct (S3 b (Hstk b Hb)) as [Hn Hq]. split_and!; [done | by apply (gw_quiet _ _ _ _ _ _ G2)|]. intros Hx. by destruct (T3 b Hx). }
  eapply wp_mono; [apply (spawn_spec T R S H PS k H2 PS2 (set_mem m3 k2) t sp kthread_stub_addr (4096 * i) kernel_page_directory HP HR Hsafe Hlen G3 K2' Hfr)|].
  - unfold sp, KERNEL_VIRTUAL_BASE. lia.
  - unfold sp. lia.
  - exact Hoff.
  - lia.
  - done.
  - destruct (gw_call _ _ _ _ _ _ G12) as (? & ? & ? & ->). done.
  - intros r k' (-> & HW & Est & Epd & Hu). exists sp, H2, PS2. cbn [k_mem set_mem] in Hu.
    assert (Hag : agree m3 (k_mem k') sp 52).
    { eapply untouched_agree; [exact Hu|]. intros b Hb [Hx|Hx]; destruct (Hoff b Hb) as (Hn & _ & Hn'); [done|]. apply Hn, Hsafe. by left. }
    split_and!; [done | | done | rewrite Est; unfold sp; lia | | done].
    + exists i, s. split_and!; [by apply O2 | done | done | done].
    + rewrite <- Hargs, !(ld32_agree m3 (k_mem k')) by (eapply agree_sub; [exact Hag | lia..]). done.
Qed.

(** C21: [thread_create], on any page allocator that keeps its interface, takes a
    stack page and a thread record that nothing used, prepares the stack so that
    the thread resumes at [kthread_stub] with its entry, argument and record,
    numbers the thread, gives it the kernel's address space and puts it behind the
    ready queue; all other threads, queues and memory in use are kept, and the
    scheduler's and the heap's invariants hold with one more thread.  Or the page
    allocator is out of memory. *)
Theorem thread_create_correct T R S H PS entry arg k :
  heap_ok H PS k -> cursor_ok (k_vga k) -> placed T -> sched_rep T (k_mem k) R S -> sched_safe T H PS ->
  Z.of_nat (Datatypes.S (length T)) < 2 ^ 32 -> 0 <= thread_id (k_sched k) < 2 ^ 32 ->
  0 <= entry < 2 ^ 32 -> 0 <= arg < 2 ^ 32 -> 0 <= kthread_stub_addr < 2 ^ 32 -> 0 <= kernel_page_directory < 2 ^ 32 ->
  wpe out_of_memory (thread_create entry arg) k (fun t k' => exists sp H' PS',
    spawned T R S H PS k t sp kthread_stub_addr H' PS' k' /\ owned_thread H' PS' (k_mem k') t /\
    ld32 (k_mem k') (thread_pd t) = kernel_page_directory /\
    sp + 52 = P2V (ld32 (k_mem k') (thread_stack t)) + 4096 /\
    [ld32 (k_mem k') (sp + 36); ld32 (k_mem k') (sp + 40); ld32 (k_mem k') (sp + 44); ld32 (k_mem k') (sp + 48)] = [0; entry; arg; t]).
Proof.
  intros. eapply wpe_mono; [by apply (thread_create_spec T R S H PS entry arg k)|].
  intros t k' (sp & H' & PS' & A1 & A2 & A3 & A4 & A5 & _). by exists sp, H', PS'.
Qed.

(** A block of the client's goes back; the heap and what is quiet stay. *)
Lemma free_block H PS k i o : heap_ok H PS k -> own_block H PS i o ->
  wp (pmm_free (4096 * i)) k (fun _ k' => heap_ok (filter (fun x => x <> (i, o)) H) PS k' /\ allocator_frame pa_bytes k k').
Proof.
  intros HK [Hi Hn]. eapply wp_mono; [by apply (pa_free k H i o (hk_pages _ _ _ HK))|]. intros [] k' [HA Hf]. split; [|done].
  pose proof HK as [A1 A2 (bl & A3) A4 A5]. destruct Hf as (m & bg & -> & Hu). split; [done | done | | | done].
  - exists bl. eapply hstate_frame; [exact A3|]. intros b Hb. apply Hu. intros Hp. apply (heap_fp_held H PS k b HK Hb). by left.
  - intros p Hp. destruct (A4 p Hp) as (j & E & Hj). exists j. split; [done|]. apply list_elem_of_filter. split; [|done].
    intros Eij. apply (Hn p Hp). congruence.
Qed.

Lemma destroy_thread_spec H PS t i s k :
  heap_ok H PS k -> own_block H PS i 0 -> live PS (t - 12) s -> sizeof_Thread <= s -> ld32 (k_mem k) (thread_stack t) = 4096 * i ->
  wp (destroy_thread t) k (fun _ k' => exists H' PS', heap_ok H' PS' k' /\ ((i, 0) ∉ H') /\
    (forall c s', live PS' c s' <-> live PS c s' /\ c <> t - 12) /\
    (forall j o, own_block H PS j o -> (j, o) <> (i, 0) -> own_block H' PS' j o) /\
    untouched (fun b => heap_fp PS b \/ range t s b \/ pa_bytes b) (k_mem k) (k_mem k') /\ heap_call k k').
Proof.
  intros HK Ho Hl Hs E. assert (Hobj : obj H PS t s) by (left; by exists s).
  destruct (obj_place _ _ _ _ _ HK Hobj) as (P1 & P2 & _). unfold sizeof_Thread in Hs. unfold destroy_thread, thread_stack in *.
  apply wp_bind. eapply wp_access; [lia | lia | reflexivity | cbv beta]. rewrite E.
  apply wp_bind. eapply wp_mono; [by apply (free_block H PS k i 0)|]. intros [] k1 [HK1 (m1 & b1 & -> & Hu1)].
  replace t with (t - 12 + 12) at 1 by lia. set (H1 := filter _ H) in *.
  eapply wp_mono; [by apply (kfree_small_spec (t - 12) s H1 PS)|]. intros [] k' (H' & PS' & HT).
  pose proof HT as [G1 Gh Gb Gl Gc _ Gf]. exists H', PS'. split_and!; [done | | done | | |].
  - intros Hin. assert (Hin1 : (i, 0) ∈ H1).
    { destruct Gh as [->|(j & q & _ & _ & _ & ->)]; [done|]. by apply list_elem_of_filter in Hin as [_ ?]. }
    by apply list_elem_of_filter in Hin1 as [? _].
  - intros j o [Hj Hn] Hne. eapply block_taken; [exact HT|]. split; [|done]. apply list_elem_of_filter. done.
  - eapply untouched_trans; eapply untouched_mono; [|exact Hu1| |exact Gf]; [auto|].
    replace (t - 12 + 12) with t by lia. auto.
  - destruct Gc as (m & bb & h & ->). by exists m, bb, h.
Qed.

(** C22: [destroy_thread] of a thread whose [stack] is the physical address of a
    page it holds, as [thread_create] leaves it ([owned_thread]; [create_process] stores a virtual
    address there), gives exactly the thread's stack page and record back:
    the page is no longer held, all other records and blocks are still held with
    their contents, and the heap is well formed. *)
Theorem destroy_thread_correct H PS t k :
  heap_ok H PS k -> owned_thread H PS (k_mem k) t ->
  wp (destroy_thread t) k (fun _ k' => exists H' PS', heap_ok H' PS' k' /\
    (forall i, ld32 (k_mem k) (thread_stack t) = 4096 * i -> (i, 0) ∉ H') /\
    (forall c s, live PS' c s <-> live PS c s /\ c <> t - 12) /\
    (forall j o, own_block H PS j o -> ld32 (k_mem k) (thread_stack t) <> 4096 * j -> own_block H' PS' j o) /\
    (forall p size b, p <> t -> 0 < size -> obj H PS p size -> range p size b -> ld8 (k_mem k') b = ld8 (k_mem k) b)).
Proof.
  intros HK (i & s & Ho & Hl & Hs & E). eapply wp_mono; [by apply (destroy_thread_spec H PS t i s)|].
  intros [] k' (H' & PS' & D1 & D2 & D3 & D4 & D5 & _). exists H', PS'. split_and!; [done | | done | |].
  - intros j Ej. by replace j with i by lia.
  - intros j o Hj Hne. apply D4; [done|]. intros Eij. injection Eij as -> ->. done.
  - intros p size b Hne H0 Hp Hb. apply D5. assert (Hobj : obj H PS t s) by (left; by exists s).
    pose proof (obj_kept _ _ _ _ _ b HK Hp Hb) as Hk. unfold sizeof_Thread in Hs.
    pose proof (obj_apart _ _ _ _ _ _ _ HK Hp Hobj Hne H0 ltac:(lia)) as Hap.
    intros [Hx|[Hx|Hx]]; [apply Hk; by left | unfold apart, range in *; lia | apply Hk; right; by left].
Qed.
End create.
