(* ===== verification/Reaper.v ===== *)
(** * The end of a thread: src/kernel/reaper.c and [do_exit]

    A thread that ends becomes a zombie: it leaves the CPU for good, waits in the
    reaper's queue, and the reaper, woken if it sleeps, gives its stack and its
    record back. *)

From Stdlib Require Import ZArith Lia Bool Sorted.
From stdpp Require Import base functions list gmap strings.
From S2P Require Import Prelude Machine StringLib Console Node Queue Bump Buddy BuddyModel BuddyRefine BuddyInit Pmm Devices Descriptors Heap HeapModel HeapSteps HeapPages HeapCompact HeapAlloc HeapFree HeapTheorems HeapClient Sched SchedModel Switch SchedTheorems Threads.

Section reaper.
Context `{BS : BuddySymbols} `{HS : HeapSymbols} `{TS : TableSymbols} `{SS : SchedSymbols}.
Context (T : list Z) (HP : placed T).

(** ** The zombies *)

(** The reaper's queue holds [Zs]: no zombie waits, sleeps or runs. *)
Record zombies (cur idle r : Z) (R S Zs : list Z) (m : memory) : Prop := {
  zo_queue : queue m zombie_que Zs;
  zo_nodup : NoDup Zs;
  zo_gone : forall t, t ∈ Zs -> t ∈ T /\ t ∉ cur :: idle :: r :: R ++ S }.

(** The reaper [r] is ready exactly when its status says so. *)
Record reaper_thread (idle r : Z) (R S : list Z) (k : kernel) : Prop := {
  rp_global : reaper (k_sched k) = r;
  rp_thread : r ∈ T /\ r <> idle /\ r ∉ S;
  rp_ready : status (k_mem k) r = RUNNABLE <-> r ∈ R }.

Lemma zombie_not_run : zombie_que ∉ [que; sleep_que].
Proof.
  intros Hq. pose proof (pl_distinct T HP) as Hn. unfold queues in Hn. apply NoDup_cons in Hn as [N1 [N2 _]%NoDup_cons].
  rewrite elem_of_cons, list_elem_of_singleton in Hq, N1. rewrite list_elem_of_singleton in N2. intuition congruence.
Qed.

(** What keeps the reaper's queue: the scheduler's data and the TSS are no part
    of it, and the links of the zombies are kept. *)
Lemma zombie_queue_kept m m' Zs X (F : Z -> Prop) :
  queue m zombie_que Zs -> (forall t, t ∈ Zs -> t ∈ T /\ t ∉ X) -> links_kept T X m m' ->
  untouched (fun b => sched_bytes T b \/ range (tss_esp0 tss) 4 b \/ F b) m m' ->
  (forall b, F b -> ~ range zombie_que 12 b) -> queue m' zombie_que Zs.
Proof.
  intros HQ HZ HL HU HF. eapply queue_frame; [exact HQ | |].
  - eapply untouched_agree; [exact HU|]. intros b Hb [[(q & Hq & Hr)|(t & Ht & Hr)]|[Hr|Hr]].
    + assert (q <> zombie_que) by (intros ->; by apply zombie_not_run).
      pose proof (pl_ques T HP q zombie_que (run_queue q Hq) zombie_in ltac:(done)). unfold apart, range, sizeof_DLList in *. lia.
    + pose proof (pl_que_thread T HP zombie_que t zombie_in Ht). unfold apart, range, sizeof_DLList, sizeof_Thread in *. lia.
    + pose proof (pl_tss_que T HP zombie_que zombie_in). unfold apart, range, tss_esp0, sizeof_DLList, sizeof_TSS_ENTRY in *. lia.
    + by apply (HF b).
  - intros a Ha. destruct (HZ a Ha). by apply HL.
Qed.

(** [sti] or not, [ATOMIC_START] and [ATOMIC_END] leave the flag as it was. *)
Lemma atomic_same k m b : b = eflags_if (k_cpu k) ->
  set_cpu (set_if b (k_cpu (set_mem m (set_cpu (set_if false (k_cpu k)) k)))) (set_mem m (set_cpu (set_if false (k_cpu k)) k)) = set_mem m k.
Proof. intros ->. by destruct k as [? ? ? [] ? ? ? ? ? ? ?]. Qed.

(** ** A thread becomes a zombie *)

Definition with_reaper (r : Z) (R : list Z) : list Z := if decide (r ∈ R) then R else R ++ [r].

Record zombified (z r : Z) (R S Zs : list Z) (m m' : memory) : Prop := {
  zf_rep : sched_rep T m' (with_reaper r R) S;
  zf_queue : queue m' zombie_que (Zs ++ [z]);
  zf_status : status m' z = ZOMBIE;
  zf_reaper : status m' r = RUNNABLE;
  zf_kept : kept T [z; r] m m';
  zf_bytes : untouched (fun b => sched_bytes T b \/ range zombie_que 12 b) m m' }.

(** The thread enters the queue. *)
Lemma push_zombie_spec z R S Zs k (Q : unit -> kernel -> Prop) :
  sched_rep T (k_mem k) R S -> z ∈ T -> z ∉ R ++ S -> queue (k_mem k) zombie_que Zs -> NoDup (z :: Zs) ->
  (forall t, t ∈ Zs -> t ∈ T /\ t ∉ R ++ S) ->
  (forall m', sched_rep T m' R S -> queue m' zombie_que (Zs ++ [z]) -> status m' z = ZOMBIE -> kept T [z] (k_mem k) m' ->
     untouched (fun b => sched_bytes T b \/ range zombie_que 12 b) (k_mem k) m' -> Q tt (set_mem m' k)) ->
  wp (store32 (thread_status z) ZOMBIE;; list_push_back zombie_que (thread_node z)) k Q.
Proof.
  intros HR Hz Hn HQz Hnd HZ HQ. destruct (pl_mapped T HP z Hz) as [M1 M2]. unfold sizeof_Thread in M2.
  apply wp_bind. unfold thread_status at 1. eapply wp_access; [lia | lia | reflexivity | cbv beta]. set (m1 := st32 _ _ _).
  assert (Hf : forall b, range (z + 16) 4 b -> range (z + 8) 28 b) by (unfold range; intros; lia).
  assert (U1 : untouched (range (z + 16) 4) (k_mem k) m1) by apply st32_untouched.
  assert (Hin : forall t, t ∈ z :: Zs -> t ∈ T) by (intros t [->|Ht]%elem_of_cons; [done | by apply HZ]).
  assert (HQ1 : queue m1 zombie_que Zs).
  { eapply (field_store_queue T HP); [exact Hz | exact Hf | exact U1 | apply zombie_in | | exact HQz]. intros u Hu. by apply HZ. }
  assert (R1 : sched_rep T m1 R S) by (eapply (field_store_rep T HP); [exact Hz | exact Hf | exact U1 | exact HR]).
  eapply wp_mono; [apply (list_push_back_spec zombie_que (set_mem m1 k) z Zs); [exact HQ1|]; by apply (placed_queue_ok T HP); [apply zombie_in|..]|].
  intros [] k2 (m2 & -> & Hq2 & U2). cbn [k_mem set_mem] in *.
  assert (K2 : kept T [] m1 m2) by (eapply (queue_op_kept T HP); [apply zombie_in | exact Hin | exact U2]).
  assert (Hq : forall q l, q ∈ [que; sleep_que] -> (forall t, t ∈ l -> t ∈ R ++ S) -> queue m1 q l -> queue m2 q l).
  { intros q l Hq Hl. eapply (queue_op_other T HP zombie_que (z :: Zs)); [apply zombie_in | by apply run_queue | | exact Hin | | | exact U2].
    - intros <-. by apply zombie_not_run in Hq.
    - intros t Ht. by apply (sr_threads _ _ _ _ R1), Hl.
    - intros t Ht [->|Hx]%elem_of_cons; [auto | by apply (HZ t Hx), Hl]. }
  destruct R1 as [Q1 Q2 Q3 Q4]. apply (HQ m2).
  - split; [apply Hq; [left | intros t Ht; rewrite elem_of_app; auto | done] | apply Hq; [right; left | intros t Ht; rewrite elem_of_app; auto | done] | done | done].
  - exact Hq2.
  - unfold status. rewrite (ld32_agree m1 m2); [unfold m1, thread_status; by rewrite ld32_st32_eq|].
    apply (kept_agree T [] m1 m2 z 16 4 K2 Hz); [lia | lia |]. intros Hx. by apply elem_of_nil in Hx.
  - eapply kept_trans; [by apply (status_store_kept T HP)|]. eapply kept_mono; [|exact K2]. intros u Hu. by apply elem_of_nil in Hu.
  - eapply untouched_trans; eapply untouched_mono; [|exact U1| |exact U2].
    + intros b Hb. left. apply (thread_byte T z); [done|]. unfold range in *. lia.
    + intros b [Hb|(a & Ha & Hb)]; [by right | left]. apply (thread_byte T a); [by apply Hin|]. unfold range, sizeof_Node in *. lia.
Qed.

Lemma reaper_add_spec z idle r R S Zs k :
  sched_rep T (k_mem k) R S -> z ∈ T -> z ∉ R ++ S -> z <> r -> queue (k_mem k) zombie_que Zs -> NoDup (z :: Zs) ->
  (forall t, t ∈ Zs -> t ∈ T /\ t ∉ r :: R ++ S) -> reaper_thread idle r R S k ->
  wp (reaper_add z) k (fun _ k' => exists m', k' = set_mem m' k /\ zombified z r R S Zs (k_mem k) m').
Proof.
  intros HR Hz Hn Hzr HQz Hnd HZ [G1 (G2 & G3 & G4) G5].
  assert (HZ' : forall t, t ∈ Zs -> t ∈ T /\ t ∉ R ++ S) by (intros t Ht; destruct (HZ t Ht) as [? Hx]; split; [done|]; by apply not_elem_of_cons in Hx as [_ ?]).
  unfold reaper_add. apply wp_bind. unfold ATOMIC_START, cli. apply wp_bind, wp_gets. apply wp_bind, wp_modify, wp_ret.
  set (k0 := set_cpu _ k). apply wp_assoc, wp_bind. apply (push_zombie_spec z R S Zs k0); try done.
  intros m1 R1 Q1 E1 K1 U1. apply wp_bind, wp_gets. cbn [k_sched set_mem k0 set_cpu]. rewrite G1.
  destruct (pl_mapped T HP r G2) as [M1 M2]. unfold sizeof_Thread in M2.
  apply wp_bind. unfold thread_status at 1. eapply wp_access; [lia | lia | reflexivity | cbv beta].
  change (ld32 (k_mem (set_mem m1 k0)) (r + 16)) with (status m1 r).
  assert (Er : status m1 r = status (k_mem k) r).
  { apply (kept_status _ _ _ _ _ K1 G2). rewrite list_elem_of_singleton. congruence. }
  apply wp_bind, wp_when; intros Hb; unfold ATOMIC_END.
  - assert (HrR : r ∉ R). { intros Hx%G5. rewrite Er, Hx in Hb. done. }
    eapply wp_mono; [apply (enqueue_spec T r R S (set_mem m1 k0) HP R1 G2); rewrite elem_of_app; tauto|].
    intros [] k2 (m2 & -> & R2 & E2 & K2 & U2 & L2). apply wp_modify. exists m2. cbn [k_mem set_mem] in *. split; [by apply atomic_same|].
    assert (Ew : with_reaper r R = R ++ [r]) by (unfold with_reaper; by rewrite decide_False).
    split; rewrite ?Ew; try done.
    + eapply (zombie_queue_kept m1 m2 _ (R ++ [r]) (fun _ => False)); [exact Q1 | | exact L2 | | done].
      * intros t [Ht|Ht%list_elem_of_singleton]%elem_of_app; [destruct (HZ t Ht) as [? Hx]; rewrite elem_of_cons, elem_of_app in Hx | subst t; rewrite elem_of_app in Hn];
          rewrite elem_of_app, list_elem_of_singleton; tauto.
      * eapply untouched_mono; [|exact U2]. auto.
    + rewrite <- E1. apply (kept_status _ _ _ _ _ K2 Hz). by rewrite list_elem_of_singleton.
    + eapply kept_trans; eapply kept_mono; [|exact K1| |exact K2]; intros u; rewrite !elem_of_cons; tauto.
    + eapply untouched_trans; [exact U1|]. eapply untouched_mono; [|exact U2]. auto.
  - assert (HrR : status m1 r = RUNNABLE) by (by apply negb_false_iff, Z.eqb_eq in Hb).
    apply wp_modify. exists m1. split; [by apply atomic_same|].
    assert (Ew : with_reaper r R = R) by (unfold with_reaper; rewrite decide_True; [done | apply G5; congruence]).
    split; rewrite ?Ew; try done.
    eapply kept_mono; [|exact K1]. intros u. rewrite !elem_of_cons. tauto.
Qed.

(** ** The switch away from a thread that is not to be requeued *)

Record retired (cur idle : Z) (R S Zs : list Z) (nsp : Z) (gs' : list Z) (k k' : kernel) : Prop := {
  rt_inv : sched_inv T (hd idle R) idle (tail R) S k';
  rt_zombies : queue (k_mem k') zombie_que Zs;
  rt_next : hd idle R <> idle -> status (k_mem k') (hd idle R) = RUNNING;
  rt_others : forall u, u ∈ T -> u <> hd idle R -> status (k_mem k') u = status (k_mem k) u;
  rt_reaper : reaper (k_sched k') = reaper (k_sched k);
  rt_regs : gprs (k_cpu k') = gs' /\ esp (k_cpu k') = nsp + 36 }.

Definition off_zombies (a n : Z) : Prop := forall b, range a n b -> ~ range zombie_que 12 b.

Lemma retire_spec cur idle R S Zs k gs sp gs' nsp eip' :
  sched_rep T (k_mem k) R S -> cur_thread (k_sched k) = cur -> idle_thread (k_sched k) = idle ->
  cur ∈ T -> idle ∈ T -> cur ∉ R -> cur <> idle -> status (k_mem k) cur <> RUNNING ->
  idle ∉ R ++ S -> status (k_mem k) idle <> RUNNING -> StronglySorted (wakes_before (wake (k_mem k))) S ->
  running k gs sp -> off_sched T (sp - 32) 36 -> off_zombies (sp - 32) 36 ->
  KERNEL_VIRTUAL_BASE + 32 <= sp -> sp + 4 < 2 ^ 32 ->
  suspended T (k_mem k) (hd idle R) nsp gs' eip' -> (sp + 4 <= nsp \/ nsp + 36 <= sp - 32) ->
  queue (k_mem k) zombie_que Zs -> (forall t, t ∈ Zs -> t ∈ T /\ t ∉ R) ->
  wp scheduler k (fun e k' => e = eip' /\ retired cur idle R S Zs nsp gs' k k').
Proof.
  intros HR Hcur Hidle HcT HiT Hc Hne Hst Hi Hsi Hso Hrun Hoff Hoz Hs1 Hs2 Hsu Hap HQz HZ.
  assert (Hrq : requeued (k_mem k) cur R = R) by (unfold requeued; by destruct (Z.eqb_spec (status (k_mem k) cur) RUNNING)).
  assert (HnT : hd idle R ∈ T).
  { destruct R as [|t l]; [done|]. apply (sr_threads _ _ _ _ HR). left. }
  assert (Hnc : hd idle R <> cur).
  { destruct R as [|t l]; cbn [hd]; [congruence|]. intros ->. apply Hc. left. }
  eapply wp_mono; [apply (scheduler_spec T HP cur idle (hd idle R) R S k gs sp gs' nsp eip'); try done; by rewrite Hrq|].
  intros e k' (-> & [(m1 & HPk & U) P2 P3 _ P5 _ _]). split; [done|].
  assert (Hst' : forall u, u ∈ T -> status (k_mem k') u = status m1 u).
  { intros u Hu. apply ld32_agree. apply (switch_keeps_field T HP m1 (k_mem k') cur sp u 16 4); (done || lia). }
  split; try done.
  - rewrite <- Hrq at 2. apply (picked_inv T HP cur idle (hd idle R) R S sp k m1 k'); try done; by rewrite P3.
  - assert (HQ1 : queue m1 zombie_que Zs).
    { eapply (zombie_queue_kept (k_mem k) m1 Zs R (fun _ => False)); [exact HQz | exact HZ | | | done].
      - rewrite <- Hrq. apply (pk_links _ _ _ _ _ _ _ _ HPk).
      - eapply untouched_mono; [|apply (pk_bytes _ _ _ _ _ _ _ _ HPk)]. tauto. }
    eapply (zombie_queue_kept m1 (k_mem k') Zs [] (fun b => range (sp - 32) 32 b)); [exact HQ1 | | | |].
    + intros t Ht. split; [by apply HZ | apply not_elem_of_nil].
    + intros u Hu _ b Hb. apply U. intros [Hr|Hr].
      * destruct (Hoff b) as [Hx _]; [unfold range in *; lia|]. apply Hx, (thread_byte T u); [done|]. unfold range in *. lia.
      * destruct (decide (u = cur)) as [->|Hx]; [unfold range, thread_esp in *; lia|].
        pose proof (pl_apart T HP u cur Hu HcT Hx). unfold apart, range, thread_esp, sizeof_Thread in *. lia.
    + eapply untouched_mono; [|exact U]. intros b [Hb|Hb]; [by right; right|]. left. apply (thread_byte T cur); [done|]. unfold range, thread_esp in *. lia.
    + intros b Hb. apply Hoz. unfold range in *. lia.
  - intros Hx. rewrite Hst' by done. by apply (pk_running _ _ _ _ _ _ _ _ HPk).
  - intros u Hu Hx. rewrite Hst' by done. destruct (decide (u = cur)) as [->|Huc].
    + by apply (pk_left _ _ _ _ _ _ _ _ HPk).
    + apply (kept_status _ _ _ _ _ (pk_kept _ _ _ _ _ _ _ _ HPk) Hu). rewrite !elem_of_cons. rewrite elem_of_nil. tauto.
  - by rewrite P3.
Qed.

(** ** The end of a thread *)

Lemma with_reaper_cons idle r R : exists n l, with_reaper r R = n :: l /\ hd idle (with_reaper r R) = n.
Proof.
  unfold with_reaper. destruct (decide (r ∈ R)) as [Hr|Hr]; destruct R as [|n l]; cbn; eauto. by apply elem_of_nil in Hr.
Qed.

Lemma with_reaper_in r R t : t ∈ with_reaper r R <-> t = r \/ t ∈ R.
Proof.
  unfold with_reaper. destruct (decide (r ∈ R)); [|rewrite elem_of_app, list_elem_of_singleton; tauto].
  split; [auto | intros [->|?]; done].
Qed.

(** The state while [cur] runs, with the reaper [r] and the zombies [Zs]. *)
Record population (cur idle r : Z) (R S Zs : list Z) (k : kernel) : Prop := {
  po_inv : sched_inv T cur idle R S k;
  po_zombies : zombies cur idle r R S Zs (k_mem k);
  po_reaper : reaper_thread idle r R S k }.

Lemma do_exit_spec cur idle r R S Zs gs sp gs' nsp eip' k :
  sched_state T cur idle R S gs sp k -> zombies cur idle r R S Zs (k_mem k) -> reaper_thread idle r R S k ->
  cur <> idle -> cur <> r -> off_zombies (sp - 32) 36 -> off_zombies nsp 36 ->
  suspended T (k_mem k) (hd idle (with_reaper r R)) nsp gs' eip' -> (sp + 4 <= nsp \/ nsp + 36 <= sp - 32) ->
  wp do_exit k (fun _ k' =>
    let next := hd idle (with_reaper r R) in
    population next idle r (tail (with_reaper r R)) S (Zs ++ [cur]) k' /\
    status (k_mem k') cur = ZOMBIE /\ status (k_mem k') next = RUNNING /\
    gprs (k_cpu k') = gs' /\ esp (k_cpu k') = nsp + 36).
Proof.
  intros [[HR (C1 & C2 & C3) (I1 & I2 & I3 & I4) Hso] Hrun (Ho & B1 & B2)] [Z1 Z2 Z3] HRt Hci Hcr Hoz1 Hoz2 Hsu Hap.
  pose proof HRt as [G1 (G2 & G3 & G4) G5]. set (R1 := with_reaper r R) in *.
  assert (Hnd : NoDup (cur :: Zs)).
  { constructor; [|done]. intros Hx. destruct (Z3 _ Hx) as [_ Hn]. apply Hn. left. }
  assert (HZ : forall t, t ∈ Zs -> t ∈ T /\ t <> cur /\ t <> idle /\ t <> r /\ (t ∉ R) /\ t ∉ S).
  { intros t Ht. destruct (Z3 t Ht) as [Hx Hn]. rewrite !elem_of_cons, elem_of_app in Hn. tauto. }
  unfold do_exit, get_cur_thread. apply wp_bind, wp_gets. rewrite C1. apply wp_bind.
  eapply wp_mono; [apply (reaper_add_spec cur idle r R S Zs); try done|].
  { intros t Ht. destruct (HZ t Ht). rewrite elem_of_cons, elem_of_app. tauto. }
  intros [] k1 (m1 & -> & [F1 F2 F3 F4 F5 F6]). fold R1 in F1.
  rewrite elem_of_app in C3, I3.
  assert (Hidl : status m1 idle = status (k_mem k) idle).
  { apply (kept_status _ _ _ _ _ F5 I2). rewrite !elem_of_cons, elem_of_nil. intuition congruence. }
  destruct (with_reaper_cons idle r R) as (n & l & El & En). fold R1 in El, En.
  assert (HnR : n = r \/ n ∈ R) by (apply with_reaper_in; fold R1; rewrite El; left).
  assert (HnT : n ∈ T) by (apply (sr_threads _ _ _ _ F1); rewrite El; left).
  apply wp_bind. eapply wp_mono; [apply (retire_spec cur idle R1 S (Zs ++ [cur]) (set_mem m1 k) gs sp gs' nsp eip'); cbn [k_mem set_mem k_sched]; try done|].
  - unfold R1. rewrite with_reaper_in. tauto.
  - by rewrite F3.
  - unfold R1. rewrite elem_of_app, with_reaper_in. intros [[?|?]|?]; [congruence | tauto | tauto].
  - by rewrite Hidl.
  - eapply sorted_ext; [|exact Hso]. intros t Ht. apply (kept_wake _ _ _ _ _ F5). apply (sr_threads _ _ _ _ HR). rewrite elem_of_app. auto.
  - destruct Hsu as [S1 S2 S3 S4]. rewrite En in *. split; try done.
    + rewrite <- S1. apply ld32_agree. apply (kept_agree _ _ _ _ n 8 4 F5); (done || lia).
    + eapply frame_agree; [exact S2|]. eapply untouched_agree; [exact F6|]. intros b Hb [Hx|Hx]; [by destruct (S4 b Hb) | by apply (Hoz2 b Hb)].
  - intros t [Ht|Ht%list_elem_of_singleton]%elem_of_app; unfold R1; rewrite with_reaper_in; [destruct (HZ t Ht); split; [done | tauto] | subst t; split; [done | tauto]].
  - intros e k' (_ & [X1 X2 X3 X4 X5 [X6 X7]]). apply wp_ret. cbv zeta. cbn [k_mem set_mem k_sched] in *.
    rewrite El in *. cbn [hd tail] in *. clear En.
    assert (Hni : n <> idle) by (destruct HnR as [->|?]; [done | intros ->; tauto]).
    assert (Hnc : n <> cur) by (destruct HnR as [->|?]; [congruence | intros ->; tauto]).
    split; [split; [exact X1 | split | split] |].
    + exact X2.
    + apply NoDup_app. split_and!; [done | |apply NoDup_singleton]. intros t Ht ->%list_elem_of_singleton. by apply HZ in Ht as (_ & ? & _).
    + assert (Hin : forall t, t ∈ n :: l -> t = r \/ t ∈ R) by (intros t; rewrite <- El; unfold R1; by rewrite with_reaper_in).
      intros t Ht. assert (HtT : t ∈ T /\ t <> idle /\ t <> r /\ (t ∉ R) /\ t ∉ S).
      { apply elem_of_app in Ht as [Ht|Ht%list_elem_of_singleton]; [destruct (HZ t Ht); tauto|]. subst t. tauto. }
      destruct HtT as (T1 & T2 & T3 & T4 & T5). split; [done|]. rewrite !elem_of_cons, elem_of_app.
      intros [->|[->|[->|[Hx|Hx]]]]; try done; [destruct HnR; done|]. destruct (Hin t) as [|]; [by right | done | done].
    + by rewrite X5.
    + done.
    + assert (Hndl : NoDup (n :: l)).
      { apply (sr_nodup _ _ _ _) in F1. by apply NoDup_app in F1 as (? & _). }
      apply NoDup_cons in Hndl as [Hnl _]. destruct (decide (n = r)) as [->|Hnr].
      * rewrite X3 by done. split; [done|]. intros Hx. done.
      * rewrite X4, F4 by done. split; [|done]. intros _.
        assert (Hx : r ∈ n :: l) by (rewrite <- El; unfold R1; rewrite with_reaper_in; by left).
        apply elem_of_cons in Hx as [Hx|Hx]; [congruence | done].
    + split_and!; [|by apply X3 | done | done]. by rewrite X4.
Qed.

(** ** The reaper's turn *)

(** With nothing to do the reaper goes to sleep. *)
Lemma reaper_sleep_spec idle r R S gs sp gs' nsp eip' k :
  sched_state T r idle R S gs sp k -> zombies r idle r R S [] (k_mem k) -> reaper_thread idle r R S k ->
  off_zombies (sp - 32) 36 ->
  suspended T (k_mem k) (hd idle R) nsp gs' eip' -> (sp + 4 <= nsp \/ nsp + 36 <= sp - 32) ->
  wp reaper_turn k (fun _ k' =>
    population (hd idle R) idle r (tail R) S [] k' /\ status (k_mem k') r = SLEEPING /\
    gprs (k_cpu k') = gs' /\ esp (k_cpu k') = nsp + 36).
Proof.
  intros [[HR (C1 & C2 & C3) (I1 & I2 & I3 & I4) Hso] Hrun (Ho & B1 & B2)] [Z1 Z2 Z3] [G1 (G2 & G3 & G4) G5] Hoz Hsu Hap.
  destruct (pl_que T HP zombie_que zombie_in) as [M1 M2]. unfold sizeof_DLList in M2.
  destruct (pl_mapped T HP r G2) as [M3 M4]. unfold sizeof_Thread in M4.
  unfold reaper_turn. apply wp_bind. unfold ATOMIC_START, cli. apply wp_bind, wp_gets. apply wp_bind, wp_modify, wp_ret.
  apply wp_bind. unfold list_head at 1. eapply wp_access; [lia | lia | reflexivity | cbv beta]. cbn [k_mem set_cpu].
  pose proof Z1 as (Hh & _). unfold list_head in Hh. rewrite Hh. cbn [hd NULL Z.eqb negb].
  apply wp_bind, wp_gets. cbn [k_sched set_cpu]. rewrite G1.
  apply wp_bind. unfold thread_status at 1. eapply wp_access; [lia | lia | reflexivity | cbv beta]. cbn [k_mem set_cpu].
  unfold ATOMIC_END. apply wp_bind, wp_modify. rewrite atomic_same by done. set (m1 := st32 _ _ _).
  change (r + 16) with (thread_status r) in m1.
  assert (K1 : kept T [r] (k_mem k) m1) by (by apply (status_store_kept T HP)).
  assert (U1 : untouched (range (thread_status r) 4) (k_mem k) m1) by apply st32_untouched.
  assert (Hf : forall b, range (thread_status r) 4 b -> range (r + 8) 28 b) by (unfold range, thread_status; intros; lia).
  assert (E1 : status m1 r = SLEEPING) by (unfold status, m1; by rewrite ld32_st32_eq).
  assert (HR1 : sched_rep T m1 R S) by (eapply (field_store_rep T HP); [exact G2 | exact Hf | exact U1 | exact HR]).
  rewrite elem_of_app in C3.
  assert (HnT : hd idle R ∈ T /\ hd idle R <> r).
  { destruct R as [|t l]; cbn [hd]; [by split|]. split; [apply (sr_threads _ _ _ _ HR); left|]. intros ->. apply C3. left. left. }
  destruct HnT as [HnT Hnr].
  apply wp_bind. eapply wp_mono; [apply (retire_spec r idle R S [] (set_mem m1 k) gs sp gs' nsp eip'); cbn [k_mem set_mem k_sched]; try done|].
  - tauto.
  - by rewrite E1.
  - rewrite (kept_status _ _ _ _ _ K1 I2); [done|]. rewrite list_elem_of_singleton. congruence.
  - eapply sorted_ext; [|exact Hso]. intros t Ht. apply (kept_wake _ _ _ _ _ K1). apply (sr_threads _ _ _ _ HR). rewrite elem_of_app. auto.
  - eapply suspended_kept; [exact Hsu | apply (kept_agree _ _ _ _ _ 8 4 K1); (done || lia) |].
    eapply untouched_mono; [|exact U1]. intros b Hb. apply (thread_byte T r); [done|]. apply Hf in Hb. unfold range in *. lia.
  - eapply (field_store_queue T HP); [exact G2 | exact Hf | exact U1 | apply zombie_in | intros u Hu; by apply elem_of_nil in Hu | exact Z1].
  - intros t Ht. by apply elem_of_nil in Ht.
  - intros e k' (_ & [X1 X2 X3 X4 X5 [X6 X7]]). apply wp_ret. cbn [k_mem set_mem k_sched] in *.
    split_and!; [split; [exact X1 | split; [exact X2 | done | intros t Ht; by apply elem_of_nil in Ht] | split] | | done | done].
    + by rewrite X5.
    + done.
    + rewrite X4, E1 by congruence. split; [done|]. intros Hx. exfalso. apply C3. left. destruct R; [done|]. by right.
    + by rewrite X4 by congruence.
Qed.
End reaper.

(** ** Reaping *)

Section reap.
Context `{BS : BuddySymbols} `{HS : HeapSymbols} `{TS : TableSymbols} `{SS : SchedSymbols}
  `{PA : !PageAllocator pmm_alloc pmm_free get_order_addr}.

Definition without (z : Z) (T : list Z) : list Z := filter (fun t => t <> z) T.

Lemma without_in z T t : t ∈ without z T <-> t <> z /\ t ∈ T.
Proof. unfold without. by rewrite list_elem_of_filter. Qed.

Lemma placed_without z T : placed T -> placed (without z T).
Proof.
  intros [P1 P2 P3 P4 P5 P6 P7 P8 P9 P10 P11].
  assert (Hin : forall t, t ∈ without z T -> t ∈ T) by (intros t Ht; by apply without_in in Ht as [_ ?]).
  split; auto.
  - by apply NoDup_filter.
  - assert (length (without z T) <= length T)%nat; [|lia]. apply sublist_length, sublist_filter.
Qed.

(** Thread records are objects of the heap, the queues and the TSS lie below the
    memory the page allocator gives out. *)
Definition threads_live (T : list Z) (PS : list hpage) : Prop := forall t, t ∈ T -> exists s, live PS (t - 12) s /\ sizeof_Thread <= s.
Definition statics_low : Prop := forall b, sched_statics b -> b < 4096 * pa_low + KERNEL_VIRTUAL_BASE /\ ~ pa_bytes b /\ ~ statics b.

Lemma live_high H PS k t s b : heap_ok H PS k -> live PS (t - 12) s -> range t s b -> 4096 * pa_low + KERNEL_VIRTUAL_BASE <= b.
Proof.
  intros HK Hl Hb. destruct (live_in_page _ _ _ _ _ HK Hl) as (q & Hq & B1 & B2 & _). destruct (hk_held _ _ _ HK q Hq) as (i & E & Hi).
  destruct (block_bytes _ _ _ _ (hk_pages _ _ _ HK) Hi) as [Ev _]. destruct (pa_block _ _ _ _ (hk_pages _ _ _ HK) Hi) as (_ & _ & Hlo & _).
  rewrite E, Ev in B1. unfold range in Hb. lia.
Qed.

Lemma sched_quiet T H PS k b : heap_ok H PS k -> threads_live T PS -> statics_low -> sched_bytes T b \/ sched_statics b -> quiet H PS b.
Proof.
  intros HK HT Hlow [[(q & Hq & Hb)|(t & Ht & Hb)]|Hb].
  - destruct (Hlow b) as (L1 & L2 & L3); [left; exists q; split; [by apply run_queue | done]|]. by eapply low_is_quiet.
  - destruct (HT t Ht) as (s & Hl & Hs). unfold sizeof_Thread in Hs. eapply (obj_kept _ _ _ t 36 b HK); [left; exists s; split; [done | lia] | done].
  - destruct (Hlow b Hb) as (L1 & L2 & L3). by eapply low_is_quiet.
Qed.

(** The state of the scheduler in memory that agrees on its data. *)
Lemma population_same T T' cur idle r R S Zs k k' :
  population T cur idle r R S Zs k -> k_sched k' = k_sched k ->
  (forall b, sched_bytes T' b \/ range zombie_que 12 b -> ld8 (k_mem k') b = ld8 (k_mem k) b) ->
  (forall t, t ∈ T' -> t ∈ T) -> (forall t, t ∈ cur :: idle :: r :: R ++ S ++ Zs -> t ∈ T') ->
  population T' cur idle r R S Zs k'.
Proof.
  intros [[HR (C1 & C2 & C3) (I1 & I2 & I3 & I4) Hso] [Z1 Z2 Z3] [G1 (G2 & G3 & G4) G5]] Eg Hm Hsub Hin.
  assert (Hf : forall t off n, t ∈ T' -> 0 <= off -> off + n <= 36 -> agree (k_mem k) (k_mem k') (t + off) n).
  { intros t off n Ht O1 O2 b Hb. apply Hm. left. apply (thread_byte T' t); [done|]. unfold range in *. lia. }
  assert (Hst : forall t, t ∈ T' -> status (k_mem k') t = status (k_mem k) t) by (intros t Ht; apply ld32_agree, Hf; [done | lia..]).
  assert (HinR : forall t, t ∈ R ++ S -> t ∈ T').
  { intros t Ht. apply Hin. rewrite !elem_of_cons, app_assoc, elem_of_app. auto. }
  assert (HinZ : forall t, t ∈ Zs -> t ∈ T') by (intros t Ht; apply Hin; rewrite !elem_of_cons, !elem_of_app; auto 7).
  split; [split | split | split].
  - eapply sched_rep_same; [|intros b Hb; apply Hm; by left]. destruct HR as [Q1 Q2 Q3 Q4]. by split.
  - rewrite Eg. split_and!; [done | apply Hin; left | done].
  - rewrite Eg. rewrite Hst by (apply Hin; right; left). split_and!; [done | apply Hin; right; left | done | done].
  - eapply sorted_ext; [|exact Hso]. intros t Ht. apply ld64_agree, Hf; [apply HinR; rewrite elem_of_app; auto | lia..].
  - eapply queue_frame; [exact Z1 | intros b Hb; apply Hm; by right |]. intros a Ha. rewrite <- (Z.add_0_r a). apply Hf; [by apply HinZ | lia..].
  - done.
  - intros t Ht. split; [by apply HinZ | by apply Z3].
  - by rewrite Eg.
  - split_and!; [apply Hin; right; right; left | done | done].
  - rewrite Hst by (apply Hin; right; right; left). done.
Qed.

Lemma pop_zombie_spec T cur idle r R S z Zs k :
  placed T -> population T cur idle r R S (z :: Zs) k ->
  wp (list_pop_front zombie_que) k (fun v k' => v = z /\ exists m', k' = set_mem m' k /\
    population T cur idle r R S Zs k' /\ kept T [] (k_mem k) m' /\
    untouched (fun b => sched_bytes T b \/ range zombie_que 12 b) (k_mem k) m').
Proof.
  intros HP [[HR (C1 & C2 & C3) (I1 & I2 & I3 & I4) Hso] [Z1 Z2 Z3] [G1 (G2 & G3 & G4) G5]].
  assert (HzT : forall t, t ∈ z :: Zs -> t ∈ T) by (intros t Ht; by apply Z3).
  eapply wp_mono; [apply (list_pop_front_spec zombie_que k z Zs Z1); by apply (placed_queue_ok T HP); [apply zombie_in|..]|].
  intros v k' (-> & m' & -> & Hq & U). split; [done|]. exists m'. split; [done|].
  assert (K : kept T [] (k_mem k) m') by (eapply (queue_op_kept T HP); [apply zombie_in | exact HzT | exact U]).
  assert (Hst : forall t, t ∈ T -> status m' t = status (k_mem k) t) by (intros t Ht; apply (kept_status _ _ _ _ _ K Ht), not_elem_of_nil).
  assert (Hqs : forall q l, q ∈ [que; sleep_que] -> (forall t, t ∈ l -> t ∈ R ++ S) -> queue (k_mem k) q l -> queue m' q l).
  { intros q l Hq' Hl. eapply (queue_op_other T HP zombie_que (z :: Zs)); [apply zombie_in | by apply run_queue | | exact HzT | | | exact U].
    - intros <-. by apply (zombie_not_run T HP) in Hq'.
    - intros t Ht. by apply (sr_threads _ _ _ _ HR), Hl.
    - intros t Ht Hx. destruct (Z3 t Hx) as [_ Hn]. apply Hn. do 3 right. by apply Hl. }
  split_and!; [split; [split | split | split] | done |]; cbn [k_mem set_mem k_sched]; try done.
  - destruct HR as [Q1 Q2 Q3 Q4]. split; [apply Hqs; [left | intros t Ht; rewrite elem_of_app; auto | done] | apply Hqs; [right; left | intros t Ht; rewrite elem_of_app; auto | done] | done | done].
  - by rewrite Hst.
  - eapply sorted_ext; [|exact Hso]. intros t Ht. apply (kept_wake _ _ _ _ _ K). apply (sr_threads _ _ _ _ HR). rewrite elem_of_app. auto.
  - by apply NoDup_cons in Z2 as [_ ?].
  - intros t Ht. apply Z3. by right.
  - by rewrite Hst.
  - eapply untouched_mono; [|exact U]. intros b [Hb|(a & Ha & Hb)]; [by right | left]. apply (thread_byte T a); [by apply HzT|].
    unfold range, sizeof_Node in *. lia.
Qed.

(** What is left when the zombie [z] is gone. *)
Record reaped (T : list Z) (cur idle r : Z) (R S : list Z) (z : Z) (Zs : list Z) (PS : list hpage) (k : kernel)
    (H' : list block) (PS' : list hpage) (k' : kernel) : Prop := {
  re_placed : placed (without z T);
  re_population : population (without z T) cur idle r R S Zs k';
  re_heap : heap_ok H' PS' k';
  re_live : forall c s, live PS' c s <-> live PS c s /\ c <> z - 12;
  re_stack : forall i, ld32 (k_mem k) (thread_stack z) = 4096 * i -> (i, 0) ∉ H';
  re_threads : threads_live (without z T) PS';
  re_fields : forall t off n, t ∈ without z T -> 8 <= off -> off + n <= 36 -> agree (k_mem k) (k_mem k') (t + off) n;
  re_cpu : k_cpu k' = k_cpu k }.

Lemma reap_spec T cur idle r R S z Zs H PS k :
  placed T -> population T cur idle r R S (z :: Zs) k -> heap_ok H PS k -> threads_live T PS -> statics_low ->
  owned_thread H PS (k_mem k) z ->
  wp reaper_turn k (fun _ k' => exists H' PS', reaped T cur idle r R S z Zs PS k H' PS' k').
Proof.
  intros HP HPo HK HT Hlow (i & s & Ho & Hl & Hs & E).
  destruct (pl_que T HP zombie_que zombie_in) as [M1 M2]. unfold sizeof_DLList in M2.
  pose proof (po_zombies _ _ _ _ _ _ _ _ HPo) as [Z1 Z2 Z3]. destruct (Z3 z ltac:(left)) as [HzT Hzn].
  destruct (pl_mapped T HP z HzT) as [M3 _].
  unfold reaper_turn. apply wp_bind. unfold ATOMIC_START, cli. apply wp_bind, wp_gets. apply wp_bind, wp_modify, wp_ret.
  apply wp_bind. unfold list_head at 1. eapply wp_access; [lia | lia | reflexivity | cbv beta]. cbn [k_mem set_cpu].
  pose proof Z1 as (Hh & _). unfold list_head in Hh. rewrite Hh. cbn [hd].
  destruct (Z.eqb_spec z NULL); [unfold NULL, KERNEL_VIRTUAL_BASE in *; lia|]. cbn [negb].
  unfold ATOMIC_END. apply wp_bind, wp_modify.
  match goal with |- wp _ ?k0 _ => assert (k0 = k) as -> by (by destruct k as [? ? ? [] ? ? ? ? ? ? ?]) end.
  apply wp_bind. eapply wp_mono; [by apply (pop_zombie_spec T cur idle r R S z Zs k)|].
  intros v k1 (-> & m1 & -> & HP1 & K1 & U1).
  assert (HK1 : heap_ok H PS (set_mem m1 k)).
  { apply (heap_ok_frame H PS k); [done | done | done |]. cbn [k_mem set_mem]. intros b Hb. apply U1. intros Hx.
    apply (sched_quiet T H PS k b HK HT Hlow); [|done]. destruct Hx as [Hx|Hx]; [by left | right; left].
    exists zombie_que. split; [apply zombie_in | done]. }
  assert (E1 : ld32 m1 (thread_stack z) = 4096 * i).
  { rewrite <- E. apply ld32_agree. apply (kept_agree _ _ _ _ z 12 4 K1); (done || lia). }
  eapply wp_mono; [by apply (destroy_thread_spec H PS z i s (set_mem m1 k))|].
  intros [] k' (H' & PS' & D1 & D2 & D3 & D4 & D5 & D6). exists H', PS'. cbn [k_mem set_mem] in D5.
  assert (Hm : forall b, sched_bytes (without z T) b \/ range zombie_que 12 b -> ld8 (k_mem k') b = ld8 m1 b).
  { intros b Hb. apply D5. assert (Hq : quiet H PS b).
    { apply (sched_quiet T H PS k b HK HT Hlow). destruct Hb as [[Hb|(t & Ht & Hb)]|Hb]; [left; by left | |].
      - left. apply (thread_byte T t); [by apply without_in in Ht as [_ ?] | done].
      - right. left. exists zombie_que. split; [apply zombie_in | done]. }
    intros [Hx|[Hx|Hx]]; [apply Hq; by left | | apply Hq; right; by left].
    pose proof (live_high H PS k z s b HK Hl Hx) as Hhi.
    destruct Hb as [[(q & Hq' & Hb)|(t & Ht & Hb)]|Hb].
    - destruct (Hlow b) as [L _]; [left; exists q; split; [by apply run_queue | done] | lia].
    - apply without_in in Ht as [Hne Ht]. destruct (HT t Ht) as (s' & Hl' & Hs'). unfold sizeof_Thread in *.
      pose proof (obj_apart H PS k t 36 z s HK ltac:(left; exists s'; split; [done | lia]) ltac:(left; exists s; split; [done | lia]) Hne ltac:(lia) ltac:(lia)).
      unfold apart, range in *. lia.
    - destruct (Hlow b) as [L _]; [left; exists zombie_que; split; [apply zombie_in | done] | lia]. }
  rewrite !elem_of_cons, elem_of_app in Hzn. apply NoDup_cons in Z2 as [Z2 _].
  split.
  - by apply placed_without.
  - eapply (population_same T); [exact HP1 | by destruct D6 as (? & ? & ? & ->) | exact Hm | intros t Ht; by apply without_in in Ht as [_ ?] |].
    pose proof HPo as [[HR (_ & C2 & _) (_ & I2 & _) _] _ [_ (G2 & _) _]].
    intros t. rewrite without_in, !elem_of_cons, !elem_of_app. intros [->|[->|[->|[Ht|[Ht|Ht]]]]].
    all: (split; [intros ->; tauto|]); try done; try (apply (sr_threads _ _ _ _ HR); rewrite elem_of_app; tauto).
    apply Z3. by right.
  - done.
  - done.
  - intros j Ej. by replace j with i by lia.
  - intros t [Hne Ht]%without_in. destruct (HT t Ht) as (s' & Hl' & Hs'). exists s'. split; [|done]. apply D3. split; [done | lia].
  - intros t off w Ht O1 O2 b Hb. pose proof (proj1 (without_in _ _ _) Ht) as [_ HtT].
    rewrite Hm by (left; apply (thread_byte (without z T) t); [done | unfold range in *; lia]).
    apply (kept_agree _ _ _ _ t off w K1 HtT O1 O2); [|done]. intros Hx. by apply elem_of_nil in Hx.
  - by destruct D6 as (? & ? & ? & ->).
Qed.
End reap.

(** ** The properties *)


(** With an empty queue the reaper goes to sleep and the first ready thread, or the
    idle thread, runs; the reaper is in no queue until a thread ends. *)
Theorem reaper_sleeps `{BS : BuddySymbols} `{HS : HeapSymbols} `{TS : TableSymbols} `{SS : SchedSymbols}
    T idle r R S gs sp gs' nsp eip' k :
  placed T -> sched_state T r idle R S gs sp k -> zombies T r idle r R S [] (k_mem k) -> reaper_thread T idle r R S k ->
  off_zombies (sp - 32) 36 ->
  suspended T (k_mem k) (hd idle R) nsp gs' eip' -> (sp + 4 <= nsp \/ nsp + 36 <= sp - 32) ->
  wp reaper_turn k (fun _ k' =>
    population T (hd idle R) idle r (tail R) S [] k' /\ status (k_mem k') r = SLEEPING /\
    gprs (k_cpu k') = gs' /\ esp (k_cpu k') = nsp + 36).
Proof. intros HP. by apply reaper_sleep_spec. Qed.

