(* ===== verification/SchedSample.v ===== *)
(** * A small system for the scheduler's theorems

    Four threads: the idle thread, one that runs, one that is ready and one that
    sleeps until tick 5, at tick 10. *)

From Stdlib Require Import ZArith Lia Bool Sorted.
From stdpp Require Import base list gmap strings.
From S2P Require Import Prelude Machine StringLib Console Node Queue Bump Buddy Devices Descriptors Heap Sched SchedModel Switch SchedTheorems.

#[local] Instance four_buddy : BuddySymbols := {| free_area := 0xC0500000 |}.
#[local] Instance four_heap : HeapSymbols := {| free_bucket := 0xC0700000; first_var := 0xC0700100 |}.
#[local] Instance four_tables : TableSymbols :=
  {| gdt := 0xC0001000; gdtr_var := 0xC0001030; tss := 0xC0001040; idt := 0xC0002000;
     idt_descriptor := 0xC0003000; isr_stub_table := 0xC0004000 |}.
#[local] Instance four_sched : SchedSymbols :=
  {| que := 0xC0010000; sleep_que := 0xC0010010; zombie_que := 0xC0010020;
     kernel_page_directory := 0xC0011000; kthread_stub_addr := 0xC0100000; reaper_main_addr := 0xC0100100 |}.

Definition four_idle : Z := 0xC0020000.
Definition four_cur : Z := 0xC0020040.
Definition four_ready : Z := 0xC0020080.
Definition four_asleep : Z := 0xC00200C0.
Definition four_threads : list Z := [four_idle; four_cur; four_ready; four_asleep].

Definition one_queue (m : memory) (L t : Z) : memory :=
  st32 (st32 (st32 m (list_head L) t) (list_tail L) t) (list_size L) 1.

Definition four_mem : memory :=
  let m := one_queue (one_queue ∅ que four_ready) sleep_que four_asleep in
  let m := st32 (st32 m (thread_status four_idle) IDLE) (thread_status four_ready) RUNNABLE in
  let m := st64 (st32 m (thread_status four_asleep) SLEEPING) (thread_wake_at four_asleep) 5 in
  let m := st32 (st32 m (thread_esp four_ready) 0xC0031000) (thread_esp four_idle) 0xC0033000 in
  st32 (st32 m 0xC0031020 0xC0100000) (thread_stack four_ready) 0x31000.

(** [four_cur] runs on the stack at 0xC0032000. *)
Definition four_kernel : kernel :=
  set_sched (MkSched 10 11931 four_cur four_idle 3 0 ∅)
    (set_cpu (set_regs 0xC0032000 [1; 2; 3; 4; 5; 6; 7] (set_if true cpu_initial)) (set_mem four_mem empty_kernel)).

Ltac in_four H := repeat rewrite elem_of_cons in H; rewrite elem_of_nil in H.

Lemma four_placed : placed four_threads.
Proof.
  unfold four_threads, four_idle, four_cur, four_ready, four_asleep.
  split; unfold queues, apart, sizeof_Thread, sizeof_DLList, sizeof_TSS_ENTRY, KERNEL_VIRTUAL_BASE;
    cbn [que sleep_que zombie_que tss four_sched four_tables length].
  - by apply (bool_decide_unpack _); vm_compute.
  - lia.
  - intros t Ht. in_four Ht. lia.
  - intros a b Ha Hb. in_four Ha. in_four Hb. lia.
  - intros q Hq. in_four Hq. lia.
  - intros q t Hq Ht. in_four Hq. in_four Ht. lia.
  - intros q t Hq Ht. in_four Hq. in_four Ht. lia.
  - by apply (bool_decide_unpack _); vm_compute.
  - lia.
  - intros q Hq. in_four Hq. lia.
  - intros q Hq. in_four Hq. lia.
Qed.

Lemma four_rep : sched_rep four_threads (k_mem four_kernel) [four_ready] [four_asleep].
Proof.
  split.
  - vm_compute. repeat split.
  - vm_compute. repeat split.
  - by apply (bool_decide_unpack _); vm_compute.
  - intros t Ht. cbn [app] in Ht. unfold four_threads. in_four Ht.
    destruct Ht as [->|[->|[]]]; repeat first [left | right].
Qed.

Lemma four_sorted : StronglySorted (wakes_before (wake (k_mem four_kernel))) [four_asleep].
Proof. repeat constructor. Qed.

Lemma four_off a : 0xC0030000 <= a -> a + 36 < 0xC0040000 -> off_sched four_threads a 36.
Proof.
  intros H1 H2 b Hb. unfold sched_bytes, queues, four_threads, four_idle, four_cur, four_ready, four_asleep, range,
    tss_esp0 in *. cbn [que sleep_que zombie_que tss four_sched four_tables].
  split; [intros [(q & Hq & Hr)|(t & Ht & Hr)]; [in_four Hq | in_four Ht] | intros Hr]; lia.
Qed.

Lemma four_state : sched_state four_threads four_cur four_idle [four_ready] [four_asleep]
  [1; 2; 3; 4; 5; 6; 7] 0xC0032000 four_kernel.
Proof.
  split; [split| |].
  - exact four_rep.
  - split_and!; [reflexivity | by apply (bool_decide_unpack _); vm_compute..].
  - split_and!; [reflexivity | by apply (bool_decide_unpack _); vm_compute .. | vm_compute; congruence].
  - exact four_sorted.
  - split_and!; [reflexivity.. | repeat constructor; lia].
  - split; [apply four_off; lia | unfold KERNEL_VIRTUAL_BASE; lia].
Qed.

Lemma four_suspended :
  suspended four_threads (k_mem four_kernel) four_ready 0xC0031000 [0; 0; 0; 0; 0; 0; 0] 0xC0100000.
Proof.
  split; [reflexivity | vm_compute; by split | unfold KERNEL_VIRTUAL_BASE; lia | apply four_off; lia].
Qed.

(** ** The theorems on this system *)

Lemma wake_up_threads_correct_witness :
  wp wake_up_threads four_kernel (fun _ k' => sched_rep four_threads (k_mem k') [four_ready; four_asleep] []).
Proof.
  eapply wp_mono; [exact (wake_up_threads_correct four_threads [four_ready] [four_asleep] four_kernel
    four_placed four_rep four_sorted)|].
  intros [] k' (m' & -> & HR & _). exact HR.
Defined.

Lemma scheduler_correct_witness :
  wp scheduler four_kernel (fun r k' => r = 0xC0100000 /\
    sched_inv four_threads four_ready four_idle [four_cur] [four_asleep] k').
Proof.
  eapply wp_mono; [apply (scheduler_correct four_threads four_cur four_idle four_ready [four_ready] [four_asleep]
    [1; 2; 3; 4; 5; 6; 7] 0xC0032000 [0; 0; 0; 0; 0; 0; 0] 0xC0031000 0xC0100000 four_kernel
    four_placed four_state)|].
  - vm_compute. reflexivity.
  - vm_compute. congruence.
  - exact four_suspended.
  - lia.
  - intros r k' (-> & _ & _ & _ & _ & HI & _). split; [reflexivity | exact HI].
Defined.

Lemma thread_sleep_correct_witness :
  wp (thread_sleep 2) four_kernel (fun r k' => r = 0xC0100000 /\ wake (k_mem k') four_cur = 2386374).
Proof.
  eapply wp_mono; [apply (thread_sleep_correct four_threads four_cur four_idle [four_ready] [four_asleep]
    [1; 2; 3; 4; 5; 6; 7] 0xC0032000 [0; 0; 0; 0; 0; 0; 0] 0xC0031000 0xC0100000 2 four_kernel
    four_placed four_state)|].
  - vm_compute. congruence.
  - exact four_suspended.
  - lia.
  - intros r k' (-> & HS). split; [reflexivity | exact (sl_wake _ _ _ _ _ _ _ _ _ _ _ _ HS)].
Defined.

Lemma timer_preempts_witness :
  wp timer four_kernel (fun r k' => r = 0xC0100000 /\
    sched_inv four_threads four_ready four_idle [four_asleep; four_cur] [] k').
Proof.
  eapply wp_mono; [apply (timer_preempts four_threads four_cur four_idle four_ready [four_asleep; four_cur]
    [four_ready] [four_asleep] [1; 2; 3; 4; 5; 6; 7] 0xC0032000 [0; 0; 0; 0; 0; 0; 0] 0xC0031000 0xC0100000
    11941 four_kernel four_placed four_state)|].
  - reflexivity.
  - vm_compute. reflexivity.
  - vm_compute. congruence.
  - exact four_suspended.
  - lia.
  - intros r k' (-> & _ & HI & _). split; [reflexivity | exact HI].
Defined.

(** The same system with nothing ready. *)
Definition alone_kernel : kernel :=
  set_mem (st32 (st32 (st32 four_mem (list_head que) 0) (list_tail que) 0) (list_size que) 0) four_kernel.

Lemma alone_state : sched_state four_threads four_cur four_idle [] [four_asleep]
  [1; 2; 3; 4; 5; 6; 7] 0xC0032000 alone_kernel.
Proof.
  destruct four_state as [[_ Hc Hi _] Hrun Hst]. split; [|exact Hrun | exact Hst]. split.
  - split; [vm_compute; repeat split.. | by apply (bool_decide_unpack _); vm_compute |].
    intros t Ht. apply (sr_threads _ _ _ _ four_rep). by right.
  - split_and!; [reflexivity | by apply (bool_decide_unpack _); vm_compute..].
  - split_and!; [reflexivity | by apply (bool_decide_unpack _); vm_compute .. | vm_compute; congruence].
  - repeat constructor.
Qed.

Lemma scheduler_continues_witness :
  wp scheduler alone_kernel (fun _ k' => esp (k_cpu k') = 0xC0032004 /\ eflags_if (k_cpu k') = true).
Proof.
  eapply wp_mono; [apply (scheduler_continues four_threads four_cur four_idle [four_asleep]
    [1; 2; 3; 4; 5; 6; 7] 0xC0032000 alone_kernel four_placed alone_state)|].
  - right. vm_compute. reflexivity.
  - intros r k' (_ & _ & _ & He & Hf & _). split; [exact He | exact Hf].
Defined.

(** From [four_cur] to [four_ready] and back. *)
Lemma context_switch_roundtrip_witness :
  wp (context_switch (thread_esp four_cur) (thread_esp four_ready)) four_kernel (fun r k1 =>
    r = 0xC0100000 /\
    wp (context_switch (thread_esp four_ready) (thread_esp four_cur)) k1 (fun r' k3 => r' = 0 /\
      esp (k_cpu k3) = 0xC0032004 /\ gprs (k_cpu k3) !! 3%nat = Some 4)).
Proof.
  assert (HRun : running four_kernel [1; 2; 3; 4; 5; 6; 7] 0xC0032000)
    by (split_and!; [reflexivity.. | repeat constructor; lia]).
  assert (HSw : switch_ok (k_mem four_kernel) (thread_esp four_cur) (thread_esp four_ready) 0xC0032000 0xC0031000)
    by (split; unfold KERNEL_VIRTUAL_BASE, thread_esp, four_cur, four_ready; try split_and!; try lia; reflexivity).
  pose proof (context_switch_roundtrip (thread_esp four_cur) (thread_esp four_ready) four_kernel
    [1; 2; 3; 4; 5; 6; 7] 0xC0032000 [0; 0; 0; 0; 0; 0; 0] 0xC0031000 0xC0100000
    HRun HSw (su_frame _ _ _ _ _ _ four_suspended)) as Hw.
  destruct (wp_ok _ _ _ Hw) as (r & k1 & E & -> & H1 & H2 & Hback). eapply wp_of_eq; [exact E|].
  split; [reflexivity|]. specialize (Hback k1 [0; 0; 0; 0; 0; 0; 0] (0xC0031000 + 36)).
  assert (E' : k1 = match context_switch (thread_esp four_cur) (thread_esp four_ready) four_kernel with
    Ok _ k' => k' | _ => four_kernel end) by (rewrite E; reflexivity).
  eapply wp_mono; [apply Hback|].
  - split_and!; [exact H1 | exact H2 | reflexivity | repeat constructor; lia].
  - split; unfold KERNEL_VIRTUAL_BASE, thread_esp, four_cur, four_ready; try split_and!; try lia.
    rewrite E'. vm_compute. reflexivity.
  - intros b Hb. reflexivity.
  - intros r' k3 (-> & He & Hg). split_and!; [vm_compute; reflexivity | exact He |].
    rewrite (Hg 3%nat) by lia. reflexivity.
Defined.

Lemma fresh_stack_correct_witness :
  wp (push_words 0xC0041000 (fresh_stack four_ready 7 0xC0102000)) four_kernel
    (fun sp k' => sp = 0xC0040FCC /\ ld32 (k_mem k') 0xC0040FEC = 0xC0100000).
Proof.
  eapply wp_mono; [apply (fresh_stack_correct four_ready 0xC0102000 7 0xC0041000 four_kernel);
    unfold KERNEL_VIRTUAL_BASE, four_ready; cbn [kthread_stub_addr four_sched]; lia|].
  intros sp k' (m' & -> & -> & [_ HF] & _). split; [reflexivity | exact HF].
Defined.
