(* ===== verification/Fairness.v ===== *)
(** * No thread starves

    A run of the system is a sequence of turns: the running thread computes for a
    while, in its own memory, and then either the timer interrupts it or it goes
    to sleep.  Whatever the threads do in between, every thread that waits for the
    CPU or sleeps gets it after finitely many turns. *)

From Stdlib Require Import ZArith Lia Bool Sorted.
From stdpp Require Import base list gmap strings.
From S2P Require Import Prelude Machine StringLib Console Node Queue Bump Buddy Devices Descriptors Heap Sched SchedModel Switch SchedTheorems Threads.

(** How a turn ends. *)
Inductive action := Preempted | Sleeps (time : Z).

Section fairness.
Context `{BS : BuddySymbols} `{HS : HeapSymbols} `{TS : TableSymbols} `{SS : SchedSymbols}.
Context (T : list Z) (HP : placed T).

Definition act (a : action) : M Z :=
  match a with Preempted => timer | Sleeps time => thread_sleep time end.

(** ** The stacks of the threads

    Thread [t] has the [len t] bytes at [lo t] as its kernel stack. *)
Context (lo len : Z -> Z).

Record stacks_ok : Prop := {
  sk_off : forall t, t ∈ T -> off_sched T (lo t) (len t);
  sk_mapped : forall t, t ∈ T -> KERNEL_VIRTUAL_BASE <= lo t /\ 36 <= len t /\ lo t + len t < 2 ^ 32;
  sk_apart : forall t u, t ∈ T -> u ∈ T -> t <> u -> apart (lo t) (len t) (lo u) (len u) }.

Context (HK : stacks_ok).

Definition in_stack (t a n : Z) : Prop := lo t <= a /\ a + n <= lo t + len t.

(** A thread that can be resumed from a frame on its stack. *)
Definition waiting (m : memory) (t : Z) : Prop :=
  exists sp gs eip, suspended T m t sp gs eip /\ in_stack t sp 36.

(** The state between two turns: [cur] has the CPU, [R] are ready, [S] sleep. *)
Record live (cur idle : Z) (R S : list Z) (k : kernel) : Prop := {
  lv_inv : sched_inv T cur idle R S k;
  lv_running : cur <> idle -> status (k_mem k) cur = RUNNING;
  lv_waiting : forall t, t ∈ idle :: R ++ S -> t <> cur -> waiting (k_mem k) t }.

(** The running thread computes: it changes its registers, its stack and memory
    of its own, but neither the scheduler's data nor the stacks of others, and
    ends on its stack with registers [gs] and stack pointer [sp]. *)
Record computes (k : kernel) (gs : list Z) (sp : Z) (k1 : kernel) : Prop := {
  cp_globals : ticks (k_sched k1) = ticks (k_sched k) /\ tick_rate (k_sched k1) = tick_rate (k_sched k) /\
    cur_thread (k_sched k1) = cur_thread (k_sched k) /\ idle_thread (k_sched k1) = idle_thread (k_sched k);
  cp_regs : running k1 gs sp;
  cp_stack : in_stack (cur_thread (k_sched k)) (sp - 32) 36;
  cp_sched : forall b, sched_bytes T b -> ld8 (k_mem k1) b = ld8 (k_mem k) b;
  cp_others : forall t b, t ∈ T -> t <> cur_thread (k_sched k) -> range (lo t) (len t) b ->
    ld8 (k_mem k1) b = ld8 (k_mem k) b }.

(** The idle thread only ever waits for interrupts. *)
Definition allowed (k : kernel) (a : action) : Prop :=
  match a with Preempted => True | Sleeps _ => cur_thread (k_sched k) <> idle_thread (k_sched k) end.

(** Whatever the threads do, a state in [P] is reached after finitely many
    turns; the running thread can compute, and no turn gets stuck. *)
Inductive eventually (P : kernel -> Prop) : kernel -> Prop :=
| ev_now k : P k -> eventually P k
| ev_turn k :
    (exists gs sp k1, computes k gs sp k1) ->
    (forall gs sp k1 a, computes k gs sp k1 -> allowed k a -> exists r k2, act a k1 = Ok r k2) ->
    (forall gs sp k1 a r k2, computes k gs sp k1 -> allowed k a -> act a k1 = Ok r k2 -> eventually P k2) ->
    eventually P k.

Lemma ev_turn_ok P k :
  (exists gs sp k1, computes k gs sp k1) ->
  (forall gs sp k1 a, computes k gs sp k1 -> allowed k a -> exists r k2, act a k1 = Ok r k2 /\ eventually P k2) ->
  eventually P k.
Proof.
  intros He Hs. apply ev_turn; [done | |].
  - intros gs sp k1 a Hc Ha. destruct (Hs gs sp k1 a Hc Ha) as (r & k2 & E & _). eauto.
  - intros gs sp k1 a r k2 Hc Ha E. destruct (Hs gs sp k1 a Hc Ha) as (r' & k2' & E' & Hev). congruence.
Qed.

(** The same, after at most [n] turns. *)
Fixpoint within (n : nat) (P : kernel -> Prop) (k : kernel) : Prop :=
  P k \/
  match n with
  | O => False
  | S n =>
      (exists gs sp k1, computes k gs sp k1) /\
      (forall gs sp k1 a, computes k gs sp k1 -> allowed k a ->
         exists r k2, act a k1 = Ok r k2 /\ within n P k2)
  end.

(** Thread [t] has the CPU. *)
Definition on_cpu (t : Z) (k : kernel) : Prop := cur_thread (k_sched k) = t /\ status (k_mem k) t = RUNNING.

Lemma within_eventually n P : forall k, within n P k -> eventually P k.
Proof.
  induction n as [|n IH]; intros k [Hp|Hn]; [by apply ev_now | done | by apply ev_now |].
  destruct Hn as [He Hs]. apply ev_turn_ok; [done|]. intros gs sp k1 a Hc Ha.
  destruct (Hs gs sp k1 a Hc Ha) as (r & k2 & E & Hw). exists r, k2. auto.
Qed.

(** ** What computing keeps *)

Lemma sched_bytes_thread t off n m m' :
  t ∈ T -> 0 <= off -> off + n <= 36 -> (forall b, sched_bytes T b -> ld8 m' b = ld8 m b) -> agree m m' (t + off) n.
Proof. intros Ht H1 H2 Hs b Hb. apply Hs. right. exists t. split; [done|]. unfold range in *. lia. Qed.

Lemma waiting_same m m' t :
  t ∈ T -> agree m m' (thread_esp t) 4 -> agree m m' (lo t) (len t) -> waiting m t -> waiting m' t.
Proof.
  intros Ht He Hs (sp & gs & eip & [S1 S2 S3 S4] & [I1 I2]). exists sp, gs, eip. split; [|done]. split; try done.
  - rewrite <- S1. by apply ld32_agree.
  - eapply frame_agree; [exact S2|]. eapply agree_sub; [exact Hs | lia..].
Qed.

(** After computing, the thread is ready to be switched out. *)
Lemma computes_live cur idle R S k gs sp k1 :
  live cur idle R S k -> computes k gs sp k1 ->
  live cur idle R S k1 /\ sched_state T cur idle R S gs sp k1 /\
  (forall t, t ∈ T -> wake (k_mem k1) t = wake (k_mem k) t).
Proof.
  intros [[HR (Hc1 & Hc2 & Hc3) (Hi1 & Hi2 & Hi3 & Hi4) Hso] Hrn Hw] [(G1 & G2 & G3 & G4) Hr Hs Hb Ho].
  rewrite Hc1 in Hs, Ho, G3. rewrite Hi1 in G4.
  assert (Hin : forall t, t ∈ idle :: R ++ S -> t ∈ T).
  { intros t [->|Ht]%elem_of_cons; [done | by apply (sr_threads _ _ _ _ HR)]. }
  assert (Hst : forall t, t ∈ T -> status (k_mem k1) t = status (k_mem k) t).
  { intros t Ht. apply ld32_agree. apply sched_bytes_thread; [done | lia | lia | done]. }
  assert (Hwk : forall t, t ∈ T -> wake (k_mem k1) t = wake (k_mem k) t).
  { intros t Ht. apply ld64_agree. apply sched_bytes_thread; [done | lia | lia | done]. }
  assert (HI : sched_inv T cur idle R S k1).
  { split; [by eapply sched_rep_same | done | split_and!; try done; by rewrite Hst |].
    eapply sorted_ext; [|exact Hso]. intros t Ht. apply Hwk, Hin. right. rewrite elem_of_app. auto. }
  split_and!; [split | split |]; try done.
  - by rewrite Hst.
  - intros t Ht Hne. apply (waiting_same (k_mem k)); [by apply Hin | | | by apply Hw].
    + apply sched_bytes_thread; [by apply Hin | lia | lia | done].
    + intros b Hb'. apply (Ho t); [by apply Hin | done | done].
  - destruct Hs as [I1 I2]. destruct (sk_mapped HK cur Hc2) as (M1 & M2 & M3).
    split; [|lia]. intros b Hb'. apply (sk_off HK cur Hc2). unfold range in *. lia.
Qed.

(** ** One switch *)

(** What a switch by [scheduler] keeps of the memory. *)
Lemma switch_keeps_waiting cur idle next R S sp m m1 m' t :
  cur ∈ T -> next ∈ T -> t ∈ T -> t <> cur -> in_stack cur (sp - 32) 36 -> picked T cur idle next R S m m1 ->
  untouched (fun b => range (sp - 32) 32 b \/ range (thread_esp cur) 4 b) m1 m' ->
  waiting m t -> waiting m' t.
Proof.
  intros Hc Hn Ht Hne [I1 I2] HPk U. apply waiting_same; [done | |].
  - intros b Hb. rewrite U.
    + apply (kept_agree T [cur; next] m m1 t 8 4); [apply (pk_kept _ _ _ _ _ _ _ _ HPk) | done | lia | lia | lia | done].
    + intros [Hr|Hr].
      * destruct (sk_off HK cur Hc b) as [Hx _]; [unfold range in *; lia|]. apply Hx.
        apply (thread_byte T t); [done|]. unfold range, thread_esp in *. lia.
      * pose proof (pl_apart T HP t cur Ht Hc Hne). unfold apart, range, thread_esp, sizeof_Thread in *. lia.
  - intros b Hb. rewrite U.
    + apply (off_kept T (lo t) (len t)); [by apply (sk_off HK) | apply (pk_bytes _ _ _ _ _ _ _ _ HPk) | done].
    + intros [Hr|Hr].
      * pose proof (sk_apart HK t cur Ht Hc Hne). unfold apart, range in *. lia.
      * destruct (sk_off HK t Ht b Hb) as [Hx _]. apply Hx. apply (thread_byte T cur); [done|].
        unfold range, thread_esp in *. lia.
Qed.

(** [cur], still running or gone to one of the queues, gives way. *)
Record leaves (cur idle : Z) (R S : list Z) (gs : list Z) (sp : Z) (k : kernel) : Prop := {
  le_rep : sched_rep T (k_mem k) R S;
  le_cur : cur_thread (k_sched k) = cur /\ cur ∈ T /\ (cur ∉ R) /\ (status (k_mem k) cur = RUNNING -> cur ∉ R ++ S);
  le_idle : idle_thread (k_sched k) = idle /\ idle ∈ T /\ (idle ∉ R ++ S) /\ status (k_mem k) idle <> RUNNING;
  le_sorted : StronglySorted (wakes_before (wake (k_mem k))) S;
  le_cpu : running k gs sp;
  le_stack : in_stack cur (sp - 32) 36;
  le_waiting : forall t, t ∈ idle :: R ++ S -> t <> cur -> waiting (k_mem k) t }.

(** Where the switch goes, and what it keeps for later turns. *)
Definition switched (idle next : Z) (R S : list Z) (k k' : kernel) : Prop :=
  live next idle R S k' /\ ticks (k_sched k') = ticks (k_sched k) /\
  tick_rate (k_sched k') = tick_rate (k_sched k) /\
  forall t, t ∈ T -> wake (k_mem k') t = wake (k_mem k) t.

Lemma in_stack_off t a : t ∈ T -> in_stack t (a - 32) 36 ->
  off_sched T (a - 32) 36 /\ KERNEL_VIRTUAL_BASE + 32 <= a /\ a + 4 < 2 ^ 32.
Proof.
  intros Ht [I1 I2]. destruct (sk_mapped HK t Ht) as (M1 & M2 & M3). split; [|lia].
  intros b Hb. apply (sk_off HK t Ht). unfold range in *. lia.
Qed.

Lemma leaves_next cur idle R S gs sp k :
  leaves cur idle R S gs sp k ->
  let Q := requeued (k_mem k) cur R in
  hd idle Q ∈ T /\ (hd idle Q <> cur -> hd idle Q ∈ idle :: R ++ S) /\
  (forall t, t ∈ idle :: tail Q ++ S -> t = cur \/ t ∈ idle :: R ++ S).
Proof.
  intros [HR (C1 & C2 & C3 & C4) (I1 & I2 & I3 & I4) _ _ _ _]. cbv zeta.
  pose proof (sr_threads _ _ _ _ HR) as HT.
  assert (Hq : forall t, t ∈ requeued (k_mem k) cur R -> t = cur \/ t ∈ R).
  { unfold requeued. destruct (_ =? _); [|auto]. intros t. rewrite elem_of_app, list_elem_of_singleton. tauto. }
  assert (HqT : forall t, t ∈ requeued (k_mem k) cur R -> t ∈ T).
  { intros t [->|Ht]%Hq; [done|]. apply HT. rewrite elem_of_app. auto. }
  destruct (requeued (k_mem k) cur R) as [|n l]; cbn [hd tail] in *.
  - split_and!; [done | intros _; left |]. intros t. cbn [app]. rewrite !elem_of_cons, elem_of_app. tauto.
  - split_and!; [apply HqT; left | |].
    + intros Hne. destruct (Hq n) as [|Hin]; [left | done |]. rewrite elem_of_cons, elem_of_app. auto.
    + intros t. rewrite !elem_of_cons, !elem_of_app. intros [->|[Ht|Ht]]; [tauto | | tauto].
      destruct (Hq t) as [|]; [by right | |]; tauto.
Qed.

(** The whole of [scheduler], whichever thread it chooses. *)
Lemma scheduler_leaves cur idle R S gs sp k :
  leaves cur idle R S gs sp k ->
  let Q := requeued (k_mem k) cur R in
  wp scheduler k (fun _ k' => switched idle (hd idle Q) (tail Q) S k k').
Proof.
  intros HL Q. destruct (leaves_next _ _ _ _ _ _ _ HL) as (HnT & Hnin & Hrest). fold Q in HnT, Hnin, Hrest.
  destruct HL as [HR (C1 & C2 & C3 & C4) (I1 & I2 & I3 & I4) Hso Hrun Hstk Hw].
  destruct (in_stack_off cur sp C2 Hstk) as (Ho & H1 & H2). set (next := hd idle Q) in *.
  assert (Hpost : forall k' m1, picked T cur idle next R S (k_mem k) m1 ->
    untouched (fun b => range (sp - 32) 32 b \/ range (thread_esp cur) 4 b) m1 (k_mem k') ->
    k_sched k' = switched_globals cur next (eflags_if (k_cpu k)) (k_sched k) ->
    (next <> cur -> waiting (k_mem k') cur) ->
    switched idle next (tail Q) S k k').
  { intros k' m1 HPk U Hg Hcw. split; [split|split_and!].
    - apply (picked_inv T HP cur idle next R S sp k m1 k'); try done; by rewrite Hg.
    - intros Hx. unfold status. rewrite (ld32_agree m1 (k_mem k')); [by apply (pk_running _ _ _ _ _ _ _ _ HPk)|].
      apply (switch_keeps_field T HP m1 (k_mem k') cur sp next 16 4); (done || lia).
    - intros t Ht Hne. destruct (decide (t = cur)) as [->|Hnc]; [apply Hcw; congruence|].
      destruct (Hrest t Ht) as [|Hin]; [done|]. eapply switch_keeps_waiting; [exact C2 | exact HnT | | done | done | exact HPk | exact U | by apply Hw].
      apply elem_of_cons in Hin as [->|Hin]; [done | by apply (sr_threads _ _ _ _ HR)].
    - by rewrite Hg.
    - by rewrite Hg.
    - intros t Ht. rewrite <- (kept_wake _ _ _ _ t (pk_kept _ _ _ _ _ _ _ _ HPk) Ht).
      apply ld64_agree. apply (switch_keeps_field T HP m1 (k_mem k') cur sp t 24 8); (done || lia). }
  destruct (decide (next = cur)) as [E|Hne].
  - eapply wp_mono; [by apply (scheduler_self_spec T HP cur idle R S k gs sp)|].
    intros r k' (_ & [(m1 & HPk & U) _ P3 _]). rewrite E in Hpost |- *. by apply (Hpost k' m1).
  - destruct (Hw next (Hnin Hne) Hne) as (nsp & gs' & eip' & Hsu & J1 & J2). destruct Hstk as [K1 K2].
    eapply wp_mono; [apply (scheduler_spec T HP cur idle next R S k gs sp gs' nsp eip'); try done|].
    + pose proof (sk_apart HK next cur HnT C2 Hne). unfold apart in *. lia.
    + intros r k' (_ & [(m1 & HPk & U) _ P3 _ _ _ P8]). apply (Hpost k' m1); try done.
      intros _. do 3 eexists. split; [exact P8|]. split; lia.
Qed.

(** ** The two ways a turn ends *)

Lemma waiting_stable m m' t : t ∈ T -> agree m m' (thread_esp t) 4 -> untouched (sched_bytes T) m m' ->
  waiting m t -> waiting m' t.
Proof.
  intros Ht He Hu. apply waiting_same; [done | done|]. intros b Hb. apply Hu. by apply (sk_off HK t Ht).
Qed.

Lemma live_member cur idle R S k t : live cur idle R S k -> t ∈ idle :: R ++ S -> t ∈ T.
Proof.
  intros [[HR _ (_ & Hi & _) _] _ _] [->|Ht]%elem_of_cons; [done | by apply (sr_threads _ _ _ _ HR)].
Qed.

(** The round-robin order after a timer interrupt at [now]. *)
Definition next_ready (m : memory) (cur now : Z) (R S : list Z) : list Z :=
  R ++ due m now S ++ (if status m cur =? RUNNING then [cur] else []).

Lemma timer_turn cur idle R S gs sp k now :
  live cur idle R S k -> sched_state T cur idle R S gs sp k -> in_stack cur (sp - 32) 36 ->
  now = u64 (ticks (k_sched k) + tick_rate (k_sched k)) ->
  let Q := next_ready (k_mem k) cur now R S in
  wp timer k (fun _ k' => live (hd idle Q) idle (tail Q) (not_due (k_mem k) now S) k' /\
    ticks (k_sched k') = now /\ tick_rate (k_sched k') = tick_rate (k_sched k) /\
    forall t, t ∈ T -> wake (k_mem k') t = wake (k_mem k) t).
Proof.
  intros HL Hss Hstk Hnow Q. pose proof (lv_waiting _ _ _ _ _ HL) as Hw.
  eapply (timer_wakes T HP); [exact Hss | exact Hnow |].
  intros m1 [[HR (C1 & C2 & C3) (I1 & I2 & I3 & I4) Hso] Hrun _] HKp HB. set (k1 := set_mem m1 _).
  assert (Hst : status m1 cur = status (k_mem k) cur).
  { apply (kept_status _ _ _ _ _ HKp C2). rewrite !elem_of_app in C3. tauto. }
  assert (HQ : requeued (k_mem k1) cur (R ++ due (k_mem k) now S) = Q).
  { unfold requeued, Q, next_ready. cbn [k_mem k1 set_mem]. rewrite Hst.
    destruct (_ =? _); by rewrite ?app_nil_r, <- ?app_assoc. }
  eapply wp_mono; [apply (scheduler_leaves cur idle (R ++ due (k_mem k) now S) (not_due (k_mem k) now S) gs sp k1)|].
  - split; try done.
    + split_and!; try done. rewrite elem_of_app in C3. tauto.
    + intros t Ht Hne. assert (Hin : t ∈ idle :: R ++ S).
      { unfold due, not_due in Ht. rewrite elem_of_cons, !elem_of_app, !list_elem_of_filter in Ht.
        rewrite elem_of_cons, elem_of_app. tauto. }
      pose proof (live_member _ _ _ _ _ _ HL Hin). apply (waiting_stable (k_mem k)); [done | | done | by apply Hw].
      apply (kept_agree _ _ _ _ _ 8 4 HKp); (done || lia).
  - cbv zeta. rewrite HQ. intros _ k' (HL' & E1 & E2 & E3). split_and!; try done.
    intros t Ht. rewrite E3 by done. by apply (kept_wake _ _ _ _ _ HKp).
Qed.

Lemma sleep_turn cur idle R S gs sp k time :
  live cur idle R S k -> sched_state T cur idle R S gs sp k -> in_stack cur (sp - 32) 36 -> cur <> idle ->
  wp (thread_sleep time) k (fun _ k' => exists S', S' ≡ₚ cur :: S /\
    live (hd idle R) idle (tail R) S' k' /\
    ticks (k_sched k') = ticks (k_sched k) /\ tick_rate (k_sched k') = tick_rate (k_sched k) /\
    forall t, t ∈ T -> t <> cur -> wake (k_mem k') t = wake (k_mem k) t).
Proof.
  intros HL [[HR (C1 & C2 & C3) (I1 & I2 & I3 & I4) Hso] Hrun _] Hstk Hne. pose proof (lv_waiting _ _ _ _ _ HL) as Hw.
  unfold thread_sleep, get_cur_thread. apply wp_bind, wp_gets. apply wp_bind, wp_gets. rewrite C1.
  eapply (go_to_sleep_spec T HP); [exact HR | done | done | apply u64_range | done |].
  intros m2 S' [A1 A2 A3 A4 A5 A6 A7 A8]. set (k2 := set_mem m2 k).
  assert (HQ : requeued (k_mem k2) cur R = R) by (unfold requeued; cbn [k_mem k2 set_mem]; by rewrite A5).
  eapply wp_mono; [apply (scheduler_leaves cur idle R S' gs sp k2)|].
  - split; try done.
    + split_and!; try done; [rewrite elem_of_app in C3; tauto | by cbn [k_mem k2 set_mem]; rewrite A5].
    + split_and!; try done.
      * rewrite A2, <- Permutation_middle, elem_of_cons. intros [?|?]; congruence.
      * unfold status. rewrite (ld32_agree (k_mem k)); [done|]. apply (A6 idle 16 4); (done || lia).
    + intros t Ht Hnc. assert (Hin : t ∈ idle :: R ++ S).
      { rewrite A2, <- Permutation_middle, !elem_of_cons in Ht. rewrite elem_of_cons. tauto. }
      pose proof (live_member _ _ _ _ _ _ HL Hin). apply (waiting_stable (k_mem k)); [done | | done | by apply Hw].
      apply (A6 t 8 4); (done || lia).
  - cbv zeta. rewrite HQ. intros _ k' (HL' & E1 & E2 & E3). exists S'. split_and!; try done.
    intros t Ht Hnc. rewrite E3 by done. apply ld64_agree. apply (A6 t 24 8); (done || lia).
Qed.

(** A turn from the state [k] to [k2]: the ready queue keeps its order, threads
    only join it behind. *)
Record turned (a : action) (idle : Z) (R S : list Z) (k k2 : kernel) (next : Z) (R' S' : list Z) : Prop := {
  tu_live : live next idle R' S' k2;
  tu_rate : tick_rate (k_sched k2) = tick_rate (k_sched k);
  tu_ready : exists new, next = hd idle (R ++ new) /\ R' = tail (R ++ new) /\
    (forall t, t ∈ S -> t ∈ new \/ t ∈ S') /\ (forall time, a = Sleeps time -> new = []);
  tu_wake : forall t, t ∈ S -> wake (k_mem k2) t = wake (k_mem k) t;
  tu_ticks : match a with
    | Preempted => ticks (k_sched k2) = u64 (ticks (k_sched k) + tick_rate (k_sched k)) /\
        (forall t, t ∈ S' -> ticks (k_sched k2) < wake (k_mem k) t)
    | Sleeps _ => ticks (k_sched k2) = ticks (k_sched k)
    end }.

Lemma turn cur idle R S k gs sp k1 a :
  live cur idle R S k -> computes k gs sp k1 -> allowed k a ->
  exists r k2 next R' S', act a k1 = Ok r k2 /\ turned a idle R S k k2 next R' S'.
Proof.
  intros HL Hc Ha. destruct (computes_live _ _ _ _ _ _ _ _ HL Hc) as (HL1 & Hss & Hwk).
  pose proof HL as [[HR (C1 & C2 & C3) (I1 & I2 & I3 & I4) _] _ _].
  destruct Hc as [(G1 & G2 & G3 & G4) _ Hstk _ _]. rewrite C1 in Hstk.
  assert (HSt : forall t, t ∈ S -> t ∈ T /\ t <> cur).
  { intros t Ht. split; [apply (sr_threads _ _ _ _ HR); rewrite elem_of_app; auto|].
    intros ->. apply C3. rewrite elem_of_app. auto. }
  destruct a as [|time]; cbn [act allowed] in *.
  - pose proof (timer_turn _ _ _ _ _ _ _ _ HL1 Hss Hstk eq_refl) as Hw.
    destruct (wp_ok _ _ _ Hw) as (r & k2 & E & HL2 & E1 & E2 & E3). rewrite G1, G2 in *.
    exists r, k2; do 3 eexists; split; [exact E|]. split; [exact HL2 | congruence | | |].
    + eexists. split; [reflexivity|]. split; [reflexivity|]. split; [|done]. intros t Ht. unfold due, not_due.
      rewrite elem_of_app, !list_elem_of_filter. destruct (Z.le_gt_cases (wake (k_mem k1) t) (u64 (ticks (k_sched k) + tick_rate (k_sched k)))); auto.
    + intros t Ht. destruct (HSt t Ht) as [Ht1 _]. by rewrite E3, Hwk.
    + rewrite E1. split; [done|]. intros t [Hlt Ht]%list_elem_of_filter. destruct (HSt t Ht) as [Ht1 _]. by rewrite <- Hwk.
  - pose proof (sleep_turn _ _ _ _ _ _ _ time HL1 Hss Hstk ltac:(congruence)) as Hw.
    destruct (wp_ok _ _ _ Hw) as (r & k2 & E & S' & Hp & HL2 & E1 & E2 & E3).
    exists r, k2; do 2 eexists; exists S'; split; [exact E|]. split; [exact HL2 | congruence | | |].
    + exists []. rewrite app_nil_r. split_and!; try done. intros t Ht. right. rewrite Hp. by right.
    + intros t Ht. destruct (HSt t Ht) as [Ht1 Ht2]. by rewrite E3, Hwk.
    + congruence.
Qed.

Lemma live_computes cur idle R S k : live cur idle R S k -> exists gs sp k1, computes k gs sp k1.
Proof.
  intros [[_ (C1 & C2 & _) _ _] _ _]. destruct (sk_mapped HK cur C2) as (M1 & M2 & M3).
  set (sp := lo cur + 32). set (gs := repeat 0 7). exists gs, sp, (set_cpu (set_regs sp gs (k_cpu k)) k).
  split; try done.
  - split_and!; try done. repeat (constructor; [lia|]). constructor.
  - rewrite C1. unfold in_stack, sp. lia.
Qed.

(** ** Every thread is served *)

Lemma live_on_cpu cur idle R S k : live cur idle R S k -> cur <> idle -> on_cpu cur k.
Proof. intros [[_ (C1 & _) _ _] Hr _] Hne. split; auto. Qed.

Lemma ready_within t : forall pre post cur idle S k,
  live cur idle (pre ++ t :: post) S k -> within (Datatypes.S (length pre)) (on_cpu t) k.
Proof.
  induction pre as [|p pre IH]; intros post cur idle S k HL; right; (split; [by eapply live_computes|]);
    intros gs sp k1 a Hc Ha; destruct (turn _ _ _ _ _ _ _ _ _ HL Hc Ha) as (r & k2 & next & R' & S' & E & [HL2 _ (new & En & Er & _) _ _]);
    exists r, k2; (split; [exact E|]); cbn [app hd tail] in *; subst.
  - left. eapply live_on_cpu; [exact HL2|]. intros ->. destruct HL as [[_ _ (_ & _ & I3 & _) _] _ _].
    apply I3. rewrite elem_of_app. left. left.
  - rewrite <- app_assoc in HL2. cbn [app] in HL2. by eapply IH.
Qed.

Lemma joined_eventually t idle R S new next k2 :
  t ∈ new -> live next idle (tail (R ++ new)) S k2 -> next = hd idle (R ++ new) -> t <> idle -> eventually (on_cpu t) k2.
Proof.
  intros Ht HL En Hne. assert (Hin : t ∈ R ++ new) by (rewrite elem_of_app; auto).
  destruct (R ++ new) as [|n l]; [by apply elem_of_nil in Hin|]. cbn [hd tail] in *. subst next.
  apply elem_of_cons in Hin as [->|Hin]; [apply ev_now; by eapply live_on_cpu|].
  apply list_elem_of_split in Hin as (pre & post & ->). eapply within_eventually, ready_within, HL.
Qed.

(** The turns without a timer interrupt are bounded: each sends the running
    thread to sleep, until only the idle thread is left. *)
Definition sleepers_left (cur idle : Z) (R : list Z) : nat :=
  length R + (if decide (cur = idle) then 0 else 1).

Lemma sleeper_eventually t w : forall d n cur idle R S k,
  live cur idle R S k -> t ∈ S -> wake (k_mem k) t = w -> w - ticks (k_sched k) <= Z.of_nat d ->
  (sleepers_left cur idle R <= n)%nat -> 0 <= ticks (k_sched k) <= w -> 0 < tick_rate (k_sched k) ->
  w + tick_rate (k_sched k) < 2 ^ 64 -> eventually (on_cpu t) k.
Proof.
  induction d as [|d IHd]; induction n as [|n IHn]; intros cur idle R S k HL Ht Hw Hd Hn Htk Hr Hmax;
    (apply ev_turn_ok; [by eapply live_computes|]); intros gs sp k1 a Hc Ha;
    destruct (turn _ _ _ _ _ _ _ _ _ HL Hc Ha) as (r & k2 & next & R' & S' & E & [HL2 Hr2 (new & En & Er & Hs & Hnew) Hwk Htu]);
    exists r, k2; (split; [exact E|]); subst R';
    (assert (Hti : t <> idle) by (intros ->; destruct HL as [[_ _ (_ & _ & I3 & _) _] _ _]; apply I3; rewrite elem_of_app; auto));
    (destruct (Hs t Ht) as [Hin|Hin]; [by eapply joined_eventually|]);
    specialize (Hwk t Ht); pose proof HL as [[_ (C1 & _) (I1 & _) _] _ _]; destruct a as [|time]; cbn [allowed] in *.
  all: try (destruct Htu as [Et Hlt]; specialize (Hlt t Hin); rewrite Et in Hlt; rewrite u64_small in Et, Hlt by lia).
  all: try lia.
  all: try (eapply (IHd (sleepers_left next idle (tail (R ++ new)))); [exact HL2 | done | congruence | lia | lia | lia | lia | lia]).
  all: rewrite (Hnew time eq_refl), app_nil_r in *; rewrite C1, I1 in Ha.
  all: assert (Hm : (sleepers_left next idle (tail R) < sleepers_left cur idle R)%nat)
    by (unfold sleepers_left; rewrite (decide_False _ _ Ha); subst next; destruct R as [|x l]; cbn [hd tail length];
        [rewrite decide_True by done; lia | destruct (decide _); lia]).
  all: try lia.
  all: eapply IHn; [exact HL2 | done | congruence | lia | lia | lia | lia | lia].
Qed.
End fairness.

(** ** The properties *)

(** C18: a thread at position [length pre] of the ready queue has the CPU after at
    most [length pre + 1] turns, whatever the threads before it do in their turns
    and whether they are preempted or go to sleep; no turn gets stuck. *)
Theorem round_robin `{BS : BuddySymbols} `{HS : HeapSymbols} `{TS : TableSymbols} `{SS : SchedSymbols}
    T lo len cur idle pre t post S k :
  placed T -> stacks_ok T lo len -> live T lo len cur idle (pre ++ t :: post) S k ->
  within T lo len (Datatypes.S (length pre)) (on_cpu t) k.
Proof. intros HP HK HL. by eapply ready_within. Qed.

(** C19: no thread starves: whatever the threads do, every thread that is ready or
    asleep has the CPU after finitely many turns, provided that [ticks] has not
    passed the deadline of the sleeping thread yet and does not wrap around before
    it. *)
Theorem no_starvation `{BS : BuddySymbols} `{HS : HeapSymbols} `{TS : TableSymbols} `{SS : SchedSymbols}
    T lo len cur idle R S t k :
  placed T -> stacks_ok T lo len -> live T lo len cur idle R S k -> t ∈ R ++ S ->
  0 <= ticks (k_sched k) -> 0 < tick_rate (k_sched k) ->
  (t ∈ S -> ticks (k_sched k) <= wake (k_mem k) t /\ wake (k_mem k) t + tick_rate (k_sched k) < 2 ^ 64) ->
  eventually T lo len (on_cpu t) k.
Proof.
  intros HP HK HL [Ht|Ht]%elem_of_app Htk Hr Hw.
  - apply list_elem_of_split in Ht as (pre & post & ->). by eapply within_eventually, ready_within.
  - destruct (Hw Ht) as [W1 W2]. eapply (sleeper_eventually T HP lo len HK t _ (Z.to_nat (wake (k_mem k) t - ticks (k_sched k)))); [exact HL | done | reflexivity | lia | reflexivity | lia | lia | lia].
Qed.
