(* ===== verification/FairnessSample.v ===== *)
(** * The four threads of [SchedSample], each with a stack of its own *)

From Stdlib Require Import ZArith Lia Bool Sorted.
From stdpp Require Import base list gmap strings.
From S2P Require Import Prelude Machine StringLib Console Node Queue Bump Buddy Devices Descriptors Heap Sched SchedModel Switch SchedTheorems SchedSample Fairness.

#[local] Existing Instance four_buddy.
#[local] Existing Instance four_heap.
#[local] Existing Instance four_tables.
#[local] Existing Instance four_sched.

(** One page per thread. *)
Definition fair_lo (t : Z) : Z := 0xC0030000 + (t - four_idle) / 64 * 4096.
Definition fair_len (t : Z) : Z := 4096.

(** All threads but the running one are suspended on their stacks, and
    [four_asleep] sleeps until tick 20000. *)
Definition fair_kernel : kernel :=
  let m := st64 four_mem (thread_wake_at four_asleep) 20000 in
  let m := fold_left (fun m t => st32 m (thread_esp t) (fair_lo t + 256)) four_threads m in
  set_mem m four_kernel.

Lemma fair_lo_range t : t ∈ four_threads -> 0xC0030000 <= fair_lo t <= 0xC0033000.
Proof. intros Ht. unfold four_threads in Ht. in_four Ht. destruct Ht as [->|[->|[->|[->|[]]]]]; vm_compute; split; congruence. Qed.

Lemma fair_stacks : stacks_ok four_threads fair_lo fair_len.
Proof.
  split.
  - intros t Ht%fair_lo_range b Hb.
    unfold sched_bytes, four_threads, four_idle, four_cur, four_ready, four_asleep, range, tss_esp0, fair_len in *.
    cbn [que sleep_que tss four_sched four_tables].
    split; [intros [(q & Hq & Hr)|(u & Hu & Hr)]; [in_four Hq | in_four Hu] | intros Hr]; lia.
  - intros t Ht%fair_lo_range. unfold fair_len, KERNEL_VIRTUAL_BASE. lia.
  - intros t u Ht Hu Hne. unfold four_threads in *. in_four Ht. in_four Hu. unfold apart.
    destruct Ht as [->|[->|[->|[->|[]]]]]; destruct Hu as [->|[->|[->|[->|[]]]]]; try done; vm_compute; intuition congruence.
Qed.

Lemma fair_waiting t : t ∈ [four_idle; four_ready; four_asleep] -> waiting four_threads fair_lo fair_len (k_mem fair_kernel) t.
Proof.
  intros Ht. assert (HtT : t ∈ four_threads) by (unfold four_threads; in_four Ht; rewrite !elem_of_cons; tauto).
  destruct (sk_mapped _ _ _ fair_stacks t HtT) as (M1 & M2 & M3). unfold fair_len in M3.
  exists (fair_lo t + 256), [0; 0; 0; 0; 0; 0; 0], (ld32 (k_mem fair_kernel) (fair_lo t + 256 + 32)).
  split; [split|].
  - in_four Ht. destruct Ht as [->|[->|[->|[]]]]; vm_compute; reflexivity.
  - split; [|done]. in_four Ht. destruct Ht as [->|[->|[->|[]]]]; vm_compute; reflexivity.
  - lia.
  - intros b Hb. apply (sk_off _ _ _ fair_stacks t HtT). unfold range, fair_len in *. lia.
  - unfold in_stack, fair_len. lia.
Qed.

Lemma fair_live : live four_threads fair_lo fair_len four_cur four_idle [four_ready] [four_asleep] fair_kernel.
Proof.
  split; [split|..].
  - split; [vm_compute; repeat split.. | by apply (bool_decide_unpack _); vm_compute | apply (sr_threads _ _ _ _ four_rep)].
  - split_and!; [reflexivity | by apply (bool_decide_unpack _); vm_compute..].
  - split_and!; [reflexivity | by apply (bool_decide_unpack _); vm_compute .. | vm_compute; congruence].
  - repeat constructor.
  - intros _. vm_compute. reflexivity.
  - intros t Ht _. apply fair_waiting. exact Ht.
Qed.

Lemma round_robin_witness : within four_threads fair_lo fair_len 1 (on_cpu four_ready) fair_kernel.
Proof.
  exact (round_robin four_threads fair_lo fair_len four_cur four_idle [] four_ready [] [four_asleep] fair_kernel
    four_placed fair_stacks fair_live).
Defined.

Lemma no_starvation_witness : eventually four_threads fair_lo fair_len (on_cpu four_asleep) fair_kernel.
Proof.
  apply (no_starvation four_threads fair_lo fair_len four_cur four_idle [four_ready] [four_asleep] four_asleep fair_kernel
    four_placed fair_stacks fair_live).
  - by apply (bool_decide_unpack _); vm_compute.
  - vm_compute. congruence.
  - vm_compute. reflexivity.
  - intros _. vm_compute. split; [congruence | reflexivity].
Defined.
