(* ===== verification/BootSteps.v ===== *)
(** * The initialisation of each component during boot

    What [kmain] gets from every call it makes, stated so that the next call can
    use it: which globals change, which bytes may change. *)

From Stdlib Require Import ZArith Lia Bool.
From stdpp Require Import base functions list gmap strings.
From S2P Require Import Prelude Machine StringLib Console Node Queue Bump Buddy BuddyModel BuddyRefine BuddyInit Pmm Devices Descriptors Heap HeapModel HeapSteps HeapPages HeapCompact HeapAlloc HeapFree HeapTheorems HeapClient Sched SchedModel Switch SchedTheorems Threads.

(** ** Devices and tables *)

(** With a serial port that answers the loopback test. *)
Lemma seriel_init_spec k : (forall io, k_dev k (Out PORT 0xAE :: io) PORT = 0xAE) ->
  wp seriel_init k (fun _ k' => exists io, k' = set_io io k).
Proof.
  intros Hd. unfold seriel_init. do 9 (apply wp_bind, wp_outb). apply wp_bind.
  eapply wp_of_eq; [reflexivity|]. cbn [k_dev k_io set_io]. change (u16 (PORT + 0)) with PORT. change (u8 0xAE) with 0xAE. rewrite Hd.
  apply wp_bind, wp_ret, wp_outb. eexists. reflexivity.
Qed.

Lemma vga_clear_prints : prints vga_clear [] tt.
Proof.
  intros k (_ & _ & Hcol). unfold vga_clear. apply wp_bind, wp_modify. set (k1 := set_vga _ k).
  assert (H1 : printed [] k k1) by (apply printed_vga; unfold cursor_ok, rows, columns; cbn [cursor_row cursor_col vga_color]; rewrite !u8_small by lia; lia).
  apply wp_bind. eapply prints_wp; [apply vga_move_cursor_prints | by eapply printed_cursor |]. intros k2 H2.
  apply wp_bind, wp_gets, wp_bind. unfold columns, rows.
  eapply wp_mono; [apply kwmemset_spec; unfold VGA_MEMORY, KERNEL_VIRTUAL_BASE; lia|].
  intros _ k3 [_ Hf]. apply wp_ret. split; [done|]. eapply printed_seq; [exact H1|]. eapply printed_seq; [exact H2|].
  eapply printed_filled; [|by eapply printed_cursor|exact Hf]. unfold range, vga_fp, range, columns, rows. intros b Hb. lia.
Qed.

(** A line of the boot log. *)
Lemma kprintf_say fmt t k (Q : Z -> kernel -> Prop) : render (chars fmt) [] = Some t -> cursor_ok (k_vga k) ->
  (forall r m io v, untouched vga_fp (k_mem k) m -> cursor_ok v -> Q r (set_vga v (set_io io (set_mem m k)))) ->
  wp (kprintf fmt []) k Q.
Proof.
  intros Hr Hc HQ. eapply wp_mono; [by apply (kprintf_prints fmt [] t Hr)|]. intros r k' [_ (m & io & v & -> & Hu & _ & Hv)]. by apply HQ.
Qed.

Lemma init_pic_run k : wp init_pic k (fun _ k' => exists io v, k' = set_io io (set_devs
  (MkDev v (timer_callback (k_devs k)) (interrupt_handlers (k_devs k)) (rand_next (k_devs k))) k)).
Proof.
  unfold init_pic, io_wait. repeat (first [apply wp_bind, wp_outb | apply wp_outb]; cbv beta).
  apply wp_bind, read_pair_spec. intros hi lo Hhi Hlo. apply wp_modify. eexists _, _. reflexivity.
Qed.

Lemma init_pit_run k : wp (init_pit 100 CB_timer) k (fun r k' => r = 11931 /\ exists io, k' = set_io io (set_devs
  (MkDev (pic_mask (k_devs k)) (Some CB_timer) (<[32 := H_pit_irq_handler]> (interrupt_handlers (k_devs k))) (rand_next (k_devs k))) k)).
Proof.
  unfold init_pit. change (100 =? 0) with false. cbv iota zeta. do 3 (apply wp_bind, wp_outb).
  apply wp_bind, wp_modify, wp_bind, wp_modify, wp_ret. split; [reflexivity|]. eexists. reflexivity.
Qed.

(** ** The heap *)

Section heap.
Context `{BS : BuddySymbols} `{HS : HeapSymbols} `{PA : !PageAllocator pmm_alloc pmm_free get_order_addr}.

Lemma init_kmalloc_run H k : heap_ok H [] k -> cursor_ok (k_vga k) ->
  wpe out_of_memory init_kmalloc k (fun _ k' => exists H' PS', grows H [] k H' PS' k').
Proof.
  intros HK Hc. eapply wpe_mono; [by apply (init_kmalloc_spec H k)|].
  intros [] k' (i & HK1 & _ & _ & Hcall & Hu). exists ((i, 0) :: H), [new_page (P2V (4096 * i))]. split.
  - done.
  - by exists [(i, 0)].
  - intros b Hq [Hf|Hf].
    + destruct (fp_page _ _ _ _ HK1 Hf) as [Hx|(p & ->%list_elem_of_singleton & Hr)]; [apply Hq; left; by left|].
      apply Hq. right. by apply (fresh_page _ _ _ _ (hk_pages _ _ _ HK1)).
    + apply Hq. right. by eapply unheld_less.
  - intros b Hq. by apply Hu.
  - done.
Qed.
End heap.

(** ** The scheduler *)

Section sched.
Context `{BS : BuddySymbols} `{HS : HeapSymbols} `{TS : TableSymbols} `{SS : SchedSymbols}
  `{PA : !PageAllocator pmm_alloc pmm_free get_order_addr}.

Lemma init_list_spec L k (Q : unit -> kernel -> Prop) : KERNEL_VIRTUAL_BASE <= L -> L + sizeof_DLList <= 2 ^ 32 ->
  (forall m, queue m L [] -> untouched (range L sizeof_DLList) (k_mem k) m -> Q tt (set_mem m k)) -> wp (init_list L) k Q.
Proof.
  intros H1 H2 HQ. unfold init_list, list_size, list_head, list_tail, sizeof_DLList in *.
  apply wp_bind. eapply wp_access; [lia | lia | reflexivity | cbv beta].
  apply wp_bind. eapply wp_access; [lia | lia | reflexivity | cbv beta].
  eapply wp_access; [lia | lia | reflexivity | cbv beta]. cbn [k_mem set_mem].
  match goal with |- Q tt (set_mem ?m' _) => set (m := m'); apply (HQ m) end.
  - unfold queue, list_head, list_tail, list_size, m. mem_simp. done.
  - unfold m. intros b Hb. unfold range in Hb. mem_simp. done.
Qed.

Definition sched_started (t : Z) (s : sched_globals) : sched_globals :=
  MkSched (ticks s) 11931 t t (thread_id s) (reaper s) (saved_if s).

Definition timer_started (d : dev_globals) : dev_globals :=
  MkDev (pic_mask d) (Some CB_timer) (<[32 := H_pit_irq_handler]> (interrupt_handlers d)) (rand_next d).

(** The scheduler with the main thread [t], running and idle, and no other. *)
Record sched_first (H : list block) (PS : list hpage) (k : kernel) (t : Z) (H' : list block) (PS' : list hpage) (k' : kernel) : Prop := {
  sf_heap : heap_ok H' PS' k';
  sf_quiet : forall b, quiet H PS b -> quiet H' PS' b;
  sf_placed : placed [t];
  sf_safe : sched_safe [t] H' PS';
  sf_rep : sched_rep [t] (k_mem k') [] [];
  sf_pd : ld32 (k_mem k') (thread_pd t) = kernel_page_directory;
  sf_new : forall b, range t 36 b -> ~ quiet H PS b;
  sf_mem : forall b, quiet H PS b -> ~ sched_statics b -> ld8 (k_mem k') b = ld8 (k_mem k) b;
  sf_sched : k_sched k' = sched_started t (k_sched k);
  sf_devs : k_devs k' = timer_started (k_devs k);
  sf_rest : k_cpu k' = k_cpu k /\ k_vga k' = k_vga k /\ k_boot k' = k_boot k }.

Lemma init_sched_spec H PS k :
  heap_ok H PS k -> cursor_ok (k_vga k) -> placed [] -> sched_safe [] H PS -> 0 <= kernel_page_directory < 2 ^ 32 ->
  wpe out_of_memory init_sched k (fun t k' => exists H' PS', sched_first H PS k t H' PS' k').
Proof.
  intros HK Hc HP Hsafe Hpd. unfold init_sched. apply wpe_bind, wpe_wp. eapply wp_mono; [apply init_pit_run|].
  intros r k1 (-> & io & ->). apply wpe_bind, wpe_wp, wp_modify. set (k2 := set_sched _ _).
  destruct (pl_que [] HP que (que_in)) as [Q1 Q2]. destruct (pl_que [] HP sleep_que (sleep_in)) as [S1 S2].
  pose proof (pl_ques [] HP que sleep_que que_in sleep_in (que_ne_sleep [] HP)) as Hap. unfold sizeof_DLList in Hap.
  apply wpe_bind, wpe_wp, init_list_spec; [done | done |]. intros m1 Hq1 U1.
  apply wpe_bind, wpe_wp, init_list_spec; [done | done |]. intros m2 Hq2 U2. cbn [k_mem set_mem] in U2.
  change (set_mem m2 (set_mem m1 k2)) with (set_mem m2 k2). set (k3 := set_mem m2 k2).
  assert (Hq1' : queue m2 que []) by (eapply queue_frame; [exact Hq1 | eapply untouched_agree; [exact U2|]; unfold apart, range, sizeof_DLList in *; lia | intros a Ha; by apply elem_of_nil in Ha]).
  assert (U : untouched sched_statics (k_mem k) m2).
  { eapply untouched_trans; eapply untouched_mono; [|exact U1| |exact U2]; intros b Hb; left; [exists que | exists sleep_que]; (split; [|exact Hb]); [apply que_in | apply sleep_in]. }
  assert (HK3 : heap_ok H PS k3).
  { apply (heap_ok_frame H PS k); [done | done | done |]. intros b Hb. apply U. intros Hx. apply (Hsafe b); [by right | done]. }
  apply wpe_bind. eapply wpe_mono; [apply (kmalloc_small_grows sizeof_Thread H PS k3 HK3 Hc); unfold sizeof_Thread; lia|].
  intros t k4 (s & H' & PS' & _ & _ & G & Ht & _). pose proof Ht as (T1 & T2 & T3). unfold sizeof_Thread in T2, T3.
  pose proof (gw_call _ _ _ _ _ _ G) as (m4 & b4 & h4 & ->).
  apply wpe_wp, wp_bind, wp_modify, wp_bind, wp_modify. unfold KERNEL_VIRTUAL_BASE in T1. unfold thread_id_of, thread_pd.
  apply wp_bind. eapply wp_access; [unfold KERNEL_VIRTUAL_BASE; lia | lia | reflexivity | cbv beta].
  apply wp_bind. eapply wp_access; [unfold KERNEL_VIRTUAL_BASE; lia | lia | reflexivity | cbv beta].
  apply wp_ret. cbn [k_mem set_mem set_sched set_heap set_buddy]. set (m5 := st32 _ _ _).
  assert (U5 : untouched (range t 36) m4 m5) by (unfold m5; intros b Hb; unfold range in Hb; mem_simp; done).
  assert (Hmem : forall b, quiet H PS b -> ld8 m5 b = ld8 m2 b).
  { intros b Hq. rewrite U5 by (intros Hx; by destruct (T3 b Hx)). apply (gw_mem _ _ _ _ _ _ G b Hq). }
  assert (Hqq : forall q, q ∈ queues -> forall l, l = [] -> queue m2 q l -> queue m5 q l).
  { intros q Hq l -> HQ. eapply queue_frame; [exact HQ | | intros a Ha; by apply elem_of_nil in Ha].
    intros b Hb. apply Hmem, Hsafe. right. left. by exists q. }
  exists H', PS'. split; cbn [k_mem k_sched k_devs k_cpu k_vga k_boot set_mem set_sched set_heap set_buddy].
  - apply (heap_ok_frame H' PS' _ _ (gw_heap _ _ _ _ _ _ G)); [done | done |]. intros b Hb. apply U5.
    intros Hx. by apply (proj2 (T3 b Hx)).
  - apply (gw_quiet _ _ _ _ _ _ G).
  - by apply (placed_taken [] t H PS H' PS').
  - intros b [[(q & Hq%run_queue & Hb)|(u & ->%list_elem_of_singleton & Hb)]|Hb]; [| by apply T3 |]; apply (gw_quiet _ _ _ _ _ _ G), Hsafe; right; [left; by exists q | done].
  - split; [by apply Hqq, Hq1'; [apply que_in|] | by apply Hqq, Hq2; [apply sleep_in|] | constructor | intros u Hu; by apply elem_of_nil in Hu].
  - unfold m5. rewrite ld32_st32_eq. by apply u32_small.
  - intros b Hb. by apply T3.
  - intros b Hq Hn. rewrite Hmem by done. by apply U.
  - reflexivity.
  - reflexivity.
  - done.
Qed.

(** The reaper's queue is none of the scheduler's bytes. *)
Lemma zombie_off T b : placed T -> range zombie_que sizeof_DLList b -> ~ sched_bytes T b.
Proof.
  intros HP Hb Hs. pose proof (pl_distinct T HP) as Hn. unfold queues in Hn.
  apply NoDup_cons in Hn as [N1 [N2 _]%NoDup_cons]. destruct Hs as [(q & Hq & Hr)|(t & Ht & Hr)].
  - assert (Hne : q <> zombie_que) by (intros ->; apply elem_of_cons in Hq as [E|[E|E]%elem_of_cons]; [apply N1; rewrite E; right; left | apply N2; rewrite E; left | by apply elem_of_nil in E]).
    pose proof (pl_ques T HP q zombie_que (run_queue q Hq) zombie_in Hne). unfold apart, range, sizeof_DLList in *. lia.
  - pose proof (pl_que_thread T HP zombie_que t zombie_in Ht). unfold apart, range, sizeof_DLList, sizeof_Thread in *. lia.
Qed.

Definition with_reaper (t : Z) (s : sched_globals) : sched_globals :=
  MkSched (ticks s) (tick_rate s) (cur_thread s) (idle_thread s) (thread_id s) t (saved_if s).

(** [init_reaper]: an empty zombie queue and the reaper's thread, to be started at
    [reaper_main]. *)
Lemma init_reaper_spec T R S H PS k :
  heap_ok H PS k -> cursor_ok (k_vga k) -> placed T -> sched_rep T (k_mem k) R S -> sched_safe T H PS ->
  Z.of_nat (Datatypes.S (length T)) < 2 ^ 32 -> 0 <= thread_id (k_sched k) < 2 ^ 32 ->
  0 <= reaper_main_addr < 2 ^ 32 -> 0 <= kthread_stub_addr < 2 ^ 32 -> 0 <= kernel_page_directory < 2 ^ 32 ->
  wpe out_of_memory init_reaper k (fun _ k' => exists t sp m1 H' PS' k2,
    untouched (range zombie_que sizeof_DLList) (k_mem k) m1 /\ k' = set_sched (with_reaper t (k_sched k2)) k2 /\
    spawned T R S H PS (set_mem m1 k) t sp kthread_stub_addr H' PS' k2 /\ queue (k_mem k') zombie_que [] /\
    ld32 (k_mem k') (sp + 40) = reaper_main_addr /\ ld32 (k_mem k') (thread_pd t) = kernel_page_directory).
Proof.
  intros HK Hc HP HR Hsafe Hlen Hid He Hks Hpd. destruct (pl_que T HP zombie_que zombie_in) as [Z1 Z2]. unfold sizeof_DLList in Z2.
  unfold init_reaper, list_head, list_tail, list_size.
  apply wpe_bind. eapply wpe_access; [lia | lia | reflexivity | cbv beta].
  apply wpe_bind. eapply wpe_access; [lia | lia | reflexivity | cbv beta].
  apply wpe_bind. eapply wpe_access; [lia | lia | reflexivity | cbv beta]. cbn [k_mem set_mem].
  set (m1 := st32 _ (zombie_que + 8) _). change (set_mem m1 _) with (set_mem m1 k).
  assert (U1 : untouched (range zombie_que sizeof_DLList) (k_mem k) m1) by (unfold m1, sizeof_DLList; intros b Hb; unfold range in Hb; mem_simp; done).
  assert (Hq1 : queue m1 zombie_que []) by (unfold queue, list_head, list_tail, list_size, m1; mem_simp; done).
  assert (Hquiet : forall b, range zombie_que sizeof_DLList b -> quiet H PS b) by (intros b Hb; apply Hsafe; right; left; exists zombie_que; split; [apply zombie_in | done]).
  assert (HK1 : heap_ok H PS (set_mem m1 k)).
  { apply (heap_ok_frame H PS k); [done | done | done |]. intros b Hb. apply U1. intros Hx. by apply (Hquiet b Hx). }
  assert (HR1 : sched_rep T m1 R S).
  { eapply sched_rep_same; [exact HR|]. intros b Hb. apply U1. intros Hx. by apply (zombie_off T b HP Hx). }
  apply wpe_bind. eapply wpe_mono; [by apply (thread_create_spec T R S H PS reaper_main_addr NULL (set_mem m1 k))|].
  intros t k2 (sp & H' & PS' & HW & _ & Hpd2 & _ & Hargs & _). apply wpe_wp, wp_modify.
  exists t, sp, m1, H', PS', k2. injection Hargs as _ Harg _ _. split_and!; try done.
  eapply queue_frame; [exact Hq1 | | intros a Ha; by apply elem_of_nil in Ha].
  intros b Hb. apply (sw_mem _ _ _ _ _ _ _ _ _ _ _ _ HW); [by apply Hquiet | by apply zombie_off].
Qed.
End sched.
