(* ===== verification/Isr.v ===== *)
(** * Interrupt dispatch: src/interrupts/isr.c

    [interrupt_handler] runs the handler registered for the vector, or reports
    the registers and panics.  The handlers are those of Sched.v: the timer
    interrupt and the system calls. *)

From Stdlib Require Import ZArith Lia Bool.
From stdpp Require Import base list gmap strings.
From S2P Require Import Prelude Machine StringLib Console Node Queue Bump Buddy Devices Descriptors Heap Sched SchedModel Switch SchedTheorems Threads Reaper SchedSample.

(** ** The code *)

(** Fields of [register_t] beside those of Sched.v. *)
Definition regs_edi (regs : Z) : Z := regs + 4.
Definition regs_esi (regs : Z) : Z := regs + 8.
Definition regs_edx (regs : Z) : Z := regs + 24.
Definition regs_ecx (regs : Z) : Z := regs + 28.
Definition regs_interrupt (regs : Z) : Z := regs + 36.
Definition regs_error_code (regs : Z) : Z := regs + 40.
Definition regs_eip (regs : Z) : Z := regs + 44.
Definition regs_cs (regs : Z) : Z := regs + 48.
Definition regs_eflags (regs : Z) : Z := regs + 52.
Definition sizeof_register_t : Z := 64.

Definition g_Exceptions : list string :=
  ["Divide by zero error"; "Debug"; "Non-maskable Interrupt"; "Breakpoint"; "Overflow";
   "Bound Range Exceeded"; "Invalid Opcode"; "Device Not Available"; "Double Fault";
   "Coprocessor Segment Overrun"; "Invalid TSS"; "Segment Not Present"; "Stack-Segment Fault";
   "General Protection Fault"; "Page Fault"; ""; "x87 Floating-Point Exception"; "Alignment Check";
   "Machine Check"; "SIMD Floating-Point Exception"; "Virtualization Exception";
   "Control Protection Exception "; ""; ""; ""; ""; ""; ""; "Hypervisor Injection Exception";
   "VMM Communication Exception"; "Security Exception"; ""].

Definition exception_name (vec : Z) : string := nth (Z.to_nat vec) g_Exceptions "".

Section code.
Context `{BS : BuddySymbols} `{HS : HeapSymbols} `{TS : TableSymbols} `{SS : SchedSymbols}.

Definition interrupt_handler (regs : Z) : M unit :=
  word ← load32 (regs_interrupt regs);
  let vec := u8 word in
  h ← gets (fun k => interrupt_handlers (k_devs k) !! vec);
  match h with
  | Some h => run_handler h regs
  | None =>
      kprintf (newline ++ newline) [];;
      (if vec <? 32 then
         kprintf ("Unhandled exception %d %s" ++ newline) [A32 vec; AStr (exception_name vec)]
       else kprintf ("Unhandled interrupt: %d" ++ newline) [A32 vec]);;
      eax ← load32 (regs_eax regs); ebx ← load32 (regs_ebx regs); ecx ← load32 (regs_ecx regs);
      edx ← load32 (regs_edx regs); esi ← load32 (regs_esi regs); edi ← load32 (regs_edi regs);
      kprintf ("eax=%x ebx=%x ecx=%x edx=%x esi=%x edi=%x" ++ newline)
        [A32 eax; A32 ebx; A32 ecx; A32 edx; A32 esi; A32 edi];;
      eip ← load32 (regs_eip regs); cs ← load32 (regs_cs regs); eflags ← load32 (regs_eflags regs);
      kprintf ("eip=%x cs=%x eflags=%x" ++ newline) [A32 eip; A32 cs; A32 eflags];;
      error_code ← load32 (regs_error_code regs);
      kprintf ("interrupt=%d error_code=%x" ++ newline) [A32 vec; A32 error_code];;
      kernel_panic ""
  end.
End code.

(** ** The report *)

(** The lines printed for an unhandled interrupt with the frame at [regs]. *)
Definition report (m : memory) (regs : Z) : list (string * list arg) :=
  let field f := A32 (ld32 m (f regs)) in
  let vec := u8 (ld32 m (regs_interrupt regs)) in
  [((newline ++ newline)%string, []);
   (if vec <? 32 then (("Unhandled exception %d %s" ++ newline)%string, [A32 vec; AStr (exception_name vec)])
    else (("Unhandled interrupt: %d" ++ newline)%string, [A32 vec]));
   (("eax=%x ebx=%x ecx=%x edx=%x esi=%x edi=%x" ++ newline)%string,
      [field regs_eax; field regs_ebx; field regs_ecx; field regs_edx; field regs_esi; field regs_edi]);
   (("eip=%x cs=%x eflags=%x" ++ newline)%string, [field regs_eip; field regs_cs; field regs_eflags]);
   (("interrupt=%d error_code=%x" ++ newline)%string, [A32 vec; field regs_error_code])].

Definition line_text (l : string * list arg) : list Z := default [] (render (chars l.1) l.2).
Definition report_text (m : memory) (regs : Z) : list Z :=
  concat (line_text <$> report m regs) ++ panic_text "".

(** [m] run from [k] never returns: it stops with [e] in a state with [Q]. *)
Definition ends {A} (m : M A) (k : kernel) (e : stop) (Q : kernel -> Prop) : Prop :=
  exists k', m k = Stop e k' /\ Q k'.

Lemma ends_bind {A B} (m : M A) (f : A -> M B) k e Q :
  wp m k (fun a k' => ends (f a) k' e Q) -> ends (m ≫= f) k e Q.
Proof.
  intros Hw. destruct (wp_ok _ _ _ Hw) as (a & k1 & E & k' & E' & HQ). exists k'. split; [|done].
  unfold mbind, M_bind. by rewrite E.
Qed.

Lemma report_renders m regs l : l ∈ report m regs -> render (chars l.1) l.2 = Some (line_text l).
Proof.
  unfold report, line_text. destruct (_ <? 32); intros Hl; repeat rewrite elem_of_cons in Hl;
    rewrite elem_of_nil in Hl; destruct_or! Hl; try done; subst l; reflexivity.
Qed.

Section report.
Context (k : kernel) (regs : Z) (HR : KERNEL_VIRTUAL_BASE <= regs /\ regs + sizeof_register_t <= 2 ^ 32)
  (Hoff : forall b, range regs sizeof_register_t b -> ~ vga_fp b).

(** The frame is not on the screen: printing keeps it. *)
Lemma load_reg off t k1 {A} (f : Z -> M A) e Q :
  printed t k k1 -> 0 <= off -> off + 4 <= sizeof_register_t ->
  ends (f (ld32 (k_mem k) (regs + off))) k1 e Q -> ends (load32 (regs + off) ≫= f) k1 e Q.
Proof using HR Hoff.
  intros (m & io & v & -> & Hu & _) H1 H2 HE. apply ends_bind. unfold sizeof_register_t in *.
  eapply wp_access; [lia | lia | reflexivity | cbv beta]. cbn [k_mem set_vga set_io set_mem].
  rewrite (ld32_agree (k_mem k) m); [exact HE|]. eapply untouched_agree; [exact Hu|].
  intros b Hb. apply Hoff. unfold range, sizeof_register_t in *. lia.
Qed.

Lemma print_line fmt args t k1 {A} (f : Z -> M A) e Q :
  printed (u8 <$> t) k k1 -> (fmt, args) ∈ report (k_mem k) regs ->
  (forall r k2, printed (u8 <$> t ++ line_text (fmt, args)) k k2 -> ends (f r) k2 e Q) ->
  ends (kprintf fmt args ≫= f) k1 e Q.
Proof using Type.
  intros HP Hl HE. apply ends_bind. eapply prints_wp.
  - apply kprintf_prints. exact (report_renders _ _ _ Hl).
  - by eapply printed_cursor.
  - intros k2 HP2. apply HE. rewrite fmap_app. by eapply printed_app.
Qed.
End report.

(** ** The properties *)

(** C37: an interrupt or exception without a handler never returns: it prints the
    vector, the exception's name, the saved registers and the error code as they
    are in the frame, then panics with interrupts off; only the screen changes. *)
Theorem unhandled_interrupt_panics `{BS : BuddySymbols} `{HS : HeapSymbols} `{TS : TableSymbols} `{SS : SchedSymbols}
    regs k :
  KERNEL_VIRTUAL_BASE <= regs -> regs + sizeof_register_t <= 2 ^ 32 ->
  (forall b, range regs sizeof_register_t b -> ~ vga_fp b) -> cursor_ok (k_vga k) ->
  interrupt_handlers (k_devs k) !! u8 (ld32 (k_mem k) (regs_interrupt regs)) = None ->
  exists k', interrupt_handler regs k = Stop (Panic "") k' /\ eflags_if (k_cpu k') = false /\
    serial_text (k_io k') = serial_text (k_io k) ++ (u8 <$> report_text (k_mem k) regs) /\
    untouched vga_fp (k_mem k) (k_mem k').
Proof.
  intros H1 H2 Hoff Hc Hh.
  change (ends (interrupt_handler regs) k (Panic "") (fun k' => eflags_if (k_cpu k') = false /\
    serial_text (k_io k') = serial_text (k_io k) ++ (u8 <$> report_text (k_mem k) regs) /\
    untouched vga_fp (k_mem k) (k_mem k'))).
  pose proof (report_renders (k_mem k) regs) as Hrep. pose proof (printed_nil k Hc) as P0.
  pose proof (load_reg k regs (conj H1 H2) Hoff) as LD.
  pose proof (print_line k regs) as PL.
  unfold interrupt_handler. eapply (LD 36); [exact P0 | lia | unfold sizeof_register_t; lia |]. 
  apply ends_bind, wp_gets. unfold regs_interrupt in Hh. rewrite Hh.
  set (vec := u8 (ld32 (k_mem k) (regs + 36))).
  apply (PL _ _ []); [exact P0 | left |]. intros _ k1 P1.
  assert (HV : forall {A} (f : Z -> M A) e Q,
    (forall r k2, printed (u8 <$> [] ++ line_text ((newline ++ newline)%string, []) ++
        line_text (nth 1 (report (k_mem k) regs) ("", []))) k k2 -> ends (f r) k2 e Q) ->
    ends ((if vec <? 32 then kprintf ("Unhandled exception %d %s" ++ newline) [A32 vec; AStr (exception_name vec)]
       else kprintf ("Unhandled interrupt: %d" ++ newline) [A32 vec]) ≫= f) k1 e Q).
  { intros A f e Q. cbn [nth report]. fold (regs_interrupt regs) in vec. fold vec.
    assert (Hin : nth 1 (report (k_mem k) regs) ("", []) ∈ report (k_mem k) regs) by (right; left).
    cbn [nth report] in Hin. fold vec in Hin. destruct (vec <? 32); intros HE;
    (eapply PL; [exact P1 | exact Hin |]; intros r k2 P2; eapply HE; by rewrite app_assoc). }
  apply HV. intros _ k2 P2.
  do 6 (eapply LD; [exact P2 | lia | unfold sizeof_register_t; lia |]).
  eapply PL; [exact P2 | right; right; left |]. intros _ k3 P3.
  do 3 (eapply LD; [exact P3 | lia | unfold sizeof_register_t; lia |]).
  eapply PL; [exact P3 | right; right; right; left |]. intros _ k4 P4.
  eapply LD; [exact P4 | lia | unfold sizeof_register_t; lia |].
  eapply PL; [exact P4 | right; right; right; right; left |]. intros _ k5 P5.
  destruct (kernel_panic_prints (A:=unit) "" k5 (printed_cursor _ _ _ P5)) as (k' & E & Hif & m' & io' & v' & -> & U' & T' & _).
  destruct P5 as (m5 & io5 & v5 & -> & U5 & T5 & _).
  eexists. split; [exact E|]. split; [done|]. cbn [k_io k_mem set_vga set_io set_mem set_cpu] in *. split.
  - rewrite T', T5, <- app_assoc, <- fmap_app. f_equal. f_equal. unfold report_text. cbn [fmap list_fmap report concat].
    rewrite ?app_nil_l, ?app_nil_r, <- ?app_assoc. reflexivity.
  - by eapply untouched_trans.
Qed.

(** C30: the sleep system call: interrupt 0x80 with [eax] = SYS_SLEEP, dispatched to
    the registered handler, puts the calling thread to sleep for [ebx] units from
    now and resumes the next ready thread or the idle thread. *)
Theorem sys_sleep_correct `{BS : BuddySymbols} `{HS : HeapSymbols} `{TS : TableSymbols} `{SS : SchedSymbols}
    T cur idle R S gs sp gs' nsp eip' regs k :
  placed T -> sched_state T cur idle R S gs sp k -> cur <> idle ->
  suspended T (k_mem k) (hd idle R) nsp gs' eip' -> (sp + 4 <= nsp \/ nsp + 36 <= sp - 32) ->
  KERNEL_VIRTUAL_BASE <= regs -> regs + sizeof_register_t <= 2 ^ 32 ->
  interrupt_handlers (k_devs k) !! 0x80 = Some H_syscall_handler ->
  u8 (ld32 (k_mem k) (regs_interrupt regs)) = 0x80 -> ld32 (k_mem k) (regs_eax regs) = SYS_SLEEP ->
  wp (interrupt_handler regs) k (fun _ k' =>
    slept T cur idle (u64 (ticks (k_sched k) + u64 (ld32 (k_mem k) (regs_ebx regs) * PIT_CRYSTAL)))
      R S sp nsp gs gs' k k').
Proof.
  intros HP [[HR (Hc1 & Hc2 & Hc3) (Hi1 & Hi2 & Hi3 & Hi4) Hso] Hrun (Ho & B1 & B2)] Hne Hsu Hap M1 M2 Hh Hv Ha.
  unfold sizeof_register_t in M2. unfold interrupt_handler. apply wp_bind. unfold regs_interrupt in *.
  eapply wp_access; [lia | lia | reflexivity | cbv beta]. rewrite Hv. apply wp_bind, wp_gets. rewrite Hh.
  unfold run_handler, syscall_handler. apply wp_bind. unfold regs_eax in *.
  eapply wp_access; [lia | lia | reflexivity | cbv beta]. rewrite Ha. cbn [Z.eqb SYS_SLEEP SYS_EXIT].
  apply wp_bind. unfold regs_ebx. eapply wp_access; [lia | lia | reflexivity | cbv beta].
  unfold do_sleep. apply wp_bind. eapply wp_mono.
  { by apply (thread_sleep_spec T HP cur idle R S (ld32 (k_mem k) (regs + 20)) k gs sp gs' nsp eip'). }
  intros r k' (-> & Hsl). by apply wp_ret.
Qed.

(** C31: the exit system call: interrupt 0x80 with [eax] = SYS_EXIT makes the calling
    thread a zombie, behind the others in the reaper's queue, readies the reaper
    unless it is ready already, and resumes the first ready thread.  The zombie is
    in none of the scheduler's queues any more, and every invariant of the scheduler
    and the reaper holds for the thread that runs now. *)
Theorem sys_exit_correct `{BS : BuddySymbols} `{HS : HeapSymbols} `{TS : TableSymbols} `{SS : SchedSymbols}
    T cur idle r R S Zs gs sp gs' nsp eip' regs k :
  placed T -> sched_state T cur idle R S gs sp k -> zombies T cur idle r R S Zs (k_mem k) -> reaper_thread T idle r R S k ->
  cur <> idle -> cur <> r -> off_zombies (sp - 32) 36 -> off_zombies nsp 36 ->
  suspended T (k_mem k) (hd idle (with_reaper r R)) nsp gs' eip' -> (sp + 4 <= nsp \/ nsp + 36 <= sp - 32) ->
  KERNEL_VIRTUAL_BASE <= regs -> regs + sizeof_register_t <= 2 ^ 32 ->
  interrupt_handlers (k_devs k) !! 0x80 = Some H_syscall_handler ->
  u8 (ld32 (k_mem k) (regs_interrupt regs)) = 0x80 -> ld32 (k_mem k) (regs_eax regs) = SYS_EXIT ->
  wp (interrupt_handler regs) k (fun _ k' =>
    let next := hd idle (with_reaper r R) in
    population T next idle r (tail (with_reaper r R)) S (Zs ++ [cur]) k' /\
    status (k_mem k') cur = ZOMBIE /\ status (k_mem k') next = RUNNING /\
    gprs (k_cpu k') = gs' /\ esp (k_cpu k') = nsp + 36).
Proof.
  intros HP Hss HZ HR Hne Hnr Ho1 Ho2 Hsu Hap M1 M2 Hh Hv Ha.
  unfold sizeof_register_t in M2. unfold interrupt_handler. apply wp_bind. unfold regs_interrupt in *.
  eapply wp_access; [lia | lia | reflexivity | cbv beta]. rewrite Hv. apply wp_bind, wp_gets. rewrite Hh.
  unfold run_handler, syscall_handler. apply wp_bind. unfold regs_eax in *.
  eapply wp_access; [lia | lia | reflexivity | cbv beta]. rewrite Ha. cbn [Z.eqb SYS_EXIT].
  by apply (do_exit_spec T HP cur idle r R S Zs gs sp gs' nsp eip' k).
Qed.

(** the handler last registered for a vector is the one that runs: after
    [register_interrupt_handler n h] the dispatch of vector [n] is [h] on the same
    frame, and every other vector is dispatched as before. *)
Theorem interrupt_dispatch `{BS : BuddySymbols} `{HS : HeapSymbols} `{TS : TableSymbols} `{SS : SchedSymbols}
    n h regs k :
  KERNEL_VIRTUAL_BASE <= regs -> regs + sizeof_register_t <= 2 ^ 32 -> 0 <= n < 256 ->
  exists k1, register_interrupt_handler n h k = Ok tt k1 /\
    (u8 (ld32 (k_mem k) (regs_interrupt regs)) = n -> interrupt_handler regs k1 = run_handler h regs k1) /\
    (forall h', u8 (ld32 (k_mem k) (regs_interrupt regs)) <> n ->
       interrupt_handlers (k_devs k) !! u8 (ld32 (k_mem k) (regs_interrupt regs)) = Some h' ->
       interrupt_handler regs k1 = run_handler h' regs k1).
Proof.
  intros M1 M2 Hn. unfold sizeof_register_t, KERNEL_VIRTUAL_BASE in *. eexists. split; [reflexivity|].
  set (k1 := set_devs _ k).
  assert (Hmap : mapped (regs + 36) 4 = true) by (unfold mapped, KERNEL_VIRTUAL_BASE; rewrite andb_true_iff; lia).
  assert (Hd : forall g, interrupt_handlers (k_devs k1) !! u8 (ld32 (k_mem k) (regs_interrupt regs)) = Some g ->
    interrupt_handler regs k1 = run_handler g regs k1).
  { intros g Hg. unfold interrupt_handler, load32, access, regs_interrupt, mbind, M_bind in *. rewrite Hmap.
    cbn [gets k_mem k1 set_devs]. unfold gets. cbn [k_devs set_devs] in *. fold k1. rewrite Hg. done. }
  split; [intros E | intros h' E Hh]; apply Hd; cbn [k_devs k1 set_devs interrupt_handlers].
  - rewrite E. rewrite u8_small by lia. apply lookup_insert_eq.
  - rewrite lookup_insert_ne; [done|]. rewrite u8_small by lia. congruence.
Qed.

(** ** The theorems on the system of SchedSample.v *)

#[local] Existing Instance four_buddy.
#[local] Existing Instance four_heap.
#[local] Existing Instance four_tables.
#[local] Existing Instance four_sched.

(** A general protection fault with error code 8 and no handler. *)
Definition fault_kernel : kernel := set_mem (st32 (st32 ∅ 0xC0050024 13) 0xC0050028 8) empty_kernel.

Lemma unhandled_interrupt_panics_witness : exists k',
  interrupt_handler 0xC0050000 fault_kernel = Stop (Panic "") k' /\
  serial_text (k_io k') = u8 <$> report_text (k_mem fault_kernel) 0xC0050000.
Proof.
  destruct (unhandled_interrupt_panics 0xC0050000 fault_kernel) as (k' & E & _ & Hs & _).
  - unfold KERNEL_VIRTUAL_BASE. lia.
  - unfold sizeof_register_t. lia.
  - intros b. unfold range, sizeof_register_t, vga_fp, range, VGA_MEMORY, columns, rows. lia.
  - unfold cursor_ok, rows, columns. cbn. lia.
  - vm_compute. reflexivity.
  - exists k'. split; [exact E | exact Hs].
Defined.

(** The text of that report starts with the name of the exception. *)
Example fault_report : firstn 49 (report_text (k_mem fault_kernel) 0xC0050000) =
  chars (newline ++ newline ++ "Unhandled exception 13 General Protection Fault").
Proof. vm_compute. reflexivity. Qed.

(** [four_cur] makes the system call sleep(3) from the frame at 0xC0050000. *)
Definition call_kernel : kernel :=
  set_devs (MkDev 0xFFFF None {[0x80 := H_syscall_handler]} 1)
    (set_mem (st32 (st32 (st32 four_mem 0xC0050024 0x80) 0xC0050020 1) 0xC0050014 3) four_kernel).

Lemma call_state : sched_state four_threads four_cur four_idle [four_ready] [four_asleep]
  [1; 2; 3; 4; 5; 6; 7] 0xC0032000 call_kernel.
Proof.
  destruct four_state as [[_ Hc Hi _] Hrun Hst]. split; [|exact Hrun | exact Hst]. split.
  - split; [vm_compute; repeat split.. | exact (sr_nodup _ _ _ _ four_rep) | exact (sr_threads _ _ _ _ four_rep)].
  - exact Hc.
  - destruct Hi as (? & ? & ? & ?). split_and!; [done.. | vm_compute; congruence].
  - repeat constructor.
Qed.

Lemma sys_sleep_correct_witness :
  wp (interrupt_handler 0xC0050000) call_kernel (fun _ k' =>
    cur_thread (k_sched k') = four_ready /\ wake (k_mem k') four_cur = 3579556).
Proof.
  eapply wp_mono; [apply (sys_sleep_correct four_threads four_cur four_idle [four_ready] [four_asleep]
    [1; 2; 3; 4; 5; 6; 7] 0xC0032000 [0; 0; 0; 0; 0; 0; 0] 0xC0031000 0xC0100000 0xC0050000 call_kernel
    four_placed call_state)|].
  - vm_compute. congruence.
  - split; [vm_compute; reflexivity | vm_compute; split; reflexivity | unfold KERNEL_VIRTUAL_BASE; lia | apply four_off; lia].
  - lia.
  - unfold KERNEL_VIRTUAL_BASE. lia.
  - unfold sizeof_register_t. lia.
  - vm_compute. reflexivity.
  - vm_compute. reflexivity.
  - vm_compute. reflexivity.
  - intros [] k' HS. split; [exact (sl_next _ _ _ _ _ _ _ _ _ _ _ _ HS) | exact (sl_wake _ _ _ _ _ _ _ _ _ _ _ _ HS)].
Defined.

Lemma interrupt_dispatch_witness : exists k1,
  register_interrupt_handler 0x80 H_pit_irq_handler call_kernel = Ok tt k1 /\
  interrupt_handler 0xC0050000 k1 = pit_irq_handler k1.
Proof.
  destruct (interrupt_dispatch 0x80 H_pit_irq_handler 0xC0050000 call_kernel) as (k1 & E & H1 & _);
    [unfold KERNEL_VIRTUAL_BASE; lia | unfold sizeof_register_t; lia | lia |].
  exists k1. split; [exact E | apply H1; vm_compute; reflexivity].
Defined.

(** [four_cur] exits; [four_ready] is the reaper. *)
Definition exit_kernel : kernel :=
  set_sched (MkSched 10 11931 four_cur four_idle 3 four_ready ∅)
    (set_mem (st32 (k_mem call_kernel) 0xC0050020 0) call_kernel).

Lemma exit_state : sched_state four_threads four_cur four_idle [four_ready] [four_asleep]
  [1; 2; 3; 4; 5; 6; 7] 0xC0032000 exit_kernel.
Proof.
  destruct four_state as [[_ Hc Hi _] Hrun Hst]. split; [|exact Hrun | exact Hst]. split.
  - split; [vm_compute; repeat split.. | exact (sr_nodup _ _ _ _ four_rep) | exact (sr_threads _ _ _ _ four_rep)].
  - exact Hc.
  - destruct Hi as (? & ? & ? & ?). split_and!; [done.. | vm_compute; congruence].
  - repeat constructor.
Qed.

Lemma sys_exit_correct_witness :
  wp (interrupt_handler 0xC0050000) exit_kernel (fun _ k' =>
    population four_threads four_ready four_idle four_ready [] [four_asleep] [four_cur] k' /\
    status (k_mem k') four_cur = ZOMBIE).
Proof.
  eapply wp_mono; [apply (sys_exit_correct four_threads four_cur four_idle four_ready [four_ready] [four_asleep] []
    [1; 2; 3; 4; 5; 6; 7] 0xC0032000 [0; 0; 0; 0; 0; 0; 0] 0xC0031000 0xC0100000 0xC0050000 exit_kernel
    four_placed exit_state)|].
  - split; [vm_compute; repeat split | constructor |]. intros t Ht. by apply elem_of_nil in Ht.
  - split; [reflexivity | |].
    + split_and!; [apply (sr_threads _ _ _ _ four_rep); left | vm_compute; congruence | by apply (bool_decide_unpack _); vm_compute].
    + split; [intros _; left | intros _; vm_compute; reflexivity].
  - vm_compute. congruence.
  - vm_compute. congruence.
  - intros b. unfold range. cbn [zombie_que four_sched]. lia.
  - intros b. unfold range. cbn [zombie_que four_sched]. lia.
  - split; [vm_compute; reflexivity | vm_compute; split; reflexivity | unfold KERNEL_VIRTUAL_BASE; lia | apply four_off; lia].
  - lia.
  - unfold KERNEL_VIRTUAL_BASE. lia.
  - unfold sizeof_register_t. lia.
  - vm_compute. reflexivity.
  - vm_compute. reflexivity.
  - vm_compute. reflexivity.
  - intros [] k' (HPo & Hs & _). split; [exact HPo | exact Hs].
Defined.
