(* ===== verification/Paging.v ===== *)
(** * Paging: src/mm/paging.c, src/mm/paging.h

    [early_map_range] and [map_range] build two-level page tables; they differ
    only in the allocator of new tables.  The model's memory is the kernel's
    window on physical memory, where the tables are written; [translate] is the
    walk the processor makes through them. *)

From Stdlib Require Import ZArith Lia Bool.
From stdpp Require Import base list gmap strings.
From S2P Require Import Prelude Machine StringLib Console Node Queue Bump Buddy Devices Descriptors Heap Sched.

(** ** The code *)

Definition PAGE_MASK : Z := 0xFFFFF000.
Definition FOUR_MB : Z := 0x400000.
Definition PAGE_PRESENT : Z := 0x1.
Definition PAGE_RW : Z := 0x2.
Definition PAGE_SIZE_4MB : Z := 0x80.
Definition PAGE_WRITE_THROUGH : Z := 0x8.
Definition PAGE_NO_CACHE : Z := 0x10.
Definition PAGE_USER : Z := 0x4.

(** Linker symbols of src/kernel/layout.h. *)
Class LayoutSymbols := {
  _kernel_start : Z; _kernel_end : Z; _ro_start : Z; _ro_end : Z; _rw_start : Z; _rw_end : Z }.

Definition pd_entry (pd pde : Z) : Z := pd + 4 * pde.
Definition pt_entry (pt pte : Z) : Z := pt + 4 * pte.

(** The table for the entry [pde]: a new one is taken from [alloc] when the
    entry is not present. *)
Definition get_table (alloc : M Z) (pd pde flag : Z) : M Z :=
  e ← load32 (pd_entry pd pde);
  when (Z.land e PAGE_PRESENT =? 0) (
    page_table_addr ← alloc;
    store32 (pd_entry pd pde) (Z.lor (Z.lor (Z.lor page_table_addr PAGE_PRESENT) PAGE_RW) flag));;
  e ← load32 (pd_entry pd pde);
  mret (P2V (Z.land e PAGE_MASK)).

(** The loop [while (size)]: each turn lowers [size], so [size + 1] turns are
    enough. *)
Fixpoint map_loop (alloc : M Z) (fuel : nat) (pd paddr vaddr size flag pde pte page_table : Z) : M unit :=
  match fuel with
  | O => stop_with OutOfFuel
  | S fuel =>
      if size =? 0 then skip else
      if IS_ALIGNED vaddr FOUR_MB && IS_ALIGNED paddr FOUR_MB && (1024 <=? size) then
        store32 (pd_entry pd pde) (Z.lor (Z.lor paddr PAGE_SIZE_4MB) flag);;
        map_loop alloc fuel pd (paddr ⊞ FOUR_MB) (vaddr ⊞ FOUR_MB) (size - 1024) flag (pde ⊞ 1) pte page_table
      else
        page_table ← (if (pte =? 0) || (page_table =? NULL) then get_table alloc pd pde flag
                      else mret page_table);
        store32 (pt_entry page_table pte) (Z.lor paddr flag);;
        let pte := Z.land (pte + 1) (1024 - 1) in
        let pde := if pte =? 0 then pde ⊞ 1 else pde in
        map_loop alloc fuel pd (paddr ⊞ 0x1000) (vaddr ⊞ 0x1000) (size - 1) flag pde pte page_table
  end.

Definition map_pages (alloc : M Z) (pd paddr vaddr size flag : Z) : M unit :=
  map_loop alloc (S (Z.to_nat size)) pd paddr vaddr size flag
    (Z.land (Z.shiftr vaddr 22) 0x3FF) (Z.land (Z.shiftr vaddr 12) 0x3FF) NULL.

Definition early_map_range (pd paddr vaddr size flag : Z) : M unit :=
  map_pages (bump_alloc 1) pd paddr vaddr size flag.

Section code.
Context `{BS : BuddySymbols} `{SS : SchedSymbols} `{LS : LayoutSymbols}.

Definition map_range (pd paddr vaddr size flag : Z) : M unit :=
  map_pages (pmm_alloc 0) pd paddr vaddr size flag.

Definition map_bios : M unit :=
  early_map_range kernel_page_directory 0x0 (P2V 0x0) 1 PAGE_PRESENT;;
  early_map_range kernel_page_directory 0x1000 (P2V 0x1000) ((0x80000 - 0x1000) / 0x1000)
    (Z.lor PAGE_PRESENT PAGE_RW);;
  early_map_range kernel_page_directory 0x80000 (P2V 0x80000) ((0xA0000 - 0x80000) / 0x1000) PAGE_PRESENT;;
  early_map_range kernel_page_directory 0xA0000 (P2V 0xA0000) ((0xC0000 - 0xA0000) / 0x1000)
    (Z.lor (Z.lor (Z.lor PAGE_PRESENT PAGE_RW) PAGE_NO_CACHE) PAGE_WRITE_THROUGH);;
  early_map_range kernel_page_directory 0xC0000 (P2V 0xC0000) ((0x100000 - 0xC0000) / 0x1000)
    (Z.lor PAGE_PRESENT PAGE_NO_CACHE).

Definition map_kernel : M unit :=
  let ro_start := V2P _ro_start in
  let ro_end := V2P _ro_end in
  let rw_start := V2P _rw_start in
  let rw_end := V2P _rw_end in
  let kernel_end := V2P _kernel_end in
  early_map_range kernel_page_directory ro_start (P2V ro_start) ((ro_end ⊟ ro_start) / 0x1000) PAGE_PRESENT;;
  early_map_range kernel_page_directory rw_start (P2V rw_start) ((rw_end ⊟ rw_start) / 0x1000)
    (Z.lor PAGE_PRESENT PAGE_RW);;
  mm ← gets (fun k => memory_map (k_boot k));
  size ← load64 (mmap_size (mm + 3 * sizeof_memory_map_t));
  let ram_phys_end := u32 (0x100000 + size) in
  let free_size := ram_phys_end ⊟ kernel_end in
  early_map_range kernel_page_directory kernel_end (P2V kernel_end) (free_size / 0x1000)
    (Z.lor PAGE_PRESENT PAGE_RW);;
  mm ← gets (fun k => memory_map (k_boot k));
  addr ← load64 (mmap_addr (mm + 4 * sizeof_memory_map_t));
  size ← load64 (mmap_size (mm + 4 * sizeof_memory_map_t));
  early_map_range kernel_page_directory (u32 addr) (P2V addr) (u32 (size / 0x1000)) PAGE_PRESENT.

Definition paging_init : M unit :=
  kmemset kernel_page_directory 0 4096;;
  map_bios;;
  map_kernel;;
  refresh_cr3 kernel_page_directory.
End code.

(** ** The processor's walk *)

(** The translation of the virtual page [v]: its page frame and whether it may
    be written and be used from ring 3. *)
Definition translate (m : memory) (pd v : Z) : option (Z * bool * bool) :=
  let e := ld32 m (pd_entry pd (v / 1024)) in
  if negb (Z.testbit e 0) then None else
  if Z.testbit e 7 then Some (1024 * Z.shiftr e 22 + v mod 1024, Z.testbit e 1, Z.testbit e 2) else
  let p := ld32 m (pt_entry (P2V (Z.land e PAGE_MASK)) (v mod 1024)) in
  if negb (Z.testbit p 0) then None
  else Some (Z.shiftr p 12, Z.testbit e 1 && Z.testbit p 1, Z.testbit e 2 && Z.testbit p 2).

(** ** Page tables in memory *)

Section tables.
Context (pd : Z).

Definition pde (m : memory) (d : Z) : Z := ld32 m (pd_entry pd d).
Definition present (m : memory) (d : Z) : bool := Z.testbit (pde m d) 0.
Definition small (m : memory) (d : Z) : Prop := present m d = true /\ Z.testbit (pde m d) 7 = false.
Definition table (m : memory) (d : Z) : Z := P2V (Z.land (pde m d) PAGE_MASK).

(** The directory and the tables it points to are pages of kernel memory, apart
    from each other and from the bytes [F] of the allocator. *)
Record tables_ok (m : memory) (F : Z -> Prop) : Prop := {
  to_pd : KERNEL_VIRTUAL_BASE <= pd /\ pd + 4096 <= 2 ^ 32;
  to_pd_off : forall b, range pd 4096 b -> ~ F b;
  to_table : forall d, 0 <= d < 1024 -> small m d ->
    KERNEL_VIRTUAL_BASE <= table m d /\ table m d + 4096 <= 2 ^ 32 /\ apart pd 4096 (table m d) 4096;
  to_off : forall d b, 0 <= d < 1024 -> small m d -> range (table m d) 4096 b -> ~ F b;
  to_apart : forall d d', 0 <= d < 1024 -> 0 <= d' < 1024 -> d <> d' -> small m d -> small m d' ->
    apart (table m d) 4096 (table m d') 4096 }.

Lemma small_ext m m' d : pde m' d = pde m d -> small m' d <-> small m d.
Proof. unfold small, present. by intros ->. Qed.

Lemma table_ext m m' d : pde m' d = pde m d -> table m' d = table m d.
Proof. unfold table. by intros ->. Qed.

(** The walk depends on its directory entry and its table only. *)
Lemma translate_ext m m' v :
  0 <= v < 2 ^ 20 -> pde m' (v / 1024) = pde m (v / 1024) ->
  (small m (v / 1024) -> agree m m' (table m (v / 1024)) 4096) -> translate m' pd v = translate m pd v.
Proof.
  intros Hv He Ha. unfold translate. fold (pde m' (v / 1024)) (pde m (v / 1024)). rewrite He.
  destruct (Z.testbit (pde m (v / 1024)) 0) eqn:E0; cbn [negb]; [|done].
  destruct (Z.testbit (pde m (v / 1024)) 7) eqn:E7; [done|]. fold (table m (v / 1024)).
  rewrite (ld32_agree m m'); [done|]. pose proof (Z.mod_pos_bound v 1024 ltac:(lia)).
  eapply agree_sub; [apply Ha; by split | unfold pt_entry; lia | unfold pt_entry; lia].
Qed.

(** Changes outside the tables, such as the allocator's, are not seen. *)
Lemma tables_frame m m' (F F' : Z -> Prop) :
  tables_ok m F -> untouched F m m' -> (forall b, F' b -> F b) ->
  tables_ok m' F' /\ (forall d, 0 <= d < 1024 -> pde m' d = pde m d) /\
  (forall v, 0 <= v < 2 ^ 20 -> translate m' pd v = translate m pd v).
Proof.
  intros [T1 T2 T3 T4 T5] Hu HF.
  assert (Hp : forall d, 0 <= d < 1024 -> pde m' d = pde m d).
  { intros d Hd. apply ld32_agree. eapply untouched_agree; [exact Hu|]. intros b Hb. apply T2.
    unfold pd_entry, range in *. lia. }
  assert (Hs : forall d, 0 <= d < 1024 -> small m' d -> small m d) by (intros d Hd; apply (small_ext m m' d), Hp, Hd).
  split_and!; [split| |].
  - done.
  - intros b Hb HF'. by apply (T2 b Hb), HF.
  - intros d Hd Hsm. rewrite (table_ext _ _ _ (Hp d Hd)). auto.
  - intros d b Hd Hsm Hb HF'. rewrite (table_ext _ _ _ (Hp d Hd)) in Hb. apply (T4 d b); auto.
  - intros d d' Hd Hd' Hne S1 S2. rewrite (table_ext _ _ _ (Hp d Hd)), (table_ext _ _ _ (Hp d' Hd')). auto.
  - done.
  - intros v Hv. apply translate_ext; [done | apply Hp; div_lia |]. intros Hsm.
    eapply untouched_agree; [exact Hu|]. intros b Hb. apply (T4 (v / 1024)); [div_lia | done | done].
Qed.

(** A directory entry is written. *)
Lemma pde_set m d e d' :
  0 <= d < 1024 -> 0 <= d' < 1024 ->
  pde (st32 m (pd_entry pd d) e) d' = if decide (d' = d) then u32 e else pde m d'.
Proof.
  intros Hd Hd'. unfold pde. case_decide as E; [subst; by rewrite ld32_st32_eq|].
  apply ld32_agree. eapply untouched_agree; [apply st32_untouched|]. unfold pd_entry, range. lia.
Qed.

Lemma set_pde_others m d e F :
  tables_ok m F -> 0 <= d < 1024 ->
  forall v, 0 <= v < 2 ^ 20 -> v / 1024 <> d -> translate (st32 m (pd_entry pd d) e) pd v = translate m pd v.
Proof.
  intros [T1 T2 T3 T4 T5] Hd v Hv Hne. assert (Hvd : 0 <= v / 1024 < 1024) by div_lia.
  apply translate_ext; [done | |].
  - rewrite pde_set by done. by case_decide.
  - intros Hsm. eapply untouched_agree; [apply st32_untouched|]. destruct (T3 _ Hvd Hsm) as (_ & _ & Ha).
    unfold apart, pd_entry, range in *. lia.
Qed.

(** The new directory entry is a table [t] that is no other's, or no table. *)
Lemma set_pde_ok m d e F (F' : Z -> Prop) :
  tables_ok m F -> 0 <= d < 1024 -> 0 <= e < 2 ^ 32 -> (forall b, F' b -> F b) ->
  (Z.testbit e 0 = true -> Z.testbit e 7 = false ->
     KERNEL_VIRTUAL_BASE <= P2V (Z.land e PAGE_MASK) /\ P2V (Z.land e PAGE_MASK) + 4096 <= 2 ^ 32 /\
     apart pd 4096 (P2V (Z.land e PAGE_MASK)) 4096 /\
     (forall b, range (P2V (Z.land e PAGE_MASK)) 4096 b -> ~ F' b) /\
     (forall d', 0 <= d' < 1024 -> small m d' -> apart (P2V (Z.land e PAGE_MASK)) 4096 (table m d') 4096)) ->
  tables_ok (st32 m (pd_entry pd d) e) F'.
Proof.
  intros [T1 T2 T3 T4 T5] Hd He HF Hnew. set (m' := st32 _ _ _).
  assert (Hp : forall d', 0 <= d' < 1024 -> pde m' d' = if decide (d' = d) then e else pde m d').
  { intros d' Hd'. unfold m'. rewrite pde_set by done. by rewrite u32_small. }
  assert (Hc : forall d', 0 <= d' < 1024 -> small m' d' ->
    (d' = d /\ table m' d' = P2V (Z.land e PAGE_MASK) /\ Z.testbit e 0 = true /\ Z.testbit e 7 = false) \/
    (d' <> d /\ small m d' /\ table m' d' = table m d')).
  { intros d' Hd'. pose proof (Hp d' Hd') as E. case_decide as Hx.
    - intros [S1 S2]. left. unfold present, table in *. rewrite E in *. done.
    - intros Hs. right. split; [done|]. split; [by apply (small_ext _ _ _ E) | by apply table_ext]. }
  split.
  - done.
  - intros b Hb HF'. by apply (T2 b Hb), HF.
  - intros d' Hd' Hs. destruct (Hc d' Hd' Hs) as [(-> & -> & B0 & B7)|(Hx & Hs' & ->)]; [|by apply T3].
    destruct (Hnew B0 B7) as (? & ? & ? & _). done.
  - intros d' b Hd' Hs Hb HF'. destruct (Hc d' Hd' Hs) as [(-> & E & B0 & B7)|(Hx & Hs' & E)]; rewrite E in Hb.
    + destruct (Hnew B0 B7) as (_ & _ & _ & Ho & _). by apply (Ho b).
    + apply (T4 d' b); auto.
  - intros d1 d2 H1 H2 Hne S1 S2.
    destruct (Hc d1 H1 S1) as [(-> & -> & B0 & B7)|(Hx & Hs1 & ->)],
      (Hc d2 H2 S2) as [(-> & -> & C0 & C7)|(Hy & Hs2 & ->)]; [done | | | by apply T5].
    + destruct (Hnew B0 B7) as (_ & _ & _ & _ & Hap). by apply Hap.
    + destruct (Hnew C0 C7) as (_ & _ & _ & _ & Hap). unfold apart. destruct (Hap d1 H1 Hs1); lia.
Qed.

Lemma tables_same m m' F :
  (forall d, 0 <= d < 1024 -> pde m' d = pde m d) -> tables_ok m F -> tables_ok m' F.
Proof.
  intros Hp [T1 T2 T3 T4 T5].
  assert (Hs : forall d, 0 <= d < 1024 -> small m' d -> small m d) by (intros d Hd; apply (small_ext m m' d), Hp, Hd).
  split; try done.
  - intros d Hd Hsm. rewrite (table_ext _ _ _ (Hp d Hd)). auto.
  - intros d b Hd Hsm Hb HF'. rewrite (table_ext _ _ _ (Hp d Hd)) in Hb. apply (T4 d b); auto.
  - intros d d' Hd Hd' Hne S1 S2. rewrite (table_ext _ _ _ (Hp d Hd)), (table_ext _ _ _ (Hp d' Hd')). auto.
Qed.

(** A page is entered in a table. *)
Lemma set_pte m F d t p flag :
  tables_ok m F -> 0 <= d < 1024 -> small m d -> 0 <= t < 1024 -> 0 <= p < 2 ^ 20 ->
  0 <= flag < 128 -> Z.testbit flag 0 = true ->
  let m' := st32 m (pt_entry (table m d) t) (Z.lor (4096 * p) flag) in
  tables_ok m' F /\ (forall d', 0 <= d' < 1024 -> pde m' d' = pde m d') /\
  translate m' pd (1024 * d + t) =
    Some (p, Z.testbit (pde m d) 1 && Z.testbit flag 1, Z.testbit (pde m d) 2 && Z.testbit flag 2) /\
  (forall x, 0 <= x < 2 ^ 20 -> x <> 1024 * d + t -> translate m' pd x = translate m pd x).
Proof.
  intros HT Hd Hs Ht Hp Hf Hf0 m'. pose proof HT as [T1 T2 T3 T4 T5]. destruct (T3 d Hd Hs) as (B1 & B2 & B3).
  assert (Hpde : forall d', 0 <= d' < 1024 -> pde m' d' = pde m d').
  { intros d' Hd'. apply ld32_agree. eapply untouched_agree; [apply st32_untouched|].
    unfold pd_entry, pt_entry, apart, range in *. lia. }
  split_and!; [by eapply tables_same | done | |].
  - assert (Hdiv : (1024 * d + t) / 1024 = d) by div_lia. assert (Hmod : (1024 * d + t) mod 1024 = t) by div_lia.
    unfold translate. rewrite Hdiv, Hmod. fold (pde m' d). rewrite Hpde by done. destruct Hs as [S0 S7].
    unfold present in S0. rewrite S0, S7. cbn [negb]. fold (table m d). unfold m' at 1 2 3 4. rewrite !ld32_st32_eq.
    rewrite u32_small, !entry_testbit, Hf0, entry_page by (rewrite ?entry_add; lia). done.
  - intros x Hx Hne. assert (Hxd : 0 <= x / 1024 < 1024) by div_lia.
    destruct (decide (x / 1024 = d)) as [E|E].
    + unfold translate. fold (pde m' (x / 1024)) (pde m (x / 1024)). rewrite Hpde by done. rewrite E.
      destruct Hs as [S0 S7]. unfold present in S0. rewrite S0, S7. cbn [negb]. fold (table m d).
      rewrite (ld32_agree m m'); [done|]. eapply untouched_agree; [apply st32_untouched|].
      assert (x mod 1024 <> t) by div_lia. unfold pt_entry, range. pose proof (Z.mod_pos_bound x 1024 ltac:(lia)). lia.
    + apply translate_ext; [done | by apply Hpde |]. intros Hsx. pose proof (T5 _ _ Hxd Hd E Hsx Hs) as Ha.
      eapply untouched_agree; [apply st32_untouched|]. unfold pt_entry, apart, range in *. lia.
Qed.

Lemma entry_table a f :
  0 <= a < 2 ^ 18 -> 0 <= f < 128 -> Z.land (Z.lor (4096 * a) f) PAGE_MASK = 4096 * a.
Proof.
  intros Ha Hf. unfold PAGE_MASK. rewrite entry_add by lia. rewrite entry_mask by lia. div_lia.
Qed.

(** A new table, taken from the allocator's bytes, is entered in the directory. *)
Lemma add_table m m1 (F F' : Z -> Prop) d a f :
  tables_ok m F -> untouched F m m1 -> (forall b, F' b -> F b) -> 0 <= d < 1024 -> present m d = false ->
  0 <= a < 2 ^ 18 -> (forall b, range (P2V (4096 * a)) 4096 b -> F b /\ ~ F' b) ->
  0 <= f < 128 -> Z.testbit f 0 = true ->
  let m' := st32 m1 (pd_entry pd d) (Z.lor (4096 * a) f) in
  tables_ok m' F' /\ small m' d /\ table m' d = P2V (4096 * a) /\ pde m' d = Z.lor (4096 * a) f /\
  (forall d', 0 <= d' < 1024 -> d' <> d -> pde m' d' = pde m d') /\
  (forall x, 0 <= x < 2 ^ 20 -> x / 1024 <> d -> translate m' pd x = translate m pd x) /\
  ((forall i, 0 <= i < 4096 -> ld8 m1 (P2V (4096 * a) + i) = 0) ->
     forall x, 0 <= x < 2 ^ 20 -> x / 1024 = d -> translate m' pd x = None).
Proof.
  intros HT Hu HF Hd Habs Ha Hpage Hf Hf0 m'.
  destruct (tables_frame m m1 F F' HT Hu HF) as (HT1 & Hp1 & Htr1). destruct HT as [T1 T2 T3 T4 T5].
  assert (Hv : P2V (4096 * a) = 4096 * a + KERNEL_VIRTUAL_BASE)
    by (apply P2V_eq; unfold PHYS_LIMIT, KERNEL_VIRTUAL_BASE; lia).
  assert (He : 0 <= Z.lor (4096 * a) f < 2 ^ 32) by (rewrite entry_add; lia).
  assert (Hpd : pde m' d = Z.lor (4096 * a) f).
  { unfold m'. rewrite pde_set by done. rewrite decide_True by done. by apply u32_small. }
  assert (Hf7 : Z.testbit f 7 = false) by (apply (testbit_high f 7); lia).
  assert (Hsm : small m' d).
  { split; unfold present; rewrite Hpd, entry_testbit by lia; done. }
  assert (Htb : table m' d = P2V (4096 * a)) by (unfold table; rewrite Hpd, entry_table; done).
  split_and!; try done.
  - apply (set_pde_ok m1 d _ F'); [done | done | done | done |]. rewrite entry_table by done. intros _ _.
    unfold KERNEL_VIRTUAL_BASE in *. split_and!; [lia | lia | | by intros b Hb; apply Hpage |].
    + apply ranges_apart; [lia | lia |]. intros x Hx Hy. by apply (T2 x Hx), Hpage.
    + intros d' Hd' Hs'. apply ranges_apart; [lia | lia |]. intros x Hx Hy.
      apply (small_ext m m1 d') in Hs'; [|by apply Hp1]. rewrite (table_ext m m1 d') in Hy by (by apply Hp1).
      apply (T4 d' x Hd' Hs' Hy). by apply Hpage.
  - intros d' Hd' Hne. unfold m'. rewrite pde_set by done. rewrite decide_False by done. by apply Hp1.
  - intros x Hx Hne. unfold m'. rewrite (set_pde_others m1 d _ F' HT1 Hd x Hx Hne). by apply Htr1.
  - intros Hz x Hx E. unfold translate. rewrite E. fold (pde m' d) (table m' d). rewrite Htb, Hpd.
    rewrite !entry_testbit, Hf0, Hf7 by lia. cbn [negb].
    assert (Hzero : ld32 m' (pt_entry (P2V (4096 * a)) (x mod 1024)) = 0).
    { rewrite (ld32_agree m1 m').
      - pose proof (Z.mod_pos_bound x 1024 ltac:(lia)). unfold ld32, ld16, pt_entry.
        rewrite <- !Z.add_assoc. rewrite !Hz by lia. done.
      - pose proof (Z.mod_pos_bound x 1024 ltac:(lia)). eapply untouched_agree; [apply st32_untouched|].
        assert (Hap : apart pd 4096 (P2V (4096 * a)) 4096).
        { apply ranges_apart; [lia | lia |]. intros y Hy Hy'. by apply (T2 y Hy), Hpage. }
        unfold apart, pd_entry, pt_entry, range in *. lia. }
    by rewrite Hzero.
Qed.

(** A 4 MiB page is entered in the directory. *)
Lemma set_large m F d q flag :
  tables_ok m F -> 0 <= d < 1024 -> 0 <= q < 1024 -> 0 <= flag < 128 -> Z.testbit flag 0 = true ->
  let m' := st32 m (pd_entry pd d) (Z.lor (Z.lor (4096 * (1024 * q)) PAGE_SIZE_4MB) flag) in
  tables_ok m' F /\ (forall d', 0 <= d' < 1024 -> d' <> d -> pde m' d' = pde m d') /\
  (forall x, 0 <= x < 2 ^ 20 -> translate m' pd x =
     if decide (x / 1024 = d) then Some (1024 * q + x mod 1024, Z.testbit flag 1, Z.testbit flag 2)
     else translate m pd x) /\
  Z.testbit (pde m' d) 7 = true.
Proof.
  intros HT Hd Hq Hf Hf0 m'.
  assert (Hfl : Z.lor PAGE_SIZE_4MB flag = 128 + flag) by (apply (lor_add flag 128 7); [lia | lia | by exists 1]).
  assert (He : Z.lor (Z.lor (4096 * (1024 * q)) PAGE_SIZE_4MB) flag = 4096 * (1024 * q) + (128 + flag)).
  { rewrite <- Z.lor_assoc, Hfl. apply entry_add. lia. }
  assert (Hb : forall i, 0 <= i < 12 -> Z.testbit (4096 * (1024 * q) + (128 + flag)) i = Z.testbit (Z.lor 128 flag) i).
  { intros i Hi. rewrite <- (entry_add (1024 * q) (128 + flag)) by lia. rewrite entry_testbit by done. by rewrite <- Hfl. }
  assert (Hpde : pde m' d = 4096 * (1024 * q) + (128 + flag)).
  { unfold m'. rewrite pde_set, decide_True by done. rewrite He. apply u32_small. lia. }
  split_and!.
  - apply (set_pde_ok m d _ F); [done | done | rewrite He; lia | done |]. rewrite He, !Hb by lia. intros _ H7.
    rewrite Z.lor_spec in H7. done.
  - intros d' Hd' Hne. unfold m'. by rewrite pde_set, decide_False.
  - intros x Hx. case_decide as E; [|by apply (set_pde_others m d _ F)].
    unfold translate. rewrite E. fold (pde m' d). rewrite Hpde, !Hb by lia. rewrite !Z.lor_spec, Hf0.
    change (Z.testbit 128 0) with false. change (Z.testbit 128 7) with true. change (Z.testbit 128 1) with false.
    change (Z.testbit 128 2) with false. cbn [negb orb]. do 4 f_equal.
    rewrite Z.shiftr_div_pow2 by lia. change (2 ^ 22) with 4194304. div_lia.
  - rewrite Hpde, Hb by lia. by rewrite Z.lor_spec.
Qed.

(** The directory, its tables and the allocator's bytes are all in [G]. *)
Record covered (top : Z) (G F : Z -> Prop) (m : memory) : Prop := {
  cv_pd : forall b, range pd 4096 b -> G b;
  cv_free : forall b, F b -> G b;
  cv_table : forall d b, 0 <= d < top -> small m d -> range (table m d) 4096 b -> G b }.

(** The least such set: what a mapping may write. *)
Definition paging_fp (m : memory) (F : Z -> Prop) (b : Z) : Prop :=
  range pd 4096 b \/ F b \/ exists d, 0 <= d < 1024 /\ small m d /\ range (table m d) 4096 b.

Lemma covered_fp m F : covered 1024 (paging_fp m F) F m.
Proof. split; [by left | by right; left |]. intros d b Hd Hs Hb. right. right. eauto. Qed.

Lemma tables_ok_ext m (F F' : Z -> Prop) : (forall b, F' b -> F b) -> tables_ok m F -> tables_ok m F'.
Proof.
  intros HF [T1 T2 T3 T4 T5]. split; try done.
  - intros b Hb HF'. by apply (T2 b Hb), HF.
  - intros d b Hd Hs Hb HF'. by apply (T4 d b Hd Hs Hb), HF.
Qed.

(** Entries that are no tables, or unchanged, need no new cover. *)
Lemma covered_step top (G F F' : Z -> Prop) m m' :
  top <= 1024 -> covered top G F m -> (forall b, F' b -> F b) ->
  (forall d, 0 <= d < 1024 -> small m' d ->
     pde m' d = pde m d \/ (forall b, range (table m' d) 4096 b -> G b)) -> covered top G F' m'.
Proof.
  intros Htop [C1 C2 C3] HF Hd. split; [done | auto |]. intros d b Hdd Hs Hb.
  destruct (Hd d ltac:(lia) Hs) as [E|Hn]; [|by apply Hn]. rewrite (table_ext _ _ _ E) in Hb.
  apply (C3 d b); [done | by apply (small_ext _ _ _ E) | done].
Qed.
End tables.

(** The directory and the table index of a page. *)
Lemma page_indices v : 0 <= v < 2 ^ 20 ->
  Z.land (Z.shiftr (4096 * v) 22) 1023 = v / 1024 /\ Z.land (Z.shiftr (4096 * v) 12) 1023 = v mod 1024.
Proof.
  intros Hv. change 1023 with (2 ^ 10 - 1). rewrite !land_mask, !Z.shiftr_div_pow2 by lia.
  change (2 ^ 22) with 4194304. change (2 ^ 12) with 4096. change (2 ^ 10) with 1024. split; div_lia.
Qed.

(** The flags of a new table. *)
Lemma table_flags flag : 0 <= flag < 128 ->
  let f := Z.lor (Z.lor PAGE_PRESENT PAGE_RW) flag in
  0 <= f < 128 /\ Z.testbit f 0 = true /\ Z.testbit f 1 = true /\ Z.testbit f 2 = Z.testbit flag 2.
Proof.
  intros Hflag f. split; [|unfold f; by rewrite !Z.lor_spec].
  unfold f. split; [apply Z.lor_nonneg; split; [done | lia]|].
  apply (Z.log2_lt_cancel _ (2 ^ 7)). rewrite Z.log2_lor by (done || lia).
  assert (Z.log2 flag <= Z.log2 127) by (apply Z.log2_le_mono; lia). change (Z.log2 127) with 6 in *.
  change (Z.log2 (2 ^ 7)) with 7. change (Z.log2 (Z.lor PAGE_PRESENT PAGE_RW)) with 1. lia.
Qed.

(** ** What the mapper asks of the allocator of tables

    [ta_state n k F]: at least [n] pages can be had, all of them and the
    allocator's own data in the bytes [F]. *)
Class TableAllocator (alloc : M Z) (E : stop -> Prop) := {
  ta_state : nat -> kernel -> (Z -> Prop) -> Prop;
  ta_zeroed : Prop;
  ta_kept : kernel -> kernel -> Prop;
  ta_alloc : forall n k F, ta_state (S n) k F ->
    wpe E alloc k (fun r k' => exists a F', r = 4096 * a /\ 0 <= a < 2 ^ 18 /\
      ta_state n k' F' /\ (forall b, F' b -> F b) /\ untouched F (k_mem k) (k_mem k') /\
      (forall b, range (P2V r) 4096 b -> F b /\ ~ F' b) /\
      (ta_zeroed -> forall i, 0 <= i < 4096 -> ld8 (k_mem k') (P2V r + i) = 0) /\ ta_kept k k');
  ta_stable : forall n k F m', ta_state n k F -> (forall b, F b -> ld8 m' b = ld8 (k_mem k) b) ->
    ta_state n (set_mem m' k) F;
  ta_fewer : forall n k F, ta_state (S n) k F -> ta_state n k F;
  ta_kept_mem : forall k m', ta_kept k (set_mem m' k);
  ta_kept_trans : forall k1 k2 k3, ta_kept k1 k2 -> ta_kept k2 k3 -> ta_kept k1 k3 }.

Section mapper.
Context (alloc : M Z) (E : stop -> Prop) `{TA : TableAllocator alloc E}.
Context (pd flag : Z) (Hflag : 0 <= flag < 128) (Hf0 : Z.testbit flag 0 = true) (G : Z -> Prop).
Context (top : Z) (Htop : top <= 1024).

(** The entry is free, or a table whose permissions include those asked for. *)
Definition grants (e : Z) : Prop :=
  implb (Z.testbit flag 1) (Z.testbit e 1) = true /\ implb (Z.testbit flag 2) (Z.testbit e 2) = true.
Definition usable (m : memory) (d : Z) : Prop :=
  present pd m d = false \/ small pd m d /\ grants (pde pd m d).

(** The directory entry [d] now has a table; every translation that does not go
    through a new table, or through one that was not cleared, is kept. *)
Record tabled (d : Z) (m m' : memory) : Prop := {
  tb_small : small pd m' d;
  tb_grants : grants (pde pd m' d);
  tb_others : forall d', 0 <= d' < 1024 -> d' <> d -> pde pd m' d' = pde pd m d';
  tb_keep : present pd m d = true -> pde pd m' d = pde pd m d;
  tb_new : present pd m d = false -> Z.testbit (pde pd m' d) 1 = true;
  tb_translate : forall x, 0 <= x < 2 ^ 20 -> ta_zeroed \/ x / 1024 <> d \/ present pd m d = true ->
    translate m' pd x = translate m pd x }.

Lemma get_table_spec d n k F :
  tables_ok pd (k_mem k) F -> covered pd top G F (k_mem k) -> ta_state (S n) k F -> 0 <= d < 1024 ->
  usable (k_mem k) d ->
  wpe E (get_table alloc pd d flag) k (fun t k' => exists F', t = table pd (k_mem k') d /\
    tables_ok pd (k_mem k') F' /\ ta_state n k' F' /\ (forall b, F' b -> F b) /\
    tabled d (k_mem k) (k_mem k') /\ ta_kept k k' /\
    untouched G (k_mem k) (k_mem k') /\ covered pd top G F' (k_mem k')).
Proof.
  intros HT HC HS Hd HU. pose proof HT as [[P1 P2] _ _ _ _]. unfold get_table. apply wpe_bind.
  eapply wpe_access; [unfold pd_entry; lia | unfold pd_entry; lia | reflexivity | cbv beta].
  change PAGE_PRESENT with (2 ^ 0). fold (pde pd (k_mem k) d). rewrite land_bit by lia.
  fold (present pd (k_mem k) d). apply wpe_bind. destruct (present pd (k_mem k) d) eqn:Hpr; cbn [negb when].
  - destruct HU as [HU|[Hsm Hgr]]; [congruence|]. apply wpe_ret. apply wpe_bind.
    eapply wpe_access; [unfold pd_entry; lia | unfold pd_entry; lia | reflexivity | cbv beta]. apply wpe_ret.
    exists F. split_and!; [done | done | by apply ta_fewer | done | by split; try done; congruence
      | by destruct k; apply ta_kept_mem | done | done].
  - apply wpe_bind. eapply wpe_mono; [by apply ta_alloc|].
    intros r k1 (a & F' & -> & Ha & HS1 & HF & Hu & Hpage & Hz & Hk).
    eapply wpe_access; [unfold pd_entry; lia | unfold pd_entry; lia | reflexivity | cbv beta].
    destruct (table_flags flag Hflag) as (Hf & Hb0 & Hb1 & Hb2). change PAGE_PRESENT with (2 ^ 0) in *.
    set (f := Z.lor (Z.lor (2 ^ 0) PAGE_RW) flag) in *.
    assert (Hbg : grants f) by (unfold grants; rewrite Hb1, Hb2; by destruct (Z.testbit flag 1), (Z.testbit flag 2)).
    replace (Z.lor (Z.lor (Z.lor (4096 * a) (2 ^ 0)) PAGE_RW) flag) with (Z.lor (4096 * a) f)
      by (unfold f; by rewrite !Z.lor_assoc).
    pose proof (add_table pd (k_mem k) (k_mem k1) F F' d a f HT Hu HF Hd Hpr Ha Hpage Hf Hb0) as HA.
    cbv zeta in HA. set (m2 := st32 _ _ _) in *. destruct HA as (A1 & A2 & A3 & A4 & A5 & A6 & A7).
    apply wpe_bind. eapply wpe_access; [unfold pd_entry; lia | unfold pd_entry; lia | reflexivity | cbv beta].
    apply wpe_ret. exists F'. cbn [k_mem set_mem]. split_and!; [done | done | | done | | | |].
    + apply ta_stable; [done|]. intros b Hb. apply st32_untouched. intros Hr.
      apply (to_pd_off pd _ _ A1 b); [unfold pd_entry, range in *; lia | done].
    + split; [done | | done | congruence | by rewrite A4, entry_testbit by lia |].
      * rewrite A4. destruct Hbg as [G1 G2]. unfold grants. by rewrite !entry_testbit by lia.
      * intros x Hx [Hzz|[Hne|Hp]]; [|by apply A6 | congruence].
        destruct (decide (x / 1024 = d)) as [Ex|Ex]; [|by apply A6]. rewrite (A7 (Hz Hzz) x Hx Ex).
        unfold translate. rewrite Ex. fold (pde pd (k_mem k) d). unfold present in Hpr. by rewrite Hpr.
    + eapply ta_kept_trans; [exact Hk | apply ta_kept_mem].
    + destruct HC as [C1 C2 C3]. eapply untouched_trans; eapply untouched_mono; [|exact Hu| |apply st32_untouched]; [auto|].
      intros b Hb. apply C1. unfold pd_entry, range in *. lia.
    + eapply (covered_step pd top G F); [done | exact HC | exact HF |]. intros d' Hd' Hs'.
      destruct (decide (d' = d)) as [->|Hne]; [right | left; by apply A5].
      intros b Hb. apply (cv_free _ _ _ _ _ HC), Hpage. by rewrite <- A3.
Qed.

(** Pages [v .. v + n) translate to [p .. p + n) with the permissions asked for;
    the others are kept, but for those of a new table that was not cleared. *)
Definition outside (v n : Z) (m : memory) (x : Z) : Prop :=
  ~ (v <= x < v + n) /\
  (ta_zeroed \/ present pd m (x / 1024) = true \/ ~ (v / 1024 <= x / 1024 /\ 1024 * (x / 1024) < v + n)).
Record maps_to (v n p : Z) (m m' : memory) : Prop := {
  mt_in : forall x, v <= x < v + n -> translate m' pd x = Some (p + (x - v), Z.testbit flag 1, Z.testbit flag 2);
  mt_out : forall x, 0 <= x < 2 ^ 20 -> outside v n m x -> translate m' pd x = translate m pd x }.

(** One page, entered in the table of its directory entry. *)
Lemma enter_page v p m F :
  tables_ok pd m F -> 0 <= v < 2 ^ 20 -> 0 <= p < 2 ^ 20 -> small pd m (v / 1024) -> grants (pde pd m (v / 1024)) ->
  let m' := st32 m (pt_entry (table pd m (v / 1024)) (v mod 1024)) (Z.lor (4096 * p) flag) in
  tables_ok pd m' F /\ (forall d, 0 <= d < 1024 -> pde pd m' d = pde pd m d) /\
  translate m' pd v = Some (p, Z.testbit flag 1, Z.testbit flag 2) /\
  (forall x, 0 <= x < 2 ^ 20 -> x <> v -> translate m' pd x = translate m pd x).
Proof.
  intros HT Hv Hp Hs [G1 G2]. assert (Hd : 0 <= v / 1024 < 1024) by div_lia.
  pose proof (Z.mod_pos_bound v 1024 ltac:(lia)) as Hm.
  pose proof (set_pte pd m F (v / 1024) (v mod 1024) p flag HT Hd Hs Hm Hp Hflag Hf0) as HA. cbv zeta in *.
  rewrite <- (Z.div_mod v 1024) in HA by lia. destruct HA as (A1 & A2 & A3 & A4). split_and!; try done.
  rewrite A3. destruct (Z.testbit flag 1), (Z.testbit flag 2), (Z.testbit (pde pd m (v / 1024)) 1),
    (Z.testbit (pde pd m (v / 1024)) 2); done.
Qed.

Lemma outside_next v n m m1 x :
  0 < n -> (present pd m (x / 1024) = true -> present pd m1 (x / 1024) = true) ->
  outside v n m x -> x <> v /\ outside (v + 1) (n - 1) m1 x.
Proof.
  intros Hn Hpr [H1 H2]. split; [lia|]. split; [lia|]. destruct H2 as [H2|[H2|H2]]; [by left | right; left; auto |].
  right; right. intros [H3 H4]. apply H2. split; [div_lia | lia].
Qed.

(** The page [v] first, the rest after it. *)
Lemma maps_to_cons v n p m m1 m2 m' :
  0 <= v -> v + n <= 2 ^ 20 -> 0 < n ->
  tabled (v / 1024) m m1 \/ m1 = m ->
  (forall d, 0 <= d < 1024 -> pde pd m2 d = pde pd m1 d) ->
  translate m2 pd v = Some (p, Z.testbit flag 1, Z.testbit flag 2) ->
  (forall x, 0 <= x < 2 ^ 20 -> x <> v -> translate m2 pd x = translate m1 pd x) ->
  maps_to (v + 1) (n - 1) (p + 1) m2 m' -> maps_to v n p m m'.
Proof.
  intros H1 H2 H3 Hstep Hp2 Hv Ho [Hin Hout].
  assert (Hpres : forall d, 0 <= d < 1024 -> present pd m d = true -> present pd m2 d = true).
  { intros d Hd Hpr. unfold present in *. rewrite Hp2 by done. destruct Hstep as [[_ _ S3 S4 _]| ->]; [|done].
    destruct (decide (d = v / 1024)) as [->|Hne]; [by rewrite S4 | by rewrite S3]. }
  split.
  - intros x Hx. destruct (decide (x = v)) as [->|Hne].
    + rewrite Hout; [by rewrite Hv; do 3 f_equal; lia | lia |]. split; [lia|]. right; left. unfold present.
      rewrite Hp2 by div_lia. destruct Hstep as [Htb|E1]; [apply (tb_small _ _ _ Htb)|]. subst m1.
      destruct (Z.testbit (pde pd m (v / 1024)) 0) eqn:E0; [done|]. exfalso. unfold translate in Hv.
      fold (pde pd m2 (v / 1024)) in Hv. rewrite Hp2, E0 in Hv by div_lia. done.
    + rewrite Hin by lia. do 3 f_equal. lia.
  - intros x Hx Hox.
    destruct (outside_next v n m m2 x H3 (Hpres (x / 1024) ltac:(div_lia)) Hox) as [Hne Hox2].
    rewrite Hout, Ho by done. destruct Hstep as [Htb| ->]; [|done]. apply (tb_translate _ _ _ Htb); [done|].
    destruct Hox as [Hx1 [Hz|[Hpr|Hr]]]; [by left| |].
    + destruct (decide (x / 1024 = v / 1024)) as [<-|]; auto.
    + right; left. intros E'. apply Hr. rewrite E'. split; [lia | div_lia].
Qed.

(** Changed directory entries are in range: 4 MiB pages, or tables open for
    writing. *)
Definition dir_step (v n : Z) (m m' : memory) : Prop := forall d, 0 <= d < 1024 ->
  pde pd m' d = pde pd m d \/
  v / 1024 <= d /\ 1024 * d < v + n /\
  (Z.testbit (pde pd m' d) 7 = true /\ v <= 1024 * d /\ 1024 * d + 1024 <= v + n \/ small pd m' d /\ Z.testbit (pde pd m' d) 1 = true).

Lemma maps_to_large v n p m m1 m' :
  0 <= v -> v + n <= 2 ^ 20 -> 1024 <= n -> v mod 1024 = 0 ->
  (forall d, 0 <= d < 1024 -> d <> v / 1024 -> pde pd m1 d = pde pd m d) ->
  (forall x, 0 <= x < 2 ^ 20 -> translate m1 pd x =
     if decide (x / 1024 = v / 1024) then Some (p + x mod 1024, Z.testbit flag 1, Z.testbit flag 2)
     else translate m pd x) ->
  maps_to (v + 1024) (n - 1024) (p + 1024) m1 m' -> maps_to v n p m m'.
Proof.
  intros H1 H2 H3 Hv Hp Ht [Hin Hout]. split.
  - intros x Hx. destruct (decide (x / 1024 = v / 1024)) as [Ex|Ex].
    + rewrite Hout; [|lia | split; [div_lia | right; right; div_lia]]. rewrite Ht, decide_True by (done || lia).
      do 3 f_equal. div_lia.
    + rewrite Hin by div_lia. do 3 f_equal. lia.
  - intros x Hx [Ho Hc]. assert (x / 1024 <> v / 1024) by div_lia.
    rewrite Hout, Ht; [by rewrite decide_False | done | done |]. split; [lia|].
    destruct Hc as [Hz|[Hpr|Hr]]; [by left | right; left | right; right; div_lia].
    unfold present in *. by rewrite Hp by (done || div_lia).
Qed.

(** Tables that may be needed for [n] pages from [v]; [have]: one is at hand. *)
Definition span (v n : Z) (have : bool) : Z :=
  if n =? 0 then 0 else (v + n - 1) / 1024 - v / 1024 + (if have then 0 else 1).
Definition at_hand (v pt : Z) : bool := negb (v mod 1024 =? 0) && negb (pt =? NULL).

Lemma usable_next v n m m1 (lo : Z) :
  v / 1024 <= lo -> (forall d, v / 1024 <= d -> 1024 * d < v + n -> usable m d) ->
  (forall d, lo <= d -> 1024 * d < v + n -> d <> v / 1024 -> pde pd m1 d = pde pd m d) ->
  (lo <= v / 1024 -> usable m1 (v / 1024)) ->
  forall d, lo <= d -> 1024 * d < v + n -> usable m1 d.
Proof.
  intros H1 Hu Hp Hv d Hd1 Hd2. destruct (decide (d = v / 1024)) as [->|Hne]; [by apply Hv|].
  destruct (Hu d ltac:(lia) Hd2) as [Ha|[Hs Hg]].
  - left. unfold present in *. by rewrite Hp.
  - right. split; [by apply (small_ext pd m m1 d); [apply Hp|] | by rewrite Hp].
Qed.

(** The state after the pages [v .. v + n) have been mapped from [k]. *)
Record done_map (v n p : Z) (F : Z -> Prop) (bud : Z) (k k' : kernel) : Prop := {
  dm_tables : exists F' left, tables_ok pd (k_mem k') F' /\ ta_state left k' F' /\ (forall b, F' b -> F b) /\
    bud <= Z.of_nat left /\ covered pd top G F' (k_mem k');
  dm_frame : untouched G (k_mem k) (k_mem k');
  dm_maps : maps_to v n p (k_mem k) (k_mem k');
  dm_dir : dir_step v n (k_mem k) (k_mem k');
  dm_kept : ta_kept k k' }.

Definition loop_ok (fuel : nat) : Prop := forall v n p pt bud k F,
  (Z.to_nat n < fuel)%nat -> 0 <= n -> 0 <= v -> v + n <= 1024 * top -> 0 <= p -> p + n <= 2 ^ 20 ->
  tables_ok pd (k_mem k) F -> covered pd top G F (k_mem k) -> ta_state bud k F ->
  (forall d, v / 1024 <= d -> 1024 * d < v + n -> usable (k_mem k) d) ->
  (at_hand v pt = true -> 0 < n -> small pd (k_mem k) (v / 1024) /\ pt = table pd (k_mem k) (v / 1024) /\
     grants (pde pd (k_mem k) (v / 1024))) ->
  span v n (at_hand v pt) <= Z.of_nat bud ->
  wpe E (map_loop alloc fuel pd (u32 (4096 * p)) (u32 (4096 * v)) n flag (v / 1024) (v mod 1024) pt) k
    (fun _ k' => done_map v n p F (Z.of_nat bud - span v n (at_hand v pt)) k k').

Lemma aligned_4mb v : 0 <= v < 2 ^ 20 -> IS_ALIGNED (u32 (4096 * v)) FOUR_MB = true <-> v mod 1024 = 0.
Proof.
  intros Hv. rewrite u32_small by lia. change FOUR_MB with (2 ^ 22). rewrite IS_ALIGNED_spec by lia.
  change (2 ^ 22) with 4194304. split.
  - intros [q Hq]. div_lia.
  - intros Hm. exists (v / 1024). div_lia.
Qed.

Lemma u32_next x c n : u32 (4096 * x) ⊞ 4096 * c = u32 (4096 * (x + c)) /\ (0 <= n < 2 ^ 20 -> n ⊞ 1 = n + 1).
Proof. split; [word_lia | intros; apply u32_small; lia]. Qed.

Lemma large_turn fuel v n p pt bud k F :
  loop_ok fuel -> (Z.to_nat n < S fuel)%nat -> 0 <= v -> v + n <= 1024 * top -> 0 <= p -> p + n <= 2 ^ 20 ->
  tables_ok pd (k_mem k) F -> covered pd top G F (k_mem k) -> ta_state bud k F ->
  (forall d, v / 1024 <= d -> 1024 * d < v + n -> usable (k_mem k) d) ->
  span v n (at_hand v pt) <= Z.of_nat bud -> v mod 1024 = 0 -> p mod 1024 = 0 -> 1024 <= n ->
  wpe E (store32 (pd_entry pd (v / 1024)) (Z.lor (Z.lor (u32 (4096 * p)) PAGE_SIZE_4MB) flag);;
         map_loop alloc fuel pd (u32 (4096 * p) ⊞ FOUR_MB) (u32 (4096 * v) ⊞ FOUR_MB) (n - 1024) flag
           (v / 1024 ⊞ 1) (v mod 1024) pt) k
    (fun _ k' => done_map v n p F (Z.of_nat bud - span v n (at_hand v pt)) k k').
Proof.
  intros IH Hfu Hv1 Hv2 Hp1 Hp2 HT HC HS HU Hsp Hva Hpa Hn. assert (Hd : 0 <= v / 1024 < 1024) by div_lia.
  pose proof (to_pd _ _ _ HT) as [P1 P2]. apply wpe_bind.
  eapply wpe_access; [unfold pd_entry; lia | unfold pd_entry; lia | reflexivity | cbv beta].
  rewrite (u32_small (4096 * p)) by lia.
  pose proof (set_large pd (k_mem k) F (v / 1024) (p / 1024) flag HT Hd ltac:(div_lia) Hflag Hf0) as HL.
  cbv zeta in HL. replace (4096 * (1024 * (p / 1024))) with (4096 * p) in HL by div_lia.
  set (m1 := st32 _ _ _) in *. destruct HL as (L1 & L2 & L3 & L4).
  change FOUR_MB with (4096 * 1024). replace (4096 * p ⊞ 4096 * 1024) with (u32 (4096 * (p + 1024))) by (f_equal; lia).
  rewrite (proj1 (u32_next v 1024 0)), (proj2 (u32_next 0 0 (v / 1024))) by div_lia.
  replace (v / 1024 + 1) with ((v + 1024) / 1024) by div_lia.
  replace (v mod 1024) with ((v + 1024) mod 1024) by div_lia.
  assert (Hna : at_hand (v + 1024) pt = false /\ at_hand v pt = false).
  { unfold at_hand. replace ((v + 1024) mod 1024) with 0 by div_lia. rewrite Hva. done. }
  destruct Hna as [Hna1 Hna2].
  eapply wpe_mono; [apply (IH (v + 1024) (n - 1024) (p + 1024) pt bud (set_mem m1 k) F)|].
  - lia.
  - lia.
  - lia.
  - lia.
  - lia.
  - lia.
  - exact L1.
  - eapply (covered_step pd top G F); [done | exact HC | done |]. intros d Hdd [_ Hs7]. left.
    apply L2; [done|]. intros ->. cbn [k_mem set_mem] in Hs7. congruence.
  - apply ta_stable; [done|]. intros b Hb. apply st32_untouched. intros Hr.
    apply (to_pd_off pd _ _ HT b); [unfold pd_entry, range in *; lia | done].
  - replace (v + 1024 + (n - 1024)) with (v + n) by lia.
    apply (usable_next v n (k_mem k) m1 ((v + 1024) / 1024)); [div_lia | done | | div_lia].
    intros d H1 H2 Hne. apply L2; [div_lia | done].
  - by rewrite Hna1.
  - rewrite Hna1. rewrite Hna2 in Hsp. unfold span in *. destruct (Z.eqb_spec n 0), (Z.eqb_spec (n - 1024) 0); div_lia.
  - intros [] k' [(F' & left & D1 & D2 & D3 & D4 & D5) Df Dm Dd Dk]. split.
    + exists F', left. split_and!; try done. rewrite Hna1 in D4. rewrite Hna2. unfold span in *.
      destruct (Z.eqb_spec n 0), (Z.eqb_spec (n - 1024) 0); div_lia.
    + eapply untouched_trans; [|exact Df]. eapply untouched_mono; [|apply st32_untouched].
      intros b Hb. apply (cv_pd _ _ _ _ _ HC). unfold pd_entry, range in *. lia.
    + eapply (maps_to_large v n p); [done | lia | done | done | | | exact Dm].
      * intros d H1 H2. by apply L2.
      * intros x Hx. cbn [k_mem set_mem]. rewrite L3 by done. case_decide; [|done]. do 3 f_equal. div_lia.
    + intros d Hdd. specialize (Dd d Hdd). cbn [k_mem set_mem] in Dd.
      destruct Dd as [Dd|(D6 & D7 & D8)]; [|right; split_and!; [div_lia | lia | destruct D8; [left; split; [tauto | lia] | by right]]].
      destruct (decide (d = v / 1024)) as [->|Hne]; [|left; rewrite Dd; by apply L2].
      right. split_and!; [lia | div_lia |]. left. rewrite Dd. split; [exact L4 | split; div_lia].
    + eapply ta_kept_trans; [apply ta_kept_mem | exact Dk].
Qed.

(** The table for the page [v], at hand or looked up. *)
Lemma table_spec v n pt bud k F :
  0 < n -> 0 <= v -> v + n <= 1024 * top -> tables_ok pd (k_mem k) F -> covered pd top G F (k_mem k) -> ta_state bud k F ->
  usable (k_mem k) (v / 1024) ->
  (at_hand v pt = true -> small pd (k_mem k) (v / 1024) /\ pt = table pd (k_mem k) (v / 1024) /\
     grants (pde pd (k_mem k) (v / 1024))) ->
  span v n (at_hand v pt) <= Z.of_nat bud ->
  wpe E (if (v mod 1024 =? 0) || (pt =? NULL) then get_table alloc pd (v / 1024) flag else mret pt) k
    (fun t k1 => exists F1 bud1, t = table pd (k_mem k1) (v / 1024) /\ small pd (k_mem k1) (v / 1024) /\
      grants (pde pd (k_mem k1) (v / 1024)) /\ tables_ok pd (k_mem k1) F1 /\ ta_state bud1 k1 F1 /\
      (forall b, F1 b -> F b) /\ Z.of_nat bud - (if at_hand v pt then 0 else 1) <= Z.of_nat bud1 /\
      (tabled (v / 1024) (k_mem k) (k_mem k1) \/ k_mem k1 = k_mem k) /\ ta_kept k k1 /\
      untouched G (k_mem k) (k_mem k1) /\ covered pd top G F1 (k_mem k1)).
Proof.
  intros Hn Hv Hvn HT HC HS HU Hh Hsp. assert (Hd : 0 <= v / 1024 < 1024) by div_lia.
  assert (Hcond : (v mod 1024 =? 0) || (pt =? NULL) = negb (at_hand v pt)).
  { unfold at_hand. by destruct (v mod 1024 =? 0), (pt =? NULL). }
  rewrite Hcond. destruct (at_hand v pt) eqn:Eh; cbn [negb].
  - destruct (Hh eq_refl) as (S1 & -> & S3). apply wpe_ret. exists F, bud.
    split_and!; try done; [lia | by right | by destruct k; apply ta_kept_mem].
  - unfold span in Hsp. destruct (Z.eqb_spec n 0); [lia|].
    assert (v / 1024 <= (v + n - 1) / 1024) by (apply Z.div_le_mono; lia).
    destruct bud as [|bud]; [lia|]. eapply wpe_mono; [by apply get_table_spec|].
    intros t k1 (F1 & -> & A1 & A2 & A3 & A4 & A5 & A6 & A7). exists F1, bud.
    split_and!; try done; [apply (tb_small _ _ _ A4) | apply (tb_grants _ _ _ A4) | lia | by left].
Qed.

(** The indices of the page after [v]. *)
Lemma next_indices v :
  0 <= v < 2 ^ 20 ->
  Z.land (v mod 1024 + 1) (1024 - 1) = (v + 1) mod 1024 /\
  (if (v + 1) mod 1024 =? 0 then v / 1024 ⊞ 1 else v / 1024) = (v + 1) / 1024.
Proof.
  intros Hv. split.
  - change (1024 - 1) with (2 ^ 10 - 1). rewrite land_mask by lia. change (2 ^ 10) with 1024. div_lia.
  - destruct (Z.eqb_spec ((v + 1) mod 1024) 0); [rewrite u32_small by div_lia|]; div_lia.
Qed.

Lemma span_next v n pt t :
  0 < n -> 0 <= v -> t <> NULL ->
  span (v + 1) (n - 1) (at_hand (v + 1) t) <= span v n (at_hand v pt) - (if at_hand v pt then 0 else 1).
Proof.
  intros Hn Hv Ht. assert (at_hand (v + 1) t = negb ((v + 1) mod 1024 =? 0)) as ->.
  { unfold at_hand. destruct (Z.eqb_spec t NULL); [done | apply andb_true_r]. }
  unfold span. replace (v + 1 + (n - 1) - 1) with (v + n - 1) by lia.
  assert (v / 1024 <= (v + n - 1) / 1024) by (apply Z.div_le_mono; lia).
  destruct (Z.eqb_spec n 0), (Z.eqb_spec (n - 1) 0), (at_hand v pt), (Z.eqb_spec ((v + 1) mod 1024) 0); cbn [negb]; div_lia.
Qed.

Lemma dir_step_cons v n m m1 m2 m' :
  0 <= v -> v + n <= 2 ^ 20 -> 0 < n -> usable m (v / 1024) ->
  tabled (v / 1024) m m1 \/ m1 = m -> (forall d, 0 <= d < 1024 -> pde pd m2 d = pde pd m1 d) ->
  dir_step (v + 1) (n - 1) m2 m' -> dir_step v n m m'.
Proof.
  intros H1 H2 H3 HU Hstep Hp Hd d Hdd.
  destruct (Hd d Hdd) as [E1|(D1 & D2 & D3)];
    [|right; split_and!; [div_lia | lia | destruct D3; [left; split; [tauto | lia] | by right]]].
  rewrite Hp in E1 by done. destruct Hstep as [[S1 _ S3 S4 S5 _]| ->]; [|by left].
  destruct (decide (d = v / 1024)) as [->|Hne]; [|left; rewrite E1; by apply S3].
  destruct (present pd m (v / 1024)) eqn:Epr; [left; rewrite E1; by apply S4|].
  right. split_and!; [lia | div_lia | right; split; [|rewrite E1; by apply S5]].
  by apply (small_ext pd m1 m').
Qed.

Lemma small_turn fuel v n p pt bud k F :
  loop_ok fuel -> (Z.to_nat n < S fuel)%nat -> 0 < n -> 0 <= v -> v + n <= 1024 * top -> 0 <= p -> p + n <= 2 ^ 20 ->
  tables_ok pd (k_mem k) F -> covered pd top G F (k_mem k) -> ta_state bud k F ->
  (forall d, v / 1024 <= d -> 1024 * d < v + n -> usable (k_mem k) d) ->
  (at_hand v pt = true -> 0 < n -> small pd (k_mem k) (v / 1024) /\ pt = table pd (k_mem k) (v / 1024) /\
     grants (pde pd (k_mem k) (v / 1024))) ->
  span v n (at_hand v pt) <= Z.of_nat bud ->
  wpe E (page_table ← (if (v mod 1024 =? 0) || (pt =? NULL) then get_table alloc pd (v / 1024) flag else mret pt);
         store32 (pt_entry page_table (v mod 1024)) (Z.lor (u32 (4096 * p)) flag);;
         map_loop alloc fuel pd (u32 (4096 * p) ⊞ 0x1000) (u32 (4096 * v) ⊞ 0x1000) (n - 1) flag
           (if Z.land (v mod 1024 + 1) (1024 - 1) =? 0 then v / 1024 ⊞ 1 else v / 1024)
           (Z.land (v mod 1024 + 1) (1024 - 1)) page_table) k
    (fun _ k' => done_map v n p F (Z.of_nat bud - span v n (at_hand v pt)) k k').
Proof.
  intros IH Hfu Hn Hv Hvn Hp Hpn HT HC HS HU Hh Hsp. assert (Hd : 0 <= v / 1024 < 1024) by div_lia.
  assert (HUv : usable (k_mem k) (v / 1024)) by (apply HU; div_lia).
  apply wpe_bind. eapply wpe_mono; [apply (table_spec v n pt bud k F); auto|].
  intros t k1 (F1 & bud1 & -> & T1 & T2 & T3 & T4 & T5 & T6 & T7 & T8 & T9 & T10).
  pose proof (to_table _ _ _ T3 _ Hd T1) as (B1 & B2 & _). pose proof (Z.mod_pos_bound v 1024 ltac:(lia)) as Hm.
  apply wpe_bind.
  eapply wpe_access; [unfold pt_entry; lia | unfold pt_entry; lia | reflexivity | cbv beta].
  rewrite (u32_small (4096 * p)) by lia.
  pose proof (enter_page v p (k_mem k1) F1 T3 ltac:(lia) ltac:(lia) T1 T2) as HE. cbv zeta in HE.
  set (m2 := st32 _ _ _) in *. destruct HE as (E1 & E2 & E3 & E4).
  destruct (next_indices v ltac:(lia)) as [-> ->].
  replace (4096 * p ⊞ 0x1000) with (u32 (4096 * (p + 1))) by (f_equal; lia).
  replace (u32 (4096 * v) ⊞ 0x1000) with (u32 (4096 * (v + 1))) by word_lia.
  assert (Ht : table pd (k_mem k1) (v / 1024) <> NULL) by (unfold NULL, KERNEL_VIRTUAL_BASE in *; lia).
  pose proof (span_next v n pt _ Hn Hv Ht) as Hspn.
  assert (Hnext : at_hand (v + 1) (table pd (k_mem k1) (v / 1024)) = true -> (v + 1) / 1024 = v / 1024).
  { unfold at_hand. destruct (Z.eqb_spec ((v + 1) mod 1024) 0); [done|]. intros _. div_lia. }
  eapply wpe_mono; [apply (IH (v + 1) (n - 1) (p + 1) _ bud1 (set_mem m2 k1) F1)|].
  - lia.
  - lia.
  - lia.
  - lia.
  - lia.
  - lia.
  - exact E1.
  - eapply (covered_step pd top G F1); [done | exact T10 | done |]. intros d Hdd _. left. by apply E2.
  - apply ta_stable; [done|]. intros b Hb. apply st32_untouched. intros Hr.
    apply (to_off pd _ _ T3 (v / 1024) b Hd T1); [unfold pt_entry, range in *; lia | done].
  - replace (v + 1 + (n - 1)) with (v + n) by lia. cbn [k_mem set_mem].
    apply (usable_next v n (k_mem k) m2 ((v + 1) / 1024)); [div_lia | done | |].
    + intros d H1 H2 Hne. rewrite E2 by div_lia. destruct T7 as [[_ _ S3 _ _ _]| ->]; [|done]. apply S3; [div_lia | done].
    + intros _. right. split; [by apply (small_ext pd (k_mem k1) m2); [apply E2|] | by rewrite E2].
  - intros Ha _. rewrite (Hnext Ha). cbn [k_mem set_mem]. split_and!.
    + by apply (small_ext pd (k_mem k1) m2); [apply E2|].
    + symmetry. by apply table_ext, E2.
    + by rewrite E2.
  - lia.
  - intros [] k' [(F' & left & D1 & D2 & D3 & D4 & D5) Df Dm Dd Dk]. cbn [k_mem set_mem] in *. split.
    + exists F', left. split_and!; [done | done | auto | lia | done].
    + eapply untouched_trans; [exact T9|]. eapply untouched_trans; [|exact Df].
      eapply untouched_mono; [|apply st32_untouched]. intros b Hb. apply (cv_table _ _ _ _ _ T10 (v / 1024)); [div_lia | done |].
      unfold pt_entry, range in *. lia.
    + eapply maps_to_cons; first [eassumption | lia].
    + eapply dir_step_cons; first [eassumption | lia].
    + eapply ta_kept_trans; [exact T8|]. eapply ta_kept_trans; [apply ta_kept_mem | exact Dk].
Qed.

Lemma map_loop_spec fuel : loop_ok fuel.
Proof.
  induction fuel as [|fuel IH]; intros v n p pt bud k F Hfu Hn Hv Hvn Hp Hpn HT HC HS HU Hh Hsp; [lia|].
  cbn [map_loop]. destruct (Z.eqb_spec n 0) as [->|Hn0].
  - apply wpe_ret. split.
    + exists F, bud. split_and!; try done. unfold span. cbn. lia.
    + done.
    + split; [lia | done].
    + intros d Hd. by left.
    + destruct k. apply ta_kept_mem.
  - destruct (IS_ALIGNED (u32 (4096 * v)) FOUR_MB && IS_ALIGNED (u32 (4096 * p)) FOUR_MB && (1024 <=? n)) eqn:Eb.
    + apply andb_true_iff in Eb as [[Ev Ep]%andb_true_iff En%Z.leb_le].
      apply aligned_4mb in Ev; [|lia]. apply aligned_4mb in Ep; [|lia]. by apply large_turn.
    + cbv zeta. apply small_turn; done || lia.
Qed.

Lemma map_pages_spec v n p bud k F :
  0 <= n -> 0 <= v -> v + n <= 1024 * top -> v < 2 ^ 20 -> 0 <= p -> p + n <= 2 ^ 20 -> p < 2 ^ 20 ->
  tables_ok pd (k_mem k) F -> covered pd top G F (k_mem k) -> ta_state bud k F ->
  (forall d, v / 1024 <= d -> 1024 * d < v + n -> usable (k_mem k) d) ->
  span v n false <= Z.of_nat bud ->
  wpe E (map_pages alloc pd (4096 * p) (4096 * v) n flag) k
    (fun _ k' => done_map v n p F (Z.of_nat bud - span v n false) k k').
Proof.
  intros Hn Hv Hvn Hv2 Hp Hpn Hp2 HT HC HS HU Hsp. unfold map_pages.
  assert (Hh : at_hand v NULL = false) by apply andb_false_r.
  destruct (page_indices v ltac:(lia)) as [-> ->].
  rewrite <- (u32_small (4096 * p)) by lia. rewrite <- (u32_small (4096 * v)) by lia.
  rewrite <- Hh. apply map_loop_spec; try done; rewrite ?Hh; try done; lia.
Qed.
End mapper.
