(* ===== verification/PagingTheorems.v ===== *)
(** * The two mappers: [early_map_range] on the boot-time allocator, [map_range] on
    the page allocator's interface *)

From Stdlib Require Import ZArith Lia Bool.
From stdpp Require Import base list gmap strings.
From S2P Require Import Prelude Machine StringLib Console Node Queue Bump Buddy BuddyModel BuddyRefine BuddyInit Pmm PmmSample Devices Descriptors Heap Sched Paging.

(** ** Boot time: pages up to the physical address [L] *)

Definition above (k : kernel) (b : Z) : Prop := placement_addr k + KERNEL_VIRTUAL_BASE <= b.

Lemma bump_table n k L :
  L <= PHYS_LIMIT -> (4096 | placement_addr k) -> 0 <= placement_addr k ->
  placement_addr k + 4096 * Z.of_nat (S n) <= L ->
  wp (bump_alloc 1) k (fun r k' => exists a m', r = 4096 * a /\ 0 <= a < 2 ^ 18 /\
    k' = set_mem m' (set_placement (placement_addr k + 4096) k) /\ untouched (above k) (k_mem k) m' /\
    (forall b, range (P2V r) 4096 b -> above k b /\ ~ above k' b) /\
    (forall i, 0 <= i < 4096 -> ld8 m' (P2V r + i) = 0)).
Proof.
  intros HL [a Ha] H0 Hb. unfold PHYS_LIMIT, KERNEL_VIRTUAL_BASE in *.
  eapply wp_mono; [apply bump_alloc_spec; unfold PHYS_LIMIT, KERNEL_VIRTUAL_BASE; lia|].
  intros r k' (-> & m' & -> & Hu & Hz). exists a, m'. rewrite Z.mul_1_r in *.
  assert (Hv : P2V (placement_addr k) = placement_addr k + KERNEL_VIRTUAL_BASE)
    by (apply P2V_eq; unfold PHYS_LIMIT, KERNEL_VIRTUAL_BASE; lia).
  split_and!; [lia | lia | lia | done | | | done].
  - eapply untouched_mono; [|exact Hu]. intros b Hr. unfold above, range in *. lia.
  - intros b Hr. rewrite Hv in Hr. unfold above, range, KERNEL_VIRTUAL_BASE in *.
    cbn [placement_addr set_mem set_placement]. lia.
Qed.

Definition bump_tables (L : Z) (HL : L <= PHYS_LIMIT) : TableAllocator (bump_alloc 1) (fun _ => False).
Proof.
  refine {| ta_state := fun n k F => (4096 | placement_addr k) /\ 0 <= placement_addr k /\
              placement_addr k + 4096 * Z.of_nat n <= L /\ (forall b, F b <-> above k b);
            ta_zeroed := True;
            ta_kept := fun k k' => exists m p, k' = set_mem m (set_placement p k) |}.
  - intros n k F (D & H0 & Hb & HF). apply wpe_wp. eapply wp_mono; [by apply (bump_table n k L)|].
    intros r k' (a & m' & -> & Ha & -> & Hu & Hp & Hz). exists a, (above (set_placement (placement_addr k + 4096) k)).
    cbn [placement_addr set_mem set_placement k_mem] in *. split_and!; try done; try lia.
    + apply Z.divide_add_r; [done | by exists 1].
    + intros b Hb'. apply HF. unfold above in *. cbn in Hb'. lia.
    + eapply untouched_mono; [|exact Hu]. intros b. apply HF.
    + intros b Hr. split; [apply HF|]; by apply Hp.
    + by exists m', (placement_addr k + 4096).
  - by intros n k F m' HS _.
  - intros n k F (D & H0 & Hb & HF). split_and!; [done | done | lia | done].
  - intros k m'. exists m', (placement_addr k). by destruct k.
  - intros k1 k2 k3 (m2 & p2 & ->) (m3 & p3 & ->). by exists m3, p3.
Defined.

(** ** Run time: pages from the page allocator *)

Section pmm_tables.
Context `{BS : BuddySymbols} `{PA : !PageAllocator pmm_alloc pmm_free get_order_addr}.

Definition pmm_tables (H0 : list block) :
  TableAllocator (pmm_alloc 0) (fun e => e = Panic "PMM Out of memory").
Proof.
  refine {| ta_state := fun n k F => exists new, pa_state k (new ++ H0) /\ cursor_ok (k_vga k) /\
              (forall b, F b <-> unheld (new ++ H0) b);
            ta_zeroed := False;
            ta_kept := fun k k' => exists m b, k' = set_buddy b (set_mem m k) |}.
  - intros n k F (new & HS & Hc & HF).
    destruct (pa_alloc k (new ++ H0) 0 HS ltac:(done) Hc) as [Hw|Hs]; [|by eapply wpe_stops].
    apply wpe_wp. eapply wp_mono; [exact Hw|]. intros r k' (i & -> & _ & HS' & (m' & b' & -> & Hu)).
    destruct (pa_block _ _ i 0 HS' ltac:(left)) as (_ & Hi & _ & Hn). change (2 ^ 0) with 1 in Hn.
    exists i, (unheld ((i, 0) :: new ++ H0)). split_and!; try done; try lia.
    + by exists ((i, 0) :: new).
    + intros b Hb. apply HF. by eapply unheld_less.
    + eapply untouched_mono; [|exact Hu]. intros b Hb. apply HF. by left.
    + intros b Hr. destruct (fresh_page _ _ _ _ HS' Hr). split; [by apply HF | done].
    + by exists m', b'.
  - intros n k F m' (new & HS & Hc & HF) Hm. exists new. split_and!; try done.
    eapply pa_stable; [exact HS | done |]. intros b Hb. apply Hm, HF. by left.
  - by intros n k F (new & ?); exists new.
  - intros k m'. exists m', (k_buddy k). by destruct k.
  - intros k1 k2 k3 (m2 & b2 & ->) (m3 & b3 & ->). by exists m3, b3.
Defined.
End pmm_tables.

Lemma span_nonneg v n : 0 <= n -> 0 <= span v n false.
Proof.
  intros Hn. unfold span. destruct (Z.eqb_spec n 0); [lia|].
  assert (v / 1024 <= (v + n - 1) / 1024) by (apply Z.div_le_mono; lia). lia.
Qed.

(** ** The properties *)

(** [early_map_range] within the bytes [G]. *)
Record early_mapped (pd flag v n p : Z) (G : Z -> Prop) (k k' : kernel) : Prop := {
  em_in : forall x, v <= x < v + n ->
    translate (k_mem k') pd x = Some (p + (x - v), Z.testbit flag 1, Z.testbit flag 2);
  em_out : forall x, 0 <= x < 2 ^ 20 -> ~ (v <= x < v + n) -> translate (k_mem k') pd x = translate (k_mem k) pd x;
  em_place : (4096 | placement_addr k') /\ placement_addr k <= placement_addr k' <= placement_addr k + 4096 * span v n false;
  em_tables : tables_ok pd (k_mem k') (above k');
  em_covered : covered pd 1024 G (above k') (k_mem k');
  em_frame : untouched G (k_mem k) (k_mem k');
  em_dir : dir_step pd v n (k_mem k) (k_mem k');
  em_kept : exists m q, k' = set_mem m (set_placement q k) }.

Lemma early_map_spec pd flag v n p G k :
  0 <= flag < 128 -> Z.testbit flag 0 = true ->
  0 <= n -> 0 <= v < 2 ^ 20 -> v + n <= 2 ^ 20 -> 0 <= p < 2 ^ 20 -> p + n <= 2 ^ 20 ->
  (4096 | placement_addr k) -> 0 <= placement_addr k -> placement_addr k + 4096 * span v n false <= PHYS_LIMIT ->
  tables_ok pd (k_mem k) (above k) -> covered pd 1024 G (above k) (k_mem k) ->
  (forall d, v / 1024 <= d -> 1024 * d < v + n -> usable pd flag (k_mem k) d) ->
  wp (early_map_range pd (4096 * p) (4096 * v) n flag) k (fun _ k' => early_mapped pd flag v n p G k k').
Proof.
  intros Hf Hf0 Hn Hv Hvn Hp Hpn Hal H0 HL HT HC HU. set (L := placement_addr k + 4096 * span v n false) in *.
  pose proof (span_nonneg v n Hn) as Hsp.
  apply wp_wpe. eapply wpe_mono.
  - apply (map_pages_spec (bump_alloc 1) (fun _ => False) (TA := bump_tables L HL) pd flag Hf Hf0 G 1024 ltac:(lia) v n p
      (Z.to_nat (span v n false)) k (above k)); try done; try lia.
    cbn. rewrite Z2Nat.id by done. by split_and!.
  - intros [] k' [(F' & left & D1 & (D2 & D3 & D4 & D5) & D6 & D7 & D8) Df [Min Mout] Dd Dk].
    assert (HF : forall b, above k' b -> F' b) by (intros b Hb; by apply D5).
    split; try done.
    + intros x Hx Ho. apply Mout; [done|]. split; [done | by left].
    + assert (Ha : above k (placement_addr k' + KERNEL_VIRTUAL_BASE)) by (apply D6, D5; unfold above; lia).
      unfold above in Ha. unfold L in *. split; [done | lia].
    + by eapply tables_ok_ext.
    + eapply covered_step; [done | exact D8 | exact HF | by left].
Qed.

(** [early_map_range] maps exactly the pages asked for: the processor's walk
    takes page [v + i] to frame [p + i], writable and open to ring 3 exactly as the
    flags say, for 4 KiB and 4 MiB pages alike; every other page translates as
    before; it ends, takes at most one table per 4 MiB touched from the boot-time
    allocator, leaves the tables well placed, and writes nothing but the directory,
    its tables and the pages it took. *)
Theorem early_map_range_correct pd flag v n p k :
  0 <= flag < 128 -> Z.testbit flag 0 = true ->
  0 <= n -> 0 <= v < 2 ^ 20 -> v + n <= 2 ^ 20 -> 0 <= p < 2 ^ 20 -> p + n <= 2 ^ 20 ->
  (4096 | placement_addr k) -> 0 <= placement_addr k -> placement_addr k + 4096 * span v n false <= PHYS_LIMIT ->
  tables_ok pd (k_mem k) (above k) ->
  (forall d, v / 1024 <= d -> 1024 * d < v + n -> usable pd flag (k_mem k) d) ->
  wp (early_map_range pd (4096 * p) (4096 * v) n flag) k (fun _ k' =>
    (forall x, v <= x < v + n ->
       translate (k_mem k') pd x = Some (p + (x - v), Z.testbit flag 1, Z.testbit flag 2)) /\
    (forall x, 0 <= x < 2 ^ 20 -> ~ (v <= x < v + n) -> translate (k_mem k') pd x = translate (k_mem k) pd x) /\
    placement_addr k <= placement_addr k' <= placement_addr k + 4096 * span v n false /\
    tables_ok pd (k_mem k') (above k') /\
    untouched (paging_fp pd (k_mem k) (above k)) (k_mem k) (k_mem k')).
Proof.
  intros Hf Hf0 Hn Hv Hvn Hp Hpn Hal H0 HL HT HU.
  eapply wp_mono; [apply (early_map_spec pd flag v n p (paging_fp pd (k_mem k) (above k))); try done; apply covered_fp|].
  intros [] k' [E1 E2 [_ E3] E4 _ E6 _ _]. done.
Qed.

(** [map_range] within the bytes [G], the blocks [H] held before it. *)
Record range_mapped `{BS : BuddySymbols} `{PA : !PageAllocator pmm_alloc pmm_free get_order_addr}
    (pd flag v n p top : Z) (G : Z -> Prop) (H : list block) (k k' : kernel) : Prop := {
  rm_in : forall x, v <= x < v + n ->
    translate (k_mem k') pd x = Some (p + (x - v), Z.testbit flag 1, Z.testbit flag 2);
  rm_out : forall x, 0 <= x < 2 ^ 20 -> ~ (v <= x < v + n) ->
    present pd (k_mem k) (x / 1024) = true \/ ~ (v / 1024 <= x / 1024 /\ 1024 * (x / 1024) < v + n) ->
    translate (k_mem k') pd x = translate (k_mem k) pd x;
  rm_held : exists new, pa_state k' (new ++ H) /\ tables_ok pd (k_mem k') (unheld (new ++ H)) /\
    covered pd top G (unheld (new ++ H)) (k_mem k');
  rm_frame : untouched G (k_mem k) (k_mem k');
  rm_dir : dir_step pd v n (k_mem k) (k_mem k');
  rm_kept : exists m b, k' = set_buddy b (set_mem m k) }.

Lemma map_range_spec `{BS : BuddySymbols} `{PA : !PageAllocator pmm_alloc pmm_free get_order_addr}
    pd flag v n p top G H k :
  top <= 1024 -> v + n <= 1024 * top ->
  0 <= flag < 128 -> Z.testbit flag 0 = true ->
  0 <= n -> 0 <= v < 2 ^ 20 -> v + n <= 2 ^ 20 -> 0 <= p < 2 ^ 20 -> p + n <= 2 ^ 20 ->
  pa_state k H -> cursor_ok (k_vga k) -> tables_ok pd (k_mem k) (unheld H) -> covered pd top G (unheld H) (k_mem k) ->
  (forall d, v / 1024 <= d -> 1024 * d < v + n -> usable pd flag (k_mem k) d) ->
  wpe (fun e => e = Panic "PMM Out of memory") (map_range pd (4096 * p) (4096 * v) n flag) k
    (fun _ k' => range_mapped pd flag v n p top G H k k').
Proof.
  intros Htop Hvt Hf Hf0 Hn Hv Hvn Hp Hpn HS Hc HT HC HU. pose proof (span_nonneg v n Hn) as Hsp.
  eapply wpe_mono.
  - apply (map_pages_spec (pmm_alloc 0) _ (TA := pmm_tables H) pd flag Hf Hf0 G top Htop v n p
      (Z.to_nat (span v n false)) k (unheld H)); try done; try lia. by exists [].
  - intros [] k' [(F' & left & D1 & (new & D2 & D3 & D4) & D6 & D7 & D8) Df [Min Mout] Dd Dk].
    assert (HF : forall b, unheld (new ++ H) b -> F' b) by (intros b Hb; by apply D4).
    split; try done.
    + intros x Hx Ho Hor. apply Mout; [done|]. split; [done | by right].
    + exists new. split_and!; [done | by eapply tables_ok_ext |].
      eapply covered_step; [done | exact D8 | exact HF | by left].
Qed.


(** A word found in an uncleared table, read as an entry of it; [user] says
    whether the directory entry is open to ring 3. *)
Definition leftover (w : Z) (user : bool) : option (Z * bool * bool) :=
  if Z.testbit w 0 then Some (Z.shiftr w 12, Z.testbit w 1, user && Z.testbit w 2) else None.

(** A new table translates by the words its page held. *)
Lemma add_table_words pd m m1 (F F' : Z -> Prop) d a f x :
  tables_ok pd m F -> untouched F m m1 -> (forall b, F' b -> F b) -> 0 <= d < 1024 -> present pd m d = false ->
  0 <= a < 2 ^ 18 -> (forall b, range (P2V (4096 * a)) 4096 b -> F b /\ ~ F' b) ->
  0 <= f < 128 -> Z.testbit f 0 = true -> Z.testbit f 1 = true -> 0 <= x < 2 ^ 20 -> x / 1024 = d ->
  translate (st32 m1 (pd_entry pd d) (Z.lor (4096 * a) f)) pd x =
    leftover (ld32 m1 (pt_entry (P2V (4096 * a)) (x mod 1024))) (Z.testbit f 2).
Proof.
  intros HT Hu HF Hd Habs Ha Hpage Hf Hf0 Hf1 Hx E.
  destruct (add_table pd m m1 F F' d a f HT Hu HF Hd Habs Ha Hpage Hf Hf0) as (_ & _ & Htb & Hpde & _).
  set (m' := st32 _ _ _) in *. unfold translate, leftover. rewrite E. fold (pde pd m' d) (table pd m' d). rewrite Htb, Hpde.
  rewrite !entry_testbit, Hf0, Hf1, (testbit_high f 7) by lia. cbn [negb andb].
  rewrite (ld32_agree m1 m' (pt_entry _ _)); [set (w := ld32 m1 _); destruct (Z.testbit w 0); reflexivity|].
  pose proof (Z.mod_pos_bound x 1024 ltac:(lia)). eapply untouched_agree; [apply st32_untouched|].
  assert (Hap : apart pd 4096 (P2V (4096 * a)) 4096).
  { apply ranges_apart; [lia | lia |]. intros y Hy Hy'. by apply (to_pd_off _ _ _ HT y Hy), Hpage. }
  unfold apart, pd_entry, pt_entry, range in *. lia.
Qed.

(** C26: mapping one page under a directory entry that had no table: the table
    is a page fresh from the page allocator, which is not cleared.  Every other page of that 4 MiB region, none
    of which was mapped, then translates by the word that page held before the call, whatever it was. *)
Theorem map_range_stale_table `{BS : BuddySymbols} `{PA : !PageAllocator pmm_alloc pmm_free get_order_addr}
    pd flag v p H k :
  0 <= flag < 128 -> Z.testbit flag 0 = true -> 0 <= v < 2 ^ 20 -> 0 <= p < 2 ^ 20 ->
  pa_state k H -> cursor_ok (k_vga k) -> tables_ok pd (k_mem k) (unheld H) -> present pd (k_mem k) (v / 1024) = false ->
  wpe (fun e => e = Panic "PMM Out of memory") (map_range pd (4096 * p) (4096 * v) 1 flag) k (fun _ k' =>
    exists a k1, pmm_alloc 0 k = Ok (4096 * a) k1 /\
    forall x, 0 <= x < 2 ^ 20 -> x / 1024 = v / 1024 -> x <> v ->
      translate (k_mem k) pd x = None /\
      translate (k_mem k') pd x =
        leftover (ld32 (k_mem k) (pt_entry (P2V (4096 * a)) (x mod 1024))) (Z.testbit flag 2)).
Proof.
  intros Hf Hf0 Hv Hp HS Hc HT Habs. pose proof (to_pd _ _ _ HT) as [P1 P2].
  assert (Hd : 0 <= v / 1024 < 1024) by div_lia. pose proof (Z.mod_pos_bound v 1024 ltac:(lia)) as Hm.
  destruct (page_indices v Hv) as [Ed Et].
  unfold map_range, map_pages. rewrite Ed, Et. cbn [map_loop Z.to_nat Pos.to_nat].
  change (1024 <=? 1) with false. change (NULL =? NULL) with true. rewrite andb_false_r, orb_true_r.
  change (1 =? 0) with false. cbv iota. apply wpe_bind. unfold get_table. apply wpe_bind.
  eapply wpe_access; [unfold pd_entry; lia | unfold pd_entry; lia | reflexivity | cbv beta].
  change PAGE_PRESENT with (2 ^ 0). fold (pde pd (k_mem k) (v / 1024)). rewrite land_bit by lia.
  fold (present pd (k_mem k) (v / 1024)). rewrite Habs. cbn [negb when]. apply wpe_bind, wpe_bind.
  destruct (pa_alloc k H 0 HS ltac:(done) Hc) as [Hw|Hs]; [|by eapply wpe_stops].
  destruct (wp_ok _ _ _ Hw) as (r & k1 & E & a & -> & _ & HS1 & (m1 & b1 & -> & Hu)). apply wpe_wp. eapply wp_of_eq; [exact E|].
  destruct (pa_block _ _ a 0 HS1 ltac:(left)) as (_ & Ha & _ & Hn). change (2 ^ 0) with 1 in Hn |- *.
  destruct (table_flags flag Hf) as (Hg & Hg0 & Hg1 & Hg2). change PAGE_PRESENT with 1 in *. set (f := Z.lor (Z.lor 1 PAGE_RW) flag) in *.
  replace (Z.lor (Z.lor (Z.lor (4096 * a) 1) PAGE_RW) flag) with (Z.lor (4096 * a) f) by (unfold f; by rewrite !Z.lor_assoc).
  assert (Hpage : forall b, range (P2V (4096 * a)) 4096 b -> unheld H b /\ ~ unheld ((a, 0) :: H) b)
    by (intros b; by apply (fresh_page _ _ _ _ HS1)).
  assert (HuF : untouched (unheld H) (k_mem k) m1) by (eapply untouched_mono; [|exact Hu]; by left).
  pose proof (add_table pd (k_mem k) m1 _ _ (v / 1024) a f HT HuF (unheld_less H (a, 0)) Hd Habs ltac:(lia) Hpage Hg Hg0) as HA.
  cbv zeta in HA. destruct HA as (A1 & A2 & A3 & A4 & _).
  eapply wpe_access; [unfold pd_entry; lia | unfold pd_entry; lia | reflexivity | cbv beta]. cbn [k_mem set_mem set_buddy].
  apply wpe_bind. eapply wpe_access; [unfold pd_entry; lia | unfold pd_entry; lia | reflexivity | cbv beta].
  cbn [k_mem set_mem]. set (m2 := st32 _ _ _) in *. fold (pde pd m2 (v / 1024)) (table pd m2 (v / 1024)). apply wpe_ret.
  destruct (to_table _ _ _ A1 _ Hd A2) as (B1 & B2 & _).
  apply wpe_bind. eapply wpe_access; [unfold pt_entry; lia | unfold pt_entry; lia | reflexivity | cbv beta].
  cbn [map_loop Z.to_nat Pos.to_nat k_mem set_mem]. change (1 - 1 =? 0) with true. cbv iota. apply wpe_ret.
  destruct (set_pte pd m2 _ (v / 1024) (v mod 1024) p flag A1 Hd A2 Hm Hp Hf Hf0) as (_ & _ & _ & Hothers).
  exists a, (set_buddy b1 (set_mem m1 k)). split; [done|]. intros x Hx Exd Hne. split.
  - unfold translate. rewrite Exd. fold (pde pd (k_mem k) (v / 1024)) (present pd (k_mem k) (v / 1024)). by rewrite Habs.
  - cbn [k_mem set_mem]. rewrite Hothers; [|done | intros ->; apply Hne; rewrite <- Z.div_mod; lia].
    unfold m2. rewrite (add_table_words pd (k_mem k) m1 (unheld H) (unheld ((a, 0) :: H))); try done; [|apply unheld_less | lia].
    rewrite Hg2. f_equal. symmetry. apply ld32_agree. intros b Hb. symmetry. apply Hu. intros Hpb.
    apply (pa_apart _ _ _ _ b HS1 ltac:(left)); [|done]. pose proof (Z.mod_pos_bound x 1024 ltac:(lia)). unfold pt_entry, range in *. lia.
Qed.

(** ** Samples: an empty directory *)

Definition empty_directory : kernel := set_placement 0x200000 empty_kernel.

Lemma empty_pde pd d : pde pd ∅ d = 0.
Proof. done. Qed.

(** A directory of zeros has no tables. *)
Lemma empty_tables pd m F :
  (forall d, 0 <= d < 1024 -> pde pd m d = 0) ->
  KERNEL_VIRTUAL_BASE <= pd -> pd + 4096 <= 2 ^ 32 -> (forall b, range pd 4096 b -> ~ F b) -> tables_ok pd m F.
Proof.
  intros H0 H1 H2 H3.
  assert (Hs : forall d, 0 <= d < 1024 -> ~ small pd m d).
  { intros d Hd [Hp _]. unfold present in Hp. by rewrite H0 in Hp. }
  split; [done | done | intros; exfalso; by eapply Hs ..].
Qed.

(** 1025 pages from 0xC0000000 on: one 4 MiB page and one entry of a new table. *)
Lemma early_map_range_correct_witness :
  wp (early_map_range 0xC0010000 0 0xC0000000 1025 3) empty_directory (fun _ k' =>
    translate (k_mem k') 0xC0010000 0xC0001 = Some (1, true, false) /\
    translate (k_mem k') 0xC0010000 0xC0400 = Some (1024, true, false) /\
    translate (k_mem k') 0xC0010000 0xC0401 = None).
Proof.
  eapply wp_mono; [apply (early_map_range_correct 0xC0010000 3 0xC0000 1025 0 empty_directory)|].
  - lia.
  - reflexivity.
  - lia.
  - lia.
  - lia.
  - lia.
  - lia.
  - exists 512. reflexivity.
  - cbn. lia.
  - vm_compute. congruence.
  - apply empty_tables; [done | unfold KERNEL_VIRTUAL_BASE; lia | lia |]. unfold range, above, KERNEL_VIRTUAL_BASE. cbn. lia.
  - intros d _ _. left. reflexivity.
  - intros [] k' (H1 & H2 & _). split_and!.
    + rewrite (H1 0xC0001) by lia. reflexivity.
    + rewrite (H1 0xC0400) by lia. reflexivity.
    + rewrite (H2 0xC0401) by lia. reflexivity.
Defined.

#[local] Existing Instance sample_symbols.
#[local] Instance ready_pages : PageAllocator pmm_alloc pmm_free get_order_addr :=
  buddy_page_allocator 0xC0001000 1024 1024 1020 4 sample_geometry ltac:(lia) ltac:(lia)
    ltac:(unfold bfp, range, sizeof_Page, KERNEL_VIRTUAL_BASE; cbn [free_area sample_symbols]; lia).

(** In [ready_machine] page 0 is clear: an empty directory outside the memory the
    allocator manages. *)
Lemma ready_directory d : 0 <= d < 1024 -> pde 0xC0000000 (k_mem ready_machine) d = 0.
Proof.
  assert (Hall : forallb (fun d => pde 0xC0000000 (k_mem ready_machine) d =? 0) (seqZ 0 1024) = true)
    by (vm_compute; reflexivity).
  intros Hd. rewrite forallb_forall in Hall. apply Z.eqb_eq, Hall, list_elem_of_In, elem_of_seqZ. lia.
Qed.

Lemma ready_tables : tables_ok 0xC0000000 (k_mem ready_machine) (unheld []).
Proof.
  apply empty_tables; [exact ready_directory | unfold KERNEL_VIRTUAL_BASE; lia | lia |].
  intros b Hb [[Hf|Hf]|[Hl _]]; unfold range, sizeof_Page, KERNEL_VIRTUAL_BASE in *; cbn in *; lia.
Qed.


(** The page the allocator hands out next, with a word of its last use in it. *)
Definition stale_machine : kernel := set_mem (st32 (k_mem ready_machine) 0xC0004004 0x5007) ready_machine.

Lemma stale_vga : cursor_ok (k_vga stale_machine).
Proof. vm_compute. intuition congruence. Qed.

Lemma stale_state : pa_state stale_machine [].
Proof.
  destruct ready_machine_run as (s & _ & HR). pose proof (ready_owned _ _ _ _ _ _ HR) as HS. clear HR s.
  revert HS. unfold stale_machine. generalize ready_machine. intros k HS. apply (pa_stable k); [exact HS | reflexivity |].
  intros b [Hb|Hb]; apply ld8_st32_ne; unfold range, sizeof_Page in Hb; cbn in Hb; lia.
Qed.

Lemma stale_tables : tables_ok 0xC0000000 (k_mem stale_machine) (unheld []).
Proof.
  apply empty_tables; [| unfold KERNEL_VIRTUAL_BASE; lia | lia | exact (to_pd_off _ _ _ ready_tables)].
  intros d Hd. rewrite <- (ready_directory d Hd). unfold stale_machine. generalize ready_machine. intros k.
  apply ld32_st32_ne. unfold pd_entry. lia.
Qed.

Lemma stale_alloc : match pmm_alloc 0 stale_machine with Ok r _ => r = 0x4000 | Stop _ _ => False end.
Proof. vm_compute. reflexivity. Qed.

(** Page 0x400 is mapped for ring 3; page 0x401 then reaches the frame 5 of the leftover word. *)
Lemma map_range_stale_table_witness :
  wpe (fun e => e = Panic "PMM Out of memory") (map_range 0xC0000000 (4096 * 8) (4096 * 0x400) 1 7) stale_machine (fun _ k' =>
    translate (k_mem stale_machine) 0xC0000000 0x401 = None /\
    translate (k_mem k') 0xC0000000 0x401 = Some (5, true, true)).
Proof.
  eapply wpe_mono; [apply (map_range_stale_table 0xC0000000 7 0x400 8 [] stale_machine)|].
  - lia.
  - reflexivity.
  - lia.
  - lia.
  - exact stale_state.
  - exact stale_vga.
  - exact stale_tables.
  - vm_compute. reflexivity.
  - intros [] k' (a & k1 & E & Hall). pose proof stale_alloc as Ea. rewrite E in Ea. assert (a = 4) as -> by lia.
    destruct (Hall 0x401 ltac:(lia) eq_refl ltac:(lia)) as [E1 E2]. split; [exact E1|]. rewrite E2. vm_compute. reflexivity.
Defined.
