(* ===== verification/PagingInit.v ===== *)
(** * The kernel's address space: [paging_init] of src/mm/paging.c *)

From Stdlib Require Import ZArith Lia Bool.
From stdpp Require Import base list gmap strings.
From S2P Require Import Prelude Machine StringLib Console Node Queue Bump Buddy BuddyModel BuddyRefine BuddyInit Pmm PmmSample Devices Descriptors Heap Sched Paging PagingTheorems.

(** ** Regions of the kernel's window

    A region is a first page frame, a number of pages and flags; it is mapped at
    the same offset from 0xC0000000, page 0xC0000. *)

Definition WINDOW : Z := 0xC0000.
Abbreviation region := (Z * Z * Z)%type.
Definition region_first (r : region) : Z := r.1.1.
Definition region_pages (r : region) : Z := r.1.2.
Definition region_flag (r : region) : Z := r.2.

(** The translation a list of regions stands for, the last one mapped first. *)
Fixpoint region_map (L : list region) (x : Z) : option (Z * bool * bool) :=
  match L with
  | [] => None
  | r :: L =>
      if (WINDOW + region_first r <=? x) && (x <? WINDOW + region_first r + region_pages r)
      then Some (x - WINDOW, Z.testbit (region_flag r) 1, Z.testbit (region_flag r) 2)
      else region_map L x
  end.

Definition region_ok (r : region) : Prop :=
  0 <= region_first r < 2 ^ 18 /\ 0 <= region_pages r /\ region_first r + region_pages r <= 2 ^ 18 /\
  0 <= region_flag r < 128 /\ Z.testbit (region_flag r) 0 = true /\ Z.testbit (region_flag r) 2 = false.

Definition region_tables (r : region) : Z := span (WINDOW + region_first r) (region_pages r) false.

Fixpoint tables_needed (L : list region) : Z :=
  match L with [] => 0 | r :: L => region_tables r + tables_needed L end.

Section boot.
Context (pd : Z) (G : Z -> Prop) (k0 : kernel).

(** The directory after the regions [L], all below page [V], have been mapped.
    Every table is open for writing and every 4 MiB page lies below [V]. *)
Record boot_paged (L : list region) (V : Z) (k : kernel) : Prop := {
  bp_place : (4096 | placement_addr k) /\ 0 <= placement_addr k;
  bp_room : placement_addr k0 <= placement_addr k <= placement_addr k0 + 4096 * tables_needed L;
  bp_tables : tables_ok pd (k_mem k) (above k);
  bp_covered : covered pd 1024 G (above k) (k_mem k);
  bp_dir : forall d, 0 <= d < 1024 -> present pd (k_mem k) d = true -> WINDOW / 1024 <= d /\
    (Z.testbit (pde pd (k_mem k) d) 7 = true /\ 1024 * d + 1024 <= V \/
     small pd (k_mem k) d /\ Z.testbit (pde pd (k_mem k) d) 1 = true);
  bp_map : forall x, 0 <= x < 2 ^ 20 -> translate (k_mem k) pd x = region_map L x;
  bp_frame : untouched G (k_mem k0) (k_mem k);
  bp_kept : exists m q, k = set_mem m (set_placement q k0) }.

Lemma boot_usable L V k v flag :
  boot_paged L V k -> V <= v -> v < 2 ^ 20 -> 0 <= v -> Z.testbit flag 2 = false ->
  forall d n, v + n <= 2 ^ 20 -> v / 1024 <= d -> 1024 * d < v + n -> usable pd flag (k_mem k) d.
Proof.
  intros HB HV Hv2 Hv H2 d n Hn Hd1 Hd2. destruct (present pd (k_mem k) d) eqn:Hp; [right | by left].
  destruct (bp_dir _ _ _ HB d) as [_ [[H7 Hlt]|[Hs H1]]]; [div_lia | done | div_lia |].
  split; [done|]. unfold grants. rewrite H1, H2. by destruct (Z.testbit flag 1).
Qed.

Lemma region_step L V k r :
  boot_paged L V k -> region_ok r -> V <= WINDOW + region_first r ->
  placement_addr k0 + 4096 * tables_needed (r :: L) <= PHYS_LIMIT ->
  wp (early_map_range pd (4096 * region_first r) (P2V (4096 * region_first r)) (region_pages r) (region_flag r)) k
    (fun _ k' => boot_paged (r :: L) (WINDOW + region_first r + region_pages r) k').
Proof.
  intros HB (R1 & R2 & R3 & R4 & R5 & R6) HV Hroom. destruct r as [[p n] flag].
  cbn [region_first region_pages region_flag fst snd tables_needed] in *. unfold region_tables in *.
  cbn [region_first region_pages fst snd] in *.
  assert (P2V (4096 * p) = 4096 * (WINDOW + p)) as ->
    by (rewrite P2V_eq by (unfold PHYS_LIMIT, KERNEL_VIRTUAL_BASE; lia); unfold WINDOW, KERNEL_VIRTUAL_BASE; lia).
  pose proof HB as [[B1 B2] B3 B4 B5 B6 B7 B8 B9]. pose proof (span_nonneg (WINDOW + p) n R2).
  eapply wp_mono; [apply (early_map_spec pd flag (WINDOW + p) n p G k); try done; try (unfold WINDOW in *; lia)|].
  { intros d. eapply boot_usable; try done; unfold WINDOW in *; lia. }
  intros [] k' [E1 E2 [E3 E4] E5 E6 E7 E8 (m & q & ->)]. split; try done.
  - split; [done | lia].
  - cbn [tables_needed]. unfold region_tables. cbn [region_first region_pages fst snd]. lia.
  - intros d Hd Hp. destruct (E8 d Hd) as [Ee|(D1 & D2 & D3)].
    2: { split; [unfold WINDOW in *; div_lia|]. by destruct D3 as [(? & _ & ?)|?]; auto. }
    unfold present in Hp. rewrite Ee in Hp |- *. destruct (B6 d Hd Hp) as [Hw [[H7 Hlt]|[Hs Hb]]]; (split; [done|]); [left; split; [done | lia]|].
    right. split; [|done]. by apply (small_ext pd (k_mem k) (k_mem (set_mem m (set_placement q k)))).
  - intros x Hx. cbn [region_map region_first region_pages region_flag fst snd].
    destruct (Z.leb_spec (WINDOW + p) x), (Z.ltb_spec x (WINDOW + p + n)); cbn [andb];
      [|rewrite E2 by lia; by apply B7 ..].
    rewrite E1 by lia. do 3 f_equal. lia.
  - by eapply untouched_trans.
  - destruct B9 as (m0 & q0 & ->). by exists m, q.
Qed.
End boot.

(** ** The whole initialisation *)

Definition bios_regions : list region :=
  [(0xC0, 64, 0x11); (0xA0, 32, 0x1B); (0x80, 32, 1); (1, 127, 3); (0, 1, 1)].

(** Read-only kernel pages up to [R1], writable ones up to [R2], free memory up to
    [E], and [S] pages of ACPI tables at [A]. *)
Definition kernel_regions (R1 R2 E A S : Z) : list region :=
  (A, S, 1) :: (R2, E - R2, 3) :: (R1, R2 - R1, 3) :: (0x100, R1 - 0x100, 1) :: bios_regions.

(** What the linker script and the boot loader provide: the sections of the kernel
    are whole pages one after the other from 1 MiB on, entry 3 of the memory map
    is the memory from 1 MiB on and entry 4 the ACPI tables behind it; the memory
    map and the page directory lie below the first free page. *)
Record boot_layout `{SS : SchedSymbols} `{LS : LayoutSymbols} (R1 R2 E A S : Z) (k : kernel) : Prop := {
  bl_symbols : _ro_start = KERNEL_VIRTUAL_BASE + 0x100000 /\ _ro_end = KERNEL_VIRTUAL_BASE + 4096 * R1 /\
    _rw_start = KERNEL_VIRTUAL_BASE + 4096 * R1 /\ _rw_end = KERNEL_VIRTUAL_BASE + 4096 * R2 /\
    _kernel_end = KERNEL_VIRTUAL_BASE + 4096 * R2;
  bl_order : 0x100 <= R1 <= R2 /\ R2 <= E /\ E <= A < 2 ^ 18 /\ 0 <= S /\ A + S <= 2 ^ 18;
  bl_ram : (0x100000 + ld64 (k_mem k) (mmap_size (memory_map (k_boot k) + 72))) / 4096 = E;
  bl_acpi : ld64 (k_mem k) (mmap_addr (memory_map (k_boot k) + 96)) = 4096 * A /\
    ld64 (k_mem k) (mmap_size (memory_map (k_boot k) + 96)) / 4096 = S;
  bl_place : (4096 | placement_addr k) /\ 0 <= placement_addr k /\
    placement_addr k + 4096 * tables_needed (kernel_regions R1 R2 E A S) <= PHYS_LIMIT;
  bl_pd : KERNEL_VIRTUAL_BASE <= kernel_page_directory /\
    kernel_page_directory + 4096 <= placement_addr k + KERNEL_VIRTUAL_BASE;
  bl_mm : KERNEL_VIRTUAL_BASE <= memory_map (k_boot k) /\
    memory_map (k_boot k) + 120 <= placement_addr k + KERNEL_VIRTUAL_BASE /\
    apart (memory_map (k_boot k)) 120 kernel_page_directory 4096 }.

Lemma ordered_regions R1 R2 E A S : 0x100 <= R1 <= R2 /\ R2 <= E /\ E <= A < 2 ^ 18 /\ 0 <= S /\ A + S <= 2 ^ 18 ->
  Forall region_ok (kernel_regions R1 R2 E A S).
Proof.
  intros ([? ?] & ? & [? ?] & ? & ?). unfold kernel_regions, bios_regions.
  repeat (apply Forall_cons; split); [..|by apply Forall_nil];
    unfold region_ok, region_first, region_pages, region_flag; cbn [fst snd]; split_and!; try lia; done.
Qed.

Lemma tables_needed_nonneg L : Forall region_ok L -> 0 <= tables_needed L.
Proof.
  induction 1 as [|r L (_ & Hr & _) _ IH]; cbn [tables_needed]; [lia|].
  pose proof (span_nonneg (WINDOW + region_first r) _ Hr). unfold region_tables. lia.
Qed.

Section init.
Context `{SS : SchedSymbols} `{LS : LayoutSymbols} (R1 R2 E A S : Z) (k0 : kernel).
Context (HL : boot_layout R1 R2 E A S k0).

Definition boot_fp (b : Z) : Prop := range kernel_page_directory 4096 b \/ above k0 b.
Local Abbreviation paged := (boot_paged kernel_page_directory boot_fp k0).

Lemma kernel_regions_ok : Forall region_ok (kernel_regions R1 R2 E A S).
Proof. apply ordered_regions, (bl_order _ _ _ _ _ _ HL). Qed.

(** One call of the initialisation, with its place in the list of regions. *)
Lemma init_step i r L V k paddr vaddr n flag (Q : unit -> kernel -> Prop) :
  drop i (kernel_regions R1 R2 E A S) = r :: L -> paged L V k ->
  paddr = 4096 * region_first r -> vaddr = P2V paddr -> n = region_pages r -> flag = region_flag r ->
  V <= WINDOW + region_first r ->
  (forall k', paged (r :: L) (WINDOW + region_first r + region_pages r) k' -> Q tt k') ->
  wp (early_map_range kernel_page_directory paddr vaddr n flag) k Q.
Proof.
  intros EL HB -> -> -> -> HV Hf. pose proof kernel_regions_ok as Hok.
  destruct (bl_place _ _ _ _ _ _ HL) as (_ & _ & Hroom).
  rewrite <- (take_drop i (kernel_regions R1 R2 E A S)), EL in Hok, Hroom. set (L' := take _ _) in *.
  apply Forall_app in Hok as [Hok1 Hok2]. apply Forall_cons in Hok2 as [Hr Hok2].
  assert (Hsplit : tables_needed (L' ++ r :: L) = tables_needed L' + tables_needed (r :: L)).
  { clear. induction L' as [|a L' IH]; [done|]. cbn [tables_needed app] in *. lia. }
  pose proof (tables_needed_nonneg L' Hok1).
  eapply wp_mono; [eapply region_step; [exact HB | exact Hr | exact HV | lia]|].
  intros [] k' HB'. by apply Hf.
Qed.

(** The memory map is not written. *)
Lemma boot_map_kept L V k a :
  paged L V k -> memory_map (k_boot k0) <= a -> a + 8 <= memory_map (k_boot k0) + 120 ->
  ld64 (k_mem k) a = ld64 (k_mem k0) a /\ k_boot k = k_boot k0.
Proof.
  intros HB H1 H2. destruct (bl_mm _ _ _ _ _ _ HL) as (M1 & M2 & M3). destruct (bp_kept _ _ _ _ _ _ HB) as (m & q & Ek).
  split; [|by rewrite Ek]. apply ld64_agree. eapply untouched_agree; [exact (bp_frame _ _ _ _ _ _ HB)|].
  intros b Hb [Hr|Hr]; unfold apart, above, range in *; lia.
Qed.

Lemma boot_start :
  (forall d, 0 <= d < 1024 -> pde kernel_page_directory (k_mem k0) d = 0) -> paged [] 0 k0.
Proof.
  intros Hz. destruct (bl_place _ _ _ _ _ _ HL) as (P1 & P2 & _). destruct (bl_pd _ _ _ _ _ _ HL) as [D1 D2].
  destruct (bl_place _ _ _ _ _ _ HL) as (_ & _ & Hroom). pose proof (tables_needed_nonneg _ kernel_regions_ok).
  assert (Hnp : forall d, 0 <= d < 1024 -> present kernel_page_directory (k_mem k0) d = false)
    by (intros d Hd; unfold present; by rewrite Hz).
  split; try done.
  - cbn. lia.
  - apply empty_tables; [done | done | unfold PHYS_LIMIT in Hroom; lia | unfold above, range; intros; lia].
  - split; [by left | by right |]. intros d b Hd [Hs _]. by rewrite Hnp in Hs.
  - intros d Hd Hp. by rewrite Hnp in Hp.
  - intros x Hx. unfold translate. fold (pde kernel_page_directory (k_mem k0) (x / 1024)). rewrite Hz by div_lia. done.
  - exists (k_mem k0), (placement_addr k0). by destruct k0.
Qed.

Lemma map_bios_spec k :
  paged [] 0 k -> wp map_bios k (fun _ k' => paged bios_regions (WINDOW + 0x100) k').
Proof.
  intros HB. unfold map_bios.
  apply wp_bind. eapply (init_step 8); [reflexivity | exact HB | reflexivity.. | unfold WINDOW; cbn; lia |]. intros k1 H1.
  apply wp_bind. eapply (init_step 7); [reflexivity | exact H1 | reflexivity.. | unfold WINDOW; cbn; lia |]. intros k2 H2.
  apply wp_bind. eapply (init_step 6); [reflexivity | exact H2 | reflexivity.. | unfold WINDOW; cbn; lia |]. intros k3 H3.
  apply wp_bind. eapply (init_step 5); [reflexivity | exact H3 | reflexivity.. | unfold WINDOW; cbn; lia |]. intros k4 H4.
  eapply (init_step 4); [reflexivity | exact H4 | reflexivity.. | unfold WINDOW; cbn; lia |]. by intros k5 H5.
Qed.

Lemma V2P_page p : 0 <= p < 2 ^ 18 -> V2P (KERNEL_VIRTUAL_BASE + 4096 * p) = 4096 * p.
Proof. intros Hp. unfold V2P. replace (_ + _ - _) with (4096 * p) by lia. apply u32_small. lia. Qed.

Lemma pages_between a b : 0 <= a <= b -> b <= 2 ^ 18 -> (4096 * b ⊟ 4096 * a) / 4096 = b - a.
Proof. intros H1 H2. rewrite u32_small by lia. div_lia. Qed.

Lemma map_kernel_spec k :
  paged bios_regions (WINDOW + 0x100) k ->
  wp map_kernel k (fun _ k' => paged (kernel_regions R1 R2 E A S) (WINDOW + A + S) k').
Proof.
  intros HB. destruct (bl_symbols _ _ _ _ _ _ HL) as (Y1 & Y2 & Y3 & Y4 & Y5).
  destruct (bl_order _ _ _ _ _ _ HL) as ([O1 O2] & O3 & [O4 O5] & O6 & O7).
  destruct (bl_mm _ _ _ _ _ _ HL) as (M1 & M2 & _). destruct (bl_acpi _ _ _ _ _ _ HL) as [A1 A2].
  pose proof (bl_ram _ _ _ _ _ _ HL) as Hram. destruct (bl_place _ _ _ _ _ _ HL) as (_ & _ & Hroom).
  pose proof (tables_needed_nonneg _ kernel_regions_ok). set (mm := memory_map (k_boot k0)) in *.
  assert (Hmm : mm + 120 <= 2 ^ 32) by (unfold PHYS_LIMIT in Hroom; lia).
  unfold map_kernel. rewrite Y1, Y2, Y3, Y4, Y5. change (KERNEL_VIRTUAL_BASE + 0x100000) with (KERNEL_VIRTUAL_BASE + 4096 * 0x100).
  rewrite !V2P_page by lia. cbv zeta. rewrite !pages_between by lia.
  apply wp_bind. eapply (init_step 3); [reflexivity | exact HB | reflexivity.. | unfold WINDOW; cbn; lia |]. intros k1 H1.
  apply wp_bind. eapply (init_step 2); [reflexivity | exact H1 | reflexivity.. | unfold WINDOW; cbn; lia |]. intros k2 H2.
  apply wp_bind, wp_gets. destruct (boot_map_kept _ _ k2 (mmap_size (mm + 72)) H2) as [E2 ->]; [unfold mmap_size; lia..|].
  fold mm. change (3 * sizeof_memory_map_t) with 72. apply wp_bind. unfold mmap_size at 1.
  eapply wp_access; [lia | lia | reflexivity | cbv beta]. change (ld64 (k_mem k2) (mm + 72 + 8)) with (ld64 (k_mem k2) (mmap_size (mm + 72))). rewrite E2.
  set (size := ld64 (k_mem k0) (mmap_size (mm + 72))) in *. assert (0 <= size) by (apply ld64_range).
  assert (Hfree : (u32 (0x100000 + size) ⊟ 4096 * R2) / 0x1000 = E - R2).
  { rewrite (u32_small (0x100000 + size)) by div_lia. rewrite u32_small by div_lia. div_lia. }
  rewrite Hfree.
  apply wp_bind. eapply (init_step 1); [reflexivity | exact H2 | reflexivity.. | unfold WINDOW; cbn; lia |]. intros k3 H3.
  apply wp_bind, wp_gets. destruct (boot_map_kept _ _ k3 (mmap_addr (mm + 96)) H3) as [E3 Eb]; [unfold mmap_addr; lia..|].
  rewrite Eb. destruct (boot_map_kept _ _ k3 (mmap_size (mm + 96)) H3) as [E4 _]; [unfold mmap_size; lia..|].
  fold mm. change (4 * sizeof_memory_map_t) with 96. apply wp_bind. unfold mmap_addr at 1.
  eapply wp_access; [lia | lia | reflexivity | cbv beta]. change (ld64 (k_mem k3) (mm + 96)) with (ld64 (k_mem k3) (mmap_addr (mm + 96))). rewrite E3, A1.
  apply wp_bind. unfold mmap_size at 1. eapply wp_access; [lia | lia | reflexivity | cbv beta].
  change (ld64 (k_mem k3) (mm + 96 + 8)) with (ld64 (k_mem k3) (mmap_size (mm + 96))). rewrite E4, A2.
  eapply (init_step 0); [reflexivity | exact H3 | | | | reflexivity | unfold WINDOW; cbn; lia |].
  - cbn. apply u32_small. lia.
  - by rewrite (u32_small (4096 * A)) by lia.
  - cbn. apply u32_small. lia.
  - by intros k4 H4.
Qed.
End init.

(** ** The whole of [paging_init] *)

Lemma paging_init_spec `{SS : SchedSymbols} `{LS : LayoutSymbols} R1 R2 E A S k :
  boot_layout R1 R2 E A S k ->
  wp paging_init k (fun _ k' => exists m q,
    k' = set_cpu (set_cr3 (V2P kernel_page_directory) (k_cpu k)) (set_mem m (set_placement q k)) /\
    boot_paged kernel_page_directory (boot_fp k) k (kernel_regions R1 R2 E A S) (WINDOW + A + S) (set_mem m (set_placement q k)) /\
    untouched (boot_fp k) (k_mem k) m).
Proof.
  intros HL. destruct (bl_pd _ _ _ _ _ _ HL) as [D1 D2]. destruct (bl_place _ _ _ _ _ _ HL) as (_ & _ & Hroom).
  pose proof (tables_needed_nonneg _ (kernel_regions_ok _ _ _ _ _ _ HL)).
  unfold paging_init. apply wp_bind.
  eapply wp_mono; [apply kmemset_spec; unfold PHYS_LIMIT in *; lia|]. intros _ k1 (_ & m1 & -> & U1 & Z1).
  set (k1 := set_mem m1 k).
  assert (HL1 : boot_layout R1 R2 E A S k1).
  { assert (Hmm : forall a, memory_map (k_boot k) <= a -> a + 8 <= memory_map (k_boot k) + 120 -> ld64 m1 a = ld64 (k_mem k) a).
    { intros a H1 H2. apply ld64_agree. eapply untouched_agree; [exact U1|].
      destruct (bl_mm _ _ _ _ _ _ HL) as (_ & _ & M3). unfold apart, range in *. lia. }
    destruct HL as [Y1 Y2 Y3 Y4 Y5 Y6 Y7]. split; try done; cbn [k_mem k1 set_mem k_boot];
      rewrite !Hmm by (unfold mmap_size, mmap_addr; lia); done. }
  assert (Hz : forall d, 0 <= d < 1024 -> pde kernel_page_directory (k_mem k1) d = 0).
  { intros d Hd. unfold pde, pd_entry, ld32, ld16. cbn [k_mem k1 set_mem]. rewrite <- !Z.add_assoc.
    rewrite !Z1 by lia. done. }
  apply wp_bind. eapply wp_mono; [by apply (map_bios_spec _ _ _ _ _ _ HL1), (boot_start _ _ _ _ _ _ HL1)|]. intros [] k2 H2.
  apply wp_bind. eapply wp_mono; [by apply (map_kernel_spec _ _ _ _ _ _ HL1)|].
  intros [] k3 HB3. pose proof (bp_kept _ _ _ _ _ _ HB3) as (m & q & ->). unfold refresh_cr3. apply wp_modify.
  exists m, q. pose proof HB3 as [B1 B2 B3 B4 B5 B6 B7 B8].
  assert (Hu : untouched (boot_fp k) (k_mem k) m).
  { eapply untouched_trans; eapply untouched_mono; [|exact U1| |exact B7]; [by left | done]. }
  split_and!; [reflexivity | | exact Hu].
  split; done.
Qed.

(** ** The property *)

(** C25: after [paging_init] the kernel's directory, in CR3, translates exactly the
    kernel's window: the first page, the BIOS areas, the kernel's code and constants
    and the ACPI tables read-only, low memory, video memory, the kernel's data and
    all free memory writable, each page to the frame 0xC0000000 below it; no page is
    open to ring 3 and every other page is unmapped.  Only the directory and the
    tables, taken from the first free page on, are written. *)
Theorem paging_init_correct `{SS : SchedSymbols} `{LS : LayoutSymbols} R1 R2 E A S k :
  boot_layout R1 R2 E A S k ->
  wp paging_init k (fun _ k' =>
    cr3 (k_cpu k') = V2P kernel_page_directory /\
    (forall x, 0 <= x < 2 ^ 20 ->
       translate (k_mem k') kernel_page_directory x = region_map (kernel_regions R1 R2 E A S) x) /\
    placement_addr k' <= placement_addr k + 4096 * tables_needed (kernel_regions R1 R2 E A S) /\
    tables_ok kernel_page_directory (k_mem k') (above k') /\
    untouched (fun b => range kernel_page_directory 4096 b \/ above k b) (k_mem k) (k_mem k')).
Proof.
  intros HL. eapply wp_mono; [by apply paging_init_spec|].
  intros [] k' (m & q & -> & [B1 B2 B3 B4 B5 B6 B7 B8] & Hu). split_and!; try done. cbn [placement_addr set_cpu set_mem set_placement] in *. lia.
Qed.

(** ** A concrete machine

    4 MiB of memory, the kernel in the pages 0x100 to 0x120, ACPI tables at
    0x500000. *)

#[local] Instance boot_sched : SchedSymbols :=
  {| que := 0xC0010000; sleep_que := 0xC0010010; zombie_que := 0xC0010020;
     kernel_page_directory := 0xC0011000; kthread_stub_addr := 0xC0100000; reaper_main_addr := 0xC0100100 |}.
#[local] Instance boot_symbols : LayoutSymbols :=
  {| _kernel_start := 0xC0100000; _kernel_end := 0xC0120000; _ro_start := 0xC0100000; _ro_end := 0xC0110000;
     _rw_start := 0xC0110000; _rw_end := 0xC0120000 |}.

Definition boot_kernel : kernel :=
  set_mem (st64 (st64 (st64 ∅ 0xC0060050 0x300000) 0xC0060060 0x500000) 0xC0060068 0x10000)
    (set_boot (MkBoot 0xC0060000 0) (set_placement 0x120000 empty_kernel)).

Lemma boot_kernel_layout : boot_layout 0x110 0x120 0x400 0x500 16 boot_kernel.
Proof.
  split; unfold apart, KERNEL_VIRTUAL_BASE; cbn [memory_map k_boot boot_kernel kernel_page_directory placement_addr
    set_mem set_boot set_placement boot_sched boot_symbols _ro_start _ro_end _rw_start _rw_end _kernel_end]; try lia.
  - vm_compute. reflexivity.
  - split; vm_compute; reflexivity.
  - split_and!; [by exists 0x120 | lia | vm_compute; discriminate].
Qed.

Lemma paging_init_correct_witness :
  wp paging_init boot_kernel (fun _ k' =>
    cr3 (k_cpu k') = 0x11000 /\
    translate (k_mem k') 0xC0011000 0xC00B8 = Some (0xB8, true, false) /\
    translate (k_mem k') 0xC0011000 0xC0100 = Some (0x100, false, false) /\
    translate (k_mem k') 0xC0011000 0xB8 = None).
Proof.
  eapply wp_mono; [exact (paging_init_correct 0x110 0x120 0x400 0x500 16 boot_kernel boot_kernel_layout)|].
  intros [] k' (Hc & Ht & _). change kernel_page_directory with 0xC0011000 in *.
  split; [exact Hc|]. split_and!; rewrite Ht by lia; reflexivity.
Defined.
