(* ===== verification/UserSpace.v ===== *)
(** * User address spaces

    What the loader and [create_process] keep while they build an address space
    with [map_range]: the pages below 0xC0000000 go through tables that are open
    to ring 3, the kernel's half is left alone, and what has been mapped and
    copied stays. *)

From Stdlib Require Import ZArith Lia Bool.
From stdpp Require Import base list gmap strings.
From S2P Require Import Prelude Machine StringLib Console Node Queue Bump Buddy BuddyModel BuddyRefine BuddyInit Pmm Devices Descriptors Heap Sched Paging PagingTheorems.

(** The first page of the kernel's window. *)
Definition USER_END : Z := 0xC0000.

Section space.
Context `{BS : BuddySymbols} `{PA : !PageAllocator pmm_alloc pmm_free get_order_addr} (pd : Z) (A : Z -> Prop).

(** Below the kernel's window an entry is absent or a table open to ring 3. *)
Definition user_dir (m : memory) : Prop := forall d, 0 <= d < USER_END / 1024 ->
  present pd m d = false \/
  small pd m d /\ Z.testbit (pde pd m d) 1 = true /\ Z.testbit (pde pd m d) 2 = true.

(** An address space under construction from the memory [A]: the blocks [H] are held; the
    directory, its tables below the kernel's window and the free memory lie in [G]. *)
Record space (G : Z -> Prop) (H : list block) (k : kernel) : Prop := {
  sp_pages : pa_state k H;
  sp_cursor : cursor_ok (k_vga k);
  sp_tables : tables_ok pd (k_mem k) (unheld H);
  sp_covered : covered pd (USER_END / 1024) G (unheld H) (k_mem k);
  sp_user : user_dir (k_mem k);
  sp_arena : forall b, G b -> A b }.

(** From one state to a later one, in which only pages of [X] were mapped: the
    translation of every other page is kept if its directory entry was present, or
    if no page of [X] shares that entry.  (A table that is new is not cleared,
    so of the other pages it serves nothing can be said.) *)
Record extends (X : Z -> Prop) (G : Z -> Prop) (H : list block) (k : kernel)
    (G' : Z -> Prop) (H' : list block) (k' : kernel) : Prop := {
  ex_sub : forall b, G' b -> G b;
  ex_held : exists new, H' = new ++ H;
  ex_mem : untouched G (k_mem k) (k_mem k');
  ex_keep : forall x, 0 <= x < 2 ^ 20 -> ~ X x ->
    present pd (k_mem k) (x / 1024) = true \/ (forall y, X y -> y / 1024 <> x / 1024) ->
    translate (k_mem k') pd x = translate (k_mem k) pd x;
  ex_present : forall d, 0 <= d < 1024 -> present pd (k_mem k) d = true -> present pd (k_mem k') d = true;
  ex_window : forall x, USER_END <= x < 2 ^ 20 -> translate (k_mem k') pd x = translate (k_mem k) pd x;
  ex_dir : forall d, USER_END / 1024 <= d < 1024 -> pde pd (k_mem k') d = pde pd (k_mem k) d;
  ex_kept : exists m b, k' = set_buddy b (set_mem m k) }.

(** The page [x] can be used from ring 3, written if [w], holds [bytes], and its
    frame, taken from [A], is out of reach of what writes to [G]. *)
Definition user_page (m : memory) (G : Z -> Prop) (x : Z) (w : bool) (bytes : Z -> Z) : Prop :=
  exists f, translate m pd x = Some (f, w, true) /\
    (forall b, range (P2V (4096 * f)) 4096 b -> A b /\ ~ G b) /\
    (forall j, 0 <= j < 4096 -> ld8 m (P2V (4096 * f) + j) = bytes j).

Lemma mapped_present m x : translate m pd x <> None -> present pd m (x / 1024) = true.
Proof.
  unfold translate, present. fold (pde pd m (x / 1024)). by destruct (Z.testbit (pde pd m (x / 1024)) 0).
Qed.

Lemma extends_refl X G H k : extends X G H k G H k.
Proof. split; try done; [by exists [] |]. exists (k_mem k), (k_buddy k). by destruct k. Qed.

Lemma extends_trans X Y G0 H0 k0 G1 H1 k1 G2 H2 k2 :
  extends X G0 H0 k0 G1 H1 k1 -> extends Y G1 H1 k1 G2 H2 k2 ->
  extends (fun x => X x \/ Y x) G0 H0 k0 G2 H2 k2.
Proof.
  clear A. intros [A1 [n1 A2] A3 A4 Ap A5 Ad (m1 & b1 & A6)] [B1 [n2 B2] B3 B4 Bp B5 Bd (m2 & b2 & B6)]. split.
  - auto.
  - exists (n2 ++ n1). by rewrite B2, A2, app_assoc.
  - eapply untouched_trans; [exact A3|]. by eapply untouched_mono.
  - intros x Hx Hn Ht. rewrite B4; [apply A4; [done | tauto|] | done | tauto |].
    + destruct Ht as [Ht|Ht]; [by left | right; auto].
    + destruct Ht as [Ht|Ht]; [left; apply Ap; [div_lia | done] | right; auto].
  - auto.
  - intros x Hx. by rewrite B5, A5.
  - intros d Hd. by rewrite Bd, Ad.
  - exists m2, b2. by rewrite B6, A6.
Qed.

Lemma extends_mono (X Y : Z -> Prop) G H k G' H' k' :
  (forall x, X x -> Y x) -> extends X G H k G' H' k' -> extends Y G H k G' H' k'.
Proof. clear A. intros HX [A1 A2 A3 A4 Ap A5 Ad A6]. split; try done. intros x Hx Hn [Ht|Ht]; apply A4; auto. Qed.

(** What is mapped and copied stays. *)
Lemma user_page_keep X G H k G' H' k' x w bytes :
  extends X G H k G' H' k' -> 0 <= x < 2 ^ 20 -> ~ X x ->
  user_page (k_mem k) G x w bytes -> user_page (k_mem k') G' x w bytes.
Proof.
  intros [A1 _ A3 A4 _ _ _ _] Hx Hn (f & Ht & Hg & Hb). exists f. split_and!.
  - rewrite A4; [done | done | done |]. left. apply mapped_present. by rewrite Ht.
  - intros b Hr. destruct (Hg b Hr) as [Ha Hn']. split; [done|]. intros HG. by apply Hn', A1.
  - intros j Hj. rewrite A3; [by apply Hb|]. apply Hg. unfold range. lia.
Qed.

(** A page that is written before it is mapped: the allocator's fresh page. *)
Lemma fresh_space G H i k k1 m' :
  space G H k -> pa_state k1 ((i, 0) :: H) -> allocator_frame pa_bytes k k1 ->
  untouched (range (P2V (4096 * i)) 4096) (k_mem k1) m' ->
  let G' := fun b => G b /\ ~ range (P2V (4096 * i)) 4096 b in
  space G' ((i, 0) :: H) (set_mem m' k1) /\ untouched G (k_mem k) m' /\
  (forall x, 0 <= x < 2 ^ 20 -> translate m' pd x = translate (k_mem k) pd x) /\
  (forall d, 0 <= d < 1024 -> pde pd m' d = pde pd (k_mem k) d).
Proof.
  intros [S1 S2 S3 S4 S5 S6] HS1 (m1 & b1 & -> & Hu) Hm G'. set (F := unheld H) in *.
  assert (Hpage : forall b, range (P2V (4096 * i)) 4096 b -> F b /\ ~ unheld ((i, 0) :: H) b)
    by (intros b; by apply (fresh_page _ _ _ _ HS1)).
  assert (HuF : untouched F (k_mem k) m').
  { eapply untouched_trans; eapply untouched_mono; [|exact Hu| |exact Hm]; [by left | by intros b; apply Hpage]. }
  destruct (tables_frame pd (k_mem k) m' F F S3 HuF ltac:(done)) as (T1 & T2 & T3).
  split_and!; [split; cbn [k_mem set_mem] | |done |done].
  - eapply pa_stable; [exact HS1 | done |]. intros b Hb. apply Hm. intros Hr. apply (Hpage b Hr). by left.
  - done.
  - eapply tables_ok_ext; [|exact T1]. intros b. apply unheld_less.
  - destruct S4 as [C1 C2 C3]. split.
    + intros b Hb. split; [by apply C1|]. intros Hr. by apply (to_pd_off _ _ _ S3 b Hb), Hpage.
    + intros b Hb. split; [apply C2; by eapply unheld_less|]. intros Hr. by apply (Hpage b Hr).
    + intros d b Hd0 Hs Hb. assert (Hd : 0 <= d < 1024) by (change (USER_END / 1024) with 768 in Hd0; lia). apply (small_ext pd (k_mem k) m' d) in Hs; [|by apply T2].
      rewrite (table_ext pd (k_mem k) m' d) in Hb by (by apply T2). split; [by apply (C3 d b)|].
      intros Hr. by apply (to_off _ _ _ S3 d b Hd Hs Hb), Hpage.
  - intros d Hd. assert (0 <= d < 1024) by (change (USER_END / 1024) with 768 in Hd; lia).
    unfold present, small, present. rewrite T2 by done. by apply S5.
  - intros b [Hb _]. by apply S6.
  - eapply untouched_mono; [|exact HuF]. apply S4.
Qed.

Lemma fresh_extends G H i k k1 m' :
  space G H k -> pa_state k1 ((i, 0) :: H) -> allocator_frame pa_bytes k k1 ->
  untouched (range (P2V (4096 * i)) 4096) (k_mem k1) m' ->
  extends (fun _ => False) G H k (fun b => G b /\ ~ range (P2V (4096 * i)) 4096 b) ((i, 0) :: H) (set_mem m' k1).
Proof.
  intros HS HA Hf Hm. destruct (fresh_space G H i k k1 m' HS HA Hf Hm) as (_ & F2 & F3 & F4). split; cbn [k_mem set_mem].
  - by intros b [Hb _].
  - by exists [(i, 0)].
  - done.
  - intros x Hx _ _. by apply F3.
  - intros d Hd. unfold present. by rewrite F4.
  - intros x Hx. apply F3. unfold USER_END in Hx. lia.
  - intros d Hd. change (USER_END / 1024) with 768 in Hd. apply F4. lia.
  - destruct Hf as (m & b & -> & _). by exists m', b.
Qed.

(** One page is mapped for ring 3. *)
Lemma map_user_page G H k v p flag :
  space G H k -> 0 <= v < USER_END -> 0 <= p < 2 ^ 20 ->
  0 <= flag < 128 -> Z.testbit flag 0 = true -> Z.testbit flag 2 = true ->
  wpe out_of_memory (map_range pd (4096 * p) (4096 * v) 1 flag) k (fun _ k' => exists H',
    space G H' k' /\ extends (fun x => x = v) G H k G H' k' /\
    translate (k_mem k') pd v = Some (p, Z.testbit flag 1, true)).
Proof.
  intros [S1 S2 S3 S4 S5 S6] Hv Hp Hf Hf0 Hf2. assert (0 <= v < 786432) by (unfold USER_END in Hv; lia).
  eapply wpe_mono; [apply (map_range_spec pd flag v 1 p (USER_END / 1024) G H k); try done; try lia; try (change (USER_END / 1024) with 768; lia)|].
  { intros d Hd1 Hd2. destruct (S5 d) as [Ha|(Hs & H1 & H2)]; [change (USER_END / 1024) with 768; div_lia | by left | right].
    split; [done|]. unfold grants. rewrite H1, H2. by destruct (Z.testbit flag 1), (Z.testbit flag 2). }
  intros [] k' [R1 R2 (new & R3 & R4 & R5) R6 R7 (m & b & ->)]. exists (new ++ H).
  assert (Hv1 : translate m pd v = Some (p, Z.testbit flag 1, true)).
  { rewrite <- Hf2. cbn [k_mem set_mem set_buddy] in R1. rewrite R1 by lia. do 3 f_equal. lia. }
  split_and!; [split; try done| |done].
  - intros d Hd. cbn [k_mem set_mem set_buddy] in *.
    destruct (R7 d ltac:(change (USER_END / 1024) with 768 in Hd; lia)) as [E|(D1 & D2 & [(_ & D3 & D4)|[D3 D4]])].
    + unfold present, small, present. rewrite E. by apply S5.
    + exfalso. lia.
    + right. split; [done|]. split; [done|]. assert (d = v / 1024) as -> by div_lia.
      unfold translate in Hv1. fold (pde pd m (v / 1024)) in Hv1. destruct D3 as [D3 D5]. unfold present in D3.
      rewrite D3, D5 in Hv1. cbn [negb] in Hv1. destruct (Z.testbit (ld32 _ _) 0); [|done]. cbn [negb] in Hv1.
      injection Hv1 as _ _ Hu. by apply andb_true_iff in Hu as [? _].
  - split; try done.
    + by exists new.
    + intros x Hx Hne Ht. cbn [k_mem set_mem set_buddy] in *. apply R2; [done | lia |].
      destruct Ht as [Ht|Ht]; [by left | right]. specialize (Ht v eq_refl). intros [D1 D2]. apply Ht. div_lia.
    + intros d Hd Hpr. cbn [k_mem set_mem set_buddy] in *.
      destruct (R7 d Hd) as [E|(_ & _ & [(_ & D3 & D4)|[[D3 _] _]])]; [unfold present in *; by rewrite E | exfalso; lia | done].
    + intros x Hx. unfold USER_END in Hx. cbn [k_mem set_mem set_buddy] in *. apply R2; [lia | lia |]. right. div_lia.
    + intros d Hd. change (USER_END / 1024) with 768 in Hd. cbn [k_mem set_mem set_buddy] in *.
      destruct (R7 d ltac:(lia)) as [E|(D1 & D2 & _)]; [done|]. exfalso. lia.
    + by exists m, b.
Qed.
End space.
