(* ===== verification/Elf.v ===== *)
(** * The ELF loader: src/process/elf.c, src/process/elf.h

    [load_elf] copies the loadable segments of an image in kernel memory to fresh
    pages and maps them for ring 3. *)

From Stdlib Require Import ZArith Lia Bool.
From stdpp Require Import base list gmap strings.
From S2P Require Import Prelude Machine StringLib Console Node Queue Bump Buddy BuddyModel BuddyRefine BuddyInit Pmm PmmSample Devices Descriptors Heap Sched Paging PagingTheorems.

(** ** The code *)

(** Elf32_Ehdr *)
Definition e_ident (h : Z) : Z := h.
Definition e_entry (h : Z) : Z := h + 24.
Definition e_phoff (h : Z) : Z := h + 28.
Definition e_phnum (h : Z) : Z := h + 44.
Definition sizeof_Elf32_Ehdr : Z := 52.

(** Elf32_Phdr *)
Definition p_type (p : Z) : Z := p.
Definition p_offset (p : Z) : Z := p + 4.
Definition p_vaddr (p : Z) : Z := p + 8.
Definition p_filesz (p : Z) : Z := p + 16.
Definition p_memsz (p : Z) : Z := p + 20.
Definition p_flags (p : Z) : Z := p + 24.
Definition sizeof_Elf32_Phdr : Z := 32.

Definition PT_LOAD : Z := 1.
Definition PF_X : Z := Z.shiftl 1 0.
Definition PF_W : Z := Z.shiftl 1 1.
Definition PF_R : Z := Z.shiftl 1 2.

Definition verify : list Z := [0x7f; 0x45; 0x4C; 0x46].

Definition segment_flags (p_flags : Z) : Z :=
  let flags := Z.lor PAGE_PRESENT PAGE_USER in
  if p_flags =? Z.lor PF_R PF_W then Z.lor flags PAGE_RW else flags.

(** How much of the [copy_remaining] bytes goes into one page. *)
Definition copy_size (copy_remaining : Z) : Z :=
  if copy_remaining =? 0 then copy_remaining
  else if PAGE_SIZE <? copy_remaining then PAGE_SIZE else copy_remaining.

Section code.
Context `{BS : BuddySymbols}.

(** One turn of the loop of [load_segment]: the new [copy_remaining]. *)
Definition load_page (pd vaddr elf_src_ptr flags i copy_remaining : Z) : M Z :=
  cur_page ← pmm_alloc 0;
  let kernel_vir_cur_page := P2V cur_page in
  kmemset kernel_vir_cur_page 0 PAGE_SIZE;;
  let copying := copy_size copy_remaining in
  when (negb (copy_remaining =? 0)) (
    kmemcpy kernel_vir_cur_page (elf_src_ptr ⊞ Z.shiftl i 12) copying;; skip);;
  map_range pd cur_page (vaddr ⊞ Z.shiftl i 12) 1 flags;;
  mret (copy_remaining - copying).

(** [n] turns from [i] on. *)
Fixpoint load_pages (n : nat) (pd vaddr elf_src_ptr flags i copy_remaining : Z) : M unit :=
  match n with
  | O => skip
  | S n =>
      copy_remaining ← load_page pd vaddr elf_src_ptr flags i copy_remaining;
      load_pages n pd vaddr elf_src_ptr flags (i + 1) copy_remaining
  end.

Definition load_segment (idx phdrs pd elf_hdr : Z) : M Z :=
  let cur := phdrs ⊞ sizeof_Elf32_Phdr * idx in
  type ← load32 (p_type cur);
  if negb (type =? PT_LOAD) then mret 0x0 else
  fl ← load32 (p_flags cur);
  let flags := segment_flags fl in
  vaddr ← load32 (p_vaddr cur);
  offset ← load32 (p_offset cur);
  let elf_src_ptr := elf_hdr ⊞ offset in
  memsz ← load32 (p_memsz cur);
  let pages_needed := Z.shiftr (ALIGN_UP memsz PAGE_SIZE) 12 in
  copy_remaining ← load32 (p_filesz cur);
  load_pages (Z.to_nat pages_needed) pd vaddr elf_src_ptr flags 0 copy_remaining;;
  vaddr ← load32 (p_vaddr cur);
  mret (vaddr ⊞ Z.shiftl pages_needed 12).

(** The comparison of [e_ident] with [verify], from byte [i] on. *)
Fixpoint ident_ok (elf_hdr i : Z) (magic : list Z) : M bool :=
  match magic with
  | [] => mret true
  | c :: magic =>
      b ← load8 (e_ident elf_hdr + i);
      if negb (b =? c) then mret false else ident_ok elf_hdr (i + 1) magic
  end.

(** [n] segments from [i] on. *)
Fixpoint load_segments (n : nat) (i phdrs pd elf_hdr last_addr : Z) : M Z :=
  match n with
  | O => mret last_addr
  | S n =>
      ends_at ← load_segment i phdrs pd elf_hdr;
      load_segments n (i + 1) phdrs pd elf_hdr (if last_addr <? ends_at then ends_at else last_addr)
  end.

Definition load_elf (pd elf_hdr : Z) : M Z :=
  good ← ident_ok elf_hdr 0 verify;
  if negb good then mret 0x0 else
  header_n ← load16 (e_phnum elf_hdr);
  phoff ← load32 (e_phoff elf_hdr);
  let phdrs := elf_hdr ⊞ phoff in
  load_segments (Z.to_nat header_n) 0 phdrs pd elf_hdr 0.
End code.
