(* ===== verification/ElfTheorems.v ===== *)
(** * The ELF loader's correctness *)

From Stdlib Require Import ZArith Lia Bool.
From stdpp Require Import base list gmap strings.
From S2P Require Import Prelude Machine StringLib Console Node Queue Bump Buddy BuddyModel BuddyRefine BuddyInit Pmm PmmSample Devices Descriptors Heap Sched Paging PagingTheorems UserSpace Elf.

(** ** One page *)

Lemma copy_size_range n : 0 <= n -> 0 <= copy_size n <= 4096 /\ copy_size n <= n /\ (n <> 0 -> copy_size n <> 0).
Proof.
  intros Hn. unfold copy_size, PAGE_SIZE. destruct (Z.eqb_spec n 0), (Z.ltb_spec 4096 n); lia.
Qed.

(** What a page of a segment holds: the file's bytes, then zeros. *)
Definition page_bytes (m : memory) (src n j : Z) : Z := if j <? n then ld8 m (src + j) else 0.

(** A page is cleared and the file's bytes are copied to its front. *)
Lemma fill_page page src i n k :
  KERNEL_VIRTUAL_BASE <= page -> page + 4096 <= 2 ^ 32 -> 0 <= n -> 0 <= i ->
  (n <> 0 -> KERNEL_VIRTUAL_BASE <= src /\ src + 4096 * i + copy_size n <= 2 ^ 32 /\
     apart page 4096 (src + 4096 * i) (copy_size n)) ->
  wp (kmemset page 0 PAGE_SIZE) k (fun _ k1 =>
    wp (when (negb (n =? 0)) (kmemcpy page (src ⊞ Z.shiftl i 12) (copy_size n);; skip)) k1 (fun _ k' => exists m', k' = set_mem m' k /\ untouched (range page 4096) (k_mem k) m' /\
       (forall j, 0 <= j < 4096 -> ld8 m' (page + j) = page_bytes (k_mem k) (src + 4096 * i) (copy_size n) j))).
Proof.
  intros H1 H2 Hn Hi Hs. destruct (copy_size_range n Hn) as ([C1 C2] & C3 & C4).
  eapply wp_mono; [apply kmemset_spec; unfold PAGE_SIZE; lia|].
  intros _ k1 (_ & m1 & -> & U1 & Z1). apply wp_when; intros Hz; [apply negb_true_iff, Z.eqb_neq in Hz | apply negb_false_iff, Z.eqb_eq in Hz].
  - destruct (Hs Hz) as (S1 & S2 & S3). rewrite Z.shiftl_mul_pow2 by lia. change (2 ^ 12) with 4096.
    rewrite u32_small by (unfold KERNEL_VIRTUAL_BASE in *; lia).
    replace (src + i * 4096) with (src + 4096 * i) in * by lia. unfold apart in S3.
    apply wp_bind. eapply wp_mono; [apply kmemcpy_spec; lia|]. intros _ k2 (_ & m2 & -> & U2 & Z2). apply wp_ret.
    cbn [k_mem set_mem] in *. exists m2. split_and!; [done | |].
    + eapply untouched_trans; [exact U1|]. eapply untouched_mono; [|exact U2]. unfold range. intros; lia.
    + intros j Hj. unfold page_bytes. destruct (Z.ltb_spec j (copy_size n)).
      * rewrite Z2 by lia. apply U1. unfold range, PAGE_SIZE. lia.
      * rewrite U2 by (unfold range; lia). by apply Z1.
  - exists m1. split_and!; [done | exact U1 |]. intros j Hj. unfold page_bytes, copy_size. subst n. cbn [Z.eqb].
    destruct (Z.ltb_spec j 0); [lia|]. by apply Z1.
Qed.

(** Page [i] of a segment whose [size] bytes in the file start at [src]. *)
Definition segment_bytes (m : memory) (src size i j : Z) : Z :=
  if 4096 * i + j <? size then ld8 m (src + (4096 * i + j)) else 0.

Lemma page_segment m src size i j :
  0 <= i -> 0 <= j < 4096 ->
  page_bytes m (src + 4096 * i) (copy_size (Z.max 0 (size - 4096 * i))) j = segment_bytes m src size i j.
Proof.
  intros Hi Hj. unfold page_bytes, segment_bytes, copy_size, PAGE_SIZE.
  replace (src + (4096 * i + j)) with (src + 4096 * i + j) by lia.
  destruct (Z.eqb_spec (Z.max 0 (size - 4096 * i)) 0); [|destruct (Z.ltb_spec 4096 (Z.max 0 (size - 4096 * i)))];
    destruct (Z.ltb_spec (4096 * i + j) size);
    match goal with |- context [j <? ?a] => destruct (Z.ltb_spec j a) end; try done; lia.
Qed.

(** ** Images

    The program header number [i], the pages its segment occupies and where it
    ends. *)
Definition phdr_at (m : memory) (h i : Z) : Z := h + ld32 m (e_phoff h) + sizeof_Elf32_Phdr * i.
Definition loadable (m : memory) (p : Z) : bool := ld32 m (p_type p) =? PT_LOAD.
Definition seg_page (m : memory) (p : Z) : Z := ld32 m (p_vaddr p) / 4096.
Definition seg_pages (m : memory) (p : Z) : Z := (ld32 m (p_memsz p) + 4095) / 4096.
Definition seg_end (m : memory) (p : Z) : Z := ld32 m (p_vaddr p) + 4096 * seg_pages m p.

(** A well-formed image of [len] bytes at [h]: headers and segments lie inside it,
    the loadable segments start on page boundaries below the kernel's window and
    share no page. *)
Record elf_image (m : memory) (h len : Z) : Prop := {
  ei_place : KERNEL_VIRTUAL_BASE <= h /\ h + len < 2 ^ 32;
  ei_ident : forall i c, verify !! i = Some c -> ld8 m (e_ident h + Z.of_nat i) = c;
  ei_headers : sizeof_Elf32_Ehdr <= len /\
    ld32 m (e_phoff h) + sizeof_Elf32_Phdr * ld16 m (e_phnum h) <= len;
  ei_segment : forall i, 0 <= i < ld16 m (e_phnum h) -> let p := phdr_at m h i in loadable m p = true ->
    ld32 m (p_offset p) + ld32 m (p_filesz p) <= len /\ (4096 | ld32 m (p_vaddr p)) /\
    seg_page m p + seg_pages m p <= USER_END;
  ei_apart : forall i j, 0 <= i < ld16 m (e_phnum h) -> 0 <= j < ld16 m (e_phnum h) -> i <> j ->
    let p := phdr_at m h i in let q := phdr_at m h j in
    loadable m p = true -> loadable m q = true -> apart (seg_page m p) (seg_pages m p) (seg_page m q) (seg_pages m q) }.

(** The loader reads nothing but the image: in a memory that agrees on it the
    headers are the same. *)
Lemma image_same m m' h len : elf_image m h len -> agree m m' h len ->
  ld16 m' (e_phnum h) = ld16 m (e_phnum h) /\ ld32 m' (e_entry h) = ld32 m (e_entry h) /\
  (forall i, phdr_at m' h i = phdr_at m h i) /\
  (forall i off, 0 <= i < ld16 m (e_phnum h) -> 0 <= off <= 28 -> ld32 m' (phdr_at m h i + off) = ld32 m (phdr_at m h i + off)).
Proof.
  intros [_ _ [I1 I2] _ _] Hag. unfold sizeof_Elf32_Ehdr, sizeof_Elf32_Phdr in *. pose proof (ld32_range m (e_phoff h)).
  unfold e_phnum, e_entry, e_phoff in *. split_and!.
  - apply ld16_agree. eapply agree_sub; [exact Hag | lia..].
  - apply ld32_agree. eapply agree_sub; [exact Hag | lia..].
  - intros i. unfold phdr_at, e_phoff. rewrite (ld32_agree m m') by (eapply agree_sub; [exact Hag | lia..]). done.
  - intros i off Hi Ho. apply ld32_agree. unfold phdr_at, e_phoff, sizeof_Elf32_Phdr. eapply agree_sub; [exact Hag | lia..].
Qed.

Lemma segment_same m m' h len i : elf_image m h len -> agree m m' h len -> 0 <= i < ld16 m (e_phnum h) ->
  let p := phdr_at m h i in
  loadable m' p = loadable m p /\ seg_page m' p = seg_page m p /\ seg_pages m' p = seg_pages m p /\
  ld32 m' (p_vaddr p) = ld32 m (p_vaddr p) /\ ld32 m' (p_offset p) = ld32 m (p_offset p) /\
  ld32 m' (p_filesz p) = ld32 m (p_filesz p) /\ ld32 m' (p_flags p) = ld32 m (p_flags p).
Proof.
  intros HI Hag Hi p. destruct (image_same m m' h len HI Hag) as (_ & _ & _ & Hw). specialize (Hw i). fold p in Hw.
  assert (Ht : ld32 m' (p_type p) = ld32 m (p_type p)).
  { unfold p_type. pose proof (Hw 0 Hi ltac:(lia)) as E. by rewrite Z.add_0_r in E. }
  unfold loadable, seg_page, seg_pages, p_vaddr, p_memsz, p_offset, p_filesz, p_flags in *. rewrite !Hw, Ht by (done || lia). done.
Qed.

Lemma elf_image_agree m m' h len : elf_image m h len -> agree m m' h len -> elf_image m' h len.
Proof.
  intros HI Hag. pose proof (image_same m m' h len HI Hag) as (En & _ & Ep & _).
  pose proof (fun i => segment_same m m' h len i HI Hag) as Hs. destruct HI as [I1 I2 [I3 I4] I5 I6] eqn:E. clear E.
  assert (Hoff : ld32 m' (e_phoff h) = ld32 m (e_phoff h)) by (pose proof (Ep 0) as E0; unfold phdr_at in E0; lia).
  unfold sizeof_Elf32_Ehdr in I3. split; rewrite ?En, ?Hoff; try done.
  - intros i c Hc. rewrite <- (I2 i c Hc). apply Hag. apply lookup_lt_Some in Hc. cbn in Hc. unfold e_ident, range. lia.
  - intros i Hi p. destruct (Hs i Hi) as (E1 & E2 & E3 & E4 & E5 & E6 & _). unfold p. rewrite Ep, E1, E2, E3, E4, E5, E6. by apply I5.
  - intros i j Hi Hj Hne p q. destruct (Hs i Hi) as (E1 & E2 & E3 & _). destruct (Hs j Hj) as (F1 & F2 & F3 & _).
    unfold p, q. rewrite !Ep, E1, E2, E3, F1, F2, F3. by apply I6.
Qed.

Lemma pages_needed_spec n :
  0 <= n -> n + 4095 < 2 ^ 32 -> Z.shiftr (ALIGN_UP n PAGE_SIZE) 12 = (n + 4095) / 4096.
Proof.
  intros Hn Hb. unfold PAGE_SIZE. change 4096 with (2 ^ 12).
  destruct (ALIGN_UP_spec n 12) as [[q Hq] [H1 H2]]; [lia | lia | lia |].
  rewrite Hq in *. rewrite Z.shiftr_div_pow2 by lia. change (2 ^ 12) with 4096 in *. div_lia.
Qed.

(** A field of a program header is read; [H] and [Ha] say what it holds. *)
Ltac read_header H Ha :=
  apply wpe_bind; eapply wpe_access; [field_lia | field_lia | reflexivity |]; cbv beta; rewrite (H _ _ Ha) by field_lia
with field_lia := unfold p_type, p_offset, p_vaddr, p_filesz, p_memsz, p_flags in *; lia.

Section loader.
Context `{BS : BuddySymbols} `{PA : !PageAllocator pmm_alloc pmm_free get_order_addr} (pd : Z) (A : Z -> Prop).

Lemma load_page_spec G H k v i src n flag :
  space pd A G H k -> 0 <= v -> 0 <= i -> v + i < USER_END ->
  0 <= flag < 128 -> Z.testbit flag 0 = true -> Z.testbit flag 2 = true -> 0 <= n ->
  (n <> 0 -> KERNEL_VIRTUAL_BASE <= src /\ src + 4096 * i + copy_size n <= 2 ^ 32 /\
     forall b, range (src + 4096 * i) (copy_size n) b -> ~ G b) ->
  wpe out_of_memory (load_page pd (4096 * v) src flag i n) k (fun r k' => exists G' H',
    r = n - copy_size n /\ space pd A G' H' k' /\ extends pd (fun x => x = v + i) G H k G' H' k' /\
    user_page pd A (k_mem k') G' (v + i) (Z.testbit flag 1)
      (page_bytes (k_mem k) (src + 4096 * i) (copy_size n))).
Proof.
  intros HS Hv Hi Hvi Hf Hf0 Hf2 Hn Hsrc. pose proof HS as [S1 S2 S3 S4 S5 S6].
  destruct (copy_size_range n Hn) as ([C1 C2] & C3 & C4).
  unfold load_page. apply wpe_bind. destruct (pa_alloc k H 0 S1 ltac:(done) S2) as [Hw|Hs]; [|by eapply wpe_stops].
  apply wpe_wp. eapply wp_mono; [exact Hw|]. intros r k1 (f & -> & _ & HS1 & Hfr).
  destruct (block_bytes _ _ f 0 HS1 ltac:(left)) as [Ev _].
  destruct (pa_block _ _ f 0 HS1 ltac:(left)) as (_ & Hf1 & _ & Hf3). change (2 ^ 0) with 1 in Hf3.
  assert (Hpage : KERNEL_VIRTUAL_BASE <= P2V (4096 * f) /\ P2V (4096 * f) + 4096 <= 2 ^ 32)
    by (rewrite Ev; unfold KERNEL_VIRTUAL_BASE; lia).
  destruct Hpage as [P1 P2].
  assert (HsG : n <> 0 -> forall b, range (src + 4096 * i) (copy_size n) b -> ~ range (P2V (4096 * f)) 4096 b).
  { intros Hz b Hb Hr. destruct (Hsrc Hz) as (_ & _ & Ho). apply (Ho b Hb), (cv_free _ _ _ _ _ S4). by apply (fresh_page _ _ _ _ HS1). }
  destruct Hfr as (m1 & b1 & -> & Hu1).
  assert (Hsame : n <> 0 -> forall b, range (src + 4096 * i) (copy_size n) b -> ld8 m1 b = ld8 (k_mem k) b).
  { intros Hz b Hb. apply Hu1. intros Hp. destruct (Hsrc Hz) as (_ & _ & Ho). apply (Ho b Hb), (cv_free _ _ _ _ _ S4). by left. }
  apply wpe_bind, wpe_wp. eapply wp_mono; [apply (fill_page (P2V (4096 * f)) src i n); try done|].
  { intros Hz. destruct (Hsrc Hz) as (Q1 & Q2 & _). split_and!; [done | done |]. apply ranges_apart; [lia | specialize (C4 Hz); lia |].
    intros b Hb Hr. by apply (HsG Hz b). }
  intros r k2 Hfill. cbv beta zeta in *. clear r. apply wpe_bind, wpe_wp. eapply wp_mono; [exact Hfill|].
  intros _ k3 (m3 & -> & Hu3 & Hb3). cbn [k_mem set_mem set_buddy] in *.
  destruct (fresh_space pd A G H f k _ m3 HS HS1 (ex_intro _ m1 (ex_intro _ b1 (conj eq_refl Hu1))) Hu3) as (F1 & F2 & F3 & F4).
  set (G' := fun b => G b /\ ~ range (P2V (4096 * f)) 4096 b) in *.
  rewrite Z.shiftl_mul_pow2 by lia. change (2 ^ 12) with 4096.
  replace (4096 * v ⊞ i * 4096) with (4096 * (v + i)) by (rewrite u32_small; unfold USER_END in *; lia).
  apply wpe_bind. eapply wpe_mono; [apply (map_user_page pd A G' _ _ (v + i) f flag F1); try done; lia|].
  intros [] k4 (H' & A1 & A2 & A3). apply wpe_ret. exists G', H'. split_and!; [done | done | |].
  - pose proof (fresh_extends pd A G H f k _ m3 HS HS1 (ex_intro _ m1 (ex_intro _ b1 (conj eq_refl Hu1))) Hu3) as X1.
    eapply extends_mono; [|exact (extends_trans _ _ _ _ _ _ _ _ _ _ _ _ X1 A2)]. cbv beta. tauto.
  - exists f. split_and!; [done | |].
    + intros b Hb. split; [apply S6, (cv_free _ _ _ _ _ S4); by apply (fresh_page _ _ _ _ HS1)|]. intros [_ Hn']. by apply Hn'.
    + intros j Hj. rewrite (ex_mem _ _ _ _ _ _ _ _ A2).
      * cbn [k_mem set_mem set_buddy]. rewrite Hb3 by done. unfold page_bytes.
        destruct (Z.ltb_spec j (copy_size n)); [|done]. apply Hsame; [|unfold range; lia].
        intros ->. unfold copy_size in *. cbn in *. lia.
      * intros [_ Hn']. apply Hn'. unfold range. lia.
Qed.

(** *** The pages of a segment *)

Lemma user_page_ext m G x w f g :
  (forall j, 0 <= j < 4096 -> f j = g j) -> user_page pd A m G x w f -> user_page pd A m G x w g.
Proof. intros E (a & H1 & H2 & H3). exists a. split_and!; [done | done |]. intros j Hj. rewrite <- E by done. auto. Qed.

(** The file is outside [G], so its bytes stay. *)
Lemma segment_bytes_keep (G : Z -> Prop) m m' src size i j :
  0 <= 4096 * i + j -> (forall b, range src size b -> ~ G b) -> untouched G m m' ->
  segment_bytes m' src size i j = segment_bytes m src size i j.
Proof.
  intros Hi Hs Hu. unfold segment_bytes. destruct (Z.ltb_spec (4096 * i + j) size); [|done].
  apply Hu, Hs. unfold range. lia.
Qed.

Lemma load_pages_spec src size v flag n :
  0 <= v -> 0 <= flag < 128 -> Z.testbit flag 0 = true -> Z.testbit flag 2 = true ->
  KERNEL_VIRTUAL_BASE <= src -> src + size <= 2 ^ 32 ->
  forall i G H k, space pd A G H k -> 0 <= i -> v + i + Z.of_nat n <= USER_END ->
  (forall b, range src size b -> ~ G b) ->
  wpe out_of_memory (load_pages n pd (4096 * v) src flag i (Z.max 0 (size - 4096 * i))) k (fun _ k' => exists G' H',
    space pd A G' H' k' /\ extends pd (fun x => v + i <= x < v + i + Z.of_nat n) G H k G' H' k' /\
    (forall j, i <= j < i + Z.of_nat n ->
       user_page pd A (k_mem k') G' (v + j) (Z.testbit flag 1) (segment_bytes (k_mem k) src size j))).
Proof.
  intros Hv Hf Hf0 Hf2 Hs1 Hs2. induction n as [|n IH]; intros i G H k HS Hi Hn Hsrc; cbn [load_pages].
  { apply wpe_ret. exists G, H. split_and!; [done | apply extends_refl | lia]. }
  set (rem := Z.max 0 (size - 4096 * i)). destruct (copy_size_range rem ltac:(lia)) as ([C1 C2] & C3 & C4).
  apply wpe_bind. eapply wpe_mono; [apply (load_page_spec G H k v i src rem flag HS); try done; try lia|].
  { intros Hz. split_and!; [done | lia |]. intros b Hb. apply Hsrc. unfold range in *. lia. }
  intros r k1 (G1 & H1 & -> & HS1 & Hx1 & Hp1).
  replace (rem - copy_size rem) with (Z.max 0 (size - 4096 * (i + 1)))
    by (unfold rem, copy_size, PAGE_SIZE; destruct (Z.eqb_spec (Z.max 0 (size - 4096 * i)) 0), (Z.ltb_spec 4096 (Z.max 0 (size - 4096 * i))); lia).
  eapply wpe_mono; [apply (IH (i + 1) G1 H1 k1 HS1); [lia | lia |]|].
  { intros b Hb HG. by apply (Hsrc b Hb), (ex_sub _ _ _ _ _ _ _ _ Hx1). }
  intros [] k2 (G2 & H2 & HS2 & Hx2 & Hp2). exists G2, H2. split_and!; [done | |].
  - eapply extends_mono; [|exact (extends_trans _ _ _ _ _ _ _ _ _ _ _ _ Hx1 Hx2)]. cbv beta. intros; lia.
  - intros j Hj. destruct (decide (j = i)) as [->|Hne].
    + apply (user_page_keep pd A _ _ _ _ _ _ _ _ _ _ Hx2); [unfold USER_END in *; lia | lia |].
      eapply user_page_ext; [|exact Hp1]. intros b Hb. by apply page_segment.
    + eapply user_page_ext; [|apply (Hp2 j); lia]. intros b Hb.
      apply (segment_bytes_keep G); [lia | done | exact (ex_mem _ _ _ _ _ _ _ _ Hx1)].
Qed.

(** *** Segments *)

Lemma segment_flags_spec f :
  0 <= segment_flags f < 128 /\ Z.testbit (segment_flags f) 0 = true /\ Z.testbit (segment_flags f) 2 = true /\
  Z.testbit (segment_flags f) 1 = (f =? Z.lor PF_R PF_W).
Proof. unfold segment_flags. destruct (f =? Z.lor PF_R PF_W); done. Qed.

Context (m0 : memory) (h len : Z) (HI : elf_image m0 h len).

(** The segment behind the program header [p] is in memory and mapped. *)
Definition segment_loaded (p : Z) (m : memory) (G : Z -> Prop) : Prop := forall j, 0 <= j < seg_pages m0 p ->
  user_page pd A m G (seg_page m0 p + j) (ld32 m0 (p_flags p) =? Z.lor PF_R PF_W)
    (segment_bytes m0 (h + ld32 m0 (p_offset p)) (ld32 m0 (p_filesz p)) j).

Definition seg_covers (p x : Z) : Prop :=
  loadable m0 p = true /\ seg_page m0 p <= x < seg_page m0 p + seg_pages m0 p.

Lemma load_segment_spec i G H k :
  space pd A G H k -> agree m0 (k_mem k) h len -> (forall b, range h len b -> ~ G b) ->
  0 <= i < ld16 m0 (e_phnum h) -> let p := phdr_at m0 h i in
  wpe out_of_memory (load_segment i (h + ld32 m0 (e_phoff h)) pd h) k (fun r k' => exists G' H',
    space pd A G' H' k' /\ extends pd (seg_covers p) G H k G' H' k' /\
    r = (if loadable m0 p then seg_end m0 p else 0) /\
    (loadable m0 p = true -> segment_loaded p (k_mem k') G')).
Proof.
  intros HS Ha HG Hi p. destruct HI as [[P1 P2] _ [P3 P4] Himg _]. unfold sizeof_Elf32_Phdr in P4.
  pose proof (ld32_range m0 (e_phoff h)) as Ho. unfold load_segment.
  replace (h + ld32 m0 (e_phoff h) ⊞ sizeof_Elf32_Phdr * i) with p
    by (rewrite u32_small; unfold p, phdr_at, sizeof_Elf32_Phdr, KERNEL_VIRTUAL_BASE in *; lia).
  assert (Hp1 : h <= p /\ p + 32 <= h + len) by (unfold p, phdr_at, sizeof_Elf32_Phdr; lia).
  assert (Hld : forall m a, agree m0 m h len -> p <= a -> a + 4 <= p + 32 -> ld32 m a = ld32 m0 a)
    by (intros m a Hm H1 H2; apply ld32_agree; eapply agree_sub; [exact Hm | lia | lia]).
  cbv zeta.
  read_header Hld Ha. fold (loadable m0 p).
  destruct (loadable m0 p) eqn:El; cbn [negb].
  2: { apply wpe_ret. exists G, H. split_and!; [done | apply extends_refl | done | done]. }
  destruct (Himg i Hi El) as (I1 & [v Iv] & I2).
  do 5 (read_header Hld Ha).
  fold p in I1, I2, Iv. pose proof (ld32_range m0 (p_offset p)). pose proof (ld32_range m0 (p_filesz p)).
  pose proof (ld32_range m0 (p_vaddr p)). pose proof (ld32_range m0 (p_memsz p)).
  assert (Epg : seg_page m0 p = v) by (unfold seg_page; rewrite Iv; div_lia).
  assert (Hn : 0 <= seg_pages m0 p /\ v + seg_pages m0 p <= USER_END) by (rewrite Epg in I2; unfold seg_pages in *; split; [div_lia | done]).
  rewrite pages_needed_spec by (fold (seg_pages m0 p); unfold seg_pages, USER_END in *; div_lia).
  fold (seg_pages m0 p). rewrite (u32_small (h + _)) by (unfold KERNEL_VIRTUAL_BASE in *; lia).
  replace (ld32 m0 (p_vaddr p)) with (4096 * v) by lia.
  replace (ld32 m0 (p_filesz p)) with (Z.max 0 (ld32 m0 (p_filesz p) - 4096 * 0)) by lia.
  destruct (segment_flags_spec (ld32 m0 (p_flags p))) as (F1 & F2 & F3 & F4).
  apply wpe_bind. eapply wpe_mono.
  { apply (load_pages_spec (h + ld32 m0 (p_offset p)) (ld32 m0 (p_filesz p)) v
      (segment_flags (ld32 m0 (p_flags p)))); try done; try lia.
    intros b Hb. apply HG. unfold range in *. lia. }
  intros [] k' (G' & H' & HS' & Hx & Hu). rewrite Z2Nat.id in * by lia.
  assert (Ha' : agree m0 (k_mem k') h len).
  { intros b Hb. rewrite (ex_mem _ _ _ _ _ _ _ _ Hx) by (by apply HG). by apply Ha. }
  read_header Hld Ha'. apply wpe_ret. exists G', H'. split_and!; [done | | |].
  - eapply extends_mono; [|exact Hx]. cbv beta. intros x Hxx. split; [done | lia].
  - unfold seg_end. rewrite Z.shiftl_mul_pow2 by lia. change (2 ^ 12) with 4096.
    rewrite u32_small by (unfold USER_END in *; lia). lia.
  - intros _ j Hj. rewrite Epg. rewrite <- F4. eapply user_page_ext; [|apply (Hu j); lia]. intros b Hb.
    unfold segment_bytes. destruct (Z.ltb_spec (4096 * j + b) (ld32 m0 (p_filesz p))); [|done].
    apply Ha. unfold range. lia.
Qed.

Lemma load_segments_spec n :
  forall i G H k last, 0 <= last -> space pd A G H k -> agree m0 (k_mem k) h len -> (forall b, range h len b -> ~ G b) ->
  0 <= i -> i + Z.of_nat n <= ld16 m0 (e_phnum h) ->
  wpe out_of_memory (load_segments n i (h + ld32 m0 (e_phoff h)) pd h last) k (fun r k' => exists G' H',
    space pd A G' H' k' /\
    extends pd (fun x => exists j, i <= j < i + Z.of_nat n /\ seg_covers (phdr_at m0 h j) x) G H k G' H' k' /\
    (last <= r /\ forall j, i <= j < i + Z.of_nat n -> loadable m0 (phdr_at m0 h j) = true ->
       seg_end m0 (phdr_at m0 h j) <= r) /\
    (r = last \/ exists j, i <= j < i + Z.of_nat n /\ loadable m0 (phdr_at m0 h j) = true /\
       r = seg_end m0 (phdr_at m0 h j)) /\
    (forall j, i <= j < i + Z.of_nat n -> loadable m0 (phdr_at m0 h j) = true ->
       segment_loaded (phdr_at m0 h j) (k_mem k') G')).
Proof.
  induction n as [|n IH]; intros i G H k last Hl0 HS Ha HG Hi Hn; cbn [load_segments].
  { apply wpe_ret. exists G, H. split_and!; [done | apply extends_refl | lia | intros; lia | by left | intros; lia]. }
  apply wpe_bind. eapply wpe_mono; [apply (load_segment_spec i G H k HS Ha HG); lia|].
  intros r1 k1 (G1 & H1 & HS1 & X1 & -> & L1). set (p := phdr_at m0 h i) in *.
  set (last1 := if last <? _ then _ else _).
  assert (Hl : last <= last1 /\ (loadable m0 p = true -> seg_end m0 p <= last1) /\
    (last1 = last \/ loadable m0 p = true /\ last1 = seg_end m0 p)).
  { unfold last1. destruct (loadable m0 p); [destruct (Z.ltb_spec last (seg_end m0 p)); intuition lia|].
    destruct (Z.ltb_spec last 0); intuition (lia || done). }
  clearbody last1.
  eapply wpe_mono; [apply (IH (i + 1) G1 H1 k1 last1 ltac:(lia) HS1); [| |lia|lia]|].
  { intros b Hb. rewrite (ex_mem _ _ _ _ _ _ _ _ X1) by (by apply HG). by apply Ha. }
  { intros b Hb HG1. by apply (HG b Hb), (ex_sub _ _ _ _ _ _ _ _ X1). }
  intros r k2 (G2 & H2 & HS2 & X2 & [M1 M2] & M3 & L2). exists G2, H2. split_and!.
  - done.
  - eapply extends_mono; [|exact (extends_trans _ _ _ _ _ _ _ _ _ _ _ _ X1 X2)]. cbv beta.
    intros x [Hc|(j & Hj & Hc)]; [exists i | exists j]; (split; [lia | done]).
  - lia.
  - intros j Hj Hlo. destruct (decide (j = i)) as [->|Hne]; [fold p; fold p in Hlo; destruct Hl as (_ & Hl & _); specialize (Hl Hlo); lia | apply M2; [lia | done]].
  - destruct M3 as [->|(j & Hj & Hc)]; [|right; exists j; split; [lia | done]].
    destruct Hl as (_ & _ & [->|[Hlo ->]]); [by left | right; exists i; split; [lia | done]].
  - intros j Hj Hlo. destruct (decide (j = i)) as [->|Hne]; [|apply L2; [lia | done]].
    intros q Hq. fold p in Hlo, Hq |- *. destruct (ei_segment _ _ _ HI i ltac:(lia) Hlo) as (_ & _ & Hend). fold p in Hend.
    pose proof (ld32_range m0 (p_vaddr p)).
    apply (user_page_keep pd A _ _ _ _ _ _ _ _ _ _ X2); [unfold seg_page, USER_END in *; div_lia | | by apply L1].
    intros (j' & Hj' & Hc & Hin). pose proof (ei_apart _ _ _ HI i j' ltac:(lia) ltac:(lia) ltac:(lia) Hlo Hc) as Hap.
    unfold apart in Hap. cbv zeta in Hap. fold p in Hap. lia.
Qed.
End loader.

(** ** The identification bytes *)

Lemma ident_ok_spec h k : forall magic i,
  KERNEL_VIRTUAL_BASE <= h + i -> h + i + Z.of_nat (length magic) <= 2 ^ 32 ->
  wp (ident_ok h i magic) k (fun r k' => k' = k /\
    (r = true <-> forall j c, magic !! j = Some c -> ld8 (k_mem k) (h + i + Z.of_nat j) = c)).
Proof.
  induction magic as [|c magic IH]; intros i H1 H2; cbn [ident_ok length] in *.
  { by apply wp_ret. }
  apply wp_bind. eapply wp_access; [unfold e_ident; lia | unfold e_ident; lia | reflexivity | cbv beta].
  destruct (Z.eqb_spec (ld8 (k_mem k) (e_ident h + i)) c) as [E|E]; cbn [negb].
  - eapply wp_mono; [apply IH; lia|]. intros r k' [-> Hr]. split; [done|]. rewrite Hr. split.
    + intros Hall [|j] d Hj; cbn in Hj; [injection Hj as ->; by rewrite Z.add_0_r|]. rewrite <- (Hall j d Hj). f_equal. lia.
    + intros Hall j d Hj. rewrite <- (Hall (S j) d Hj). f_equal. lia.
  - apply wp_ret. split; [done|]. split; [done|]. intros Hall. exfalso. apply E.
    rewrite <- (Hall 0%nat c eq_refl). unfold e_ident. f_equal. lia.
Qed.

(** The end of the last segment. *)
Definition image_end (m : memory) (h r : Z) : Prop :=
  (forall i, 0 <= i < ld16 m (e_phnum h) -> loadable m (phdr_at m h i) = true -> seg_end m (phdr_at m h i) <= r) /\
  (r = 0 \/ exists i, 0 <= i < ld16 m (e_phnum h) /\ loadable m (phdr_at m h i) = true /\ r = seg_end m (phdr_at m h i)).

(** The pages of the image. *)
Definition image_page (m : memory) (h x : Z) : Prop :=
  exists i, 0 <= i < ld16 m (e_phnum h) /\ seg_covers m (phdr_at m h i) x.

Lemma load_elf_spec `{BS : BuddySymbols} `{PA : !PageAllocator pmm_alloc pmm_free get_order_addr} m0 pd A G H h len k :
  elf_image m0 h len -> agree m0 (k_mem k) h len -> space pd A G H k -> (forall b, range h len b -> ~ G b) ->
  wpe out_of_memory (load_elf pd h) k (fun r k' => exists G' H',
    space pd A G' H' k' /\ extends pd (image_page m0 h) G H k G' H' k' /\ image_end m0 h r /\
    (forall i, 0 <= i < ld16 m0 (e_phnum h) -> loadable m0 (phdr_at m0 h i) = true ->
       segment_loaded pd A m0 h (phdr_at m0 h i) (k_mem k') G')).
Proof.
  intros HI Ha HS HG. pose proof HI as [[P1 P2] P3 [P4 P5] _ _]. unfold sizeof_Elf32_Ehdr in P4.
  pose proof (ld16_range m0 (e_phnum h)). pose proof (ld32_range m0 (e_phoff h)).
  unfold sizeof_Elf32_Phdr, KERNEL_VIRTUAL_BASE in *.
  unfold load_elf. apply wpe_bind, wpe_wp.
  eapply wp_mono; [apply (ident_ok_spec h k verify 0); cbn [length verify]; unfold KERNEL_VIRTUAL_BASE; lia|].
  intros good k1 [-> Hg]. assert (good = true) as ->.
  { apply Hg. intros j c Hj. rewrite <- (P3 j c Hj). unfold e_ident. rewrite Z.add_0_r. apply Ha.
    assert (j < 4)%nat by (by apply lookup_lt_Some in Hj). unfold range. lia. }
  cbn [negb]. apply wpe_bind. eapply wpe_access; [unfold e_phnum, KERNEL_VIRTUAL_BASE; lia | unfold e_phnum; lia | reflexivity | cbv beta].
  rewrite (ld16_agree m0) by (eapply agree_sub; [exact Ha | unfold e_phnum; lia..]).
  apply wpe_bind. eapply wpe_access; [unfold e_phoff, KERNEL_VIRTUAL_BASE; lia | unfold e_phoff; lia | reflexivity | cbv beta].
  rewrite (ld32_agree m0) by (eapply agree_sub; [exact Ha | unfold e_phoff; lia..]).
  cbv zeta. rewrite u32_small by lia.
  eapply wpe_mono; [apply (load_segments_spec pd A m0 h len HI); try done; lia|].
  rewrite Z2Nat.id by lia. intros r k' (G' & H' & L1 & L2 & [L3 L4] & L5 & L6). exists G', H'.
  split_and!; try done.
Qed.

(** ** The properties *)

(** C27: [load_elf] of a well-formed image either panics for lack of memory or maps
    every page of every loadable segment, at the address the image asks for, to a
    frame of its own that ring 3 can read, and write exactly when the segment's
    flags are read and write; the frame holds the file's bytes and zeros behind
    them.  Every other page translates as before if its directory entry was
    present, or if no page of the image shares that entry ([extends]); the kernel's window is
    unchanged, the page tables stay well formed, and the result is the end of the
    last segment. *)
Theorem load_elf_correct `{BS : BuddySymbols} `{PA : !PageAllocator pmm_alloc pmm_free get_order_addr} pd A G H h len k :
  elf_image (k_mem k) h len -> space pd A G H k -> (forall b, range h len b -> ~ G b) ->
  wpe out_of_memory (load_elf pd h) k (fun r k' => exists G' H',
    space pd A G' H' k' /\ extends pd (image_page (k_mem k) h) G H k G' H' k' /\ image_end (k_mem k) h r /\
    (forall i, 0 <= i < ld16 (k_mem k) (e_phnum h) -> let p := phdr_at (k_mem k) h i in
       ld32 (k_mem k) (p_type p) = PT_LOAD -> forall j, 0 <= j < seg_pages (k_mem k) p ->
       user_page pd A (k_mem k') G' (seg_page (k_mem k) p + j) (ld32 (k_mem k) (p_flags p) =? Z.lor PF_R PF_W)
         (segment_bytes (k_mem k) (h + ld32 (k_mem k) (p_offset p)) (ld32 (k_mem k) (p_filesz p)) j))).
Proof.
  intros HI HS HG. eapply wpe_mono; [by apply (load_elf_spec (k_mem k) pd A G H h len)|].
  intros r k' (G' & H' & L1 & L2 & L3 & L4). exists G', H'. split_and!; try done.
  intros i Hi p Hp. apply L4; [done|]. by apply Z.eqb_eq.
Qed.

(** An image whose first four bytes are not 0x7F, E, L, F is refused: the result
    is 0 and nothing has changed. *)
Theorem load_elf_bad_magic `{BS : BuddySymbols} pd h k :
  KERNEL_VIRTUAL_BASE <= h -> h + 4 <= 2 ^ 32 ->
  map (ld8 (k_mem k)) [h; h + 1; h + 2; h + 3] <> verify ->
  load_elf pd h k = Ok 0 k.
Proof.
  intros H1 H2 Hne. unfold load_elf, mbind, M_bind.
  destruct (wp_ok _ _ _ (ident_ok_spec h k verify 0 ltac:(lia) ltac:(cbn; lia))) as ([] & k' & E & -> & Hg);
    rewrite E; [|done].
  exfalso. apply Hne. pose proof (proj1 Hg eq_refl) as Hall. rewrite Z.add_0_r in Hall.
  cbn [map]. pose proof (Hall 0%nat _ eq_refl) as E0. pose proof (Hall 1%nat _ eq_refl) as E1.
  pose proof (Hall 2%nat _ eq_refl) as E2. pose proof (Hall 3%nat _ eq_refl) as E3. 
  change (Z.of_nat 0) with 0 in E0. change (Z.of_nat 1) with 1 in E1. change (Z.of_nat 2) with 2 in E2.
  change (Z.of_nat 3) with 3 in E3. rewrite Z.add_0_r in E0. by rewrite E0, E1, E2, E3.
Qed.
