(* ===== verification/ElfSample.v ===== *)
(** * A small image for the loader

    4 MiB of memory, the pages below 11 outside the page allocator: page 0 holds an
    empty directory, page 2 an image with a code segment of two pages and a data
    segment of one. *)

From Stdlib Require Import ZArith Lia Bool.
From stdpp Require Import base list gmap strings.
From S2P Require Import Prelude Machine StringLib Console Node Queue Bump Buddy BuddyModel BuddyRefine BuddyInit Pmm PmmSample Devices Descriptors Heap Sched Paging PagingTheorems UserSpace Elf ElfTheorems.

#[local] Existing Instance sample_symbols.
#[local] Existing Instance user_pages.
#[local] Opaque user_machine.

(** The image, at 0xC0002000. *)
Fixpoint st_words (m : memory) (a : Z) (ws : list Z) : memory :=
  match ws with [] => m | w :: ws => st_words (st32 m a w) (a + 4) ws end.

Lemma st_words_untouched ws : forall m a, untouched (range a (4 * Z.of_nat (length ws))) m (st_words m a ws).
Proof.
  induction ws as [|w ws IH]; intros m a; cbn [st_words length]; [done|].
  eapply untouched_trans; eapply untouched_mono; [|apply st32_untouched| |apply IH]; unfold range; intros; lia.
Qed.

Definition image_words : list Z :=
  [0x464C457F; 0; 0; 0; 0; 0; 0x400000; 52; 0; 0; 0; 2; 0;
   1; 0x80; 0x400000; 0; 5; 0x1001; 5; 0x1000;
   1; 0x88; 0x402000; 0; 0; 0x1000; 6; 0x1000; 0; 0; 0; 0x44332211; 0x55].

(** The image at [h] in the memory [m]. *)
Section image.
Context (m : memory) (h : Z) (Hh : KERNEL_VIRTUAL_BASE <= h /\ h + 0x88 < 2 ^ 32).
Context (Hw : forall i w, image_words !! i = Some w -> ld32 m (h + 4 * Z.of_nat i) = w) (Hn : ld16 m (e_phnum h) = 2).
Context (Hi : ld8 m h = 0x7f /\ ld8 m (h + 1) = 0x45 /\ ld8 m (h + 2) = 0x4C /\ ld8 m (h + 3) = 0x46).

Lemma words_code : let p := h + 0x34 in
  ld32 m (p_type p) = 1 /\ ld32 m (p_offset p) = 0x80 /\ ld32 m (p_vaddr p) = 0x400000 /\
  ld32 m (p_filesz p) = 5 /\ ld32 m (p_memsz p) = 0x1001 /\ ld32 m (p_flags p) = 5.
Proof.
  unfold p_type, p_offset, p_vaddr, p_filesz, p_memsz, p_flags. rewrite <- !Z.add_assoc.
  exact (conj (Hw 13 _ eq_refl) (conj (Hw 14 _ eq_refl) (conj (Hw 15 _ eq_refl)
    (conj (Hw 17 _ eq_refl) (conj (Hw 18 _ eq_refl) (Hw 19 _ eq_refl)))))).
Qed.

Lemma words_data : let p := h + 0x54 in
  ld32 m (p_type p) = 1 /\ ld32 m (p_offset p) = 0x88 /\ ld32 m (p_vaddr p) = 0x402000 /\
  ld32 m (p_filesz p) = 0 /\ ld32 m (p_memsz p) = 0x1000 /\ ld32 m (p_flags p) = 6.
Proof.
  unfold p_type, p_offset, p_vaddr, p_filesz, p_memsz, p_flags. rewrite <- !Z.add_assoc.
  exact (conj (Hw 21 _ eq_refl) (conj (Hw 22 _ eq_refl) (conj (Hw 23 _ eq_refl)
    (conj (Hw 25 _ eq_refl) (conj (Hw 26 _ eq_refl) (Hw 27 _ eq_refl)))))).
Qed.

Lemma words_phoff : ld32 m (e_phoff h) = 52.
Proof. exact (Hw 7 _ eq_refl). Qed.

Lemma words_segments i : 0 <= i < 2 -> i = 0 /\ phdr_at m h i = h + 0x34 \/ i = 1 /\ phdr_at m h i = h + 0x54.
Proof. intros H. unfold phdr_at. rewrite words_phoff. unfold sizeof_Elf32_Phdr. lia. Qed.

Lemma words_image : elf_image m h 0x88.
Proof.
  destruct Hi as (I0 & I1 & I2 & I3). destruct words_code as (C1 & C2 & C3 & C4 & C5 & C6). destruct words_data as (D1 & D2 & D3 & D4 & D5 & D6).
  split.
  - exact Hh.
  - unfold e_ident. intros [|[|[|[|i]]]] c Hc; cbn in Hc; try discriminate Hc; injection Hc as <-; rewrite ?Z.add_0_r; [exact I0 | exact I1 | exact I2 | exact I3].
  - rewrite words_phoff, Hn. unfold sizeof_Elf32_Ehdr, sizeof_Elf32_Phdr. lia.
  - rewrite Hn. intros i Hr. cbv zeta. unfold seg_page, seg_pages, USER_END.
    destruct (words_segments i Hr) as [[_ ->]|[_ ->]]; intros _.
    + rewrite C2, C3, C4, C5. split_and!; [lia | by exists 0x400 | vm_compute; discriminate].
    + rewrite D2, D3, D4, D5. split_and!; [lia | by exists 0x402 | vm_compute; discriminate].
  - rewrite Hn. intros i j Hr Hj Hne. cbv zeta. intros _ _. unfold apart, seg_page, seg_pages.
    destruct (words_segments i Hr) as [[-> ->]|[-> ->]], (words_segments j Hj) as [[-> ->]|[-> ->]];
      [destruct (Hne eq_refl) | rewrite C3, C5, D3, D5; left | rewrite C3, C5, D3, D5; right | destruct (Hne eq_refl)];
      clear; vm_compute; discriminate.
Qed.
End image.

Definition image_machine : kernel := set_mem (st_words (k_mem user_machine) 0xC0002000 image_words) user_machine.

Local Abbreviation img := (k_mem image_machine).

Lemma image_reads :
  map (fun i => ld32 img (0xC0002000 + 4 * i)) (seqZ 0 34) = image_words /\
  ld16 img 0xC000202C = 2 /\ (ld8 img 0xC0002000 = 0x7f /\ ld8 img 0xC0002001 = 0x45 /\ ld8 img 0xC0002002 = 0x4C /\ ld8 img 0xC0002003 = 0x46) /\
  forallb (fun d => pde 0xC0000000 img d =? 0) (seqZ 0 1024) = true.
Proof. vm_compute. split_and!; reflexivity. Qed.

Lemma image_owned : pa_state image_machine [] /\ cursor_ok (k_vga image_machine).
Proof.
  split; [|vm_compute; intuition congruence].
  unfold image_machine. generalize user_machine_owned. generalize user_machine. intros k Hk.
  apply (pa_stable k _ [] Hk); [reflexivity|]. intros b Hb. apply st_words_untouched. cbn [length image_words].
  destruct Hb as [Hb|Hb]; unfold range, sizeof_Page in *; cbn in *; lia.
Qed.
#[local] Opaque image_machine.

Lemma image_word i w : image_words !! i = Some w -> ld32 img (0xC0002000 + 4 * Z.of_nat i) = w.
Proof.
  destruct image_reads as [E _]. rewrite <- E. intros Hi. apply list_lookup_fmap_Some in Hi as (j & -> & Hj).
  apply lookup_seqZ in Hj as [-> _]. done.
Qed.

Lemma image_place : KERNEL_VIRTUAL_BASE <= 0xC0002000 /\ 0xC0002000 + 0x88 < 2 ^ 32.
Proof. unfold KERNEL_VIRTUAL_BASE. lia. Qed.

Definition image_code := words_code img 0xC0002000 image_word.
Definition image_data := words_data img 0xC0002000 image_word.
Definition image_segments := words_segments img 0xC0002000 image_word.

Lemma image_ok : elf_image img 0xC0002000 0x88.
Proof. destruct image_reads as (_ & Hnum & Hid & _). exact (words_image img 0xC0002000 image_place image_word Hnum Hid). Qed.

(** The bytes the loader may write. *)
Definition user_area (b : Z) : Prop := range 0xC0000000 4096 b \/ unheld [] b.

Lemma image_space : space 0xC0000000 user_area user_area [] image_machine.
Proof.
  assert (Hz : forall d, 0 <= d < 1024 -> pde 0xC0000000 img d = 0).
  { destruct image_reads as (_ & _ & _ & Hall). intros d Hd. rewrite forallb_forall in Hall.
    apply Z.eqb_eq, Hall, list_elem_of_In, elem_of_seqZ. lia. }
  assert (Hno : forall d, 0 <= d < 1024 -> present 0xC0000000 img d = false)
    by (intros d Hd; unfold present; by rewrite Hz).
  split.
  - exact (proj1 image_owned).
  - exact (proj2 image_owned).
  - apply empty_tables; [exact Hz | unfold KERNEL_VIRTUAL_BASE; lia | lia |].
    intros b Hb [[Hf|Hf]|[Hl _]]; unfold range, sizeof_Page, KERNEL_VIRTUAL_BASE in *; cbn in *; lia.
  - split; [by left | by right |]. intros d b Hd [Hs _]. change (USER_END / 1024) with 768 in Hd. rewrite Hno in Hs by lia. discriminate Hs.
  - intros d Hd. left. apply Hno. change (USER_END / 1024) with 768 in Hd. lia.
  - intros b Hb. exact Hb.
Qed.

(** The second page of the code segment starts with the file's bytes cut off, and
    the data segment is a writable page of zeros. *)
Lemma load_elf_correct_witness :
  wpe out_of_memory (load_elf 0xC0000000 0xC0002000) image_machine (fun r k' =>
    (exists f, translate (k_mem k') 0xC0000000 0x400 = Some (f, false, true) /\
       ld8 (k_mem k') (P2V (4096 * f) + 4) = 0x55 /\ ld8 (k_mem k') (P2V (4096 * f) + 5) = 0) /\
    (exists f, translate (k_mem k') 0xC0000000 0x402 = Some (f, true, true))).
Proof.
  destruct image_reads as (_ & Hnum & _ & _). change 0xC000202C with (e_phnum 0xC0002000) in Hnum.
  destruct image_code as (C1 & C2 & C3 & C4 & C5 & C6). destruct image_data as (D1 & D2 & D3 & D4 & D5 & D6).
  assert (B1 : ld8 img 0xC0002084 = 0x55) by (vm_compute; reflexivity).
  eapply wpe_mono; [apply (load_elf_correct 0xC0000000 user_area user_area [] 0xC0002000 0x88 image_machine)|].
  - exact image_ok.
  - exact image_space.
  - intros b Hb [Hr|[[Hf|Hf]|[Hl _]]]; unfold range, sizeof_Page, KERNEL_VIRTUAL_BASE in *; cbn in *; lia.
  - intros r k' (G' & H' & _ & _ & _ & Hseg). rewrite Hnum in Hseg. split.
    + pose proof (Hseg 0 ltac:(lia)) as S0. destruct (image_segments 0 ltac:(lia)) as [[_ E]|[? _]]; [|lia].
      cbv zeta in S0. rewrite E in S0. unfold seg_pages, seg_page in S0. rewrite C1, C2, C3, C4, C5, C6 in S0.
      destruct (S0 eq_refl 0 ltac:(vm_compute; split; congruence)) as (f & F1 & _ & F2). exists f.
      split; [exact F1|]. split; [rewrite F2 by lia; exact B1 | rewrite F2 by lia; reflexivity].
    + pose proof (Hseg 1 ltac:(lia)) as S0. destruct (image_segments 1 ltac:(lia)) as [[? _]|[_ E]]; [lia|].
      cbv zeta in S0. rewrite E in S0. unfold seg_pages, seg_page in S0. rewrite D1, D2, D3, D4, D5, D6 in S0.
      destruct (S0 eq_refl 0 ltac:(vm_compute; split; congruence)) as (f & F1 & _ & _). exists f. exact F1.
Defined.

Lemma load_elf_bad_magic_witness : load_elf 0xC0000000 0xC0003000 image_machine = Ok 0 image_machine.
Proof.
  apply (load_elf_bad_magic 0xC0000000 0xC0003000 image_machine); [unfold KERNEL_VIRTUAL_BASE; lia | lia |].
  vm_compute. discriminate.
Defined.
