(* ===== verification/Process.v ===== *)
(** * Processes: src/process/process.c, src/process/launch_process.asm — the code *)

From Stdlib Require Import ZArith Lia Bool.
From stdpp Require Import base list gmap strings.
From S2P Require Import Prelude Machine StringLib Console Node Queue Bump Buddy Devices Descriptors Heap Sched Paging Elf.

(** Where the assembly routine is linked. *)
Class ProcessSymbols := { launch_process_addr : Z }.

Record KStackInfo := MkKStackInfo { kernel_stack_base : Z; kernel_esp : Z }.

Section code.
Context `{BS : BuddySymbols} `{HS : HeapSymbols} `{TS : TableSymbols} `{SS : SchedSymbols} `{PR : ProcessSymbols}.

(** What [setup_kerenl_stack] pushes: ss, esp, eflags, cs and eip for [iret], the
    address of [launch_process], and the eight registers [popa] takes. *)
Definition process_stack (entry user_esp : Z) : list Z :=
  [Z.lor (Z.lor (Z.shiftl 4 3) 0) 3; user_esp; Z.shiftl 1 9; Z.lor (Z.lor (Z.shiftl 3 3) 0) 3; entry;
   launch_process_addr; 0; 0; 0; 0; 0; 0; 0; 0].

Definition setup_kerenl_stack (entry user_esp : Z) : M KStackInfo :=
  stack ← kmalloc 0x1000;
  esp ← push_words (stack ⊞ 0x1000) (process_stack entry user_esp);
  mret (MkKStackInfo stack esp).

Definition create_process (elf_hdr : Z) : M Z :=
  page ← pmm_alloc 0;
  let process_pd := P2V page in
  kmemcpy process_pd kernel_page_directory 0x1000;;
  stack_base ← load_elf process_pd elf_hdr;
  user_stack ← pmm_alloc 0;
  let user_esp := stack_base ⊞ 0x1000 in
  entry ← load32 (e_entry elf_hdr);
  map_range process_pd user_stack stack_base 1 (Z.lor (Z.lor PAGE_USER PAGE_PRESENT) PAGE_RW);;
  stack_info ← setup_kerenl_stack entry user_esp;
  thread ← kmalloc sizeof_Thread;
  store32 (thread_esp thread) (kernel_esp stack_info);;
  store32 (thread_stack thread) (kernel_stack_base stack_info);;
  id ← gets (fun k => thread_id (k_sched k));
  store32 (thread_id_of thread) id;;
  set_thread_id (id + 1);;
  store32 (thread_pd thread) process_pd;;
  thread_ready thread;;
  mret thread.
End code.

(** ** src/process/launch_process.asm *)

(** [iret]: returns the address it jumps to, the flags it loads (the interrupt flag
    is the one the model keeps) and, on a change of ring, the stack segment it loads
    with the stack pointer. *)
Definition iret : M (Z * Z * option Z) :=
  cpl ← gets (fun k => Z.land (seg_cs (k_cpu k)) 3);
  eip ← pop32;
  cs ← pop32;
  eflags ← pop32;
  modify (fun k => set_cpu (set_if (Z.testbit eflags 9) (set_segs cs (segs (k_cpu k)) (k_cpu k))) k);;
  if Z.land cs 3 =? cpl then mret (eip, eflags, None)
  else
    sp ← pop32;
    ss ← pop32;
    modify (fun k => set_cpu (set_regs sp (gprs (k_cpu k)) (k_cpu k)) k);;
    mret (eip, eflags, Some ss).

Definition USER_DATA_SEGMENT : Z := 0x23.

(** [mov ax, USER_DATA_SEGMENT], the four data segment registers, [iret]. *)
Definition launch_process : M (Z * Z * option Z) :=
  modify (fun k => set_cpu (set_regs (esp (k_cpu k))
    (<[0%nat := Z.lor (Z.land (reg 0 k) 0xFFFF0000) USER_DATA_SEGMENT]> (gprs (k_cpu k)))
    (set_segs (seg_cs (k_cpu k)) (all_segs USER_DATA_SEGMENT) (k_cpu k))) k);;
  iret.
