(* ===== verification/Stubs.v ===== *)
(** * Interrupt entry and exit: src/interrupts/isr_stub.asm

    What the processor pushes when an interrupt is taken, the stub of its vector,
    the wrapper all stubs share, and the return.  [handler] is the C function the
    wrapper calls with a pointer to the saved registers. *)

From Stdlib Require Import ZArith Lia Bool.
From stdpp Require Import base list gmap strings.
From S2P Require Import Prelude Machine StringLib Console Node Queue Bump Buddy Devices Descriptors Heap Sched SchedModel Switch SchedTheorems Threads Reaper SchedSample Isr Process.

(** ** The code *)

(** [mov ax, v]: the upper half of [eax] stays. *)
Definition mov_ax (v : Z) : M unit :=
  modify (fun k => set_cpu (set_regs (esp (k_cpu k))
    (<[0%nat := Z.lor (Z.land (reg 0 k) 0xFFFF0000) (u16 v)]> (gprs (k_cpu k))) (k_cpu k)) k).

(** [mov ds, ax], [mov es, ax], [mov fs, ax], [mov gs, ax]. *)
Definition load_segments_ax : M unit :=
  modify (fun k => set_cpu (set_segs (seg_cs (k_cpu k)) (all_segs (u16 (reg 0 k))) (k_cpu k)) k).

(** [cld]: the model has no direction flag, its string instructions count upwards,
    as C code may assume. *)
Definition cld : M unit := skip.

Definition add_esp (n : Z) : M unit :=
  modify (fun k => set_cpu (set_regs (esp (k_cpu k) ⊞ n) (gprs (k_cpu k)) (k_cpu k)) k).

Definition KERNEL_DATA_SEL : Z := 0x10.

(** The two macros, and the stubs of the 256 vectors in the order of the file. *)
Inductive stub_kind := isr_err_stub | isr_no_err_stub.

Definition isr_stubs : list stub_kind :=
  [isr_no_err_stub; isr_no_err_stub; isr_no_err_stub; isr_no_err_stub;
   isr_no_err_stub; isr_no_err_stub; isr_no_err_stub; isr_no_err_stub;
   isr_err_stub; isr_no_err_stub; isr_err_stub; isr_err_stub;
   isr_err_stub; isr_err_stub; isr_err_stub; isr_no_err_stub;
   isr_no_err_stub; isr_err_stub; isr_no_err_stub; isr_no_err_stub;
   isr_no_err_stub; isr_err_stub] ++ replicate 234 isr_no_err_stub.

Definition stub_of (vec : Z) : stub_kind := default isr_no_err_stub (isr_stubs !! Z.to_nat vec).

(** What the processor does: the exceptions with an error code are #DF, #TS, #NP,
    #SS, #GP, #PF, #AC and #CP (Intel SDM volume 3, table 6-1). *)
Definition pushes_error_code (vec : Z) : bool := bool_decide (vec ∈ [8; 10; 11; 12; 13; 14; 17; 21]).

Section code.
Context `{TS : TableSymbols}.

(** Address behind the call in [isr_wrapper]. *)
Context (isr_return : Z).

(** [isr_wrapper] up to the call: the pointer to the saved registers. *)
Definition isr_enter : M Z :=
  cld;;
  pusha;;
  ds ← gets (fun k => seg_ds (segs (k_cpu k)));
  mov_ax ds;;
  eax ← gets (reg 0);
  push32 eax;;
  mov_ax KERNEL_DATA_SEL;;
  load_segments_ax;;
  sp ← gets (fun k => esp (k_cpu k));
  push32 sp;;
  push32 isr_return;;
  mret sp.

(** From the return of the handler on. *)
Definition isr_leave : M (Z * Z * option Z) :=
  _ ← pop32;
  add_esp 4;;
  eax ← pop32;
  modify (fun k => set_cpu (set_regs (esp (k_cpu k)) (<[0%nat := eax]> (gprs (k_cpu k))) (k_cpu k)) k);;
  load_segments_ax;;
  popa;;
  add_esp 8;;
  iret.

Definition isr_wrapper (handler : Z -> M unit) : M (Z * Z * option Z) :=
  regs ← isr_enter; handler regs;; isr_leave.

(** The bodies of the macros. *)
Definition isr_stub (vec : Z) (handler : Z -> M unit) : M (Z * Z * option Z) :=
  match stub_of vec with
  | isr_err_stub => push32 vec;; isr_wrapper handler
  | isr_no_err_stub => push32 0;; push32 vec;; isr_wrapper handler
  end.

(** The processor takes interrupt [vec] through its gate: from ring 3 it first
    switches to the stack the TSS gives, and it clears the interrupt flag. *)
Definition take_interrupt (vec error eip eflags ss : Z) : M unit :=
  c ← gets k_cpu;
  (if Z.land (seg_cs c) 3 =? 3 then
     esp0 ← load32 (tss_esp0 tss);
     modify (fun k => set_cpu (set_regs esp0 (gprs (k_cpu k)) (k_cpu k)) k);;
     push32 ss;; push32 (esp c)
   else skip);;
  push32 eflags;; push32 (seg_cs c);; push32 eip;;
  modify (fun k => set_cpu (set_if false (set_segs 8 (segs (k_cpu k)) (k_cpu k))) k);;
  when (pushes_error_code vec) (push32 error).
End code.

(** Every stub pushes what the processor did not. *)
Lemma stubs_match vec : 0 <= vec < 256 -> stub_of vec = if pushes_error_code vec then isr_err_stub else isr_no_err_stub.
Proof.
  assert (Hall : forallb (fun v => match stub_of v with isr_err_stub => pushes_error_code v | isr_no_err_stub => negb (pushes_error_code v) end) (seqZ 0 256) = true)
    by (vm_compute; reflexivity).
  intros Hv. rewrite forallb_forall in Hall. specialize (Hall vec). rewrite <- list_elem_of_In, elem_of_seqZ in Hall. specialize (Hall ltac:(lia)).
  by destruct (stub_of vec), (pushes_error_code vec).
Qed.

(** ** The saved registers *)

(** The [register_t] at [regs] holds the context [c], interrupted at [eip] with the
    flags [eflags], by vector [vec] with error code [err]; from ring 3 the stack
    [ss] too. *)
Record saved (m : memory) (regs : Z) (c : cpu_regs) (vec err eip eflags ss : Z) : Prop := {
  sv_ds : u16 (ld32 m regs) = seg_ds (segs c);
  sv_regs : gprs c = [ld32 m (regs_eax regs); ld32 m (regs_ecx regs); ld32 m (regs_edx regs); ld32 m (regs_ebx regs);
                      ld32 m (regs + 12); ld32 m (regs_esi regs); ld32 m (regs_edi regs)];
  sv_vec : ld32 m (regs_interrupt regs) = vec;
  sv_error : ld32 m (regs_error_code regs) = err;
  sv_eip : ld32 m (regs_eip regs) = eip;
  sv_cs : ld32 m (regs_cs regs) = seg_cs c;
  sv_eflags : ld32 m (regs_eflags regs) = eflags;
  sv_user : Z.land (seg_cs c) 3 = 3 -> ld32 m (regs + 56) = esp c /\ ld32 m (regs + 60) = ss }.

Definition ring3 (c : cpu_regs) : bool := Z.land (seg_cs c) 3 =? 3.

Lemma saved_agree m m' regs c vec err eip eflags ss :
  saved m regs c vec err eip eflags ss -> Z.land (seg_cs c) 3 = 0 \/ Z.land (seg_cs c) 3 = 3 ->
  agree m m' regs (if ring3 c then 64 else 56) -> saved m' regs c vec err eip eflags ss.
Proof.
  intros [S1 S2 S3 S4 S5 S6 S7 S8] Hr Ha.
  assert (Ha' : agree m m' regs 56) by (eapply agree_sub; [exact Ha | lia | destruct (ring3 c); lia]).
  unfold regs_eax, regs_ecx, regs_edx, regs_ebx, regs_esi, regs_edi, regs_interrupt, regs_error_code, regs_eip, regs_cs, regs_eflags in *.
  assert (Hld : forall o, 0 <= o <= 52 -> ld32 m' (regs + o) = ld32 m (regs + o)).
  { intros o Ho. apply ld32_agree. eapply agree_sub; [exact Ha' | lia | lia]. }
  assert (H0 : ld32 m' regs = ld32 m regs) by (rewrite <- (Z.add_0_r regs); apply Hld; lia).
  split; unfold regs_eax, regs_ecx, regs_edx, regs_ebx, regs_esi, regs_edi, regs_interrupt, regs_error_code, regs_eip, regs_cs, regs_eflags;
    rewrite ?H0, ?Hld by lia; try done.
  intros Hx. unfold ring3 in Ha. rewrite Hx in Ha. cbn in Ha. rewrite !(ld32_agree m m') by (eapply agree_sub; [exact Ha | lia..]). by apply S8.
Qed.

(** The kernel stack the interrupt is handled on, and where the registers go. *)
Definition kernel_stack `{TableSymbols} (k : kernel) : Z :=
  if ring3 (k_cpu k) then ld32 (k_mem k) (tss_esp0 tss) else esp (k_cpu k).
Definition saved_at `{TableSymbols} (k : kernel) : Z := kernel_stack k - (if ring3 (k_cpu k) then 64 else 56).

Definition word (v : Z) : Prop := 0 <= v < 2 ^ 32.

(** A context: ring 0 or 3, 16-bit selectors, seven 32-bit registers. *)
Record context_ok (c : cpu_regs) (eip eflags ss : Z) : Prop := {
  cx_ring : Z.land (seg_cs c) 3 = 0 \/ Z.land (seg_cs c) 3 = 3;
  cx_segs : 0 <= seg_cs c < 2 ^ 16 /\ 0 <= seg_ds (segs c) < 2 ^ 16;
  cx_regs : length (gprs c) = 7%nat /\ Forall word (gprs c);
  cx_words : word eip /\ word eflags /\ word ss /\ word (esp c);
  cx_flag : Z.testbit eflags 9 = eflags_if c }.

(** ** Pushing and popping on an explicit state *)

Section steps.
Context (k : kernel) (c3 : Z) (gd id : Z * Z) (tr : Z).
Local Abbreviation st f cs ds sp gs m := (set_cpu (MkCpu f c3 gd id tr cs ds sp gs) (set_mem m k)).

Lemma push_st v f cs ds sp gs m (Q : unit -> kernel -> Prop) :
  KERNEL_VIRTUAL_BASE + 4 <= sp < 2 ^ 32 -> Q tt (st f cs ds (sp - 4) gs (st32 m (sp - 4) v)) -> wp (push32 v) (st f cs ds sp gs m) Q.
Proof. intros Hs HQ. apply push32_spec; cbn; [lia | exact HQ]. Qed.

Lemma pop_st f cs ds sp gs m (Q : Z -> kernel -> Prop) :
  KERNEL_VIRTUAL_BASE <= sp -> sp + 4 < 2 ^ 32 -> Q (ld32 m sp) (st f cs ds (sp + 4) gs m) -> wp pop32 (st f cs ds sp gs m) Q.
Proof. intros H1 H2 HQ. apply pop32_spec; cbn; [lia | lia | exact HQ]. Qed.

Lemma add_esp_st n f cs ds sp gs m (Q : unit -> kernel -> Prop) :
  0 <= sp + n < 2 ^ 32 -> Q tt (st f cs ds (sp + n) gs m) -> wp (add_esp n) (st f cs ds sp gs m) Q.
Proof. intros Hn HQ. apply wp_modify. cbn. rewrite u32_small by lia. exact HQ. Qed.

Lemma pusha_st f cs ds sp gs m (Q : unit -> kernel -> Prop) :
  length gs = 7%nat -> Forall word gs -> KERNEL_VIRTUAL_BASE + 32 <= sp -> sp + 4 <= 2 ^ 32 ->
  (forall m', untouched (range (sp - 32) 32) m m' -> frame m' (sp - 32) gs (ld32 m sp) -> Q tt (st f cs ds (sp - 32) gs m')) ->
  wp pusha (st f cs ds sp gs m) Q.
Proof. intros H1 H2 H3 H4 HQ. eapply (pusha_spec _ gs sp); [done | done | done |]. intros m' U F. by apply HQ. Qed.

Lemma popa_st f cs ds sp gs0 gs eip m (Q : unit -> kernel -> Prop) :
  frame m sp gs eip -> KERNEL_VIRTUAL_BASE <= sp -> sp + 32 < 2 ^ 32 -> Q tt (st f cs ds (sp + 32) gs m) ->
  wp popa (st f cs ds sp gs0 m) Q.
Proof. intros F H1 H2 HQ. by eapply (popa_spec _ gs sp eip). Qed.

Lemma mov_ax_st v f cs ds sp a gs m (Q : unit -> kernel -> Prop) :
  Q tt (st f cs ds sp (Z.lor (Z.land a 0xFFFF0000) (u16 v) :: gs) m) -> wp (mov_ax v) (st f cs ds sp (a :: gs) m) Q.
Proof. intros HQ. by apply wp_modify. Qed.

Lemma load_ax_st f cs ds sp a gs m (Q : unit -> kernel -> Prop) :
  Q tt (st f cs (all_segs (u16 a)) sp (a :: gs) m) -> wp load_segments_ax (st f cs ds sp (a :: gs) m) Q.
Proof. intros HQ. by apply wp_modify. Qed.

Lemma u16_ax a v : u16 (Z.lor (Z.land a 0xFFFF0000) (u16 v)) = u16 v.
Proof.
  unfold u16. change 65536 with (2 ^ 16). rewrite <- !Z.land_ones by lia. apply Z.bits_inj'. intros n Hn.
  rewrite !Z.land_spec, Z.lor_spec, !Z.land_spec. destruct (Z.testbit (Z.ones 16) n) eqn:E; [|by rewrite !andb_false_r].
  rewrite Z.testbit_ones_nonneg in E by lia. apply Z.ltb_lt in E. change 0xFFFF0000 with (Z.shiftl 0xFFFF 16).
  rewrite Z.shiftl_spec_low by lia. by rewrite andb_false_r, !andb_true_r.
Qed.

Lemma u16_u32 v : u16 (u32 v) = u16 v.
Proof. unfold u16, u32. apply Z.mod_mod_divide. exists (2 ^ 16). lia. Qed.

Lemma enter_st ret f cs ds sp gs m (Q : Z -> kernel -> Prop) :
  length gs = 7%nat -> Forall word gs -> 0 <= seg_ds ds < 2 ^ 16 -> KERNEL_VIRTUAL_BASE + 44 <= sp -> sp + 4 <= 2 ^ 32 ->
  (forall m' g, untouched (range (sp - 44) 44) m m' -> frame m' (sp - 32) gs (ld32 m sp) -> u16 (ld32 m' (sp - 36)) = seg_ds ds -> g <> [] ->
     Q (sp - 36) (st f cs (all_segs KERNEL_DATA_SEL) (sp - 44) g m')) ->
  wp (isr_enter ret) (st f cs ds sp gs m) Q.
Proof.
  intros Hl Hg Hd H1 H2 HQ. unfold KERNEL_VIRTUAL_BASE in *. unfold isr_enter.
  apply wp_bind, wp_ret, wp_bind, pusha_st; try done; try (unfold KERNEL_VIRTUAL_BASE; lia). intros m1 U1 F1.
  destruct gs as [|a gs]; [done|].
  apply wp_bind, wp_gets, wp_bind. apply mov_ax_st. apply wp_bind, wp_gets. unfold reg. cbn [k_cpu set_cpu segs gprs nth].
  set (ax := Z.lor _ _). apply wp_bind, push_st; [unfold KERNEL_VIRTUAL_BASE; lia|]. apply wp_bind, mov_ax_st. apply wp_bind, load_ax_st.
  rewrite u16_ax. change (u16 KERNEL_DATA_SEL) with KERNEL_DATA_SEL. apply wp_bind, wp_gets. cbn [k_cpu set_cpu esp].
  apply wp_bind, push_st; [unfold KERNEL_VIRTUAL_BASE; lia|]. apply wp_bind, push_st; [unfold KERNEL_VIRTUAL_BASE; lia|]. apply wp_ret.
  replace (sp - 32 - 4) with (sp - 36) by lia. replace (sp - 36 - 4) with (sp - 40) by lia. replace (sp - 40 - 4) with (sp - 44) by lia.
  set (m2 := st32 m1 _ _). set (m4 := st32 _ (sp - 44) _).
  assert (U4 : untouched (range (sp - 44) 12) m1 m4) by (intros b Hb; unfold m4, m2, range in *; by mem_simp).
  apply HQ.
  - eapply untouched_trans; eapply untouched_mono; [|exact U1| |exact U4]; unfold range; intros; lia.
  - eapply frame_agree; [exact F1|]. eapply untouched_agree; [exact U4|]. unfold range; intros; lia.
  - unfold m4, m2. mem_simp. rewrite u16_u32. unfold ax. rewrite u16_ax. by apply Z.mod_small.
  - done.
Qed.

(** The registers come back, whatever the handler left in them. *)
Lemma leave_st f cs ds regs g m c vec err eip eflags ss :
  saved m regs c vec err eip eflags ss -> context_ok c eip eflags ss -> Z.land cs 3 = 0 ->
  KERNEL_VIRTUAL_BASE + 8 <= regs -> regs + (if ring3 c then 64 else 56) < 2 ^ 32 -> (0 < length g)%nat ->
  wp isr_leave (st f cs ds (regs - 8) g m) (fun r k' =>
    r = (eip, eflags, if ring3 c then Some ss else None) /\
    k' = st (eflags_if c) (seg_cs c) (all_segs (seg_ds (segs c))) (if ring3 c then esp c else regs + 56) (gprs c) m).
Proof.
  intros [S1 S2 S3 S4 S5 S6 S7 S8] [X1 X2 X3 X4 X5] Hcs H1 H2' Hg. unfold KERNEL_VIRTUAL_BASE in *. unfold isr_leave.
  assert (H2 : regs + 56 < 2 ^ 32) by (destruct (ring3 c); lia).
  unfold regs_eax, regs_ecx, regs_edx, regs_ebx, regs_esi, regs_edi, regs_interrupt, regs_error_code, regs_eip, regs_cs, regs_eflags in *.
  apply wp_bind, pop_st; [unfold KERNEL_VIRTUAL_BASE; lia | lia|]. apply wp_bind, add_esp_st; [lia|].
  apply wp_bind, pop_st; [unfold KERNEL_VIRTUAL_BASE; lia | lia|]. replace (regs - 8 + 4 + 4) with regs by lia.
  destruct g as [|a g]; [cbn in Hg; lia|].
  apply wp_bind, wp_modify. apply wp_bind, (load_ax_st f cs ds (regs + 4) (ld32 m regs) g m). rewrite S1.
  apply wp_bind. eapply (popa_st f cs (all_segs (seg_ds (segs c))) (regs + 4) _ (gprs c) vec);
    [split; [|replace (regs + 4 + 32) with (regs + 36) by lia; exact S3] | unfold KERNEL_VIRTUAL_BASE; lia | lia|].
  { rewrite S2, <- !Z.add_assoc. reflexivity. }
  apply wp_bind, add_esp_st; [lia|]. replace (regs + 4 + 32 + 8) with (regs + 44) by lia. unfold iret. apply wp_bind, wp_gets.
  apply wp_bind, pop_st; [unfold KERNEL_VIRTUAL_BASE; lia | lia|]. rewrite S5. replace (regs + 44 + 4) with (regs + 48) by lia.
  apply wp_bind, pop_st; [unfold KERNEL_VIRTUAL_BASE; lia | lia|]. rewrite S6. replace (regs + 48 + 4) with (regs + 52) by lia.
  apply wp_bind, pop_st; [unfold KERNEL_VIRTUAL_BASE; lia | lia|]. rewrite S7. replace (regs + 52 + 4) with (regs + 56) by lia.
  apply wp_bind, wp_modify. cbn [k_cpu set_cpu seg_cs segs set_segs set_if esp gprs cr3 gdtr idtr task_reg]. rewrite Hcs, X5. unfold ring3 in *.
  destruct X1 as [X1|X1]; rewrite X1 in *; cbn [Z.eqb Pos.eqb] in *.
  - by apply wp_ret.
  - destruct (S8 eq_refl) as [E1 E2].
    apply wp_bind, (pop_st (eflags_if c) (seg_cs c) (all_segs (seg_ds (segs c))) (regs + 56) (gprs c) m); [unfold KERNEL_VIRTUAL_BASE; lia | lia|]. rewrite E1. replace (regs + 56 + 4) with (regs + 60) by lia.
    apply wp_bind, pop_st; [unfold KERNEL_VIRTUAL_BASE; lia | lia|]. rewrite E2. apply wp_bind, wp_modify, wp_ret. done.
Qed.

(** From the processor's first word at [base] to the wrapper. *)
Lemma push_frame vec error eip eflags f cs ds base gs m (handler : Z -> M unit) ret (Q : Z * Z * option Z -> kernel -> Prop) :
  KERNEL_VIRTUAL_BASE + 64 <= base -> base < 2 ^ 32 -> 0 <= vec < 256 -> word error -> word eip -> word eflags -> word cs ->
  (forall m', untouched (range (base - 20) 20) m m' ->
     [ld32 m' (base - 20); ld32 m' (base - 16); ld32 m' (base - 12); ld32 m' (base - 8); ld32 m' (base - 4)] =
       [vec; (if pushes_error_code vec then error else 0); eip; cs; eflags] ->
     wp (isr_wrapper ret handler) (st false 8 ds (base - 20) gs m') Q) ->
  wp (push32 eflags;; push32 cs;; push32 eip;;
      modify (fun k => set_cpu (set_if false (set_segs 8 (segs (k_cpu k)) (k_cpu k))) k);;
      when (pushes_error_code vec) (push32 error)) (st f cs ds base gs m) (fun _ k' => wp (isr_stub ret vec handler) k' Q).
Proof.
  intros H1 H2 Hv He Hi Hf Hc HQ. unfold KERNEL_VIRTUAL_BASE, word in *.
  do 3 (apply wp_bind, push_st; [unfold KERNEL_VIRTUAL_BASE; lia|]).
  replace (base - 4 - 4) with (base - 8) by lia. replace (base - 8 - 4) with (base - 12) by lia.
  apply wp_bind, wp_modify. cbn [k_cpu set_cpu segs]. set (m3 := st32 _ _ eip). unfold isr_stub.
  assert (Hend : forall m4, untouched (range (base - 16) 4) m3 m4 -> ld32 m4 (base - 16) = (if pushes_error_code vec then error else 0) ->
    wp (push32 vec;; isr_wrapper ret handler) (st false 8 ds (base - 16) gs m4) Q).
  { intros m4 U4 E4. apply wp_bind, push_st; [unfold KERNEL_VIRTUAL_BASE; lia|]. replace (base - 16 - 4) with (base - 20) by lia.
    assert (Hld : forall a, base - 12 <= a -> ld32 m4 a = ld32 m3 a) by (intros a Ha; apply ld32_agree; eapply untouched_agree; [exact U4|]; unfold range; intros; lia).
    apply HQ.
    - intros b Hb. unfold range in Hb. rewrite ld8_st32_ne, U4 by (unfold range; lia). unfold m3. by rewrite !ld8_st32_ne by lia.
    - rewrite ld32_st32_eq, !ld32_st32_ne, E4, !Hld by lia. unfold m3. by mem_simp. }
  pose proof (stubs_match vec Hv) as Es.
  destruct (pushes_error_code vec); rewrite Es; cbn [when negb].
  - apply (push_st _ false 8 ds (base - 12) gs m3); [unfold KERNEL_VIRTUAL_BASE; lia|]. replace (base - 12 - 4) with (base - 16) by lia.
    apply Hend; [apply st32_untouched | rewrite ld32_st32_eq; by apply u32_small].
  - apply wp_ret, wp_bind. apply (push_st _ false 8 ds (base - 12) gs m3); [unfold KERNEL_VIRTUAL_BASE; lia|].
    replace (base - 12 - 4) with (base - 16) by lia. apply Hend; [apply st32_untouched | by rewrite ld32_st32_eq].
Qed.
End steps.

(** ** The round trip *)

(** What the wrapper relies on of the C function it calls: it returns with its
    stack pointer in ring 0, and leaves the memory from its return address to
    the top of the stack alone. *)
Definition returns (handler : Z -> M unit) (regs top : Z) (k : kernel) : Prop :=
  wp (handler regs) k (fun _ k' => esp (k_cpu k') = esp (k_cpu k) /\ Z.land (seg_cs (k_cpu k')) 3 = 0 /\
    gprs (k_cpu k') <> [] /\ agree (k_mem k) (k_mem k') (regs - 8) (top - (regs - 8))).

(** The state in which the handler is called. *)
Record called `{TableSymbols} (k : kernel) (vec err eip eflags ss : Z) (k1 : kernel) : Prop := {
  ca_saved : saved (k_mem k1) (saved_at k) (k_cpu k) vec err eip eflags ss;
  ca_mem : untouched (range (saved_at k - 8) (kernel_stack k - (saved_at k - 8))) (k_mem k) (k_mem k1);
  ca_state : exists g m, g <> [] /\ k1 = set_cpu (MkCpu false (cr3 (k_cpu k)) (gdtr (k_cpu k)) (idtr (k_cpu k)) (task_reg (k_cpu k))
    8 (all_segs KERNEL_DATA_SEL) (saved_at k - 8) g) (set_mem m k) }.

Section roundtrip.
Context `{TS : TableSymbols} (ret : Z) (handler : Z -> M unit).

(** From the wrapper on, with the processor's words at [regs + 44]. *)
Lemma wrapper_spec k0 c vec err eip eflags ss c3 gd id tr ds gs m regs top :
  let st f cs ds sp gs m := set_cpu (MkCpu f c3 gd id tr cs ds sp gs) (set_mem m k0) in
  gprs c = gs -> segs c = ds -> context_ok c eip eflags ss ->
  KERNEL_VIRTUAL_BASE + 8 <= regs -> top = regs + (if ring3 c then 64 else 56) -> top < 2 ^ 32 ->
  [ld32 m (regs + 36); ld32 m (regs + 40); ld32 m (regs + 44); ld32 m (regs + 48); ld32 m (regs + 52)] = [vec; err; eip; seg_cs c; eflags] ->
  (ring3 c = true -> ld32 m (regs + 56) = esp c /\ ld32 m (regs + 60) = ss) ->
  (forall m1 g, g <> [] -> untouched (range (regs - 8) 44) m m1 -> saved m1 regs c vec err eip eflags ss ->
     returns handler regs top (st false 8 (all_segs KERNEL_DATA_SEL) (regs - 8) g m1)) ->
  wp (isr_wrapper ret handler) (st false 8 ds (regs + 36) gs m) (fun r k' => exists m1 g k2, g <> [] /\
    r = (eip, eflags, if ring3 c then Some ss else None) /\
    untouched (range (regs - 8) 44) m m1 /\ saved m1 regs c vec err eip eflags ss /\
    handler regs (st false 8 (all_segs KERNEL_DATA_SEL) (regs - 8) g m1) = Ok tt k2 /\
    k' = set_cpu (set_if (eflags_if c) (set_segs (seg_cs c) (all_segs (seg_ds (segs c))) (set_regs (if ring3 c then esp c else regs + 56) (gprs c) (k_cpu k2)))) k2).
Proof.
  intros st Hg Hd Hcx H1 Htop H2 Hw Hu Hret. injection Hw as W1 W2 W3 W4 W5. pose proof Hcx as [X1 [X2 X3] [X4 X5] X6 X7].
  assert (H2' : regs + 56 < 2 ^ 32) by (destruct (ring3 c); lia). unfold isr_wrapper. apply wp_bind. rewrite <- Hg, <- Hd.
  unfold KERNEL_VIRTUAL_BASE in H1.
  apply (enter_st k0 c3 gd id tr); [done | done | done | unfold KERNEL_VIRTUAL_BASE; lia | lia |].
  replace (regs + 36 - 44) with (regs - 8) by lia. replace (regs + 36 - 32) with (regs + 4) by lia. replace (regs + 36 - 36) with regs by lia.
  intros m1 g U [F1 F2] Ed Hgn.
  assert (Hld : forall a, regs + 36 <= a -> ld32 m1 a = ld32 m a).
  { intros a Ha. apply ld32_agree. eapply untouched_agree; [exact U|]. unfold range; intros; lia. }
  assert (HS : saved m1 regs c vec err eip eflags ss).
  { split; unfold regs_interrupt, regs_error_code, regs_eip, regs_cs, regs_eflags; rewrite ?Hld by lia; try done.
    - rewrite F1, <- !Z.add_assoc. reflexivity.
    - intros Hr. apply Hu. unfold ring3. by rewrite Hr. }
  destruct (wp_ok _ _ _ (Hret m1 g Hgn U HS)) as ([] & k2 & E & E1 & E2 & E3 & E4). apply wp_bind. eapply wp_of_eq; [exact E|].
  assert (Hst : k2 = set_cpu (MkCpu (eflags_if (k_cpu k2)) (cr3 (k_cpu k2)) (gdtr (k_cpu k2)) (idtr (k_cpu k2)) (task_reg (k_cpu k2))
    (seg_cs (k_cpu k2)) (segs (k_cpu k2)) (regs - 8) (gprs (k_cpu k2))) (set_mem (k_mem k2) k2)).
  { destruct k2 as [? ? ? [] ? ? ? ? ? ? ?]. cbn in *. by rewrite E1. }
  assert (HS2 : saved (k_mem k2) regs c vec err eip eflags ss).
  { eapply saved_agree; [exact HS | exact X1 |]. eapply agree_sub; [exact E4 | lia..]. }
  rewrite Hst at 1. eapply wp_mono; [eapply (leave_st k2); [exact HS2 | exact Hcx | exact E2 | unfold KERNEL_VIRTUAL_BASE; lia | lia | by destruct (gprs (k_cpu k2)); [|cbn; lia]]|].
  intros r k' (-> & ->). exists m1, g, k2. split_and!; try done.
Qed.

Lemma interrupt_spec vec error eip eflags ss k :
  let err := if pushes_error_code vec then error else 0 in
  context_ok (k_cpu k) eip eflags ss -> 0 <= vec < 256 -> word error ->
  KERNEL_VIRTUAL_BASE + 72 <= kernel_stack k -> kernel_stack k < 2 ^ 32 ->
  KERNEL_VIRTUAL_BASE <= tss -> tss + sizeof_TSS_ENTRY <= 2 ^ 32 ->
  (forall k1, called k vec err eip eflags ss k1 -> returns handler (saved_at k) (kernel_stack k) k1) ->
  wp (take_interrupt vec error eip eflags ss;; isr_stub ret vec handler) k (fun r k' => exists k1 k2,
    r = (eip, eflags, if ring3 (k_cpu k) then Some ss else None) /\
    called k vec err eip eflags ss k1 /\ handler (saved_at k) k1 = Ok tt k2 /\
    k' = set_cpu (set_if (eflags_if (k_cpu k)) (set_segs (seg_cs (k_cpu k)) (all_segs (seg_ds (segs (k_cpu k))))
           (set_regs (esp (k_cpu k)) (gprs (k_cpu k)) (k_cpu k2)))) k2).
Proof.
  intros err Hcx Hv He H1 H2 T1 T2 Hret. pose proof Hcx as [X1 [X2 X3] _ (Y1 & Y2 & Y3 & Y4) _]. unfold word in *.
  unfold KERNEL_VIRTUAL_BASE, sizeof_TSS_ENTRY in *. unfold take_interrupt. apply wp_bind, wp_bind, wp_gets.
  set (c := k_cpu k) in *. set (regs := saved_at k) in *. set (top := kernel_stack k) in *.
  assert (Htop : top = regs + (if ring3 c then 64 else 56)) by (unfold regs, saved_at; fold c; fold top; lia).
  (* from the state after the switch of stacks, [base] being the first word of the frame *)
  assert (Hmain : forall m, untouched (range (regs + 56) (top - (regs + 56))) (k_mem k) m ->
    (ring3 c = true -> ld32 m (regs + 56) = esp c /\ ld32 m (regs + 60) = ss) ->
    wp (push32 eflags;; push32 (seg_cs c);; push32 eip;;
        modify (fun k => set_cpu (set_if false (set_segs 8 (segs (k_cpu k)) (k_cpu k))) k);;
        when (pushes_error_code vec) (push32 error))
      (set_cpu (MkCpu (eflags_if c) (cr3 c) (gdtr c) (idtr c) (task_reg c) (seg_cs c) (segs c) (regs + 56) (gprs c)) (set_mem m k))
      (fun _ k0 => wp (isr_stub ret vec handler) k0 (fun r k' => exists k1 k2, r = (eip, eflags, if ring3 c then Some ss else None) /\ called k vec err eip eflags ss k1 /\ handler regs k1 = Ok tt k2 /\
         k' = set_cpu (set_if (eflags_if c) (set_segs (seg_cs c) (all_segs (seg_ds (segs c))) (set_regs (esp c) (gprs c) (k_cpu k2)))) k2))).
  { intros m U Hus. apply (push_frame k (cr3 c) (gdtr c) (idtr c) (task_reg c)); unfold word; try lia; try (unfold KERNEL_VIRTUAL_BASE; destruct (ring3 c); lia).
    intros m1 U1 Hw. replace (regs + 56 - 20) with (regs + 36) in * by lia. replace (regs + 56 - 16) with (regs + 40) in Hw by lia.
    replace (regs + 56 - 12) with (regs + 44) in Hw by lia. replace (regs + 56 - 8) with (regs + 48) in Hw by lia. replace (regs + 56 - 4) with (regs + 52) in Hw by lia.
    assert (Hca : forall m2 g, g <> [] -> untouched (range (regs - 8) 44) m1 m2 -> saved m2 regs c vec err eip eflags ss ->
      called k vec err eip eflags ss (set_cpu (MkCpu false (cr3 c) (gdtr c) (idtr c) (task_reg c) 8 (all_segs KERNEL_DATA_SEL) (regs - 8) g) (set_mem m2 k))).
    { intros m2 g Hgn U2 HS2. split; [exact HS2 | | by exists g, m2]. fold regs top. cbn [k_mem set_cpu set_mem].
      eapply untouched_trans; [eapply untouched_mono; [|exact U]|eapply untouched_trans; eapply untouched_mono; [|exact U1| |exact U2]];
        unfold range; intros b Hb; destruct (ring3 c); lia. }
    eapply wp_mono; [apply (wrapper_spec k c vec err eip eflags ss (cr3 c) (gdtr c) (idtr c) (task_reg c) (segs c) (gprs c) m1 regs top); try done; try (unfold KERNEL_VIRTUAL_BASE; destruct (ring3 c); lia)|].
    - intros Hr. destruct (Hus Hr) as [<- <-]. split; apply ld32_agree; (eapply untouched_agree; [exact U1|]); unfold range; intros; lia.
    - intros m2 g Hgn U2 HS2. apply Hret, Hca; done.
    - intros r k' (m2 & g & k2 & Hgn & -> & U2 & HS2 & E & ->). eexists _, k2. split; [done|]. split; [by apply (Hca m2 g)|]. split; [exact E|].
      unfold top, kernel_stack in Htop. fold c in Htop. destruct (ring3 c); [done|]. by replace (regs + 56) with (esp c) by lia. }
  assert (Hk : k = set_cpu (MkCpu (eflags_if c) (cr3 c) (gdtr c) (idtr c) (task_reg c) (seg_cs c) (segs c) (esp c) (gprs c)) (set_mem (k_mem k) k)).
  { unfold c. by destruct k as [? ? ? [] ? ? ? ? ? ? ?]. }
  fold (ring3 c). apply wp_bind. unfold top, kernel_stack in H1, H2, Htop. fold c in H1, H2, Htop. destruct (ring3 c) eqn:Er.
  - apply wp_bind. unfold tss_esp0 at 1. eapply wp_access; [unfold KERNEL_VIRTUAL_BASE; lia | lia | reflexivity | cbv beta].
    change (tss + 4) with (tss_esp0 tss). rewrite Htop. apply wp_bind, wp_modify. fold c.
    apply wp_bind, (push_st k (cr3 c) (gdtr c) (idtr c) (task_reg c) ss (eflags_if c) (seg_cs c) (segs c) (regs + 64) (gprs c) (k_mem k)) ; [unfold KERNEL_VIRTUAL_BASE; lia|].
    apply push_st; [unfold KERNEL_VIRTUAL_BASE; lia|]. replace (regs + 64 - 4) with (regs + 60) by lia. replace (regs + 60 - 4) with (regs + 56) by lia.
    assert (Et : top = regs + 64) by (unfold top, kernel_stack; fold c; by rewrite Er).
    apply Hmain.
    + rewrite Et. intros b Hb. unfold range in Hb. by rewrite !ld8_st32_ne by lia.
    + intros _. by mem_simp.
  - apply wp_ret. rewrite Hk at 1. replace (esp c) with (regs + 56) at 1 by lia. apply Hmain; [apply untouched_refl | done].
Qed.
End roundtrip.

(** ** The properties *)

(** C33: an interrupt does not disturb the interrupted program, but for three
    segment registers.  From ring 0 or ring 3, the processor, the stub of the vector
    and [isr_wrapper] call the handler in ring 0 with interrupts off and the kernel's
    data selector in all four data segment registers, on the stack that is due, with
    a pointer to a [register_t] that holds the interrupted context, the vector and the error
    code (0 for a vector for which the processor pushes none: every stub matches its
    vector).  When the handler returns, execution continues at the interrupted
    instruction with the general registers, the code segment, the stack and the word of
    flags as they were; [ds] is as it was and [es], [fs] and [gs] have the value of [ds],
    the only one of the four that is saved; the rest of the machine is as the
    handler left it. *)
Theorem interrupt_roundtrip `{TS : TableSymbols} ret handler vec error eip eflags ss k :
  let err := if pushes_error_code vec then error else 0 in
  context_ok (k_cpu k) eip eflags ss -> 0 <= vec < 256 -> word error ->
  KERNEL_VIRTUAL_BASE + 72 <= kernel_stack k -> kernel_stack k < 2 ^ 32 ->
  KERNEL_VIRTUAL_BASE <= tss -> tss + sizeof_TSS_ENTRY <= 2 ^ 32 ->
  (forall k1, called k vec err eip eflags ss k1 -> returns handler (saved_at k) (kernel_stack k) k1) ->
  wp (take_interrupt vec error eip eflags ss;; isr_stub ret vec handler) k (fun r k' => exists k1 k2,
    r = (eip, eflags, if ring3 (k_cpu k) then Some ss else None) /\
    called k vec err eip eflags ss k1 /\ handler (saved_at k) k1 = Ok tt k2 /\
    k' = set_cpu (set_if (eflags_if (k_cpu k)) (set_segs (seg_cs (k_cpu k)) (all_segs (seg_ds (segs (k_cpu k))))
           (set_regs (esp (k_cpu k)) (gprs (k_cpu k)) (k_cpu k2)))) k2).
Proof. apply interrupt_spec. Qed.

Section unknown.
Context `{BS : BuddySymbols} `{HS : HeapSymbols} `{TS : TableSymbols} `{SS : SchedSymbols}.

Lemma unknown_text : render (chars ("unknown syscall" ++ newline)) [] = Some (chars ("unknown syscall" ++ newline)).
Proof. reflexivity. Qed.

(** The handler for a system call that does not exist. *)
Lemma unknown_handled regs k (Q : unit -> kernel -> Prop) :
  KERNEL_VIRTUAL_BASE <= regs -> regs + 56 <= 2 ^ 32 -> cursor_ok (k_vga k) ->
  interrupt_handlers (k_devs k) !! 0x80 = Some H_syscall_handler ->
  ld32 (k_mem k) (regs_interrupt regs) = 0x80 ->
  ld32 (k_mem k) (regs_eax regs) <> SYS_EXIT -> ld32 (k_mem k) (regs_eax regs) <> SYS_SLEEP ->
  (forall k', printed (chars ("unknown syscall" ++ newline)) k k' -> Q tt k') ->
  wp (interrupt_handler regs) k Q.
Proof.
  intros M1 M2 Hc Hh Hv H0 H1 HQ. unfold interrupt_handler. apply wp_bind. unfold regs_interrupt in *.
  eapply wp_access; [lia | lia | reflexivity | cbv beta]. rewrite Hv. change (u8 128) with 128. apply wp_bind, wp_gets. rewrite Hh.
  unfold run_handler, syscall_handler. apply wp_bind. unfold regs_eax in *. eapply wp_access; [lia | lia | reflexivity | cbv beta].
  rewrite (proj2 (Z.eqb_neq _ _) H0), (proj2 (Z.eqb_neq _ _) H1). apply wp_bind.
  eapply wp_mono; [by apply (kprintf_prints _ [] _ unknown_text)|]. intros r k' [_ HP]. apply wp_ret. by apply HQ.
Qed.
End unknown.

(** C34: a system call that does not exist is harmless: [int 0x80] with [eax] neither
    SYS_EXIT nor SYS_SLEEP goes through the stub, the dispatch and the handler,
    prints "unknown syscall" and returns to the caller with the processor as it
    was, [eax] included, but for [es], [fs] and [gs], which get the value of [ds];
    only the kernel stack and the screen were written. *)
Theorem unknown_syscall_returns `{BS : BuddySymbols} `{HS : HeapSymbols} `{TS : TableSymbols} `{SS : SchedSymbols} ret eip eflags ss k :
  context_ok (k_cpu k) eip eflags ss -> KERNEL_VIRTUAL_BASE + 72 <= kernel_stack k -> kernel_stack k < 2 ^ 32 ->
  KERNEL_VIRTUAL_BASE <= tss -> tss + sizeof_TSS_ENTRY <= 2 ^ 32 ->
  (forall b, range (saved_at k - 8) (kernel_stack k - (saved_at k - 8)) b -> ~ vga_fp b) ->
  cursor_ok (k_vga k) -> interrupt_handlers (k_devs k) !! 0x80 = Some H_syscall_handler ->
  reg 0 k <> SYS_EXIT -> reg 0 k <> SYS_SLEEP ->
  wp (take_interrupt 0x80 0 eip eflags ss;; isr_stub ret 0x80 interrupt_handler) k (fun r k' =>
    r = (eip, eflags, if ring3 (k_cpu k) then Some ss else None) /\
    k_cpu k' = set_segs (seg_cs (k_cpu k)) (all_segs (seg_ds (segs (k_cpu k)))) (k_cpu k) /\ k_sched k' = k_sched k /\
    serial_text (k_io k') = serial_text (k_io k) ++ chars ("unknown syscall" ++ newline) /\
    untouched (fun b => vga_fp b \/ range (saved_at k - 8) (kernel_stack k - (saved_at k - 8)) b) (k_mem k) (k_mem k')).
Proof.
  intros Hcx H1 H2 T1 T2 Hoff Hc Hh E0 E1.
  assert (Hrun : forall k1, called k 0x80 0 eip eflags ss k1 ->
    wp (interrupt_handler (saved_at k)) k1 (fun _ k2 => printed (chars ("unknown syscall" ++ newline)) k1 k2)).
  { intros k1 [Hs Hm (g & m & Hgn & ->)]. cbn [k_mem set_cpu set_mem] in *. unfold KERNEL_VIRTUAL_BASE in *.
    assert (Ea : ld32 m (regs_eax (saved_at k)) = reg 0 k) by (unfold reg; rewrite (sv_regs _ _ _ _ _ _ _ _ Hs); done).
    apply unknown_handled; cbn [k_mem set_cpu set_mem k_vga k_devs]; try done; try (by rewrite Ea).
    - unfold saved_at, KERNEL_VIRTUAL_BASE. destruct (ring3 _); lia.
    - unfold saved_at. destruct (ring3 _); lia.
    - apply (sv_vec _ _ _ _ _ _ _ _ Hs). }
  eapply wp_mono; [apply (interrupt_spec ret interrupt_handler 0x80 0 eip eflags ss k); try done|].
  - intros k1 Hca. eapply wp_mono; [by apply Hrun|]. intros _ k2 (m & io & v & -> & U & _ & _).
    destruct Hca as [_ _ (g & m1 & Hgn & ->)]. split_and!; try done. eapply untouched_agree; [exact U|]. intros b Hb Hv. by apply (Hoff b Hb).
  - intros r k' (k1 & k2 & -> & Hca & E & ->). destruct (wp_ok _ _ _ (Hrun k1 Hca)) as ([] & k3 & E' & Hw).
    assert (k3 = k2) as -> by congruence. destruct Hw as (m & io & v & -> & U & Ht & _). destruct Hca as [_ Hm (g & m1 & _ & ->)]. cbn [k_cpu k_mem k_io k_sched set_cpu set_vga set_io set_mem] in *.
    split_and!; [done | | done | done |].
    + by destruct (k_cpu k).
    + eapply untouched_trans; eapply untouched_mono; [|exact Hm| |exact U]; tauto.
Qed.

(** ** A system call from ring 3 on a concrete machine *)

#[local] Existing Instance four_buddy.
#[local] Existing Instance four_heap.
#[local] Existing Instance four_tables.
#[local] Existing Instance four_sched.

(** The program makes system call 7; its ring-0 stack ends at 0xC0032000. *)
Definition ring3_kernel : kernel :=
  set_devs (MkDev 0xFFFF None {[0x80 := H_syscall_handler]} 1)
    (set_cpu (MkCpu true 0 (0, 0) (0, 0) 0x28 0x1B (all_segs 0x23) 0x404000 [7; 2; 3; 4; 5; 6; 9])
       (set_mem (st32 ∅ (tss_esp0 tss) 0xC0032000) four_kernel)).

Lemma ring3_context : context_ok (k_cpu ring3_kernel) 0x400010 0x202 0x23.
Proof.
  split; unfold word; cbn; try lia.
  - by right.
  - split; [done|]. repeat (constructor; [lia|]). constructor.
Qed.

Lemma ring3_stack : kernel_stack ring3_kernel = 0xC0032000 /\ saved_at ring3_kernel = 0xC0031FC0.
Proof. split; vm_compute; reflexivity. Qed.

Lemma unknown_syscall_returns_witness :
  wp (take_interrupt 0x80 0 0x400010 0x202 0x23;; isr_stub 0xC0005000 0x80 interrupt_handler) ring3_kernel (fun r k' =>
    r = (0x400010, 0x202, Some 0x23) /\ k_cpu k' = k_cpu ring3_kernel).
Proof.
  destruct ring3_stack as [Es Ea].
  eapply wp_mono; [apply (unknown_syscall_returns 0xC0005000 0x400010 0x202 0x23 ring3_kernel ring3_context)|].
  - rewrite Es. unfold KERNEL_VIRTUAL_BASE. lia.
  - rewrite Es. lia.
  - cbn. unfold KERNEL_VIRTUAL_BASE. lia.
  - cbn. unfold sizeof_TSS_ENTRY. lia.
  - rewrite Es, Ea. intros b. unfold vga_fp, range, VGA_MEMORY, columns, rows, KERNEL_VIRTUAL_BASE. lia.
  - vm_compute. intuition congruence.
  - reflexivity.
  - vm_compute. congruence.
  - vm_compute. congruence.
  - intros r k' (E1 & E2 & _). split; [exact E1 | exact E2].
Defined.

(** A handler that only changes a word of memory of its own. *)
Lemma interrupt_roundtrip_witness :
  wp (take_interrupt 13 5 0x400010 0x202 0x23;; isr_stub 0xC0005000 13 (fun _ => store32 0xC0060000 1)) ring3_kernel (fun r k' =>
    r = (0x400010, 0x202, Some 0x23) /\ esp (k_cpu k') = 0x404000 /\ gprs (k_cpu k') = [7; 2; 3; 4; 5; 6; 9]).
Proof.
  destruct ring3_stack as [Es Ea].
  eapply wp_mono; [apply (interrupt_roundtrip 0xC0005000 (fun _ => store32 0xC0060000 1) 13 5 0x400010 0x202 0x23 ring3_kernel ring3_context)|].
  - lia.
  - unfold word. lia.
  - rewrite Es. unfold KERNEL_VIRTUAL_BASE. lia.
  - rewrite Es. lia.
  - cbn. unfold KERNEL_VIRTUAL_BASE. lia.
  - cbn. unfold sizeof_TSS_ENTRY. lia.
  - intros k1 [_ _ (g & m & Hg & ->)]. rewrite Es, Ea. unfold returns.
    eapply wp_access; [unfold KERNEL_VIRTUAL_BASE; lia | lia | reflexivity | cbv beta].
    split; [reflexivity|]. split; [reflexivity|]. split; [exact Hg|].
    eapply untouched_agree; [apply st32_untouched|]. unfold range. intros b Hb. lia.
  - intros r k' (k1 & k2 & -> & _ & _ & ->). split; [reflexivity|]. split; reflexivity.
Defined.
