(* ===== verification/ProcessTheorems.v ===== *)
(** * Process creation *)

From Stdlib Require Import ZArith Lia Bool.
From stdpp Require Import base functions list gmap strings.
From S2P Require Import Prelude Machine StringLib Console Node Queue Bump Buddy BuddyModel BuddyRefine BuddyInit Pmm Devices Descriptors Heap HeapModel HeapSteps HeapPages HeapCompact HeapAlloc HeapFree HeapTheorems HeapClient Sched SchedModel Switch SchedTheorems Threads Paging PagingTheorems UserSpace Elf ElfTheorems Process.

Section process.
Context `{BS : BuddySymbols} `{HS : HeapSymbols} `{TS : TableSymbols} `{SS : SchedSymbols} `{PR : ProcessSymbols}
  `{PA : !PageAllocator pmm_alloc pmm_free get_order_addr}.

(** ** The copy of the kernel's directory *)

(** The kernel's page tables: nothing below the window, tables out of reach of
    the allocators and of the scheduler. *)
Record kernel_space (T : list Z) (H : list block) (PS : list hpage) (m : memory) : Prop := {
  ks_tables : tables_ok kernel_page_directory m (unheld H);
  ks_user : forall d, 0 <= d < USER_END / 1024 -> present kernel_page_directory m d = false;
  ks_quiet : forall d b, USER_END / 1024 <= d < 1024 -> small kernel_page_directory m d ->
    range (table kernel_page_directory m d) 4096 b -> quiet H PS b /\ ~ sched_bytes T b }.

Lemma ld32_copy m m' a a' : (forall j, 0 <= j < 4 -> ld8 m' (a' + j) = ld8 m (a + j)) -> ld32 m' a' = ld32 m a.
Proof.
  intros Hj. unfold ld32, ld16. pose proof (Hj 0 ltac:(lia)) as J0. rewrite !Z.add_0_r in J0.
  replace (a' + 2 + 1) with (a' + 3) by lia. replace (a + 2 + 1) with (a + 3) by lia. rewrite J0, !Hj by lia. done.
Qed.

Lemma copied_space T H PS k k1 i m2 :
  kernel_space T H PS (k_mem k) -> cursor_ok (k_vga k) -> pa_state k1 ((i, 0) :: H) -> allocator_frame pa_bytes k k1 ->
  let f := P2V (4096 * i) in let H1 := (i, 0) :: H in
  untouched (range f 4096) (k_mem k1) m2 -> (forall j, 0 <= j < 4096 -> ld8 m2 (f + j) = ld8 (k_mem k1) (kernel_page_directory + j)) ->
  space f (unheld H) (fun b => range f 4096 b \/ unheld H1 b) H1 (set_mem m2 k1) /\
  (forall d, 0 <= d < 1024 -> pde f m2 d = pde kernel_page_directory (k_mem k) d) /\
  (forall x, 0 <= x < 2 ^ 20 -> translate m2 f x = translate (k_mem k) kernel_page_directory x) /\
  untouched (unheld H) (k_mem k) m2.
Proof.
  intros [KT KU _] Hc HA Hfr f H1 Hm Hcopy. pose proof KT as [P1 P2 P3 P4 P5]. set (kd := kernel_page_directory) in *.
  pose proof (fun b => fresh_page k1 H i b HA) as Hfresh. fold f in Hfresh. destruct Hfr as (m1 & b1 & -> & Hu1). cbn [k_mem set_mem set_buddy] in *.
  destruct (block_bytes _ _ i 0 HA ltac:(left)) as [Ev _].
  destruct (pa_block _ _ i 0 HA ltac:(left)) as (_ & Hi1 & _ & Hi3). change (2 ^ 0) with 1 in Hi3. fold f in Ev.
  assert (HU : untouched (unheld H) (k_mem k) m2).
  { eapply untouched_trans; eapply untouched_mono; [|exact Hu1| |exact Hm]; [by left | intros b Hb; by apply Hfresh]. }
  assert (Hpde : forall d, 0 <= d < 1024 -> pde f m2 d = pde kd (k_mem k) d).
  { intros d Hd. unfold pde, pd_entry. apply ld32_copy. intros j Hj. rewrite <- !Z.add_assoc, Hcopy by lia. apply Hu1.
    intros Hb. apply (P2 (kd + (4 * d + j))); [unfold range; lia | by left]. }
  assert (Hsm : forall d, 0 <= d < 1024 -> small f m2 d -> small kd (k_mem k) d) by (intros d Hd; unfold small, present; by rewrite Hpde).
  assert (Htb : forall d, 0 <= d < 1024 -> table f m2 d = table kd (k_mem k) d) by (intros d Hd; unfold table; by rewrite Hpde).
  assert (Hno : forall d, 0 <= d < USER_END / 1024 -> present f m2 d = false).
  { intros d Hd. unfold present. rewrite Hpde by (change (USER_END / 1024) with 768 in Hd; lia). by apply KU. }
  unfold KERNEL_VIRTUAL_BASE in *. split_and!; [|done | |done].
  - split; cbn [k_mem set_mem set_buddy k_vga].
    + apply (pa_stable (set_buddy b1 (set_mem m1 k))); [exact HA | done |]. cbn [k_mem set_mem set_buddy]. intros b Hb. apply Hm.
      intros Hr. apply (Hfresh b Hr). by left.
    + done.
    + split.
      * unfold KERNEL_VIRTUAL_BASE. lia.
      * intros b Hb. by apply Hfresh.
      * intros d Hd Hs. rewrite Htb by done. destruct (P3 d Hd (Hsm d Hd Hs)) as (Q1 & Q2 & _). split_and!; [done | done |].
        apply ranges_apart; [lia | lia |]. intros b Hb Hx. apply (P4 d b Hd (Hsm d Hd Hs) Hx). by apply Hfresh.
      * intros d b Hd Hs Hb Hx. rewrite Htb in Hb by done. apply (P4 d b Hd (Hsm d Hd Hs) Hb). by eapply unheld_less.
      * intros d d' Hd Hd' Hne Hs Hs'. rewrite !Htb by done. by apply P5; auto.
    + split; [by left | by right |]. intros d b Hd [Hs _]. by rewrite Hno in Hs.
    + intros d Hd. left. by apply Hno.
    + intros b [Hb|Hb]; [by apply Hfresh | by eapply unheld_less].
  - intros x Hx. unfold translate. assert (Hxd : 0 <= x / 1024 < 1024) by div_lia.
    fold (pde f m2 (x / 1024)) (pde kd (k_mem k) (x / 1024)). rewrite Hpde by done.
    destruct (Z.testbit (pde kd (k_mem k) (x / 1024)) 0) eqn:E0; cbn [negb]; [|done].
    destruct (Z.testbit (pde kd (k_mem k) (x / 1024)) 7) eqn:E7; [done|]. fold (table kd (k_mem k) (x / 1024)).
    rewrite (ld32_agree (k_mem k) m2); [done|]. pose proof (Z.mod_pos_bound x 1024 ltac:(lia)).
    eapply untouched_agree; [exact HU|]. intros b Hb. apply (P4 (x / 1024) b Hxd); [done|]. unfold pt_entry, range in *. lia.
Qed.

(** Steps that write only to free memory leave the heap alone. *)
Lemma unheld_grows H PS k new m b : heap_ok H PS k -> pa_state (set_buddy b (set_mem m k)) (new ++ H) ->
  untouched (unheld H) (k_mem k) m -> grows H PS k (new ++ H) PS (set_buddy b (set_mem m k)).
Proof.
  intros HK HA Hu. pose proof HK as [A1 A2 (bl & A3) A4 A5].
  assert (Hless : forall b', unheld (new ++ H) b' -> unheld H b').
  { clear. induction new as [|x new IH]; [done|]. intros b' Hb. by eapply IH, unheld_less. }
  split; cbn [k_mem set_mem set_buddy].
  - split; cbn [k_mem k_heap set_mem set_buddy]; try done.
    + exists bl. eapply hstate_frame; [exact A3|]. intros b' Hb. apply Hu. by apply (heap_fp_held H PS k).
    + intros p Hp. destruct (A4 p Hp) as (j & E & Hj). exists j. split; [done | apply elem_of_app; by right].
  - by exists new.
  - intros b' Hq [Hb|Hb]; apply Hq; [by left | right; by apply Hless].
  - intros b' Hq. apply Hu. intros Hx. apply Hq. by right.
  - exists m, b, (k_heap k). by destruct k.
Qed.

(** ** The address space of the process *)

(** Every page of every segment of the image at [h] is mapped for ring 3, writable
    as its flags say, to a frame with the bytes of the file and zeros behind them. *)
Definition segments_mapped (m0 : memory) (h pd : Z) (m : memory) : Prop :=
  forall i j, 0 <= i < ld16 m0 (e_phnum h) -> let p := phdr_at m0 h i in
    loadable m0 p = true -> 0 <= j < seg_pages m0 p ->
    exists f, translate m pd (seg_page m0 p + j) = Some (f, ld32 m0 (p_flags p) =? Z.lor PF_R PF_W, true) /\
      forall b, 0 <= b < 4096 ->
        ld8 m (P2V (4096 * f) + b) = segment_bytes m0 (h + ld32 m0 (p_offset p)) (ld32 m0 (p_filesz p)) j b.

(** The segments of the image, a stack page at [v] and the kernel's window. *)
Record user_space (m0 : memory) (h pd v : Z) (m : memory) : Prop := {
  us_segments : segments_mapped m0 h pd m;
  us_stack : exists f, translate m pd v = Some (f, true, true);
  us_window : forall x, USER_END <= x < 2 ^ 20 -> translate m pd x = translate m0 kernel_page_directory x }.

(** There is room for a stack page behind the image. *)
Definition stack_room (m : memory) (h : Z) : Prop := forall i, 0 <= i < ld16 m (e_phnum h) ->
  loadable m (phdr_at m h i) = true -> seg_page m (phdr_at m h i) + seg_pages m (phdr_at m h i) < USER_END.

(** Both depend on the bytes of the image only. *)
Lemma stack_room_agree m m' h len : elf_image m h len -> agree m m' h len -> stack_room m h -> stack_room m' h.
Proof.
  intros HI Hag Hr i. pose proof (image_same m m' h len HI Hag) as (-> & _ & -> & _). intros Hi.
  destruct (segment_same m m' h len i HI Hag Hi) as (-> & -> & -> & _). by apply Hr.
Qed.

Lemma segments_mapped_agree m m' h len pd mm : elf_image m h len -> agree m m' h len ->
  segments_mapped m' h pd mm -> segments_mapped m h pd mm.
Proof.
  intros HI Hag Hm i j Hi p Hl Hj. pose proof (image_same m m' h len HI Hag) as (En & _ & Ep & _).
  destruct (segment_same m m' h len i HI Hag Hi) as (E1 & E2 & E3 & _ & E5 & E6 & E7). fold p in E1, E2, E3, E5, E6, E7.
  specialize (Hm i j). rewrite En, Ep in Hm. cbv zeta in Hm. fold p in Hm. rewrite E1, E2, E3, E5, E6, E7 in Hm.
  destruct (Hm Hi Hl Hj) as (f & Hf & Hb). exists f. split; [done|]. intros b Hbb. rewrite Hb by done.
  destruct (ei_segment _ _ _ HI i Hi Hl) as (Hin & _ & _). fold p in Hin. pose proof (ld32_range m (p_offset p)).
  unfold segment_bytes. destruct (Z.ltb_spec (4096 * j + b) (ld32 m (p_filesz p))); [|done].
  apply Hag. unfold range. lia.
Qed.

Lemma image_end_page m h len r : elf_image m h len -> stack_room m h -> image_end m h r ->
  r = 4096 * (r / 4096) /\ 0 <= r / 4096 < USER_END /\ ~ image_page m h (r / 4096).
Proof.
  intros HI Hroom [Hmax Hr].
  assert (Hseg : forall i, 0 <= i < ld16 m (e_phnum h) -> loadable m (phdr_at m h i) = true ->
    seg_end m (phdr_at m h i) = 4096 * (seg_page m (phdr_at m h i) + seg_pages m (phdr_at m h i)) /\ 0 <= seg_page m (phdr_at m h i) /\ 0 <= seg_pages m (phdr_at m h i)).
  { intros i Hi Hl. destruct (ei_segment _ _ _ HI i Hi Hl) as (_ & [q Hq] & _). unfold seg_end, seg_page, seg_pages. rewrite Hq.
    pose proof (ld32_range m (p_vaddr (phdr_at m h i))). pose proof (ld32_range m (p_memsz (phdr_at m h i))). rewrite Z.div_mul by lia. split_and!; [lia | lia | div_lia]. }
  assert (Hrange : r = 4096 * (r / 4096) /\ 0 <= r / 4096 < USER_END).
  { destruct Hr as [->|(i & Hi & Hl & ->)]; [done|]. destruct (Hseg i Hi Hl) as (E & E1 & E2). rewrite E. specialize (Hroom i Hi Hl).
    rewrite Z.mul_comm, Z.div_mul by lia. lia. }
  destruct Hrange as [Er Hrv]. split_and!; [done | lia | lia |]. intros (i & Hi & Hl & Hx). specialize (Hmax i Hi Hl).
  destruct (Hseg i Hi Hl) as (E & _ & _). lia.
Qed.

(** What the rest of [create_process] and the thread's start may write. *)
Definition elsewhere (T : list Z) (H : list block) (PS : list hpage) (b : Z) : Prop :=
  heap_fp PS b \/ unheld H b \/ sched_bytes T b.

(** The memory the space is built from is off the heap and the scheduler. *)
Lemma arena_off T H PS k b : heap_ok H PS k -> sched_safe T H PS -> unheld H b -> ~ heap_fp PS b /\ ~ sched_bytes T b.
Proof.
  intros HK Hs Hb. split; [intros Hf; by apply (heap_fp_held _ _ _ _ HK Hf)|]. intros Hx.
  apply (Hs b); [by left | by right].
Qed.

(** So the process keeps its address space while its thread is made. *)
Lemma space_stays T H PS k pd G H5 k5 m' :
  heap_ok H PS k -> sched_safe T H PS -> kernel_space T H PS (k_mem k) -> space pd (unheld H) G H5 k5 ->
  (forall d, USER_END / 1024 <= d < 1024 -> pde pd (k_mem k5) d = pde kernel_page_directory (k_mem k) d) ->
  untouched (elsewhere T H5 PS) (k_mem k5) m' -> forall x, 0 <= x < 2 ^ 20 -> translate m' pd x = translate (k_mem k5) pd x.
Proof.
  intros HK Hsafe [_ _ KQ] [S1 S2 S3 S4 S5 S6] Hdir Hu. pose proof (fun b => arena_off T H PS k b HK Hsafe) as Hoff.
  assert (Hfar : forall b, unheld H b -> ~ unheld H5 b -> ~ elsewhere T H5 PS b) by (intros b Hb Hn; destruct (Hoff b Hb); intros [Hx|[Hx|Hx]]; done).
  assert (HT : tables_ok pd (k_mem k5) (elsewhere T H5 PS)); [|exact (proj2 (proj2 (tables_frame pd _ m' _ _ HT Hu (fun b Hb => Hb))))].
  destruct S3 as [T1 T2 T3 T4 T5], S4 as [C1 C2 C3]. split; try done.
  - intros b Hb. apply Hfar; [by apply S6, C1 | by apply T2].
  - intros d b Hd Hs Hb. destruct (Z.lt_ge_cases d (USER_END / 1024)) as [Hlt|Hge].
    + apply Hfar; [apply S6, (C3 d b); [lia | done | done] | by apply (T4 d b)].
    + assert (Hd' : USER_END / 1024 <= d < 1024) by lia. pose proof (Hdir d Hd') as E.
      assert (Hs' : small kernel_page_directory (k_mem k) d) by (revert Hs; unfold small, present; by rewrite E).
      assert (Hb' : range (table kernel_page_directory (k_mem k) d) 4096 b) by (revert Hb; unfold table; by rewrite E).
      destruct (KQ d b Hd' Hs' Hb') as [Hq Hn]. intros [Hx|[Hx|Hx]]; [apply Hq; by left | by apply (T4 d b) | done].
Qed.

(** What [create_process] needs: the image and the kernel's tables in memory
    that is in use. *)
Record process_ready (T R S : list Z) (H : list block) (PS : list hpage) (h len : Z) (k : kernel) : Prop := {
  pr_heap : heap_ok H PS k;
  pr_cursor : cursor_ok (k_vga k);
  pr_placed : placed T;
  pr_rep : sched_rep T (k_mem k) R S;
  pr_safe : sched_safe T H PS;
  pr_count : Z.of_nat (Datatypes.S (length T)) < 2 ^ 32 /\ 0 <= thread_id (k_sched k) < 2 ^ 32;
  pr_space : kernel_space T H PS (k_mem k);
  pr_image : elf_image (k_mem k) h len;
  pr_quiet : forall b, range h len b -> quiet H PS b;
  pr_room : stack_room (k_mem k) h }.

(** The address space [pd] with its stack page [v] in the state [k']. *)
Record space_built (T : list Z) (H : list block) (PS : list hpage) (k : kernel) (h pd v : Z) (H' : list block) (k' : kernel) : Prop := {
  sb_grows : grows H PS k H' PS k';
  sb_pd : 0 <= pd < 2 ^ 32;
  sb_page : 0 <= v < USER_END;
  sb_end : image_end (k_mem k) h (4096 * v);
  sb_user : forall m', untouched (elsewhere T H' PS) (k_mem k') m' -> user_space (k_mem k) h pd v m' }.

(** The rest of [create_process]. *)
Definition process_thread (pd entry user_esp : Z) : M Z :=
  stack_info ← setup_kerenl_stack entry user_esp;
  thread ← kmalloc sizeof_Thread;
  start_thread thread (kernel_esp stack_info) (kernel_stack_base stack_info) pd.

(** The facts about the final address space. *)
Lemma built_user T R S H PS h len k pd G1 H1 k2 G3 H3 k3 G5 H5 k5 v j X :
  process_ready T R S H PS h len k -> space pd (unheld H) G5 H5 k5 ->
  (forall d, 0 <= d < 1024 -> pde pd (k_mem k2) d = pde kernel_page_directory (k_mem k) d) ->
  (forall x, 0 <= x < 2 ^ 20 -> translate (k_mem k2) pd x = translate (k_mem k) kernel_page_directory x) ->
  extends pd X G1 H1 k2 G3 H3 k3 -> extends pd (fun x => x = v) G3 H3 k3 G5 H5 k5 ->
  (forall i, 0 <= i < ld16 (k_mem k) (e_phnum h) -> loadable (k_mem k) (phdr_at (k_mem k) h i) = true ->
     segment_loaded pd (unheld H) (k_mem k) h (phdr_at (k_mem k) h i) (k_mem k3) G3) ->
  ~ image_page (k_mem k) h v -> 0 <= v < USER_END -> translate (k_mem k5) pd v = Some (j, true, true) ->
  forall m', untouched (elsewhere T H5 PS) (k_mem k5) m' -> user_space (k_mem k) h pd v m'.
Proof.
  intros [HK _ _ _ Hsafe _ HKS HI _ Hroom] HSp Hpde Htr X1 X2 Hseg Hnv Hv Hst m' Hu. pose proof (fun b => arena_off T H PS k b HK Hsafe) as Hoff.
  assert (Hdir : forall d, USER_END / 1024 <= d < 1024 -> pde pd (k_mem k5) d = pde kernel_page_directory (k_mem k) d).
  { intros d Hd. rewrite (ex_dir _ _ _ _ _ _ _ _ X2), (ex_dir _ _ _ _ _ _ _ _ X1) by done. apply Hpde.
    change (USER_END / 1024) with 768 in Hd. lia. }
  pose proof (space_stays T H PS k pd G5 H5 k5 m' HK Hsafe HKS HSp Hdir Hu) as Hstay.
  pose proof (sp_covered _ _ _ _ _ HSp) as [_ CF _]. unfold USER_END in Hv. split.
  - intros i q Hi p Hl Hq. pose proof (Hseg i Hi Hl q Hq) as Hpg. fold p in Hpg.
    pose proof (Hroom i Hi Hl) as Hr. fold p in Hr. pose proof (ld32_range (k_mem k) (p_vaddr p)).
    assert (Hx : 0 <= seg_page (k_mem k) p + q < 2 ^ 20) by (unfold seg_page, USER_END in *; div_lia).
    apply (user_page_keep pd _ _ _ _ _ _ _ _ _ _ _ X2) in Hpg; [|done | intros E; apply Hnv; rewrite <- E; exists i; fold p; split; [done | split; [done | lia]]].
    destruct Hpg as (f & Hf & Hfr & Hb). exists f. split; [by rewrite Hstay|]. intros b Hbb. rewrite <- Hb by done. apply Hu.
    destruct (Hfr (P2V (4096 * f) + b) ltac:(unfold range; lia)) as [Ha Hg]. destruct (Hoff _ Ha).
    intros [Hx'|[Hx'|Hx']]; [done | by apply Hg, CF | done].
  - exists j. rewrite Hstay by lia. done.
  - intros x Hx. rewrite Hstay by (unfold USER_END in Hx; lia).
    rewrite (ex_window _ _ _ _ _ _ _ _ X2), (ex_window _ _ _ _ _ _ _ _ X1), Htr by (done || (unfold USER_END in Hx; lia)). done.
Qed.

Lemma build_space_spec T R S H PS h len k (Q : Z -> kernel -> Prop) :
  process_ready T R S H PS h len k ->
  (forall pd v H' k', space_built T H PS k h pd v H' k' ->
     wpe out_of_memory (process_thread pd (ld32 (k_mem k) (e_entry h)) (u32 (4096 * v + 4096))) k' Q) ->
  wpe out_of_memory (create_process h) k Q.
Proof.
  intros HR HQ. pose proof HR as [HK Hc HP Hrep Hsafe _ HKS HI Hquiet Hroom]. unfold create_process.
  apply wpe_bind. destruct (pa_alloc k H 0 (hk_pages _ _ _ HK) ltac:(done) Hc) as [Hw|Hs]; [|by eapply wpe_stops].
  apply wpe_wp. eapply wp_mono; [exact Hw|]. intros r k1 (i & -> & _ & HA1 & Hf1). cbv zeta.
  pose proof (fun b => fresh_page k1 H i b HA1) as Hfresh. destruct (block_bytes _ _ i 0 HA1 ltac:(left)) as [Ev _].
  destruct (pa_block _ _ i 0 HA1 ltac:(left)) as (_ & Hi1 & _ & Hi3). change (2 ^ 0) with 1 in Hi3. set (f := P2V (4096 * i)) in *.
  destruct (to_pd _ _ _ (ks_tables _ _ _ _ HKS)) as [D1 D2].
  assert (Hap : apart f 4096 kernel_page_directory 4096).
  { apply ranges_apart; [lia | lia |]. intros b Hb Hx. apply (to_pd_off _ _ _ (ks_tables _ _ _ _ HKS) b Hx). by apply Hfresh. }
  apply wpe_bind, wpe_wp. eapply wp_mono; [apply (kmemcpy_spec f kernel_page_directory 0x1000 k1); unfold apart, KERNEL_VIRTUAL_BASE in *; lia|].
  intros _ k2 (_ & m2 & -> & Hu2 & Hcp).
  destruct (copied_space T H PS k k1 i m2 HKS Hc HA1 Hf1 Hu2 Hcp) as (S2 & Hpde & Htr & HU). fold f in S2, Hpde, Htr.
  set (H1 := (i, 0) :: H) in *. set (G1 := fun b => range f 4096 b \/ unheld H1 b) in *.
  assert (HG1 : forall b, G1 b -> unheld H b) by (apply (sp_arena _ _ _ _ _ S2)).
  assert (Hqh : forall b, range h len b -> ~ unheld H b) by (intros b Hb Hx; apply (Hquiet b Hb); by right).
  apply wpe_bind. eapply wpe_mono; [apply (load_elf_spec (k_mem k) f (unheld H) G1 H1 h len); [done | | exact S2 |]|].
  { intros b Hb. cbn [k_mem set_mem]. apply HU. by apply Hqh. }
  { intros b Hb Hx. by apply (Hqh b Hb), HG1. }
  intros r k3 (G3 & H3 & S3 & X3 & Hend & Hseg).
  destruct (image_end_page _ _ _ _ HI Hroom Hend) as (Er & Hv & Hnv). set (v := r / 4096) in *.
  apply wpe_bind. destruct (pa_alloc k3 H3 0 (sp_pages _ _ _ _ _ S3) ltac:(done) (sp_cursor _ _ _ _ _ S3)) as [Hw4|Hs]; [|by eapply wpe_stops].
  apply wpe_wp. eapply wp_mono; [exact Hw4|]. clear Hw4. intros r' k4 (j & -> & _ & HA4 & Hf4).
  destruct (pa_block _ _ j 0 HA4 ltac:(left)) as (_ & Hj1 & _ & Hj3). change (2 ^ 0) with 1 in Hj3.
  pose proof (fresh_space f (unheld H) G3 H3 j k3 k4 (k_mem k4) S3 HA4 Hf4 ltac:(done)) as (S4 & _ & _ & _).
  pose proof (fresh_extends f (unheld H) G3 H3 j k3 k4 (k_mem k4) S3 HA4 Hf4 ltac:(done)) as X4.
  replace (set_mem (k_mem k4) k4) with k4 in S4, X4 by (by destruct k4).
  set (G4 := fun b => G3 b /\ ~ range (P2V (4096 * j)) 4096 b) in *. set (H4 := (j, 0) :: H3) in *.
  assert (Himg : agree (k_mem k) (k_mem k4) h len).
  { intros b Hb. specialize (Hqh b Hb). rewrite (ex_mem _ _ _ _ _ _ _ _ X4) by (intros Hx; by apply Hqh, HG1, (ex_sub _ _ _ _ _ _ _ _ X3)).
    rewrite (ex_mem _ _ _ _ _ _ _ _ X3) by (intros Hx; by apply Hqh, HG1). by apply HU. }
  destruct HI as [[I1 I2] I3 [I4 I5] I6 I7] eqn:EI. clear EI. unfold sizeof_Elf32_Ehdr in I4.
  apply wpe_bind. eapply wpe_access; [unfold e_entry; lia | unfold e_entry; lia | reflexivity | cbv beta].
  rewrite (ld32_agree (k_mem k)) by (eapply agree_sub; [exact Himg | unfold e_entry; lia..]).
  rewrite Er. apply wpe_bind.
  eapply wpe_mono; [apply (map_user_page f (unheld H) G4 H4 k4 v j _ S4); [lia | lia | done | done | done]|].
  intros [] k5 (H5 & S5 & X5 & Htv). pose proof (extends_trans _ _ _ _ _ _ _ _ _ _ _ _ X4 X5) as X45.
  pose proof (extends_trans _ _ _ _ _ _ _ _ _ _ _ _ X3 X45) as X35.
  apply (extends_mono _ _ (fun x => x = v)) in X45; [|intros x [[]|Hx]; exact Hx].
  apply (HQ f v H5 k5). split.
  - destruct X35 as [_ (new & EH) Y3 _ _ _ _ (m5 & b5 & Ek)]. destruct Hf1 as (m1 & b1 & -> & Hu1).
    assert (Ek5 : k5 = set_buddy b5 (set_mem m5 k)) by (rewrite Ek; by destruct k). rewrite Ek in Y3. cbn [k_mem set_mem set_buddy] in Y3.
    pose proof (sp_pages _ _ _ _ _ S5) as HA5. unfold H1 in EH. replace (new ++ (i, 0) :: H) with ((new ++ [(i, 0)]) ++ H) in EH by (by rewrite <- app_assoc).
    rewrite EH, Ek5 in *. apply unheld_grows; [done | done |]. eapply untouched_trans; [exact HU|]. eapply untouched_mono; [exact HG1 | exact Y3].
  - unfold KERNEL_VIRTUAL_BASE in *. lia.
  - done.
  - by rewrite <- Er.
  - apply (built_user T R S H PS h len k f G1 H1 (set_mem m2 k1) G3 H3 k3 G4 H5 k5 v j (image_page (k_mem k) h)); [exact HR | exact S5 | exact Hpde | exact Htr | exact X3 | exact X45 | exact Hseg | exact Hnv | exact Hv | exact Htv].
Qed.

(** ** The thread of the process *)

(** The words [iret] will take. *)
Definition iret_words (m : memory) (sp : Z) : list Z :=
  [ld32 m sp; ld32 m (sp + 4); ld32 m (sp + 8); ld32 m (sp + 12); ld32 m (sp + 16)].

Lemma process_stack_spec entry user_esp top k :
  KERNEL_VIRTUAL_BASE + 56 <= top -> top <= 2 ^ 32 -> 0 <= entry < 2 ^ 32 -> 0 <= user_esp < 2 ^ 32 -> 0 <= launch_process_addr < 2 ^ 32 ->
  wp (push_words top (process_stack entry user_esp)) k (fun sp k' => exists m', k' = set_mem m' k /\ sp = top - 56 /\
    frame m' sp no_regs launch_process_addr /\ iret_words m' (sp + 36) = [entry; 0x1B; 0x200; user_esp; 0x23] /\
    untouched (range sp 56) (k_mem k) m').
Proof.
  intros H1 H2 H3 H4 H5. unfold process_stack. apply push_words_spec; cbn [length].
  - change (4 * Z.of_nat 14) with 56. lia.
  - done.
  - rewrite !Forall_cons. split_and!; first [lia | done | cbn; lia].
  - change (4 * Z.of_nat 14) with 56. intros m' U' W'. exists m'. split; [done|]. split; [done|].
    assert (HW : forall i v, ([0x23; user_esp; 0x200; 0x1B; entry; launch_process_addr; 0; 0; 0; 0; 0; 0; 0; 0] !! i) = Some v ->
      ld32 m' (top - 56 + (52 - 4 * Z.of_nat i)) = v).
    { intros i v Hi. rewrite <- (W' i v Hi). f_equal. lia. }
    set (sp := top - 56) in *. unfold frame, no_regs, iret_words. replace (sp + 36 + 4) with (sp + 40) by lia.
    replace (sp + 36 + 8) with (sp + 44) by lia. replace (sp + 36 + 12) with (sp + 48) by lia. replace (sp + 36 + 16) with (sp + 52) by lia.
    rewrite (HW 0%nat 0x23 eq_refl : ld32 m' (sp + 52) = _), (HW 1%nat user_esp eq_refl : ld32 m' (sp + 48) = _),
      (HW 2%nat 0x200 eq_refl : ld32 m' (sp + 44) = _), (HW 3%nat 0x1B eq_refl : ld32 m' (sp + 40) = _), (HW 4%nat entry eq_refl : ld32 m' (sp + 36) = _),
      (HW 5%nat launch_process_addr eq_refl : ld32 m' (sp + 32) = _), (HW 6%nat 0 eq_refl : ld32 m' (sp + 28) = _), (HW 7%nat 0 eq_refl : ld32 m' (sp + 24) = _),
      (HW 8%nat 0 eq_refl : ld32 m' (sp + 20) = _), (HW 9%nat 0 eq_refl : ld32 m' (sp + 16) = _), (HW 11%nat 0 eq_refl : ld32 m' (sp + 8) = _),
      (HW 12%nat 0 eq_refl : ld32 m' (sp + 4) = _).
    pose proof (HW 13%nat 0 eq_refl : ld32 m' (sp + 0) = 0) as W0. rewrite Z.add_0_r in W0. rewrite W0. done.
Qed.

Lemma process_thread_spec T R S H PS h len k pd v H' k' :
  process_ready T R S H PS h len k -> space_built T H PS k h pd v H' k' -> 0 <= launch_process_addr < 2 ^ 32 ->
  let entry := ld32 (k_mem k) (e_entry h) in
  wpe out_of_memory (process_thread pd entry (u32 (4096 * v + 4096))) k' (fun t k'' => exists sp H'' PS'',
    spawned T R S H PS k t sp launch_process_addr H'' PS'' k'' /\ ld32 (k_mem k'') (thread_pd t) = pd /\
    sp + 56 = ld32 (k_mem k'') (thread_stack t) + 4096 /\
    forall m, untouched (sched_bytes T) (k_mem k'') m -> user_space (k_mem k) h pd v m /\
      iret_words m (sp + 36) = [entry; 0x1B; 0x200; 4096 * v + 4096; 0x23]).
Proof.
  intros [HK Hc HP Hrep Hsafe [Hlen Hid] _ _ _ _] [G5 Hpd Hv Hend Huser] Hl entry. pose proof (gw_heap _ _ _ _ _ _ G5) as HK5.
  assert (Hc5 : cursor_ok (k_vga k')) by (destruct (gw_call _ _ _ _ _ _ G5) as (? & ? & ? & ->); done).
  unfold USER_END in Hv. rewrite u32_small by lia. unfold process_thread, setup_kerenl_stack.
  apply wpe_bind, wpe_bind. eapply wpe_mono; [by apply (kmalloc_page_grows H' PS k')|].
  intros stk k6 (i & -> & G6 & K6 & _). set (H6 := (i, 0) :: H') in *. pose proof K6 as (B1 & B2 & B3). set (st := P2V (4096 * i)) in *.
  pose proof (ld32_range (k_mem k) (e_entry h)) as He. unfold KERNEL_VIRTUAL_BASE in B1.
  unfold process_stack. rewrite push_words_top. fold (process_stack entry (4096 * v + 4096)).
  apply wpe_bind, wpe_wp. eapply wp_mono; [apply (process_stack_spec entry (4096 * v + 4096) (st + 4096)); unfold KERNEL_VIRTUAL_BASE; try done; lia|].
  intros sp k7 (m7 & -> & -> & Hfr & Hir & U7). set (sp := st + 4096 - 56) in *. apply wpe_ret. cbn [kernel_esp kernel_stack_base].
  assert (Hstk : forall b, range sp 56 b -> range st 4096 b) by (unfold sp, range; intros; lia).
  assert (G7 : grows H' PS k' H6 PS (set_mem m7 k6)).
  { eapply grows_write; [exact G6 | exact U7 |]. intros b Hb. by apply B3, Hstk. }
  pose proof (grows_trans _ _ _ _ _ _ _ _ _ G5 G7) as G57. set (k7 := set_mem m7 k6) in *.
  assert (Hc7 : cursor_ok (k_vga k7)) by (destruct (gw_call _ _ _ _ _ _ G57) as (? & ? & ? & ->); done).
  apply wpe_bind. eapply wpe_mono; [apply (kmalloc_small_grows sizeof_Thread H6 PS k7 (gw_heap _ _ _ _ _ _ G7) Hc7); unfold sizeof_Thread; lia|].
  intros t k8 (s & H8 & PS8 & _ & _ & G8 & K8 & _). pose proof K8 as (_ & _ & T3). unfold sizeof_Thread in T3.
  pose proof (grows_trans _ _ _ _ _ _ _ _ _ G57 G8) as G58. pose proof (grows_trans _ _ _ _ _ _ _ _ _ G7 G8) as G78.
  assert (Hst8 : agree (k_mem k7) (k_mem k8) sp 56) by (intros b Hb; apply (gw_mem _ _ _ _ _ _ G8); by apply B3, Hstk).
  assert (Hoff : forall b, range sp 56 b -> ~ quiet H PS b /\ quiet H8 PS8 b /\ ~ range t 36 b).
  { intros b Hb. destruct (B3 b (Hstk b Hb)) as [Hn Hq]. split_and!; [intros Hx; by apply Hn, (gw_quiet _ _ _ _ _ _ G5) | by apply (gw_quiet _ _ _ _ _ _ G8)|].
    intros Hx. by destruct (T3 b Hx). }
  apply wpe_wp. eapply wp_mono; [apply (spawn_spec T R S H PS k H8 PS8 k8 t sp launch_process_addr st pd HP Hrep Hsafe Hlen G58)|].
  - exact (taken_before _ _ _ _ _ _ _ _ _ _ G57 K8).
  - eapply frame_agree; [exact Hfr|]. eapply agree_sub; [exact Hst8 | lia | lia].
  - unfold sp, KERNEL_VIRTUAL_BASE. lia.
  - unfold sp. lia.
  - intros b Hb. apply Hoff. unfold range in *. lia.
  - unfold st, P2V. apply u32_range.
  - done.
  - destruct (gw_call _ _ _ _ _ _ G58) as (? & ? & ? & ->). done.
  - intros r k9 (-> & HW & Est & Epd & Hu). exists sp, H8, PS8. split_and!; [done | done | rewrite Est; unfold sp; lia |].
    intros m Hum. assert (Hu' : untouched (fun b => range t 36 b \/ sched_bytes T b) (k_mem k8) m).
    { eapply untouched_trans; [exact Hu|]. eapply untouched_mono; [|exact Hum]. auto. }
    split.
    + apply Huser. intros b Hb. unfold elsewhere in Hb.
      assert (Hq : quiet H' PS b) by (intros [Hx|Hx]; apply Hb; auto).
      rewrite Hu'; [by apply (gw_mem _ _ _ _ _ _ G78)|]. intros [Hx|Hx]; [|apply Hb; auto].
      destruct (T3 b Hx) as [Hn _]. by apply Hn, (gw_quiet _ _ _ _ _ _ G7).
    + assert (Hag : agree m7 m sp 56).
      { intros b Hb. destruct (Hoff b Hb) as (Hn & _ & Hn'). rewrite Hu'; [by apply Hst8|]. intros [Hx|Hx]; [done|]. apply Hn, Hsafe. by left. }
      rewrite <- Hir. unfold iret_words. rewrite !(ld32_agree m7 m) by (eapply agree_sub; [exact Hag | lia..]). done.
Qed.

(** The whole of [create_process]; the address space and the frame stay while only
    the scheduler writes. *)
Lemma create_process_spec T R S H PS h len k :
  process_ready T R S H PS h len k -> 0 <= launch_process_addr < 2 ^ 32 ->
  wpe out_of_memory (create_process h) k (fun t k' => exists sp v H' PS',
    spawned T R S H PS k t sp launch_process_addr H' PS' k' /\ image_end (k_mem k) h (4096 * v) /\
    sp + 56 = ld32 (k_mem k') (thread_stack t) + 4096 /\
    forall m, untouched (sched_bytes T) (k_mem k') m -> user_space (k_mem k) h (ld32 (k_mem k') (thread_pd t)) v m /\
      iret_words m (sp + 36) = [ld32 (k_mem k) (e_entry h); 0x1B; 0x200; 4096 * v + 4096; 0x23]).
Proof.
  intros HR Hl. eapply (build_space_spec T R S H PS h len k); [exact HR|]. intros pd v H' k' HB.
  eapply wpe_mono; [by apply (process_thread_spec T R S H PS h len k pd v H' k')|].
  intros t k'' (sp & H'' & PS'' & P1 & P2 & P3 & P4). exists sp, v, H'', PS''. rewrite P2.
  split_and!; try done. apply (sb_end _ _ _ _ _ _ _ _ _ HB).
Qed.
End process.

(** ** The properties *)

(** C28: [create_process] of a well-formed image, on any page allocator that keeps
    its interface, makes a process: an address space of its own with every segment
    of the image at its address (file bytes, zeros behind them, writable as its
    flags say), a writable stack page behind the last segment, and the kernel's
    window exactly as the kernel has it; and a thread, last in the ready queue,
    whose kernel stack resumes at [launch_process] with the frame that enters ring
    3 at the image's entry point with the top of the stack page.  All memory in
    use, all threads and the scheduler's and heap's invariants are kept.  Or the
    page allocator is out of memory. *)
Theorem create_process_correct `{BS : BuddySymbols} `{HS : HeapSymbols} `{TS : TableSymbols} `{SS : SchedSymbols} `{PR : ProcessSymbols}
    `{PA : !PageAllocator pmm_alloc pmm_free get_order_addr} T R S H PS h len k :
  process_ready T R S H PS h len k -> 0 <= launch_process_addr < 2 ^ 32 ->
  wpe out_of_memory (create_process h) k (fun t k' => exists sp v H' PS',
    spawned T R S H PS k t sp launch_process_addr H' PS' k' /\ image_end (k_mem k) h (4096 * v) /\
    user_space (k_mem k) h (ld32 (k_mem k') (thread_pd t)) v (k_mem k') /\
    sp + 56 = ld32 (k_mem k') (thread_stack t) + 4096 /\
    iret_words (k_mem k') (sp + 36) = [ld32 (k_mem k) (e_entry h); 0x1B; 0x200; 4096 * v + 4096; 0x23]).
Proof.
  intros HR Hl. eapply wpe_mono; [by apply (create_process_spec T R S H PS h len k)|].
  intros t k' (sp & v & H' & PS' & P1 & P2 & P3 & P4). exists sp, v, H', PS'. destruct (P4 (k_mem k')) as [P5 P6]; done.
Qed.

(** C29: [launch_process], running in ring 0 on the frame [create_process] left,
    enters ring 3: it jumps to the entry point with the user code segment, the
    user data selector in all four data segment registers, the user stack and the
    flags 0x200 (interrupts enabled), and writes no memory. *)
Theorem launch_process_correct entry user_esp k :
  let sp := esp (k_cpu k) in
  KERNEL_VIRTUAL_BASE <= sp -> sp + 20 < 2 ^ 32 -> Z.land (seg_cs (k_cpu k)) 3 = 0 ->
  iret_words (k_mem k) sp = [entry; 0x1B; 0x200; user_esp; 0x23] ->
  wp launch_process k (fun r k' => r = (entry, 0x200, Some 0x23) /\ esp (k_cpu k') = user_esp /\
    seg_cs (k_cpu k') = 0x1B /\ segs (k_cpu k') = all_segs 0x23 /\ eflags_if (k_cpu k') = true /\ k_mem k' = k_mem k).
Proof.
  intros sp H1 H2 Hcs Hw. injection Hw as W0 W1 W2 W3 W4. unfold launch_process, iret. apply wp_bind, wp_modify, wp_bind, wp_gets.
  unfold KERNEL_VIRTUAL_BASE in H1.
  do 3 (apply wp_bind, pop32_spec; [unfold KERNEL_VIRTUAL_BASE; regs; fold sp; lia | regs; fold sp; lia|]).
  apply wp_bind, wp_modify. regs. fold sp. replace (sp + 4 + 4) with (sp + 8) by lia. rewrite W0, W1, W2.
  cbn [seg_cs set_segs k_cpu set_cpu set_regs]. rewrite Hcs. change (Z.land 27 3 =? 0) with false. cbv iota.
  do 2 (apply wp_bind, pop32_spec; [unfold KERNEL_VIRTUAL_BASE; regs; cbn [esp set_if set_segs set_regs]; fold sp; lia | regs; cbn [esp set_if set_segs set_regs]; fold sp; lia|]).
  apply wp_bind, wp_modify, wp_ret. regs. cbn [esp set_if set_segs set_regs seg_cs segs eflags_if gprs k_cpu set_cpu k_mem].
  replace (sp + 8 + 4) with (sp + 12) by lia. replace (sp + 12 + 4) with (sp + 16) by lia. by rewrite W3, W4.
Qed.
