(* ===== verification/ProcessSample.v ===== *)
(** * Threads and processes on a concrete machine

    The machine of [ElfSample]: an empty kernel directory in page 0, the variables
    of the heap and the scheduler in page 1, the image in page 2, no thread yet. *)

From Stdlib Require Import ZArith Lia Bool.
From stdpp Require Import base functions list gmap strings.
From S2P Require Import Prelude Machine StringLib Console Node Queue Bump Buddy BuddyModel BuddyRefine BuddyInit Pmm PmmSample Devices Descriptors Heap HeapModel HeapSteps HeapPages HeapCompact HeapAlloc HeapFree HeapTheorems HeapClient HeapSample Sched SchedModel Switch SchedTheorems Threads Paging PagingTheorems UserSpace Elf ElfTheorems ElfSample Process ProcessTheorems.

#[local] Existing Instance sample_symbols.
#[local] Existing Instance user_pages.
#[local] Existing Instance user_heap.
#[local] Instance image_tables : TableSymbols :=
  {| gdt := 0; gdtr_var := 0; tss := 0xC0001300; idt := 0; idt_descriptor := 0; isr_stub_table := 0 |}.
#[local] Instance image_sched : SchedSymbols :=
  {| que := 0xC0001200; sleep_que := 0xC0001210; zombie_que := 0xC0001220; kernel_page_directory := 0xC0000000;
     kthread_stub_addr := 0xC0003000; reaper_main_addr := 0xC0003100 |}.
#[local] Instance image_process : ProcessSymbols := {| launch_process_addr := 0xC0003200 |}.

Local Abbreviation img := (k_mem image_machine).

Lemma image_blank :
  last_chunk (k_heap image_machine) = 0 /\ thread_id (k_sched image_machine) = 1 /\
  forallb (fun o => ld32 img (0xC0001000 + 4 * o) =? 0) (seqZ 0 256) = true /\
  forallb (fun d => pde 0xC0000000 img d =? 0) (seqZ 0 1024) = true.
Proof. vm_compute. split_and!; reflexivity. Qed.

Lemma thread_runs : is_ok (thread_create 0xC0003300 7 image_machine) = true.
Proof. vm_compute. reflexivity. Qed.

#[local] Opaque image_machine.

Lemma image_zero i : 0 <= i < 256 -> ld32 img (0xC0001000 + 4 * i) = 0.
Proof.
  destruct image_blank as (_ & _ & Hall & _). rewrite forallb_forall in Hall.
  intros Hi. apply Z.eqb_eq, Hall, list_elem_of_In, elem_of_seqZ. lia.
Qed.

Lemma image_absent d : 0 <= d < 1024 -> pde 0xC0000000 img d = 0.
Proof.
  destruct image_blank as (_ & _ & _ & Hall). rewrite forallb_forall in Hall.
  intros Hd. apply Z.eqb_eq, Hall, list_elem_of_In, elem_of_seqZ. lia.
Qed.

(** The pages below 8 are neither the allocator's nor the heap's, but for the
    heap's variables. *)
Lemma low_quiet b : 0xC0000000 <= b < 0xC0008000 -> ~ 0xC0001000 <= b < 0xC0001104 -> quiet [] [] b.
Proof.
  intros Hb Hn [[[Hs|Hs]|(x & Hx & _)]|[[Hf|Hf]|[Hl _]]]; try (by apply elem_of_nil in Hx);
    unfold range, sizeof_Page, KERNEL_VIRTUAL_BASE in *; cbn in *; lia.
Qed.

Lemma image_heap : heap_ok [] [] image_machine.
Proof.
  apply heap_blank.
  - exact (proj1 image_owned).
  - unfold statics_ok, apart, KERNEL_VIRTUAL_BASE. cbn. lia.
  - unfold statics, range, KERNEL_VIRTUAL_BASE. cbn. unfold bfp, range, sizeof_Page. cbn. lia.
  - exact (proj1 image_blank).
  - exact (image_zero 64 ltac:(lia)).
  - intros o Ho. unfold bucket_at. cbn [free_bucket user_heap]. apply image_zero. lia.
Qed.

Lemma queue_cases q : q ∈ queues -> q = 0xC0001200 \/ q = 0xC0001210 \/ q = 0xC0001220.
Proof. unfold queues. rewrite !elem_of_cons, elem_of_nil. cbn. tauto. Qed.

Lemma image_placed : placed [].
Proof.
  split; try (intros t Ht; by apply elem_of_nil in Ht); try (intros a t Ha Ht; by apply elem_of_nil in Ht).
  - constructor.
  - cbn. lia.
  - intros q Hq. apply queue_cases in Hq. unfold KERNEL_VIRTUAL_BASE, sizeof_DLList. lia.
  - intros q q' Hq Hq' Hne. apply queue_cases in Hq, Hq'. unfold apart, sizeof_DLList. lia.
  - repeat constructor; unfold queues; rewrite ?elem_of_cons, ?elem_of_nil; cbn; lia.
  - unfold KERNEL_VIRTUAL_BASE, sizeof_TSS_ENTRY. cbn. lia.
  - intros q Hq. apply queue_cases in Hq. unfold apart, sizeof_TSS_ENTRY, sizeof_DLList. cbn. lia.
Qed.

Lemma empty_queue (m : memory) q : ld32 m q = 0 -> ld32 m (q + 4) = 0 -> ld32 m (q + 8) = 0 -> queue m q [].
Proof. intros E1 E2 E3. unfold queue, list_head, list_tail, list_size. by split_and!. Qed.

Lemma image_sched_rep : sched_rep [] img [] [].
Proof.
  split.
  - apply empty_queue; [exact (image_zero 128 ltac:(lia)) | exact (image_zero 129 ltac:(lia)) | exact (image_zero 130 ltac:(lia))].
  - apply empty_queue; [exact (image_zero 132 ltac:(lia)) | exact (image_zero 133 ltac:(lia)) | exact (image_zero 134 ltac:(lia))].
  - constructor.
  - intros t Ht. by apply elem_of_nil in Ht.
Qed.

Lemma image_safe : sched_safe [] [] [].
Proof.
  assert (Hqs : forall q b, q ∈ queues -> range q sizeof_DLList b -> quiet [] [] b).
  { intros q b Hq Hb. apply queue_cases in Hq. unfold sizeof_DLList, range in Hb. apply low_quiet; lia. }
  intros b [[(q & Hq%run_queue & Hb)|(t & Ht & _)]|[(q & Hq & Hb)|Hb]]; [by apply (Hqs q) | by apply elem_of_nil in Ht | by apply (Hqs q) |].
  unfold range, sizeof_TSS_ENTRY in Hb. cbn in Hb. apply low_quiet; lia.
Qed.

Lemma image_space_ok : kernel_space [] [] [] img.
Proof.
  assert (Hno : forall d, 0 <= d < 1024 -> present 0xC0000000 img d = false) by (intros d Hd; unfold present; rewrite image_absent by lia; reflexivity).
  split.
  - apply empty_tables; [exact image_absent | unfold KERNEL_VIRTUAL_BASE; cbn; lia | cbn; lia |].
    intros b Hb Hx. apply (low_quiet b); [unfold range in Hb; cbn in Hb; lia | unfold range in Hb; cbn in Hb; lia | by right].
  - intros d Hd. change (USER_END / 1024) with 768 in Hd. apply Hno. lia.
  - intros d b Hd [Hs _]. change (USER_END / 1024) with 768 in Hd. exfalso. cbn [kernel_page_directory image_sched] in Hs. rewrite Hno in Hs by lia. discriminate Hs.
Qed.

(** There is room behind the image of [ElfSample]. *)
Lemma words_room (m : memory) h : (forall i w, image_words !! i = Some w -> ld32 m (h + 4 * Z.of_nat i) = w) -> ld16 m (e_phnum h) = 2 -> stack_room m h.
Proof.
  intros Hw Hn. destruct (words_code m h Hw) as (C1 & C2 & C3 & C4 & C5 & C6). destruct (words_data m h Hw) as (D1 & D2 & D3 & D4 & D5 & D6).
  unfold stack_room. rewrite Hn. intros i Hi _. unfold seg_page, seg_pages.
  destruct (words_segments m h Hw i Hi) as [[_ ->]|[_ ->]]; [rewrite C3, C5 | rewrite D3, D5]; vm_compute; reflexivity.
Qed.

Lemma image_ready : process_ready [] [] [] [] [] 0xC0002000 0x88 image_machine.
Proof.
  split.
  - exact image_heap.
  - exact (proj2 image_owned).
  - exact image_placed.
  - exact image_sched_rep.
  - exact image_safe.
  - destruct image_blank as (_ & Hid & _). rewrite Hid. cbn. lia.
  - exact image_space_ok.
  - exact image_ok.
  - intros b Hb. apply low_quiet; unfold range in Hb; lia.
  - destruct image_reads as (_ & Hnum & _ & _). exact (words_room img 0xC0002000 image_word Hnum).
Qed.

Lemma create_process_correct_witness :
  wpe out_of_memory (create_process 0xC0002000) image_machine (fun t k' => exists sp,
    sched_rep [t] (k_mem k') [t] [] /\ suspended [t] (k_mem k') t sp no_regs 0xC0003200 /\
    exists v f, translate (k_mem k') (ld32 (k_mem k') (thread_pd t)) v = Some (f, true, true)).
Proof.
  assert (Hl : 0 <= launch_process_addr < 2 ^ 32) by (cbn; lia).
  eapply wpe_mono; [exact (create_process_correct [] [] [] [] [] 0xC0002000 0x88 image_machine image_ready Hl)|].
  intros t k' (sp & v & H' & PS' & HW & _ & HU & _). exists sp.
  split; [exact (sw_rep _ _ _ _ _ _ _ _ _ _ _ _ HW)|]. split; [exact (sw_suspended _ _ _ _ _ _ _ _ _ _ _ _ HW)|].
  exists v. exact (us_stack _ _ _ _ _ HU).
Defined.

Lemma thread_created : exists t k', thread_create 0xC0003300 7 image_machine = Ok t k'.
Proof. exact (is_ok_run _ thread_runs). Qed.

Lemma thread_create_correct_witness : exists t k' sp, thread_create 0xC0003300 7 image_machine = Ok t k' /\
  sched_rep [t] (k_mem k') [t] [] /\ suspended [t] (k_mem k') t sp no_regs 0xC0003000.
Proof.
  destruct thread_created as (t & k' & E).
  assert (Hks : 0 <= kthread_stub_addr < 2 ^ 32) by (cbn; lia). assert (Hkd : 0 <= kernel_page_directory < 2 ^ 32) by (cbn; lia).
  assert (Hid : 0 <= thread_id (k_sched image_machine) < 2 ^ 32) by (rewrite (proj1 (proj2 image_blank)); lia).
  destruct (wpe_run _ _ _ _ _ _ (thread_create_correct [] [] [] [] [] 0xC0003300 7 image_machine image_heap (proj2 image_owned)
    image_placed image_sched_rep image_safe ltac:(cbn; lia) Hid ltac:(lia) ltac:(lia) Hks Hkd) E)
    as (sp & H' & PS' & HW & _).
  exists t, k', sp. split; [exact E|]. split; [exact (sw_rep _ _ _ _ _ _ _ _ _ _ _ _ HW) | exact (sw_suspended _ _ _ _ _ _ _ _ _ _ _ _ HW)].
Defined.

(** A thread is made, and taken apart again. *)
Lemma destroy_thread_correct_witness : exists t k, thread_create 0xC0003300 7 image_machine = Ok t k /\
  wp (destroy_thread t) k (fun _ k' => exists H' PS', heap_ok H' PS' k' /\ forall s, ~ live PS' (t - 12) s).
Proof.
  destruct thread_created as (t & k & E).
  assert (Hks : 0 <= kthread_stub_addr < 2 ^ 32) by (cbn; lia). assert (Hkd : 0 <= kernel_page_directory < 2 ^ 32) by (cbn; lia).
  assert (Hid : 0 <= thread_id (k_sched image_machine) < 2 ^ 32) by (rewrite (proj1 (proj2 image_blank)); lia).
  destruct (wpe_run _ _ _ _ _ _ (thread_create_spec [] [] [] [] [] 0xC0003300 7 image_machine image_heap (proj2 image_owned)
    image_placed image_sched_rep image_safe ltac:(cbn; lia) Hid ltac:(lia) ltac:(lia) Hks Hkd) E)
    as (sp & H & PS & HW & HO & _). pose proof (sw_heap _ _ _ _ _ _ _ _ _ _ _ _ HW) as HK.
  exists t, k. split; [exact E|]. eapply wp_mono; [exact (destroy_thread_correct H PS t k HK HO)|].
  intros _ k' (H' & PS' & HK' & _ & Hl & _). exists H', PS'. split; [exact HK'|]. intros s Hs. apply Hl in Hs as [_ Hne]. by apply Hne.
Defined.

Lemma launch_process_correct_witness : exists k, esp (k_cpu k) = 0xC0004000 /\
  wp launch_process k (fun r k' => r = (0x400000, 0x200, Some 0x23) /\ esp (k_cpu k') = 0x404000).
Proof.
  set (m := st_words ∅ 0xC0004000 [0x400000; 0x1B; 0x200; 0x404000; 0x23]).
  set (k := set_mem m (set_cpu (set_regs 0xC0004000 [0; 0; 0; 0; 0; 0; 0] (set_segs 8 (all_segs 16) (k_cpu empty_kernel))) empty_kernel)).
  exists k. split; [reflexivity|].
  eapply wp_mono; [apply (launch_process_correct 0x400000 0x404000 k); [cbn; unfold KERNEL_VIRTUAL_BASE; lia | cbn; lia | reflexivity | vm_compute; reflexivity]|].
  intros r k' (E1 & E2 & _). split; [exact E1 | exact E2].
Defined.
