(* ===== verification/ReaperSample.v ===== *)
(** * The reaper on a concrete machine

    Three threads are made on the machine of [ProcessSample]; the first is the
    reaper and runs, the second is the idle thread, the third has ended. *)

From Stdlib Require Import ZArith Lia Bool Sorted.
From stdpp Require Import base functions list gmap strings.
From S2P Require Import Prelude Machine StringLib Console Node Queue Bump Buddy BuddyModel BuddyRefine BuddyInit Pmm PmmSample Devices Descriptors Heap HeapModel HeapSteps HeapPages HeapCompact HeapAlloc HeapFree HeapTheorems HeapClient HeapSample Sched SchedModel Switch SchedTheorems Threads Reaper Paging PagingTheorems UserSpace Elf ElfTheorems ElfSample Process ProcessTheorems ProcessSample.

#[local] Existing Instance sample_symbols.
#[local] Existing Instance user_pages.
#[local] Existing Instance user_heap.
#[local] Existing Instance image_tables.
#[local] Existing Instance image_sched.

Definition reap_reaper : Z := 0xC000C020.
Definition reap_idle : Z := 0xC000C050.
Definition reap_zombie : Z := 0xC000C080.
Definition reap_threads : list Z := [reap_zombie; reap_idle; reap_reaper].

Definition three_threads : M (Z * Z * Z) :=
  a ← thread_create 0xC0003300 1; b ← thread_create 0xC0003300 2; c ← thread_create 0xC0003300 3; mret (a, b, c).

(** The queues and states once the third thread has ended. *)
Definition ended (m : memory) : memory :=
  let m := st32 (st32 (st32 m 0xC0001200 0) 0xC0001204 0) 0xC0001208 0 in
  let m := st32 (st32 (st32 m 0xC0001220 reap_zombie) 0xC0001224 reap_zombie) 0xC0001228 1 in
  let m := st32 (st32 m reap_zombie 0) (reap_zombie + 4) 0 in
  st32 (st32 (st32 m (thread_status reap_reaper) RUNNING) (thread_status reap_idle) IDLE) (thread_status reap_zombie) ZOMBIE.

Definition reap_kernel (k : kernel) : kernel :=
  set_sched (MkSched 0 11931 reap_reaper reap_idle 4 reap_reaper ∅) (set_mem (ended (k_mem k)) k).

Definition three_made (p : Z * Z * Z) (k : kernel) : Prop :=
  p = (reap_reaper, reap_idle, reap_zombie) /\ queue (ended (k_mem k)) que [] /\ queue (ended (k_mem k)) sleep_que [] /\
  queue (ended (k_mem k)) zombie_que [reap_zombie] /\ status (ended (k_mem k)) reap_reaper = RUNNING /\
  status (ended (k_mem k)) reap_idle = IDLE.

Lemma three_run : match three_threads image_machine with Ok p k => three_made p k | Stop _ _ => False end.
Proof. vm_compute. repeat split. Qed.

Lemma ended_untouched m : untouched (fun b => sched_bytes reap_threads b \/ sched_statics b) m (ended m).
Proof.
  intros b Hb.
  assert (Hq : forall q, q ∈ queues -> ~ range q 12 b) by (intros q Hq Hr; apply Hb; right; left; by exists q).
  assert (Ht : forall t, t ∈ reap_threads -> ~ range t 36 b) by (intros t Ht Hr; apply Hb; left; by apply (thread_byte reap_threads t)).
  pose proof (Hq que que_in). pose proof (Hq zombie_que zombie_in).
  pose proof (Ht reap_zombie ltac:(left)). pose proof (Ht reap_idle ltac:(right; left)). pose proof (Ht reap_reaper ltac:(right; right; left)).
  unfold ended, range, thread_status, reap_zombie, reap_idle, reap_reaper in *. cbn [que zombie_que image_sched] in *.
  rewrite !ld8_st32_ne by lia. reflexivity.
Qed.

(** One more thread, all of them still being objects of the heap. *)
Lemma one_more T R H PS arg k t k' :
  heap_ok H PS k -> cursor_ok (k_vga k) -> placed T -> sched_rep T (k_mem k) R [] -> sched_safe T H PS -> threads_live T PS ->
  (length T < 3)%nat -> 0 <= thread_id (k_sched k) < 2 ^ 32 -> 0 <= arg < 2 ^ 32 -> thread_create 0xC0003300 arg k = Ok t k' ->
  exists H' PS', heap_ok H' PS' k' /\ cursor_ok (k_vga k') /\ placed (t :: T) /\ sched_rep (t :: T) (k_mem k') (R ++ [t]) [] /\
    sched_safe (t :: T) H' PS' /\ threads_live (t :: T) PS' /\ 0 <= thread_id (k_sched k') < 2 ^ 32 /\ owned_thread H' PS' (k_mem k') t.
Proof.
  intros HK Hc HP HR Hs HT Hl Hid Ha E.
  assert (Hks : 0 <= kthread_stub_addr < 2 ^ 32) by (cbn; lia). assert (Hkd : 0 <= kernel_page_directory < 2 ^ 32) by (cbn; lia).
  destruct (wpe_run _ _ _ _ _ _ (thread_create_spec T R [] H PS 0xC0003300 arg k HK Hc HP HR Hs ltac:(lia) Hid ltac:(lia) Ha Hks Hkd) E)
    as (sp & H' & PS' & HW & HO & _ & _ & _ & HL). exists H', PS'.
  split_and!; [exact (sw_heap _ _ _ _ _ _ _ _ _ _ _ _ HW) | | exact (sw_placed _ _ _ _ _ _ _ _ _ _ _ _ HW) |
    exact (sw_rep _ _ _ _ _ _ _ _ _ _ _ _ HW) | exact (sw_safe _ _ _ _ _ _ _ _ _ _ _ _ HW) | | | |exact HO].
  - destruct (sw_rest _ _ _ _ _ _ _ _ _ _ _ _ HW) as [-> _]. exact Hc.
  - intros u [->|Hu]%elem_of_cons.
    + destruct HO as (i & s & _ & Hls & Hsz & _). by exists s.
    + destruct (HT u Hu) as (s & Hls & Hsz). exists s. split; [by apply HL | done].
  - rewrite (sw_sched _ _ _ _ _ _ _ _ _ _ _ _ HW). cbn. apply u32_range.
  - rewrite (sw_sched _ _ _ _ _ _ _ _ _ _ _ _ HW). cbn. apply u32_range.
Qed.

Lemma three_steps k0 (P : Z * Z * Z -> kernel -> Prop) :
  match three_threads k0 with Ok p k => P p k | Stop _ _ => False end ->
  exists a k1 b k2 c k3, thread_create 0xC0003300 1 k0 = Ok a k1 /\ thread_create 0xC0003300 2 k1 = Ok b k2 /\
    thread_create 0xC0003300 3 k2 = Ok c k3 /\ P (a, b, c) k3.
Proof.
  unfold three_threads, mbind, M_bind. destruct (thread_create _ 1 k0) as [a k1|] eqn:E1; [|done].
  destruct (thread_create _ 2 k1) as [b k2|] eqn:E2; [|done]. destruct (thread_create _ 3 k2) as [c k3|] eqn:E3; [|done].
  intros HP. by exists a, k1, b, k2, c, k3.
Qed.

Lemma three_setting k0 : heap_ok [] [] k0 -> cursor_ok (k_vga k0) -> placed [] -> sched_rep [] (k_mem k0) [] [] -> sched_safe [] [] [] ->
  0 <= thread_id (k_sched k0) < 2 ^ 32 ->
  match three_threads k0 with Ok p k => three_made p k | Stop _ _ => False end ->
  exists k H PS, population reap_threads reap_reaper reap_idle reap_reaper [] [] [reap_zombie] (reap_kernel k) /\
    placed reap_threads /\ heap_ok H PS (reap_kernel k) /\ threads_live reap_threads PS /\ owned_thread H PS (k_mem (reap_kernel k)) reap_zombie.
Proof.
  intros I1 I2 I3 I4 I5 Hid Hrun.
  destruct (three_steps k0 three_made Hrun) as (a & k1 & b & k2 & c & k3 & E1 & E2 & E3 & Ep & Q1 & Q2 & Q3 & S1 & S2).
  injection Ep as -> -> ->.
  assert (HT0 : threads_live [] []) by (intros t Ht; by apply elem_of_nil in Ht).
  destruct (one_more [] [] [] [] 1 k0 _ _ I1 I2 I3 I4 I5 HT0 ltac:(cbn; lia) Hid ltac:(lia) E1)
    as (H1 & PS1 & A1 & A2 & A3 & A4 & A5 & A6 & A7 & _).
  destruct (one_more _ _ _ _ 2 k1 _ _ A1 A2 A3 A4 A5 A6 ltac:(cbn; lia) A7 ltac:(lia) E2) as (H2 & PS2 & B1 & B2 & B3 & B4 & B5 & B6 & B7 & _).
  destruct (one_more _ _ _ _ 3 k2 _ _ B1 B2 B3 B4 B5 B6 ltac:(cbn; lia) B7 ltac:(lia) E3) as (H3 & PS3 & C1 & C2 & C3 & C4 & C5 & C6 & C7 & C8).
  fold reap_threads in *. exists k3, H3, PS3. pose proof (ended_untouched (k_mem k3)) as U. split_and!; [| exact C3 | | exact C6 |].
  - split; [split | split | split]; cbn [k_mem set_mem set_sched reap_kernel k_sched cur_thread idle_thread reaper].
    + split; [exact Q1 | exact Q2 | constructor | intros t Ht; by apply elem_of_nil in Ht].
    + split_and!; [reflexivity | right; right; left | apply not_elem_of_nil].
    + split_and!; [reflexivity | right; left | apply not_elem_of_nil | by rewrite S2].
    + constructor.
    + exact Q3.
    + apply NoDup_singleton.
    + intros t ->%list_elem_of_singleton. split; [left|]. cbn [app]. rewrite !elem_of_cons, elem_of_nil. vm_compute. intuition congruence.
    + reflexivity.
    + split_and!; [right; right; left | vm_compute; congruence | apply not_elem_of_nil].
    + rewrite S1. split; [done|]. intros Hx. by apply elem_of_nil in Hx.
  - apply (heap_ok_frame H3 PS3 k3); [exact C1 | reflexivity | reflexivity |]. cbn [k_mem set_mem set_sched reap_kernel]. intros x Hx.
    apply U. intros Hb. by apply (C5 x Hb).
  - destruct C8 as (i & s & O1 & O2 & O3 & O4). exists i, s. split_and!; try done. rewrite <- O4. apply ld32_agree.
    intros x Hx. cbn [k_mem set_mem set_sched reap_kernel]. unfold ended, range, thread_stack, thread_status, reap_zombie, reap_idle, reap_reaper in *.
    rewrite !ld8_st32_ne by lia. reflexivity.
Qed.

#[local] Opaque image_machine.

Lemma reap_setting : exists k H PS, population reap_threads reap_reaper reap_idle reap_reaper [] [] [reap_zombie] (reap_kernel k) /\
  placed reap_threads /\ heap_ok H PS (reap_kernel k) /\ threads_live reap_threads PS /\ owned_thread H PS (k_mem (reap_kernel k)) reap_zombie.
Proof.
  apply (three_setting image_machine image_heap (proj2 image_owned) image_placed image_sched_rep image_safe); [|exact three_run].
  rewrite (proj1 (proj2 image_blank)). lia.
Qed.

Lemma reap_low : statics_low.
Proof.
  intros b [(q & Hq%queue_cases & Hb)|Hb]; unfold statics, range, sizeof_DLList, sizeof_TSS_ENTRY, KERNEL_VIRTUAL_BASE in *; cbn in *;
    unfold bfp, range, sizeof_Page in *; cbn in *; lia.
Qed.

