(* ===== verification/Kernel.v ===== *)
(** * The kernel's entry: src/kernel/kernel.c

    [kmain] reads the multiboot information, brings every component up in order,
    makes the first process and lets the timer take over. *)

From Stdlib Require Import ZArith Lia Bool.
From stdpp Require Import base list gmap strings.
From S2P Require Import Prelude Machine StringLib Console Node Queue Bump Buddy Devices Descriptors Heap Sched Paging Elf Process.

(** ** The multiboot structures *)

Definition header_size (h : Z) : Z := h.
Definition tag_type (t : Z) : Z := t.
Definition tag_size (t : Z) : Z := t + 4.
Definition mmap_entries (t : Z) : Z := t + 16.
Definition module_start (t : Z) : Z := t + 8.
Definition module_end (t : Z) : Z := t + 12.

Definition set_memory_map (v : Z) : M unit := modify (fun k => set_boot (MkBoot v (user_module (k_boot k))) k).
Definition set_user_module (v : Z) : M unit := modify (fun k => set_boot (MkBoot (memory_map (k_boot k)) v) k).

(** ** The code *)

(** The loop over the tags; the result is [placement_addr].  A tag takes at least
    eight bytes, so that an eighth of the size of the information, and one, turns
    are enough; a tag of size 0 makes the code stay where it is. *)
Fixpoint scan_tags (fuel : nat) (header current_adr placement_addr : Z) : M Z :=
  match fuel with
  | O => stop_with OutOfFuel
  | S fuel =>
      size ← load32 (header_size header);
      if current_adr <? header ⊞ size then
        let tag := current_adr in
        type ← load32 (tag_type tag);
        tsize ← load32 (tag_size tag);
        if (type =? 0) && (tsize =? 8) then mret placement_addr else
        placement_addr ←
          (if type =? 6 then set_memory_map (mmap_entries tag);; mret placement_addr
           else if type =? 3 then
             set_user_module tag;;
             end_ ← load32 (module_end tag);
             mret (if placement_addr <? end_ then end_ else placement_addr)
           else mret placement_addr);
        scan_tags fuel header (current_adr ⊞ Z.land (tsize ⊞ 7) (u32 (Z.lnot 7))) placement_addr
      else mret placement_addr
  end.

Section code.
Context `{BS : BuddySymbols} `{HS : HeapSymbols} `{TS : TableSymbols} `{SS : SchedSymbols} `{LS : LayoutSymbols} `{PR : ProcessSymbols}.

Definition kmain (magic mbi_ptr : Z) : M unit :=
  seriel_init;;
  vga_clear;;
  when (negb (magic =? 0x36d76289)) (kernel_panic "Invalid Multiboot2 Magic number");;
  let header := P2V mbi_ptr in
  let current_adr := header ⊞ 8 in
  let placement_addr := V2P _kernel_start in
  size ← load32 (header_size header);
  let placement_addr := if placement_addr <? mbi_ptr ⊞ size then mbi_ptr ⊞ size else placement_addr in
  placement_addr ← scan_tags (S (Z.to_nat (size / 8))) header current_adr placement_addr;
  init_bump placement_addr;;
  init_idt;;
  kprintf ("IDT initialized." ++ newline) [];;
  paging_init;;
  kprintf ("Paging initialized." ++ newline) [];;
  pmm_init;;
  kprintf ("PMM initialized" ++ newline) [];;
  init_kmalloc;;
  init_pic;;
  kprintf ("PIC initialized." ++ newline) [];;
  init_tss;;
  main_thread ← init_sched;
  init_reaper;;
  init_syscall;;
  um ← gets (fun k => user_module (k_boot k));
  start ← load32 (module_start um);
  create_process (P2V start);;
  store32 (thread_status main_thread) IDLE;;
  sti.
End code.

(** ** The tags as a list *)

(** The address after a tag of [size] bytes at [a]. *)
Definition tag_next (a size : Z) : Z := a + 8 * ((size + 7) / 8).

(** The tags [l], types and sizes, from [a] to the end tag or to [stop]. *)
Fixpoint tags_at (m : memory) (a : Z) (l : list (Z * Z)) (stop : Z) : Prop :=
  match l with
  | [] => stop <= a \/ (a < stop /\ ld32 m a = 0 /\ ld32 m (a + 4) = 8)
  | (type, size) :: l =>
      a < stop /\ ld32 m a = type /\ ld32 m (a + 4) = size /\ 8 <= size /\ (type <> 0 \/ size <> 8) /\
      (type = 3 -> 16 <= size) /\ tag_next a size <= stop + 7 /\ tags_at m (tag_next a size) l stop
  end.

(** What the tags say: the memory map and the module last named, and the end of
    the highest module. *)
Record found := MkFound { f_map : Z; f_module : Z; f_placement : Z }.

Fixpoint read_tags (m : memory) (a : Z) (l : list (Z * Z)) (r : found) : found :=
  match l with
  | [] => r
  | (type, size) :: l => read_tags m (tag_next a size) l
      (if type =? 6 then MkFound (a + 16) (f_module r) (f_placement r)
       else if type =? 3 then MkFound (f_map r) a (Z.max (f_placement r) (ld32 m (a + 12)))
       else r)
  end.

Lemma next_tag a size : 0 <= size -> 0 <= a -> tag_next a size < 2 ^ 32 -> a ⊞ Z.land (size ⊞ 7) (u32 (Z.lnot 7)) = tag_next a size.
Proof.
  intros Hs Ha Hn. unfold tag_next in *. rewrite (u32_small (size + 7)) by div_lia.
  change (u32 (Z.lnot 7)) with 0xFFFFFFF8.
  assert (E : Z.land (size + 7) 0xFFFFFFF8 = 8 * ((size + 7) / 8)); [|rewrite E; apply u32_small; div_lia].
  apply Z.bits_inj'. intros n Hn0. rewrite Z.land_spec. change 8 with (2 ^ 3). rewrite Z.mul_comm, <- Z.shiftl_mul_pow2 by lia.
  rewrite Z.shiftl_spec by lia. destruct (Z.lt_ge_cases n 3) as [Hlt|Hge].
  - rewrite (Z.testbit_neg_r _ (n - 3)) by lia. assert (n = 0 \/ n = 1 \/ n = 2) as [->|[->| ->]] by lia; apply andb_false_r.
  - rewrite <- Z.shiftr_div_pow2, Z.shiftr_spec by lia. replace (n - 3 + 3) with n by lia.
    destruct (Z.lt_ge_cases n 32) as [Hb|Hb].
    + assert (Hbit : Z.testbit 0xFFFFFFF8 n = true); [|by rewrite Hbit, andb_true_r].
      change 0xFFFFFFF8 with (Z.shiftl (Z.ones 29) 3). rewrite Z.shiftl_spec by lia. apply Z.ones_spec_low. lia.
    + by rewrite (testbit_high (size + 7) 32 n) by div_lia.
Qed.

(** ** The scan *)

Lemma scan_tags_spec m header stop :
  KERNEL_VIRTUAL_BASE <= header -> stop + 16 < 2 ^ 32 -> header + ld32 m header = stop ->
  forall l a fuel r k, k_mem k = m -> tags_at m a l stop -> header + 8 <= a -> (0 < fuel)%nat -> stop - a + 8 <= 8 * Z.of_nat fuel ->
  wp (scan_tags fuel header a (f_placement r)) (set_boot (MkBoot (f_map r) (f_module r)) k) (fun p k' =>
    let r' := read_tags m a l r in p = f_placement r' /\ k' = set_boot (MkBoot (f_map r') (f_module r')) k).
Proof.
  intros H1 H2 Hst. unfold KERNEL_VIRTUAL_BASE in H1. pose proof (ld32_range m header) as Hsz.
  assert (Hsize : forall b k, k_mem k = m -> wp (load32 (header_size header)) (set_boot b k) (fun v k' => v = ld32 m header /\ k' = set_boot b k)).
  { intros b k <-. unfold header_size. eapply wp_access; [unfold KERNEL_VIRTUAL_BASE; lia | lia | reflexivity | done]. }
  assert (Hword : forall a b k, k_mem k = m -> header <= a -> a + 4 <= 2 ^ 32 -> wp (load32 a) (set_boot b k) (fun v k' => v = ld32 m a /\ k' = set_boot b k)).
  { intros a b k <- Ha1 Ha2. eapply wp_access; [unfold KERNEL_VIRTUAL_BASE; lia | lia | reflexivity | done]. }
  induction l as [|[type size] l IH]; intros a [|fuel] r k Em Ht Ha Hf Hfuel; try lia; cbn [scan_tags].
  - apply wp_bind. eapply wp_mono; [by apply Hsize|]. intros v k1 [-> ->]. rewrite Hst, u32_small by lia. cbn [tags_at read_tags] in *.
    destruct (Z.ltb_spec a stop) as [Hlt|Hge]; [|by apply wp_ret].
    destruct Ht as [Hge|(_ & E1 & E2)]; [lia|]. apply wp_bind. eapply wp_mono; [apply (Hword a); [done | lia | lia]|]. intros v k1 [-> ->].
    apply wp_bind. eapply wp_mono; [apply (Hword (a + 4)); [done | lia | lia]|]. intros v k1 [-> ->]. rewrite E1, E2. by apply wp_ret.
  - destruct Ht as (Hlt & E1 & E2 & H8 & Hend & Hmod & Hnext & Ht). assert (Hn : a + 8 <= tag_next a size) by (unfold tag_next; div_lia).
    apply wp_bind. eapply wp_mono; [by apply Hsize|]. intros v k1 [-> ->]. rewrite Hst, u32_small by lia.
    destruct (Z.ltb_spec a stop); [|lia]. cbv zeta.
    apply wp_bind. eapply wp_mono; [apply (Hword a); [done | lia | lia]|]. intros v k1 [-> ->].
    apply wp_bind. eapply wp_mono; [apply (Hword (a + 4)); [done | lia | lia]|]. intros v k1 [-> ->]. rewrite E1, E2.
    assert (((type =? 0) && (size =? 8)) = false) as -> by (destruct (Z.eqb_spec type 0), (Z.eqb_spec size 8); cbn; try done; lia).
    rewrite next_tag by lia. cbn [read_tags]. apply wp_bind. destruct (Z.eqb_spec type 6) as [->|H6]; [|destruct (Z.eqb_spec type 3) as [->|H3]].
    + apply wp_bind, wp_modify, wp_ret. apply (IH (tag_next a size) fuel (MkFound (a + 16) (f_module r) (f_placement r)) k); try done; lia.
    + specialize (Hmod eq_refl). apply wp_bind, wp_modify. cbn [k_boot set_boot memory_map].
      apply wp_bind. unfold module_end. change (set_boot ?b (set_boot _ ?kk)) with (set_boot b kk).
      eapply wp_mono; [apply (Hword (a + 12)); [done | lia | unfold tag_next in *; div_lia]|]. intros v k1 [-> ->]. apply wp_ret.
      replace (if f_placement r <? ld32 m (a + 12) then ld32 m (a + 12) else f_placement r) with (Z.max (f_placement r) (ld32 m (a + 12)))
        by (destruct (Z.ltb_spec (f_placement r) (ld32 m (a + 12))); lia).
      apply (IH _ fuel (MkFound (f_map r) a (Z.max (f_placement r) (ld32 m (a + 12)))) k); try done; lia.
    + apply wp_ret. apply (IH (tag_next a size) fuel r k); try done; lia.
Qed.

(** ** The properties *)

(** C40: the scan of a well-formed multiboot information, with the number of turns
    [kmain] allows, ends; [memory_map] and [user_module] then point into the last
    tags of their kinds (or are as before), the result is the end of the highest
    module if that is above the given placement address, and nothing else
    changes. *)
Theorem scan_tags_correct header size l placement k :
  KERNEL_VIRTUAL_BASE <= header -> size = ld32 (k_mem k) (header_size header) -> header + size + 16 < 2 ^ 32 ->
  tags_at (k_mem k) (header + 8) l (header + size) ->
  let r := read_tags (k_mem k) (header + 8) l (MkFound (memory_map (k_boot k)) (user_module (k_boot k)) placement) in
  wp (scan_tags (S (Z.to_nat (size / 8))) header (header + 8) placement) k (fun p k' =>
    p = f_placement r /\ k' = set_boot (MkBoot (f_map r) (f_module r)) k).
Proof.
  intros H1 Es H2 Ht r. pose proof (ld32_range (k_mem k) header) as Hr. unfold header_size in Es. rewrite <- Es in Hr.
  pose proof (scan_tags_spec (k_mem k) header (header + size) H1 H2 ltac:(congruence) l (header + 8) (S (Z.to_nat (size / 8)))
    (MkFound (memory_map (k_boot k)) (user_module (k_boot k)) placement) k eq_refl Ht) as Hw. cbn [f_map f_module f_placement] in Hw.
  replace (set_boot (MkBoot (memory_map (k_boot k)) (user_module (k_boot k))) k) with k in Hw by (by destruct k as [? ? ? ? ? ? ? ? ? ? []]).
  apply Hw; [lia | lia |]. rewrite Nat2Z.inj_succ, Z2Nat.id by div_lia. div_lia.
Qed.

(** A tag of size 0 that is not the end tag stops the boot: the scan never
    leaves it, however many turns it is given. *)
Theorem scan_tags_zero_size header a placement k :
  KERNEL_VIRTUAL_BASE <= header -> header + 4 <= 2 ^ 32 -> KERNEL_VIRTUAL_BASE <= a -> a + 8 <= 2 ^ 32 ->
  a < u32 (header + ld32 (k_mem k) header) -> ld32 (k_mem k) (tag_size a) = 0 ->
  ld32 (k_mem k) (tag_type a) <> 3 -> ld32 (k_mem k) (tag_type a) <> 6 ->
  forall fuel, stops (scan_tags fuel header a placement) k OutOfFuel.
Proof.
  intros H1 H2 H3 H4 Hlt Hz Hn3 Hn6. unfold tag_size, tag_type, KERNEL_VIRTUAL_BASE in *. induction fuel as [|fuel IH]; [by exists k|].
  assert (Hword : forall b, header <= b \/ a <= b -> b + 4 <= 2 ^ 32 -> wp (load32 b) k (fun v k' => v = ld32 (k_mem k) b /\ k' = k)).
  { intros b Hb Hb2. eapply wp_access; [unfold KERNEL_VIRTUAL_BASE; lia | lia | reflexivity | done]. }
  cbn [scan_tags]. unfold header_size, tag_type, tag_size. eapply stops_bind_r, wp_mono; [apply (Hword header); lia|]. intros v k1 [-> ->].
  destruct (Z.ltb_spec a (u32 (header + ld32 (k_mem k) header))); [|lia]. cbv zeta.
  eapply stops_bind_r, wp_mono; [apply (Hword a); lia|]. intros v k1 [-> ->].
  eapply stops_bind_r, wp_mono; [apply (Hword (a + 4)); lia|]. intros v k1 [-> ->]. rewrite Hz.
  rewrite (proj2 (Z.eqb_neq _ 6)), (proj2 (Z.eqb_neq _ 3)) by done. rewrite andb_false_r.
  eapply stops_bind_r, wp_ret. replace (a ⊞ Z.land (0 ⊞ 7) (u32 (Z.lnot 7))) with a; [exact IH|].
  change (Z.land (0 ⊞ 7) (u32 (Z.lnot 7))) with 0. rewrite u32_small; lia.
Qed.
