(* ===== verification/BootServices.v ===== *)
(** * From the page allocator to the first process

    The second half of [kmain]: with memory managed, it starts the heap, the
    interrupt controller, the scheduler with its timer, the reaper, the system
    calls and the first process, and opens the interrupts. *)

From Stdlib Require Import ZArith Lia Bool.
From stdpp Require Import base functions list gmap strings.
From S2P Require Import Prelude Machine StringLib Console Node Queue Bump Buddy BuddyModel BuddyRefine BuddyInit Pmm Devices Descriptors Heap HeapModel HeapSteps HeapPages HeapCompact HeapAlloc HeapFree HeapTheorems HeapClient Sched SchedModel Switch SchedTheorems Threads BootSteps Paging PagingTheorems UserSpace Elf ElfTheorems Process ProcessTheorems Kernel.

Section services.
Context `{BS : BuddySymbols} `{HS : HeapSymbols} `{TS : TableSymbols} `{SS : SchedSymbols} `{PR : ProcessSymbols}
  `{PA : !PageAllocator pmm_alloc pmm_free get_order_addr}.

(** The calls of [kmain] after [pmm_init]. *)
Definition services : M unit :=
  init_kmalloc;;
  init_pic;;
  kprintf ("PIC initialized." ++ newline) [];;
  init_tss;;
  main_thread ← init_sched;
  init_reaper;;
  init_syscall;;
  um ← gets (fun k => user_module (k_boot k));
  start ← load32 (module_start um);
  create_process (P2V start);;
  store32 (thread_status main_thread) IDLE;;
  sti.

(** The state [services] starts from.  [own] are the bytes of the kernel's page
    directory and tables, the image of the process is at [h]; these, the module's
    tag and whatever else is in [Keep] lie below the page allocator's memory and
    apart from every variable that will be written; so does the GDT, of which only the
    access byte of the TSS descriptor changes. *)
Record pages_up (own Keep : Z -> Prop) (h len : Z) (k : kernel) : Prop := {
  pu_pages : pa_state k [];
  pu_cursor : cursor_ok (k_vga k);
  pu_statics : statics_ok;
  pu_placed : placed [];
  pu_low : forall b, statics b \/ sched_statics b \/ vga_fp b \/ Keep b -> b < 4096 * pa_low + KERNEL_VIRTUAL_BASE /\ ~ pa_bytes b;
  pu_heap_off : forall b, statics b -> ~ (sched_statics b \/ vga_fp b \/ Keep b);
  pu_sched_off : forall b, sched_statics b -> ~ Keep b;
  pu_vga_off : forall b, vga_fp b -> ~ Keep b;
  pu_own : forall b, own b -> Keep b;
  pu_own_dec : forall b, own b \/ ~ own b;
  pu_image_kept : forall b, range h len b -> Keep b;
  pu_tag_kept : forall b, range (user_module (k_boot k)) 16 b -> Keep b;
  pu_blank : last_chunk (k_heap k) = 0 /\ ld32 (k_mem k) first_var = 0 /\ (forall o, 0 <= o < 9 -> ld32 (k_mem k) (bucket_at o) = 0);
  pu_id : 0 <= thread_id (k_sched k) < 2 ^ 32;
  pu_tables : tables_ok kernel_page_directory (k_mem k) (fun b => ~ own b);
  pu_user : forall d, 0 <= d < USER_END / 1024 -> present kernel_page_directory (k_mem k) d = false;
  pu_image : elf_image (k_mem k) h len /\ stack_room (k_mem k) h;
  pu_module : KERNEL_VIRTUAL_BASE <= user_module (k_boot k) /\ user_module (k_boot k) + 16 <= 2 ^ 32 /\
    P2V (ld32 (k_mem k) (module_start (user_module (k_boot k)))) = h;
  pu_gdt : KERNEL_VIRTUAL_BASE <= gdt /\ gdt + 48 <= 2 ^ 32 /\ Keep (gdt + 45) /\
    ~ (own (gdt + 45) \/ range h len (gdt + 45) \/ range (user_module (k_boot k)) 16 (gdt + 45)) }.

(** What the linker says of the entry points. *)
Definition entries_ok : Prop :=
  0 <= reaper_main_addr < 2 ^ 32 /\ 0 <= kthread_stub_addr < 2 ^ 32 /\ 0 <= launch_process_addr < 2 ^ 32.

(** The process [p] of the image at [h] in the memory [m0], in the memory [m]: its
    thread will enter ring 3 at the entry point in an address space with the
    segments, a stack page behind them and the kernel's window [W]. *)
Record process_up (T : list Z) (m0 : memory) (h : Z) (W : Z -> option (Z * bool * bool)) (p : Z) (m : memory) : Prop := {
  pp_start : exists sp v, suspended T m p sp no_regs launch_process_addr /\ image_end m0 h (4096 * v) /\
    iret_words m (sp + 36) = [ld32 m0 (e_entry h); 0x1B; 0x200; 4096 * v + 4096; 0x23] /\
    exists f, translate m (ld32 m (thread_pd p)) v = Some (f, true, true);
  pp_segments : segments_mapped m0 h (ld32 m (thread_pd p)) m;
  pp_window : forall x, USER_END <= x < 2 ^ 20 -> translate m (ld32 m (thread_pd p)) x = W x }.

(** The system that runs: the main thread, which is the idle thread, in the
    processor, the reaper [rp] and the process [p] ready in this order; both
    allocators, the queues and the address space as their invariants say. *)
Record system_up (m0 : memory) (h : Z) (W : Z -> option (Z * bool * bool)) (main rp p : Z) (H : list block) (PS : list hpage) (k' : kernel) : Prop := {
  up_heap : heap_ok H PS k';
  up_cursor : cursor_ok (k_vga k');
  up_placed : placed [p; rp; main];
  up_rep : sched_rep [p; rp; main] (k_mem k') [rp; p] [];
  up_zombies : queue (k_mem k') zombie_que [];
  up_safe : sched_safe [p; rp; main] H PS;
  up_threads : cur_thread (k_sched k') = main /\ idle_thread (k_sched k') = main /\ reaper (k_sched k') = rp;
  up_status : status (k_mem k') main = IDLE /\ status (k_mem k') rp = RUNNABLE /\ status (k_mem k') p = RUNNABLE;
  up_reaper : exists sp, suspended [p; rp; main] (k_mem k') rp sp no_regs kthread_stub_addr /\ ld32 (k_mem k') (sp + 40) = reaper_main_addr;
  up_process : process_up [p; rp; main] m0 h W p (k_mem k');
  up_timer : timer_callback (k_devs k') = Some CB_timer /\ interrupt_handlers (k_devs k') !! 32 = Some H_pit_irq_handler /\
    interrupt_handlers (k_devs k') !! 128 = Some H_syscall_handler;
  up_open : eflags_if (k_cpu k') = true /\ task_reg (k_cpu k') = 0x28 }.

(** The image may be read from any memory that agrees on it. *)
Lemma system_up_agree m m0 h len W W0 main rp p H PS k : elf_image m0 h len -> agree m0 m h len ->
  (forall x, USER_END <= x < 2 ^ 20 -> W x = W0 x) ->
  system_up m h W main rp p H PS k -> system_up m0 h W0 main rp p H PS k.
Proof.
  intros HI Hag HW [P1 P2 P3 P4 P5 P6 P7 P8 P9 [(sp & v & S1 & S2 & S3 & S4) S5 S6] P11 P12]. split; try done. split.
  - exists sp, v. destruct (image_same _ _ _ _ HI Hag) as (En & Ee & Ep & _). rewrite Ee in S3. split_and!; [done | | done | done].
    destruct S2 as [E1 E2].
    assert (Hseg : forall i, 0 <= i < ld16 m0 (e_phnum h) -> loadable m (phdr_at m0 h i) = loadable m0 (phdr_at m0 h i) /\
      seg_end m (phdr_at m0 h i) = seg_end m0 (phdr_at m0 h i)).
    { intros i Hi. destruct (segment_same _ _ _ _ i HI Hag Hi) as (F1 & _ & F3 & F4 & _). split; [done|]. unfold seg_end. by rewrite F3, F4. }
    split.
    + intros i Hi Hl. destruct (Hseg i Hi) as [F1 F2]. specialize (E1 i). rewrite En, Ep, F1, F2 in E1. by apply E1.
    + destruct E2 as [E2|(i & Hi & Hl & E2)]; [by left | right]. rewrite En in Hi. destruct (Hseg i Hi) as [F1 F2]. rewrite Ep in Hl, E2.
      exists i. split; [done|]. rewrite F1 in Hl. rewrite F2 in E2. done.
  - by eapply segments_mapped_agree.
  - intros x Hx. rewrite S6 by done. by apply HW.
Qed.

(** ** The heap, the interrupt controller and the TSS *)

(** With the heap up; the scheduler has not started. *)
Record heap_up (Keep : Z -> Prop) (k : kernel) (H : list block) (PS : list hpage) (k' : kernel) : Prop := {
  hu_heap : heap_ok H PS k';
  hu_cursor : cursor_ok (k_vga k');
  hu_quiet : forall b, sched_statics b \/ Keep b -> quiet H PS b;
  hu_kept : forall b, Keep b -> ld8 (k_mem k') b = ld8 (mark_tss (k_mem k)) b;
  hu_sched : k_sched k' = k_sched k;
  hu_boot : k_boot k' = k_boot k;
  hu_cpu : k_cpu k' = set_tr 0x28 (k_cpu k);
  hu_handlers : interrupt_handlers (k_devs k') = interrupt_handlers (k_devs k) }.

Lemma heap_up_spec {A} own Keep h len k (rest : M A) Q :
  pages_up own Keep h len k -> (forall H PS k', heap_up Keep k H PS k' -> wpe out_of_memory rest k' Q) ->
  wpe out_of_memory (init_kmalloc;; init_pic;; kprintf ("PIC initialized." ++ newline) [];; init_tss;; rest) k Q.
Proof.
  intros HU HQ. destruct HU as [P1 P2 P3 P4 P5 P6 P7 P8 _ _ _ _ (B1 & B2 & B3) _ _ _ _ _ (G1 & G2 & G3 & _)]. destruct (pl_tss [] P4) as [T1 T2].
  assert (HK : heap_ok [] [] k) by (apply heap_blank; try done; intros b Hb; apply P5; by left).
  assert (Hquiet : forall b H PS k', heap_ok H PS k' -> sched_statics b \/ vga_fp b \/ Keep b -> quiet H PS b).
  { intros b H PS k' HK' Hb. destruct (P5 b) as [L1 L2]; [by right|]. apply (low_is_quiet H PS k'); try done.
    intros Hs. by apply (P6 b Hs). }
  apply wpe_bind. eapply wpe_mono; [by apply (init_kmalloc_run [] k)|]. intros [] k1 (H & PS & G).
  pose proof (gw_heap _ _ _ _ _ _ G) as HK1. pose proof (gw_call _ _ _ _ _ _ G) as (m1 & b1 & h1 & E1).
  apply wpe_bind, wpe_wp. eapply wp_mono; [apply init_pic_run|]. intros [] k2 (io & v & ->).
  assert (Hc1 : cursor_ok (k_vga k1)) by (by rewrite E1).
  apply wpe_bind, wpe_wp. eapply kprintf_say; [reflexivity | exact Hc1 |]. intros r m3 io3 v3 U3 Hv3.
  apply wpe_bind, wpe_wp. eapply wp_mono; [by apply init_tss_spec|]. intros [] k4 ->.
  cbn [k_mem set_vga set_io set_mem set_devs k_cpu] in *.
  assert (Hq1 : forall b, sched_statics b \/ vga_fp b \/ Keep b -> quiet H PS b) by (intros b Hb; by apply (Hquiet b H PS k1)).
  assert (Utss : untouched (range tss sizeof_TSS_ENTRY) m3 (st32 m3 (tss_ss0 tss) 16))
    by (eapply untouched_mono; [|apply st32_untouched]; unfold range, tss_ss0, sizeof_TSS_ENTRY; lia).
  apply (HQ H PS). split; cbn [k_mem k_vga k_sched k_boot k_cpu k_devs set_vga set_io set_mem set_devs set_cpu interrupt_handlers]; try (by rewrite E1).
  - apply (heap_ok_frame H PS k1); [done | done | done |]. cbn [k_mem set_vga set_io set_mem set_devs set_cpu]. intros b Hb.
    rewrite mark_tss_other by (intros ->; apply (Hq1 (gdt + 45)); [by right; right | done]).
    rewrite Utss by (intros Hx; apply (Hq1 b); [left; by right | done]). apply U3. intros Hx. apply (Hq1 b); [right; by left | done].
  - done.
  - intros b Hb. apply Hq1. tauto.
  - assert (Hkp : forall b, Keep b -> ld8 (st32 m3 (tss_ss0 tss) 16) b = ld8 (k_mem k) b).
    { intros b Hb. rewrite Utss by (intros Hx; apply (P7 b); [by right | done]). rewrite U3 by (intros Hx; by apply (P8 b)).
      apply (gw_mem _ _ _ _ _ _ G). apply (Hquiet b [] [] k HK). auto. }
    intros b Hb. by apply mark_tss_agree; apply Hkp.
Qed.

(** ** The scheduler, the reaper and the system calls *)

(** With the main thread [t] running and the reaper's thread [rp] ready. *)
Record threads_up (Keep : Z -> Prop) (k : kernel) (t rp sp : Z) (H : list block) (PS : list hpage) (k' : kernel) : Prop := {
  tu_heap : heap_ok H PS k';
  tu_cursor : cursor_ok (k_vga k');
  tu_placed : placed [rp; t];
  tu_rep : sched_rep [rp; t] (k_mem k') [rp] [];
  tu_zombies : queue (k_mem k') zombie_que [];
  tu_safe : sched_safe [rp; t] H PS;
  tu_quiet : forall b, Keep b -> quiet H PS b /\ ~ sched_bytes [rp; t] b;
  tu_kept : forall b, Keep b -> ld8 (k_mem k') b = ld8 (mark_tss (k_mem k)) b;
  tu_status : status (k_mem k') rp = RUNNABLE;
  tu_reaper : suspended [rp; t] (k_mem k') rp sp no_regs kthread_stub_addr;
  tu_stack : forall b, range sp 52 b -> quiet H PS b /\ ~ sched_bytes [rp; t] b;
  tu_arg : ld32 (k_mem k') (sp + 40) = reaper_main_addr;
  tu_sched : exists n, 0 <= n < 2 ^ 32 /\ k_sched k' = MkSched (ticks (k_sched k)) 11931 t t n rp (saved_if (k_sched k));
  tu_devs : timer_callback (k_devs k') = Some CB_timer /\
    interrupt_handlers (k_devs k') = <[128 := H_syscall_handler]> (<[32 := H_pit_irq_handler]> (interrupt_handlers (k_devs k)));
  tu_boot : k_boot k' = k_boot k;
  tu_cpu : k_cpu k' = set_tr 0x28 (k_cpu k) }.

Lemma threads_up_spec {A} own Keep h len k H PS k1 (rest : Z -> M A) Q :
  pages_up own Keep h len k -> heap_up Keep k H PS k1 -> entries_ok ->
  (forall t rp sp H' PS' k', threads_up Keep k t rp sp H' PS' k' -> wpe out_of_memory (rest t) k' Q) ->
  wpe out_of_memory (t ← init_sched; init_reaper;; init_syscall;; rest t) k1 Q.
Proof.
  intros HU [HK Hc Hqt Hkp Es Eb Ec Eh] (He1 & He2 & _) HQ. destruct HU as [_ _ _ P4 _ _ P7 _ _ _ _ _ _ Pid PT _ _ _ _].
  assert (Hpd : 0 <= kernel_page_directory < 2 ^ 32) by (destruct (to_pd _ _ _ PT); unfold KERNEL_VIRTUAL_BASE in *; lia).
  assert (Hsafe0 : sched_safe [] H PS).
  { intros b [[(q & Hq%run_queue & Hb)|(u & Hu & _)]|Hb]; [| by apply elem_of_nil in Hu |]; apply Hqt; left; [left; by exists q | done]. }
  apply wpe_bind. eapply wpe_mono; [by apply (init_sched_spec H PS k1)|]. intros t k2 (H2 & PS2 & HF).
  pose proof HF as [F1 F2 F3 F4 F5 F6 F7 F8 F9 F10 (F11 & F12 & F13)].
  apply wpe_bind. eapply wpe_mono; [apply (init_reaper_spec [t] [] [] H2 PS2 k2); try done; [by rewrite F12 | by rewrite F9, Es]|].
  intros [] k3 (rp & sp & m2 & H3 & PS3 & k3' & U2 & -> & HW & Hz & Harg & _).
  pose proof (fun b => stack_off [t] [] [] H2 PS2 _ rp sp _ H3 PS3 k3' b F4 HW) as Hoff.
  pose proof HW as [W1 W2 W3 W4 W5 W6 W7 W8 W9 W10 W11 W12 W13 W14 (W15 & W16 & W17)]. cbn [app] in W5.
  apply wpe_bind, wpe_wp, wp_modify. apply (HQ t rp sp H3 PS3).
  assert (HKq : forall b, Keep b -> quiet H2 PS2 b /\ ~ sched_bytes [t] b).
  { intros b Hb. split; [apply F2, Hqt; by right|]. intros [(q & Hq%run_queue & Hx)|(u & ->%list_elem_of_singleton & Hx)].
    - apply (P7 b); [left; by exists q | done].
    - apply (F7 b Hx), Hqt. by right. }
  split; cbn [k_mem k_vga k_sched k_devs k_boot k_cpu set_devs set_sched timer_callback interrupt_handlers].
  - apply (heap_ok_frame H3 PS3 k3'); done.
  - rewrite W15. cbn [k_vga set_mem]. by rewrite F12.
  - done.
  - done.
  - done.
  - done.
  - intros b Hb. destruct (HKq b Hb) as [Hq Hn]. split; [by apply W2|].
    intros [Hx|(u & [->|Hu]%elem_of_cons & Hx)]; [apply Hn; by left | by apply (W10 b Hx) |]. apply Hn. right. by exists u.
  - intros b Hb. destruct (HKq b Hb) as [Hq Hn]. rewrite W8 by done. cbn [k_mem set_mem].
    assert (Hst : ~ sched_statics b) by (intros Hx; by apply (P7 b)).
    rewrite U2 by (intros Hx; apply Hst; left; exists zombie_que; split; [apply zombie_in | done]).
    rewrite F8 by (first [apply Hqt; by right | done]). by apply Hkp.
  - done.
  - done.
  - intros b Hb. split; [by apply W11 | by apply Hoff].
  - done.
  - exists (u32 (thread_id (k_sched k) + 1)). split; [apply u32_range|]. rewrite W13. cbn [k_sched set_mem]. rewrite F9, Es. reflexivity.
  - rewrite W16. cbn [k_devs set_mem]. rewrite F10. cbn [timer_started timer_callback interrupt_handlers]. by rewrite Eh.
  - rewrite W17. cbn [k_boot set_mem]. by rewrite F13.
  - rewrite W14. cbn [k_cpu set_mem]. by rewrite F11.
Qed.

(** ** The first process *)

Section process.
Context (own Keep : Z -> Prop) (h len : Z) (k : kernel) (HU : pages_up own Keep h len k).
Context (t rp sp : Z) (H : list block) (PS : list hpage) (k1 : kernel) (HT : threads_up Keep k t rp sp H PS k1).

Lemma up_tables : tables_ok kernel_page_directory (k_mem k1) (fun b => ~ own b) /\
  (forall d, 0 <= d < 1024 -> pde kernel_page_directory (k_mem k1) d = pde kernel_page_directory (k_mem k) d) /\
  (forall x, 0 <= x < 2 ^ 20 -> translate (k_mem k1) kernel_page_directory x = translate (k_mem k) kernel_page_directory x).
Proof.
  apply (tables_frame _ _ _ (fun b => ~ own b)); [apply (pu_tables _ _ _ _ _ HU) | | done].
  intros b Hb. assert (Ho : own b) by (destruct (pu_own_dec _ _ _ _ _ HU b); [done | by destruct Hb]).
  rewrite (tu_kept _ _ _ _ _ _ _ _ HT) by (by apply (pu_own _ _ _ _ _ HU)). apply mark_tss_other. intros ->. apply (pu_gdt _ _ _ _ _ HU). by left.
Qed.

Lemma up_space : kernel_space [rp; t] H PS (k_mem k1).
Proof.
  destruct up_tables as ([T1 T2 T3 T4 T5] & Hd & _).
  assert (Hown : forall b, ~ ~ own b -> quiet H PS b /\ ~ sched_bytes [rp; t] b).
  { intros b Hb. apply (tu_quiet _ _ _ _ _ _ _ _ HT), (pu_own _ _ _ _ _ HU). destruct (pu_own_dec _ _ _ _ _ HU b); [done | by destruct Hb]. }
  split.
  - split; try done.
    + intros b Hb Hx. destruct (Hown b (T2 b Hb)) as [Hq _]. apply Hq. by right.
    + intros d b H1 H2 H3 Hx. destruct (Hown b (T4 d b H1 H2 H3)) as [Hq _]. apply Hq. by right.
  - intros d Hdd. unfold present. change (USER_END / 1024) with 768 in Hdd. rewrite Hd by lia. apply (pu_user _ _ _ _ _ HU).
    by change (USER_END / 1024) with 768.
  - intros d b Hdd Hs Hb. apply Hown, (T4 d b); try done. change (USER_END / 1024) with 768 in Hdd. lia.
Qed.

Lemma up_agree : agree (k_mem k) (k_mem k1) h len.
Proof.
  intros b Hb. rewrite (tu_kept _ _ _ _ _ _ _ _ HT) by (by apply (pu_image_kept _ _ _ _ _ HU)).
  apply mark_tss_other. intros ->. apply (pu_gdt _ _ _ _ _ HU). by right; left.
Qed.

Lemma up_ready : process_ready [rp; t] [rp] [] H PS h len k1.
Proof.
  destruct (pu_image _ _ _ _ _ HU) as [HI Hroom]. pose proof HT as [U1 U2 U3 U4 _ U6 U7 _ _ _ _ _ (n & Hn & Es) _ _ _]. split.
  - done.
  - done.
  - done.
  - done.
  - done.
  - rewrite Es. cbn. lia.
  - apply up_space.
  - eapply elf_image_agree; [exact HI | apply up_agree].
  - intros b Hb. by apply U7, (pu_image_kept _ _ _ _ _ HU).
  - eapply stack_room_agree; [exact HI | apply up_agree | exact Hroom].
Qed.

(** The main thread becomes the idle thread, and the system is complete. *)
Section idle.
Context (p psp v : Z) (H' : list block) (PS' : list hpage) (k2 : kernel).
Context (HW : spawned [rp; t] [rp] [] H PS k1 p psp launch_process_addr H' PS' k2).
Let m3 : memory := st32 (k_mem k2) (t + 16) IDLE.

Lemma idle_bytes b : range (t + 16) 4 b -> sched_bytes [rp; t] b.
Proof. intros Hb. right. exists t. split; [right; left | unfold range in *; lia]. Qed.

Lemma idle_stored : untouched (range (t + 16) 4) (k_mem k2) m3 /\ untouched (sched_bytes [p; rp; t]) (k_mem k2) m3 /\
  kept [p; rp; t] [t] (k_mem k2) m3.
Proof.
  assert (Ht : t ∈ [p; rp; t]) by (right; right; left). split_and!; [apply st32_untouched | | by apply status_store_kept, Ht; apply HW].
  eapply untouched_mono; [|apply st32_untouched]. intros b Hb. right. exists t. split; [done | unfold range in *; lia].
Qed.

Lemma idle_statuses : status m3 t = IDLE /\ status m3 rp = RUNNABLE /\ status m3 p = RUNNABLE.
Proof.
  pose proof HW as [_ _ _ W4 _ _ W7 _ _ _ _ _ _ _ _]. destruct idle_stored as (_ & _ & Hkeep).
  assert (Hne : NoDup [p; rp; t]) by apply W4. apply NoDup_cons in Hne as [N1 [N2 _]%NoDup_cons].
  assert (Hst : forall u, u ∈ [p; rp; t] -> u <> t -> status m3 u = status (k_mem k2) u).
  { intros u Hu Hut. apply (kept_status [p; rp; t] [t]); [done | done |]. by rewrite list_elem_of_singleton. }
  split_and!.
  - unfold m3, status, thread_status. rewrite ld32_st32_eq. reflexivity.
  - rewrite Hst; [|right; left | intros E; apply N2; rewrite E; left].
    rewrite (kept_status [rp; t] [] _ _ rp W7); [by apply HT | left | apply not_elem_of_nil].
  - rewrite Hst; [by apply HW | left | intros E; apply N1; rewrite E; right; left].
Qed.

(** The reaper and the process are where they were. *)
Lemma idle_reaper : suspended [p; rp; t] m3 rp sp no_regs kthread_stub_addr /\ ld32 m3 (sp + 40) = reaper_main_addr.
Proof.
  pose proof HT as [_ _ _ _ _ _ _ _ _ U10 U11 U12 _ _ _ _]. destruct idle_stored as (U3' & Hsb' & Hkeep). split.
  - eapply suspended_kept; [eapply suspended_later; [exact HW | left | exact U10 |] | | exact Hsb'].
    + intros b Hb. apply U11. unfold range in *. lia.
    + eapply (kept_agree [p; rp; t]); [exact Hkeep | right; left | lia | lia |]. intros _. lia.
  - rewrite <- U12. apply ld32_agree. intros b Hb. destruct (U11 b) as [Q1 Q2]; [unfold range in *; lia|].
    rewrite U3' by (intros Hx; by apply Q2, idle_bytes). by apply (sw_mem _ _ _ _ _ _ _ _ _ _ _ _ HW).
Qed.

Lemma idle_zombies : queue m3 zombie_que [].
Proof.
  pose proof HT as [_ _ U3 _ U5 U6 _ _ _ _ _ _ _ _ _ _]. destruct idle_stored as (U3' & _).
  eapply queue_frame; [exact U5 | | intros a Ha; by apply elem_of_nil in Ha]. intros b Hb.
  rewrite U3' by (intros Hx; apply (zombie_off [rp; t] b U3 Hb); by apply idle_bytes).
  apply (sw_mem _ _ _ _ _ _ _ _ _ _ _ _ HW); [apply U6; right; left; exists zombie_que; split; [apply zombie_in | done] | by apply zombie_off].
Qed.

Lemma idle_up : image_end (k_mem k1) h (4096 * v) -> psp + 56 = ld32 (k_mem k2) (thread_stack p) + 4096 ->
  user_space (k_mem k1) h (ld32 (k_mem k2) (thread_pd p)) v m3 ->
  iret_words m3 (psp + 36) = [ld32 (k_mem k1) (e_entry h); 0x1B; 0x200; 4096 * v + 4096; 0x23] ->
  system_up (k_mem k1) h (translate (k_mem k1) kernel_page_directory) t rp p H' PS' (set_cpu (set_if true (k_cpu k2)) (set_mem m3 k2)).
Proof.
  intros Hend Hsp [Huser [f Hstk] Hwin] Hir. destruct idle_stored as (U3' & Hsb' & Hkeep).
  pose proof HW as [W1 W2 W3 W4 W5 W6 W7 W8 W9 W10 W11 W12 W13 W14 (W15 & W16 & W17)]. cbn [app] in W5.
  pose proof HT as [U1 U2 U3 U4 U5 U6 U7 U8 U9 U10 U11 U12 (n & _ & Es) (U13 & U14) U15 U16].
  split; cbn [k_mem k_vga k_sched k_devs k_boot k_cpu set_mem set_cpu].
  - apply (heap_ok_frame H' PS' k2); [done | done | done |]. intros b Hb. apply U3'. intros Hx. apply (W2 b); [|done]. apply U6. left. by apply idle_bytes.
  - by rewrite W15.
  - done.
  - eapply (field_store_rep [p; rp; t] W4); [right; right; left | | exact U3' | exact W5]. unfold range. lia.
  - exact idle_zombies.
  - done.
  - rewrite W13, Es. done.
  - exact idle_statuses.
  - exists sp. exact idle_reaper.
  - assert (Epd : ld32 m3 (thread_pd p) = ld32 (k_mem k2) (thread_pd p)).
    { apply ld32_agree. eapply (kept_agree [p; rp; t]); [exact Hkeep | left | lia | lia |]. intros _. lia. }
    split; rewrite Epd; [|done | done]. exists psp, v. split_and!; [| done | done | by exists f].
    eapply suspended_kept; [exact W9 | | exact Hsb']. eapply (kept_agree [p; rp; t]); [exact Hkeep | left | lia | lia |]. intros _. lia.
  - rewrite W16, U13, U14. split_and!; [done | | by rewrite lookup_insert_eq]. rewrite lookup_insert_ne by lia. by rewrite lookup_insert_eq.
  - rewrite W14, U16. done.
Qed.
End idle.

(** The end of [kmain]: the process is started, the main thread becomes the idle
    thread and the interrupts are opened. *)
Lemma process_up_spec : 0 <= launch_process_addr < 2 ^ 32 ->
  wpe out_of_memory (um ← gets (fun k => user_module (k_boot k)); start ← load32 (module_start um);
    create_process (P2V start);; store32 (thread_status t) IDLE;; sti) k1
    (fun _ k' => exists p H' PS', system_up (k_mem k) h (translate (k_mem k) kernel_page_directory) t rp p H' PS' k' /\
      k_cpu k' = set_if true (set_tr 0x28 (k_cpu k)) /\ forall b, Keep b -> ld8 (k_mem k') b = ld8 (mark_tss (k_mem k)) b).
Proof.
  intros Hl. destruct (pu_module _ _ _ _ _ HU) as (M1 & M2 & M3). pose proof (pu_tag_kept _ _ _ _ _ HU) as Htag.
  apply wpe_bind, wpe_wp, wp_gets. rewrite (tu_boot _ _ _ _ _ _ _ _ HT). unfold module_start in *.
  apply wpe_bind. eapply wpe_access; [lia | lia | reflexivity | cbv beta].
  rewrite (ld32_agree (k_mem k)), M3.
  2: { intros b Hb. assert (Ht : range (user_module (k_boot k)) 16 b) by (unfold range in *; lia).
       rewrite (tu_kept _ _ _ _ _ _ _ _ HT) by (by apply Htag). apply mark_tss_other. intros ->. apply (pu_gdt _ _ _ _ _ HU). by right; right. }
  apply wpe_bind. eapply wpe_mono; [apply (create_process_spec [rp; t] [rp] [] H PS h len k1 up_ready Hl)|].
  intros p k2 (psp & v & H' & PS' & HW & Hend & Hsp & Hlast).
  destruct (pl_mapped _ (sw_placed _ _ _ _ _ _ _ _ _ _ _ _ HW) t ltac:(right; right; left)) as [T1 T2]. unfold sizeof_Thread in T2.
  apply wpe_bind, wpe_wp. unfold thread_status. eapply wp_access; [lia | lia | reflexivity | cbv beta]. apply wpe_wp, wp_modify.
  destruct (idle_stored p psp H' PS' k2 HW) as (U3' & _). set (m3 := st32 (k_mem k2) (t + 16) IDLE) in *.
  destruct (Hlast m3) as [Hus Hir]; [eapply untouched_mono; [exact idle_bytes | exact U3']|].
  destruct (pu_image _ _ _ _ _ HU) as [HI Hroom]. destruct up_tables as (_ & _ & Htr).
  exists p, H', PS'. cbn [k_mem k_cpu set_mem set_cpu]. split_and!.
  - eapply system_up_agree; [exact HI | exact up_agree | | by apply (idle_up p psp v)]. intros x Hx. apply Htr. unfold USER_END in Hx. lia.
  - by rewrite (sw_cpu _ _ _ _ _ _ _ _ _ _ _ _ HW), (tu_cpu _ _ _ _ _ _ _ _ HT).
  - intros b Hb. destruct (tu_quiet _ _ _ _ _ _ _ _ HT b Hb) as [Q1 Q2]. rewrite U3' by (intros Hx; by apply Q2, idle_bytes).
    rewrite (sw_mem _ _ _ _ _ _ _ _ _ _ _ _ HW) by done. by apply (tu_kept _ _ _ _ _ _ _ _ HT).
Qed.
End process.

(** The second half of the boot. *)
Lemma services_spec own Keep h len k : pages_up own Keep h len k -> entries_ok ->
  wpe out_of_memory services k (fun _ k' => exists main rp p H PS,
    system_up (k_mem k) h (translate (k_mem k) kernel_page_directory) main rp p H PS k' /\
    k_cpu k' = set_if true (set_tr 0x28 (k_cpu k)) /\ forall b, Keep b -> ld8 (k_mem k') b = ld8 (mark_tss (k_mem k)) b).
Proof.
  intros HU He. unfold services. eapply (heap_up_spec own Keep h len); [exact HU|]. intros H PS k1 H1.
  eapply (threads_up_spec own Keep h len k H PS k1); [exact HU | exact H1 | exact He |]. intros t rp sp H2 PS2 k2 H3.
  eapply wpe_mono; [apply (process_up_spec own Keep h len k HU t rp sp H2 PS2 k2 H3), He|].
  intros [] k3 (p & H4 & PS4 & HS'). by exists t, rp, p, H4, PS4.
Qed.
End services.
