(* ===== verification/BootTheorems.v ===== *)
(** * The boot of the kernel

    [kmain] from the boot loader's hand-over to the running system: every
    component's initialisation composed in the order of the code. *)

From Stdlib Require Import ZArith Lia Bool.
From stdpp Require Import base functions list gmap strings.
From S2P Require Import Prelude Machine StringLib Console Node Queue Bump Buddy BuddyModel BuddyRefine BuddyInit Pmm Devices Descriptors Heap HeapModel HeapSteps HeapPages HeapCompact HeapAlloc HeapFree HeapTheorems HeapClient Sched SchedModel Switch SchedTheorems Threads BootSteps Paging PagingTheorems PagingInit UserSpace Elf ElfTheorems Process ProcessTheorems Kernel BootServices.

(** ** The multiboot tags again *)

Lemma tags_agree m m' stop l : forall a r, tags_at m a l stop -> (forall b, a <= b < stop + 16 -> ld8 m' b = ld8 m b) ->
  tags_at m' a l stop /\ read_tags m' a l r = read_tags m a l r.
Proof.
  induction l as [|[type size] l IH]; intros a r Ht Hm; cbn [tags_at read_tags] in *.
  - split; [|done]. destruct Ht as [Hge|(Hlt & E1 & E2)]; [by left | right]. rewrite <- E1, <- E2 at 1.
    split_and!; [done | apply ld32_agree | apply ld32_agree]; intros b Hb; apply Hm; unfold range in Hb; lia.
  - destruct Ht as (Hlt & E1 & E2 & H8 & Hend & Hmod & Hnext & Ht).
    assert (Hn : a + size <= tag_next a size) by (unfold tag_next; div_lia).
    assert (W : forall o, 0 <= o -> o + 4 <= 16 -> a + o + 4 <= stop + 16 -> ld32 m' (a + o) = ld32 m (a + o))
      by (intros o O1 O2 O3; apply ld32_agree; intros b Hb; apply Hm; unfold range in Hb; lia).
    pose proof (W 0 ltac:(lia) ltac:(lia) ltac:(lia)) as W0. rewrite !Z.add_0_r in W0.
    assert (Hrest : forall b, tag_next a size <= b < stop + 16 -> ld8 m' b = ld8 m b) by (intros b Hb; apply Hm; lia).
    assert (Hr : type = 3 -> ld32 m' (a + 12) = ld32 m (a + 12)) by (intros E; specialize (Hmod E); apply W; lia).
    split; [|destruct (type =? 6); [by apply IH|]; destruct (Z.eqb_spec type 3) as [E|]; [rewrite (Hr E)|]; by apply IH].
    destruct (IH (tag_next a size) r Ht Hrest) as [I1 _].
    split_and!; try done; [by rewrite W0 | rewrite W by lia; done].
Qed.

Lemma read_tags_placement m l : forall a r, f_placement r <= f_placement (read_tags m a l r).
Proof.
  induction l as [|[type size] l IH]; intros a r; cbn [read_tags]; [lia|]. etransitivity; [|apply IH].
  destruct (type =? 6); [cbn; lia|]. destruct (type =? 3); cbn; lia.
Qed.

Section boot.
Context `{BS : BuddySymbols} `{HS : HeapSymbols} `{TS : TableSymbols} `{SS : SchedSymbols} `{LS : LayoutSymbols} `{PR : ProcessSymbols}.

(** ** What the linker provides *)

(** The variables of the kernel that live in memory, with their sizes. *)
Definition variables : list (Z * Z) :=
  [(free_area, 48); (free_bucket, 36); (first_var, 4); (tss, sizeof_TSS_ENTRY); (idt, 2048); (idt_descriptor, 6);
   (que, sizeof_DLList); (sleep_que, sizeof_DLList); (zombie_que, sizeof_DLList); (kernel_page_directory, 4096); (gdt, 48)].

Definition rw_byte (b : Z) : Prop := _rw_start <= b < _rw_end.

(** The read-only sections take the pages from 0x100 to [R1], the others those to
    [R2]; the variables are in the latter. *)
Record linked (R1 R2 : Z) : Prop := {
  ln_symbols : _kernel_start = KERNEL_VIRTUAL_BASE + 0x100000 /\ _ro_start = KERNEL_VIRTUAL_BASE + 0x100000 /\
    _ro_end = KERNEL_VIRTUAL_BASE + 4096 * R1 /\ _rw_start = KERNEL_VIRTUAL_BASE + 4096 * R1 /\
    _rw_end = KERNEL_VIRTUAL_BASE + 4096 * R2 /\ _kernel_end = KERNEL_VIRTUAL_BASE + 4096 * R2;
  ln_vars : forall x, x ∈ variables -> _rw_start <= x.1 /\ x.1 + x.2 <= _rw_end;
  ln_apart : forall i j x y, variables !! i = Some x -> variables !! j = Some y -> i <> j -> apart x.1 x.2 y.1 y.2;
  ln_tables : tables_placed;
  ln_stubs : _ro_start <= isr_stub_table /\ isr_stub_table + 1024 <= _ro_end;
  ln_entries : entries_ok }.

(** ** What the boot loader provides *)

Definition mbi_size (k : kernel) (mbi : Z) : Z := ld32 (k_mem k) (mbi + KERNEL_VIRTUAL_BASE).

(** What the tags [l] of the information at [mbi] say. *)
Definition mbi_found (k : kernel) (mbi : Z) (l : list (Z * Z)) : found :=
  read_tags (k_mem k) (mbi + KERNEL_VIRTUAL_BASE + 8) l
    (MkFound (memory_map (k_boot k)) (user_module (k_boot k)) (Z.max 0x100000 (mbi + mbi_size k mbi))).

Definition module_at (k : kernel) (r : found) : Z := ld32 (k_mem k) (module_start (f_module r)).

(** The pages of the page map for [N] pages of memory. *)
Definition map_pages_of (N : Z) : Z := (sizeof_Page * N + 4095) / 4096.

(** The machine the boot loader hands over: [N] pages of memory (a memory map
    whose fourth entry starts at 1 MiB, whose fifth are the ACPI tables), the
    well-formed image of the first process in a module above the kernel, room for
    the page tables and the page map behind it, the serial port there, the
    kernel's variables zero; the information and the image lie outside the screen
    and the kernel's data. *)
Record bootable (mbi : Z) (l : list (Z * Z)) (R1 R2 N A S NG len : Z) (k : kernel) : Prop := {
  bt_serial : forall io, k_dev k (Out PORT 0xAE :: io) PORT = 0xAE;
  bt_cursor : cursor_ok (k_vga k);
  bt_linked : linked R1 R2;
  bt_order : 0x100 <= R1 <= R2 /\ R2 <= N /\ N <= A < 2 ^ 18 /\ 0 <= S /\ A + S <= 2 ^ 18;
  bt_mbi : 0 <= mbi /\ mbi + mbi_size k mbi + 16 < PHYS_LIMIT;
  bt_tags : tags_at (k_mem k) (mbi + KERNEL_VIRTUAL_BASE + 8) l (mbi + KERNEL_VIRTUAL_BASE + mbi_size k mbi);
  bt_map : let a := f_map (mbi_found k mbi l) in
    mbi + KERNEL_VIRTUAL_BASE <= a /\ a + 120 <= mbi + KERNEL_VIRTUAL_BASE + mbi_size k mbi /\
    ld64 (k_mem k) (mmap_addr (a + 72)) = 0x100000 /\ 0x100000 + ld64 (k_mem k) (mmap_size (a + 72)) = 4096 * N /\
    ld64 (k_mem k) (mmap_addr (a + 96)) = 4096 * A /\ ld64 (k_mem k) (mmap_size (a + 96)) / 4096 = S;
  bt_module : let a := f_module (mbi_found k mbi l) in
    mbi + KERNEL_VIRTUAL_BASE <= a /\ a + 16 <= mbi + KERNEL_VIRTUAL_BASE + mbi_size k mbi;
  bt_image : let start := module_at k (mbi_found k mbi l) in
    start + len <= f_placement (mbi_found k mbi l) /\
    elf_image (k_mem k) (start + KERNEL_VIRTUAL_BASE) len /\ stack_room (k_mem k) (start + KERNEL_VIRTUAL_BASE);
  bt_above : 4096 * R2 <= f_placement (mbi_found k mbi l);
  bt_room : f_placement (mbi_found k mbi l) + 4096 * (1 + tables_needed (kernel_regions R1 R2 N A S) + map_pages_of N) <= 4096 * N;
  bt_slack : (2 | N) /\ N <= NG /\ (2 ^ orders | NG) /\ sizeof_Page * NG <= 4096 * map_pages_of N;
  bt_apart : forall b, range (mbi + KERNEL_VIRTUAL_BASE) (mbi_size k mbi + 16) b \/
    range (module_at k (mbi_found k mbi l) + KERNEL_VIRTUAL_BASE) len b -> ~ vga_fp b /\ ~ rw_byte b;
  bt_blank : (forall o, 0 <= o <= orders -> ld32 (k_mem k) (free_area_at o) = NULL) /\
    (forall o, 0 <= o < 9 -> ld32 (k_mem k) (bucket_at o) = 0) /\ ld32 (k_mem k) first_var = 0 /\
    last_chunk (k_heap k) = 0 /\ 0 <= thread_id (k_sched k) < 2 ^ 32 }.

Section run.
Context (mbi : Z) (l : list (Z * Z)) (R1 R2 N A S NG len : Z) (k : kernel) (HB : bootable mbi l R1 R2 N A S NG len k).
Local Abbreviation header := (mbi + KERNEL_VIRTUAL_BASE).
Local Abbreviation size := (mbi_size k mbi).
Local Abbreviation r := (mbi_found k mbi l).
Local Abbreviation P := (map_pages_of N).
Local Abbreviation regions := (kernel_regions R1 R2 N A S).

Lemma tables_nonneg : 0 <= tables_needed regions.
Proof. apply tables_needed_nonneg, ordered_regions, (bt_order _ _ _ _ _ _ _ _ _ _ HB). Qed.

Lemma size_range : 0 <= size < 2 ^ 32.
Proof. apply ld32_range. Qed.

Lemma placement_mbi : 0x100000 <= f_placement r /\ mbi + size <= f_placement r.
Proof. pose proof (read_tags_placement (k_mem k) l (header + 8) (MkFound (memory_map (k_boot k)) (user_module (k_boot k)) (Z.max 0x100000 (mbi + size)))) as Hp.
  cbn [f_placement] in Hp. fold r in Hp. lia. Qed.

(** A variable is in the data section. *)
Lemma var_rw i x b : variables !! i = Some x -> range x.1 x.2 b -> rw_byte b.
Proof.
  intros Hx Hb. destruct (ln_vars _ _ (bt_linked _ _ _ _ _ _ _ _ _ _ HB) x); [by eapply list_elem_of_lookup_2|].
  unfold rw_byte, range in *. lia.
Qed.

Lemma rw_place b : rw_byte b -> KERNEL_VIRTUAL_BASE + 0x100000 <= b < f_placement r + KERNEL_VIRTUAL_BASE.
Proof.
  destruct (ln_symbols _ _ (bt_linked _ _ _ _ _ _ _ _ _ _ HB)) as (_ & _ & _ & E1 & E2 & _). unfold rw_byte. rewrite E1, E2.
  pose proof (bt_above _ _ _ _ _ _ _ _ _ _ HB). pose proof (bt_order _ _ _ _ _ _ _ _ _ _ HB). lia.
Qed.

Lemma vga_rw b : vga_fp b -> ~ rw_byte b.
Proof. intros Hv Hr%rw_place. unfold vga_fp, range, VGA_MEMORY, columns, rows, KERNEL_VIRTUAL_BASE in *. lia. Qed.

(** ** Up to the kernel's address space *)

Definition table_area (p0 t b : Z) : Prop :=
  range kernel_page_directory 4096 b \/ p0 + KERNEL_VIRTUAL_BASE <= b < 4096 * t + KERNEL_VIRTUAL_BASE.

(** What has been written up to [paging_init]. *)
Definition early_fp (p0 b : Z) : Prop :=
  vga_fp b \/ range idt 2048 b \/ range idt_descriptor 6 b \/ range kernel_page_directory 4096 b \/ p0 + KERNEL_VIRTUAL_BASE <= b.

Record paging_up (p0 t : Z) (k' : kernel) : Prop := {
  pg_first : f_placement r <= p0 < f_placement r + 4096;
  pg_place : placement_addr k' = 4096 * t /\ p0 <= 4096 * t <= p0 + 4096 * tables_needed regions;
  pg_mem : untouched (early_fp p0) (k_mem k) (k_mem k');
  pg_cursor : cursor_ok (k_vga k');
  pg_boot : k_boot k' = MkBoot (f_map r) (f_module r);
  pg_same : k_heap k' = k_heap k /\ k_sched k' = k_sched k /\ k_devs k' = k_devs k;
  pg_cpu : k_cpu k' = set_cr3 (V2P kernel_page_directory) (set_idtr (idt, 2047) (k_cpu k));
  pg_tables : tables_ok kernel_page_directory (k_mem k') (fun b => ~ table_area p0 t b);
  pg_map : forall x, 0 <= x < 2 ^ 20 -> translate (k_mem k') kernel_page_directory x = region_map regions x;
  pg_user : forall d, 0 <= d < USER_END / 1024 -> present kernel_page_directory (k_mem k') d = false;
  pg_gates : forall v, 0 <= v < 256 -> decode_gate (k_mem k') v =
    MkGate (ld32 (k_mem k) (isr_stub_table + 4 * v)) 8 0 (if v =? 0x80 then 0xEE else 0x8E) }.

(** The scan, from a kernel whose screen was cleared. *)
Lemma scan_up m1 io v : untouched vga_fp (k_mem k) m1 ->
  let k1 := set_vga v (set_io io (set_mem m1 k)) in
  wp (scan_tags (Datatypes.S (Z.to_nat (size / 8))) header (header + 8) (Z.max 0x100000 (mbi + size))) k1 (fun p k' =>
    p = f_placement r /\ k' = set_boot (MkBoot (f_map r) (f_module r)) k1).
Proof.
  intros U1 k1. destruct (bt_mbi _ _ _ _ _ _ _ _ _ _ HB) as [M1 M2]. pose proof size_range as Hs. unfold PHYS_LIMIT in M2.
  assert (Hag : forall b, header <= b < header + size + 16 -> ld8 m1 b = ld8 (k_mem k) b).
  { intros b Hb. apply U1. apply (bt_apart _ _ _ _ _ _ _ _ _ _ HB). left. unfold range. lia. }
  destruct (tags_agree (k_mem k) m1 (header + size) l (header + 8) (MkFound (memory_map (k_boot k)) (user_module (k_boot k)) (Z.max 0x100000 (mbi + size)))
    (bt_tags _ _ _ _ _ _ _ _ _ _ HB)) as [T1 T2]; [intros b Hb; apply Hag; lia|]. fold r in T2.
  assert (Esz : ld32 m1 header = size) by (apply ld32_agree; intros b Hb; apply Hag; unfold range in Hb; lia).
  pose proof (scan_tags_spec m1 header (header + size) ltac:(lia) ltac:(lia) ltac:(congruence) l (header + 8) (Datatypes.S (Z.to_nat (size / 8)))
    (MkFound (memory_map (k_boot k)) (user_module (k_boot k)) (Z.max 0x100000 (mbi + size))) k1 eq_refl T1) as Hw.
  cbn [f_map f_module f_placement] in Hw. rewrite T2 in Hw.
  replace (set_boot (MkBoot (memory_map (k_boot k)) (user_module (k_boot k))) k1) with k1 in Hw by (unfold k1; by destruct k as [? ? ? ? ? ? ? ? ? ? []]).
  apply Hw; [lia | lia |]. rewrite Nat2Z.inj_succ, Z2Nat.id by div_lia. div_lia.
Qed.

(** The information and the image survive writes to the screen and the data. *)
Lemma info_kept m (F : Z -> Prop) b : untouched F (k_mem k) m -> (forall c, F c -> vga_fp c \/ rw_byte c \/ f_placement r + KERNEL_VIRTUAL_BASE <= c) ->
  range header size b \/ range (module_at k r + KERNEL_VIRTUAL_BASE) len b -> ld8 m b = ld8 (k_mem k) b.
Proof.
  intros Hu HF Hb. apply Hu. intros Hx. pose proof placement_mbi as [_ Hp]. destruct (bt_image _ _ _ _ _ _ _ _ _ _ HB) as [Hi _].
  assert (Ha : ~ vga_fp b /\ ~ rw_byte b).
  { apply (bt_apart _ _ _ _ _ _ _ _ _ _ HB). destruct Hb as [Hb|Hb]; [left | by right]. unfold range in *. lia. }
  destruct (HF b Hx) as [Hv|[Hr|Ht]]; [tauto | tauto |]. unfold range in Hb. lia.
Qed.

(** Before [paging_init]. *)
Lemma layout_up p0 k' : (4096 | p0) -> f_placement r <= p0 < f_placement r + 4096 -> placement_addr k' = p0 ->
  k_boot k' = MkBoot (f_map r) (f_module r) ->
  untouched (fun b => vga_fp b \/ range idt 2048 b \/ range idt_descriptor 6 b) (k_mem k) (k_mem k') ->
  boot_layout R1 R2 N A S k'.
Proof.
  intros Hal Hp0 Epl Eb Hu. destruct (bt_map _ _ _ _ _ _ _ _ _ _ HB) as (Q1 & Q2 & Q3 & Q4 & Q5 & Q6).
  destruct (bt_order _ _ _ _ _ _ _ _ _ _ HB) as (O1 & O2 & O3 & O4 & O5). pose proof placement_mbi as [Pl1 Pl2].
  pose proof (bt_linked _ _ _ _ _ _ _ _ _ _ HB) as HL. destruct (ln_symbols _ _ HL) as (L1 & L2 & L3 & L4 & L5 & L6).
  pose proof (bt_room _ _ _ _ _ _ _ _ _ _ HB) as Hroom. destruct (bt_mbi _ _ _ _ _ _ _ _ _ _ HB) as [M1 M2].
  assert (Hmap : 0 <= P) by (unfold map_pages_of, sizeof_Page; div_lia).
  assert (Hw : forall a, f_map r <= a -> a + 8 <= f_map r + 120 -> ld64 (k_mem k') a = ld64 (k_mem k) a).
  { intros a A1 A2. apply ld64_agree. intros b Hb. eapply info_kept; [exact Hu | | left; unfold range in *; lia].
    intros c [Hc|[Hc|Hc]]; [by left | right; left | right; left]; [by apply (var_rw 4 (idt, 2048)) | by apply (var_rw 5 (idt_descriptor, 6))]. }
  destruct (ln_vars _ _ HL (kernel_page_directory, 4096)) as [V1 V2]; [by apply (list_elem_of_lookup_2 _ 9)|]. cbn [fst snd] in V1, V2.
  pose proof (bt_above _ _ _ _ _ _ _ _ _ _ HB) as Hab.
  split; rewrite ?Eb, ?Epl; cbn [memory_map].
  - done.
  - lia.
  - rewrite Hw by (unfold mmap_size; lia). rewrite Q4. div_lia.
  - by rewrite !Hw by (unfold mmap_size, mmap_addr; lia).
  - split_and!; [done | lia |]. unfold PHYS_LIMIT, KERNEL_VIRTUAL_BASE in *. lia.
  - rewrite L4, L5 in *. unfold KERNEL_VIRTUAL_BASE in *. lia.
  - unfold KERNEL_VIRTUAL_BASE in *. split_and!; [lia | lia |]. apply ranges_apart; [lia | lia |]. intros b Hb Hx.
    destruct (bt_apart _ _ _ _ _ _ _ _ _ _ HB b) as [_ Hn]; [left; unfold range, KERNEL_VIRTUAL_BASE in *; lia|].
    apply Hn. by apply (var_rw 9 (kernel_page_directory, 4096)).
Qed.

(** The tables are in the directory and in the pages taken from [p0] on. *)
Lemma area_tables k1 k2 t : boot_paged kernel_page_directory (boot_fp k1) k1 regions (WINDOW + A + S) k2 ->
  placement_addr k2 = 4096 * t ->
  tables_ok kernel_page_directory (k_mem k2) (fun b => ~ table_area (placement_addr k1) t b).
Proof.
  intros [_ _ [T1 T2 T3 T4 T5] [C1 C2 C3] _ _ _ _] Et. split; try done.
  - intros b Hb Hn. apply Hn. by left.
  - intros d b Hd Hs Hb Hn. specialize (T4 d b Hd Hs Hb). unfold above in T4. rewrite Et in T4.
    destruct (C3 d b Hd Hs Hb) as [Hx|Hx]; apply Hn; [by left | right]. unfold above in Hx. lia.
Qed.

Lemma area_dec p0 t b : table_area p0 t b \/ ~ table_area p0 t b.
Proof. unfold table_area, range. lia. Qed.

Lemma paging_up_spec {X} (rest : M X) (Q : X -> kernel -> Prop) :
  (forall p0 t k', paging_up p0 t k' -> wpe out_of_memory rest k' Q) ->
  wpe out_of_memory (seriel_init;; vga_clear;;
    when (negb (0x36d76289 =? 0x36d76289)) (kernel_panic "Invalid Multiboot2 Magic number");;
    size ← load32 (header_size (P2V mbi));
    placement_addr ← scan_tags (Datatypes.S (Z.to_nat (size / 8))) (P2V mbi) (P2V mbi ⊞ 8)
      (if V2P _kernel_start <? mbi ⊞ size then mbi ⊞ size else V2P _kernel_start);
    init_bump placement_addr;; init_idt;; kprintf ("IDT initialized." ++ newline) [];;
    paging_init;; kprintf ("Paging initialized." ++ newline) [];; rest) k Q.
Proof.
  intros HQ. destruct (bt_mbi _ _ _ _ _ _ _ _ _ _ HB) as [M1 M2]. pose proof size_range as Hs. unfold PHYS_LIMIT, KERNEL_VIRTUAL_BASE in M2.
  pose proof tables_nonneg as Htn. pose proof (bt_linked _ _ _ _ _ _ _ _ _ _ HB) as HL. destruct (ln_symbols _ _ HL) as (L1 & L2 & L3 & L4 & L5 & L6).
  pose proof (bt_room _ _ _ _ _ _ _ _ _ _ HB) as Hroom. destruct (bt_order _ _ _ _ _ _ _ _ _ _ HB) as (O1 & O2 & O3 & O4 & O5).
  assert (Hmap : 0 <= P) by (unfold map_pages_of, sizeof_Page; div_lia). pose proof placement_mbi as [Pl1 Pl2].
  apply wpe_bind, wpe_wp. eapply wp_mono; [apply seriel_init_spec, (bt_serial _ _ _ _ _ _ _ _ _ _ HB)|]. intros [] k1 (io1 & ->).
  apply wpe_bind, wpe_wp. eapply prints_wp; [apply vga_clear_prints | apply (bt_cursor _ _ _ _ _ _ _ _ _ _ HB) |].
  intros k2 (m2 & io2 & v2 & -> & U2 & _ & Hv2). change (k_mem (set_io io1 k)) with (k_mem k) in U2.
  change (set_vga v2 (set_io io2 (set_mem m2 (set_io io1 k)))) with (set_vga v2 (set_io io2 (set_mem m2 k))).
  apply wpe_bind, wpe_wp, wp_ret. unfold header_size. rewrite P2V_eq by (unfold PHYS_LIMIT, KERNEL_VIRTUAL_BASE; lia).
  apply wpe_bind. eapply wpe_access; [lia | unfold KERNEL_VIRTUAL_BASE; lia | reflexivity | cbv beta].
  cbn [k_mem set_vga set_io set_mem].
  assert (Esz : ld32 m2 header = size).
  { apply ld32_agree. intros b Hb. apply U2, (bt_apart _ _ _ _ _ _ _ _ _ _ HB). left. unfold range in *. lia. }
  rewrite Esz, L1. rewrite (u32_small (mbi + size)), (u32_small (header + 8)) by (unfold KERNEL_VIRTUAL_BASE; lia).
  assert (V2P (KERNEL_VIRTUAL_BASE + 1048576) = 0x100000) as -> by reflexivity.
  replace (if 1048576 <? mbi + size then mbi + size else 1048576) with (Z.max 0x100000 (mbi + size)) by (destruct (Z.ltb_spec 1048576 (mbi + size)); lia).
  apply wpe_bind, wpe_wp. eapply wp_mono; [apply (scan_up m2 io2 v2 U2)|]. intros p k3 [-> ->].
  apply wpe_bind, wpe_wp. eapply wp_mono; [apply init_bump_spec; lia|]. intros [] k4 (p0 & -> & Hal & Hp0).
  apply wpe_bind, wpe_wp. eapply wp_mono; [apply init_idt_spec, (ln_tables _ _ HL)|]. intros [] k5 (m5 & -> & Hg5 & U5).
  cbn [k_mem k_cpu set_vga set_io set_mem set_boot set_placement] in Hg5, U5 |- *.
  apply wpe_bind, wpe_wp. eapply kprintf_say; [reflexivity | exact Hv2 |]. intros _ m6 io6 v6 U6 Hv6. cbn [k_mem set_cpu set_mem] in U6.
  set (k6 := set_vga v6 _).
  assert (U06 : untouched (fun b => vga_fp b \/ range idt 2048 b \/ range idt_descriptor 6 b) (k_mem k) m6).
  { eapply untouched_trans; [eapply untouched_mono; [|exact U2]; auto|]. eapply untouched_trans; eapply untouched_mono; [|exact U5| |exact U6]; cbv beta; tauto. }
  apply wpe_bind, wpe_wp. eapply wp_mono; [apply (paging_init_spec R1 R2 N A S), (layout_up p0); [done | lia | done | done | exact U06]|].
  intros [] k7 (m7 & q & -> & HP7 & U7). change (k_mem k6) with m6 in U7.
  pose proof HP7 as [[[t Ht] Hq0] [Hq1 Hq2] _ _ Hdir Htr _ _]. cbn [placement_addr set_mem set_placement] in Ht, Hq0, Hq1, Hq2. change (placement_addr k6) with p0 in Hq1, Hq2.
  apply wpe_bind, wpe_wp. eapply kprintf_say; [reflexivity | exact Hv6 |]. intros _ m8 io8 v8 U8 Hv8. cbn [k_mem set_cpu set_mem set_placement] in U8.
  assert (Hvar : forall b, range kernel_page_directory 4096 b -> rw_byte b) by (intros b Hb; by apply (var_rw 9 (kernel_page_directory, 4096))).
  assert (Hvga : forall b, vga_fp b -> ~ table_area p0 t b).
  { intros b Hb [Hx|Hx]; [by apply (vga_rw b Hb), Hvar|]. unfold vga_fp, range, VGA_MEMORY, columns, rows, KERNEL_VIRTUAL_BASE in *. lia. }
  pose proof (area_tables k6 (set_mem m7 (set_placement q k6)) t HP7 ltac:(cbn; lia)) as HT7. change (placement_addr k6) with p0 in HT7. cbn [k_mem set_mem] in HT7.
  assert (U8' : untouched (fun b => ~ table_area p0 t b) m7 m8) by (eapply untouched_mono; [exact Hvga | exact U8]).
  destruct (tables_frame _ _ _ _ _ HT7 U8' (fun b Hb => Hb)) as (HT8 & Hpde8 & Htr8).
  assert (Hg8 : forall b, range idt 2048 b -> ld8 m8 b = ld8 m5 b).
  { intros b Hb. assert (Hrw : rw_byte b) by (by apply (var_rw 4 (idt, 2048))).
    rewrite U8 by (intros Hx; by apply (vga_rw b)). rewrite U7; [apply U6; intros Hx; by apply (vga_rw b)|].
    intros [Hx|Hx]; [|unfold above in Hx; change (placement_addr k6) with p0 in Hx; apply rw_place in Hrw; lia].
    pose proof (ln_apart _ _ HL 4 9 _ _ eq_refl eq_refl ltac:(lia)) as Hap. unfold apart, range in *. cbn [fst snd] in Hap. lia. }
  apply (HQ p0 t). split; cbn [k_mem k_vga k_boot k_heap k_sched k_devs k_cpu placement_addr set_vga set_io set_mem set_cpu set_placement]; try done.
  - split; lia.
  - eapply untouched_trans; [eapply untouched_mono; [|exact U06]; unfold early_fp; tauto|].
    eapply untouched_trans; eapply untouched_mono; [|exact U7| |exact U8]; unfold early_fp; [|tauto].
    intros b [Hb|Hb]; [tauto|]. unfold above in Hb. change (placement_addr k6) with p0 in Hb. tauto.
  - intros x Hx. rewrite Htr8 by done. by apply Htr.
  - intros d Hd. change (USER_END / 1024) with 768 in Hd. destruct (present kernel_page_directory m8 d) eqn:Hpr; [|done].
    unfold present in Hpr. rewrite Hpde8 in Hpr by lia. destruct (Hdir d) as [Hw _]; [lia | exact Hpr |]. change (WINDOW / 1024) with 768 in Hw. lia.
  - intros v Hv. pose proof (Hg5 v Hv) as Hg.
    rewrite (decode_gate_frame m5 m8 v (fun b => ~ range idt 2048 b)); [|intros b Hb; apply Hg8; unfold range in *; lia | unfold range; intros; lia].
    rewrite Hg. f_equal. apply ld32_agree. intros b Hb. apply U2. intros Hx. destruct (ln_stubs _ _ HL) as [B1 B2]. rewrite L2 in B1.
    unfold vga_fp, range, VGA_MEMORY, columns, rows, KERNEL_VIRTUAL_BASE in *. lia.
Qed.

(** ** The page allocator *)

Lemma var_apart i j x y b : variables !! i = Some x -> variables !! j = Some y -> i <> j -> range x.1 x.2 b -> range y.1 y.2 b -> False.
Proof.
  intros Hi Hj Hne Hx Hy. pose proof (ln_apart _ _ (bt_linked _ _ _ _ _ _ _ _ _ _ HB) i j x y Hi Hj Hne).
  unfold apart, range in *. lia.
Qed.

Local Abbreviation image := (module_at k r + KERNEL_VIRTUAL_BASE).

(** What stays as it is from [paging_init] on. *)
Definition boot_keep (p0 t b : Z) : Prop :=
  table_area p0 t b \/ range header size b \/ range image len b \/ range idt 2048 b \/ range gdt 48 b.

Section pages.
Context (p0 t : Z) (k1 : kernel) (HP : paging_up p0 t k1).

(** Everything the kernel has is below the first free page. *)
Lemma early_off b : early_fp p0 b -> vga_fp b \/ rw_byte b \/ f_placement r + KERNEL_VIRTUAL_BASE <= b.
Proof.
  intros [Hb|[Hb|[Hb|[Hb|Hb]]]]; [by left | right; left | right; left | right; left | right; right].
  - by apply (var_rw 4 (idt, 2048)).
  - by apply (var_rw 5 (idt_descriptor, 6)).
  - by apply (var_rw 9 (kernel_page_directory, 4096)).
  - destruct (pg_first _ _ _ HP). lia.
Qed.

(** A variable that was not initialised yet is as at the start. *)
Lemma var_kept i x : variables !! i = Some x -> (i < 4 \/ i = 10)%nat -> agree (k_mem k) (k_mem k1) x.1 x.2.
Proof.
  intros Hx Hi. eapply untouched_agree; [apply (pg_mem _ _ _ HP)|]. intros b Hb. pose proof (var_rw i x b Hx Hb) as Hrw.
  intros [Hf|[Hf|[Hf|[Hf|Hf]]]].
  - by apply (vga_rw b).
  - by apply (var_apart i 4 x (idt, 2048) b Hx eq_refl ltac:(lia)).
  - by apply (var_apart i 5 x (idt_descriptor, 6) b Hx eq_refl ltac:(lia)).
  - by apply (var_apart i 9 x (kernel_page_directory, 4096) b Hx eq_refl ltac:(lia)).
  - apply rw_place in Hrw. destruct (pg_first _ _ _ HP). lia.
Qed.

Lemma t_room : 0 < t /\ f_placement r <= 4096 * t /\ t + P <= N /\ 0 <= P.
Proof.
  pose proof (bt_room _ _ _ _ _ _ _ _ _ _ HB). pose proof (pg_first _ _ _ HP). destruct (pg_place _ _ _ HP) as [_ ?].
  pose proof placement_mbi as [? _]. assert (0 <= P) by (pose proof (bt_order _ _ _ _ _ _ _ _ _ _ HB); unfold map_pages_of, sizeof_Page; div_lia). lia.
Qed.

Lemma pmm_up : boot_state N NG t P k1.
Proof.
  destruct (bt_map _ _ _ _ _ _ _ _ _ _ HB) as (Q1 & Q2 & Q3 & Q4 & _). destruct (bt_slack _ _ _ _ _ _ _ _ _ _ HB) as (S1 & S2 & S3 & S4).
  destruct (bt_order _ _ _ _ _ _ _ _ _ _ HB) as (O1 & O2 & O3 & O4 & O5). pose proof t_room as (Ht0 & Ht1 & Ht2 & Ht3). pose proof placement_mbi as [Pl1 Pl2].
  destruct (bt_mbi _ _ _ _ _ _ _ _ _ _ HB) as [M1 M2]. destruct (bt_blank _ _ _ _ _ _ _ _ _ _ HB) as (Z1 & _).
  destruct (ln_vars _ _ (bt_linked _ _ _ _ _ _ _ _ _ _ HB) (free_area, 48)) as [V1 V2]; [by apply (list_elem_of_lookup_2 _ 0)|]. cbn [fst snd] in V1, V2.
  assert (Hfa : KERNEL_VIRTUAL_BASE <= free_area /\ free_area + 48 <= 4096 * t + KERNEL_VIRTUAL_BASE).
  { assert (B1 : rw_byte free_area) by (unfold rw_byte; lia). assert (B2 : rw_byte (free_area + 47)) by (unfold rw_byte; lia).
    apply rw_place in B1, B2. lia. }
  assert (Hw : forall a, f_map r <= a -> a + 8 <= f_map r + 120 -> ld64 (k_mem k1) a = ld64 (k_mem k) a).
  { intros a A1 A2. apply ld64_agree. intros b Hb. eapply info_kept; [apply (pg_mem _ _ _ HP) | apply early_off | left; unfold range in *; lia]. }
  unfold PHYS_LIMIT in *. unfold KERNEL_VIRTUAL_BASE in *.
  split; rewrite ?(pg_boot _ _ _ HP); cbn [memory_map]; rewrite ?P2V_eq by (unfold PHYS_LIMIT, KERNEL_VIRTUAL_BASE; lia); unfold PHYS_LIMIT, KERNEL_VIRTUAL_BASE, apart; try done; try lia.
  - rewrite !Hw by lia. unfold mmap_addr, mmap_size in *. replace (f_map r + 72 + 8) with (f_map r + 80) in * by lia. lia.
  - by destruct (pg_place _ _ _ HP).
  - intros o Ho. rewrite <- (Z1 o Ho). apply ld32_agree. unfold free_area_at, orders, MAX_BUDDY_ORDER in *. rewrite u32_small by lia.
    eapply agree_sub; [exact (var_kept 0 (free_area, 48) eq_refl ltac:(lia)) | |]; cbn [fst snd]; lia.
Qed.

Lemma statics_var b : statics b -> exists i x, variables !! i = Some x /\ range x.1 x.2 b /\ (i = 1%nat \/ i = 2%nat).
Proof. intros [Hb|Hb]; [by exists 1%nat, (free_bucket, 36); auto | by exists 2%nat, (first_var, 4); auto]. Qed.

Lemma sched_var b : sched_statics b -> exists i x, variables !! i = Some x /\ range x.1 x.2 b /\ (i = 3%nat \/ (6 <= i <= 8)%nat).
Proof.
  intros [(q & Hq & Hb)|Hb]; [|by exists 3%nat, (tss, sizeof_TSS_ENTRY); auto].
  unfold queues in Hq. rewrite !elem_of_cons, elem_of_nil in Hq. destruct Hq as [->|[->|[->|[]]]].
  - exists 6%nat, (que, sizeof_DLList). split_and!; [done | done | right; lia].
  - exists 7%nat, (sleep_que, sizeof_DLList). split_and!; [done | done | right; lia].
  - exists 8%nat, (zombie_que, sizeof_DLList). split_and!; [done | done | right; lia].
Qed.

(** The kept bytes are not the other variables'. *)
Lemma keep_off i x b : variables !! i = Some x -> i <> 4%nat -> (i < 9)%nat -> range x.1 x.2 b -> ~ boot_keep p0 t b.
Proof.
  intros Hx H4 H9 Hb. pose proof (var_rw i x b Hx Hb) as Hrw. pose proof (rw_place b Hrw). pose proof (pg_first _ _ _ HP).
  intros [[Hk|Hk]|[Hk|[Hk|[Hk|Hk]]]].
  - by apply (var_apart i 9 x (kernel_page_directory, 4096) b Hx eq_refl ltac:(lia)).
  - lia.
  - destruct (bt_apart _ _ _ _ _ _ _ _ _ _ HB b) as [_ Hn]; [left; unfold range in *; lia | done].
  - destruct (bt_apart _ _ _ _ _ _ _ _ _ _ HB b) as [_ Hn]; [by right | done].
  - by apply (var_apart i 4 x (idt, 2048) b Hx eq_refl H4).
  - by apply (var_apart i 10 x (gdt, 48) b Hx eq_refl ltac:(lia)).
Qed.

(** The GDT is none of the other kept bytes. *)
Lemma gdt_off b : range gdt 48 b -> ~ (table_area p0 t b \/ range header size b \/ range image len b \/ range idt 2048 b).
Proof.
  intros Hb. pose proof (var_rw 10 (gdt, 48) b eq_refl Hb) as Hrw. pose proof (rw_place b Hrw). pose proof (pg_first _ _ _ HP).
  intros [[Hk|Hk]|[Hk|[Hk|Hk]]].
  - by apply (var_apart 10 9 (gdt, 48) (kernel_page_directory, 4096) b eq_refl eq_refl ltac:(lia)).
  - lia.
  - destruct (bt_apart _ _ _ _ _ _ _ _ _ _ HB b) as [_ Hn]; [left; unfold range in *; lia | done].
  - destruct (bt_apart _ _ _ _ _ _ _ _ _ _ HB b) as [_ Hn]; [by right | done].
  - by apply (var_apart 10 4 (gdt, 48) (idt, 2048) b eq_refl eq_refl ltac:(lia)).
Qed.

Lemma vga_keep b : vga_fp b -> ~ boot_keep p0 t b.
Proof.
  intros Hv. pose proof (vga_rw b Hv) as Hn. pose proof (pg_first _ _ _ HP). pose proof placement_mbi as [Pl _]. intros [[Hk|Hk]|[Hk|[Hk|[Hk|Hk]]]].
  - by apply Hn, (var_rw 9 (kernel_page_directory, 4096)).
  - unfold vga_fp, range, VGA_MEMORY, columns, rows, KERNEL_VIRTUAL_BASE in *. lia.
  - destruct (bt_apart _ _ _ _ _ _ _ _ _ _ HB b) as [Hm _]; [left; unfold range in *; lia | done].
  - destruct (bt_apart _ _ _ _ _ _ _ _ _ _ HB b) as [Hm _]; [by right | done].
  - by apply Hn, (var_rw 4 (idt, 2048)).
  - by apply Hn, (var_rw 10 (gdt, 48)).
Qed.

(** None of this is the page allocator's. *)
Lemma all_low b : statics b \/ sched_statics b \/ vga_fp b \/ boot_keep p0 t b ->
  b < 4096 * t + KERNEL_VIRTUAL_BASE /\ ~ range free_area 48 b.
Proof.
  pose proof t_room as (_ & Ht & _). pose proof placement_mbi as [Pl1 Pl2].
  assert (Hvar : forall i x, variables !! i = Some x -> i <> 0%nat -> range x.1 x.2 b -> b < 4096 * t + KERNEL_VIRTUAL_BASE /\ ~ range free_area 48 b).
  { intros i x Hx Hi Hb. pose proof (rw_place b (var_rw i x b Hx Hb)). split; [lia|]. intros Hf. by apply (var_apart i 0 x (free_area, 48) b Hx eq_refl Hi). }
  intros [Hb|[Hb|[Hb|Hb]]].
  - destruct (statics_var b Hb) as (i & x & Hx & Hr & Hi). apply (Hvar i x); [done | lia | done].
  - destruct (sched_var b Hb) as (i & x & Hx & Hr & Hi). apply (Hvar i x); [done | lia | done].
  - split; [unfold vga_fp, range, VGA_MEMORY, columns, rows, KERNEL_VIRTUAL_BASE in *; lia|]. intros Hf. by apply (vga_rw b Hb), (var_rw 0 (free_area, 48)).
  - split; [|intros Hf; by apply (keep_off 0 (free_area, 48) b eq_refl ltac:(lia) ltac:(lia))].
    destruct (bt_image _ _ _ _ _ _ _ _ _ _ HB) as [Hi _]. destruct Hb as [[Hk|Hk]|[Hk|[Hk|[Hk|Hk]]]].
    + by apply (Hvar 9%nat (kernel_page_directory, 4096)).
    + lia.
    + unfold range in Hk. lia.
    + unfold range in Hk. lia.
    + by apply (Hvar 4%nat (idt, 2048)).
    + by apply (Hvar 10%nat (gdt, 48)).
Qed.

(** What [pmm_init] and the log line after it write. *)
Definition pages_fp (b : Z) : Prop := range free_area 48 b \/ range (P2V (4096 * t)) (4096 * P) b \/ vga_fp b.

Lemma P2V_t : P2V (4096 * t) = 4096 * t + KERNEL_VIRTUAL_BASE.
Proof.
  pose proof t_room as (Ht0 & _ & Ht2 & Ht3). destruct (bt_order _ _ _ _ _ _ _ _ _ _ HB) as (_ & _ & O3 & _).
  apply P2V_eq. unfold PHYS_LIMIT, KERNEL_VIRTUAL_BASE. lia.
Qed.

Lemma low_kept k2 b : untouched pages_fp (k_mem k1) (k_mem k2) -> statics b \/ sched_statics b \/ boot_keep p0 t b ->
  ld8 (k_mem k2) b = ld8 (k_mem k1) b.
Proof.
  intros Hu Hb. destruct (all_low b) as [L1 L2]; [tauto|]. apply Hu. intros [Hf|[Hf|Hf]]; [done | rewrite P2V_t in Hf; unfold range in Hf; lia|].
  destruct Hb as [Hb|[Hb|Hb]]; [| |by apply (vga_keep b)].
  - destruct (statics_var b Hb) as (i & x & Hx & Hr & _). by apply (vga_rw b Hf), (var_rw i x).
  - destruct (sched_var b Hb) as (i & x & Hx & Hr & _). by apply (vga_rw b Hf), (var_rw i x).
Qed.

(** The image and the tags are still those of the boot loader. *)
Lemma info_same k2 b : untouched pages_fp (k_mem k1) (k_mem k2) -> range header size b \/ range image len b -> ld8 (k_mem k2) b = ld8 (k_mem k) b.
Proof.
  intros Hu Hb. rewrite (low_kept k2 b Hu) by (right; right; unfold boot_keep; tauto).
  eapply info_kept; [apply (pg_mem _ _ _ HP) | apply early_off | done].
Qed.

Lemma var_mapped i x : variables !! i = Some x -> 0 < x.2 -> KERNEL_VIRTUAL_BASE <= x.1 /\ x.1 + x.2 <= 2 ^ 32.
Proof.
  intros Hx Hp. assert (B1 : rw_byte x.1) by (apply (var_rw i x); [done | unfold range; lia]).
  assert (B2 : rw_byte (x.1 + x.2 - 1)) by (apply (var_rw i x); [done | unfold range; lia]). apply rw_place in B1, B2.
  pose proof t_room as (_ & Ht1 & Ht2 & Ht3). destruct (bt_order _ _ _ _ _ _ _ _ _ _ HB) as (_ & _ & O3 & _). unfold KERNEL_VIRTUAL_BASE in *. lia.
Qed.

Lemma placed_none : placed [].
Proof.
  pose proof (bt_linked _ _ _ _ _ _ _ _ _ _ HB) as HL.
  assert (Hq : forall q, q ∈ queues -> exists i, variables !! i = Some (q, sizeof_DLList) /\ i <> 3%nat).
  { intros q Hq. unfold queues in Hq. rewrite !elem_of_cons, elem_of_nil in Hq. destruct Hq as [->|[->|[->|[]]]]; [exists 6%nat | exists 7%nat | exists 8%nat]; done. }
  split; try (intros u Hu; by apply elem_of_nil in Hu); try (intros q u Hu Hx; by apply elem_of_nil in Hx).
  - constructor.
  - done.
  - intros q Hin. destruct (Hq q Hin) as (i & Hx & _). by apply (var_mapped i (q, sizeof_DLList)).
  - intros q q' Hin Hin' Hne. destruct (Hq q Hin) as (i & Hx & _), (Hq q' Hin') as (j & Hy & _).
    apply (ln_apart _ _ HL i j (q, sizeof_DLList) (q', sizeof_DLList) Hx Hy). intros ->. congruence.
  - pose proof (ln_apart _ _ HL 6 7 _ _ eq_refl eq_refl ltac:(lia)) as A1. pose proof (ln_apart _ _ HL 6 8 _ _ eq_refl eq_refl ltac:(lia)) as A2.
    pose proof (ln_apart _ _ HL 7 8 _ _ eq_refl eq_refl ltac:(lia)) as A3. unfold apart, sizeof_DLList in A1, A2, A3. cbn [fst snd] in A1, A2, A3.
    unfold queues. repeat constructor; rewrite ?elem_of_cons, ?elem_of_nil; lia.
  - by apply (var_mapped 3%nat (tss, sizeof_TSS_ENTRY)).
  - intros q Hin. destruct (Hq q Hin) as (i & Hx & Hi). by apply (ln_apart _ _ HL 3 i (tss, sizeof_TSS_ENTRY) (q, sizeof_DLList)); [| |congruence].
Qed.

Lemma pages_up_ok `{PA : !PageAllocator pmm_alloc pmm_free get_order_addr} k2 :
  pa_low = t + P -> (forall b, pa_bytes b -> range free_area 48 b \/ range (P2V (4096 * t)) (4096 * P) b) -> pa_state k2 [] ->
  untouched pages_fp (k_mem k1) (k_mem k2) -> cursor_ok (k_vga k2) ->
  k_boot k2 = k_boot k1 -> k_heap k2 = k_heap k1 -> k_sched k2 = k_sched k1 ->
  pages_up (table_area p0 t) (boot_keep p0 t) image len k2.
Proof.
  intros Elow Hpa HA Hu Hc Eb Eh Es. pose proof t_room as (_ & _ & _ & Ht3). destruct (pg_same _ _ _ HP) as (G1 & G2 & _).
  destruct (bt_blank _ _ _ _ _ _ _ _ _ _ HB) as (_ & Z2 & Z3 & Z4 & Z5). destruct (bt_image _ _ _ _ _ _ _ _ _ _ HB) as (I1 & I2 & I3).
  destruct (bt_module _ _ _ _ _ _ _ _ _ _ HB) as [D1 D2]. destruct (bt_mbi _ _ _ _ _ _ _ _ _ _ HB) as [M1 M2]. pose proof size_range as Hsz.
  assert (Em : user_module (k_boot k2) = f_module r) by (by rewrite Eb, (pg_boot _ _ _ HP)).
  assert (Hag : agree (k_mem k) (k_mem k2) image len) by (intros b Hb; apply info_same; [done | by right]).
  assert (Hvk : forall i x, variables !! i = Some x -> (i = 1 \/ i = 2)%nat -> (forall b, range x.1 x.2 b -> statics b) -> agree (k_mem k) (k_mem k2) x.1 x.2).
  { intros i x Hx Hi Hst b Hb. rewrite (low_kept k2 b Hu) by (left; by apply Hst). apply (var_kept i x Hx); [lia | done]. }
  pose proof (Hvk 1%nat (free_bucket, 36) eq_refl ltac:(auto) ltac:(by left)) as K1. pose proof (Hvk 2%nat (first_var, 4) eq_refl ltac:(auto) ltac:(by right)) as K2. cbn [fst snd] in K1, K2.
  split.
  - done.
  - done.
  - destruct (var_mapped 1%nat (free_bucket, 36) eq_refl ltac:(done)), (var_mapped 2%nat (first_var, 4) eq_refl ltac:(done)). unfold statics_ok. split_and!; try done.
    by apply (ln_apart _ _ (bt_linked _ _ _ _ _ _ _ _ _ _ HB) 1 2 _ _ eq_refl eq_refl).
  - apply placed_none.
  - intros b Hb. destruct (all_low b Hb) as [L1 L2]. rewrite Elow. split; [lia|]. intros [Hx|Hx]%Hpa; [done|]. rewrite P2V_t in Hx. unfold range in Hx. lia.
  - intros b Hb. destruct (statics_var b Hb) as (i & x & Hx & Hr & Hi). intros [Ho|[Ho|Ho]].
    + destruct (sched_var b Ho) as (j & y & Hy & Hr' & Hj). by apply (var_apart i j x y b Hx Hy ltac:(lia)).
    + by apply (vga_rw b Ho), (var_rw i x).
    + by apply (keep_off i x b Hx ltac:(lia) ltac:(lia)).
  - intros b Hb. destruct (sched_var b Hb) as (i & x & Hx & Hr & Hi). apply (keep_off i x b Hx); [lia | lia | done].
  - apply vga_keep.
  - intros b Hb. by left.
  - apply area_dec.
  - intros b Hb. right. right. by left.
  - intros b Hb. rewrite Em in Hb. right. left. unfold range in *. lia.
  - rewrite Eh, G1. split_and!; [done | rewrite <- Z3; by apply ld32_agree |].
    intros o Ho. rewrite <- (Z2 o Ho). apply ld32_agree. unfold bucket_at. eapply agree_sub; [exact K1 | lia | lia].
  - by rewrite Es, G2.
  - eapply tables_frame; [apply (pg_tables _ _ _ HP) | | done]. intros b Hb. apply low_kept; [done|]. right. right. left. destruct (area_dec p0 t b); [done | by destruct Hb].
  - assert (Hpd : forall d, 0 <= d < 1024 -> pde kernel_page_directory (k_mem k2) d = pde kernel_page_directory (k_mem k1) d).
    { intros d Hd. apply ld32_agree. intros b Hb. apply low_kept; [done|]. right. right. left. left. unfold pd_entry, range in *. lia. }
    intros d Hd. unfold present. change (USER_END / 1024) with 768 in Hd. rewrite Hpd by lia. apply (pg_user _ _ _ HP). by change (USER_END / 1024) with 768.
  - split; [by eapply elf_image_agree | by eapply stack_room_agree].
  - rewrite Em. unfold PHYS_LIMIT, KERNEL_VIRTUAL_BASE in *. split_and!; [lia | lia |].
    rewrite (ld32_agree (k_mem k)).
    + fold (module_at k r). apply P2V_eq. pose proof (ei_place _ _ _ I2) as [_ ?]. pose proof (ei_headers _ _ _ I2) as [? _]. unfold sizeof_Elf32_Ehdr in *.
      pose proof (ld32_range (k_mem k) (module_start (f_module r))). unfold module_at, PHYS_LIMIT, KERNEL_VIRTUAL_BASE in *. lia.
    + intros b Hb. apply info_same; [done|]. left. unfold module_start, range, KERNEL_VIRTUAL_BASE in *. lia.
  - destruct (var_mapped 10%nat (gdt, 48) eq_refl ltac:(done)) as [G3 G4]. assert (Hg : range gdt 48 (gdt + 45)) by (unfold range; lia).
    split_and!; [done | done | by do 4 right |]. rewrite Em. intros Hx. apply (gdt_off _ Hg). destruct Hx as [Hx|[Hx|Hx]]; [by left | by right; right; left|].
    right. left. unfold range in *. lia.
Qed.
End pages.

(** ** The whole boot *)

(** The page allocator the boot leaves behind, from the state [pmm_init] made. *)
Lemma pages_spec {X} p0 t k1 (rest : M X) (Q : X -> kernel -> Prop) : paging_up p0 t k1 ->
  (forall (PA : PageAllocator pmm_alloc pmm_free get_order_addr) k2, pages_up (table_area p0 t) (boot_keep p0 t) image len k2 ->
     untouched (pages_fp t) (k_mem k1) (k_mem k2) -> k_cpu k2 = k_cpu k1 -> wpe out_of_memory rest k2 Q) ->
  wpe out_of_memory (pmm_init;; kprintf ("PMM initialized" ++ newline) [];; rest) k1 Q.
Proof.
  intros HP HQ. pose proof (pmm_up p0 t k1 HP) as HBS. pose proof (boot_geometry _ _ _ _ _ HBS) as HG.
  pose proof (t_room p0 t k1 HP) as (Ht0 & Ht1 & Ht2 & Ht3). pose proof (P2V_t p0 t k1 HP) as Ev.
  destruct (bt_order _ _ _ _ _ _ _ _ _ _ HB) as (_ & _ & O3 & _). destruct (bt_slack _ _ _ _ _ _ _ _ _ _ HB) as (_ & _ & _ & Hsl).
  assert (Hlow : forall b, range free_area 48 b -> b < 4096 * t + KERNEL_VIRTUAL_BASE).
  { intros b Hb. pose proof (rw_place b (var_rw 0 (free_area, 48) b eq_refl Hb)). lia. }
  assert (Hlo : 0 < t + P) by lia. assert (HN : N <= 2 ^ 18) by lia.
  assert (Hsub : forall b, bfp (P2V (4096 * t)) NG b -> range free_area 48 b \/ range (P2V (4096 * t)) (4096 * P) b).
  { intros b [Hb|Hb]; [left | right]; unfold range in *; lia. }
  assert (Hfp : forall b, bfp (P2V (4096 * t)) NG b -> b < KERNEL_VIRTUAL_BASE + 4096 * (t + P) \/ KERNEL_VIRTUAL_BASE + 4096 * N <= b).
  { intros b [Hb|Hb]%Hsub; left; [specialize (Hlow b Hb); lia | rewrite Ev in Hb; unfold range in Hb; lia]. }
  apply wpe_bind, wpe_wp. change pmm_init with init_buddy. eapply wp_mono; [by apply (init_buddy_run N NG t P)|].
  intros [] k2 ((s & HR) & m2 & b2 & -> & U2). apply ready_owned in HR.
  apply wpe_bind, wpe_wp. eapply kprintf_say; [reflexivity | apply (pg_cursor _ _ _ HP) |]. intros _ m3 io3 v3 U3 Hv3.
  cbn [k_mem set_mem] in U3.
  assert (U : untouched (pages_fp t) (k_mem k1) m3).
  { eapply untouched_trans; eapply untouched_mono; [|exact U2| |exact U3]; unfold pages_fp; cbv beta; tauto. }
  set (PA := buddy_page_allocator (P2V (4096 * t)) N NG (N - (t + P)) (t + P) HG Hlo HN Hfp).
  apply (HQ PA); [|exact U | done]. apply (pages_up_ok p0 t k1 HP); try done.
  apply (pa_stable (set_mem m2 (set_placement (4096 * (t + P)) (set_buddy b2 k1)))); [exact HR | done |].
  cbn [k_mem set_vga set_io set_mem]. intros b Hb. apply U3. intros Hx. destruct (Hsub b Hb) as [Hf|Hf].
  - by apply (vga_rw b Hx), (var_rw 0 (free_area, 48)).
  - rewrite Ev in Hf. pose proof placement_mbi as [Pl1 _]. unfold vga_fp, range, VGA_MEMORY, columns, rows, KERNEL_VIRTUAL_BASE in *. lia.
Qed.
End run.
End boot.

(** ** The whole of [kmain] *)

Lemma kmain_spec `{BS : BuddySymbols} `{HS : HeapSymbols} `{TS : TableSymbols} `{SS : SchedSymbols} `{LS : LayoutSymbols} `{PR : ProcessSymbols}
    mbi l R1 R2 N A S NG len k :
  bootable mbi l R1 R2 N A S NG len k ->
  let regions := kernel_regions R1 R2 N A S in
  let h := module_at k (mbi_found k mbi l) + KERNEL_VIRTUAL_BASE in
  wpe out_of_memory (kmain 0x36d76289 mbi) k (fun _ k' =>
    (exists (PA : PageAllocator pmm_alloc pmm_free get_order_addr) main rp p H PS,
       system_up (k_mem k) h (region_map regions) main rp p H PS k') /\
    k_cpu k' = set_if true (set_tr 0x28 (set_cr3 (V2P kernel_page_directory) (set_idtr (idt, 2047) (k_cpu k)))) /\
    (forall x, 0 <= x < 2 ^ 20 -> translate (k_mem k') kernel_page_directory x = region_map regions x) /\
    (forall v, 0 <= v < 256 -> g_offset (decode_gate (k_mem k') v) = ld32 (k_mem k) (isr_stub_table + 4 * v) /\
       interrupt_gate (decode_gate (k_mem k') v) (if v =? 0x80 then 3 else 0)) /\
    agree (mark_tss (k_mem k)) (k_mem k') gdt 48).
Proof.
  intros HB regions h. unfold kmain. cbv zeta. eapply (paging_up_spec mbi l R1 R2 N A S NG len k HB). intros p0 t k1 HP.
  eapply (pages_spec mbi l R1 R2 N A S NG len k HB p0 t k1); [exact HP|]. intros PA k2 HU Hu Ec.
  eapply wpe_mono; [exact (services_spec _ _ _ _ k2 HU (ln_entries _ _ (bt_linked _ _ _ _ _ _ _ _ _ _ HB)))|].
  intros [] k3 (main & rp & p & H & PS & Hup & Ecpu & Hkeep).
  assert (Hk12 : forall b, boot_keep mbi l len k p0 t b -> ld8 (k_mem k2) b = ld8 (k_mem k1) b) by (intros b Hb; eapply low_kept; [done | exact HP | exact Hu | auto]).
  pose proof (gdt_off mbi l R1 R2 N A S NG len k HB p0 t k1 HP) as Hgo. assert (Hg45 : range gdt 48 (gdt + 45)) by (unfold range; lia).
  assert (Hk13 : forall b, boot_keep mbi l len k p0 t b -> b <> gdt + 45 -> ld8 (k_mem k3) b = ld8 (k_mem k1) b).
  { intros b Hb Hne. rewrite Hkeep, mark_tss_other by done. by apply Hk12. }
  assert (Hfr : forall m, (forall b, boot_keep mbi l len k p0 t b -> b <> gdt + 45 -> ld8 m b = ld8 (k_mem k1) b) ->
    forall x, 0 <= x < 2 ^ 20 -> translate m kernel_page_directory x = region_map regions x).
  { intros m Hm x Hx. unfold regions. rewrite <- (pg_map _ _ _ _ _ _ _ _ _ _ _ HP x Hx).
    eapply (tables_frame _ _ _ (fun b => ~ table_area p0 t b)); [apply (pg_tables _ _ _ _ _ _ _ _ _ _ _ HP) | | by intros b Hb; exact Hb | done].
    intros b Hb. assert (Ht : table_area p0 t b) by (destruct (area_dec p0 t b); [done | by destruct Hb]).
    apply Hm; [by left|]. intros ->. apply (Hgo _ Hg45). by left. }
  split_and!.
  - exists PA, main, rp, p, H, PS. eapply system_up_agree; [apply (bt_image _ _ _ _ _ _ _ _ _ _ HB) | | | exact Hup].
    + intros b Hb. eapply (info_same _ _ _ _ _ _ _ _ _ _ HB p0 t k1); [done | exact Hu | by right].
    + intros x Hx. apply Hfr; [intros b Hb _; by apply Hk12 | unfold USER_END in Hx; lia].
  - by rewrite Ecpu, Ec, (pg_cpu _ _ _ _ _ _ _ _ _ _ _ HP).
  - apply Hfr, Hk13.
  - intros v Hv. rewrite (decode_gate_frame (k_mem k1) (k_mem k3) v (fun b => ~ range idt 2048 b)).
    + rewrite (pg_gates _ _ _ _ _ _ _ _ _ _ _ HP v Hv). split; [done|]. by destruct (v =? 0x80).
    + intros b Hb. assert (Hi : range idt 2048 b) by (unfold range in *; lia). apply Hk13; [by do 3 right; left|].
      intros ->. apply (Hgo _ Hg45). by do 3 right.
    + unfold range. intros. lia.
  - assert (Hkg : forall b, range gdt 48 b -> ld8 (k_mem k2) b = ld8 (k_mem k) b).
    { intros b Hb. rewrite Hk12 by (do 4 right; exact Hb).
      exact (var_kept _ _ _ _ _ _ _ _ _ _ HB p0 t k1 HP 10 (gdt, 48) eq_refl ltac:(lia) b Hb). }
    intros b Hb. rewrite Hkeep by (do 4 right; exact Hb). by apply mark_tss_agree; apply Hkg.
Qed.

(** ** The property *)

(** C2: handed over by a multiboot2 loader with a well-formed image of the first
    process, [kmain] boots the system, or stops in the page allocator's
    out-of-memory panic.  When it returns, interrupts are on and handled (256 gates,
    the timer and the system calls registered); CR3 holds the kernel's address
    space, which translates exactly the kernel's window; the heap and the page
    allocator behind it are in a valid state; the scheduler has the main thread as
    running and idle thread and the reaper and the first process, in this order,
    ready; the process will enter ring 3 at the image's entry point, in an address
    space with the image's segments, a stack page and the kernel's window. *)
Theorem kmain_boots `{BS : BuddySymbols} `{HS : HeapSymbols} `{TS : TableSymbols} `{SS : SchedSymbols} `{LS : LayoutSymbols} `{PR : ProcessSymbols}
    mbi l R1 R2 N A S NG len k :
  bootable mbi l R1 R2 N A S NG len k ->
  let regions := kernel_regions R1 R2 N A S in
  let h := module_at k (mbi_found k mbi l) + KERNEL_VIRTUAL_BASE in
  wpe out_of_memory (kmain 0x36d76289 mbi) k (fun _ k' =>
    (exists (PA : PageAllocator pmm_alloc pmm_free get_order_addr) main rp p H PS,
       system_up (k_mem k) h (region_map regions) main rp p H PS k') /\
    cr3 (k_cpu k') = V2P kernel_page_directory /\ idtr (k_cpu k') = (idt, 2047) /\
    (forall x, 0 <= x < 2 ^ 20 -> translate (k_mem k') kernel_page_directory x = region_map regions x) /\
    (forall v, 0 <= v < 256 -> g_offset (decode_gate (k_mem k') v) = ld32 (k_mem k) (isr_stub_table + 4 * v) /\
       interrupt_gate (decode_gate (k_mem k') v) (if v =? 0x80 then 3 else 0))).
Proof.
  intros HB. eapply wpe_mono; [exact (kmain_spec mbi l R1 R2 N A S NG len k HB)|]. intros [] k' (Hup & Ec & Ht & Hg & _).
  by rewrite Ec.
Qed.
