(* ===== verification/KernelSample.v ===== *)
(** * A boot on a concrete machine

    4 MiB of memory, the kernel from 1 MiB on, the multiboot information at 0x9000
    with a memory map and one module, the image of [ElfSample] at 0x130000. *)

From Stdlib Require Import ZArith Lia Bool.
From stdpp Require Import base functions list gmap strings.
From S2P Require Import Prelude Machine StringLib Console Node Queue Bump Buddy BuddyModel BuddyRefine BuddyInit Pmm PmmSample Devices Descriptors Heap HeapModel HeapSteps HeapPages HeapCompact HeapAlloc HeapFree HeapTheorems HeapClient Sched SchedModel Switch SchedTheorems Threads BootSteps Paging PagingTheorems PagingInit UserSpace Elf ElfTheorems ElfSample Process ProcessTheorems ProcessSample Kernel BootServices BootTheorems.

#[local] Instance boot_free : BuddySymbols := {| free_area := 0xC0110000 |}.
#[local] Instance boot_heap : HeapSymbols := {| free_bucket := 0xC0110100; first_var := 0xC0110180 |}.
#[local] Instance boot_tables : TableSymbols :=
  {| gdt := 0xC0110200; gdtr_var := 0xC0110240; tss := 0xC0110280; idt := 0xC0111000; idt_descriptor := 0xC0110300; isr_stub_table := 0xC0102000 |}.
#[local] Instance boot_threads : SchedSymbols :=
  {| que := 0xC0110400; sleep_que := 0xC0110410; zombie_que := 0xC0110420; kernel_page_directory := 0xC0113000;
     kthread_stub_addr := 0xC0101000; reaper_main_addr := 0xC0101100 |}.
#[local] Instance boot_layout_symbols : LayoutSymbols :=
  {| _kernel_start := 0xC0100000; _kernel_end := 0xC0120000; _ro_start := 0xC0100000; _ro_end := 0xC0110000;
     _rw_start := 0xC0110000; _rw_end := 0xC0120000 |}.
#[local] Instance boot_process : ProcessSymbols := {| launch_process_addr := 0xC0101200 |}.

Definition mbi_words : list Z :=
  [176 + 8; 0;
   6; 136; 24; 0;
   0; 0; 0xA0000; 0; 1; 0;
   0xA0000; 0; 0; 0; 2; 0;
   0; 0; 0; 0; 2; 0;
   0x100000; 0; 0x300000; 0; 1; 0;
   0x500000; 0; 0x10000; 0; 3; 0;
   3; 17; 0x130000; 0x130088; 0; 0;
   0; 8].
Definition loaded_machine : kernel :=
  MkKernel (st_words (st_words ∅ 0xC0009000 mbi_words) 0xC0130000 image_words) [] (fun t p => if p =? 0x3F8 then 0xAE else if p =? 0x3FD then 0x20 else 0)
    cpu_initial (MkVga 0x0F 2 0) 0 (MkBuddy 0 0 0 0) (MkHeap 0 0 0 0)
    (MkSched 0 0 0 0 1 0 ∅) (MkDev 0xFFFF None ∅ 1) (MkBoot 0 0).

Lemma loaded_machine_tags : tags_at (k_mem loaded_machine) (0xC0009000 + 8) [(6, 136); (3, 17)] (0xC0009000 + 184).
Proof. vm_compute. intuition congruence. Qed.

Lemma loaded_machine_words :
  184 = ld32 (k_mem loaded_machine) (header_size 0xC0009000) /\ ld32 (k_mem loaded_machine) (tag_size 0xC0009018) = 0 /\
  ld32 (k_mem loaded_machine) (tag_type 0xC0009018) = 0 /\
  read_tags (k_mem loaded_machine) (0xC0009000 + 8) [(6, 136); (3, 17)]
    (MkFound (memory_map (k_boot loaded_machine)) (user_module (k_boot loaded_machine)) 0x100000) = MkFound 0xC0009018 0xC0009090 0x130088.
Proof. vm_compute. split_and!; reflexivity. Qed.

Lemma loaded_machine_found :
  mbi_size loaded_machine 0x9000 = 184 /\
  mbi_found loaded_machine 0x9000 [(6, 136); (3, 17)] = MkFound 0xC0009018 0xC0009090 0x130088 /\
  ld32 (k_mem loaded_machine) 0xC0009098 = 0x130000.
Proof. vm_compute. split_and!; reflexivity. Qed.

Lemma loaded_machine_map :
  ld64 (k_mem loaded_machine) (mmap_addr (0xC0009018 + 72)) = 0x100000 /\ ld64 (k_mem loaded_machine) (mmap_size (0xC0009018 + 72)) = 0x300000 /\
  ld64 (k_mem loaded_machine) (mmap_addr (0xC0009018 + 96)) = 0x500000 /\ ld64 (k_mem loaded_machine) (mmap_size (0xC0009018 + 96)) = 0x10000.
Proof. vm_compute. split_and!; reflexivity. Qed.

Lemma loaded_machine_image :
  map (fun i => ld32 (k_mem loaded_machine) (0xC0130000 + 4 * i)) (seqZ 0 34) = image_words /\
  ld16 (k_mem loaded_machine) (e_phnum 0xC0130000) = 2 /\
  ld8 (k_mem loaded_machine) 0xC0130000 = 0x7f /\ ld8 (k_mem loaded_machine) (0xC0130000 + 1) = 0x45 /\
  ld8 (k_mem loaded_machine) (0xC0130000 + 2) = 0x4C /\ ld8 (k_mem loaded_machine) (0xC0130000 + 3) = 0x46.
Proof. vm_compute. split_and!; reflexivity. Qed.

Lemma loaded_machine_zero : forallb (fun o => ld32 (k_mem loaded_machine) (0xC0110000 + 4 * o) =? 0) (seqZ 0 128) = true.
Proof. vm_compute. reflexivity. Qed.

Lemma loaded_machine_globals :
  (forall io, k_dev loaded_machine (Out PORT 0xAE :: io) PORT = 0xAE) /\ cursor_ok (k_vga loaded_machine) /\
  last_chunk (k_heap loaded_machine) = 0 /\ thread_id (k_sched loaded_machine) = 1.
Proof. split_and!; [reflexivity | vm_compute; intuition congruence | reflexivity | reflexivity]. Qed.

(** The whole boot, run: both threads are ready, the main thread is idle. *)
Lemma loaded_machine_boots :
  match kmain 0x36d76289 0x9000 loaded_machine with
  | Ok _ k => (ld32 (k_mem k) (list_size que) =? 2) && eflags_if (k_cpu k) && (status (k_mem k) (cur_thread (k_sched k)) =? IDLE)
  | Stop _ _ => false
  end = true.
Proof. vm_compute. reflexivity. Qed.
#[local] Opaque loaded_machine.

Lemma scan_tags_correct_witness :
  wp (scan_tags (S (Z.to_nat (184 / 8))) 0xC0009000 (0xC0009000 + 8) 0x100000) loaded_machine (fun p k' =>
    p = 0x130088 /\ memory_map (k_boot k') = 0xC0009018 /\ user_module (k_boot k') = 0xC0009090).
Proof.
  destruct loaded_machine_words as (E1 & _ & _ & E2).
  assert (H1 : KERNEL_VIRTUAL_BASE <= 0xC0009000) by (unfold KERNEL_VIRTUAL_BASE; lia).
  assert (H2 : 0xC0009000 + 184 + 16 < 2 ^ 32) by lia.
  pose proof (scan_tags_correct 0xC0009000 184 [(6, 136); (3, 17)] 0x100000 loaded_machine H1 E1 H2 loaded_machine_tags) as Hw.
  cbv zeta in Hw. rewrite E2 in Hw. eapply wp_mono; [exact Hw|]. intros p k' [-> ->]. split_and!; reflexivity.
Defined.

Lemma scan_tags_zero_size_witness : ld32 (k_mem loaded_machine) (tag_size 0xC0009018) = 0 /\
  forall fuel, stops (scan_tags fuel 0xC0009000 0xC0009018 0x100000) loaded_machine OutOfFuel.
Proof.
  destruct loaded_machine_words as (E1 & E2 & E3 & _). unfold header_size in E1. split; [exact E2|].
  apply (scan_tags_zero_size 0xC0009000 0xC0009018 0x100000 loaded_machine);
    [unfold KERNEL_VIRTUAL_BASE; lia | lia | unfold KERNEL_VIRTUAL_BASE; lia | lia | rewrite <- E1; vm_compute; reflexivity
    | exact E2 | rewrite E3; lia | rewrite E3; lia].
Defined.

(** ** The machine is one the kernel boots on *)

Lemma loaded_word i w : image_words !! i = Some w -> ld32 (k_mem loaded_machine) (0xC0130000 + 4 * Z.of_nat i) = w.
Proof.
  destruct loaded_machine_image as [E _]. rewrite <- E. intros Hi. apply list_lookup_fmap_Some in Hi as (j & -> & Hj).
  apply lookup_seqZ in Hj as [-> _]. done.
Qed.

Lemma loaded_linked : linked 0x110 0x120.
Proof.
  split.
  - unfold KERNEL_VIRTUAL_BASE. cbn. lia.
  - intros x Hx. unfold variables, sizeof_TSS_ENTRY, sizeof_DLList in Hx. cbn in Hx. rewrite !elem_of_cons, elem_of_nil in Hx.
    destruct_or! Hx; try contradiction; subst x; cbn; lia.
  - intros i j x y Hi Hj Hne. unfold variables, sizeof_TSS_ENTRY, sizeof_DLList in Hi, Hj. cbn in Hi, Hj.
    do 11 (destruct i as [|i]; [injection Hi as <-; do 11 (destruct j as [|j]; [injection Hj as <-; unfold apart; cbn; lia|]); discriminate Hj|]).
    discriminate Hi.
  - split; unfold KERNEL_VIRTUAL_BASE; cbn; lia.
  - cbn. lia.
  - unfold entries_ok. cbn. lia.
Qed.

Lemma loaded_bootable : bootable 0x9000 [(6, 136); (3, 17)] 0x110 0x120 0x400 0x500 16 0x400 0x88 loaded_machine.
Proof.
  destruct loaded_machine_found as (Es & Er & Em). destruct loaded_machine_map as (A1 & A2 & A3 & A4). destruct loaded_machine_globals as (G1 & G2 & G3 & G4).
  destruct loaded_machine_image as (_ & Hn & Hid).
  assert (Hmod : module_at loaded_machine (mbi_found loaded_machine 0x9000 [(6, 136); (3, 17)]) = 0x130000) by (rewrite Er; exact Em).
  assert (Hz : forall o, 0 <= o < 128 -> ld32 (k_mem loaded_machine) (0xC0110000 + 4 * o) = 0).
  { pose proof loaded_machine_zero as Hall. rewrite forallb_forall in Hall. intros o Ho. apply Z.eqb_eq, Hall, list_elem_of_In, elem_of_seqZ. lia. }
  split; rewrite ?Es, ?Hmod, ?Er; cbn [f_map f_module f_placement]; cbv zeta.
  - exact G1.
  - exact G2.
  - exact loaded_linked.
  - lia.
  - unfold PHYS_LIMIT, KERNEL_VIRTUAL_BASE. lia.
  - exact loaded_machine_tags.
  - rewrite A1, A2, A3, A4. unfold KERNEL_VIRTUAL_BASE. split_and!; try lia. reflexivity.
  - unfold KERNEL_VIRTUAL_BASE. lia.
  - split; [lia|]. unfold KERNEL_VIRTUAL_BASE. change (0x130000 + 3221225472) with 0xC0130000. split.
    + apply words_image; [unfold KERNEL_VIRTUAL_BASE; lia | exact loaded_word | exact Hn | exact Hid].
    + exact (words_room _ _ loaded_word Hn).
  - lia.
  - vm_compute. discriminate.
  - split_and!; [by exists 0x200 | lia | by exists 1 | vm_compute; discriminate].
  - intros b Hb. unfold vga_fp, rw_byte, range, VGA_MEMORY, columns, rows, KERNEL_VIRTUAL_BASE in *. cbn. lia.
  - rewrite G3, G4. split; [|split; [|split; [|split; [reflexivity | lia]]]].
    + intros o Ho. unfold orders, MAX_BUDDY_ORDER in Ho. unfold free_area_at. cbn [free_area boot_free]. rewrite u32_small by lia. apply Hz. lia.
    + intros o Ho. unfold bucket_at. cbn [free_bucket boot_heap]. replace (0xC0110100 + 4 * o) with (0xC0110000 + 4 * (64 + o)) by lia. apply Hz. lia.
    + exact (Hz 96 ltac:(lia)).
Qed.

Lemma kmain_boots_witness :
  wpe out_of_memory (kmain 0x36d76289 0x9000) loaded_machine (fun _ k' =>
    eflags_if (k_cpu k') = true /\ cr3 (k_cpu k') = 0x113000 /\
    translate (k_mem k') 0xC0113000 0xC0130 = Some (0x130, true, false) /\
    exists main rp p, sched_rep [p; rp; main] (k_mem k') [rp; p] [] /\ status (k_mem k') main = IDLE).
Proof.
  pose proof (kmain_boots 0x9000 [(6, 136); (3, 17)] 0x110 0x120 0x400 0x500 16 0x400 0x88 loaded_machine loaded_bootable) as Hw.
  cbv zeta in Hw. eapply wpe_mono; [exact Hw|]. clear Hw.
  intros [] k' ((PA & main & rp & p & H & PS & Hup) & Hc & _ & Ht & _). split_and!.
  - exact (proj1 (up_open _ _ _ _ _ _ _ _ _ Hup)).
  - exact Hc.
  - change 0xC0113000 with kernel_page_directory. rewrite Ht by lia. reflexivity.
  - exists main, rp, p. split; [exact (up_rep _ _ _ _ _ _ _ _ _ Hup) | exact (proj1 (up_status _ _ _ _ _ _ _ _ _ Hup))].
Defined.
