(* ===== verification/Entry.v ===== *)
(** * The kernel's entry: src/kernel/kernel_entry.asm

    The boot loader jumps to [_start] with paging off.  The code turns paging on
    with a directory that maps the first 4 MiB twice, jumps to the upper mapping,
    sets up its stack and segments, drops the lower mapping and calls [kmain]. *)

From Stdlib Require Import ZArith Lia Bool.
From stdpp Require Import base functions list gmap strings.
From S2P Require Import Prelude Machine StringLib Console Node Queue Bump Buddy BuddyModel BuddyRefine BuddyInit Pmm PmmSample Devices Descriptors Heap HeapModel HeapSteps HeapPages HeapCompact HeapAlloc HeapFree HeapTheorems HeapClient Sched SchedModel Switch SchedTheorems Threads BootSteps Paging PagingTheorems PagingInit UserSpace Elf ElfTheorems Process Stubs ProcessTheorems Kernel BootServices BootTheorems KernelSample.

(** ** The code *)

(** Linker addresses: the boot directory, the code behind the jump and the end of
    the boot stack. *)
Class EntrySymbols := { page_directory : Z; HigherHalf : Z; stack_top : Z }.

(** CR0 and CR4; nothing else of the kernel changes them. *)
Record control := MkControl { cr0 : Z; cr4 : Z }.

Definition CR4_PSE : Z := 0x00000010.
Definition CR0_PG_WP : Z := 0x80010000.

(** The 32-bit registers by their number in [gprs]. *)
Definition set_reg (n : nat) (v : Z) : M unit :=
  modify (fun k => set_cpu (set_regs (esp (k_cpu k)) (<[n := v]> (gprs (k_cpu k))) (k_cpu k)) k).
Abbreviation eax := 0%nat.
Abbreviation ecx := 1%nat.
Abbreviation ebx := 3%nat.
Abbreviation ebp := 4%nat.
Abbreviation esi := 5%nat.
Abbreviation edi := 6%nat.

(** Register accesses evaluated. *)
Ltac cpu := cbn [k_cpu k_mem set_cpu set_mem set_regs set_segs set_gdtr esp gprs eflags_if cr3 gdtr idtr task_reg seg_cs segs].

Section code.
Context `{BS : BuddySymbols} `{HS : HeapSymbols} `{TS : TableSymbols} `{SS : SchedSymbols} `{LS : LayoutSymbols} `{PR : ProcessSymbols} `{ES : EntrySymbols}.

(** [_start] up to the jump. *)
Definition start_low (c : control) : M control :=
  a ← gets (reg eax); set_reg esi a;;
  b ← gets (reg ebx); set_reg edi b;;
  set_reg ecx (page_directory ⊟ KERNEL_VIRTUAL_BASE);;
  p ← gets (reg ecx); modify (fun k => set_cpu (set_cr3 p (k_cpu k)) k);;
  set_reg eax (cr4 c);;
  a ← gets (reg eax); set_reg eax (Z.lor a CR4_PSE);;
  new4 ← gets (reg eax);
  set_reg eax (cr0 c);;
  a ← gets (reg eax); set_reg eax (Z.lor a CR0_PG_WP);;
  new0 ← gets (reg eax);
  set_reg eax HigherHalf;;
  mret (MkControl new0 new4).

(** [HigherHalf] up to the call of [kmain]. *)
Definition higher_half : M unit :=
  modify (fun k => set_cpu (set_regs stack_top (gprs (k_cpu k)) (k_cpu k)) k);;
  set_reg ebp stack_top;;
  init_gdt;;
  store32 page_directory 0;;
  b ← gets (reg edi); push32 b;;
  a ← gets (reg esi); push32 a.

(** The call of [kmain], whose arguments are on the stack (a call of a C function is
    a call of its definition: the return address is not stored).  The caller drops
    them; the loop behind waits for interrupts and is the idle thread. *)
Definition call_kmain : M unit :=
  sp ← gets (fun k => esp (k_cpu k));
  magic ← load32 sp;
  mbi ← load32 (sp + 4);
  kmain magic mbi;;
  add_esp 8.

Definition _start (c : control) : M control :=
  c ← start_low c; higher_half;; call_kmain;; mret c.

(** ** The boot directory *)

(** As the assembler lays it out. *)
Definition boot_directory (m : memory) : Prop :=
  forall d, 0 <= d < 1024 -> ld32 m (pd_entry page_directory d) = if (d =? 0) || (d =? 768) then 0x83 else 0.

(** Page [x] of the first 4 MiB, from address 0 on when [low] is set, and from
    0xC0000000 on. *)
Definition boot_map (low : bool) (x : Z) : option (Z * bool * bool) :=
  if low && (x <? 1024) then Some (x, true, false)
  else if (0xC0000 <=? x) && (x <? 0xC0400) then Some (x - 0xC0000, true, false) else None.

Lemma boot_translates m m' (low : bool) : boot_directory m -> agree m m' (page_directory + 4) 4092 ->
  ld32 m' page_directory = (if low then 0x83 else 0) -> forall x, 0 <= x < 2 ^ 20 -> translate m' page_directory x = boot_map low x.
Proof.
  intros HD HU H0 x Hx. unfold translate, boot_map. set (d := x / 1024). assert (Hd : 0 <= d < 1024) by (unfold d; div_lia).
  assert (Ex : x = 1024 * d + x mod 1024 /\ 0 <= x mod 1024 < 1024) by (unfold d; div_lia). destruct Ex as [Ex Hm].
  destruct (Z.eqb_spec d 0) as [E|Hne].
  - replace (pd_entry page_directory d) with page_directory by (unfold pd_entry; lia). rewrite H0.
    rewrite (proj2 (Z.ltb_lt x 1024)), (proj2 (Z.leb_gt 0xC0000 x)) by lia. destruct low; [|done]. cbn [andb negb Z.testbit Pos.testbit].
    change (Z.shiftr 131 22) with 0. repeat f_equal. lia.
  - rewrite (ld32_agree m m').
    2: { eapply agree_sub; [exact HU | unfold pd_entry; lia..]. }
    rewrite (HD d Hd). rewrite (proj2 (Z.eqb_neq d 0)), (proj2 (Z.ltb_ge x 1024)), andb_false_r by lia. cbn [orb].
    destruct (Z.eqb_spec d 768) as [E|Hne'].
    + rewrite (proj2 (Z.leb_le 0xC0000 x)), (proj2 (Z.ltb_lt x 0xC0400)) by lia. cbn [andb negb Z.testbit Pos.testbit].
      change (Z.shiftr 131 22) with 0. repeat f_equal. lia.
    + cbn [Z.testbit negb]. destruct (Z.leb_spec 0xC0000 x), (Z.ltb_spec x 0xC0400); cbn [andb]; [lia | done..].
Qed.
(** ** Where the linker puts the data of the entry *)

Definition boot_data : list (Z * Z) := [(gdt, 48); (gdtr_var, 6); (page_directory, 4096); (stack_top - 0x4000, 0x4000)].

(** The bytes it writes. *)
Definition entry_fp (b : Z) : Prop :=
  range gdt 48 b \/ range gdtr_var 6 b \/ range page_directory 4 b \/ range (stack_top - 8) 8 b.

Record entry_image (k : kernel) : Prop := {
  ei_data : forall x, x ∈ boot_data -> _rw_start <= x.1 /\ x.1 + x.2 <= _rw_end;
  ei_apart : forall i j x y, (boot_data ++ take 3 variables) !! i = Some x -> (boot_data ++ take 3 variables) !! j = Some y ->
    i <> j -> apart x.1 x.2 y.1 y.2;
  ei_stack : stack_top < 2 ^ 32;
  ei_directory : boot_directory (k_mem k) }.

Lemma entry_bytes k b : entry_image k -> entry_fp b -> rw_byte b /\
  ~ range free_area 48 b /\ ~ range free_bucket 36 b /\ ~ range first_var 4 b.
Proof.
  intros [D1 D2 _ _] Hb.
  assert (Hx : exists i x, boot_data !! i = Some x /\ range x.1 x.2 b).
  { destruct Hb as [Hb|[Hb|[Hb|Hb]]]; [exists 0%nat, (gdt, 48) | exists 1%nat, (gdtr_var, 6) | exists 2%nat, (page_directory, 4096)
      | exists 3%nat, (stack_top - 0x4000, 0x4000)]; (split; [reflexivity|]); unfold range in *; cbn [fst snd]; lia. }
  destruct Hx as (i & x & Hi & Hr). split.
  - destruct (D1 x); [by eapply list_elem_of_lookup_2|]. unfold rw_byte, range in *. lia.
  - assert (Hi' : (boot_data ++ take 3 variables) !! i = Some x) by (by apply lookup_app_l_Some).
    assert (Hn : (i < 4)%nat) by (by apply lookup_lt_Some in Hi).
    split_and!; intros Hv; [pose proof (D2 i 4%nat x _ Hi' eq_refl ltac:(lia)) | pose proof (D2 i 5%nat x _ Hi' eq_refl ltac:(lia))
      | pose proof (D2 i 6%nat x _ Hi' eq_refl ltac:(lia))]; unfold apart, range in *; cbn [fst snd] in *; lia.
Qed.

(** ** The hand-over survives writes to other data of the kernel *)

Section frame.
Context (mbi : Z) (l : list (Z * Z)) (R1 R2 N A S NG len : Z) (k : kernel) (HB : bootable mbi l R1 R2 N A S NG len k).
Context (F : Z -> Prop) (HF : forall b, F b -> rw_byte b /\ ~ range free_area 48 b /\ ~ range free_bucket 36 b /\ ~ range first_var 4 b).
Context (c : cpu_regs) (m' : memory) (HU : untouched F (k_mem k) m').
Let k1 : kernel := set_cpu c (set_mem m' k).
Local Abbreviation header := (mbi + KERNEL_VIRTUAL_BASE).
Local Abbreviation image := (module_at k (mbi_found k mbi l) + KERNEL_VIRTUAL_BASE).

Lemma handed_same b : range header (mbi_size k mbi + 16) b \/ range image len b -> ld8 m' b = ld8 (k_mem k) b.
Proof. intros Hb. apply HU. intros Hf. apply (bt_apart _ _ _ _ _ _ _ _ _ _ HB b Hb). by apply HF. Qed.

Lemma handed_size : mbi_size k1 mbi = mbi_size k mbi.
Proof.
  pose proof (ld32_range (k_mem k) header). apply ld32_agree. intros b Hb. apply handed_same. left. unfold mbi_size, range in *. lia.
Qed.

Lemma handed_tags : tags_at m' (header + 8) l (header + mbi_size k mbi) /\ mbi_found k1 mbi l = mbi_found k mbi l.
Proof.
  unfold mbi_found. rewrite handed_size. apply tags_agree; [apply (bt_tags _ _ _ _ _ _ _ _ _ _ HB)|].
  intros b Hb. apply handed_same. left. unfold range. lia.
Qed.

Lemma handed_module : module_at k1 (mbi_found k1 mbi l) = module_at k (mbi_found k mbi l).
Proof.
  unfold module_at. rewrite (proj2 handed_tags). destruct (bt_module _ _ _ _ _ _ _ _ _ _ HB) as [M1 M2]. apply ld32_agree.
  intros b Hb. apply handed_same. left. unfold module_start, range in *. lia.
Qed.

Lemma handed_bootable : bootable mbi l R1 R2 N A S NG len k1.
Proof.
  pose proof HB as [B1 B2 B3 B4 B5 B6 B7 B8 B9 B10 B11 B12 B13 (B14 & B15 & B16 & B17 & B18 & B19)].
  assert (Hw : forall a n, (forall b, range a n b -> range header (mbi_size k mbi + 16) b) -> agree (k_mem k) m' a n)
    by (intros a n Hn b Hb; apply handed_same; left; by apply Hn).
  destruct handed_tags as [T1 T2].
  split; rewrite ?handed_module, ?T2, ?handed_size; try done.
  - cbn [k1 k_mem set_cpu set_mem]. cbv zeta in B7 |- *. destruct B7 as (M1 & M2 & M3 & M4 & M5 & M6). unfold mmap_addr, mmap_size in *.
    rewrite <- M3, <- M4, <- M5, <- M6 at 1. split_and!; try done; rewrite !(ld64_agree (k_mem k) m'); try done; apply Hw; unfold range; intros; lia.
  - destruct B9 as (I1 & I2 & I3). assert (Hi : agree (k_mem k) m' image len) by (intros b Hb; apply handed_same; by right).
    split_and!; [done | by eapply elf_image_agree | by eapply stack_room_agree].
  - assert (Hv : forall a, (forall b, range a 4 b -> range free_area 48 b \/ range free_bucket 36 b \/ range first_var 4 b) -> ld32 m' a = ld32 (k_mem k) a).
    { intros a Ha. apply ld32_agree. intros b Hb. apply HU. intros Hf. destruct (HF b Hf) as (_ & F1 & F2 & F3).
      destruct (Ha b Hb) as [?|[?|?]]; done. }
    cbn [k1 k_mem set_cpu set_mem]. split_and!; try done.
    + intros o Ho. rewrite Hv; [by apply B14|]. destruct (ln_vars _ _ B3 (free_area, 48)) as [V1 V2]; [left|]. cbn [fst snd] in V1, V2.
      destruct (ln_symbols _ _ B3) as (_ & _ & _ & V3 & V4 & _). unfold free_area_at, orders, MAX_BUDDY_ORDER, KERNEL_VIRTUAL_BASE in *.
      intros b Hb. left. rewrite u32_small in Hb by lia. unfold range in *. lia.
    + intros o Ho. rewrite Hv; [by apply B15|]. intros b Hb. right. left. unfold bucket_at, range in *. lia.
    + rewrite Hv; [done|]. intros b Hb. by right; right.
Qed.
End frame.

(** ** The two halves *)

(** The instructions on a processor with the registers [g]. *)
Lemma set_reg_spec n v e g c k (Q : unit -> kernel -> Prop) :
  Q tt (set_cpu (set_regs e (<[n := v]> g) c) k) -> wp (set_reg n v) (set_cpu (set_regs e g c) k) Q.
Proof. intros HQ. by apply wp_modify. Qed.

Lemma get_reg_spec n e g c k (Q : Z -> kernel -> Prop) :
  Q (nth n g 0) (set_cpu (set_regs e g c) k) -> wp (gets (reg n)) (set_cpu (set_regs e g c) k) Q.
Proof. intros HQ. by apply wp_gets. Qed.

Lemma load_cr3_spec p e g c k (Q : unit -> kernel -> Prop) :
  Q tt (set_cpu (set_regs e g (set_cr3 p c)) k) -> wp (modify (fun k => set_cpu (set_cr3 p (k_cpu k)) k)) (set_cpu (set_regs e g c) k) Q.
Proof. intros HQ. by apply wp_modify. Qed.

(** The registers when [HigherHalf] is reached: the loader's values in esi and edi. *)
Lemma start_low_spec ctl k : length (gprs (k_cpu k)) = 7%nat ->
  wp (start_low ctl) k (fun ctl' k' => ctl' = MkControl (Z.lor (cr0 ctl) CR0_PG_WP) (Z.lor (cr4 ctl) CR4_PSE) /\
    exists g, k' = set_cpu (set_regs (esp (k_cpu k)) g (set_cr3 (page_directory ⊟ KERNEL_VIRTUAL_BASE) (k_cpu k))) k /\
      length g = 7%nat /\ nth esi g 0 = reg eax k /\ nth edi g 0 = reg ebx k).
Proof.
  intros Hl. unfold reg. set (g := gprs (k_cpu k)) in *. set (e := esp (k_cpu k)). set (c := k_cpu k).
  assert (Ek : k = set_cpu (set_regs e g c) k) by (by destruct k as [? ? ? []]). rewrite Ek at 1. clearbody g e c.
  do 7 (destruct g as [|? g]; [discriminate Hl|]). destruct g; [|discriminate Hl]. unfold start_low.
  repeat first [apply wp_bind | apply get_reg_spec | apply set_reg_spec | apply load_cr3_spec | apply wp_ret]; cbn [nth insert list_insert].
  split; [done|]. eexists. split; [reflexivity | done].
Qed.

(** The descriptors of the running system: the TSS is busy too. *)
Definition segments : list segment :=
  [MkSegment 0 0 0 0; MkSegment 0 0xFFFFF 0x9B 0xC; MkSegment 0 0xFFFFF 0x93 0xC;
   MkSegment 0 0xFFFFF 0xFA 0xC; MkSegment 0 0xFFFFF 0xF2 0xC; MkSegment tss 107 0x8B 0].

Lemma segments_busy m : decode_segment m <$> [0; 1; 2; 3; 4; 5] = flat_segments -> decode_segment (mark_tss m) <$> [0; 1; 2; 3; 4; 5] = segments.
Proof.
  intros Hs. pose proof (fun i => f_equal (fun l => nth i l (MkSegment 0 0 0 0)) Hs) as Hn.
  pose proof (Hn 5%nat) as E5. unfold segments. cbn [fmap list_fmap nth flat_segments] in Hn, E5 |- *.
  assert (Hu : untouched (range (gdt + 45) 1) m (mark_tss m)) by apply st8_untouched.
  rewrite !(decode_segment_frame m (mark_tss m) _ _ Hu) by (unfold range; lia). rewrite (Hn 0%nat), (Hn 1%nat), (Hn 2%nat), (Hn 3%nat), (Hn 4%nat). do 5 f_equal.
  unfold decode_segment in E5 |- *. set (a := gdt + 8 * 5) in *. injection E5 as F1 F2 F3 F4.
  unfold mark_tss. replace (gdt + 45) with (a + 5) by lia. mem_simp. rewrite F1, F2, F3, F4. done.
Qed.

Lemma segments_agree m m' : agree m m' gdt 48 -> decode_segment m' <$> [0; 1; 2; 3; 4; 5] = decode_segment m <$> [0; 1; 2; 3; 4; 5].
Proof.
  intros Ha. apply list_fmap_ext. intros i x Hi. assert (0 <= x < 6) by (do 6 (destruct i; [injection Hi as <-; lia|]); discriminate Hi).
  apply (decode_segment_frame m m' x (fun b => ~ range gdt 48 b)); unfold range; [|lia]. intros b Hb. apply Ha. unfold range. lia.
Qed.

(** At the call of [kmain]: the arguments on the stack, the new segments loaded and
    only the upper mapping left. *)
Record at_kmain (a b : Z) (k k1 : kernel) : Prop := {
  ak_frame : exists g, k1 = set_cpu (set_regs (stack_top - 8) g (set_segs 8 (all_segs 16) (set_gdtr (gdt, 47) (k_cpu k)))) (set_mem (k_mem k1) k);
  ak_mem : untouched entry_fp (k_mem k) (k_mem k1);
  ak_args : ld32 (k_mem k1) (stack_top - 8) = a /\ ld32 (k_mem k1) (stack_top - 4) = b;
  ak_segments : decode_segment (k_mem k1) <$> [0; 1; 2; 3; 4; 5] = flat_segments;
  ak_map : forall x, 0 <= x < 2 ^ 20 -> translate (k_mem k1) page_directory x = boot_map false x }.

(** The variables of the entry by name. *)
Lemma entry_apart k : entry_image k -> apart gdt 48 page_directory 4096 /\ apart gdt 48 (stack_top - 0x4000) 0x4000 /\
  apart gdtr_var 6 page_directory 4096 /\ apart page_directory 4096 (stack_top - 0x4000) 0x4000.
Proof.
  intros [_ D _ _]. split_and!; [exact (D 0%nat 2%nat _ _ eq_refl eq_refl ltac:(lia)) | exact (D 0%nat 3%nat _ _ eq_refl eq_refl ltac:(lia))
    | exact (D 1%nat 2%nat _ _ eq_refl eq_refl ltac:(lia)) | exact (D 2%nat 3%nat _ _ eq_refl eq_refl ltac:(lia))].
Qed.

Lemma higher_half_spec k : entry_image k -> tables_placed -> KERNEL_VIRTUAL_BASE <= _rw_start /\ _rw_end <= 2 ^ 32 -> length (gprs (k_cpu k)) = 7%nat ->
  0 <= reg esi k < 2 ^ 32 -> 0 <= reg edi k < 2 ^ 32 -> wp higher_half k (fun _ k1 => at_kmain (reg esi k) (reg edi k) k k1).
Proof.
  intros HE HT [Hrw Hend] Hl Ha Hb. pose proof (entry_apart k HE) as (A1 & A2 & A3 & A4). pose proof HE as [D1 _ D3 D4].
  destruct (D1 (page_directory, 4096)) as [P1 P2]; [right; right; left|]. destruct (D1 (stack_top - 0x4000, 0x4000)) as [S1 S2]; [right; right; right; left|].
  cbn [fst snd] in P1, P2, S1, S2. pose proof (tp_gdt HT) as [G1 G2]. unfold apart in *. unfold KERNEL_VIRTUAL_BASE in Hrw.
  unfold higher_half, set_reg. apply wp_bind, wp_modify, wp_bind, wp_modify, wp_bind.
  eapply wp_mono; [exact (init_gdt_spec HT _)|]. intros [] k' (Hs & E & Hu). cbn [k_mem k_cpu set_cpu set_mem] in Hu, E.
  set (m := k_mem k') in *. clearbody m. subst k'. regs.
  apply wp_bind. eapply wp_access; [unfold KERNEL_VIRTUAL_BASE; lia | lia | reflexivity | cbv beta]. unfold reg.
  apply wp_bind, wp_gets, wp_bind, push32_spec; [cpu; unfold KERNEL_VIRTUAL_BASE; lia|].
  apply wp_bind, wp_gets, push32_spec; [cpu; unfold KERNEL_VIRTUAL_BASE; lia|].
  cpu. replace (stack_top - 4 - 4) with (stack_top - 8) by lia.
  assert (En : forall i, i <> 4%nat -> nth i (<[4%nat := stack_top]> (gprs (k_cpu k))) 0 = nth i (gprs (k_cpu k)) 0)
    by (intros i Hi; rewrite !nth_lookup, list_lookup_insert_ne by congruence; done).
  rewrite !En by lia. unfold reg in Ha, Hb. set (m' := st32 _ _ _).
  assert (Hu' : untouched (fun b => range page_directory 4 b \/ range (stack_top - 8) 8 b) m m').
  { unfold m'. intros b Hx. unfold range in Hx. mem_simp. done. }
  split; cpu.
  - eexists. reflexivity.
  - intros b Hx. unfold entry_fp in Hx. rewrite Hu' by tauto. apply Hu. tauto.
  - unfold m'. split; mem_simp; done.
  - rewrite <- Hs. apply segments_agree. eapply untouched_agree; [exact Hu'|]. unfold range. intros. lia.
  - intros x Hx. apply (boot_translates (k_mem k)); [done | | unfold m'; mem_simp; done | done].
    intros b Hb'. unfold range in Hb'. rewrite Hu', Hu; [done | unfold range; lia..].
Qed.

(** The running system does not depend on the stack pointer of the processor. *)
Lemma system_up_esp `{PA : PageAllocator pmm_alloc pmm_free get_order_addr} m0 h W main rp p H PS sp g k :
  system_up m0 h W main rp p H PS k -> system_up m0 h W main rp p H PS (set_cpu (set_regs sp g (k_cpu k)) k).
Proof. intros [P1 P2 P3 P4 P5 P6 P7 P8 P9 P10 P11 P12]. split; try done. by apply (heap_ok_frame H PS k). Qed.

(** The loader's registers reach the call of [kmain]. *)
Lemma to_kmain_spec ctl k : entry_image k -> tables_placed -> KERNEL_VIRTUAL_BASE <= _rw_start /\ _rw_end <= 2 ^ 32 -> length (gprs (k_cpu k)) = 7%nat ->
  0 <= reg eax k < 2 ^ 32 -> 0 <= reg ebx k < 2 ^ 32 ->
  wp (start_low ctl) k (fun ctl' k1 => ctl' = MkControl (Z.lor (cr0 ctl) CR0_PG_WP) (Z.lor (cr4 ctl) CR4_PSE) /\
    wp higher_half k1 (fun _ k2 => exists c, cr3 c = page_directory ⊟ KERNEL_VIRTUAL_BASE /\ at_kmain (reg eax k) (reg ebx k) (set_cpu c k) k2)).
Proof.
  intros HE HT Hrw Hl Ha Hb. eapply wp_mono; [by apply start_low_spec|]. intros ctl' k1 (-> & g & -> & Hg & Ea & Eb). split; [done|].
  set (c := set_regs _ g _). eapply wp_mono; [apply (higher_half_spec (set_cpu c k))|]; try done; unfold reg; cbn [k_cpu set_cpu]; unfold c; cbn [gprs set_regs].
  - by destruct HE; split.
  - by rewrite Ea.
  - by rewrite Eb.
  - rewrite Ea, Eb. intros _ k2 Hk. by exists c.
Qed.

Section boot.
Context (mbi : Z) (l : list (Z * Z)) (R1 R2 N A S NG len : Z) (k : kernel) (HB : bootable mbi l R1 R2 N A S NG len k) (HE : entry_image k).
Local Abbreviation regions := (kernel_regions R1 R2 N A S).
Local Abbreviation image := (module_at k (mbi_found k mbi l) + KERNEL_VIRTUAL_BASE).

Lemma rw_bounds : KERNEL_VIRTUAL_BASE + 4096 * R1 = _rw_start /\ KERNEL_VIRTUAL_BASE <= _rw_start /\ _rw_end <= 2 ^ 32.
Proof.
  pose proof (bt_order _ _ _ _ _ _ _ _ _ _ HB). destruct (ln_symbols _ _ (bt_linked _ _ _ _ _ _ _ _ _ _ HB)) as (_ & _ & _ & E1 & E2 & _).
  unfold KERNEL_VIRTUAL_BASE in *. lia.
Qed.

(** The kernel that [kmain] leaves when it was called with its arguments on the
    stack, from the memory [m0] of the boot loader. *)
Definition entered (k' : kernel) : Prop :=
  (exists (PA : PageAllocator pmm_alloc pmm_free get_order_addr) main rp p H PS,
     system_up (k_mem k) image (region_map regions) main rp p H PS k') /\
  (cr3 (k_cpu k') = V2P kernel_page_directory /\ idtr (k_cpu k') = (idt, 2047) /\ gdtr (k_cpu k') = (gdt, 47) /\
   seg_cs (k_cpu k') = 8 /\ segs (k_cpu k') = all_segs 16 /\ esp (k_cpu k') = stack_top) /\
  (forall x, 0 <= x < 2 ^ 20 -> translate (k_mem k') kernel_page_directory x = region_map regions x) /\
  decode_segment (k_mem k') <$> [0; 1; 2; 3; 4; 5] = segments /\
  (forall v, 0 <= v < 256 -> g_offset (decode_gate (k_mem k') v) = ld32 (k_mem k) (isr_stub_table + 4 * v) /\
     interrupt_gate (decode_gate (k_mem k') v) (if v =? 0x80 then 3 else 0)).

Lemma call_kmain_spec c k1 : at_kmain 0x36d76289 mbi (set_cpu c k) k1 -> wpe out_of_memory call_kmain k1 (fun _ => entered).
Proof.
  intros [(g & E) HU [A1 A2] Hs _]. cbn [k_cpu k_mem set_cpu] in E, HU. set (m := k_mem k1) in *. clearbody m. subst k1.
  pose proof rw_bounds as (W1 & W2 & W3). destruct (ei_data _ HE (stack_top - 0x4000, 0x4000)) as [S1 S2]; [right; right; right; left|]. cbn [fst snd] in S1, S2.
  unfold KERNEL_VIRTUAL_BASE in W2. pose proof (ei_stack _ HE) as S3.
  set (c1 := set_regs _ g _). change (set_cpu c1 _) with (set_cpu c1 (set_mem m k)).
  pose proof (handed_bootable mbi l R1 R2 N A S NG len k HB entry_fp (fun b => entry_bytes k b HE) c1 m HU) as HB1.
  pose proof (handed_module mbi l R1 R2 N A S NG len k HB entry_fp (fun b => entry_bytes k b HE) c1 m HU) as Em.
  pose proof (kmain_spec _ _ _ _ _ _ _ _ _ _ HB1) as Hk. cbv zeta in Hk. rewrite Em in Hk. cbn [k_mem k_cpu set_cpu set_mem] in Hk.
  unfold call_kmain. apply wpe_bind, wpe_wp, wp_gets. cbn [esp k_cpu set_cpu set_regs c1].
  apply wpe_bind. eapply wpe_access; [unfold KERNEL_VIRTUAL_BASE; lia | lia | reflexivity | cbv beta]. cbn [k_mem set_cpu set_mem]. rewrite A1.
  replace (stack_top - 8 + 4) with (stack_top - 4) by lia.
  apply wpe_bind. eapply wpe_access; [unfold KERNEL_VIRTUAL_BASE; lia | lia | reflexivity | cbv beta]. cbn [k_mem set_cpu set_mem]. rewrite A2.
  apply wpe_bind. eapply wpe_mono; [exact Hk|]. intros [] k2 ((PA & main & rp & p & H & PS & Hup) & Ec & Ht & Hg & Hgdt).
  apply wpe_wp. unfold add_esp. apply wp_modify.
  assert (Hro : forall a n, (forall b, range a n b -> ~ rw_byte b) -> agree (k_mem k) m a n).
  { intros a n Hn b Hb. apply HU. intros Hf. by apply (Hn b Hb), (entry_bytes k). }
  unfold entered. split.
  { exists PA, main, rp, p, H, PS. apply system_up_esp. eapply system_up_agree; [apply (bt_image _ _ _ _ _ _ _ _ _ _ HB) | | done | exact Hup].
    intros b Hb. eapply handed_same; [exact HB | exact (fun b => entry_bytes k b HE) | exact HU | by right]. }
  split_and!; cbn [k_mem set_cpu]; try done; cbn [k_cpu set_cpu]; rewrite ?Ec; unfold c1; try done.
  - cbn. rewrite u32_small; lia.
  - rewrite <- (segments_busy m Hs). by apply segments_agree.
  - intros v Hv. destruct (Hg v Hv) as [G1 G2]. split; [|done]. rewrite G1. apply ld32_agree, Hro. intros b Hb.
    destruct (ln_stubs _ _ (bt_linked _ _ _ _ _ _ _ _ _ _ HB)) as [T1 T2]. destruct (ln_symbols _ _ (bt_linked _ _ _ _ _ _ _ _ _ _ HB)) as (_ & _ & E3 & E4 & _).
    unfold rw_byte, range in *. lia.
Qed.
End boot.
End code.

(** ** The property *)

(** C1: entered by a multiboot2 loader with its magic number in eax and the address
    of its information in ebx, on a [bootable] machine (memory map and module tags, a well-formed ELF module,
    an even number of pages with the slack [bt_slack] in the page map, room for the tables, sections apart,
    blank variables) with the boot data as assembled ([entry_image]), [_start] boots the system or stops in the page
    allocator's out-of-memory panic.  The directory it loads maps the first 4 MiB at 0
    and at 0xC0000000; with paging, write protection and 4 MiB pages turned on
    it drops the lower mapping before it calls [kmain], whose arguments are the
    loader's two words.  When [kmain] returns, its arguments are off the stack, the
    kernel's address space is loaded, the six segments of [init_gdt] are in
    the table the processor uses, marked accessed and busy by the loads, and the threads are those [kmain] sets up. *)
Theorem start_boots `{BS : BuddySymbols} `{HS : HeapSymbols} `{TS : TableSymbols} `{SS : SchedSymbols} `{LS : LayoutSymbols} `{PR : ProcessSymbols} `{ES : EntrySymbols}
    ctl mbi l R1 R2 N A S NG len k :
  bootable mbi l R1 R2 N A S NG len k -> entry_image k -> length (gprs (k_cpu k)) = 7%nat -> reg eax k = 0x36d76289 -> reg ebx k = mbi ->
  (forall x, 0 <= x < 2 ^ 20 -> translate (k_mem k) page_directory x = boot_map true x) /\
  wp (start_low ctl ≫= fun _ => higher_half) k (fun _ k1 =>
    cr3 (k_cpu k1) = V2P page_directory /\ ld32 (k_mem k1) (esp (k_cpu k1)) = 0x36d76289 /\ ld32 (k_mem k1) (esp (k_cpu k1) + 4) = mbi /\
    forall x, 0 <= x < 2 ^ 20 -> translate (k_mem k1) page_directory x = boot_map false x) /\
  wpe out_of_memory (_start ctl) k (fun ctl' k' =>
    (Z.testbit (cr0 ctl') 31 = true /\ Z.testbit (cr0 ctl') 16 = true /\ Z.testbit (cr4 ctl') 4 = true) /\
    entered mbi l R1 R2 N A S k k').
Proof.
  intros HB HE Hl Ea Eb. pose proof (rw_bounds mbi l R1 R2 N A S NG len k HB) as [_ Hrw].
  assert (Hmbi : 0 <= mbi < 2 ^ 32).
  { destruct (bt_mbi _ _ _ _ _ _ _ _ _ _ HB) as [M1 M2]. pose proof (ld32_range (k_mem k) (mbi + KERNEL_VIRTUAL_BASE)).
    unfold mbi_size, PHYS_LIMIT, KERNEL_VIRTUAL_BASE in *. lia. }
  pose proof (to_kmain_spec ctl k HE (ln_tables _ _ (bt_linked _ _ _ _ _ _ _ _ _ _ HB)) Hrw Hl ltac:(rewrite Ea; lia) ltac:(rewrite Eb; lia)) as Hw.
  rewrite Ea, Eb in Hw. split_and!.
  - apply boot_translates with (m := k_mem k); [apply (ei_directory _ HE) | by intros b |].
    pose proof (ei_directory _ HE 0 ltac:(lia)) as H0. unfold pd_entry in H0. by rewrite Z.add_0_r in H0.
  - apply wp_bind. eapply wp_mono; [exact Hw|]. intros ctl' k1 (_ & Hw'). eapply wp_mono; [exact Hw'|].
    intros [] k2 (c & Ec & [(g & E) _ [A1 A2] _ Hm]). rewrite E. cpu. rewrite Ec. replace (stack_top - 8 + 4) with (stack_top - 4) by lia. done.
  - unfold _start. apply wpe_bind. eapply wpe_mono; [apply wpe_wp, Hw|]. intros ctl' k1 (-> & Hw').
    apply wpe_bind. eapply wpe_mono; [apply wpe_wp, Hw'|]. intros [] k2 (c & _ & Hk).
    apply wpe_bind. eapply wpe_mono; [exact (call_kmain_spec mbi l R1 R2 N A S NG len k HB HE c k2 Hk)|].
    intros [] k3 Hk3. apply wpe_ret. split; [|exact Hk3]. cbn [cr0 cr4]. rewrite !Z.lor_spec. by rewrite !orb_true_r.
Qed.

(** ** On the machine of [KernelSample] *)

#[local] Existing Instances boot_free boot_heap boot_tables boot_threads boot_layout_symbols boot_process.
#[local] Instance boot_entry : EntrySymbols := {| page_directory := 0xC0115000; HigherHalf := 0xC0100030; stack_top := 0xC011A000 |}.

(** With the boot directory in its data and the loader's words in eax and ebx. *)
Definition entry_machine : kernel :=
  set_cpu (set_regs 0 [0x36d76289; 0; 0; 0x9000; 0; 0; 0] cpu_initial)
    (set_mem (st32 (st32 (k_mem loaded_machine) 0xC0115000 0x83) 0xC0115C00 0x83) loaded_machine).

Lemma entry_machine_directory : forallb (fun d => ld32 (k_mem entry_machine) (0xC0115000 + 4 * d) =? (if (d =? 0) || (d =? 768) then 0x83 else 0)) (seqZ 0 1024) = true.
Proof. vm_compute. reflexivity. Qed.

Lemma entry_machine_registers : length (gprs (k_cpu entry_machine)) = 7%nat /\ reg eax entry_machine = 0x36d76289 /\ reg ebx entry_machine = 0x9000.
Proof. split_and!; reflexivity. Qed.

Lemma entry_machine_bootable : bootable 0x9000 [(6, 136); (3, 17)] 0x110 0x120 0x400 0x500 16 0x400 0x88 entry_machine.
Proof.
  apply (handed_bootable _ _ _ _ _ _ _ _ _ _ loaded_bootable (range 0xC0115000 4096)).
  - intros b Hb. unfold rw_byte, range in *. cbn. lia.
  - intros b Hb. unfold range in Hb. mem_simp. done.
Qed.

Lemma entry_machine_image : entry_image entry_machine.
Proof.
  split.
  - intros x Hx. unfold boot_data in Hx. cbn in Hx. rewrite !elem_of_cons, elem_of_nil in Hx. destruct_or! Hx; try contradiction; subst x; cbn; lia.
  - intros i j x y Hi Hj Hne. unfold boot_data, variables in Hi, Hj. cbn in Hi, Hj.
    do 7 (destruct i as [|i]; [injection Hi as <-; do 7 (destruct j as [|j]; [injection Hj as <-; unfold apart; cbn; lia|]); discriminate Hj|]).
    discriminate Hi.
  - cbn. lia.
  - pose proof entry_machine_directory as Hall. rewrite forallb_forall in Hall. intros d Hd. unfold pd_entry. rewrite (Z.mul_comm 4 d). cbn [page_directory boot_entry].
    apply Z.eqb_eq. rewrite (Z.mul_comm d 4). apply Hall, list_elem_of_In, elem_of_seqZ. lia.
Qed.
#[local] Opaque entry_machine loaded_machine.

Lemma start_boots_witness :
  wpe out_of_memory (_start (MkControl 0x11 0)) entry_machine (fun _ k' =>
    cr3 (k_cpu k') = 0x113000 /\ esp (k_cpu k') = 0xC011A000 /\ decode_segment (k_mem k') <$> [0; 1; 2; 3; 4; 5] = segments).
Proof.
  destruct entry_machine_registers as (R1 & R2 & R3).
  destruct (start_boots (MkControl 0x11 0) 0x9000 [(6, 136); (3, 17)] 0x110 0x120 0x400 0x500 16 0x400 0x88 entry_machine
    entry_machine_bootable entry_machine_image R1 R2 R3) as (_ & _ & Hw).
  eapply wpe_mono; [exact Hw|]. intros ctl' k' (_ & _ & (E1 & _ & _ & _ & _ & E2) & _ & Hs & _). split_and!; [exact E1 | exact E2 | exact Hs].
Defined.
