(* ===== verification/HeapTest.v ===== *)
(** * The self-test of the heap: src/mm/heap/heap_test.c

    The test asks for blocks of random sizes and gives them back, fills each with a
    pattern and looks for it before it frees the block, checks the heap's books after
    every step, and in the end finds the heap as it was.  The static variables of the
    test are in [heap_test]. *)

From Stdlib Require Import ZArith Lia Bool.
From stdpp Require Import base functions list gmap strings.
From S2P Require Import Prelude Machine StringLib Console Node Bump Buddy BuddyModel BuddyRefine BuddyInit Pmm PmmSample Devices Random Heap HeapModel HeapSteps HeapPages HeapCompact HeapAlloc HeapFree HeapTheorems HeapClient HeapSample HeapLedger.

(** ** The code *)

Definition SEED : Z := 2324.
Definition MAX_MEMORY : Z := 0x2000.
Definition MAX_BLOCKS : Z := 500.
Definition MAX_ITERATIONS : Z := 1000.

Record Block := MkBlock { b_ptr : Z; b_size : Z; b_pattern : Z }.
Record heap_test := MkTest { table : list Block; tracking : Z }.

Definition slot_at (bs : list Block) (idx : Z) : Block := default (MkBlock 0 0 0) (bs !! Z.to_nat idx).
Definition set_slot (idx : Z) (b : Block) (t : heap_test) : heap_test := MkTest (<[Z.to_nat idx := b]> (table t)) (tracking t).
Definition set_tracking (n : Z) (t : heap_test) : heap_test := MkTest (table t) (u32 n).
Definition no_block : Block := MkBlock 0 0 0.

Definition fill_pattern (ptr size pattern : Z) : M unit :=
  for_up (Z.to_nat size) 0 (fun i => store8 (ptr + i) pattern).

Fixpoint check_bytes (n : nat) (p pattern : Z) : M bool :=
  match n with
  | O => mret true
  | S n => b ← load8 p; if negb (b =? pattern) then mret false else check_bytes n (p + 1) pattern
  end.

Definition check_pattern (ptr size pattern : Z) : M bool := check_bytes (Z.to_nat size) ptr pattern.

Section code.
Context `{BS : BuddySymbols} `{HS : HeapSymbols}.

Definition allocate (t : heap_test) : M heap_test :=
  r ← krand; let size := r mod MAX_MEMORY + 1 in
  i ← draw_until (fun r => b_ptr (slot_at (table t) (r mod MAX_BLOCKS)) =? NULL);
  let idx := i mod MAX_BLOCKS in
  ptr ← kmalloc size;
  p ← krand; let pattern := Z.land p 0xFF in
  let t := set_slot idx (MkBlock ptr size pattern) t in
  if negb (ptr =? NULL) then fill_pattern ptr size pattern;; mret (set_tracking (tracking t + 1) t) else mret t.

Definition deallocate (t : heap_test) : M heap_test :=
  i ← draw_until (fun r => negb (b_ptr (slot_at (table t) (r mod MAX_BLOCKS)) =? NULL));
  let idx := i mod MAX_BLOCKS in
  let block := slot_at (table t) idx in
  ok ← check_pattern (b_ptr block) (b_size block) (b_pattern block);
  when (negb ok) (kprintf ("Memory corruption detected in block %d!" ++ newline) [A32 idx];; skip);;
  kfree (b_ptr block);;
  mret (set_tracking (tracking t - 1) (set_slot idx no_block t)).

(** The iterations of the test, and whether it went through them. *)
Fixpoint heap_test_loop (n : nat) (t : heap_test) : M (bool * heap_test) :=
  match n with
  | O => mret (true, t)
  | S n =>
      r ← krand;
      let action := Z.land r 1 in
      let action := if tracking t =? 0 then 0 else action in
      let action := if MAX_BLOCKS <=? tracking t then 1 else action in
      t ← (if action =? 0 then allocate t else deallocate t);
      ok ← check_state;
      if negb ok then mret (false, t) else heap_test_loop n t
  end.

Fixpoint free_rest (n : nat) (i : Z) (t : heap_test) : M heap_test :=
  match n with
  | O => mret t
  | S n =>
      let b := slot_at (table t) i in
      if negb (b_ptr b =? NULL) then
        kfree (b_ptr b);; free_rest n (i + 1) (set_tracking (tracking t - 1) (set_slot i no_block t))
      else free_rest n (i + 1) t
  end.

Definition test_heap (t : heap_test) : M heap_test :=
  kprintf ("Starting heap test..." ++ newline) [];;
  ksrand SEED;;
  ini ← gets k_heap;
  ini_first ← load32 first_var;
  let t := MkTest (replicate (Z.to_nat MAX_BLOCKS) no_block) (tracking t) in
  r ← heap_test_loop (Z.to_nat MAX_ITERATIONS) t;
  let t := snd r in
  if negb (fst r) then mret t
  else
    t ← free_rest (Z.to_nat MAX_BLOCKS) 0 t;
    ok ← check_ini ini ini_first;
    when (ok && (tracking t =? 0)) (kprintf ("Heap test passed!" ++ newline) [];; skip);;
    mret t.
End code.

(** ** What the table holds *)

Definition owned (bs : list Block) : list (Z * Z) := (fun b => (b_ptr b, b_size b)) <$> filter (fun b => b_ptr b <> NULL) bs.

Lemma owned_app bs1 bs2 : owned (bs1 ++ bs2) = owned bs1 ++ owned bs2.
Proof. unfold owned. by rewrite filter_app, fmap_app. Qed.

Lemma owned_cons b bs : owned (b :: bs) = if decide (b_ptr b <> NULL) then (b_ptr b, b_size b) :: owned bs else owned bs.
Proof. unfold owned. rewrite filter_cons. by case_decide. Qed.

Lemma owned_length bs : (length (owned bs) <= length bs)%nat.
Proof. unfold owned. rewrite length_fmap. apply length_filter. Qed.

Lemma owned_elem p size bs : (p, size) ∈ owned bs <-> exists b, b ∈ bs /\ b_ptr b <> NULL /\ b_ptr b = p /\ b_size b = size.
Proof.
  unfold owned. rewrite list_elem_of_fmap. split.
  - intros (b & [= -> ->] & [Hp Hb]%list_elem_of_filter). by exists b.
  - intros (b & Hb & Hp & <- & <-). exists b. split; [done|]. by apply list_elem_of_filter.
Qed.

Lemma heap_free_slot bs : (length (owned bs) < length bs)%nat -> exists idx, 0 <= idx < Z.of_nat (length bs) /\ b_ptr (slot_at bs idx) = NULL.
Proof.
  unfold owned. rewrite length_fmap. intros (n & Hn & Hp)%(slot_without (MkBlock 0 0 0)). exists (Z.of_nat n). split; [lia|].
  unfold slot_at. rewrite Nat2Z.id. by destruct (Z.eq_dec (b_ptr (default (MkBlock 0 0 0) (bs !! n))) NULL).
Qed.

Lemma heap_taken_slot bs : owned bs <> [] -> exists idx, 0 <= idx < Z.of_nat (length bs) /\ b_ptr (slot_at bs idx) <> NULL.
Proof.
  intros Hne. destruct (slot_with (MkBlock 0 0 0) (fun b => b_ptr b <> NULL) bs) as (n & Hn & Hp).
  { intros E. apply Hne. unfold owned. by rewrite E. }
  exists (Z.of_nat n). split; [lia|]. unfold slot_at. by rewrite Nat2Z.id.
Qed.

(** A free slot gets a block, or stays free; a taken slot is emptied. *)
Lemma owned_set bs idx b : 0 <= idx < Z.of_nat (length bs) -> b_ptr (slot_at bs idx) = NULL ->
  owned (<[Z.to_nat idx := b]> bs) ≡ₚ (if decide (b_ptr b <> NULL) then (b_ptr b, b_size b) :: owned bs else owned bs) /\
  forall c, c ∈ <[Z.to_nat idx := b]> bs -> c = b \/ c ∈ bs.
Proof.
  intros Hi Hn. destruct (insert_split (MkBlock 0 0 0) bs (Z.to_nat idx) ltac:(lia)) as (l1 & l2 & E & Es). fold (slot_at bs idx) in E. rewrite Es.
  set (c0 := slot_at bs idx) in *. clearbody c0. subst bs. split.
  - rewrite !owned_app, !owned_cons, (decide_False (P := b_ptr c0 <> NULL)) by tauto. case_decide; [symmetry; apply Permutation_middle | done].
  - intros c. rewrite !elem_of_app, !elem_of_cons. tauto.
Qed.

Lemma owned_clear bs idx : 0 <= idx < Z.of_nat (length bs) -> b_ptr (slot_at bs idx) <> NULL ->
  owned bs ≡ₚ (b_ptr (slot_at bs idx), b_size (slot_at bs idx)) :: owned (<[Z.to_nat idx := no_block]> bs) /\
  forall c, c ∈ <[Z.to_nat idx := no_block]> bs -> b_ptr c <> NULL -> c ∈ bs.
Proof.
  intros Hi Hn. destruct (insert_split (MkBlock 0 0 0) bs (Z.to_nat idx) ltac:(lia)) as (l1 & l2 & E & Es). fold (slot_at bs idx) in E. rewrite Es.
  set (c0 := slot_at bs idx) in *. clearbody c0. subst bs. split.
  - rewrite !owned_app, !owned_cons, decide_True, decide_False by (done || (cbn; tauto)). symmetry. apply Permutation_middle.
  - intros c. rewrite !elem_of_app, !elem_of_cons. intros [Hc|[->|Hc]]; [tauto | done | tauto].
Qed.

(** ** The heap under the test *)

Lemma wpe_and {A} E (m : M A) k (Q1 Q2 : A -> kernel -> Prop) : wpe E m k Q1 -> wpe E m k Q2 -> wpe E m k (fun a k' => Q1 a k' /\ Q2 a k').
Proof.
  intros H1 H2. destruct (wpe_cases _ _ _ _ H1) as [(a & k' & Em & Ha)|(e & Hst & He)]; [|by eapply wpe_stops].
  apply wpe_wp. eapply wp_of_eq; [exact Em|]. split; [done|]. by eapply wpe_run.
Qed.

Section test.
Context `{BS : BuddySymbols} `{HS : HeapSymbols} `{PA : !PageAllocator pmm_alloc pmm_free get_order_addr}.
Context (P0 U0 F0 : Z) (PS0 : list hpage) (io : list io_event).

(** The store and the books with the blocks [L], the bytes [D] and no output. *)
Definition heap_at (L : blocks) (D : contents) (k : kernel) : Prop :=
  heap_inv 0 k L D /\ booked P0 U0 F0 PS0 k L /\ k_io k = io.

Lemma at_next L D k y : heap_at L D k -> heap_at L D (with_next y k).
Proof.
  intros ([I1 (H & PS & I2 & I3) I4 I5] & (B1 & H' & PS' & B2 & B3) & Ei). split; [|split; [|done]].
  - split; [done | | done | done]. exists H, PS. split; [|done]. by apply (heap_ok_frame H PS k).
  - split; [done|]. exists H', PS'. split; [|done]. destruct B2 as [C1 C2 C3 C4 C5 C6 C7]. split; try done. by apply (heap_ok_frame H' PS' k).
Qed.

Lemma at_mapped L D k p size : heap_at L D k -> L !! p = Some size -> KERNEL_VIRTUAL_BASE <= p /\ p + size <= 2 ^ 32 /\ 0 < size.
Proof.
  intros ([_ (H & PS & HK & HL) _ _] & _) Hl. destruct (HL _ _ Hl) as [Ho Hs]. destruct (obj_place H PS k p size HK Ho) as (? & ? & _). done.
Qed.

Lemma at_apart L D k p size p' size' : heap_at L D k -> L !! p = Some size -> L !! p' = Some size' -> p <> p' -> apart p size p' size'.
Proof.
  intros ([_ (H & PS & HK & HL) _ _] & _) Hl Hl' Hne. destruct (HL _ _ Hl), (HL _ _ Hl'). by apply (obj_apart H PS k p size p' size' HK).
Qed.

Lemma kmalloc_io size k L D : heap_at L D k -> served size -> wpe out_of_memory (kmalloc size) k (fun _ k' => k_io k' = k_io k).
Proof.
  intros ([Hc (H & PS & HK & _) _ _] & _) [Hs|Hs].
  - eapply wpe_mono; [by apply (kmalloc_small_spec size H PS k)|]. intros r k' (c & s & H' & PS' & _ & HO).
    by destruct (ho_call _ _ _ _ _ _ _ _ _ HO) as (m & b & h & ->).
  - destruct (kmalloc_pages_spec size k H (hk_pages _ _ _ HK) Hc Hs) as [Hw|Hst]; [|by eapply wpe_stops].
    apply wpe_wp. eapply wp_mono; [exact Hw|]. by intros r k' (i & _ & _ & m & b & -> & _).
Qed.

Lemma at_alloc L D k size : heap_at L D k -> served size ->
  wpe out_of_memory (kmalloc size) k (fun p k' => L !! p = None /\ heap_at (<[p := size]> L) D k').
Proof.
  intros HA Hs. pose proof HA as (HI & HB & Ei).
  assert (HB' : wpe out_of_memory (kmalloc size) k (fun p k' => L !! p = None -> booked P0 U0 F0 PS0 k' (<[p := size]> L))).
  { destruct Hs as [Hs|Hs]; [by apply booked_small | by apply booked_pages]. }
  eapply wpe_mono; [apply (wpe_and _ _ _ _ _ (inv_alloc 0 k L D size HI Hs) (wpe_and _ _ _ _ _ HB' (kmalloc_io size k L D HA Hs)))|].
  intros p k' ((Hn & HI') & HB2 & Ei'). split; [done|]. split; [done|]. split; [by apply HB2 | congruence].
Qed.

Lemma kfree_io L D k p size : heap_at L D k -> L !! p = Some size -> wp (kfree p) k (fun _ k' => k_io k' = k_io k).
Proof.
  intros ([Hc (H & PS & HK & HL) _ _] & _) Hp. destruct (HL _ _ Hp) as [[(s & Hl & Hs)|(i & o & -> & [Hi Hn] & Hs)] Hsz].
  - replace p with (p - 12 + 12) at 1 by lia. eapply wp_mono; [by apply (kfree_small_spec (p - 12) s H PS k)|].
    intros _ k' (H' & PS' & HT). by destruct (tk_call _ _ _ _ _ _ _ _ HT) as (m & b & h & ->).
  - eapply wp_mono; [by apply (kfree_pages_spec i o k H (hk_pages _ _ _ HK))|]. by intros _ k' (_ & m & b & -> & _).
Qed.

Lemma at_free L D k p size : heap_at L D k -> L !! p = Some size -> wp (kfree p) k (fun _ k' => heap_at (delete p L) (forget p size D) k').
Proof.
  intros HA Hp. pose proof HA as (HI & HB & Ei).
  eapply wp_mono; [apply (wp_and _ _ _ _ (inv_free 0 k L D p size HI Hp) (wp_and _ _ _ _ (booked_free P0 U0 F0 PS0 k L p size HB Hp) (kfree_io L D k p size HA Hp)))|].
  intros _ k' (HI' & HB' & Ei'). split; [done|]. split; [done | congruence].
Qed.

(** ** Patterns *)

Lemma fill_spec L D k p size v : heap_at L D k -> L !! p = Some size -> 0 <= v < 256 ->
  wp (fill_pattern p size v) k (fun _ k' => exists D', heap_at L D' k' /\ (forall a, range p size a -> D' !! a = Some v) /\
    forall a, ~ range p size a -> D' !! a = D !! a).
Proof.
  intros HA Hp Hv. destruct (at_mapped L D k p size HA Hp) as (G1 & G2 & G3). unfold fill_pattern.
  apply (wp_for_up _ 0 _ k (fun i k' => exists D', heap_at L D' k' /\ (forall a, range p i a -> D' !! a = Some v) /\ forall a, ~ range p size a -> D' !! a = D !! a)).
  - exists D. split_and!; [done | unfold range; intros; lia | done].
  - intros i k' Hi (D' & (HI & HB & Ei) & H1 & H2). rewrite Z2Nat.id in Hi by lia. eapply wp_access; [lia | lia | reflexivity | cbv beta].
    assert (Hr : range p size (p + i)) by (unfold range; lia). exists (<[p + i := u8 v]> D'). split_and!.
    + split; [by eapply inv_write|]. split; [by eapply booked_write | done].
    + intros a Ha. destruct (decide (a = p + i)) as [->|Hne]; [rewrite lookup_insert_eq; f_equal; by apply u8_small|].
      rewrite lookup_insert_ne by done. apply H1. unfold range in *. lia.
    + intros a Ha. rewrite lookup_insert_ne by (intros <-; done). by apply H2.
  - intros k' (D' & HA' & H1 & H2). rewrite Z.add_0_l, Z2Nat.id in H1 by lia. by exists D'.
Qed.

Lemma check_bytes_true v k : forall n p, KERNEL_VIRTUAL_BASE <= p -> p + Z.of_nat n <= 2 ^ 32 -> (forall a, range p (Z.of_nat n) a -> ld8 (k_mem k) a = v) ->
  wp (check_bytes n p v) k (fun r k' => r = true /\ k' = k).
Proof.
  induction n as [|n IH]; intros p H1 H2 Hf; cbn [check_bytes]; [by apply wp_ret|].
  apply wp_bind. eapply wp_access; [lia | lia | reflexivity | cbv beta]. rewrite Hf by (unfold range; lia). rewrite Z.eqb_refl. cbn [negb].
  apply IH; [lia | lia |]. intros a Ha. apply Hf. unfold range in *. lia.
Qed.

(** ** The table of the test *)

Definition blocks_of (bs : list Block) : blocks := list_to_map (owned bs).

Definition heap_table (bs : list Block) (k : kernel) : Prop :=
  Z.of_nat (length bs) = MAX_BLOCKS /\ NoDup (owned bs).*1 /\
  exists D, heap_at (blocks_of bs) D k /\ forall b, b ∈ bs -> b_ptr b <> NULL -> forall a, range (b_ptr b) (b_size b) a -> D !! a = Some (b_pattern b).

Definition heap_test_ok (t : heap_test) (k : kernel) : Prop :=
  heap_table (table t) k /\ tracking t = Z.of_nat (length (owned (table t))).

Lemma heap_table_next bs k y : heap_table bs k -> heap_table bs (with_next y k).
Proof. intros (T1 & T2 & D & T3 & T4). split; [done|]. split; [done|]. exists D. split; [by apply at_next | done]. Qed.

Lemma listed bs b : NoDup (owned bs).*1 -> b ∈ bs -> b_ptr b <> NULL -> blocks_of bs !! b_ptr b = Some (b_size b).
Proof. intros Hnd Hb Hp. apply elem_of_list_to_map_1; [done|]. apply owned_elem. by exists b. Qed.

Lemma blocks_of_perm bs l : NoDup (owned bs).*1 -> owned bs ≡ₚ l -> blocks_of bs = list_to_map l.
Proof. intros Hnd Hp. by apply list_to_map_proper. Qed.

(** A block that was fetched goes into a free slot. *)
Lemma table_add bs k D idx p size v : Z.of_nat (length bs) = MAX_BLOCKS -> NoDup (owned bs).*1 -> 0 <= idx < MAX_BLOCKS -> b_ptr (slot_at bs idx) = NULL ->
  p <> NULL -> blocks_of bs !! p = None -> heap_at (<[p := size]> (blocks_of bs)) D k ->
  (forall a, range p size a -> D !! a = Some v) ->
  (forall b, b ∈ bs -> b_ptr b <> NULL -> forall a, range (b_ptr b) (b_size b) a -> D !! a = Some (b_pattern b)) ->
  heap_table (<[Z.to_nat idx := MkBlock p size v]> bs) k /\ length (owned (<[Z.to_nat idx := MkBlock p size v]> bs)) = S (length (owned bs)).
Proof.
  intros Hl Hnd Hi Hn Hp Hnew HA Hv Hd. destruct (owned_set bs idx (MkBlock p size v) ltac:(lia) Hn) as [Hperm Hin].
  rewrite decide_True in Hperm by done. cbn [b_ptr b_size] in Hperm.
  assert (Hnd' : NoDup (owned (<[Z.to_nat idx := MkBlock p size v]> bs)).*1).
  { rewrite Hperm. cbn. constructor; [by apply not_elem_of_list_to_map_2 | done]. }
  split; [|by rewrite Hperm]. split; [by rewrite length_insert|]. split; [done|]. exists D. rewrite (blocks_of_perm _ _ Hnd' Hperm). split; [exact HA|].
  intros b Hb. destruct (Hin b Hb) as [->|Hold]; [by intros _ | by apply Hd].
Qed.

Lemma heap_slot_mod idx : 0 <= idx < MAX_BLOCKS -> idx mod MAX_BLOCKS = idx.
Proof. apply Z.mod_small. Qed.

(** ** The operations of the test *)

Lemma request_size r : 0 <= r < 32768 -> let size := r mod MAX_MEMORY + 1 in served size \/ 2048 < size < 4096.
Proof. intros Hr size. pose proof (Z.mod_pos_bound r MAX_MEMORY ltac:(done)). unfold served, size, MAX_MEMORY in *. lia. Qed.

Lemma rand_of_range x : 0 <= rand_of x < 32768.
Proof. apply Z.mod_pos_bound. lia. Qed.

Lemma pattern_range x : 0 <= Z.land x 0xFF < 256.
Proof. change 0xFF with (Z.ones 8). rewrite Z.land_ones by lia. apply Z.mod_pos_bound. lia. Qed.

(** The request is served: the block is filled and goes into the table. *)
Lemma allocate_served t k idx p size v : heap_test_ok t k -> Z.of_nat (length (owned (table t))) < MAX_BLOCKS -> 0 <= idx < MAX_BLOCKS ->
  b_ptr (slot_at (table t) idx) = NULL -> forall k1 D, blocks_of (table t) !! p = None -> 0 <= v < 256 ->
  heap_at (<[p := size]> (blocks_of (table t))) D k1 ->
  (forall b, b ∈ table t -> b_ptr b <> NULL -> forall a, range (b_ptr b) (b_size b) a -> D !! a = Some (b_pattern b)) ->
  wp (if negb (p =? NULL) then fill_pattern p size v;; mret (set_tracking (tracking t + 1) (set_slot idx (MkBlock p size v) t)) else mret (set_slot idx (MkBlock p size v) t)) k1
    (fun t' k' => heap_test_ok t' k').
Proof.
  intros ((Hl & Hnd & _) & Htr) Hlt Hi Hn k1 D Hnew Hv HA Hd. destruct (at_mapped _ _ _ p size HA (lookup_insert_eq _ _ _)) as (G1 & G2 & G3).
  assert (Hp : p <> NULL) by (unfold NULL, KERNEL_VIRTUAL_BASE in *; lia). rewrite (proj2 (Z.eqb_neq _ _) Hp). cbn [negb].
  apply wp_bind. eapply wp_mono; [apply (fill_spec _ D k1 p size v HA (lookup_insert_eq _ _ _) Hv)|]. intros [] k2 (D' & HA' & H1 & H2). apply wp_ret.
  destruct (table_add (table t) k2 D' idx p size v Hl Hnd Hi Hn Hp Hnew HA' H1) as [HT El].
  - intros b Hb Hbp a Ha. rewrite H2; [by apply Hd|]. intros Hr. pose proof (listed _ b Hnd Hb Hbp) as Hlb.
    assert (Hne : b_ptr b <> p) by (intros E; rewrite E in Hlb; congruence).
    pose proof (at_apart _ _ _ p size (b_ptr b) (b_size b) HA (lookup_insert_eq _ _ _) ltac:(by rewrite lookup_insert_ne) ltac:(done)).
    unfold apart, range in *. lia.
  - split; [exact HT|]. cbn [tracking set_tracking set_slot table]. rewrite El, Htr. unfold MAX_BLOCKS in *. rewrite u32_small; lia.
Qed.

Lemma allocate_spec t k : heap_test_ok t k -> Z.of_nat (length (owned (table t))) < MAX_BLOCKS ->
  wpe out_of_memory (allocate t) k (fun t' k' => heap_test_ok t' k').
Proof.
  intros HO Hlt. pose proof HO as ((Hl & Hnd & D & HA & Hd) & Htr). unfold allocate.
  apply wpe_bind, wpe_wp, krand_spec. set (x := lcg _). cbv zeta. destruct (heap_free_slot (table t)) as (j & Hj & Hn); [unfold MAX_BLOCKS in *; lia|]. rewrite Hl in Hj.
  apply wpe_bind, wpe_wp. eapply wp_mono; [apply (draw_until_spec _ j); [unfold MAX_BLOCKS in *; lia | rewrite heap_slot_mod by done; by apply Z.eqb_eq]|].
  intros r k1 (Hr%Z.eqb_eq & Hr1 & y & _ & ->). pose proof (Z.mod_pos_bound r MAX_BLOCKS ltac:(done)) as Hm. set (idx := r mod MAX_BLOCKS) in *.
  assert (HA1 : heap_at (blocks_of (table t)) D (with_next y (with_next x k))) by (by repeat apply at_next).
  destruct (request_size (rand_of x) (rand_of_range x)) as [Hs|Hs]; set (size := rand_of x mod MAX_MEMORY + 1) in *.
  - apply wpe_bind. eapply wpe_mono; [apply (at_alloc _ D _ size HA1 Hs)|]. intros p k2 (Hnew & HA2). apply wpe_bind, wpe_wp, krand_spec. apply wpe_wp.
    apply (allocate_served t k idx p size _ HO Hlt Hm Hr _ D Hnew (pattern_range _)); [by apply at_next | done].
  - apply wpe_bind, wpe_wp. eapply wp_of_eq; [apply (kmalloc_gap_spec size _ Hs)|]. apply wpe_bind, wpe_wp, krand_spec. rewrite Z.eqb_refl. cbn [negb].
    apply wpe_ret. set (b := MkBlock NULL size _). destruct (owned_set (table t) idx b ltac:(lia) Hr) as [Hperm Hin]. rewrite decide_False in Hperm by (cbn; tauto).
    assert (Hnd' : NoDup (owned (<[Z.to_nat idx := b]> (table t))).*1) by (by rewrite Hperm).
    split; [|cbn [tracking set_slot table]; by rewrite Hperm]. split; [cbn; by rewrite length_insert|]. split; [done|]. exists D. cbn [table set_slot].
    rewrite (blocks_of_perm _ _ Hnd' Hperm). split; [by apply at_next|]. intros c Hc Hp. destruct (Hin c Hc) as [->|Hold]; [done | by apply Hd].
Qed.

(** The block of a taken slot holds its pattern; freed, the slot is empty. *)
Lemma heap_slot_listed bs idx : 0 <= idx < Z.of_nat (length bs) -> slot_at bs idx ∈ bs.
Proof. intros Hi. destruct (insert_split (MkBlock 0 0 0) bs (Z.to_nat idx) ltac:(lia)) as (l1 & l2 & E & _). fold (slot_at bs idx) in E. rewrite E at 2. apply elem_of_app. right. left. Qed.

Lemma heap_block_intact bs k idx : heap_table bs k -> 0 <= idx < MAX_BLOCKS -> b_ptr (slot_at bs idx) <> NULL ->
  wp (check_pattern (b_ptr (slot_at bs idx)) (b_size (slot_at bs idx)) (b_pattern (slot_at bs idx))) k (fun r k' => r = true /\ k' = k).
Proof.
  intros (Hl & Hnd & D & HA & Hd) Hi Hn. pose proof (heap_slot_listed bs idx ltac:(lia)) as Hb. pose proof (listed _ _ Hnd Hb Hn) as Hlb.
  destruct (at_mapped _ _ _ _ _ HA Hlb) as (G1 & G2 & G3). apply check_bytes_true; [lia | lia |]. rewrite Z2Nat.id by lia. intros a Ha.
  destruct HA as ([_ _ HD _] & _). apply HD. by apply Hd.
Qed.

Lemma heap_block_freed t k idx : heap_test_ok t k -> 0 <= idx < MAX_BLOCKS -> b_ptr (slot_at (table t) idx) <> NULL ->
  wp (kfree (b_ptr (slot_at (table t) idx))) k (fun _ k' => heap_test_ok (set_tracking (tracking t - 1) (set_slot idx no_block t)) k').
Proof.
  intros ((Hl & Hnd & D & HA & Hd) & Htr) Hi Hn. pose proof (heap_slot_listed (table t) idx ltac:(lia)) as Hb. pose proof (listed _ _ Hnd Hb Hn) as Hlb.
  destruct (owned_clear (table t) idx ltac:(lia) Hn) as [Hperm Hin]. set (b := slot_at (table t) idx) in *. set (bs' := <[Z.to_nat idx := no_block]> (table t)) in *.
  eapply wp_mono; [apply (at_free _ D k _ _ HA Hlb)|]. intros [] k' HA'.
  assert (Hnd' : NoDup (b_ptr b :: (owned bs').*1)) by (by rewrite Hperm in Hnd). apply NoDup_cons in Hnd' as [Hni Hnd'].
  assert (El : delete (b_ptr b) (blocks_of (table t)) = blocks_of bs').
  { rewrite (blocks_of_perm _ _ Hnd Hperm). cbn [list_to_map foldr]. apply delete_insert_id. by apply not_elem_of_list_to_map_1. }
  rewrite El in HA'. split.
  - split; [cbn; by rewrite length_insert|]. split; [done|]. eexists. split; [exact HA'|]. intros c Hc Hp a Ha. specialize (Hin c Hc Hp).
    apply forget_lookup. split; [by apply Hd|]. intros Hr. assert (Hne : b_ptr c <> b_ptr b).
    { intros E. apply Hni. apply list_elem_of_fmap. exists (b_ptr c, b_size c). split; [by rewrite E|]. apply owned_elem. by exists c. }
    pose proof (at_apart _ _ _ _ _ _ _ HA (listed _ _ Hnd Hin Hp) Hlb Hne). unfold apart, range in *. lia.
  - cbn [tracking set_tracking set_slot table]. rewrite Htr, Hperm. cbn [length]. pose proof (owned_length bs') as Hle. unfold bs' in *. rewrite length_insert in Hle.
    unfold MAX_BLOCKS in *. rewrite u32_small; lia.
Qed.

Lemma deallocate_spec t k : heap_test_ok t k -> owned (table t) <> [] -> wp (deallocate t) k (fun t' k' => heap_test_ok t' k').
Proof.
  intros HO Hne. pose proof HO as ((Hl & _) & _). destruct (heap_taken_slot (table t) Hne) as (j & Hj & Hn). rewrite Hl in Hj. unfold deallocate.
  apply wp_bind. eapply wp_mono.
  { apply (draw_until_spec _ j); [unfold MAX_BLOCKS in *; lia|]. rewrite heap_slot_mod by done. by apply negb_true_iff, Z.eqb_neq. }
  intros r k1 (Hr%negb_true_iff%Z.eqb_neq & _ & y & _ & ->). pose proof (Z.mod_pos_bound r MAX_BLOCKS ltac:(done)) as Hm. cbv zeta.
  assert (HO1 : heap_test_ok t (with_next y k)) by (destruct HO; split; [by apply heap_table_next | done]).
  apply wp_bind. eapply wp_mono; [apply (heap_block_intact (table t)); [apply HO1 | done | done]|]. intros ok k1 [-> ->]. cbn [negb when].
  apply wp_bind, wp_ret, wp_bind. eapply wp_mono; [by apply heap_block_freed|]. intros [] k1 HO2. by apply wp_ret.
Qed.

Lemma state_checked t k : heap_test_ok t k -> wp check_state k (fun r k' => r = true /\ k' = k).
Proof. intros ((_ & _ & D & (HI & _) & _) & _). eapply wp_of_eq; [apply check_state_accounted, (hi_sum _ _ _ _ HI) | done]. Qed.

Lemma heap_test_loop_spec n : forall t k, heap_test_ok t k -> wpe out_of_memory (heap_test_loop n t) k (fun r k' => exists t', r = (true, t') /\ heap_test_ok t' k').
Proof.
  induction n as [|n IH]; intros t k HO; cbn [heap_test_loop]; [apply wpe_ret; eauto|]. apply wpe_bind, wpe_wp, krand_spec. set (x := lcg _). cbv zeta.
  assert (HO1 : heap_test_ok t (with_next x k)) by (destruct HO; split; [by apply heap_table_next | done]). pose proof HO as (_ & Htr).
  apply wpe_bind. eapply (wpe_mono _ _ _ heap_test_ok).
  { destruct (Z.leb_spec MAX_BLOCKS (tracking t)) as [Hfull|Hroom]; cbn [Z.eqb].
    - apply wpe_wp, deallocate_spec; [done|]. intros E. rewrite Htr, E in Hfull. unfold MAX_BLOCKS in Hfull. cbn in Hfull. lia.
    - destruct (Z.eqb_spec (tracking t) 0) as [E0|Hne]; cbn [Z.eqb]; [by apply allocate_spec; [|lia]|].
      destruct (Z.land (rand_of x) 1 =? 0); [by apply allocate_spec; [|lia]|]. apply wpe_wp, deallocate_spec; [done|]. intros E. by rewrite Htr, E in Hne. }
  intros t1 k1 HO2. apply wpe_bind. eapply wpe_mono; [apply wpe_wp; by eapply state_checked|]. intros ok k2 [-> ->]. cbn [negb]. by apply IH.
Qed.

Lemma slot_at_insert bs i j b : 0 <= i < Z.of_nat (length bs) -> 0 <= j -> slot_at (<[Z.to_nat i := b]> bs) j = if decide (i = j) then b else slot_at bs j.
Proof.
  intros Hi Hj. unfold slot_at. case_decide as E; [subst j; by rewrite list_lookup_insert_eq by lia|]. by rewrite list_lookup_insert_ne by lia.
Qed.

Lemma free_rest_spec n : forall i t k, heap_test_ok t k -> 0 <= i -> i + Z.of_nat n = MAX_BLOCKS -> (forall j, 0 <= j < i -> b_ptr (slot_at (table t) j) = NULL) ->
  wp (free_rest n i t) k (fun t' k' => heap_test_ok t' k' /\ owned (table t') = []).
Proof.
  induction n as [|n IH]; intros i t k HO Hi Hn Hz; cbn [free_rest]; pose proof HO as ((Hl & _) & _).
  - apply wp_ret. split; [done|]. destruct (owned (table t)) eqn:E; [done|]. exfalso.
    destruct (heap_taken_slot (table t)) as (idx & Hx & Hp); [by rewrite E|]. apply Hp, Hz. lia.
  - destruct (Z.eqb_spec (b_ptr (slot_at (table t) i)) NULL) as [E|Hne]; cbn [negb].
    + eapply IH; [exact HO | lia | lia |]. intros j Hj. destruct (decide (j = i)) as [->|]; [done | apply Hz; lia].
    + apply wp_bind. eapply wp_mono; [apply (heap_block_freed t k i HO); [lia | done]|]. intros [] k1 HO1.
      eapply IH; [exact HO1 | lia | lia |]. intros j Hj. cbn [table set_tracking set_slot]. rewrite slot_at_insert by lia.
      case_decide; [done|]. apply Hz. lia.
Qed.
End test.

(** ** The property *)

Lemma heap_start_text : render (chars ("Starting heap test..." ++ newline)) [] = Some (chars ("Starting heap test..." ++ newline)).
Proof. reflexivity. Qed.
Lemma heap_passed_text : render (chars ("Heap test passed!" ++ newline)) [] = Some (chars ("Heap test passed!" ++ newline)).
Proof. reflexivity. Qed.

Lemma owned_replicate n : owned (replicate n no_block) = [].
Proof. induction n as [|n IH]; [done|]. cbn [replicate]. rewrite owned_cons, decide_False by (cbn; tauto). exact IH. Qed.

Section run.
Context `{BS : BuddySymbols} `{HS : HeapSymbols} `{PA : !PageAllocator pmm_alloc pmm_free get_order_addr}.

(** The table the test starts with. *)
Lemma test_starts f H k : heap_ok H [new_page f] k -> cursor_ok (k_vga k) -> accounted 0 k ->
  heap_test_ok (pages_of H - 1) (mem_used (k_heap k)) (mem_free (k_heap k) - 4044) [new_page f] (k_io k) (MkTest (replicate (Z.to_nat MAX_BLOCKS) no_block) 0) k.
Proof.
  intros HK Hc Ha. unfold heap_test_ok, heap_table. cbn [table tracking]. rewrite owned_replicate. split; [|done].
  split; [by rewrite length_replicate|]. split; [constructor|]. exists ∅. split.
  - unfold blocks_of. rewrite owned_replicate. split; [by eapply inv_start|]. split; [by apply booked_start | done].
  - intros b Hb Hp. apply elem_of_replicate in Hb as [-> _]. done.
Qed.

(** The table is empty: the heap is as it was. *)
Lemma test_ends f H0 k0 io t k : heap_ok H0 [new_page f] k0 -> accounted 0 k0 ->
  heap_test_ok (pages_of H0 - 1) (mem_used (k_heap k0)) (mem_free (k_heap k0) - 4044) [new_page f] io t k -> owned (table t) = [] ->
  check_ini (k_heap k0) (ld32 (k_mem k0) first_var) k = Ok true k /\ k_io k = io /\ cursor_ok (k_vga k) /\
  exists H, heap_ok H [new_page f] k /\ pages_of H = pages_of H0.
Proof.
  intros HK Ha ((_ & _ & D & (HI & HB & Ei) & _) & _) E. unfold blocks_of in *. rewrite E in *. cbn [list_to_map foldr] in *.
  destruct (booked_empty f H0 k0 k HB) as (H & HK' & Ep & Eu & Ef).
  split_and!; [|done | apply (hi_cursor _ _ _ _ HI) | by exists H]. eapply books_checked; try done.
  pose proof (hi_sum _ _ _ _ HI) as Ha'. unfold accounted in Ha, Ha'. rewrite Ha, Ha'.
  by rewrite (pa_used _ _ (hk_pages _ _ _ HK')), (pa_used _ _ (hk_pages _ _ _ HK)), Ep.
Qed.
End run.

(** C12: on a heap of one unused page that is the only user of pages, with its pages above the
    text buffer, the self-test of the heap passes, unless the page allocator runs out of memory
    and panics: every loop that looks for a slot of the table ends, no block loses the pattern
    written to it, the books balance after every step, and in the end the five variables of the
    heap are as they were and the heap is that page again.  Its whole output is the two lines
    of a successful run. *)
Theorem test_heap_passes `{BS : BuddySymbols} `{HS : HeapSymbols} `{PA : !PageAllocator pmm_alloc pmm_free get_order_addr} f H0 t k :
  heap_ok H0 [new_page f] k -> cursor_ok (k_vga k) -> check_state k = Ok true k -> tracking t = 0 ->
  (forall b, vga_fp b -> b < 4096 * pa_low + KERNEL_VIRTUAL_BASE /\ ~ pa_bytes b /\ ~ statics b) ->
  wpe out_of_memory (test_heap t) k (fun t' k' =>
    serial_text (k_io k') = serial_text (k_io k) ++ chars ("Starting heap test..." ++ newline) ++ chars ("Heap test passed!" ++ newline) /\
    owned (table t') = [] /\ exists H, heap_ok H [new_page f] k' /\ pages_of H = pages_of H0).
Proof.
  intros HK Hc Ha%check_state_accounted Ht Hvga.
  assert (Hq : forall H k' b, heap_ok H [new_page f] k' -> heap_fp [new_page f] b \/ unheld H b -> ~ vga_fp b).
  { intros H k' b HK' Hb Hv. destruct (Hvga b Hv) as (V1 & V2 & V3). by apply (low_is_quiet H [new_page f] k' b HK' V1 V2 V3). }
  unfold test_heap. apply wpe_bind. eapply wpe_mono; [apply wpe_wp, (kprintf_prints _ [] _ heap_start_text), Hc|].
  intros r1 k1' (_ & m1 & io1 & v1 & -> & Um & Ht1 & Hc1). apply wpe_bind, wpe_wp. unfold ksrand, set_next. apply wp_modify.
  set (k1 := set_vga v1 (set_io io1 (set_mem m1 k))). match goal with |- wpe _ _ ?x _ => change x with (with_next (u32 SEED) k1) end. set (k2 := with_next (u32 SEED) k1).
  assert (HK2 : heap_ok H0 [new_page f] k2) by (apply (heap_ok_frame H0 [new_page f] k); [done | done | done |]; intros b Hb; apply Um; by apply (Hq H0 k)).
  apply wpe_bind, wpe_wp, wp_gets. destruct (hk_state _ _ _ HK) as [bl HT]. pose proof (ht_statics _ _ _ _ HT) as (_ & _ & S3 & S4 & _).
  apply wpe_bind. eapply wpe_access; [lia | lia | reflexivity | cbv beta]. rewrite Ht.
  pose proof (test_starts f H0 k2 HK2 Hc1 Ha) as HO. apply wpe_bind. eapply wpe_mono; [by eapply heap_test_loop_spec|]. intros r2 k3 (t3 & -> & HO3). cbn [fst snd negb].
  apply wpe_bind. eapply wpe_mono; [apply wpe_wp, (free_rest_spec _ _ _ _ _ _ 0 t3 k3 HO3); [lia | done | intros; lia]|]. intros t4 k4 (HO4 & E4).
  destruct (test_ends f H0 k2 (k_io k2) t4 k4 HK2 Ha HO4 E4) as (Ei & Eio & Hc4 & H4 & HK4 & Ep).
  apply wpe_bind, wpe_wp. eapply wp_of_eq; [exact Ei|]. destruct HO4 as [_ Htr]. rewrite Htr, E4. cbn [length Z.of_nat Z.eqb andb when].
  apply wpe_bind, wpe_bind. eapply wpe_mono; [apply wpe_wp, (kprintf_prints _ [] _ heap_passed_text), Hc4|].
  intros r5 k5 (_ & m5 & io5 & v5 & -> & Um5 & Ht5 & Hc5). apply wpe_ret, wpe_ret. split_and!.
  - cbn [k_io set_vga set_io]. rewrite Ht5, Eio. cbn [k_io set_vga set_io k2 with_next set_devs k1]. by rewrite Ht1, <- app_assoc.
  - exact E4.
  - exists H4. split; [|done]. apply (heap_ok_frame H4 [new_page f] k4); [done | done | done |]. intros b Hb. apply Um5. by apply (Hq H4 k4).
Qed.

(** ** On a concrete machine *)

#[local] Existing Instance sample_symbols.
#[local] Existing Instance user_heap.
#[local] Instance test_pages : PageAllocator pmm_alloc pmm_free get_order_addr :=
  buddy_page_allocator 0xC0130000 1024 1024 717 307 (boot_geometry _ _ _ _ _ test_boot_state) ltac:(lia) ltac:(lia)
    ltac:(unfold bfp, range, sizeof_Page, KERNEL_VIRTUAL_BASE; cbn [free_area sample_symbols]; lia).

Lemma test_machine_blank : last_chunk (k_heap test_machine) = 0 /\ ld32 (k_mem test_machine) 0xC0001100 = 0 /\
  forallb (fun o => ld32 (k_mem test_machine) (0xC0001000 + 4 * o) =? 0) (seqZ 0 9) = true /\
  k_heap test_machine = MkHeap 0 0 0 0 /\ is_ok (init_kmalloc test_machine) = true.
Proof. vm_compute. split_and!; reflexivity. Qed.

#[local] Opaque test_machine.

Lemma test_machine_heap : heap_ok [] [] test_machine.
Proof.
  destruct test_machine_blank as (E1 & E2 & E3 & _). apply heap_blank.
  - destruct test_machine_ready as (s & HR). exact (ready_owned _ _ _ _ _ _ HR).
  - unfold statics_ok, apart, KERNEL_VIRTUAL_BASE. cbn. lia.
  - unfold statics, range, KERNEL_VIRTUAL_BASE. cbn. unfold bfp, range, sizeof_Page. cbn. lia.
  - exact E1.
  - exact E2.
  - intros o Ho. revert E3. generalize (k_mem test_machine). intros m E3. rewrite forallb_forall in E3.
    apply Z.eqb_eq, E3. apply list_elem_of_In, elem_of_seqZ. lia.
Qed.

Lemma test_heap_passes_witness : exists k, init_kmalloc test_machine = Ok tt k /\
  wpe out_of_memory (test_heap (MkTest [] 0)) k (fun t' k' =>
    serial_text (k_io k') = serial_text (k_io k) ++ chars ("Starting heap test..." ++ newline) ++ chars ("Heap test passed!" ++ newline)).
Proof.
  destruct test_machine_blank as (_ & _ & _ & E4 & E6). destruct (is_ok_run _ E6) as ([] & k & E). exists k. split; [exact E|].
  destruct (wpe_run _ _ _ _ _ _ (init_kmalloc_spec [] test_machine test_machine_heap test_machine_vga) E) as (i & HK & _ & Eh & Hcall & _).
  eapply wpe_mono; [apply (test_heap_passes (P2V (4096 * i)) [(i, 0)] (MkTest [] 0) k HK)|].
  - eapply heap_call_cursor; [exact Hcall | exact test_machine_vga].
  - apply check_state_accounted. unfold accounted. rewrite (pa_used _ _ (hk_pages _ _ _ HK)), Eh, E4. reflexivity.
  - reflexivity.
  - intros b Hb. unfold vga_fp, statics, range, VGA_MEMORY, columns, rows, KERNEL_VIRTUAL_BASE in *. cbn. unfold bfp, range, sizeof_Page. cbn. lia.
  - intros t' k' (Es & _). exact Es.
Defined.
