(* ===== verification/BuddyTest.v ===== *)
(** * The self-test of the page allocator: src/mm/buddy/test_buddy.c — the code

    The test allocates and frees blocks at random, fills each block with a pattern,
    and after every step checks the page map, the free lists, the blocks it holds
    and the counters against each other.  The static variables of the test are in
    [buddy_test]; the loops that look for a slot of the table draw random numbers
    until one suits. *)

From Stdlib Require Import ZArith Lia Bool.
From stdpp Require Import base list gmap strings.
From S2P Require Import Prelude Machine StringLib Console Node Bump Buddy Devices Random.

Definition SEED : Z := 9834.
Definition MAX_BLOCKS : Z := 500.
Definition ITERATIONS : Z := 1000.

(** The static variables. *)
Record Block := MkBlock { b_ptr : Z; b_order : Z; b_pattern : Z }.
Record buddy_test := MkTest { blocks : list Block; init_state : list Z; total_allocations : Z }.

Definition set_blocks (bs : list Block) (t : buddy_test) : buddy_test := MkTest bs (init_state t) (total_allocations t).
Definition set_total (n : Z) (t : buddy_test) : buddy_test := MkTest (blocks t) (init_state t) (u32 n).

(** [blocks[idx]]. *)
Definition block_at (bs : list Block) (idx : Z) : Block := default (MkBlock 0 0 0) (bs !! Z.to_nat idx).
Definition set_block (idx : Z) (b : Block) (bs : list Block) : list Block := <[Z.to_nat idx := b]> bs.
Definition forget_block (idx : Z) (bs : list Block) : list Block :=
  set_block idx (MkBlock 0 (b_order (block_at bs idx)) (b_pattern (block_at bs idx))) bs.

(** [for (i = start; n times; i++) if (!body(i)) return false; return true] *)
Fixpoint all_up (n : nat) (i : Z) (body : Z -> M bool) : M bool :=
  match n with
  | O => mret true
  | S n => ok ← body i; if (ok : bool) then all_up n (i + 1) body else mret false
  end.

(** ** The patterns *)

Definition fill_pattern (ptr order pattern : Z) : M unit :=
  for_up (Z.to_nat (Z.shiftl 1 order)) 0 (fun i =>
    let p := ptr ⊞ i * 0x1000 in
    for_up (Z.to_nat 0x1000) 0 (fun j => store8 (p + j) pattern)).

Definition check_pattern (ptr order pattern : Z) : M bool :=
  all_up (Z.to_nat (Z.shiftl 1 order)) 0 (fun i =>
    let p := ptr ⊞ i * 0x1000 in
    all_up (Z.to_nat 0x1000) 0 (fun j => b ← load8 (p + j); mret (b =? pattern))).

(** ** The checks *)

Section code.
Context `{BS : BuddySymbols}.

Definition check_state (page order flag : Z) : M bool :=
  o ← load8 (page_order page);
  f ← load8 (page_flags page);
  if negb (f =? flag) || negb (o =? order) then mret false
  else all_up (Z.to_nat (Z.shiftl 1 o - 1)) 1 (fun i => g ← load8 (page_flags (page + sizeof_Page * i)); mret (g =? P_TAIL)).

Definition check_tails (pm i pages : Z) : M bool :=
  all_up (Z.to_nat (pages - 1)) 1 (fun j =>
    f ← load8 (page_flags (page_at pm (i ⊞ j)));
    if f =? P_TAIL then mret true
    else kprintf ("Page %u: Tail check failed" ++ newline) [A32 (i ⊞ j)];; mret false).

(** The counts of free and used pages, unless a check failed. *)
Fixpoint check_map_loop (fuel : nat) (i free_count used_count : Z) : M (option (Z * Z)) :=
  match fuel with
  | O => stop_with OutOfFuel
  | S fuel =>
      b ← gets k_buddy;
      if i <? page_n b then
        let pm := page_map b in
        f ← load8 (page_flags (page_at pm i));
        if f =? P_KERNEL then check_map_loop fuel (i ⊞ 1) free_count used_count
        else if f =? P_FREE then
          o ← load8 (page_order (page_at pm i));
          let pages := Z.shiftl 1 o in
          ok ← check_tails pm i pages;
          if (ok : bool) then check_map_loop fuel (i ⊞ (pages - 1) ⊞ 1) (free_count ⊞ pages) used_count else mret None
        else if f =? P_USED then
          o ← load8 (page_order (page_at pm i));
          let pages := Z.shiftl 1 o in
          ok ← check_tails pm i pages;
          if (ok : bool) then check_map_loop fuel (i ⊞ (pages - 1) ⊞ 1) free_count (used_count ⊞ pages) else mret None
        else check_map_loop fuel (i ⊞ 1) free_count used_count
      else mret (Some (free_count, used_count))
  end.

(** A turn for every page and one more. *)
Definition check_map : M (option (Z * Z)) :=
  n ← gets (fun k => page_n (k_buddy k)); check_map_loop (S (Z.to_nat n)) 0 0 0.

(** A free block of order [i] whose buddy is free too. *)
Definition buddy_free (i cur : Z) : M bool :=
  if i <? MAX_BUDDY_ORDER then
    pm ← get_page_map;
    let idx := page_map_index pm cur in
    buddy_idx ← buddy_index pm idx;
    n ← gets (fun k => page_n (k_buddy k));
    if buddy_idx <? n then
      f ← load8 (page_flags (page_at pm buddy_idx));
      o ← load8 (page_order (page_at pm buddy_idx));
      if (f =? P_FREE) && (o =? i) then
        kprintf ("Free area order %u: Buddy check failed for page %u and buddy %u" ++ newline) [A32 i; A32 idx; A32 buddy_idx];; mret true
      else mret false
    else mret false
  else mret false.

(** Says what is wrong with a block; for use in a debugger. *)
Definition debug_check (page order flag : Z) : M unit :=
  o ← load8 (page_order page);
  f ← load8 (page_flags page);
  if negb (f =? flag) || negb (o =? order) then
    kprintf ("Failed cause flag or order mismatch, flags %d == %d, order %d == %d" ++ newline) [A32 f; A32 flag; A32 o; A32 order];; skip
  else
    pm ← get_page_map;
    all_up (Z.to_nat (Z.shiftl 1 o - 1)) 1 (fun i =>
      g ← load8 (page_flags (page + sizeof_Page * i));
      if g =? P_TAIL then mret true
      else kprintf ("Failed cause tail check failed at page %u" ++ newline) [A32 (page_map_index pm page + i)];; mret false);;
    skip.

(** [while (cur)]; a list is not longer than there are pages. *)
Fixpoint check_area (fuel : nat) (i cur count : Z) : M (option Z) :=
  match fuel with
  | O => stop_with OutOfFuel
  | S fuel =>
      if cur =? NULL then mret (Some count)
      else
        ok ← check_state cur i P_FREE;
        if negb ok then kprintf ("Free area order %u: State check failed" ++ newline) [A32 i];; mret None
        else
          clash ← buddy_free i cur;
          if (clash : bool) then mret None
          else next ← load32 (node_next cur); check_area fuel i next (count ⊞ Z.shiftl 1 i)
  end.

Fixpoint check_areas (n : nat) (i count : Z) : M (option Z) :=
  match n with
  | O => mret (Some count)
  | S n =>
      cur ← load32 (free_area_at i);
      pages ← gets (fun k => page_n (k_buddy k));
      r ← check_area (S (Z.to_nat pages)) i cur count;
      match r with Some count => check_areas n (i + 1) count | None => mret None end
  end.

Definition check_free_areas : M (option Z) := check_areas (Z.to_nat (MAX_BUDDY_ORDER + 1)) 0 0.

Fixpoint check_blocks (bs : list Block) (i count : Z) : M (option Z) :=
  match bs with
  | [] => mret (Some count)
  | b :: bs =>
      if b_ptr b =? NULL then check_blocks bs (i + 1) count
      else
        pm ← get_page_map;
        ok ← check_state (page_at pm (real_page_index (V2P (b_ptr b)))) (b_order b) P_USED;
        if (ok : bool) then check_blocks bs (i + 1) (count ⊞ Z.shiftl 1 (b_order b))
        else kprintf ("Block %d: State check failed" ++ newline) [A32 i];; mret None
  end.

Definition check_allocations (bs : list Block) : M (option Z) := check_blocks bs 0 0.

(** [if (x != y) { kprintf(...); return false; }] *)
Definition same_count (msg : string) (x y : Z) (rest : M bool) : M bool :=
  if negb (x =? y) then kprintf (msg ++ newline) [A32 x; A32 y];; mret false else rest.

Definition check (bs : list Block) : M bool :=
  m ← check_map;
  match m with
  | None => kprintf ("Map check failed" ++ newline) [];; mret false
  | Some (free_count, used_count) =>
      a ← check_free_areas;
      match a with
      | None => kprintf ("Free area check failed" ++ newline) [];; mret false
      | Some free_area_count =>
          e ← check_allocations bs;
          match e with
          | None => kprintf ("Allocation check failed" ++ newline) [];; mret false
          | Some expected_used_count =>
              b ← gets k_buddy;
              same_count "Free count mismatch: map %u, free areas %u" free_count free_area_count (
              same_count "Used count mismatch: map %u, allocations %u" used_count expected_used_count (
              same_count "Free count mismatch: map %u, global count %u" free_count (free_pages_count b) (
              same_count "Used count mismatch: map %u, global count %u" used_count (used_pages_count b) (
              same_count "Free area count mismatch: free areas %u, global count %u" free_area_count (free_pages_count b) (
              same_count "Used count mismatch: allocations %u, global count %u" expected_used_count (used_pages_count b) (mret true))))))
          end
      end
  end.

(** ** The test *)

(** [for (cur = free_area[i]; cur; cur = cur->node.next) len++] *)
Fixpoint area_len (fuel : nat) (cur len : Z) : M Z :=
  match fuel with
  | O => stop_with OutOfFuel
  | S fuel => if cur =? NULL then mret len else next ← load32 (node_next cur); area_len fuel next (len + 1)
  end.

Definition length_of_area (i : Z) : M Z :=
  cur ← load32 (free_area_at i);
  pages ← gets (fun k => page_n (k_buddy k));
  area_len (S (Z.to_nat pages)) cur 0.

Definition print_all_len : M unit :=
  for_up (Z.to_nat (MAX_BUDDY_ORDER + 1)) 0 (fun i =>
    count ← length_of_area i; kprintf ("Free area order %d: %d blocks" ++ newline) [A32 i; A32 count];; skip).

Definition print_status : M unit :=
  b ← gets k_buddy; kprintf ("Free pages: %u, Used pages: %u" ++ newline) [A32 (free_pages_count b); A32 (used_pages_count b)];; skip.

Definition verify_final_state (init : list Z) : M bool :=
  all_up (Z.to_nat (MAX_BUDDY_ORDER + 1)) 0 (fun i =>
    len ← length_of_area i;
    if nth (Z.to_nat i) init 0 =? len then mret true else kprintf ("State Not Matching" ++ newline) [];; mret false).

(** A block of the given order, filled. *)
Definition alloc_block (order pattern : Z) : M (option Block) :=
  page ← buddy_alloc_pages order;
  let ptr := P2V page in
  if ptr =? NULL then kprintf ("failed" ++ newline) [];; mret None
  else fill_pattern ptr order (u8 pattern);; mret (Some (MkBlock ptr order (u8 pattern))).

Definition do_alloc (bs : list Block) : M (list Block) :=
  r ← krand; let order := r mod (MAX_BUDDY_ORDER + 1) in
  p ← krand; let pattern := p mod 256 in
  o ← alloc_block order pattern;
  match o with
  | None => mret bs
  | Some b =>
      i ← draw_until (fun r => b_ptr (block_at bs (r mod MAX_BLOCKS)) =? NULL);
      mret (set_block (i mod MAX_BLOCKS) b bs)
  end.

(** Whether it worked, and the table. *)
Definition release (idx : Z) (bs : list Block) : M (bool * list Block) :=
  let block := block_at bs idx in
  ok ← check_pattern (b_ptr block) (b_order block) (b_pattern block);
  if negb ok then kprintf ("Memory corruption" ++ newline) [];; mret (false, bs)
  else buddy_free_pages (V2P (b_ptr block));; mret (true, forget_block idx bs).

Definition do_free (bs : list Block) : M (bool * list Block) :=
  i ← draw_until (fun r => negb (b_ptr (block_at bs (r mod MAX_BLOCKS)) =? NULL));
  release (i mod MAX_BLOCKS) bs.

Definition do_random_op (t : buddy_test) : M buddy_test :=
  r ← krand;
  let alloc := negb (r mod 2 =? 0) in
  let alloc := if MAX_BLOCKS <=? total_allocations t then false else alloc in
  let alloc := if total_allocations t =? 0 then true else alloc in
  free ← gets (fun k => free_pages_count (k_buddy k));
  let alloc := if free =? 0 then false else alloc in
  if (alloc : bool) then
    bs ← do_alloc (blocks t);
    mret (set_total (total_allocations t + 1) (set_blocks bs t))
  else
    r ← do_free (blocks t);
    when (negb (fst r)) (kprintf ("Free operation failed" ++ newline) [];; skip);;
    mret (set_total (total_allocations t - 1) (set_blocks (snd r) t)).

Definition do_path_op (i op idx order : Z) (bs : list Block) : M (list Block) :=
  let finish bs :=
    ok ← check bs;
    when (negb ok) (kprintf ("%d : State check failed after operation %d on block %d" ++ newline) [A32 i; A32 op; A32 idx];; skip);;
    mret bs in
  if op =? 1 then
    p ← krand;
    o ← alloc_block order (p mod 256);
    match o with None => mret bs | Some b => finish (set_block idx b bs) end
  else
    r ← release idx bs;
    if (fst r : bool) then finish (snd r) else mret bs.

Fixpoint free_blocks (n : nat) (i : Z) (bs : list Block) : M (list Block) :=
  match n with
  | O => mret bs
  | S n =>
      let b := block_at bs i in
      if b_ptr b =? NULL then free_blocks n (i + 1) bs
      else
        ok ← check_pattern (b_ptr b) (b_order b) (b_pattern b);
        if negb ok then kprintf ("Memory corruption in block %d" ++ newline) [A32 i];; free_blocks n (i + 1) bs
        else buddy_free_pages (V2P (b_ptr b));; free_blocks n (i + 1) (forget_block i bs)
  end.

Definition free_all_allocation (bs : list Block) : M (list Block) := free_blocks (Z.to_nat MAX_BLOCKS) 0 bs.

Fixpoint area_lengths (n : nat) (i : Z) : M (list Z) :=
  match n with
  | O => mret []
  | S n => len ← length_of_area i; l ← area_lengths n (i + 1); mret (len :: l)
  end.

(** The iterations of the test, and whether it went through them. *)
Fixpoint test_loop (n : nat) (i : Z) (t : buddy_test) : M (bool * buddy_test) :=
  match n with
  | O => mret (true, t)
  | S n =>
      t ← do_random_op t;
      fine ← (if total_allocations t =? 0 then verify_final_state (init_state t) else mret true);
      if negb fine then kprintf ("Final state verification failed at iteration %d" ++ newline) [A32 i];; mret (false, t)
      else
        ok ← check (blocks t);
        if negb ok then kprintf ("State check failed at iteration %d" ++ newline) [A32 i];; mret (false, t)
        else test_loop n (i + 1) t
  end.

Definition test_buddy (t : buddy_test) : M buddy_test :=
  kprintf ("Starting buddy test..." ++ newline) [];;
  ksrand SEED;;
  let bs := (fun b => MkBlock 0 (b_order b) (b_pattern b)) <$> blocks t in
  init ← area_lengths (Z.to_nat (MAX_BUDDY_ORDER + 1)) 0;
  r ← test_loop (Z.to_nat ITERATIONS) 0 (MkTest bs init (total_allocations t));
  let t := snd r in
  if negb (fst r) then mret t
  else
    bs ← free_all_allocation (blocks t);
    ok ← verify_final_state (init_state t);
    when ok (kprintf ("Buddy test passed successfully!" ++ newline) [];; skip);;
    mret (set_blocks bs t).
End code.
