(* ===== verification/BuddyCheck.v ===== *)
(** * The checks of the self-test pass

    In every state the page allocator can be in, [check] of
    src/mm/buddy/test_buddy.c finds the page map, the free lists, the blocks held
    and the counters in agreement, and prints nothing. *)

From Stdlib Require Import ZArith Lia Bool.
From stdpp Require Import base list gmap strings.
From S2P Require Import Prelude Machine StringLib Console Node Bump Buddy BuddyModel BuddyRefine BuddyInit Pmm Devices Random BuddyTest.

(** [m] gives [v] and changes nothing. *)
Definition gives_value {A} (m : M A) (k : kernel) (v : A) : Prop := wp m k (fun r k' => r = v /\ k' = k).

Lemma gives_value_bind {A B} (m : M A) (f : A -> M B) k v w :
  gives_value m k v -> gives_value (f v) k w -> gives_value (m ≫= f) k w.
Proof. intros Hm Hf. apply wp_bind. eapply wp_mono; [exact Hm|]. by intros r k' [-> ->]. Qed.

Lemma gives_value_ret {A} (v : A) k : gives_value (mret v) k v.
Proof. by apply wp_ret. Qed.

Lemma gives_value_gets {A} (f : kernel -> A) k : gives_value (gets f) k (f k).
Proof. by apply wp_gets. Qed.

Lemma all_up_true n : forall i body k,
  (forall j, i <= j < i + Z.of_nat n -> gives_value (body j) k true) -> gives_value (all_up n i body) k true.
Proof.
  induction n as [|n IH]; intros i body k Hb; cbn [all_up]; [apply gives_value_ret|].
  eapply gives_value_bind; [apply Hb; lia|]. apply IH. intros j Hj. apply Hb. lia.
Qed.

(** ** Sums over the pages *)

Definition sum_of (g : Z -> Z) (l : list Z) : Z := foldr Z.add 0 (g <$> l).

Lemma sum_of_cons g a l : sum_of g (a :: l) = g a + sum_of g l.
Proof. done. Qed.

Lemma sum_of_app g l1 l2 : sum_of g (l1 ++ l2) = sum_of g l1 + sum_of g l2.
Proof. induction l1 as [|a l1 IH]; [done|]. rewrite <- app_comm_cons, !sum_of_cons. lia. Qed.

Lemma sum_of_perm g l1 l2 : l1 ≡ₚ l2 -> sum_of g l1 = sum_of g l2.
Proof. induction 1; rewrite ?sum_of_cons; lia. Qed.

Lemma sum_of_ext g h l : (forall i, i ∈ l -> g i = h i) -> sum_of g l = sum_of h l.
Proof.
  induction l as [|a l IH]; intros Hx; [done|]. rewrite !sum_of_cons, (Hx a) by left. f_equal. apply IH. intros i Hi. apply Hx. by right.
Qed.

Lemma sum_of_const c l : sum_of (fun _ => c) l = c * Z.of_nat (length l).
Proof. induction l as [|a l IH]; [cbn; lia|]. rewrite sum_of_cons, IH. cbn [length]. lia. Qed.

Lemma sum_of_zero g l : (forall i, i ∈ l -> g i = 0) -> sum_of g l = 0.
Proof. intros Hz. by rewrite (sum_of_ext g (fun _ => 0) l Hz), sum_of_const. Qed.

(** The sum of those that satisfy [P]. *)
Lemma sum_of_filter (P : Z -> Prop) `{!forall i, Decision (P i)} g l :
  sum_of (fun i => if decide (P i) then g i else 0) l = sum_of g (filter P l).
Proof. induction l as [|a l IH]; [done|]. rewrite sum_of_cons, IH, filter_cons. by case_decide. Qed.

Lemma sum_of_plus g h l : sum_of (fun i => g i + h i) l = sum_of g l + sum_of h l.
Proof. induction l as [|a l IH]; [done|]. rewrite !sum_of_cons. lia. Qed.

Lemma sum_of_swap (h : Z -> Z -> Z) os l :
  sum_of (fun i => sum_of (fun o => h o i) os) l = sum_of (fun o => sum_of (h o) l) os.
Proof.
  induction l as [|a l IH]; [symmetry; by apply sum_of_zero|]. rewrite sum_of_cons, IH, <- sum_of_plus. done.
Qed.

(** ** The checks *)

(** What the table of the test says it holds. *)
Definition held_of (bs : list Block) : list block :=
  (fun b => (real_page_index (V2P (b_ptr b)), b_order b)) <$> filter (fun b => b_ptr b <> NULL) bs.

Section checks.
Context `{BuddySymbols} (pm N NG T : Z) (HG : geometry pm N NG) (k : kernel) (s : bst).
Context (HS : pmm_state pm N NG T k s) (HN : page_n (k_buddy k) = N).
Let HR : brep pm NG k s := ps_rep _ _ _ _ _ _ HS.
Let HI : Inv N (-1) s := ps_inv _ _ _ _ _ _ HS.

Ltac geo := pose proof (g_pm _ _ _ HG) as [? ?]; pose proof (g_n _ _ _ HG); pose proof (g_count _ _ _ HG);
  pose proof (g_area _ _ _ HG) as [? ?]; unfold page_order, page_flags, page_at, sizeof_Page, orders, MAX_BUDDY_ORDER, KERNEL_VIRTUAL_BASE in *.

Lemma flags_value i : 0 <= i < NG -> gives_value (load8 (page_flags (page_at pm i))) k (flg s i).
Proof. intros Hi. by eapply (wp_load_flags pm N NG HG). Qed.

Lemma order_value i : 0 <= i < NG -> gives_value (load8 (page_order (page_at pm i))) k (ord s i).
Proof. intros Hi. by eapply (wp_load_order pm N NG HG). Qed.

Lemma check_state_true i : 0 <= i < N -> head s i -> gives_value (check_state (page_at pm i) (ord s i) (flg s i)) k true.
Proof.
  intros Hi Hh. destruct (inv_block _ _ _ HI i Hi Hh) as (B1 & B2 & B3 & B4 & B5). pose proof (g_n _ _ _ HG). pose proof (pow2_pos (ord s i) ltac:(lia)).
  unfold check_state. eapply gives_value_bind; [apply order_value; lia|]. eapply gives_value_bind; [apply flags_value; lia|].
  rewrite !Z.eqb_refl. cbn [negb orb]. apply all_up_true. rewrite Z.shiftl_1_l. intros j Hj. rewrite Z2Nat.id in Hj by lia.
  replace (page_at pm i + sizeof_Page * j) with (page_at pm (i + j)) by (unfold page_at; lia).
  eapply gives_value_bind; [apply flags_value; lia|]. rewrite B5 by lia. apply gives_value_ret.
Qed.

Lemma check_tails_true i : 0 <= i < N -> head s i -> gives_value (check_tails pm i (2 ^ ord s i)) k true.
Proof.
  intros Hi Hh. destruct (inv_block _ _ _ HI i Hi Hh) as (B1 & B2 & B3 & B4 & B5). pose proof (g_n _ _ _ HG). pose proof (g_count _ _ _ HG). pose proof (pow2_pos (ord s i) ltac:(lia)).
  unfold check_tails. apply all_up_true. intros j Hj. rewrite Z2Nat.id in Hj by lia. rewrite u32_small by lia.
  eapply gives_value_bind; [apply flags_value; lia|]. rewrite B5 by lia. apply gives_value_ret.
Qed.

(** The pages of the blocks flagged [f] whose heads are in [l]. *)
Definition pages_flagged (f : Z) (l : list Z) : Z := sum_of (fun i => if decide (flg s i = f) then 2 ^ ord s i else 0) l.

Lemma pages_flagged_step f i n : 0 <= i < N -> head s i -> 0 <= n -> 2 ^ ord s i <= n -> i + n <= N ->
  (f = P_FREE \/ f = P_USED) ->
  pages_flagged f (seqZ i n) = (if decide (flg s i = f) then 2 ^ ord s i else 0) + pages_flagged f (seqZ (i + 2 ^ ord s i) (n - 2 ^ ord s i)).
Proof.
  intros Hi Hh Hn Hle HnN Hf. destruct (inv_block _ _ _ HI i Hi Hh) as (B1 & B2 & B3 & B4 & B5). pose proof (pow2_pos (ord s i) ltac:(lia)).
  rewrite (seqZ_cons i n) by lia. unfold pages_flagged. rewrite sum_of_cons. f_equal.
  replace (Z.pred n) with ((2 ^ ord s i - 1) + (n - 2 ^ ord s i)) by lia. rewrite seqZ_app, sum_of_app by lia.
  rewrite (sum_of_zero _ (seqZ (Z.succ i) (2 ^ ord s i - 1))).
  - by replace (Z.succ i + (2 ^ ord s i - 1)) with (i + 2 ^ ord s i) by lia.
  - intros j Hj%elem_of_seqZ. rewrite B5 by lia. rewrite decide_False; [done|]. unfold P_TAIL, P_FREE, P_USED in *. lia.
Qed.

Lemma other_page f i n : 0 < n -> flg s i <> f -> pages_flagged f (seqZ i n) = pages_flagged f (seqZ (i + 1) (n - 1)).
Proof.
  intros Hn Hf. rewrite (seqZ_cons i n) by done. unfold pages_flagged. rewrite sum_of_cons, decide_False by done.
  by rewrite Z.add_0_l.
Qed.

Lemma u32_add_u32 a b : u32 (u32 a + b) = u32 (a + b).
Proof. unfold u32. by rewrite Zplus_mod_idemp_l. Qed.

Lemma check_map_loop_value fuel : forall i a c, 0 <= i <= N -> N - i < Z.of_nat fuel ->
  gives_value (check_map_loop fuel i (u32 a) (u32 c)) k
    (Some (u32 (a + pages_flagged P_FREE (seqZ i (N - i))), u32 (c + pages_flagged P_USED (seqZ i (N - i))))).
Proof.
  pose proof (g_n _ _ _ HG) as Hn. pose proof (g_count _ _ _ HG) as Hc.
  induction fuel as [|fuel IH]; intros i a c Hi Hfu; [lia|]. cbn [check_map_loop].
  eapply gives_value_bind; [apply gives_value_gets|]. rewrite HN, (br_pm _ _ _ _ HR). destruct (Z.ltb_spec i N) as [Hlt|Hge].
  2: { replace (N - i) with 0 by lia. cbn. rewrite !Z.add_0_r. apply gives_value_ret. }
  assert (Hstep : flg s i <> P_FREE -> flg s i <> P_USED -> gives_value (check_map_loop fuel (i ⊞ 1) (u32 a) (u32 c)) k
    (Some (u32 (a + pages_flagged P_FREE (seqZ i (N - i))), u32 (c + pages_flagged P_USED (seqZ i (N - i)))))).
  { intros H1 H2. rewrite u32_small by lia. rewrite (other_page P_FREE i), (other_page P_USED i) by (done || lia).
    replace (N - i - 1) with (N - (i + 1)) by lia. apply IH; lia. }
  assert (Hhead : forall F U, head s i -> F (2 ^ ord s i) = u32 (a + if decide (flg s i = P_FREE) then 2 ^ ord s i else 0) ->
    U (2 ^ ord s i) = u32 (c + if decide (flg s i = P_USED) then 2 ^ ord s i else 0) ->
    gives_value (o ← load8 (page_order (page_at pm i)); let pages := Z.shiftl 1 o in ok ← check_tails pm i pages;
      if (ok : bool) then check_map_loop fuel (i ⊞ (pages - 1) ⊞ 1) (F pages) (U pages) else mret None) k
    (Some (u32 (a + pages_flagged P_FREE (seqZ i (N - i))), u32 (c + pages_flagged P_USED (seqZ i (N - i)))))).
  { intros F U Hh EF EU. destruct (inv_block _ _ _ HI i ltac:(lia) Hh) as (B1 & B2 & B3 & _). pose proof (pow2_pos (ord s i) ltac:(lia)).
    eapply gives_value_bind; [apply order_value; lia|]. rewrite Z.shiftl_1_l. eapply gives_value_bind; [apply check_tails_true; [lia | done]|].
    rewrite EF, EU, (pages_flagged_step P_FREE), (pages_flagged_step P_USED), !Z.add_assoc by (done || lia || auto).
    rewrite (u32_small (i + _)) by lia. rewrite (u32_small (_ + 1)) by lia. replace (i + (2 ^ ord s i - 1) + 1) with (i + 2 ^ ord s i) by lia.
    replace (N - i - 2 ^ ord s i) with (N - (i + 2 ^ ord s i)) by lia. apply IH; lia. }
  eapply gives_value_bind; [apply flags_value; lia|].
  destruct (Z.eqb_spec (flg s i) P_KERNEL) as [E|Hk]; [apply Hstep; unfold P_KERNEL, P_FREE, P_USED in *; lia|].
  destruct (Z.eqb_spec (flg s i) P_FREE) as [Ef|Hf]; [|destruct (Z.eqb_spec (flg s i) P_USED) as [Eu|Hu]; [|by apply Hstep]].
  - apply (Hhead (fun p => u32 a ⊞ p) (fun _ => u32 c)); [by left | by rewrite u32_add_u32, decide_True |].
    rewrite decide_False by (unfold P_USED, P_FREE in *; lia). by rewrite Z.add_0_r.
  - apply (Hhead (fun _ => u32 a) (fun p => u32 c ⊞ p)); [by right | by rewrite decide_False, Z.add_0_r | by rewrite u32_add_u32, decide_True].
Qed.

(** ** The sums *)

(** Among the orders, exactly one is that of a free page. *)
Lemma order_sum i : 0 <= i < N -> flg s i = P_FREE ->
  2 ^ ord s i = sum_of (fun o => if decide (ord s i = o) then 2 ^ o else 0) (seqZ 0 11).
Proof.
  intros Hi Hf. destruct (inv_block _ _ _ HI i Hi ltac:(by left)) as (B1 & _). unfold orders, MAX_BUDDY_ORDER in B1.
  change (seqZ 0 11) with [0; 1; 2; 3; 4; 5; 6; 7; 8; 9; 10]. rewrite !sum_of_cons. change (sum_of _ []) with 0.
  assert (Hc : ord s i ∈ [0; 1; 2; 3; 4; 5; 6; 7; 8; 9; 10]) by (change [0; 1; 2; 3; 4; 5; 6; 7; 8; 9; 10] with (seqZ 0 11); apply elem_of_seqZ; lia).
  rewrite !elem_of_cons, elem_of_nil in Hc. destruct_or! Hc; try contradiction; rewrite Hc; reflexivity.
Qed.

Lemma listed_perm o : 0 <= o <= orders -> filter (fun i => flg s i = P_FREE /\ ord s i = o) (seqZ 0 N) ≡ₚ fl s o.
Proof.
  intros Ho. apply NoDup_Permutation; [apply NoDup_filter, NoDup_seqZ | by apply (inv_nodup _ _ _ HI)|].
  intros i. rewrite list_elem_of_filter, elem_of_seqZ, (inv_listed _ _ _ HI o i Ho). split; [intros ([? ?] & ?) | intros (? & ? & ? & _)]; split_and!; try done; lia.
Qed.

Lemma free_sum : pages_flagged P_FREE (seqZ 0 N) = free_total s.
Proof.
  unfold pages_flagged.
  rewrite (sum_of_ext _ (fun i => sum_of (fun o => if decide (flg s i = P_FREE /\ ord s i = o) then 2 ^ o else 0) (seqZ 0 11))).
  - rewrite (sum_of_swap (fun o i => if decide (flg s i = P_FREE /\ ord s i = o) then 2 ^ o else 0)). unfold free_total.
    fold (sum_of (fun o => 2 ^ o * Z.of_nat (length (fl s o))) (seqZ 0 11)). apply sum_of_ext. intros o Ho%elem_of_seqZ.
    rewrite (sum_of_filter (fun i => flg s i = P_FREE /\ ord s i = o) (fun _ => 2 ^ o)), sum_of_const, listed_perm; [done|]. unfold orders, MAX_BUDDY_ORDER. lia.
  - intros i Hi%elem_of_seqZ. case_decide as Hf; [|symmetry; apply sum_of_zero; intros o _; apply decide_False; tauto].
    rewrite (order_sum i) by (done || lia). apply sum_of_ext. intros o _. destruct (decide (ord s i = o)); [by rewrite decide_True | rewrite decide_False; [done | tauto]].
Qed.

Lemma used_sum Hd : NoDup Hd -> (forall i o, (i, o) ∈ Hd <-> 0 <= i < N /\ used s i o) -> pages_flagged P_USED (seqZ 0 N) = pages_of Hd.
Proof.
  intros Hnd Hown. unfold pages_flagged. rewrite sum_of_filter.
  assert (Hp : filter (fun i => flg s i = P_USED) (seqZ 0 N) ≡ₚ Hd.*1).
  { apply NoDup_Permutation; [apply NoDup_filter, NoDup_seqZ | |].
    - apply NoDup_fmap_2_strong; [|done]. intros [i o] [j q] (_ & _ & Eo)%Hown (_ & _ & Eq)%Hown E. cbn in E. congruence.
    - intros i. rewrite list_elem_of_filter, elem_of_seqZ, list_elem_of_fmap. split.
      + intros [Hf Hi]. exists (i, ord s i). split; [done|]. apply Hown. split; [lia | done].
      + intros ([j o] & -> & (? & ? & _)%Hown). cbn. split; [done | lia]. }
  rewrite (sum_of_perm _ _ _ Hp). clear Hp.
  assert (Hall : forall x, x ∈ Hd -> ord s x.1 = x.2) by (intros [i o] (_ & _ & E)%Hown; exact E). clear Hown Hnd.
  induction Hd as [|[i o] Hd IH]; [done|]. cbn [fmap list_fmap pages_of fst snd]. rewrite sum_of_cons. rewrite (Hall (i, o) ltac:(left) : ord s i = o). f_equal.
  apply IH. intros x Hx. apply Hall. by right.
Qed.

(** ** The free lists and the table *)

Lemma buddy_free_false i o : 0 <= o <= orders -> i ∈ fl s o -> gives_value (buddy_free o (page_at pm i)) k false.
Proof.
  intros Ho Hi. unfold buddy_free. destruct (Z.ltb_spec o MAX_BUDDY_ORDER) as [Hlt|]; [|apply gives_value_ret].
  destruct (listed_head _ _ _ HI o i Ho Hi) as (Hi1 & Hi2 & Hi3). pose proof (g_n _ _ _ HG).
  eapply gives_value_bind; [by eapply wp_get_page_map|]. rewrite page_index_at.
  eapply gives_value_bind; [by eapply (wp_buddy_index pm N NG HG k s i o); [| lia | | lia |]|].
  eapply gives_value_bind; [apply gives_value_gets|]. rewrite HN. destruct (Z.ltb_spec (buddy_of i o) N); [|apply gives_value_ret].
  destruct (inv_block _ _ _ HI i Hi1 Hi2) as (B1 & B2 & B3 & B4 & _). rewrite Hi3 in *. pose proof (buddy_of_nonneg i o ltac:(lia) B2 B4).
  eapply gives_value_bind; [apply flags_value; lia|]. eapply gives_value_bind; [apply order_value; lia|].
  destruct (Z.eqb_spec (flg s (buddy_of i o)) P_FREE) as [Ef|]; [|apply gives_value_ret].
  destruct (Z.eqb_spec (ord s (buddy_of i o)) o) as [Eo|]; [exfalso | apply gives_value_ret].
  apply (ps_coalesced _ _ _ _ _ _ HS o i); [unfold orders; lia | done |]. apply (inv_listed _ _ _ HI o _ Ho). split_and!; [lia | lia | done | done | lia].
Qed.

(** The node of a listed page. *)
Lemma next_value i : 0 <= i < NG -> gives_value (load32 (node_next (page_at pm i))) k (ld32 (k_mem k) (node_next (page_at pm i))).
Proof. intros Hi. unfold node_next. eapply wp_access; [geo; lia | geo; lia | reflexivity | done]. Qed.

Lemma page_not_null i : 0 <= i < NG -> page_at pm i <> NULL.
Proof. intros Hi. geo. unfold NULL. lia. Qed.

Lemma check_area_value o : 0 <= o <= orders -> forall l fuel p a, dseg (k_mem k) p (page_at pm <$> l) NULL ->
  (forall i, i ∈ l -> i ∈ fl s o) -> Z.of_nat (length l) < Z.of_nat fuel ->
  gives_value (check_area fuel o (hd NULL (page_at pm <$> l)) (u32 a)) k (Some (u32 (a + 2 ^ o * Z.of_nat (length l)))).
Proof.
  intros Ho. pose proof (g_n _ _ _ HG). induction l as [|i l IH]; intros fuel p a Hseg Hin Hfu; (destruct fuel as [|fuel]; [lia|]); cbn [check_area fmap list_fmap hd].
  - cbn. rewrite Z.mul_0_r, Z.add_0_r. apply gives_value_ret.
  - destruct (listed_head _ _ _ HI o i Ho (Hin i ltac:(left))) as (Hi1 & Hi2 & Hi3). rewrite (proj2 (Z.eqb_neq _ _) (page_not_null i ltac:(lia))).
    pose proof (Hin i ltac:(left)) as Hfl. apply (inv_listed _ _ _ HI) in Hfl as (_ & Hf & _); [|done].
    eapply gives_value_bind; [pose proof (check_state_true i Hi1 Hi2) as Hc; rewrite Hi3, Hf in Hc; exact Hc|]. cbn [negb].
    eapply gives_value_bind; [apply buddy_free_false; [done | apply Hin; left]|].
    destruct Hseg as (_ & Hn & Hseg). eapply gives_value_bind; [apply next_value; lia|]. rewrite Hn, u32_add_u32, Z.shiftl_1_l.
    replace (a + 2 ^ o * Z.of_nat (length (i :: l))) with (a + 2 ^ o + 2 ^ o * Z.of_nat (length l)) by (cbn [length]; lia).
    eapply IH; [exact Hseg | | cbn [length] in Hfu; lia]. intros j Hj. apply Hin. by right.
Qed.

(** A list is not longer than there are pages. *)
Lemma area_short o : 0 <= o <= orders -> Z.of_nat (length (fl s o)) <= N.
Proof.
  intros Ho. pose proof (g_n _ _ _ HG). rewrite <- (listed_perm o Ho). 
  pose proof (length_filter (fun i => flg s i = P_FREE /\ ord s i = o) (seqZ 0 N)) as Hl. rewrite length_seqZ in Hl. lia.
Qed.

Lemma head_value o : 0 <= o <= orders -> gives_value (load32 (free_area_at o)) k (hd NULL (page_at pm <$> fl s o)).
Proof.
  intros Ho. unfold gives_value. eapply wp_access; [rewrite (free_area_at_eq pm N NG HG) by (unfold orders, MAX_BUDDY_ORDER in Ho; lia); geo; lia .. | reflexivity |].
  split; [|done]. apply (br_list _ _ _ _ HR o Ho).
Qed.

Lemma check_areas_value n : forall i a, 0 <= i -> i + Z.of_nat n <= 11 ->
  gives_value (check_areas n i (u32 a)) k (Some (u32 (a + sum_of (fun o => 2 ^ o * Z.of_nat (length (fl s o))) (seqZ i (Z.of_nat n))))).
Proof.
  induction n as [|n IH]; intros i a Hi Hn; cbn [check_areas].
  - cbn. rewrite Z.add_0_r. apply gives_value_ret.
  - assert (Ho : 0 <= i <= orders) by (unfold orders, MAX_BUDDY_ORDER; lia). eapply gives_value_bind; [by apply head_value|].
    eapply gives_value_bind; [apply gives_value_gets|]. rewrite HN. pose proof (area_short i Ho). pose proof (g_n _ _ _ HG).
    eapply gives_value_bind; [eapply check_area_value; [done | apply (br_list _ _ _ _ HR i Ho) | done | rewrite Nat2Z.inj_succ, Z2Nat.id by lia; lia]|].
    rewrite seqZ_cons by lia. rewrite sum_of_cons, Z.add_assoc. replace (Z.pred (Z.of_nat (S n))) with (Z.of_nat n) by lia.
    rewrite <- Z.add_1_r. apply IH; lia.
Qed.

Lemma check_free_areas_value : gives_value check_free_areas k (Some (u32 (free_total s))).
Proof. exact (check_areas_value 11 0 0 ltac:(lia) ltac:(lia)). Qed.

Lemma check_blocks_value bs : forall i a, (forall x, x ∈ held_of bs -> 0 <= x.1 < N /\ used s x.1 x.2) ->
  gives_value (check_blocks bs i (u32 a)) k (Some (u32 (a + pages_of (held_of bs)))).
Proof.
  induction bs as [|b bs IH]; intros i a Hin; cbn [check_blocks].
  - cbn. rewrite Z.add_0_r. apply gives_value_ret.
  - unfold held_of in *. rewrite filter_cons in *. destruct (Z.eqb_spec (b_ptr b) NULL) as [E|Hne].
    + rewrite decide_False in * by tauto. by apply IH.
    + rewrite decide_True in * by done. cbn [fmap list_fmap pages_of fst snd] in *.
      destruct (Hin (real_page_index (V2P (b_ptr b)), b_order b) ltac:(left)) as (Hr & Hf & Ho). cbn [fst snd] in *.
      eapply gives_value_bind; [by eapply wp_get_page_map|].
      eapply gives_value_bind; [pose proof (check_state_true _ Hr ltac:(by right)) as Hc; rewrite Ho, Hf in Hc; exact Hc|].
      rewrite u32_add_u32, Z.shiftl_1_l, Z.add_assoc. apply IH. intros x Hx. apply Hin. by right.
Qed.

Lemma same_count_value msg x y rest : x = y -> gives_value rest k true -> gives_value (same_count msg x y rest) k true.
Proof. intros ->. unfold same_count. by rewrite Z.eqb_refl. Qed.

Lemma check_true bs : NoDup (held_of bs) -> (forall i o, (i, o) ∈ held_of bs <-> 0 <= i < N /\ used s i o) ->
  pages_of (held_of bs) = T - free_total s -> gives_value (check bs) k true.
Proof.
  intros Hnd Hown Hsum. destruct (ps_counted _ _ _ _ _ _ HS) as [C1 C2]. pose proof (g_n _ _ _ HG). unfold check.
  pose proof (check_map_loop_value (S (Z.to_nat N)) 0 0 0 ltac:(lia) ltac:(lia)) as Hm. rewrite Z.sub_0_r, free_sum, (used_sum _ Hnd Hown), !Z.add_0_l in Hm.
  eapply gives_value_bind; [unfold check_map; eapply gives_value_bind; [apply gives_value_gets | rewrite HN; exact Hm]|]. cbv beta iota zeta.
  eapply gives_value_bind; [apply check_free_areas_value|]. cbv beta iota.
  eapply gives_value_bind; [apply (check_blocks_value bs 0 0); intros [i o] Hx; by apply Hown|]. cbv beta iota. rewrite Z.add_0_l.
  eapply gives_value_bind; [apply gives_value_gets|]. rewrite C1, C2, Hsum.
  repeat (apply same_count_value; [done|]). apply gives_value_ret.
Qed.
End checks.
