(* ===== verification/BuddyRun.v ===== *)
(** * The self-test of the page allocator passes

    [test_buddy] of src/mm/buddy/test_buddy.c, run after [pmm_init]: its random
    requests, the patterns it writes into its blocks, and its checks. *)

From Stdlib Require Import ZArith Lia Bool.
From stdpp Require Import base list gmap strings.
From S2P Require Import Prelude Machine StringLib Console Node Bump Buddy BuddyModel BuddyRefine BuddyInit Pmm PmmSample Devices Random BuddyTest BuddyCheck.

(** ** Patterns *)

(** The block at [ptr] holds the pattern [v]. *)
Definition pattern_at (m : memory) (ptr order v : Z) : Prop := forall b, range ptr (4096 * 2 ^ order) b -> ld8 m b = v.

Lemma fill_bytes n p v k : 0 <= v < 256 -> KERNEL_VIRTUAL_BASE <= p -> p + Z.of_nat n <= 2 ^ 32 ->
  wp (for_up n 0 (fun j => store8 (p + j) v)) k (fun _ k' => exists m, k' = set_mem m k /\ untouched (range p (Z.of_nat n)) (k_mem k) m /\
    forall b, range p (Z.of_nat n) b -> ld8 m b = v).
Proof.
  intros Hv H1 H2.
  apply (wp_for_up n 0 _ k (fun i k' => exists m, k' = set_mem m k /\ untouched (range p i) (k_mem k) m /\ forall b, range p i b -> ld8 m b = v)).
  - exists (k_mem k). split_and!; [by destruct k | apply untouched_refl | unfold range; intros; lia].
  - intros j k' Hj (m & -> & Hu & Hf). eapply wp_access; [lia | lia | reflexivity | cbv beta]. cbn [k_mem set_mem].
    exists (st8 m (p + j) v). split_and!; [done | |].
    + intros b Hb. unfold range in *. rewrite ld8_st8_ne by lia. apply Hu. unfold range. lia.
    + intros b Hb. rewrite ld8_st8. case_decide; [by apply u8_small|]. apply Hf. unfold range in *. lia.
  - intros k' (m & -> & Hu & Hf). rewrite Z.add_0_l in *. eauto.
Qed.

Lemma fill_pattern_spec ptr order v k : 0 <= v < 256 -> 0 <= order -> KERNEL_VIRTUAL_BASE <= ptr -> ptr + 4096 * 2 ^ order <= 2 ^ 32 ->
  wp (fill_pattern ptr order v) k (fun _ k' => exists m, k' = set_mem m k /\ untouched (range ptr (4096 * 2 ^ order)) (k_mem k) m /\ pattern_at m ptr order v).
Proof.
  intros Hv Ho H1 H2. pose proof (pow2_pos order Ho) as Hp. unfold fill_pattern. rewrite Z.shiftl_1_l. unfold KERNEL_VIRTUAL_BASE in *.
  apply (wp_for_up _ 0 _ k (fun i k' => exists m, k' = set_mem m k /\ untouched (range ptr (4096 * i)) (k_mem k) m /\ forall b, range ptr (4096 * i) b -> ld8 m b = v)).
  - exists (k_mem k). split_and!; [by destruct k | apply untouched_refl | unfold range; intros; lia].
  - intros i k' Hi (m & -> & Hu & Hf). rewrite Z2Nat.id in Hi by lia. cbv zeta. rewrite u32_small by lia.
    eapply wp_mono; [apply fill_bytes; unfold KERNEL_VIRTUAL_BASE; lia|]. intros _ k' (m' & -> & Hu' & Hf'). cbn [k_mem set_mem] in Hu'.
    rewrite Z2Nat.id in Hu', Hf' by lia. exists m'. split_and!; [done | |].
    + intros b Hb. unfold range in *. rewrite Hu' by (unfold range; lia). apply Hu. unfold range. lia.
    + intros b Hb. unfold range in *. destruct (Z.lt_ge_cases b (ptr + i * 4096)); [|apply Hf'; unfold range; lia].
      rewrite Hu' by (unfold range; lia). apply Hf. unfold range. lia.
  - intros k' (m & -> & Hu & Hf). rewrite Z.add_0_l, Z2Nat.id in * by lia. by exists m.
Qed.

Lemma check_pattern_true ptr order v k : 0 <= order -> KERNEL_VIRTUAL_BASE <= ptr -> ptr + 4096 * 2 ^ order <= 2 ^ 32 ->
  pattern_at (k_mem k) ptr order v -> gives_value (check_pattern ptr order v) k true.
Proof.
  intros Ho H1 H2 Hf. pose proof (pow2_pos order Ho) as Hp. unfold check_pattern. rewrite Z.shiftl_1_l. unfold KERNEL_VIRTUAL_BASE in *.
  apply all_up_true. intros i Hi. rewrite Z2Nat.id in Hi by lia. cbv zeta. rewrite u32_small by lia.
  apply all_up_true. intros j Hj. rewrite Z2Nat.id in Hj by lia.
  eapply gives_value_bind with (v := v); [|rewrite Z.eqb_refl; apply gives_value_ret].
  eapply wp_access; [unfold KERNEL_VIRTUAL_BASE; lia | lia | reflexivity | cbv beta]. split; [|done]. apply Hf. unfold range. lia.
Qed.

(** ** The lengths of the free lists *)

Definition area_lens (s : bst) : list Z := (fun o => Z.of_nat (length (fl s o))) <$> seqZ 0 11.

(** The lists are determined by the free pages. *)
Lemma same_lens N s1 s2 : Inv N (-1) s1 -> coalesced s1 -> Inv N (-1) s2 -> coalesced s2 ->
  (forall p, free_page s1 p <-> free_page s2 p) -> forall o, 0 <= o <= orders -> length (fl s1 o) = length (fl s2 o).
Proof.
  intros I1 C1 I2 C2 Hp o Ho. apply Permutation_length, NoDup_Permutation; [by apply (inv_nodup _ _ _ I1) | by apply (inv_nodup _ _ _ I2)|].
  assert (Hr : forall x q, free_run s1 x q <-> free_run s2 x q) by (intros x q; unfold free_run; split; intros Hx p Hq; apply Hp; by apply Hx).
  intros i. rewrite (listed_canonical N s1 i o I1 C1 Ho), (listed_canonical N s2 i o I2 C2 Ho). by rewrite !Hr.
Qed.

Section lens.
Context `{BuddySymbols} (pm N NG T : Z) (HG : geometry pm N NG) (k : kernel) (s : bst).
Context (HS : pmm_state pm N NG T k s) (HN : page_n (k_buddy k) = N).

Lemma area_len_value : forall l fuel p n, dseg (k_mem k) p (page_at pm <$> l) NULL -> (forall i, i ∈ l -> 0 <= i < NG) -> (length l < fuel)%nat ->
  gives_value (area_len fuel (hd NULL (page_at pm <$> l)) n) k (n + Z.of_nat (length l)).
Proof.
  induction l as [|i l IH]; intros fuel p n Hseg Hin Hfu; (destruct fuel as [|fuel]; [lia|]); cbn [area_len fmap list_fmap hd].
  - cbn. rewrite Z.add_0_r. apply gives_value_ret.
  - rewrite (proj2 (Z.eqb_neq _ _) (page_not_null pm N NG HG i (Hin i ltac:(left)))).
    destruct Hseg as (_ & Hn & Hseg). eapply gives_value_bind; [apply (next_value pm N NG HG), Hin; left|]. rewrite Hn.
    replace (n + Z.of_nat (length (i :: l))) with (n + 1 + Z.of_nat (length l)) by (cbn [length]; lia).
    eapply IH; [exact Hseg | intros j Hj; apply Hin; by right | cbn [length] in Hfu; lia].
Qed.

Lemma length_value o : 0 <= o <= orders -> gives_value (length_of_area o) k (Z.of_nat (length (fl s o))).
Proof.
  intros Ho. pose proof (area_short pm N NG T HG k s HS o Ho). pose proof (g_n _ _ _ HG). unfold length_of_area.
  eapply gives_value_bind; [by eapply head_value|]. eapply gives_value_bind; [apply gives_value_gets|]. rewrite HN.
  eapply (area_len_value _ _ _ 0); [apply (br_list _ _ _ _ (ps_rep _ _ _ _ _ _ HS) o Ho) | | lia].
  intros i Hi. destruct (listed_head _ _ _ (ps_inv _ _ _ _ _ _ HS) o i Ho Hi). lia.
Qed.

Lemma area_lengths_value n : forall i, 0 <= i -> i + Z.of_nat n <= 11 ->
  gives_value (area_lengths n i) k ((fun o => Z.of_nat (length (fl s o))) <$> seqZ i (Z.of_nat n)).
Proof.
  induction n as [|n IH]; intros i Hi Hn; cbn [area_lengths]; [apply gives_value_ret|].
  eapply gives_value_bind; [apply length_value; unfold orders, MAX_BUDDY_ORDER; lia|]. eapply gives_value_bind; [apply IH; lia|].
  rewrite (seqZ_cons i) by lia. replace (Z.pred (Z.of_nat (S n))) with (Z.of_nat n) by lia. rewrite <- Z.add_1_r. apply gives_value_ret.
Qed.

Lemma verify_true s0 : (forall o, 0 <= o <= orders -> length (fl s o) = length (fl s0 o)) -> gives_value (verify_final_state (area_lens s0)) k true.
Proof.
  intros He. unfold verify_final_state. apply all_up_true. intros i Hi. change (0 + Z.of_nat (Z.to_nat (MAX_BUDDY_ORDER + 1))) with 11 in Hi.
  assert (Ho : 0 <= i <= orders) by (unfold orders, MAX_BUDDY_ORDER; lia). eapply gives_value_bind; [by apply length_value|].
  assert (nth (Z.to_nat i) (area_lens s0) 0 = Z.of_nat (length (fl s i))) as ->; [|rewrite Z.eqb_refl; apply gives_value_ret].
  unfold area_lens. rewrite nth_lookup, list_lookup_fmap, (He i Ho), (lookup_seqZ_lt 0 11) by lia. cbn. by rewrite Z.add_0_l, Z2Nat.id by lia.
Qed.
End lens.

(** ** The table of blocks *)

Definition entry (b : Block) : block := (real_page_index (V2P (b_ptr b)), b_order b).

Lemma held_of_app bs1 bs2 : held_of (bs1 ++ bs2) = held_of bs1 ++ held_of bs2.
Proof. unfold held_of. by rewrite filter_app, fmap_app. Qed.

Lemma held_of_cons b bs : held_of (b :: bs) = if decide (b_ptr b <> NULL) then entry b :: held_of bs else held_of bs.
Proof. unfold held_of. rewrite filter_cons. by case_decide. Qed.

Lemma held_of_elem x bs : x ∈ held_of bs <-> exists b, b ∈ bs /\ b_ptr b <> NULL /\ x = entry b.
Proof.
  unfold held_of. rewrite list_elem_of_fmap. split.
  - intros (b & -> & [Hp Hb]%list_elem_of_filter). by exists b.
  - intros (b & Hb & Hp & ->). exists b. split; [done|]. by apply list_elem_of_filter.
Qed.

Lemma table_split bs idx : 0 <= idx < Z.of_nat (length bs) -> exists l1 l2, bs = l1 ++ block_at bs idx :: l2 /\ forall b, set_block idx b bs = l1 ++ b :: l2.
Proof. intros Hi. apply insert_split. lia. Qed.

(** Some slot is free while the table is not full, and some is taken while it is not empty. *)
Lemma held_of_length bs : (length (held_of bs) <= length bs)%nat.
Proof. unfold held_of. rewrite length_fmap. apply length_filter. Qed.

Lemma free_slot bs : (length (held_of bs) < length bs)%nat -> exists idx, 0 <= idx < Z.of_nat (length bs) /\ b_ptr (block_at bs idx) = NULL.
Proof.
  unfold held_of. rewrite length_fmap. intros (n & Hn & Hp)%(slot_without (MkBlock 0 0 0)). exists (Z.of_nat n). split; [lia|].
  unfold block_at. rewrite Nat2Z.id. by destruct (Z.eq_dec (b_ptr (default (MkBlock 0 0 0) (bs !! n))) NULL).
Qed.

Lemma taken_slot bs : held_of bs <> [] -> exists idx, 0 <= idx < Z.of_nat (length bs) /\ b_ptr (block_at bs idx) <> NULL.
Proof.
  intros Hne. destruct (slot_with (MkBlock 0 0 0) (fun b => b_ptr b <> NULL) bs) as (n & Hn & Hp).
  { intros E. apply Hne. unfold held_of. by rewrite E. }
  exists (Z.of_nat n). split; [lia|]. unfold block_at. by rewrite Nat2Z.id.
Qed.

Section test.
Context `{BuddySymbols} (pm N NG T lo : Z) (HG : geometry pm N NG) (s0 : bst) (io : list io_event).
Context (Hlo : 0xB9 <= lo) (HN18 : N <= 2 ^ 18) (HT : 0 < T < 2 ^ 32) (Hs0 : forall p, free_page s0 p -> lo <= p).
Context (Hfp : forall b, bfp pm NG b -> (b < KERNEL_VIRTUAL_BASE + 4096 * lo \/ KERNEL_VIRTUAL_BASE + 4096 * N <= b) /\ ~ vga_fp b).

Record table_ok (bs : list Block) (s : bst) (k : kernel) : Prop := {
  to_state : pmm_state pm N NG T k s;
  to_count : page_n (k_buddy k) = N;
  to_cursor : cursor_ok (k_vga k);
  to_io : k_io k = io;
  to_length : Z.of_nat (length bs) = MAX_BLOCKS;
  to_nodup : NoDup (held_of bs);
  to_owned : forall i o, (i, o) ∈ held_of bs <-> 0 <= i < N /\ used s i o;
  to_sum : pages_of (held_of bs) = T - free_total s;
  to_free : forall p, free_page s0 p <-> free_page s p \/ exists x, x ∈ held_of bs /\ in_block x.1 x.2 p;
  to_filled : forall b, b ∈ bs -> b_ptr b <> NULL ->
    b_ptr b = P2V (4096 * (entry b).1) /\ pattern_at (k_mem k) (b_ptr b) (b_order b) (b_pattern b) }.

(** Where a block of the table is. *)
Lemma table_place bs s k b : table_ok bs s k -> b ∈ bs -> b_ptr b <> NULL ->
  b_ptr b = 4096 * (entry b).1 + KERNEL_VIRTUAL_BASE /\ lo <= (entry b).1 /\ (entry b).1 + 2 ^ b_order b <= N /\ 0 <= b_order b <= orders.
Proof.
  intros HO Hb Hp. destruct (to_filled _ _ _ HO b Hb Hp) as [Ep _]. assert (Hx : entry b ∈ held_of bs) by (apply held_of_elem; by exists b).
  pose proof Hx as Hu. destruct (entry b) as [i o] eqn:Ee. assert (o = b_order b) as -> by (unfold entry in Ee; by injection Ee).
  apply (to_owned _ _ _ HO) in Hu as (Hi & Hf & Eo). cbn [fst snd] in *.
  destruct (inv_block _ _ _ (ps_inv _ _ _ _ _ _ (to_state _ _ _ HO)) i Hi ltac:(by right)) as (B1 & B2 & B3 & _). rewrite Eo in *.
  assert (Hl : lo <= i).
  { apply Hs0, (to_free _ _ _ HO). right. exists (i, b_order b). split; [done|]. pose proof (pow2_pos (b_order b) ltac:(lia)). unfold in_block. cbn. lia. }
  split_and!; try done; try lia. rewrite Ep. apply P2V_eq. unfold PHYS_LIMIT, KERNEL_VIRTUAL_BASE. lia.
Qed.

(** The bytes the test depends on. *)
Definition test_bytes (b : Z) : Prop := bfp pm NG b \/ KERNEL_VIRTUAL_BASE + 4096 * lo <= b < KERNEL_VIRTUAL_BASE + 4096 * N.

Lemma pmm_stable s k k' : pmm_state pm N NG T k s -> k_buddy k' = k_buddy k -> (forall b, bfp pm NG b -> ld8 (k_mem k') b = ld8 (k_mem k) b) ->
  pmm_state pm N NG T k' s.
Proof.
  intros [R1 R2 R3 R4] Eb Hm. split; [|done..|].
  - eapply brep_stable; [exact HG | exact R1 | by eapply Inv_lists_ok | done | done].
  - unfold counted in *. by rewrite Eb.
Qed.

Lemma table_stable bs s k k' : table_ok bs s k -> k_buddy k' = k_buddy k -> cursor_ok (k_vga k') -> k_io k' = k_io k ->
  (forall b, test_bytes b -> ld8 (k_mem k') b = ld8 (k_mem k) b) -> table_ok bs s k'.
Proof.
  intros HO Eb Hc Ei Hm. pose proof HO as [P1 P2 P3 Pio P4 P5 P6 P7 P8 P9]. split; try done; [| by rewrite Eb | by rewrite Ei |].
  - eapply pmm_stable; [exact P1 | done |]. intros b Hb. apply Hm. by left.
  - intros b Hb Hp. destruct (P9 b Hb Hp) as [E F]. split; [done|]. intros x Hx. rewrite Hm; [by apply F|]. right.
    destruct (table_place bs s k b HO Hb Hp) as (E' & Q1 & Q2 & Q3). rewrite E' in Hx. unfold range in Hx. lia.
Qed.

Lemma table_next bs s k y : table_ok bs s k -> table_ok bs s (with_next y k).
Proof. intros HO. apply (table_stable bs s k); [done | done | apply (to_cursor _ _ _ HO) | done | done]. Qed.

(** A slot is filled. *)
Lemma held_of_set bs idx b : 0 <= idx < Z.of_nat (length bs) -> b_ptr (block_at bs idx) = NULL -> b_ptr b <> NULL ->
  held_of (set_block idx b bs) ≡ₚ entry b :: held_of bs /\ forall c, c ∈ set_block idx b bs -> c = b \/ c ∈ bs.
Proof.
  intros Hi Hn Hb. destruct (table_split bs idx Hi) as (l1 & l2 & E & Es). rewrite Es. set (c0 := block_at bs idx) in *. clearbody c0. subst bs. split.
  - rewrite !held_of_app, !held_of_cons, decide_True, decide_False by (done || tauto). symmetry. apply Permutation_middle.
  - intros c. rewrite !elem_of_app, !elem_of_cons. tauto.
Qed.

(** A slot is emptied. *)
Lemma held_of_forget bs idx : 0 <= idx < Z.of_nat (length bs) -> b_ptr (block_at bs idx) <> NULL ->
  held_of bs ≡ₚ entry (block_at bs idx) :: held_of (forget_block idx bs) /\ forall c, c ∈ forget_block idx bs -> b_ptr c <> NULL -> c ∈ bs.
Proof.
  intros Hi Hn. destruct (table_split bs idx Hi) as (l1 & l2 & E & Es). unfold forget_block. rewrite Es. set (c0 := block_at bs idx) in *. clearbody c0. subst bs. split.
  - rewrite !held_of_app, !held_of_cons, decide_True, decide_False by (done || tauto). symmetry. apply Permutation_middle.
  - intros c. rewrite !elem_of_app, !elem_of_cons. intros [Hc|[->|Hc]]; [tauto | done | tauto].
Qed.

Lemma page_index_P2V x : 0 <= x < 2 ^ 18 -> real_page_index (V2P (P2V (4096 * x))) = x.
Proof.
  intros Hx. rewrite P2V_eq by (unfold PHYS_LIMIT, KERNEL_VIRTUAL_BASE; lia). unfold V2P, KERNEL_VIRTUAL_BASE. rewrite u32_small by lia.
  unfold real_page_index, BASE_SHIFT. rewrite Z.shiftr_div_pow2 by lia. change (2 ^ 12) with 4096. div_lia.
Qed.

(** A byte of a block belongs to one of its pages. *)
Lemma block_page i o b : 0 <= o -> range (4096 * i + KERNEL_VIRTUAL_BASE) (4096 * 2 ^ o) b -> in_block i o ((b - KERNEL_VIRTUAL_BASE) / 4096).
Proof. intros Ho. pose proof (pow2_pos o Ho). unfold range, in_block. div_lia. Qed.

(** The pages of a held block are not free. *)
Lemma held_not_free bs s k i o p : table_ok bs s k -> (i, o) ∈ held_of bs -> in_block i o p -> ~ free_page s p.
Proof.
  intros HO (Hi & Hf & <-)%(to_owned _ _ _ HO) Hp. apply (free_page_not_in N (-1) s (ps_inv _ _ _ _ _ _ (to_state _ _ _ HO)) i p); [done | by right | by left | done].
Qed.

Section taken.
Context (bs : list Block) (s s' : bst) (k k1 : kernel) (x o v idx : Z) (m : memory).
Context (HO : table_ok bs s k) (Ho : 0 <= o <= orders) (HA : allocated N o x s s') (HS1 : pmm_state pm N NG T k1 s') (HB : brun pm NG k k1).
Local Abbreviation ptr := (4096 * x + KERNEL_VIRTUAL_BASE).
Context (Hm : untouched (range ptr (4096 * 2 ^ o)) (k_mem k1) m) (Hf : pattern_at m ptr o v).

Lemma taken_place : lo <= x /\ x + 2 ^ o <= N /\ 0 < 2 ^ o /\ P2V (4096 * x) = ptr.
Proof.
  pose proof (pow2_pos o ltac:(lia)) as Hp. destruct (al_range _ _ _ _ _ HA) as [R1 R2].
  assert (lo <= x). { apply Hs0, (to_free _ _ _ HO). left. apply (al_pages _ _ _ _ _ HA). right. unfold in_block. lia. }
  split_and!; try lia. apply P2V_eq. unfold PHYS_LIMIT, KERNEL_VIRTUAL_BASE. lia.
Qed.

(** The other blocks keep their bytes. *)
Lemma taken_others b c : b ∈ bs -> b_ptr b <> NULL -> range (b_ptr b) (4096 * 2 ^ b_order b) c -> ld8 m c = ld8 (k_mem k) c.
Proof.
  intros Hb Hp Hc. destruct (table_place bs s k b HO Hb Hp) as (E & Q1 & Q2 & Q3). rewrite E in Hc.
  assert (Hx : entry b ∈ held_of bs) by (apply held_of_elem; by exists b). pose proof (pow2_pos (b_order b) ltac:(lia)).
  destruct HB as (m1 & fc & uc & Hu & E1). rewrite E1 in Hm. cbn [k_mem set_mem set_buddy] in Hm.
  rewrite Hm; [apply Hu|].
  - intros Hb'. destruct (Hfp c Hb') as [Hr _]. unfold range in Hc. lia.
  - intros Hr. apply block_page in Hr; [|lia]. apply block_page in Hc; [|lia]. apply (held_not_free bs s k (entry b).1 (b_order b) ((c - KERNEL_VIRTUAL_BASE) / 4096)); [done | done | done|].
    apply (al_pages _ _ _ _ _ HA). by right.
Qed.

Lemma taken_table : 0 <= idx < MAX_BLOCKS -> b_ptr (block_at bs idx) = NULL -> table_ok (set_block idx (MkBlock ptr o v) bs) s' (set_mem m k1).
Proof.
  intros Hi Hn. pose proof taken_place as (L1 & L2 & L3 & L4). pose proof HO as [P1 P2 P3 Pio P4 P5 P6 P7 P8 P9]. destruct (al_range _ _ _ _ _ HA) as [R1 R2].
  assert (Hne : b_ptr (MkBlock ptr o v) <> NULL) by (cbn; unfold NULL, KERNEL_VIRTUAL_BASE; lia).
  destruct (held_of_set bs idx (MkBlock ptr o v) ltac:(lia) Hn Hne) as [Hperm Hin].
  assert (Ee : entry (MkBlock ptr o v) = (x, o)) by (unfold entry; cbn [b_ptr b_order]; rewrite <- L4, page_index_P2V by lia; done). rewrite Ee in Hperm.
  assert (Hnx : forall q, (x, q) ∉ held_of bs).
  { intros q Hq. apply (held_not_free bs s k x q x HO Hq); [|apply (al_pages _ _ _ _ _ HA); right; unfold in_block; lia].
    apply P6 in Hq as (Hx & Hfx & <-). destruct (inv_block _ _ _ (ps_inv _ _ _ _ _ _ P1) x Hx ltac:(by right)) as (B1 & _). pose proof (pow2_pos (ord s x) ltac:(lia)). unfold in_block. lia. }
  destruct HB as (m1 & fc & uc & Hu & E1). split.
  - eapply pmm_stable; [exact HS1 | done |]. cbn [k_mem set_mem]. intros b Hb. apply Hm. intros Hr. destruct (Hfp b Hb) as [Hx _]. unfold range in Hr. lia.
  - by rewrite E1.
  - by rewrite E1.
  - by rewrite E1.
  - unfold set_block. by rewrite length_insert.
  - rewrite Hperm. constructor; [apply Hnx | done].
  - intros i q. rewrite Hperm, elem_of_cons, P6. destruct (decide (i = x)) as [->|Hix].
    + pose proof (al_block _ _ _ _ _ HA) as [U1 U2]. split.
      * intros [[= ->]|Hq]; [split; [lia | done]|]. exfalso. apply (Hnx q), P6, Hq.
      * intros [_ [_ Hq]]. left. congruence.
    + rewrite (al_used _ _ _ _ _ HA i q Hix). split; [intros [[=]|?]; done | by right].
  - rewrite (pages_of_perm _ _ Hperm). cbn [pages_of snd]. pose proof (al_total _ _ _ _ _ HA). lia.
  - intros p. rewrite P8, (al_pages _ _ _ _ _ HA). setoid_rewrite Hperm. setoid_rewrite elem_of_cons. split.
    + intros [[Hp|Hp]|(y & Hy & Hp)]; [by left | right; exists (x, o); auto | right; exists y; auto].
    + intros [Hp|(y & [->|Hy] & Hp)]; [by left; left | by left; right | right; by exists y].
  - intros b [->|Hb]%Hin Hp; cbn [b_ptr b_order b_pattern].
    + rewrite Ee. cbn [fst]. split; [by rewrite L4 | exact Hf].
    + destruct (P9 b Hb Hp) as [Eb Fb]. split; [done|]. intros c Hc. cbn [k_mem set_mem]. rewrite (taken_others b c Hb Hp Hc). by apply Fb.
Qed.
End taken.

(** ** The operations of the test *)

Lemma alloc_block_spec bs s k o v : table_ok bs s k -> 0 <= o <= orders ->
  wpe out_of_memory (alloc_block o v) k (fun r k' => exists b s', r = Some b /\ b_ptr b <> NULL /\
    forall idx, 0 <= idx < MAX_BLOCKS -> b_ptr (block_at bs idx) = NULL -> table_ok (set_block idx b bs) s' k').
Proof.
  intros HO Ho. unfold alloc_block. apply wpe_bind. destruct (alloc o s) as [[x s']|] eqn:Ea.
  2: { eapply wpe_stops; [|done]. apply (buddy_alloc_oom pm N NG HG o s k); [apply HO | apply HO | apply HO | done | done]. }
  apply wpe_wp. eapply wp_mono; [exact (pmm_alloc_wp pm N NG T HG o x s s' k (to_state _ _ _ HO) Ho Ea)|].
  intros r k1 (-> & HS1 & HA & HB). pose proof (taken_place bs s s' k x o HO Ho HA) as (L1 & L2 & L3 & L4). rewrite L4.
  rewrite (proj2 (Z.eqb_neq _ _)) by (unfold NULL, KERNEL_VIRTUAL_BASE; lia). apply wpe_wp, wp_bind.
  eapply wp_mono; [apply fill_pattern_spec; [apply u8_range | lia | lia | unfold KERNEL_VIRTUAL_BASE; lia]|].
  intros [] k2 (m & -> & Hm & Hf). apply wp_ret. eexists _, s'. split; [done|]. split; [cbn; unfold NULL, KERNEL_VIRTUAL_BASE; lia|].
  intros idx Hi Hn. by apply (taken_table bs s s' k k1 x o (u8 v) idx m).
Qed.

Lemma slot_mod idx : 0 <= idx < MAX_BLOCKS -> idx mod MAX_BLOCKS = idx.
Proof. apply Z.mod_small. Qed.

Lemma do_alloc_spec bs s k : table_ok bs s k -> Z.of_nat (length (held_of bs)) < MAX_BLOCKS ->
  wpe out_of_memory (do_alloc bs) k (fun bs' k' => exists s', table_ok bs' s' k' /\ length (held_of bs') = S (length (held_of bs))).
Proof.
  intros HO Hl. pose proof (to_length _ _ _ HO) as Hlen. unfold do_alloc. apply wpe_bind, wpe_wp, krand_spec. apply wpe_bind, wpe_wp, krand_spec.
  match goal with |- wpe _ _ ?x _ => set (k1 := x) end. assert (HO1 : table_ok bs s k1) by (by repeat apply table_next).
  apply wpe_bind. eapply wpe_mono; [apply (alloc_block_spec bs s k1); [done|]|].
  { unfold orders, MAX_BUDDY_ORDER. pose proof (Z.mod_pos_bound (rand_of (lcg (rand_next (k_devs k)))) (10 + 1) ltac:(lia)). lia. }
  intros r k2 (b & s' & -> & Hb & Hset). destruct (free_slot bs) as (idx & Hi & Hn); [unfold MAX_BLOCKS in *; lia|]. rewrite Hlen in Hi.
  apply wpe_bind, wpe_wp. eapply wp_mono; [apply (draw_until_spec _ idx); [unfold MAX_BLOCKS in *; lia | rewrite slot_mod by done; by apply Z.eqb_eq]|].
  intros r k3 (Hr%Z.eqb_eq & Hr1 & y & _ & ->). apply wpe_ret. pose proof (Z.mod_pos_bound r MAX_BLOCKS ltac:(done)) as Hm.
  exists s'. split; [by apply table_next, Hset|]. by rewrite (proj1 (held_of_set bs (r mod MAX_BLOCKS) b ltac:(lia) Hr Hb)).
Qed.

(** A block of the table holds its pattern, and giving it back empties its slot. *)
Section given_back.
Context (bs : list Block) (s : bst) (k : kernel) (idx : Z) (HO : table_ok bs s k) (Hi : 0 <= idx < MAX_BLOCKS) (Hn : b_ptr (block_at bs idx) <> NULL).
Local Abbreviation b := (block_at bs idx).
Local Abbreviation i := (entry b).1.
Local Abbreviation o := (b_order b).

Lemma slot_listed : b ∈ bs.
Proof.
  pose proof (to_length _ _ _ HO). destruct (table_split bs idx ltac:(lia)) as (l1 & l2 & E & _). rewrite E at 2. apply elem_of_app. right. left.
Qed.

Lemma block_intact : gives_value (check_pattern (b_ptr b) o (b_pattern b)) k true.
Proof.
  destruct (table_place bs s k b HO slot_listed Hn) as (E & Q1 & Q2 & Q3). pose proof (pow2_pos o ltac:(lia)).
  apply check_pattern_true; [lia | rewrite E; lia | rewrite E; unfold KERNEL_VIRTUAL_BASE; lia | apply (to_filled _ _ _ HO b slot_listed Hn)].
Qed.

Lemma left_over j q : (j, q) ∈ held_of (forget_block idx bs) <-> (j, q) ∈ held_of bs /\ j <> i.
Proof.
  pose proof (to_length _ _ _ HO). destruct (held_of_forget bs idx ltac:(lia) Hn) as [Hperm _].
  assert (Hnd : NoDup (entry b :: held_of (forget_block idx bs))) by (rewrite <- Hperm; apply (to_nodup _ _ _ HO)). apply NoDup_cons in Hnd as [Hni _].
  assert (Hio : entry b ∈ held_of bs) by (rewrite Hperm; left). change (entry b) with (i, o) in Hio. split.
  - intros Hj. assert (Hj' : (j, q) ∈ held_of bs) by (rewrite Hperm; by right). split; [done|]. intros ->. apply Hni.
    apply (to_owned _ _ _ HO) in Hj' as [_ [_ Hq]], Hio as [_ [_ Hq']]. assert (q = o) as -> by congruence. exact Hj.
  - intros [Hj Hne]. rewrite Hperm, elem_of_cons in Hj. destruct Hj as [E|Hj]; [|done]. exfalso. apply Hne. by rewrite <- E.
Qed.

Lemma given_table m fc uc : used s i o -> pmm_state pm N NG T (set_buddy (MkBuddy (page_map (k_buddy k)) (page_n (k_buddy k)) fc uc) (set_mem m k)) (free i s) ->
  freed N i o s (free i s) -> untouched (bfp pm NG) (k_mem k) m ->
  table_ok (forget_block idx bs) (free i s) (set_buddy (MkBuddy (page_map (k_buddy k)) (page_n (k_buddy k)) fc uc) (set_mem m k)).
Proof.
  intros Hu HS1 HF Hu1. pose proof HO as [P1 P2 P3 Pio P4 P5 P6 P7 P8 P9]. destruct (held_of_forget bs idx ltac:(lia) Hn) as [Hperm Hin].
  split; try done.
  - unfold forget_block, set_block. by rewrite length_insert.
  - rewrite Hperm in P5. by apply NoDup_cons in P5 as [_ ?].
  - intros j q. rewrite left_over, P6, (fr_used _ _ _ _ _ HF). tauto.
  - pose proof (fr_total _ _ _ _ _ HF). pose proof (pages_of_perm _ _ Hperm) as Hs. cbn [pages_of snd entry] in Hs. lia.
  - intros p. rewrite P8, (fr_pages _ _ _ _ _ HF). setoid_rewrite Hperm. setoid_rewrite elem_of_cons. split.
    + intros [Hx|(y & [->|Hy] & Hx)]; [by left; left | by left; right | right; by exists y].
    + intros [[Hx|Hx]|(y & Hy & Hx)]; [by left | right; exists (entry b); auto | right; exists y; auto].
  - intros c Hc Hcp. specialize (Hin c Hc Hcp). destruct (P9 c Hin Hcp) as [Ec Fc]. split; [done|]. intros z Hz. cbn [k_mem set_buddy set_mem].
    rewrite Hu1; [by apply Fc|]. intros Hf. destruct (Hfp z Hf) as [Hr _]. destruct (table_place bs s k c HO Hin Hcp) as (Ec' & C1 & C2 & C3). rewrite Ec' in Hz. unfold range in Hz. lia.
Qed.

Lemma block_freed : wp (buddy_free_pages (V2P (b_ptr b))) k (fun _ k' => exists s', table_ok (forget_block idx bs) s' k' /\
  length (held_of bs) = S (length (held_of (forget_block idx bs)))).
Proof.
  destruct (table_place bs s k b HO slot_listed Hn) as (E & Q1 & Q2 & Q3). pose proof (pow2_pos o ltac:(lia)). pose proof (to_length _ _ _ HO).
  destruct (held_of_forget bs idx ltac:(lia) Hn) as [Hperm _]. assert (Hio : entry b ∈ held_of bs) by (rewrite Hperm; left).
  pose proof (proj1 (to_owned _ _ _ HO i o) Hio) as [Hir Hu].
  assert (V2P (b_ptr b) = 4096 * i) as -> by (rewrite E; unfold V2P, KERNEL_VIRTUAL_BASE; rewrite u32_small by lia; lia).
  eapply wp_mono; [exact (pmm_free_wp pm N NG T HG i o s k (to_state _ _ _ HO) Hir Hu)|]. intros [] k1 (HS1 & HF & m1 & fc & uc & Hu1 & ->).
  exists (free i s). split; [by apply given_table | by rewrite Hperm].
Qed.

Lemma release_block_spec : wp (release idx bs) k (fun r k' => exists s', r = (true, forget_block idx bs) /\ table_ok (forget_block idx bs) s' k' /\
  length (held_of bs) = S (length (held_of (forget_block idx bs)))).
Proof.
  unfold release. apply wp_bind. eapply wp_mono; [exact block_intact|]. intros r k1 [-> ->]. cbn [negb]. apply wp_bind.
  eapply wp_mono; [exact block_freed|]. intros [] k1 (s' & HO' & El). apply wp_ret. by exists s'.
Qed.
End given_back.

Context (HI0 : Inv N (-1) s0) (HC0 : coalesced s0).

(** The static variables of the test agree with the table. *)
Definition test_ok (t : buddy_test) (s : bst) (k : kernel) : Prop :=
  table_ok (blocks t) s k /\ init_state t = area_lens s0 /\ total_allocations t = Z.of_nat (length (held_of (blocks t))).

Lemma table_check bs s k : table_ok bs s k -> gives_value (check bs) k true.
Proof. intros [P1 P2 _ _ _ P5 P6 P7 _ _]. by eapply check_true. Qed.

Lemma table_verify bs s k : table_ok bs s k -> held_of bs = [] -> gives_value (verify_final_state (area_lens s0)) k true.
Proof.
  intros [P1 P2 _ _ _ _ _ _ P8 _] E. eapply verify_true; [exact HG | exact P1 | done |].
  apply (same_lens N s s0); [apply P1 | apply P1 | done | done |]. intros p. rewrite P8, E. split; [by left|]. by intros [?|(x & Hx%elem_of_nil & _)].
Qed.

Lemma do_free_spec bs s k : table_ok bs s k -> held_of bs <> [] ->
  wp (do_free bs) k (fun r k' => exists s' bs', r = (true, bs') /\ table_ok bs' s' k' /\ length (held_of bs) = S (length (held_of bs'))).
Proof.
  intros HO Hne. pose proof (to_length _ _ _ HO) as Hlen. destruct (taken_slot bs Hne) as (idx & Hi & Hn). rewrite Hlen in Hi.
  unfold do_free. apply wp_bind. eapply wp_mono.
  { apply (draw_until_spec _ idx); [unfold MAX_BLOCKS in *; lia|]. rewrite slot_mod by done. by apply negb_true_iff, Z.eqb_neq. }
  intros r k1 (Hr%negb_true_iff%Z.eqb_neq & _ & y & _ & ->). pose proof (Z.mod_pos_bound r MAX_BLOCKS ltac:(done)) as Hm.
  eapply wp_mono; [by apply (release_block_spec bs s); [apply table_next | |]|]. intros x k2 (s' & -> & HO' & E). eauto 10.
Qed.

Lemma free_count bs s k : table_ok bs s k -> free_pages_count (k_buddy k) = 0 -> held_of bs <> [].
Proof.
  intros HO E Hh. destruct (ps_counted _ _ _ _ _ _ (to_state _ _ _ HO)) as [C1 _]. pose proof (to_sum _ _ _ HO) as Hs. rewrite Hh in Hs. cbn in Hs.
  rewrite u32_small in C1 by lia. lia.
Qed.

Lemma do_random_op_spec t s k : test_ok t s k -> wpe out_of_memory (do_random_op t) k (fun t' k' => exists s', test_ok t' s' k').
Proof.
  intros (HO & Hini & Htot). pose proof (to_length _ _ _ HO) as Hlen. pose proof (held_of_length (blocks t)) as Hle.
  unfold do_random_op. apply wpe_bind, wpe_wp, krand_spec. apply wpe_bind, wpe_wp, wp_gets. set (k1 := with_next _ _).
  assert (HO1 : table_ok (blocks t) s k1) by (by apply table_next). cbv zeta. set (want := negb _).
  assert (Hnil : held_of (blocks t) = [] <-> total_allocations t = 0) by (rewrite Htot; destruct (held_of (blocks t)); cbn; [done | split; [done | lia]]).
  destruct (if free_pages_count (k_buddy k1) =? 0 then false else if total_allocations t =? 0 then true else if MAX_BLOCKS <=? total_allocations t then false else want) eqn:Ew.
  - assert (Hlt : Z.of_nat (length (held_of (blocks t))) < MAX_BLOCKS).
    { rewrite <- Htot. destruct (free_pages_count (k_buddy k1) =? 0); [done|]. destruct (Z.eqb_spec (total_allocations t) 0) as [->|]; [done|].
      by destruct (Z.leb_spec MAX_BLOCKS (total_allocations t)). }
    apply wpe_bind. eapply wpe_mono; [by apply (do_alloc_spec (blocks t) s k1)|]. intros bs k2 (s' & HO2 & El). apply wpe_ret. exists s'.
    split_and!; [done | done|]. cbn [total_allocations set_total set_blocks blocks]. rewrite Htot, El. unfold MAX_BLOCKS in *. rewrite u32_small; lia.
  - assert (Hne : held_of (blocks t) <> []).
    { destruct (Z.eqb_spec (free_pages_count (k_buddy k1)) 0) as [E|]; [by eapply free_count|]. intros Hz%Hnil. by rewrite Hz in Ew. }
    apply wpe_bind, wpe_wp. eapply wp_mono; [by apply (do_free_spec (blocks t) s k1)|]. intros r k2 (s' & bs' & -> & HO2 & El).
    cbn [fst snd negb when]. apply wpe_bind, wpe_ret, wpe_ret. exists s'. split_and!; [done | done|].
    cbn [total_allocations set_total set_blocks blocks]. rewrite Htot, El. unfold MAX_BLOCKS in *. rewrite u32_small; lia.
Qed.

Lemma test_loop_spec n : forall i t s k, test_ok t s k ->
  wpe out_of_memory (test_loop n i t) k (fun r k' => exists t' s', r = (true, t') /\ test_ok t' s' k').
Proof.
  induction n as [|n IH]; intros i t s k HO; cbn [test_loop]; [apply wpe_ret; eauto|].
  apply wpe_bind. eapply wpe_mono; [by eapply do_random_op_spec|]. intros t1 k1 (s1 & HO1). pose proof HO1 as (HT1 & Hini & Htot).
  apply wpe_bind. eapply (wpe_mono _ _ _ (fun r k' => r = true /\ k' = k1)).
  { apply wpe_wp. destruct (Z.eqb_spec (total_allocations t1) 0) as [E|]; [|by apply wp_ret]. rewrite Hini. eapply table_verify; [exact HT1|].
    rewrite Htot in E. by destruct (held_of (blocks t1)). }
  intros r k' [-> ->]. cbn [negb]. apply wpe_bind. eapply wpe_mono; [apply wpe_wp; by eapply table_check|]. intros r k' [-> ->]. cbn [negb]. by eapply IH.
Qed.

(** Everything is given back. *)
Lemma block_at_forget bs i j : 0 <= i -> 0 <= j -> b_ptr (block_at (forget_block i bs) j) = if decide (i = j) then NULL else b_ptr (block_at bs j).
Proof.
  intros Hi Hj. unfold forget_block, set_block, block_at. case_decide as E.
  - subst j. destruct (decide (Z.to_nat i < length bs)%nat); [by rewrite list_lookup_insert_eq | rewrite lookup_ge_None_2; [done | rewrite length_insert; lia]].
  - rewrite list_lookup_insert_ne by lia. done.
Qed.

Lemma free_blocks_spec n : forall i bs s k, table_ok bs s k -> 0 <= i -> i + Z.of_nat n = MAX_BLOCKS ->
  (forall j, 0 <= j < i -> b_ptr (block_at bs j) = NULL) ->
  wp (free_blocks n i bs) k (fun bs' k' => exists s', table_ok bs' s' k' /\ held_of bs' = []).
Proof.
  induction n as [|n IH]; intros i bs s k HO Hi Hn Hz; cbn [free_blocks].
  - apply wp_ret. exists s. split; [done|]. destruct (held_of bs) eqn:E; [done|]. exfalso. pose proof (to_length _ _ _ HO).
    destruct (taken_slot bs) as (idx & Hx & Hp); [by rewrite E|]. apply Hp, Hz. lia.
  - assert (Hstep : forall c, 0 <= c < i + 1 -> c <> i -> b_ptr (block_at bs c) = NULL) by (intros c Hc Hne; apply Hz; lia).
    destruct (Z.eqb_spec (b_ptr (block_at bs i)) NULL) as [E|Hne].
    + eapply IH; [exact HO | lia | lia |]. intros j Hj. destruct (decide (j = i)) as [->|]; [done | by apply Hstep].
    + apply wp_bind. eapply wp_mono; [by apply (block_intact bs s k i HO ltac:(lia))|]. intros r k1 [-> ->]. cbn [negb].
      apply wp_bind. eapply wp_mono; [by apply (block_freed bs s k i HO ltac:(lia))|]. intros [] k1 (s' & HO' & _).
      eapply IH; [exact HO' | lia | lia |]. intros j Hj. rewrite block_at_forget by lia. case_decide; [done|]. apply Hstep; [done | congruence].
Qed.

End test.

(** ** The property *)

Lemma start_text : render (chars ("Starting buddy test..." ++ newline)) [] = Some (chars ("Starting buddy test..." ++ newline)).
Proof. reflexivity. Qed.
Lemma passed_text : render (chars ("Buddy test passed successfully!" ++ newline)) [] = Some (chars ("Buddy test passed successfully!" ++ newline)).
Proof. reflexivity. Qed.

(** The table the test starts with. *)
Lemma empty_table `{BuddySymbols} pm N NG T s0 (bs : list Block) k :
  Z.of_nat (length bs) = MAX_BLOCKS -> pmm_state pm N NG T k s0 -> page_n (k_buddy k) = N -> cursor_ok (k_vga k) ->
  free_total s0 = T -> (forall i, flg s0 i <> P_USED) ->
  let bs0 := (fun b => MkBlock 0 (b_order b) (b_pattern b)) <$> bs in table_ok pm N NG T s0 (k_io k) bs0 s0 k /\ held_of bs0 = [].
Proof.
  intros Hl HS HN Hc HT Hu bs0. assert (E : held_of bs0 = []).
  { unfold bs0. clear. induction bs as [|b bs IH]; [done|]. rewrite fmap_cons, held_of_cons, decide_False; [done | cbn; tauto]. }
  split; [|done]. split; rewrite ?E; try done.
  - unfold bs0. by rewrite length_fmap.
  - constructor.
  - intros i o. split; [by intros ?%elem_of_nil | intros (_ & Hf & _); by apply Hu in Hf].
  - cbn. lia.
  - intros p. split; [by left | by intros [?|(x & Hx%elem_of_nil & _)]].
  - intros b (c & -> & _)%list_elem_of_fmap. done.
Qed.

(** C11: after [pmm_init], with its pages above the text buffer, the self-test of the
    page allocator passes, unless a request finds no memory and panics: a thousand random
    requests are served, every loop that looks for a slot of the table ends, no block
    loses the pattern written to it, after every step the page map, the free lists, the
    table and the counters agree, whenever nothing is held the free lists have the
    lengths they began with, and in the end all pages are free again.  Its whole output
    is the two lines of a successful run. *)
Theorem test_buddy_passes `{BuddySymbols} pm N NG T lo s0 t k :
  geometry pm N NG -> 0xB9 <= lo -> N <= 2 ^ 18 -> 0 < T < 2 ^ 32 ->
  (forall b, bfp pm NG b -> (b < KERNEL_VIRTUAL_BASE + 4096 * lo \/ KERNEL_VIRTUAL_BASE + 4096 * N <= b) /\ ~ vga_fp b) ->
  pmm_state pm N NG T k s0 -> page_n (k_buddy k) = N -> free_total s0 = T ->
  (forall p, free_page s0 p -> lo <= p) -> (forall i, flg s0 i <> P_USED) ->
  cursor_ok (k_vga k) -> Z.of_nat (length (blocks t)) = MAX_BLOCKS -> total_allocations t = 0 ->
  wpe out_of_memory (test_buddy t) k (fun t' k' =>
    serial_text (k_io k') = serial_text (k_io k) ++ chars ("Starting buddy test..." ++ newline) ++ chars ("Buddy test passed successfully!" ++ newline) /\
    held_of (blocks t') = [] /\
    exists s, pmm_state pm N NG T k' s /\ forall p, free_page s p <-> free_page s0 p).
Proof.
  intros HG Hlo HN18 HT Hfp HS HN Htot Hs0 Hu Hc Hl H0. unfold test_buddy.
  apply wpe_bind. eapply wpe_mono; [apply wpe_wp, (kprintf_prints _ [] _ start_text), Hc|].
  intros r1 k1' (_ & m1 & io1 & v1 & -> & Um & Ht1 & Hc1). apply wpe_bind, wpe_wp. unfold ksrand, set_next. apply wp_modify.
  set (k1 := set_vga v1 (set_io io1 (set_mem m1 k))). match goal with |- wpe _ _ ?x _ => change x with (with_next (u32 SEED) k1) end.
  assert (HS1 : pmm_state pm N NG T (with_next (u32 SEED) k1) s0).
  { eapply pmm_stable; [exact HG | exact HS | done |]. intros b Hb. apply Um. by apply Hfp. }
  destruct (empty_table pm N NG T s0 (blocks t) (with_next (u32 SEED) k1) Hl HS1 HN Hc1 Htot Hu) as [HO Eh]. cbv zeta.
  apply wpe_bind. eapply wpe_mono; [apply wpe_wp, (area_lengths_value pm N NG T HG _ s0 HS1 HN 11 0); lia|]. intros init k' [-> ->].
  apply wpe_bind. eapply wpe_mono.
  { eapply (test_loop_spec pm N NG T lo HG s0 (k_io k1)); try done; [apply HS | apply HS|]. split; [exact HO|]. split; [done|]. cbn [total_allocations blocks]. by rewrite H0, Eh. }
  intros r2 k2 (t2 & s2 & -> & HO2 & Hini & _). cbn [fst snd negb].
  apply wpe_bind. eapply wpe_mono; [apply wpe_wp; eapply (free_blocks_spec pm N NG T lo HG s0 (k_io k1)); try done; lia|].
  intros bs k3 (s3 & HO3 & E3). rewrite Hini. apply wpe_bind. eapply wpe_mono; [apply wpe_wp; eapply (table_verify pm N NG T HG s0 (k_io k1)); try done; apply HS|].
  intros r3 k' [-> ->]. cbn [when]. apply wpe_bind, wpe_bind. eapply wpe_mono; [apply wpe_wp, (kprintf_prints _ [] _ passed_text), HO3|].
  intros r4 k4 (_ & m4 & io4 & v4 & -> & Um4 & Ht4 & Hc4). apply wpe_ret, wpe_ret. split_and!.
  - cbn [k_io set_vga set_io]. rewrite Ht4, (to_io _ _ _ _ _ _ _ _ _ HO3). cbn [k_io set_vga set_io k1]. by rewrite Ht1, <- app_assoc.
  - exact E3.
  - exists s3. split.
    + eapply pmm_stable; [exact HG | apply HO3 | done |]. intros b Hb. apply Um4. by apply Hfp.
    + intros p. rewrite (to_free _ _ _ _ _ _ _ _ _ HO3), E3. split; [by left | by intros [?|(x & Hx%elem_of_nil & _)]].
Qed.

(** ** On a concrete machine *)

#[local] Existing Instance sample_symbols.

Definition test_fresh : buddy_test := MkTest (replicate 500 (MkBlock 0 0 0)) (replicate 11 0) 0.

#[local] Opaque test_machine.

Lemma test_buddy_passes_witness :
  wpe out_of_memory (test_buddy test_fresh) test_machine (fun t' k' =>
    serial_text (k_io k') = serial_text (k_io test_machine) ++ chars ("Starting buddy test..." ++ newline) ++ chars ("Buddy test passed successfully!" ++ newline)).
Proof.
  destruct test_machine_ready as (s & [R1 R2 R3 R4 R5 R6 R7 R8]).
  eapply wpe_mono; [apply (test_buddy_passes 0xC0130000 1024 1024 717 307 s test_fresh test_machine)|].
  - exact (boot_geometry _ _ _ _ _ test_boot_state).
  - lia.
  - lia.
  - lia.
  - unfold bfp, vga_fp, range, sizeof_Page, VGA_MEMORY, columns, rows, KERNEL_VIRTUAL_BASE. cbn [free_area sample_symbols]. lia.
  - split; [exact R1 | exact R2 | exact R3 | exact R7].
  - exact R8.
  - exact R6.
  - intros p Hp. apply R5 in Hp. lia.
  - exact R4.
  - exact test_machine_vga.
  - reflexivity.
  - reflexivity.
  - intros t' k' (E & _). exact E.
Defined.
